(* ===== verification/_CoqProject ===== *)
-Q . S2P
Prelude.v
IR.v
ALUOps.v
Atomic.v
Interp.v
IRSpec.v
InterpRefines.v
Machine.v
InterpBits.v
InterpTheorems.v
Emitter.v
EmitterLogic.v
Flags.v
FlagsSpec.v
FlagsBlocks.v
FlagsCorrect.v
FlagsLazy.v
FlagsExamples.v
FlagsTheorems.v
PackedFlags.v
Dispatch.v
DispatchALU.v
DispatchMove.v
DispatchStack.v
DispatchArith.v
X86Spec.v
DispatchLogic.v
OperandLogic.v
ALUTheorems.v
CarryTheorems.v
ConditionTheorems.v
MoveTheorems.v
StackTheorems.v
DispatchExamples.v
X86Tables.v
X86TablesExt.v
Frontend.v
FrontendLogic.v
FrontendTotal.v
Pages.v
FrontendBlocks.v
FrontendBlocksLogic.v
VMATracking.v
VMALists.v
VMAClear.v
VMAChange.v
VMATheorems.v
SMCTracking.v
SMCLogic.v
SMCTheorems.v
LookupCache.v
LookupCacheLogic.v
FrontendTheorems.v
LookupCacheTheorems.v
SMCInvalidation.v
IRList.v
IRListLogic.v
DeadCode.v
ConstProp.v
ConstPropLogic.v
ConstPropCases.v
ConstPropSteps.v
ConstPropTheorems.v
ConstPropInlining.v
ConstPropExamples.v
Alloc32.v
Alloc32Logic.v
Alloc32Theorems.v
Alloc32Calls.v
Alloc64.v
Alloc64Logic.v
Alloc64Theorems.v
Alloc64Calls.v
AddressSpace.v
AddressSpaceTheorems.v
Encryption.v
EncryptionLogic.v
EncryptionTheorems.v
ChecksumTheorems.v
