(* ===== verification/Prelude.v ===== *)
(** * FEX: a verification development

    FEX runs x86 programs on another host. The front end decodes guest code, the
    opcode dispatcher translates it to an intermediate representation (IR), passes
    optimise the IR, and a backend (a JIT or the interpreter) executes it; the
    system-call layer tracks guest memory so that translated code can be thrown
    away when the guest changes it. This library models the parts of that chain
    whose behaviour is decided by the program's own logic, and proves what makes
    them correct.

    ** Files

    - [Prelude]: outcomes of C++ code (a return, a failed assertion, undefined
      behaviour), a state monad over them, machine integers at their width,
      128-bit SSA cells, byte memories, and the bitwise proof tactics.
    - [IR]: [IROp_Header] and the operations of [Interface/IR/IR.json].
    - [ALUOps], [Atomic], [Interp]: the interpreter backend,
      [Interface/Core/Interpreter/] ([ALUOps.cpp], [FlagOps.cpp], [MoveOps.cpp],
      [AtomicOps.cpp], [MemoryOps.cpp], [BranchOps.cpp], [InterpreterOps.cpp]): one
      definition per [DEF_OP] handler, the handler table and the loops of
      [InterpretIR]. [Atomic] ends with the interleavings of atomic handlers.
    - [IRSpec]: the reference value of each IR operation as an integer, and
      [IRBackend], the interface that code generators may assume of a backend.
      [InterpRefines] proves that the interpreter satisfies it; [InterpBits] and
      [InterpTheorems] hold the properties of the interpreter. [Machine] extends the
      interface to the nodes that access the guest's registers and memory.
    - [Emitter]: [IREmitter.h] and the generated allocation helpers.
      [EmitterLogic]: a weakest-precondition calculus for emitted code, valid for
      every [IRBackend].
    - [Flags]: [OpcodeDispatcher/Flags.cpp] and the deferred flags of
      [OpcodeDispatcher.h]. [FlagsSpec] says what the architecture defines;
      [FlagsBlocks], [FlagsCorrect], [FlagsLazy], [FlagsTheorems] and [PackedFlags]
      prove that the emitted code computes it, and where it does not.
      [FlagsExamples] builds the concrete inputs of the examples.
    - [Dispatch]: the decoded instruction of [Debug/X86Tables.h] and the operand
      helpers of [OpcodeDispatcher.cpp]; [DispatchALU], [DispatchMove],
      [DispatchStack], [DispatchArith]: its handlers, one definition each.
      [X86Spec] says what the architecture defines for operands. [DispatchLogic]
      is the calculus for emitted code that accesses the guest, with a rule per
      node, [OperandLogic] the rules of the operand helpers; [ALUTheorems],
      [CarryTheorems], [ConditionTheorems], [MoveTheorems] and [StackTheorems]: the
      properties of instructions; [DispatchExamples]: instructions on the
      interpreter.
    - [X86Tables], [X86TablesExt]: [Debug/X86Tables.h] and [Core/X86Tables/], the
      tables of the decoder, entry by entry, and the copying that fills its arrays.
      [Frontend]: [Core/Frontend.cpp], the decoding of one instruction;
      [FrontendBlocks]: the blocks of a function. [FrontendLogic]: what a decoding
      reads; [FrontendTotal]: a rule per program of the decoder for the bytes it
      takes; [FrontendBlocksLogic]: the invariant of the blocks;
      [FrontendTheorems]: the properties.
    - [VMATracking]: [LinuxSyscalls/SyscallsVMATracking.cpp], the map of guest
      mappings with the intrusive lists of shared resources. [VMALists],
      [VMAClear] and [VMAChange] are the proof library (list segments,
      the well-formedness invariant, the effect of each loop), [VMATheorems] the
      properties.
    - [SMCTracking]: [LinuxSyscalls/SyscallsSMCTracking.cpp], the memory system
      calls, the write-fault handler and the protection of translated pages.
      [SMCLogic] and [SMCTheorems]: lemmas and properties.
    - [LookupCache]: [Core/LookupCache.h] and [.cpp], the tables from guest
      addresses to translated code, the invalidation of guest code in
      [Core/Core.cpp] and the linking of block exits in [JIT/x86_64/JIT.cpp].
      [LookupCacheLogic]: the invariant of the tables and of the links;
      [LookupCacheTheorems]: the properties. [SMCInvalidation] composes the
      write-fault handler with the caches of all threads.
    - [IRList]: [Interface/IR/IREmitter.cpp] and the editing half of
      [IREmitter.h], the code of a block as an ordered list of nodes that the
      passes rewrite, and what such a block means, as a valuation of its nodes over
      a [World] of effects; [IRListLogic]: each editing operation keeps it.
    - [DeadCode]: [IR/Passes/DeadCodeElimination.cpp].
    - [ConstProp]: [IR/Passes/ConstProp.cpp]. [ConstPropLogic], [ConstPropCases]
      and [ConstPropSteps]: lemmas on its loops and rewritings;
      [ConstPropTheorems] and [ConstPropInlining]: the properties.
      [ConstPropExamples] makes the interpreter a [World], composes propagation
      with it and runs the passes on small blocks.
    - [Pages]: pages, alignment, the constants of the kernel interface.
    - [Alloc32]: [LinuxSyscalls/LinuxAllocator.cpp], the allocator of the address
      space of a 32-bit guest, over a host that is a parameter ([HostMemory], with
      the laws [HostLaws]). [Alloc32Logic]: its scans and rounds;
      [Alloc32Theorems] and [Alloc32Calls]: the properties, with a host and the
      concrete inputs.
    - [Alloc64]: [Utils/Allocator/FlexBitSet.h] and
      [64BitAllocator.cpp], the allocator of the address space of a 64-bit guest.
      [Alloc64Logic]: its scans and its invariant; [Alloc64Theorems],
      [Alloc64Calls]: the properties, with hosts and inputs.
    - [AddressSpace]: [Utils/Allocator.cpp] and the constructor of that allocator,
      which find the size of the address space and reserve its holes from the text
      of [/proc/self/maps]. [AddressSpaceTheorems]: the properties.
    - [Encryption]: [Interpreter/EncryptionOps.cpp], and beside it FIPS 197, a
      serial CRC and the carry-less product; [EncryptionLogic],
      [EncryptionTheorems], [ChecksumTheorems]: the handlers compute them, with
      known answers.

    ** How they interact

    The decoder turns bytes into the instructions that the dispatcher's handlers
    take. It reports each page of code before it reads it, and the pages are
    registered in the lookup cache, whose invalidation throws the translation away.
    The flag generators call the emitter; their theorems are proved against
    [IRBackend] and therefore hold for the interpreter, which is an instance. The
    handlers of instructions call the operand helpers, the emitter and the flag
    generators; a flag generator may leave a record that the next handler finds, so
    each property of a handler starts from any waiting record and says what waits
    or is stored after it. They are proved against [IRMachine], of which the
    interpreter is an instance: the translation of an instruction and the machine
    that runs it meet only there. The
    system-call layer calls the tracking of mappings and logs, in order, the
    invalidations of guest code and the protection changes it asks for; the
    context runs those invalidations on the lookup cache of every thread, and
    erasing a block there undoes the block exits that were linked to it.
    The passes rewrite the list of a block through the emitter; their theorems
    are about valuations, and an instance carries them over to the interpreter:
    running a block and running what propagation made of it leave the same guest.
    The allocators decide addresses and ask the host for them; the host is a
    parameter and their theorems hold for every host that obeys the documented laws
    of the system calls ([HostLaws], [FixedLaws], [HostAdvice]). The invariant that
    the 64-bit allocator keeps is established by its constructor, from the
    reservations it makes.
    Threads meet in guest memory: an atomic handler is one step, and the theorems
    on atomics are about every order of such steps.

    ** What the theorems show

    - Decoder: with the tables of a 64-bit guest every sequence of bytes with at
      most four prefixes is decoded without a failed check and within fifteen bytes;
      the blocks of a function are its code, sorted and closed under direct branches;
      what they depend on lies in the pages registered for the function.
    - Flags: after [CalculateDeferredFlags] the flag image is the x86 one for
      every kind of record but the immediate rotations, [BLSR] and [BLSMSK]
      (whose carries are shown to differ); deferring is sound; packed flags round
      trip.
    - Interpreter: it refines the reference semantics on straight-line code;
      deposit, extract, byte reversal, double-width division and guest memory
      behave as documented; programs that branch forward terminate; the state
      stays well typed and no run touches memory that is not mapped. Atomic updates
      commute and none is lost, fetches return the values the cell passed through,
      one compare-and-swap wins.
    - Instructions: the code for [ADD], [OR], [AND], [SUB], [XOR], [ADC], [SBB],
      [INC], [DEC], [CMP], [TEST], [SETcc], [CMOVcc], the moves, [XCHG], [PUSH],
      [POP], [CALL] and [RET], for every operand it may have in 64-bit mode, leaves
      the registers, memory and flags of the architecture.
    - Mappings: clearing, setting and changing a range keep the invariant and
      change exactly the range; where a protection change splits a mapping the
      computed length is wrong, which is proved.
    - Self-modifying code: a write fault flushes every mirror of the page, and
      marking a range makes every writable alias read-only.
    - Lookup cache: the three levels refine one finite map; invalidation forgets
      every block of the pages it meets, in every thread, and no linked exit
      survives it; two corners where a lookup answers for another address.
    - Passes: constant pooling, propagation, inlining and dead code elimination
      end normally, leave well-formed code and keep the values and effects of the
      block; after dead code elimination every node that is left is used or has
      an effect.
    - 32-bit allocator: what it grants was free, lies in the lower four gigabytes
      and becomes used, and nothing else changes; it succeeds when there is a run
      with a free page below it, and hangs, for every fuel, when each run is an
      exact fit; unmapping and moving keep the bitset in step with the host.
    - 64-bit allocator: what it grants was free, becomes used and is given back by
      unmapping; where fixed requests, hints, refusals and the bit sets of small
      regions go wrong. Taking over the address space reserves exactly the holes
      between the mappings of the process.
    - Encryption: the rounds of AES are those of FIPS 197 and decryption inverts
      encryption; the CRC and the carry-less product are the serial ones.

    ** Bounds and fuel

    The loop of [DecodeInstruction] gets sixteen rounds, each of which reads a byte
    of at most fifteen. The loops over blocks and over their instructions get their
    fuel as arguments; more than 0x10000, the elements of the buffer, is enough.
    The loops over the mask of [PDep] and [PExt] get 64 iterations, which a
    64-bit mask cannot exceed ([InterpBits]). The loops over mappings and
    resource lists get [loop_fuel], more than the entries of the map; the
    theorems show they end normally. [InterpretIR] gets its fuel as an argument:
    a guest loop inside a translated region need not end, and the termination
    theorem gives the number of blocks as enough fuel for forward branches.
    [CacheBlockMapping] calls itself once more after it emptied L2, which leaves
    room for a page: its fuel is two.
    An iteration over a block gets four steps per node of the block and one
    more: a rewriting may put new nodes in front of the iterator, at most three
    per node. Dead code elimination visits each node once. A scan over the pages
    of the 32-bit address space gets 0x100001 steps, one per page and one more;
    the rounds of an allocation get their number as an argument, the theorem of
    success says how many are enough, and the theorems on hanging hold for every
    number.
    The proofs take address ranges that do not wrap around 2^64.

    ** Not modelled

    JIT backends (host code through vendored assemblers); vector and x87
    operations, in the dispatcher and in the interpreter; conversions that depend on
    the rounding mode of the host; system calls other than the memory ones; thunk
    libraries and tools. The passes and the dispatcher are modelled on the code of
    one block, without the links between blocks: conditional jumps, string
    instructions, shifts by [CL] with a double-width operand and rotates through the
    carry, which emit blocks of their own, are left out. The handlers of
    [DispatchArith], and those of the other files that no theorem names, are
    definitions without a property of the architecture; so are
    [CodeMotionAroundSelects], [FCMPOptimization] and
    [LoadMemStoreMemImmediatePooling]. The properties of instructions and the
    totality of the decoder are about 64-bit guests. The memory of the bit sets of the 64-bit allocator is kept apart
    from guest memory; the kernel release string and the installation of the hooks
    are not modelled. The other passes, the register allocator, the compilation of
    blocks and the table from entries of the decoder to handlers are not modelled. *)
From Stdlib Require Import ZArith Lia Bool Btauto.
From stdpp Require Import base gmap list numbers option.
#[local] Open Scope Z_scope.

(** ** Outcomes of C++ code *)

(** [Ok] is a normal return; [Assert] is a failed [LOGMAN_*_A_FMT] check or
    [ERROR_AND_DIE_FMT]; [Undef] is undefined behaviour of the C++ abstract
    machine (division by zero, oversized shift, null dereference, out of
    bounds access). *)
Inductive outcome (A : Type) : Type :=
  | Ok (a : A)
  | Assert
  | Undef.
Arguments Ok {A} a.
Arguments Assert {A}.
Arguments Undef {A}.

#[export] Instance outcome_ret : MRet outcome := fun A a => Ok a.
#[export] Instance outcome_bind : MBind outcome := fun A B f m =>
  match m with Ok a => f a | Assert => Assert | Undef => Undef end.
#[export] Instance outcome_fmap : FMap outcome := fun A B f m =>
  match m with Ok a => Ok (f a) | Assert => Assert | Undef => Undef end.

(** A [LOGMAN_THROW_A_FMT]-style check. *)
Definition throw_unless (b : bool) : outcome unit := if b then Ok tt else Assert.

(** A dereference: a missing object is undefined behaviour. *)
Definition deref {A} (o : option A) : outcome A :=
  match o with Some a => Ok a | None => Undef end.

Lemma bind_Ok {A B} (m : outcome A) (f : A -> outcome B) b :
  (m ≫= f) = Ok b <-> exists a, m = Ok a /\ f a = Ok b.
Proof.
  destruct m as [a| |]; cbn; split; try (intros (?&?&?); congruence);
    try discriminate; eauto.
Qed.

Lemma throw_unless_Ok b u : throw_unless b = Ok u <-> b = true.
Proof. destruct b, u; cbn; split; congruence. Qed.

Lemma deref_Ok {A} (o : option A) a : deref o = Ok a <-> o = Some a.
Proof. destruct o; cbn; split; congruence. Qed.

(** Computations on a mutable object: the state is passed along, a failed check
    or undefined behaviour ends the computation. *)
Definition M (S A : Type) : Type := S -> outcome (A * S).
#[export] Instance M_ret S : MRet (M S) := fun A a s => Ok (a, s).
#[export] Instance M_bind S : MBind (M S) := fun A B f m s =>
  match m s with Ok (a, s) => f a s | Assert => Assert | Undef => Undef end.

Definition get_state {S} : M S S := fun s => Ok (s, s).
Definition modify {S} (f : S -> S) : M S unit := fun s => Ok (tt, f s).
Definition lift {S A} (m : outcome A) : M S A := fun s =>
  match m with Ok a => Ok (a, s) | Assert => Assert | Undef => Undef end.
(** A [LOGMAN_THROW_A_FMT] in such a computation. *)
Definition check {S} (b : bool) : M S unit := lift (throw_unless b).

Lemma M_bind_Ok {S A B} (m : M S A) (f : A -> M S B) s a s' :
  m s = Ok (a, s') -> (m ≫= f) s = f a s'.
Proof. unfold mbind, M_bind. intros ->. reflexivity. Qed.

Lemma M_bind_assoc {S A B C} (m : M S A) (f : A -> M S B) (g : B -> M S C) s :
  ((m ≫= f) ≫= g) s = (m ≫= (fun a => f a ≫= g)) s.
Proof. unfold mbind, M_bind. destruct (m s) as [[a s']| |]; reflexivity. Qed.

(** ** Machine integers *)

(** [uint w x]: the w-bit unsigned integer with the bits of [x]
    ([static_cast<uintw_t>]); [sint w x]: the two's complement value of the
    same bits ([static_cast<intw_t>]). *)
Definition uint (w x : Z) : Z := x mod 2 ^ w.
Definition sint (w x : Z) : Z :=
  let y := uint w x in if y <? 2 ^ (w - 1) then y else y - 2 ^ w.

(** The SSA slots of the interpreter are 128-bit cells: [get w c] reads the low
    [w] bits ([*GetSrc<uintw_t*>]), [put w v c] writes them and leaves the other
    bits of the cell alone ([*GetDest<uintw_t*> = v]). *)
Definition get (w cell : Z) : Z := uint w cell.
Definition put (w v cell : Z) : Z := uint w v + 2 ^ w * (cell / 2 ^ w).

(** Shifts of a [w]-bit unsigned integer: the amount must be below the width. *)
Definition shl (w x k : Z) : outcome Z :=
  if (0 <=? k) && (k <? w) then Ok (uint w (Z.shiftl x k)) else Undef.
Definition shr (w x k : Z) : outcome Z :=
  if (0 <=? k) && (k <? w) then Ok (Z.shiftr (uint w x) k) else Undef.
(** The arithmetic right shift of a [w]-bit signed integer. *)
Definition sar (w x k : Z) : outcome Z :=
  if (0 <=? k) && (k <? w) then Ok (Z.shiftr (sint w x) k) else Undef.

(** Division of [w]-bit signed and unsigned integers: truncation toward zero,
    with division by zero and the overflowing [MIN / -1] undefined. *)
Definition sdiv (w a b : Z) : outcome Z :=
  if (b =? 0) || ((a =? - 2 ^ (w - 1)) && (b =? -1)) then Undef else Ok (Z.quot a b).
Definition srem (w a b : Z) : outcome Z :=
  if (b =? 0) || ((a =? - 2 ^ (w - 1)) && (b =? -1)) then Undef else Ok (Z.rem a b).
Definition udiv (a b : Z) : outcome Z := if b =? 0 then Undef else Ok (a / b).
Definition urem (a b : Z) : outcome Z := if b =? 0 then Undef else Ok (a mod b).

(** [std::popcount], [std::countr_zero] and [std::countl_zero] at width [w]. *)
Fixpoint count_bits (n : nat) (x : Z) : Z :=
  match n with
  | O => 0
  | S n => count_bits n x + Z.b2z (Z.testbit x (Z.of_nat n))
  end.
Definition popcount (w x : Z) : Z := count_bits (Z.to_nat w) x.

Fixpoint first_set (n : nat) (i x : Z) : Z :=
  match n with
  | O => i
  | S n => if Z.testbit x i then i else first_set n (i + 1) x
  end.
Definition countr_zero (w x : Z) : Z := first_set (Z.to_nat w) 0 x.
Definition countl_zero (w x : Z) : Z :=
  if uint w x =? 0 then w else w - 1 - Z.log2 (uint w x).

(** ** Lemmas on widths *)

Lemma pow2_pos w : 0 <= w -> 0 < 2 ^ w.
Proof. intros; apply Z.pow_pos_nonneg; lia. Qed.

Lemma uint_range w x : 0 <= w -> 0 <= uint w x < 2 ^ w.
Proof. intros; apply Z.mod_pos_bound, pow2_pos; lia. Qed.

Lemma uint_small w x : 0 <= x < 2 ^ w -> uint w x = x.
Proof. intros; apply Z.mod_small; lia. Qed.

Lemma uint_uint w v x : 0 <= w <= v -> uint w (uint v x) = uint w x.
Proof.
  intros. apply Z.mod_mod_divide. exists (2 ^ (v - w)).
  rewrite <- Z.pow_add_r by lia. f_equal; lia.
Qed.

Lemma uint_idemp w x : uint w (uint w x) = uint w x.
Proof. apply Z.mod_mod_divide, Z.divide_refl. Qed.

Lemma uint_widen w v x : 0 <= w <= v -> uint v (uint w x) = uint w x.
Proof.
  intros. apply uint_small. pose proof (uint_range w x).
  pose proof (Z.pow_le_mono_r 2 w v). lia.
Qed.

Lemma uint_add w a b : uint w (uint w a + uint w b) = uint w (a + b).
Proof. unfold uint. rewrite <- Zplus_mod. reflexivity. Qed.
Lemma uint_sub w a b : uint w (uint w a - uint w b) = uint w (a - b).
Proof. unfold uint. rewrite <- Zminus_mod. reflexivity. Qed.
Lemma uint_mul w a b : uint w (uint w a * uint w b) = uint w (a * b).
Proof. unfold uint. rewrite <- Zmult_mod. reflexivity. Qed.

Lemma sint_range w x : 0 < w -> - 2 ^ (w - 1) <= sint w x < 2 ^ (w - 1).
Proof.
  intros. unfold sint. pose proof (uint_range w x).
  assert (2 ^ w = 2 * 2 ^ (w - 1)) by (rewrite <- Z.pow_succ_r by lia; f_equal; lia).
  destruct (Z.ltb_spec (uint w x) (2 ^ (w - 1))); lia.
Qed.

Lemma uint_sint w x : 0 <= w -> uint w (sint w x) = uint w x.
Proof.
  intros. unfold sint. destruct (uint w x <? _); [apply uint_idemp|].
  unfold uint at 1. rewrite Zminus_mod, Z_mod_same_full, Z.sub_0_r, Z.mod_mod by
    (pose proof (pow2_pos w); lia).
  apply uint_idemp.
Qed.

Lemma sint_small w x : 0 < w -> - 2 ^ (w - 1) <= x < 2 ^ (w - 1) -> sint w x = x.
Proof.
  intros Hw Hx. unfold sint.
  assert (2 ^ w = 2 * 2 ^ (w - 1)) by (rewrite <- Z.pow_succ_r by lia; f_equal; lia).
  destruct (Z_lt_le_dec x 0).
  - assert (uint w x = x + 2 ^ w) as ->.
    { unfold uint. symmetry. apply Z.mod_unique_pos with (q := -1); lia. }
    destruct (Z.ltb_spec (x + 2 ^ w) (2 ^ (w - 1))); lia.
  - rewrite uint_small by lia. destruct (Z.ltb_spec x (2 ^ (w - 1))); lia.
Qed.

(** ** Bit-level reasoning *)

Lemma testbit_uint w x i : 0 <= w -> Z.testbit (uint w x) i = (i <? w) && Z.testbit x i.
Proof.
  intros. unfold uint. destruct (Z.ltb_spec i w); cbn.
  - apply Z.mod_pow2_bits_low; lia.
  - apply Z.mod_pow2_bits_high; lia.
Qed.

Lemma testbit_high w x i : 0 <= x < 2 ^ w -> w <= i -> Z.testbit x i = false.
Proof.
  intros Hx Hi. destruct (Z_lt_le_dec w 0) as [Hw|Hw].
  - rewrite Z.pow_neg_r in Hx by lia. lia.
  - rewrite <- (uint_small w x Hx), testbit_uint by lia.
    destruct (Z.ltb_spec i w); [lia|reflexivity].
Qed.

Lemma testbit_if (b : bool) x y i :
  Z.testbit (if b then x else y) i = if b then Z.testbit x i else Z.testbit y i.
Proof. destruct b; reflexivity. Qed.

Lemma testbit_b2z b i : Z.testbit (Z.b2z b) i = (i =? 0) && b.
Proof. destruct b, i as [|p|p]; try reflexivity; destruct p; reflexivity. Qed.

Lemma testbit_ones n i : 0 <= n -> Z.testbit (Z.ones n) i = (0 <=? i) && (i <? n).
Proof. intros; apply Z.testbit_ones; lia. Qed.

Lemma land_ones_uint w x : 0 <= w -> Z.land x (Z.ones w) = uint w x.
Proof. intros; apply Z.land_ones; lia. Qed.

(** A disjunction of separate fields is a sum. *)
Lemma land_fields n a b : 0 <= n -> 0 <= a < 2 ^ n -> Z.land a (b * 2 ^ n) = 0.
Proof.
  intros Hn Ha. apply Z.bits_inj'. intros i Hi.
  rewrite Z.land_spec, Z.bits_0, Z.mul_pow2_bits by lia.
  destruct (Z_lt_le_dec i n).
  - rewrite (Z.testbit_neg_r _ (i - n)) by lia. apply andb_false_r.
  - rewrite (testbit_high n) by lia. reflexivity.
Qed.

Lemma lor_add a b : Z.land a b = 0 -> Z.lor a b = a + b.
Proof. intros H. rewrite Z.add_nocarry_lxor, Z.lxor_lor by exact H. reflexivity. Qed.

Lemma lor_fields n a b : 0 <= n -> 0 <= a < 2 ^ n -> Z.lor a (b * 2 ^ n) = a + b * 2 ^ n.
Proof. intros. apply lor_add, land_fields; assumption. Qed.

Lemma lor_range n a b : 0 <= a < 2 ^ n -> 0 <= b < 2 ^ n -> 0 <= Z.lor a b < 2 ^ n.
Proof.
  intros Ha Hb. split; [apply Z.lor_nonneg; lia|].
  destruct (Z_lt_le_dec n 0); [rewrite Z.pow_neg_r in Ha by lia; lia|].
  replace (Z.lor a b) with (uint n (Z.lor a b)); [apply uint_range; lia|].
  apply Z.bits_inj'. intros i Hi. rewrite testbit_uint by lia. destruct (Z.ltb_spec i n); [reflexivity|].
  rewrite Z.lor_spec, !(testbit_high n) by lia. reflexivity.
Qed.

Lemma div_pow2_range x n k : 0 <= k -> 0 <= x < 2 ^ n -> 0 <= x / 2 ^ k < 2 ^ n.
Proof.
  intros Hk Hx. pose proof (pow2_pos k Hk).
  split; [apply Z.div_pos; lia|]. apply Z.div_lt_upper_bound; nia.
Qed.

Lemma div_pow2_range_sub x n k : 0 <= k <= n -> 0 <= x < 2 ^ n -> 0 <= x / 2 ^ k < 2 ^ (n - k).
Proof.
  intros Hk Hx. pose proof (pow2_pos k).
  split; [apply Z.div_pos; lia|]. apply Z.div_lt_upper_bound; [lia|].
  rewrite <- Z.pow_add_r by lia. replace (k + (n - k)) with n by lia. lia.
Qed.

Lemma testbit_sint w x i :
  0 < w -> 0 <= i -> Z.testbit (sint w x) i = Z.testbit x (if i <? w then i else w - 1).
Proof.
  intros Hw Hi. unfold sint. pose proof (uint_range w x ltac:(lia)) as Hx.
  assert (Z.testbit x (w - 1) = negb (uint w x <? 2 ^ (w - 1))) as Hb.
  { rewrite <- (andb_true_l (Z.testbit x (w - 1))). replace true with (w - 1 <? w) by lia.
    rewrite <- testbit_uint, Z.testbit_odd, Z.shiftr_div_pow2 by lia.
    assert (2 ^ w = 2 * 2 ^ (w - 1)) by (rewrite <- Z.pow_succ_r by lia; f_equal; lia).
    destruct (Z.ltb_spec (uint w x) (2 ^ (w - 1))).
    - rewrite Z.div_small by lia. reflexivity.
    - replace (uint w x / 2 ^ (w - 1)) with 1; [reflexivity|].
      apply Z.div_unique_pos with (r := uint w x - 2 ^ (w - 1)); lia. }
  destruct (uint w x <? 2 ^ (w - 1)); cbn in Hb.
  - rewrite testbit_uint by lia. destruct (i <? w); [reflexivity|]. rewrite Hb. reflexivity.
  - replace (uint w x - 2 ^ w) with (uint w x + (-1) * 2 ^ w) by lia.
    rewrite <- lor_fields by lia. rewrite Z.lor_spec, testbit_uint, Z.mul_pow2_bits by lia.
    destruct (Z.ltb_spec i w); cbn.
    + rewrite (Z.testbit_neg_r _ (i - w)) by lia. apply orb_false_r.
    + rewrite Hb. apply (Z.bits_m1 (i - w)). lia.
Qed.

Lemma popcount_range w x : 0 <= w -> 0 <= popcount w x <= w.
Proof.
  intros Hw. unfold popcount. rewrite <- (Z2Nat.id w) at 3 by lia.
  induction (Z.to_nat w) as [|n IH]; cbn [count_bits]; [lia|].
  destruct (Z.testbit x (Z.of_nat n)); cbn [Z.b2z]; lia.
Qed.

Create Rewrite HintDb zbits.
#[export] Hint Rewrite testbit_uint using lia : zbits.
#[export] Hint Rewrite Z.land_spec Z.lor_spec Z.lxor_spec Z.ldiff_spec Z.bits_0
  testbit_if testbit_b2z : zbits.
#[export] Hint Rewrite Z.lnot_spec Z.shiftl_spec Z.shiftr_spec using lia : zbits.
#[export] Hint Rewrite testbit_ones testbit_sint using lia : zbits.

(** Splits on the comparisons of indices that a goal or the hypotheses test. *)
Ltac split_cmp :=
  repeat match goal with
  | |- context [?a <? ?b] => destruct (Z.ltb_spec a b)
  | |- context [?a <=? ?b] => destruct (Z.leb_spec a b)
  | |- context [?a =? ?b] => destruct (Z.eqb_spec a b)
  | H : context [?a <? ?b] |- _ => destruct (Z.ltb_spec a b)
  | H : context [?a <=? ?b] |- _ => destruct (Z.leb_spec a b)
  | H : context [?a =? ?b] |- _ => destruct (Z.eqb_spec a b)
  end.

(** Removes bits that are out of range of their value. *)
Ltac kill_high :=
  repeat match goal with
  | |- context [Z.testbit ?x ?i] =>
      first [ rewrite (Z.testbit_neg_r x i) by lia
            | match goal with H : 0 <= x < 2 ^ ?w |- _ =>
                rewrite (testbit_high w x i H) by lia end ]
  end.

(** Identifies the indices of a bit that are equal. *)
Ltac same_index :=
  repeat match goal with
  | |- context [Z.testbit ?x ?i] =>
      match goal with
      | |- context [Z.testbit x ?j] => tryif constr_eq i j then fail else replace j with i by lia
      end
  end.

(** Proves an equation of integers bit by bit. *)
Ltac zbits :=
  apply Z.bits_inj'; intros ?i ?Hi; autorewrite with zbits;
  split_cmp; try lia; autorewrite with zbits; split_cmp; try lia; cbn [andb orb negb xorb]; kill_high;
  rewrite ?andb_true_r, ?andb_false_r, ?orb_false_r, ?orb_true_r, ?xorb_false_r;
  try (reflexivity || lia || (same_index; btauto) || (f_equal; lia)).

(** ** Cells *)

Lemma get_put_same w v c : 0 <= w -> get w (put w v c) = uint w v.
Proof.
  intros. unfold get, put, uint.
  rewrite Z.mul_comm, Z_mod_plus_full. apply uint_idemp.
Qed.

Lemma put_range w v c n : 0 <= w <= n -> 0 <= c < 2 ^ n -> 0 <= put w v c < 2 ^ n.
Proof.
  intros Hw Hc. unfold put. pose proof (uint_range w v). pose proof (pow2_pos w).
  assert (2 ^ n = 2 ^ w * 2 ^ (n - w)) as E by (rewrite <- Z.pow_add_r by lia; f_equal; lia).
  assert (0 <= c / 2 ^ w) by (apply Z.div_pos; lia).
  assert (c / 2 ^ w < 2 ^ (n - w)) by (apply Z.div_lt_upper_bound; lia).
  nia.
Qed.

Lemma put_small w v c : 0 <= c < 2 ^ w -> put w v c = uint w v.
Proof. intros. unfold put. rewrite Z.div_small by lia. lia. Qed.

Lemma get_put_narrow w v x c : 0 <= v <= w -> get v (put w x c) = uint v x.
Proof.
  intros. unfold get. rewrite <- (uint_uint v w (put w x c)) by lia.
  fold (get w (put w x c)). rewrite get_put_same by lia. apply uint_uint; lia.
Qed.

(** ** Byte memories

    A memory maps addresses to bytes; [load n m a] reads [n] bytes
    little-endian, a missing byte being a fault, and [store n m a v] writes the
    low [n] bytes of [v]. *)
Fixpoint load (n : nat) (m : gmap Z Z) (a : Z) : option Z :=
  match n with
  | O => Some 0
  | S n => b ← m !! a; r ← load n m (a + 1); Some (uint 8 b + 256 * r)
  end.

Fixpoint store (n : nat) (m : gmap Z Z) (a v : Z) : gmap Z Z :=
  match n with
  | O => m
  | S n => store n (<[a := uint 8 v]> m) (a + 1) (v / 256)
  end.

Lemma load_1 m a : load 1 m a = uint 8 <$> m !! a.
Proof. cbn. destruct (m !! a); cbn; [do 2 f_equal; lia|reflexivity]. Qed.

Lemma store_frame n m a v b : b < a \/ a + Z.of_nat n <= b -> store n m a v !! b = m !! b.
Proof.
  revert m a v. induction n as [|n IH]; intros m a v Hb; cbn; [reflexivity|].
  rewrite IH by lia. apply lookup_insert_ne. lia.
Qed.

Lemma load_ext n m1 m2 a :
  (forall b, a <= b < a + Z.of_nat n -> m1 !! b = m2 !! b) -> load n m1 a = load n m2 a.
Proof.
  revert a. induction n as [|n IH]; intros a H; cbn; [reflexivity|].
  rewrite H by lia. rewrite (IH (a + 1)); [reflexivity|]. intros; apply H; lia.
Qed.

Lemma load_store_same n m a v : load n (store n m a v) a = Some (uint (8 * Z.of_nat n) v).
Proof.
  revert m a v. induction n as [|n IH]; intros m a v.
  - cbn. unfold uint. rewrite Z.mod_1_r. reflexivity.
  - cbn [load store]. rewrite store_frame by lia. rewrite lookup_insert_eq. cbn [mbind option_bind].
    rewrite IH. cbn. rewrite uint_idemp. f_equal.
    unfold uint. change 256 with (2 ^ 8).
    replace (8 * Z.of_nat (S n)) with (8 + 8 * Z.of_nat n) by lia.
    rewrite Z.pow_add_r, Z.rem_mul_r by lia. lia.
Qed.

Lemma load_store_other n k m a b v :
  b + Z.of_nat k <= a \/ a + Z.of_nat n <= b -> load k (store n m a v) b = load k m b.
Proof. intros. apply load_ext. intros. apply store_frame. lia. Qed.

Lemma store_lookup n m a v b :
  store n m a v !! b = if decide (a <= b < a + Z.of_nat n) then Some (uint 8 (v / 256 ^ (b - a))) else m !! b.
Proof.
  revert m a v. induction n as [|n IH]; intros m a v; cbn [store].
  - rewrite decide_False by lia. reflexivity.
  - rewrite IH. destruct (decide (b = a)) as [->|Hb].
    + rewrite decide_False, lookup_insert_eq, decide_True by lia. rewrite Z.sub_diag, Z.pow_0_r, Z.div_1_r. reflexivity.
    + rewrite lookup_insert_ne by lia.
      destruct (decide (a + 1 <= b < a + 1 + Z.of_nat n)); [|rewrite decide_False by lia; reflexivity].
      rewrite decide_True by lia. replace (b - a) with (1 + (b - (a + 1))) by lia.
      rewrite Z.pow_add_r, Z.pow_1_r, Z.div_div by (try apply Z.pow_pos_nonneg; lia). reflexivity.
Qed.

Lemma store_store n m a v v' : store n (store n m a v) a v' = store n m a v'.
Proof. apply map_eq. intros b. rewrite !store_lookup. destruct (decide _); reflexivity. Qed.

Lemma store_uint n m a v : store n m a (uint (8 * Z.of_nat n) v) = store n m a v.
Proof.
  apply map_eq. intros b. rewrite !store_lookup. destruct (decide (a <= b < a + Z.of_nat n)) as [Hb|]; [|reflexivity].
  f_equal. change 256 with (2 ^ 8). rewrite <- Z.pow_mul_r, <- !Z.shiftr_div_pow2 by lia.
  zbits.
Qed.

Lemma load_uint n m a v : load n m a = Some v -> uint (8 * Z.of_nat n) v = v.
Proof.
  revert a v. induction n as [|n IH]; intros a v H; cbn in H.
  - injection H as <-. reflexivity.
  - destruct (m !! a); cbn in H; [|discriminate]. destruct (load n m (a + 1)) as [r|] eqn:E; cbn in H; [|discriminate].
    injection H as <-. apply uint_small. pose proof (IH _ _ E) as Hr. pose proof (uint_range 8 z).
    assert (0 <= r < 2 ^ (8 * Z.of_nat n)) by (rewrite <- Hr; apply uint_range; lia).
    replace (8 * Z.of_nat (S n)) with (8 + 8 * Z.of_nat n) by lia. rewrite Z.pow_add_r by lia. lia.
Qed.
