(* ===== verification/IR.v ===== *)
(** * The intermediate representation

    [include/FEXCore/IR/IR.h], [Interface/IR/IR.json] and the emitter of
    [IREmitter.h]: an [IROp_Header] carries the operation with its immediates,
    its sizes in bytes and its SSA arguments, and code blocks are lists of
    nodes. *)
From Stdlib Require Import ZArith Lia Bool.
From stdpp Require Import base gmap list numbers option.
From S2P Require Import Prelude.
#[local] Open Scope Z_scope.

(** A node is named by its index in the ordered list ([NodeID]); index 0 is the
    invalid node. *)
Abbreviation NodeID := nat.
Definition InvalidNode : NodeID := 0%nat.

Inductive MemOffsetType := MEM_OFFSET_SXTX | MEM_OFFSET_UXTW | MEM_OFFSET_SXTW.

(** The operations of [IR.json] that the development interprets, each with its
    stored immediates. *)
Inductive IROps :=
  | OP_IRHEADER | OP_CODEBLOCK | OP_BEGINBLOCK | OP_ENDBLOCK
  | OP_CONSTANT (Constant : Z)
  | OP_INLINECONSTANT (Constant : Z)
  | OP_ENTRYPOINTOFFSET (Offset : Z)
  | OP_INLINEENTRYPOINTOFFSET (Offset : Z)
  | OP_TRUNCELEMENTPAIR
  | OP_EXTRACTELEMENTPAIR (Element : Z)
  | OP_CREATEELEMENTPAIR
  | OP_MOV
  | OP_ADD | OP_SUB | OP_NEG | OP_MUL | OP_UMUL | OP_DIV | OP_UDIV | OP_REM | OP_UREM
  | OP_MULH | OP_UMULH
  | OP_OR | OP_AND | OP_ANDN | OP_XOR
  | OP_LSHL | OP_LSHR | OP_ASHR | OP_ROR
  | OP_EXTR (LSB : Z)
  | OP_PDEP | OP_PEXT
  | OP_LDIV | OP_LUDIV | OP_LREM | OP_LUREM
  | OP_NOT | OP_POPCOUNT | OP_FINDLSB | OP_FINDMSB | OP_FINDTRAILINGZEROS
  | OP_COUNTLEADINGZEROES | OP_REV
  | OP_BFI (Width lsb : Z) | OP_BFE (Width lsb : Z) | OP_SBFE (Width lsb : Z)
  | OP_SELECT (Cond CompareSize : Z)
  | OP_FCMP (Flags : Z)
  | OP_GETHOSTFLAG (Flag : Z)
  | OP_VEXTRACTTOGPR (Index : Z)
  | OP_LOADCONTEXT (Offset : Z) | OP_STORECONTEXT (Offset : Z)
  | OP_LOADFLAG (Flag : Z) | OP_STOREFLAG (Flag : Z)
  | OP_INVALIDATEFLAGS (Flags : Z)
  | OP_LOADMEM (OffsetType : MemOffsetType) (OffsetScale : Z)
  | OP_STOREMEM (OffsetType : MemOffsetType) (OffsetScale : Z)
  | OP_LOADMEMTSO (OffsetType : MemOffsetType) (OffsetScale : Z)
  | OP_STOREMEMTSO (OffsetType : MemOffsetType) (OffsetScale : Z)
  | OP_LOADCONTEXTINDEXED (BaseOffset Stride : Z) | OP_STORECONTEXTINDEXED (BaseOffset Stride : Z)
  | OP_CAS | OP_CASPAIR
  | OP_ATOMICADD | OP_ATOMICSUB | OP_ATOMICAND | OP_ATOMICOR | OP_ATOMICXOR
  | OP_ATOMICSWAP | OP_ATOMICFETCHADD | OP_ATOMICFETCHSUB | OP_ATOMICFETCHAND
  | OP_ATOMICFETCHOR | OP_ATOMICFETCHXOR | OP_ATOMICFETCHNEG
  | OP_YIELD
  | OP_JUMP
  | OP_CONDJUMP (Cond CompareSize : Z)
  | OP_EXITFUNCTION.

#[export] Instance MemOffsetType_eq_dec : EqDecision MemOffsetType.
Proof. solve_decision. Defined.
#[export] Instance IROps_eq_dec : EqDecision IROps.
Proof. solve_decision. Defined.

Record IROp_Header := mkOp {
  Op : IROps;
  Size : Z;
  ElementSize : Z;
  Args : list NodeID
}.

#[export] Instance IROp_Header_eq_dec : EqDecision IROp_Header.
Proof. solve_decision. Defined.
