(* ===== verification/ALUOps.v ===== *)
(** * The interpreter's scalar ALU operations

    [Interface/Core/Interpreter/ALUOps.cpp], [FlagOps.cpp] and [MoveOps.cpp]:
    one definition per [DEF_OP] handler. A handler is given the operation's size
    in bytes ([IROp->Size]), its immediates, the old contents of the destination
    cell and the source cells, and returns the new contents of the destination
    cell. *)
From Stdlib Require Import ZArith Lia Bool.
From stdpp Require Import base list numbers option.
From S2P Require Import Prelude.
#[local] Open Scope Z_scope.

(** [DO_OP(size, type, func)] and [GD = v]. *)
Definition DO_OP (w : Z) (func : Z -> Z -> Z) (Dst Src1 Src2 : Z) : outcome Z :=
  Ok (put w (func (get w Src1) (get w Src2)) Dst).
Definition GD (v Dst : Z) : outcome Z := Ok (put 64 v Dst).

(** ** Moves and constants *)

Definition Op_TruncElementPair (Size Dst Pair : Z) : outcome Z :=
  if Size =? 4 then
    let Result := Z.land (get 64 Pair) 0xFFFFFFFF in
    let Result := Z.lor Result (uint 64 (Z.shiftl (get 64 (Z.shiftr Pair 64)) 32)) in
    GD Result Dst
  else Assert.

Definition Op_Constant (Constant Dst : Z) : outcome Z := GD Constant Dst.

Definition Op_EntrypointOffset (Size CurrentEntry Offset Dst : Z) : outcome Z :=
  let Mask := if Size =? 4 then 0xFFFFFFFF else 0xFFFFFFFFFFFFFFFF in
  GD (Z.land (uint 64 (CurrentEntry + Offset)) Mask) Dst.

(** An element past the 16 bytes of the pair's cell is another node's data. *)
Definition Op_ExtractElementPair (Size Element Dst Pair : Z) : outcome Z :=
  if Size * Element + Size <=? 16 then
    Ok (put (8 * Size) (Z.shiftr Pair (8 * (Size * Element))) Dst)
  else Undef.

Definition Op_CreateElementPair (ElementSize Dst Lower Upper : Z) : outcome Z :=
  let w := 8 * ElementSize in
  let Dst := put w (get w Lower) Dst in
  Ok (put (2 * w) (get w Dst + 2 ^ w * get w Upper) Dst).

Definition Op_Mov (Size Dst Value : Z) : outcome Z := Ok (put (8 * Size) Value Dst).

Definition Op_GetHostFlag (Flag Dst Value : Z) : outcome Z :=
  v ← shr 64 (get 64 Value) Flag; GD (Z.land v 1) Dst.

(** ** Arithmetic *)

Definition Op_Add (OpSize Dst Src1 Src2 : Z) : outcome Z :=
  if OpSize =? 4 then DO_OP 32 Z.add Dst Src1 Src2
  else if OpSize =? 8 then DO_OP 64 Z.add Dst Src1 Src2
  else Assert.

Definition Op_Sub (OpSize Dst Src1 Src2 : Z) : outcome Z :=
  if OpSize =? 4 then DO_OP 32 Z.sub Dst Src1 Src2
  else if OpSize =? 8 then DO_OP 64 Z.sub Dst Src1 Src2
  else Assert.

(** The result of [-static_cast<int32_t>(Src)] is an [int], which the 64-bit
    store sign-extends (the library is built with [-fwrapv]). *)
Definition Op_Neg (OpSize Dst Src : Z) : outcome Z :=
  let Src := get 64 Src in
  if OpSize =? 4 then GD (sint 32 (- sint 32 Src)) Dst
  else if OpSize =? 8 then GD (sint 64 (- sint 64 Src)) Dst
  else Assert.

Definition Op_Mul (OpSize Dst Src1 Src2 : Z) : outcome Z :=
  let Src1 := get 64 Src1 in
  let Src2 := get 64 Src2 in
  if OpSize =? 4 then GD (sint 32 Src1 * sint 32 Src2) Dst
  else if OpSize =? 8 then GD (sint 64 Src1 * sint 64 Src2) Dst
  else if OpSize =? 16 then Ok (put 128 (sint 64 Src1 * sint 64 Src2) Dst)
  else Assert.

Definition Op_UMul (OpSize Dst Src1 Src2 : Z) : outcome Z :=
  let Src1 := get 64 Src1 in
  let Src2 := get 64 Src2 in
  if OpSize =? 4 then GD (uint 32 (uint 32 Src1 * uint 32 Src2)) Dst
  else if OpSize =? 8 then GD (uint 64 (Src1 * Src2)) Dst
  else if OpSize =? 16 then Ok (put 128 (Src1 * Src2) Dst)
  else Assert.

Definition Op_Div (OpSize Dst Src1 Src2 : Z) : outcome Z :=
  let a := get 64 Src1 in
  let b := get 64 Src2 in
  if OpSize =? 1 then q ← sdiv 64 (sint 8 a) (sint 8 b); GD q Dst
  else if OpSize =? 2 then q ← sdiv 64 (sint 16 a) (sint 16 b); GD q Dst
  else if OpSize =? 4 then q ← sdiv 64 (sint 32 a) (sint 32 b); GD q Dst
  else if OpSize =? 8 then q ← sdiv 64 (sint 64 a) (sint 64 b); GD q Dst
  else if OpSize =? 16 then q ← sdiv 128 (sint 128 Src1) (sint 128 Src2); Ok (put 128 q Dst)
  else Assert.

Definition Op_UDiv (OpSize Dst Src1 Src2 : Z) : outcome Z :=
  let a := get 64 Src1 in
  let b := get 64 Src2 in
  if OpSize =? 1 then q ← udiv (uint 8 a) (uint 8 b); GD q Dst
  else if OpSize =? 2 then q ← udiv (uint 16 a) (uint 16 b); GD q Dst
  else if OpSize =? 4 then q ← udiv (uint 32 a) (uint 32 b); GD q Dst
  else if OpSize =? 8 then q ← udiv a b; GD q Dst
  else if OpSize =? 16 then q ← udiv (get 128 Src1) (get 128 Src2); Ok (put 128 q Dst)
  else Assert.

Definition Op_Rem (OpSize Dst Src1 Src2 : Z) : outcome Z :=
  let a := get 64 Src1 in
  let b := get 64 Src2 in
  if OpSize =? 1 then r ← srem 64 (sint 8 a) (sint 8 b); GD r Dst
  else if OpSize =? 2 then r ← srem 64 (sint 16 a) (sint 16 b); GD r Dst
  else if OpSize =? 4 then r ← srem 64 (sint 32 a) (sint 32 b); GD r Dst
  else if OpSize =? 8 then r ← srem 64 (sint 64 a) (sint 64 b); GD r Dst
  else if OpSize =? 16 then r ← srem 128 (sint 128 Src1) (sint 128 Src2); Ok (put 128 r Dst)
  else Assert.

Definition Op_URem (OpSize Dst Src1 Src2 : Z) : outcome Z :=
  let a := get 64 Src1 in
  let b := get 64 Src2 in
  if OpSize =? 1 then r ← urem (uint 8 a) (uint 8 b); GD r Dst
  else if OpSize =? 2 then r ← urem (uint 16 a) (uint 16 b); GD r Dst
  else if OpSize =? 4 then r ← urem (uint 32 a) (uint 32 b); GD r Dst
  else if OpSize =? 8 then r ← urem a b; GD r Dst
  else if OpSize =? 16 then r ← urem (get 128 Src1) (get 128 Src2); Ok (put 128 r Dst)
  else Assert.

Definition Op_MulH (OpSize Dst Src1 Src2 : Z) : outcome Z :=
  let Src1 := get 64 Src1 in
  let Src2 := get 64 Src2 in
  if OpSize =? 4 then GD (Z.shiftr (sint 32 Src1 * sint 32 Src2) 32) Dst
  else if OpSize =? 8 then GD (Z.shiftr (sint 64 Src1 * sint 64 Src2) 64) Dst
  else Assert.

Definition Op_UMulH (OpSize Dst Src1 Src2 : Z) : outcome Z :=
  let Src1 := get 64 Src1 in
  let Src2 := get 64 Src2 in
  if OpSize =? 4 then GD (Z.shiftr (uint 64 (Src1 * Src2)) 32) Dst
  else if (OpSize =? 8) || (OpSize =? 16) then GD (Z.shiftr (Src1 * Src2) 64) Dst
  else Assert.

(** ** Bitwise operations *)

Definition Op_Or (OpSize Dst Src1 Src2 : Z) : outcome Z :=
  if OpSize =? 1 then DO_OP 8 Z.lor Dst Src1 Src2
  else if OpSize =? 2 then DO_OP 16 Z.lor Dst Src1 Src2
  else if OpSize =? 4 then DO_OP 32 Z.lor Dst Src1 Src2
  else if OpSize =? 8 then DO_OP 64 Z.lor Dst Src1 Src2
  else if OpSize =? 16 then DO_OP 128 Z.lor Dst Src1 Src2
  else Assert.

Definition Op_And (OpSize Dst Src1 Src2 : Z) : outcome Z :=
  if OpSize =? 1 then DO_OP 8 Z.land Dst Src1 Src2
  else if OpSize =? 2 then DO_OP 16 Z.land Dst Src1 Src2
  else if OpSize =? 4 then DO_OP 32 Z.land Dst Src1 Src2
  else if OpSize =? 8 then DO_OP 64 Z.land Dst Src1 Src2
  else Assert.

Definition Op_Andn (OpSize Dst Src1 Src2 : Z) : outcome Z :=
  let Func w a b := Z.land a (uint w (Z.lnot b)) in
  if OpSize =? 1 then DO_OP 8 (Func 8) Dst Src1 Src2
  else if OpSize =? 2 then DO_OP 16 (Func 16) Dst Src1 Src2
  else if OpSize =? 4 then DO_OP 32 (Func 32) Dst Src1 Src2
  else if OpSize =? 8 then DO_OP 64 (Func 64) Dst Src1 Src2
  else Assert.

Definition Op_Xor (OpSize Dst Src1 Src2 : Z) : outcome Z :=
  if OpSize =? 1 then DO_OP 8 Z.lxor Dst Src1 Src2
  else if OpSize =? 2 then DO_OP 16 Z.lxor Dst Src1 Src2
  else if OpSize =? 4 then DO_OP 32 Z.lxor Dst Src1 Src2
  else if OpSize =? 8 then DO_OP 64 Z.lxor Dst Src1 Src2
  else Assert.

(** ** Shifts and rotates *)

Definition Op_Lshl (OpSize Dst Src1 Src2 : Z) : outcome Z :=
  let Src1 := get 64 Src1 in
  let Src2 := get 64 Src2 in
  let Mask := uint 8 (OpSize * 8 - 1) in
  if OpSize =? 4 then v ← shl 32 (uint 32 Src1) (Z.land Src2 Mask); GD v Dst
  else if OpSize =? 8 then v ← shl 64 Src1 (Z.land Src2 Mask); GD v Dst
  else Assert.

Definition Op_Lshr (OpSize Dst Src1 Src2 : Z) : outcome Z :=
  let Src1 := get 64 Src1 in
  let Src2 := get 64 Src2 in
  let Mask := uint 8 (OpSize * 8 - 1) in
  if OpSize =? 4 then v ← shr 32 (uint 32 Src1) (Z.land Src2 Mask); GD v Dst
  else if OpSize =? 8 then v ← shr 64 Src1 (Z.land Src2 Mask); GD v Dst
  else Assert.

Definition Op_Ashr (OpSize Dst Src1 Src2 : Z) : outcome Z :=
  let Src1 := get 64 Src1 in
  let Src2 := get 64 Src2 in
  let Mask := uint 8 (OpSize * 8 - 1) in
  if OpSize =? 4 then v ← sar 32 Src1 (Z.land Src2 Mask); GD (uint 32 v) Dst
  else if OpSize =? 8 then v ← sar 64 Src1 (Z.land Src2 Mask); GD (uint 64 v) Dst
  else Assert.

(** The lambda [Ror] at [w] bits. With [R = 0] its left shift is by the full
    width, which C++ leaves undefined. *)
Definition Ror (w In R : Z) : outcome Z :=
  let R := Z.land R (w - 1) in
  a ← shr w In R; b ← shl w In (w - R); Ok (Z.lor a b).

Definition Op_Ror (OpSize Dst Src1 Src2 : Z) : outcome Z :=
  let Src1 := get 64 Src1 in
  let Src2 := get 64 Src2 in
  if OpSize =? 4 then v ← Ror 32 (uint 32 Src1) (uint 32 Src2); GD v Dst
  else if OpSize =? 8 then v ← Ror 64 Src1 Src2; GD v Dst
  else Assert.

Definition Extr (w Src1 Src2 lsb : Z) : outcome Z :=
  let Result := uint 128 (Z.shiftl Src1 w) in
  let Result := Z.lor Result Src2 in
  Result ← shr 128 Result lsb; Ok (uint w Result).

Definition Op_Extr (OpSize LSB Dst Upper Lower : Z) : outcome Z :=
  let Src1 := get 64 Upper in
  let Src2 := get 64 Lower in
  if OpSize =? 4 then v ← Extr 32 (uint 32 Src1) (uint 32 Src2) LSB; GD v Dst
  else if OpSize =? 8 then v ← Extr 64 Src1 Src2 LSB; GD v Dst
  else Assert.

(** ** Parallel bit deposit and extract

    The loops run once per set bit of the mask; 64 iterations bound a 64-bit
    mask ([PDep_loop_spec] and [PExt_loop_spec] of [InterpBits]). *)
Fixpoint PDep_loop (fuel : nat) (Input Mask Index Result : Z) : option Z :=
  if Mask >? 0 then
    match fuel with
    | O => None
    | S fuel =>
        let Offset := countr_zero 64 Mask in
        let Mask := Z.land Mask (uint 64 (Mask - 1)) in
        let Result := Z.lor Result
          (uint 64 (Z.shiftl (Z.land (Z.shiftr Input Index) 1) Offset)) in
        PDep_loop fuel Input Mask (Index + 1) Result
    end
  else Some Result.

Fixpoint PExt_loop (fuel : nat) (Input Mask Offset Result : Z) : option Z :=
  if Mask >? 0 then
    match fuel with
    | O => None
    | S fuel =>
        let Index := countr_zero 64 Mask in
        let Mask := Z.land Mask (uint 64 (Mask - 1)) in
        let Result := Z.lor Result
          (uint 64 (Z.shiftl (Z.land (Z.shiftr Input Index) 1) Offset)) in
        PExt_loop fuel Input Mask (Offset + 1) Result
    end
  else Some Result.

Definition Op_PDep (OpSize Dst Input Mask : Z) : outcome Z :=
  if negb (OpSize =? 4) && negb (OpSize =? 8) then Assert
  else
    let w := if OpSize =? 4 then 32 else 64 in
    Result ← deref (PDep_loop 64 (get w Input) (get w Mask) 0 0); GD Result Dst.

Definition Op_PExt (OpSize Dst Input Mask : Z) : outcome Z :=
  if negb (OpSize =? 4) && negb (OpSize =? 8) then Assert
  else
    let w := if OpSize =? 4 then 32 else 64 in
    Result ← deref (PExt_loop 64 (get w Input) (get w Mask) 0 0); GD Result Dst.

(** ** Double-width division *)

Definition Op_LDiv (OpSize Dst Lower Upper Divisor : Z) : outcome Z :=
  if OpSize =? 2 then
    let Source := sint 32 (Z.lor (Z.shiftl (get 16 Upper) 16) (get 16 Lower)) in
    Res ← sdiv 32 Source (sint 16 (get 16 Divisor)); GD (sint 16 Res) Dst
  else if OpSize =? 4 then
    let Source := sint 64 (Z.lor (Z.shiftl (get 32 Upper) 32) (get 32 Lower)) in
    Res ← sdiv 64 Source (sint 32 (get 32 Divisor)); GD (sint 32 Res) Dst
  else if OpSize =? 8 then
    let Source := sint 128 (Z.lor (Z.shiftl (get 64 Upper) 64) (get 64 Lower)) in
    Res ← sdiv 128 Source (sint 64 (get 64 Divisor)); Ok (put 64 Res Dst)
  else Assert.

Definition Op_LUDiv (OpSize Dst Lower Upper Divisor : Z) : outcome Z :=
  if OpSize =? 2 then
    let Source := Z.lor (Z.shiftl (get 16 Upper) 16) (get 16 Lower) in
    Res ← udiv Source (get 16 Divisor); GD (uint 16 Res) Dst
  else if OpSize =? 4 then
    let Source := Z.lor (Z.shiftl (get 32 Upper) 32) (get 32 Lower) in
    Res ← udiv Source (get 32 Divisor); GD (uint 32 Res) Dst
  else if OpSize =? 8 then
    let Source := Z.lor (Z.shiftl (get 64 Upper) 64) (get 64 Lower) in
    Res ← udiv Source (get 64 Divisor); Ok (put 64 Res Dst)
  else Assert.

Definition Op_LRem (OpSize Dst Lower Upper Divisor : Z) : outcome Z :=
  if OpSize =? 2 then
    let Source := sint 32 (Z.lor (Z.shiftl (get 16 Upper) 16) (get 16 Lower)) in
    Res ← srem 32 Source (sint 16 (get 16 Divisor)); GD (sint 16 Res) Dst
  else if OpSize =? 4 then
    let Source := sint 64 (Z.lor (Z.shiftl (get 32 Upper) 32) (get 32 Lower)) in
    Res ← srem 64 Source (sint 32 (get 32 Divisor)); GD (sint 32 Res) Dst
  else if OpSize =? 8 then
    let Source := sint 128 (Z.lor (Z.shiftl (get 64 Upper) 64) (get 64 Lower)) in
    Res ← srem 128 Source (sint 64 (get 64 Divisor)); Ok (put 64 Res Dst)
  else Assert.

Definition Op_LURem (OpSize Dst Lower Upper Divisor : Z) : outcome Z :=
  if OpSize =? 2 then
    let Source := Z.lor (Z.shiftl (get 16 Upper) 16) (get 16 Lower) in
    Res ← urem Source (get 16 Divisor); GD (uint 16 Res) Dst
  else if OpSize =? 4 then
    let Source := Z.lor (Z.shiftl (get 32 Upper) 32) (get 32 Lower) in
    Res ← urem Source (get 32 Divisor); GD (uint 32 Res) Dst
  else if OpSize =? 8 then
    let Source := Z.lor (Z.shiftl (get 64 Upper) 64) (get 64 Lower) in
    Res ← urem Source (get 64 Divisor); Ok (put 64 Res Dst)
  else Assert.

(** ** Bit counting and reversal *)

Definition Op_Not (OpSize Dst Src : Z) : outcome Z :=
  let mask := [0; 0xFF; 0xFFFF; 0; 0xFFFFFFFF; 0; 0; 0; 0xFFFFFFFFFFFFFFFF] in
  Mask ← deref (mask !! Z.to_nat OpSize);
  GD (Z.land (uint 64 (Z.lnot (get 64 Src))) Mask) Dst.

Definition Op_Popcount (Dst Src : Z) : outcome Z := GD (popcount 64 (get 64 Src)) Dst.

(** [BitUtils.h] *)
Definition FindFirstSetBit (w value : Z) : Z :=
  if value =? 0 then 0 else countr_zero w value + 1.

Definition Op_FindLSB (Dst Src : Z) : outcome Z :=
  GD (FindFirstSetBit 64 (get 64 Src) - 1) Dst.

Definition Op_FindMSB (OpSize Dst Src : Z) : outcome Z :=
  let f w := GD ((OpSize * 8 - countl_zero w (get w Src)) - 1) Dst in
  if OpSize =? 1 then f 8 else if OpSize =? 2 then f 16
  else if OpSize =? 4 then f 32 else if OpSize =? 8 then f 64
  else Assert.

Definition Op_FindTrailingZeros (OpSize Dst Src : Z) : outcome Z :=
  let f w := GD (countr_zero w (get w Src)) Dst in
  if OpSize =? 1 then f 8 else if OpSize =? 2 then f 16
  else if OpSize =? 4 then f 32 else if OpSize =? 8 then f 64
  else Assert.

Definition Op_CountLeadingZeroes (OpSize Dst Src : Z) : outcome Z :=
  let f w := GD (countl_zero w (get w Src)) Dst in
  if OpSize =? 1 then f 8 else if OpSize =? 2 then f 16
  else if OpSize =? 4 then f 32 else if OpSize =? 8 then f 64
  else Assert.

(** The byte swaps of [BitUtils.h], in their portable form. *)
Definition BSwap16 (value : Z) : Z :=
  uint 16 (Z.lor (Z.shiftr value 8) (Z.shiftl value 8)).
Definition BSwap32 (value : Z) : Z :=
  Z.lor (Z.lor (Z.shiftr (Z.land value 0xFF000000) 24) (Z.shiftr (Z.land value 0x00FF0000) 8))
        (Z.lor (Z.shiftl (Z.land value 0x0000FF00) 8) (Z.shiftl (Z.land value 0x000000FF) 24)).
Definition BSwap64 (value : Z) : Z :=
  Z.lor (Z.lor (Z.lor (Z.shiftr (Z.land value 0xFF00000000000000) 56)
                      (Z.shiftr (Z.land value 0x00FF000000000000) 40))
               (Z.lor (Z.shiftr (Z.land value 0x0000FF0000000000) 24)
                      (Z.shiftr (Z.land value 0x000000FF00000000) 8)))
        (Z.lor (Z.lor (Z.shiftl (Z.land value 0x00000000FF000000) 8)
                      (Z.shiftl (Z.land value 0x0000000000FF0000) 24))
               (Z.lor (Z.shiftl (Z.land value 0x000000000000FF00) 40)
                      (Z.shiftl (Z.land value 0x00000000000000FF) 56))).

Definition Op_Rev (OpSize Dst Src : Z) : outcome Z :=
  if OpSize =? 2 then GD (BSwap16 (get 16 Src)) Dst
  else if OpSize =? 4 then GD (BSwap32 (get 32 Src)) Dst
  else if OpSize =? 8 then GD (BSwap64 (get 64 Src)) Dst
  else Assert.

(** ** Bit fields

    [(1ULL << Width) - 1] is computed and then overwritten when [Width] is 64;
    [low_mask] is the mask that is used. *)
Definition low_mask (Width : Z) : outcome Z :=
  if Width =? 64 then Ok 0xFFFFFFFFFFFFFFFF
  else m ← shl 64 1 Width; Ok (m - 1).

Definition Op_Bfi (Width lsb Dst Dest Src : Z) : outcome Z :=
  SourceMask ← low_mask Width;
  m ← shl 64 SourceMask lsb;
  let DestMask := uint 64 (Z.lnot m) in
  let Src1 := get 64 Dest in
  let Src2 := get 64 Src in
  v ← shl 64 (Z.land Src2 SourceMask) lsb;
  GD (Z.lor (Z.land Src1 DestMask) v) Dst.

Definition Op_Bfe (OpSize Width lsb Dst Src : Z) : outcome Z :=
  _ ← throw_unless (OpSize <=? 8);
  SourceMask ← low_mask Width;
  SourceMask ← shl 64 SourceMask lsb;
  v ← shr 64 (Z.land (get 64 Src) SourceMask) lsb;
  GD v Dst.

(** [ShiftLeftAmount] is a [uint64_t]: a field that ends above bit 63 wraps it. *)
Definition Op_Sbfe (OpSize Width lsb Dst Src : Z) : outcome Z :=
  _ ← throw_unless (OpSize <=? 8);
  let ShiftLeftAmount := uint 64 (64 - (Width + lsb)) in
  let ShiftRightAmount := uint 64 (ShiftLeftAmount + lsb) in
  Src ← shl 64 (get 64 Src) ShiftLeftAmount;
  v ← sar 64 Src ShiftRightAmount;
  GD v Dst.

Definition Op_VExtractToGPR (OpSize SourceSize ElementSize Index Dst Vector : Z) : outcome Z :=
  _ ← throw_unless (OpSize <=? 16);
  SourceMask ← low_mask (ElementSize * 8);
  let Shift := ElementSize * Index * 8 in
  if SourceSize =? 16 then
    Src ← shr 128 (get 128 Vector) Shift;
    Ok (put (8 * ElementSize) (Z.land Src SourceMask) Dst)
  else
    Src ← shr 64 (get 64 Vector) Shift;
    GD (Z.land Src SourceMask) Dst.

(** ** Conditions

    The comparison codes of [IR.json], and IEEE-754 comparison of [w]-bit
    patterns ([reinterpret_cast<float&>] and [<double&>]): a pattern is
    sign-magnitude, above the infinity pattern it is a NaN, and the two zeros
    are equal. *)
Definition COND_EQ := 0.
Definition COND_NEQ := 1.
Definition COND_UGE := 2.
Definition COND_ULT := 3.
Definition COND_UGT := 8.
Definition COND_ULE := 9.
Definition COND_SGE := 10.
Definition COND_SLT := 11.
Definition COND_SGT := 12.
Definition COND_SLE := 13.
Definition COND_FLU := 16.
Definition COND_FGE := 17.
Definition COND_FLEU := 18.
Definition COND_FGT := 19.
Definition COND_FU := 20.
Definition COND_FNU := 21.

Definition fp_inf (w : Z) : Z := if w =? 32 then 0x7F800000 else 0x7FF0000000000000.
Definition fp_mag (w x : Z) : Z := uint (w - 1) x.
Definition fp_isnan (w x : Z) : bool := fp_inf w <? fp_mag w x.
Definition fp_key (w x : Z) : Z := if Z.testbit x (w - 1) then - fp_mag w x else fp_mag w x.
Definition fp_unordered (w a b : Z) : bool := fp_isnan w a || fp_isnan w b.
Definition fp_lt (w a b : Z) : bool := negb (fp_unordered w a b) && (fp_key w a <? fp_key w b).
Definition fp_le (w a b : Z) : bool := negb (fp_unordered w a b) && (fp_key w a <=? fp_key w b).
Definition fp_eq (w a b : Z) : bool := negb (fp_unordered w a b) && (fp_key w a =? fp_key w b).

(** [IsConditionTrue<uintw_t, intw_t, floatw>]. *)
Definition IsConditionTrue (w Cond Src1 Src2 : Z) : outcome bool :=
  let u1 := uint w Src1 in let u2 := uint w Src2 in
  let s1 := sint w Src1 in let s2 := sint w Src2 in
  if Cond =? COND_EQ then Ok (u1 =? u2)
  else if Cond =? COND_NEQ then Ok (negb (u1 =? u2))
  else if Cond =? COND_SGE then Ok (s2 <=? s1)
  else if Cond =? COND_SLT then Ok (s1 <? s2)
  else if Cond =? COND_SGT then Ok (s2 <? s1)
  else if Cond =? COND_SLE then Ok (s1 <=? s2)
  else if Cond =? COND_UGE then Ok (u2 <=? u1)
  else if Cond =? COND_ULT then Ok (u1 <? u2)
  else if Cond =? COND_UGT then Ok (u2 <? u1)
  else if Cond =? COND_ULE then Ok (u1 <=? u2)
  else if Cond =? COND_FLU then Ok (fp_lt w u1 u2 || fp_unordered w u1 u2)
  else if Cond =? COND_FGE then Ok (fp_le w u2 u1 && negb (fp_unordered w u1 u2))
  else if Cond =? COND_FLEU then Ok (fp_le w u1 u2 || fp_unordered w u1 u2)
  else if Cond =? COND_FGT then Ok (fp_lt w u2 u1 && negb (fp_unordered w u1 u2))
  else if Cond =? COND_FU then Ok (fp_unordered w u1 u2)
  else if Cond =? COND_FNU then Ok (negb (fp_unordered w u1 u2))
  else Assert.

Definition Op_Select (OpSize Cond CompareSize Dst Cmp1 Cmp2 TrueVal FalseVal : Z) : outcome Z :=
  let Src1 := get 64 Cmp1 in
  let Src2 := get 64 Cmp2 in
  let w := if OpSize =? 4 then 32 else 64 in
  let ArgTrue := get w TrueVal in
  let ArgFalse := get w FalseVal in
  CompResult ← IsConditionTrue (if CompareSize =? 4 then 32 else 64) Cond Src1 Src2;
  GD (if (CompResult : bool) then ArgTrue else ArgFalse) Dst.

Definition FCMP_FLAG_EQ := 0.
Definition FCMP_FLAG_LT := 1.
Definition FCMP_FLAG_UNORDERED := 2.

Definition Op_FCmp (ElementSize Flags Dst Scalar1 Scalar2 : Z) : outcome Z :=
  let w := if ElementSize =? 4 then 32 else 64 in
  let Src1 := get w Scalar1 in
  let Src2 := get w Scalar2 in
  let Unordered := fp_unordered w Src1 Src2 in
  let set (flag : Z) (c : bool) (r : Z) :=
    if Z.testbit Flags flag && c then Z.lor r (Z.shiftl 1 flag) else r in
  let ResultFlags := set FCMP_FLAG_LT (Unordered || fp_lt w Src1 Src2) 0 in
  let ResultFlags := set FCMP_FLAG_UNORDERED Unordered ResultFlags in
  let ResultFlags := set FCMP_FLAG_EQ (Unordered || fp_eq w Src1 Src2) ResultFlags in
  GD ResultFlags Dst.
