(* ===== verification/Atomic.v ===== *)
(** * Atomic operations of the interpreter

    [Interface/Core/Interpreter/AtomicOps.cpp]: each handler performs one atomic
    access to guest memory, which is one step of the thread that executes it. The
    x86-64 build of the helpers is modelled; the loop of [AtomicFetchNeg] is its
    first successful round. A handler returns the new contents of its cell, where
    it has one, and of the memory. *)
From Stdlib Require Import ZArith Lia Bool Permutation.
From stdpp Require Import base gmap list numbers option.
From S2P Require Import Prelude IR ALUOps.
#[local] Open Scope Z_scope.

(** ** Accesses *)

(** A read-modify-write of [n] bytes: the value that was there, and the memory. *)
Definition atomic_rmw (n : nat) (f : Z -> Z) (addr : Z) (m : gmap Z Z) : outcome (Z * gmap Z Z) :=
  Previous ← deref (load n m addr); Ok (Previous, store n m addr (f Previous)).

Definition AtomicFetchNeg (n : nat) : Z -> gmap Z Z -> outcome (Z * gmap Z Z) := atomic_rmw n (fun Expected => - Expected).

Definition AtomicCompareAndSwap (n : nat) (expected desired addr : Z) (m : gmap Z Z) : outcome (Z * gmap Z Z) :=
  cur ← deref (load n m addr);
  if cur =? expected then Ok (expected, store n m addr desired) else Ok (cur, m).

(** ** Handlers *)

(** [GD = ...] with the memory of the access. *)
Definition atomic_GD (r : outcome (Z * gmap Z Z)) (D : Z) : outcome (Z * gmap Z Z) :=
  '(v, m) ← r; D ← GD v D; Ok (D, m).

(** The [switch] over the size. *)
Definition by_size {A} (OpSize : Z) (f : nat -> outcome A) : outcome A :=
  if OpSize =? 1 then f 1%nat else if OpSize =? 2 then f 2%nat
  else if OpSize =? 4 then f 4%nat else if OpSize =? 8 then f 8%nat else Assert.
Definition bits (n : nat) : Z := 8 * Z.of_nat n.

Definition Op_CAS (OpSize D Expected Desired Addr : Z) (m : gmap Z Z) : outcome (Z * gmap Z Z) :=
  by_size OpSize (fun n =>
    atomic_GD (AtomicCompareAndSwap n (get (bits n) Expected) (get (bits n) Desired) (get 64 Addr) m) D).

Definition Op_CASPair (ElementSize D Expected Desired Addr : Z) (m : gmap Z Z) : outcome (Z * gmap Z Z) :=
  if ElementSize =? 4 then
    atomic_GD (AtomicCompareAndSwap 8 (get 64 Expected) (get 64 Desired) (get 64 Addr) m) D
  else if ElementSize =? 8 then
    '(v, m) ← AtomicCompareAndSwap 16 (get 128 Expected) (get 128 Desired) (get 64 Addr) m;
    Ok (put 128 v D, m)
  else Assert.

(** The operation without a result. *)
Definition atomic_update (f : Z -> Z -> Z) (OpSize Value Addr : Z) (m : gmap Z Z) : outcome (gmap Z Z) :=
  by_size OpSize (fun n =>
    '(_, m) ← atomic_rmw n (fun Previous => f Previous (get (bits n) Value)) (get 64 Addr) m; Ok m).
Definition Op_AtomicAdd := atomic_update Z.add.
Definition Op_AtomicSub := atomic_update Z.sub.
Definition Op_AtomicAnd := atomic_update Z.land.
Definition Op_AtomicOr := atomic_update Z.lor.
Definition Op_AtomicXor := atomic_update Z.lxor.

(** The operation that stores the previous value in its cell. *)
Definition atomic_fetch (f : Z -> Z -> Z) (OpSize D Value Addr : Z) (m : gmap Z Z) : outcome (Z * gmap Z Z) :=
  by_size OpSize (fun n =>
    atomic_GD (atomic_rmw n (fun Previous => f Previous (get (bits n) Value)) (get 64 Addr) m) D).
Definition Op_AtomicSwap := atomic_fetch (fun _ Src => Src).
Definition Op_AtomicFetchAdd := atomic_fetch Z.add.
Definition Op_AtomicFetchSub := atomic_fetch Z.sub.
Definition Op_AtomicFetchAnd := atomic_fetch Z.land.
Definition Op_AtomicFetchOr := atomic_fetch Z.lor.
Definition Op_AtomicFetchXor := atomic_fetch Z.lxor.
Definition Op_AtomicFetchNeg (OpSize D Addr : Z) (m : gmap Z Z) : outcome (Z * gmap Z Z) :=
  by_size OpSize (fun n => atomic_GD (AtomicFetchNeg n (get 64 Addr) m) D).

(** * Atomic operations: theorems

    A thread's atomic operation is one step on guest memory, so what several
    threads do to a cell is a sequence of such steps in some order. Updates of the
    same kind leave the same memory in every order; of several threads that try to
    exchange the same expected value exactly one succeeds; the fetching operations
    return the values that the sequence passes through. *)
(** ** Accesses *)

Definition access (n : nat) : Prop := n = 1%nat \/ n = 2%nat \/ n = 4%nat \/ n = 8%nat.

Lemma by_size_access {A} n (f : nat -> outcome A) : access n -> by_size (Z.of_nat n) f = f n.
Proof. intros [->|[->|[->| ->]]]; reflexivity. Qed.

Lemma access_bits n : access n -> 0 <= bits n <= 64.
Proof. unfold bits. intros [->|[->|[->| ->]]]; lia. Qed.

(** ** Updates *)

Inductive AtomicOp := AAdd | ASub | AAnd | AOr | AXor.

Definition update (op : AtomicOp) : Z -> Z -> Z -> gmap Z Z -> outcome (gmap Z Z) :=
  match op with
  | AAdd => Op_AtomicAdd | ASub => Op_AtomicSub | AAnd => Op_AtomicAnd | AOr => Op_AtomicOr | AXor => Op_AtomicXor
  end.
Definition fetch (op : AtomicOp) : Z -> Z -> Z -> Z -> gmap Z Z -> outcome (Z * gmap Z Z) :=
  match op with
  | AAdd => Op_AtomicFetchAdd | ASub => Op_AtomicFetchSub | AAnd => Op_AtomicFetchAnd
  | AOr => Op_AtomicFetchOr | AXor => Op_AtomicFetchXor
  end.
Definition arith (op : AtomicOp) : Z -> Z -> Z :=
  match op with AAdd => Z.add | ASub => Z.sub | AAnd => Z.land | AOr => Z.lor | AXor => Z.lxor end.

(** Operations that commute with each other. *)
Definition kind (op : AtomicOp) : nat :=
  match op with AAdd | ASub => 0 | AAnd => 1 | AOr => 2 | AXor => 3 end.

Lemma arith_commutes f g v x y : kind f = kind g -> arith f (arith g v x) y = arith g (arith f v y) x.
Proof.
  destruct f, g; intros E; try discriminate E; cbn [arith]; try lia.
  all: zbits.
Qed.

Lemma arith_uint f w v x : 0 <= w -> uint w (arith f (uint w v) x) = uint w (arith f v x).
Proof.
  intros Hw. destruct f; cbn [arith]; [| |zbits..].
  - rewrite <- uint_add, uint_idemp, uint_add. reflexivity.
  - rewrite <- uint_sub, uint_idemp, uint_sub. reflexivity.
Qed.

Lemma update_access op n x a m :
  access n -> update op (Z.of_nat n) x a m =
    (v ← deref (load n m (get 64 a)); Ok (store n m (get 64 a) (arith op v (get (bits n) x)))).
Proof.
  intros Hn. destruct op; cbn [update]; unfold Op_AtomicAdd, Op_AtomicSub, Op_AtomicAnd, Op_AtomicOr, Op_AtomicXor, atomic_update;
    rewrite by_size_access by exact Hn; unfold atomic_rmw; destruct (load n m (get 64 a)); reflexivity.
Qed.

Lemma fetch_access op n D x a m :
  access n -> fetch op (Z.of_nat n) D x a m =
    atomic_GD (atomic_rmw n (fun v => arith op v (get (bits n) x)) (get 64 a) m) D.
Proof.
  intros Hn. destruct op; cbn [fetch];
    unfold Op_AtomicFetchAdd, Op_AtomicFetchSub, Op_AtomicFetchAnd, Op_AtomicFetchOr, Op_AtomicFetchXor, atomic_fetch;
    rewrite by_size_access by exact Hn; reflexivity.
Qed.

(** The updates of several threads on one cell, in the order in which they take effect. *)
Fixpoint run_updates (n : nat) (a : Z) (l : list (AtomicOp * Z)) (m : gmap Z Z) : outcome (gmap Z Z) :=
  match l with
  | [] => Ok m
  | (op, x) :: l => m ← update op (Z.of_nat n) x a m; run_updates n a l m
  end.

(** What the cell holds after them. *)
Definition net (n : nat) (v : Z) (l : list (AtomicOp * Z)) : Z :=
  foldl (fun v p => arith p.1 v (get (bits n) p.2)) v l.

Lemma net_perm n v l l' k : Forall (fun p => kind p.1 = k) l -> Permutation l l' -> net n v l = net n v l'.
Proof.
  intros Hk Hp. revert v Hk. induction Hp as [|p l l' Hp IH|p q l|l1 l2 l3 H1 IH1 H2 IH2]; intros v Hk.
  - reflexivity.
  - apply Forall_cons_iff in Hk as [_ Hk]. cbn. apply IH, Hk.
  - apply Forall_cons_iff in Hk as [Hq Hk]. apply Forall_cons_iff in Hk as [Hp _].
    unfold net. cbn [foldl]. rewrite arith_commutes by congruence. reflexivity.
  - rewrite IH1 by exact Hk. apply IH2. rewrite <- H1. exact Hk.
Qed.

Lemma net_uint n v l : uint (bits n) (net n (uint (bits n) v) l) = uint (bits n) (net n v l).
Proof.
  revert v. induction l as [|p l IH]; intros v; [apply uint_idemp|].
  unfold net in *. cbn [foldl]. rewrite <- IH, arith_uint by (unfold bits; lia). apply IH.
Qed.

Lemma run_updates_cons n a op x l m v :
  access n -> load n m (get 64 a) = Some v ->
  run_updates n a ((op, x) :: l) m = run_updates n a l (store n m (get 64 a) (arith op v (get (bits n) x))).
Proof. intros Hn Hv. cbn [run_updates]. rewrite update_access, Hv by exact Hn. reflexivity. Qed.

Lemma run_updates_net n a p l m v :
  access n -> load n m (get 64 a) = Some v ->
  run_updates n a (p :: l) m = Ok (store n m (get 64 a) (net n v (p :: l))).
Proof.
  intros Hn. revert p m v. induction l as [|q l IH]; intros [op x] m v Hv;
    rewrite (run_updates_cons _ _ _ _ _ _ v) by assumption; [reflexivity|].
  rewrite (IH q _ (uint (bits n) (arith op v (get (bits n) x)))) by apply load_store_same.
  rewrite store_store, <- store_uint. fold (bits n). rewrite net_uint. unfold bits at 1. rewrite store_uint. reflexivity.
Qed.

(** C24: Updates of one kind (additions and subtractions, conjunctions,
    disjunctions, or exclusive disjunctions) that threads perform on a mapped cell
    of 1, 2, 4 or 8 bytes never fail, leave the same memory in every order in which
    they take effect, and the cell then holds the wrapped combination of all the
    operands: no update is lost. *)
Theorem atomic_updates_any_order n a k l l' m v
  (Hn : access n) (Hv : load n m (get 64 a) = Some v)
  (Hk : Forall (fun p => kind p.1 = k) l) (Hp : Permutation l l') :
  exists m', run_updates n a l m = Ok m' /\ run_updates n a l' m = Ok m' /\
    load n m' (get 64 a) = Some (uint (bits n) (net n v l)) /\
    (forall b, ~ get 64 a <= b < get 64 a + Z.of_nat n -> m' !! b = m !! b).
Proof.
  pose proof (load_uint _ _ _ _ Hv) as Hr. destruct l as [|p l].
  - apply Permutation_nil in Hp as ->. exists m. fold (bits n) in Hr. rewrite Hv. cbn. rewrite Hr. auto.
  - destruct l' as [|p' l']; [apply Permutation_sym, Permutation_nil in Hp; discriminate|].
    exists (store n m (get 64 a) (net n v (p :: l))). rewrite !run_updates_net with (v := v) by assumption.
    rewrite (net_perm _ v _ _ k Hk Hp). repeat split; [apply load_store_same|].
    intros b Hb. apply store_frame. lia.
Qed.

Lemma atomic_updates_any_order_witness :
  let m := store 4 ∅ 0x1000 0xFFFFFFFF in
  exists m', run_updates 4 0x1000 [(AAdd, 3); (ASub, 1); (AAdd, 7)] m = Ok m' /\
    run_updates 4 0x1000 [(AAdd, 7); (AAdd, 3); (ASub, 1)] m = Ok m' /\
    load 4 m' 0x1000 = Some 8 /\ (forall b, ~ 0x1000 <= b < 0x1000 + 4 -> m' !! b = m !! b).
Proof.
  intros m. apply (atomic_updates_any_order 4 0x1000 0 [(AAdd, 3); (ASub, 1); (AAdd, 7)] [(AAdd, 7); (AAdd, 3); (ASub, 1)]
    m 0xFFFFFFFF).
  - right; right; left; reflexivity.
  - reflexivity.
  - repeat constructor.
  - apply Permutation_sym. apply (Permutation_cons_append [(AAdd, 3); (ASub, 1)] (AAdd, 7)).
Defined.

(** ** Fetching operations *)

(** The cells of the results, one per operation, all initially zero. *)
Fixpoint run_fetches (n : nat) (a : Z) (l : list (AtomicOp * Z)) (m : gmap Z Z) : outcome (list Z * gmap Z Z) :=
  match l with
  | [] => Ok ([], m)
  | (op, x) :: l =>
      '(r, m) ← fetch op (Z.of_nat n) 0 x a m; '(rs, m) ← run_fetches n a l m; Ok (r :: rs, m)
  end.

(** The values a cell passes through. *)
Fixpoint history (n : nat) (v : Z) (l : list (AtomicOp * Z)) : list Z :=
  match l with
  | [] => []
  | (op, x) :: l => v :: history n (uint (bits n) (arith op v (get (bits n) x))) l
  end.

Lemma atomic_GD_0 n r m : access n -> uint (bits n) r = r -> atomic_GD (Ok (r, m)) 0 = Ok (r, m).
Proof.
  intros Hn Hr. pose proof (uint_range (bits n) r). pose proof (access_bits n Hn).
  pose proof (Z.pow_le_mono_r 2 (bits n) 64).
  unfold atomic_GD, GD. cbn -[uint put]. rewrite put_small by lia. rewrite uint_small by lia. reflexivity.
Qed.

Lemma run_fetches_history n a l m v :
  access n -> load n m (get 64 a) = Some v ->
  exists m', run_fetches n a l m = Ok (history n v l, m') /\
    load n m' (get 64 a) = Some (uint (bits n) (net n v l)).
Proof.
  intros Hn. revert m v. induction l as [|[op x] l IH]; intros m v Hv; cbn [run_fetches history];
    pose proof (load_uint _ _ _ _ Hv) as Hr; fold (bits n) in Hr.
  - exists m. cbn. rewrite Hr. auto.
  - rewrite fetch_access by exact Hn. unfold atomic_rmw. rewrite Hv. cbn [deref mbind outcome_bind].
    rewrite (atomic_GD_0 n) by assumption. cbn [mbind outcome_bind].
    destruct (IH (store n m (get 64 a) (arith op v (get (bits n) x))) _ (load_store_same _ _ _ _)) as (m' & E & L).
    rewrite E. exists m'. split; [reflexivity|]. rewrite L. f_equal. fold (bits n). rewrite net_uint. reflexivity.
Qed.

Lemma history_tickets n v k i :
  (i < k)%nat -> uint (bits n) v = v -> 0 < bits n ->
  history n v (repeat (AAdd, 1) k) !! i = Some (uint (bits n) (v + Z.of_nat i)).
Proof.
  revert v i. induction k as [|k IH]; intros v i Hi Hv Hb; [lia|]. cbn [repeat history arith].
  destruct i as [|i]; cbn.
  - rewrite Z.add_0_r, Hv. reflexivity.
  - assert (get (bits n) 1 = 1) as ->.
    { apply uint_small. pose proof (Z.pow_le_mono_r 2 1 (bits n)). lia. }
    rewrite IH by (lia || apply uint_idemp). rewrite <- uint_add, uint_idemp, uint_add.
    do 2 f_equal. lia.
Qed.

(** Fetching operations on a mapped cell that take effect one after the other
    never fail and return the values the cell passes through, each zero-extended
    in its own cell; in particular threads that draw tickets with fetch-and-add of
    one get the consecutive numbers from the initial value on, wrapped to the
    width: no two threads get the same ticket while they are fewer than the width
    can count. *)
Theorem AtomicFetch_history n a l m v (Hn : access n) (Hv : load n m (get 64 a) = Some v) :
  (exists m', run_fetches n a l m = Ok (history n v l, m') /\
    load n m' (get 64 a) = Some (uint (bits n) (net n v l))) /\
  (forall k i, (i < k)%nat -> exists rs m', run_fetches n a (repeat (AAdd, 1) k) m = Ok (rs, m') /\
    rs !! i = Some (uint (bits n) (v + Z.of_nat i))).
Proof.
  split; [apply run_fetches_history; assumption|]. intros k i Hi.
  destruct (run_fetches_history n a (repeat (AAdd, 1) k) m v Hn Hv) as (m' & E & _).
  exists (history n v (repeat (AAdd, 1) k)), m'. split; [exact E|]. apply history_tickets; [exact Hi| |].
  - exact (load_uint _ _ _ _ Hv).
  - unfold bits. destruct Hn as [->|[->|[->| ->]]]; lia.
Qed.

Lemma AtomicFetch_history_witness :
  let m := store 2 ∅ 0x3000 0xFFFE in
  exists m', run_fetches 2 0x3000 [(AAdd, 1); (AAdd, 1); (AXor, 0xFF); (AAdd, 1)] m = Ok ([0xFFFE; 0xFFFF; 0; 0xFF], m') /\
    load 2 m' 0x3000 = Some 0x100.
Proof.
  intros m. apply (AtomicFetch_history 2 0x3000 [(AAdd, 1); (AAdd, 1); (AXor, 0xFF); (AAdd, 1)] m 0xFFFE).
  - right; left; reflexivity.
  - reflexivity.
Defined.

(** ** Compare and swap *)

(** Attempts of several threads to exchange the same expected value. *)
Fixpoint run_cas (n : nat) (a e : Z) (ds : list Z) (m : gmap Z Z) : outcome (list Z * gmap Z Z) :=
  match ds with
  | [] => Ok ([], m)
  | d :: ds => '(r, m) ← Op_CAS (Z.of_nat n) 0 e d a m; '(rs, m) ← run_cas n a e ds m; Ok (r :: rs, m)
  end.

Lemma Op_CAS_access n e d a m v :
  access n -> load n m (get 64 a) = Some v ->
  Op_CAS (Z.of_nat n) 0 e d a m =
    Ok (v, if v =? get (bits n) e then store n m (get 64 a) d else m).
Proof.
  intros Hn Hv. unfold Op_CAS. rewrite by_size_access by exact Hn. unfold AtomicCompareAndSwap. rewrite Hv.
  cbn [deref mbind outcome_bind]. pose proof (load_uint _ _ _ _ Hv) as Hr. fold (bits n) in Hr.
  destruct (Z.eqb_spec v (get (bits n) e)) as [<-|_].
  - rewrite (atomic_GD_0 n) by assumption. unfold get. rewrite <- (store_uint n m _ d). reflexivity.
  - apply (atomic_GD_0 n); assumption.
Qed.

Lemma run_cas_lost n a e ds m v :
  access n -> load n m (get 64 a) = Some v -> v <> get (bits n) e ->
  run_cas n a e ds m = Ok (replicate (length ds) v, m).
Proof.
  intros Hn Hv He. induction ds as [|d ds IH]; cbn [run_cas length replicate]; [reflexivity|].
  rewrite (Op_CAS_access n e d a m v) by assumption. rewrite (proj2 (Z.eqb_neq _ _) He).
  cbn [mbind outcome_bind]. rewrite IH. reflexivity.
Qed.

(** C25: When threads try to exchange the same expected value of a mapped cell for
    values of their own, exactly the first of them succeeds: it reads the expected
    value, its value is in the cell afterwards and all the others read that value
    instead. If the cell holds another value, every attempt reads that one and
    memory stays as it is. *)
Theorem Op_CAS_one_winner n a e d ds m v
  (Hn : access n) (Hv : load n m (get 64 a) = Some v)
  (Hd : Forall (fun d => get (bits n) d <> get (bits n) e) (d :: ds)) :
  run_cas n a e (d :: ds) m =
    if v =? get (bits n) e
    then Ok (get (bits n) e :: replicate (length ds) (get (bits n) d), store n m (get 64 a) d)
    else Ok (replicate (S (length ds)) v, m).
Proof.
  destruct (Z.eqb_spec v (get (bits n) e)) as [E|E]; [|apply (run_cas_lost n a e (d :: ds)); assumption].
  cbn [run_cas]. rewrite (Op_CAS_access n e d a m v), E, Z.eqb_refl by assumption. cbn [mbind outcome_bind].
  apply Forall_cons_iff in Hd as [Hd _].
  rewrite (run_cas_lost n a e ds _ (get (bits n) d)); [reflexivity|exact Hn|apply load_store_same|exact Hd].
Qed.

Lemma Op_CAS_one_winner_witness :
  let m := store 8 ∅ 0x2000 0 in
  run_cas 8 0x2000 0 [7; 8; 9] m = Ok ([0; 7; 7], store 8 m 0x2000 7).
Proof.
  intros m. apply (Op_CAS_one_winner 8 0x2000 0 7 [8; 9] m 0).
  - repeat right; reflexivity.
  - reflexivity.
  - repeat constructor; discriminate.
Defined.
