(* ===== verification/Interp.v ===== *)
(** * The IR interpreter

    [InterpreterOps::InterpretIR] and the handlers of [MemoryOps.cpp] and
    [BranchOps.cpp] that move data between the SSA cells, the guest context and
    guest memory. [exec_op] is the handler table; [run_code] is the loop over
    the nodes of a block and [interpret_blocks] the loop over blocks. *)
From Stdlib Require Import ZArith Lia Bool.
From stdpp Require Import base gmap list numbers option.
From S2P Require Import Prelude IR ALUOps Atomic.
#[local] Open Scope Z_scope.

(** [IROpData] with the context frame ([CpuStateFrame], a byte memory from
    offset 0) and guest memory it points to. *)
Record IROpData := mkData {
  CurrentEntry : Z;
  SSAData : gmap nat Z;
  Frame : gmap Z Z;
  Mem : gmap Z Z;
  Quit : bool;
  Redo : bool;
  BlockIterator : NodeID
}.

(** The layout of [CPUState] ([CoreState.h], packed). *)
Definition RIP_OFFSET : Z := 0.
Definition GREGS_OFFSET : Z := 8.
Definition FLAGS_OFFSET : Z := 672.

(** A cell that was not written holds the zero of the initial [memset]. *)
Definition cell (st : IROpData) (n : NodeID) : Z := default 0 (SSAData st !! n).

Definition set_cell (n : NodeID) (v : Z) (st : IROpData) : IROpData :=
  mkData (CurrentEntry st) (<[n := v]> (SSAData st)) (Frame st) (Mem st)
         (Quit st) (Redo st) (BlockIterator st).
Definition set_frame (f : gmap Z Z) (st : IROpData) : IROpData :=
  mkData (CurrentEntry st) (SSAData st) f (Mem st) (Quit st) (Redo st) (BlockIterator st).
Definition set_mem (m : gmap Z Z) (st : IROpData) : IROpData :=
  mkData (CurrentEntry st) (SSAData st) (Frame st) m (Quit st) (Redo st) (BlockIterator st).
Definition set_results (quit redo : bool) (b : NodeID) (st : IROpData) : IROpData :=
  mkData (CurrentEntry st) (SSAData st) (Frame st) (Mem st) quit redo b.

(** ** Context and memory handlers *)

Definition Op_LoadContext (OpSize Offset Dst : Z) (f : gmap Z Z) : outcome Z :=
  let ld (n : nat) := v ← deref (load n f Offset); GD v Dst in
  if OpSize =? 1 then ld 1%nat else if OpSize =? 2 then ld 2%nat
  else if OpSize =? 4 then ld 4%nat else if OpSize =? 8 then ld 8%nat
  else if OpSize =? 16 then v ← deref (load 16 f Offset); Ok (put 128 v Dst)
  else Assert.

Definition Op_StoreContext (OpSize Offset Value : Z) (f : gmap Z Z) : gmap Z Z :=
  store (Z.to_nat OpSize) f Offset Value.

(** The context at [BaseOffset + Index * Stride]. *)
Definition Op_LoadContextIndexed (OpSize BaseOffset Stride Index Dst : Z) (f : gmap Z Z) : outcome Z :=
  Op_LoadContext OpSize (uint 64 (BaseOffset + get 64 Index * Stride)) Dst f.
Definition Op_StoreContextIndexed (OpSize BaseOffset Stride Index Value : Z) (f : gmap Z Z) : gmap Z Z :=
  Op_StoreContext OpSize (uint 64 (BaseOffset + get 64 Index * Stride)) Value f.

Definition Op_LoadFlag (Flag Dst : Z) (f : gmap Z Z) : outcome Z :=
  v ← deref (load 1 f (FLAGS_OFFSET + Flag)); GD v Dst.

Definition Op_StoreFlag (Flag Value : Z) (f : gmap Z Z) : gmap Z Z :=
  store 1 f (FLAGS_OFFSET + Flag) (get 8 Value).

(** The address of [LoadMem] and [StoreMem]; an invalid offset node is absent. *)
Definition mem_address (OffsetType : MemOffsetType) (OffsetScale Addr : Z) (Offset : option Z) : Z :=
  match Offset with
  | None => get 64 Addr
  | Some Offset =>
      let Offset := uint 64 (get 64 Offset * OffsetScale) in
      uint 64 (get 64 Addr +
        match OffsetType with
        | MEM_OFFSET_SXTX => Offset
        | MEM_OFFSET_UXTW => uint 32 Offset
        | MEM_OFFSET_SXTW => sint 32 Offset
        end)
  end.

(** The whole 16-byte cell is cleared first, then the loaded bytes are written. *)
Definition Op_LoadMem (OpSize : Z) (addr : Z) (m : gmap Z Z) : outcome Z :=
  v ← deref (load (Z.to_nat OpSize) m addr); Ok (put (8 * OpSize) v 0).

Definition Op_StoreMem (OpSize addr Value : Z) (m : gmap Z Z) : outcome (gmap Z Z) :=
  _ ← deref (load (Z.to_nat OpSize) m addr);
  Ok (store (Z.to_nat OpSize) m addr (get (8 * OpSize) Value)).

Definition Op_CondJump (Cond CompareSize Cmp1 Cmp2 : Z) (TrueBlock FalseBlock : NodeID)
    : outcome NodeID :=
  CompResult ← IsConditionTrue (if CompareSize =? 4 then 32 else 64) Cond (get 64 Cmp1) (get 64 Cmp2);
  Ok (if (CompResult : bool) then TrueBlock else FalseBlock).

(** ** The handler table *)

(** Operations whose only effect is the new value of the node's own cell. *)
Definition exec_pure (st : IROpData) (Node : NodeID) (h : IROp_Header) : option (outcome Z) :=
  let D := cell st Node in
  let c := cell st in
  let sz := Size h in
  match Op h, Args h with
  | OP_CONSTANT k, [] => Some (Op_Constant k D)
  | OP_ENTRYPOINTOFFSET o, [] => Some (Op_EntrypointOffset sz (CurrentEntry st) o D)
  | OP_TRUNCELEMENTPAIR, [a] => Some (Op_TruncElementPair sz D (c a))
  | OP_EXTRACTELEMENTPAIR e, [a] => Some (Op_ExtractElementPair sz e D (c a))
  | OP_CREATEELEMENTPAIR, [a; b] => Some (Op_CreateElementPair (ElementSize h) D (c a) (c b))
  | OP_MOV, [a] => Some (Op_Mov sz D (c a))
  | OP_ADD, [a; b] => Some (Op_Add sz D (c a) (c b))
  | OP_SUB, [a; b] => Some (Op_Sub sz D (c a) (c b))
  | OP_NEG, [a] => Some (Op_Neg sz D (c a))
  | OP_MUL, [a; b] => Some (Op_Mul sz D (c a) (c b))
  | OP_UMUL, [a; b] => Some (Op_UMul sz D (c a) (c b))
  | OP_DIV, [a; b] => Some (Op_Div sz D (c a) (c b))
  | OP_UDIV, [a; b] => Some (Op_UDiv sz D (c a) (c b))
  | OP_REM, [a; b] => Some (Op_Rem sz D (c a) (c b))
  | OP_UREM, [a; b] => Some (Op_URem sz D (c a) (c b))
  | OP_MULH, [a; b] => Some (Op_MulH sz D (c a) (c b))
  | OP_UMULH, [a; b] => Some (Op_UMulH sz D (c a) (c b))
  | OP_OR, [a; b] => Some (Op_Or sz D (c a) (c b))
  | OP_AND, [a; b] => Some (Op_And sz D (c a) (c b))
  | OP_ANDN, [a; b] => Some (Op_Andn sz D (c a) (c b))
  | OP_XOR, [a; b] => Some (Op_Xor sz D (c a) (c b))
  | OP_LSHL, [a; b] => Some (Op_Lshl sz D (c a) (c b))
  | OP_LSHR, [a; b] => Some (Op_Lshr sz D (c a) (c b))
  | OP_ASHR, [a; b] => Some (Op_Ashr sz D (c a) (c b))
  | OP_ROR, [a; b] => Some (Op_Ror sz D (c a) (c b))
  | OP_EXTR l, [a; b] => Some (Op_Extr sz l D (c a) (c b))
  | OP_PDEP, [a; b] => Some (Op_PDep sz D (c a) (c b))
  | OP_PEXT, [a; b] => Some (Op_PExt sz D (c a) (c b))
  | OP_LDIV, [l; u; d] => Some (Op_LDiv sz D (c l) (c u) (c d))
  | OP_LUDIV, [l; u; d] => Some (Op_LUDiv sz D (c l) (c u) (c d))
  | OP_LREM, [l; u; d] => Some (Op_LRem sz D (c l) (c u) (c d))
  | OP_LUREM, [l; u; d] => Some (Op_LURem sz D (c l) (c u) (c d))
  | OP_NOT, [a] => Some (Op_Not sz D (c a))
  | OP_POPCOUNT, [a] => Some (Op_Popcount D (c a))
  | OP_FINDLSB, [a] => Some (Op_FindLSB D (c a))
  | OP_FINDMSB, [a] => Some (Op_FindMSB sz D (c a))
  | OP_FINDTRAILINGZEROS, [a] => Some (Op_FindTrailingZeros sz D (c a))
  | OP_COUNTLEADINGZEROES, [a] => Some (Op_CountLeadingZeroes sz D (c a))
  | OP_REV, [a] => Some (Op_Rev sz D (c a))
  | OP_BFI w l, [d; s] => Some (Op_Bfi w l D (c d) (c s))
  | OP_BFE w l, [a] => Some (Op_Bfe sz w l D (c a))
  | OP_SBFE w l, [a] => Some (Op_Sbfe sz w l D (c a))
  | OP_SELECT k cs, [x; y; t; f] => Some (Op_Select sz k cs D (c x) (c y) (c t) (c f))
  | OP_FCMP fl, [a; b] => Some (Op_FCmp (ElementSize h) fl D (c a) (c b))
  | OP_GETHOSTFLAG fl, [a] => Some (Op_GetHostFlag fl D (c a))
  | OP_LOADCONTEXT o, [] => Some (Op_LoadContext sz o D (Frame st))
  | OP_LOADCONTEXTINDEXED o k, [i] => Some (Op_LoadContextIndexed sz o k (c i) D (Frame st))
  | OP_LOADFLAG fl, [] => Some (Op_LoadFlag fl D (Frame st))
  | OP_LOADMEM ty sc, [a; o] | OP_LOADMEMTSO ty sc, [a; o] =>
      Some (Op_LoadMem sz (mem_address ty sc (c a) (if decide (o = InvalidNode) then None else Some (c o)))
              (Mem st))
  | _, _ => None
  end.

(** Atomic accesses: the new contents of the node's cell, if it has one, and of the memory. *)
Definition exec_atomic (st : IROpData) (Node : NodeID) (h : IROp_Header) : option (outcome (option Z * gmap Z Z)) :=
  let D := cell st Node in
  let c := cell st in
  let sz := Size h in
  let m := Mem st in
  let update (r : outcome (gmap Z Z)) := Some (m ← r; Ok (None, m)) in
  let fetch (r : outcome (Z * gmap Z Z)) := Some ('(v, m) ← r; Ok (Some v, m)) in
  match Op h, Args h with
  | OP_CAS, [e; d; a] => fetch (Op_CAS sz D (c e) (c d) (c a) m)
  | OP_CASPAIR, [e; d; a] => fetch (Op_CASPair (ElementSize h) D (c e) (c d) (c a) m)
  | OP_ATOMICADD, [v; a] => update (Op_AtomicAdd sz (c v) (c a) m)
  | OP_ATOMICSUB, [v; a] => update (Op_AtomicSub sz (c v) (c a) m)
  | OP_ATOMICAND, [v; a] => update (Op_AtomicAnd sz (c v) (c a) m)
  | OP_ATOMICOR, [v; a] => update (Op_AtomicOr sz (c v) (c a) m)
  | OP_ATOMICXOR, [v; a] => update (Op_AtomicXor sz (c v) (c a) m)
  | OP_ATOMICSWAP, [v; a] => fetch (Op_AtomicSwap sz D (c v) (c a) m)
  | OP_ATOMICFETCHADD, [v; a] => fetch (Op_AtomicFetchAdd sz D (c v) (c a) m)
  | OP_ATOMICFETCHSUB, [v; a] => fetch (Op_AtomicFetchSub sz D (c v) (c a) m)
  | OP_ATOMICFETCHAND, [v; a] => fetch (Op_AtomicFetchAnd sz D (c v) (c a) m)
  | OP_ATOMICFETCHOR, [v; a] => fetch (Op_AtomicFetchOr sz D (c v) (c a) m)
  | OP_ATOMICFETCHXOR, [v; a] => fetch (Op_AtomicFetchXor sz D (c v) (c a) m)
  | OP_ATOMICFETCHNEG, [a] => fetch (Op_AtomicFetchNeg sz D (c a) m)
  | _, _ => None
  end.

Definition exec_op (st : IROpData) (Node : NodeID) (h : IROp_Header) : outcome IROpData :=
  match exec_pure st Node h with
  | Some r => v ← r; Ok (set_cell Node v st)
  | None =>
      match exec_atomic st Node h with
      | Some r =>
          '(v, m) ← r;
          Ok (set_mem m match v with Some v => set_cell Node v st | None => st end)
      | None =>
      match Op h, Args h with
      | OP_BEGINBLOCK, _ | OP_ENDBLOCK, _ | OP_INVALIDATEFLAGS _, _ | OP_YIELD, _
      | OP_INLINECONSTANT _, _ | OP_INLINEENTRYPOINTOFFSET _, _ => Ok st
      | OP_STORECONTEXT o, [a] =>
          Ok (set_frame (Op_StoreContext (Size h) o (cell st a) (Frame st)) st)
      | OP_STORECONTEXTINDEXED o k, [v; i] =>
          Ok (set_frame (Op_StoreContextIndexed (Size h) o k (cell st i) (cell st v) (Frame st)) st)
      | OP_STOREFLAG fl, [a] => Ok (set_frame (Op_StoreFlag fl (cell st a) (Frame st)) st)
      | OP_STOREMEM ty sc, [v; a; o] | OP_STOREMEMTSO ty sc, [v; a; o] =>
          m ← Op_StoreMem (Size h)
                (mem_address ty sc (cell st a) (if decide (o = InvalidNode) then None else Some (cell st o)))
                (cell st v) (Mem st);
          Ok (set_mem m st)
      | OP_JUMP, [t] => Ok (set_results (Quit st) true t st)
      | OP_CONDJUMP k cs, [x; y; t; f] =>
          b ← Op_CondJump k cs (cell st x) (cell st y) t f;
          Ok (set_results (Quit st) true b st)
      | OP_EXITFUNCTION, [rip] =>
          Ok (set_results true (Redo st) (BlockIterator st)
               (set_frame (store (Z.to_nat (Size h)) (Frame st) RIP_OFFSET (cell st rip)) st))
      | _, _ => Assert
      end end
  end.

(** ** Blocks *)

(** The loop over the nodes of a block, which a branch or an exit leaves. *)
Fixpoint run_code (code : list (NodeID * IROp_Header)) (st : IROpData) : outcome IROpData :=
  match code with
  | [] => Ok st
  | (n, h) :: code =>
      st ← exec_op st n h;
      if Quit st || Redo st then Ok st else run_code code st
  end.

(** A program is its code blocks in list order, each with its node. *)
Abbreviation IRBlocks := (list (NodeID * list (NodeID * IROp_Header))).

Fixpoint find_block (bs : IRBlocks) (b : NodeID)
    : option (list (NodeID * IROp_Header) * option NodeID) :=
  match bs with
  | [] => None
  | (b', code) :: bs =>
      if decide (b' = b) then Some (code, fst <$> head bs) else find_block bs b
  end.

(** [InterpretIR]'s outer loop: [None] when the fuel is spent (a guest loop that
    does not leave the translated region). *)
Fixpoint interpret_blocks (fuel : nat) (bs : IRBlocks) (st : IROpData) : option (outcome IROpData) :=
  match fuel with
  | O => None
  | S fuel =>
      match find_block bs (BlockIterator st) with
      | None => Some Undef
      | Some (code, next) =>
          match run_code code (set_results false false (BlockIterator st) st) with
          | Ok st =>
              if Redo st then interpret_blocks fuel bs st
              else if Quit st then Some (Ok st)
              else match next with
                   | None => Some (Ok st)
                   | Some b => interpret_blocks fuel bs (set_results (Quit st) (Redo st) b st)
                   end
          | Assert => Some Assert
          | Undef => Some Undef
          end
      end
  end.

Definition InterpretIR (fuel : nat) (bs : IRBlocks) (frame mem : gmap Z Z) : option (outcome IROpData) :=
  match load 8 frame RIP_OFFSET, head bs with
  | Some rip, Some (b, _) => interpret_blocks fuel bs (mkData rip ∅ frame mem false false b)
  | _, _ => Some Undef
  end.
