(* ===== verification/IRSpec.v ===== *)
(** * The reference semantics of the IR and the contract of a backend

    [ir_value] says, for each value-producing operation and operand size, which
    integer the operation denotes; it is written with arithmetic on integers and
    not with the cells and casts of a backend. [IRBackend] is the contract the
    code generators of the front end rely on: executing a node stores that value,
    zero-extended, in the node's cell and touches nothing else. *)
From Stdlib Require Import ZArith Lia Bool.
From stdpp Require Import base gmap list numbers option.
From S2P Require Import Prelude IR ALUOps Interp.
#[local] Open Scope Z_scope.

Definition size_48 (sz : Z) : bool := (sz =? 4) || (sz =? 8).
Definition size_1248 (sz : Z) : bool := (sz =? 1) || (sz =? 2) || (sz =? 4) || (sz =? 8).

(** Integer comparison at width [w]; the floating-point codes have no value here. *)
Definition cond_holds (w Cond a b : Z) : option bool :=
  let ua := uint w a in let ub := uint w b in
  let sa := sint w a in let sb := sint w b in
  if Cond =? COND_EQ then Some (ua =? ub)
  else if Cond =? COND_NEQ then Some (negb (ua =? ub))
  else if Cond =? COND_UGE then Some (ub <=? ua)
  else if Cond =? COND_ULT then Some (ua <? ub)
  else if Cond =? COND_UGT then Some (ub <? ua)
  else if Cond =? COND_ULE then Some (ua <=? ub)
  else if Cond =? COND_SGE then Some (sb <=? sa)
  else if Cond =? COND_SLT then Some (sa <? sb)
  else if Cond =? COND_SGT then Some (sb <? sa)
  else if Cond =? COND_SLE then Some (sa <=? sb)
  else None.

Definition when {A} (b : bool) (a : A) : option A := if b then Some a else None.

Definition ir_value (op : IROps) (sz : Z) (args : list Z) : option Z :=
  let w := 8 * sz in
  match op, args with
  | OP_CONSTANT k, [] => when (size_1248 sz && (uint 64 k <? 2 ^ w)) (uint 64 k)
  | OP_ADD, [a; b] => when (size_48 sz) (uint w (a + b))
  | OP_SUB, [a; b] => when (size_48 sz) (uint w (a - b))
  | OP_NEG, [a] => when (size_48 sz) (uint w (- a))
  | OP_MUL, [a; b] => when (size_48 sz) (uint w (a * b))
  | OP_UMUL, [a; b] => when (size_48 sz) (uint w (a * b))
  | OP_MULH, [a; b] => when (size_48 sz) (uint w ((sint w a * sint w b) / 2 ^ w))
  | OP_UMULH, [a; b] => when (size_48 sz) ((uint w a * uint w b) / 2 ^ w)
  | OP_DIV, [a; b] =>
      when (size_1248 sz && negb (uint w b =? 0)
              && negb ((sint w a =? - 2 ^ (w - 1)) && (sint w b =? -1)))
           (uint w (Z.quot (sint w a) (sint w b)))
  | OP_REM, [a; b] =>
      when (size_1248 sz && negb (uint w b =? 0)
              && negb ((sint w a =? - 2 ^ (w - 1)) && (sint w b =? -1)))
           (uint w (Z.rem (sint w a) (sint w b)))
  | OP_UDIV, [a; b] =>
      when (size_1248 sz && negb (uint w b =? 0)) (uint w a / uint w b)
  | OP_UREM, [a; b] =>
      when (size_1248 sz && negb (uint w b =? 0)) (uint w a mod uint w b)
  | OP_OR, [a; b] => when (size_1248 sz) (uint w (Z.lor a b))
  | OP_AND, [a; b] => when (size_1248 sz) (uint w (Z.land a b))
  | OP_ANDN, [a; b] => when (size_1248 sz) (uint w (Z.land a (Z.lnot b)))
  | OP_XOR, [a; b] => when (size_1248 sz) (uint w (Z.lxor a b))
  | OP_NOT, [a] => when (size_1248 sz) (uint w (Z.lnot a))
  | OP_LSHL, [a; b] => when (size_48 sz) (uint w (a * 2 ^ (b mod w)))
  | OP_LSHR, [a; b] => when (size_48 sz) (uint w a / 2 ^ (b mod w))
  | OP_ASHR, [a; b] => when (size_48 sz) (uint w (sint w a / 2 ^ (b mod w)))
  | OP_ROR, [a; b] =>
      let r := b mod w in
      when (size_48 sz && negb (r =? 0))
           (uint w a / 2 ^ r + (uint w a mod 2 ^ r) * 2 ^ (w - r))
  | OP_POPCOUNT, [a] => when ((1 <=? sz) && (sz <=? 8)) (popcount 64 (uint 64 a))
  | OP_BFE wd l, [a] =>
      when ((1 <=? wd) && (wd <=? w) && (sz <=? 8) && (0 <=? l) && (l <? 64))
           ((uint 64 a / 2 ^ l) mod 2 ^ wd)
  | OP_SBFE wd l, [a] =>
      when ((sz =? 8) && (1 <=? wd) && (0 <=? l) && (l + wd <=? 64))
           (uint 64 (sint wd (a / 2 ^ l)))
  | OP_BFI wd l, [d; s] =>
      when ((sz =? 8) && (1 <=? wd) && (0 <=? l) && (l + wd <=? 64))
           (uint 64 d - ((uint 64 d / 2 ^ l) mod 2 ^ wd) * 2 ^ l + uint wd s * 2 ^ l)
  | OP_SELECT c cs, [x; y; t; f] =>
      r ← cond_holds (if cs =? 4 then 32 else 64) c x y;
      when (size_48 sz) (uint w (if (r : bool) then t else f))
  | OP_GETHOSTFLAG fl, [a] =>
      when ((1 <=? sz) && (sz <=? 8) && (0 <=? fl) && (fl <? 64)) ((uint 64 a / 2 ^ fl) mod 2)
  | _, _ => None
  end.

(** The operations whose handlers leave the result zero-extended to the node's
    size. The interpreter sign-extends the results of the others to 64 bits. *)
Definition zero_extending (op : IROps) (sz : Z) : bool :=
  match op with
  | OP_NEG | OP_MUL | OP_MULH | OP_DIV | OP_REM => sz =? 8
  | OP_UMULH => sz =? 8
  | _ => true
  end.

(** A cell is well formed at a size when it is zero-extended from it. *)
Definition zext (sz v : Z) : Prop := 0 <= v < 2 ^ (8 * sz).

(** The reference run of a straight-line code block: every node's value is that
    of its operation on the values of its arguments. *)
Fixpoint ir_run (code : list (NodeID * IROp_Header)) (env : gmap NodeID Z)
    : option (gmap NodeID Z) :=
  match code with
  | [] => Some env
  | (n, h) :: code =>
      v ← ir_value (Op h) (Size h) ((fun a => default 0 (env !! a)) <$> Args h);
      ir_run code (<[n := v]> env)
  end.

(** What a front end may assume of a backend. *)
Class IRBackend := {
  step : IROpData -> NodeID -> IROp_Header -> outcome IROpData;
  step_value st n h v :
    ir_value (Op h) (Size h) (cell st <$> Args h) = Some v ->
    zero_extending (Op h) (Size h) = true ->
    zext (Size h) (cell st n) ->
    step st n h = Ok (set_cell n v st);
  step_loadflag st n sz es fl b :
    Frame st !! (FLAGS_OFFSET + fl) = Some b ->
    zext 8 (cell st n) ->
    step st n (mkOp (OP_LOADFLAG fl) sz es []) = Ok (set_cell n (uint 8 b) st);
  step_storeflag st n sz es fl a :
    step st n (mkOp (OP_STOREFLAG fl) sz es [a]) =
    Ok (set_frame (<[FLAGS_OFFSET + fl := uint 8 (cell st a)]> (Frame st)) st);
  step_invalidate st n sz es fl :
    step st n (mkOp (OP_INVALIDATEFLAGS fl) sz es []) = Ok st
}.
