(* ===== verification/InterpRefines.v ===== *)
(** * The interpreter refines the reference semantics of the IR *)
From Stdlib Require Import ZArith Lia Bool Btauto.
From stdpp Require Import base gmap list numbers option.
From S2P Require Import Prelude IR ALUOps Interp IRSpec.
#[local] Open Scope Z_scope.

(** ** Stores into a well-formed cell *)

Lemma zext_le sz sz' v : 0 <= sz <= sz' -> zext sz v -> zext sz' v.
Proof.
  unfold zext. intros. pose proof (Z.pow_le_mono_r 2 (8 * sz) (8 * sz')). lia.
Qed.

Lemma GD_zext sz v D : zext sz D -> 0 <= sz <= 8 -> GD v D = Ok (uint 64 v).
Proof.
  intros HD Hs. unfold GD. f_equal. apply put_small.
  exact (zext_le sz 8 D Hs HD).
Qed.

Lemma DO_OP_zext sz f D a b :
  zext sz D -> DO_OP (8 * sz) f D a b = Ok (uint (8 * sz) (f (uint (8 * sz) a) (uint (8 * sz) b))).
Proof. intros HD. unfold DO_OP. f_equal. apply put_small, HD. Qed.

Lemma size_48_cases sz : size_48 sz = true -> sz = 4 \/ sz = 8.
Proof. unfold size_48. intros. lia. Qed.

Lemma size_1248_cases sz : size_1248 sz = true -> sz = 1 \/ sz = 2 \/ sz = 4 \/ sz = 8.
Proof. unfold size_1248. intros. lia. Qed.

Lemma when_Some {A} b (a v : A) : when b a = Some v -> b = true /\ v = a.
Proof. destruct b; cbn; intros; simplify_eq; auto. Qed.

(** Splits [when c x = Some v] into the conditions of [c] and replaces [v]. *)
Ltac when_cases H :=
  apply when_Some in H as [H ->];
  repeat match goal with
  | H : _ && _ = true |- _ => apply andb_true_iff in H as [? ?]
  | H : negb _ = true |- _ => apply negb_true_iff in H
  end;
  try match goal with
  | H : size_48 _ = true |- _ => apply size_48_cases in H as [->| ->]
  | H : size_1248 _ = true |- _ => apply size_1248_cases in H as [->|[->|[->| ->]]]
  end.

(** Evaluates the widths of concrete sizes. *)
Ltac eval_widths :=
  change (8 * 1) with 8 in *; change (8 * 2) with 16 in *;
  change (8 * 4) with 32 in *; change (8 * 8) with 64 in *.

(** ** Bitwise operations do not see the bits above the width *)

Section Bitwise.
Variable f : Z -> Z -> Z.
Variable g : bool -> bool -> bool.
Hypothesis f_spec : forall a b i, Z.testbit (f a b) i = g (Z.testbit a i) (Z.testbit b i).

Lemma uint_bitwise w a b : 0 <= w -> uint w (f (uint w a) (uint w b)) = uint w (f a b).
Proof.
  intros. apply Z.bits_inj'. intros i Hi.
  rewrite !testbit_uint, !f_spec, !testbit_uint by lia.
  destruct (i <? w); reflexivity.
Qed.
End Bitwise.

Lemma Op_Or_spec sz D a b :
  size_1248 sz = true -> zext sz D -> Op_Or sz D a b = Ok (uint (8 * sz) (Z.lor a b)).
Proof.
  intros [->|[->|[->| ->]]]%size_1248_cases HD; cbn -[DO_OP];
    rewrite <- (uint_bitwise Z.lor orb Z.lor_spec) by lia; apply (DO_OP_zext _ _ _ _ _ HD).
Qed.

Lemma Op_And_spec sz D a b :
  size_1248 sz = true -> zext sz D -> Op_And sz D a b = Ok (uint (8 * sz) (Z.land a b)).
Proof.
  intros [->|[->|[->| ->]]]%size_1248_cases HD; cbn -[DO_OP];
    rewrite <- (uint_bitwise Z.land andb Z.land_spec) by lia; apply (DO_OP_zext _ _ _ _ _ HD).
Qed.

Lemma Op_Xor_spec sz D a b :
  size_1248 sz = true -> zext sz D -> Op_Xor sz D a b = Ok (uint (8 * sz) (Z.lxor a b)).
Proof.
  intros [->|[->|[->| ->]]]%size_1248_cases HD; cbn -[DO_OP];
    rewrite <- (uint_bitwise Z.lxor xorb Z.lxor_spec) by lia; apply (DO_OP_zext _ _ _ _ _ HD).
Qed.

Lemma Op_Andn_spec sz D a b :
  size_1248 sz = true -> zext sz D -> Op_Andn sz D a b = Ok (uint (8 * sz) (Z.land a (Z.lnot b))).
Proof.
  intros Hs HD.
  assert (forall w, 0 <= w -> uint w (Z.land (uint w a) (uint w (Z.lnot (uint w b)))) =
    uint w (Z.land a (Z.lnot b))) as E by (intros; zbits).
  destruct (size_1248_cases _ Hs) as [->|[->|[->| ->]]]; unfold Op_Andn; cbn -[DO_OP Z.lnot];
    unfold DO_OP, get; rewrite put_small by exact HD; f_equal; apply E; lia.
Qed.

(** Evaluates a table lookup at a constant. *)
Ltac eval_deref :=
  match goal with |- context [deref ?x] =>
    let v := eval vm_compute in (deref x) in change (deref x) with v end;
  cbn [mbind outcome_bind].

Lemma Op_Not_spec sz D a :
  size_1248 sz = true -> zext sz D -> Op_Not sz D a = Ok (uint (8 * sz) (Z.lnot a)).
Proof.
  intros [->|[->|[->| ->]]]%size_1248_cases HD; unfold Op_Not; cbn -[GD Z.lnot Z.land get];
    eval_deref; rewrite (GD_zext _ _ _ HD) by lia; f_equal; unfold get.
  - change 0xFF with (Z.ones 8). zbits.
  - change 0xFFFF with (Z.ones 16). zbits.
  - change 0xFFFFFFFF with (Z.ones 32). zbits.
  - change 0xFFFFFFFFFFFFFFFF with (Z.ones 64). zbits.
Qed.

(** ** Addition, subtraction and multiplication *)

Lemma Op_Add_spec sz D a b :
  size_48 sz = true -> zext sz D -> Op_Add sz D a b = Ok (uint (8 * sz) (a + b)).
Proof.
  intros [->| ->]%size_48_cases HD; cbn -[DO_OP];
    rewrite <- uint_add; apply (DO_OP_zext _ _ _ _ _ HD).
Qed.

Lemma Op_Sub_spec sz D a b :
  size_48 sz = true -> zext sz D -> Op_Sub sz D a b = Ok (uint (8 * sz) (a - b)).
Proof.
  intros [->| ->]%size_48_cases HD; cbn -[DO_OP];
    rewrite <- uint_sub; apply (DO_OP_zext _ _ _ _ _ HD).
Qed.

Lemma sint_uint w v x : 0 < w <= v -> sint w (uint v x) = sint w x.
Proof. intros. unfold sint. rewrite uint_uint by lia. reflexivity. Qed.

Lemma uint_sint_mul w a b : 0 < w -> uint w (sint w a * sint w b) = uint w (a * b).
Proof. intros. rewrite <- uint_mul, !uint_sint, uint_mul by lia. reflexivity. Qed.

Lemma Op_Neg_spec D a : zext 8 D -> Op_Neg 8 D a = Ok (uint 64 (- a)).
Proof.
  intros HD. cbn -[GD get]. rewrite (GD_zext 8 _ _ HD) by lia. f_equal.
  rewrite uint_sint by lia. rewrite <- !(Z.sub_0_l). rewrite <- uint_sub, uint_sint by lia.
  unfold get. rewrite uint_idemp. apply uint_sub.
Qed.

Lemma Op_Mul_spec D a b : zext 8 D -> Op_Mul 8 D a b = Ok (uint 64 (a * b)).
Proof.
  intros HD. cbn -[GD get]. rewrite (GD_zext 8 _ _ HD) by lia. f_equal.
  unfold get. rewrite !sint_uint, uint_sint_mul by lia. reflexivity.
Qed.

Lemma Op_UMul_spec sz D a b :
  size_48 sz = true -> zext sz D -> Op_UMul sz D a b = Ok (uint (8 * sz) (a * b)).
Proof.
  intros [->| ->]%size_48_cases HD; cbn -[GD get]; rewrite (GD_zext _ _ _ HD) by lia;
    f_equal; unfold get.
  - rewrite (uint_widen 32 64), !(uint_uint 32 64), uint_mul by lia. reflexivity.
  - rewrite uint_idemp, uint_mul. reflexivity.
Qed.

Lemma Op_MulH_spec D a b :
  zext 8 D -> Op_MulH 8 D a b = Ok (uint 64 (sint 64 a * sint 64 b / 2 ^ 64)).
Proof.
  intros HD. cbn -[GD get Z.shiftr Z.pow]. rewrite (GD_zext 8 _ _ HD) by lia.
  unfold get. rewrite !sint_uint, Z.shiftr_div_pow2 by lia. reflexivity.
Qed.

Lemma Op_UMulH_spec D a b :
  zext 8 D -> Op_UMulH 8 D a b = Ok (uint 64 a * uint 64 b / 2 ^ 64).
Proof.
  intros HD. cbn -[GD get Z.shiftr Z.pow]. rewrite (GD_zext 8 _ _ HD) by lia.
  rewrite Z.shiftr_div_pow2 by lia. f_equal. unfold get. apply uint_small.
  pose proof (uint_range 64 a). pose proof (uint_range 64 b).
  split; [apply Z.div_pos; nia|apply Z.div_lt_upper_bound; nia].
Qed.

(** ** Shifts, rotates and bit fields *)

Lemma land_shift_mask w b : w = 32 \/ w = 64 -> Z.land b (uint 8 (w - 1)) = b mod w.
Proof.
  intros [->| ->]; [change (uint 8 (32 - 1)) with (Z.ones 5)|change (uint 8 (64 - 1)) with (Z.ones 6)];
    rewrite Z.land_ones by lia; reflexivity.
Qed.

Lemma mod_get_64 w b : w = 32 \/ w = 64 -> get 64 b mod w = b mod w.
Proof.
  intros Hw. unfold get, uint. apply Z.mod_mod_divide.
  destruct Hw as [->| ->]; [exists (2 ^ 59)|exists (2 ^ 58)]; reflexivity.
Qed.

Lemma shl_Ok w x k : 0 <= k < w -> shl w x k = Ok (uint w (x * 2 ^ k)).
Proof.
  intros. unfold shl. rewrite (proj2 (Z.leb_le 0 k)), (proj2 (Z.ltb_lt k w)) by lia.
  cbn. rewrite Z.shiftl_mul_pow2 by lia. reflexivity.
Qed.

Lemma shr_Ok w x k : 0 <= k < w -> shr w x k = Ok (uint w x / 2 ^ k).
Proof.
  intros. unfold shr. rewrite (proj2 (Z.leb_le 0 k)), (proj2 (Z.ltb_lt k w)) by lia.
  cbn. rewrite Z.shiftr_div_pow2 by lia. reflexivity.
Qed.

Lemma sar_Ok w x k : 0 <= k < w -> sar w x k = Ok (sint w x / 2 ^ k).
Proof.
  intros. unfold sar. rewrite (proj2 (Z.leb_le 0 k)), (proj2 (Z.ltb_lt k w)) by lia.
  cbn. rewrite Z.shiftr_div_pow2 by lia. reflexivity.
Qed.

Lemma Op_Lshl_spec sz D a b :
  size_48 sz = true -> zext sz D -> Op_Lshl sz D a b = Ok (uint (8 * sz) (a * 2 ^ (b mod (8 * sz)))).
Proof.
  intros [->| ->]%size_48_cases HD; unfold Op_Lshl; cbn -[GD get shl uint Z.modulo Z.land];
    rewrite (land_shift_mask), mod_get_64, shl_Ok by (auto || (apply Z.mod_pos_bound; lia));
    cbn -[GD get uint Z.modulo]; rewrite (GD_zext _ _ _ HD) by lia; f_equal;
    unfold get; eval_widths.
  - rewrite (uint_uint 32 64), (uint_widen 32 64) by lia.
    rewrite <- uint_mul, uint_idemp, uint_mul. reflexivity.
  - rewrite uint_idemp. rewrite <- uint_mul, uint_idemp, uint_mul. reflexivity.
Qed.

Lemma Op_Lshr_spec sz D a b :
  size_48 sz = true -> zext sz D -> Op_Lshr sz D a b = Ok (uint (8 * sz) a / 2 ^ (b mod (8 * sz))).
Proof.
  intros Hs HD.
  destruct (size_48_cases _ Hs) as [->| ->]; unfold Op_Lshr; cbn -[GD get shr uint Z.modulo Z.land];
    rewrite (land_shift_mask), mod_get_64, shr_Ok by (auto || (apply Z.mod_pos_bound; lia));
    cbn -[GD get uint Z.modulo]; rewrite (GD_zext _ _ _ HD) by lia; f_equal;
    unfold get; eval_widths;
    [rewrite (uint_idemp 32), (uint_uint 32 64) by lia|rewrite (uint_idemp 64)].
  - apply uint_small. pose proof (uint_range 32 a ltac:(lia)).
    apply div_pow2_range; [apply Z.mod_pos_bound; lia|lia].
  - apply uint_small, div_pow2_range; [apply Z.mod_pos_bound; lia|apply uint_range; lia].
Qed.

Lemma Op_Ashr_spec sz D a b :
  size_48 sz = true -> zext sz D ->
  Op_Ashr sz D a b = Ok (uint (8 * sz) (sint (8 * sz) a / 2 ^ (b mod (8 * sz)))).
Proof.
  intros [->| ->]%size_48_cases HD; unfold Op_Ashr; cbn -[GD get sar uint sint Z.modulo Z.land];
    rewrite (land_shift_mask), mod_get_64, sar_Ok by (auto || (apply Z.mod_pos_bound; lia));
    cbn -[GD get uint sint Z.modulo]; rewrite (GD_zext _ _ _ HD) by lia; f_equal;
    unfold get; rewrite sint_uint by lia; [apply uint_widen; lia|apply uint_idemp].
Qed.

Lemma Ror_spec w a r :
  w = 32 \/ w = 64 -> 0 <= a < 2 ^ w -> 0 < r mod w ->
  Ror w a r = Ok (a / 2 ^ (r mod w) + (a mod 2 ^ (r mod w)) * 2 ^ (w - r mod w)).
Proof.
  intros Hw Ha Hr. unfold Ror.
  assert (Z.land r (w - 1) = r mod w) as ->.
  { rewrite <- (land_shift_mask w) by exact Hw. destruct Hw as [->| ->]; reflexivity. }
  assert (0 <= r mod w < w) by (apply Z.mod_pos_bound; lia).
  set (k := r mod w) in *. rewrite shr_Ok, shl_Ok by lia. cbn. f_equal.
  rewrite (uint_small w a) by lia.
  assert (uint w (a * 2 ^ (w - k)) = (a mod 2 ^ k) * 2 ^ (w - k)) as ->.
  { unfold uint. replace w with (k + (w - k)) at 2 by lia.
    rewrite Z.pow_add_r, Z.mul_mod_distr_r; pose proof (pow2_pos k); pose proof (pow2_pos (w - k)); lia. }
  apply lor_fields; [lia|]. apply div_pow2_range_sub; lia.
Qed.

Lemma rotate_range w x r : 0 <= r <= w -> 0 <= x < 2 ^ w ->
  0 <= x / 2 ^ r + (x mod 2 ^ r) * 2 ^ (w - r) < 2 ^ w.
Proof.
  intros Hr Hx. pose proof (pow2_pos r ltac:(lia)). pose proof (pow2_pos (w - r) ltac:(lia)).
  assert (2 ^ w = 2 ^ r * 2 ^ (w - r)) as E by (rewrite <- Z.pow_add_r by lia; f_equal; lia).
  pose proof (div_pow2_range_sub x w r Hr Hx). pose proof (Z.mod_pos_bound x (2 ^ r) ltac:(lia)). nia.
Qed.

Lemma Op_Ror_spec sz D a b :
  size_48 sz = true -> zext sz D -> 0 < b mod (8 * sz) ->
  Op_Ror sz D a b =
  Ok (uint (8 * sz) a / 2 ^ (b mod (8 * sz)) +
      (uint (8 * sz) a mod 2 ^ (b mod (8 * sz))) * 2 ^ (8 * sz - b mod (8 * sz))).
Proof.
  intros Hs HD Hb.
  destruct (size_48_cases _ Hs) as [->| ->]; unfold Op_Ror; cbn -[GD get Ror uint Z.modulo Z.mul] in *.
  - change (8 * 4) with 32 in *. unfold get. rewrite !uint_uint by lia.
    assert (uint 32 b mod 32 = b mod 32) as E
      by (apply Z.mod_mod_divide; exists (2 ^ 27); reflexivity).
    rewrite Ror_spec by (rewrite ?E; auto using uint_range || (apply uint_range; lia) || lia).
    rewrite E. cbn -[GD uint Z.modulo Z.mul]. rewrite (GD_zext _ _ _ HD) by lia. f_equal.
    apply uint_small. pose proof (Z.mod_pos_bound b 32 ltac:(lia)).
    pose proof (rotate_range 32 (uint 32 a) (b mod 32) ltac:(lia) (uint_range 32 a ltac:(lia))). lia.
  - change (8 * 8) with 64 in *.
    pose proof (mod_get_64 64 b ltac:(auto)) as E.
    rewrite Ror_spec by (rewrite ?E; auto using uint_range || (apply uint_range; lia) || lia).
    rewrite E. cbn -[GD uint Z.modulo Z.mul]. rewrite (GD_zext _ _ _ HD) by lia. f_equal.
    apply uint_small. pose proof (Z.mod_pos_bound b 64 ltac:(lia)).
    apply rotate_range; [lia|apply uint_range; lia].
Qed.

Lemma Op_Popcount_spec sz D a :
  1 <= sz <= 8 -> zext sz D -> Op_Popcount D a = Ok (popcount 64 (uint 64 a)).
Proof.
  intros Hs HD. unfold Op_Popcount. rewrite (GD_zext _ _ _ HD) by lia. f_equal.
  apply uint_small. pose proof (popcount_range 64 (uint 64 a) ltac:(lia)). unfold get. lia.
Qed.

Lemma low_mask_Ok w : 0 <= w <= 64 -> low_mask w = Ok (Z.ones w).
Proof.
  intros. unfold low_mask. destruct (Z.eqb_spec w 64) as [->|]; [reflexivity|].
  rewrite shl_Ok by lia. cbn [mbind outcome_bind].
  rewrite Z.mul_1_l, uint_small, Z.ones_equiv by
    (pose proof (Z.pow_lt_mono_r 2 w 64); pose proof (pow2_pos w); lia).
  reflexivity.
Qed.

Lemma shiftl_Ok w x k : 0 <= k < w -> shl w x k = Ok (uint w (Z.shiftl x k)).
Proof. intros. rewrite shl_Ok, Z.shiftl_mul_pow2 by lia. reflexivity. Qed.

Lemma shiftr_Ok w x k : 0 <= k < w -> shr w x k = Ok (Z.shiftr (uint w x) k).
Proof. intros. rewrite shr_Ok, Z.shiftr_div_pow2 by lia. reflexivity. Qed.

(** A field of a value, by division and by bits. *)
Lemma field_bits x w l : 0 <= w -> 0 <= l -> (x / 2 ^ l) mod 2 ^ w = uint w (Z.shiftr x l).
Proof. intros. unfold uint. rewrite Z.shiftr_div_pow2 by lia. reflexivity. Qed.

Lemma Op_Bfe_spec sz w l D a :
  1 <= w <= 8 * sz -> sz <= 8 -> 0 <= l < 64 -> zext sz D ->
  Op_Bfe sz w l D a = Ok ((uint 64 a / 2 ^ l) mod 2 ^ w).
Proof.
  intros Hw Hs Hl HD. unfold Op_Bfe. rewrite (proj2 (Z.leb_le sz 8)) by lia. cbn [throw_unless mbind outcome_bind].
  rewrite low_mask_Ok by lia. cbn [mbind outcome_bind]. rewrite shiftl_Ok by lia.
  cbn [mbind outcome_bind]. rewrite shiftr_Ok by lia. cbn [mbind outcome_bind].
  rewrite (GD_zext _ _ _ HD), field_bits by lia. f_equal. unfold get. zbits.
Qed.

Lemma Op_Sbfe_spec w l D a :
  1 <= w -> 0 <= l -> l + w <= 64 -> zext 8 D ->
  Op_Sbfe 8 w l D a = Ok (uint 64 (sint w (a / 2 ^ l))).
Proof.
  intros Hw Hl Hlw HD. unfold Op_Sbfe. cbn [throw_unless Z.leb Z.compare Pos.compare Pos.compare_cont mbind outcome_bind].
  rewrite (uint_small 64 (64 - _)), (uint_small 64 (64 - _ + _)) by lia. rewrite shiftl_Ok by lia. cbn [mbind outcome_bind].
  rewrite sar_Ok by lia. cbn [mbind outcome_bind]. rewrite (GD_zext 8 _ _ HD) by lia. f_equal.
  rewrite <- !Z.shiftr_div_pow2 by lia. unfold get. zbits.
Qed.

Lemma Op_Bfi_spec w l D d s :
  1 <= w -> 0 <= l -> l + w <= 64 -> zext 8 D ->
  Op_Bfi w l D d s =
  Ok (uint 64 d - ((uint 64 d / 2 ^ l) mod 2 ^ w) * 2 ^ l + uint w s * 2 ^ l).
Proof.
  intros Hw Hl Hlw HD. unfold Op_Bfi. rewrite low_mask_Ok by lia. cbn [mbind outcome_bind].
  rewrite !shiftl_Ok by lia. cbn [mbind outcome_bind]. rewrite (GD_zext 8 _ _ HD) by lia. f_equal.
  set (rest := Z.ldiff (uint 64 d) (Z.shiftl (Z.ones w) l)).
  assert (forall x, Z.land rest (Z.shiftl (uint w x) l) = 0) as Hd by (intros; subst rest; zbits).
  assert (uint 64 d = rest + Z.shiftl (uint w (Z.shiftr (uint 64 d) l)) l) as Ed.
  { rewrite <- lor_add by apply Hd. subst rest. zbits. }
  rewrite field_bits, <- !Z.shiftl_mul_pow2 by lia. unfold get.
  transitivity (rest + Z.shiftl (uint w s) l); [|lia].
  rewrite <- lor_add by apply Hd. subst rest. zbits.
Qed.

(** ** Selection, host flags and division *)

Lemma cond_holds_spec w c x y r :
  0 <= w <= 64 -> cond_holds w c x y = Some r ->
  IsConditionTrue w c (get 64 x) (get 64 y) = Ok r.
Proof.
  intros Hw H. unfold cond_holds in H. unfold IsConditionTrue, get.
  assert (forall z, uint w (uint 64 z) = uint w z) as Eu by (intros; apply uint_uint; lia).
  assert (forall z, sint w (uint 64 z) = sint w z) as Es by (intros; unfold sint; rewrite Eu; reflexivity).
  rewrite !Eu, !Es.
  repeat match goal with
    | H : (if ?c =? ?k then _ else _) = Some _ |- _ =>
    destruct (Z.eqb_spec c k) as [->|?]; [cbn; congruence|]
    end.
  discriminate H.
Qed.

Lemma Op_Select_spec sz c cs D x y t f r :
  size_48 sz = true -> zext sz D -> cond_holds (if cs =? 4 then 32 else 64) c x y = Some r ->
  Op_Select sz c cs D x y t f = Ok (uint (8 * sz) (if r then t else f)).
Proof.
  intros Hs HD Hr. unfold Op_Select.
  rewrite (cond_holds_spec _ _ _ _ r) by (exact Hr || destruct (cs =? 4); lia).
  cbn [mbind outcome_bind]. rewrite (GD_zext _ _ _ HD) by (unfold size_48 in Hs; lia). f_equal.
  destruct (size_48_cases _ Hs) as [->| ->], r; unfold get; cbn [Z.eqb Pos.eqb];
    rewrite ?uint_idemp; try reflexivity; apply uint_widen; lia.
Qed.

Lemma Op_GetHostFlag_spec sz fl D a :
  1 <= sz <= 8 -> 0 <= fl < 64 -> zext sz D ->
  Op_GetHostFlag fl D a = Ok ((uint 64 a / 2 ^ fl) mod 2).
Proof.
  intros Hs Hf HD. unfold Op_GetHostFlag. rewrite shiftr_Ok by lia. cbn [mbind outcome_bind].
  rewrite (GD_zext _ _ _ HD) by lia. f_equal. change 2 with (2 ^ 1) at 2.
  rewrite (field_bits _ 1) by lia. unfold get. change 1 with (Z.ones 1) at 1. zbits.
Qed.

Lemma uint_eqb_sint w b : 0 < w -> (sint w b =? 0) = (uint w b =? 0).
Proof.
  intros Hw. destruct (Z.eqb_spec (uint w b) 0) as [E|E]; apply Z.eqb_neq || apply Z.eqb_eq.
  - unfold sint. rewrite E. pose proof (pow2_pos (w - 1)). destruct (Z.ltb_spec 0 (2 ^ (w - 1))); lia.
  - intros E'. apply E. rewrite <- uint_sint, E' by lia. reflexivity.
Qed.

Lemma Op_Div_spec D a b :
  (uint 64 b =? 0) = false -> (sint 64 a =? - 2 ^ 63) && (sint 64 b =? -1) = false -> zext 8 D ->
  Op_Div 8 D a b = Ok (uint 64 (Z.quot (sint 64 a) (sint 64 b))).
Proof.
  intros Hb Ho HD. unfold Op_Div, get. cbn [Z.eqb Pos.eqb]. rewrite !sint_uint by lia.
  unfold sdiv. change (64 - 1) with 63. rewrite uint_eqb_sint, Hb, Ho by lia.
  cbn [orb mbind outcome_bind]. rewrite (GD_zext 8 _ _ HD) by lia. reflexivity.
Qed.

Lemma Op_Rem_spec D a b :
  (uint 64 b =? 0) = false -> (sint 64 a =? - 2 ^ 63) && (sint 64 b =? -1) = false -> zext 8 D ->
  Op_Rem 8 D a b = Ok (uint 64 (Z.rem (sint 64 a) (sint 64 b))).
Proof.
  intros Hb Ho HD. unfold Op_Rem, get. cbn [Z.eqb Pos.eqb]. rewrite !sint_uint by lia.
  unfold srem. change (64 - 1) with 63. rewrite uint_eqb_sint, Hb, Ho by lia.
  cbn [orb mbind outcome_bind]. rewrite (GD_zext 8 _ _ HD) by lia. reflexivity.
Qed.

Lemma Op_UDiv_spec sz D a b :
  size_1248 sz = true -> (uint (8 * sz) b =? 0) = false -> zext sz D ->
  Op_UDiv sz D a b = Ok (uint (8 * sz) a / uint (8 * sz) b).
Proof.
  intros Hs Hb HD.
  assert (0 <= uint (8 * sz) a / uint (8 * sz) b < 2 ^ 64) as Hq.
  { apply size_1248_cases in Hs. apply Z.eqb_neq in Hb.
    pose proof (uint_range (8 * sz) a ltac:(lia)). pose proof (uint_range (8 * sz) b ltac:(lia)).
    pose proof (Z.pow_le_mono_r 2 (8 * sz) 64 ltac:(lia) ltac:(lia)).
    split; [apply Z.div_pos; lia|]. apply Z.div_lt_upper_bound; nia. }
  destruct (size_1248_cases _ Hs) as [->|[->|[->| ->]]]; unfold Op_UDiv, get;
    cbn -[uint GD Z.div]; eval_widths; rewrite ?(uint_uint _ 64) by lia; unfold udiv;
    rewrite Hb; cbn [mbind outcome_bind]; rewrite (GD_zext _ _ _ HD) by lia; f_equal;
    apply uint_small, Hq.
Qed.

Lemma Op_URem_spec sz D a b :
  size_1248 sz = true -> (uint (8 * sz) b =? 0) = false -> zext sz D ->
  Op_URem sz D a b = Ok (uint (8 * sz) a mod uint (8 * sz) b).
Proof.
  intros Hs Hb HD.
  assert (0 <= uint (8 * sz) a mod uint (8 * sz) b < 2 ^ 64) as Hq.
  { apply size_1248_cases in Hs. apply Z.eqb_neq in Hb.
    pose proof (uint_range (8 * sz) b ltac:(lia)).
    pose proof (Z.pow_le_mono_r 2 (8 * sz) 64 ltac:(lia) ltac:(lia)).
    pose proof (Z.mod_pos_bound (uint (8 * sz) a) (uint (8 * sz) b)). lia. }
  destruct (size_1248_cases _ Hs) as [->|[->|[->| ->]]]; unfold Op_URem, get;
    cbn -[uint GD Z.modulo]; eval_widths; rewrite ?(uint_uint _ 64) by lia; unfold urem;
    rewrite Hb; cbn [mbind outcome_bind]; rewrite (GD_zext _ _ _ HD) by lia; f_equal;
    apply uint_small, Hq.
Qed.
Lemma Op_Constant_spec k D : zext 8 D -> Op_Constant k D = Ok (uint 64 k).
Proof. intros HD. apply (GD_zext 8 _ _ HD). lia. Qed.

(** ** The interpreter is a backend *)

Lemma size_1248_bounds sz : size_1248 sz = true -> 1 <= sz <= 8.
Proof. unfold size_1248. lia. Qed.

(** One lemma per operation. *)
Ltac ir_spec :=
  lazymatch goal with
  | |- Op_Add _ _ _ _ = _ => apply Op_Add_spec
  | |- Op_Sub _ _ _ _ = _ => apply Op_Sub_spec
  | |- Op_Neg _ _ _ = _ => apply Op_Neg_spec
  | |- Op_Mul _ _ _ _ = _ => apply Op_Mul_spec
  | |- Op_UMul _ _ _ _ = _ => apply Op_UMul_spec
  | |- Op_Div _ _ _ _ = _ => apply Op_Div_spec
  | |- Op_UDiv _ _ _ _ = _ => apply Op_UDiv_spec
  | |- Op_Rem _ _ _ _ = _ => apply Op_Rem_spec
  | |- Op_URem _ _ _ _ = _ => apply Op_URem_spec
  | |- Op_MulH _ _ _ _ = _ => apply Op_MulH_spec
  | |- Op_UMulH _ _ _ _ = _ => apply Op_UMulH_spec
  | |- Op_Or _ _ _ _ = _ => apply Op_Or_spec
  | |- Op_And _ _ _ _ = _ => apply Op_And_spec
  | |- Op_Andn _ _ _ _ = _ => apply Op_Andn_spec
  | |- Op_Xor _ _ _ _ = _ => apply Op_Xor_spec
  | |- Op_Lshl _ _ _ _ = _ => apply Op_Lshl_spec
  | |- Op_Lshr _ _ _ _ = _ => apply Op_Lshr_spec
  | |- Op_Ashr _ _ _ _ = _ => apply Op_Ashr_spec
  | |- Op_Ror _ _ _ _ = _ => apply Op_Ror_spec
  | |- Op_Not _ _ _ = _ => apply Op_Not_spec
  | |- Op_Popcount _ _ = _ => apply Op_Popcount_spec with (sz := 8)
  | |- Op_Bfe _ _ _ _ _ = _ => apply Op_Bfe_spec
  | |- Op_Sbfe _ _ _ _ _ = _ => apply Op_Sbfe_spec
  | |- Op_Bfi _ _ _ _ _ = _ => apply Op_Bfi_spec
  | |- Op_Select _ _ _ _ _ _ _ _ = _ => apply Op_Select_spec
  | |- Op_GetHostFlag _ _ _ = _ => apply Op_GetHostFlag_spec with (sz := 8)
  | |- Op_Constant _ _ = _ => apply Op_Constant_spec
  end.

Lemma exec_pure_value st n h v :
  ir_value (Op h) (Size h) (cell st <$> Args h) = Some v ->
  zero_extending (Op h) (Size h) = true ->
  zext (Size h) (cell st n) ->
  exec_pure st n h = Some (Ok v).
Proof.
  destruct h as [op sz es args]. cbn [Op Size Args]. intros Hv Hz HD.
  destruct op, args as [|a [|b [|c [|d [|? ?]]]]]; cbn [fmap list_fmap ir_value] in Hv;
    try discriminate Hv; unfold exec_pure; cbn [Op Size Args ElementSize]; f_equal.
  all: try (apply bind_Some in Hv as (r & Hr & Hv)).
  all: apply when_Some in Hv as [Hc ->].
  all: try (apply Z.eqb_eq in Hz as ->).
  all: repeat (apply andb_true_iff in Hc as [Hc ?]); rewrite ?negb_true_iff, ?Z.leb_le, ?Z.ltb_lt, ?Z.eqb_eq in *; subst.
  all: ir_spec.
  all: match goal with
    | |- zext _ _ => first [exact HD | apply (zext_le sz); [first [lia|pose proof (size_1248_bounds sz ltac:(assumption)); lia]|exact HD] | apply (zext_le 8); [lia|exact HD]]
    | |- size_48 _ = true => assumption
    | |- size_1248 _ = true => assumption
    | |- cond_holds _ _ _ _ = _ => exact Hr
    | |- (_ =? _) = false => assumption
    | |- (_ =? _) && (_ =? _) = false => assumption
    | |- 0 < _ mod _ =>
    match goal with
    | H : size_48 _ = true, H' : (?x mod ?y =? 0) = false |- _ =>
    apply size_48_cases in H; apply Z.eqb_neq in H';
    pose proof (Z.mod_pos_bound x y); lia
    end
    | |- _ => lia
    end.
Qed.

Lemma exec_op_value st n h v :
  ir_value (Op h) (Size h) (cell st <$> Args h) = Some v ->
  zero_extending (Op h) (Size h) = true ->
  zext (Size h) (cell st n) ->
  exec_op st n h = Ok (set_cell n v st).
Proof.
  intros Hv Hz HD. unfold exec_op. rewrite (exec_pure_value _ _ _ _ Hv Hz HD). reflexivity.
Qed.

Lemma exec_op_loadflag st n sz es fl b :
  Frame st !! (FLAGS_OFFSET + fl) = Some b -> zext 8 (cell st n) ->
  exec_op st n (mkOp (OP_LOADFLAG fl) sz es []) = Ok (set_cell n (uint 8 b) st).
Proof.
  intros Hb HD. unfold exec_op, exec_pure, Op_LoadFlag. cbn [Op Args].
  rewrite load_1, Hb. cbn [deref fmap option_fmap option_map mbind outcome_bind].
  rewrite (GD_zext 8 _ _ HD) by lia. rewrite uint_widen by lia. reflexivity.
Qed.

Lemma exec_op_storeflag st n sz es fl a :
  exec_op st n (mkOp (OP_STOREFLAG fl) sz es [a]) =
  Ok (set_frame (<[FLAGS_OFFSET + fl := uint 8 (cell st a)]> (Frame st)) st).
Proof. unfold exec_op, Op_StoreFlag, get. cbn. rewrite uint_idemp. reflexivity. Qed.

#[export] Instance Interpreter : IRBackend := {
  step := exec_op;
  step_value := exec_op_value;
  step_loadflag := exec_op_loadflag;
  step_storeflag := exec_op_storeflag;
  step_invalidate := fun _ _ _ _ _ => eq_refl
}.

(** ** Values fit their nodes *)

Lemma sub_pow2_le sz w v : 0 <= v < 2 ^ w -> w <= 8 * sz -> zext sz v.
Proof.
  intros Hv Hw. unfold zext. destruct (Z_lt_le_dec w 0).
  - rewrite Z.pow_neg_r in Hv by lia. lia.
  - pose proof (Z.pow_le_mono_r 2 w (8 * sz)). lia.
Qed.

Lemma bfi_range w l d s :
  1 <= w -> 0 <= l -> l + w <= 64 ->
  zext 8 (uint 64 d - ((uint 64 d / 2 ^ l) mod 2 ^ w) * 2 ^ l + uint w s * 2 ^ l).
Proof.
  intros Hw Hl Hlw.
  assert (zext 8 0) as H0 by (unfold zext; lia).
  pose proof (Op_Bfi_spec w l 0 d s Hw Hl Hlw H0) as E. unfold Op_Bfi in E.
  apply bind_Ok in E as (m & _ & E). apply bind_Ok in E as (m' & _ & E).
  apply bind_Ok in E as (m'' & _ & E). rewrite (GD_zext 8 _ _ H0) in E by lia.
  injection E as <-. apply (uint_range 64). lia.
Qed.

Lemma umulh_range w a b : 0 <= w -> 0 <= uint w a * uint w b / 2 ^ w < 2 ^ w.
Proof.
  intros Hw. pose proof (uint_range w a Hw). pose proof (uint_range w b Hw).
  split; [apply Z.div_pos; nia|apply Z.div_lt_upper_bound; nia].
Qed.

Lemma udiv_range w a b : 0 <= w -> uint w b <> 0 -> 0 <= uint w a / uint w b < 2 ^ w.
Proof.
  intros Hw Hb. pose proof (uint_range w a Hw). pose proof (uint_range w b Hw).
  split; [apply Z.div_pos; lia|apply Z.div_lt_upper_bound; nia].
Qed.

Lemma size_48_bounds sz : size_48 sz = true -> 4 <= sz <= 8.
Proof. unfold size_48. lia. Qed.

Lemma ir_value_zext op sz args v : ir_value op sz args = Some v -> zext sz v.
Proof.
  intros Hv.
  destruct op, args as [|a [|b [|c [|d [|? ?]]]]]; cbn [ir_value] in Hv; try discriminate Hv.
  all: try (apply bind_Some in Hv as (r & Hr & Hv)).
  all: apply when_Some in Hv as [Hc ->].
  all: repeat (apply andb_true_iff in Hc as [Hc ?]); rewrite ?negb_true_iff, ?Z.leb_le, ?Z.ltb_lt, ?Z.eqb_eq, ?Z.eqb_neq in *; subst.
  all: try match goal with
    | H : size_48 _ = true |- _ => apply size_48_bounds in H
    | H : size_1248 _ = true |- _ => apply size_1248_bounds in H
    end.
  all: try match goal with |- zext _ (uint 64 ?k) => unfold zext; pose proof (uint_range 64 k); lia end.
  all: try (apply uint_range; lia).
  all: try (apply umulh_range; lia).
  all: try (apply udiv_range; lia).
  all: try (apply bfi_range; lia).
  - unfold zext. pose proof (uint_range (8 * sz) b ltac:(lia)).
    pose proof (Z.mod_pos_bound (uint (8 * sz) a) (uint (8 * sz) b)). lia.
  - apply div_pow2_range; [apply Z.mod_pos_bound; lia|apply uint_range; lia].
  - apply rotate_range; [pose proof (Z.mod_pos_bound b (8 * sz)); lia|apply uint_range; lia].
  - pose proof (popcount_range 64 (uint 64 a) ltac:(lia)).
    apply (sub_pow2_le _ 8); lia.
  - apply (sub_pow2_le _ Width); [apply uint_range|]; lia.
  - apply (sub_pow2_le _ 1); [apply (uint_range 1)|]; lia.
Qed.

(** ** Straight-line code *)

Definition set_cells (env : gmap NodeID Z) (st : IROpData) : IROpData :=
  mkData (CurrentEntry st) env (Frame st) (Mem st) (Quit st) (Redo st) (BlockIterator st).

(** A block in static single assignment form: no node is defined twice, and the
    cells of its nodes have not been written. *)
Definition fresh_code (code : list (NodeID * IROp_Header)) (st : IROpData) : Prop :=
  NoDup code.*1 /\ Forall (fun n => SSAData st !! n = None) code.*1.

Lemma zext_nonneg sz v : zext sz v -> 0 <= sz.
Proof.
  unfold zext. intros. destruct (Z_lt_le_dec sz 0); [|lia].
  rewrite (Z.pow_neg_r 2 (8 * sz)) in * by lia. lia.
Qed.

Lemma zext_0 sz : 0 <= sz -> zext sz 0.
Proof. intros. pose proof (pow2_pos (8 * sz)). unfold zext. lia. Qed.

Lemma run_code_ir code st env :
  ir_run code (SSAData st) = Some env ->
  Forall (fun '(_, h) => zero_extending (Op h) (Size h) = true) code ->
  fresh_code code st -> Quit st = false -> Redo st = false ->
  run_code code st = Ok (set_cells env st).
Proof.
  revert st. induction code as [|[n h] code IH]; intros st Hr Hz [Hnd Hf] Hq Hd.
  - cbn in *. injection Hr as <-. destruct st. reflexivity.
  - cbn [ir_run] in Hr. apply bind_Some in Hr as (v & Hv & Hr).
    cbn [fmap list_fmap fst] in Hnd, Hf.
    pose proof (NoDup_cons_1_1 _ _ Hnd) as Hn. apply NoDup_cons_1_2 in Hnd.
    apply Forall_cons_1 in Hf as [Hfn Hf].
    apply Forall_cons_1 in Hz as [Hzn Hz].
    assert (zext (Size h) (cell st n)) as HD.
    { unfold cell. rewrite Hfn. apply zext_0, (zext_nonneg _ v), (ir_value_zext _ _ _ _ Hv). }
    cbn [run_code]. rewrite (exec_op_value st n h v Hv Hzn HD). cbn [mbind outcome_bind].
    cbn [Quit Redo set_cell]. rewrite Hq, Hd. cbn [orb].
    rewrite (IH (set_cell n v st)); [reflexivity|exact Hr|exact Hz| |exact Hq|exact Hd].
    split; [exact Hnd|]. rewrite Forall_forall in *. intros m Hm. cbn [SSAData set_cell].
    rewrite lookup_insert_ne by (intros ->; apply Hn, list_elem_of_In, Hm). apply Hf, Hm.
Qed.
