(* ===== verification/Machine.v ===== *)
(** * Machines

    A backend that also executes the nodes that access the guest context and guest
    memory. [IRMachine] is the contract the translation of instructions relies on;
    the interpreter satisfies it. *)
From Stdlib Require Import ZArith Lia Bool.
From stdpp Require Import base gmap list numbers option.
From S2P Require Import Prelude IR ALUOps Atomic Interp IRSpec InterpRefines.
#[local] Open Scope Z_scope.

(** The number of bytes of an access. *)
Abbreviation bytes sz := (Z.to_nat sz).

(** Read-modify-write operations: the new value from the old one and the operand. *)
Definition fetch_function (op : IROps) : option (Z -> Z -> Z) :=
  match op with
  | OP_ATOMICFETCHADD => Some Z.add
  | OP_ATOMICFETCHSUB => Some Z.sub
  | OP_ATOMICFETCHAND => Some Z.land
  | OP_ATOMICFETCHOR => Some Z.lor
  | OP_ATOMICFETCHXOR => Some Z.lxor
  | OP_ATOMICSWAP => Some (fun _ x => x)
  | _ => None
  end.

(** [size_1248] of the accesses, an invalid node for the absent offset, and cells
    that are zero-extended to 64 bits. *)
Class IRMachine := {
  machine_backend : IRBackend;
  step_loadcontext st n sz o v :
    size_1248 sz = true -> load (bytes sz) (Frame st) o = Some v -> zext 8 (cell st n) ->
    step st n (mkOp (OP_LOADCONTEXT o) sz sz []) = Ok (set_cell n v st);
  step_storecontext st n sz o a :
    step st n (mkOp (OP_STORECONTEXT o) sz sz [a]) =
    Ok (set_frame (store (bytes sz) (Frame st) o (cell st a)) st);
  step_loadmem (tso : bool) st n sz a v :
    size_1248 sz = true -> zext 8 (cell st a) -> load (bytes sz) (Mem st) (cell st a) = Some v ->
    step st n (mkOp ((if tso then OP_LOADMEMTSO else OP_LOADMEM) MEM_OFFSET_SXTX 1) sz sz [a; InvalidNode]) =
    Ok (set_cell n v st);
  step_storemem (tso : bool) st n sz x a :
    size_1248 sz = true -> zext 8 (cell st a) -> is_Some (load (bytes sz) (Mem st) (cell st a)) ->
    step st n (mkOp ((if tso then OP_STOREMEMTSO else OP_STOREMEM) MEM_OFFSET_SXTX 1) sz sz [x; a; InvalidNode]) =
    Ok (set_mem (store (bytes sz) (Mem st) (cell st a) (cell st x)) st);
  step_entrypoint st n o :
    zext 8 (cell st n) ->
    step st n (mkOp (OP_ENTRYPOINTOFFSET o) 8 8 []) = Ok (set_cell n (uint 64 (CurrentEntry st + o)) st);
  step_exit st n sz a :
    step st n (mkOp OP_EXITFUNCTION sz sz [a]) =
    Ok (set_results true (Redo st) (BlockIterator st)
          (set_frame (store (bytes sz) (Frame st) RIP_OFFSET (cell st a)) st));
  step_fetch st n sz op f x a v :
    fetch_function op = Some f -> size_1248 sz = true ->
    zext 8 (cell st n) -> zext 8 (cell st a) -> load (bytes sz) (Mem st) (cell st a) = Some v ->
    step st n (mkOp op sz sz [x; a]) =
    Ok (set_mem (store (bytes sz) (Mem st) (cell st a) (f v (uint (8 * sz) (cell st x)))) (set_cell n v st));
  step_atomic_xor st n sz x a v :
    size_1248 sz = true -> zext 8 (cell st a) -> load (bytes sz) (Mem st) (cell st a) = Some v ->
    step st n (mkOp OP_ATOMICXOR sz sz [x; a]) =
    Ok (set_mem (store (bytes sz) (Mem st) (cell st a) (Z.lxor v (uint (8 * sz) (cell st x)))) st);
  step_fetchneg st n sz a v :
    size_1248 sz = true -> zext 8 (cell st n) -> zext 8 (cell st a) ->
    load (bytes sz) (Mem st) (cell st a) = Some v ->
    step st n (mkOp OP_ATOMICFETCHNEG sz sz [a]) =
    Ok (set_mem (store (bytes sz) (Mem st) (cell st a) (- v)) (set_cell n v st));
  step_cas st n sz e d a v :
    size_1248 sz = true -> zext 8 (cell st n) -> zext 8 (cell st a) ->
    load (bytes sz) (Mem st) (cell st a) = Some v ->
    step st n (mkOp OP_CAS sz sz [e; d; a]) =
    Ok (set_mem (if v =? uint (8 * sz) (cell st e)
                 then store (bytes sz) (Mem st) (cell st a) (cell st d) else Mem st) (set_cell n v st));
  step_yield st n sz : step st n (mkOp OP_YIELD sz sz []) = Ok st
}.

#[export] Existing Instance machine_backend | 0.

(** ** The interpreter *)

Lemma size_1248_bytes sz : size_1248 sz = true -> 8 * Z.of_nat (bytes sz) = 8 * sz.
Proof. intros H. apply size_1248_bounds in H. lia. Qed.

Lemma load_zext sz m a v : size_1248 sz = true -> load (bytes sz) m a = Some v -> zext sz v.
Proof.
  intros Hs Hl. apply load_uint in Hl. rewrite size_1248_bytes in Hl by exact Hs.
  apply size_1248_bounds in Hs. unfold zext. rewrite <- Hl. apply uint_range. lia.
Qed.

Lemma load_zext8 sz m a v : size_1248 sz = true -> load (bytes sz) m a = Some v -> uint 64 v = v.
Proof.
  intros Hs Hl. apply load_uint in Hl. rewrite size_1248_bytes in Hl by exact Hs. rewrite <- Hl.
  apply size_1248_bounds in Hs. apply uint_widen. lia.
Qed.

Lemma GD_loaded sz m a v D :
  size_1248 sz = true -> load (bytes sz) m a = Some v -> zext 8 D -> GD v D = Ok v.
Proof.
  intros Hs Hl HD. rewrite (GD_zext 8 _ _ HD) by lia. f_equal. eapply load_zext8; eassumption.
Qed.

Lemma get_64_zext v : zext 8 v -> get 64 v = v.
Proof. intros H. apply uint_small. exact H. Qed.

Lemma store_get sz m a v : size_1248 sz = true -> store (bytes sz) m a (get (8 * sz) v) = store (bytes sz) m a v.
Proof. intros Hs. unfold get. rewrite <- size_1248_bytes by exact Hs. apply store_uint. Qed.

Lemma by_size_1248 {A} sz (f : nat -> outcome A) : size_1248 sz = true -> by_size sz f = f (bytes sz).
Proof. intros [->|[->|[->| ->]]]%size_1248_cases; reflexivity. Qed.

Lemma bits_1248 sz : size_1248 sz = true -> bits (bytes sz) = 8 * sz.
Proof. exact (size_1248_bytes sz). Qed.

Lemma exec_loadcontext st n sz o v :
  size_1248 sz = true -> load (bytes sz) (Frame st) o = Some v -> zext 8 (cell st n) ->
  exec_op st n (mkOp (OP_LOADCONTEXT o) sz sz []) = Ok (set_cell n v st).
Proof.
  intros Hs Hl HD. unfold exec_op, exec_pure, Op_LoadContext. cbn [Op Args Size].
  pose proof (GD_loaded _ _ _ _ _ Hs Hl HD) as HG.
  apply size_1248_cases in Hs as [->|[->|[->| ->]]]; cbn [Z.eqb Pos.eqb];
    match type of Hl with load ?n _ _ = _ => let m := eval compute in n in change n with m in Hl end;
    rewrite Hl; cbn [deref mbind outcome_bind]; rewrite HG; reflexivity.
Qed.

Lemma exec_loadmem (tso : bool) st n sz a v :
  size_1248 sz = true -> zext 8 (cell st a) -> load (bytes sz) (Mem st) (cell st a) = Some v ->
  exec_op st n (mkOp ((if tso then OP_LOADMEMTSO else OP_LOADMEM) MEM_OFFSET_SXTX 1) sz sz [a; InvalidNode]) =
  Ok (set_cell n v st).
Proof.
  intros Hs Ha Hl.
  assert (Op_LoadMem sz (cell st a) (Mem st) = Ok v) as HL.
  { unfold Op_LoadMem. rewrite Hl. cbn. unfold put. rewrite Z.div_0_l, Z.mul_0_r, Z.add_0_r by (pose proof (pow2_pos (8 * sz)); pose proof (size_1248_bounds _ Hs); lia).
    f_equal. apply load_uint in Hl. rewrite <- Hl at 2. rewrite size_1248_bytes by exact Hs. reflexivity. }
  unfold exec_op. destruct tso; unfold exec_pure; cbn [Op Args Size]; rewrite decide_True by reflexivity;
    unfold mem_address; rewrite get_64_zext, HL by exact Ha; reflexivity.
Qed.

Lemma exec_storemem (tso : bool) st n sz x a :
  size_1248 sz = true -> zext 8 (cell st a) -> is_Some (load (bytes sz) (Mem st) (cell st a)) ->
  exec_op st n (mkOp ((if tso then OP_STOREMEMTSO else OP_STOREMEM) MEM_OFFSET_SXTX 1) sz sz [x; a; InvalidNode]) =
  Ok (set_mem (store (bytes sz) (Mem st) (cell st a) (cell st x)) st).
Proof.
  intros Hs Ha [v Hl].
  assert (Op_StoreMem sz (cell st a) (cell st x) (Mem st) = Ok (store (bytes sz) (Mem st) (cell st a) (cell st x))) as HS.
  { unfold Op_StoreMem. rewrite Hl, store_get by exact Hs. reflexivity. }
  unfold exec_op. destruct tso; unfold exec_pure, exec_atomic; cbn [Op Args Size]; rewrite decide_True by reflexivity;
    unfold mem_address; rewrite get_64_zext, HS by exact Ha; reflexivity.
Qed.

Lemma exec_entrypoint st n o :
  zext 8 (cell st n) ->
  exec_op st n (mkOp (OP_ENTRYPOINTOFFSET o) 8 8 []) = Ok (set_cell n (uint 64 (CurrentEntry st + o)) st).
Proof.
  intros HD. unfold exec_op, exec_pure, Op_EntrypointOffset. cbn [Op Args Size].
  rewrite (GD_zext 8 _ _ HD) by lia. cbn [mbind outcome_bind Z.eqb Pos.eqb].
  change 0xFFFFFFFFFFFFFFFF with (Z.ones 64). rewrite land_ones_uint, !uint_idemp by lia. reflexivity.
Qed.

Lemma exec_fetch st n sz op f x a v :
  fetch_function op = Some f -> size_1248 sz = true ->
  zext 8 (cell st n) -> zext 8 (cell st a) -> load (bytes sz) (Mem st) (cell st a) = Some v ->
  exec_op st n (mkOp op sz sz [x; a]) =
  Ok (set_mem (store (bytes sz) (Mem st) (cell st a) (f v (uint (8 * sz) (cell st x)))) (set_cell n v st)).
Proof.
  intros Hf Hs HD Ha Hl. pose proof (GD_loaded _ _ _ _ _ Hs Hl HD) as HG.
  assert (atomic_fetch f sz (cell st n) (cell st x) (cell st a) (Mem st) =
    Ok (v, store (bytes sz) (Mem st) (cell st a) (f v (uint (8 * sz) (cell st x))))) as HF.
  { unfold atomic_fetch, atomic_GD, atomic_rmw. rewrite by_size_1248, get_64_zext, Hl, bits_1248 by assumption.
    cbn [deref mbind outcome_bind]. rewrite HG. reflexivity. }
  destruct op; try discriminate Hf; injection Hf as <-; unfold exec_op, exec_pure, exec_atomic; cbn [Op Args Size];
    unfold Op_AtomicSwap, Op_AtomicFetchAdd, Op_AtomicFetchSub, Op_AtomicFetchAnd, Op_AtomicFetchOr, Op_AtomicFetchXor;
    rewrite HF; reflexivity.
Qed.

Lemma exec_atomic_xor st n sz x a v :
  size_1248 sz = true -> zext 8 (cell st a) -> load (bytes sz) (Mem st) (cell st a) = Some v ->
  exec_op st n (mkOp OP_ATOMICXOR sz sz [x; a]) =
  Ok (set_mem (store (bytes sz) (Mem st) (cell st a) (Z.lxor v (uint (8 * sz) (cell st x)))) st).
Proof.
  intros Hs Ha Hl. unfold exec_op, exec_pure, exec_atomic, Op_AtomicXor, atomic_update, atomic_rmw. cbn [Op Args Size].
  rewrite by_size_1248, get_64_zext, Hl, bits_1248 by assumption. reflexivity.
Qed.

Lemma exec_fetchneg st n sz a v :
  size_1248 sz = true -> zext 8 (cell st n) -> zext 8 (cell st a) ->
  load (bytes sz) (Mem st) (cell st a) = Some v ->
  exec_op st n (mkOp OP_ATOMICFETCHNEG sz sz [a]) =
  Ok (set_mem (store (bytes sz) (Mem st) (cell st a) (- v)) (set_cell n v st)).
Proof.
  intros Hs HD Ha Hl. pose proof (GD_loaded _ _ _ _ _ Hs Hl HD) as HG.
  unfold exec_op, exec_pure, exec_atomic, Op_AtomicFetchNeg, AtomicFetchNeg, atomic_GD, atomic_rmw. cbn [Op Args Size].
  rewrite by_size_1248, get_64_zext, Hl by assumption. cbn [deref mbind outcome_bind]. rewrite HG. reflexivity.
Qed.

Lemma exec_cas st n sz e d a v :
  size_1248 sz = true -> zext 8 (cell st n) -> zext 8 (cell st a) ->
  load (bytes sz) (Mem st) (cell st a) = Some v ->
  exec_op st n (mkOp OP_CAS sz sz [e; d; a]) =
  Ok (set_mem (if v =? uint (8 * sz) (cell st e)
               then store (bytes sz) (Mem st) (cell st a) (cell st d) else Mem st) (set_cell n v st)).
Proof.
  intros Hs HD Ha Hl. pose proof (GD_loaded _ _ _ _ _ Hs Hl HD) as HG.
  unfold exec_op, exec_pure, exec_atomic, Op_CAS, AtomicCompareAndSwap, atomic_GD. cbn [Op Args Size].
  rewrite by_size_1248, get_64_zext, Hl, bits_1248, store_get by assumption. cbn [deref mbind outcome_bind].
  fold (get (8 * sz) (cell st e)).
  destruct (Z.eqb_spec v (get (8 * sz) (cell st e))) as [<-|]; cbn [mbind outcome_bind]; rewrite HG; reflexivity.
Qed.

#[export] Instance InterpreterMachine : IRMachine := {
  machine_backend := Interpreter;
  step_loadcontext := exec_loadcontext;
  step_storecontext := fun _ _ _ _ _ => eq_refl;
  step_loadmem := exec_loadmem;
  step_storemem := exec_storemem;
  step_entrypoint := exec_entrypoint;
  step_exit := fun _ _ _ _ => eq_refl;
  step_fetch := exec_fetch;
  step_atomic_xor := exec_atomic_xor;
  step_fetchneg := exec_fetchneg;
  step_cas := exec_cas;
  step_yield := fun _ _ _ => eq_refl
}.
