(* ===== verification/InterpBits.v ===== *)
(** * Bit permutations of the interpreter

    Parallel deposit and extract, byte reversal: the loops terminate within the
    64 iterations they are given, and the results bit by bit. *)
From Stdlib Require Import ZArith Lia Bool.
From stdpp Require Import base gmap list numbers option.
From S2P Require Import Prelude IR ALUOps.
#[local] Open Scope Z_scope.

(** ** The lowest set bit *)

Lemma first_set_spec n i x :
  (exists j, i <= j < i + Z.of_nat n /\ Z.testbit x j = true) ->
  let r := first_set n i x in
  i <= r < i + Z.of_nat n /\ Z.testbit x r = true /\ forall j, i <= j < r -> Z.testbit x j = false.
Proof.
  revert i. induction n as [|n IH]; intros i (j & Hj & Hx); [lia|]. cbn [first_set].
  destruct (Z.testbit x i) eqn:E.
  - split; [lia|]. split; [exact E|]. lia.
  - destruct (Z.eq_dec j i) as [->|Hne]; [congruence|].
    destruct (IH (i + 1)) as (H1 & H2 & H3); [exists j; split; [lia|exact Hx]|].
    split; [lia|]. split; [exact H2|]. intros k Hk.
    destruct (Z.eq_dec k i) as [->|]; [exact E|apply H3; lia].
Qed.

Lemma positive_bit w m : 0 <= w -> 0 < m < 2 ^ w -> exists j, 0 <= j < w /\ Z.testbit m j = true.
Proof.
  intros Hw Hm. exists (Z.log2 m). split; [|apply Z.bit_log2; lia].
  split; [apply Z.log2_nonneg|]. apply Z.log2_lt_pow2; lia.
Qed.

Lemma countr_zero_spec w m :
  0 <= w -> 0 < m < 2 ^ w ->
  let r := countr_zero w m in
  0 <= r < w /\ Z.testbit m r = true /\ forall j, 0 <= j < r -> Z.testbit m j = false.
Proof.
  intros Hw Hm. unfold countr_zero.
  pose proof (first_set_spec (Z.to_nat w) 0 m) as H. rewrite Z2Nat.id in H by lia.
  apply H. destruct (positive_bit w m Hw Hm) as (j & Hj & Hb). exists j. split; [lia|exact Hb].
Qed.

(** [m & (m - 1)] clears the lowest set bit. *)
Lemma clear_lowest m o i :
  0 <= o -> 0 <= i -> Z.testbit m o = true -> (forall j, 0 <= j < o -> Z.testbit m j = false) ->
  Z.testbit (Z.land m (m - 1)) i = negb (i =? o) && Z.testbit m i.
Proof.
  intros Ho Hi Hb Hl. pose proof (pow2_pos o Ho).
  assert (m mod 2 ^ o = 0) as Hm.
  { apply Z.bits_inj'. intros j Hj. rewrite Z.bits_0. change (m mod 2 ^ o) with (uint o m).
    rewrite testbit_uint by lia. destruct (Z.ltb_spec j o); [apply Hl; lia|reflexivity]. }
  assert (m / 2 ^ o = 2 * (m / 2 ^ (o + 1)) + 1) as Hq.
  { rewrite Z.pow_add_r, <- Z.div_div by lia. change (2 ^ 1) with 2.
    rewrite <- Z.shiftr_div_pow2 by lia. rewrite (Z.div_mod (Z.shiftr m o) 2) at 1 by lia.
    rewrite <- Z.bit0_mod, Z.shiftr_spec by lia. rewrite Z.add_0_l, Hb. reflexivity. }
  assert (m - 1 = Z.lor (Z.ones o) ((2 * (m / 2 ^ (o + 1))) * 2 ^ o)) as E.
  { rewrite lor_fields by (rewrite ?Z.ones_equiv; lia). rewrite Z.ones_equiv.
    pose proof (Z.div_mod m (2 ^ o) ltac:(lia)). nia. }
  rewrite Z.land_spec, E, Z.lor_spec, testbit_ones, Z.mul_pow2_bits by lia.
  destruct (Z.lt_trichotomy i o) as [Hlt|[->|Hgt]].
  - rewrite Hl by lia. rewrite andb_false_r. reflexivity.
  - rewrite Z.eqb_refl, Z.sub_diag. cbn [negb andb]. rewrite Z.testbit_even_0.
    replace (o <? o) with false by lia. rewrite andb_false_r. cbn. apply andb_false_r.
  - replace (i =? o) with false by lia. replace (i <? o) with false by lia. rewrite andb_false_r. cbn [orb negb andb].
    rewrite Z.double_bits, <- Z.shiftr_div_pow2, Z.shiftr_spec by lia.
    replace (Z.pred (i - o) + (o + 1)) with i by lia. apply andb_diag.
Qed.

(** ** Ranks *)

Lemma popcount_succ p x : 0 <= p -> popcount (p + 1) x = popcount p x + Z.b2z (Z.testbit x p).
Proof.
  intros Hp. unfold popcount. rewrite Z2Nat.inj_add by lia. rewrite Nat.add_1_r. cbn [count_bits].
  rewrite Z2Nat.id by lia. reflexivity.
Qed.

(** The rank does not change over a run of clear bits. *)
Lemma popcount_gap q o x :
  0 <= q <= o -> (forall i, q <= i < o -> Z.testbit x i = false) -> popcount o x = popcount q x.
Proof.
  intros Hq. replace o with (q + Z.of_nat (Z.to_nat (o - q))) by lia.
  induction (Z.to_nat (o - q)) as [|n IH]; intros H; [f_equal; lia|].
  replace (q + Z.of_nat (S n)) with (q + Z.of_nat n + 1) in * by lia.
  rewrite popcount_succ, H by lia. cbn [Z.b2z]. rewrite IH; [lia|]. intros; apply H; lia.
Qed.

Lemma popcount_mono q o x : 0 <= q <= o -> popcount q x <= popcount o x.
Proof.
  intros Hq. replace o with (q + Z.of_nat (Z.to_nat (o - q))) by lia.
  induction (Z.to_nat (o - q)) as [|n IH]; [rewrite Z.add_0_r; lia|].
  replace (q + Z.of_nat (S n)) with (q + Z.of_nat n + 1) by lia.
  rewrite popcount_succ by lia. destruct (Z.testbit x _); cbn [Z.b2z]; lia.
Qed.

Lemma popcount_set_lt q o x : 0 <= q < o -> Z.testbit x q = true -> popcount q x < popcount o x.
Proof.
  intros Hq Hb. pose proof (popcount_mono (q + 1) o x ltac:(lia)) as H.
  rewrite popcount_succ, Hb in H by lia. cbn [Z.b2z] in H. lia.
Qed.

(** Every rank below the count is the rank of a set bit. *)
Lemma popcount_select w x j :
  0 <= w -> 0 <= j < popcount w x -> exists i, 0 <= i < w /\ Z.testbit x i = true /\ popcount i x = j.
Proof.
  intros Hw. rewrite <- (Z2Nat.id w) by lia. induction (Z.to_nat w) as [|n IH]; intros Hj.
  - change (popcount (Z.of_nat 0) x) with 0 in Hj. lia.
  - replace (Z.of_nat (S n)) with (Z.of_nat n + 1) in * by lia. rewrite popcount_succ in Hj by lia.
    destruct (Z_lt_le_dec j (popcount (Z.of_nat n) x)) as [Hlt|Hge].
    + destruct IH as (i & Hi & Hb & Hp); [lia|]. exists i. split; [lia|auto].
    + exists (Z.of_nat n). destruct (Z.testbit x (Z.of_nat n)) eqn:E; cbn [Z.b2z] in Hj; [|lia].
      repeat split; lia.
Qed.

Lemma popcount_le w x : 0 <= w -> popcount w x <= w.
Proof. intros Hw. apply (popcount_range w x Hw). Qed.

(** ** The loops *)

(** [m] is [M] without its bits below [q]. *)
Definition from_bit (q M m : Z) : Prop :=
  forall i, 0 <= i -> Z.testbit m i = (q <=? i) && Z.testbit M i.

Section Loop.
Variables M q m : Z.
Hypothesis HM : 0 <= M < 2 ^ 64.
Hypothesis Hq : 0 <= q.
Hypothesis Hm0 : 0 <= m.
Hypothesis Hm : from_bit q M m.

Lemma from_bit_le : m < 2 ^ 64.
Proof.
  destruct (Z.eq_dec m 0) as [->|]; [lia|]. apply Z.log2_lt_pow2; [lia|].
  destruct (Z_lt_le_dec (Z.log2 m) 64) as [|Hge]; [assumption|].
  pose proof (Z.bit_log2 m ltac:(lia)) as Hb.
  rewrite Hm, (testbit_high 64 M) in Hb by (assumption || apply Z.log2_nonneg).
  rewrite andb_false_r in Hb. discriminate.
Qed.

Lemma from_bit_done : m = 0 -> forall i, q <= i -> Z.testbit M i = false.
Proof.
  intros E i Hi. pose proof (Hm i ltac:(lia)) as H. rewrite E, Z.bits_0 in H.
  replace (q <=? i) with true in H by lia. symmetry. exact H.
Qed.

(** One iteration finds the next set bit [o] of the mask. *)
Lemma next_bit :
  0 < m -> let o := countr_zero 64 m in let m' := Z.land m (uint 64 (m - 1)) in
  q <= o < 64 /\ Z.testbit M o = true /\ (forall i, q <= i < o -> Z.testbit M i = false) /\
  popcount o M = popcount q M /\ 0 <= m' /\ from_bit (o + 1) M m'.
Proof.
  intros Hp o m'. pose proof from_bit_le as Hle.
  destruct (countr_zero_spec 64 m ltac:(lia) ltac:(lia)) as (Ho & Hb & Hl). fold o in Ho, Hb, Hl.
  assert (q <= o /\ Z.testbit M o = true) as [Hqo HMo].
  { rewrite Hm in Hb by lia. apply andb_true_iff in Hb as [H1 H2]. split; [lia|exact H2]. }
  assert (forall i, q <= i < o -> Z.testbit M i = false) as Hgap.
  { intros i Hi. pose proof (Hl i ltac:(lia)) as H. rewrite Hm in H by lia.
    replace (q <=? i) with true in H by lia. exact H. }
  split; [lia|]. split; [exact HMo|]. split; [exact Hgap|].
  split; [apply popcount_gap; [lia|exact Hgap]|].
  subst m'. rewrite uint_small by lia. split; [apply Z.land_nonneg; lia|].
  intros i Hi. rewrite (clear_lowest m o) by (lia || assumption). rewrite Hm by lia.
  destruct (Z.ltb_spec i q), (Z.eqb_spec i o), (Z.leb_spec q i), (Z.leb_spec (o + 1) i);
    cbn; try lia; try reflexivity.
  apply Hgap. lia.
Qed.

(** The bit moved by one iteration. *)
Lemma moved_bit x k o i :
  0 <= k -> 0 <= o < 64 -> 0 <= i ->
  Z.testbit (uint 64 (Z.shiftl (Z.land (Z.shiftr x k) 1) o)) i = (i =? o) && Z.testbit x k.
Proof.
  intros Hk Ho Hi. rewrite testbit_uint, Z.shiftl_spec, Z.land_spec by lia.
  change 1 with (Z.b2z true). rewrite testbit_b2z, andb_true_r.
  destruct (Z.eqb_spec i o) as [->|Hne].
  - rewrite Z.sub_diag, Z.shiftr_spec by lia. rewrite Z.add_0_l. replace (o <? 64) with true by lia.
    cbn. apply andb_true_r.
  - replace (i - o =? 0) with false by lia. rewrite !andb_false_r. reflexivity.
Qed.
End Loop.

Definition deposited (x M i : Z) : bool := Z.testbit M i && Z.testbit x (popcount i M).

Lemma PDep_loop_spec fuel x M q m R :
  0 <= M < 2 ^ 64 -> 0 <= q -> 0 <= m -> from_bit q M m -> 64 - q <= Z.of_nat fuel -> 0 <= R ->
  (forall i, 0 <= i -> Z.testbit R i = (i <? q) && deposited x M i) ->
  exists R', PDep_loop fuel x m (popcount q M) R = Some R' /\ 0 <= R' /\
    forall i, 0 <= i -> Z.testbit R' i = deposited x M i.
Proof.
  intros HM. revert q m R. induction fuel as [|fuel IH]; intros q m R Hq Hm0 Hm Hf HR0 HR;
    cbn [PDep_loop]; rewrite Z.gtb_ltb; destruct (Z.ltb_spec 0 m) as [Hp|Hz].
  - destruct (next_bit M q m HM Hq Hm0 Hm Hp) as (Ho & _). lia.
  - exists R. split; [reflexivity|]. split; [exact HR0|]. intros i Hi. rewrite HR by lia.
    unfold deposited. destruct (Z.ltb_spec i q); [reflexivity|].
    rewrite (from_bit_done M q m Hq Hm) by lia. reflexivity.
  - destruct (next_bit M q m HM Hq Hm0 Hm Hp) as (Ho & HMo & Hgap & Hpc & Hm0' & Hm').
    set (o := countr_zero 64 m) in *.
    replace (popcount q M + 1) with (popcount (o + 1) M)
      by (rewrite popcount_succ, HMo, Hpc by lia; reflexivity).
    pose proof (popcount_range q M Hq).
    apply IH; [lia|exact Hm0'|exact Hm'|lia| |].
    + apply Z.lor_nonneg. split; [exact HR0|]. apply (uint_range 64). lia.
    + intros i Hi. rewrite Z.lor_spec, HR, moved_bit by lia. unfold deposited.
      destruct (Z.eqb_spec i o) as [->|Hne].
      * rewrite HMo, Hpc. replace (o <? q) with false by lia. replace (o <? o + 1) with true by lia. reflexivity.
      * cbn [andb]. rewrite orb_false_r.
        destruct (Z.ltb_spec i q), (Z.ltb_spec i (o + 1)); cbn; try reflexivity; try lia.
        rewrite Hgap by lia. reflexivity.
  - exists R. split; [reflexivity|]. split; [exact HR0|]. intros i Hi. rewrite HR by lia.
    unfold deposited. destruct (Z.ltb_spec i q); [reflexivity|].
    rewrite (from_bit_done M q m Hq Hm) by lia. reflexivity.
Qed.

Record extracted (x M q R : Z) : Prop := {
  extracted_bits i : 0 <= i < q -> Z.testbit M i = true -> Z.testbit R (popcount i M) = Z.testbit x i;
  extracted_high j : popcount q M <= j -> Z.testbit R j = false
}.

Lemma extracted_done x M q m R :
  0 <= q -> from_bit q M m -> m = 0 -> 0 <= M < 2 ^ 64 -> extracted x M q R -> extracted x M 64 R.
Proof.
  intros Hq Hm Hz HM [H1 H2]. pose proof (from_bit_done M q m Hq Hm Hz) as Hd. constructor.
  - intros i Hi Hb. apply H1; [|exact Hb]. destruct (Z_lt_le_dec i q); [lia|].
    rewrite Hd in Hb by lia. discriminate.
  - intros j Hj. apply H2. destruct (Z_le_gt_dec q 64).
    + rewrite <- (popcount_gap q 64 M); [exact Hj|lia|]. intros; apply Hd; lia.
    + rewrite (popcount_gap 64 q M); [exact Hj|lia|]. intros i Hi. apply (testbit_high 64); lia.
Qed.

Lemma PExt_loop_spec fuel x M q m R :
  0 <= M < 2 ^ 64 -> 0 <= q -> 0 <= m -> from_bit q M m -> 64 - q <= Z.of_nat fuel -> 0 <= R ->
  extracted x M q R ->
  exists R', PExt_loop fuel x m (popcount q M) R = Some R' /\ 0 <= R' /\ extracted x M 64 R'.
Proof.
  intros HM. revert q m R. induction fuel as [|fuel IH]; intros q m R Hq Hm0 Hm Hf HR0 HR;
    cbn [PExt_loop]; rewrite Z.gtb_ltb; destruct (Z.ltb_spec 0 m) as [Hp|Hz].
  1: { destruct (next_bit M q m HM Hq Hm0 Hm Hp) as (Ho & _). lia. }
  1, 3: exists R; split; [reflexivity|]; split; [exact HR0|]; apply (extracted_done _ _ q m); auto; lia.
  destruct (next_bit M q m HM Hq Hm0 Hm Hp) as (Ho & HMo & Hgap & Hpc & Hm0' & Hm').
  set (o := countr_zero 64 m) in *.
  assert (popcount (o + 1) M = popcount q M + 1) as Hpc1
    by (rewrite popcount_succ, HMo, Hpc by lia; reflexivity).
  rewrite <- Hpc1. pose proof (popcount_range q M Hq). pose proof (popcount_le o M ltac:(lia)).
  apply IH; [lia|exact Hm0'|exact Hm'|lia| |].
  - apply Z.lor_nonneg. split; [exact HR0|]. apply (uint_range 64). lia.
  - destruct HR as [H1 H2]. constructor.
    + intros i Hi Hb. pose proof (popcount_range i M ltac:(lia)).
      rewrite Z.lor_spec, moved_bit by lia.
      destruct (Z_lt_le_dec i q) as [Hlt|Hge].
      * pose proof (popcount_set_lt i q M ltac:(lia) Hb).
        replace (popcount i M =? popcount q M) with false by lia. cbn. rewrite orb_false_r.
        apply H1; [lia|exact Hb].
      * destruct (Z.eq_dec i o) as [->|Hne]; [|rewrite Hgap in Hb by lia; discriminate].
        rewrite Hpc, H2, Z.eqb_refl by lia. reflexivity.
    + intros j Hj. rewrite Z.lor_spec, H2, moved_bit by lia.
      replace (j =? popcount q M) with false by lia. reflexivity.
Qed.

(** ** The handlers *)

Lemma pd_width sz : sz = 4 \/ sz = 8 -> (if sz =? 4 then 32 else 64) = 8 * sz.
Proof. intros [-> | ->]; reflexivity. Qed.

Lemma Op_PDep_spec sz D a m :
  sz = 4 \/ sz = 8 ->
  exists R, Op_PDep sz D a m = Ok (put 64 R D) /\ 0 <= R < 2 ^ (8 * sz) /\
    forall i, 0 <= i -> Z.testbit R i = deposited (get (8 * sz) a) (get (8 * sz) m) i.
Proof.
  intros Hs. unfold Op_PDep. rewrite pd_width by exact Hs.
  replace (negb (sz =? 4) && negb (sz =? 8)) with false by (destruct Hs as [-> | ->]; reflexivity).
  set (x := get (8 * sz) a). set (M := get (8 * sz) m).
  assert (0 <= M < 2 ^ (8 * sz)) as HMs by (apply uint_range; lia).
  assert (0 <= M < 2 ^ 64) as HM by (pose proof (Z.pow_le_mono_r 2 (8 * sz) 64); lia).
  destruct (PDep_loop_spec 64 x M 0 M 0) as (R & HR & HR0 & Hb); try lia.
  { intros i Hi. replace (0 <=? i) with true by lia. reflexivity. }
  { intros i Hi. rewrite Z.bits_0. replace (i <? 0) with false by lia. reflexivity. }
  change (popcount 0 M) with 0 in HR. rewrite HR. exists R. split; [reflexivity|]. split; [|exact Hb].
  replace R with (uint (8 * sz) R); [apply uint_range; lia|].
  apply Z.bits_inj'. intros i Hi. rewrite testbit_uint, Hb by lia. unfold deposited.
  destruct (Z.ltb_spec i (8 * sz)); [reflexivity|]. rewrite (testbit_high (8 * sz) M) by lia. reflexivity.
Qed.

Lemma Op_PExt_spec sz D a m :
  sz = 4 \/ sz = 8 ->
  exists R, Op_PExt sz D a m = Ok (put 64 R D) /\ 0 <= R < 2 ^ popcount 64 (get (8 * sz) m) /\
    extracted (get (8 * sz) a) (get (8 * sz) m) 64 R.
Proof.
  intros Hs. unfold Op_PExt. rewrite pd_width by exact Hs.
  replace (negb (sz =? 4) && negb (sz =? 8)) with false by (destruct Hs as [-> | ->]; reflexivity).
  set (x := get (8 * sz) a). set (M := get (8 * sz) m).
  assert (0 <= M < 2 ^ (8 * sz)) as HMs by (apply uint_range; lia).
  assert (0 <= M < 2 ^ 64) as HM by (pose proof (Z.pow_le_mono_r 2 (8 * sz) 64); lia).
  destruct (PExt_loop_spec 64 x M 0 M 0) as (R & HR & HR0 & Hx); try lia.
  { intros i Hi. replace (0 <=? i) with true by lia. reflexivity. }
  { constructor; [lia|]. intros; apply Z.bits_0. }
  change (popcount 0 M) with 0 in HR. rewrite HR. exists R. split; [reflexivity|]. split; [|exact Hx].
  pose proof (popcount_range 64 M ltac:(lia)).
  replace R with (uint (popcount 64 M) R); [apply uint_range; lia|].
  apply Z.bits_inj'. intros i Hi. rewrite testbit_uint by lia.
  destruct (Z.ltb_spec i (popcount 64 M)); [reflexivity|]. symmetry. apply (extracted_high _ _ _ _ Hx). lia.
Qed.

(** ** Byte reversal *)

(** Where bit [i] of the reversed integer comes from. *)
Definition mirrored_bit (sz i : Z) : Z := 8 * (sz - 1 - i / 8) + i mod 8.


Lemma seqZ_all (P : Z -> Prop) n i : Forall P (seqZ 0 n) -> 0 <= i < n -> P i.
Proof. intros H Hi. rewrite List.Forall_forall in H. apply H, list_elem_of_In, elem_of_seqZ. lia. Qed.

(** One bit position of a byte swap: the masks select one of the shifted terms. *)
Ltac swap_bit :=
  rewrite ?testbit_uint, ?Z.lor_spec, ?Z.shiftr_spec, ?Z.shiftl_spec, ?Z.land_spec by lia;
  match goal with |- context [Z.testbit ?x] => is_var x; generalize (Z.testbit x); intros ? end;
  cbv -[andb orb];
  rewrite ?andb_false_r, ?andb_true_r, ?andb_true_l, ?orb_false_r, ?orb_false_l; reflexivity.

Lemma BSwap16_bits x i : 0 <= x < 2 ^ 16 -> 0 <= i < 16 -> Z.testbit (BSwap16 x) i = Z.testbit x (mirrored_bit 2 i).
Proof.
  intros Hx Hi. unfold BSwap16, mirrored_bit.
  rewrite testbit_uint, Z.lor_spec, Z.shiftr_spec, Z.shiftl_spec by lia.
  replace (i <? 16) with true by lia. cbn [andb].
  pose proof (Z.div_mod i 8 ltac:(lia)). pose proof (Z.mod_pos_bound i 8 ltac:(lia)).
  destruct (Z_lt_le_dec i 8).
  - replace (i / 8) with 0 in * by lia. rewrite (Z.testbit_neg_r x (i - 8)) by lia.
    rewrite orb_false_r. f_equal. lia.
  - replace (i / 8) with 1 in * by lia. rewrite (testbit_high 16 x (i + 8)) by lia. cbn [orb]. f_equal. lia.
Qed.

Lemma BSwap32_bits x i : 0 <= i < 32 -> Z.testbit (BSwap32 x) i = Z.testbit x (mirrored_bit 4 i).
Proof.
  apply (seqZ_all (fun i => Z.testbit (BSwap32 x) i = Z.testbit x (mirrored_bit 4 i))).
  unfold BSwap32, mirrored_bit. let l := eval vm_compute in (seqZ 0 32) in change (seqZ 0 32) with l.
  repeat (apply List.Forall_cons; [swap_bit|]). constructor.
Qed.

Lemma BSwap64_bits x i : 0 <= i < 64 -> Z.testbit (BSwap64 x) i = Z.testbit x (mirrored_bit 8 i).
Proof.
  apply (seqZ_all (fun i => Z.testbit (BSwap64 x) i = Z.testbit x (mirrored_bit 8 i))).
  unfold BSwap64, mirrored_bit. let l := eval vm_compute in (seqZ 0 64) in change (seqZ 0 64) with l.
  repeat (apply List.Forall_cons; [swap_bit|]). constructor.
Qed.

Lemma land_range x m n : 0 <= n -> 0 <= m < 2 ^ n -> 0 <= Z.land x m < 2 ^ n.
Proof.
  intros Hn Hm. split; [apply Z.land_nonneg; lia|].
  replace (Z.land x m) with (uint n (Z.land x m)); [apply uint_range; lia|].
  apply Z.bits_inj'. intros i Hi. rewrite testbit_uint by lia. destruct (Z.ltb_spec i n); [reflexivity|].
  rewrite Z.land_spec, (testbit_high n m) by lia. rewrite andb_false_r. reflexivity.
Qed.

Lemma shiftl_range a k n w : 0 <= n -> 0 <= k -> 0 <= a < 2 ^ n -> n + k <= w -> 0 <= Z.shiftl a k < 2 ^ w.
Proof.
  intros Hn Hk Ha Hw. rewrite Z.shiftl_mul_pow2 by lia. pose proof (pow2_pos k Hk).
  pose proof (Z.pow_le_mono_r 2 (n + k) w ltac:(lia) Hw) as H1. rewrite Z.pow_add_r in H1 by lia. nia.
Qed.

Lemma shiftr_range a k w : 0 <= k -> 0 <= a < 2 ^ w -> 0 <= Z.shiftr a k < 2 ^ w.
Proof. intros Hk Ha. rewrite Z.shiftr_div_pow2 by lia. apply div_pow2_range; lia. Qed.

Ltac swap_range w :=
  repeat apply lor_range;
  first [ apply shiftr_range; [lia|apply (land_range _ _ w); [lia|split; [lia|reflexivity]]]
        | match goal with |- 0 <= Z.shiftl _ ?k < _ =>
            apply (shiftl_range _ k (w - k) w); [lia|lia|apply land_range; [lia|split; [lia|reflexivity]]|lia] end ].

Lemma BSwap32_range x : 0 <= BSwap32 x < 2 ^ 32.
Proof. unfold BSwap32. swap_range 32. Qed.
Lemma BSwap64_range x : 0 <= BSwap64 x < 2 ^ 64.
Proof. unfold BSwap64. swap_range 64. Qed.

Lemma Op_Rev_spec sz D a :
  sz = 2 \/ sz = 4 \/ sz = 8 ->
  exists R, Op_Rev sz D a = Ok (put 64 R D) /\ 0 <= R < 2 ^ (8 * sz) /\
    forall i, 0 <= i < 8 * sz -> Z.testbit R i = Z.testbit (get (8 * sz) a) (mirrored_bit sz i).
Proof.
  intros [-> | [-> | ->]]; (eexists; split; [reflexivity|]); (split; [|intros i Hi]).
  - apply (uint_range 16). lia.
  - apply BSwap16_bits; [apply (uint_range 16); lia|exact Hi].
  - apply BSwap32_range.
  - apply BSwap32_bits, Hi.
  - apply BSwap64_range.
  - apply BSwap64_bits, Hi.
Qed.

Lemma mirrored_twice sz i : 0 <= i < 8 * sz ->
  0 <= mirrored_bit sz i < 8 * sz /\ mirrored_bit sz (mirrored_bit sz i) = i.
Proof.
  intros Hi. unfold mirrored_bit.
  pose proof (Z.div_mod i 8 ltac:(lia)). pose proof (Z.mod_pos_bound i 8 ltac:(lia)).
  set (q := i / 8) in *. set (r := i mod 8) in *.
  assert ((8 * (sz - 1 - q) + r) / 8 = sz - 1 - q) as -> by (symmetry; apply Z.div_unique_pos with (r := r); lia).
  assert ((8 * (sz - 1 - q) + r) mod 8 = r) as -> by (symmetry; apply Z.mod_unique_pos with (q := sz - 1 - q); lia).
  lia.
Qed.
