(* ===== verification/InterpTheorems.v ===== *)
(** * Properties of the interpreter

    The interpreter against the reference semantics of the IR, the operations
    that permute bits or work on double-width operands, guest memory, and the
    termination of [InterpretIR]. *)
From Stdlib Require Import ZArith Lia Bool.
From stdpp Require Import base gmap list numbers option.
From S2P Require Import Prelude IR ALUOps Atomic Interp IRSpec InterpRefines InterpBits.
#[local] Open Scope Z_scope.

(** ** Results in the low bits *)

Lemma GD_low sz v D :
  zext 8 D -> 0 <= sz <= 8 -> exists c, GD v D = Ok c /\ get (8 * sz) c = uint (8 * sz) v.
Proof.
  intros HD Hs. exists (uint 64 v). split; [apply (GD_zext 8); [exact HD|lia]|].
  apply uint_uint. lia.
Qed.

Lemma uint_shiftr_prod w a b : 0 < w -> uint w (Z.shiftr (sint w a * sint w b) w) = uint w (sint w a * sint w b / 2 ^ w).
Proof. intros. rewrite Z.shiftr_div_pow2 by lia. reflexivity. Qed.

Lemma uint_eqb_0 w b : 0 < w -> (uint w b =? 0) = false -> (sint w b =? 0) = false.
Proof. intros. rewrite uint_eqb_sint by lia. assumption. Qed.

(** A quotient of narrow operands cannot overflow 64 bits. *)
Lemma narrow_no_overflow w a : 0 < w < 64 -> (sint w a =? - 2 ^ 63) = false.
Proof.
  intros Hw. pose proof (sint_range w a ltac:(lia)).
  pose proof (Z.pow_lt_mono_r 2 (w - 1) 63 ltac:(lia) ltac:(lia) ltac:(lia)). lia.
Qed.

Lemma Op_Div_low sz D a b :
  sz = 1 \/ sz = 2 \/ sz = 4 -> (uint (8 * sz) b =? 0) = false -> zext 8 D ->
  exists c, Op_Div sz D a b = Ok c /\ get (8 * sz) c = uint (8 * sz) (Z.quot (sint (8 * sz) a) (sint (8 * sz) b)).
Proof.
  intros Hs Hb HD. assert (0 < 8 * sz < 64) as Hw by lia.
  replace (Op_Div sz D a b) with (q ← sdiv 64 (sint (8 * sz) (get 64 a)) (sint (8 * sz) (get 64 b)); GD q D)
    by (destruct Hs as [-> | [-> | ->]]; reflexivity).
  change (get 64 a) with (uint 64 a); change (get 64 b) with (uint 64 b). rewrite !sint_uint by lia. unfold sdiv.
  rewrite (uint_eqb_0 (8 * sz) b ltac:(lia) Hb), (narrow_no_overflow _ _ Hw). cbn [orb andb mbind outcome_bind].
  apply GD_low; [exact HD|lia].
Qed.

Lemma Op_Rem_low sz D a b :
  sz = 1 \/ sz = 2 \/ sz = 4 -> (uint (8 * sz) b =? 0) = false -> zext 8 D ->
  exists c, Op_Rem sz D a b = Ok c /\ get (8 * sz) c = uint (8 * sz) (Z.rem (sint (8 * sz) a) (sint (8 * sz) b)).
Proof.
  intros Hs Hb HD. assert (0 < 8 * sz < 64) as Hw by lia.
  replace (Op_Rem sz D a b) with (q ← srem 64 (sint (8 * sz) (get 64 a)) (sint (8 * sz) (get 64 b)); GD q D)
    by (destruct Hs as [-> | [-> | ->]]; reflexivity).
  change (get 64 a) with (uint 64 a); change (get 64 b) with (uint 64 b). rewrite !sint_uint by lia. unfold srem.
  rewrite (uint_eqb_0 (8 * sz) b ltac:(lia) Hb), (narrow_no_overflow _ _ Hw). cbn [orb andb mbind outcome_bind].
  apply GD_low; [exact HD|lia].
Qed.

Lemma uint_opp w x y : uint w x = uint w y -> uint w (- x) = uint w (- y).
Proof.
  intros E. unfold uint in *. replace (- x) with (0 - x) by lia. replace (- y) with (0 - y) by lia.
  rewrite (Zminus_mod 0 x), (Zminus_mod 0 y), E. reflexivity.
Qed.

Lemma Op_Neg_low D a : zext 8 D -> exists c, Op_Neg 4 D a = Ok c /\ get 32 c = uint 32 (- a).
Proof.
  intros HD. unfold Op_Neg. cbn [Z.eqb Pos.eqb].
  destruct (GD_low 4 (sint 32 (- sint 32 (get 64 a))) D HD ltac:(lia)) as (c & Hc & E). exists c.
  split; [exact Hc|]. change (8 * 4) with 32 in E. rewrite E, uint_sint by lia. apply uint_opp.
  rewrite uint_sint by lia. apply uint_uint. lia.
Qed.

Lemma Op_Mul_low D a b : zext 8 D -> exists c, Op_Mul 4 D a b = Ok c /\ get 32 c = uint 32 (a * b).
Proof.
  intros HD. unfold Op_Mul. cbn [Z.eqb Pos.eqb].
  destruct (GD_low 4 (sint 32 (get 64 a) * sint 32 (get 64 b)) D HD ltac:(lia)) as (c & Hc & E). exists c.
  split; [exact Hc|]. change (8 * 4) with 32 in E. change (get 64 a) with (uint 64 a) in E; change (get 64 b) with (uint 64 b) in E.
  rewrite !sint_uint, uint_sint_mul in E by lia. exact E.
Qed.

Lemma Op_MulH_low D a b : zext 8 D ->
  exists c, Op_MulH 4 D a b = Ok c /\ get 32 c = uint 32 (sint 32 a * sint 32 b / 2 ^ 32).
Proof.
  intros HD. unfold Op_MulH. cbn [Z.eqb Pos.eqb].
  destruct (GD_low 4 (Z.shiftr (sint 32 (get 64 a) * sint 32 (get 64 b)) 32) D HD ltac:(lia)) as (c & Hc & E).
  exists c. split; [exact Hc|]. change (8 * 4) with 32 in E. change (get 64 a) with (uint 64 a) in E; change (get 64 b) with (uint 64 b) in E.
  rewrite !sint_uint, uint_shiftr_prod in E by lia. exact E.
Qed.

Lemma exec_op_low_wp st n h v :
  ir_value (Op h) (Size h) (cell st <$> Args h) = Some v -> Op h <> OP_UMULH ->
  zext (Size h) (cell st n) ->
  exists c, exec_op st n h = Ok (set_cell n c st) /\ get (8 * Size h) c = v.
Proof.
  intros Hv Hu HD. pose proof (ir_value_zext _ _ _ _ Hv) as Hz.
  destruct (zero_extending (Op h) (Size h)) eqn:Ez.
  { exists v. split; [exact (exec_op_value _ _ _ _ Hv Ez HD)|]. apply uint_small. exact Hz. }
  assert (exists c, exec_pure st n h = Some (Ok c) /\ get (8 * Size h) c = v) as (c & Hc & E);
    [|exists c; split; [unfold exec_op; rewrite Hc; reflexivity|exact E]].
  destruct h as [op sz es args]. cbn [Op Size Args] in *.
  assert (zext 8 (cell st n)) as HD8.
  { destruct op; cbn in Ez; try discriminate Ez; destruct args as [|a [|b [|? ?]]];
      cbn [fmap list_fmap ir_value] in Hv; try discriminate Hv; apply when_Some in Hv as [Hc _];
      apply (zext_le sz); try exact HD; unfold size_48, size_1248 in Hc; lia. }
  destruct op; cbn in Ez; try discriminate Ez; try (destruct (Hu eq_refl));
    destruct args as [|a [|b [|? ?]]]; cbn [fmap list_fmap ir_value] in Hv; try discriminate Hv;
    apply when_Some in Hv as [Hc ->]; unfold exec_pure; cbn [Op Size Args].
  all: repeat (apply andb_true_iff in Hc as [Hc ?]); rewrite ?negb_true_iff in *.
  all: first [ apply size_48_cases in Hc; assert (sz = 4) as -> by lia
             | apply size_1248_cases in Hc; assert (sz = 1 \/ sz = 2 \/ sz = 4) as Hs by lia ].
  - destruct (Op_Neg_low _ (cell st a) HD8) as (c & -> & E). eauto.
  - destruct (Op_Mul_low _ (cell st a) (cell st b) HD8) as (c & -> & E). eauto.
  - destruct (Op_Div_low sz _ (cell st a) (cell st b) Hs ltac:(assumption) HD8) as (c & -> & E). eauto.
  - destruct (Op_Rem_low sz _ (cell st a) (cell st b) Hs ltac:(assumption) HD8) as (c & -> & E). eauto.
  - destruct (Op_MulH_low _ (cell st a) (cell st b) HD8) as (c & -> & E). eauto.
Qed.

(** ** Double-width operands *)

Lemma double_width w u l : 0 <= w -> Z.lor (Z.shiftl (get w u) w) (get w l) = get w u * 2 ^ w + get w l.
Proof.
  intros Hw. rewrite Z.shiftl_mul_pow2, Z.lor_comm, lor_fields by (apply uint_range; lia) || lia. lia.
Qed.

(** ** Termination of the block loop *)

(** The blocks a node may branch to. *)
Definition jump_targets (h : IROp_Header) : list NodeID :=
  match Op h, Args h with
  | OP_JUMP, [t] => [t]
  | OP_CONDJUMP _ _, [_; _; t; f] => [t; f]
  | _, _ => []
  end.

Lemma exec_op_branch st n h st' :
  exec_op st n h = Ok st' ->
  Redo st' = Redo st \/ (Redo st' = true /\ In (BlockIterator st') (jump_targets h)).
Proof.
  unfold exec_op. destruct (exec_pure st n h) as [r|] eqn:Ep.
  - intros H. apply bind_Ok in H as (v & _ & H). injection H as <-. left. reflexivity.
  - clear Ep. destruct (exec_atomic st n h) as [r|] eqn:Ea.
    { intros H. apply bind_Ok in H as ([v m] & _ & H). injection H as <-. left. destruct v; reflexivity. }
    clear Ea. unfold jump_targets. destruct (Op h), (Args h) as [|x [|y [|t [|f [|? ?]]]]]; intros H; try discriminate H;
      try (injection H as <-; left; reflexivity);
      try (apply bind_Ok in H as (v & Hv & H); injection H as <-).
    all: try (left; reflexivity).
    + injection H as <-. right. cbn. auto.
    + right. split; [reflexivity|]. unfold Op_CondJump in Hv. apply bind_Ok in Hv as (c & _ & Hv).
      injection Hv as <-. destruct c; cbn; auto.
Qed.

Lemma run_code_branch code st st' :
  run_code code st = Ok st' -> Redo st = false -> Redo st' = true ->
  exists n h, In (n, h) code /\ In (BlockIterator st') (jump_targets h).
Proof.
  revert st. induction code as [|[n h] code IH]; intros st Hr Hd Hd'; cbn [run_code] in Hr.
  - injection Hr as <-. congruence.
  - apply bind_Ok in Hr as (st1 & He & Hr). pose proof (exec_op_branch _ _ _ _ He) as Hb.
    destruct (Quit st1 || Redo st1) eqn:E.
    + injection Hr as <-. destruct Hb as [Hb|[_ Hb]]; [congruence|]. exists n, h. split; [left; reflexivity|exact Hb].
    + apply orb_false_iff in E as [_ E]. destruct (IH st1 Hr E Hd') as (m & g & Hin & Ht).
      exists m, g. split; [right; exact Hin|exact Ht].
Qed.

(** Every branch goes to a later block of the list. *)
Definition forward (bs : IRBlocks) : Prop :=
  forall i b code n h t, bs !! i = Some (b, code) -> In (n, h) code -> In t (jump_targets h) ->
  exists j code', (i < j)%nat /\ bs !! j = Some (t, code').

Lemma find_block_lookup (bs : IRBlocks) i b code :
  base.NoDup bs.*1 -> bs !! i = Some (b, code) ->
  find_block bs b = Some (code, fst <$> bs !! S i).
Proof.
  revert i. induction bs as [|[b' code'] bs IH]; intros i Hnd Hi; [discriminate|].
  cbn [fmap list_fmap fst] in Hnd. apply list.NoDup_cons in Hnd as [Hn Hnd]. cbn [find_block].
  destruct i as [|i]; cbn in Hi.
  - injection Hi as -> ->. rewrite decide_True by reflexivity. destruct bs; reflexivity.
  - rewrite decide_False; [apply IH; assumption|]. intros ->. apply Hn.
    apply list_elem_of_In, in_map_iff. exists (b, code). split; [reflexivity|].
    apply list_elem_of_In, list_elem_of_lookup. eauto.
Qed.

Lemma interpret_blocks_forward fuel (bs : IRBlocks) i b code st :
  base.NoDup bs.*1 -> forward bs -> bs !! i = Some (b, code) -> BlockIterator st = b ->
  (length bs <= fuel + i)%nat -> exists r, interpret_blocks fuel bs st = Some r.
Proof.
  intros Hnd Hf. revert i b code st. induction fuel as [|fuel IH]; intros i b code st Hi Hb Hl.
  - apply lookup_lt_Some in Hi. lia.
  - cbn [interpret_blocks]. rewrite Hb, (find_block_lookup _ _ _ _ Hnd Hi).
    destruct (run_code code _) as [st'| |] eqn:Er; eauto.
    destruct (Redo st') eqn:Ed.
    + destruct (run_code_branch _ _ _ Er eq_refl Ed) as (n & h & Hin & Ht).
      destruct (Hf i b code n h _ Hi Hin Ht) as (j & code' & Hj & Hbj).
      apply (IH j (BlockIterator st') code'); [exact Hbj|reflexivity|lia].
    + destruct (Quit st'); eauto. destruct (bs !! S i) as [[b2 code2]|] eqn:E2; cbn [fmap option_fmap option_map fst]; eauto.
      apply (IH (S i) b2 code2); [exact E2|reflexivity|lia].
Qed.

Lemma interpret_blocks_mono fuel fuel' bs st r :
  interpret_blocks fuel bs st = Some r -> (fuel <= fuel')%nat -> interpret_blocks fuel' bs st = Some r.
Proof.
  revert fuel' st. induction fuel as [|fuel IH]; intros [|fuel'] st H Hle; try discriminate H; try lia.
  cbn [interpret_blocks] in *. destruct (find_block bs _) as [[code next]|]; [|exact H].
  destruct (run_code code _) as [st'| |]; [|exact H..].
  destruct (Redo st'); [apply IH; [exact H|lia]|]. destruct (Quit st'); [exact H|].
  destruct next; [apply IH; [exact H|lia]|exact H].
Qed.

(** ** Properties *)

(** C23: The interpreter runs a straight-line block in static single assignment
    form to the values of the reference semantics: when [ir_run] gives every node
    a value and the operations zero-extend, [run_code] succeeds, the cells hold
    exactly these values, and context, memory and control are untouched. *)
Theorem run_code_reference code st env
    (Hrun : ir_run code (SSAData st) = Some env)
    (Hzext : Forall (fun '(_, h) => zero_extending (Op h) (Size h) = true) code)
    (Hfresh : fresh_code code st) (Hquit : Quit st = false) (Hredo : Redo st = false) :
  run_code code st = Ok (set_cells env st).
Proof. exact (run_code_ir code st env Hrun Hzext Hfresh Hquit Hredo). Qed.

(** [(5 - 7) >> 1] at four bytes. *)
Definition sample_code : list (NodeID * IROp_Header) :=
  [(1%nat, mkOp (OP_CONSTANT 5) 8 8 []); (2%nat, mkOp (OP_CONSTANT 7) 8 8 []);
   (3%nat, mkOp OP_SUB 4 4 [1%nat; 2%nat]); (4%nat, mkOp (OP_CONSTANT 1) 8 8 []);
   (5%nat, mkOp OP_ASHR 4 4 [3%nat; 4%nat])].
Definition sample_state : IROpData := mkData 0 ∅ ∅ ∅ false false 0.

Lemma run_code_reference_witness :
  run_code sample_code sample_state =
  Ok (set_cells (list_to_map [(1%nat, 5); (2%nat, 7); (3%nat, 0xFFFFFFFE); (4%nat, 1); (5%nat, 0xFFFFFFFF)])
        sample_state).
Proof.
  apply (run_code_reference sample_code sample_state).
  - vm_compute. reflexivity.
  - repeat constructor.
  - split; [apply (bool_decide_unpack _); vm_compute; exact I|repeat constructor].
  - reflexivity.
  - reflexivity.
Defined.

(** The signed operations whose handlers sign-extend their result to the whole
    cell still leave the value of the reference semantics in the low bits of the
    node's size, for every operation but the high half of an unsigned product. *)
Theorem exec_op_low_bits st n h v
    (Hv : ir_value (Op h) (Size h) (cell st <$> Args h) = Some v) (Hop : Op h <> OP_UMULH)
    (HD : zext (Size h) (cell st n)) :
  exists c, exec_op st n h = Ok (set_cell n c st) /\ get (8 * Size h) c = v.
Proof. exact (exec_op_low_wp st n h v Hv Hop HD). Qed.

(** [-1] at four bytes: the low half of the cell is right. *)
Lemma exec_op_low_bits_witness :
  let st := set_cell 1 1 sample_state in
  exists c, exec_op st 2 (mkOp OP_NEG 4 4 [1%nat]) = Ok (set_cell 2 c st) /\ get (8 * 4) c = 0xFFFFFFFF.
Proof.
  intros st. apply (exec_op_low_bits st 2 (mkOp OP_NEG 4 4 [1%nat]) 0xFFFFFFFF).
  - vm_compute. reflexivity.
  - discriminate.
  - vm_compute. split; congruence.
Defined.

(** [PDep] terminates within its 64 iterations and deposits the low bits of
    its input at the set bits of the mask; [PExt] with the same mask brings them
    back, that is, the input modulo two to the number of set bits. *)
Theorem PExt_PDep sz D D' a m (Hsz : sz = 4 \/ sz = 8) :
  exists R, Op_PDep sz D a m = Ok (put 64 R D) /\ 0 <= R < 2 ^ (8 * sz) /\
    (forall i, 0 <= i -> Z.testbit R i =
       Z.testbit (get (8 * sz) m) i && Z.testbit (get (8 * sz) a) (popcount i (get (8 * sz) m))) /\
    Op_PExt sz D' (put 64 R D) m =
      Ok (put 64 (uint (popcount 64 (get (8 * sz) m)) (get (8 * sz) a)) D').
Proof.
  destruct (Op_PDep_spec sz D a m Hsz) as (R & HR & Hr & Hb).
  exists R. split; [exact HR|]. split; [exact Hr|]. split; [exact Hb|].
  destruct (Op_PExt_spec sz D' (put 64 R D) m Hsz) as (X & HX & Hx & Hext).
  rewrite HX. do 2 f_equal.
  rewrite get_put_narrow, (uint_small (8 * sz) R) in Hext by lia.
  set (M := get (8 * sz) m) in *. pose proof (popcount_range 64 M ltac:(lia)).
  apply Z.bits_inj'. intros j Hj. rewrite testbit_uint by lia.
  destruct (Z.ltb_spec j (popcount 64 M)); cbn [andb]; [|apply (extracted_high _ _ _ _ Hext); lia].
  destruct (popcount_select 64 M j) as (i & Hi & HMi & <-); [lia|lia|].
  rewrite (extracted_bits _ _ _ _ Hext i) by (assumption || lia).
  rewrite Hb by lia. unfold deposited. rewrite HMi. reflexivity.
Qed.

Lemma PExt_PDep_witness :
  exists R, Op_PDep 4 0 0x35 0xF00F = Ok (put 64 R 0) /\ 0 <= R < 2 ^ (8 * 4) /\
    (forall i, 0 <= i -> Z.testbit R i =
       Z.testbit (get (8 * 4) 0xF00F) i && Z.testbit (get (8 * 4) 0x35) (popcount i (get (8 * 4) 0xF00F))) /\
    Op_PExt 4 0 (put 64 R 0) 0xF00F = Ok (put 64 (uint (popcount 64 (get (8 * 4) 0xF00F)) (get (8 * 4) 0x35)) 0).
Proof. apply (PExt_PDep 4 0 0 0x35 0xF00F). left. reflexivity. Defined.

(** Depositing what was extracted with the same mask keeps exactly the bits of
    the mask. *)
Theorem PDep_PExt sz D D' a m (Hsz : sz = 4 \/ sz = 8) :
  exists R, Op_PExt sz D a m = Ok (put 64 R D) /\
    Op_PDep sz D' (put 64 R D) m = Ok (put 64 (Z.land (get (8 * sz) a) (get (8 * sz) m)) D').
Proof.
  destruct (Op_PExt_spec sz D a m Hsz) as (X & HX & Hx & Hext).
  exists X. split; [exact HX|].
  destruct (Op_PDep_spec sz D' (put 64 X D) m Hsz) as (R & HR & Hr & Hb).
  rewrite HR. do 2 f_equal. set (M := get (8 * sz) m) in *.
  assert (0 <= M < 2 ^ (8 * sz)) as HM by (apply uint_range; lia).
  apply Z.bits_inj'. intros i Hi. rewrite Hb, Z.land_spec by lia. unfold deposited.
  destruct (Z.testbit M i) eqn:E; [|rewrite andb_false_r; reflexivity].
  assert (i < 8 * sz) as Hi8.
  { destruct (Z_lt_le_dec i (8 * sz)); [assumption|]. rewrite (testbit_high (8 * sz) M) in E by lia. discriminate. }
  rewrite andb_true_l, andb_true_r. rewrite get_put_narrow by lia.
  pose proof (popcount_le i M Hi). pose proof (popcount_range i M Hi).
  rewrite testbit_uint by lia. replace (popcount i M <? 8 * sz) with true by lia. cbn [andb].
  apply (extracted_bits _ _ _ _ Hext); [lia|exact E].
Qed.

Lemma PDep_PExt_witness :
  exists R, Op_PExt 8 0 0xABCD 0xF00F = Ok (put 64 R 0) /\
    Op_PDep 8 0 (put 64 R 0) 0xF00F = Ok (put 64 (Z.land (get (8 * 8) 0xABCD) (get (8 * 8) 0xF00F)) 0).
Proof. apply (PDep_PExt 8 0 0 0xABCD 0xF00F). right. reflexivity. Defined.

(** [Rev] reverses the bytes of its operand, so applied twice it gives the
    operand back. *)
Theorem Rev_involutive sz D D' a (Hsz : sz = 2 \/ sz = 4 \/ sz = 8) :
  exists R, Op_Rev sz D a = Ok (put 64 R D) /\ 0 <= R < 2 ^ (8 * sz) /\
    (forall i, 0 <= i < 8 * sz ->
       Z.testbit R i = Z.testbit (get (8 * sz) a) (8 * (sz - 1 - i / 8) + i mod 8)) /\
    Op_Rev sz D' (put 64 R D) = Ok (put 64 (get (8 * sz) a) D').
Proof.
  destruct (Op_Rev_spec sz D a Hsz) as (R & HR & Hr & Hb).
  exists R. split; [exact HR|]. split; [exact Hr|]. split; [exact Hb|].
  destruct (Op_Rev_spec sz D' (put 64 R D) Hsz) as (X & HX & Hx & Hbx).
  rewrite HX. do 2 f_equal. rewrite get_put_narrow, (uint_small (8 * sz) R) in Hbx by lia.
  assert (0 <= get (8 * sz) a < 2 ^ (8 * sz)) as Ha by (apply uint_range; lia).
  apply Z.bits_inj'. intros i Hi. destruct (Z_lt_le_dec i (8 * sz)).
  - destruct (mirrored_twice sz i) as [Hm Hmm]; [lia|]. rewrite Hbx, Hb, Hmm by lia. reflexivity.
  - rewrite !(testbit_high (8 * sz)) by lia. reflexivity.
Qed.

Lemma Rev_involutive_witness :
  exists R, Op_Rev 4 0 0x11223344 = Ok (put 64 R 0) /\ 0 <= R < 2 ^ (8 * 4) /\
    (forall i, 0 <= i < 8 * 4 ->
       Z.testbit R i = Z.testbit (get (8 * 4) 0x11223344) (8 * (4 - 1 - i / 8) + i mod 8)) /\
    Op_Rev 4 0 (put 64 R 0) = Ok (put 64 (get (8 * 4) 0x11223344) 0).
Proof. apply (Rev_involutive 4 0 0 0x11223344). auto. Defined.

(** The unsigned double-width division: for a non-zero divisor [d] above the
    upper half, quotient and remainder satisfy [u * 2^w + l = q * d + r] with
    [r < d] and [q] not truncated; for a zero divisor both are undefined. *)
Theorem LUDiv_LURem sz D D' l u d (Hsz : sz = 2 \/ sz = 4 \/ sz = 8)
    (Hfits : get (8 * sz) u < get (8 * sz) d \/ get (8 * sz) d = 0) :
  (get (8 * sz) d = 0 /\ Op_LUDiv sz D l u d = Undef /\ Op_LURem sz D' l u d = Undef) \/
  exists q r, Op_LUDiv sz D l u d = Ok (put 64 q D) /\ Op_LURem sz D' l u d = Ok (put 64 r D') /\
    get (8 * sz) u * 2 ^ (8 * sz) + get (8 * sz) l = q * get (8 * sz) d + r /\
    0 <= r < get (8 * sz) d /\ 0 <= q < 2 ^ (8 * sz).
Proof.
  set (w := 8 * sz) in *. set (x := get w u * 2 ^ w + get w l).
  assert (Op_LUDiv sz D l u d = (q ← udiv x (get w d); Ok (put 64 (uint w q) D))) as E1.
  { subst x w. destruct Hsz as [-> | [-> | ->]]; unfold Op_LUDiv, GD; cbn [Z.eqb Pos.eqb];
      eval_widths; rewrite double_width by lia; destruct (udiv _ _); try reflexivity.
    cbn [mbind outcome_bind]. unfold put. rewrite uint_idemp. reflexivity. }
  assert (Op_LURem sz D' l u d = (q ← urem x (get w d); Ok (put 64 (uint w q) D'))) as E2.
  { subst x w. destruct Hsz as [-> | [-> | ->]]; unfold Op_LURem, GD; cbn [Z.eqb Pos.eqb];
      eval_widths; rewrite double_width by lia; destruct (urem _ _); try reflexivity.
    cbn [mbind outcome_bind]. unfold put. rewrite uint_idemp. reflexivity. }
  rewrite E1, E2. unfold udiv, urem.
  pose proof (uint_range w l ltac:(lia)) as Hl. pose proof (uint_range w u ltac:(lia)) as Hu.
  pose proof (uint_range w d ltac:(lia)) as Hd. fold (get w l) in Hl. fold (get w u) in Hu. fold (get w d) in Hd.
  destruct (Z.eqb_spec (get w d) 0) as [E|E]; [left; auto|right].
  destruct Hfits as [Hlt|Hz]; [|contradiction].
  exists (x / get w d), (x mod get w d). cbn [mbind outcome_bind].
  assert (0 <= x / get w d < 2 ^ w).
  { split; [apply Z.div_pos; subst x; nia|]. apply Z.div_lt_upper_bound; [lia|]. subst x. nia. }
  pose proof (Z.mod_pos_bound x (get w d) ltac:(lia)).
  rewrite !(uint_small w (_ / _)), !(uint_small w (_ mod _)) by lia.
  split_and!; try reflexivity; try lia.
  rewrite (Z.mul_comm (x / get w d)). apply Z.div_mod. exact E.
Qed.

Lemma LUDiv_LURem_witness :
  (get (8 * 8) 3 = 0 /\ Op_LUDiv 8 0 5 1 3 = Undef /\ Op_LURem 8 0 5 1 3 = Undef) \/
  exists q r, Op_LUDiv 8 0 5 1 3 = Ok (put 64 q 0) /\ Op_LURem 8 0 5 1 3 = Ok (put 64 r 0) /\
    get (8 * 8) 1 * 2 ^ (8 * 8) + get (8 * 8) 5 = q * get (8 * 8) 3 + r /\
    0 <= r < get (8 * 8) 3 /\ 0 <= q < 2 ^ (8 * 8).
Proof. apply (LUDiv_LURem 8 0 0 5 1 3); [auto|left; reflexivity]. Defined.

(** A store to guest memory succeeds when its bytes are mapped; the load of
    the same size from the same address then gives the stored value at that width,
    and every byte outside the range is unchanged. *)
Theorem StoreMem_LoadMem sz addr v m (Hsz : 0 <= sz)
    (Hmapped : forall i, 0 <= i < sz -> is_Some (m !! (addr + i))) :
  exists m', Op_StoreMem sz addr v m = Ok m' /\
    Op_LoadMem sz addr m' = Ok (put (8 * sz) v 0) /\
    (forall a, a < addr \/ addr + sz <= a -> m' !! a = m !! a).
Proof.
  assert (exists o, load (Z.to_nat sz) m addr = Some o) as [o Ho].
  { assert (forall i, 0 <= i < Z.of_nat (Z.to_nat sz) -> is_Some (m !! (addr + i))) as H
      by (rewrite Z2Nat.id by lia; exact Hmapped).
    clear Hmapped Hsz. revert addr H. induction (Z.to_nat sz) as [|n IH]; intros addr H; [eauto|].
    destruct (H 0) as [x Hx]; [lia|]. rewrite Z.add_0_r in Hx.
    destruct (IH (addr + 1)) as [y Hy].
    { intros i Hi. replace (addr + 1 + i) with (addr + (i + 1)) by lia. apply H. lia. }
    cbn [load]. rewrite Hx. cbn [mbind option_bind]. rewrite Hy. eauto. }
  exists (store (Z.to_nat sz) m addr (get (8 * sz) v)). unfold Op_StoreMem, Op_LoadMem. rewrite Ho.
  split; [reflexivity|]. split.
  - rewrite load_store_same, Z2Nat.id by lia. cbn [deref mbind outcome_bind].
    unfold put, get. rewrite !uint_idemp. reflexivity.
  - intros a Ha. apply store_frame. rewrite Z2Nat.id by lia. exact Ha.
Qed.

Definition two_bytes : gmap Z Z := {[ 0x1000 := 1; 0x1001 := 2 ]}.
Lemma StoreMem_LoadMem_witness :
  exists m', Op_StoreMem 2 0x1000 0xBEEF two_bytes = Ok m' /\
    Op_LoadMem 2 0x1000 m' = Ok (put (8 * 2) 0xBEEF 0) /\
    (forall a, a < 0x1000 \/ 0x1000 + 2 <= a -> m' !! a = two_bytes !! a).
Proof.
  apply (StoreMem_LoadMem 2 0x1000 0xBEEF two_bytes); [lia|]. intros i Hi.
  assert (i = 0 \/ i = 1) as [-> | ->] by lia; vm_compute; eauto.
Defined.

(** C40: A program whose branches go to later blocks only is interpreted to an
    outcome, and every amount of fuel from the number of its blocks on gives that
    outcome. *)
Theorem InterpretIR_terminates bs frame mem (Hnd : base.NoDup bs.*1) (Hforward : forward bs) :
  exists r, forall fuel, (length bs <= fuel)%nat -> InterpretIR fuel bs frame mem = Some r.
Proof.
  unfold InterpretIR. destruct (load 8 frame RIP_OFFSET) as [rip|]; [|exists Undef; reflexivity].
  destruct bs as [|[b code] bs]; [exists Undef; reflexivity|]. cbn [head].
  destruct (interpret_blocks_forward (length ((b, code) :: bs)) _ 0 b code
    (mkData rip ∅ frame mem false false b) Hnd Hforward eq_refl eq_refl ltac:(lia)) as (r & Hr).
  exists r. intros fuel Hf. exact (interpret_blocks_mono _ fuel _ _ _ Hr Hf).
Qed.

(** Two blocks, the first branching to the second. *)
Definition two_blocks : IRBlocks :=
  [(1%nat, [(2%nat, mkOp OP_JUMP 0 0 [10%nat])]); (10%nat, [(11%nat, mkOp (OP_CONSTANT 5) 8 8 [])])].

Lemma InterpretIR_terminates_witness :
  exists r, forall fuel, (length two_blocks <= fuel)%nat ->
    InterpretIR fuel two_blocks (store 8 ∅ RIP_OFFSET 0x400000) ∅ = Some r.
Proof.
  apply (InterpretIR_terminates two_blocks).
  - apply (bool_decide_unpack _). vm_compute. exact I.
  - intros [|[|i]] b code n h t Hi Hin Ht; cbn in Hi; [| |discriminate]; injection Hi as <- <-.
    + destruct Hin as [E|[]]. injection E as <- <-. destruct Ht as [<-|[]]. exists 1%nat. eexists. split; [lia|reflexivity].
    + destruct Hin as [E|[]]. injection E as <- <-. destruct Ht.
Defined.

(** [FCmp] with all three flags requested leaves, in bits 0, 1 and 2, whether
    the operands are equal, less, and unordered, the first two also for unordered
    operands. *)
Theorem FCmp_flags es D a b (w := if es =? 4 then 32 else 64) :
  exists v, Op_FCmp es 7 D a b = Ok (put 64 v D) /\ 0 <= v < 8 /\
    Z.testbit v FCMP_FLAG_EQ = fp_unordered w (get w a) (get w b) || fp_eq w (get w a) (get w b) /\
    Z.testbit v FCMP_FLAG_LT = fp_unordered w (get w a) (get w b) || fp_lt w (get w a) (get w b) /\
    Z.testbit v FCMP_FLAG_UNORDERED = fp_unordered w (get w a) (get w b).
Proof.
  unfold Op_FCmp. fold w.
  set (U := fp_unordered w (get w a) (get w b)). set (L := fp_lt w _ _). set (E := fp_eq w _ _).
  eexists. split; [reflexivity|].
  change (Z.testbit 7 FCMP_FLAG_EQ) with true. change (Z.testbit 7 FCMP_FLAG_LT) with true.
  change (Z.testbit 7 FCMP_FLAG_UNORDERED) with true. cbn [andb].
  destruct U, L, E; vm_compute; repeat split; congruence.
Qed.

(** ** Types of the interpreter's state *)

(** A slot has 16 bytes, a byte of a memory is a byte. *)
Definition slot (v : Z) : Prop := 0 <= v < 2 ^ 128.
Definition bytes_ok (m : gmap Z Z) : Prop := map_Forall (fun _ v => 0 <= v < 256) m.
Record well_typed (st : IROpData) : Prop := {
  typed_cells n : slot (cell st n);
  typed_frame : bytes_ok (Frame st);
  typed_mem : bytes_ok (Mem st)
}.
(** The sizes of a node that are not vectors of AVX. *)
Definition header_ok (h : IROp_Header) : Prop := 0 <= Size h <= 16 /\ 0 <= ElementSize h <= 8.

Lemma put_slot w v D : 0 <= w <= 128 -> slot D -> slot (put w v D).
Proof. exact (put_range w v D 128). Qed.

Lemma store_bytes_ok n m a v : bytes_ok m -> bytes_ok (store n m a v).
Proof.
  intros Hm b x Hx. rewrite store_lookup in Hx. case_decide; [|exact (Hm _ _ Hx)].
  injection Hx as <-. apply (uint_range 8). lia.
Qed.

Lemma store_dom n m a v : is_Some (load n m a) -> dom (store n m a v) = dom m.
Proof.
  revert m a v. induction n as [|n IH]; intros m a v [r Hr]; [reflexivity|]. cbn in Hr |- *.
  apply bind_Some in Hr as (b & Hb & Hr). apply bind_Some in Hr as (r' & Hr & _).
  rewrite IH.
  - apply dom_insert_lookup_L. eauto.
  - exists r'. rewrite <- Hr. apply load_ext. intros. apply lookup_insert_ne. lia.
Qed.

Lemma Ok_inj {A} (a b : A) : Ok a = Ok b -> a = b.
Proof. congruence. Qed.

Ltac head_of_app m := match m with ?f _ => head_of_app f | _ => m end.
(** Handlers end with a store of at most 16 bytes to their own slot. *)
Ltac slot_result :=
  repeat match goal with
  | H : Assert = Ok _ |- _ => discriminate H
  | H : Undef = Ok _ |- _ => discriminate H
  | H : mbind _ _ = Ok _ |- _ => apply bind_Ok in H as (? & _ & H)
  | H : (if ?c then _ else _) = Ok _ |- _ => destruct c
  end;
  match goal with H : Ok _ = Ok _ |- _ => apply Ok_inj in H as <- end; repeat (apply put_slot; [lia|]); try assumption; try (split; [lia|reflexivity]).

Lemma exec_pure_typed st n h v :
  header_ok h -> well_typed st -> exec_pure st n h = Some (Ok v) -> slot v.
Proof.
  intros [Hs He] Hw H. pose proof (typed_cells _ Hw n) as HD. unfold exec_pure in H.
  destruct (Op h); try discriminate H.
  all: (destruct (Args h) as [|? l]; try discriminate H).
  all: repeat (match type of H with match ?l with _ => _ end = _ => destruct l end; try discriminate H).
  all: apply (inj Some) in H.
  all: match type of H with ?f = Ok _ => let g := head_of_app f in unfold g in H end.
  all: unfold Op_LoadContext, GD, DO_OP in H; cbv zeta in H.
  all: slot_result.
Qed.

(** An access leaves bytes in the cells that were mapped, and no others. *)
Definition memory_kept (m m' : gmap Z Z) : Prop := (bytes_ok m -> bytes_ok m') /\ dom m' = dom m.

Lemma memory_kept_refl m : memory_kept m m.
Proof. split; auto. Qed.

Lemma memory_kept_trans m m1 m2 : memory_kept m m1 -> memory_kept m1 m2 -> memory_kept m m2.
Proof. intros [A1 A2] [B1 B2]. split; [auto|congruence]. Qed.

Lemma store_kept n m a v x : load n m a = Some x -> memory_kept m (store n m a v).
Proof. intros H. split; [apply store_bytes_ok|apply store_dom; eauto]. Qed.

Lemma atomic_rmw_kept n f a m v m' : atomic_rmw n f a m = Ok (v, m') -> memory_kept m m'.
Proof.
  intros H. apply bind_Ok in H as (x & Hx & H). apply deref_Ok in Hx. apply Ok_inj in H. injection H as <- <-.
  exact (store_kept _ _ _ _ _ Hx).
Qed.

Lemma AtomicCompareAndSwap_kept n e d a m v m' : AtomicCompareAndSwap n e d a m = Ok (v, m') -> memory_kept m m'.
Proof.
  intros H. apply bind_Ok in H as (x & Hx & H). apply deref_Ok in Hx.
  destruct (x =? e); apply Ok_inj in H; injection H as <- <-; [exact (store_kept _ _ _ _ _ Hx)|apply memory_kept_refl].
Qed.

Lemma atomic_GD_kept r D m v m' :
  slot D -> (forall x m', r = Ok (x, m') -> memory_kept m m') -> atomic_GD r D = Ok (v, m') -> slot v /\ memory_kept m m'.
Proof.
  intros HD Hr H. apply bind_Ok in H as ([x m1] & Hx & H). apply Ok_inj in H. injection H as <- <-.
  split; [apply put_slot; [lia|exact HD]|exact (Hr _ _ Hx)].
Qed.

Lemma by_size_Ok {A} sz (f : nat -> outcome A) r : by_size sz f = Ok r -> exists n, f n = Ok r.
Proof. unfold by_size. repeat (destruct (_ =? _); [eauto|]). discriminate. Qed.

Lemma atomic_fetch_kept f sz D x a m v m' : slot D -> atomic_fetch f sz D x a m = Ok (v, m') -> slot v /\ memory_kept m m'.
Proof.
  intros HD H. apply by_size_Ok in H as (n & H). eapply atomic_GD_kept; [exact HD| |exact H].
  intros ? ?. apply atomic_rmw_kept.
Qed.

Lemma atomic_update_kept f sz x a m m' : atomic_update f sz x a m = Ok m' -> memory_kept m m'.
Proof.
  intros H. apply by_size_Ok in H as (n & H). apply bind_Ok in H as ([v m1] & Hx & H). apply Ok_inj in H as <-.
  exact (atomic_rmw_kept _ _ _ _ _ _ Hx).
Qed.

Lemma Op_CAS_kept sz D e d a m v m' : slot D -> Op_CAS sz D e d a m = Ok (v, m') -> slot v /\ memory_kept m m'.
Proof.
  intros HD H. apply by_size_Ok in H as (n & H). eapply atomic_GD_kept; [exact HD| |exact H].
  intros ? ?. apply AtomicCompareAndSwap_kept.
Qed.

Lemma Op_CASPair_kept sz D e d a m v m' : slot D -> Op_CASPair sz D e d a m = Ok (v, m') -> slot v /\ memory_kept m m'.
Proof.
  intros HD H. unfold Op_CASPair in H. destruct (sz =? 4); [|destruct (sz =? 8); [|discriminate H]].
  - eapply atomic_GD_kept; [exact HD| |exact H]. intros ? ?. apply AtomicCompareAndSwap_kept.
  - apply bind_Ok in H as ([x m1] & Hx & H). apply Ok_inj in H. injection H as <- <-.
    split; [apply put_slot; [lia|exact HD]|exact (AtomicCompareAndSwap_kept _ _ _ _ _ _ _ Hx)].
Qed.

Lemma Op_AtomicFetchNeg_kept sz D a m v m' : slot D -> Op_AtomicFetchNeg sz D a m = Ok (v, m') -> slot v /\ memory_kept m m'.
Proof.
  intros HD H. apply by_size_Ok in H as (n & H). eapply atomic_GD_kept; [exact HD| |exact H].
  intros ? ?. apply atomic_rmw_kept.
Qed.

Lemma exec_atomic_typed st n h v m :
  well_typed st -> exec_atomic st n h = Some (Ok (v, m)) -> (forall x, v = Some x -> slot x) /\ memory_kept (Mem st) m.
Proof.
  intros Hw H. pose proof (typed_cells _ Hw n) as HD. unfold exec_atomic in H.
  destruct (Op h); try discriminate H.
  all: repeat (match type of H with match ?l with _ => _ end = _ => destruct l end; try discriminate H).
  all: apply (inj Some) in H; apply bind_Ok in H as (r & Hr & H).
  all: try (match type of Hr with _ = Ok ?p => match type of p with prod _ _ => destruct r as [x m1] end end); apply Ok_inj in H; injection H as <- <-.
  all: first [destruct (atomic_fetch_kept _ _ _ _ _ _ _ _ HD Hr)|destruct (Op_CAS_kept _ _ _ _ _ _ _ _ HD Hr)
    |destruct (Op_CASPair_kept _ _ _ _ _ _ _ _ HD Hr)|destruct (Op_AtomicFetchNeg_kept _ _ _ _ _ _ HD Hr)
    |pose proof (atomic_update_kept _ _ _ _ _ _ Hr)].
  all: split; [congruence|assumption].
Qed.

(** ** Every handler *)

Lemma set_cell_typed st n v : well_typed st -> slot v -> well_typed (set_cell n v st).
Proof.
  intros [Hc Hf Hm] Hv. constructor; [|exact Hf|exact Hm]. intros k. unfold cell. cbn.
  destruct (decide (k = n)) as [->|Hk]; [rewrite lookup_insert_eq; exact Hv|rewrite lookup_insert_ne by congruence; apply Hc].
Qed.

Lemma set_frame_typed st F : well_typed st -> bytes_ok F -> well_typed (set_frame F st).
Proof. intros [Hc Hf Hm] HF. constructor; assumption. Qed.

Lemma set_mem_typed st m : well_typed st -> bytes_ok m -> well_typed (set_mem m st).
Proof. intros [Hc Hf Hm] HF. constructor; assumption. Qed.

Lemma set_results_typed st q r b : well_typed st -> well_typed (set_results q r b st).
Proof. intros [Hc Hf Hm]. constructor; assumption. Qed.

Create HintDb typed discriminated.
#[export] Hint Resolve set_cell_typed set_frame_typed set_mem_typed set_results_typed store_bytes_ok typed_frame memory_kept_refl : typed.

Lemma exec_op_typed st n h st' :
  header_ok h -> well_typed st -> exec_op st n h = Ok st' -> well_typed st' /\ dom (Mem st') = dom (Mem st).
Proof.
  intros Hh Hw H. unfold exec_op in H. destruct (exec_pure st n h) as [r|] eqn:E.
  - apply bind_Ok in H as (v & -> & H). apply Ok_inj in H as <-.
    split; [|reflexivity]. apply set_cell_typed; [exact Hw|exact (exec_pure_typed _ _ _ _ Hh Hw E)].
  - clear E. destruct (exec_atomic st n h) as [r|] eqn:E.
    + apply bind_Ok in H as ([v m] & -> & H). apply Ok_inj in H as <-.
      destruct (exec_atomic_typed _ _ _ _ _ Hw E) as [Hv [Hb Hd]].
      split; [|destruct v; exact Hd]. apply set_mem_typed; [|exact (Hb (typed_mem _ Hw))].
      destruct v as [x|]; [apply set_cell_typed; auto|exact Hw].
    + clear E. destruct (Op h); try discriminate H;
        repeat (match type of H with match ?l with _ => _ end = _ => destruct l end; try discriminate H).
      all: try (apply Ok_inj in H as <-; split; [unfold Op_StoreContextIndexed, Op_StoreContext, Op_StoreFlag; auto 6 with typed|reflexivity]).
      all: apply bind_Ok in H as (r & Hr & H); apply Ok_inj in H as <-; try (split; [auto with typed|reflexivity]).
      all: apply bind_Ok in Hr as (x & Hx & Hr); apply deref_Ok in Hx; apply Ok_inj in Hr as <-.
      all: destruct (store_kept _ _ _ (get (8 * Size h) (cell st n0)) _ Hx) as [Hb Hd]; split; [auto using typed_mem with typed|exact Hd].
Qed.

Lemma run_code_typed code st st' :
  Forall (fun p => header_ok p.2) code -> well_typed st -> run_code code st = Ok st' ->
  well_typed st' /\ dom (Mem st') = dom (Mem st).
Proof.
  intros Hc. revert st. induction Hc as [|[n h] code Hh _ IH]; intros st Hw H; cbn [run_code] in H.
  - apply Ok_inj in H as <-. auto.
  - apply bind_Ok in H as (s & Hs & H). destruct (exec_op_typed _ _ _ _ Hh Hw Hs) as [Hw' Hd].
    destruct (Quit s || Redo s); [apply Ok_inj in H as <-; auto|].
    destruct (IH _ Hw' H) as [Hw'' Hd']. split; [exact Hw''|congruence].
Qed.

Lemma find_block_headers (P : NodeID * IROp_Header -> Prop) bs b code next :
  Forall (fun p => Forall P p.2) bs -> find_block bs b = Some (code, next) -> Forall P code.
Proof.
  induction 1 as [|[b' c] bs Hp _ IH]; cbn; [discriminate|]. destruct (decide (b' = b)); [|exact IH].
  intros H. injection H as <- _. exact Hp.
Qed.

Lemma interpret_blocks_typed fuel bs st st' :
  Forall (fun p => Forall (fun q => header_ok q.2) p.2) bs -> well_typed st ->
  interpret_blocks fuel bs st = Some (Ok st') -> well_typed st' /\ dom (Mem st') = dom (Mem st).
Proof.
  intros Hbs. revert st. induction fuel as [|fuel IH]; intros st Hw H; cbn [interpret_blocks] in H; [discriminate H|].
  destruct (find_block bs (BlockIterator st)) as [[code next]|] eqn:Hb; [|discriminate H].
  destruct (run_code _ _) as [s| |] eqn:Hr; try discriminate H.
  destruct (run_code_typed _ _ _ (find_block_headers _ _ _ _ _ Hbs Hb) (set_results_typed _ false false (BlockIterator st) Hw) Hr) as [Hw' Hd].
  cbn in Hd. rewrite <- Hd.
  destruct (Redo s); [exact (IH _ Hw' H)|]. destruct (Quit s); [apply (inj Some), Ok_inj in H as <-; auto|].
  destruct next as [b|]; [|apply (inj Some), Ok_inj in H as <-; auto].
  exact (IH _ (set_results_typed _ _ _ b Hw') H).
Qed.

(** C26: The interpreter's state is well typed from start to end: when the sizes of
    the nodes are those of scalars and pairs and the context and guest memory hold
    bytes, then whatever the code is, a run that ends leaves bytes in both, 16-byte
    values in every slot, and guest memory with exactly the addresses it had. *)
Theorem InterpretIR_typed fuel bs frame mem st'
    (Hheaders : Forall (fun p => Forall (fun q => header_ok q.2) p.2) bs)
    (Hframe : bytes_ok frame) (Hmem : bytes_ok mem) (Hrun : InterpretIR fuel bs frame mem = Some (Ok st')) :
  well_typed st' /\ dom (Mem st') = dom mem.
Proof.
  unfold InterpretIR in Hrun. destruct (load 8 frame RIP_OFFSET) as [rip|]; [|discriminate Hrun].
  destruct bs as [|[b code] bs]; [discriminate Hrun|]. cbn [head] in Hrun.
  refine (interpret_blocks_typed _ _ _ _ Hheaders _ Hrun). constructor; [|exact Hframe|exact Hmem].
  intros n. unfold cell. cbn. rewrite lookup_empty. split; [reflexivity|]. apply pow2_pos. lia.
Qed.

(** A swap with guest memory and an exit. *)
Definition typed_blocks : IRBlocks :=
  [(1%nat, [(2%nat, mkOp (OP_CONSTANT 0x1000) 8 8 []); (3%nat, mkOp (OP_CONSTANT 0x1234567) 8 8 []);
            (4%nat, mkOp OP_ATOMICSWAP 2 2 [3%nat; 2%nat]); (5%nat, mkOp OP_EXITFUNCTION 8 8 [4%nat])])].
Definition typed_memory : gmap Z Z := <[0x1001 := 0xCD]> {[0x1000 := 0xAB]}.
Lemma InterpretIR_typed_witness :
  let frame := store 8 ∅ RIP_OFFSET 0x400000 in
  exists st', InterpretIR 1 typed_blocks frame typed_memory = Some (Ok st') /\
    load 2 (Mem st') 0x1000 = Some 0x4567 /\ well_typed st' /\ dom (Mem st') = dom typed_memory.
Proof.
  eexists. split; [vm_compute; reflexivity|]. split; [vm_compute; reflexivity|].
  apply (InterpretIR_typed 1 typed_blocks (store 8 ∅ RIP_OFFSET 0x400000) typed_memory).
  - repeat constructor; cbn; lia.
  - apply store_bytes_ok, map_Forall_empty.
  - apply map_Forall_insert_2; [lia|]. apply map_Forall_singleton. lia.
  - vm_compute. reflexivity.
Defined.
