(* ===== verification/Emitter.v ===== *)
(** * The IR emitter

    [include/FEXCore/IR/IREmitter.h] and the allocation helpers that
    [Scripts/json_ir_generator.py] writes from [Interface/IR/IR.json]: the data
    of every node, the ordered list of nodes with the write cursor, use counts,
    and one definition per emission helper with the size it infers. *)
  From Stdlib Require Import ZArith Lia Bool.
From stdpp Require Import base gmap list numbers option.
From S2P Require Import Prelude IR.
#[local] Open Scope Z_scope.

(** [DualListData] and [CurrentWriteCursor]. The ordered list is split at the
    write cursor: [Before] ends with it, and an empty [Before] is the null
    cursor. [NextNode] is the next free slot of the list allocator. *)
Record IREmitter := mkEmitter {
  Data : gmap NodeID IROp_Header;
  NumUses : gmap NodeID nat;
  Before : list NodeID;
  After : list NodeID;
  NextNode : NodeID
}.

(** ** Computations of a class derived from [IREmitter] *)

(** [env] is what the computations of the class read and never change. *)
Class HasEmitter (S : Type) := {
  emitter : S -> IREmitter;
  with_emitter : IREmitter -> S -> S;
  Env : Type;
  env : S -> Env;
  emitter_with_emitter e s : emitter (with_emitter e s) = e;
  env_with_emitter e s : env (with_emitter e s) = env s
}.
#[export] Instance IREmitter_HasEmitter : HasEmitter IREmitter :=
  {| emitter e := e; with_emitter e _ := e; Env := unit; env _ := tt;
     emitter_with_emitter _ _ := eq_refl; env_with_emitter _ _ := eq_refl |}.

(** ** Allocation *)

Definition AddUse (u : gmap NodeID nat) (n : NodeID) : gmap NodeID nat :=
  <[n := Datatypes.S (default 0%nat (u !! n))]> u.

(** [CreateNode] after the header is filled in: the node is linked after the
    cursor and becomes the cursor. *)
Definition CreateNode (h : IROp_Header) (e : IREmitter) : IREmitter :=
  mkEmitter (<[NextNode e := h]> (Data e)) (foldl AddUse (NumUses e) (Args h))
            (Before e ++ [NextNode e])
            (match Before e with [] => [] | _ => After e end)
            (Datatypes.S (NextNode e)).

Section Ops.
Context {S : Type} `{HasEmitter S}.
Abbreviation M := (M S).

Definition GetOp (n : NodeID) : M IROp_Header := fun b =>
  match Data (emitter b) !! n with Some h => Ok (h, b) | None => Undef end.
Definition GetOpSize (n : NodeID) : M Z := h ← GetOp n; mret (Size h).

(** [AllocateOp] with its arguments and sizes, [ElementSize] being [Size]. *)
Definition AllocateOp (op : IROps) (size : Z) (args : list NodeID) : M NodeID := fun b =>
  Ok (NextNode (emitter b), with_emitter (CreateNode (mkOp op size size args) (emitter b)) b).

(** ** Emission helpers *)

Definition _Constant (c : Z) : M NodeID := AllocateOp (OP_CONSTANT (uint 64 c)) 8 [].

(** The sized overload masks the constant and has the size of the mask. *)
Definition _ConstantSized (size c : Z) : M NodeID := fun b =>
  match shr 64 (uint 64 (-1)) (64 - size) with
  | Ok Mask => AllocateOp (OP_CONSTANT (Z.land (uint 64 c) Mask)) (size / 8) [] b
  | Assert => Assert
  | Undef => Undef
  end.

(** Operations without a [DestSize] have the size of their largest argument. *)
Definition emit_infer2 (op : IROps) (x y : NodeID) : M NodeID :=
  sx ← GetOpSize x; sy ← GetOpSize y; AllocateOp op (Z.max sx sy) [x; y].
Definition emit_infer1 (op : IROps) (x : NodeID) : M NodeID :=
  sx ← GetOpSize x; AllocateOp op sx [x].
(** [DestSize] of at least four bytes, from both sources or the first. *)
Definition emit_max4_2 (op : IROps) (x y : NodeID) : M NodeID :=
  sx ← GetOpSize x; sy ← GetOpSize y; AllocateOp op (Z.max 4 (Z.max sx sy)) [x; y].
Definition emit_max4_1 (op : IROps) (x y : NodeID) : M NodeID :=
  sx ← GetOpSize x; AllocateOp op (Z.max 4 sx) [x; y].

Definition _Or := emit_infer2 OP_OR.
Definition _Xor := emit_infer2 OP_XOR.
Definition _And := emit_infer2 OP_AND.
Definition _Popcount := emit_infer1 OP_POPCOUNT.
Definition _Not := emit_infer1 OP_NOT.
Definition _Add := emit_max4_2 OP_ADD.
Definition _Sub := emit_max4_2 OP_SUB.
Definition _Lshl := emit_max4_1 OP_LSHL.
Definition _Lshr := emit_max4_1 OP_LSHR.
Definition _Ashr := emit_max4_1 OP_ASHR.

Definition _BfeSized (DestSize Width lsb : Z) (x : NodeID) : M NodeID :=
  sx ← GetOpSize x;
  AllocateOp (OP_BFE (uint 8 Width) (uint 8 lsb)) (if DestSize =? 0 then sx else DestSize) [x].
Definition _Bfe (Width lsb : Z) (x : NodeID) : M NodeID := _BfeSized 0 Width lsb x.
Definition _Sbfe (Width lsb : Z) (x : NodeID) : M NodeID :=
  AllocateOp (OP_SBFE (uint 8 Width) (uint 8 lsb)) 8 [x].

(** The overload of [IREmitter.h] with [CompareSize] left to its default. *)
Definition _Select (Cond : Z) (x y t f : NodeID) : M NodeID :=
  sx ← GetOpSize x; sy ← GetOpSize y;
  let CompareSize := Z.max 4 (Z.max sx sy) in
  st ← GetOpSize t; sf ← GetOpSize f;
  AllocateOp (OP_SELECT Cond CompareSize) (Z.max 4 (Z.max st sf)) [x; y; t; f].

Definition _GetHostFlag (x : NodeID) (Flag : Z) : M NodeID :=
  emit_infer1 (OP_GETHOSTFLAG Flag) x.
Definition _LoadFlag (Flag : Z) : M NodeID := AllocateOp (OP_LOADFLAG Flag) 1 [].
Definition _StoreFlag (x : NodeID) (Flag : Z) : M unit :=
  _ ← AllocateOp (OP_STOREFLAG Flag) 1 [x]; mret tt.
Definition _InvalidateFlags (Flags : Z) : M unit :=
  _ ← AllocateOp (OP_INVALIDATEFLAGS (uint 64 Flags)) 0 []; mret tt.

(** Three inferred arguments. *)
Definition emit_infer3 (op : IROps) (x y z : NodeID) : M NodeID :=
  sx ← GetOpSize x; sy ← GetOpSize y; sz ← GetOpSize z; AllocateOp op (Z.max (Z.max sx sy) sz) [x; y; z].
(** One argument and a size of at least four bytes. *)
Definition emit_max4 (op : IROps) (x : NodeID) : M NodeID :=
  sx ← GetOpSize x; AllocateOp op (Z.max 4 sx) [x].

Definition _Neg := emit_max4 OP_NEG.
Definition _Mul := emit_max4_2 OP_MUL.
Definition _UMul := emit_max4_2 OP_UMUL.
Definition _MulH := emit_infer2 OP_MULH.
Definition _UMulH := emit_infer2 OP_UMULH.
Definition _Div := emit_infer2 OP_DIV.
Definition _UDiv := emit_infer2 OP_UDIV.
Definition _Rem := emit_infer2 OP_REM.
Definition _URem := emit_infer2 OP_UREM.
Definition _LDiv := emit_infer3 OP_LDIV.
Definition _LUDiv := emit_infer3 OP_LUDIV.
Definition _LRem := emit_infer3 OP_LREM.
Definition _LURem := emit_infer3 OP_LUREM.
Definition _Andn := emit_max4_1 OP_ANDN.
Definition _Ror := emit_max4_1 OP_ROR.
Definition _Rev := emit_infer1 OP_REV.
Definition _FindLSB := emit_infer1 OP_FINDLSB.
Definition _FindMSB := emit_infer1 OP_FINDMSB.
Definition _FindTrailingZeros := emit_infer1 OP_FINDTRAILINGZEROS.
Definition _CountLeadingZeroes := emit_infer1 OP_COUNTLEADINGZEROES.
Definition _PDep := emit_infer2 OP_PDEP.
Definition _PExt := emit_infer2 OP_PEXT.
Definition _Bfi (DestSize Width lsb : Z) (d x : NodeID) : M NodeID :=
  AllocateOp (OP_BFI (uint 8 Width) (uint 8 lsb)) DestSize [d; x].
(** [_Sext] of [IREmitter.h]. *)
Definition _Sext (SrcSize : Z) (x : NodeID) : M NodeID := _Sbfe SrcSize 0 x.
(** [_Select] with a [CompareSize] that is not left to its default. *)
Definition _SelectSized (Cond CompareSize : Z) (x y t f : NodeID) : M NodeID :=
  if CompareSize =? 0 then _Select Cond x y t f
  else
  st ← GetOpSize t; sf ← GetOpSize f;
  AllocateOp (OP_SELECT Cond CompareSize) (Z.max 4 (Z.max st sf)) [x; y; t; f].

(** The guest context. *)
Definition _LoadContext (ByteSize Offset : Z) : M NodeID := AllocateOp (OP_LOADCONTEXT Offset) ByteSize [].
Definition _StoreContext (ByteSize : Z) (Value : NodeID) (Offset : Z) : M unit :=
  _ ← AllocateOp (OP_STORECONTEXT Offset) ByteSize [Value]; mret tt.
Definition _LoadContextIndexed (Index : NodeID) (ByteSize BaseOffset Stride : Z) : M NodeID :=
  AllocateOp (OP_LOADCONTEXTINDEXED BaseOffset Stride) ByteSize [Index].

(** Guest memory; the overloads of [IREmitter.h] leave the offset out. *)
Definition _LoadMem (Size : Z) (Addr : NodeID) : M NodeID :=
  AllocateOp (OP_LOADMEM MEM_OFFSET_SXTX 1) Size [Addr; InvalidNode].
Definition _LoadMemTSO (Size : Z) (Addr : NodeID) : M NodeID :=
  AllocateOp (OP_LOADMEMTSO MEM_OFFSET_SXTX 1) Size [Addr; InvalidNode].
Definition _StoreMem (Size : Z) (Addr Value : NodeID) : M unit :=
  _ ← AllocateOp (OP_STOREMEM MEM_OFFSET_SXTX 1) Size [Value; Addr; InvalidNode]; mret tt.
Definition _StoreMemTSO (Size : Z) (Addr Value : NodeID) : M unit :=
  _ ← AllocateOp (OP_STOREMEMTSO MEM_OFFSET_SXTX 1) Size [Value; Addr; InvalidNode]; mret tt.

Definition _EntrypointOffset (Offset RegisterSize : Z) : M NodeID :=
  AllocateOp (OP_ENTRYPOINTOFFSET (sint 64 Offset)) RegisterSize [].
Definition _ExitFunction (NewRIP : NodeID) : M unit :=
  sz ← GetOpSize NewRIP; _ ← AllocateOp OP_EXITFUNCTION sz [NewRIP]; mret tt.
Definition _Yield : M unit := _ ← AllocateOp OP_YIELD 0 []; mret tt.

(** Atomic accesses and pairs; a pair has two elements. *)
Definition _AtomicXor (Size : Z) (Value Addr : NodeID) : M unit :=
  _ ← AllocateOp OP_ATOMICXOR Size [Value; Addr]; mret tt.
Definition _AtomicSwap (Size : Z) (Value Addr : NodeID) : M NodeID := AllocateOp OP_ATOMICSWAP Size [Value; Addr].
Definition _AtomicFetchAdd (Size : Z) (Value Addr : NodeID) : M NodeID := AllocateOp OP_ATOMICFETCHADD Size [Value; Addr].
Definition _AtomicFetchSub (Size : Z) (Value Addr : NodeID) : M NodeID := AllocateOp OP_ATOMICFETCHSUB Size [Value; Addr].
Definition _AtomicFetchAnd (Size : Z) (Value Addr : NodeID) : M NodeID := AllocateOp OP_ATOMICFETCHAND Size [Value; Addr].
Definition _AtomicFetchOr (Size : Z) (Value Addr : NodeID) : M NodeID := AllocateOp OP_ATOMICFETCHOR Size [Value; Addr].
Definition _AtomicFetchXor (Size : Z) (Value Addr : NodeID) : M NodeID := AllocateOp OP_ATOMICFETCHXOR Size [Value; Addr].
Definition _AtomicFetchNeg (Size : Z) (Addr : NodeID) : M NodeID := AllocateOp OP_ATOMICFETCHNEG Size [Addr].
Definition _CAS (Expected Desired Addr : NodeID) : M NodeID :=
  sz ← GetOpSize Expected; AllocateOp OP_CAS sz [Expected; Desired; Addr].

(** [ALUOp.first->Header.Op = IROp]: the operation of a node is overwritten. *)
Definition set_Op (n : NodeID) (op : IROps) : M unit := fun b =>
  let e := emitter b in
  match Data e !! n with
  | Some h => Ok (tt, with_emitter (mkEmitter (<[n := mkOp op (Size h) (ElementSize h) (Args h)]> (Data e))
  (NumUses e) (Before e) (After e) (NextNode e)) b)
  | None => Undef
  end.
End Ops.
