(* ===== verification/EmitterLogic.v ===== *)
(** * Emitted code, run on a backend

    [wp m Q b s] says that the emission computation [m], started by a builder
    [b], returns and appends nodes after the write cursor; that a backend in
    state [s] executes exactly these nodes; and that the result, the new builder
    and the backend's state after them satisfy [Q]. There is one rule per
    emission helper, which holds for every [IRBackend]. *)
From Stdlib Require Import ZArith Lia Bool.
From stdpp Require Import base gmap list numbers option.
From S2P Require Import Prelude IR ALUOps Interp IRSpec InterpRefines Emitter.
#[local] Open Scope Z_scope.

Section Logic.
Context `{Backend : IRBackend}.

(** ** Executing a list of nodes *)

Fixpoint run_nodes (D : gmap NodeID IROp_Header) (ns : list NodeID) (s : IROpData)
  : outcome IROpData :=
  match ns with
  | [] => Ok s
  | n :: ns => h ← deref (D !! n); s ← step s n h; run_nodes D ns s
  end.

Lemma run_nodes_app D ns1 ns2 s s1 :
  run_nodes D ns1 s = Ok s1 -> run_nodes D (ns1 ++ ns2) s = run_nodes D ns2 s1.
Proof.
  revert s. induction ns1 as [|n ns1 IH]; intros s H; cbn [run_nodes app] in *.
  - injection H as ->. reflexivity.
  - destruct (deref (D !! n)) as [h| |]; try discriminate. cbn [mbind outcome_bind] in *.
    destruct (step s n h) as [s'| |]; try discriminate. cbn [mbind outcome_bind] in *. auto.
Qed.

Lemma run_nodes_ext D1 D2 ns s :
  Forall (fun n => D1 !! n = D2 !! n) ns -> run_nodes D1 ns s = run_nodes D2 ns s.
Proof.
  intros H. revert s. induction H as [|n ns Hn Hns IH]; intros s; [reflexivity|].
  cbn [run_nodes]. rewrite Hn. destruct (deref (D2 !! n)) as [h| |]; try reflexivity.
  cbn [mbind outcome_bind]. destruct (step s n h) as [s'| |]; try reflexivity. apply IH.
Qed.

(** ** Extension of the emitted code *)

(** Nodes were appended after the write cursor and the backend executed them. *)
Record reach (e : IREmitter) (s : IROpData) (e' : IREmitter) (s' : IROpData) : Prop := {
  ext_next : (NextNode e <= NextNode e')%nat;
  ext_data n : (n < NextNode e)%nat -> Data e' !! n = Data e !! n;
  ext_run : exists new, Before e' = Before e ++ new /\
  Forall (fun n => NextNode e <= n < NextNode e')%nat new /\
  run_nodes (Data e') new s = Ok s';
  ext_after : After e' = After e;
  ext_cells n : (n < NextNode e)%nat -> SSAData s' !! n = SSAData s !! n;
  ext_entry : CurrentEntry s' = CurrentEntry s
}.

(** The nodes did not store to memory. *)
Record ext (e : IREmitter) (s : IROpData) (e' : IREmitter) (s' : IROpData) : Prop := {
  ext_reach :> reach e s e' s';
  ext_mem : Mem s' = Mem s
}.

Lemma reach_refl e s : reach e s e s.
Proof.
  constructor; try reflexivity. exists []. rewrite app_nil_r. repeat split; constructor.
Qed.

Lemma reach_trans e0 s0 e1 s1 e2 s2 : reach e0 s0 e1 s1 -> reach e1 s1 e2 s2 -> reach e0 s0 e2 s2.
Proof.
  intros [N1 D1 (new1 & B1 & F1 & R1) A1 C1 E1] [N2 D2 (new2 & B2 & F2 & R2) A2 C2 E2].
  constructor; [lia| | |congruence| |congruence].
  - intros n Hn. rewrite D2, D1 by lia. reflexivity.
  - exists (new1 ++ new2). split; [rewrite B2, B1, app_assoc; reflexivity|]. split.
    + apply Forall_app. split; eapply Forall_impl; eauto; cbn; intros; lia.
    + erewrite run_nodes_app; [exact R2|]. rewrite <- R1. apply run_nodes_ext.
      eapply Forall_impl; [|exact F1]. cbn. intros n Hn. apply D2. lia.
  - intros n Hn. rewrite C2, C1 by lia. reflexivity.
Qed.

Lemma ext_refl e s : ext e s e s.
Proof. constructor; [apply reach_refl|reflexivity]. Qed.

Lemma ext_trans e0 s0 e1 s1 e2 s2 : ext e0 s0 e1 s1 -> ext e1 s1 e2 s2 -> ext e0 s0 e2 s2.
Proof.
  intros [R1 M1] [R2 M2]. constructor; [exact (reach_trans _ _ _ _ _ _ R1 R2)|congruence].
Qed.

(** The write cursor is at an emitted node and no cell past the allocated nodes
    was written. *)
Record good (e : IREmitter) (s : IROpData) : Prop := {
  good_cursor : Before e <> [];
  good_fresh n : (NextNode e <= n)%nat -> SSAData s !! n = None
}.

(** ** Values of nodes *)

(** Node [n] has size [sz] and its cell holds the integer [v]. *)
Record val (e : IREmitter) (s : IROpData) (n : NodeID) (v sz : Z) : Prop := {
  val_lt : (n < NextNode e)%nat;
  val_size : exists h, Data e !! n = Some h /\ Size h = sz;
  val_cell : cell s n = v;
  val_zext : zext sz v;
  val_width : size_1248 sz = true
}.

Lemma val_mono e s e' s' n v sz : reach e s e' s' -> val e s n v sz -> val e' s' n v sz.
Proof.
  intros He [L (h & Hh & Hs) C Z W]. constructor; [|exists h| |exact Z|exact W].
  - pose proof (ext_next _ _ _ _ He). lia.
  - rewrite (ext_data _ _ _ _ He) by exact L. auto.
  - unfold cell. rewrite (ext_cells _ _ _ _ He) by exact L. exact C.
Qed.

(** ** Weakest preconditions *)

Context {S : Type} `{HasEmitter S}.

(** From [b], [s] the computation went to [b'], [s']. *)
Record goes (b : S) (s : IROpData) (b' : S) (s' : IROpData) : Prop := {
  goes_ext : ext (emitter b) s (emitter b') s';
  goes_good : good (emitter b') s';
  goes_env : env b' = env b
}.

Lemma goes_refl b s : good (emitter b) s -> goes b s b s.
Proof. intros. constructor; auto using ext_refl. Qed.

Lemma goes_trans b0 s0 b1 s1 b2 s2 : goes b0 s0 b1 s1 -> goes b1 s1 b2 s2 -> goes b0 s0 b2 s2.
Proof.
  intros [E1 G1 V1] [E2 G2 V2].
  constructor; [exact (ext_trans _ _ _ _ _ _ E1 E2)|exact G2|congruence].
Qed.

Definition wp {A} (m : M S A) (Q : A -> S -> IROpData -> Prop) (b : S) (s : IROpData) : Prop :=
  match m b with
  | Ok (a, b') => exists s', goes b s b' s' /\ Q a b' s'
  | _ => False
  end.

Lemma wp_ret {A} (a : A) (Q : A -> S -> IROpData -> Prop) b s :
  good (emitter b) s -> Q a b s -> wp (mret a) Q b s.
Proof. intros. exists s. auto using goes_refl. Qed.

Lemma wp_bind {A B} (m : M S A) (f : A -> M S B) Q b s :
  wp m (fun a b' s' => wp (f a) Q b' s') b s -> wp (m ≫= f) Q b s.
Proof.
  unfold wp, mbind, M_bind. destruct (m b) as [[a b']| |]; auto.
  intros (s' & Hg & Hf). destruct (f a b') as [[c b'']| |]; [|contradiction..].
  destruct Hf as (s'' & Hg' & HQ). exists s''. eauto using goes_trans.
Qed.

Lemma wp_mono {A} (m : M S A) (Q R : A -> S -> IROpData -> Prop) b s :
  wp m Q b s -> (forall a b' s', goes b s b' s' -> Q a b' s' -> R a b' s') -> wp m R b s.
Proof.
  unfold wp. destruct (m b) as [[a b']| |]; auto. intros (s' & Hg & HQ) HR. eauto.
Qed.

Lemma GetOpSize_Ok b s n v sz : val (emitter b) s n v sz -> GetOpSize n b = Ok (sz, b).
Proof.
  intros [_ (h & Hh & <-) _ _ _]. unfold GetOpSize, GetOp, mbind, M_bind.
  rewrite Hh. reflexivity.
Qed.

Lemma wp_GetOpSize n v sz Q b s :
  val (emitter b) s n v sz -> good (emitter b) s -> Q sz b s -> wp (GetOpSize n) Q b s.
Proof.
  intros Hv Hg HQ. unfold wp. rewrite (GetOpSize_Ok _ _ _ _ _ Hv). exists s.
  auto using goes_refl.
Qed.

(** Allocation of a node that the backend executes. *)
Lemma reach_alloc e s h s' :
  good e s -> step s (NextNode e) h = Ok s' ->
  (forall n, (n < NextNode e)%nat -> SSAData s' !! n = SSAData s !! n) ->
  CurrentEntry s' = CurrentEntry s ->
  reach e s (CreateNode h e) s'.
Proof.
  intros Hg Hs Hc He. constructor; cbn [NextNode Data Before After CreateNode].
  - lia.
  - intros n Hn. apply lookup_insert_ne. lia.
  - exists [NextNode e]. split; [reflexivity|]. split.
    + repeat constructor.
    + cbn [run_nodes]. rewrite lookup_insert_eq. cbn. rewrite Hs. reflexivity.
  - destruct (Before e) eqn:E; [|reflexivity]. destruct (good_cursor _ _ Hg E).
  - exact Hc.
  - exact He.
Qed.

Lemma ext_alloc e s h s' :
  good e s -> step s (NextNode e) h = Ok s' ->
  (forall n, (n < NextNode e)%nat -> SSAData s' !! n = SSAData s !! n) ->
  Mem s' = Mem s -> CurrentEntry s' = CurrentEntry s ->
  ext e s (CreateNode h e) s'.
Proof. intros. constructor; [apply reach_alloc; assumption|assumption]. Qed.

Lemma good_alloc e s h s' :
  good e s -> (forall n, (NextNode e < n)%nat -> SSAData s' !! n = SSAData s !! n) ->
  good (CreateNode h e) s'.
Proof.
  intros Hg Hs. constructor; cbn [Before NextNode CreateNode].
  - destruct (Before e); discriminate.
  - intros n Hn. rewrite Hs by lia. apply (good_fresh _ _ Hg). lia.
Qed.

(** A node whose only effect is its own value. *)
Lemma wp_alloc_step op sz args v (Q : NodeID -> S -> IROpData -> Prop) b s :
  good (emitter b) s -> zext sz v -> size_1248 sz = true ->
  (zext 8 (cell s (NextNode (emitter b))) -> zext sz (cell s (NextNode (emitter b))) ->
  step s (NextNode (emitter b)) (mkOp op sz sz args) =
  Ok (set_cell (NextNode (emitter b)) v s)) ->
  (forall n b' s', goes b s b' s' -> Frame s' = Frame s -> val (emitter b') s' n v sz -> Q n b' s') ->
  wp (AllocateOp op sz args) Q b s.
Proof.
  intros Hg Hz Hw Hs HQ. unfold wp, AllocateOp.
  set (n := NextNode (emitter b)) in *.
  assert (cell s n = 0) as Hc by (unfold cell; rewrite (good_fresh _ _ Hg) by lia; reflexivity).
  rewrite Hc in Hs. assert (1 <= sz <= 8) by (unfold size_1248 in Hw; lia).
  specialize (Hs (zext_0 8 ltac:(lia)) (zext_0 sz ltac:(lia))).
  assert (ext (emitter b) s (CreateNode (mkOp op sz sz args) (emitter b)) (set_cell n v s)) as He.
  { apply ext_alloc; auto. intros m Hm. cbn. apply lookup_insert_ne. lia. }
  assert (good (CreateNode (mkOp op sz sz args) (emitter b)) (set_cell n v s)) as Hg'.
  { apply (good_alloc _ s); auto. intros m Hm. cbn. apply lookup_insert_ne. lia. }
  assert (goes b s (with_emitter (CreateNode (mkOp op sz sz args) (emitter b)) b) (set_cell n v s))
    as Hgo by (constructor; rewrite ?emitter_with_emitter, ?env_with_emitter; auto).
  exists (set_cell n v s). split; [exact Hgo|].
  apply HQ; rewrite ?emitter_with_emitter; auto. constructor; auto.
  - exists (mkOp op sz sz args). cbn. rewrite lookup_insert_eq. auto.
  - unfold cell. cbn. rewrite lookup_insert_eq. reflexivity.
Qed.

Lemma wp_alloc_value op sz args vals v (Q : NodeID -> S -> IROpData -> Prop) b s :
  good (emitter b) s -> cell s <$> args = vals ->
  ir_value op sz vals = Some v -> zero_extending op sz = true -> size_1248 sz = true ->
  (forall n b' s', goes b s b' s' -> Frame s' = Frame s -> val (emitter b') s' n v sz -> Q n b' s') ->
  wp (AllocateOp op sz args) Q b s.
Proof.
  intros Hg <- Hv Hz Hw HQ.
  apply (wp_alloc_step _ _ _ v); auto; [apply (ir_value_zext _ _ _ _ Hv)|].
  intros _ HD. apply step_value; auto.
Qed.
End Logic.

(** ** Ranges of values *)

Lemma uint_bounded_bits w z :
  0 <= w -> 0 <= z -> (forall i, w <= i -> Z.testbit z i = false) -> uint w z = z.
Proof.
  intros Hw Hz H. apply Z.bits_inj'. intros i Hi. rewrite testbit_uint by lia.
  destruct (Z.ltb_spec i w); [reflexivity|]. rewrite H by lia. reflexivity.
Qed.

Section Bitop.
Variable f : Z -> Z -> Z.
Variable g : bool -> bool -> bool.
Hypothesis f_spec : forall a b i, Z.testbit (f a b) i = g (Z.testbit a i) (Z.testbit b i).
Hypothesis f_nonneg : forall a b, 0 <= a -> 0 <= b -> 0 <= f a b.
Hypothesis g_false : g false false = false.

Lemma uint_bitop sx sy a b :
  zext sx a -> zext sy b -> uint (8 * Z.max sx sy) (f a b) = f a b.
Proof.
  intros Ha Hb. pose proof (zext_nonneg _ _ Ha). pose proof (zext_nonneg _ _ Hb).
  unfold zext in *. apply uint_bounded_bits; [lia|apply f_nonneg; lia|].
  intros i Hi. rewrite f_spec, (testbit_high (8 * sx)), (testbit_high (8 * sy)) by lia.
  exact g_false.
Qed.
End Bitop.

Lemma size_max_1248 x y :
  size_1248 x = true -> size_1248 y = true -> size_1248 (Z.max x y) = true.
Proof. unfold size_1248. lia. Qed.
Lemma size_max_48 x : size_1248 x = true -> size_48 (Z.max 4 x) = true.
Proof. unfold size_1248, size_48. lia. Qed.
Lemma size_48_1248 x : size_48 x = true -> size_1248 x = true.
Proof. unfold size_1248, size_48. lia. Qed.

Lemma uint_zext sz w v : zext sz v -> 8 * sz <= w -> uint w v = v.
Proof.
  intros Hv Hw. pose proof (zext_nonneg _ _ Hv). unfold zext in Hv. apply uint_small.
  pose proof (Z.pow_le_mono_r 2 (8 * sz) w). lia.
Qed.

(** Unsigned comparison codes on integers. *)
Definition unsigned_cond (c x y : Z) : option bool :=
  if c =? COND_EQ then Some (x =? y)
  else if c =? COND_NEQ then Some (negb (x =? y))
  else if c =? COND_UGE then Some (y <=? x)
  else if c =? COND_ULT then Some (x <? y)
  else if c =? COND_UGT then Some (y <? x)
  else if c =? COND_ULE then Some (x <=? y)
  else None.

Lemma unsigned_cond_holds w c x y r :
  uint w x = x -> uint w y = y -> unsigned_cond c x y = Some r -> cond_holds w c x y = Some r.
Proof.
  intros Hx Hy H. unfold unsigned_cond in H. unfold cond_holds. rewrite Hx, Hy.
  repeat match goal with
    | H : (if ?c =? ?k then _ else _) = Some _ |- _ =>
    destruct (Z.eqb_spec c k) as [->|?]; [exact H|]
    end.
  discriminate H.
Qed.

Section Rules.
Context `{Backend : IRBackend} {S : Type} `{HasEmitter S}.
Implicit Types (b : S) (s : IROpData) (Q : NodeID -> S -> IROpData -> Prop).

(** The continuation of a value-producing helper. *)
Definition next (v sz : Z) Q b s : Prop :=
  forall n b' s', goes b s b' s' -> Frame s' = Frame s -> val (emitter b') s' n v sz -> Q n b' s'.

Lemma wp_Constant c Q b s :
  good (emitter b) s -> next (uint 64 c) 8 Q b s -> wp (_Constant c) Q b s.
Proof.
  intros Hg HQ. eapply wp_alloc_value; [exact Hg|reflexivity| |reflexivity..|exact HQ].
  cbn -[uint]. rewrite uint_idemp. change (8 * 8) with 64. rewrite (proj2 (Z.ltb_lt _ _)); [reflexivity|apply uint_range; lia].
Qed.

Lemma wp_ConstantSized k c Q b s :
  good (emitter b) s -> size_1248 k = true -> next (uint (8 * k) c) k Q b s -> wp (_ConstantSized (k * 8) c) Q b s.
Proof.
  intros Hg Hk HQ. pose proof (size_1248_bounds _ Hk).
  assert (shr 64 (uint 64 (-1)) (64 - k * 8) = Ok (Z.ones (8 * k))) as Hm.
  { rewrite shr_Ok, uint_idemp by lia. f_equal. change (uint 64 (-1)) with (2 ^ 64 - 1). rewrite Z.ones_equiv.
    replace (2 ^ 64) with (2 ^ (8 * k) * 2 ^ (64 - k * 8)) by (rewrite <- Z.pow_add_r by lia; f_equal; lia).
    pose proof (pow2_pos (64 - k * 8)). pose proof (pow2_pos (8 * k)).
    symmetry. apply Z.div_unique_pos with (r := 2 ^ (64 - k * 8) - 1); nia. }
  unfold wp, _ConstantSized. rewrite Hm, land_ones_uint, uint_uint by lia.
  replace (k * 8 / 8) with k by (rewrite Z.div_mul; lia).
  pose proof (uint_range (8 * k) c ltac:(lia)). pose proof (Z.pow_le_mono_r 2 (8 * k) 64).
  eapply (wp_alloc_value (OP_CONSTANT (uint (8 * k) c)) k []); [exact Hg|reflexivity| |reflexivity|exact Hk|exact HQ].
  cbn -[uint Z.pow Z.mul]. rewrite Hk, (uint_small 64) by lia. rewrite (proj2 (Z.ltb_lt _ _)) by lia. reflexivity.
Qed.

Lemma wp_infer2 op x y vx vy sx sy v Q b s :
  good (emitter b) s -> val (emitter b) s x vx sx -> val (emitter b) s y vy sy ->
  (size_1248 (Z.max sx sy) = true -> ir_value op (Z.max sx sy) [vx; vy] = Some v) ->
  zero_extending op (Z.max sx sy) = true ->
  next v (Z.max sx sy) Q b s -> wp (emit_infer2 op x y) Q b s.
Proof.
  intros Hg Hx Hy Hv Hz HQ.
  pose proof (size_max_1248 _ _ (val_width _ _ _ _ _ Hx) (val_width _ _ _ _ _ Hy)) as Hs.
  unfold emit_infer2. eapply wp_bind, wp_GetOpSize; eauto.
  eapply wp_bind, wp_GetOpSize; eauto. eapply wp_alloc_value; [exact Hg| |apply Hv, Hs|exact Hz|exact Hs|exact HQ].
  cbn. rewrite (val_cell _ _ _ _ _ Hx), (val_cell _ _ _ _ _ Hy). reflexivity.
Qed.

Lemma wp_Or x y vx vy sx sy Q b s :
  good (emitter b) s -> val (emitter b) s x vx sx -> val (emitter b) s y vy sy ->
  next (Z.lor vx vy) (Z.max sx sy) Q b s -> wp (_Or x y) Q b s.
Proof.
  intros Hg Hx Hy HQ. eapply wp_infer2; eauto. intros Hs. cbn. rewrite Hs. cbn. f_equal.
  eapply (uint_bitop Z.lor orb); eauto using val_zext, Z.lor_spec.
  intros. apply Z.lor_nonneg. auto.
Qed.

Lemma wp_Xor x y vx vy sx sy Q b s :
  good (emitter b) s -> val (emitter b) s x vx sx -> val (emitter b) s y vy sy ->
  next (Z.lxor vx vy) (Z.max sx sy) Q b s -> wp (_Xor x y) Q b s.
Proof.
  intros Hg Hx Hy HQ. eapply wp_infer2; eauto. intros Hs. cbn. rewrite Hs. cbn. f_equal.
  eapply (uint_bitop Z.lxor xorb); eauto using val_zext, Z.lxor_spec.
  intros. apply Z.lxor_nonneg. tauto.
Qed.

Lemma wp_And x y vx vy sx sy Q b s :
  good (emitter b) s -> val (emitter b) s x vx sx -> val (emitter b) s y vy sy ->
  next (Z.land vx vy) (Z.max sx sy) Q b s -> wp (_And x y) Q b s.
Proof.
  intros Hg Hx Hy HQ. eapply wp_infer2; eauto. intros Hs. cbn. rewrite Hs. cbn. f_equal.
  eapply (uint_bitop Z.land andb); eauto using val_zext, Z.land_spec.
  intros. apply Z.land_nonneg. auto.
Qed.

Lemma wp_max4_2 op x y vx vy sx sy v Q b s :
  good (emitter b) s -> val (emitter b) s x vx sx -> val (emitter b) s y vy sy ->
  (size_48 (Z.max 4 (Z.max sx sy)) = true ->
  ir_value op (Z.max 4 (Z.max sx sy)) [vx; vy] = Some v) ->
  zero_extending op (Z.max 4 (Z.max sx sy)) = true ->
  next v (Z.max 4 (Z.max sx sy)) Q b s -> wp (emit_max4_2 op x y) Q b s.
Proof.
  intros Hg Hx Hy Hv Hz HQ.
  pose proof (size_max_1248 _ _ (val_width _ _ _ _ _ Hx) (val_width _ _ _ _ _ Hy)) as Hs.
  apply size_max_48 in Hs.
  unfold emit_max4_2. eapply wp_bind, wp_GetOpSize; eauto.
  eapply wp_bind, wp_GetOpSize; eauto. eapply wp_alloc_value;
    [exact Hg| |apply Hv, Hs|exact Hz|apply size_48_1248, Hs|exact HQ].
  cbn. rewrite (val_cell _ _ _ _ _ Hx), (val_cell _ _ _ _ _ Hy). reflexivity.
Qed.

Lemma wp_Add x y vx vy sx sy Q b s :
  good (emitter b) s -> val (emitter b) s x vx sx -> val (emitter b) s y vy sy ->
  next (uint (8 * Z.max 4 (Z.max sx sy)) (vx + vy)) (Z.max 4 (Z.max sx sy)) Q b s ->
  wp (_Add x y) Q b s.
Proof. intros. eapply wp_max4_2; eauto. cbn -[Z.mul Z.max]. intros ->. reflexivity. Qed.

Lemma wp_Sub x y vx vy sx sy Q b s :
  good (emitter b) s -> val (emitter b) s x vx sx -> val (emitter b) s y vy sy ->
  next (uint (8 * Z.max 4 (Z.max sx sy)) (vx - vy)) (Z.max 4 (Z.max sx sy)) Q b s ->
  wp (_Sub x y) Q b s.
Proof. intros. eapply wp_max4_2; eauto. cbn -[Z.mul Z.max]. intros ->. reflexivity. Qed.

(** Multiplication at 64 bits. *)
Lemma wp_Mul64 x y vx vy sx sy Q b s :
  good (emitter b) s -> val (emitter b) s x vx sx -> val (emitter b) s y vy sy -> Z.max 4 (Z.max sx sy) = 8 ->
  next (uint 64 (vx * vy)) 8 Q b s -> wp (_Mul x y) Q b s.
Proof.
  intros Hg Hx Hy E HQ. eapply wp_max4_2; [exact Hg|exact Hx|exact Hy| | |]; rewrite E; [reflexivity|reflexivity|exact HQ].
Qed.

Lemma wp_max4_1 op x y vx vy sx sy v Q b s :
  good (emitter b) s -> val (emitter b) s x vx sx -> val (emitter b) s y vy sy ->
  (size_48 (Z.max 4 sx) = true -> ir_value op (Z.max 4 sx) [vx; vy] = Some v) ->
  zero_extending op (Z.max 4 sx) = true ->
  next v (Z.max 4 sx) Q b s -> wp (emit_max4_1 op x y) Q b s.
Proof.
  intros Hg Hx Hy Hv Hz HQ. pose proof (size_max_48 _ (val_width _ _ _ _ _ Hx)) as Hs.
  unfold emit_max4_1. eapply wp_bind, wp_GetOpSize; eauto.
  eapply wp_alloc_value;
    [exact Hg| |apply Hv, Hs|exact Hz|apply size_48_1248, Hs|exact HQ].
  cbn. rewrite (val_cell _ _ _ _ _ Hx), (val_cell _ _ _ _ _ Hy). reflexivity.
Qed.

Lemma wp_Lshl x y vx vy sx sy Q b s :
  good (emitter b) s -> val (emitter b) s x vx sx -> val (emitter b) s y vy sy ->
  next (uint (8 * Z.max 4 sx) (vx * 2 ^ (vy mod (8 * Z.max 4 sx)))) (Z.max 4 sx) Q b s ->
  wp (_Lshl x y) Q b s.
Proof. intros. eapply wp_max4_1; eauto. cbn -[Z.mul Z.max]. intros ->. reflexivity. Qed.

Lemma wp_Lshr x y vx vy sx sy Q b s :
  good (emitter b) s -> val (emitter b) s x vx sx -> val (emitter b) s y vy sy ->
  next (vx / 2 ^ (vy mod (8 * Z.max 4 sx))) (Z.max 4 sx) Q b s ->
  wp (_Lshr x y) Q b s.
Proof.
  intros Hg Hx Hy HQ. eapply wp_max4_1; eauto. cbn -[Z.mul Z.max]. intros ->.
  rewrite (uint_zext sx) by (lia || apply Hx). reflexivity.
Qed.

Lemma wp_infer1 op x vx sx v Q b s :
  good (emitter b) s -> val (emitter b) s x vx sx ->
  (1 <= sx <= 8 -> ir_value op sx [vx] = Some v) -> zero_extending op sx = true ->
  next v sx Q b s -> wp (emit_infer1 op x) Q b s.
Proof.
  intros Hg Hx Hv Hz HQ. pose proof (val_width _ _ _ _ _ Hx) as Hs.
  unfold emit_infer1. eapply wp_bind, wp_GetOpSize; eauto. eapply wp_alloc_value; [exact Hg| | |exact Hz|exact Hs|exact HQ].
  - cbn. rewrite (val_cell _ _ _ _ _ Hx). reflexivity.
  - apply Hv, size_1248_bounds, Hs.
Qed.

Lemma val_uint64 e s n v sz : val e s n v sz -> uint 64 v = v.
Proof.
  intros Hv. apply (uint_zext sz); [apply Hv|].
  pose proof (size_1248_bounds _ (val_width _ _ _ _ _ Hv)). lia.
Qed.

Lemma wp_Popcount x vx sx Q b s :
  good (emitter b) s -> val (emitter b) s x vx sx ->
  next (popcount 64 vx) sx Q b s -> wp (_Popcount x) Q b s.
Proof.
  intros Hg Hx HQ. eapply wp_infer1; eauto. intros Hs. cbn -[popcount].
  rewrite (val_uint64 _ _ _ _ _ Hx).
  replace ((1 <=? sx) && (sx <=? 8)) with true by lia. reflexivity.
Qed.

Lemma wp_GetHostFlag x fl vx sx Q b s :
  good (emitter b) s -> val (emitter b) s x vx sx -> 0 <= fl < 64 ->
  next ((vx / 2 ^ fl) mod 2) sx Q b s -> wp (_GetHostFlag x fl) Q b s.
Proof.
  intros Hg Hx Hf HQ. eapply wp_infer1; eauto. intros Hs. cbn -[Z.pow].
  rewrite (val_uint64 _ _ _ _ _ Hx).
  replace ((1 <=? sx) && (sx <=? 8) && (0 <=? fl) && (fl <? 64)) with true by lia. reflexivity.
Qed.

Lemma wp_BfeSized ds w l x vx sx Q b s :
  good (emitter b) s -> val (emitter b) s x vx sx ->
  size_1248 (if ds =? 0 then sx else ds) = true ->
  1 <= w <= 8 * (if ds =? 0 then sx else ds) -> 0 <= l < 64 ->
  next ((vx / 2 ^ l) mod 2 ^ w) (if ds =? 0 then sx else ds) Q b s ->
  wp (_BfeSized ds w l x) Q b s.
Proof.
  intros Hg Hx Hs Hw Hl HQ. pose proof (size_1248_bounds _ Hs).
  unfold _BfeSized. eapply wp_bind, wp_GetOpSize; eauto.
  set (sz := if ds =? 0 then sx else ds) in *.
  eapply wp_alloc_value;
    [exact Hg|cbn; rewrite (val_cell _ _ _ _ _ Hx); reflexivity| |reflexivity|exact Hs|exact HQ].
  cbn -[Z.pow Z.mul]. rewrite (val_uint64 _ _ _ _ _ Hx), !(uint_small 8) by lia.
  replace (_ && _) with true by lia. reflexivity.
Qed.

Lemma wp_Bfe w l x vx sx Q b s :
  good (emitter b) s -> val (emitter b) s x vx sx -> 1 <= w <= 8 * sx -> 0 <= l < 64 ->
  next ((vx / 2 ^ l) mod 2 ^ w) sx Q b s -> wp (_Bfe w l x) Q b s.
Proof. intros Hg Hx Hw Hl HQ. eapply wp_BfeSized; eauto; apply Hx. Qed.

Lemma wp_Sbfe w l x vx sx Q b s :
  good (emitter b) s -> val (emitter b) s x vx sx -> 1 <= w -> 0 <= l -> l + w <= 64 ->
  next (uint 64 (sint w (vx / 2 ^ l))) 8 Q b s -> wp (_Sbfe w l x) Q b s.
Proof.
  intros Hg Hx Hw Hl Hlw HQ.
  eapply wp_alloc_value;
    [exact Hg|cbn; rewrite (val_cell _ _ _ _ _ Hx); reflexivity| |reflexivity..|exact HQ].
  cbn -[Z.pow]. rewrite !(uint_small 8) by lia. replace (_ && _) with true by lia. reflexivity.
Qed.

Lemma wp_Select c x y t f vx vy vt vf sx sy st sf r Q b s :
  good (emitter b) s -> val (emitter b) s x vx sx -> val (emitter b) s y vy sy ->
  val (emitter b) s t vt st -> val (emitter b) s f vf sf ->
  unsigned_cond c vx vy = Some r ->
  next (if r then vt else vf) (Z.max 4 (Z.max st sf)) Q b s ->
  wp (_Select c x y t f) Q b s.
Proof.
  intros Hg Hx Hy Ht Hf Hr HQ.
  pose proof (size_1248_bounds _ (val_width _ _ _ _ _ Hx)).
  pose proof (size_1248_bounds _ (val_width _ _ _ _ _ Hy)).
  pose proof (size_max_1248 _ _ (val_width _ _ _ _ _ Ht) (val_width _ _ _ _ _ Hf)) as Hs.
  apply size_max_48 in Hs.
  unfold _Select. eapply wp_bind, wp_GetOpSize; eauto. eapply wp_bind, wp_GetOpSize; eauto.
  eapply wp_bind, wp_GetOpSize; eauto. eapply wp_bind, wp_GetOpSize; eauto.
  eapply wp_alloc_value; [exact Hg| | |reflexivity|apply size_48_1248, Hs|exact HQ].
  - cbn. rewrite (val_cell _ _ _ _ _ Hx), (val_cell _ _ _ _ _ Hy),
      (val_cell _ _ _ _ _ Ht), (val_cell _ _ _ _ _ Hf). reflexivity.
  - cbn -[Z.mul Z.max cond_holds].
    rewrite (unsigned_cond_holds _ _ _ _ r);
      [|destruct (Z.eqb_spec (Z.max 4 (Z.max sx sy)) 4);
      eapply uint_zext; first [apply Hx|apply Hy|lia]..|exact Hr].
    cbn -[Z.mul Z.max]. rewrite Hs. cbn -[Z.mul Z.max]. f_equal.
    destruct r; eapply uint_zext; first [apply Ht|apply Hf|lia].
Qed.

Lemma wp_LoadFlag fl v Q b s :
  good (emitter b) s -> Frame s !! (FLAGS_OFFSET + fl) = Some v ->
  next (uint 8 v) 1 Q b s -> wp (_LoadFlag fl) Q b s.
Proof.
  intros Hg Hv HQ. apply (wp_alloc_step _ _ _ (uint 8 v)); auto.
  - apply (uint_range 8). lia.
  - intros H8 _. apply step_loadflag; auto.
Qed.

(** A node without a value. *)
Lemma wp_alloc_effect op sz args s' (Q : unit -> S -> IROpData -> Prop) b s :
  good (emitter b) s ->
  step s (NextNode (emitter b)) (mkOp op sz sz args) = Ok s' ->
  SSAData s' = SSAData s -> Mem s' = Mem s -> CurrentEntry s' = CurrentEntry s ->
  (forall b', goes b s b' s' -> Q tt b' s') ->
  wp (_ ← AllocateOp op sz args; mret tt) Q b s.
Proof.
  intros Hg Hs Hd Hm He HQ.
  assert (goes b s (with_emitter (CreateNode (mkOp op sz sz args) (emitter b)) b) s') as Hgo.
  { constructor; rewrite ?emitter_with_emitter, ?env_with_emitter; [| |reflexivity].
    - apply ext_alloc; auto. intros. rewrite Hd. reflexivity.
    - apply (good_alloc _ s); auto. intros. rewrite Hd. reflexivity. }
  apply wp_bind. unfold wp at 1, AllocateOp.
  exists s'. split; [exact Hgo|]. apply wp_ret; [apply Hgo|apply HQ, Hgo].
Qed.

Lemma wp_StoreFlag x fl vx sx (Q : unit -> S -> IROpData -> Prop) b s :
  good (emitter b) s -> val (emitter b) s x vx sx ->
  (forall b' s', goes b s b' s' -> Frame s' = <[FLAGS_OFFSET + fl := uint 8 vx]> (Frame s) -> Q tt b' s') ->
  wp (_StoreFlag x fl) Q b s.
Proof.
  intros Hg Hx HQ. unfold _StoreFlag.
  eapply wp_alloc_effect; [exact Hg|apply step_storeflag|reflexivity..|].
  intros b' Hgo. apply HQ; auto. cbn. rewrite (val_cell _ _ _ _ _ Hx). reflexivity.
Qed.

Lemma wp_InvalidateFlags fl (Q : unit -> S -> IROpData -> Prop) b s :
  good (emitter b) s ->
  (forall b' s', goes b s b' s' -> Frame s' = Frame s -> Q tt b' s') ->
  wp (_InvalidateFlags fl) Q b s.
Proof.
  intros Hg HQ. unfold _InvalidateFlags.
  eapply wp_alloc_effect; [exact Hg|apply step_invalidate|reflexivity..|].
  intros b' Hgo. apply HQ; auto.
Qed.
End Rules.
