(* ===== verification/Flags.v ===== *)
(** * x86 flag generation

    [Interface/Core/OpcodeDispatcher/Flags.cpp] and the deferred flag state of
    [OpcodeDispatcher.h]: an arithmetic instruction records what its flags depend
    on ([GenerateFlags_*]); the IR that computes them is emitted when they are
    needed ([CalculateDeferredFlags], [CalculcateFlags_*]). Arguments of nested
    emission calls are evaluated left to right. *)
From Stdlib Require Import ZArith Lia Bool.
From stdpp Require Import base gmap list numbers option.
From S2P Require Import Prelude IR ALUOps Emitter.
#[local] Open Scope Z_scope.

(** ** State *)

Inductive FlagsGenerationType :=
  | TYPE_NONE | TYPE_ADC | TYPE_SBB | TYPE_SUB | TYPE_ADD | TYPE_MUL | TYPE_UMUL
  | TYPE_LOGICAL | TYPE_LSHL | TYPE_LSHLI | TYPE_LSHR | TYPE_LSHRI | TYPE_ASHR
  | TYPE_ASHRI | TYPE_ROR | TYPE_RORI | TYPE_ROL | TYPE_ROLI | TYPE_FCMP
  | TYPE_BEXTR | TYPE_BLSI | TYPE_BLSMSK | TYPE_BLSR | TYPE_POPCOUNT | TYPE_BZHI
  | TYPE_TZCNT | TYPE_LZCNT | TYPE_BITSELECT | TYPE_RDRAND.

(** The union of [DeferredFlagData]: reading a member that is not the active one
    is undefined. *)
Inductive FlagSources :=
  | NoSource
  | OneSource (Src1 : NodeID)
  | TwoSource (Src1 Src2 : NodeID)
  | ThreeSource (Src1 Src2 Src3 : NodeID)
  | OneSrcImmediate (Src1 : NodeID) (Imm : Z)
  | TwoSrcImmediate (Src1 Src2 : NodeID) (UpdateCF : bool).

Record DeferredFlagData := mkDeferred {
  Type_ : FlagsGenerationType;
  SrcSize : Z;
  Res : NodeID;
  Sources : FlagSources
}.

Inductive SelectionFlag := Nothing | CMP | AND | FCMP.

(** The configuration the builder reads from its context ([Context::Config] and
    [HostFeatures]); it does not change. *)
Record ContextConfig := mkConfig {
  Config_ABINoPF : bool;
  ABILocalFlags : bool;
  Is64BitMode : bool;
  TSOEnabled : bool;
  SupportsAVX : bool
}.

(** The operands of a fused comparison are recorded with [flagsOp]; [Entry] is
    where the function that is translated begins. *)
Record OpDispatchBuilder := mkBuilder {
  builder_emitter : IREmitter;
  CurrentDeferredFlags : DeferredFlagData;
  flagsOp : SelectionFlag;
  flagsOpSize : Z;
  flagsOpDest : NodeID;
  flagsOpSrc : NodeID;
  flagsOpDestSigned : NodeID;
  flagsOpSrcSigned : NodeID;
  HandledLock : bool;
  DecodeFailure : bool;
  BlockSetRIP : bool;
  CTX : ContextConfig;
  Entry : Z
}.
Definition ABINoPF (b : OpDispatchBuilder) : bool := Config_ABINoPF (CTX b).

(** The state with other flag bookkeeping and with other outcomes of an instruction. *)
Definition with_flags (d : DeferredFlagData) (f : SelectionFlag) (b : OpDispatchBuilder) : OpDispatchBuilder :=
  mkBuilder (builder_emitter b) d f (flagsOpSize b) (flagsOpDest b) (flagsOpSrc b)
    (flagsOpDestSigned b) (flagsOpSrcSigned b) (HandledLock b) (DecodeFailure b) (BlockSetRIP b) (CTX b) (Entry b).
Definition with_status (lock failure rip : bool) (b : OpDispatchBuilder) : OpDispatchBuilder :=
  mkBuilder (builder_emitter b) (CurrentDeferredFlags b) (flagsOp b) (flagsOpSize b) (flagsOpDest b) (flagsOpSrc b)
    (flagsOpDestSigned b) (flagsOpSrcSigned b) lock failure rip (CTX b) (Entry b).

#[export] Instance OpDispatchBuilder_HasEmitter : HasEmitter OpDispatchBuilder :=
  {| emitter := builder_emitter;
     with_emitter e b := mkBuilder e (CurrentDeferredFlags b) (flagsOp b) (flagsOpSize b)
       (flagsOpDest b) (flagsOpSrc b) (flagsOpDestSigned b) (flagsOpSrcSigned b)
       (HandledLock b) (DecodeFailure b) (BlockSetRIP b) (CTX b) (Entry b);
     Env := ContextConfig * Z; env b := (CTX b, Entry b);
     emitter_with_emitter _ _ := eq_refl; env_with_emitter _ _ := eq_refl |}.

Abbreviation B := (M OpDispatchBuilder).

Definition set_deferred (d : DeferredFlagData) : B unit := fun b => Ok (tt, with_flags d (flagsOp b) b).
Definition set_flagsOp (f : SelectionFlag) : B unit := fun b => Ok (tt, with_flags (CurrentDeferredFlags b) f b).
Definition get_builder : B OpDispatchBuilder := get_state.
Definition fail {A} (o : outcome (A * OpDispatchBuilder)) : B A := fun _ => o.

(** ** Flag locations ([X86Enums.h]) *)

Definition RFLAG_CF_LOC := 0.
Definition RFLAG_PF_LOC := 2.
Definition RFLAG_AF_LOC := 4.
Definition RFLAG_ZF_LOC := 6.
Definition RFLAG_SF_LOC := 7.
Definition RFLAG_TF_LOC := 8.
Definition RFLAG_IF_LOC := 9.
Definition RFLAG_DF_LOC := 10.
Definition RFLAG_OF_LOC := 11.
Definition RFLAG_IOPL_LOC := 12.
Definition RFLAG_NT_LOC := 14.
Definition RFLAG_RF_LOC := 16.
Definition RFLAG_VM_LOC := 17.
Definition RFLAG_AC_LOC := 18.
Definition RFLAG_VIF_LOC := 19.
Definition RFLAG_VIP_LOC := 20.
Definition RFLAG_ID_LOC := 21.

Definition FlagOffsets : list Z :=
  [RFLAG_CF_LOC; RFLAG_PF_LOC; RFLAG_AF_LOC; RFLAG_ZF_LOC; RFLAG_SF_LOC; RFLAG_TF_LOC;
   RFLAG_IF_LOC; RFLAG_DF_LOC; RFLAG_OF_LOC; RFLAG_IOPL_LOC; RFLAG_NT_LOC; RFLAG_RF_LOC;
   RFLAG_VM_LOC; RFLAG_AC_LOC; RFLAG_VIF_LOC; RFLAG_VIP_LOC; RFLAG_ID_LOC].

Definition SetRFLAG (BitOffset : Z) (Value : NodeID) : B unit :=
  _ ← set_flagsOp Nothing;
  v ← _Bfe 1 0 Value; _StoreFlag v BitOffset.

Definition GetRFLAG (BitOffset : Z) : B NodeID := _LoadFlag BitOffset.

(** ** Blocks that the generators repeat *)

(** [_Select(COND_EQ, Src, _Constant(0), _Constant(t), _Constant(f))] *)
Definition SelectZero (Src : NodeID) (t f : Z) : B NodeID :=
  z ← _Constant 0; t ← _Constant t; f ← _Constant f; _Select COND_EQ Src z t f.

Definition ParityValue (Res : NodeID) : B NodeID :=
  m ← _Constant 0xFF; a ← _And Res m; p ← _Popcount a; o ← _Constant 1; _Xor p o.

(** [if (!CTX->Config.ABINoPF) { ... } else { _InvalidateFlags(1UL << PF) }] *)
Definition WithPF (m : B unit) : B unit :=
  b ← get_builder;
  if ABINoPF b then _InvalidateFlags (Z.shiftl 1 RFLAG_PF_LOC) else m.

Definition SetAF (Res Src1 Src2 : NodeID) : B unit :=
  x ← _Xor Src1 Src2; r ← _Xor x Res; r ← _Bfe 1 4 r; SetRFLAG RFLAG_AF_LOC r.
Definition SetSF_Lshr (SrcSize : Z) (Res : NodeID) : B unit :=
  c ← _Constant (SrcSize * 8 - 1); l ← _Lshr Res c; SetRFLAG RFLAG_SF_LOC l.
Definition SetPF (Res : NodeID) : B unit :=
  WithPF (p ← ParityValue Res; SetRFLAG RFLAG_PF_LOC p).
Definition SetZF (Res : NodeID) : B unit :=
  z ← SelectZero Res 1 0; SetRFLAG RFLAG_ZF_LOC z.
Definition ClearRFLAG (BitOffset : Z) : B unit := z ← _Constant 0; SetRFLAG BitOffset z.

(** The [switch] over the operand size around [_Bfe(1, SrcSize * 8 - 1, x)]; the
    default case only asserts. *)
Definition SignBitSwitch (SrcSize : Z) (x : NodeID) : B NodeID :=
  if SrcSize =? 1 then _Bfe 1 7 x
  else if SrcSize =? 2 then _Bfe 1 15 x
  else if SrcSize =? 4 then _Bfe 1 31 x
  else if SrcSize =? 8 then _Bfe 1 63 x
  else fail Assert.

(** [OF] of an addition and of a subtraction. *)
Definition SetOF_add (SrcSize : Z) (Res Src1 Src2 : NodeID) : B unit :=
  NegOne ← _Constant 0xFFFFFFFFFFFFFFFF;
  x ← _Xor Src1 Src2; XorOp1 ← _Xor x NegOne;
  XorOp2 ← _Xor Res Src1;
  a ← _And XorOp1 XorOp2; a ← SignBitSwitch SrcSize a;
  SetRFLAG RFLAG_OF_LOC a.

(** ** The generators *)

Definition CalculcateFlags_ADC (SrcSize : Z) (Res Src1 Src2 CF : NodeID) : B unit :=
  _ ← SetAF Res Src1 Src2;
  _ ← SetSF_Lshr SrcSize Res;
  _ ← SetPF Res;
  _ ← SetZF Res;
  o ← _Constant 1; z ← _Constant 0; SelectOpLT ← _Select COND_ULT Res Src2 o z;
  o ← _Constant 1; z ← _Constant 0; SelectOpLE ← _Select COND_ULE Res Src2 o z;
  o ← _Constant 1; SelectCF ← _Select COND_EQ CF o SelectOpLE SelectOpLT;
  _ ← SetRFLAG RFLAG_CF_LOC SelectCF;
  SetOF_add SrcSize Res Src1 Src2.

Definition CalculcateFlags_SBB (SrcSize : Z) (Res Src1 Src2 CF : NodeID) : B unit :=
  _ ← SetAF Res Src1 Src2;
  _ ← SetSF_Lshr SrcSize Res;
  _ ← SetPF Res;
  _ ← SetZF Res;
  o ← _Constant 1; z ← _Constant 0; SelectOpLT ← _Select COND_UGT Res Src1 o z;
  o ← _Constant 1; z ← _Constant 0; SelectOpLE ← _Select COND_UGE Res Src1 o z;
  o ← _Constant 1; SelectCF ← _Select COND_EQ CF o SelectOpLE SelectOpLT;
  _ ← SetRFLAG RFLAG_CF_LOC SelectCF;
  XorOp1 ← _Xor Src1 Src2; XorOp2 ← _Xor Res Src1;
  a ← _And XorOp1 XorOp2; a ← SignBitSwitch SrcSize a;
  SetRFLAG RFLAG_OF_LOC a.

Definition CalculcateFlags_SUB (SrcSize : Z) (Res Src1 Src2 : NodeID) (UpdateCF : bool) : B unit :=
  _ ← SetAF Res Src1 Src2;
  _ ← SetSF_Lshr SrcSize Res;
  _ ← SetPF Res;
  z ← _Constant 0; o ← _Constant 1; s ← _Select COND_EQ Res z o z;
  _ ← SetRFLAG RFLAG_ZF_LOC s;
  _ ← (if UpdateCF then
         z ← _Constant 0; o ← _Constant 1; s ← _Select COND_ULT Src1 Src2 o z;
         SetRFLAG RFLAG_CF_LOC s
       else mret tt);
  XorOp1 ← _Xor Src1 Src2; XorOp2 ← _Xor Res Src1;
  FinalAnd ← _And XorOp1 XorOp2; FinalAnd ← _Bfe 1 (SrcSize * 8 - 1) FinalAnd;
  SetRFLAG RFLAG_OF_LOC FinalAnd.

Definition CalculcateFlags_ADD (SrcSize : Z) (Res Src1 Src2 : NodeID) (UpdateCF : bool) : B unit :=
  _ ← SetAF Res Src1 Src2;
  _ ← SetSF_Lshr SrcSize Res;
  _ ← SetPF Res;
  _ ← SetZF Res;
  _ ← (if UpdateCF then
         o ← _Constant 1; z ← _Constant 0; s ← _Select COND_ULT Res Src2 o z;
         SetRFLAG RFLAG_CF_LOC s
       else mret tt);
  SetOF_add SrcSize Res Src1 Src2.

Definition CalculcateFlags_MUL (SrcSize : Z) (Res High : NodeID) : B unit :=
  _ ← ClearRFLAG RFLAG_PF_LOC;
  _ ← ClearRFLAG RFLAG_AF_LOC;
  _ ← ClearRFLAG RFLAG_ZF_LOC;
  _ ← ClearRFLAG RFLAG_SF_LOC;
  SignBit ← _Sbfe 1 (SrcSize * 8 - 1) Res;
  z ← _Constant 0; o ← _Constant 1; s ← _Select COND_EQ High SignBit z o;
  _ ← SetRFLAG RFLAG_CF_LOC s;
  SetRFLAG RFLAG_OF_LOC s.

Definition CalculcateFlags_UMUL (High : NodeID) : B unit :=
  _ ← ClearRFLAG RFLAG_AF_LOC;
  _ ← ClearRFLAG RFLAG_SF_LOC;
  _ ← ClearRFLAG RFLAG_PF_LOC;
  _ ← ClearRFLAG RFLAG_ZF_LOC;
  s ← SelectZero High 0 1;
  _ ← SetRFLAG RFLAG_CF_LOC s;
  SetRFLAG RFLAG_OF_LOC s.

Definition CalculcateFlags_Logical (SrcSize : Z) (Res Src1 Src2 : NodeID) : B unit :=
  _ ← ClearRFLAG RFLAG_AF_LOC;
  _ ← SetSF_Lshr SrcSize Res;
  _ ← SetPF Res;
  _ ← SetZF Res;
  _ ← ClearRFLAG RFLAG_CF_LOC;
  ClearRFLAG RFLAG_OF_LOC.

(** [COND_FLAG_SET(cond, flag, newflag)]; [newflag] is an expression that the
    macro evaluates inside the selection. *)
Definition COND_FLAG_SET (cond : NodeID) (flag : Z) (newflag : B NodeID) : B unit :=
  oldflag ← GetRFLAG flag;
  z ← _Constant 0; newflag ← newflag;
  newval ← _Select COND_EQ cond z oldflag newflag;
  SetRFLAG flag newval.

(** The part the variable shifts share: [PF], [AF] and [ZF]. *)
Definition CondFlags_PF_AF_ZF (Res Src2 : NodeID) : B unit :=
  _ ← WithPF (p ← ParityValue Res; COND_FLAG_SET Src2 RFLAG_PF_LOC (mret p));
  _ ← COND_FLAG_SET Src2 RFLAG_AF_LOC (_Constant 0);
  s ← SelectZero Res 1 0; COND_FLAG_SET Src2 RFLAG_ZF_LOC (mret s).

Definition CalculcateFlags_ShiftLeft (SrcSize : Z) (Res Src1 Src2 : NodeID) : B unit :=
  Size ← _Constant (SrcSize * 8); ShiftAmt ← _Sub Size Src2;
  l ← _Lshr Src1 ShiftAmt; o ← _Constant 1; LastBit ← _And l o;
  _ ← COND_FLAG_SET Src2 RFLAG_CF_LOC (mret LastBit);
  _ ← CondFlags_PF_AF_ZF Res Src2;
  val ← _Bfe 1 (SrcSize * 8 - 1) Res;
  _ ← COND_FLAG_SET Src2 RFLAG_SF_LOC (mret val);
  x ← _Xor Src1 Res; val ← _Bfe 1 (SrcSize * 8 - 1) x;
  COND_FLAG_SET Src2 RFLAG_OF_LOC (mret val).

(** The carry of the variable right shifts: the last bit shifted out. *)
Definition CondCF_right (Src1 Src2 : NodeID) : B unit :=
  o ← _Constant 1; ShiftAmt ← _Sub Src2 o;
  l ← _Lshr Src1 ShiftAmt; o ← _Constant 1; LastBit ← _And l o;
  COND_FLAG_SET Src2 RFLAG_CF_LOC (mret LastBit).

Definition CalculcateFlags_ShiftRight (SrcSize : Z) (Res Src1 Src2 : NodeID) : B unit :=
  _ ← CondCF_right Src1 Src2;
  _ ← CondFlags_PF_AF_ZF Res Src2;
  val ← _Bfe 1 (SrcSize * 8 - 1) Res;
  _ ← COND_FLAG_SET Src2 RFLAG_SF_LOC (mret val);
  x ← _Xor Src1 Res; val ← _Bfe 1 (SrcSize * 8 - 1) x;
  COND_FLAG_SET Src2 RFLAG_OF_LOC (mret val).

Definition CalculcateFlags_SignShiftRight (SrcSize : Z) (Res Src1 Src2 : NodeID) : B unit :=
  _ ← CondCF_right Src1 Src2;
  _ ← CondFlags_PF_AF_ZF Res Src2;
  c ← _Constant (SrcSize * 8 - 1); LshrOp ← _Lshr Res c;
  _ ← COND_FLAG_SET Src2 RFLAG_SF_LOC (mret LshrOp);
  COND_FLAG_SET Src2 RFLAG_OF_LOC (_Constant 0).

Definition CalculcateFlags_ShiftLeftImmediate (SrcSize : Z) (Res Src1 : NodeID) (Shift : Z) : B unit :=
  if Shift =? 0 then mret tt
  else
    c ← _Bfe 1 (SrcSize * 8 - Shift) Src1;
    _ ← SetRFLAG RFLAG_CF_LOC c;
    _ ← SetPF Res;
    _ ← ClearRFLAG RFLAG_AF_LOC;
    _ ← SetZF Res;
    LshrOp ← _Bfe 1 (SrcSize * 8 - 1) Res;
    _ ← SetRFLAG RFLAG_SF_LOC LshrOp;
    if Shift =? 1 then
      SourceBit ← _Bfe 1 (SrcSize * 8 - 1) Src1;
      x ← _Xor SourceBit LshrOp; SetRFLAG RFLAG_OF_LOC x
    else mret tt.

Definition CalculcateFlags_SignShiftRightImmediate (SrcSize : Z) (Res Src1 : NodeID) (Shift : Z) : B unit :=
  if Shift =? 0 then mret tt
  else
    c ← _Bfe 1 (Shift - 1) Src1;
    _ ← SetRFLAG RFLAG_CF_LOC c;
    _ ← SetPF Res;
    _ ← ClearRFLAG RFLAG_AF_LOC;
    _ ← SetZF Res;
    _ ← SetSF_Lshr SrcSize Res;
    if Shift =? 1 then ClearRFLAG RFLAG_OF_LOC else mret tt.

Definition CalculcateFlags_ShiftRightImmediate (SrcSize : Z) (Res Src1 : NodeID) (Shift : Z) : B unit :=
  if Shift =? 0 then mret tt
  else
    c ← _Bfe 1 (Shift - 1) Src1;
    _ ← SetRFLAG RFLAG_CF_LOC c;
    _ ← SetPF Res;
    _ ← ClearRFLAG RFLAG_AF_LOC;
    _ ← SetZF Res;
    _ ← SetSF_Lshr SrcSize Res;
    if Shift =? 1 then
      v ← _Bfe 1 (SrcSize * 8 - 1) Src1; SetRFLAG RFLAG_OF_LOC v
    else mret tt.

Definition CalculcateFlags_RotateRight (SrcSize : Z) (Res Src1 Src2 : NodeID) : B unit :=
  let OpSize := SrcSize * 8 in
  NewCF ← _Bfe 1 (OpSize - 1) Res;
  OldCF ← GetRFLAG RFLAG_CF_LOC;
  z ← _Constant 0; CF ← _Select COND_EQ Src2 z OldCF NewCF;
  _ ← SetRFLAG RFLAG_CF_LOC CF;
  OldOF ← GetRFLAG RFLAG_OF_LOC;
  t ← _Bfe 1 (OpSize - 2) Res; NewOF ← _Xor t NewCF;
  z ← _Constant 0; OF ← _Select COND_EQ Src2 z OldOF NewOF;
  SetRFLAG RFLAG_OF_LOC OF.

Definition CalculcateFlags_RotateLeft (SrcSize : Z) (Res Src1 Src2 : NodeID) : B unit :=
  let OpSize := SrcSize * 8 in
  NewCF ← _Bfe 1 0 Res;
  OldCF ← GetRFLAG RFLAG_CF_LOC;
  z ← _Constant 0; CF ← _Select COND_EQ Src2 z OldCF NewCF;
  _ ← SetRFLAG RFLAG_CF_LOC CF;
  OldOF ← GetRFLAG RFLAG_OF_LOC;
  t ← _Bfe 1 (OpSize - 1) Res; NewOF ← _Xor t NewCF;
  z ← _Constant 0; OF ← _Select COND_EQ Src2 z OldOF NewOF;
  SetRFLAG RFLAG_OF_LOC OF.

Definition CalculcateFlags_RotateRightImmediate (SrcSize : Z) (Res Src1 : NodeID) (Shift : Z) : B unit :=
  if Shift =? 0 then mret tt
  else
    let OpSize := SrcSize * 8 in
    NewCF ← _Bfe 1 (OpSize - Shift) Src1;
    _ ← SetRFLAG RFLAG_CF_LOC NewCF;
    if Shift =? 1 then
      t ← _Bfe 1 (OpSize - 1) Res; x ← _Xor t NewCF; SetRFLAG RFLAG_OF_LOC x
    else mret tt.

Definition CalculcateFlags_RotateLeftImmediate (SrcSize : Z) (Res Src1 : NodeID) (Shift : Z) : B unit :=
  if Shift =? 0 then mret tt
  else
    let OpSize := SrcSize * 8 in
    c ← _Bfe 1 Shift Src1;
    _ ← SetRFLAG RFLAG_CF_LOC c;
    if Shift =? 1 then
      t ← _Bfe 1 (OpSize - 1) Src1; u ← _Bfe 1 (OpSize - 2) Src1;
      x ← _Xor t u; SetRFLAG RFLAG_OF_LOC x
    else mret tt.

Definition CalculcateFlags_FCMP (SrcSize : Z) (Res Src1 Src2 : NodeID) : B unit :=
  HostFlag_CF ← _GetHostFlag Res FCMP_FLAG_LT;
  HostFlag_ZF ← _GetHostFlag Res FCMP_FLAG_EQ;
  HostFlag_Unordered ← _GetHostFlag Res FCMP_FLAG_UNORDERED;
  _ ← SetRFLAG RFLAG_CF_LOC HostFlag_CF;
  _ ← SetRFLAG RFLAG_ZF_LOC HostFlag_ZF;
  _ ← SetRFLAG RFLAG_PF_LOC HostFlag_Unordered;
  ZeroConst ← _Constant 0;
  _ ← SetRFLAG RFLAG_AF_LOC ZeroConst;
  _ ← SetRFLAG RFLAG_SF_LOC ZeroConst;
  SetRFLAG RFLAG_OF_LOC ZeroConst.

Definition CalculcateFlags_BEXTR (Src : NodeID) : B unit :=
  _ ← ClearRFLAG RFLAG_CF_LOC;
  _ ← ClearRFLAG RFLAG_OF_LOC;
  _ ← ClearRFLAG RFLAG_AF_LOC;
  _ ← ClearRFLAG RFLAG_SF_LOC;
  _ ← WithPF (ClearRFLAG RFLAG_PF_LOC);
  SetZF Src.

Definition CalculcateFlags_BLSI (SrcSize : Z) (Src : NodeID) : B unit :=
  Zero ← _Constant 0; One ← _Constant 1;
  _ ← SetRFLAG RFLAG_OF_LOC Zero;
  _ ← SetRFLAG RFLAG_AF_LOC Zero;
  _ ← WithPF (SetRFLAG RFLAG_PF_LOC Zero);
  ZFOp ← _Select COND_EQ Src Zero One Zero;
  _ ← SetRFLAG RFLAG_ZF_LOC ZFOp;
  CFOp ← _Select COND_EQ Src Zero Zero One;
  _ ← SetRFLAG RFLAG_CF_LOC CFOp;
  SetSF_Lshr SrcSize Src.

Definition CalculcateFlags_BLSMSK (Src : NodeID) : B unit :=
  Zero ← _Constant 0; One ← _Constant 1;
  _ ← SetRFLAG RFLAG_ZF_LOC Zero;
  _ ← SetRFLAG RFLAG_OF_LOC Zero;
  _ ← SetRFLAG RFLAG_AF_LOC Zero;
  _ ← WithPF (SetRFLAG RFLAG_PF_LOC Zero);
  CFOp ← _Select COND_EQ Src Zero Zero One;
  SetRFLAG RFLAG_CF_LOC CFOp.

Definition CalculcateFlags_BLSR (SrcSize : Z) (Result Src : NodeID) : B unit :=
  Zero ← _Constant 0; One ← _Constant 1;
  _ ← SetRFLAG RFLAG_OF_LOC Zero;
  _ ← SetRFLAG RFLAG_AF_LOC Zero;
  _ ← WithPF (SetRFLAG RFLAG_PF_LOC Zero);
  ZFOp ← _Select COND_EQ Result Zero One Zero;
  _ ← SetRFLAG RFLAG_ZF_LOC ZFOp;
  CFOp ← _Select COND_EQ Src Zero Zero One;
  _ ← SetRFLAG RFLAG_CF_LOC CFOp;
  SetSF_Lshr SrcSize Result.

Definition CalculcateFlags_POPCOUNT (Src : NodeID) : B unit :=
  Zero ← _Constant 0; One ← _Constant 1;
  ZFResult ← _Select COND_EQ Src Zero One Zero;
  _ ← SetRFLAG RFLAG_CF_LOC Zero;
  _ ← SetRFLAG RFLAG_PF_LOC Zero;
  _ ← SetRFLAG RFLAG_AF_LOC Zero;
  _ ← SetRFLAG RFLAG_ZF_LOC ZFResult;
  _ ← SetRFLAG RFLAG_SF_LOC Zero;
  SetRFLAG RFLAG_OF_LOC Zero.

Definition CalculcateFlags_BZHI (SrcSize : Z) (Result Src : NodeID) : B unit :=
  Bounds ← _Constant (SrcSize * 8 - 1);
  Zero ← _Constant 0; One ← _Constant 1;
  _ ← SetRFLAG RFLAG_OF_LOC Zero;
  _ ← SetRFLAG RFLAG_AF_LOC Zero;
  _ ← WithPF (SetRFLAG RFLAG_PF_LOC Zero);
  ZFOp ← _Select COND_EQ Result Zero One Zero;
  _ ← SetRFLAG RFLAG_ZF_LOC ZFOp;
  CFOp ← _Select COND_UGT Src Bounds One Zero;
  _ ← SetRFLAG RFLAG_CF_LOC CFOp;
  SFOp ← _Lshr Result Bounds;
  SetRFLAG RFLAG_SF_LOC SFOp.

Definition CalculcateFlags_TZCNT (Src : NodeID) : B unit :=
  Zero ← _Constant 0; One ← _Constant 1;
  ZFResult ← _Select COND_EQ Src Zero One Zero;
  _ ← SetRFLAG RFLAG_CF_LOC ZFResult;
  v ← _Bfe 1 0 Src; SetRFLAG RFLAG_ZF_LOC v.

Definition CalculcateFlags_LZCNT (SrcSize : Z) (Src : NodeID) : B unit :=
  Zero ← _Constant 0; One ← _Constant 1;
  ZFResult ← _Select COND_EQ Src Zero One Zero;
  _ ← SetRFLAG RFLAG_CF_LOC ZFResult;
  v ← _Bfe 1 (SrcSize * 8 - 1) Src; SetRFLAG RFLAG_ZF_LOC v.

Definition CalculcateFlags_BITSELECT (Src : NodeID) : B unit :=
  ZeroConst ← _Constant 0; OneConst ← _Constant 1;
  ZFSelectOp ← _Select COND_EQ Src ZeroConst OneConst ZeroConst;
  SetRFLAG RFLAG_ZF_LOC ZFSelectOp.

Definition CalculcateFlags_RDRAND (Src : NodeID) : B unit :=
  ZeroConst ← _Constant 0;
  _ ← SetRFLAG RFLAG_OF_LOC ZeroConst;
  _ ← SetRFLAG RFLAG_SF_LOC ZeroConst;
  _ ← SetRFLAG RFLAG_ZF_LOC ZeroConst;
  _ ← SetRFLAG RFLAG_AF_LOC ZeroConst;
  _ ← SetRFLAG RFLAG_PF_LOC ZeroConst;
  SetRFLAG RFLAG_CF_LOC Src.

(** ** The deferred flags *)

Definition calculate_switch (d : DeferredFlagData) : B unit :=
  match Type_ d, Sources d with
  | TYPE_ADC, ThreeSource a b c => CalculcateFlags_ADC (SrcSize d) (Res d) a b c
  | TYPE_SBB, ThreeSource a b c => CalculcateFlags_SBB (SrcSize d) (Res d) a b c
  | TYPE_SUB, TwoSrcImmediate a b u => CalculcateFlags_SUB (SrcSize d) (Res d) a b u
  | TYPE_ADD, TwoSrcImmediate a b u => CalculcateFlags_ADD (SrcSize d) (Res d) a b u
  | TYPE_MUL, OneSource a => CalculcateFlags_MUL (SrcSize d) (Res d) a
  | TYPE_UMUL, _ => CalculcateFlags_UMUL (Res d)
  | TYPE_LOGICAL, TwoSource a b => CalculcateFlags_Logical (SrcSize d) (Res d) a b
  | TYPE_LSHL, TwoSource a b => CalculcateFlags_ShiftLeft (SrcSize d) (Res d) a b
  | TYPE_LSHLI, OneSrcImmediate a i => CalculcateFlags_ShiftLeftImmediate (SrcSize d) (Res d) a i
  | TYPE_LSHR, TwoSource a b => CalculcateFlags_ShiftRight (SrcSize d) (Res d) a b
  | TYPE_LSHRI, OneSrcImmediate a i => CalculcateFlags_ShiftRightImmediate (SrcSize d) (Res d) a i
  | TYPE_ASHR, TwoSource a b => CalculcateFlags_SignShiftRight (SrcSize d) (Res d) a b
  | TYPE_ASHRI, OneSrcImmediate a i =>
      CalculcateFlags_SignShiftRightImmediate (SrcSize d) (Res d) a i
  | TYPE_ROR, TwoSource a b => CalculcateFlags_RotateRight (SrcSize d) (Res d) a b
  | TYPE_RORI, OneSrcImmediate a i =>
      CalculcateFlags_RotateRightImmediate (SrcSize d) (Res d) a i
  | TYPE_ROL, TwoSource a b => CalculcateFlags_RotateLeft (SrcSize d) (Res d) a b
  | TYPE_ROLI, OneSrcImmediate a i =>
      CalculcateFlags_RotateLeftImmediate (SrcSize d) (Res d) a i
  | TYPE_FCMP, TwoSource a b => CalculcateFlags_FCMP (SrcSize d) (Res d) a b
  | TYPE_BEXTR, _ => CalculcateFlags_BEXTR (Res d)
  | TYPE_BLSI, _ => CalculcateFlags_BLSI (SrcSize d) (Res d)
  | TYPE_BLSMSK, _ => CalculcateFlags_BLSMSK (Res d)
  | TYPE_BLSR, OneSource a => CalculcateFlags_BLSR (SrcSize d) (Res d) a
  | TYPE_POPCOUNT, _ => CalculcateFlags_POPCOUNT (Res d)
  | TYPE_BZHI, OneSource a => CalculcateFlags_BZHI (SrcSize d) (Res d) a
  | TYPE_TZCNT, _ => CalculcateFlags_TZCNT (Res d)
  | TYPE_LZCNT, _ => CalculcateFlags_LZCNT (SrcSize d) (Res d)
  | TYPE_BITSELECT, _ => CalculcateFlags_BITSELECT (Res d)
  | TYPE_RDRAND, _ => CalculcateFlags_RDRAND (Res d)
  | TYPE_NONE, _ => fail Assert
  | _, _ => fail Undef
  end.

(** [InvalidateDeferredFlags]: only the type is reset. *)
Definition InvalidateDeferredFlags : B unit :=
  b ← get_builder;
  let d := CurrentDeferredFlags b in
  set_deferred (mkDeferred TYPE_NONE (SrcSize d) (Res d) (Sources d)).

Definition CalculateDeferredFlags : B unit :=
  b ← get_builder;
  match Type_ (CurrentDeferredFlags b) with
  | TYPE_NONE => mret tt
  | _ => _ ← calculate_switch (CurrentDeferredFlags b); InvalidateDeferredFlags
  end.

Definition IsDeferredFlagsStored (b : OpDispatchBuilder) : bool :=
  match Type_ (CurrentDeferredFlags b) with TYPE_NONE => true | _ => false end.

(** ** Packed flags *)

Fixpoint for_each {A} (f : A -> B unit) (l : list A) : B unit :=
  match l with [] => mret tt | a :: l => _ ← f a; for_each f l end.

Definition SetPackedRFLAG (Lower8 : bool) (Src : NodeID) : B unit :=
  _ ← (if Lower8 then CalculateDeferredFlags else InvalidateDeferredFlags);
  let NumFlags := if Lower8 then 5%nat else length FlagOffsets in
  OneConst ← _Constant 1;
  for_each (fun FlagOffset =>
    c ← _Constant FlagOffset; l ← _Lshr Src c; Tmp ← _And l OneConst;
    SetRFLAG FlagOffset Tmp) (take NumFlags FlagOffsets).

Fixpoint pack_flags (Original : NodeID) (l : list Z) : B NodeID :=
  match l with
  | [] => mret Original
  | FlagOffset :: l =>
      Flag ← _LoadFlag FlagOffset;
      Flag ← _BfeSized 4 32 0 Flag;
      c ← _Constant FlagOffset; Flag ← _Lshl Flag c;
      Original ← _Or Original Flag;
      pack_flags Original l
  end.

Definition GetPackedRFLAG (Lower8 : bool) : B NodeID :=
  _ ← CalculateDeferredFlags;
  Original ← _Constant 2;
  let NumFlags := if Lower8 then 5%nat else length FlagOffsets in
  pack_flags Original (take NumFlags FlagOffsets).

(** ** Recording deferred flags

    The decoded instruction is given by its flags, which hold its source size
    ([X86Tables.h], [GetSrcSize]). *)
Definition FLAG_SIZE_SRC_OFF := 22.
Definition SIZE_MASK := 7.
Definition GetSrcSize (Flags : Z) : B Z :=
  let Sizes := [0; 1; 2; 4; 8; 16; 32; 0] in
  match Sizes !! Z.to_nat (Z.land (Z.shiftr Flags FLAG_SIZE_SRC_OFF) SIZE_MASK) with
  | Some s => if s =? 0 then fail Assert else mret s
  | None => fail Undef
  end.

Definition GenerateFlags_ADC (Op : Z) (Res Src1 Src2 CF : NodeID) : B unit :=
  sz ← GetSrcSize Op; set_deferred (mkDeferred TYPE_ADC sz Res (ThreeSource Src1 Src2 CF)).

Definition GenerateFlags_SBB (Op : Z) (Res Src1 Src2 CF : NodeID) : B unit :=
  sz ← GetSrcSize Op; set_deferred (mkDeferred TYPE_SBB sz Res (ThreeSource Src1 Src2 CF)).

Definition GenerateFlags_SUB (Op : Z) (Res Src1 Src2 : NodeID) (UpdateCF : bool) : B unit :=
  _ ← (if negb UpdateCF then CalculateDeferredFlags else mret tt);
  sz ← GetSrcSize Op; set_deferred (mkDeferred TYPE_SUB sz Res (TwoSrcImmediate Src1 Src2 UpdateCF)).

Definition GenerateFlags_ADD (Op : Z) (Res Src1 Src2 : NodeID) (UpdateCF : bool) : B unit :=
  _ ← (if negb UpdateCF then CalculateDeferredFlags else mret tt);
  sz ← GetSrcSize Op; set_deferred (mkDeferred TYPE_ADD sz Res (TwoSrcImmediate Src1 Src2 UpdateCF)).

Definition GenerateFlags_MUL (Op : Z) (Res High : NodeID) : B unit :=
  sz ← GetSrcSize Op; set_deferred (mkDeferred TYPE_MUL sz Res (OneSource High)).

Definition GenerateFlags_UMUL (Op : Z) (High : NodeID) : B unit :=
  sz ← GetSrcSize Op; set_deferred (mkDeferred TYPE_UMUL sz High NoSource).

Definition GenerateFlags_Logical (Op : Z) (Res Src1 Src2 : NodeID) : B unit :=
  sz ← GetSrcSize Op; set_deferred (mkDeferred TYPE_LOGICAL sz Res (TwoSource Src1 Src2)).

Definition GenerateFlags_ShiftLeft (Op : Z) (Res Src1 Src2 : NodeID) : B unit :=
  _ ← CalculateDeferredFlags;
  sz ← GetSrcSize Op; set_deferred (mkDeferred TYPE_LSHL sz Res (TwoSource Src1 Src2)).

Definition GenerateFlags_ShiftRight (Op : Z) (Res Src1 Src2 : NodeID) : B unit :=
  _ ← CalculateDeferredFlags;
  sz ← GetSrcSize Op; set_deferred (mkDeferred TYPE_LSHR sz Res (TwoSource Src1 Src2)).

Definition GenerateFlags_SignShiftRight (Op : Z) (Res Src1 Src2 : NodeID) : B unit :=
  _ ← CalculateDeferredFlags;
  sz ← GetSrcSize Op; set_deferred (mkDeferred TYPE_ASHR sz Res (TwoSource Src1 Src2)).

Definition GenerateFlags_ShiftLeftImmediate (Op : Z) (Res Src1 : NodeID) (Shift : Z) : B unit :=
  if Shift =? 0 then mret tt
  else sz ← GetSrcSize Op; set_deferred (mkDeferred TYPE_LSHLI sz Res (OneSrcImmediate Src1 Shift)).

Definition GenerateFlags_SignShiftRightImmediate (Op : Z) (Res Src1 : NodeID) (Shift : Z) : B unit :=
  if Shift =? 0 then mret tt
  else sz ← GetSrcSize Op; set_deferred (mkDeferred TYPE_ASHRI sz Res (OneSrcImmediate Src1 Shift)).

Definition GenerateFlags_ShiftRightImmediate (Op : Z) (Res Src1 : NodeID) (Shift : Z) : B unit :=
  if Shift =? 0 then mret tt
  else sz ← GetSrcSize Op; set_deferred (mkDeferred TYPE_LSHRI sz Res (OneSrcImmediate Src1 Shift)).

Definition GenerateFlags_RotateRight (Op : Z) (Res Src1 Src2 : NodeID) : B unit :=
  _ ← CalculateDeferredFlags;
  sz ← GetSrcSize Op; set_deferred (mkDeferred TYPE_ROR sz Res (TwoSource Src1 Src2)).

Definition GenerateFlags_RotateLeft (Op : Z) (Res Src1 Src2 : NodeID) : B unit :=
  _ ← CalculateDeferredFlags;
  sz ← GetSrcSize Op; set_deferred (mkDeferred TYPE_ROL sz Res (TwoSource Src1 Src2)).

Definition GenerateFlags_RotateRightImmediate (Op : Z) (Res Src1 : NodeID) (Shift : Z) : B unit :=
  if Shift =? 0 then mret tt
  else
    _ ← CalculateDeferredFlags;
    sz ← GetSrcSize Op; set_deferred (mkDeferred TYPE_RORI sz Res (OneSrcImmediate Src1 Shift)).

Definition GenerateFlags_RotateLeftImmediate (Op : Z) (Res Src1 : NodeID) (Shift : Z) : B unit :=
  if Shift =? 0 then mret tt
  else
    _ ← CalculateDeferredFlags;
    sz ← GetSrcSize Op; set_deferred (mkDeferred TYPE_ROLI sz Res (OneSrcImmediate Src1 Shift)).

Definition GenerateFlags_FCMP (Op : Z) (Res Src1 Src2 : NodeID) : B unit :=
  sz ← GetSrcSize Op; set_deferred (mkDeferred TYPE_FCMP sz Res (TwoSource Src1 Src2)).

Definition GenerateFlags_BEXTR (Op : Z) (Src : NodeID) : B unit :=
  sz ← GetSrcSize Op; set_deferred (mkDeferred TYPE_BEXTR sz Src NoSource).

Definition GenerateFlags_BLSI (Op : Z) (Src : NodeID) : B unit :=
  sz ← GetSrcSize Op; set_deferred (mkDeferred TYPE_BLSI sz Src NoSource).

Definition GenerateFlags_BLSMSK (Op : Z) (Src : NodeID) : B unit :=
  sz ← GetSrcSize Op; set_deferred (mkDeferred TYPE_BLSMSK sz Src NoSource).

Definition GenerateFlags_BLSR (Op : Z) (Res Src : NodeID) : B unit :=
  sz ← GetSrcSize Op; set_deferred (mkDeferred TYPE_BLSR sz Res (OneSource Src)).

Definition GenerateFlags_POPCOUNT (Op : Z) (Src : NodeID) : B unit :=
  sz ← GetSrcSize Op; set_deferred (mkDeferred TYPE_POPCOUNT sz Src NoSource).

Definition GenerateFlags_BZHI (Op : Z) (Result Src : NodeID) : B unit :=
  sz ← GetSrcSize Op; set_deferred (mkDeferred TYPE_BZHI sz Result (OneSource Src)).

Definition GenerateFlags_TZCNT (Op : Z) (Src : NodeID) : B unit :=
  sz ← GetSrcSize Op; set_deferred (mkDeferred TYPE_TZCNT sz Src NoSource).

Definition GenerateFlags_LZCNT (Op : Z) (Src : NodeID) : B unit :=
  sz ← GetSrcSize Op; set_deferred (mkDeferred TYPE_LZCNT sz Src NoSource).

Definition GenerateFlags_BITSELECT (Op : Z) (Src : NodeID) : B unit :=
  sz ← GetSrcSize Op; set_deferred (mkDeferred TYPE_BITSELECT sz Src NoSource).

Definition GenerateFlags_RDRAND (Op : Z) (Src : NodeID) : B unit :=
  sz ← GetSrcSize Op; set_deferred (mkDeferred TYPE_RDRAND sz Src NoSource).
