(* ===== verification/FlagsSpec.v ===== *)
(** * What x86 flags mean

    For each kind of deferred flags, the effect the architecture defines on the
    six arithmetic flags, in terms of the operands and the result as integers of
    the operand width; and the predicate that says that a stored flag image
    changed according to an effect. *)
From Stdlib Require Import ZArith Lia Bool.
From stdpp Require Import base gmap list numbers option.
From S2P Require Import Prelude IR ALUOps Interp Emitter Flags.
#[local] Open Scope Z_scope.

(** ** Effects *)

(** A flag is set to a value, left as it was, or architecturally undefined. *)
Inductive effect := Def (b : bool) | Kept | Any.

Record flag_effect := mkEffect { eCF : effect; ePF : effect; eAF : effect;
                                 eZF : effect; eSF : effect; eOF : effect }.

Definition all_kept : flag_effect := mkEffect Kept Kept Kept Kept Kept Kept.

(** Sign, parity of the low byte. *)
Definition msb (w x : Z) : bool := Z.testbit x (w - 1).
Definition parity (r : Z) : bool := Z.even (popcount 8 r).
Definition in_srange (w x : Z) : bool := (- 2 ^ (w - 1) <=? x) && (x <? 2 ^ (w - 1)).

(** ** Instructions *)

(** [a + b + c] with carry in [c] (0 or 1), at width [w]. *)
Definition x86_add (w a b c : Z) : flag_effect :=
  let r := uint w (a + b + c) in
  mkEffect (Def (2 ^ w <=? a + b + c)) (Def (parity r))
           (Def (2 ^ 4 <=? a mod 2 ^ 4 + b mod 2 ^ 4 + c)) (Def (r =? 0)) (Def (msb w r))
           (Def (negb (in_srange w (sint w a + sint w b + c)))).

(** [a - b - c] with borrow in [c]. *)
Definition x86_sub (w a b c : Z) : flag_effect :=
  let r := uint w (a - b - c) in
  mkEffect (Def (a <? b + c)) (Def (parity r))
           (Def (a mod 2 ^ 4 <? b mod 2 ^ 4 + c)) (Def (r =? 0)) (Def (msb w r))
           (Def (negb (in_srange w (sint w a - sint w b - c)))).

(** [INC], [DEC] and their like leave the carry alone. *)
Definition keep_CF (e : flag_effect) : flag_effect :=
  mkEffect Kept (ePF e) (eAF e) (eZF e) (eSF e) (eOF e).

Definition x86_logical (w r : Z) : flag_effect :=
  mkEffect (Def false) (Def (parity r)) Any (Def (r =? 0)) (Def (msb w r)) (Def false).

(** Shifts by a masked count [n]; [CF] is the last bit shifted out, [OF] is
    defined for a count of one only. *)
Definition x86_shift (w n r : Z) (cf : effect) (ovf : bool) : flag_effect :=
  if n =? 0 then all_kept
  else mkEffect cf (Def (parity r)) Any (Def (r =? 0)) (Def (msb w r))
                (if n =? 1 then Def ovf else Any).

Definition x86_shl (w a n : Z) : flag_effect :=
  let r := uint w (a * 2 ^ n) in
  x86_shift w n r (if n <=? w then Def (Z.testbit a (w - n)) else Any) (xorb (msb w r) (msb w a)).
Definition x86_shr (w a n : Z) : flag_effect :=
  x86_shift w n (a / 2 ^ n) (Def (Z.testbit a (n - 1))) (msb w a).
Definition x86_sar (w a n : Z) : flag_effect :=
  x86_shift w n (uint w (sint w a / 2 ^ n)) (Def (Z.testbit (sint w a) (n - 1))) false.

(** Rotations touch [CF] and [OF] only. *)
Definition x86_rotate (n : Z) (cf ovf : bool) : flag_effect :=
  if n =? 0 then all_kept
  else mkEffect (Def cf) Kept Kept Kept Kept (if n =? 1 then Def ovf else Any).
Definition rotr (w a n : Z) : Z := let k := n mod w in uint w (a / 2 ^ k + a * 2 ^ (w - k)).
Definition rotl (w a n : Z) : Z := let k := n mod w in uint w (a * 2 ^ k + a / 2 ^ (w - k)).
(** [r] is the rotated value. *)
Definition x86_ror (w r n : Z) : flag_effect :=
  x86_rotate n (msb w r) (xorb (msb w r) (Z.testbit r (w - 2))).
Definition x86_rol (w r n : Z) : flag_effect :=
  x86_rotate n (Z.testbit r 0) (xorb (msb w r) (Z.testbit r 0)).

(** Multiplications: [CF] and [OF] say that the product does not fit. *)
Definition x86_mul_flags (fits : bool) : flag_effect :=
  mkEffect (Def (negb fits)) Any Any Any Any (Def (negb fits)).
Definition x86_imul (w a b : Z) : flag_effect := x86_mul_flags (in_srange w (a * b)).
Definition x86_mul (w a b : Z) : flag_effect := x86_mul_flags (a * b <? 2 ^ w).

(** [UCOMIS]: the comparison of two floating-point patterns. *)
Definition x86_ucomis (w x y : Z) : flag_effect :=
  let u := fp_unordered w x y in
  mkEffect (Def (u || fp_lt w x y)) (Def u) (Def false) (Def (u || fp_eq w x y))
           (Def false) (Def false).

(** Bit manipulation. *)
Definition x86_bextr (r : Z) : flag_effect :=
  mkEffect (Def false) Any Any (Def (r =? 0)) Any (Def false).
Definition x86_blsi (w a r : Z) : flag_effect :=
  mkEffect (Def (negb (a =? 0))) Any Any (Def (r =? 0)) (Def (msb w r)) (Def false).
Definition x86_blsmsk (w a r : Z) : flag_effect :=
  mkEffect (Def (a =? 0)) Any Any (Def false) (Def (msb w r)) (Def false).
Definition x86_blsr (w a r : Z) : flag_effect :=
  mkEffect (Def (a =? 0)) Any Any (Def (r =? 0)) (Def (msb w r)) (Def false).
Definition x86_popcnt (a : Z) : flag_effect :=
  mkEffect (Def false) (Def false) (Def false) (Def (a =? 0)) (Def false) (Def false).
Definition x86_bzhi (w i r : Z) : flag_effect :=
  mkEffect (Def (w - 1 <? i)) Any Any (Def (r =? 0)) (Def (msb w r)) (Def false).
(** [a] is the source: the count is the width when it is zero. *)
Definition x86_tzcnt (a : Z) : flag_effect :=
  mkEffect (Def (a =? 0)) Any Any (Def (Z.testbit a 0)) Any Any.
Definition x86_lzcnt (w a : Z) : flag_effect :=
  mkEffect (Def (a =? 0)) Any Any (Def (msb w a)) Any Any.
Definition x86_bsf (a : Z) : flag_effect := mkEffect Any Any Any (Def (a =? 0)) Any Any.
Definition x86_rdrand (ok : bool) : flag_effect :=
  mkEffect (Def ok) (Def false) (Def false) (Def false) (Def false) (Def false).

(** With [ABINoPF] the parity flag is not maintained. *)
Definition no_PF (nopf : bool) (e : flag_effect) : flag_effect :=
  if nopf then mkEffect (eCF e) Any (eAF e) (eZF e) (eSF e) (eOF e) else e.

(** ** Flag images *)

Definition set_rflag (F : gmap Z Z) (loc : Z) (b : bool) : gmap Z Z :=
  <[FLAGS_OFFSET + loc := Z.b2z b]> F.
Definition rflag (F : gmap Z Z) (loc : Z) : option bool :=
  v ← F !! (FLAGS_OFFSET + loc); if v =? 0 then Some false else if v =? 1 then Some true else None.

(** Every flag byte holds 0 or 1. *)
Definition flags_wf (F : gmap Z Z) : Prop := Forall (fun loc => is_Some (rflag F loc)) FlagOffsets.

Definition effect_agrees (e : effect) (loc : Z) (F F' : gmap Z Z) : Prop :=
  match e with
  | Def b => rflag F' loc = Some b
  | Kept => rflag F' loc = rflag F loc
  | Any => is_Some (rflag F loc) -> is_Some (rflag F' loc)
  end.

Definition arith_flags : list Z :=
  [RFLAG_CF_LOC; RFLAG_PF_LOC; RFLAG_AF_LOC; RFLAG_ZF_LOC; RFLAG_SF_LOC; RFLAG_OF_LOC].

Record agrees (e : flag_effect) (F F' : gmap Z Z) : Prop := {
  agrees_CF : effect_agrees (eCF e) RFLAG_CF_LOC F F';
  agrees_PF : effect_agrees (ePF e) RFLAG_PF_LOC F F';
  agrees_AF : effect_agrees (eAF e) RFLAG_AF_LOC F F';
  agrees_ZF : effect_agrees (eZF e) RFLAG_ZF_LOC F F';
  agrees_SF : effect_agrees (eSF e) RFLAG_SF_LOC F F';
  agrees_OF : effect_agrees (eOF e) RFLAG_OF_LOC F F';
  agrees_rest a : Forall (fun loc => a <> FLAGS_OFFSET + loc) arith_flags -> F' !! a = F !! a
}.

(** ** Lemmas on images *)

Lemma rflag_set F loc b : rflag (set_rflag F loc b) loc = Some b.
Proof. unfold rflag, set_rflag. rewrite lookup_insert_eq. destruct b; reflexivity. Qed.

Lemma rflag_set_ne F loc loc' b : loc <> loc' -> rflag (set_rflag F loc b) loc' = rflag F loc'.
Proof. intros. unfold rflag, set_rflag. rewrite lookup_insert_ne by lia. reflexivity. Qed.

Lemma set_rflag_lookup_ne F loc b a : a <> FLAGS_OFFSET + loc -> set_rflag F loc b !! a = F !! a.
Proof. intros. apply lookup_insert_ne. lia. Qed.

Lemma rflag_byte F loc b : rflag F loc = Some b -> F !! (FLAGS_OFFSET + loc) = Some (Z.b2z b).
Proof.
  unfold rflag. intros (v & Hv & H)%bind_Some. rewrite Hv.
  destruct (Z.eqb_spec v 0) as [->|]; [injection H as <-; reflexivity|].
  destruct (Z.eqb_spec v 1) as [->|]; [injection H as <-; reflexivity|discriminate].
Qed.

Lemma agrees_kept nopf F : agrees (no_PF nopf all_kept) F F.
Proof. destruct nopf; constructor; cbn; auto. Qed.

(** ** Arithmetic of flags *)

Lemma msb_spec w x : 0 < w -> 0 <= x < 2 ^ w -> msb w x = (2 ^ (w - 1) <=? x).
Proof.
  intros Hw Hx. unfold msb.
  assert (2 ^ w = 2 * 2 ^ (w - 1)) by (rewrite <- Z.pow_succ_r by lia; f_equal; lia).
  rewrite Z.testbit_odd, Z.shiftr_div_pow2 by lia.
  destruct (Z.leb_spec (2 ^ (w - 1)) x).
  - replace (x / 2 ^ (w - 1)) with 1; [reflexivity|].
    apply Z.div_unique_pos with (r := x - 2 ^ (w - 1)); lia.
  - rewrite Z.div_small by lia. reflexivity.
Qed.

Lemma sint_msb w x : 0 <= x < 2 ^ w -> sint w x = if 2 ^ (w - 1) <=? x then x - 2 ^ w else x.
Proof.
  intros Hx. unfold sint. rewrite uint_small by lia.
  destruct (Z.ltb_spec x (2 ^ (w - 1))), (Z.leb_spec (2 ^ (w - 1)) x); lia.
Qed.

Lemma odd_div2n_bit x n : 0 <= n -> Z.odd (x / 2 ^ n) = Z.testbit x n.
Proof. intros. rewrite <- Z.shiftr_div_pow2 by lia. symmetry. apply Z.testbit_odd. Qed.

(** The bit [n] of a sum is the sum of the bits and of the carry into it. *)
Lemma add_carry a b c n :
  0 <= n -> 0 <= c <= 1 ->
  Z.testbit (a + b + c) n =
  xorb (xorb (Z.testbit a n) (Z.testbit b n)) (2 ^ n <=? a mod 2 ^ n + b mod 2 ^ n + c).
Proof.
  intros Hn Hc. pose proof (pow2_pos n Hn) as Hp.
  rewrite <- !odd_div2n_bit by lia.
  pose proof (Z.mod_pos_bound a _ Hp). pose proof (Z.mod_pos_bound b _ Hp).
  pose proof (Z.div_mod a (2 ^ n) ltac:(lia)). pose proof (Z.div_mod b (2 ^ n) ltac:(lia)).
  assert ((a + b + c) / 2 ^ n = a / 2 ^ n + b / 2 ^ n +
    Z.b2z (2 ^ n <=? a mod 2 ^ n + b mod 2 ^ n + c)) as ->.
  { symmetry. apply Z.div_unique_pos with
      (r := a mod 2 ^ n + b mod 2 ^ n + c -
      2 ^ n * Z.b2z (2 ^ n <=? a mod 2 ^ n + b mod 2 ^ n + c));
      destruct (Z.leb_spec (2 ^ n) (a mod 2 ^ n + b mod 2 ^ n + c)); cbn [Z.b2z]; lia. }
  rewrite !Z.odd_add. destruct (2 ^ n <=? _); reflexivity.
Qed.

Lemma sub_borrow a b c n :
  0 <= n -> 0 <= c <= 1 ->
  Z.testbit (a - b - c) n =
  xorb (xorb (Z.testbit a n) (Z.testbit b n)) (a mod 2 ^ n <? b mod 2 ^ n + c).
Proof.
  intros Hn Hc. pose proof (pow2_pos n Hn) as Hp.
  rewrite <- !odd_div2n_bit by lia.
  pose proof (Z.mod_pos_bound a _ Hp). pose proof (Z.mod_pos_bound b _ Hp).
  pose proof (Z.div_mod a (2 ^ n) ltac:(lia)). pose proof (Z.div_mod b (2 ^ n) ltac:(lia)).
  assert ((a - b - c) / 2 ^ n = a / 2 ^ n - b / 2 ^ n -
    Z.b2z (a mod 2 ^ n <? b mod 2 ^ n + c)) as ->.
  { symmetry. apply Z.div_unique_pos with
      (r := a mod 2 ^ n - b mod 2 ^ n - c + 2 ^ n * Z.b2z (a mod 2 ^ n <? b mod 2 ^ n + c));
      destruct (Z.ltb_spec (a mod 2 ^ n) (b mod 2 ^ n + c)); cbn [Z.b2z]; lia. }
  rewrite !Z.odd_sub. destruct (_ <? _); reflexivity.
Qed.

(** The auxiliary carry, recovered from the result. *)
Lemma AF_add w a b c r :
  8 <= w -> 0 <= c <= 1 -> r = uint w (a + b + c) ->
  xorb (xorb (Z.testbit a 4) (Z.testbit b 4)) (Z.testbit r 4) =
  (2 ^ 4 <=? a mod 2 ^ 4 + b mod 2 ^ 4 + c).
Proof.
  intros Hw Hc ->. rewrite testbit_uint, add_carry by lia.
  replace (4 <? w) with true by lia. cbn [andb].
  destruct (Z.testbit a 4), (Z.testbit b 4), (2 ^ 4 <=? _); reflexivity.
Qed.

Lemma AF_sub w a b c r :
  8 <= w -> 0 <= c <= 1 -> r = uint w (a - b - c) ->
  xorb (xorb (Z.testbit a 4) (Z.testbit b 4)) (Z.testbit r 4) =
  (a mod 2 ^ 4 <? b mod 2 ^ 4 + c).
Proof.
  intros Hw Hc ->. rewrite testbit_uint, sub_borrow by lia.
  replace (4 <? w) with true by lia. cbn [andb].
  destruct (Z.testbit a 4), (Z.testbit b 4), (_ <? _); reflexivity.
Qed.

(** Overflow, recovered from the sign bits. *)
Section Overflow.
Variables w a b c r : Z.
Hypothesis Hw : 0 < w.
Hypothesis Ha : 0 <= a < 2 ^ w.
Hypothesis Hb : 0 <= b < 2 ^ w.
Hypothesis Hc : 0 <= c <= 1.

Lemma half : 2 ^ w = 2 * 2 ^ (w - 1).
Proof. rewrite <- Z.pow_succ_r by lia. f_equal. lia. Qed.

Lemma OF_add :
  r = uint w (a + b + c) ->
  negb (xorb (msb w a) (msb w b)) && xorb (msb w r) (msb w a) =
  negb (in_srange w (sint w a + sint w b + c)).
Proof.
  intros Hr. pose proof half as H2.
  assert (r = a + b + c \/ r = a + b + c - 2 ^ w) as Hcase.
  { rewrite Hr. unfold uint. pose proof (Z.div_mod (a + b + c) (2 ^ w) ltac:(lia)).
    assert (0 <= (a + b + c) / 2 ^ w < 2) by
      (split; [apply Z.div_pos; lia|apply Z.div_lt_upper_bound; lia]).
    assert ((a + b + c) / 2 ^ w = 0 \/ (a + b + c) / 2 ^ w = 1) as [E|E] by lia;
      rewrite E in *; lia. }
  assert (0 <= r < 2 ^ w) by (rewrite Hr; apply uint_range; lia). clear Hr.
  unfold in_srange. rewrite !msb_spec, !sint_msb by lia. split_cmp; cbn; lia.
Qed.

Lemma OF_sub :
  r = uint w (a - b - c) ->
  xorb (msb w a) (msb w b) && xorb (msb w r) (msb w a) =
  negb (in_srange w (sint w a - sint w b - c)).
Proof.
  intros Hr. pose proof half as H2.
  assert (r = a - b - c \/ r = a - b - c + 2 ^ w) as Hcase.
  { rewrite Hr. unfold uint. pose proof (Z.div_mod (a - b - c) (2 ^ w) ltac:(lia)).
    assert (-1 <= (a - b - c) / 2 ^ w < 1) by
      (split; [apply Z.div_le_lower_bound; lia|apply Z.div_lt_upper_bound; lia]).
    assert ((a - b - c) / 2 ^ w = 0 \/ (a - b - c) / 2 ^ w = -1) as [E|E] by lia;
      rewrite E in *; lia. }
  assert (0 <= r < 2 ^ w) by (rewrite Hr; apply uint_range; lia). clear Hr.
  unfold in_srange. rewrite !msb_spec, !sint_msb by lia. split_cmp; cbn; lia.
Qed.

(** Carry and borrow, recovered by comparing the result with an operand. *)
Lemma CF_add :
  r = uint w (a + b + c) ->
  (if c =? 1 then r <=? b else r <? b) = (2 ^ w <=? a + b + c).
Proof.
  intros Hr. destruct (Z.leb_spec (2 ^ w) (a + b + c)).
  - assert (r = a + b + c - 2 ^ w) as ->.
    { rewrite Hr. unfold uint. symmetry. apply Z.mod_unique_pos with (q := 1); lia. }
    split_cmp; lia.
  - rewrite uint_small in Hr by lia. split_cmp; lia.
Qed.

Lemma CF_sub :
  r = uint w (a - b - c) ->
  (if c =? 1 then a <=? r else a <? r) = (a <? b + c).
Proof.
  intros Hr. destruct (Z.ltb_spec a (b + c)).
  - assert (r = a - b - c + 2 ^ w) as ->.
    { rewrite Hr. unfold uint. symmetry. apply Z.mod_unique_pos with (q := -1); lia. }
    split_cmp; lia.
  - rewrite uint_small in Hr by lia. split_cmp; lia.
Qed.
End Overflow.
