(* ===== verification/FlagsBlocks.v ===== *)
(** * The blocks of the flag generators

    Every generator is made of a few repeated blocks. For each block: the flag
    image after the emitted code ran, in terms of the operands. *)
From Stdlib Require Import ZArith Lia Bool.
From stdpp Require Import base gmap list numbers option.
From S2P Require Import Prelude IR ALUOps Interp IRSpec InterpRefines Emitter EmitterLogic Flags FlagsSpec.
#[local] Open Scope Z_scope.

(** ** Symbolic execution of emitted code *)

Lemma goes_ABINoPF `{IRBackend} (b b' : OpDispatchBuilder) s s' : goes b s b' s' -> ABINoPF b' = ABINoPF b.
Proof. intros Hgo. pose proof (goes_env _ _ _ _ Hgo) as He. injection He as He _. unfold ABINoPF. rewrite He. reflexivity. Qed.

(** Moves the facts about the state before a step to the state after it. *)
Ltac shift Hgo :=
  match type of Hgo with
  | goes ?b ?s ?b' ?s' =>
      repeat match goal with
      | H : val (emitter b) s _ _ _ |- _ =>
          apply (val_mono _ _ _ _ _ _ _ (goes_ext _ _ _ _ Hgo)) in H
      end;
      match goal with H : good (emitter b) s |- _ =>
        clear H; pose proof (goes_good _ _ _ _ Hgo) end;
      try match goal with Hf : Frame s' = _, H : Frame s = _ |- _ =>
        rewrite H in Hf; clear H end;
      try match goal with H : ABINoPF b = _ |- _ => rewrite <- (goes_ABINoPF _ _ _ _ Hgo) in H end;
      match goal with H : goes ?b0 ?s0 b s |- _ =>
        let Hn := fresh in
        pose proof (goes_trans _ _ _ _ _ _ H Hgo) as Hn; clear H Hgo; rename Hn into Hgo end
  end.

(** Starts the symbolic execution from the current state. *)
Ltac start :=
  match goal with
  | Hg : good (emitter ?b) ?s |- _ =>
      let Hgo := fresh "Hgo" in
      pose proof (goes_refl b s Hg) as Hgo
  end.

Ltac intro_val :=
  let n := fresh "n" in let b := fresh "b" in let s := fresh "s" in
  let Hgo := fresh "Hgo" in let HF := fresh "HF" in let Hv := fresh "Hv" in
  intros n b s Hgo HF Hv; shift Hgo.
Ltac intro_store :=
  let b := fresh "b" in let s := fresh "s" in
  let Hgo := fresh "Hgo" in let HF := fresh "HF" in
  intros b s Hgo HF; shift Hgo.

(** One emission; conditions on constants are left to [lia]. *)
Ltac emit :=
  lazymatch goal with
  | |- wp (_ ≫= _) _ _ _ => apply wp_bind; emit
  | |- wp (mret _) _ _ _ => apply wp_ret; [assumption|]
  | |- wp (_Constant _) _ _ _ => apply wp_Constant; [assumption|intro_val]
  | |- wp (_Xor _ _) _ _ _ => eapply wp_Xor; [eassumption..|intro_val]
  | |- wp (_And _ _) _ _ _ => eapply wp_And; [eassumption..|intro_val]
  | |- wp (_Or _ _) _ _ _ => eapply wp_Or; [eassumption..|intro_val]
  | |- wp (_Add _ _) _ _ _ => eapply wp_Add; [eassumption..|intro_val]
  | |- wp (_Sub _ _) _ _ _ => eapply wp_Sub; [eassumption..|intro_val]
  | |- wp (_Lshl _ _) _ _ _ => eapply wp_Lshl; [eassumption..|intro_val]
  | |- wp (_Lshr _ _) _ _ _ => eapply wp_Lshr; [eassumption..|intro_val]
  | |- wp (_Popcount _) _ _ _ => eapply wp_Popcount; [eassumption..|intro_val]
  | |- wp (_GetHostFlag _ _) _ _ _ =>
      eapply wp_GetHostFlag; [eassumption|eassumption|first [lia | idtac]|intro_val]
  | |- wp (_BfeSized _ _ _ _) _ _ _ =>
      eapply wp_BfeSized; [eassumption|eassumption|first [reflexivity|idtac]|first [lia|idtac]|first [lia|idtac]|intro_val]
  | |- wp (_Bfe _ _ _) _ _ _ =>
      eapply wp_Bfe; [eassumption|eassumption|first [lia|idtac]|first [lia|idtac]|intro_val]
  | |- wp (_Sbfe _ _ _) _ _ _ =>
      eapply wp_Sbfe; [eassumption|eassumption|first [lia|idtac]..|intro_val]
  | |- wp (_Select _ _ _ _ _) _ _ _ =>
      eapply wp_Select; [eassumption..|reflexivity|intro_val]
  end.

Lemma val_range `{IRBackend} e s n v sz : val e s n v sz -> 0 <= v < 2 ^ (8 * sz).
Proof. intros Hv. apply Hv. Qed.

Lemma val_sizes `{IRBackend} e s n v sz : val e s n v sz -> sz = 1 \/ sz = 2 \/ sz = 4 \/ sz = 8.
Proof. intros Hv. apply size_1248_cases, (val_width _ _ _ _ _ Hv). Qed.

Lemma val_bounds `{IRBackend} e s n v sz : val e s n v sz -> 1 <= sz <= 8.
Proof. intros Hv. apply size_1248_bounds, (val_width _ _ _ _ _ Hv). Qed.

(** The operand widths the generators are called with. *)
Definition operand_size (sz : Z) : Prop := sz = 1 \/ sz = 2 \/ sz = 4 \/ sz = 8.

(** ** Parity *)

Lemma count_bits_ext n x y :
  (forall i, 0 <= i < Z.of_nat n -> Z.testbit x i = Z.testbit y i) -> count_bits n x = count_bits n y.
Proof.
  induction n as [|n IH]; intros H; cbn [count_bits]; [reflexivity|].
  rewrite H by lia. rewrite IH; [reflexivity|]. intros; apply H; lia.
Qed.

Lemma count_bits_high m k x :
  (forall i, Z.of_nat m <= i -> Z.testbit x i = false) -> count_bits (m + k) x = count_bits m x.
Proof.
  intros H. induction k as [|k IH]; [rewrite Nat.add_0_r; reflexivity|].
  rewrite Nat.add_succ_r. cbn [count_bits]. rewrite H by lia. cbn. lia.
Qed.

Lemma popcount_low_byte x : popcount 64 (Z.land x (uint 64 0xFF)) = popcount 8 x.
Proof.
  change (uint 64 0xFF) with (Z.ones 8). rewrite Z.land_ones by lia. unfold popcount.
  change (Z.to_nat 64) with (8 + 56)%nat. rewrite count_bits_high.
  - apply count_bits_ext. intros i Hi. apply Z.mod_pow2_bits_low. lia.
  - intros i Hi. apply Z.mod_pow2_bits_high. lia.
Qed.

Lemma parity_odd x : Z.odd (Z.lxor (popcount 64 (Z.land x (uint 64 0xFF))) (uint 64 1)) = parity x.
Proof.
  rewrite popcount_low_byte, <- Z.bit0_odd, Z.lxor_spec, Z.bit0_odd. unfold parity.
  change (Z.testbit (uint 64 1) 0) with true. rewrite xorb_true_r. apply Z.negb_odd.
Qed.

Lemma odd_lxor_b2z x y : Z.odd (Z.lxor (Z.b2z x) (Z.b2z y)) = xorb x y.
Proof. destruct x, y; reflexivity. Qed.

Lemma odd_uint8_b2z x : Z.odd (uint 8 (Z.b2z x)) = x.
Proof. destruct x; reflexivity. Qed.

Lemma parity_uint w x : 8 <= w -> parity (uint w x) = parity x.
Proof.
  intros. unfold parity, popcount. f_equal. apply count_bits_ext. intros i Hi.
  rewrite testbit_uint by lia. replace (i <? w) with true by lia. reflexivity.
Qed.

Lemma odd_b2z b : Z.odd (Z.b2z b) = b.
Proof. destruct b; reflexivity. Qed.

Section Blocks.
Context `{Backend : IRBackend}.
Implicit Types (b : OpDispatchBuilder) (s : IROpData).

(** The continuation of a block that only writes the flag image. *)
Definition stores (F : gmap Z Z) (Q : unit -> OpDispatchBuilder -> IROpData -> Prop) b s : Prop :=
  forall b' s', goes b s b' s' -> Frame s' = F -> Q tt b' s'.

Lemma bit_value x l : 0 <= l -> (x / 2 ^ l) mod 2 ^ 1 = Z.b2z (Z.testbit x l).
Proof.
  intros. rewrite <- Z.shiftr_div_pow2, Z.testbit_odd by lia. change (2 ^ 1) with 2.
  apply Zmod_odd.
Qed.

Lemma wp_SetRFLAG loc x vx sx Q b s :
  good (emitter b) s -> val (emitter b) s x vx sx ->
  stores (set_rflag (Frame s) loc (Z.odd vx)) Q b s -> wp (SetRFLAG loc x) Q b s.
Proof.
  intros Hg Hx HQ. pose proof (val_sizes _ _ _ _ _ Hx). unfold SetRFLAG. apply wp_bind.
  exists s. split; [constructor; [apply ext_refl|exact Hg|reflexivity]|].
  eapply wp_bind, wp_Bfe; [exact Hg|exact Hx|lia|lia|].
  intros n b1 s1 Hgo1 HF1 Hv1. eapply wp_StoreFlag; [apply Hgo1|exact Hv1|].
  intros b2 s2 Hgo2 HF2. apply HQ.
  - apply (goes_trans _ _ b1 s1); [|exact Hgo2].
    destruct Hgo1 as [E1 G1 V1]. constructor; [exact E1|exact G1|exact V1].
  - rewrite HF2, HF1, bit_value, <- Z.bit0_odd by lia. unfold set_rflag.
    rewrite uint_small by (destruct (Z.testbit vx 0); cbn; lia). reflexivity.
Qed.

Ltac block :=
  lazymatch goal with
  | |- wp (SetRFLAG _ _) _ _ _ => eapply wp_SetRFLAG; [eassumption|eassumption|intro_store]
  | |- wp (_ ≫= _) _ _ _ => apply wp_bind; block
  | |- _ => emit
  end.
Ltac done HQ :=
  apply HQ; [assumption|];
  match goal with |- Frame ?s = _ =>
  match goal with H : Frame s = _ |- _ => try (rename H into HF) end end.

Lemma wp_SetAF r a c vr va vc sr sa sc Q b s :
  good (emitter b) s ->
  val (emitter b) s r vr sr -> val (emitter b) s a va sa -> val (emitter b) s c vc sc ->
  stores (set_rflag (Frame s) RFLAG_AF_LOC
  (xorb (xorb (Z.testbit va 4) (Z.testbit vc 4)) (Z.testbit vr 4))) Q b s ->
  wp (SetAF r a c) Q b s.
Proof.
  intros Hg Hr Ha Hc HQ.
  pose proof (val_sizes _ _ _ _ _ Hr). pose proof (val_sizes _ _ _ _ _ Ha).
  start. unfold SetAF. repeat block. done HQ.
  rewrite bit_value, odd_b2z, !Z.lxor_spec in HF by lia. exact HF.
Qed.

(** The sign bit, shifted down to bit 0. *)
Lemma odd_sign_lshr sz sr v :
  operand_size sz -> sz <= Z.max 4 sr ->
  Z.odd (v / 2 ^ (uint 64 (sz * 8 - 1) mod (8 * Z.max 4 sr))) = msb (8 * sz) v.
Proof.
  intros Hs Hle. assert (1 <= sz <= 8) by (unfold operand_size in Hs; lia).
  rewrite uint_small, Z.mod_small, odd_div2n_bit by lia. unfold msb. f_equal. lia.
Qed.

Lemma wp_SetSF_Lshr sz r vr sr Q b s :
  good (emitter b) s -> val (emitter b) s r vr sr ->
  operand_size sz -> sz <= Z.max 4 sr ->
  stores (set_rflag (Frame s) RFLAG_SF_LOC (msb (8 * sz) vr)) Q b s ->
  wp (SetSF_Lshr sz r) Q b s.
Proof.
  intros Hg Hr Hs Hle HQ. start. unfold SetSF_Lshr. repeat block. done HQ.
  rewrite odd_sign_lshr in HF by assumption. exact HF.
Qed.

Lemma wp_WithPF m nopf Q b s :
  good (emitter b) s -> ABINoPF b = nopf ->
  (nopf = true -> stores (Frame s) Q b s) -> (nopf = false -> wp m Q b s) -> wp (WithPF m) Q b s.
Proof.
  intros Hg Hn Ht Hf. unfold WithPF. apply wp_bind. exists s. split; [apply goes_refl, Hg|].
  rewrite Hn. destruct nopf; [|auto].
  apply wp_InvalidateFlags; [exact Hg|]. intros. apply Ht; auto.
Qed.

(** The flag image after the parity block. *)
Definition pf_image (nopf : bool) (F : gmap Z Z) (v : bool) : gmap Z Z :=
  if nopf then F else set_rflag F RFLAG_PF_LOC v.

Lemma wp_ParityValue r vr sr Q b s :
  good (emitter b) s -> val (emitter b) s r vr sr ->
  (forall n b' s' v, goes b s b' s' -> Frame s' = Frame s ->
  val (emitter b') s' n v 8 -> Z.odd v = parity vr -> Q n b' s') ->
  wp (ParityValue r) Q b s.
Proof.
  intros Hg Hr HQ. pose proof (val_sizes _ _ _ _ _ Hr).
  start. unfold ParityValue. repeat block.
  eapply HQ; [eassumption|exact HF| |apply parity_odd].
  replace (Z.max (Z.max sr 8) 8) with 8 in * by lia. eassumption.
Qed.

Lemma wp_SetPF r vr sr nopf Q b s :
  good (emitter b) s -> val (emitter b) s r vr sr -> ABINoPF b = nopf ->
  stores (pf_image nopf (Frame s) (parity vr)) Q b s -> wp (SetPF r) Q b s.
Proof.
  intros Hg Hr Hn HQ. unfold SetPF. eapply wp_WithPF; [exact Hg|exact Hn|intros ->; exact HQ|].
  intros ->. eapply wp_bind, wp_ParityValue; [exact Hg|exact Hr|].
  intros n b1 s1 v Hgo HF Hv Ho. eapply wp_SetRFLAG; [apply Hgo|exact Hv|].
  intros b2 s2 Hgo2 HF2. apply HQ; [eauto using goes_trans|].
  rewrite HF2, HF, Ho. reflexivity.
Qed.

Lemma wp_SelectZero r t f vr sr Q b s :
  good (emitter b) s -> val (emitter b) s r vr sr ->
  next (if vr =? 0 then uint 64 t else uint 64 f) 8 Q b s -> wp (SelectZero r t f) Q b s.
Proof.
  intros Hg Hr HQ. start. unfold SelectZero. repeat block. apply HQ; assumption.
Qed.

Lemma wp_SetZF r vr sr Q b s :
  good (emitter b) s -> val (emitter b) s r vr sr ->
  stores (set_rflag (Frame s) RFLAG_ZF_LOC (vr =? 0)) Q b s -> wp (SetZF r) Q b s.
Proof.
  intros Hg Hr HQ. unfold SetZF. eapply wp_bind, wp_SelectZero; [exact Hg|exact Hr|].
  intros n b1 s1 Hgo HF Hv. eapply wp_SetRFLAG; [apply Hgo|exact Hv|].
  intros b2 s2 Hgo2 HF2. apply HQ; [eauto using goes_trans|].
  rewrite HF2, HF. destruct (vr =? 0); reflexivity.
Qed.

Lemma wp_ClearRFLAG loc Q b s :
  good (emitter b) s -> stores (set_rflag (Frame s) loc false) Q b s -> wp (ClearRFLAG loc) Q b s.
Proof.
  intros Hg HQ. start. unfold ClearRFLAG. repeat block. done HQ. exact HF.
Qed.

Lemma wp_SignBitSwitch sz x vx sx Q b s :
  good (emitter b) s -> val (emitter b) s x vx sx -> operand_size sz ->
  next (Z.b2z (msb (8 * sz) vx)) sx Q b s -> wp (SignBitSwitch sz x) Q b s.
Proof.
  intros Hg Hx Hs HQ. pose proof (val_sizes _ _ _ _ _ Hx). unfold SignBitSwitch, msb in *.
  destruct Hs as [->|[->|[->| ->]]]; cbn [Z.eqb Pos.eqb];
    (eapply wp_Bfe; [exact Hg|exact Hx|lia|lia|]; rewrite bit_value by lia; exact HQ).
Qed.

Lemma wp_SetOF_add sz r a c vr va vc sr sa sc Q b s :
  good (emitter b) s ->
  val (emitter b) s r vr sr -> val (emitter b) s a va sa -> val (emitter b) s c vc sc ->
  operand_size sz ->
  stores (set_rflag (Frame s) RFLAG_OF_LOC
  (negb (xorb (msb (8 * sz) va) (msb (8 * sz) vc)) && xorb (msb (8 * sz) vr) (msb (8 * sz) va))) Q b s ->
  wp (SetOF_add sz r a c) Q b s.
Proof.
  intros Hg Hr Ha Hc Hs HQ. start. unfold SetOF_add. repeat block.
  eapply wp_bind, wp_SignBitSwitch; [eassumption..|intro_val]. repeat block. done HQ.
  rewrite odd_b2z in HF. rewrite HF. f_equal. unfold msb.
  rewrite Z.land_spec, !Z.lxor_spec. f_equal.
  destruct Hs as [->|[->|[->| ->]]]; apply xorb_true_r.
Qed.

(** The masked flag updates of the variable shifts: an unchanged flag is
    written back. *)
Lemma wp_COND_FLAG_SET cond flag p vc sc vp sp old Q b s :
  good (emitter b) s -> val (emitter b) s cond vc sc -> val (emitter b) s p vp sp ->
  rflag (Frame s) flag = Some old ->
  stores (set_rflag (Frame s) flag (if vc =? 0 then old else Z.odd vp)) Q b s ->
  wp (COND_FLAG_SET cond flag (mret p)) Q b s.
Proof.
  intros Hg Hc Hp Ho HQ. start. unfold COND_FLAG_SET, GetRFLAG.
  apply wp_bind. eapply wp_LoadFlag; [exact Hg|apply rflag_byte, Ho|intro_val].
  repeat block. done HQ. rewrite HF. change (uint 64 0) with 0. f_equal.
  destruct (vc =? 0); [|reflexivity]. destruct old; reflexivity.
Qed.

Lemma wp_COND_FLAG_CLEAR cond flag vc sc old Q b s :
  good (emitter b) s -> val (emitter b) s cond vc sc -> rflag (Frame s) flag = Some old ->
  stores (set_rflag (Frame s) flag (if vc =? 0 then old else false)) Q b s ->
  wp (COND_FLAG_SET cond flag (_Constant 0)) Q b s.
Proof.
  intros Hg Hc Ho HQ. start. unfold COND_FLAG_SET, GetRFLAG.
  apply wp_bind. eapply wp_LoadFlag; [exact Hg|apply rflag_byte, Ho|intro_val].
  repeat block. done HQ. rewrite HF. change (uint 64 0) with 0. f_equal.
  destruct (vc =? 0); [|reflexivity]. destruct old; reflexivity.
Qed.
End Blocks.

(** The code of a [COND_FLAG_SET] on the current image. *)
Ltac known_flag :=
  try match goal with H : Frame ?s = _ |- rflag (Frame ?s) _ = _ => rewrite H end;
  repeat first [ rewrite rflag_set | rewrite rflag_set_ne by discriminate ]; eassumption.

(** One block or emission of a generator. *)
Ltac block :=
  lazymatch goal with
  | |- wp (SetRFLAG _ _) _ _ _ => eapply wp_SetRFLAG; [eassumption|eassumption|intro_store]
  | |- wp (SetAF _ _ _) _ _ _ => eapply wp_SetAF; [eassumption..|intro_store]
  | |- wp (SetSF_Lshr _ _) _ _ _ =>
      eapply wp_SetSF_Lshr; [eassumption|eassumption|assumption|first [assumption|lia]|intro_store]
  | |- wp (SetPF _) _ _ _ => eapply wp_SetPF; [eassumption..|intro_store]
  | |- wp (SetZF _) _ _ _ => eapply wp_SetZF; [eassumption..|intro_store]
  | |- wp (SelectZero _ _ _) _ _ _ => eapply wp_SelectZero; [eassumption..|intro_val]
  | |- wp (ClearRFLAG _) _ _ _ => eapply wp_ClearRFLAG; [eassumption|intro_store]
  | |- wp (SignBitSwitch _ _) _ _ _ => eapply wp_SignBitSwitch; [eassumption|eassumption|assumption|intro_val]
  | |- wp (SetOF_add _ _ _ _) _ _ _ =>
      eapply wp_SetOF_add; [eassumption|eassumption|eassumption|eassumption|assumption|intro_store]
  | |- wp (WithPF _) _ _ _ => eapply wp_WithPF; [eassumption|eassumption|intros ->; intro_store|intros ->]
  | |- wp (ParityValue _) _ _ _ =>
      eapply wp_ParityValue; [eassumption|eassumption|];
      let n := fresh "n" in let b := fresh "b" in let s := fresh "s" in let v := fresh "v" in
      let Hgo := fresh "Hgo" in let HF := fresh "HF" in let Hv := fresh "Hv" in
      let Ho := fresh "Ho" in
      intros n b s v Hgo HF Hv Ho; shift Hgo
  | |- wp (COND_FLAG_SET _ _ (mret _)) _ _ _ =>
      eapply wp_COND_FLAG_SET; [eassumption|eassumption|eassumption|known_flag|intro_store]
  | |- wp (COND_FLAG_SET _ _ (_Constant 0)) _ _ _ =>
      eapply wp_COND_FLAG_CLEAR; [eassumption|eassumption|known_flag|intro_store]
  | |- wp (GetRFLAG _) _ _ _ =>
      eapply wp_LoadFlag; [eassumption|apply rflag_byte; known_flag|intro_val]
  | |- wp (_ ≫= _) _ _ _ => apply wp_bind; block
  | |- _ => emit
  end.

(** ** Reading a flag image *)

(** Proves [agrees e F F'] from an image built by [set_rflag]. *)
Ltac read_flags :=
  repeat first [ rewrite rflag_set | rewrite rflag_set_ne by discriminate ].
Ltac solve_rest :=
  let a := fresh "a" in let Ha := fresh "Ha" in
  intros a Ha; unfold arith_flags in Ha;
  repeat match goal with H : Forall _ (_ :: _) |- _ => apply Forall_cons_1 in H as [? ?] end;
  repeat (rewrite set_rflag_lookup_ne by assumption); reflexivity.
Ltac solve_any :=
  let Hs := fresh "Hs" in
  intros Hs; read_flags; first [exact Hs | eexists; reflexivity].
Ltac agrees_flags :=
  match goal with |- agrees _ _ (Frame ?s) =>
    match goal with H : Frame s = _ |- _ => rewrite H; clear H end end;
  unfold pf_image, no_PF, keep_CF, all_kept, id, x86_add, x86_sub, x86_logical, x86_shl, x86_shr,
    x86_sar, x86_shift, x86_ror, x86_rol, x86_rotate, x86_imul, x86_mul, x86_mul_flags,
    x86_bextr, x86_blsi, x86_bzhi, x86_popcnt, x86_tzcnt, x86_lzcnt, x86_bsf, x86_rdrand;
  repeat match goal with |- context [if ?n then _ else _] => is_var n; destruct n end;
  constructor; cbn [eCF ePF eAF eZF eSF eOF effect_agrees];
  first [ solve_rest | solve_any | read_flags ];
  repeat match goal with
  | |- Some _ = Some _ => f_equal
  end; try reflexivity.

(** A flag computed by a selection between the constants one and zero. *)
Lemma odd_select (c : bool) : Z.odd (if c then uint 64 1 else uint 64 0) = c.
Proof. destruct c; reflexivity. Qed.
Lemma odd_select_neg (c : bool) : Z.odd (if c then uint 64 0 else uint 64 1) = negb c.
Proof. destruct c; reflexivity. Qed.
