(* ===== verification/FlagsCorrect.v ===== *)
(** * The emitted flags are the x86 flags

    One lemma per generator: executed on any backend, the code it emits changes
    the flag image the way the architecture defines. *)
From Stdlib Require Import ZArith Lia Bool.
From stdpp Require Import base gmap list numbers option.
From S2P Require Import Prelude IR ALUOps Interp IRSpec InterpRefines Emitter EmitterLogic Flags FlagsSpec FlagsBlocks.
#[local] Open Scope Z_scope.

Section Generators.
Context `{Backend : IRBackend}.
Variables (b : OpDispatchBuilder) (s : IROpData) (nopf : bool) (sz : Z).
Hypothesis Hgood : good (emitter b) s.
Hypothesis Hpf : ABINoPF b = nopf.
Hypothesis Hsz : operand_size sz.

(** The generator's code turns the flag image into one that agrees with [e]. *)
Definition sets (m : B unit) (e : flag_effect) : Prop :=
  wp m (fun _ _ s' => agrees (no_PF nopf e) (Frame s) (Frame s')) b s.

(** A node whose value fits the operand width. *)
Definition operand (n : NodeID) (v : Z) : Prop :=
  0 <= v < 2 ^ (8 * sz) /\ exists k, sz <= Z.max 4 k /\ val (emitter b) s n v k.

Ltac operands :=
  repeat match goal with
  | H : operand _ _ |- _ => destruct H as (? & ? & ? & ?)
  end;
  repeat match goal with
  | H : val _ _ _ _ ?k |- _ =>
  lazymatch goal with
  | _ : 1 <= k <= 8 |- _ => fail
  | _ => pose proof (val_bounds _ _ _ _ _ H)
  end
  end;
  assert (8 <= 8 * sz <= 64) by (unfold operand_size in Hsz; lia).

(** Bit extractions and selections of constants as booleans. *)
Ltac clean :=
  change (uint 64 0) with 0; rewrite ?bit_value by lia;
  rewrite ?odd_lxor_b2z, ?odd_b2z, ?odd_select, ?odd_select_neg; unfold msb; replace (sz * 8 - 1) with (8 * sz - 1) by lia;
  rewrite ?Z.land_spec, ?Z.lxor_spec.

(** ** Additions and subtractions *)

Ltac arith :=
  rewrite ?odd_select;
  first [ eapply (AF_add (8 * sz)); [lia|lia|reflexivity] | eapply (AF_sub (8 * sz)); [lia|lia|reflexivity]
  | eapply OF_add; [lia|lia|lia|lia|reflexivity]
  | eapply OF_sub; [lia|lia|lia|lia|reflexivity] ].

Lemma ADD_sets Res Src1 Src2 r a c (up : bool) :
  operand Res r -> operand Src1 a -> operand Src2 c -> r = uint (8 * sz) (a + c + 0) ->
  sets (CalculcateFlags_ADD sz Res Src1 Src2 up)
  ((if up then id else keep_CF) (x86_add (8 * sz) a c 0)).
Proof.
  intros HR H1 H2 ->. operands.
  pose proof (CF_add (8 * sz) a c 0 _ ltac:(lia) ltac:(lia) ltac:(lia) ltac:(lia) eq_refl) as HCF.
  cbn [Z.eqb] in HCF.
  unfold sets, CalculcateFlags_ADD. start.
  destruct up; cbv iota; repeat block; agrees_flags; try arith; rewrite odd_select; exact HCF.
Qed.

Lemma ADC_sets Res Src1 Src2 CF r a c k kc :
  operand Res r -> operand Src1 a -> operand Src2 c -> val (emitter b) s CF (Z.b2z k) kc ->
  r = uint (8 * sz) (a + c + Z.b2z k) ->
  sets (CalculcateFlags_ADC sz Res Src1 Src2 CF) (x86_add (8 * sz) a c (Z.b2z k)).
Proof.
  intros HR H1 H2 H3 ->. operands. assert (0 <= Z.b2z k <= 1) by (destruct k; cbn; lia).
  pose proof (CF_add (8 * sz) a c (Z.b2z k) _ ltac:(lia) ltac:(lia) ltac:(lia) ltac:(lia) eq_refl) as HCF.
  unfold sets, CalculcateFlags_ADC. start. repeat block.
  agrees_flags; try arith; rewrite <- HCF; destruct k; apply odd_select.
Qed.

Lemma SUB_sets Res Src1 Src2 r a c (up : bool) :
  operand Res r -> operand Src1 a -> operand Src2 c -> r = uint (8 * sz) (a - c - 0) ->
  sets (CalculcateFlags_SUB sz Res Src1 Src2 up)
  ((if up then id else keep_CF) (x86_sub (8 * sz) a c 0)).
Proof.
  intros HR H1 H2 ->. operands.
  unfold sets, CalculcateFlags_SUB. start.
  destruct up; cbv iota; repeat block; rewrite bit_value in * by lia;
    agrees_flags; try arith; clean; try reflexivity.
  all: try (f_equal; lia).
  all: apply OF_sub; lia.
Qed.

Lemma SBB_sets Res Src1 Src2 CF r a c k kc :
  operand Res r -> operand Src1 a -> operand Src2 c -> val (emitter b) s CF (Z.b2z k) kc ->
  r = uint (8 * sz) (a - c - Z.b2z k) ->
  sets (CalculcateFlags_SBB sz Res Src1 Src2 CF) (x86_sub (8 * sz) a c (Z.b2z k)).
Proof.
  intros HR H1 H2 H3 ->. operands. assert (0 <= Z.b2z k <= 1) by (destruct k; cbn; lia).
  pose proof (CF_sub (8 * sz) a c (Z.b2z k) _ ltac:(lia) ltac:(lia) ltac:(lia) ltac:(lia) eq_refl) as HCF.
  unfold sets, CalculcateFlags_SBB. start. repeat block.
  agrees_flags; try arith; rewrite <- ?HCF; try (destruct k; apply odd_select).
  all: clean; apply OF_sub; lia.
Qed.

(** ** Logical operations and multiplications *)

Lemma Logical_sets Res Src1 Src2 r :
  operand Res r -> sets (CalculcateFlags_Logical sz Res Src1 Src2) (x86_logical (8 * sz) r).
Proof.
  intros HR. operands. unfold sets, CalculcateFlags_Logical. start. repeat block. agrees_flags.
Qed.

(** The signed product [p] fits when its high half repeats its sign. *)
Lemma fits_high w p : 0 < w -> in_srange w p = (p / 2 ^ w =? if Z.testbit p (w - 1) then -1 else 0).
Proof.
  intros Hw. unfold in_srange. pose proof (pow2_pos w ltac:(lia)) as Hp.
  assert (2 ^ w = 2 * 2 ^ (w - 1)) as E by (rewrite <- Z.pow_succ_r by lia; f_equal; lia).
  pose proof (Z.div_mod p (2 ^ w) ltac:(lia)) as Hd. pose proof (Z.mod_pos_bound p _ Hp).
  assert (Z.testbit p (w - 1) = (2 ^ (w - 1) <=? p mod 2 ^ w)) as ->.
  { rewrite <- msb_spec by lia. unfold msb. change (p mod 2 ^ w) with (uint w p).
    rewrite testbit_uint by lia. replace (w - 1 <? w) with true by lia. reflexivity. }
  set (q := p / 2 ^ w) in *. set (m := p mod 2 ^ w) in *.
  destruct (Z.leb_spec (2 ^ (w - 1)) m); split_cmp; cbn; try reflexivity; try lia; nia.
Qed.

Lemma sint_bit r k : 0 <= k -> sint 1 (r / 2 ^ k) = if Z.testbit r k then -1 else 0.
Proof.
  intros. unfold sint, uint. rewrite bit_value by lia. destruct (Z.testbit r k); reflexivity.
Qed.

Lemma uint_eqb_signed x y :
  - 2 ^ 63 <= x < 2 ^ 63 -> - 2 ^ 63 <= y < 2 ^ 63 -> (uint 64 x =? uint 64 y) = (x =? y).
Proof.
  intros Hx Hy. destruct (Z.eqb_spec x y) as [->|Hne]; [apply Z.eqb_refl|].
  apply Z.eqb_neq. intros E. apply Hne.
  rewrite <- (sint_small 64 x), <- (sint_small 64 y) by lia. unfold sint. rewrite E. reflexivity.
Qed.

(** [r] carries the low half of the product, [High] its sign-extended high half. *)
Lemma MUL_sets Res High r p kr kh :
  val (emitter b) s Res r kr -> msb (8 * sz) r = msb (8 * sz) p ->
  val (emitter b) s High (uint 64 (p / 2 ^ (8 * sz))) kh ->
  - 2 ^ 63 <= p / 2 ^ (8 * sz) < 2 ^ 63 ->
  sets (CalculcateFlags_MUL sz Res High) (x86_mul_flags (in_srange (8 * sz) p)).
Proof.
  intros HR Hm HH Hp. operands. unfold sets, CalculcateFlags_MUL. start. repeat block.
  agrees_flags.
  all: rewrite odd_select_neg, fits_high, sint_bit by lia;
    rewrite uint_eqb_signed by (try (destruct (Z.testbit r (sz * 8 - 1))); lia); f_equal; f_equal;
    unfold msb in Hm; rewrite Z.mul_comm, Hm; reflexivity.
Qed.

Lemma UMUL_sets High p k :
  val (emitter b) s High (p / 2 ^ (8 * sz)) k -> 0 <= p ->
  sets (CalculcateFlags_UMUL High) (x86_mul_flags (p <? 2 ^ (8 * sz))).
Proof.
  intros HH Hp. operands. unfold sets, CalculcateFlags_UMUL. start. repeat block.
  assert ((p / 2 ^ (8 * sz) =? 0) = (p <? 2 ^ (8 * sz))) as E.
  { pose proof (pow2_pos (8 * sz) ltac:(lia)). destruct (Z.ltb_spec p (2 ^ (8 * sz))).
    - rewrite Z.div_small by lia. reflexivity.
    - apply Z.eqb_neq. intros E. apply Z.div_small_iff in E; lia. }
  agrees_flags; rewrite odd_select_neg, E; reflexivity.
Qed.

(** ** Variable shifts *)

(** A masked shift count. *)
Definition count (n : Z) : Prop := 0 <= n < (if sz =? 8 then 64 else 32).

Lemma count_lt n k : count n -> sz <= Z.max 4 k -> n < 8 * Z.max 4 k.
Proof. unfold count. destruct (Z.eqb_spec sz 8); lia. Qed.

Lemma count_range n : count n -> 0 <= n < 64.
Proof. unfold count. destruct (sz =? 8); lia. Qed.

(** The bit that a logical right shift by [m] brings to position zero. *)
Lemma shifted_bit a m k :
  0 <= m < 8 * k -> m < 2 ^ 64 -> Z.odd (Z.land (a / 2 ^ (uint 64 m mod (8 * k))) 1) = Z.testbit a m.
Proof.
  intros Hm H64. rewrite uint_small, Z.mod_small by lia.
  rewrite <- Z.bit0_odd, Z.land_spec, Z.bit0_odd, odd_div2n_bit by lia. apply andb_true_r.
Qed.

Hypothesis Hwf : flags_wf (Frame s).

Lemma known_flags : exists cf pf af zf sf ovf,
  rflag (Frame s) RFLAG_CF_LOC = Some cf /\ rflag (Frame s) RFLAG_PF_LOC = Some pf /\
  rflag (Frame s) RFLAG_AF_LOC = Some af /\ rflag (Frame s) RFLAG_ZF_LOC = Some zf /\
  rflag (Frame s) RFLAG_SF_LOC = Some sf /\ rflag (Frame s) RFLAG_OF_LOC = Some ovf.
Proof.
  pose proof Hwf as Hf. unfold flags_wf, FlagOffsets in Hf.
  repeat (apply Forall_cons_1 in Hf as [[? ?] Hf]). eauto 20.
Qed.

(** The last bit shifted out to the right. *)
Lemma CF_right_bit X n k k2 :
  1 <= n < 64 -> n - 1 < 8 * Z.max 4 k -> 1 <= k2 <= 8 ->
  Z.odd (Z.land (X / 2 ^ (uint (8 * Z.max 4 (Z.max k2 8)) (n - uint 64 1) mod (8 * Z.max 4 k))) (uint 64 1))
  = Z.testbit X (n - 1).
Proof.
  intros Hn Hk Hk2. replace (8 * Z.max 4 (Z.max k2 8)) with 64 by lia.
  change (uint 64 1) with 1. rewrite shifted_bit by lia. reflexivity.
Qed.

Lemma shr_sign a n : 0 < n -> 0 <= a < 2 ^ (8 * sz) -> 0 < sz -> Z.testbit (a / 2 ^ n) (8 * sz - 1) = false.
Proof.
  intros. rewrite <- Z.shiftr_div_pow2, Z.shiftr_spec by lia. apply (testbit_high (8 * sz)); lia.
Qed.

(** A zero count keeps every flag. *)
Ltac case_zero n :=
  unfold x86_shl, x86_shr, x86_sar, x86_shift, x86_ror, x86_rol, x86_rotate;
  match goal with H : Frame ?s' = _ |- agrees _ _ (Frame ?s') =>
  change (uint 64 0) with 0 in H; revert H end;
  destruct (Z.eqb_spec n 0); intros ?;
  [agrees_flags; rewrite ?odd_uint8_b2z; symmetry; assumption|].

Lemma ShiftLeft_sets Res Src1 Src2 r a n k2 :
  operand Res r -> operand Src1 a -> val (emitter b) s Src2 n k2 -> count n ->
  r = uint (8 * sz) (a * 2 ^ n) ->
  sets (CalculcateFlags_ShiftLeft sz Res Src1 Src2) (x86_shl (8 * sz) a n).
Proof.
  intros HR H1 H2 Hn Er. operands. pose proof (count_range _ Hn).
  destruct known_flags as (? & ? & ? & ? & ? & ? & ? & ? & ? & ? & ? & ?).
  unfold sets, CalculcateFlags_ShiftLeft, CondFlags_PF_AF_ZF. start. repeat block.
  all: case_zero n.
  all: rewrite <- Er; destruct (Z.leb_spec n (8 * sz)), (Z.eqb_spec n 1); agrees_flags.
  all: clean; try reflexivity; try assumption; try apply xorb_comm.
  all: replace (8 * Z.max 4 (Z.max 8 k2)) with 64 by lia; rewrite (uint_small 64 (sz * 8)) by lia;
    change (uint 64 1) with 1; rewrite shifted_bit by lia; f_equal; lia.
Qed.

Lemma ShiftRight_sets Res Src1 Src2 r a n k2 :
  operand Res r -> operand Src1 a -> val (emitter b) s Src2 n k2 -> count n -> r = a / 2 ^ n ->
  sets (CalculcateFlags_ShiftRight sz Res Src1 Src2) (x86_shr (8 * sz) a n).
Proof.
  intros HR H1 H2 Hn Er. operands. pose proof (count_range _ Hn).
  destruct known_flags as (? & ? & ? & ? & ? & ? & ? & ? & ? & ? & ? & ?).
  unfold sets, CalculcateFlags_ShiftRight, CondFlags_PF_AF_ZF, CondCF_right. start. repeat block.
  all: case_zero n.
  all: rewrite <- Er; destruct (Z.eqb_spec n 1); agrees_flags.
  all: clean; try reflexivity; try assumption.
  all: try (apply CF_right_bit; [lia|pose proof (count_lt n x Hn); lia|lia]).
  all: rewrite Er, shr_sign by lia; apply xorb_false_r.
Qed.

(** An arithmetic shift works on the sign-extended operand: its nodes are as
    wide as the extension. *)
Definition wide_operand (k : Z) (n : NodeID) (v : Z) : Prop :=
  sz <= k /\ 4 <= k /\ val (emitter b) s n (uint (8 * k) v) k.

(** The facts about a widened value [X] that the flags depend on. *)
Lemma wide_zero k X :
  sz <= k -> - 2 ^ (8 * sz - 1) <= X < 2 ^ (8 * sz - 1) -> 0 < sz ->
  (uint (8 * k) X =? 0) = (uint (8 * sz) X =? 0).
Proof.
  intros Hk HX Hz. pose proof (Z.pow_le_mono_r 2 (8 * sz - 1) (8 * k - 1) ltac:(lia) ltac:(lia)).
  rewrite <- !uint_eqb_sint, !sint_small by lia. reflexivity.
Qed.

Lemma wide_sign k X : sz <= k -> 0 < sz -> msb (8 * sz) (uint (8 * k) X) = msb (8 * sz) (uint (8 * sz) X).
Proof.
  intros. unfold msb. rewrite !testbit_uint by lia.
  replace (8 * sz - 1 <? 8 * k) with true by lia. replace (8 * sz - 1 <? 8 * sz) with true by lia.
  reflexivity.
Qed.

Lemma sar_range a n :
  0 < sz -> 0 <= n -> - 2 ^ (8 * sz - 1) <= sint (8 * sz) a / 2 ^ n < 2 ^ (8 * sz - 1).
Proof.
  intros Hz Hn. pose proof (sint_range (8 * sz) a ltac:(lia)). pose proof (pow2_pos n Hn).
  split; [apply Z.div_le_lower_bound; nia|apply Z.div_lt_upper_bound; nia].
Qed.

Lemma wide_bit k X i : 0 <= i < 8 * k -> Z.testbit (uint (8 * k) X) i = Z.testbit X i.
Proof.
  intros. rewrite testbit_uint by lia. replace (i <? 8 * k) with true by lia. reflexivity.
Qed.

Lemma SignShiftRight_sets Res Src1 Src2 a n k k2 :
  wide_operand k Res (sint (8 * sz) a / 2 ^ n) -> wide_operand k Src1 (sint (8 * sz) a) ->
  val (emitter b) s Src2 n k2 -> count n ->
  sets (CalculcateFlags_SignShiftRight sz Res Src1 Src2) (x86_sar (8 * sz) a n).
Proof.
  intros (Hk & Hk4 & HR) (_ & _ & H1) H2 Hn. operands. pose proof (count_range _ Hn).
  destruct known_flags as (? & ? & ? & ? & ? & ? & ? & ? & ? & ? & ? & ?).
  unfold sets, CalculcateFlags_SignShiftRight, CondFlags_PF_AF_ZF, CondCF_right. start. repeat block.
  all: case_zero n.
  all: destruct (Z.eqb_spec n 1); agrees_flags; change (uint 64 0) with 0; rewrite ?odd_select.
  all: try reflexivity.
  all: try (rewrite odd_sign_lshr by (assumption || lia); apply wide_sign; lia).
  all: try (apply wide_zero; [lia|apply sar_range; lia|lia]).
  all: try match goal with H : Z.odd ?v = _ |- Z.odd ?v = _ =>
    rewrite H, !parity_uint by lia; reflexivity end.
  all: pose proof (count_lt n k Hn ltac:(lia)); rewrite CF_right_bit by lia; apply wide_bit; lia.
Qed.

(** ** Shifts by an immediate *)

(** A zero immediate emits nothing; otherwise the code is executed. *)
Ltac imm_zero n :=
  unfold x86_shl, x86_shr, x86_sar, x86_shift, x86_ror, x86_rol, x86_rotate;
  destruct (Z.eqb_spec n 0); [apply wp_ret; [exact Hgood|apply agrees_kept]|].

Lemma ShiftLeftImmediate_sets Res Src1 r a n :
  operand Res r -> operand Src1 a -> 0 <= n <= 8 * sz -> r = uint (8 * sz) (a * 2 ^ n) ->
  sets (CalculcateFlags_ShiftLeftImmediate sz Res Src1 n) (x86_shl (8 * sz) a n).
Proof.
  intros HR H1 Hn Er. operands. unfold sets, CalculcateFlags_ShiftLeftImmediate. start. imm_zero n.
  rewrite <- Er. replace (n <=? 8 * sz) with true by lia.
  destruct (Z.eqb_spec n 1); repeat block.
  all: agrees_flags; clean; try reflexivity; try (f_equal; lia).
  all: apply xorb_comm.
Qed.

Lemma ShiftRightImmediate_sets Res Src1 r a n :
  operand Res r -> operand Src1 a -> count n -> r = a / 2 ^ n ->
  sets (CalculcateFlags_ShiftRightImmediate sz Res Src1 n) (x86_shr (8 * sz) a n).
Proof.
  intros HR H1 Hn Er. operands. pose proof (count_range _ Hn).
  unfold sets, CalculcateFlags_ShiftRightImmediate. start. imm_zero n. rewrite <- Er.
  destruct (Z.eqb_spec n 1); repeat block.
  all: agrees_flags; clean; reflexivity.
Qed.

Lemma SignShiftRightImmediate_sets Res Src1 a n k :
  wide_operand k Res (sint (8 * sz) a / 2 ^ n) -> wide_operand k Src1 (sint (8 * sz) a) -> count n ->
  sets (CalculcateFlags_SignShiftRightImmediate sz Res Src1 n) (x86_sar (8 * sz) a n).
Proof.
  intros (Hk & Hk4 & HR) (_ & _ & H1) Hn. operands. pose proof (count_range _ Hn).
  pose proof (count_lt n k Hn ltac:(lia)).
  unfold sets, CalculcateFlags_SignShiftRightImmediate. start. imm_zero n.
  destruct (Z.eqb_spec n 1); repeat block.
  all: agrees_flags; change (uint 64 0) with 0; rewrite ?bit_value, ?odd_b2z, ?odd_select by lia.
  all: first [ reflexivity | apply wide_sign; lia | apply wide_zero; [lia|apply sar_range; lia|lia]
    | rewrite !parity_uint by lia; reflexivity | apply wide_bit; lia ].
Qed.

(** ** Rotations *)

Lemma RotateRight_sets Res Src1 Src2 r a n k1 k2 :
  val (emitter b) s Res r k1 -> uint (8 * sz) r = rotr (8 * sz) a n ->
  val (emitter b) s Src2 n k2 ->
  sets (CalculcateFlags_RotateRight sz Res Src1 Src2) (x86_ror (8 * sz) (rotr (8 * sz) a n) n).
Proof.
  intros HR Er H2. operands. destruct known_flags as (? & ? & ? & ? & ? & ? & ? & ? & ? & ? & ? & ?).
  rewrite <- Er. unfold sets, CalculcateFlags_RotateRight. start. repeat block.
  all: case_zero n.
  all: destruct (Z.eqb_spec n 1); agrees_flags; clean.
  all: replace (sz * 8 - 2) with (8 * sz - 2) by lia; rewrite !(wide_bit sz) by lia;
    first [reflexivity|apply xorb_comm].
Qed.

Lemma RotateLeft_sets Res Src1 Src2 r a n k1 k2 :
  val (emitter b) s Res r k1 -> uint (8 * sz) r = rotl (8 * sz) a n -> sz <= k1 ->
  val (emitter b) s Src2 n k2 ->
  sets (CalculcateFlags_RotateLeft sz Res Src1 Src2) (x86_rol (8 * sz) (rotl (8 * sz) a n) n).
Proof.
  intros HR Er Hk H2. operands. destruct known_flags as (? & ? & ? & ? & ? & ? & ? & ? & ? & ? & ? & ?).
  rewrite <- Er. unfold sets, CalculcateFlags_RotateLeft. start. repeat block.
  all: case_zero n.
  all: destruct (Z.eqb_spec n 1); agrees_flags; clean; rewrite !(wide_bit sz) by lia; reflexivity.
Qed.

(** What the immediate rotations do: the carry is bit [8 * sz - n] of the
    source for a rotation to the right and bit [n] for one to the left. *)
Definition rotate_imm (n : Z) (cf ovf : bool) : flag_effect :=
  if n =? 0 then all_kept
  else mkEffect (Def cf) Kept Kept Kept Kept (if n =? 1 then Def ovf else Kept).

Lemma RotateRightImmediate_sets Res Src1 r v n k1 k2 :
  val (emitter b) s Res r k1 -> val (emitter b) s Src1 v k2 -> 0 <= n <= 8 * sz ->
  sets (CalculcateFlags_RotateRightImmediate sz Res Src1 n)
  (rotate_imm n (Z.testbit v (8 * sz - n)) (xorb (msb (8 * sz) r) (Z.testbit v (8 * sz - n)))).
Proof.
  intros HR H1 Hn. operands. unfold sets, CalculcateFlags_RotateRightImmediate, rotate_imm. start.
  imm_zero n. destruct (Z.eqb_spec n 1); repeat block.
  all: agrees_flags; clean; replace (sz * 8 - n) with (8 * sz - n) by lia; reflexivity.
Qed.

Lemma RotateLeftImmediate_sets Res Src1 v n k2 :
  val (emitter b) s Src1 v k2 -> 0 <= n < 64 ->
  sets (CalculcateFlags_RotateLeftImmediate sz Res Src1 n)
  (rotate_imm n (Z.testbit v n) (xorb (msb (8 * sz) v) (Z.testbit v (8 * sz - 2)))).
Proof.
  intros H1 Hn. operands. unfold sets, CalculcateFlags_RotateLeftImmediate, rotate_imm. start.
  imm_zero n. destruct (Z.eqb_spec n 1); repeat block.
  all: agrees_flags; clean; replace (sz * 8 - 2) with (8 * sz - 2) by lia; reflexivity.
Qed.

(** ** Comparisons and bit manipulation *)

(** The three flag bits a comparison leaves in its result. *)
Definition fcmp_bits (w x y v : Z) : Prop :=
  Z.testbit v FCMP_FLAG_LT = (fp_unordered w x y || fp_lt w x y) /\
  Z.testbit v FCMP_FLAG_EQ = (fp_unordered w x y || fp_eq w x y) /\
  Z.testbit v FCMP_FLAG_UNORDERED = fp_unordered w x y.

Lemma FCMP_sets Res Src1 Src2 w x y v k :
  val (emitter b) s Res v k -> fcmp_bits w x y v ->
  sets (CalculcateFlags_FCMP sz Res Src1 Src2) (x86_ucomis w x y).
Proof.
  intros HR (HL & HE & HU). operands.
  unfold sets, CalculcateFlags_FCMP, x86_ucomis. start.
  unfold FCMP_FLAG_LT, FCMP_FLAG_EQ, FCMP_FLAG_UNORDERED in *. repeat block.
  rewrite !(bit_value _ 0), !(bit_value _ 1), !(bit_value _ 2) in * by lia.
  agrees_flags; rewrite odd_b2z; assumption.
Qed.

Lemma BEXTR_sets Src r k : val (emitter b) s Src r k -> sets (CalculcateFlags_BEXTR Src) (x86_bextr r).
Proof. intros HR. unfold sets, CalculcateFlags_BEXTR. start. repeat block. all: agrees_flags. Qed.

Lemma BLSI_sets Src r a :
  operand Src r -> (a =? 0) = (r =? 0) ->
  sets (CalculcateFlags_BLSI sz Src) (x86_blsi (8 * sz) a r).
Proof.
  intros HR Ha. operands. unfold sets, CalculcateFlags_BLSI. start. repeat block.
  all: agrees_flags; clean; try (rewrite ?Ha; reflexivity).
Qed.

(** [BLSMSK] and [BLSR] clear the carry for a zero source. *)
Lemma BLSMSK_sets Src a k :
  val (emitter b) s Src a k ->
  sets (CalculcateFlags_BLSMSK Src) (mkEffect (Def (negb (a =? 0))) Any Any (Def false) Kept (Def false)).
Proof.
  intros HR. unfold sets, CalculcateFlags_BLSMSK. start. repeat block.
  all: agrees_flags; apply odd_select_neg.
Qed.

Lemma BLSR_sets Res Src a r k :
  operand Res r -> val (emitter b) s Src a k ->
  sets (CalculcateFlags_BLSR sz Res Src)
  (mkEffect (Def (negb (a =? 0))) Any Any (Def (r =? 0)) (Def (msb (8 * sz) r)) (Def false)).
Proof.
  intros HR H1. operands. unfold sets, CalculcateFlags_BLSR. start. repeat block.
  all: agrees_flags; clean; reflexivity.
Qed.

Lemma POPCOUNT_sets Src r a k :
  val (emitter b) s Src r k -> (a =? 0) = (r =? 0) ->
  sets (CalculcateFlags_POPCOUNT Src) (x86_popcnt a).
Proof.
  intros HR Ha. unfold sets, CalculcateFlags_POPCOUNT. start. repeat block.
  agrees_flags; rewrite odd_select, Ha; reflexivity.
Qed.

Lemma BZHI_sets Res Src r i k :
  operand Res r -> val (emitter b) s Src i k ->
  sets (CalculcateFlags_BZHI sz Res Src) (x86_bzhi (8 * sz) i r).
Proof.
  intros HR H1. operands. unfold sets, CalculcateFlags_BZHI. start. repeat block.
  all: agrees_flags.
  all: first [ apply odd_sign_lshr; assumption || lia
    | rewrite odd_select, ?uint_small by lia; f_equal; lia ].
Qed.

Lemma TZCNT_sets Src a k :
  val (emitter b) s Src a k -> sets (CalculcateFlags_TZCNT Src) (x86_tzcnt a).
Proof.
  intros HR. operands. unfold sets, CalculcateFlags_TZCNT. start. repeat block.
  all: agrees_flags; clean; reflexivity.
Qed.

Lemma LZCNT_sets Src a k :
  val (emitter b) s Src a k -> sets (CalculcateFlags_LZCNT sz Src) (x86_lzcnt (8 * sz) a).
Proof.
  intros HR. operands. unfold sets, CalculcateFlags_LZCNT. start. repeat block.
  all: agrees_flags; clean; reflexivity.
Qed.

Lemma BITSELECT_sets Src a k :
  val (emitter b) s Src a k -> sets (CalculcateFlags_BITSELECT Src) (x86_bsf a).
Proof.
  intros HR. unfold sets, CalculcateFlags_BITSELECT. start. repeat block.
  agrees_flags; apply odd_select.
Qed.

Lemma RDRAND_sets Src v k :
  val (emitter b) s Src v k ->
  sets (CalculcateFlags_RDRAND Src) (x86_rdrand (Z.odd v)).
Proof.
  intros HR. unfold sets, CalculcateFlags_RDRAND. start. repeat block. agrees_flags.
Qed.
End Generators.

(** ** The deferred flags *)

(** [meaning b s d e]: the nodes that the record [d] names hold the operands and
    the result of an instruction whose architectural effect on the flags is [e].
    Immediate rotations, [BLSMSK] and [BLSR] are left out: the code computes
    another carry for them. *)
Inductive meaning `{IRBackend} (b : OpDispatchBuilder) (s : IROpData) (sz : Z)
    : DeferredFlagData -> flag_effect -> Prop :=
  | meaning_ADD Res Src1 Src2 a c (up : bool) :
      operand b s sz Res (uint (8 * sz) (a + c + 0)) -> operand b s sz Src1 a ->
      operand b s sz Src2 c ->
      meaning b s sz (mkDeferred TYPE_ADD sz Res (TwoSrcImmediate Src1 Src2 up))
              ((if up then id else keep_CF) (x86_add (8 * sz) a c 0))
  | meaning_ADC Res Src1 Src2 CF a c k kc :
      operand b s sz Res (uint (8 * sz) (a + c + Z.b2z k)) -> operand b s sz Src1 a ->
      operand b s sz Src2 c -> val (emitter b) s CF (Z.b2z k) kc ->
      meaning b s sz (mkDeferred TYPE_ADC sz Res (ThreeSource Src1 Src2 CF))
              (x86_add (8 * sz) a c (Z.b2z k))
  | meaning_SUB Res Src1 Src2 a c (up : bool) :
      operand b s sz Res (uint (8 * sz) (a - c - 0)) -> operand b s sz Src1 a ->
      operand b s sz Src2 c ->
      meaning b s sz (mkDeferred TYPE_SUB sz Res (TwoSrcImmediate Src1 Src2 up))
              ((if up then id else keep_CF) (x86_sub (8 * sz) a c 0))
  | meaning_SBB Res Src1 Src2 CF a c k kc :
      operand b s sz Res (uint (8 * sz) (a - c - Z.b2z k)) -> operand b s sz Src1 a ->
      operand b s sz Src2 c -> val (emitter b) s CF (Z.b2z k) kc ->
      meaning b s sz (mkDeferred TYPE_SBB sz Res (ThreeSource Src1 Src2 CF))
              (x86_sub (8 * sz) a c (Z.b2z k))
  | meaning_LOGICAL Res Src1 Src2 r :
      operand b s sz Res r ->
      meaning b s sz (mkDeferred TYPE_LOGICAL sz Res (TwoSource Src1 Src2)) (x86_logical (8 * sz) r)
  | meaning_MUL Res High r p kr kh :
      val (emitter b) s Res r kr -> msb (8 * sz) r = msb (8 * sz) p ->
      val (emitter b) s High (uint 64 (p / 2 ^ (8 * sz))) kh ->
      - 2 ^ 63 <= p / 2 ^ (8 * sz) < 2 ^ 63 ->
      meaning b s sz (mkDeferred TYPE_MUL sz Res (OneSource High))
              (x86_mul_flags (in_srange (8 * sz) p))
  | meaning_UMUL High p k :
      val (emitter b) s High (p / 2 ^ (8 * sz)) k -> 0 <= p ->
      meaning b s sz (mkDeferred TYPE_UMUL sz High NoSource) (x86_mul_flags (p <? 2 ^ (8 * sz)))
  | meaning_LSHL Res Src1 Src2 a n k :
      operand b s sz Res (uint (8 * sz) (a * 2 ^ n)) -> operand b s sz Src1 a ->
      val (emitter b) s Src2 n k -> count sz n ->
      meaning b s sz (mkDeferred TYPE_LSHL sz Res (TwoSource Src1 Src2)) (x86_shl (8 * sz) a n)
  | meaning_LSHR Res Src1 Src2 a n k :
      operand b s sz Res (a / 2 ^ n) -> operand b s sz Src1 a ->
      val (emitter b) s Src2 n k -> count sz n ->
      meaning b s sz (mkDeferred TYPE_LSHR sz Res (TwoSource Src1 Src2)) (x86_shr (8 * sz) a n)
  | meaning_ASHR Res Src1 Src2 a n k k2 :
      wide_operand b s sz k Res (sint (8 * sz) a / 2 ^ n) ->
      wide_operand b s sz k Src1 (sint (8 * sz) a) ->
      val (emitter b) s Src2 n k2 -> count sz n ->
      meaning b s sz (mkDeferred TYPE_ASHR sz Res (TwoSource Src1 Src2)) (x86_sar (8 * sz) a n)
  | meaning_LSHLI Res Src1 a n :
      operand b s sz Res (uint (8 * sz) (a * 2 ^ n)) -> operand b s sz Src1 a -> 0 <= n <= 8 * sz ->
      meaning b s sz (mkDeferred TYPE_LSHLI sz Res (OneSrcImmediate Src1 n)) (x86_shl (8 * sz) a n)
  | meaning_LSHRI Res Src1 a n :
      operand b s sz Res (a / 2 ^ n) -> operand b s sz Src1 a -> count sz n ->
      meaning b s sz (mkDeferred TYPE_LSHRI sz Res (OneSrcImmediate Src1 n)) (x86_shr (8 * sz) a n)
  | meaning_ASHRI Res Src1 a n k :
      wide_operand b s sz k Res (sint (8 * sz) a / 2 ^ n) ->
      wide_operand b s sz k Src1 (sint (8 * sz) a) -> count sz n ->
      meaning b s sz (mkDeferred TYPE_ASHRI sz Res (OneSrcImmediate Src1 n)) (x86_sar (8 * sz) a n)
  | meaning_ROR Res Src1 Src2 r a n k1 k2 :
      val (emitter b) s Res r k1 -> uint (8 * sz) r = rotr (8 * sz) a n -> val (emitter b) s Src2 n k2 ->
      meaning b s sz (mkDeferred TYPE_ROR sz Res (TwoSource Src1 Src2))
              (x86_ror (8 * sz) (rotr (8 * sz) a n) n)
  | meaning_ROL Res Src1 Src2 r a n k1 k2 :
      val (emitter b) s Res r k1 -> uint (8 * sz) r = rotl (8 * sz) a n -> sz <= k1 ->
      val (emitter b) s Src2 n k2 ->
      meaning b s sz (mkDeferred TYPE_ROL sz Res (TwoSource Src1 Src2))
              (x86_rol (8 * sz) (rotl (8 * sz) a n) n)
  | meaning_FCMP Res Src1 Src2 w x y v k :
      val (emitter b) s Res v k -> fcmp_bits w x y v ->
      meaning b s sz (mkDeferred TYPE_FCMP sz Res (TwoSource Src1 Src2)) (x86_ucomis w x y)
  | meaning_BEXTR Src r k :
      val (emitter b) s Src r k ->
      meaning b s sz (mkDeferred TYPE_BEXTR sz Src NoSource) (x86_bextr r)
  | meaning_BLSI Src a r :
      operand b s sz Src r -> (a =? 0) = (r =? 0) ->
      meaning b s sz (mkDeferred TYPE_BLSI sz Src NoSource) (x86_blsi (8 * sz) a r)
  | meaning_POPCOUNT Src r a k :
      val (emitter b) s Src r k -> (a =? 0) = (r =? 0) ->
      meaning b s sz (mkDeferred TYPE_POPCOUNT sz Src NoSource) (x86_popcnt a)
  | meaning_BZHI Res Src r i k :
      operand b s sz Res r -> val (emitter b) s Src i k ->
      meaning b s sz (mkDeferred TYPE_BZHI sz Res (OneSource Src)) (x86_bzhi (8 * sz) i r)
  | meaning_TZCNT Src a k :
      val (emitter b) s Src a k ->
      meaning b s sz (mkDeferred TYPE_TZCNT sz Src NoSource) (x86_tzcnt a)
  | meaning_LZCNT Src a k :
      val (emitter b) s Src a k ->
      meaning b s sz (mkDeferred TYPE_LZCNT sz Src NoSource) (x86_lzcnt (8 * sz) a)
  | meaning_BITSELECT Src a k :
      val (emitter b) s Src a k ->
      meaning b s sz (mkDeferred TYPE_BITSELECT sz Src NoSource) (x86_bsf a)
  | meaning_RDRAND Src v k :
      val (emitter b) s Src v k ->
      meaning b s sz (mkDeferred TYPE_RDRAND sz Src NoSource) (x86_rdrand (Z.odd v)).

Lemma agrees_wf e F F' : agrees e F F' -> flags_wf F -> flags_wf F'.
Proof.
  intros He Hf. unfold flags_wf in *. rewrite Forall_forall in *. intros loc Hin.
  specialize (Hf loc Hin).
  assert (forall x l, effect_agrees x l F F' -> is_Some (rflag F l) -> is_Some (rflag F' l)) as Hx.
  { intros [] l; cbn; intros H1 H2; [rewrite H1; eauto|rewrite H1; exact H2|auto]. }
  unfold FlagOffsets in Hin. cbn [In] in Hin.
  repeat destruct Hin as [<-|Hin]; try contradiction;
    first [ eapply Hx; [apply He|exact Hf] | idtac ].
  all: unfold rflag in *; rewrite (agrees_rest _ _ _ He); [exact Hf|].
  all: unfold arith_flags; repeat constructor; discriminate.
Qed.

Section Deferred.
Context `{Backend : IRBackend}.
Variables (b : OpDispatchBuilder) (s : IROpData) (sz : Z).
Hypothesis Hgood : good (emitter b) s.
Hypothesis Hsz : operand_size sz.
Hypothesis Hwf : flags_wf (Frame s).

(** Every type dispatches to its generator with its own sources. *)
Lemma calculate_switch_sets d e :
  meaning b s sz d e -> sets b s (ABINoPF b) (calculate_switch d) e.
Proof.
  intros Hm. destruct Hm; unfold calculate_switch; cbn [Type_ Sources SrcSize Flags.Res].
  - eapply ADD_sets; eauto.
  - eapply ADC_sets; eauto.
  - eapply SUB_sets; eauto.
  - eapply SBB_sets; eauto.
  - eapply Logical_sets; eauto.
  - eapply MUL_sets; eauto.
  - eapply UMUL_sets; eauto.
  - eapply ShiftLeft_sets; eauto.
  - eapply ShiftRight_sets; eauto.
  - eapply SignShiftRight_sets; eauto.
  - eapply ShiftLeftImmediate_sets; eauto.
  - eapply ShiftRightImmediate_sets; eauto.
  - eapply SignShiftRightImmediate_sets; eauto.
  - eapply RotateRight_sets; eauto.
  - eapply RotateLeft_sets; eauto.
  - eapply FCMP_sets; eauto.
  - eapply BEXTR_sets; eauto.
  - eapply BLSI_sets; eauto.
  - eapply POPCOUNT_sets; eauto.
  - eapply BZHI_sets; eauto.
  - eapply TZCNT_sets; eauto.
  - eapply LZCNT_sets; eauto.
  - eapply BITSELECT_sets; eauto.
  - eapply RDRAND_sets; eauto.
Qed.

Lemma meaning_pending d e : meaning b s sz d e -> Type_ d <> TYPE_NONE.
Proof. intros []; discriminate. Qed.

(** Resetting the type is not an emission. *)
Lemma wp_InvalidateDeferredFlags (Q : unit -> OpDispatchBuilder -> IROpData -> Prop) b0 s0 :
  good (emitter b0) s0 ->
  (forall b', goes b0 s0 b' s0 -> IsDeferredFlagsStored b' = true -> Q tt b' s0) ->
  wp InvalidateDeferredFlags Q b0 s0.
Proof.
  intros Hg HQ. eexists. split; [|apply HQ]; [..|reflexivity];
    constructor; first [apply ext_refl | exact Hg | reflexivity].
Qed.

Lemma CalculateDeferredFlags_wp d e :
  CurrentDeferredFlags b = d -> meaning b s sz d e ->
  wp CalculateDeferredFlags (fun _ b' s' =>
  IsDeferredFlagsStored b' = true /\ agrees (no_PF (ABINoPF b) e) (Frame s) (Frame s') /\
  flags_wf (Frame s')) b s.
Proof.
  intros <- Hm. pose proof (meaning_pending _ _ Hm) as Ht.
  unfold CalculateDeferredFlags. apply wp_bind. exists s. split; [apply goes_refl, Hgood|].
  assert (wp (_ ← calculate_switch (CurrentDeferredFlags b); InvalidateDeferredFlags)
    (fun _ b' s' => IsDeferredFlagsStored b' = true /\
    agrees (no_PF (ABINoPF b) e) (Frame s) (Frame s') /\ flags_wf (Frame s')) b s) as Hw.
  { apply wp_bind. eapply wp_mono; [apply (calculate_switch_sets _ _ Hm)|].
    cbn beta. intros [] b1 s1 Hgo Ha. apply wp_InvalidateDeferredFlags; [apply Hgo|].
    intros b2 Hgo2 Hn. eauto using agrees_wf. }
  destruct (Type_ (CurrentDeferredFlags b)); [contradiction|exact Hw..].
Qed.
End Deferred.
