(* ===== verification/FlagsLazy.v ===== *)
(** * Lazy flags

    An emission computation together with the execution of what it emits; what a
    waiting record stands for; and the lemmas that recording flags and computing
    them later is the same as computing them at once. *)
From Stdlib Require Import ZArith Lia Bool.
From stdpp Require Import base gmap list numbers option.
From S2P Require Import Prelude IR ALUOps Interp IRSpec InterpRefines Emitter EmitterLogic Flags FlagsSpec FlagsBlocks FlagsCorrect.
#[local] Open Scope Z_scope.

(** ** Emission and execution together *)

Section Emits.
Context `{Backend : IRBackend}.

(** The computation [m] returns [a] and a builder [b'] with new nodes after the
    write cursor, and the backend executes exactly these from [s] to [s']. *)
Definition emits {A} (m : B A) (b : OpDispatchBuilder) (s : IROpData)
  (a : A) (b' : OpDispatchBuilder) (s' : IROpData) : Prop :=
  m b = Ok (a, b') /\
  exists new, Before (emitter b') = Before (emitter b) ++ new /\
    run_nodes (Data (emitter b')) new s = Ok s'.

Lemma wp_emits {A} (m : B A) Q b s :
  wp m Q b s -> exists a b' s', emits m b s a b' s' /\ goes b s b' s' /\ Q a b' s'.
Proof.
  unfold wp, emits. destruct (m b) as [[a b']| |]; try contradiction.
  intros (s' & Hgo & HQ). exists a, b', s'. split; [|auto]. split; [reflexivity|].
  destruct (ext_run _ _ _ _ (goes_ext _ _ _ _ Hgo)) as (new & Hb & _ & Hr). eauto.
Qed.

(** ** Deferring is sound *)

Lemma meaning_reach b s b' s' sz d e :
  reach (emitter b) s (emitter b') s' -> meaning b s sz d e -> meaning b' s' sz d e.
Proof.
  intros Hgo Hm.
  assert (forall n v k, val (emitter b) s n v k -> val (emitter b') s' n v k) as Hv
    by (intros; eapply val_mono; [exact Hgo|eassumption]).
  assert (forall n v, operand b s sz n v -> operand b' s' sz n v) as Ho
    by (intros n v (? & k & ? & ?); split; eauto).
  assert (forall k n v, wide_operand b s sz k n v -> wide_operand b' s' sz k n v) as Hw
    by (intros k n v (H1 & H2 & H3); exact (conj H1 (conj H2 (Hv _ _ _ H3)))).
  destruct Hm; econstructor; eauto.
Qed.

(** Every flag gets a value that does not depend on the old image. *)
Definition overwrites (e : flag_effect) : bool :=
  let o x := match x with Kept => false | _ => true end in
  o (eCF e) && o (ePF e) && o (eAF e) && o (eZF e) && o (eSF e) && o (eOF e).

Lemma arith_flags_known F loc : flags_wf F -> In loc arith_flags -> is_Some (rflag F loc).
Proof.
  intros Hf Hin. unfold flags_wf in Hf. rewrite Forall_forall in Hf. apply Hf.
  unfold arith_flags, FlagOffsets in *. cbn [In] in *. tauto.
Qed.

(** The old image of an overwriting effect can be exchanged. *)
Lemma agrees_overwrites e F1 F F' :
  overwrites e = true -> agrees e F F' -> flags_wf F' ->
  (forall a, Forall (fun loc => a <> FLAGS_OFFSET + loc) arith_flags -> F1 !! a = F !! a) ->
  agrees e F1 F'.
Proof.
  intros Ho Ha Hf HF1. unfold overwrites in Ho. rewrite !andb_true_iff in Ho.
  destruct Ho as (((((O1 & O2) & O3) & O4) & O5) & O6).
  assert (forall x loc, match x with Kept => false | _ => true end = true ->
    In loc arith_flags -> effect_agrees x loc F F' -> effect_agrees x loc F1 F') as Hx.
  { intros [] loc Hk Hin H; cbn in *; [exact H|discriminate|]. intros _.
    apply arith_flags_known; assumption. }
  destruct Ha. constructor; try (apply Hx; auto; unfold arith_flags; cbn; tauto).
  intros a Hl. rewrite HF1 by exact Hl. auto.
Qed.

Lemma overwrites_no_PF nopf e : overwrites e = true -> overwrites (no_PF nopf e) = true.
Proof.
  destruct nopf; cbn; auto. unfold overwrites. rewrite !andb_true_iff. cbn. tauto.
Qed.

(** ** The [GenerateFlags_*] call that records a given [DeferredFlagData] *)

Definition GenerateFlags (Op : Z) (d : DeferredFlagData) : option (B unit) :=
  match Type_ d, Sources d with
  | TYPE_ADC, ThreeSource x y z => Some (GenerateFlags_ADC Op (Res d) x y z)
  | TYPE_SBB, ThreeSource x y z => Some (GenerateFlags_SBB Op (Res d) x y z)
  | TYPE_SUB, TwoSrcImmediate x y u => Some (GenerateFlags_SUB Op (Res d) x y u)
  | TYPE_ADD, TwoSrcImmediate x y u => Some (GenerateFlags_ADD Op (Res d) x y u)
  | TYPE_MUL, OneSource x => Some (GenerateFlags_MUL Op (Res d) x)
  | TYPE_UMUL, NoSource => Some (GenerateFlags_UMUL Op (Res d))
  | TYPE_LOGICAL, TwoSource x y => Some (GenerateFlags_Logical Op (Res d) x y)
  | TYPE_LSHL, TwoSource x y => Some (GenerateFlags_ShiftLeft Op (Res d) x y)
  | TYPE_LSHR, TwoSource x y => Some (GenerateFlags_ShiftRight Op (Res d) x y)
  | TYPE_ASHR, TwoSource x y => Some (GenerateFlags_SignShiftRight Op (Res d) x y)
  | TYPE_LSHLI, OneSrcImmediate x i => Some (GenerateFlags_ShiftLeftImmediate Op (Res d) x i)
  | TYPE_LSHRI, OneSrcImmediate x i => Some (GenerateFlags_ShiftRightImmediate Op (Res d) x i)
  | TYPE_ASHRI, OneSrcImmediate x i => Some (GenerateFlags_SignShiftRightImmediate Op (Res d) x i)
  | TYPE_ROR, TwoSource x y => Some (GenerateFlags_RotateRight Op (Res d) x y)
  | TYPE_ROL, TwoSource x y => Some (GenerateFlags_RotateLeft Op (Res d) x y)
  | TYPE_FCMP, TwoSource x y => Some (GenerateFlags_FCMP Op (Res d) x y)
  | TYPE_BEXTR, NoSource => Some (GenerateFlags_BEXTR Op (Res d))
  | TYPE_BLSI, NoSource => Some (GenerateFlags_BLSI Op (Res d))
  | TYPE_POPCOUNT, NoSource => Some (GenerateFlags_POPCOUNT Op (Res d))
  | TYPE_BZHI, OneSource x => Some (GenerateFlags_BZHI Op (Res d) x)
  | TYPE_TZCNT, NoSource => Some (GenerateFlags_TZCNT Op (Res d))
  | TYPE_LZCNT, NoSource => Some (GenerateFlags_LZCNT Op (Res d))
  | TYPE_BITSELECT, NoSource => Some (GenerateFlags_BITSELECT Op (Res d))
  | TYPE_RDRAND, NoSource => Some (GenerateFlags_RDRAND Op (Res d))
  | _, _ => None
  end.

(** An immediate shift by zero records nothing; an instruction that leaves some
    flags alone has the pending ones computed first. *)
Definition skips (d : DeferredFlagData) : bool :=
  match Type_ d, Sources d with
  | TYPE_LSHLI, OneSrcImmediate _ i | TYPE_LSHRI, OneSrcImmediate _ i
  | TYPE_ASHRI, OneSrcImmediate _ i => i =? 0
  | _, _ => false
  end.
Definition calculates (d : DeferredFlagData) : bool :=
  match Type_ d, Sources d with
  | (TYPE_ADD | TYPE_SUB), TwoSrcImmediate _ _ u => negb u
  | (TYPE_LSHL | TYPE_LSHR | TYPE_ASHR | TYPE_ROR | TYPE_ROL), _ => true
  | _, _ => false
  end.

Ltac unfold_generators := unfold
  GenerateFlags_ADC, GenerateFlags_ADD, GenerateFlags_BEXTR, GenerateFlags_BITSELECT,
  GenerateFlags_BLSI, GenerateFlags_BZHI, GenerateFlags_FCMP, GenerateFlags_LZCNT,
  GenerateFlags_Logical, GenerateFlags_MUL, GenerateFlags_POPCOUNT, GenerateFlags_RDRAND,
  GenerateFlags_RotateLeft, GenerateFlags_RotateRight, GenerateFlags_SBB,
  GenerateFlags_SUB, GenerateFlags_ShiftLeft, GenerateFlags_ShiftLeftImmediate,
  GenerateFlags_ShiftRight, GenerateFlags_ShiftRightImmediate,
  GenerateFlags_SignShiftRight, GenerateFlags_SignShiftRightImmediate, GenerateFlags_TZCNT,
  GenerateFlags_UMUL.

Lemma GenerateFlags_shape b s sz Op d e m b0 :
  meaning b s sz d e -> (forall b, GetSrcSize Op b = Ok (sz, b)) -> GenerateFlags Op d = Some m ->
  m b0 = (if skips d then mret tt
  else if calculates d then (_ ← CalculateDeferredFlags; set_deferred d)
  else set_deferred d) b0.
Proof.
  intros Hm HOp Hg. destruct Hm; injection Hg as <-;
    unfold skips, calculates; cbn [Type_ Sources Flags.Res]; unfold_generators;
    try match goal with up : bool |- _ => destruct up end; cbn [negb];
    try (match goal with |- context [?n =? 0] => destruct (n =? 0); try reflexivity end).
  all: unfold mbind, M_bind, mret, M_ret; try (rewrite HOp; reflexivity).
  all: destruct (CalculateDeferredFlags b0) as [[[] b1]| |]; try reflexivity; rewrite HOp; reflexivity.
Qed.

Lemma skips_kept b s sz d e : meaning b s sz d e -> skips d = true -> e = all_kept.
Proof.
  intros Hm Hk. destruct Hm; unfold skips in Hk; cbn [Type_ Sources] in Hk; try discriminate;
    unfold x86_shl, x86_shr, x86_sar, x86_shift; rewrite Hk; reflexivity.
Qed.

Lemma replaces_all b s sz d e :
  meaning b s sz d e -> skips d = false -> calculates d = false -> overwrites e = true.
Proof.
  intros Hm Hk Hc. destruct Hm; unfold skips, calculates in Hk, Hc; cbn [Type_ Sources] in Hk, Hc;
    try discriminate; try reflexivity; try (destruct up; [reflexivity|discriminate]);
    unfold x86_shl, x86_shr, x86_sar, x86_shift; rewrite Hk;
    repeat match goal with |- context [if ?c then _ else _] => destruct c end; reflexivity.
Qed.

(** The record that waits, if any, stands for the effect [e]. *)
Definition pending (b : OpDispatchBuilder) (s : IROpData) (sz : Z) (e : flag_effect) : Prop :=
  (IsDeferredFlagsStored b = true /\ e = all_kept) \/ meaning b s sz (CurrentDeferredFlags b) e.

Lemma calculate_stored b :
  IsDeferredFlagsStored b = true -> CalculateDeferredFlags b = Ok (tt, b).
Proof.
  unfold IsDeferredFlagsStored, CalculateDeferredFlags, mbind, M_bind. cbn.
  destruct (Type_ (CurrentDeferredFlags b)); try discriminate. reflexivity.
Qed.

Lemma calculate_pending b s sz e :
  good (emitter b) s -> operand_size sz -> flags_wf (Frame s) -> pending b s sz e ->
  wp CalculateDeferredFlags (fun _ b' s' =>
  IsDeferredFlagsStored b' = true /\ agrees (no_PF (ABINoPF b) e) (Frame s) (Frame s') /\
  flags_wf (Frame s')) b s.
Proof.
  intros Hg Hsz Hf [[Hn ->]|Hm]; [|apply (CalculateDeferredFlags_wp _ _ sz Hg Hsz Hf _ _ eq_refl Hm)].
  unfold wp. rewrite calculate_stored by exact Hn. exists s. split; [apply goes_refl, Hg|].
  split; [exact Hn|]. split; [apply agrees_kept|exact Hf].
Qed.

Lemma set_deferred_goes b s d b' s' :
  goes b s b' s' -> exists b2, set_deferred d b' = Ok (tt, b2) /\ goes b s b2 s' /\
  CurrentDeferredFlags b2 = d /\ ABINoPF b2 = ABINoPF b.
Proof.
  intros Hgo. pose proof (goes_ABINoPF _ _ _ _ Hgo) as Hn. destruct Hgo as [He Hg Hv]. eexists. split; [reflexivity|].
  split; [constructor; [exact He|exact Hg|exact Hv]|]. split; [reflexivity|exact Hn].
Qed.

(** Recording [d] and computing it: the image of the waiting record in between
    is that of [F1]. *)
Definition composes nopf (e0 e : flag_effect) (F F' : gmap Z Z) : Prop :=
  exists F1, agrees (no_PF nopf e0) F F1 /\ agrees (no_PF nopf e) F1 F'.

(** An image that the effect can produce. *)
Definition set_effect (x : effect) (loc : Z) (F : gmap Z Z) : gmap Z Z :=
  match x with Def v => set_rflag F loc v | _ => F end.
Definition apply_effect (e : flag_effect) (F : gmap Z Z) : gmap Z Z :=
  set_effect (eCF e) RFLAG_CF_LOC (set_effect (ePF e) RFLAG_PF_LOC (set_effect (eAF e) RFLAG_AF_LOC
    (set_effect (eZF e) RFLAG_ZF_LOC (set_effect (eSF e) RFLAG_SF_LOC (set_effect (eOF e) RFLAG_OF_LOC F))))).

Lemma rflag_effect_ne x loc loc' F : loc <> loc' -> rflag (set_effect x loc F) loc' = rflag F loc'.
Proof. intros. destruct x; [apply rflag_set_ne; assumption|reflexivity..]. Qed.

Lemma effect_agrees_set x loc F G : rflag G loc = rflag F loc -> effect_agrees x loc F (set_effect x loc G).
Proof. intros E. destruct x; cbn; [apply rflag_set|exact E|rewrite E; exact id]. Qed.

Lemma effect_agrees_ext x loc F G G' : rflag G loc = rflag G' loc -> effect_agrees x loc F G -> effect_agrees x loc F G'.
Proof. intros E. destruct x; cbn; rewrite E; exact id. Qed.

Lemma set_effect_lookup_ne x loc F a : a <> FLAGS_OFFSET + loc -> set_effect x loc F !! a = F !! a.
Proof. intros. destruct x; [apply set_rflag_lookup_ne; assumption|reflexivity..]. Qed.

Lemma agrees_apply e F : agrees e F (apply_effect e F).
Proof.
  unfold apply_effect. constructor.
  1-6: repeat first
    [ apply effect_agrees_set; rewrite ?rflag_effect_ne by discriminate; reflexivity
    | eapply effect_agrees_ext; [symmetry; apply rflag_effect_ne; discriminate|] ].
  intros a Hl. unfold arith_flags in Hl. rewrite !Forall_cons_iff in Hl. destruct Hl as (? & ? & ? & ? & ? & ? & _).
  rewrite !set_effect_lookup_ne by assumption. reflexivity.
Qed.

(** Flags that were waiting do not matter when all are overwritten. *)
Lemma composes_overwrites nopf e0 e F F' :
  overwrites e = true -> flags_wf F' -> agrees (no_PF nopf e) F F' -> composes nopf e0 e F F'.
Proof.
  intros Ho Hf Ha. exists (apply_effect (no_PF nopf e0) F). split; [apply agrees_apply|].
  apply (agrees_overwrites _ _ F); [apply overwrites_no_PF, Ho|exact Ha|exact Hf|apply agrees_apply].
Qed.

Section Record.
Variables (b : OpDispatchBuilder) (s : IROpData) (sz0 sz : Z) (e0 e : flag_effect)
  (d : DeferredFlagData).
Hypothesis Hg : good (emitter b) s.
Hypothesis Hf : flags_wf (Frame s).
Hypothesis Hs0 : operand_size sz0.
Hypothesis Hs : operand_size sz.
Hypothesis Hp : pending b s sz0 e0.
Hypothesis Hm : meaning b s sz d e.

Let Q : unit -> OpDispatchBuilder -> IROpData -> Prop := fun _ b' s' =>
  IsDeferredFlagsStored b' = true /\ composes (ABINoPF b) e0 e (Frame s) (Frame s').

(** After a computation that goes to [b1], [s1], [d] is recorded and computed. *)
Lemma record_then_calculate b1 s1 :
  goes b s b1 s1 -> flags_wf (Frame s1) ->
  wp (_ ← set_deferred d; CalculateDeferredFlags)
  (fun _ b' s' => IsDeferredFlagsStored b' = true /\
  agrees (no_PF (ABINoPF b) e) (Frame s1) (Frame s') /\ flags_wf (Frame s')) b1 s1.
Proof.
  intros Hgo Hf1. apply wp_bind. unfold wp at 1, set_deferred.
  exists s1. split; [constructor; [apply ext_refl|apply Hgo|reflexivity]|].
  eapply wp_mono.
  - apply (CalculateDeferredFlags_wp _ _ sz) with (d := d) (e := e); [apply Hgo|exact Hs|exact Hf1|reflexivity|].
    apply (meaning_reach b s); [apply Hgo|exact Hm].
  - cbn. intros _ b2 s2 _ (H1 & H2 & H3). split_and!; [exact H1| |exact H3].
    rewrite <- (goes_ABINoPF _ _ _ _ Hgo). exact H2.
Qed.

Lemma calculate_then_record :
  wp (_ ← CalculateDeferredFlags; _ ← set_deferred d; CalculateDeferredFlags) Q b s.
Proof.
  apply wp_bind. eapply wp_mono; [apply (calculate_pending _ _ _ _ Hg Hs0 Hf Hp)|].
  cbn. intros [] b1 s1 Hgo (_ & Ha & Hf1).
  eapply wp_mono; [apply (record_then_calculate _ _ Hgo Hf1)|].
  cbn. intros [] b2 s2 _ (Hn & Hb & _). split; [exact Hn|]. exists (Frame s1). auto.
Qed.

Lemma only_record : overwrites e = true -> wp (_ ← set_deferred d; CalculateDeferredFlags) Q b s.
Proof.
  intros Ho. pose proof (calculate_pending _ _ _ _ Hg Hs0 Hf Hp) as Hw.
  apply wp_emits in Hw as (u & b1 & s1 & _ & _ & _ & Ha & _).
  eapply wp_mono; [apply (record_then_calculate _ _ (goes_refl _ _ Hg) Hf)|].
  cbn. intros [] b2 s2 _ (Hn & Hb & Hf2). split; [exact Hn|].
  exists (Frame s1). split; [exact Ha|].
  apply (agrees_overwrites _ _ (Frame s)); [apply overwrites_no_PF, Ho|exact Hb|exact Hf2|apply Ha].
Qed.

Lemma record_nothing : e = all_kept -> wp CalculateDeferredFlags Q b s.
Proof.
  intros ->. eapply wp_mono; [apply (calculate_pending _ _ _ _ Hg Hs0 Hf Hp)|].
  cbn. intros [] b1 s1 _ (Hn & Ha & _). split; [exact Hn|].
  exists (Frame s1). split; [exact Ha|apply agrees_kept].
Qed.
End Record.

Lemma GenerateFlags_wp b s Op sz0 sz e0 e d m :
  good (emitter b) s -> flags_wf (Frame s) -> operand_size sz0 -> operand_size sz ->
  (forall b, GetSrcSize Op b = Ok (sz, b)) -> pending b s sz0 e0 -> meaning b s sz d e ->
  GenerateFlags Op d = Some m ->
  wp (_ ← m; CalculateDeferredFlags) (fun _ b' s' => IsDeferredFlagsStored b' = true /\
    composes (ABINoPF b) e0 e (Frame s) (Frame s')) b s.
Proof.
  intros Hgood Hwf Hsz0 Hsz HOp Hpending Hmeaning Hm.
  pose proof (GenerateFlags_shape b s sz Op d e m b Hmeaning HOp Hm) as Hsh.
  unfold wp. unfold mbind at 1, M_bind at 1. rewrite Hsh.
  destruct (skips d) eqn:Es; [|destruct (calculates d) eqn:Ec].
  - eapply (record_nothing b s sz0); eauto using skips_kept.
  - pose proof (calculate_then_record b s sz0 sz e0 e d Hgood Hwf Hsz0 Hsz Hpending Hmeaning) as Hw.
    unfold wp in Hw. rewrite <- M_bind_assoc in Hw. exact Hw.
  - exact (only_record b s sz0 sz e0 e d Hgood Hwf Hsz0 Hsz Hpending Hmeaning
      (replaces_all _ _ _ _ _ Hmeaning Es Ec)).
Qed.
End Emits.
