(* ===== verification/FlagsExamples.v ===== *)
(** * Concrete builders

    A builder whose emitted code is a list of constants, and the interpreter's
    state after it executed them: the inputs of the examples of the flag
    theorems. *)
From Stdlib Require Import ZArith Lia Bool.
From stdpp Require Import base gmap list numbers option.
From S2P Require Import Prelude IR ALUOps Interp IRSpec InterpRefines Emitter EmitterLogic Flags FlagsSpec FlagsBlocks FlagsCorrect.
#[local] Open Scope Z_scope.

(** Node 1 is the code block, node [2 + i] the [i]-th constant. *)
Definition start_emitter : IREmitter :=
  mkEmitter {[1%nat := mkOp OP_BEGINBLOCK 0 0 []]} ∅ [1%nat] [] 2.
Definition add_constant (e : IREmitter) (v : Z) : IREmitter :=
  CreateNode (mkOp (OP_CONSTANT v) 8 8 []) e.
Definition constants (vals : list Z) : IREmitter := foldl add_constant start_emitter vals.

Definition builder_of (nopf : bool) (vals : list Z) (d : DeferredFlagData) : OpDispatchBuilder :=
  mkBuilder (constants vals) d Nothing 0 0 0 0 0 false false false (mkConfig nopf false true false false) 0.

(** All seventeen flags hold [b]. *)
Definition flag_image (b : bool) : gmap Z Z :=
  foldr (fun loc F => set_rflag F loc b) ∅ FlagOffsets.

Fixpoint constant_cells (n : NodeID) (vals : list Z) : gmap nat Z :=
  match vals with [] => ∅ | v :: vals => <[n := v]> (constant_cells (S n) vals) end.
Definition state_of (vals : list Z) (F : gmap Z Z) : IROpData :=
  mkData 0 (constant_cells 2 vals) F ∅ false false 0.

Lemma flag_image_wf b : flags_wf (flag_image b).
Proof. destruct b; repeat constructor; eexists; vm_compute; reflexivity. Qed.

Lemma constants_fold e vals :
  Before e <> [] ->
  NextNode (foldl add_constant e vals) = (NextNode e + length vals)%nat /\
  Before (foldl add_constant e vals) <> [] /\
  (forall n, (n < NextNode e)%nat -> Data (foldl add_constant e vals) !! n = Data e !! n) /\
  (forall i v, vals !! i = Some v ->
     Data (foldl add_constant e vals) !! (NextNode e + i)%nat = Some (mkOp (OP_CONSTANT v) 8 8 [])).
Proof.
  revert e. induction vals as [|v vals IH]; intros e He; cbn [foldl length].
  - repeat split; [lia|exact He|]. intros i v Hv. discriminate.
  - destruct (IH (add_constant e v)) as (H1 & H2 & H3 & H4); [cbn; destruct (Before e); discriminate|].
    cbn [add_constant CreateNode NextNode] in *. repeat split; [lia|exact H2| |].
    + intros n Hn. rewrite H3 by lia. cbn. apply lookup_insert_ne. lia.
    + intros [|i] w Hw; cbn in Hw.
      * injection Hw as ->. rewrite Nat.add_0_r, H3 by lia. cbn. apply lookup_insert_eq.
      * replace (NextNode e + S i)%nat with (S (NextNode e) + i)%nat by lia. auto.
Qed.

Lemma constant_cells_spec n vals :
  (forall i v, vals !! i = Some v -> constant_cells n vals !! (n + i)%nat = Some v) /\
  (forall m, (n + length vals <= m)%nat -> constant_cells n vals !! m = None).
Proof.
  revert n. induction vals as [|v vals IH]; intros n; cbn [constant_cells length].
  - split; [discriminate|]. intros; apply lookup_empty.
  - destruct (IH (S n)) as [H1 H2]. split.
    + intros [|i] w Hw; cbn in Hw.
      * injection Hw as ->. rewrite Nat.add_0_r. apply lookup_insert_eq.
      * rewrite lookup_insert_ne by lia. replace (n + S i)%nat with (S n + i)%nat by lia. auto.
    + intros m Hm. rewrite lookup_insert_ne by lia. apply H2. lia.
Qed.

Section Constants.
Context `{Backend : IRBackend}.
Variables (nopf : bool) (vals : list Z) (d : DeferredFlagData) (F : gmap Z Z).

Lemma constants_good : good (emitter (builder_of nopf vals d)) (state_of vals F).
Proof.
  destruct (constants_fold start_emitter vals ltac:(discriminate)) as (H1 & H2 & _).
  constructor; cbn [emitter OpDispatchBuilder_HasEmitter builder_emitter builder_of].
  - exact H2.
  - intros n Hn. unfold constants in Hn. rewrite H1 in Hn. cbn in Hn.
    apply (constant_cells_spec 2 vals). lia.
Qed.

Lemma constants_val i v :
  vals !! i = Some v -> 0 <= v < 2 ^ 64 ->
  val (emitter (builder_of nopf vals d)) (state_of vals F) (2 + i) v 8.
Proof.
  intros Hv Hr. pose proof (lookup_lt_Some _ _ _ Hv).
  destruct (constants_fold start_emitter vals ltac:(discriminate)) as (H1 & _ & _ & H4).
  constructor; cbn [emitter OpDispatchBuilder_HasEmitter builder_emitter builder_of].
  - unfold constants. rewrite H1. cbn. lia.
  - exists (mkOp (OP_CONSTANT v) 8 8 []). split; [|reflexivity]. apply (H4 i v Hv).
  - unfold cell. cbn [SSAData state_of]. rewrite (proj1 (constant_cells_spec 2 vals) i v Hv). reflexivity.
  - exact Hr.
  - reflexivity.
Qed.

Lemma constants_operand sz i v :
  vals !! i = Some v -> operand_size sz -> 0 <= v < 2 ^ (8 * sz) ->
  operand (builder_of nopf vals d) (state_of vals F) sz (2 + i) v.
Proof.
  intros Hv Hs Hr. split; [exact Hr|]. exists 8.
  unfold operand_size in Hs. split; [lia|]. apply constants_val; [exact Hv|].
  pose proof (Z.pow_le_mono_r 2 (8 * sz) 64). lia.
Qed.
End Constants.
