(* ===== verification/FlagsTheorems.v ===== *)
(** * The flags are the x86 flags

    The properties of the deferred flag machinery: what the emitted code leaves
    in the flag image, that recording flags lazily changes nothing, what the
    packed flags hold, and where the carries of the immediate rotations, of
    [BLSR] and of [BLSMSK] differ from the architecture. Each property holds for
    every backend that satisfies [IRBackend]; the examples run the interpreter. *)
From Stdlib Require Import ZArith Lia Bool.
From stdpp Require Import base gmap list numbers option.
From S2P Require Import Prelude IR ALUOps Interp IRSpec InterpRefines Emitter EmitterLogic Flags FlagsSpec FlagsBlocks FlagsCorrect FlagsLazy FlagsExamples.
#[local] Open Scope Z_scope.

(** ** Properties *)

(** C1: When the pending record stands for an instruction with the architectural
    effect [e], [CalculateDeferredFlags] returns, the nodes it emits run on the
    backend, the flag image after them agrees with [e] on [CF], [PF], [AF], [ZF],
    [SF] and [OF] and is the old one elsewhere, every flag byte holds 0 or 1, and
    nothing is pending any more. *)
Theorem CalculateDeferredFlags_x86 `{Backend : IRBackend} b s sz e
    (Hgood : good (emitter b) s) (Hsz : operand_size sz) (Hwf : flags_wf (Frame s))
    (Hmeaning : meaning b s sz (CurrentDeferredFlags b) e) :
  exists b' s', emits CalculateDeferredFlags b s tt b' s' /\
    agrees (no_PF (ABINoPF b) e) (Frame s) (Frame s') /\ flags_wf (Frame s') /\
    IsDeferredFlagsStored b' = true.
Proof.
  destruct (wp_emits _ _ _ _ (CalculateDeferredFlags_wp _ _ _ Hgood Hsz Hwf _ _ eq_refl Hmeaning))
    as ([] & b' & s' & Hem & _ & Hn & Ha & Hf).
  exists b', s'. auto.
Qed.

(** [0xFF + 2] on bytes, pending. *)
Definition add_record : DeferredFlagData := mkDeferred TYPE_ADD 1 4%nat (TwoSrcImmediate 2%nat 3%nat true).
Definition add_builder : OpDispatchBuilder := builder_of false [0xFF; 2; 1] add_record.
Definition add_state : IROpData := state_of [0xFF; 2; 1] (flag_image false).

Lemma add_meaning : meaning add_builder add_state 1 add_record (x86_add 8 0xFF 2 0).
Proof.
  apply (meaning_ADD add_builder add_state 1 4%nat 2%nat 3%nat 0xFF 2 true);
    [apply (constants_operand _ _ _ _ _ 2) | apply (constants_operand _ _ _ _ _ 0)
    |apply (constants_operand _ _ _ _ _ 1)]; try reflexivity; try (left; reflexivity); vm_compute; split; congruence.
Qed.

Lemma CalculateDeferredFlags_x86_witness :
  exists b' s', emits CalculateDeferredFlags add_builder add_state tt b' s' /\
    agrees (x86_add 8 0xFF 2 0) (flag_image false) (Frame s') /\ flags_wf (Frame s') /\
    IsDeferredFlagsStored b' = true.
Proof.
  apply (CalculateDeferredFlags_x86 add_builder add_state 1 (x86_add 8 0xFF 2 0)).
  - apply constants_good.
  - left. reflexivity.
  - apply flag_image_wf.
  - apply add_meaning.
Defined.

(** C21: Recording lazily is sound: whatever waits (an effect [e0]), after the
    [GenerateFlags_*] call that records [d] (an effect [e]) and the final
    [CalculateDeferredFlags], the flag image is one that executing [e0] and then
    [e] can produce, although the code for [e0] is often never emitted. *)
Theorem GenerateFlags_lazy `{Backend : IRBackend} b s Op sz0 sz e0 e d m
    (Hgood : good (emitter b) s) (Hwf : flags_wf (Frame s))
    (Hsz0 : operand_size sz0) (Hsz : operand_size sz)
    (HOp : forall b, GetSrcSize Op b = Ok (sz, b))
    (Hpending : pending b s sz0 e0) (Hmeaning : meaning b s sz d e)
    (Hm : GenerateFlags Op d = Some m) :
  exists b' s', emits (_ ← m; CalculateDeferredFlags) b s tt b' s' /\
    composes (ABINoPF b) e0 e (Frame s) (Frame s') /\ IsDeferredFlagsStored b' = true.
Proof.
  pose proof (GenerateFlags_wp b s Op sz0 sz e0 e d m Hgood Hwf Hsz0 Hsz HOp Hpending Hmeaning Hm) as Hw.
  apply wp_emits in Hw as ([] & b' & s' & Hem & _ & Hn & Hc). exists b', s'. auto.
Qed.

(** A byte subtraction that keeps the carry ([DEC]) after the pending addition. *)
Definition dec_record : DeferredFlagData := mkDeferred TYPE_SUB 1 2%nat (TwoSrcImmediate 4%nat 3%nat false).

Lemma GenerateFlags_lazy_witness :
  exists b' s', emits (_ ← GenerateFlags_SUB (Z.shiftl 1 22) 2%nat 4%nat 3%nat false; CalculateDeferredFlags)
      add_builder add_state tt b' s' /\
    composes false (x86_add 8 0xFF 2 0) (keep_CF (x86_sub 8 1 2 0)) (flag_image false) (Frame s') /\
    IsDeferredFlagsStored b' = true.
Proof.
  apply (GenerateFlags_lazy add_builder add_state (Z.shiftl 1 22) 1 1 (x86_add 8 0xFF 2 0)
    (keep_CF (x86_sub 8 1 2 0)) dec_record).
  - apply constants_good.
  - apply flag_image_wf.
  - left. reflexivity.
  - left. reflexivity.
  - reflexivity.
  - right. apply add_meaning.
  - apply (meaning_SUB add_builder add_state 1 2%nat 4%nat 3%nat 1 2 false);
      [apply (constants_operand _ _ _ _ _ 0) | apply (constants_operand _ _ _ _ _ 2)
      |apply (constants_operand _ _ _ _ _ 1)]; try reflexivity; try (left; reflexivity); vm_compute; split; congruence.
  - reflexivity.
Defined.

(** ** Carries that differ from the architecture

    The immediate rotations and two of the bit-manipulation instructions leave a
    carry in the flag image that is not the one x86 defines. *)
(** The architectural carries of the rotations, as bits of the source. *)
Lemma rotr_msb w a n : 0 < n < w -> 0 <= a < 2 ^ w -> msb w (rotr w a n) = Z.testbit a (n - 1).
Proof.
  intros Hn Ha. unfold msb, rotr. rewrite Z.mod_small by lia.
  rewrite <- lor_fields by (try lia; apply div_pow2_range_sub; lia).
  rewrite testbit_uint, Z.lor_spec, Z.mul_pow2_bits, <- Z.shiftr_div_pow2, Z.shiftr_spec by lia.
  rewrite (testbit_high w a) by lia. replace (w - 1 <? w) with true by lia.
  cbn. f_equal. lia.
Qed.

Lemma rotl_lsb w a n : 0 < n < w -> 0 <= a < 2 ^ w -> Z.testbit (rotl w a n) 0 = Z.testbit a (w - n).
Proof.
  intros Hn Ha. unfold rotl. rewrite Z.mod_small by lia. rewrite Z.add_comm.
  pose proof (div_pow2_range_sub a w (w - n) ltac:(lia) Ha) as Hd.
  replace (w - (w - n)) with n in Hd by lia. rewrite <- lor_fields by (exact Hd || lia).
  rewrite testbit_uint, Z.lor_spec, Z.mul_pow2_bits, <- Z.shiftr_div_pow2, Z.shiftr_spec by lia.
  rewrite (Z.testbit_neg_r a (0 - n)) by lia. replace (0 <? w) with true by lia.
  rewrite orb_false_r. reflexivity.
Qed.

(** A rotation to the right by an immediate [n] leaves bit [w - n] of its
    [w]-bit source in [CF]; the architecture defines the most significant bit of
    the result, which is bit [n - 1] of the source. *)
Theorem RotateRightImmediate_carry `{Backend : IRBackend} b s sz Res Src1 r v n k1 k2
    (Hgood : good (emitter b) s) (Hsz : operand_size sz)
    (HRes : val (emitter b) s Res r k1) (HSrc : val (emitter b) s Src1 v k2)
    (Hv : 0 <= v < 2 ^ (8 * sz)) (Hn : 0 < n < 8 * sz) :
  exists b' s', emits (CalculcateFlags_RotateRightImmediate sz Res Src1 n) b s tt b' s' /\
    rflag (Frame s') RFLAG_CF_LOC = Some (Z.testbit v (8 * sz - n)) /\
    eCF (x86_ror (8 * sz) (rotr (8 * sz) v n) n) = Def (Z.testbit v (n - 1)).
Proof.
  pose proof (RotateRightImmediate_sets b s (ABINoPF b) sz Hgood eq_refl Hsz Res Src1 r v n k1 k2
    HRes HSrc ltac:(lia)) as Hw.
  apply wp_emits in Hw as ([] & b' & s' & Hem & _ & Ha). exists b', s'. split; [exact Hem|].
  unfold rotate_imm, x86_ror, x86_rotate in *. replace (n =? 0) with false in * by lia.
  split; [|cbn [eCF]; rewrite rotr_msb by lia; reflexivity].
  destruct (ABINoPF b); apply (agrees_CF _ _ _ Ha).
Qed.

(** The byte 2 rotated right by two: [CF] is bit 6, not bit 1. *)
Definition rotate_builder (r : Z) : OpDispatchBuilder :=
  builder_of false [2; r] (mkDeferred TYPE_NONE 0 0%nat NoSource).

Lemma RotateRightImmediate_carry_witness :
  exists b' s', emits (CalculcateFlags_RotateRightImmediate 1 3%nat 2%nat 2) (rotate_builder 0x80)
      (state_of [2; 0x80] (flag_image false)) tt b' s' /\
    rflag (Frame s') RFLAG_CF_LOC = Some false /\
    eCF (x86_ror 8 (rotr 8 2 2) 2) = Def true.
Proof.
  apply (RotateRightImmediate_carry (rotate_builder 0x80) (state_of [2; 0x80] (flag_image false))
    1 3%nat 2%nat 0x80 2 2 8 8).
  - apply constants_good.
  - left. reflexivity.
  - apply (constants_val _ _ _ _ 1); [reflexivity|lia].
  - apply (constants_val _ _ _ _ 0); [reflexivity|lia].
  - lia.
  - lia.
Defined.

(** A rotation to the left by an immediate [n] leaves bit [n] of its [w]-bit
    source in [CF]; the architecture defines bit 0 of the result, which is bit
    [w - n] of the source. *)
Theorem RotateLeftImmediate_carry `{Backend : IRBackend} b s sz Res Src1 v n k2
    (Hgood : good (emitter b) s) (Hsz : operand_size sz) (HSrc : val (emitter b) s Src1 v k2)
    (Hv : 0 <= v < 2 ^ (8 * sz)) (Hn : 0 < n < 8 * sz) :
  exists b' s', emits (CalculcateFlags_RotateLeftImmediate sz Res Src1 n) b s tt b' s' /\
    rflag (Frame s') RFLAG_CF_LOC = Some (Z.testbit v n) /\
    eCF (x86_rol (8 * sz) (rotl (8 * sz) v n) n) = Def (Z.testbit v (8 * sz - n)).
Proof.
  pose proof (RotateLeftImmediate_sets b s (ABINoPF b) sz Hgood eq_refl Hsz Res Src1 v n k2
    HSrc ltac:(unfold operand_size in Hsz; lia)) as Hw.
  apply wp_emits in Hw as ([] & b' & s' & Hem & _ & Ha). exists b', s'. split; [exact Hem|].
  unfold rotate_imm, x86_rol, x86_rotate in *. replace (n =? 0) with false in * by lia.
  split; [|cbn [eCF]; rewrite rotl_lsb by lia; reflexivity].
  destruct (ABINoPF b); apply (agrees_CF _ _ _ Ha).
Qed.

(** The byte 2 rotated left by one: [CF] is set although bit 7 was clear. *)
Lemma RotateLeftImmediate_carry_witness :
  exists b' s', emits (CalculcateFlags_RotateLeftImmediate 1 3%nat 2%nat 1) (rotate_builder 4)
      (state_of [2; 4] (flag_image false)) tt b' s' /\
    rflag (Frame s') RFLAG_CF_LOC = Some true /\
    eCF (x86_rol 8 (rotl 8 2 1) 1) = Def false.
Proof.
  apply (RotateLeftImmediate_carry (rotate_builder 4) (state_of [2; 4] (flag_image false))
    1 3%nat 2%nat 2 1 8).
  - apply constants_good.
  - left. reflexivity.
  - apply (constants_val _ _ _ _ 0); [reflexivity|lia].
  - lia.
  - lia.
Defined.

Lemma agrees_Def_CF nopf e F F' v :
  agrees (no_PF nopf e) F F' -> eCF e = Def v -> rflag F' RFLAG_CF_LOC = Some v.
Proof. intros Ha He. pose proof (agrees_CF _ _ _ Ha) as H. destruct nopf; cbn in H; rewrite He in H; exact H. Qed.

(** [BLSR] and [BLSMSK] leave in [CF] whether their source is non-zero: the
    resulting image never agrees with the architectural effect, which sets [CF]
    for a zero source. *)
Theorem BLSR_BLSMSK_carry `{Backend : IRBackend} b s sz Res Src r a k (blsr : bool)
    (Hgood : good (emitter b) s) (Hsz : operand_size sz)
    (HRes : operand b s sz Res r) (HSrc : val (emitter b) s Src a k) :
  exists b' s',
    emits (if blsr then CalculcateFlags_BLSR sz Res Src else CalculcateFlags_BLSMSK Src) b s tt b' s' /\
    rflag (Frame s') RFLAG_CF_LOC = Some (negb (a =? 0)) /\
    ~ agrees (no_PF (ABINoPF b) (if blsr then x86_blsr (8 * sz) a r else x86_blsmsk (8 * sz) a r))
        (Frame s) (Frame s').
Proof.
  assert (exists e, eCF e = Def (negb (a =? 0)) /\ sets b s (ABINoPF b)
    (if blsr then CalculcateFlags_BLSR sz Res Src else CalculcateFlags_BLSMSK Src) e) as (e & He & Hw).
  { destruct blsr; eexists; (split; [|first [eapply BLSR_sets; eauto | eapply BLSMSK_sets; eauto]]); reflexivity. }
  apply wp_emits in Hw as ([] & b' & s' & Hem & _ & Ha). exists b', s'. split; [exact Hem|].
  pose proof (agrees_Def_CF _ _ _ _ _ Ha He) as HCF. split; [exact HCF|]. intros Hx.
  apply (agrees_Def_CF _ _ _ _ (a =? 0)) in Hx; [|destruct blsr; reflexivity].
  rewrite HCF in Hx. destruct (a =? 0); discriminate.
Qed.

Lemma BLSR_BLSMSK_carry_witness :
  exists b' s', emits (CalculcateFlags_BLSR 1 3%nat 2%nat) (rotate_builder 0)
      (state_of [2; 0] (flag_image false)) tt b' s' /\
    rflag (Frame s') RFLAG_CF_LOC = Some true /\
    ~ agrees (x86_blsr 8 2 0) (flag_image false) (Frame s').
Proof.
  apply (BLSR_BLSMSK_carry (rotate_builder 0) (state_of [2; 0] (flag_image false)) 1 3%nat 2%nat 0 2 8 true).
  - apply constants_good.
  - left. reflexivity.
  - apply (constants_operand _ _ _ _ _ 1); [reflexivity|left; reflexivity|lia].
  - apply (constants_val _ _ _ _ 0); [reflexivity|lia].
Defined.

(** The outcome of the emitted nodes on a backend. *)
Definition run_emitted `{Backend : IRBackend} {A} (m : B A) (b : OpDispatchBuilder) (s : IROpData)
    : outcome IROpData :=
  match m b with
  | Ok (_, b') =>
      run_nodes (Data (emitter b')) (drop (length (Before (emitter b))) (Before (emitter b'))) s
  | Assert => Assert
  | Undef => Undef
  end.

Definition is_Ok {A} (o : outcome A) : bool := match o with Ok _ => true | _ => false end.
Definition is_Undef {A} (o : outcome A) : bool := match o with Undef => true | _ => false end.

(** The code for the flags of a byte shifted left by an immediate runs on the
    interpreter for the amounts 0 to 8; for the amounts 9 to 31 that x86 allows
    the bit position of the carry wraps around in its 8-bit immediate, and the
    interpreter shifts a 64-bit integer by more than its width. *)
Theorem ShiftLeftImmediate_past_width :
  let code n := run_emitted (CalculcateFlags_ShiftLeftImmediate 1 3%nat 2%nat n)
                  (rotate_builder 0) (state_of [2; 0] (flag_image false)) in
  forallb (fun n => is_Ok (code n)) (seqZ 0 9) = true /\
  forallb (fun n => is_Undef (code n)) (seqZ 9 23) = true.
Proof. split; vm_compute; reflexivity. Qed.
