(* ===== verification/PackedFlags.v ===== *)
(** * Packed flags

    [SetPackedRFLAG] and [GetPackedRFLAG]: the flag image against the bits of the
    architectural [EFLAGS] word. *)
From Stdlib Require Import ZArith Lia Bool.
From stdpp Require Import base gmap list numbers option.
From S2P Require Import Prelude IR ALUOps Interp IRSpec InterpRefines Emitter EmitterLogic Flags FlagsSpec FlagsBlocks FlagsCorrect FlagsLazy FlagsExamples FlagsTheorems.
#[local] Open Scope Z_scope.

(** The image after the bits of [v] at the locations [l] were stored. *)
Definition unpacked (v : Z) (l : list Z) (F : gmap Z Z) : gmap Z Z :=
  foldl (fun F loc => set_rflag F loc (Z.testbit v loc)) F l.

Definition flag_bit (F : gmap Z Z) (loc : Z) : bool := default false (rflag F loc).

(** The word that collects the flags at [l], bit 1 being always set. *)
Definition packed (o : Z) (l : list Z) (F : gmap Z Z) : Z :=
  foldl (fun o loc => Z.lor o (Z.b2z (flag_bit F loc) * 2 ^ loc)) o l.

Definition packed_flags (Lower8 : bool) : list Z :=
  take (if Lower8 then 5%nat else length FlagOffsets) FlagOffsets.

Lemma packed_flags_range Lower8 : Forall (fun loc => 0 <= loc < 32) (packed_flags Lower8).
Proof. destruct Lower8; apply (bool_decide_unpack _); vm_compute; exact I. Qed.

Lemma packed_flags_incl Lower8 : Forall (fun loc => In loc FlagOffsets) (packed_flags Lower8).
Proof. destruct Lower8; apply List.Forall_forall; cbn; tauto. Qed.

Lemma packed_flags_NoDup Lower8 : base.NoDup (packed_flags Lower8).
Proof. destruct Lower8; apply (bool_decide_unpack _); vm_compute; exact I. Qed.

(** ** Images and words *)

Lemma unpacked_lookup_ne v l F a :
  Forall (fun loc => a <> FLAGS_OFFSET + loc) l -> unpacked v l F !! a = F !! a.
Proof.
  revert F. induction l as [|loc l IH]; intros F H; [reflexivity|].
  apply Forall_cons_1 in H as [H1 H2]. cbn [unpacked foldl]. fold (unpacked v l (set_rflag F loc (Z.testbit v loc))).
  rewrite IH by exact H2. apply set_rflag_lookup_ne. exact H1.
Qed.

Lemma unpacked_rflag_ne v l F loc : ~ In loc l -> rflag (unpacked v l F) loc = rflag F loc.
Proof.
  intros H. unfold rflag. rewrite unpacked_lookup_ne; [reflexivity|].
  apply List.Forall_forall. intros x Hx E. apply H. replace loc with x by lia. exact Hx.
Qed.

Lemma unpacked_rflag v l F loc :
  In loc l -> rflag (unpacked v l F) loc = Some (Z.testbit v loc).
Proof.
  revert F. induction l as [|x l IH]; intros F H; [contradiction|].
  cbn [unpacked foldl]. fold (unpacked v l (set_rflag F x (Z.testbit v x))).
  destruct (in_dec Z.eq_dec loc l) as [Hin|Hout]; [apply IH, Hin|].
  destruct H as [->|H]; [|contradiction]. rewrite unpacked_rflag_ne by exact Hout. apply rflag_set.
Qed.

Lemma unpacked_wf v l F : flags_wf F -> flags_wf (unpacked v l F).
Proof.
  unfold flags_wf. rewrite !List.Forall_forall. intros H loc Hin.
  destruct (in_dec Z.eq_dec loc l) as [Hl|Hl].
  - rewrite unpacked_rflag by exact Hl. eauto.
  - rewrite unpacked_rflag_ne by exact Hl. auto.
Qed.

Lemma packed_nonneg o l F : 0 <= o -> Forall (fun loc => 0 <= loc < 32) l -> 0 <= packed o l F.
Proof.
  revert o. induction l as [|loc l IH]; intros o Ho H; [exact Ho|].
  apply Forall_cons_1 in H as [Hl H]. cbn [packed foldl]. apply IH; [|exact H].
  apply Z.lor_nonneg. split; [exact Ho|]. destruct (flag_bit F loc); cbn [Z.b2z]; [|lia].
  pose proof (pow2_pos loc). lia.
Qed.

(** Bit [i] of the packed word. *)
Lemma packed_testbit o l F i :
  Forall (fun loc => 0 <= loc < 32) l -> 0 <= i ->
  Z.testbit (packed o l F) i = Z.testbit o i || (existsb (Z.eqb i) l && flag_bit F i).
Proof.
  intros Hl Hi. revert o. induction Hl as [|loc l Hloc Hl IH]; intros o.
  - cbn. rewrite orb_false_r. reflexivity.
  - cbn [packed foldl existsb]. fold (packed (Z.lor o (Z.b2z (flag_bit F loc) * 2 ^ loc)) l F).
    rewrite IH, Z.lor_spec, Z.mul_pow2_bits, testbit_b2z by lia.
    destruct (Z.eqb_spec i loc) as [->|Hne].
    + rewrite Z.sub_diag. cbn. destruct (Z.testbit o loc), (flag_bit F loc), (existsb (Z.eqb loc) l); reflexivity.
    + replace (i - loc =? 0) with false by lia. cbn. rewrite orb_false_r. reflexivity.
Qed.

(** The bits of [EFLAGS] that FEX keeps. *)
Definition flags_mask (l : list Z) : Z := foldr (fun loc m => Z.lor (2 ^ loc) m) 0 l.

Lemma flags_mask_testbit l i :
  Forall (fun loc => 0 <= loc < 32) l -> 0 <= i ->
  Z.testbit (flags_mask l) i = existsb (Z.eqb i) l.
Proof.
  intros Hl Hi. induction Hl as [|loc l Hloc Hl IH]; [apply Z.bits_0|].
  cbn [flags_mask foldr existsb]. fold (flags_mask l).
  rewrite Z.lor_spec, IH, Z.pow2_bits_eqb by lia. rewrite (Z.eqb_sym loc). reflexivity.
Qed.

Lemma packed_unpacked o v l F :
  Forall (fun loc => 0 <= loc < 32) l -> packed o l (unpacked v l F) = Z.lor o (Z.land v (flags_mask l)).
Proof.
  intros Hl. apply Z.bits_inj'. intros i Hi.
  rewrite packed_testbit, Z.lor_spec, Z.land_spec, flags_mask_testbit by (assumption || lia).
  f_equal. destruct (existsb (Z.eqb i) l) eqn:E; cbn; [|rewrite andb_false_r; reflexivity].
  apply existsb_exists in E as (x & Hx & Ei). apply Z.eqb_eq in Ei as <-.
  unfold flag_bit. rewrite unpacked_rflag by exact Hx. cbn. rewrite andb_true_r. reflexivity.
Qed.

(** ** Emission leaves the pending record alone *)

Definition keeps {A} (m : B A) : Prop :=
  forall b a b', m b = Ok (a, b') -> CurrentDeferredFlags b' = CurrentDeferredFlags b.

Lemma keeps_ret {A} (a : A) : keeps (mret a).
Proof. intros b a' b' H. injection H as _ <-. reflexivity. Qed.
Lemma keeps_bind {A C} (m : B A) (f : A -> B C) : keeps m -> (forall a, keeps (f a)) -> keeps (m ≫= f).
Proof.
  intros Hm Hf b c b' H. unfold mbind, M_bind in H.
  destruct (m b) as [[a b1]| |] eqn:E; try discriminate.
  rewrite (Hf _ _ _ _ H). apply (Hm _ _ _ E).
Qed.
Lemma keeps_alloc op sz args : keeps (AllocateOp op sz args).
Proof. intros b a b' H. injection H as _ <-. reflexivity. Qed.
Lemma keeps_GetOp n : keeps (GetOp n).
Proof.
  intros b a b' H. unfold GetOp in H.
  destruct (Data (emitter b) !! n); [|discriminate]. injection H as _ <-. reflexivity.
Qed.
Lemma keeps_flagsOp f : keeps (set_flagsOp f).
Proof. intros b a b' H. injection H as _ <-. reflexivity. Qed.
Create HintDb keeps.
#[export] Hint Resolve keeps_ret keeps_alloc keeps_GetOp keeps_flagsOp : keeps.
Ltac keeps := repeat (apply keeps_bind; [|intros ?]); auto with keeps.

Lemma keeps_SetRFLAG loc n : keeps (SetRFLAG loc n).
Proof. unfold SetRFLAG, _Bfe, _BfeSized, _StoreFlag. keeps. Qed.
#[export] Hint Resolve keeps_SetRFLAG : keeps.
Lemma keeps_for_each {A} (f : A -> B unit) l : (forall a, keeps (f a)) -> keeps (for_each f l).
Proof. intros Hf. induction l as [|a l IH]; cbn [for_each]; keeps. Qed.
Lemma keeps_pack_flags n l : keeps (pack_flags n l).
Proof.
  revert n. induction l as [|loc l IH]; intros n; cbn [pack_flags];
    unfold _LoadFlag, _BfeSized, _Constant, _Lshl, emit_max4_1, _Or, emit_infer2; keeps.
Qed.
#[export] Hint Resolve keeps_for_each keeps_pack_flags : keeps.

Lemma stored_keeps {A} (m : B A) b a b' :
  keeps m -> m b = Ok (a, b') -> IsDeferredFlagsStored b = true -> IsDeferredFlagsStored b' = true.
Proof. intros Hm H. unfold IsDeferredFlagsStored. rewrite (Hm _ _ _ H). auto. Qed.

(** ** The emitted code *)

Section Packed.
Context `{Backend : IRBackend}.
Implicit Types (b : OpDispatchBuilder) (s : IROpData).

Definition store_bit (Src OneConst : NodeID) (FlagOffset : Z) : B unit :=
  c ← _Constant FlagOffset; l ← _Lshr Src c; Tmp ← _And l OneConst; SetRFLAG FlagOffset Tmp.

Lemma wp_store_bit Src One loc v k ko Q b s :
  good (emitter b) s -> val (emitter b) s Src v k -> val (emitter b) s One 1 ko -> 0 <= loc < 32 ->
  stores (set_rflag (Frame s) loc (Z.testbit v loc)) Q b s -> wp (store_bit Src One loc) Q b s.
Proof.
  intros Hg HS HO Hl HQ. pose proof (val_bounds _ _ _ _ _ HS). start. unfold store_bit. repeat block.
  apply HQ; [assumption|]. rewrite uint_small, Z.mod_small in * by lia.
  rewrite <- Z.bit0_odd, Z.land_spec, Z.bit0_odd, odd_div2n_bit, andb_true_r in * by lia. assumption.
Qed.

Lemma wp_store_bits l Src One v k ko Q b s :
  good (emitter b) s -> val (emitter b) s Src v k -> val (emitter b) s One 1 ko ->
  Forall (fun loc => 0 <= loc < 32) l ->
  stores (unpacked v l (Frame s)) Q b s -> wp (for_each (store_bit Src One) l) Q b s.
Proof.
  revert b s. induction l as [|loc l IH]; intros b s Hg HS HO Hl HQ; cbn [for_each].
  - apply wp_ret; [exact Hg|]. apply HQ; [apply goes_refl, Hg|reflexivity].
  - apply Forall_cons_1 in Hl as [Hloc Hl]. apply wp_bind.
    eapply wp_store_bit; [exact Hg|exact HS|exact HO|exact Hloc|].
    intros b1 s1 Hgo HF. eapply IH;
      [apply Hgo|eapply val_mono; [apply Hgo|exact HS]|eapply val_mono; [apply Hgo|exact HO]|exact Hl|].
    intros b2 s2 Hgo2 HF2. apply HQ; [eapply goes_trans; eassumption|]. rewrite HF2, HF. reflexivity.
Qed.

Lemma wp_pack_step Original loc l o k (Q : NodeID -> OpDispatchBuilder -> IROpData -> Prop) b s :
  good (emitter b) s -> val (emitter b) s Original o k -> 0 <= loc < 32 ->
  is_Some (rflag (Frame s) loc) ->
  next (Z.lor o (Z.b2z (flag_bit (Frame s) loc) * 2 ^ loc)) (Z.max k 4)
  (fun n => wp (pack_flags n l) Q) b s ->
  wp (pack_flags Original (loc :: l)) Q b s.
Proof.
  intros Hg HO Hl [f Hf] HQ. unfold flag_bit in HQ. rewrite Hf in HQ. apply rflag_byte in Hf.
  cbn [pack_flags]. apply wp_bind. eapply wp_LoadFlag; [exact Hg|exact Hf|].
  pose proof (goes_refl b s Hg) as Hgo. rewrite uint_small by (destruct f; cbn; lia).
  intro_val. repeat block; [cbn; lia|]. repeat block.
  apply HQ; [assumption|assumption|].
  match goal with H : val _ _ ?n ?v _ |- val _ _ ?n ?v' _ => replace v' with v; [exact H|] end.
  f_equal. rewrite Z.pow_0_r, Z.div_1_r. rewrite !(uint_small 64) by lia.
  change (8 * Z.max 4 (if 4 =? 0 then 1 else 4)) with 32.
  rewrite (Z.mod_small loc), (Z.mod_small (Z.b2z f)) by (destruct f; cbn; lia).
  apply uint_small. cbn [default from_option]. unfold id.
  pose proof (pow2_pos loc). pose proof (Z.pow_le_mono_r 2 loc 31 ltac:(lia) ltac:(lia)).
  destruct f; cbn [Z.b2z]; lia.
Qed.

Lemma wp_pack_flags l Original o k (Q : NodeID -> OpDispatchBuilder -> IROpData -> Prop) b s :
  good (emitter b) s -> val (emitter b) s Original o k -> Forall (fun loc => 0 <= loc < 32) l ->
  Forall (fun loc => is_Some (rflag (Frame s) loc)) l ->
  (forall k', next (packed o l (Frame s)) k' Q b s) -> wp (pack_flags Original l) Q b s.
Proof.
  revert b s o k Original. induction l as [|loc l IH]; intros b s o k Original Hg HO Hl Hf HQ; cbn [pack_flags].
  - apply wp_ret; [exact Hg|]. apply (HQ k); [apply goes_refl, Hg|reflexivity|exact HO].
  - apply Forall_cons_1 in Hl as [Hloc Hl]. apply Forall_cons_1 in Hf as [Hfl Hf].
    eapply wp_pack_step; [exact Hg|exact HO|exact Hloc|exact Hfl|].
    intros n b1 s1 Hgo HF Hv. eapply IH; [apply Hgo|exact Hv|exact Hl|rewrite HF; exact Hf|].
    intros k' n2 b2 s2 Hgo2 HF2 Hv2. rewrite HF in HF2, Hv2.
    apply (HQ k'); [eapply goes_trans; eassumption|exact HF2|exact Hv2].
Qed.

(** A kept record stays a fact of the postcondition. *)
Lemma wp_keeps {A} (m : B A) Q b s :
  keeps m -> wp m Q b s ->
  wp m (fun a b' s' => CurrentDeferredFlags b' = CurrentDeferredFlags b /\ Q a b' s') b s.
Proof.
  unfold wp. intros Hm. destruct (m b) as [[a b']| |] eqn:E; auto.
  intros (s' & Hgo & HQ). exists s'. split; [exact Hgo|]. split; [exact (Hm _ _ _ E)|exact HQ].
Qed.

Lemma pack_wp Lower8 b s :
  good (emitter b) s -> flags_wf (Frame s) ->
  wp (Original ← _Constant 2; pack_flags Original (packed_flags Lower8))
  (fun n b' s' => CurrentDeferredFlags b' = CurrentDeferredFlags b /\ Frame s' = Frame s /\
  exists k, val (emitter b') s' n (packed 2 (packed_flags Lower8) (Frame s)) k) b s.
Proof.
  intros Hg Hf. apply wp_keeps; [unfold _Constant; keeps|]. apply wp_bind.
  apply wp_Constant; [exact Hg|]. intros n b1 s1 Hgo HF Hv.
  eapply wp_pack_flags; [apply Hgo|exact Hv|apply packed_flags_range| |].
  - rewrite HF. eapply List.Forall_impl, packed_flags_incl. intros loc Hin.
    unfold flags_wf in Hf. rewrite List.Forall_forall in Hf. auto.
  - intros k n2 b2 s2 Hgo2 HF2 Hv2. rewrite HF in *. eauto.
Qed.

Lemma GetPackedRFLAG_wp Lower8 sz e b s :
  good (emitter b) s -> operand_size sz -> flags_wf (Frame s) -> pending b s sz e ->
  wp (GetPackedRFLAG Lower8) (fun n b' s' => IsDeferredFlagsStored b' = true /\
  agrees (no_PF (ABINoPF b) e) (Frame s) (Frame s') /\
  exists k, val (emitter b') s' n (packed 2 (packed_flags Lower8) (Frame s')) k) b s.
Proof.
  intros Hg Hsz Hf Hp. unfold GetPackedRFLAG. apply wp_bind.
  eapply wp_mono; [apply (calculate_pending _ _ _ _ Hg Hsz Hf Hp)|].
  cbn beta. intros [] b1 s1 Hgo (Hn & Ha & Hf1).
  eapply wp_mono; [apply (pack_wp Lower8 b1 s1); [apply Hgo|exact Hf1]|].
  cbn beta. intros n b2 s2 Hgo2 (Hd & HF & k & Hv). rewrite HF.
  split; [|eauto]. unfold IsDeferredFlagsStored in *. rewrite Hd. exact Hn.
Qed.

Lemma unpack_wp l Src v k b s :
  good (emitter b) s -> val (emitter b) s Src v k -> Forall (fun loc => 0 <= loc < 32) l ->
  wp (OneConst ← _Constant 1; for_each (store_bit Src OneConst) l)
  (fun _ b' s' => CurrentDeferredFlags b' = CurrentDeferredFlags b /\
  Frame s' = unpacked v l (Frame s)) b s.
Proof.
  intros Hg Hv Hl. apply wp_keeps.
  - unfold _Constant. keeps. apply keeps_for_each. intros loc.
    unfold store_bit, _Constant, _Lshr, emit_max4_1, _And, emit_infer2. keeps.
  - apply wp_bind, wp_Constant; [exact Hg|]. intros n b1 s1 Hgo HF Hv1.
    eapply wp_store_bits; [apply Hgo|eapply val_mono; [apply Hgo|exact Hv]|exact Hv1|exact Hl|].
    intros b2 s2 Hgo2 HF2. rewrite HF2, HF. reflexivity.
Qed.

(** The lower flags keep what is pending; a full write drops it. *)
Lemma SetPackedRFLAG_full_wp Src v k b s :
  good (emitter b) s -> val (emitter b) s Src v k ->
  wp (SetPackedRFLAG false Src) (fun _ b' s' => IsDeferredFlagsStored b' = true /\
  Frame s' = unpacked v FlagOffsets (Frame s)) b s.
Proof.
  intros Hg Hv. unfold SetPackedRFLAG. apply wp_bind. apply wp_InvalidateDeferredFlags; [exact Hg|].
  intros b1 Hgo Hn.
  eapply wp_mono; [apply (unpack_wp (packed_flags false) Src v k b1 s);
    [apply Hgo|eapply val_mono; [apply Hgo|exact Hv]|apply packed_flags_range]|].
  cbn beta. intros [] b2 s2 _ (Hd & HF). split; [|exact HF].
  unfold IsDeferredFlagsStored in *. rewrite Hd. exact Hn.
Qed.

Lemma SetPackedRFLAG_lower_wp Src v k sz e b s :
  good (emitter b) s -> operand_size sz -> flags_wf (Frame s) -> pending b s sz e ->
  val (emitter b) s Src v k ->
  wp (SetPackedRFLAG true Src) (fun _ b' s' => IsDeferredFlagsStored b' = true /\
  exists F1, agrees (no_PF (ABINoPF b) e) (Frame s) F1 /\
  Frame s' = unpacked v (packed_flags true) F1) b s.
Proof.
  intros Hg Hsz Hf Hp Hv. unfold SetPackedRFLAG. apply wp_bind.
  eapply wp_mono; [apply (calculate_pending _ _ _ _ Hg Hsz Hf Hp)|].
  cbn beta. intros [] b1 s1 Hgo (Hn & Ha & Hf1).
  eapply wp_mono; [apply (unpack_wp (packed_flags true) Src v k b1 s1);
    [apply Hgo|eapply val_mono; [apply Hgo|exact Hv]|apply packed_flags_range]|].
  cbn beta. intros [] b2 s2 _ (Hd & HF). split; [|eauto].
  unfold IsDeferredFlagsStored in *. rewrite Hd. exact Hn.
Qed.

(** Writing all the flags and reading them back. *)
Lemma packed_round_trip_wp Src v k b s :
  good (emitter b) s -> flags_wf (Frame s) -> val (emitter b) s Src v k ->
  wp (_ ← SetPackedRFLAG false Src; GetPackedRFLAG false) (fun n b' s' =>
  exists k', val (emitter b') s' n (Z.lor 2 (Z.land v (flags_mask FlagOffsets))) k') b s.
Proof.
  intros Hg Hf Hv. apply wp_bind. eapply wp_mono; [apply (SetPackedRFLAG_full_wp Src v k); assumption|].
  cbn beta. intros [] b1 s1 Hgo (Hn & HF).
  unfold GetPackedRFLAG. apply wp_bind. unfold wp at 1. rewrite calculate_stored by exact Hn.
  exists s1. split; [apply goes_refl, Hgo|].
  eapply wp_mono; [apply (pack_wp false b1 s1); [apply Hgo|rewrite HF; apply unpacked_wf, Hf]|].
  cbn beta. intros n b2 s2 _ (_ & _ & k' & Hv2). exists k'.
  rewrite HF, packed_unpacked in Hv2 by apply (packed_flags_range false). exact Hv2.
Qed.
End Packed.

(** ** Properties *)

(** [GetPackedRFLAG] computes what is pending (an effect [e]) and returns a
    node whose bit [i] is the flag at location [i] of the resulting image for
    every location it packs (the lower five or all), and bit 1 always. *)
Theorem GetPackedRFLAG_flags `{Backend : IRBackend} b s Lower8 sz e
    (Hgood : good (emitter b) s) (Hsz : operand_size sz) (Hwf : flags_wf (Frame s))
    (Hpending : pending b s sz e) :
  exists n b' s' w k, emits (GetPackedRFLAG Lower8) b s n b' s' /\
    agrees (no_PF (ABINoPF b) e) (Frame s) (Frame s') /\ val (emitter b') s' n w k /\
    forall i, 0 <= i ->
      Z.testbit w i = (i =? 1) || (existsb (Z.eqb i) (packed_flags Lower8) && flag_bit (Frame s') i).
Proof.
  destruct (wp_emits _ _ _ _ (GetPackedRFLAG_wp Lower8 sz e b s Hgood Hsz Hwf Hpending))
    as (n & b' & s' & Hem & _ & _ & Ha & k & Hv).
  exists n, b', s', (packed 2 (packed_flags Lower8) (Frame s')), k. split_and!; auto.
  intros i Hi. rewrite packed_testbit by (apply packed_flags_range || exact Hi).
  f_equal. change 2 with (2 ^ 1). rewrite Z.pow2_bits_eqb by lia. apply Z.eqb_sym.
Qed.

Lemma GetPackedRFLAG_flags_witness :
  exists n b' s' w k, emits (GetPackedRFLAG true) add_builder add_state n b' s' /\
    agrees (x86_add 8 0xFF 2 0) (flag_image false) (Frame s') /\ val (emitter b') s' n w k /\
    forall i, 0 <= i ->
      Z.testbit w i = (i =? 1) || (existsb (Z.eqb i) (packed_flags true) && flag_bit (Frame s') i).
Proof.
  apply (GetPackedRFLAG_flags add_builder add_state true 1 (x86_add 8 0xFF 2 0)).
  - apply constants_good.
  - left. reflexivity.
  - apply flag_image_wf.
  - right. apply add_meaning.
Defined.

(** C39: Writing the packed flags and reading them back returns the written word
    restricted to the flags that are kept, with bit 1 set, whatever was pending. *)
Theorem SetPackedRFLAG_GetPackedRFLAG `{Backend : IRBackend} b s Src v k
    (Hgood : good (emitter b) s) (Hwf : flags_wf (Frame s)) (Hv : val (emitter b) s Src v k) :
  exists n b' s' k', emits (_ ← SetPackedRFLAG false Src; GetPackedRFLAG false) b s n b' s' /\
    val (emitter b') s' n (Z.lor 2 (Z.land v (flags_mask FlagOffsets))) k'.
Proof.
  destruct (wp_emits _ _ _ _ (packed_round_trip_wp Src v k b s Hgood Hwf Hv))
    as (n & b' & s' & Hem & _ & k' & Hv').
  exists n, b', s', k'. auto.
Qed.

(** [0xFFFFFFFF] keeps [0x3F5FD7]. *)
Lemma SetPackedRFLAG_GetPackedRFLAG_witness :
  let b := builder_of false [0xFFFFFFFF] add_record in
  exists n b' s' k', emits (_ ← SetPackedRFLAG false 2%nat; GetPackedRFLAG false)
      b (state_of [0xFFFFFFFF] (flag_image true)) n b' s' /\
    val (emitter b') s' n 0x3F5FD7 k'.
Proof.
  intros b.
  apply (SetPackedRFLAG_GetPackedRFLAG b (state_of [0xFFFFFFFF] (flag_image true)) 2%nat 0xFFFFFFFF 8).
  - apply constants_good.
  - apply flag_image_wf.
  - apply (constants_val _ _ _ _ 0); [reflexivity|lia].
Defined.

(** [SetPackedRFLAG] on the lower byte ([SAHF]) first computes what is pending,
    then sets [CF], [PF], [AF], [ZF] and [SF] to bits 0, 2, 4, 6 and 7 of its
    source; [OF] and the other flags are those of the pending instruction. *)
Lemma SetPackedRFLAG_lower8 `{Backend : IRBackend} b s Src v k sz e
    (Hgood : good (emitter b) s) (Hsz : operand_size sz) (Hwf : flags_wf (Frame s))
    (Hpending : pending b s sz e) (Hv : val (emitter b) s Src v k) :
  exists b' s' F1, emits (SetPackedRFLAG true Src) b s tt b' s' /\
    agrees (no_PF (ABINoPF b) e) (Frame s) F1 /\
    (forall loc, In loc [0; 2; 4; 6; 7] -> rflag (Frame s') loc = Some (Z.testbit v loc)) /\
    (forall loc, ~ In loc [0; 2; 4; 6; 7] -> rflag (Frame s') loc = rflag F1 loc).
Proof.
  destruct (wp_emits _ _ _ _ (SetPackedRFLAG_lower_wp Src v k sz e b s Hgood Hsz Hwf Hpending Hv))
    as ([] & b' & s' & Hem & _ & _ & F1 & Ha & HF).
  exists b', s', F1. rewrite HF. split_and!; auto.
  - intros loc. apply unpacked_rflag.
  - intros loc. apply unpacked_rflag_ne.
Qed.
