(* ===== verification/Dispatch.v ===== *)
(** * Decoded instructions and their operands

    [include/FEXCore/Debug/X86Tables.h] and the operand helpers of
    [OpcodeDispatcher.cpp]: the operands a decoded instruction has, and the IR
    that loads them, computes their addresses and stores results to them. The
    register class and the alignment of an access are not recorded in the nodes:
    no handler of the interpreter looks at them. *)
From Stdlib Require Import ZArith Lia Bool.
From stdpp Require Import base gmap list numbers option.
From S2P Require Import Prelude IR ALUOps Interp Emitter Flags.
#[local] Open Scope Z_scope.

(** ** Decoded instructions *)

(** [DecodedOperand]: [Type] with the member of [Data] it selects. The index and
    the base of an [SIB] operand may be [REG_INVALID]. *)
Inductive DecodedOperand :=
  | OperandNothing
  | GPR (HighBits : bool) (GPR : Z)
  | GPRDirect (GPR : Z)
  | GPRIndirect (GPR Displacement : Z)
  | RIPRelative (Value : Z)
  | Literal (Size Value : Z)
  | SIB (Index Base Scale Offset : Z).

Record DecodedInst := mkInst {
  PC : Z;
  OP : Z;
  OpFlags : Z;
  InstSize : Z;
  Dest : DecodedOperand;
  Src : list DecodedOperand
}.
Definition SrcOperand (Op : DecodedInst) (i : nat) : DecodedOperand := default OperandNothing (Src Op !! i).

Definition IsGPR (o : DecodedOperand) : bool := match o with GPR _ _ => true | _ => false end.
Definition IsLiteral (o : DecodedOperand) : bool := match o with Literal _ _ => true | _ => false end.

(** [DecodeFlags] *)
Definition FLAG_OPERAND_SIZE : Z := Z.shiftl 1 0.
Definition FLAG_ADDRESS_SIZE : Z := Z.shiftl 1 1.
Definition FLAG_LOCK : Z := Z.shiftl 1 2.
Definition FLAG_REX_WIDENING : Z := Z.shiftl 1 7.
Definition FLAG_ES_PREFIX : Z := Z.shiftl 1 11.
Definition FLAG_CS_PREFIX : Z := Z.shiftl 1 12.
Definition FLAG_SS_PREFIX : Z := Z.shiftl 1 13.
Definition FLAG_DS_PREFIX : Z := Z.shiftl 1 14.
Definition FLAG_FS_PREFIX : Z := Z.shiftl 1 15.
Definition FLAG_GS_PREFIX : Z := Z.shiftl 1 16.
Definition FLAG_SEGMENTS : Z := Z.shiftl 63 11.
Definition FLAG_REP_PREFIX : Z := Z.shiftl 1 17.
Definition FLAG_REPNE_PREFIX : Z := Z.shiftl 1 18.
Definition FLAG_SIZE_DST_OFF : Z := 19.
Definition FLAG_OPADDR_OFF : Z := 25.
Definition FLAG_OPADDR_MASK : Z := Z.shiftl 15 FLAG_OPADDR_OFF.
Definition FLAG_OPERAND_SIZE_LAST : Z := 1.
Definition FLAG_WIDENING_SIZE_LAST : Z := 2.

Definition flag_set (Flags f : Z) : bool := negb (Z.land Flags f =? 0).
Definition GetOpAddr (Flags Index : Z) : Z :=
  Z.land (Z.shiftr (Z.shiftr (Z.land Flags FLAG_OPADDR_MASK) FLAG_OPADDR_OFF) (Index * 2)) 3.

(** ** Registers and their places in [CPUState] *)

Definition REG_RAX := 0.
Definition REG_RBX := 1.
Definition REG_RCX := 2.
Definition REG_RDX := 3.
Definition REG_RSI := 4.
Definition REG_RDI := 5.
Definition REG_RBP := 6.
Definition REG_RSP := 7.
Definition REG_XMM_0 := 16.
Definition REG_MM_0 := 32.
Definition REG_INVALID := 255.

Definition gregs (gpr : Z) : Z := GREGS_OFFSET + 8 * gpr.
Definition es_OFFSET : Z := 136.
Definition cs_OFFSET : Z := 138.
Definition ss_OFFSET : Z := 140.
Definition ds_OFFSET : Z := 142.
Definition gs_OFFSET : Z := 144.
Definition fs_OFFSET : Z := 152.
Definition XMM_OFFSET : Z := 160.
Definition MM_OFFSET : Z := 720.
Definition GDT_OFFSET : Z := 848.

Definition GPROffset (reg : Z) : Z := gregs reg.

(** ** The builder's configuration and outcomes *)

Definition GetGPRSize : B Z := b ← get_builder; mret (if Is64BitMode (CTX b) then 8 else 4).
Definition set_HandledLock (v : bool) : B unit := modify (fun b => with_status v (DecodeFailure b) (BlockSetRIP b) b).
Definition set_DecodeFailure : B unit := modify (fun b => with_status (HandledLock b) true (BlockSetRIP b) b).
Definition set_BlockSetRIP : B unit := modify (fun b => with_status (HandledLock b) (DecodeFailure b) true b).

Definition GetDstSize (Op : DecodedInst) : B Z :=
  let Sizes := [0; 1; 2; 4; 8; 16; 32; 0] in
  match Sizes !! Z.to_nat (Z.land (Z.shiftr (OpFlags Op) FLAG_SIZE_DST_OFF) SIZE_MASK) with
  | Some s => if s =? 0 then fail Assert else mret s
  | None => fail Undef
  end.
Definition GetSrcSizeOf (Op : DecodedInst) : B Z := GetSrcSize (OpFlags Op).
Definition GetSrcBitSize (Op : DecodedInst) : B Z := s ← GetSrcSizeOf Op; mret (s * 8).
Definition GetDstBitSize (Op : DecodedInst) : B Z := s ← GetDstSize Op; mret (s * 8).

Definition DestIsMem (Op : DecodedInst) : bool := negb (IsGPR (Dest Op)).
Definition DestIsLockedMem (Op : DecodedInst) : bool := DestIsMem Op && flag_set (OpFlags Op) FLAG_LOCK.

(** ** Memory accesses *)

Inductive MemoryAccessType := ACCESS_DEFAULT | ACCESS_TSO | ACCESS_NONTSO | ACCESS_STREAM.

Definition _LoadMemAutoTSO (Size : Z) (Addr : NodeID) : B NodeID :=
  b ← get_builder; if TSOEnabled (CTX b) then _LoadMemTSO Size Addr else _LoadMem Size Addr.
Definition _StoreMemAutoTSO (Size : Z) (Addr Value : NodeID) : B unit :=
  b ← get_builder; if TSOEnabled (CTX b) then _StoreMemTSO Size Addr Value else _StoreMem Size Addr Value.

Definition plain_access (t : MemoryAccessType) : bool :=
  match t with ACCESS_NONTSO | ACCESS_STREAM => true | _ => false end.
(** An access whose base is the stack pointer is not ordered, unless it is told to be. *)
Definition access_through (gpr : Z) (t : MemoryAccessType) : MemoryAccessType :=
  match t with ACCESS_DEFAULT => if gpr =? REG_RSP then ACCESS_NONTSO else t | _ => t end.

(** ** Addresses *)

Definition GetRelocatedPC (Op : DecodedInst) (Offset : Z) : B NodeID :=
  GPRSize ← GetGPRSize; b ← get_builder;
  _EntrypointOffset (uint 64 (PC Op + InstSize Op + Offset - Entry b)) GPRSize.

(** The selector that a prefix names in 32-bit mode. *)
Definition segment_offset (Prefix : Z) : option Z :=
  if Prefix =? FLAG_ES_PREFIX then Some es_OFFSET
  else if Prefix =? FLAG_CS_PREFIX then Some cs_OFFSET
  else if Prefix =? FLAG_SS_PREFIX then Some ss_OFFSET
  else if Prefix =? FLAG_DS_PREFIX then Some ds_OFFSET
  else if Prefix =? FLAG_FS_PREFIX then Some fs_OFFSET
  else if Prefix =? FLAG_GS_PREFIX then Some gs_OFFSET
  else None.

Definition AppendSegmentOffset (Value : NodeID) (Flags DefaultPrefix : Z) (Override : bool) : B NodeID :=
  GPRSize ← GetGPRSize; b ← get_builder;
  if Is64BitMode (CTX b) then
    if flag_set Flags FLAG_FS_PREFIX then s ← _LoadContext GPRSize fs_OFFSET; _Add Value s
    else if flag_set Flags FLAG_GS_PREFIX then s ← _LoadContext GPRSize gs_OFFSET; _Add Value s
    else mret Value
  else
    let Prefix := Z.land Flags FLAG_SEGMENTS in
    let Prefix := if (Prefix =? 0) || Override then DefaultPrefix else Prefix in
    match segment_offset Prefix with
    | Some o =>
        Segment ← _LoadContext 2 o;
        c ← _Constant 3; Segment ← _Lshr Segment c;
        data ← _LoadContextIndexed Segment 4 GDT_OFFSET 4;
        _Add Value data
    | None => mret Value
    end.

Definition AddrSizeOf (Op : DecodedInst) : B Z :=
  GPRSize ← GetGPRSize;
  mret (if flag_set (OpFlags Op) FLAG_ADDRESS_SIZE then Z.shiftr GPRSize 1 else GPRSize).

(** The address of an [SIB] operand. *)
Definition SIB_address (AddrSize GPRSize Index Base Scale Offset : Z) : B NodeID :=
  Tmp ← (if Index =? REG_INVALID then mret None
         else
           t ← _LoadContext AddrSize (gregs Index);
           if Scale =? 1 then mret (Some t)
           else c ← _ConstantSized (GPRSize * 8) Scale; t ← _Mul t c; mret (Some t));
  Tmp ← (if Base =? REG_INVALID then mret Tmp
         else
           g ← _LoadContext AddrSize (gregs Base);
           match Tmp with
           | Some t => t ← _Add t g; mret (Some t)
           | None => mret (Some g)
           end);
  Address ← (if Offset =? 0 then
               match Tmp with Some t => mret t | None => _ConstantSized (GPRSize * 8) 0 end
             else
               c ← _ConstantSized (GPRSize * 8) Offset;
               match Tmp with Some t => _Add t c | None => mret c end);
  if AddrSize <? GPRSize then _BfeSized AddrSize (AddrSize * 8) 0 Address else mret Address.

(** The address of the memory operands but literals, without the segment. *)
Definition OperandAddress (Op : DecodedInst) (Operand : DecodedOperand) : B NodeID :=
  GPRSize ← GetGPRSize; AddrSize ← AddrSizeOf Op;
  match Operand with
  | GPRDirect r => _LoadContext AddrSize (gregs r)
  | GPRIndirect r Displacement =>
      g ← _LoadContext AddrSize (gregs r); c ← _ConstantSized (GPRSize * 8) Displacement; _Add g c
  | RIPRelative Value =>
      b ← get_builder;
      if Is64BitMode (CTX b) then GetRelocatedPC Op (sint 32 Value)
      else _ConstantSized (GPRSize * 8) (uint 32 Value)
  | SIB Index Base Scale Offset => SIB_address AddrSize GPRSize Index Base Scale Offset
  | _ => fail Assert
  end.

(** The access type after the operand's registers were looked at; a store does not
    look at those of an [SIB] operand. *)
Definition operand_access (store : bool) (Operand : DecodedOperand) (t : MemoryAccessType) : MemoryAccessType :=
  match Operand with
  | GPRDirect r | GPRIndirect r _ => access_through r t
  | SIB Index Base _ _ =>
      if store then t
      else
        let t := if Index =? REG_INVALID then t else access_through Index t in
        if Base =? REG_INVALID then t else access_through Base t
  | _ => t
  end.

(** The place of a register operand of the context. *)
Definition GPR_offset (AVX HighBits : bool) (gpr : Z) : Z :=
  if REG_MM_0 <=? gpr then MM_OFFSET + 16 * (gpr - REG_MM_0)
  else if REG_XMM_0 <=? gpr then
    XMM_OFFSET + (if AVX then 32 else 16) * (gpr - REG_XMM_0) + (if HighBits then 8 else 0)
  else gregs gpr + (if HighBits then 1 else 0).

(** ** Sources *)

Definition LoadSource_WithOpSize (Op : DecodedInst) (Operand : DecodedOperand) (OpSize Flags : Z)
    (LoadData ForceLoad : bool) (AccessType : MemoryAccessType) : B NodeID :=
  b ← get_builder;
  Src ← (match Operand with
         | OperandNothing => fail Assert
         | Literal Size Value =>
             constant ← (if Size =? 8 then mret Value
                         else m ← lift (shl 64 1 (Size * 8)); mret (Z.land Value (m - 1)));
             _ConstantSized (Size * 8) constant
         | GPR HighBits gpr => _LoadContext OpSize (GPR_offset (SupportsAVX (CTX b)) HighBits gpr)
         | _ => OperandAddress Op Operand
         end);
  let LoadableType := negb (IsGPR Operand) && negb (IsLiteral Operand) in
  if (LoadableType && LoadData) || ForceLoad then
    Src ← AppendSegmentOffset Src Flags 0 false;
    if plain_access (operand_access false Operand AccessType) then _LoadMem OpSize Src else _LoadMemAutoTSO OpSize Src
  else mret Src.

Definition LoadSource (Op : DecodedInst) (Operand : DecodedOperand) (Flags : Z)
    (LoadData ForceLoad : bool) (AccessType : MemoryAccessType) : B NodeID :=
  OpSize ← GetSrcSizeOf Op;
  LoadSource_WithOpSize Op Operand OpSize Flags LoadData ForceLoad AccessType.

(** The calls that leave the last arguments to their defaults. *)
Definition LoadOperand (Op : DecodedInst) (Operand : DecodedOperand) : B NodeID :=
  LoadSource Op Operand (OpFlags Op) true false ACCESS_DEFAULT.
Definition LoadOperand_WithOpSize (Op : DecodedInst) (Operand : DecodedOperand) (OpSize : Z) : B NodeID :=
  LoadSource_WithOpSize Op Operand OpSize (OpFlags Op) true false ACCESS_DEFAULT.
(** [LoadSource] without the load, then the segment. *)
Definition LoadAddress (Op : DecodedInst) (Operand : DecodedOperand) : B NodeID :=
  m ← LoadSource Op Operand (OpFlags Op) false false ACCESS_DEFAULT;
  AppendSegmentOffset m (OpFlags Op) 0 false.

(** ** Results *)

Definition _VExtractToGPR (ElementSize : Z) (Vector : NodeID) (Index : Z) : B NodeID :=
  AllocateOp (OP_VEXTRACTTOGPR Index) ElementSize [Vector].

Definition StoreResult_WithOpSize (Op : DecodedInst) (Operand : DecodedOperand) (Src : NodeID) (OpSize : Z)
    (AccessType : MemoryAccessType) : B unit :=
  GPRSize ← GetGPRSize; b ← get_builder;
  let MemStore (MemStoreDst : NodeID) : B unit :=
    MemStoreDst ← AppendSegmentOffset MemStoreDst (OpFlags Op) 0 false;
    if OpSize =? 10 then
      _ ← _StoreMem 8 MemStoreDst Src;
      Upper ← _VExtractToGPR 8 Src 1;
      c ← _Constant 8; DestAddr ← _Add MemStoreDst c;
      _StoreMem 2 DestAddr Upper
    else if plain_access (operand_access true Operand AccessType) then _StoreMem OpSize MemStoreDst Src
    else _StoreMemAutoTSO OpSize MemStoreDst Src in
  match Operand with
  | OperandNothing => fail Assert
  | Literal Size Value => d ← _ConstantSized (Size * 8) Value; MemStore d
  | GPR HighBits gpr =>
      let o := GPR_offset (SupportsAVX (CTX b)) HighBits gpr in
      if REG_XMM_0 <=? gpr then _StoreContext OpSize Src o
      else if (GPRSize =? 8) && (OpSize =? 4) then
        s ← GetOpSize Src;
        Value ← (if s =? 8 then _BfeSized 4 32 0 Src else mret Src);
        _ ← check (negb HighBits);
        _StoreContext GPRSize Value o
      else
        _ ← check (negb ((GPRSize =? 4) && (4 <? OpSize)));
        _StoreContext (Z.min GPRSize OpSize) Src o
  | _ => d ← OperandAddress Op Operand; MemStore d
  end.

Definition StoreResultTo (Op : DecodedInst) (Operand : DecodedOperand) (Src : NodeID) : B unit :=
  OpSize ← GetDstSize Op; StoreResult_WithOpSize Op Operand Src OpSize ACCESS_DEFAULT.
Definition StoreResult (Op : DecodedInst) (Src : NodeID) : B unit := StoreResultTo Op (Dest Op) Src.
