(* ===== verification/DispatchALU.v ===== *)
(** * Arithmetic and logical instructions

    The handlers of [OpcodeDispatcher.cpp] for [ADD], [OR], [ADC], [SBB], [AND],
    [SUB], [XOR], [CMP], [TEST], [INC], [DEC], [NEG], [NOT] and [XADD]: what they
    emit and the flags they record. With a [LOCK] prefix and a destination in
    memory the operation is one atomic access. *)
From Stdlib Require Import ZArith Lia Bool.
From stdpp Require Import base gmap list numbers option.
From S2P Require Import Prelude IR ALUOps Interp Emitter Flags Dispatch.
#[local] Open Scope Z_scope.

(** ** The basic operations *)

(** The operation of a primary opcode, and whether its result needs a mask. *)
Definition ALU_IROp (OP : Z) : option (IROps * bool) :=
  let among (first : Z) := (first <=? OP) && (OP <=? first + 5) in
  if among 0x0 then Some (OP_ADD, true)
  else if among 0x8 then Some (OP_OR, false)
  else if among 0x20 then Some (OP_AND, false)
  else if among 0x28 then Some (OP_SUB, true)
  else if among 0x30 then Some (OP_XOR, false)
  else None.

(** [OPD(TYPE_GROUP_1, OpToIndex(opcode), Reg)] *)
Definition OPD_group1 (index Reg : Z) : Z := Z.lor (Z.shiftl index 3) Reg.
Definition SecondaryALU_IROp (OP : Z) : option (IROps * bool) :=
  let among (Reg : Z) := (OP =? OPD_group1 0 Reg) || (OP =? OPD_group1 1 Reg) || (OP =? OPD_group1 3 Reg) in
  if among 0 then Some (OP_ADD, true)
  else if among 1 then Some (OP_OR, false)
  else if among 4 then Some (OP_AND, false)
  else if among 5 then Some (OP_SUB, true)
  else if among 6 then Some (OP_XOR, false)
  else None.

(** The atomic operation and the one that computes its result again. *)
Definition ALU_atomic (IROp : IROps) (Size : Z) (Src DestMem : NodeID) : B (NodeID * NodeID) :=
  match IROp with
  | OP_ADD => d ← _AtomicFetchAdd Size Src DestMem; r ← _Add d Src; mret (d, r)
  | OP_SUB => d ← _AtomicFetchSub Size Src DestMem; r ← _Sub d Src; mret (d, r)
  | OP_OR => d ← _AtomicFetchOr Size Src DestMem; r ← _Or d Src; mret (d, r)
  | OP_AND => d ← _AtomicFetchAnd Size Src DestMem; r ← _And d Src; mret (d, r)
  | OP_XOR => d ← _AtomicFetchXor Size Src DestMem; r ← _Xor d Src; mret (d, r)
  | _ => fail Assert
  end.

Definition ALU_flags (IROp : IROps) (Op : DecodedInst) (Result Dest_ Src_ : NodeID) : B unit :=
  match IROp with
  | OP_ADD => GenerateFlags_ADD (OpFlags Op) Result Dest_ Src_ true
  | OP_SUB => GenerateFlags_SUB (OpFlags Op) Result Dest_ Src_ true
  | OP_AND | OP_XOR | OP_OR => GenerateFlags_Logical (OpFlags Op) Result Dest_ Src_
  | _ => mret tt
  end.

(** What both handlers do: the new node is an addition whose operation is then
    overwritten. *)
Definition ALU_body (IROp : IROps) (RequiresMask : bool) (Op : DecodedInst) (Source : DecodedOperand) : B unit :=
  Size ← GetDstSize Op;
  Src_ ← LoadOperand Op Source;
  '(Dest_, Result) ← (if DestIsLockedMem Op then
      _ ← set_HandledLock true;
      DestMem ← LoadAddress Op (Dest Op);
      ALU_atomic IROp Size Src_ DestMem
    else
      Dest_ ← LoadOperand Op (Dest Op);
      ALUOp ← _Add Dest_ Src_;
      _ ← set_Op ALUOp IROp;
      _ ← StoreResult Op ALUOp;
      mret (Dest_, ALUOp));
  Result ← (if RequiresMask && (Size <? 4) then _BfeSized Size (Size * 8) 0 Result else mret Result);
  ALU_flags IROp Op Result Dest_ Src_.

Definition ALUOp (Op : DecodedInst) : B unit :=
  match ALU_IROp (OP Op) with
  | Some (IROp, RequiresMask) => ALU_body IROp RequiresMask Op (SrcOperand Op 0)
  | None => fail Assert
  end.

Definition SecondaryALUOp (Op : DecodedInst) : B unit :=
  match SecondaryALU_IROp (OP Op) with
  | Some (IROp, RequiresMask) => ALU_body IROp RequiresMask Op (SrcOperand Op 1)
  | None => fail Assert
  end.

(** ** With carry *)

Definition ADCOp (SrcIndex : nat) (Op : DecodedInst) : B unit :=
  _ ← CalculateDeferredFlags;
  Src_ ← LoadOperand Op (SrcOperand Op SrcIndex);
  Size ← GetDstSize Op;
  CF ← GetRFLAG RFLAG_CF_LOC;
  ALUOp ← _Add Src_ CF;
  '(Before_, Result) ← (if DestIsLockedMem Op then
      _ ← set_HandledLock true;
      DestMem ← LoadAddress Op (Dest Op);
      Before_ ← _AtomicFetchAdd Size ALUOp DestMem;
      Result ← _Add Before_ ALUOp;
      mret (Before_, Result)
    else
      Before_ ← LoadOperand Op (Dest Op);
      Result ← _Add Before_ ALUOp;
      _ ← StoreResult Op Result;
      mret (Before_, Result));
  Result ← (if Size <? 4 then _BfeSized Size (Size * 8) 0 Result else mret Result);
  GenerateFlags_ADC (OpFlags Op) Result Before_ Src_ CF.

Definition SBBOp (SrcIndex : nat) (Op : DecodedInst) : B unit :=
  _ ← CalculateDeferredFlags;
  Src_ ← LoadOperand Op (SrcOperand Op SrcIndex);
  Size ← GetDstSize Op;
  CF ← GetRFLAG RFLAG_CF_LOC;
  ALUOp ← _Add Src_ CF;
  '(Before_, Result) ← (if DestIsLockedMem Op then
      _ ← set_HandledLock true;
      DestMem ← LoadAddress Op (Dest Op);
      Before_ ← _AtomicFetchSub Size ALUOp DestMem;
      Result ← _Sub Before_ ALUOp;
      mret (Before_, Result)
    else
      Before_ ← LoadOperand Op (Dest Op);
      Result ← _Sub Before_ ALUOp;
      _ ← StoreResult Op Result;
      mret (Before_, Result));
  Result ← (if Size <? 4 then _BfeSized Size (Size * 8) 0 Result else mret Result);
  GenerateFlags_SBB (OpFlags Op) Result Before_ Src_ CF.

(** ** Comparisons *)

(** The record of a comparison that a conditional instruction may fuse. *)
Definition set_comparison (f : SelectionFlag) (Size : Z) (d x ds xs : NodeID) : B unit :=
  modify (fun b => mkBuilder (builder_emitter b) (CurrentDeferredFlags b) f Size d x ds xs
    (HandledLock b) (DecodeFailure b) (BlockSetRIP b) (CTX b) (Entry b)).

Definition CMPOp (SrcIndex : nat) (Op : DecodedInst) : B unit :=
  Src_ ← LoadOperand Op (SrcOperand Op SrcIndex);
  Dest_ ← LoadOperand Op (Dest Op);
  Size ← GetDstSize Op;
  ALUOp ← _Sub Dest_ Src_;
  Result ← (if Size <? 4 then _BfeSized Size (Size * 8) 0 ALUOp else mret ALUOp);
  _ ← GenerateFlags_SUB (OpFlags Op) Result Dest_ Src_ true;
  if 4 <=? Size then set_comparison CMP Size Dest_ Src_ Dest_ Src_
  else
    DestSigned ← _Sext (Size * 8) Dest_;
    SrcSigned ← _Sext (Size * 8) Src_;
    set_comparison CMP 4 Dest_ Src_ DestSigned SrcSigned.

Definition TESTOp (SrcIndex : nat) (Op : DecodedInst) : B unit :=
  Src_ ← LoadOperand Op (SrcOperand Op SrcIndex);
  Dest_ ← LoadOperand Op (Dest Op);
  ALUOp ← _And Dest_ Src_;
  _ ← GenerateFlags_Logical (OpFlags Op) ALUOp Dest_ Src_;
  Size ← GetDstSize Op;
  b ← get_builder;
  set_comparison AND (if 4 <=? Size then Size else 4) ALUOp (flagsOpSrc b) (flagsOpDestSigned b) (flagsOpSrcSigned b).

(** ** One operand *)

(** [INC] and [DEC]: they do not touch the carry. *)
Definition INCOp (Op : DecodedInst) : B unit :=
  if flag_set (OpFlags Op) FLAG_REP_PREFIX then set_DecodeFailure
  else
    Size ← GetSrcBitSize Op;
    OneConst ← _ConstantSized Size 1;
    let IsLocked := DestIsLockedMem Op in
    Dest_ ← (if IsLocked then
        _ ← set_HandledLock true;
        DestAddress ← LoadAddress Op (Dest Op);
        s ← GetSrcSizeOf Op; _AtomicFetchAdd s OneConst DestAddress
      else LoadOperand Op (Dest Op));
    Result ← _Add Dest_ OneConst;
    _ ← (if IsLocked then mret tt else StoreResult Op Result);
    Result ← (if Size <? 32 then _Bfe Size 0 Result else mret Result);
    GenerateFlags_ADD (OpFlags Op) Result Dest_ OneConst false.

Definition DECOp (Op : DecodedInst) : B unit :=
  if flag_set (OpFlags Op) FLAG_REP_PREFIX then set_DecodeFailure
  else
    Size ← GetSrcBitSize Op;
    OneConst ← _ConstantSized Size 1;
    let IsLocked := DestIsLockedMem Op in
    Dest_ ← (if IsLocked then
        _ ← set_HandledLock true;
        DestAddress ← LoadAddress Op (Dest Op);
        s ← GetSrcSizeOf Op; _AtomicFetchSub s OneConst DestAddress
      else LoadOperand Op (Dest Op));
    Result ← _Sub Dest_ OneConst;
    _ ← (if IsLocked then mret tt else StoreResult Op Result);
    Result ← (if Size <? 32 then _Bfe Size 0 Result else mret Result);
    GenerateFlags_SUB (OpFlags Op) Result Dest_ OneConst false.

Definition NEGOp (Op : DecodedInst) : B unit :=
  _ ← set_HandledLock (flag_set (OpFlags Op) FLAG_LOCK);
  Size ← GetSrcSizeOf Op;
  ZeroConst ← _Constant 0;
  '(Dest_, Result) ← (if DestIsLockedMem Op then
      DestMem ← LoadAddress Op (Dest Op);
      Dest_ ← _AtomicFetchNeg Size DestMem;
      Result ← _Neg Dest_; mret (Dest_, Result)
    else
      Dest_ ← LoadOperand Op (Dest Op);
      Result ← _Neg Dest_;
      _ ← StoreResult Op Result; mret (Dest_, Result));
  Result ← (if Size <? 4 then _Bfe (Size * 8) 0 Result else mret Result);
  GenerateFlags_SUB (OpFlags Op) Result ZeroConst Dest_ true.

Definition NOTOp (Op : DecodedInst) : B unit :=
  Size ← GetSrcSizeOf Op;
  MaskConst ← (if Size =? 8 then _Constant (Z.lnot 0)
               else m ← lift (shl 64 1 (Size * 8)); _Constant (m - 1));
  if DestIsLockedMem Op then
    _ ← set_HandledLock true;
    DestMem ← LoadAddress Op (Dest Op);
    _AtomicXor Size MaskConst DestMem
  else
    Src_ ← LoadOperand Op (Dest Op);
    Src_ ← _Xor Src_ MaskConst;
    StoreResult Op Src_.

(** ** Exchange and add *)

Definition XADDOp (Op : DecodedInst) : B unit :=
  Dest_ ← LoadSource Op (Dest Op) (OpFlags Op) false false ACCESS_DEFAULT;
  Src_ ← LoadOperand Op (SrcOperand Op 0);
  Size ← GetSrcBitSize Op;
  if IsGPR (Dest Op) then
    Result ← _Add Dest_ Src_;
    _ ← StoreResultTo Op (SrcOperand Op 0) Dest_;
    _ ← StoreResult Op Result;
    Result ← (if Size <? 32 then _Bfe Size 0 Result else mret Result);
    GenerateFlags_ADD (OpFlags Op) Result Dest_ Src_ true
  else
    _ ← set_HandledLock (flag_set (OpFlags Op) FLAG_LOCK);
    Dest_ ← AppendSegmentOffset Dest_ (OpFlags Op) 0 false;
    s ← GetSrcSizeOf Op;
    Before_ ← _AtomicFetchAdd s Src_ Dest_;
    _ ← StoreResultTo Op (SrcOperand Op 0) Before_;
    Result ← _Add Before_ Src_;
    Result ← (if Size <? 32 then _Bfe Size 0 Result else mret Result);
    GenerateFlags_ADD (OpFlags Op) Result Before_ Src_ true.
