(* ===== verification/DispatchMove.v ===== *)
(** * Moves, conversions and conditions

    The handlers of [OpcodeDispatcher.cpp] that move and convert integers, exchange
    them, compute a condition of the flags, or read and write the flags. *)
From Stdlib Require Import ZArith Lia Bool.
From stdpp Require Import base gmap list numbers option.
From S2P Require Import Prelude IR ALUOps Interp Emitter Flags Dispatch.
#[local] Open Scope Z_scope.

(** ** Moves *)

Definition MOVGPROp (SrcIndex : nat) (Op : DecodedInst) : B unit :=
  Src_ ← LoadOperand Op (SrcOperand Op SrcIndex); StoreResult Op Src_.

Definition MOVGPRNTOp (Op : DecodedInst) : B unit :=
  Src_ ← LoadOperand Op (SrcOperand Op 0);
  OpSize ← GetDstSize Op; StoreResult_WithOpSize Op (Dest Op) Src_ OpSize ACCESS_STREAM.

Definition LEAOp (Op : DecodedInst) : B unit :=
  b ← get_builder;
  let OpAddr := GetOpAddr (OpFlags Op) 0 in
  let DstSize :=
    if Is64BitMode (CTX b) then
      if OpAddr =? FLAG_OPERAND_SIZE_LAST then 2 else if OpAddr =? FLAG_WIDENING_SIZE_LAST then 8 else 4
    else if OpAddr =? FLAG_OPERAND_SIZE_LAST then 2 else 4 in
  s ← GetSrcSizeOf Op;
  Src_ ← LoadSource_WithOpSize Op (SrcOperand Op 0) s (OpFlags Op) false false ACCESS_DEFAULT;
  StoreResult_WithOpSize Op (Dest Op) Src_ DstSize ACCESS_DEFAULT.

Definition MOVSXDOp (Op : DecodedInst) : B unit :=
  s ← GetSrcSizeOf Op;
  let Size := Z.min 4 s in
  Src_ ← LoadOperand_WithOpSize Op (SrcOperand Op 0) Size;
  if Size =? 2 then StoreResult_WithOpSize Op (Dest Op) Src_ Size ACCESS_DEFAULT
  else if flag_set (OpFlags Op) FLAG_REX_WIDENING then Src_ ← _Sext (Size * 8) Src_; StoreResult Op Src_
  else StoreResult Op Src_.

Definition MOVSXOp (Op : DecodedInst) : B unit :=
  Size ← GetSrcSizeOf Op;
  Src_ ← LoadOperand Op (SrcOperand Op 0);
  Src_ ← _Sbfe (Size * 8) 0 Src_; StoreResult Op Src_.

Definition MOVZXOp (Op : DecodedInst) : B unit :=
  Src_ ← LoadOperand Op (SrcOperand Op 0); StoreResult Op Src_.

Definition CQOOp (Op : DecodedInst) : B unit :=
  Src_ ← LoadOperand Op (SrcOperand Op 0);
  Size ← GetSrcSizeOf Op;
  Upper ← _Sbfe 1 (Size * 8 - 1) Src_; StoreResult Op Upper.

Definition CDQOp (Op : DecodedInst) : B unit :=
  Src_ ← LoadOperand Op (SrcOperand Op 0);
  DstSize ← GetDstSize Op;
  let SrcSize := Z.shiftr DstSize 1 in
  Src_ ← _Sbfe (SrcSize * 8) 0 Src_;
  StoreResult_WithOpSize Op (Dest Op) Src_ DstSize ACCESS_DEFAULT.

(** The accumulator and an absolute address; the stored-to address is the second source. *)
Definition MOVOffsetOp (Op : DecodedInst) : B unit :=
  if (OP Op =? 0xA0) || (OP Op =? 0xA1) then
    Src_ ← LoadSource Op (SrcOperand Op 0) (OpFlags Op) true true ACCESS_DEFAULT; StoreResult Op Src_
  else if (OP Op =? 0xA2) || (OP Op =? 0xA3) then
    Src_ ← LoadOperand Op (SrcOperand Op 0); StoreResultTo Op (SrcOperand Op 1) Src_
  else mret tt.

Definition is_GPR (o : DecodedOperand) (r : Z) : bool := match o with GPR _ g => g =? r | _ => false end.

Definition XCHGOp (Op : DecodedInst) : B unit :=
  s ← GetSrcSizeOf Op;
  if (OP Op =? 0x90) && (4 <=? s) && is_GPR (SrcOperand Op 0) REG_RAX && is_GPR (Dest Op) REG_RAX then
    if flag_set (OpFlags Op) FLAG_REP_PREFIX then _Yield else mret tt
  else
    Src_ ← LoadOperand Op (SrcOperand Op 0);
    if DestIsMem Op then
      _ ← set_HandledLock (flag_set (OpFlags Op) FLAG_LOCK);
      Dest_ ← LoadAddress Op (Dest Op);
      Result ← _AtomicSwap s Src_ Dest_;
      StoreResultTo Op (SrcOperand Op 0) Result
    else
      Dest_ ← LoadOperand Op (Dest Op);
      _ ← StoreResult Op Src_;
      StoreResultTo Op (SrcOperand Op 0) Dest_.

Definition BSWAPOp (Op : DecodedInst) : B unit :=
  s ← GetSrcSizeOf Op;
  Dest_ ← (if s =? 2 then _Constant 0 else d ← LoadOperand Op (Dest Op); _Rev d);
  StoreResult Op Dest_.

Definition MOVBEOp (Op : DecodedInst) : B unit :=
  Src_ ← LoadOperand Op (SrcOperand Op 0); Src_ ← _Rev Src_; StoreResult Op Src_.

Definition XLATOp (Op : DecodedInst) : B unit :=
  GPRSize ← GetGPRSize;
  Src_ ← _LoadContext GPRSize (GPROffset REG_RBX);
  Offset ← _LoadContext 1 (GPROffset REG_RAX);
  Src_ ← AppendSegmentOffset Src_ (OpFlags Op) FLAG_DS_PREFIX false;
  Src_ ← _Add Src_ Offset;
  Res_ ← _LoadMemAutoTSO 1 Src_;
  _StoreContext 1 Res_ (GPROffset REG_RAX).

(** [RDFSBASE], [RDGSBASE], [WRFSBASE] and [WRGSBASE]. *)
Definition ReadSegmentReg (FS : bool) (Op : DecodedInst) : B unit :=
  Size ← GetSrcSizeOf Op;
  Src_ ← _LoadContext Size (if FS then fs_OFFSET else gs_OFFSET);
  StoreResult Op Src_.
Definition WriteSegmentReg (FS : bool) (Op : DecodedInst) : B unit :=
  Size ← GetDstSize Op;
  Src_ ← LoadOperand Op (SrcOperand Op 0);
  _StoreContext Size Src_ (if FS then fs_OFFSET else gs_OFFSET).

(** ** Conditions *)

(** A condition that tests one flag. *)
Definition select_flag (cond loc : Z) (ZeroConst TrueValue FalseValue : NodeID) : B NodeID :=
  Flag ← GetRFLAG loc; _Select cond Flag ZeroConst TrueValue FalseValue.

(** The condition from the flags; the even codes test for a set flag. *)
Definition SelectCC_flags (OP : Z) (ZeroConst OneConst TrueValue FalseValue : NodeID) : B NodeID :=
  let select cond loc := select_flag cond loc ZeroConst TrueValue FalseValue in
  if OP =? 0x0 then select COND_NEQ RFLAG_OF_LOC
  else if OP =? 0x1 then select COND_EQ RFLAG_OF_LOC
  else if OP =? 0x2 then select COND_NEQ RFLAG_CF_LOC
  else if OP =? 0x3 then select COND_EQ RFLAG_CF_LOC
  else if OP =? 0x4 then select COND_NEQ RFLAG_ZF_LOC
  else if OP =? 0x5 then select COND_EQ RFLAG_ZF_LOC
  else if OP =? 0x6 then
    Flag1 ← GetRFLAG RFLAG_ZF_LOC; Flag2 ← GetRFLAG RFLAG_CF_LOC;
    Check_ ← _Or Flag1 Flag2;
    _Select COND_EQ Check_ OneConst TrueValue FalseValue
  else if OP =? 0x7 then
    Flag1 ← GetRFLAG RFLAG_ZF_LOC; Flag2 ← GetRFLAG RFLAG_CF_LOC;
    c ← _Constant 1; l ← _Lshl Flag2 c; Check_ ← _Or Flag1 l;
    _Select COND_EQ Check_ ZeroConst TrueValue FalseValue
  else if OP =? 0x8 then select COND_NEQ RFLAG_SF_LOC
  else if OP =? 0x9 then select COND_EQ RFLAG_SF_LOC
  else if OP =? 0xA then select COND_NEQ RFLAG_PF_LOC
  else if OP =? 0xB then select COND_EQ RFLAG_PF_LOC
  else if OP =? 0xC then
    Flag1 ← GetRFLAG RFLAG_SF_LOC; Flag2 ← GetRFLAG RFLAG_OF_LOC;
    _Select COND_NEQ Flag1 Flag2 TrueValue FalseValue
  else if OP =? 0xD then
    Flag1 ← GetRFLAG RFLAG_SF_LOC; Flag2 ← GetRFLAG RFLAG_OF_LOC;
    _Select COND_EQ Flag1 Flag2 TrueValue FalseValue
  else if OP =? 0xE then
    Flag1 ← GetRFLAG RFLAG_ZF_LOC; Flag2 ← GetRFLAG RFLAG_SF_LOC; Flag3 ← GetRFLAG RFLAG_OF_LOC;
    Select1 ← _Select COND_EQ Flag1 OneConst OneConst ZeroConst;
    Select2 ← _Select COND_NEQ Flag2 Flag3 OneConst ZeroConst;
    Check_ ← _Or Select1 Select2;
    _Select COND_EQ Check_ OneConst TrueValue FalseValue
  else if OP =? 0xF then
    Flag1 ← GetRFLAG RFLAG_ZF_LOC; Flag2 ← GetRFLAG RFLAG_SF_LOC; Flag3 ← GetRFLAG RFLAG_OF_LOC;
    Select1 ← _Select COND_EQ Flag1 ZeroConst OneConst ZeroConst;
    Select2 ← _Select COND_EQ Flag2 Flag3 OneConst ZeroConst;
    Check_ ← _And Select1 Select2;
    _Select COND_EQ Check_ OneConst TrueValue FalseValue
  else fail Assert.

(** The codes that a comparison decides by itself. *)
Definition fused_CMP (OP : Z) : option (Z * bool) :=
  if OP =? 0xF then Some (COND_SGT, true) else if OP =? 0xE then Some (COND_SLE, true)
  else if OP =? 0xD then Some (COND_SGE, true) else if OP =? 0xC then Some (COND_SLT, true)
  else if OP =? 0x7 then Some (COND_UGT, false) else if OP =? 0x6 then Some (COND_ULE, false)
  else if OP =? 0x5 then Some (COND_NEQ, false) else if OP =? 0x4 then Some (COND_EQ, false)
  else if OP =? 0x3 then Some (COND_UGE, false) else if OP =? 0x2 then Some (COND_ULT, false)
  else None.
Definition fused_FCMP (OP : Z) : option Z :=
  if OP =? 0x2 then Some COND_FLU else if OP =? 0x3 then Some COND_FGE
  else if OP =? 0x6 then Some COND_FLEU else if OP =? 0x7 then Some COND_FGT
  else if OP =? 0xA then Some COND_FU else if OP =? 0xB then Some COND_FNU
  else None.

Definition SelectCC (OP : Z) (TrueValue FalseValue : NodeID) : B NodeID :=
  ZeroConst ← _Constant 0; OneConst ← _Constant 1;
  SrcCond ← SelectCC_flags OP ZeroConst OneConst TrueValue FalseValue;
  b ← get_builder;
  let size := flagsOpSize b in
  match flagsOp b with
  | CMP =>
      match fused_CMP OP with
      | Some (cond, true) => _SelectSized cond size (flagsOpDestSigned b) (flagsOpSrcSigned b) TrueValue FalseValue
      | Some (cond, false) => _SelectSized cond size (flagsOpDest b) (flagsOpSrc b) TrueValue FalseValue
      | None => mret SrcCond
      end
  | AND =>
      if OP =? 0x4 then _SelectSized COND_EQ size (flagsOpDest b) ZeroConst TrueValue FalseValue
      else if OP =? 0x5 then _SelectSized COND_NEQ size (flagsOpDest b) ZeroConst TrueValue FalseValue
      else mret SrcCond
  | FCMP =>
      match fused_FCMP OP with
      | Some cond => _SelectSized cond size (flagsOpDest b) (flagsOpSrc b) TrueValue FalseValue
      | None => mret SrcCond
      end
  | Nothing => mret SrcCond
  end.

Definition SETccOp (Op : DecodedInst) : B unit :=
  _ ← CalculateDeferredFlags;
  ZeroConst ← _Constant 0; OneConst ← _Constant 1;
  SrcCond ← SelectCC (Z.land (OP Op) 0xF) OneConst ZeroConst;
  StoreResult Op SrcCond.

Definition CMOVOp (Op : DecodedInst) : B unit :=
  _ ← CalculateDeferredFlags;
  Src_ ← LoadOperand Op (SrcOperand Op 0);
  Dest_ ← LoadOperand Op (Dest Op);
  SrcCond ← SelectCC (Z.land (OP Op) 0xF) Src_ Dest_;
  StoreResult Op SrcCond.

(** ** Flags as data *)

Definition SAHFOp (Op : DecodedInst) : B unit :=
  Src_ ← _LoadContext 1 (GPROffset REG_RAX + 1);
  c ← _Constant (Z.lnot 40); Src_ ← _And Src_ c;
  c ← _Constant 2; Src_ ← _Or Src_ c;
  SetPackedRFLAG true Src_.

Definition LAHFOp (Op : DecodedInst) : B unit :=
  RFLAG ← GetPackedRFLAG true;
  _StoreContext 1 RFLAG (GPROffset REG_RAX + 1).

(** [CMC], [CLC], [STC], [CLD] and [STD]; for another opcode the flag and the type
    are not initialised. *)
Definition FLAGControlOp (Op : DecodedInst) : B unit :=
  let clear Flag := _ ← CalculateDeferredFlags; r ← _Constant 0; SetRFLAG Flag r in
  let set Flag := _ ← CalculateDeferredFlags; r ← _Constant 1; SetRFLAG Flag r in
  if OP Op =? 0xF5 then
    _ ← CalculateDeferredFlags;
    RFLAG ← GetRFLAG RFLAG_CF_LOC; c ← _Constant 1; r ← _Xor RFLAG c;
    SetRFLAG RFLAG_CF_LOC r
  else if OP Op =? 0xF8 then clear RFLAG_CF_LOC
  else if OP Op =? 0xF9 then set RFLAG_CF_LOC
  else if OP Op =? 0xFC then clear RFLAG_DF_LOC
  else if OP Op =? 0xFD then set RFLAG_DF_LOC
  else fail Undef.

(** ** Compare and exchange *)

Definition CMPXCHGOp (Op : DecodedInst) : B unit :=
  GPRSize ← GetGPRSize;
  Size ← GetSrcSizeOf Op;
  Src2 ← LoadOperand Op (SrcOperand Op 0);
  let wide := (GPRSize =? 8) && (Size =? 4) in
  let flags Src3Lower CASResult : B unit :=
    DSize ← GetDstBitSize Op;
    Result ← _Sub Src3Lower CASResult;
    Result ← (if DSize <? 32 then _Bfe DSize 0 Result else mret Result);
    GenerateFlags_SUB (OpFlags Op) Result Src3Lower CASResult true in
  if IsGPR (Dest Op) then
    '(Src1, Src1Lower, Src3, Src3Lower) ← (if wide then
        Src1 ← LoadOperand_WithOpSize Op (Dest Op) GPRSize;
        Src1Lower ← _BfeSized 4 32 0 Src1;
        Src3 ← _LoadContext 8 (GPROffset REG_RAX);
        Src3Lower ← _BfeSized 4 32 0 Src3;
        mret (Src1, Src1Lower, Src3, Src3Lower)
      else
        Src1 ← LoadOperand_WithOpSize Op (Dest Op) Size;
        Src3 ← _LoadContext Size (GPROffset REG_RAX);
        mret (Src1, Src1, Src3, Src3));
    CASResult ← _Select COND_EQ Src1Lower Src3Lower Src3Lower Src1Lower;
    DestResult ← _Select COND_EQ Src1Lower Src3Lower Src2 Src1;
    _ ← (if wide then
        RAXResult ← _Select COND_EQ CASResult Src3Lower Src3 Src1Lower;
        _ ← _StoreContext GPRSize RAXResult (GPROffset REG_RAX);
        StoreResult_WithOpSize Op (Dest Op) DestResult GPRSize ACCESS_DEFAULT
      else
        _ ← _StoreContext Size CASResult (GPROffset REG_RAX);
        StoreResult Op DestResult);
    flags Src3Lower CASResult
  else
    _ ← set_HandledLock (flag_set (OpFlags Op) FLAG_LOCK);
    '(Src3, Src3Lower) ← (if wide then
        Src3 ← _LoadContext 8 (GPROffset REG_RAX); l ← _BfeSized 4 32 0 Src3; mret (Src3, l)
      else Src3 ← _LoadContext Size (GPROffset REG_RAX); mret (Src3, Src3));
    Src1 ← LoadAddress Op (Dest Op);
    CASResult ← _CAS Src3Lower Src2 Src1;
    _ ← (if wide then
        RAXResult ← _Select COND_EQ CASResult Src3Lower Src3 CASResult;
        _StoreContext 8 RAXResult (GPROffset REG_RAX)
      else _StoreContext Size CASResult (GPROffset REG_RAX));
    flags Src3Lower CASResult.
