(* ===== verification/DispatchStack.v ===== *)
(** * The stack, calls and returns

    The handlers of [OpcodeDispatcher.cpp] that push and pop, enter and leave
    procedures, and leave the translated code for an address they compute. *)
From Stdlib Require Import ZArith Lia Bool.
From stdpp Require Import base gmap list numbers option.
From S2P Require Import Prelude IR ALUOps Interp Emitter Flags Dispatch.
#[local] Open Scope Z_scope.

Definition RSPOffset : Z := GPROffset REG_RSP.
Definition RBPOffset : Z := GPROffset REG_RBP.

(** ** Pushing *)

(** [NewSP = OldSP - Size], which becomes the stack pointer; the value is stored there. *)
Definition push_value (GPRSize Size : Z) (Src_ : NodeID) : B unit :=
  Constant ← _Constant Size;
  OldSP ← _LoadContext GPRSize RSPOffset;
  NewSP ← _Sub OldSP Constant;
  _ ← _StoreContext GPRSize NewSP RSPOffset;
  _StoreMem Size NewSP Src_.

Definition PUSHOp (Op : DecodedInst) : B unit :=
  Size ← GetSrcSizeOf Op; GPRSize ← GetGPRSize;
  Src_ ← LoadOperand Op (SrcOperand Op 0);
  push_value GPRSize Size Src_.

Definition PUSHREGOp (Op : DecodedInst) : B unit :=
  Size ← GetSrcSizeOf Op; GPRSize ← GetGPRSize;
  Src_ ← LoadOperand Op (Dest Op);
  push_value GPRSize Size Src_.

(** The registers below [NewSP], in the order they are pushed; [None] is the old
    stack pointer itself. *)
Fixpoint push_all (Size : Z) (Constant OldSP NewSP : NodeID) (regs : list (option Z)) : B NodeID :=
  match regs with
  | [] => mret NewSP
  | r :: regs =>
      NewSP ← _Sub NewSP Constant;
      Src_ ← (match r with Some r => _LoadContext Size (GPROffset r) | None => mret OldSP end);
      _ ← _StoreMem Size NewSP Src_;
      push_all Size Constant OldSP NewSP regs
  end.

Definition PUSHAOp (Op : DecodedInst) : B unit :=
  Size ← GetSrcSizeOf Op;
  Constant ← _Constant Size;
  OldSP ← _LoadContext 4 RSPOffset;
  NewSP ← push_all Size Constant OldSP OldSP
    [Some REG_RAX; Some REG_RCX; Some REG_RDX; Some REG_RBX; None; Some REG_RBP; Some REG_RSI; Some REG_RDI];
  _StoreContext 4 NewSP RSPOffset.

(** [SegmentReg] is one of the prefix flags. *)
Definition PUSHSegmentOp (SegmentReg : Z) (Op : DecodedInst) : B unit :=
  SrcSize_ ← GetSrcSizeOf Op; DstSize ← GetDstSize Op; GPRSize ← GetGPRSize;
  Constant ← _Constant DstSize;
  OldSP ← _LoadContext GPRSize RSPOffset;
  NewSP ← _Sub OldSP Constant;
  _ ← _StoreContext GPRSize NewSP RSPOffset;
  match segment_offset SegmentReg with
  | Some o => Src_ ← _LoadContext SrcSize_ o; _StoreMem DstSize NewSP Src_
  | None => fail Undef
  end.

Definition PUSHFOp (Op : DecodedInst) : B unit :=
  GPRSize ← GetGPRSize; Size ← GetSrcSizeOf Op;
  Src_ ← GetPackedRFLAG false;
  Src_ ← (if Size =? 8 then mret Src_ else _Bfe (Size * 8) 0 Src_);
  push_value GPRSize Size Src_.

(** ** Popping *)

(** The value at the stack pointer, which moves past it. *)
Definition pop_value (GPRSize Size : Z) : B NodeID :=
  Constant ← _Constant Size;
  OldSP ← _LoadContext GPRSize RSPOffset;
  NewGPR ← _LoadMem Size OldSP;
  NewSP ← _Add OldSP Constant;
  _ ← _StoreContext GPRSize NewSP RSPOffset;
  mret NewGPR.

Definition POPOp (Op : DecodedInst) : B unit :=
  Size ← GetSrcSizeOf Op; GPRSize ← GetGPRSize;
  NewGPR ← pop_value GPRSize Size;
  StoreResult Op NewGPR.

(** The registers at [NewSP], each followed by the distance to the next one. *)
Fixpoint pop_all (Size : Z) (Constant NewSP : NodeID) (regs : list (Z * bool)) : B NodeID :=
  match regs with
  | [] => mret NewSP
  | (r, skip) :: regs =>
      Src_ ← _LoadMem Size NewSP;
      _ ← _StoreContext Size Src_ (GPROffset r);
      NewSP ← (if skip : bool then c ← _Constant (Size * 2); _Add NewSP c else _Add NewSP Constant);
      pop_all Size Constant NewSP regs
  end.

Definition POPAOp (Op : DecodedInst) : B unit :=
  Size ← GetSrcSizeOf Op;
  Constant ← _Constant Size;
  OldSP ← _LoadContext 4 RSPOffset;
  NewSP ← pop_all Size Constant OldSP
    [(REG_RDI, false); (REG_RSI, false); (REG_RBP, true); (REG_RBX, false); (REG_RDX, false); (REG_RCX, false); (REG_RAX, false)];
  _StoreContext 4 NewSP RSPOffset.

Definition POPSegmentOp (SegmentReg : Z) (Op : DecodedInst) : B unit :=
  SrcSize_ ← GetSrcSizeOf Op; DstSize ← GetDstSize Op; GPRSize ← GetGPRSize;
  NewSegment ← pop_value GPRSize SrcSize_;
  match segment_offset SegmentReg with
  | Some o => _StoreContext DstSize NewSegment o
  | None => mret tt
  end.

Definition POPFOp (Op : DecodedInst) : B unit :=
  GPRSize ← GetGPRSize; Size ← GetSrcSizeOf Op;
  Src_ ← pop_value GPRSize Size;
  c ← _ConstantSized (Size * 8) 0x202; Src_ ← _Or Src_ c;
  SetPackedRFLAG false Src_.

(** ** Procedures *)

Definition LEAVEOp (Op : DecodedInst) : B unit :=
  GPRSize ← GetGPRSize; Size ← GetSrcSizeOf Op;
  Constant ← _Constant Size;
  OldBP ← _LoadContext GPRSize RBPOffset;
  NewGPR ← _LoadMem Size OldBP;
  NewSP ← _Add OldBP Constant;
  _ ← _StoreContext GPRSize NewSP RSPOffset;
  _StoreContext GPRSize NewGPR RBPOffset.

(** [PushValue] of [EnterOp], which stores before it moves the stack pointer. *)
Definition PushValue (GPRSize Size : Z) (Src_ : NodeID) : B NodeID :=
  OldSP ← _LoadContext GPRSize RSPOffset;
  c ← _Constant Size; NewSP ← _Sub OldSP c;
  _ ← _StoreMem Size NewSP Src_;
  _ ← _StoreContext GPRSize NewSP RSPOffset;
  mret NewSP.

(** The frame pointers of the outer levels, [i] of [n] still to push. *)
Fixpoint push_levels (n : nat) (i GPRSize : Z) (OldBP NewSP : NodeID) : B NodeID :=
  match n with
  | O => mret NewSP
  | S n =>
      Offset ← _Constant (i * GPRSize);
      MemLoc ← _Sub OldBP Offset;
      Mem_ ← _LoadMem GPRSize MemLoc;
      NewSP ← PushValue GPRSize GPRSize Mem_;
      push_levels n (i + 1) GPRSize OldBP NewSP
  end.

Definition EnterOp (Op : DecodedInst) : B unit :=
  GPRSize ← GetGPRSize;
  match SrcOperand Op 0 with
  | Literal _ Value =>
      let AllocSpace := Z.land Value 0xFFFF in
      let Level := Z.land (Z.shiftr Value 16) 0x1F in
      OldBP ← _LoadContext GPRSize RBPOffset;
      temp_RBP ← PushValue GPRSize GPRSize OldBP;
      NewSP ← (if 0 <? Level then
                 NewSP ← push_levels (Z.to_nat (Level - 1)) 1 GPRSize OldBP temp_RBP;
                 PushValue GPRSize GPRSize temp_RBP
               else mret temp_RBP);
      c ← _Constant AllocSpace; NewSP ← _Sub NewSP c;
      _ ← _StoreContext GPRSize NewSP RSPOffset;
      _StoreContext GPRSize temp_RBP RBPOffset
  | _ => fail Assert
  end.

(** ** Control transfers *)

(** Flags do not survive calls and returns when the configuration says so. *)
Definition LeaveFlags : B unit :=
  b ← get_builder;
  if ABILocalFlags (CTX b) then
    _ ← _InvalidateFlags (Z.lnot 0); InvalidateDeferredFlags
  else CalculateDeferredFlags.

Definition CALLOp (Op : DecodedInst) : B unit :=
  GPRSize ← GetGPRSize;
  _ ← set_BlockSetRIP;
  _ ← LeaveFlags;
  ConstantPC ← GetRelocatedPC Op 0;
  JMPPCOffset ← LoadOperand Op (SrcOperand Op 0);
  NewRIP ← _Add ConstantPC JMPPCOffset;
  ConstantPCReturn ← GetRelocatedPC Op 0;
  _ ← push_value GPRSize GPRSize ConstantPCReturn;
  _ExitFunction NewRIP.

Definition CALLAbsoluteOp (Op : DecodedInst) : B unit :=
  GPRSize ← GetGPRSize;
  _ ← CalculateDeferredFlags;
  _ ← set_BlockSetRIP;
  Size ← GetSrcSizeOf Op;
  JMPPCOffset ← LoadOperand Op (SrcOperand Op 0);
  ConstantPCReturn ← GetRelocatedPC Op 0;
  _ ← push_value GPRSize Size ConstantPCReturn;
  _ExitFunction JMPPCOffset.

Definition RETOp (Op : DecodedInst) : B unit :=
  GPRSize ← GetGPRSize;
  _ ← LeaveFlags;
  Constant ← _Constant GPRSize;
  OldSP ← _LoadContext GPRSize RSPOffset;
  NewRIP ← _LoadMem GPRSize OldSP;
  NewSP ← (if OP Op =? 0xC2 then
             Offset ← LoadOperand Op (SrcOperand Op 0);
             t ← _Add OldSP Constant; _Add t Offset
           else _Add OldSP Constant);
  _ ← _StoreContext GPRSize NewSP RSPOffset;
  _ ← _ExitFunction NewRIP;
  set_BlockSetRIP.

Definition IRETOp (Op : DecodedInst) : B unit :=
  if flag_set (OpFlags Op) FLAG_OPERAND_SIZE then set_DecodeFailure
  else
    _ ← CalculateDeferredFlags;
    GPRSize ← GetGPRSize;
    Constant ← _Constant GPRSize;
    SP ← _LoadContext GPRSize RSPOffset;
    NewRIP ← _LoadMem GPRSize SP;
    SP ← _Add SP Constant;
    m ← _LoadMem GPRSize SP; _ ← _StoreContext 2 m cs_OFFSET;
    SP ← _Add SP Constant;
    eflags ← _LoadMem GPRSize SP;
    _ ← SetPackedRFLAG false eflags;
    SP ← _Add SP Constant;
    b ← get_builder;
    _ ← (if Is64BitMode (CTX b) then
           m ← _LoadMem GPRSize SP; _ ← _StoreContext GPRSize m RSPOffset;
           SP ← _Add SP Constant;
           m ← _LoadMem GPRSize SP; _ ← _StoreContext 2 m ss_OFFSET;
           _ ← _Add SP Constant; mret tt
         else _StoreContext GPRSize SP RSPOffset);
    _ ← _ExitFunction NewRIP;
    set_BlockSetRIP.

Definition JUMPAbsoluteOp (Op : DecodedInst) : B unit :=
  _ ← CalculateDeferredFlags;
  _ ← set_BlockSetRIP;
  RIPOffset ← LoadOperand Op (SrcOperand Op 0);
  _ExitFunction RIPOffset.
