(* ===== verification/DispatchArith.v ===== *)
(** * Shifts, bit manipulation, multiplication and division

    The handlers of [OpcodeDispatcher.cpp] for the shifts and rotations by an
    amount in a register, by an immediate and by one, the double shifts by an
    immediate and the shifts of BMI2; for bit tests, bit scans and bit
    manipulation; and for multiplications and divisions. *)
From Stdlib Require Import ZArith Lia Bool.
From stdpp Require Import base gmap list numbers option.
From S2P Require Import Prelude IR ALUOps Interp Emitter Flags Dispatch.
#[local] Open Scope Z_scope.

(** The amount is masked by 63 for 64-bit operands and by 31 for the others. *)
Definition mask_amount (Size : Z) (Src_ : NodeID) : B NodeID :=
  c ← _Constant (if Size =? 64 then 0x3F else 0x1F); _And Src_ c.
Definition mask_amount_sized (Size : Z) (Src_ : NodeID) : B NodeID :=
  c ← _ConstantSized Size (if Size =? 64 then 0x3F else 0x1F); _And Src_ c.

(** The immediate of a shift, masked. *)
Definition immediate_amount (Op : DecodedInst) (Size : Z) : B Z :=
  match SrcOperand Op 1 with
  | Literal _ Value => mret (Z.land Value (if Size =? 64 then 0x3F else 0x1F))
  | _ => fail Assert
  end.

(** ** Shifts *)

Definition SHLOp (SHL1Bit : bool) (Op : DecodedInst) : B unit :=
  Dest_ ← LoadOperand Op (Dest Op);
  Src_ ← (if SHL1Bit then _Constant 1 else LoadOperand Op (SrcOperand Op 1));
  Size ← GetSrcBitSize Op;
  Src_ ← mask_amount Size Src_;
  Result ← _Lshl Dest_ Src_;
  _ ← StoreResult Op Result;
  Result ← (if Size <? 32 then _Bfe Size 0 Result else mret Result);
  if SHL1Bit then GenerateFlags_ShiftLeftImmediate (OpFlags Op) Result Dest_ 1
  else GenerateFlags_ShiftLeft (OpFlags Op) Result Dest_ Src_.

Definition SHLImmediateOp (Op : DecodedInst) : B unit :=
  Dest_ ← LoadOperand Op (Dest Op);
  Size ← GetSrcBitSize Op;
  Shift ← immediate_amount Op Size;
  Src_ ← _ConstantSized Size Shift;
  Result ← _Lshl Dest_ Src_;
  _ ← StoreResult Op Result;
  Result ← (if Size <? 32 then _Bfe Size 0 Result else mret Result);
  GenerateFlags_ShiftLeftImmediate (OpFlags Op) Result Dest_ Shift.

Definition SHROp (SHR1Bit : bool) (Op : DecodedInst) : B unit :=
  Dest_ ← LoadOperand Op (Dest Op);
  Src_ ← (if SHR1Bit then _Constant 1 else LoadOperand Op (SrcOperand Op 1));
  Size ← GetSrcBitSize Op;
  Src_ ← mask_amount Size Src_;
  ALUOp ← _Lshr Dest_ Src_;
  _ ← StoreResult Op ALUOp;
  if SHR1Bit then GenerateFlags_ShiftRightImmediate (OpFlags Op) ALUOp Dest_ 1
  else GenerateFlags_ShiftRight (OpFlags Op) ALUOp Dest_ Src_.

Definition SHRImmediateOp (Op : DecodedInst) : B unit :=
  Dest_ ← LoadOperand Op (Dest Op);
  Size ← GetSrcBitSize Op;
  Shift ← immediate_amount Op Size;
  Src_ ← _ConstantSized Size Shift;
  ALUOp ← _Lshr Dest_ Src_;
  _ ← StoreResult Op ALUOp;
  GenerateFlags_ShiftRightImmediate (OpFlags Op) ALUOp Dest_ Shift.

Definition ASHROp (SHR1Bit : bool) (Op : DecodedInst) : B unit :=
  Dest_ ← LoadOperand Op (Dest Op);
  Size ← GetSrcBitSize Op;
  Src_ ← (if SHR1Bit then _ConstantSized Size 1 else LoadOperand Op (SrcOperand Op 1));
  Src_ ← mask_amount_sized Size Src_;
  Dest_ ← (if Size <? 32 then _Sbfe Size 0 Dest_ else mret Dest_);
  Result ← _Ashr Dest_ Src_;
  _ ← StoreResult Op Result;
  if SHR1Bit then GenerateFlags_SignShiftRightImmediate (OpFlags Op) Result Dest_ 1
  else GenerateFlags_SignShiftRight (OpFlags Op) Result Dest_ Src_.

Definition ASHRImmediateOp (Op : DecodedInst) : B unit :=
  Dest_ ← LoadOperand Op (Dest Op);
  Size ← GetSrcBitSize Op;
  Shift ← immediate_amount Op Size;
  Dest_ ← (if Size <? 32 then _Sbfe Size 0 Dest_ else mret Dest_);
  Src_ ← _ConstantSized Size Shift;
  Result ← _Ashr Dest_ Src_;
  _ ← StoreResult Op Result;
  GenerateFlags_SignShiftRightImmediate (OpFlags Op) Result Dest_ Shift.

(** ** Double shifts by an immediate *)

(** [Tmp.first->Header.Size = 8] *)
Definition set_Size (n : NodeID) (size : Z) : B unit := fun b =>
  let e := emitter b in
  match Data e !! n with
  | Some h => Ok (tt, with_emitter (mkEmitter (<[n := mkOp (IR.Op h) size (ElementSize h) (Args h)]> (Data e))
                        (NumUses e) (Before e) (After e) (NextNode e)) b)
  | None => Undef
  end.

Definition SHLDImmediateOp (Op : DecodedInst) : B unit :=
  Src_ ← LoadOperand Op (SrcOperand Op 0);
  Dest_ ← LoadOperand Op (Dest Op);
  Size ← GetSrcBitSize Op;
  Shift ← immediate_amount Op Size;
  if negb (Shift =? 0) then
    ShiftLeft ← _Constant Shift;
    ShiftRight ← _Constant (uint 64 (Size - Shift));
    Tmp1 ← _Lshl Dest_ ShiftLeft; _ ← set_Size Tmp1 8;
    Tmp2 ← _Lshr Src_ ShiftRight;
    Res_ ← _Or Tmp1 Tmp2;
    _ ← StoreResult Op Res_;
    Res_ ← (if Size =? 64 then mret Res_ else _Bfe Size 0 Res_);
    GenerateFlags_ShiftLeftImmediate (OpFlags Op) Res_ Dest_ Shift
  else if Size =? 32 then StoreResult Op Dest_
  else mret tt.

Definition SHRDImmediateOp (Op : DecodedInst) : B unit :=
  Src_ ← LoadOperand Op (SrcOperand Op 0);
  Dest_ ← LoadOperand Op (Dest Op);
  Size ← GetSrcBitSize Op;
  Shift ← immediate_amount Op Size;
  if negb (Shift =? 0) then
    ShiftRight ← _Constant Shift;
    ShiftLeft ← _Constant (uint 64 (Size - Shift));
    Tmp1 ← _Lshr Dest_ ShiftRight;
    Tmp2 ← _Lshl Src_ ShiftLeft; _ ← set_Size Tmp2 8;
    Res_ ← _Or Tmp1 Tmp2;
    _ ← StoreResult Op Res_;
    Res_ ← (if Size =? 64 then mret Res_ else _Bfe Size 0 Res_);
    GenerateFlags_ShiftRightImmediate (OpFlags Op) Res_ Dest_ Shift
  else if Size =? 32 then StoreResult Op Dest_
  else mret tt.

(** ** Rotations

    Narrow operands are repeated to fill 32 bits. *)
Definition repeat_operand (Size : Z) (whole : bool) (Dest_ : NodeID) : B NodeID :=
  if Size <? 32 then
    Dest_ ← _Bfi 4 Size Size Dest_ Dest_;
    if (Size =? 8) && whole then _Bfi 4 16 16 Dest_ Dest_ else mret Dest_
  else mret Dest_.

Definition ROROp (Is1Bit : bool) (Op : DecodedInst) : B unit :=
  Dest_ ← LoadOperand Op (Dest Op);
  Size ← GetSrcBitSize Op;
  Src_ ← (if Is1Bit then _ConstantSized (Z.max 32 Size) 1 else LoadOperand Op (SrcOperand Op 1));
  Src_ ← mask_amount_sized Size Src_;
  Dest_ ← repeat_operand Size (negb Is1Bit) Dest_;
  ALUOp ← _Ror Dest_ Src_;
  _ ← StoreResult Op ALUOp;
  if Is1Bit then GenerateFlags_RotateRightImmediate (OpFlags Op) ALUOp Dest_ 1
  else GenerateFlags_RotateRight (OpFlags Op) ALUOp Dest_ Src_.

Definition RORImmediateOp (Op : DecodedInst) : B unit :=
  Dest_ ← LoadOperand Op (Dest Op);
  Size ← GetSrcBitSize Op;
  Shift ← immediate_amount Op Size;
  Src_ ← _ConstantSized (Z.max 32 Size) Shift;
  Dest_ ← repeat_operand Size (8 <? Shift) Dest_;
  ALUOp ← _Ror Dest_ Src_;
  _ ← StoreResult Op ALUOp;
  GenerateFlags_RotateRightImmediate (OpFlags Op) ALUOp Dest_ Shift.

Definition ROLOp (Is1Bit : bool) (Op : DecodedInst) : B unit :=
  Dest_ ← LoadOperand Op (Dest Op);
  Size ← GetSrcBitSize Op;
  Src_ ← (if Is1Bit then _ConstantSized Size 1 else LoadOperand Op (SrcOperand Op 1));
  Src_ ← mask_amount_sized Size Src_;
  Dest_ ← repeat_operand Size true Dest_;
  c ← _ConstantSized Size (Z.max 32 Size); n ← _Sub c Src_;
  ALUOp ← _Ror Dest_ n;
  _ ← StoreResult Op ALUOp;
  if Is1Bit then GenerateFlags_RotateLeftImmediate (OpFlags Op) ALUOp Dest_ 1
  else GenerateFlags_RotateLeft (OpFlags Op) ALUOp Dest_ Src_.

Definition ROLImmediateOp (Op : DecodedInst) : B unit :=
  Dest_ ← LoadOperand Op (Dest Op);
  Size ← GetSrcBitSize Op;
  Shift ← immediate_amount Op Size;
  Src_ ← _ConstantSized Size (uint 64 (Z.max 32 Size - Shift));
  Dest_ ← repeat_operand Size true Dest_;
  ALUOp ← _Ror Dest_ Src_;
  _ ← StoreResult Op ALUOp;
  GenerateFlags_RotateLeftImmediate (OpFlags Op) ALUOp Dest_ Shift.

(** ** BMI2 *)

(** [SARX], [SHLX] and [SHRX]. *)
Definition BMI2Shift (Op : DecodedInst) : B unit :=
  Src_ ← LoadOperand Op (SrcOperand Op 0);
  Shift ← LoadOperand Op (SrcOperand Op 1);
  OperandSize ← GetSrcBitSize Op;
  SanitizedShift ← mask_amount OperandSize Shift;
  Result ← (if OP Op =? 0x6F7 then _Ashr Src_ SanitizedShift
            else if OP Op =? 0x5F7 then _Lshl Src_ SanitizedShift
            else _Lshr Src_ SanitizedShift);
  StoreResult Op Result.

Definition RORX (Op : DecodedInst) : B unit :=
  Src_ ← LoadOperand Op (SrcOperand Op 0);
  match SrcOperand Op 1 with
  | Literal _ Amount => c ← _Constant Amount; Result ← _Ror Src_ c; StoreResult Op Result
  | _ => fail Assert
  end.

(** ** Bit tests, bit scans and bit manipulation

    The handlers of [OpcodeDispatcher.cpp] for [BT], [BTR], [BTS], [BTC], the
    scans and counts, and BMI1, BMI2 and ADX. *)
(** ** Bit tests *)

(** The index: a register, or an immediate that is masked when it is emitted. *)
Definition bit_index (Op : DecodedInst) (SrcIndex : nat) (Size : Z) : B (NodeID * bool) :=
  match SrcOperand Op SrcIndex with
  | GPR _ _ => n ← LoadOperand Op (SrcOperand Op SrcIndex); mret (n, false)
  | Literal _ Value => n ← _ConstantSized Size (Z.land Value (Size - 1)); mret (n, true)
  | _ => fail Undef
  end.

(** The bit in a register destination, and how far it is shifted. *)
Definition register_bit (Size : Z) (AlreadyMasked : bool) (Dest_ Src_ : NodeID) : B (NodeID * NodeID) :=
  BitSelect ← (if AlreadyMasked then mret Src_ else SizeMask ← _Constant (Size - 1); _And Src_ SizeMask);
  Result ← _Lshr Dest_ BitSelect;
  mret (Result, BitSelect).

(** The byte of memory that holds the bit, and its number there. *)
Definition memory_bit (Op : DecodedInst) (Size : Z) (Src_ : NodeID) : B (NodeID * NodeID) :=
  Dest_ ← LoadAddress Op (Dest Op);
  BitSelect ← _Bfe 3 0 Src_;
  Src_ ← _Sbfe (Size - 3) 3 Src_;
  MemoryLocation ← _Add Dest_ Src_;
  mret (MemoryLocation, BitSelect).

Definition BTOp (SrcIndex : nat) (Op : DecodedInst) : B unit :=
  Size ← GetDstBitSize Op;
  _ ← CalculateDeferredFlags;
  '(Src_, AlreadyMasked) ← bit_index Op SrcIndex Size;
  Result ← (if IsGPR (Dest Op) then
      Dest_ ← LoadOperand Op (Dest Op);
      '(Result, _) ← register_bit Size AlreadyMasked Dest_ Src_; mret Result
    else
      '(MemoryLocation, BitSelect) ← memory_bit Op Size Src_;
      Result ← _LoadMemAutoTSO 1 MemoryLocation;
      _Lshr Result BitSelect);
  SetRFLAG RFLAG_CF_LOC Result.

(** What the three instructions that change the bit have in common: how a value
    is combined with the mask of the bit, and the atomic operation for it. *)
Definition bit_change (combine : NodeID -> NodeID -> B NodeID) (atomic : NodeID -> NodeID -> B NodeID)
    (SrcIndex : nat) (Op : DecodedInst) : B unit :=
  Size ← GetDstBitSize Op;
  _ ← CalculateDeferredFlags;
  '(Src_, AlreadyMasked) ← bit_index Op SrcIndex Size;
  Result ← (if IsGPR (Dest Op) then
      Dest_ ← LoadOperand Op (Dest Op);
      '(Result, BitSelect) ← register_bit Size AlreadyMasked Dest_ Src_;
      o ← _Constant 1; BitMask ← _Lshl o BitSelect;
      Dest_ ← combine Dest_ BitMask;
      _ ← StoreResult Op Dest_;
      mret Result
    else
      '(MemoryLocation, BitSelect) ← memory_bit Op Size Src_;
      o ← _Constant 1; BitMask ← _Lshl o BitSelect;
      if DestIsLockedMem Op then
        _ ← set_HandledLock true;
        Result ← atomic BitMask MemoryLocation;
        _Lshr Result BitSelect
      else
        Value ← _LoadMemAutoTSO 1 MemoryLocation;
        Result ← _Lshr Value BitSelect;
        Value ← combine Value BitMask;
        _ ← _StoreMemAutoTSO 1 MemoryLocation Value;
        mret Result);
  SetRFLAG RFLAG_CF_LOC Result.

Definition BTROp : nat -> DecodedInst -> B unit :=
  bit_change _Andn (fun BitMask MemoryLocation => n ← _Not BitMask; _AtomicFetchAnd 1 n MemoryLocation).
Definition BTSOp : nat -> DecodedInst -> B unit := bit_change _Or (_AtomicFetchOr 1).
Definition BTCOp : nat -> DecodedInst -> B unit := bit_change _Xor (_AtomicFetchXor 1).

(** ** Scans and counts *)

Definition bit_scan (find : NodeID -> B NodeID) (Op : DecodedInst) : B unit :=
  GPRSize ← GetGPRSize;
  d ← GetDstSize Op;
  let DstSize := if d =? 2 then 2 else GPRSize in
  Dest_ ← LoadOperand_WithOpSize Op (Dest Op) DstSize;
  Src_ ← LoadOperand Op (SrcOperand Op 0);
  Result ← find Src_;
  ZeroConst ← _Constant 0;
  SelectOp ← _Select COND_EQ Src_ ZeroConst Dest_ Result;
  _ ← StoreResult_WithOpSize Op (Dest Op) SelectOp DstSize ACCESS_DEFAULT;
  GenerateFlags_BITSELECT (OpFlags Op) Src_.
Definition BSFOp : DecodedInst -> B unit := bit_scan _FindLSB.
Definition BSROp : DecodedInst -> B unit := bit_scan _FindMSB.

Definition PopcountOp (Op : DecodedInst) : B unit :=
  Src_ ← LoadOperand Op (SrcOperand Op 0);
  Src_ ← _Popcount Src_;
  _ ← StoreResult Op Src_;
  GenerateFlags_POPCOUNT (OpFlags Op) Src_.

Definition TZCNT (Op : DecodedInst) : B unit :=
  Src_ ← LoadOperand Op (SrcOperand Op 0);
  Src_ ← _FindTrailingZeros Src_;
  _ ← StoreResult Op Src_;
  GenerateFlags_TZCNT (OpFlags Op) Src_.

Definition LZCNT (Op : DecodedInst) : B unit :=
  Src_ ← LoadOperand Op (SrcOperand Op 0);
  Res_ ← _CountLeadingZeroes Src_;
  _ ← StoreResult Op Res_;
  GenerateFlags_LZCNT (OpFlags Op) Src_.

(** ** BMI1 *)

Definition ANDNBMIOp (Op : DecodedInst) : B unit :=
  Src1 ← LoadOperand Op (SrcOperand Op 0);
  Src2 ← LoadOperand Op (SrcOperand Op 1);
  Dest_ ← _Andn Src2 Src1;
  _ ← StoreResult Op Dest_;
  GenerateFlags_Logical (OpFlags Op) Dest_ Src1 Src2.

Definition BEXTRBMIOp (Op : DecodedInst) : B unit :=
  Src1 ← LoadOperand Op (SrcOperand Op 0);
  Src2 ← LoadOperand Op (SrcOperand Op 1);
  SrcSize_ ← GetSrcBitSize Op;
  let MaxSrcBit := SrcSize_ - 1 in
  MaxSrcBitOp ← _ConstantSized SrcSize_ MaxSrcBit;
  Start ← _Bfe 8 0 Src2;
  Shifted ← _Lshr Src1 Start;
  z ← _ConstantSized SrcSize_ 0;
  SanitizedShifted ← _Select COND_ULE Start MaxSrcBitOp Shifted z;
  Length ← _Bfe 8 8 Src2;
  SanitizedLength ← _Select COND_ULE Length MaxSrcBitOp Length MaxSrcBitOp;
  One ← _ConstantSized SrcSize_ 1;
  l ← _Lshl One SanitizedLength; Mask ← _Sub l One;
  Dest_ ← _And SanitizedShifted Mask;
  _ ← StoreResult Op Dest_;
  GenerateFlags_BEXTR (OpFlags Op) Dest_.

Definition BLSIBMIOp (Op : DecodedInst) : B unit :=
  Src_ ← LoadOperand Op (SrcOperand Op 0);
  NegatedSrc ← _Neg Src_;
  Result ← _And Src_ NegatedSrc;
  _ ← StoreResult Op Result;
  GenerateFlags_BLSI (OpFlags Op) Result.

Definition BLSMSKBMIOp (Op : DecodedInst) : B unit :=
  One ← _Constant 1;
  Src_ ← LoadOperand Op (SrcOperand Op 0);
  s ← _Sub Src_ One; Result ← _Xor s Src_;
  _ ← StoreResult Op Result;
  GenerateFlags_BLSMSK (OpFlags Op) Src_.

Definition BLSRBMIOp (Op : DecodedInst) : B unit :=
  One ← _Constant 1;
  Src_ ← LoadOperand Op (SrcOperand Op 0);
  s ← _Sub Src_ One; Result ← _And s Src_;
  _ ← StoreResult Op Result;
  GenerateFlags_BLSR (OpFlags Op) Result Src_.

(** ** BMI2 and ADX *)

Definition BZHI (Op : DecodedInst) : B unit :=
  OperandSize ← GetSrcBitSize Op;
  Src_ ← LoadOperand Op (SrcOperand Op 0);
  Index ← LoadOperand Op (SrcOperand Op 1);
  c ← _Constant 0xFF; MaskedIndex ← _And Index c;
  NegOne ← _ConstantSized OperandSize (-1);
  Mask ← _Lshl NegOne MaskedIndex;
  MaskResult ← _Andn Src_ Mask;
  Bounds ← _Constant (OperandSize - 1);
  Result ← _Select COND_UGT MaskedIndex Bounds Src_ MaskResult;
  _ ← StoreResult Op Result;
  GenerateFlags_BZHI (OpFlags Op) Result MaskedIndex.

Definition MULX (Op : DecodedInst) : B unit :=
  OperandSize ← GetSrcSizeOf Op;
  Src1 ← LoadOperand Op (SrcOperand Op 1);
  Src2 ← _LoadContext OperandSize (gregs REG_RDX);
  ResultLo ← _UMul Src1 Src2;
  ResultHi ← _UMulH Src1 Src2;
  _ ← StoreResultTo Op (SrcOperand Op 0) ResultLo;
  StoreResult Op ResultHi.

Definition PDEP (Op : DecodedInst) : B unit :=
  Input ← LoadOperand Op (SrcOperand Op 0);
  Mask ← LoadOperand Op (SrcOperand Op 1);
  Result ← _PDep Input Mask; StoreResult Op Result.

Definition PEXT (Op : DecodedInst) : B unit :=
  Input ← LoadOperand Op (SrcOperand Op 0);
  Mask ← LoadOperand Op (SrcOperand Op 1);
  Result ← _PExt Input Mask; StoreResult Op Result.

(** [ADCX] and [ADOX]. *)
Definition ADXOp (Op : DecodedInst) : B unit :=
  _ ← CalculateDeferredFlags;
  let loc := if OP Op =? 0x1F6 then RFLAG_CF_LOC else RFLAG_OF_LOC in
  Flag ← GetRFLAG loc;
  Src_ ← LoadOperand Op (SrcOperand Op 0);
  Before_ ← LoadOperand Op (Dest Op);
  ALUOp ← _Add Src_ Flag;
  Result ← _Add Before_ ALUOp;
  _ ← StoreResult Op Result;
  Zero ← _Constant 0; One ← _Constant 1;
  SelectOpLT ← _Select COND_ULT Result Src_ One Zero;
  SelectOpLE ← _Select COND_ULE Result Src_ One Zero;
  SelectFlag ← _Select COND_EQ Flag One SelectOpLE SelectOpLT;
  SetRFLAG loc SelectFlag.

(** ** Multiplication and division

    The handlers of [OpcodeDispatcher.cpp] for the integer multiplications and
    divisions. *)
Definition RAXOffset : Z := GPROffset REG_RAX.
Definition RDXOffset : Z := GPROffset REG_RDX.

(** ** Signed products *)

(** A product of sign-extended operands, and its high half. *)
Definition signed_product (Size : Z) (Src1 Src2 : NodeID) : B (NodeID * NodeID) :=
  Src1 ← (if Size =? 8 then mret Src1 else _Sext (Size * 8) Src1);
  Src2 ← (if Size =? 8 then mret Src2 else _Sext (Size * 8) Src2);
  Dest_ ← _Mul Src1 Src2;
  ResultHigh ← (if Size <? 8 then _Sbfe (Size * 8) (Size * 8) Dest_ else _MulH Src1 Src2);
  mret (Dest_, ResultHigh).

Definition IMUL1SrcOp (Op : DecodedInst) : B unit :=
  Src1 ← LoadOperand Op (Dest Op);
  Src2 ← LoadOperand Op (SrcOperand Op 0);
  Size ← GetSrcSizeOf Op;
  '(Dest_, ResultHigh) ← signed_product Size Src1 Src2;
  _ ← StoreResult Op Dest_;
  GenerateFlags_MUL (OpFlags Op) Dest_ ResultHigh.

Definition IMUL2SrcOp (Op : DecodedInst) : B unit :=
  Src1 ← LoadOperand Op (SrcOperand Op 0);
  Src2 ← LoadOperand Op (SrcOperand Op 1);
  Size ← GetSrcSizeOf Op;
  '(Dest_, ResultHigh) ← signed_product Size Src1 Src2;
  _ ← StoreResult Op Dest_;
  GenerateFlags_MUL (OpFlags Op) Dest_ ResultHigh.

(** The low and the high half go to the accumulator and to [RDX]; for bytes, both
    to [AX]. A 64-bit operand in 32-bit mode is a decode failure. *)
Definition IMULOp (Op : DecodedInst) : B unit :=
  Size ← GetSrcSizeOf Op;
  Src1 ← LoadOperand Op (Dest Op);
  Src2 ← _LoadContext Size RAXOffset;
  Src1 ← (if Size =? 8 then mret Src1 else _Sext (Size * 8) Src1);
  Src2 ← (if Size =? 8 then mret Src2 else _Sext (Size * 8) Src2);
  Result ← _Mul Src1 Src2;
  b ← get_builder;
  if Size =? 1 then
    _ ← _StoreContext 2 Result RAXOffset;
    ResultHigh ← _Sbfe 8 8 Result;
    GenerateFlags_MUL (OpFlags Op) Result ResultHigh
  else if Size =? 2 then
    _ ← _StoreContext Size Result RAXOffset;
    ResultHigh ← _Sbfe 16 16 Result;
    _ ← _StoreContext Size ResultHigh RDXOffset;
    GenerateFlags_MUL (OpFlags Op) Result ResultHigh
  else if Size =? 4 then
    LocalResult ← _Bfe 32 0 Result;
    LocalResultHigh ← _Bfe 32 32 Result;
    ResultHigh ← _Sbfe 32 32 Result;
    Result ← _Sbfe 32 0 Result;
    _ ← _StoreContext 8 LocalResult RAXOffset;
    _ ← _StoreContext 8 LocalResultHigh RDXOffset;
    GenerateFlags_MUL (OpFlags Op) Result ResultHigh
  else if Size =? 8 then
    if negb (Is64BitMode (CTX b)) then set_DecodeFailure
    else
      ResultHigh ← _MulH Src1 Src2;
      _ ← _StoreContext 8 Result RAXOffset;
      _ ← _StoreContext 8 ResultHigh RDXOffset;
      GenerateFlags_MUL (OpFlags Op) Result ResultHigh
  else fail Undef.

(** ** Unsigned products *)

Definition MULOp (Op : DecodedInst) : B unit :=
  Size ← GetSrcSizeOf Op; GPRSize ← GetGPRSize;
  Src1 ← LoadOperand Op (Dest Op);
  Src2 ← _LoadContext Size RAXOffset;
  Src1 ← (if Size =? 8 then mret Src1 else _BfeSized 8 (Size * 8) 0 Src1);
  Src2 ← (if Size =? 8 then mret Src2 else _BfeSized 8 (Size * 8) 0 Src2);
  Result ← _UMul Src1 Src2;
  b ← get_builder;
  if Size =? 1 then
    _ ← _StoreContext 2 Result RAXOffset;
    ResultHigh ← _Bfe 8 8 Result;
    GenerateFlags_UMUL (OpFlags Op) ResultHigh
  else if Size =? 2 then
    _ ← _StoreContext Size Result RAXOffset;
    ResultHigh ← _Bfe 16 16 Result;
    _ ← _StoreContext Size ResultHigh RDXOffset;
    GenerateFlags_UMUL (OpFlags Op) ResultHigh
  else if Size =? 4 then
    ResultLow ← _BfeSized GPRSize 32 0 Result;
    ResultHigh ← _BfeSized GPRSize 32 32 Result;
    _ ← _StoreContext GPRSize ResultLow RAXOffset;
    _ ← _StoreContext GPRSize ResultHigh RDXOffset;
    GenerateFlags_UMUL (OpFlags Op) ResultHigh
  else if Size =? 8 then
    if negb (Is64BitMode (CTX b)) then set_DecodeFailure
    else
      ResultHigh ← _UMulH Src1 Src2;
      _ ← _StoreContext 8 Result RAXOffset;
      _ ← _StoreContext 8 ResultHigh RDXOffset;
      GenerateFlags_UMUL (OpFlags Op) ResultHigh
  else fail Undef.

(** ** Divisions *)

(** The quotient and the remainder of the double-width dividend. *)
Definition long_division (ldiv lrem : NodeID -> NodeID -> NodeID -> B NodeID) (GPRSize Size : Z) (Divisor : NodeID) : B unit :=
  Src1 ← _LoadContext Size RAXOffset;
  Src2 ← _LoadContext Size RDXOffset;
  DivOp ← (if Size =? 4 then q ← ldiv Src1 Src2 Divisor; _Bfe (Size * 8) 0 q else ldiv Src1 Src2 Divisor);
  RemOp ← (if Size =? 4 then r ← lrem Src1 Src2 Divisor; _Bfe (Size * 8) 0 r else lrem Src1 Src2 Divisor);
  let StoreSize := if Size =? 4 then GPRSize else Size in
  _ ← _StoreContext StoreSize DivOp RAXOffset;
  _StoreContext StoreSize RemOp RDXOffset.

Definition DIVOp (Op : DecodedInst) : B unit :=
  Divisor ← LoadOperand Op (Dest Op);
  GPRSize ← GetGPRSize; Size ← GetSrcSizeOf Op;
  b ← get_builder;
  if Size =? 1 then
    Src1 ← _LoadContext 2 RAXOffset;
    UDivOp ← _UDiv Src1 Divisor;
    URemOp ← _URem Src1 Divisor;
    _ ← _StoreContext Size UDivOp RAXOffset;
    _StoreContext Size URemOp (RAXOffset + 1)
  else if (Size =? 2) || (Size =? 4) then long_division _LUDiv _LURem GPRSize Size Divisor
  else if Size =? 8 then
    if negb (Is64BitMode (CTX b)) then set_DecodeFailure
    else long_division _LUDiv _LURem GPRSize Size Divisor
  else mret tt.

Definition IDIVOp (Op : DecodedInst) : B unit :=
  Divisor ← LoadOperand Op (Dest Op);
  GPRSize ← GetGPRSize; Size ← GetSrcSizeOf Op;
  b ← get_builder;
  if Size =? 1 then
    Src1 ← _LoadContext 2 RAXOffset;
    Src1 ← _Sbfe 16 0 Src1;
    Divisor ← _Sbfe 8 0 Divisor;
    UDivOp ← _Div Src1 Divisor;
    URemOp ← _Rem Src1 Divisor;
    _ ← _StoreContext Size UDivOp RAXOffset;
    _StoreContext Size URemOp (RAXOffset + 1)
  else if (Size =? 2) || (Size =? 4) then long_division _LDiv _LRem GPRSize Size Divisor
  else if Size =? 8 then
    if negb (Is64BitMode (CTX b)) then set_DecodeFailure
    else long_division _LDiv _LRem GPRSize Size Divisor
  else mret tt.
