(* ===== verification/X86Spec.v ===== *)
(** * Operands of x86 instructions

    What the architecture says, in 64-bit mode, about the operands of a decoded
    instruction: effective and linear addresses, the value a source has, and the
    registers and memory after a result is written. A place that is not a general
    purpose register, a literal or mapped memory has no meaning here. *)
From Stdlib Require Import ZArith Lia Bool.
From stdpp Require Import base gmap list numbers option.
From S2P Require Import Prelude IR ALUOps Interp IRSpec Emitter Flags FlagsSpec Dispatch.
#[local] Open Scope Z_scope.

(** ** Registers *)

Definition is_reg (g : Z) : bool := (0 <=? g) && (g <? 16).
Definition reg (F : gmap Z Z) (g : Z) : option Z := if is_reg g then load 8 F (gregs g) else None.
Definition high (HighBits : bool) : Z := if HighBits then 1 else 0.

(** A result of 32 bits clears the upper half, a smaller one leaves the rest. *)
Definition write_reg (F : gmap Z Z) (HighBits : bool) (g sz v : Z) : gmap Z Z :=
  if sz =? 4 then store 8 F (gregs g) (uint 32 v) else store (Z.to_nat sz) F (gregs g + high HighBits) v.

(** [AH], [CH], [DH] and [BH] are bytes. *)
Definition reg_place (HighBits : bool) (g sz : Z) : bool := is_reg g && (negb HighBits || (sz =? 1)).

(** ** Addresses *)

Section Operands.
Variable Op : DecodedInst.

Definition segment_base (F : gmap Z Z) : option Z :=
  if flag_set (OpFlags Op) FLAG_FS_PREFIX then load 8 F fs_OFFSET
  else if flag_set (OpFlags Op) FLAG_GS_PREFIX then load 8 F gs_OFFSET
  else Some 0.

(** [base + index * scale + displacement], not yet truncated. *)
Definition address_sum (F : gmap Z Z) (o : DecodedOperand) : option Z :=
  match o with
  | GPRDirect r => reg F r
  | GPRIndirect r Displacement => base ← reg F r; Some (base + Displacement)
  | RIPRelative Value => Some (PC Op + InstSize Op + sint 32 Value)
  | SIB Index Base Scale Offset =>
      index ← (if Index =? REG_INVALID then Some 0 else i ← reg F Index; Some (i * Scale));
      base ← (if Base =? REG_INVALID then Some 0 else reg F Base);
      Some (index + base + Offset)
  | _ => None
  end.

Definition address_size : Z := if flag_set (OpFlags Op) FLAG_ADDRESS_SIZE then 4 else 8.
Definition effective_address (F : gmap Z Z) (o : DecodedOperand) : option Z :=
  uint (8 * address_size) <$> address_sum F o.
Definition linear_address (F : gmap Z Z) (o : DecodedOperand) : option Z :=
  a ← effective_address F o; s ← segment_base F; Some (uint 64 (a + s)).

(** ** Reading and writing *)

Definition read_operand (F M : gmap Z Z) (o : DecodedOperand) (sz : Z) : option Z :=
  match o with
  | GPR HighBits g => if reg_place HighBits g sz then load (Z.to_nat sz) F (gregs g + high HighBits) else None
  | Literal s Value => if s =? sz then Some (uint (8 * sz) Value) else None
  | OperandNothing => None
  | _ => a ← linear_address F o; load (Z.to_nat sz) M a
  end.

Definition write_operand (F M : gmap Z Z) (o : DecodedOperand) (sz v : Z) : option (gmap Z Z * gmap Z Z) :=
  match o with
  | GPR HighBits g => if reg_place HighBits g sz then Some (write_reg F HighBits g sz v, M) else None
  | Literal _ _ | OperandNothing => None
  | _ => a ← linear_address F o; _ ← load (Z.to_nat sz) M a; Some (F, store (Z.to_nat sz) M a v)
  end.

(** An operand in memory. *)
Definition in_memory (o : DecodedOperand) : bool :=
  match o with GPR _ _ | Literal _ _ | OperandNothing => false | _ => true end.

(** The addresses that the translation truncates when the address size is 32 bits. *)
Definition address_exact (o : DecodedOperand) : bool :=
  match o with
  | GPRIndirect _ _ | RIPRelative _ => negb (flag_set (OpFlags Op) FLAG_ADDRESS_SIZE)
  | _ => true
  end.
End Operands.

(** ** Registers and flags do not overlap *)

Lemma write_reg_outside F hi g sz v a :
  size_1248 sz = true -> reg_place hi g sz = true -> 136 <= a -> write_reg F hi g sz v !! a = F !! a.
Proof.
  unfold reg_place, is_reg, write_reg, gregs, GREGS_OFFSET, high. intros Hs Hp Ha.
  unfold size_1248 in Hs. destruct (Z.eqb_spec sz 4); apply store_frame; [lia|]. destruct hi; lia.
Qed.

Lemma write_operand_outside Op F M o sz v F' M' a :
  size_1248 sz = true -> write_operand Op F M o sz v = Some (F', M') -> 136 <= a -> F' !! a = F !! a.
Proof.
  intros Hs Hw Ha. destruct o; cbn in Hw; try discriminate Hw.
  - destruct (reg_place _ _ _) eqn:Hp; [|discriminate Hw]. injection Hw as <- <-. apply write_reg_outside; assumption.
  - apply bind_Some in Hw as (? & _ & Hw). apply bind_Some in Hw as (? & _ & Hw). injection Hw as <- <-. reflexivity.
  - apply bind_Some in Hw as (? & _ & Hw). apply bind_Some in Hw as (? & _ & Hw). injection Hw as <- <-. reflexivity.
  - apply bind_Some in Hw as (? & _ & Hw). apply bind_Some in Hw as (? & _ & Hw). injection Hw as <- <-. reflexivity.
  - apply bind_Some in Hw as (? & _ & Hw). apply bind_Some in Hw as (? & _ & Hw). injection Hw as <- <-. reflexivity.
Qed.

Lemma rflag_ext F F' loc : F' !! (FLAGS_OFFSET + loc) = F !! (FLAGS_OFFSET + loc) -> rflag F' loc = rflag F loc.
Proof. unfold rflag. intros ->. reflexivity. Qed.

Lemma flags_wf_ext F F' : (forall a, 136 <= a -> F' !! a = F !! a) -> flags_wf F -> flags_wf F'.
Proof.
  intros HF. unfold flags_wf. rewrite !Forall_forall. intros H loc Hin.
  rewrite (rflag_ext F); [exact (H loc Hin)|]. apply HF.
  unfold FLAGS_OFFSET. cbn in Hin.
  repeat (destruct Hin as [<-|Hin]; [unfold RFLAG_CF_LOC, RFLAG_PF_LOC, RFLAG_AF_LOC, RFLAG_ZF_LOC, RFLAG_SF_LOC, RFLAG_TF_LOC, RFLAG_IF_LOC, RFLAG_DF_LOC, RFLAG_OF_LOC, RFLAG_IOPL_LOC, RFLAG_NT_LOC, RFLAG_RF_LOC, RFLAG_VM_LOC, RFLAG_AC_LOC, RFLAG_VIF_LOC, RFLAG_VIP_LOC, RFLAG_ID_LOC; lia|]).
  destruct Hin.
Qed.

(** ** Narrow reads *)

Lemma load_narrow n k m a v : (k <= n)%nat -> load n m a = Some v -> load k m a = Some (uint (8 * Z.of_nat k) v).
Proof.
  revert n a v. induction k as [|k IH]; intros n a v Hk Hl.
  - cbn. unfold uint. rewrite Z.mod_1_r. reflexivity.
  - destruct n as [|n]; [lia|]. cbn in Hl |- *. destruct (m !! a) as [c|]; [|discriminate Hl]. cbn [mbind option_bind] in *.
    destruct (load n m (a + 1)) as [r|] eqn:E; [|discriminate Hl]. cbn in Hl. injection Hl as <-.
    rewrite (IH n _ r) by (lia || exact E). cbn. f_equal.
    unfold uint. change 256 with (2 ^ 8).
    replace (8 * Z.of_nat (S k)) with (8 + 8 * Z.of_nat k) by lia.
    rewrite Z.pow_add_r, Z.rem_mul_r by lia.
    assert (0 <= c mod 2 ^ 8 < 2 ^ 8) by (apply Z.mod_pos_bound; lia).
    replace ((c mod 2 ^ 8 + 2 ^ 8 * r) mod 2 ^ 8) with (c mod 2 ^ 8)
      by (rewrite Z.mul_comm, Z_mod_plus_full, Zmod_mod; reflexivity).
    replace ((c mod 2 ^ 8 + 2 ^ 8 * r) / 2 ^ 8) with r
      by (rewrite Z.mul_comm, Z.div_add, Z.div_small by lia; lia).
    lia.
Qed.

(** ** Contexts that differ in the flags only *)

Definition same_registers (F F1 : gmap Z Z) : Prop := forall a, a < FLAGS_OFFSET -> F1 !! a = F !! a.

Lemma same_registers_load F F1 n a : same_registers F F1 -> a + Z.of_nat n <= FLAGS_OFFSET -> load n F1 a = load n F a.
Proof. intros H Ha. apply load_ext. intros. apply H. lia. Qed.

Lemma same_registers_reg F F1 g n h : same_registers F F1 -> is_reg g = true -> (n <= 16)%nat ->
  load n F1 (gregs g + high h) = load n F (gregs g + high h).
Proof.
  intros H Hg Hn. apply same_registers_load; [exact H|]. unfold is_reg, gregs, GREGS_OFFSET, FLAGS_OFFSET, high in *.
  destruct h; lia.
Qed.

Lemma address_same Op F F1 o : same_registers F F1 -> linear_address Op F1 o = linear_address Op F o.
Proof.
  intros H.
  assert (forall g, reg F1 g = reg F g) as Hreg.
  { intros g. unfold reg. destruct (is_reg g) eqn:Hg; [|reflexivity].
    pose proof (same_registers_reg F F1 g 8 false H Hg ltac:(lia)) as E. cbn [high] in E. rewrite Z.add_0_r in E. exact E. }
  assert (address_sum Op F1 o = address_sum Op F o) as Hs by (destruct o; cbn; rewrite ?Hreg; reflexivity).
  assert (segment_base Op F1 = segment_base Op F) as Hb.
  { unfold segment_base. rewrite !(same_registers_load F F1) by (exact H || (unfold fs_OFFSET, gs_OFFSET, FLAGS_OFFSET; lia)). reflexivity. }
  unfold linear_address, effective_address. rewrite Hs, Hb. reflexivity.
Qed.

Lemma read_operand_same Op F F1 M o sz : same_registers F F1 -> size_1248 sz = true ->
  read_operand Op F1 M o sz = read_operand Op F M o sz.
Proof.
  intros H Hs. unfold size_1248 in Hs. destruct o; cbn [read_operand]; rewrite ?(address_same _ _ _ _ H); try reflexivity.
  destruct (reg_place _ _ _) eqn:Hp; [|reflexivity]. apply andb_true_iff in Hp as [Hg _].
  apply same_registers_reg; [exact H|exact Hg|lia].
Qed.

(** A write and the flags do not interfere. *)
Lemma write_operand_same Op F F1 M o sz v F' M' : same_registers F F1 -> size_1248 sz = true ->
  write_operand Op F M o sz v = Some (F', M') ->
  exists F1', write_operand Op F1 M o sz v = Some (F1', M') /\ same_registers F' F1'.
Proof.
  intros H Hs Hw. destruct o; cbn [write_operand] in *; rewrite ?(address_same _ _ _ _ H); try discriminate Hw.
  - destruct (reg_place _ _ _) eqn:Hp; [|discriminate Hw]. injection Hw as <- <-. eexists. split; [reflexivity|].
    intros a Ha. unfold write_reg. destruct (_ =? _); rewrite !store_lookup; destruct (decide _); auto.
  - destruct (linear_address _ _ _) as [l|]; [|discriminate Hw]. cbn in *. destruct (load _ _ l); [|discriminate Hw].
    injection Hw as <- <-. eauto.
  - destruct (linear_address _ _ _) as [l|]; [|discriminate Hw]. cbn in *. destruct (load _ _ l); [|discriminate Hw].
    injection Hw as <- <-. eauto.
  - destruct (linear_address _ _ _) as [l|]; [|discriminate Hw]. cbn in *. destruct (load _ _ l); [|discriminate Hw].
    injection Hw as <- <-. eauto.
  - destruct (linear_address _ _ _) as [l|]; [|discriminate Hw]. cbn in *. destruct (load _ _ l); [|discriminate Hw].
    injection Hw as <- <-. eauto.
Qed.

Lemma agrees_same_registers e F F1 : agrees e F F1 -> same_registers F F1.
Proof.
  intros H a Ha. apply (agrees_rest _ _ _ H). unfold arith_flags, FLAGS_OFFSET in *.
  rewrite !Forall_cons_iff. unfold RFLAG_CF_LOC, RFLAG_PF_LOC, RFLAG_AF_LOC, RFLAG_ZF_LOC, RFLAG_SF_LOC, RFLAG_OF_LOC.
  repeat split; try lia. apply Forall_nil.
Qed.

Lemma agrees_write e F F1 F' F1' : agrees e F F1 -> same_registers F' F1' ->
  (forall a, 136 <= a -> F' !! a = F !! a) -> (forall a, 136 <= a -> F1' !! a = F1 !! a) -> agrees e F' F1'.
Proof.
  intros H Hs H0 H1.
  assert (forall G G' loc, (forall a, 136 <= a -> G' !! a = G !! a) -> 0 <= loc -> rflag G' loc = rflag G loc) as Hf
    by (intros G G' loc HG Hl; apply rflag_ext, HG; unfold FLAGS_OFFSET; lia).
  assert (forall x loc, 0 <= loc -> effect_agrees x loc F F1 -> effect_agrees x loc F' F1') as Hx
    by (intros [] loc Hl; cbn; rewrite ?(Hf _ _ loc H0 Hl), ?(Hf _ _ loc H1 Hl); exact id).
  destruct H as [HC HP HA HZ HS HO HR].
  constructor; try (apply Hx; [discriminate|assumption]).
  intros a Ha. destruct (Z.lt_ge_cases a FLAGS_OFFSET) as [Hlt|Hge]; [exact (Hs a Hlt)|].
  rewrite H1, H0 by (unfold FLAGS_OFFSET in Hge; lia). exact (HR a Ha).
Qed.
