(* ===== verification/DispatchLogic.v ===== *)
(** * Translated instructions, run on a machine

    [mwp m Q b s] is [wp] for the emission computations of instructions: the nodes
    that [m] emits are executed by an [IRMachine] and may store to guest memory.
    [at_state b0 s0 F M b s] says where a translation that began in [b0], [s0] is:
    the guest context is [F], guest memory is [M] and the flags that wait are those
    of [b0]. The rules below are about the operand helpers. *)
From Stdlib Require Import ZArith Lia Bool.
From stdpp Require Import base gmap list numbers option.
From S2P Require Import Prelude IR ALUOps Atomic Interp IRSpec InterpRefines Machine Emitter EmitterLogic Flags FlagsSpec FlagsBlocks FlagsCorrect FlagsLazy Dispatch X86Spec.
#[local] Open Scope Z_scope.

(** ** Computations that leave the waiting flags alone *)

Definition builder_flags (b : OpDispatchBuilder) : DeferredFlagData * SelectionFlag := (CurrentDeferredFlags b, flagsOp b).

Definition quiet {A} (m : B A) : Prop :=
  forall b a b', m b = Ok (a, b') -> builder_flags b' = builder_flags b.

Lemma quiet_ret {A} (a : A) : quiet (mret a).
Proof. intros b a' b' H. injection H as _ <-. reflexivity. Qed.

Lemma quiet_bind {A C} (m : B A) (f : A -> B C) : quiet m -> (forall a, quiet (f a)) -> quiet (m ≫= f).
Proof.
  intros Hm Hf b c b' H. unfold mbind, M_bind in H. destruct (m b) as [[a b1]| |] eqn:E; try discriminate H.
  rewrite (Hf _ _ _ _ H). exact (Hm _ _ _ E).
Qed.

Lemma quiet_AllocateOp op sz args : quiet (AllocateOp op sz args).
Proof. intros b a b' H. injection H as _ <-. reflexivity. Qed.

Lemma quiet_GetOpSize n : quiet (GetOpSize n).
Proof.
  intros b a b' H. unfold GetOpSize, GetOp, mbind, M_bind in H.
  destruct (Data (emitter b) !! n); [|discriminate H]. injection H as _ <-. reflexivity.
Qed.

Lemma quiet_ConstantSized sz c : quiet (_ConstantSized sz c).
Proof.
  intros b a b' H. unfold _ConstantSized in H. destruct (shr _ _ _); try discriminate H.
  exact (quiet_AllocateOp _ _ _ _ _ _ H).
Qed.

Create HintDb quiet discriminated.
#[export] Hint Resolve quiet_ret quiet_AllocateOp quiet_GetOpSize quiet_ConstantSized : quiet.

Ltac head_of m := match m with ?f _ => head_of f | _ => m end.
Ltac quiet :=
  repeat first
    [ solve [auto with quiet nocore]
    | lazymatch goal with
      | |- quiet (_ ≫= _) => apply quiet_bind; [|intros ?]
      | |- quiet (if ?c then _ else _) => destruct c
      | |- quiet ?m => let h := head_of m in unfold h
      end ].

(** ** Weakest preconditions *)

Section Logic.
Context `{Machine : IRMachine}.

Record moves (b : OpDispatchBuilder) (s : IROpData) (b' : OpDispatchBuilder) (s' : IROpData) : Prop := {
  moves_reach : reach (emitter b) s (emitter b') s';
  moves_good : good (emitter b') s';
  moves_env : env b' = env b
}.

Lemma moves_refl b s : good (emitter b) s -> moves b s b s.
Proof. intros. constructor; auto using reach_refl. Qed.

Lemma moves_trans b0 s0 b1 s1 b2 s2 : moves b0 s0 b1 s1 -> moves b1 s1 b2 s2 -> moves b0 s0 b2 s2.
Proof.
  intros [E1 G1 V1] [E2 G2 V2].
  constructor; [exact (reach_trans _ _ _ _ _ _ E1 E2)|exact G2|congruence].
Qed.

Lemma goes_moves b s b' s' : goes b s b' s' -> moves b s b' s'.
Proof. intros [E G V]. constructor; [apply E|exact G|exact V]. Qed.

Definition mwp {A} (m : B A) (Q : A -> OpDispatchBuilder -> IROpData -> Prop) (b : OpDispatchBuilder) (s : IROpData) : Prop :=
  match m b with
  | Ok (a, b') => exists s', moves b s b' s' /\ Q a b' s'
  | _ => False
  end.

Lemma mwp_ret {A} (a : A) (Q : A -> OpDispatchBuilder -> IROpData -> Prop) b s :
  good (emitter b) s -> Q a b s -> mwp (mret a) Q b s.
Proof. intros. exists s. auto using moves_refl. Qed.

Lemma mwp_bind {A C} (m : B A) (f : A -> B C) Q b s :
  mwp m (fun a b' s' => mwp (f a) Q b' s') b s -> mwp (m ≫= f) Q b s.
Proof.
  unfold mwp, mbind, M_bind. destruct (m b) as [[a b']| |]; auto.
  intros (s' & Hg & Hf). destruct (f a b') as [[c b'']| |]; [|contradiction..].
  destruct Hf as (s'' & Hg' & HQ). exists s''. eauto using moves_trans.
Qed.

Lemma mwp_mono {A} (m : B A) (Q R : A -> OpDispatchBuilder -> IROpData -> Prop) b s :
  mwp m Q b s -> (forall a b' s', moves b s b' s' -> Q a b' s' -> R a b' s') -> mwp m R b s.
Proof.
  unfold mwp. destruct (m b) as [[a b']| |]; auto. intros (s' & Hg & HQ) HR. eauto.
Qed.

(** The computation is another one in this state. *)
Lemma mwp_eq {A} (m m' : B A) Q b s : m b = m' b -> mwp m' Q b s -> mwp m Q b s.
Proof. unfold mwp. intros ->. exact id. Qed.

Lemma mwp_bind_assoc {A C D} (m : B A) (f : A -> B C) (g : C -> B D) Q b s :
  mwp (a ← m; c ← f a; g c) Q b s -> mwp (c ← (a ← m; f a); g c) Q b s.
Proof. apply mwp_eq, M_bind_assoc. Qed.

Lemma mwp_bind_assoc_rev {A C D} (m : B A) (f : A -> B C) (g : C -> B D) Q b s :
  mwp (c ← (a ← m; f a); g c) Q b s -> mwp (a ← m; c ← f a; g c) Q b s.
Proof. apply mwp_eq. symmetry. apply M_bind_assoc. Qed.

Lemma mwp_wp {A} (m : B A) Q b s :
  wp m Q b s -> mwp m (fun a b' s' => goes b s b' s' /\ Q a b' s') b s.
Proof.
  unfold wp, mwp. destruct (m b) as [[a b']| |]; auto. intros (s' & Hg & HQ).
  exists s'. auto using goes_moves.
Qed.

Lemma mwp_emits {A} (m : B A) Q b s :
  mwp m Q b s -> exists a b' s', emits m b s a b' s' /\ Q a b' s'.
Proof.
  unfold mwp, emits. destruct (m b) as [[a b']| |]; try contradiction.
  intros (s' & Hgo & HQ). exists a, b', s'. split; [|exact HQ]. split; [reflexivity|].
  destruct (ext_run _ _ _ _ (moves_reach _ _ _ _ Hgo)) as (new & Hb & _ & Hr). eauto.
Qed.

(** ** States of a translation *)

(** A 64-bit guest; the machine runs the function that is translated. *)
Record ready (b : OpDispatchBuilder) (s : IROpData) : Prop := {
  ready_good : good (emitter b) s;
  ready_64 : Is64BitMode (CTX b) = true;
  ready_entry : CurrentEntry s = Entry b
}.

Record at_state (b0 : OpDispatchBuilder) (s0 : IROpData) (F M : gmap Z Z) (b : OpDispatchBuilder) (s : IROpData) : Prop := {
  at_ready : ready b s;
  at_moves : moves b0 s0 b s;
  at_flags : builder_flags b = builder_flags b0;
  at_frame : Frame s = F;
  at_mem : Mem s = M
}.

Lemma at_start b s : ready b s -> at_state b s (Frame s) (Mem s) b s.
Proof. intros H. constructor; auto using moves_refl, ready_good. Qed.

Lemma ready_moves b s b' s' : ready b s -> moves b s b' s' -> ready b' s'.
Proof.
  intros [G I E] [R G' V]. injection V as VC VE. constructor; [exact G'|congruence|].
  rewrite (ext_entry _ _ _ _ R). congruence.
Qed.

Lemma at_step b0 s0 F M b s F' M' b' s' :
  at_state b0 s0 F M b s -> moves b s b' s' -> builder_flags b' = builder_flags b ->
  Frame s' = F' -> Mem s' = M' -> at_state b0 s0 F' M' b' s'.
Proof.
  intros [R Mv Fl _ _] Hm Hf HF HM.
  constructor; [exact (ready_moves _ _ _ _ R Hm)|exact (moves_trans _ _ _ _ _ _ Mv Hm)|congruence|exact HF|exact HM].
Qed.

Section Rules.
Context {b0 : OpDispatchBuilder} {s0 : IROpData}.
Implicit Types (F M : gmap Z Z) (b : OpDispatchBuilder) (s : IROpData).

(** The continuation of a computation that returns a node with value [v]. *)
Definition gives F M (v sz : Z) (Q : NodeID -> OpDispatchBuilder -> IROpData -> Prop) b s : Prop :=
  forall n b' s', at_state b0 s0 F M b' s' -> reach (emitter b) s (emitter b') s' ->
    val (emitter b') s' n v sz -> Q n b' s'.
(** The continuation of a computation that changes the guest's state. *)
Definition sets_state F M (Q : unit -> OpDispatchBuilder -> IROpData -> Prop) b s : Prop :=
  forall b' s', at_state b0 s0 F M b' s' -> reach (emitter b) s (emitter b') s' -> Q tt b' s'.

Lemma at_good F M b s : at_state b0 s0 F M b s -> good (emitter b) s.
Proof. intros H. apply H. Qed.

(** A value-producing helper, by its rule for backends. *)
Lemma mwp_value m v sz Q F M b s :
  at_state b0 s0 F M b s -> quiet m ->
  wp m (fun n b' s' => Frame s' = Frame s /\ val (emitter b') s' n v sz) b s ->
  gives F M v sz Q b s -> mwp m Q b s.
Proof.
  intros Ha Hq Hw HQ. unfold wp in Hw. unfold mwp. destruct (m b) as [[n b']| |] eqn:E; [|exact Hw..].
  destruct Hw as (s' & Hgo & HF & Hv). exists s'. split; [apply goes_moves, Hgo|].
  apply HQ; [|apply Hgo|exact Hv].
  apply (at_step _ _ _ _ _ _ _ _ _ _ Ha); [apply goes_moves, Hgo|exact (Hq _ _ _ E)|
    rewrite HF; apply Ha|rewrite (ext_mem _ _ _ _ (goes_ext _ _ _ _ Hgo)); apply Ha].
Qed.

(** A helper that reads the state of the builder only. *)
Lemma mwp_read {A C} (m : B A) a (f : A -> B C) Q b s :
  m b = Ok (a, b) -> mwp (f a) Q b s -> mwp (m ≫= f) Q b s.
Proof. intros Hm. apply mwp_eq. unfold mbind, M_bind. rewrite Hm. reflexivity. Qed.

(** ** Nodes that access the guest's state *)

Lemma moves_alloc b s h s' :
  good (emitter b) s -> step s (NextNode (emitter b)) h = Ok s' ->
  (forall n, n <> NextNode (emitter b) -> SSAData s' !! n = SSAData s !! n) ->
  CurrentEntry s' = CurrentEntry s ->
  moves b s (with_emitter (CreateNode h (emitter b)) b) s'.
Proof.
  intros Hg Hs Hc He. constructor; rewrite ?emitter_with_emitter, ?env_with_emitter; [| |reflexivity].
  - apply reach_alloc; auto. intros. apply Hc. lia.
  - apply (good_alloc _ s); auto. intros. apply Hc. lia.
Qed.

Lemma fresh_cell b s : good (emitter b) s -> zext 8 (cell s (NextNode (emitter b))).
Proof. intros Hg. unfold cell. rewrite (good_fresh _ _ Hg) by lia. apply zext_0. lia. Qed.

(** A node with a value, after which the state of the guest is [F'], [M']. *)
Lemma mwp_alloc op sz args v s' Q F M F' M' b s :
  at_state b0 s0 F M b s ->
  (zext 8 (cell s (NextNode (emitter b))) -> step s (NextNode (emitter b)) (mkOp op sz sz args) = Ok s') ->
  SSAData s' = <[NextNode (emitter b) := v]> (SSAData s) -> CurrentEntry s' = CurrentEntry s ->
  Frame s' = F' -> Mem s' = M' -> zext sz v -> size_1248 sz = true ->
  gives F' M' v sz Q b s -> mwp (AllocateOp op sz args) Q b s.
Proof.
  intros Ha Hs Hd He HF HM Hz Hw HQ. pose proof (at_good _ _ _ _ Ha) as Hg.
  specialize (Hs (fresh_cell _ _ Hg)).
  assert (moves b s (with_emitter (CreateNode (mkOp op sz sz args) (emitter b)) b) s') as Hm.
  { apply moves_alloc; auto. intros n Hn. rewrite Hd. apply lookup_insert_ne. lia. }
  unfold mwp, AllocateOp. exists s'. split; [exact Hm|].
  apply HQ; [exact (at_step _ _ _ _ _ _ _ _ _ _ Ha Hm eq_refl HF HM)|apply Hm|].
  constructor; [cbn; lia| | |exact Hz|exact Hw].
  - exists (mkOp op sz sz args). cbn. rewrite lookup_insert_eq. auto.
  - unfold cell. rewrite Hd, lookup_insert_eq. reflexivity.
Qed.

(** A node without a value. *)
Lemma mwp_alloc_effect op sz args s' Q F M F' M' b s :
  at_state b0 s0 F M b s ->
  step s (NextNode (emitter b)) (mkOp op sz sz args) = Ok s' ->
  SSAData s' = SSAData s -> CurrentEntry s' = CurrentEntry s -> Frame s' = F' -> Mem s' = M' ->
  sets_state F' M' Q b s -> mwp (_ ← AllocateOp op sz args; mret tt) Q b s.
Proof.
  intros Ha Hs Hd He HF HM HQ. pose proof (at_good _ _ _ _ Ha) as Hg.
  assert (moves b s (with_emitter (CreateNode (mkOp op sz sz args) (emitter b)) b) s') as Hm.
  { apply moves_alloc; auto. intros n Hn. rewrite Hd. reflexivity. }
  apply mwp_bind. unfold mwp at 1, AllocateOp. exists s'. split; [exact Hm|].
  apply mwp_ret; [apply Hm|]. apply HQ; [exact (at_step _ _ _ _ _ _ _ _ _ _ Ha Hm eq_refl HF HM)|apply Hm].
Qed.

Lemma mwp_LoadContext sz o v Q F M b s :
  at_state b0 s0 F M b s -> size_1248 sz = true -> load (bytes sz) F o = Some v ->
  gives F M v sz Q b s -> mwp (_LoadContext sz o) Q b s.
Proof.
  intros Ha Hs Hl HQ. unfold _LoadContext.
  rewrite <- (at_frame _ _ _ _ _ _ Ha) in Hl.
  eapply mwp_alloc; [exact Ha|exact (step_loadcontext _ _ _ _ _ Hs Hl)|reflexivity|reflexivity|apply Ha|apply Ha|
    exact (load_zext _ _ _ _ Hs Hl)|exact Hs|exact HQ].
Qed.

Lemma mwp_StoreContext sz n o v k Q F M b s :
  at_state b0 s0 F M b s -> val (emitter b) s n v k ->
  sets_state (store (bytes sz) F o v) M Q b s -> mwp (_StoreContext sz n o) Q b s.
Proof.
  intros Ha Hv HQ. unfold _StoreContext.
  eapply mwp_alloc_effect; [exact Ha|apply step_storecontext|reflexivity|reflexivity| |apply Ha|exact HQ].
  cbn. rewrite (val_cell _ _ _ _ _ Hv), (at_frame _ _ _ _ _ _ Ha). reflexivity.
Qed.

Lemma val_zext8 e s n v k : val e s n v k -> zext 8 (cell s n).
Proof.
  intros Hv. rewrite (val_cell _ _ _ _ _ Hv). pose proof (size_1248_bounds _ (val_width _ _ _ _ _ Hv)).
  apply (zext_le k); [lia|apply Hv].
Qed.

Lemma mwp_Load (tso : bool) sz a va k v Q F M b s :
  at_state b0 s0 F M b s -> size_1248 sz = true -> val (emitter b) s a va k -> load (bytes sz) M va = Some v ->
  gives F M v sz Q b s -> mwp ((if tso then _LoadMemTSO else _LoadMem) sz a) Q b s.
Proof.
  intros Ha Hs Hv Hl HQ.
  assert (load (bytes sz) (Mem s) (cell s a) = Some v) as Hl'
    by (rewrite (val_cell _ _ _ _ _ Hv), (at_mem _ _ _ _ _ _ Ha); exact Hl).
  pose proof (fun t n => step_loadmem t s n _ _ _ Hs (val_zext8 _ _ _ _ _ Hv) Hl') as Hstep.
  destruct tso; (eapply mwp_alloc; [exact Ha|intros _; first [exact (Hstep true _)|exact (Hstep false _)]|
    reflexivity|reflexivity|apply Ha|apply Ha|exact (load_zext _ _ _ _ Hs Hl)|exact Hs|exact HQ]).
Qed.

Lemma mwp_Store (tso : bool) sz a x va vx ka kx Q F M b s :
  at_state b0 s0 F M b s -> size_1248 sz = true -> val (emitter b) s a va ka -> val (emitter b) s x vx kx ->
  is_Some (load (bytes sz) M va) ->
  sets_state F (store (bytes sz) M va vx) Q b s -> mwp ((if tso then _StoreMemTSO else _StoreMem) sz a x) Q b s.
Proof.
  intros Ha Hs Hv Hx Hl HQ.
  assert (is_Some (load (bytes sz) (Mem s) (cell s a))) as Hl'
    by (rewrite (val_cell _ _ _ _ _ Hv), (at_mem _ _ _ _ _ _ Ha); exact Hl).
  pose proof (fun t n => step_storemem t s n _ x _ Hs (val_zext8 _ _ _ _ _ Hv) Hl') as Hstep.
  destruct tso; (eapply mwp_alloc_effect; [exact Ha|first [exact (Hstep true _)|exact (Hstep false _)]|
    reflexivity|reflexivity|apply Ha| |exact HQ]).
  all: cbn; rewrite (val_cell _ _ _ _ _ Hv), (val_cell _ _ _ _ _ Hx), (at_mem _ _ _ _ _ _ Ha); reflexivity.
Qed.

Lemma mwp_EntrypointOffset o Q F M b s :
  at_state b0 s0 F M b s -> gives F M (uint 64 (Entry b + sint 64 o)) 8 Q b s ->
  mwp (_EntrypointOffset o 8) Q b s.
Proof.
  intros Ha HQ. unfold _EntrypointOffset.
  eapply mwp_alloc; [exact Ha|intros Hz; apply step_entrypoint, Hz|reflexivity|reflexivity|apply Ha|apply Ha| |reflexivity|].
  - apply (uint_range 64). lia.
  - rewrite (ready_entry _ _ (at_ready _ _ _ _ _ _ Ha)). exact HQ.
Qed.

Lemma mwp_ExitFunction n v k Q F M b s :
  at_state b0 s0 F M b s -> val (emitter b) s n v k ->
  sets_state (store (bytes k) F RIP_OFFSET v) M Q b s -> mwp (_ExitFunction n) Q b s.
Proof.
  intros Ha Hv HQ. unfold _ExitFunction. eapply mwp_read; [exact (GetOpSize_Ok _ _ _ _ _ Hv)|].
  eapply mwp_alloc_effect; [exact Ha|apply step_exit|reflexivity|reflexivity| |apply Ha|exact HQ].
  cbn. rewrite (val_cell _ _ _ _ _ Hv), (at_frame _ _ _ _ _ _ Ha). reflexivity.
Qed.

Lemma mwp_fetch op f sz a x va vx ka kx v Q F M b s :
  at_state b0 s0 F M b s -> fetch_function op = Some f -> size_1248 sz = true ->
  val (emitter b) s x vx kx -> val (emitter b) s a va ka -> load (bytes sz) M va = Some v ->
  gives F (store (bytes sz) M va (f v (uint (8 * sz) vx))) v sz Q b s ->
  mwp (AllocateOp op sz [x; a]) Q b s.
Proof.
  intros Ha Hf Hs Hx Hv Hl HQ.
  assert (load (bytes sz) (Mem s) (cell s a) = Some v) as Hl'
    by (rewrite (val_cell _ _ _ _ _ Hv), (at_mem _ _ _ _ _ _ Ha); exact Hl).
  eapply mwp_alloc; [exact Ha|intros Hz; exact (step_fetch _ _ _ _ _ x _ _ Hf Hs Hz (val_zext8 _ _ _ _ _ Hv) Hl')
    |reflexivity|reflexivity|apply Ha| |exact (load_zext _ _ _ _ Hs Hl)|exact Hs|exact HQ].
  - cbn. rewrite (val_cell _ _ _ _ _ Hv), (val_cell _ _ _ _ _ Hx), (at_mem _ _ _ _ _ _ Ha). reflexivity.
Qed.
End Rules.
End Logic.
