(* ===== verification/OperandLogic.v ===== *)
(** * Operands, translated

    The rules for the operand helpers of [Dispatch]: the code for an address
    computes the linear address of [X86Spec], the code for a source its value, and
    the code that stores a result leaves the registers and the memory that
    [write_operand] describes. *)
From Stdlib Require Import ZArith Lia Bool.
From stdpp Require Import base gmap list numbers option.
From S2P Require Import Prelude IR ALUOps Atomic Interp IRSpec InterpRefines Machine Emitter EmitterLogic Flags FlagsSpec FlagsBlocks FlagsCorrect FlagsLazy Dispatch X86Spec DispatchLogic.
#[local] Open Scope Z_scope.

(** ** Symbolic execution *)

(** The facts about nodes before a step hold after it. *)
Ltac shift_nodes Hr :=
  match type of Hr with
  | reach (emitter ?b) ?s _ _ =>
      repeat match goal with
      | H : val (emitter b) s _ _ _ |- _ => apply (val_mono _ _ _ _ _ _ _ Hr) in H
      end;
      try match goal with H : at_state _ _ _ _ b s |- _ => clear H end
  end.
Ltac intro_node :=
  let n := fresh "n" in let b := fresh "b" in let s := fresh "s" in
  let Ha := fresh "Ha" in let Hr := fresh "Hr" in let Hv := fresh "Hv" in
  intros n b s Ha Hr Hv; shift_nodes Hr.
Ltac intro_state :=
  let b := fresh "b" in let s := fresh "s" in
  let Ha := fresh "Ha" in let Hr := fresh "Hr" in
  intros b s Ha Hr; shift_nodes Hr.

Ltac good_state := match goal with H : at_state _ _ _ _ ?b ?s |- good (emitter ?b) ?s => exact (at_good _ _ _ _ H) end.

(** A value-producing helper by its rule for backends; conditions that are left are
    the caller's. *)
Ltac by_rule rule :=
  eapply mwp_value; [eassumption|quiet|eapply rule; [good_state|try eassumption..|]; cycle -1;
    [let HF := fresh in let Hv := fresh in intros ?n ?b ?s _ HF Hv; exact (conj HF Hv)|..]|intro_node].

(** One emission. *)
Ltac node :=
  lazymatch goal with
  | |- mwp (_ ≫= _) _ _ _ => apply mwp_bind; node
  | |- mwp (mret _) _ _ _ => apply mwp_ret; [good_state|]
  | |- mwp (_Constant _) _ _ _ => by_rule wp_Constant
  | |- mwp (_ConstantSized _ _) _ _ _ => by_rule wp_ConstantSized
  | |- mwp (_Add _ _) _ _ _ => by_rule wp_Add
  | |- mwp (_Sub _ _) _ _ _ => by_rule wp_Sub
  | |- mwp (_Or _ _) _ _ _ => by_rule wp_Or
  | |- mwp (_And _ _) _ _ _ => by_rule wp_And
  | |- mwp (_Xor _ _) _ _ _ => by_rule wp_Xor
  | |- mwp (_Lshl _ _) _ _ _ => by_rule wp_Lshl
  | |- mwp (_Lshr _ _) _ _ _ => by_rule wp_Lshr
  | |- mwp (_BfeSized _ _ _ _) _ _ _ => by_rule wp_BfeSized
  | |- mwp (_Bfe _ _ _) _ _ _ => by_rule wp_Bfe
  | |- mwp (_Sbfe _ _ _) _ _ _ => by_rule wp_Sbfe
  | |- mwp (_Select _ _ _ _ _) _ _ _ => by_rule wp_Select
  | |- mwp (_LoadFlag _) _ _ _ => by_rule wp_LoadFlag
  end.

Section Operands.
Context `{Machine : IRMachine} {b0 : OpDispatchBuilder} {s0 : IROpData}.
Implicit Types (F M : gmap Z Z) (b : OpDispatchBuilder) (s : IROpData).

Lemma GetGPRSize_64 F M b s : at_state b0 s0 F M b s -> GetGPRSize b = Ok (8, b).
Proof. intros Ha. unfold GetGPRSize, mbind, M_bind. cbn. rewrite (ready_64 _ _ (at_ready _ _ _ _ _ _ Ha)). reflexivity. Qed.

Lemma AddrSizeOf_64 Op F M b s : at_state b0 s0 F M b s -> AddrSizeOf Op b = Ok (address_size Op, b).
Proof.
  intros Ha. unfold AddrSizeOf, mbind, M_bind. rewrite (GetGPRSize_64 _ _ _ _ Ha). unfold address_size.
  destruct (flag_set _ _); reflexivity.
Qed.

Lemma address_size_cases Op : address_size Op = 4 \/ address_size Op = 8.
Proof. unfold address_size. destruct (flag_set _ _); auto. Qed.

(** ** Segments *)

Lemma mwp_AppendSegmentOffset Op n va ka sb Q F M b s :
  at_state b0 s0 F M b s -> val (emitter b) s n va ka -> segment_base Op F = Some sb ->
  (forall k, gives (b0:=b0) (s0:=s0) F M (uint 64 (va + sb)) k Q b s) ->
  mwp (AppendSegmentOffset n (OpFlags Op) 0 false) Q b s.
Proof.
  intros Ha Hv Hs HQ. unfold AppendSegmentOffset.
  eapply mwp_read; [exact (GetGPRSize_64 _ _ _ _ Ha)|]. eapply mwp_read; [reflexivity|].
  rewrite (ready_64 _ _ (at_ready _ _ _ _ _ _ Ha)).
  pose proof (val_bounds _ _ _ _ _ Hv) as Hk.
  assert (forall o, load 8 F o = Some sb -> mwp (s ← _LoadContext 8 o; _Add n s) Q b s) as Hseg.
  { intros o Hl. apply mwp_bind. eapply mwp_LoadContext; [exact Ha|reflexivity|exact Hl|]. intro_node.
    node. replace (Z.max 4 (Z.max ka 8)) with 8 in * by lia. apply (HQ 8); [assumption|eauto using reach_trans|assumption]. }
  unfold segment_base in Hs. destruct (flag_set _ FLAG_FS_PREFIX); [exact (Hseg _ Hs)|].
  destruct (flag_set _ FLAG_GS_PREFIX); [exact (Hseg _ Hs)|]. injection Hs as <-.
  apply mwp_ret; [good_state|]. apply (HQ ka); [exact Ha|apply reach_refl|].
  rewrite Z.add_0_r, (val_uint64 _ _ _ _ _ Hv). exact Hv.
Qed.

(** ** Addresses *)

Section Address.
Variable A : Z.
Hypothesis HA : A = 4 \/ A = 8.

Lemma reg_narrow F g v : reg F g = Some v -> load (bytes A) F (gregs g) = Some (uint (8 * A) v).
Proof.
  unfold reg. destruct (is_reg g); [|discriminate]. intros Hl.
  rewrite (load_narrow 8 (bytes A) F (gregs g) v) by (lia || exact Hl). do 2 f_equal. lia.
Qed.

Lemma A_1248 : size_1248 A = true.
Proof. destruct HA as [->| ->]; reflexivity. Qed.

(** The node, if there is one, holds [x] as far as the address size goes. *)
Definition partial (o : option NodeID) (x : Z) b s : Prop :=
  match o with
  | None => x = 0
  | Some n => exists v k, val (emitter b) s n v k /\ A <= k /\ uint (8 * A) v = uint (8 * A) x
  end.

Lemma partial_reach o x b s b' s' : reach (emitter b) s (emitter b') s' -> partial o x b s -> partial o x b' s'.
Proof.
  intros Hr. destruct o; cbn; [|auto]. intros (v & k & Hv & H). exists v, k. split; [|exact H].
  exact (val_mono _ _ _ _ _ _ _ Hr Hv).
Qed.

Definition partial_next F M x (Q : option NodeID -> OpDispatchBuilder -> IROpData -> Prop) b s : Prop :=
  forall o b' s', at_state b0 s0 F M b' s' -> reach (emitter b) s (emitter b') s' -> partial o x b' s' -> Q o b' s'.

Lemma mwp_index Index Scale x Q F M b s :
  at_state b0 s0 F M b s ->
  (if Index =? REG_INVALID then Some 0 else i ← reg F Index; Some (i * Scale)) = Some x ->
  partial_next F M x Q b s ->
  mwp (if Index =? REG_INVALID then mret None
       else
         t ← _LoadContext A (gregs Index);
         if Scale =? 1 then mret (Some t)
         else c ← _ConstantSized (8 * 8) Scale; t ← _Mul t c; mret (Some t)) Q b s.
Proof.
  intros Ha Hx HQ. destruct (Index =? REG_INVALID).
  - injection Hx as <-. apply mwp_ret; [good_state|]. apply HQ; [exact Ha|apply reach_refl|reflexivity].
  - apply bind_Some in Hx as (i & Hi & Hx). injection Hx as <-.
    apply mwp_bind. eapply mwp_LoadContext; [exact Ha|exact A_1248|exact (reg_narrow _ _ _ Hi)|]. intro_node.
    destruct (Z.eqb_spec Scale 1) as [->|_].
    + apply mwp_ret; [good_state|]. apply HQ; [assumption..|]. exists (uint (8 * A) i), A. split; [assumption|].
      rewrite uint_idemp, Z.mul_1_r. split; [lia|reflexivity].
    + apply mwp_bind. by_rule wp_ConstantSized; [reflexivity|]. apply mwp_bind. by_rule wp_Mul64; [lia|].
      apply mwp_ret; [good_state|]. apply HQ; [assumption|eauto using reach_trans|]. eexists _, 8. split; [eassumption|].
      split; [lia|]. rewrite uint_uint by lia. rewrite <- (uint_mul (8 * A)), uint_idemp, (uint_uint (8 * A)) by lia.
      apply uint_mul.
Qed.

Lemma mwp_base Base o x y Q F M b s :
  at_state b0 s0 F M b s -> partial o x b s -> (if Base =? REG_INVALID then Some 0 else reg F Base) = Some y ->
  partial_next F M (x + y) Q b s ->
  mwp (if Base =? REG_INVALID then mret o
       else
         g ← _LoadContext A (gregs Base);
         match o with Some t => t ← _Add t g; mret (Some t) | None => mret (Some g) end) Q b s.
Proof.
  intros Ha Ho Hy HQ. destruct (Base =? REG_INVALID).
  - injection Hy as <-. apply mwp_ret; [good_state|]. apply HQ; [exact Ha|apply reach_refl|]. rewrite Z.add_0_r. exact Ho.
  - apply mwp_bind. eapply mwp_LoadContext; [exact Ha|exact A_1248|exact (reg_narrow _ _ _ Hy)|]. intro_node.
    apply (partial_reach _ _ _ _ _ _ Hr) in Ho. destruct o as [t|]; cbn in Ho.
    + destruct Ho as (v & k & Hvt & Hk & E). pose proof (val_bounds _ _ _ _ _ Hvt). apply mwp_bind. node.
      apply mwp_ret; [good_state|]. apply HQ; [assumption|eauto using reach_trans|]. eexists _, _. split; [eassumption|].
      split; [lia|]. rewrite uint_uint by lia. rewrite <- (uint_add (8 * A)), E, uint_idemp. apply uint_add.
    + subst x. apply mwp_ret; [good_state|]. apply HQ; [assumption..|]. exists (uint (8 * A) y), A. split; [assumption|].
      rewrite uint_idemp. split; [lia|reflexivity].
Qed.

Lemma mwp_offset Offset o x Q F M b s :
  at_state b0 s0 F M b s -> partial o x b s ->
  (forall n b' s' v k, at_state b0 s0 F M b' s' -> reach (emitter b) s (emitter b') s' ->
    val (emitter b') s' n v k -> A <= k -> uint (8 * A) v = uint (8 * A) (x + Offset) -> Q n b' s') ->
  mwp (if Offset =? 0 then match o with Some t => mret t | None => _ConstantSized (8 * 8) 0 end
       else c ← _ConstantSized (8 * 8) Offset; match o with Some t => _Add t c | None => mret c end) Q b s.
Proof.
  intros Ha Ho Hn.
  destruct (Z.eqb_spec Offset 0) as [->|_].
  - destruct o as [t|]; cbn in Ho.
    + destruct Ho as (v & k & Hvt & Hk & E). apply mwp_ret; [good_state|]. eapply Hn; [exact Ha|apply reach_refl|exact Hvt|exact Hk|].
      rewrite E. f_equal. lia.
    + subst x. by_rule wp_ConstantSized; [reflexivity|]. eapply Hn; [eassumption..|lia|]. apply uint_uint. lia.
  - apply mwp_bind. by_rule wp_ConstantSized; [reflexivity|].
    apply (partial_reach _ _ _ _ _ _ Hr) in Ho. destruct o as [t|]; cbn in Ho.
    + destruct Ho as (v & k & Hvt & Hk & E). pose proof (val_bounds _ _ _ _ _ Hvt). node.
      eapply Hn; [assumption|eauto using reach_trans|eassumption|lia|]. rewrite uint_uint by lia.
      rewrite <- (uint_add (8 * A)), E, (uint_uint (8 * A)) by lia. apply uint_add.
    + subst x. apply mwp_ret; [good_state|]. eapply Hn; [eassumption..|lia|]. apply uint_uint. lia.
Qed.

Lemma mwp_truncate n v k x Q F M b s :
  at_state b0 s0 F M b s -> val (emitter b) s n v k -> A <= k -> uint (8 * A) v = uint (8 * A) x ->
  (forall k, gives (b0:=b0) (s0:=s0) F M (uint (8 * A) x) k Q b s) ->
  mwp (if A <? 8 then _BfeSized A (A * 8) 0 n else mret n) Q b s.
Proof.
  intros Ha Hv Hk E HQ. pose proof (val_sizes _ _ _ _ _ Hv). rewrite <- E in HQ. destruct HA as [-> | ->]; cbn [Z.ltb Z.compare Pos.compare Pos.compare_cont].
  - by_rule wp_BfeSized; [reflexivity|cbn; lia|lia|]. rewrite Z.pow_0_r, Z.div_1_r in Hv0. exact (HQ 4 _ _ _ Ha0 Hr Hv0).
  - apply mwp_ret; [good_state|]. apply (HQ k); [exact Ha|apply reach_refl|]. change (8 * 8) with 64. rewrite (val_uint64 _ _ _ _ _ Hv). exact Hv.
Qed.

Lemma mwp_SIB_address Index Base Scale Offset F M b s Q x :
  at_state b0 s0 F M b s ->
  (index ← (if Index =? REG_INVALID then Some 0 else i ← reg F Index; Some (i * Scale));
   base ← (if Base =? REG_INVALID then Some 0 else reg F Base); Some (index + base + Offset)) = Some x ->
  (forall k, gives (b0:=b0) (s0:=s0) F M (uint (8 * A) x) k Q b s) ->
  mwp (SIB_address A 8 Index Base Scale Offset) Q b s.
Proof.
  intros Ha Hx HQ. apply bind_Some in Hx as (i & Hi & Hx). apply bind_Some in Hx as (j & Hj & Hx). injection Hx as <-.
  unfold SIB_address. apply mwp_bind. eapply mwp_index; [exact Ha|exact Hi|]. intros o1 b1 s1 Ha1 Hr1 Ho1.
  apply mwp_bind. eapply mwp_base; [exact Ha1|exact Ho1|exact Hj|]. intros o2 b2 s2 Ha2 Hr2 Ho2.
  apply mwp_bind. eapply mwp_offset; [exact Ha2|exact Ho2|]. intros n b3 s3 v k Ha3 Hr3 Hv Hk E.
  eapply mwp_truncate; [exact Ha3|exact Hv|exact Hk|exact E|].
  intros k' n' b' s' Ha' Hr' Hv'. apply (HQ k'); [exact Ha'|eauto using reach_trans|exact Hv'].
Qed.
End Address.

(** The instruction's own address, whatever the function that is translated. *)
Lemma mwp_GetRelocatedPC Op Offset F M b s Q :
  at_state b0 s0 F M b s -> gives (b0:=b0) (s0:=s0) F M (uint 64 (PC Op + InstSize Op + Offset)) 8 Q b s ->
  mwp (GetRelocatedPC Op Offset) Q b s.
Proof.
  intros Ha HQ. unfold GetRelocatedPC. eapply mwp_read; [exact (GetGPRSize_64 _ _ _ _ Ha)|]. eapply mwp_read; [reflexivity|].
  eapply mwp_EntrypointOffset; [exact Ha|]. intro_node. apply HQ; [assumption..|].
  replace (uint 64 (PC Op + InstSize Op + Offset)) with (uint 64 (Entry b + sint 64 (uint 64 (PC Op + InstSize Op + Offset - Entry b)))); [assumption|].
  rewrite <- (uint_add 64 (Entry b)), uint_sint, uint_idemp, uint_add by lia. f_equal. lia.
Qed.

Lemma mwp_OperandAddress Op o x F M b s Q :
  at_state b0 s0 F M b s -> address_sum Op F o = Some x -> address_exact Op o = true ->
  (forall k, gives (b0:=b0) (s0:=s0) F M (uint (8 * address_size Op) x) k Q b s) ->
  mwp (OperandAddress Op o) Q b s.
Proof.
  intros Ha Hx He HQ. unfold OperandAddress. eapply mwp_read; [exact (GetGPRSize_64 _ _ _ _ Ha)|].
  eapply mwp_read; [exact (AddrSizeOf_64 _ _ _ _ _ Ha)|]. pose proof (address_size_cases Op) as HA.
  destruct o as [|h g|r|r d|v|ls lv|i j sc off]; try discriminate Hx; cbn [address_sum address_exact] in Hx, He.
  - eapply mwp_LoadContext; [exact Ha|exact (A_1248 _ HA)|exact (reg_narrow _ HA _ _ _ Hx)|]. exact (HQ _).
  - apply bind_Some in Hx as (base & Hb & Hx). injection Hx as <-.
    assert (address_size Op = 8) as E by (unfold address_size; destruct (flag_set _ _); [discriminate He|reflexivity]).
    rewrite E in *. apply mwp_bind. eapply mwp_LoadContext; [exact Ha|reflexivity|exact (reg_narrow 8 HA _ _ _ Hb)|]. intro_node.
    apply mwp_bind. by_rule wp_ConstantSized; [reflexivity|]. node.
    apply (HQ 8); [assumption|eauto using reach_trans|].
    replace (uint (8 * 8) (base + d)) with (uint (8 * Z.max 4 (Z.max 8 8)) (uint (8 * 8) base + uint (8 * 8) d)); [assumption|].
    apply uint_add.
  - assert (address_size Op = 8) as E by (unfold address_size; destruct (flag_set _ _); [discriminate He|reflexivity]).
    rewrite E in *. injection Hx as <-. eapply mwp_read; [reflexivity|]. rewrite (ready_64 _ _ (at_ready _ _ _ _ _ _ Ha)).
    eapply mwp_GetRelocatedPC; [exact Ha|]. exact (HQ 8).
  - eapply mwp_SIB_address; [exact HA|exact Ha|exact Hx|exact HQ].
Qed.

(** The address with its segment. *)
Lemma mwp_address Op o a F M b s Q :
  at_state b0 s0 F M b s -> linear_address Op F o = Some a -> address_exact Op o = true ->
  (forall k, gives (b0:=b0) (s0:=s0) F M a k Q b s) ->
  mwp (n ← OperandAddress Op o; AppendSegmentOffset n (OpFlags Op) 0 false) Q b s.
Proof.
  intros Ha Hl He HQ. unfold linear_address, effective_address in Hl.
  apply bind_Some in Hl as (ea & Hea & Hl). apply bind_Some in Hl as (sb & Hs & Hl). injection Hl as <-.
  apply fmap_Some in Hea as (x & Hx & ->).
  apply mwp_bind. eapply mwp_OperandAddress; [exact Ha|exact Hx|exact He|]. intros k. intro_node.
  eapply mwp_AppendSegmentOffset; [eassumption..|]. intros k' n' b' s' Ha' Hr' Hv'.
  apply (HQ k'); [assumption|eauto using reach_trans|assumption].
Qed.

(** ** Memory accesses *)

Lemma mwp_load_any (plain : bool) sz n a k v F M b s Q :
  at_state b0 s0 F M b s -> size_1248 sz = true -> val (emitter b) s n a k -> load (bytes sz) M a = Some v ->
  gives (b0:=b0) (s0:=s0) F M v sz Q b s ->
  mwp (if plain then _LoadMem sz n else _LoadMemAutoTSO sz n) Q b s.
Proof.
  intros Ha Hs Hv Hl HQ.
  assert (forall tso : bool, mwp ((if tso then _LoadMemTSO else _LoadMem) sz n) Q b s) as H
    by (intros tso; eapply mwp_Load; eassumption).
  destruct plain; [exact (H false)|]. unfold _LoadMemAutoTSO. eapply mwp_read; [reflexivity|].
  destruct (TSOEnabled (CTX b)); [exact (H true)|exact (H false)].
Qed.

Lemma mwp_store_any (plain : bool) sz n x a va ka kx F M b s Q :
  at_state b0 s0 F M b s -> size_1248 sz = true -> val (emitter b) s n a ka -> val (emitter b) s x va kx ->
  is_Some (load (bytes sz) M a) ->
  sets_state (b0:=b0) (s0:=s0) F (store (bytes sz) M a va) Q b s ->
  mwp (if plain then _StoreMem sz n x else _StoreMemAutoTSO sz n x) Q b s.
Proof.
  intros Ha Hs Hn Hx Hl HQ.
  assert (forall tso : bool, mwp ((if tso then _StoreMemTSO else _StoreMem) sz n x) Q b s) as H
    by (intros tso; eapply mwp_Store; eassumption).
  destruct plain; [exact (H false)|]. unfold _StoreMemAutoTSO. eapply mwp_read; [reflexivity|].
  destruct (TSOEnabled (CTX b)); [exact (H true)|exact (H false)].
Qed.

(** ** Sources *)

Lemma GPR_offset_reg AVX h g : is_reg g = true -> GPR_offset AVX h g = gregs g + high h.
Proof.
  unfold is_reg, GPR_offset, REG_MM_0, REG_XMM_0. intros Hg.
  replace (32 <=? g) with false by lia. replace (16 <=? g) with false by lia. reflexivity.
Qed.

Lemma literal_mask sz v b : size_1248 sz = true ->
  exists c, (if sz =? 8 then mret v else m ← lift (shl 64 1 (sz * 8)); mret (Z.land v (m - 1)) : B Z) b = Ok (c, b) /\
    uint (8 * sz) c = uint (8 * sz) v.
Proof.
  intros [->|[->|[->| ->]]]%size_1248_cases; (eexists; split; [reflexivity|]); try reflexivity.
  all: cbn -[Z.land uint]; lazymatch goal with |- uint ?w (Z.land _ ?m) = _ => change m with (Z.ones w) end;
    rewrite land_ones_uint by lia; apply uint_idemp.
Qed.

Lemma mwp_LoadOperand_WithOpSize Op o sz v F M b s Q :
  at_state b0 s0 F M b s -> size_1248 sz = true -> read_operand Op F M o sz = Some v -> address_exact Op o = true ->
  gives (b0:=b0) (s0:=s0) F M v sz Q b s -> mwp (LoadOperand_WithOpSize Op o sz) Q b s.
Proof.
  intros Ha Hs Hr He HQ. unfold LoadOperand_WithOpSize, LoadSource_WithOpSize. eapply mwp_read; [reflexivity|].
  assert (forall plain : bool, (a ← linear_address Op F o; load (bytes sz) M a) = Some v ->
    mwp (Src ← OperandAddress Op o; Src ← AppendSegmentOffset Src (OpFlags Op) 0 false;
         if plain then _LoadMem sz Src else _LoadMemAutoTSO sz Src) Q b s) as Hmem.
  { intros plain H. apply bind_Some in H as (a & Hl & Hv). apply mwp_bind_assoc_rev, mwp_bind.
    eapply mwp_address; [exact Ha|exact Hl|exact He|]. intros k. intro_node.
    eapply mwp_load_any; [eassumption..|]. intro_node. apply HQ; [assumption|eauto using reach_trans|assumption]. }
  destruct o as [|h g|r|r d|x|ls lv|i j sc off]; try discriminate Hr; cbn [read_operand] in Hr.
  2-4: apply Hmem, Hr.
  - destruct (reg_place h g sz) eqn:Hp; [|discriminate Hr]. apply andb_true_iff in Hp as [Hg _].
    rewrite GPR_offset_reg by exact Hg. apply mwp_bind. eapply mwp_LoadContext; [exact Ha|exact Hs|exact Hr|]. intro_node.
    cbn. apply mwp_ret; [good_state|]. apply HQ; assumption.
  - destruct (Z.eqb_spec ls sz) as [->|]; [|discriminate Hr]. injection Hr as <-.
    destruct (literal_mask sz lv b Hs) as (c & Hc & E). apply mwp_bind. eapply mwp_read; [exact Hc|].
    by_rule wp_ConstantSized. cbn. apply mwp_ret; [good_state|]. rewrite E in Hv. apply HQ; assumption.
  - apply Hmem, Hr.
Qed.

Lemma mwp_LoadOperand Op o sz v F M b s Q :
  at_state b0 s0 F M b s -> (forall b, GetSrcSizeOf Op b = Ok (sz, b)) -> size_1248 sz = true ->
  read_operand Op F M o sz = Some v -> address_exact Op o = true ->
  gives (b0:=b0) (s0:=s0) F M v sz Q b s -> mwp (LoadOperand Op o) Q b s.
Proof.
  intros Ha Hsz Hs Hr He HQ. unfold LoadOperand, LoadSource. eapply mwp_read; [apply Hsz|].
  exact (mwp_LoadOperand_WithOpSize _ _ _ _ _ _ _ _ _ Ha Hs Hr He HQ).
Qed.

(** The address of an operand in memory, without the load. *)
Lemma mwp_LoadAddress Op o sz a F M b s Q :
  at_state b0 s0 F M b s -> (forall b, GetSrcSizeOf Op b = Ok (sz, b)) ->
  linear_address Op F o = Some a -> address_exact Op o = true ->
  (forall k, gives (b0:=b0) (s0:=s0) F M a k Q b s) -> mwp (LoadAddress Op o) Q b s.
Proof.
  intros Ha Hsz Hl He HQ. unfold LoadAddress, LoadSource, LoadSource_WithOpSize.
  apply mwp_bind_assoc. eapply mwp_read; [apply Hsz|]. apply mwp_bind_assoc. eapply mwp_read; [reflexivity|].
  apply mwp_bind_assoc. pose proof (mwp_address Op o a F M b s Q Ha Hl He HQ) as H.
  destruct o; try discriminate Hl; cbn; exact H.
Qed.

(** ** Results *)

Lemma mwp_StoreResult_WithOpSize Op o n v k sz t F M F' M' b s Q :
  at_state b0 s0 F M b s -> size_1248 sz = true -> val (emitter b) s n v k ->
  write_operand Op F M o sz v = Some (F', M') -> address_exact Op o = true ->
  sets_state (b0:=b0) (s0:=s0) F' M' Q b s -> mwp (StoreResult_WithOpSize Op o n sz t) Q b s.
Proof.
  intros Ha Hs Hv Hw He HQ. unfold StoreResult_WithOpSize. eapply mwp_read; [exact (GetGPRSize_64 _ _ _ _ Ha)|].
  eapply mwp_read; [reflexivity|].
  replace (sz =? 10) with false by (apply size_1248_bounds in Hs; lia).
  assert (forall plain : bool,
    (a ← linear_address Op F o; _ ← load (bytes sz) M a; Some (F, store (bytes sz) M a v)) = Some (F', M') ->
    mwp (d ← OperandAddress Op o; d ← AppendSegmentOffset d (OpFlags Op) 0 false;
         if plain then _StoreMem sz d n else _StoreMemAutoTSO sz d n) Q b s) as Hmem.
  { intros plain H. apply bind_Some in H as (a & Hl & H). apply bind_Some in H as (old & Ho & H). injection H as <- <-.
    apply mwp_bind_assoc_rev, mwp_bind. eapply mwp_address; [exact Ha|exact Hl|exact He|]. intros ka. intro_node.
    eapply mwp_store_any; [eassumption..|eexists; exact Ho|]. intro_state.
    apply HQ; [assumption|eauto using reach_trans]. }
  destruct o as [|h g|r|r d|x|ls lv|i j sc off]; try discriminate Hw; cbn [write_operand] in Hw.
  2-5: apply Hmem, Hw.
  destruct (reg_place h g sz) eqn:Hp; [|discriminate Hw]. injection Hw as <- <-.
  apply andb_true_iff in Hp as [Hg Hh]. rewrite GPR_offset_reg by exact Hg.
  replace (REG_XMM_0 <=? g) with false by (unfold is_reg, REG_XMM_0 in *; lia). cbn [Z.eqb Pos.eqb andb].
  unfold write_reg in HQ. destruct (Z.eqb_spec sz 4) as [->|Hne].
  - eapply mwp_read; [exact (GetOpSize_Ok _ _ _ _ _ Hv)|]. apply mwp_bind.
    destruct h; [discriminate Hh|]. unfold high. rewrite Z.add_0_r.
    assert (forall n' b' s' k, at_state b0 s0 F M b' s' -> reach (emitter b) s (emitter b') s' ->
      val (emitter b') s' n' (uint 32 v) k -> mwp (_ ← check true; _StoreContext 8 n' (gregs g)) Q b' s') as Hst.
    { intros n' b' s' k' Ha' Hr' Hv'. eapply mwp_read; [reflexivity|].
      eapply mwp_StoreContext; [exact Ha'|exact Hv'|]. intro_state. apply HQ; [assumption|eauto using reach_trans]. }
    destruct (Z.eqb_spec k 8) as [->|Hk].
    + by_rule wp_BfeSized; [cbn; lia|lia|]. rewrite Z.pow_0_r, Z.div_1_r in Hv0.
      eapply Hst; [exact Ha0|exact Hr|exact Hv0].
    + apply mwp_ret; [good_state|]. pose proof (val_sizes _ _ _ _ _ Hv). eapply Hst; [exact Ha|apply reach_refl|].
      rewrite (uint_zext k) by (apply Hv || lia). exact Hv.
  - eapply mwp_read; [reflexivity|]. pose proof (size_1248_bounds _ Hs). replace (Z.min 8 sz) with sz by lia.
    eapply mwp_StoreContext; [exact Ha|exact Hv|exact HQ].
Qed.

Lemma mwp_StoreResultTo Op o n v k sz F M F' M' b s Q :
  at_state b0 s0 F M b s -> (forall b, GetDstSize Op b = Ok (sz, b)) -> size_1248 sz = true -> val (emitter b) s n v k ->
  write_operand Op F M o sz v = Some (F', M') -> address_exact Op o = true ->
  sets_state (b0:=b0) (s0:=s0) F' M' Q b s -> mwp (StoreResultTo Op o n) Q b s.
Proof.
  intros Ha Hsz Hs Hv Hw He HQ. unfold StoreResultTo. eapply mwp_read; [apply Hsz|].
  exact (mwp_StoreResult_WithOpSize _ _ _ _ _ _ _ _ _ _ _ _ _ _ Ha Hs Hv Hw He HQ).
Qed.
End Operands.

(** ** Results narrower than the registers *)

Section Narrow.
Context `{Machine : IRMachine} {b0 : OpDispatchBuilder} {s0 : IROpData}.

(** The mask that the handlers apply to a result of 8 or 16 bits. *)
Lemma mwp_narrow sz n v k F M b s (Q : NodeID -> OpDispatchBuilder -> IROpData -> Prop) :
  size_1248 sz = true -> at_state b0 s0 F M b s -> val (emitter b) s n (uint (8 * Z.max 4 k) v) (Z.max 4 k) ->
  (forall R kr b' s', at_state b0 s0 F M b' s' -> reach (emitter b) s (emitter b') s' ->
    val (emitter b') s' R (uint (8 * sz) v) kr -> sz <= Z.max 4 kr -> Q R b' s') ->
  k = sz -> mwp (if sz <? 4 then _BfeSized sz (sz * 8) 0 n else mret n) Q b s.
Proof.
  intros H1 Ha Hv HQ ->. pose proof (size_1248_bounds _ H1). destruct (Z.ltb_spec sz 4).
  - assert ((if sz =? 0 then Z.max 4 sz else sz) = sz) as Es by (destruct (Z.eqb_spec sz 0); lia).
    by_rule wp_BfeSized; try (rewrite Es; first [exact H1|lia]); [lia|].
    rewrite Es, Z.pow_0_r, Z.div_1_r in Hv0. eapply HQ; try eassumption; [|lia].
    replace (8 * sz) with (sz * 8) by lia. rewrite <- (uint_uint (sz * 8) (8 * Z.max 4 sz)) by lia. exact Hv0.
  - apply mwp_ret; [good_state|]. replace (Z.max 4 sz) with sz in Hv by lia. eapply HQ; [exact Ha|apply reach_refl|exact Hv|lia].
Qed.

(** The same without a size of its own. *)
Lemma mwp_narrow_bits sz n v F M b s (Q : NodeID -> OpDispatchBuilder -> IROpData -> Prop) :
  size_1248 sz = true -> at_state b0 s0 F M b s -> val (emitter b) s n (uint (8 * Z.max 4 sz) v) (Z.max 4 sz) ->
  (forall R kr b' s', at_state b0 s0 F M b' s' -> reach (emitter b) s (emitter b') s' ->
    val (emitter b') s' R (uint (8 * sz) v) kr -> sz <= Z.max 4 kr -> Q R b' s') ->
  mwp (if sz * 8 <? 32 then _Bfe (sz * 8) 0 n else mret n) Q b s.
Proof.
  intros H1 Ha Hv HQ. pose proof (size_1248_bounds _ H1). destruct (Z.ltb_spec (sz * 8) 32).
  - by_rule wp_Bfe; [lia|lia|]. rewrite Z.pow_0_r, Z.div_1_r in Hv0. eapply HQ; try eassumption; [|lia].
    replace (8 * sz) with (sz * 8) by lia. rewrite <- (uint_uint (sz * 8) (8 * Z.max 4 sz)) by lia. exact Hv0.
  - apply mwp_ret; [good_state|]. replace (Z.max 4 sz) with sz in Hv by lia. eapply HQ; [exact Ha|apply reach_refl|exact Hv|lia].
Qed.
End Narrow.

(** ** The builder's outcomes *)

Section Finish.
Context `{Machine : IRMachine} {b0 : OpDispatchBuilder} {s0 : IROpData}.
Implicit Types (F M : gmap Z Z) (b : OpDispatchBuilder) (s : IROpData).

Lemma mwp_modify g F M b s Q :
  at_state b0 s0 F M b s -> emitter (g b) = emitter b -> env (g b) = env b ->
  builder_flags (g b) = builder_flags b ->
  sets_state (b0:=b0) (s0:=s0) F M Q b s -> mwp (modify g) Q b s.
Proof.
  intros Ha Hg He Hf HQ.
  assert (reach (emitter b) s (emitter (g b)) s) as Hr by (rewrite Hg; apply reach_refl).
  assert (moves b s (g b) s) as Hm by (constructor; [exact Hr|rewrite Hg; exact (at_good _ _ _ _ Ha)|exact He]).
  exists s. split; [exact Hm|]. apply HQ; [|exact Hr].
  exact (at_step _ _ _ _ _ _ _ _ _ _ Ha Hm Hf (at_frame _ _ _ _ _ _ Ha) (at_mem _ _ _ _ _ _ Ha)).
Qed.

Lemma mwp_set_HandledLock v F M b s Q :
  at_state b0 s0 F M b s -> sets_state (b0:=b0) (s0:=s0) F M Q b s -> mwp (set_HandledLock v) Q b s.
Proof. intros Ha. apply (mwp_modify _ F M); auto. Qed.

Lemma mwp_set_BlockSetRIP F M b s Q :
  at_state b0 s0 F M b s -> sets_state (b0:=b0) (s0:=s0) F M Q b s -> mwp set_BlockSetRIP Q b s.
Proof. intros Ha. apply (mwp_modify _ F M); auto. Qed.

(** ** Flags at the end of an instruction *)

Lemma pending_reach b s b' s' sz e :
  reach (emitter b) s (emitter b') s' -> CurrentDeferredFlags b' = CurrentDeferredFlags b ->
  pending b s sz e -> pending b' s' sz e.
Proof.
  intros Hr Hf [[Hn ->]|Hm].
  - left. split; [|reflexivity]. unfold IsDeferredFlagsStored in *. rewrite Hf. exact Hn.
  - right. rewrite Hf. exact (meaning_reach _ _ _ _ _ _ _ Hr Hm).
Qed.

(** What waited at the start of the instruction still waits. *)
Lemma at_pending F M b s sz e :
  at_state b0 s0 F M b s -> pending b0 s0 sz e -> pending b s sz e.
Proof.
  intros Ha. pose proof (at_flags _ _ _ _ _ _ Ha) as E. injection E as E _.
  apply pending_reach; [apply Ha|exact E].
Qed.

Lemma at_ABINoPF F M b s : at_state b0 s0 F M b s -> ABINoPF b = ABINoPF b0.
Proof.
  intros Ha. pose proof (moves_env _ _ _ _ (at_moves _ _ _ _ _ _ Ha)) as E. injection E as E _.
  unfold ABINoPF. rewrite E. reflexivity.
Qed.

(** The state after an instruction and the computation of its flags. *)
Definition finished F M (e0 e : flag_effect) (s' : IROpData) : Prop :=
  Mem s' = M /\ composes (ABINoPF b0) e0 e F (Frame s').

Lemma mwp_flags Op sz0 sz e0 e d m F M b s :
  at_state b0 s0 F M b s -> flags_wf F -> operand_size sz0 -> pending b0 s0 sz0 e0 -> operand_size sz ->
  (forall b, GetSrcSizeOf Op b = Ok (sz, b)) -> meaning b s sz d e -> GenerateFlags (OpFlags Op) d = Some m ->
  mwp (_ ← m; CalculateDeferredFlags) (fun _ _ s' => finished F M e0 e s') b s.
Proof.
  intros Ha Hf H0 Hp Hs HOp Hm Hd.
  rewrite <- (at_frame _ _ _ _ _ _ Ha) in Hf.
  pose proof (GenerateFlags_wp b s _ _ _ _ _ _ _ (at_good _ _ _ _ Ha) Hf H0 Hs HOp (at_pending _ _ _ _ _ _ Ha Hp) Hm Hd) as Hw.
  apply mwp_wp in Hw. eapply mwp_mono; [exact Hw|]. cbn. intros _ b' s' _ (Hgo & _ & Hc). split.
  - rewrite (ext_mem _ _ _ _ (goes_ext _ _ _ _ Hgo)). apply Ha.
  - rewrite <- (at_frame _ _ _ _ _ _ Ha), <- (at_ABINoPF _ _ _ _ Ha). exact Hc.
Qed.

(** The record of flags that are all overwritten, with more code before they are
    computed: the translation begins again after it. *)
Lemma mwp_record {A} Op sz d e m (f : unit -> B A) Q F M b s :
  at_state b0 s0 F M b s -> (forall b, GetSrcSizeOf Op b = Ok (sz, b)) -> meaning b s sz d e ->
  GenerateFlags (OpFlags Op) d = Some m -> skips d = false -> calculates d = false ->
  (forall b1, at_state (Machine:=Machine) b1 s F M b1 s -> reach (emitter b) s (emitter b1) s -> pending b1 s sz e ->
    ABINoPF b1 = ABINoPF b0 -> overwrites e = true -> mwp (f tt) Q b1 s) ->
  mwp (m ≫= f) Q b s.
Proof.
  intros Ha HOp Hm Hd Hk Hc HQ.
  pose proof (GenerateFlags_shape b s sz (OpFlags Op) d e m b Hm HOp Hd) as Hsh. rewrite Hk, Hc in Hsh.
  apply mwp_bind. eapply mwp_eq; [exact Hsh|].
  set (b1 := with_flags d (flagsOp b) b).
  assert (moves b s b1 s) as Hmv by (constructor; [apply reach_refl|exact (at_good _ _ _ _ Ha)|reflexivity]).
  exists s. split; [exact Hmv|]. apply HQ.
  - rewrite <- (at_frame _ _ _ _ _ _ Ha), <- (at_mem _ _ _ _ _ _ Ha). apply at_start.
    exact (ready_moves _ _ _ _ (at_ready _ _ _ _ _ _ Ha) Hmv).
  - apply reach_refl.
  - right. eapply meaning_reach; [|exact Hm]. apply reach_refl.
  - rewrite <- (at_ABINoPF _ _ _ _ Ha). reflexivity.
  - exact (replaces_all _ _ _ _ _ Hm Hk Hc).
Qed.

(** The waiting flags alone. *)
Lemma mwp_calculate sz0 e0 F M b s :
  at_state b0 s0 F M b s -> flags_wf F -> operand_size sz0 -> pending b0 s0 sz0 e0 ->
  mwp CalculateDeferredFlags (fun _ b' s' => ready b' s' /\ moves b s b' s' /\ Mem s' = M /\
    agrees (no_PF (ABINoPF b0) e0) F (Frame s') /\ flags_wf (Frame s') /\ IsDeferredFlagsStored b' = true) b s.
Proof.
  intros Ha Hf H0 Hp. rewrite <- (at_frame _ _ _ _ _ _ Ha) in Hf.
  pose proof (calculate_pending b s _ _ (at_good _ _ _ _ Ha) H0 Hf (at_pending _ _ _ _ _ _ Ha Hp)) as Hw.
  apply mwp_wp in Hw. eapply mwp_mono; [exact Hw|]. cbn. intros _ b' s' Hm (Hgo & Hn & Hc & Hf').
  split; [exact (ready_moves _ _ _ _ (at_ready _ _ _ _ _ _ Ha) Hm)|]. split; [exact Hm|]. split.
  - rewrite (ext_mem _ _ _ _ (goes_ext _ _ _ _ Hgo)). apply Ha.
  - rewrite <- (at_frame _ _ _ _ _ _ Ha), <- (at_ABINoPF _ _ _ _ Ha). auto.
Qed.
End Finish.

(** The end of an instruction that recorded flags before its last code. *)
Lemma mwp_finish `{Machine : IRMachine} b0 s0 sz e0 e F M b s nopf :
  at_state b0 s0 F M b s -> flags_wf F -> operand_size sz -> pending b0 s0 sz e -> ABINoPF b0 = nopf ->
  overwrites e = true ->
  mwp CalculateDeferredFlags (fun _ _ s' => Mem s' = M /\ composes nopf e0 e F (Frame s')) b s.
Proof.
  intros Ha Hf Hs Hp Hn Ho. eapply mwp_mono; [exact (mwp_calculate _ _ _ _ _ _ Ha Hf Hs Hp)|].
  cbn. intros _ b' s' _ (_ & _ & HM & Hag & Hf' & _). split; [exact HM|].
  apply composes_overwrites; [exact Ho|exact Hf'|rewrite <- Hn; exact Hag].
Qed.

(** ** What a property of an instruction assumes *)

(** The translation of an instruction begins: nothing is known of the waiting flags
    but the effect [e0] they stand for. *)
Record begins `{IRMachine} (b : OpDispatchBuilder) (s : IROpData) (e0 : flag_effect) : Prop := {
  begins_ready : ready b s;
  begins_flags : flags_wf (Frame s);
  begins_pending : exists sz0, operand_size sz0 /\ pending b s sz0 e0
}.

(** Both operand sizes of the instruction are [sz]. *)
Record sized (Op : DecodedInst) (sz : Z) : Prop := {
  sized_1248 : size_1248 sz = true;
  sized_dst : forall b, GetDstSize Op b = Ok (sz, b);
  sized_src : forall b, GetSrcSizeOf Op b = Ok (sz, b)
}.

Lemma sized_operand Op sz : sized Op sz -> operand_size sz.
Proof. intros H. exact (size_1248_cases _ (sized_1248 _ _ H)). Qed.

(** The operand has the value [v]. *)
Definition source (Op : DecodedInst) (s : IROpData) (o : DecodedOperand) (sz v : Z) : Prop :=
  read_operand Op (Frame s) (Mem s) o sz = Some v /\ address_exact Op o = true.
(** Writing [v] to the operand leaves the guest's context and memory as [F], [M]. *)
Definition target (Op : DecodedInst) (s : IROpData) (o : DecodedOperand) (sz v : Z) (F M : gmap Z Z) : Prop :=
  write_operand Op (Frame s) (Mem s) o sz v = Some (F, M) /\ address_exact Op o = true.

Lemma target_wf Op s o sz v F M :
  size_1248 sz = true -> target Op s o sz v F M -> flags_wf (Frame s) -> flags_wf F.
Proof. intros Hs [Hw _]. apply flags_wf_ext. intros a. exact (write_operand_outside _ _ _ _ _ _ _ _ _ Hs Hw). Qed.

Lemma read_operand_range Op F M o sz v : size_1248 sz = true -> read_operand Op F M o sz = Some v -> zext sz v.
Proof.
  intros Hs Hr. destruct o; cbn in Hr; try discriminate Hr.
  - destruct (reg_place _ _ _); [|discriminate Hr]. exact (load_zext _ _ _ _ Hs Hr).
  - apply bind_Some in Hr as (a & _ & Hr). exact (load_zext _ _ _ _ Hs Hr).
  - apply bind_Some in Hr as (a & _ & Hr). exact (load_zext _ _ _ _ Hs Hr).
  - apply bind_Some in Hr as (a & _ & Hr). exact (load_zext _ _ _ _ Hs Hr).
  - destruct (_ =? _); [|discriminate Hr]. injection Hr as <-. apply size_1248_bounds in Hs. apply uint_range. lia.
  - apply bind_Some in Hr as (a & _ & Hr). exact (load_zext _ _ _ _ Hs Hr).
Qed.

(** Only the bits of the operand's size are written. *)
Lemma write_operand_uint Op F M o sz v : size_1248 sz = true ->
  write_operand Op F M o sz (uint (8 * sz) v) = write_operand Op F M o sz v.
Proof.
  intros Hs. pose proof (size_1248_bytes _ Hs) as E.
  assert (forall m a, store (bytes sz) m a (uint (8 * sz) v) = store (bytes sz) m a v) as Hst
    by (intros; rewrite <- E; apply store_uint).
  destruct o; cbn [write_operand]; try reflexivity;
    try (destruct (linear_address _ _ _) as [a|]; [|reflexivity]; cbn; destruct (load _ _ a); cbn; rewrite ?Hst; reflexivity).
  unfold write_reg. rewrite Hst. destruct (Z.eqb_spec sz 4) as [->|]; [rewrite uint_idemp|]; reflexivity.
Qed.

Lemma target_uint Op s o sz v v' F M : size_1248 sz = true -> uint (8 * sz) v = uint (8 * sz) v' ->
  target Op s o sz v F M -> target Op s o sz v' F M.
Proof.
  intros Hs E [Hw He]. split; [|exact He].
  rewrite <- write_operand_uint, <- E, write_operand_uint by exact Hs. exact Hw.
Qed.

Lemma operand_val `{IRBackend} b s sz n v k :
  val (emitter b) s n v k -> zext sz v -> sz <= Z.max 4 k -> operand b s sz n v.
Proof. intros Hv Hz Hk. split; [exact Hz|]. exists k. auto. Qed.
