(* ===== verification/ALUTheorems.v ===== *)
(** * Arithmetic and logical instructions: theorems

    The code emitted for an instruction, together with the computation of its
    flags, reads the operands, writes the result and changes the flags as the
    architecture says, whatever flags were waiting before it. Each property holds
    for every machine; the examples run the interpreter. *)
From Stdlib Require Import ZArith Lia Bool.
From stdpp Require Import base gmap list numbers option.
From S2P Require Import Prelude IR ALUOps Atomic Interp IRSpec InterpRefines Machine Emitter EmitterLogic Flags FlagsSpec FlagsBlocks FlagsCorrect FlagsLazy FlagsExamples Dispatch DispatchALU X86Spec DispatchLogic OperandLogic.
#[local] Open Scope Z_scope.

(** ** The architecture *)

Inductive alu := ALU_ADD | ALU_OR | ALU_AND | ALU_SUB | ALU_XOR.

(** The operation that three bits of the opcode select; [ADC], [SBB] and [CMP] have
    handlers of their own. *)
Definition alu_code (n : Z) : option alu :=
  if n =? 0 then Some ALU_ADD else if n =? 1 then Some ALU_OR else if n =? 4 then Some ALU_AND
  else if n =? 5 then Some ALU_SUB else if n =? 6 then Some ALU_XOR else None.
(** Opcodes [00] to [35]: the operation is in bits 3 to 5, the form in the lower ones. *)
Definition x86_primary (OP : Z) : option alu :=
  if (0 <=? OP) && (OP mod 8 <? 6) then alu_code (OP / 8) else None.
(** Opcodes [80], [81] and [83]: the operation is the register field of [ModRM]. *)
Definition x86_group1 (OP : Z) : option alu :=
  if (OP / 8 =? 0) || (OP / 8 =? 1) || (OP / 8 =? 3) then alu_code (OP mod 8) else None.

Definition alu_result (op : alu) (w a c : Z) : Z :=
  match op with
  | ALU_ADD => uint w (a + c)
  | ALU_SUB => uint w (a - c)
  | ALU_OR => Z.lor a c
  | ALU_AND => Z.land a c
  | ALU_XOR => Z.lxor a c
  end.
Definition alu_flags (op : alu) (w a c : Z) : flag_effect :=
  match op with
  | ALU_ADD => x86_add w a c 0
  | ALU_SUB => x86_sub w a c 0
  | _ => x86_logical w (alu_result op w a c)
  end.

(** ** The handlers' tables *)

Definition irop (op : alu) : IROps :=
  match op with ALU_ADD => OP_ADD | ALU_OR => OP_OR | ALU_AND => OP_AND | ALU_SUB => OP_SUB | ALU_XOR => OP_XOR end.
Definition masked (op : alu) : bool := match op with ALU_ADD | ALU_SUB => true | _ => false end.

Lemma ALU_IROp_primary OP op : x86_primary OP = Some op -> ALU_IROp OP = Some (irop op, masked op).
Proof.
  unfold x86_primary, alu_code. destruct (Z.leb_spec 0 OP); [|discriminate].
  destruct (Z.ltb_spec (OP mod 8) 6); [|discriminate]. cbn [andb]. intros H1.
  pose proof (Z.div_mod OP 8 ltac:(lia)) as E.
  assert (forall n, OP / 8 = n -> OP = 8 * n + OP mod 8) as Hn by (intros; lia).
  unfold ALU_IROp.
  repeat match type of H1 with
  | (if ?x =? ?k then _ else _) = _ => destruct (Z.eqb_spec x k) as [En|_];
      [injection H1 as <-; pose proof (Hn _ En); pose proof (Z.mod_pos_bound OP 8);
       repeat match goal with |- context [(?a <=? OP) && (OP <=? ?c)] =>
         first [replace ((a <=? OP) && (OP <=? c)) with true by lia; reflexivity
               |replace ((a <=? OP) && (OP <=? c)) with false by lia] end|]
  end.
  discriminate H1.
Qed.

Lemma SecondaryALU_IROp_group1 OP op : x86_group1 OP = Some op -> SecondaryALU_IROp OP = Some (irop op, masked op).
Proof.
  unfold x86_group1, alu_code. intros H.
  pose proof (Z.div_mod OP 8 ltac:(lia)) as E. pose proof (Z.mod_pos_bound OP 8 ltac:(lia)).
  destruct ((OP / 8 =? 0) || (OP / 8 =? 1) || (OP / 8 =? 3)) eqn:Hi; [|discriminate H].
  repeat match type of H with
  | (if ?x =? ?k then _ else _) = _ => destruct (Z.eqb_spec x k) as [En|_];
      [injection H as <-; rewrite En in E;
       rewrite !orb_true_iff, !Z.eqb_eq in Hi; destruct Hi as [[Ei|Ei]|Ei]; rewrite Ei in E; subst OP; reflexivity|]
  end.
  discriminate H.
Qed.

(** ** The result *)

Lemma alu_result_range op sz a c : size_1248 sz = true -> zext sz a -> zext sz c -> zext sz (alu_result op (8 * sz) a c).
Proof.
  intros Hs Ha Hc. pose proof (size_1248_bounds _ Hs). pose proof (zext_nonneg _ _ Ha).
  assert (forall f g, (forall x y i, Z.testbit (f x y) i = g (Z.testbit x i) (Z.testbit y i)) ->
    (forall x y, 0 <= x -> 0 <= y -> 0 <= f x y) -> g false false = false -> zext sz (f a c)) as Hbit.
  { intros f g H1 H2 H3. rewrite <- (uint_bitop f g H1 H2 H3 sz sz a c Ha Hc), Z.max_id. apply uint_range. lia. }
  destruct op; cbn [alu_result]; try (apply uint_range; lia).
  - eapply Hbit; [apply Z.lor_spec|intros; apply Z.lor_nonneg; auto|reflexivity].
  - eapply Hbit; [apply Z.land_spec|intros; apply Z.land_nonneg; auto|reflexivity].
  - eapply Hbit; [apply Z.lxor_spec|intros; apply Z.lxor_nonneg; tauto|reflexivity].
Qed.

Section ALU.
Context `{Machine : IRMachine} {b0 : OpDispatchBuilder} {s0 : IROpData}.
Implicit Types (F M : gmap Z Z) (b : OpDispatchBuilder) (s : IROpData).

(** The node holds the result, a sum or a difference perhaps with a carry above it. *)
Definition result_node (op : alu) (sz : Z) (n : NodeID) (v : Z) b s : Prop :=
  exists k r, val (emitter b) s n r k /\ sz <= Z.max 4 k /\ uint (8 * sz) r = v /\
    (masked op = true -> 4 <= sz -> r = v) /\ (masked op = false -> r = v) /\ (masked op = true -> 4 <= k).

Lemma set_Op_Add {A} op x y (f : NodeID -> B A) Q b s :
  mwp (n ← emit_max4_2 op x y; f n) Q b s -> mwp (n ← _Add x y; _ ← set_Op n op; f n) Q b s.
Proof.
  apply mwp_eq. unfold _Add, emit_max4_2, mbind, M_bind.
  destruct (GetOpSize x b) as [[sx b1]| |]; try reflexivity.
  destruct (GetOpSize y b1) as [[sy b2]| |]; try reflexivity.
  unfold AllocateOp, set_Op. cbn [emitter with_emitter OpDispatchBuilder_HasEmitter builder_emitter].
  unfold CreateNode at 1. cbn [Data]. rewrite lookup_insert_eq. cbn. rewrite insert_insert_eq. reflexivity.
Qed.

(** The addition whose operation is overwritten. *)
Lemma mwp_ALUOp op x y a c sz F M b s (Q : NodeID -> OpDispatchBuilder -> IROpData -> Prop) :
  at_state b0 s0 F M b s -> size_1248 sz = true -> val (emitter b) s x a sz -> val (emitter b) s y c sz ->
  (forall n b' s', at_state b0 s0 F M b' s' -> reach (emitter b) s (emitter b') s' ->
    result_node op sz n (alu_result op (8 * sz) a c) b' s' -> Q n b' s') ->
  mwp (emit_max4_2 (irop op) x y) Q b s.
Proof.
  intros Ha Hs Hx Hy HQ.
  pose proof (alu_result_range op sz a c Hs (val_zext _ _ _ _ _ Hx) (val_zext _ _ _ _ _ Hy)) as Hr.
  pose proof (size_1248_bounds _ Hs).
  assert (forall v, uint (8 * sz) v = alu_result op (8 * sz) a c ->
    (masked op = true -> 4 <= sz -> v = alu_result op (8 * sz) a c) -> (masked op = false -> v = alu_result op (8 * sz) a c) ->
    gives (b0:=b0) (s0:=s0) F M v (Z.max 4 (Z.max sz sz)) Q b s) as HQ'.
  { intros v E1 E2 E3 n b' s' Ha' Hr' Hv. apply HQ; [exact Ha'|exact Hr'|].
    exists (Z.max 4 (Z.max sz sz)), v. split_and!; auto; intros; lia. }
  destruct op; cbn [irop].
  1: by_rule wp_Add. 4: by_rule wp_Sub.
  1, 4: eapply HQ'; [| | |eassumption..]; cbn [alu_result]; [apply uint_uint; lia|intros _ H4; f_equal; lia|discriminate].
  all: eapply mwp_value; [exact Ha|quiet|eapply wp_max4_2; [good_state|exact Hx|exact Hy| |reflexivity|];
    [intros H48; apply size_48_1248 in H48; cbn -[Z.max Z.mul]; rewrite H48; reflexivity
    |intros ? ? ? _ HF Hv; exact (conj HF Hv)]|].
  all: rewrite uint_small; [apply HQ'; [apply uint_small; exact Hr|discriminate|reflexivity]|].
  all: apply (zext_le sz (Z.max 4 (Z.max sz sz))) in Hr; [exact Hr|lia].
Qed.

Lemma mwp_tail op Op n d x a c sz sz0 e0 F M b s :
  at_state b0 s0 F M b s -> sized Op sz -> flags_wf F -> operand_size sz0 -> pending b0 s0 sz0 e0 ->
  val (emitter b) s d a sz -> val (emitter b) s x c sz -> result_node op sz n (alu_result op (8 * sz) a c) b s ->
  mwp (_ ← (Result ← (if masked op && (sz <? 4) then _BfeSized sz (sz * 8) 0 n else mret n);
            DispatchALU.ALU_flags (irop op) Op Result d x); CalculateDeferredFlags)
      (fun _ _ s' => finished (b0:=b0) F M e0 (alu_flags op (8 * sz) a c) s') b s.
Proof.
  intros Ha Hs Hf H0 Hp Hd Hx Hn. pose proof (sized_operand _ _ Hs) as Ho.
  pose proof (sized_1248 _ _ Hs) as H1. pose proof (size_1248_bounds _ H1).
  pose proof (alu_result_range op sz a c H1 (val_zext _ _ _ _ _ Hd) (val_zext _ _ _ _ _ Hx)) as Hr.
  apply mwp_bind_assoc, mwp_bind.
  assert (forall R k b' s', at_state b0 s0 F M b' s' -> val (emitter b') s' d a sz -> val (emitter b') s' x c sz ->
    val (emitter b') s' R (alu_result op (8 * sz) a c) k -> sz <= Z.max 4 k ->
    mwp (_ ← DispatchALU.ALU_flags (irop op) Op R d x; CalculateDeferredFlags)
      (fun _ _ s' => finished (b0:=b0) F M e0 (alu_flags op (8 * sz) a c) s') b' s') as Hend.
  { intros R k b' s' Ha' Hd' Hx' HR Hk.
    assert (operand b' s' sz R (alu_result op (8 * sz) a c)) as OR by exact (operand_val _ _ _ _ _ _ HR Hr Hk).
    assert (operand b' s' sz d a) as Od by (eapply operand_val; [exact Hd'|apply Hd'|lia]).
    assert (operand b' s' sz x c) as Ox by (eapply operand_val; [exact Hx'|apply Hx'|lia]).
    destruct op; cbn [DispatchALU.ALU_flags irop];
      (match goal with |- mwp (_ ← ?m; _) _ _ _ => lazymatch m with
      | GenerateFlags_ADD _ _ _ _ _ => eapply mwp_flags with (sz0 := sz0) (sz := sz) (d := mkDeferred TYPE_ADD sz R (TwoSrcImmediate d x true))
      | GenerateFlags_SUB _ _ _ _ _ => eapply mwp_flags with (sz0 := sz0) (sz := sz) (d := mkDeferred TYPE_SUB sz R (TwoSrcImmediate d x true))
      | _ => eapply mwp_flags with (sz0 := sz0) (sz := sz) (d := mkDeferred TYPE_LOGICAL sz R (TwoSource d x))
      end end; [exact Ha'|exact Hf|exact H0|exact Hp|exact Ho|exact (sized_src _ _ Hs)| |reflexivity]);
      try (apply meaning_LOGICAL; exact OR).
    - apply (meaning_ADD b' s' sz R d x a c true); rewrite ?Z.add_0_r; assumption.
    - apply (meaning_SUB b' s' sz R d x a c true); rewrite ?Z.sub_0_r; assumption. }
  destruct Hn as (k & r & Hv & Hk & E & H4 & Hu & Hk4).
  destruct (masked op) eqn:Em; cbn [andb].
  - destruct (Z.ltb_spec sz 4).
    + assert ((if sz =? 0 then k else sz) = sz) as Es by (destruct (Z.eqb_spec sz 0); lia).
      by_rule wp_BfeSized; try (rewrite Es; first [exact H1|lia]); [lia|].
      rewrite Es, Z.pow_0_r, Z.div_1_r in Hv0. eapply Hend; [eassumption..| |].
      * rewrite <- E. unfold uint. replace (8 * sz) with (sz * 8) by lia. exact Hv0.
      * lia.
    + apply mwp_ret; [good_state|]. rewrite (H4 eq_refl ltac:(lia)) in Hv. eapply Hend; eassumption.
  - apply mwp_ret; [good_state|]. rewrite (Hu eq_refl) in Hv. eapply Hend; eassumption.
Qed.

(** ** A destination in memory and a [LOCK] prefix *)

Lemma locked_memory Op s o sz a F M v :
  source Op s o sz a -> target Op s o sz v F M -> IsGPR o = false ->
  exists l, linear_address Op (Frame s) o = Some l /\ address_exact Op o = true /\
    load (bytes sz) (Mem s) l = Some a /\ F = Frame s /\ M = store (bytes sz) (Mem s) l v.
Proof.
  intros [Hr He] [Hw _] Hm.
  destruct o; try discriminate Hm; cbn [read_operand write_operand] in Hr, Hw; try discriminate Hw;
    apply bind_Some in Hr as (l & Hl & Hr); rewrite Hl in Hw; cbn in Hw; rewrite Hr in Hw; injection Hw as <- <-;
    exists l; auto.
Qed.

Lemma store_same sz m l v v' : size_1248 sz = true -> uint (8 * sz) v = uint (8 * sz) v' ->
  store (bytes sz) m l v = store (bytes sz) m l v'.
Proof.
  intros Hs E. rewrite <- (store_uint _ _ _ v), <- (store_uint _ _ _ v'), !size_1248_bytes, E by exact Hs. reflexivity.
Qed.

Lemma mwp_ALU_atomic op Op l d a x c sz F M b s (Q : NodeID * NodeID -> OpDispatchBuilder -> IROpData -> Prop) k :
  at_state b0 s0 F M b s -> sized Op sz -> val (emitter b) s x c sz -> val (emitter b) s d l k ->
  load (bytes sz) M l = Some a ->
  (forall p b' s', at_state b0 s0 F (store (bytes sz) M l (alu_result op (8 * sz) a c)) b' s' ->
    reach (emitter b) s (emitter b') s' -> val (emitter b') s' p.1 a sz ->
    result_node op sz p.2 (alu_result op (8 * sz) a c) b' s' -> Q p b' s') ->
  mwp (ALU_atomic (irop op) sz x d) Q b s.
Proof.
  intros Ha Hs Hx Hd Hl HQ. pose proof (sized_1248 _ _ Hs) as H1. pose proof (size_1248_bounds _ H1).
  pose proof (load_zext _ _ _ _ H1 Hl) as Hza. pose proof (val_zext _ _ _ _ _ Hx) as Hzc.
  pose proof (alu_result_range op sz a c H1 Hza Hzc) as Hr.
  assert (uint (8 * sz) c = c) as Ec by (apply uint_small; exact Hzc).
  destruct op; cbn [irop ALU_atomic]; apply mwp_bind;
    unfold _AtomicFetchAdd, _AtomicFetchSub, _AtomicFetchOr, _AtomicFetchAnd, _AtomicFetchXor;
    (eapply mwp_fetch; [exact Ha|reflexivity|exact H1|exact Hx|exact Hd|exact Hl|]); rewrite Ec; intro_node;
    node; (apply mwp_ret; [good_state|]); apply HQ; cbn [fst snd]; try assumption; try (eauto using reach_trans).
  all: try (match goal with
    | H : at_state _ _ _ (store _ _ _ ?v) ?b ?s |- at_state _ _ _ (store _ _ _ ?v') ?b ?s =>
        rewrite (store_same sz _ _ v' v); [exact H|exact H1|cbn [alu_result]; rewrite ?uint_idemp; reflexivity] end).
  all: cbn [alu_result]; eexists _, _; split; [eassumption|].
  all: cbn [masked]; split_and!; try discriminate; try lia; intros; try reflexivity.
  all: try (apply uint_uint; lia); try (f_equal; lia).
  all: apply uint_small; exact Hr.
Qed.

Lemma ALU_body_mwp op Op o sz a c F' M' sz0 e0 (b := b0) (s := s0) :
  ready b s -> flags_wf (Frame s) -> operand_size sz0 -> pending b s sz0 e0 -> sized Op sz ->
  source Op s o sz c -> source Op s (Dest Op) sz a ->
  target Op s (Dest Op) sz (alu_result op (8 * sz) a c) F' M' ->
  mwp (_ ← ALU_body (irop op) (masked op) Op o; CalculateDeferredFlags)
      (fun _ _ s' => finished (b0:=b0) F' M' e0 (alu_flags op (8 * sz) a c) s') b s.
Proof.
  intros Hrd Hf H0 Hp Hs [Hc Hce] Hda Ht. pose proof (at_start _ _ Hrd) as Ha.
  pose proof (sized_1248 _ _ Hs) as H1. pose proof (target_wf _ _ _ _ _ _ _ H1 Ht Hf) as Hf'.
  unfold ALU_body. apply mwp_bind_assoc. eapply mwp_read; [apply Hs|]. apply mwp_bind_assoc, mwp_bind.
  eapply mwp_LoadOperand; [exact Ha|apply Hs|exact H1|exact Hc|exact Hce|]. intro_node.
  apply mwp_bind_assoc, mwp_bind.
  destruct (DestIsLockedMem Op) eqn:El.
  - apply andb_true_iff in El as [Em _]. apply negb_true_iff in Em.
    destruct (locked_memory _ _ _ _ _ _ _ _ Hda Ht Em) as (l & Hl & He & Hld & -> & ->).
    apply mwp_bind. eapply mwp_set_HandledLock; [eassumption|]. intro_state.
    apply mwp_bind. eapply mwp_LoadAddress; [eassumption|apply Hs|exact Hl|exact He|]. intros k. intro_node.
    eapply mwp_ALU_atomic; [eassumption|exact Hs|eassumption|eassumption|exact Hld|].
    intros [d r] b' s' Ha' Hr' Hd' Hn. shift_nodes Hr'. eapply mwp_tail; eassumption.
  - destruct Hda as [Hd Hde]. apply mwp_bind.
    eapply mwp_LoadOperand; [eassumption|apply Hs|exact H1|exact Hd|exact Hde|]. intro_node.
    apply set_Op_Add, mwp_bind. eapply mwp_ALUOp; [eassumption|exact H1|eassumption|eassumption|].
    intros n' b' s' Ha' Hr' (k & r & Hv' & Hk). shift_nodes Hr'. apply mwp_bind.
    eapply (target_uint _ _ _ _ _ r) in Ht as [Hw He]; [|exact H1|].
    2: { rewrite (proj1 (proj2 Hk)). apply uint_small, (alu_result_range op sz a c H1); eapply val_zext; eassumption. }
    unfold StoreResult. eapply mwp_StoreResultTo; [exact Ha'|exact (sized_dst _ _ Hs)|exact H1|exact Hv'|exact Hw|exact He|]. intro_state.
    apply mwp_ret; [good_state|]. eapply mwp_tail; try eassumption.
    exists k, r. auto.
Qed.
End ALU.

(** ** Properties *)

(** The handlers of the primary opcodes and of the immediate group, with the operand
    they read besides the destination. *)
Inductive alu_instruction (Op : DecodedInst) : B unit -> alu -> DecodedOperand -> Prop :=
  | alu_primary op : x86_primary (OP Op) = Some op -> alu_instruction Op (ALUOp Op) op (SrcOperand Op 0)
  | alu_group1 op : x86_group1 (OP Op) = Some op -> alu_instruction Op (SecondaryALUOp Op) op (SrcOperand Op 1).

(** C2: [ADD], [OR], [AND], [SUB] and [XOR], in both encodings, at every operand
    size, with registers, literals and memory operands, and with or without a [LOCK]
    prefix: the emitted code runs on the machine and leaves the destination with the
    architectural result, nothing else of the guest's registers and memory changed,
    and the flags that the instruction defines, after whatever flags waited. *)
Theorem ALUOp_x86 `{Machine : IRMachine} b s e0 Op handler op o sz a c F' M'
    (Hbegin : begins b s e0) (Hsize : sized Op sz) (Hop : alu_instruction Op handler op o)
    (Hsrc : source Op s o sz c) (Hdest : source Op s (Dest Op) sz a)
    (Hresult : target Op s (Dest Op) sz (alu_result op (8 * sz) a c) F' M') :
  exists b' s', emits (_ ← handler; CalculateDeferredFlags) b s tt b' s' /\
    Mem s' = M' /\ composes (ABINoPF b) e0 (alu_flags op (8 * sz) a c) F' (Frame s').
Proof.
  destruct Hbegin as [Hr Hf (sz0 & H0 & Hp)].
  pose proof (ALU_body_mwp op Op o sz a c F' M' sz0 e0 Hr Hf H0 Hp Hsize Hsrc Hdest Hresult) as Hw.
  assert (handler = ALU_body (irop op) (masked op) Op o) as ->.
  { destruct Hop as [op H|op H].
    - unfold ALUOp. rewrite (ALU_IROp_primary _ _ H). reflexivity.
    - unfold SecondaryALUOp. rewrite (SecondaryALU_IROp_group1 _ _ H). reflexivity. }
  apply mwp_emits in Hw as ([] & b' & s' & Hem & HM & Hc). exists b', s'. auto.
Qed.
