(* ===== verification/CarryTheorems.v ===== *)
(** * Carries: theorems

    [ADC] and [SBB] compute the flags that wait before they read the carry; [INC]
    and [DEC] leave it alone. *)
From Stdlib Require Import ZArith Lia Bool.
From stdpp Require Import base gmap list numbers option.
From S2P Require Import Prelude IR ALUOps Atomic Interp IRSpec InterpRefines Machine Emitter EmitterLogic Flags FlagsSpec FlagsBlocks FlagsCorrect FlagsLazy FlagsExamples Dispatch DispatchALU X86Spec DispatchLogic OperandLogic ALUTheorems.
#[local] Open Scope Z_scope.

(** ** With carry *)

(** The carry before the instruction, which the architecture must define. *)
Definition carry_in (e0 : flag_effect) (F : gmap Z Z) (k : bool) : Prop :=
  match eCF e0 with Def v => v = k | Kept => rflag F RFLAG_CF_LOC = Some k | Any => False end.

Definition carry_result (sub : bool) (w a c k : Z) : Z := uint w (if sub then a - c - k else a + c + k).
Definition carry_flags (sub : bool) (w a c k : Z) : flag_effect := if sub then x86_sub w a c k else x86_add w a c k.
Definition carry_op (sub : bool) : DecodedInst -> B unit := if sub then SBBOp 0 else ADCOp 0.

Lemma carry_in_agrees nopf e0 F F1 k : agrees (no_PF nopf e0) F F1 -> carry_in e0 F k -> rflag F1 RFLAG_CF_LOC = Some k.
Proof.
  intros [H _ _ _ _ _ _] Hk. unfold carry_in in Hk.
  replace (eCF (no_PF nopf e0)) with (eCF e0) in H by (destruct nopf; reflexivity).
  destruct (eCF e0); cbn in H; [subst; exact H|congruence|contradiction].
Qed.

Section Carry.
Context `{Machine : IRMachine} {b0 : OpDispatchBuilder} {s0 : IROpData}.
Implicit Types (F M : gmap Z Z) (b : OpDispatchBuilder) (s : IROpData).

(** The rest of both handlers, from the carry on. *)
Definition carry_body (sub : bool) (Op : DecodedInst) (Size : Z) (Src_ CF : NodeID) : B unit :=
  ALUOp ← _Add Src_ CF;
  '(Before_, Result) ← (if DestIsLockedMem Op then
      _ ← set_HandledLock true;
      DestMem ← LoadAddress Op (Dest Op);
      Before_ ← (if sub then _AtomicFetchSub else _AtomicFetchAdd) Size ALUOp DestMem;
      Result ← (if sub then _Sub else _Add) Before_ ALUOp;
      mret (Before_, Result)
    else
      Before_ ← LoadOperand Op (Dest Op);
      Result ← (if sub then _Sub else _Add) Before_ ALUOp;
      _ ← StoreResult Op Result;
      mret (Before_, Result));
  Result ← (if Size <? 4 then _BfeSized Size (Size * 8) 0 Result else mret Result);
  (if sub then GenerateFlags_SBB else GenerateFlags_ADC) (OpFlags Op) Result Before_ Src_ CF.

(** The result's node, at least four bytes wide. *)
Definition carry_node (sub : bool) (sz : Z) (n : NodeID) (a c k : Z) b s : Prop :=
  val (emitter b) s n (carry_result sub (8 * Z.max 4 sz) a c k) (Z.max 4 sz).

Lemma mwp_carry_op (sub : bool) x y a c k sz F M b s (Q : NodeID -> OpDispatchBuilder -> IROpData -> Prop) :
  at_state b0 s0 F M b s -> size_1248 sz = true -> val (emitter b) s x a sz ->
  val (emitter b) s y (uint (8 * Z.max 4 sz) (c + k)) (Z.max 4 sz) ->
  gives (b0:=b0) (s0:=s0) F M (carry_result sub (8 * Z.max 4 sz) a c k) (Z.max 4 sz) Q b s ->
  mwp ((if sub then _Sub else _Add) x y) Q b s.
Proof.
  intros Ha Hs Hx Hy HQ. destruct sub; node; apply HQ; try assumption;
    replace (Z.max 4 (Z.max sz (Z.max 4 sz))) with (Z.max 4 sz) in * by lia; unfold carry_result.
  - replace (uint _ (a - c - k)) with (uint (8 * Z.max 4 sz) (a - uint (8 * Z.max 4 sz) (c + k))); [assumption|].
    rewrite <- uint_sub, uint_idemp, uint_sub. f_equal. lia.
  - replace (uint _ (a + c + k)) with (uint (8 * Z.max 4 sz) (a + uint (8 * Z.max 4 sz) (c + k))); [assumption|].
    rewrite <- uint_add, uint_idemp, uint_add. f_equal. lia.
Qed.

Lemma mwp_carry_tail sub Op n d x y a c kb ky sz F M b s :
  at_state b0 s0 F M b s -> sized Op sz -> flags_wf F ->
  val (emitter b) s d a sz -> val (emitter b) s x c sz -> val (emitter b) s y (Z.b2z kb) ky ->
  carry_node sub sz n a c (Z.b2z kb) b s ->
  mwp (_ ← (Result ← (if sz <? 4 then _BfeSized sz (sz * 8) 0 n else mret n);
            (if sub then GenerateFlags_SBB else GenerateFlags_ADC) (OpFlags Op) Result d x y); CalculateDeferredFlags)
      (fun _ _ s' => Mem s' = M /\ agrees (no_PF (ABINoPF b0) (carry_flags sub (8 * sz) a c (Z.b2z kb))) F (Frame s')) b s.
Proof.
  intros Ha Hs Hf Hd Hx Hy Hn. pose proof (sized_1248 _ _ Hs) as H1. pose proof (size_1248_bounds _ H1).
  apply mwp_bind_assoc, mwp_bind.
  assert (forall R kr b' s', at_state b0 s0 F M b' s' -> val (emitter b') s' d a sz -> val (emitter b') s' x c sz ->
    val (emitter b') s' y (Z.b2z kb) ky -> val (emitter b') s' R (carry_result sub (8 * sz) a c (Z.b2z kb)) kr -> sz <= Z.max 4 kr ->
    mwp (_ ← (if sub then GenerateFlags_SBB else GenerateFlags_ADC) (OpFlags Op) R d x y; CalculateDeferredFlags)
      (fun _ _ s' => Mem s' = M /\ agrees (no_PF (ABINoPF b0) (carry_flags sub (8 * sz) a c (Z.b2z kb))) F (Frame s')) b' s') as Hend.
  { intros R kr b' s' Ha' Hd' Hx' Hy' HR Hk.
    assert (operand b' s' sz R (carry_result sub (8 * sz) a c (Z.b2z kb))) as OR
      by (eapply operand_val; [exact HR|apply uint_range; lia|exact Hk]).
    assert (operand b' s' sz d a) as Od by (eapply operand_val; [exact Hd'|apply Hd'|lia]).
    assert (operand b' s' sz x c) as Ox by (eapply operand_val; [exact Hx'|apply Hx'|lia]).
    assert (exists dd, meaning b' s' sz dd (carry_flags sub (8 * sz) a c (Z.b2z kb)) /\
      GenerateFlags (OpFlags Op) dd = Some ((if sub then GenerateFlags_SBB else GenerateFlags_ADC) (OpFlags Op) R d x y) /\
      skips dd = false /\ calculates dd = false) as (dd & Hm & HG & Hk1 & Hk2).
    { destruct sub; eexists; (split; [first [eapply meaning_SBB|eapply meaning_ADC]; eassumption|auto]). }
    eapply (mwp_record Op sz dd); [exact Ha'|exact (sized_src _ _ Hs)|exact Hm|exact HG|exact Hk1|exact Hk2|].
    intros b1 Hb1 _ Hp1 Hn1 _. eapply mwp_mono; [exact (mwp_calculate _ _ _ _ _ _ Hb1 Hf (sized_operand _ _ Hs) Hp1)|].
    cbn. intros _ b2 s2 _ (_ & _ & HM & Hag & _). split; [exact HM|]. rewrite <- Hn1. exact Hag. }
  unfold carry_node in Hn. destruct (Z.ltb_spec sz 4).
  - assert ((if sz =? 0 then Z.max 4 sz else sz) = sz) as Es by (destruct (Z.eqb_spec sz 0); lia).
    by_rule wp_BfeSized; try (rewrite Es; first [exact H1|lia]); [lia|].
    rewrite Es, Z.pow_0_r, Z.div_1_r in Hv. eapply Hend; try eassumption; [|lia].
    unfold carry_result in *. replace (8 * sz) with (sz * 8) by lia.
    rewrite <- (uint_uint (sz * 8) (8 * Z.max 4 sz)) by lia. exact Hv.
  - apply mwp_ret; [good_state|]. replace (Z.max 4 sz) with sz in Hn by lia. eapply Hend; try eassumption. lia.
Qed.

Lemma mwp_carry_body sub Op x y a c kb ky sz F' M' (b := b0) (s := s0) b1 s1 :
  at_state b0 s0 (Frame s0) (Mem s0) b1 s1 -> flags_wf (Frame s) -> sized Op sz ->
  source Op s (Dest Op) sz a -> target Op s (Dest Op) sz (carry_result sub (8 * sz) a c (Z.b2z kb)) F' M' ->
  val (emitter b1) s1 x c sz -> val (emitter b1) s1 y (Z.b2z kb) ky -> ky = 1 ->
  mwp (_ ← carry_body sub Op sz x y; CalculateDeferredFlags)
      (fun _ _ s' => Mem s' = M' /\ agrees (no_PF (ABINoPF b0) (carry_flags sub (8 * sz) a c (Z.b2z kb))) F' (Frame s')) b1 s1.
Proof.
  intros Ha Hf Hs Hda Ht Hx Hy ->. pose proof (sized_1248 _ _ Hs) as H1. pose proof (target_wf _ _ _ _ _ _ _ H1 Ht Hf) as Hf'.
  pose proof (size_1248_bounds _ H1).
  assert (forall w, 8 * sz <= w -> uint (8 * sz) (carry_result sub w a c (Z.b2z kb)) = carry_result sub (8 * sz) a c (Z.b2z kb)) as Hw
    by (intros; unfold carry_result; apply uint_uint; lia).
  unfold carry_body. apply mwp_bind_assoc, mwp_bind. node.
  replace (Z.max 4 (Z.max sz 1)) with (Z.max 4 sz) in Hv by lia.
  apply mwp_bind_assoc, mwp_bind.
  destruct (DestIsLockedMem Op) eqn:El.
  - apply andb_true_iff in El as [Em _]. apply negb_true_iff in Em.
    destruct (locked_memory _ _ _ _ _ _ _ _ Hda Ht Em) as (l & Hl & He & Hld & -> & ->).
    apply mwp_bind. eapply mwp_set_HandledLock; [eassumption|]. intro_state.
    apply mwp_bind. eapply mwp_LoadAddress; [eassumption|exact (sized_src _ _ Hs)|exact Hl|exact He|]. intros k. intro_node.
    apply mwp_bind. unfold _AtomicFetchSub, _AtomicFetchAdd.
    match goal with |- mwp ?m _ _ _ => replace m with (AllocateOp (if sub then OP_ATOMICFETCHSUB else OP_ATOMICFETCHADD) sz [n; n0])
      by (destruct sub; reflexivity) end.
    eapply mwp_fetch with (f := if sub then Z.sub else Z.add);
      [eassumption|destruct sub; reflexivity|exact H1|eassumption|eassumption|exact Hld|]. intro_node.
    apply mwp_bind. eapply mwp_carry_op; [eassumption|exact H1|eassumption|eassumption|]. intro_node.
    apply mwp_ret; [good_state|]. eapply mwp_carry_tail; try eassumption.
    match goal with H : at_state _ _ _ (store _ _ _ ?v) ?b ?s |- at_state _ _ _ (store _ _ _ ?v') ?b ?s =>
      rewrite (store_same sz _ _ v' v); [exact H|exact H1|] end.
    unfold carry_result. rewrite uint_idemp, (uint_uint (8 * sz) (8 * Z.max 4 sz)) by lia. destruct sub.
    + rewrite <- (uint_sub _ a (uint _ _)), uint_idemp, uint_sub. f_equal. lia.
    + rewrite <- (uint_add _ a (uint _ _)), uint_idemp, uint_add. f_equal. lia.
  - destruct Hda as [Hd Hde]. apply mwp_bind.
    eapply mwp_LoadOperand; [eassumption|exact (sized_src _ _ Hs)|exact H1|exact Hd|exact Hde|]. intro_node.
    apply mwp_bind. eapply mwp_carry_op; [eassumption|exact H1|eassumption|eassumption|]. intro_node. apply mwp_bind.
    eapply (target_uint _ _ _ _ _ (carry_result sub (8 * Z.max 4 sz) a c (Z.b2z kb))) in Ht as [Hwr He]; [|exact H1|].
    2: { rewrite !Hw by lia. reflexivity. }
    unfold StoreResult. eapply mwp_StoreResultTo; [eassumption|exact (sized_dst _ _ Hs)|exact H1|eassumption|exact Hwr|exact He|].
    intro_state. apply mwp_ret; [good_state|]. eapply mwp_carry_tail; eassumption.
Qed.
End Carry.

Lemma carry_handler sub Op :
  carry_op sub Op =
  (_ ← CalculateDeferredFlags;
   Src_ ← LoadOperand Op (SrcOperand Op 0);
   Size ← GetDstSize Op;
   CF ← GetRFLAG RFLAG_CF_LOC;
   carry_body sub Op Size Src_ CF).
Proof. destruct sub; reflexivity. Qed.

(** An instruction after the flags that waited were computed. *)
Section AfterFlags.
Context `{Machine : IRMachine}.
Variables (b : OpDispatchBuilder) (s : IROpData) (e0 : flag_effect) (b1 : OpDispatchBuilder) (s1 : IROpData).
Hypothesis Hags : agrees (no_PF (ABINoPF b) e0) (Frame s) (Frame s1).
Hypothesis HM1 : Mem s1 = Mem s.

Lemma source_after Op o sz v : size_1248 sz = true -> source Op s o sz v -> source Op s1 o sz v.
Proof.
  intros Hs [Hr He]. split; [|exact He].
  rewrite HM1, (read_operand_same _ _ _ _ _ _ (agrees_same_registers _ _ _ Hags)) by exact Hs. exact Hr.
Qed.

Lemma target_after Op o sz v F M : size_1248 sz = true -> target Op s o sz v F M ->
  exists F1, target Op s1 o sz v F1 M /\ agrees (no_PF (ABINoPF b) e0) F F1.
Proof.
  intros Hs [Hw He].
  destruct (write_operand_same _ _ _ _ _ _ _ _ _ (agrees_same_registers _ _ _ Hags) Hs Hw) as (F1 & Hw1 & Hsame).
  exists F1. split; [split; [rewrite HM1; exact Hw1|exact He]|].
  apply (agrees_write _ (Frame s) (Frame s1)); [exact Hags|exact Hsame| |]; intros a;
    eapply write_operand_outside; eassumption.
Qed.
End AfterFlags.

Lemma begins_calculate `{Machine : IRMachine} b s e0 {A} (f : unit -> B A) Q :
  begins b s e0 ->
  (forall b1 s1, at_state b1 s1 (Frame s1) (Mem s) b1 s1 -> flags_wf (Frame s1) -> Mem s1 = Mem s ->
    agrees (no_PF (ABINoPF b) e0) (Frame s) (Frame s1) -> ABINoPF b1 = ABINoPF b ->
    IsDeferredFlagsStored b1 = true -> mwp (f tt) Q b1 s1) ->
  mwp (CalculateDeferredFlags ≫= f) Q b s.
Proof.
  intros [Hr Hf (sz0 & H0 & Hp)] HQ. pose proof (at_start _ _ Hr) as Ha. apply mwp_bind.
  eapply mwp_mono; [exact (mwp_calculate _ _ _ _ _ _ Ha Hf H0 Hp)|]. cbn.
  intros [] b1 s1 _ (Hr1 & Hm1 & HM1 & Hag & Hf1 & Hn1). apply HQ; auto.
  - rewrite <- HM1. apply at_start, Hr1.
  - pose proof (moves_env _ _ _ _ Hm1) as E. injection E as E _. unfold ABINoPF. rewrite E. reflexivity.
Qed.

(** C3: [ADC] and [SBB]: the flags that wait are computed first and the carry is the
    one they define; the destination gets the sum or the difference with the carry,
    and the flags are those of the three-operand addition or subtraction, at every
    size, also for locked destinations in memory. *)
Theorem ADCOp_SBBOp_x86 `{Machine : IRMachine} b s e0 Op sub sz a c k F' M'
    (Hbegin : begins b s e0) (Hsize : sized Op sz) (Hcarry : carry_in e0 (Frame s) k)
    (Hsrc : source Op s (SrcOperand Op 0) sz c) (Hdest : source Op s (Dest Op) sz a)
    (Hresult : target Op s (Dest Op) sz (carry_result sub (8 * sz) a c (Z.b2z k)) F' M') :
  exists b' s', emits (_ ← carry_op sub Op; CalculateDeferredFlags) b s tt b' s' /\
    Mem s' = M' /\ composes (ABINoPF b) e0 (carry_flags sub (8 * sz) a c (Z.b2z k)) F' (Frame s').
Proof.
  pose proof (sized_1248 _ _ Hsize) as H1.
  assert (mwp (_ ← carry_op sub Op; CalculateDeferredFlags)
    (fun _ _ s' => Mem s' = M' /\ composes (ABINoPF b) e0 (carry_flags sub (8 * sz) a c (Z.b2z k)) F' (Frame s')) b s) as Hw.
  { rewrite carry_handler. apply mwp_bind_assoc, begins_calculate with (e0 := e0); [exact Hbegin|].
    intros b1 s1 Ha1 Hf1 HM1 Hag Hn1 _.
    destruct (source_after _ _ _ _ Hag HM1 _ _ _ _ H1 Hsrc) as [Hr He].
    destruct (target_after _ _ _ _ Hag HM1 _ _ _ _ _ _ H1 Hresult) as (F1 & Ht & Hag1).
    pose proof (source_after _ _ _ _ Hag HM1 _ _ _ _ H1 Hdest) as Hd.
    rewrite <- HM1 in Ha1. apply mwp_bind_assoc, mwp_bind.
    eapply mwp_LoadOperand; [exact Ha1|exact (sized_src _ _ Hsize)|exact H1|exact Hr|exact He|]. intro_node.
    apply mwp_bind_assoc. eapply mwp_read; [exact (sized_dst _ _ Hsize _)|].
    apply mwp_bind_assoc, mwp_bind. unfold GetRFLAG. by_rule wp_LoadFlag.
    { rewrite (at_frame _ _ _ _ _ _ Ha). apply rflag_byte, (carry_in_agrees _ _ _ _ _ Hag Hcarry). }
    replace (uint 8 (Z.b2z k)) with (Z.b2z k) in * by (destruct k; reflexivity).
    eapply mwp_mono; [eapply (mwp_carry_body sub Op); try eassumption; reflexivity|].
    cbn. intros _ b' s' _ [HM Hfl]. split; [exact HM|]. exists F1. rewrite <- Hn1. split; [rewrite Hn1; exact Hag1|exact Hfl]. }
  apply mwp_emits in Hw as ([] & b' & s' & Hem & HM & Hc). exists b', s'. auto.
Qed.

(** ** Without carry *)

Definition step_result (dec : bool) (w a : Z) : Z := uint w (if dec then a - 1 else a + 1).
Definition step_flags (dec : bool) (w a : Z) : flag_effect := keep_CF (if dec then x86_sub w a 1 0 else x86_add w a 1 0).

Section Step.
Context `{Machine : IRMachine} {b0 : OpDispatchBuilder} {s0 : IROpData}.

(** Both handlers with the comparison of the two cases factored out. *)
Lemma step_handler (dec : bool) Op :
  (if dec then DECOp Op else INCOp Op) =
  (if flag_set (OpFlags Op) FLAG_REP_PREFIX then set_DecodeFailure
   else
     Size ← GetSrcBitSize Op;
     OneConst ← _ConstantSized Size 1;
     Dest_ ← (if DestIsLockedMem Op then
         _ ← set_HandledLock true;
         DestAddress ← LoadAddress Op (Dest Op);
         s ← GetSrcSizeOf Op; AllocateOp (if dec then OP_ATOMICFETCHSUB else OP_ATOMICFETCHADD) s [OneConst; DestAddress]
       else LoadOperand Op (Dest Op));
     Result ← (if dec then _Sub else _Add) Dest_ OneConst;
     _ ← (if DestIsLockedMem Op then mret tt else StoreResult Op Result);
     Result ← (if Size <? 32 then _Bfe Size 0 Result else mret Result);
     (if dec then GenerateFlags_SUB else GenerateFlags_ADD) (OpFlags Op) Result Dest_ OneConst false).
Proof. destruct dec; reflexivity. Qed.

Lemma mwp_step_op (dec : bool) x y a sz F M b s (Q : NodeID -> OpDispatchBuilder -> IROpData -> Prop) :
  at_state b0 s0 F M b s -> val (emitter b) s x a sz -> val (emitter b) s y 1 sz ->
  gives (b0:=b0) (s0:=s0) F M (step_result dec (8 * Z.max 4 sz) a) (Z.max 4 sz) Q b s ->
  mwp ((if dec then _Sub else _Add) x y) Q b s.
Proof.
  intros Ha Hx Hy HQ. destruct dec; node; rewrite (Z.max_id sz) in *; apply HQ; assumption.
Qed.

Lemma mwp_step_tail (dec : bool) Op n d o a sz sz0 e0 F M b s :
  at_state b0 s0 F M b s -> sized Op sz -> flags_wf F -> operand_size sz0 -> pending b0 s0 sz0 e0 ->
  val (emitter b) s d a sz -> val (emitter b) s o 1 sz ->
  val (emitter b) s n (step_result dec (8 * Z.max 4 sz) a) (Z.max 4 sz) ->
  mwp (_ ← (Result ← (if sz * 8 <? 32 then _Bfe (sz * 8) 0 n else mret n);
            (if dec then GenerateFlags_SUB else GenerateFlags_ADD) (OpFlags Op) Result d o false); CalculateDeferredFlags)
      (fun _ _ s' => finished (b0:=b0) F M e0 (step_flags dec (8 * sz) a) s') b s.
Proof.
  intros Ha Hs Hf H0 Hp Hd Ho Hn. pose proof (sized_1248 _ _ Hs) as H1. pose proof (size_1248_bounds _ H1).
  apply mwp_bind_assoc, mwp_bind. eapply mwp_narrow_bits; [exact H1|exact Ha|exact Hn|].
  intros R kr b' s' Ha' Hr' HR Hk. shift_nodes Hr'.
  assert (operand b' s' sz R (uint (8 * sz) (if dec then a - 1 else a + 1))) as OR
    by (eapply operand_val; [exact HR|apply uint_range; lia|exact Hk]).
  assert (operand b' s' sz d a) as Od by (eapply operand_val; [exact Hd|apply Hd|lia]).
  assert (operand b' s' sz o 1) as Oo by (eapply operand_val; [exact Ho|apply Ho|lia]).
  destruct dec.
  - eapply (mwp_flags Op sz0 sz e0 _ (mkDeferred TYPE_SUB sz R (TwoSrcImmediate d o false)));
      [exact Ha'|exact Hf|exact H0|exact Hp|exact (sized_operand _ _ Hs)|exact (sized_src _ _ Hs)| |reflexivity].
    apply (meaning_SUB _ _ _ _ _ _ a 1 false); rewrite ?Z.sub_0_r; assumption.
  - eapply (mwp_flags Op sz0 sz e0 _ (mkDeferred TYPE_ADD sz R (TwoSrcImmediate d o false)));
      [exact Ha'|exact Hf|exact H0|exact Hp|exact (sized_operand _ _ Hs)|exact (sized_src _ _ Hs)| |reflexivity].
    apply (meaning_ADD _ _ _ _ _ _ a 1 false); rewrite ?Z.add_0_r; assumption.
Qed.

Lemma mwp_step (dec : bool) Op a sz sz0 e0 F' M' (b := b0) (s := s0) :
  ready b s -> flags_wf (Frame s) -> operand_size sz0 -> pending b s sz0 e0 -> sized Op sz ->
  flag_set (OpFlags Op) FLAG_REP_PREFIX = false ->
  source Op s (Dest Op) sz a -> target Op s (Dest Op) sz (step_result dec (8 * sz) a) F' M' ->
  mwp (_ ← (if dec then DECOp Op else INCOp Op); CalculateDeferredFlags)
      (fun _ _ s' => finished (b0:=b0) F' M' e0 (step_flags dec (8 * sz) a) s') b s.
Proof.
  intros Hrd Hf H0 Hp Hs Hrep Hda Ht. pose proof (at_start _ _ Hrd) as Ha.
  pose proof (sized_1248 _ _ Hs) as H1. pose proof (target_wf _ _ _ _ _ _ _ H1 Ht Hf) as Hf'.
  pose proof (size_1248_bounds _ H1).
  assert (uint (8 * sz) 1 = 1) as E1 by (apply uint_small; pose proof (Z.pow_le_mono_r 2 8 (8 * sz)); lia).
  assert (forall w, 8 * sz <= w -> uint (8 * sz) (step_result dec w a) = step_result dec (8 * sz) a) as Hw
    by (intros; unfold step_result; apply uint_uint; lia).
  rewrite step_handler, Hrep. apply mwp_bind_assoc. eapply mwp_read; [unfold GetSrcBitSize, mbind, M_bind; rewrite (sized_src _ _ Hs); reflexivity|].
  apply mwp_bind_assoc, mwp_bind. by_rule wp_ConstantSized. rewrite E1 in Hv. apply mwp_bind_assoc, mwp_bind.
  destruct (DestIsLockedMem Op) eqn:El.
  - apply andb_true_iff in El as [Em _]. apply negb_true_iff in Em.
    destruct (locked_memory _ _ _ _ _ _ _ _ Hda Ht Em) as (l & Hl & He & Hld & -> & ->).
    apply mwp_bind. eapply mwp_set_HandledLock; [eassumption|]. intro_state.
    apply mwp_bind. eapply mwp_LoadAddress; [eassumption|exact (sized_src _ _ Hs)|exact Hl|exact He|]. intros k. intro_node.
    eapply mwp_read; [exact (sized_src _ _ Hs _)|].
    eapply mwp_fetch with (f := if dec then Z.sub else Z.add);
      [eassumption|destruct dec; reflexivity|exact H1|eassumption|eassumption|exact Hld|]. intro_node.
    apply mwp_bind_assoc, mwp_bind. eapply mwp_step_op; [eassumption..|]. intro_node.
    apply mwp_bind_assoc. eapply mwp_read; [reflexivity|]. eapply mwp_step_tail; try eassumption.
    match goal with H : at_state _ _ _ (store _ _ _ ?v) ?b ?s |- at_state _ _ _ (store _ _ _ ?v') ?b ?s =>
      rewrite (store_same sz _ _ v' v); [exact H|exact H1|] end.
    rewrite E1. unfold step_result. rewrite uint_idemp. destruct dec; reflexivity.
  - destruct Hda as [Hd Hde].
    eapply mwp_LoadOperand; [eassumption|exact (sized_src _ _ Hs)|exact H1|exact Hd|exact Hde|]. intro_node.
    apply mwp_bind_assoc, mwp_bind. eapply mwp_step_op; [eassumption..|]. intro_node. apply mwp_bind_assoc, mwp_bind.
    eapply (target_uint _ _ _ _ _ (step_result dec (8 * Z.max 4 sz) a)) in Ht as [Hwr He]; [|exact H1|rewrite !Hw by lia; reflexivity].
    unfold StoreResult. eapply mwp_StoreResultTo; [eassumption|exact (sized_dst _ _ Hs)|exact H1|eassumption|exact Hwr|exact He|].
    intro_state. eapply mwp_step_tail; eassumption.
Qed.
End Step.

(** [INC] and [DEC] add and subtract one, set the flags of the addition or the
    subtraction and keep the carry that the instructions before left, pending or
    not; also for locked destinations in memory. *)
Theorem INCOp_DECOp_x86 `{Machine : IRMachine} b s e0 Op dec sz a F' M'
    (Hbegin : begins b s e0) (Hsize : sized Op sz) (Hrep : flag_set (OpFlags Op) FLAG_REP_PREFIX = false)
    (Hdest : source Op s (Dest Op) sz a) (Hresult : target Op s (Dest Op) sz (step_result dec (8 * sz) a) F' M') :
  exists b' s', emits (_ ← (if dec then DECOp Op else INCOp Op); CalculateDeferredFlags) b s tt b' s' /\
    Mem s' = M' /\ composes (ABINoPF b) e0 (step_flags dec (8 * sz) a) F' (Frame s').
Proof.
  destruct Hbegin as [Hr Hf (sz0 & H0 & Hp)].
  pose proof (mwp_step dec Op a sz sz0 e0 F' M' Hr Hf H0 Hp Hsize Hrep Hdest Hresult) as Hw.
  apply mwp_emits in Hw as ([] & b' & s' & Hem & HM & Hc). exists b', s'. auto.
Qed.
