(* ===== verification/ConditionTheorems.v ===== *)
(** * Comparisons and conditions: theorems

    [CMP] and [TEST] only record flags; [SETcc] and [CMOVcc] compute the flags that
    wait and decide by them. The comparison that a builder remembers for fused
    conditions is never used: computing flags forgets it. *)
From Stdlib Require Import ZArith Lia Bool.
From stdpp Require Import base gmap list numbers option.
From S2P Require Import Prelude IR ALUOps Atomic Interp IRSpec InterpRefines Machine Emitter EmitterLogic Flags FlagsSpec FlagsBlocks FlagsCorrect FlagsLazy FlagsExamples Dispatch DispatchALU DispatchMove X86Spec DispatchLogic OperandLogic ALUTheorems CarryTheorems.
#[local] Open Scope Z_scope.

(** ** The remembered comparison *)

(** The comparison is forgotten when [m] returns; it stays forgotten. *)
Definition forgets {A} (m : B A) : Prop := forall b a b', m b = Ok (a, b') -> flagsOp b' = Nothing.
Definition stays_forgotten {A} (m : B A) : Prop :=
  forall b a b', m b = Ok (a, b') -> flagsOp b = Nothing -> flagsOp b' = Nothing.

Lemma forgets_stays {A} (m : B A) : forgets m -> stays_forgotten m.
Proof. intros H b a b' E _. exact (H _ _ _ E). Qed.
Lemma quiet_stays {A} (m : B A) : quiet m -> stays_forgotten m.
Proof. intros H b a b' E Hn. pose proof (H _ _ _ E) as Hb. injection Hb as _ ->. exact Hn. Qed.

Lemma bind_Ok_M {A C} (m : B A) (f : A -> B C) b c b' :
  (m ≫= f) b = Ok (c, b') -> exists a b1, m b = Ok (a, b1) /\ f a b1 = Ok (c, b').
Proof.
  unfold mbind, M_bind. destruct (m b) as [[a b1]| |]; [|discriminate..]. intros H. exists a, b1. auto.
Qed.

Lemma forgets_last {A C} (m : B A) (f : A -> B C) : (forall a, forgets (f a)) -> forgets (m ≫= f).
Proof. intros H b c b' (a & b1 & _ & E)%bind_Ok_M. exact (H _ _ _ _ E). Qed.
Lemma forgets_first {A C} (m : B A) (f : A -> B C) :
  forgets m -> (forall a, stays_forgotten (f a)) -> forgets (m ≫= f).
Proof. intros H Hf b c b' (a & b1 & E1 & E2)%bind_Ok_M. exact (Hf _ _ _ _ E2 (H _ _ _ E1)). Qed.
Lemma stays_bind {A C} (m : B A) (f : A -> B C) :
  stays_forgotten m -> (forall a, stays_forgotten (f a)) -> stays_forgotten (m ≫= f).
Proof. intros H Hf b c b' (a & b1 & E1 & E2)%bind_Ok_M Hn. exact (Hf _ _ _ _ E2 (H _ _ _ E1 Hn)). Qed.

Lemma forgets_set_flagsOp : forgets (set_flagsOp Nothing).
Proof. intros b a b' H. injection H as _ <-. reflexivity. Qed.

Lemma forgets_SetRFLAG loc n : forgets (SetRFLAG loc n).
Proof.
  apply forgets_first; [apply forgets_set_flagsOp|]. intros []. apply quiet_stays. quiet.
Qed.

Lemma stays_SetRFLAG loc n : stays_forgotten (SetRFLAG loc n).
Proof. apply forgets_stays, forgets_SetRFLAG. Qed.
Lemma stays_get_builder : stays_forgotten get_builder.
Proof. intros b a b' H Hn. injection H as _ <-. exact Hn. Qed.
Lemma stays_fail {A} (o : outcome (A * OpDispatchBuilder)) : (forall x, o <> Ok x) -> stays_forgotten (fail o).
Proof. intros H b a b' E. destruct (H _ E). Qed.

Create HintDb forgets discriminated.
#[export] Hint Resolve forgets_SetRFLAG stays_SetRFLAG stays_get_builder : forgets.

Ltac stays :=
  repeat first
    [ solve [auto with forgets nocore]
    | solve [apply quiet_stays; quiet]
    | lazymatch goal with
      | |- stays_forgotten (_ ≫= _) => apply stays_bind; [|intros ?]
      | |- stays_forgotten (if ?c then _ else _) => destruct c
      | |- stays_forgotten (fail _) => apply stays_fail; discriminate
      | |- stays_forgotten ?m => let h := head_of m in unfold h
      end ].
Ltac forgets :=
  lazymatch goal with
  | |- forgets (SetRFLAG _ _) => apply forgets_SetRFLAG
  | |- forgets (_ ≫= _) =>
      first [ apply forgets_last; intros ?; forgets
            | apply forgets_first; [forgets|intros ?; stays] ]
  | |- forgets (if ?c then _ else _) => destruct c; forgets
  | |- forgets ?m => let h := head_of m in unfold h; cbv zeta; forgets
  end.

(** An immediate shift or rotation by zero changes no flag. *)
Definition zero_shift (d : DeferredFlagData) : bool :=
  match Sources d with OneSrcImmediate _ i => i =? 0 | _ => false end.

Lemma calculate_forgets d : zero_shift d = false -> forgets (calculate_switch d).
Proof.
  intros Hz. unfold calculate_switch, zero_shift in *.
  destruct (Type_ d), (Sources d); try (intros b a b' H; discriminate H);
    cbv beta iota;
    lazymatch goal with |- forgets ?m => let h := head_of m in unfold h; cbv zeta end;
    rewrite ?Hz; forgets.
Qed.

(** No comparison is remembered once the waiting flags are computed. *)
Definition unfused (b : OpDispatchBuilder) : Prop :=
  flagsOp b = Nothing \/ (IsDeferredFlagsStored b = false /\ zero_shift (CurrentDeferredFlags b) = false).

Lemma stays_InvalidateDeferredFlags : stays_forgotten InvalidateDeferredFlags.
Proof. intros b a b' H Hn. injection H as _ <-. exact Hn. Qed.

Lemma CalculateDeferredFlags_forgets b a b' :
  unfused b -> CalculateDeferredFlags b = Ok (a, b') -> flagsOp b' = Nothing.
Proof.
  intros Hu H. unfold CalculateDeferredFlags in H. apply bind_Ok_M in H as (b0 & b1 & E & H). injection E as <- <-.
  destruct (Type_ (CurrentDeferredFlags b)) eqn:Et.
  { injection H as _ <-. destruct Hu as [Hu|[Hu _]]; [exact Hu|]. unfold IsDeferredFlagsStored in Hu. rewrite Et in Hu. discriminate Hu. }
  all: apply bind_Ok_M in H as ([] & b2 & E & H); apply (stays_InvalidateDeferredFlags _ _ _ H).
  all: destruct (zero_shift (CurrentDeferredFlags b)) eqn:Ez; [|exact (calculate_forgets _ Ez _ _ _ E)].
  all: destruct Hu as [Hu|[_ Hu]]; [|congruence].
  all: revert E; unfold calculate_switch, zero_shift in *; rewrite Et;
    destruct (Sources (CurrentDeferredFlags b)); try discriminate Ez; try (intros E; discriminate E).
  all: lazymatch goal with |- ?m _ = _ -> _ => let h := head_of m in unfold h; try rewrite Ez; intros E end.
  all: first [injection E as <-; exact Hu | match type of E with ?m _ = _ => assert (stays_forgotten m) as Hst by stays end; exact (Hst _ _ _ E Hu)].
Qed.

(** ** Condition codes *)

(** The sixteen conditions of the architecture: eight tests, each with its negation. *)
Definition condition_of (cc : Z) (c p z s o : bool) : bool :=
  xorb (Z.odd cc)
    (if cc <? 2 then o else if cc <? 4 then c else if cc <? 6 then z else if cc <? 8 then c || z
     else if cc <? 10 then s else if cc <? 12 then p else if cc <? 14 then xorb s o else z || xorb s o).
Definition condition (cc : Z) (F : gmap Z Z) : option bool :=
  c ← rflag F RFLAG_CF_LOC; p ← rflag F RFLAG_PF_LOC; z ← rflag F RFLAG_ZF_LOC;
  s ← rflag F RFLAG_SF_LOC; o ← rflag F RFLAG_OF_LOC; Some (condition_of cc c p z s o).

Lemma flags_known F loc : flags_wf F -> In loc FlagOffsets -> exists x, rflag F loc = Some x.
Proof. unfold flags_wf. rewrite Forall_forall. intros H Hin. exact (H loc Hin). Qed.

Lemma condition_known cc F : flags_wf F -> exists v, condition cc F = Some v.
Proof.
  intros Hf. unfold condition.
  destruct (flags_known F RFLAG_CF_LOC Hf) as [c ->]; [cbn; tauto|]. destruct (flags_known F RFLAG_PF_LOC Hf) as [p ->]; [cbn; tauto|].
  destruct (flags_known F RFLAG_ZF_LOC Hf) as [z ->]; [cbn; tauto|]. destruct (flags_known F RFLAG_SF_LOC Hf) as [s ->]; [cbn; tauto|].
  destruct (flags_known F RFLAG_OF_LOC Hf) as [o ->]; [cbn; tauto|]. eexists. reflexivity.
Qed.

Section Conditions.
Context `{Machine : IRMachine} {b0 : OpDispatchBuilder} {s0 : IROpData}.
Implicit Types (F M : gmap Z Z) (b : OpDispatchBuilder) (s : IROpData).

Lemma mwp_GetRFLAG loc x F M b s Q :
  at_state b0 s0 F M b s -> rflag F loc = Some x -> gives (b0:=b0) (s0:=s0) F M (Z.b2z x) 1 Q b s ->
  mwp (GetRFLAG loc) Q b s.
Proof.
  intros Ha Hx HQ. unfold GetRFLAG. by_rule wp_LoadFlag.
  { rewrite (at_frame _ _ _ _ _ _ Ha). apply rflag_byte, Hx. }
  replace (uint 8 (Z.b2z x)) with (Z.b2z x) in * by (destruct x; reflexivity). apply HQ; assumption.
Qed.

Ltac flag := apply mwp_bind; eapply mwp_GetRFLAG; [eassumption|eassumption|]; intro_node.
Ltac choose_node := node; [reflexivity|].

Lemma mwp_SelectCC_flags cc v zn on t f vt vf kt kf F M b s Q :
  0 <= cc < 16 -> at_state b0 s0 F M b s -> condition cc F = Some v ->
  val (emitter b) s zn (uint 64 0) 8 -> val (emitter b) s on (uint 64 1) 8 -> val (emitter b) s t vt kt -> val (emitter b) s f vf kf ->
  gives (b0:=b0) (s0:=s0) F M (if v then vt else vf) (Z.max 4 (Z.max kt kf)) Q b s ->
  mwp (SelectCC_flags cc zn on t f) Q b s.
Proof.
  intros Hcc Ha Hc Hz Ho Ht Hf HQ. unfold condition in Hc.
  apply bind_Some in Hc as (fc & HC & Hc). apply bind_Some in Hc as (fp & HP & Hc). apply bind_Some in Hc as (fz & HZ & Hc).
  apply bind_Some in Hc as (fs & HS & Hc). apply bind_Some in Hc as (fo & HO & Hc). injection Hc as <-.
  assert (forall r n b' s', at_state b0 s0 F M b' s' -> reach (emitter b) s (emitter b') s' ->
    val (emitter b') s' n (if r : bool then vt else vf) (Z.max 4 (Z.max kt kf)) ->
    r = condition_of cc fc fp fz fs fo -> Q n b' s') as Hend by (intros r n b' s' H1 H2 H3 ->; exact (HQ n b' s' H1 H2 H3)).
  assert (cc = 0 \/ cc = 1 \/ cc = 2 \/ cc = 3 \/ cc = 4 \/ cc = 5 \/ cc = 6 \/ cc = 7 \/ cc = 8 \/ cc = 9 \/ cc = 10 \/
    cc = 11 \/ cc = 12 \/ cc = 13 \/ cc = 14 \/ cc = 15) as Hcases by lia. clear Hcc HQ.
  repeat (destruct Hcases as [->|Hcases]); try subst cc; unfold SelectCC_flags; cbn [Z.eqb Pos.eqb]; unfold select_flag.
  all: repeat flag.
  all: repeat first [choose_node|progress node].
  all: eapply Hend; [eassumption|eauto 10 using reach_trans|eassumption|].
  all: destruct fc, fp, fz, fs, fo; reflexivity.
Qed.

Lemma mwp_SelectCC cc v t f vt vf kt kf F M b s Q :
  flagsOp b0 = Nothing -> 0 <= cc < 16 -> at_state b0 s0 F M b s -> condition cc F = Some v ->
  val (emitter b) s t vt kt -> val (emitter b) s f vf kf ->
  gives (b0:=b0) (s0:=s0) F M (if v then vt else vf) (Z.max 4 (Z.max kt kf)) Q b s ->
  mwp (SelectCC cc t f) Q b s.
Proof.
  intros Hn Hcc Ha Hc Ht Hf HQ. unfold SelectCC. node. node. apply mwp_bind.
  eapply mwp_SelectCC_flags; [exact Hcc|eassumption..|]. intro_node.
  match goal with H : at_state _ _ _ _ ?b' _ |- _ => pose proof (at_flags _ _ _ _ _ _ H) as E; injection E as _ E end.
  eapply mwp_read; [reflexivity|]. cbv zeta. rewrite E, Hn.
  apply mwp_ret; [good_state|]. apply HQ; [assumption|eauto using reach_trans|assumption].
Qed.
End Conditions.

(** What a conditional instruction assumes: the conditions it can meet are known. *)
Lemma SelectCC_after `{Machine : IRMachine} b s e0 {A} (f : unit -> B A) Q :
  begins b s e0 -> unfused b ->
  (forall b1 s1, at_state b1 s1 (Frame s1) (Mem s) b1 s1 -> flags_wf (Frame s1) -> Mem s1 = Mem s ->
    agrees (no_PF (ABINoPF b) e0) (Frame s) (Frame s1) -> flagsOp b1 = Nothing -> mwp (f tt) Q b1 s1) ->
  mwp (CalculateDeferredFlags ≫= f) Q b s.
Proof.
  intros [Hr Hf (sz0 & H0 & Hp)] Hu HQ. pose proof (at_start _ _ Hr) as Ha. apply mwp_bind.
  pose proof (mwp_calculate _ _ _ _ _ _ Ha Hf H0 Hp) as Hw. unfold mwp in Hw |- *.
  destruct (CalculateDeferredFlags b) as [[[] b1]| |] eqn:E; try contradiction.
  destruct Hw as (s1 & Hm & Hr1 & _ & HM1 & Hag & Hf1 & _). exists s1. split; [exact Hm|].
  apply HQ; auto.
  - rewrite <- HM1. apply at_start, Hr1.
  - exact (CalculateDeferredFlags_forgets _ _ _ Hu E).
Qed.

(** C7: [SETcc] and [CMOVcc] decide by the condition that the architecture assigns to
    the code, on the flags that the instructions before left: [SETcc] stores it as a
    byte, [CMOVcc] stores one of its operands, and clears the upper half of a 64-bit
    register even when a 32-bit move does not happen. Nothing else changes. *)
Theorem SETccOp_CMOVOp_x86 `{Machine : IRMachine} b s e0 Op cmov sz a c Ft Mt Ff Mf
    (Hbegin : begins b s e0) (Hunfused : unfused b) (Hsize : sized Op sz)
    (Hsrc : if cmov : bool then source Op s (SrcOperand Op 0) sz c /\ source Op s (Dest Op) sz a else a = 0 /\ c = 1)
    (Htrue : target Op s (Dest Op) sz c Ft Mt) (Hfalse : target Op s (Dest Op) sz a Ff Mf) :
  exists b' s' F1 v, emits ((if cmov then CMOVOp else SETccOp) Op) b s tt b' s' /\
    agrees (no_PF (ABINoPF b) e0) (Frame s) F1 /\ condition (OP Op mod 16) F1 = Some v /\
    agrees (no_PF (ABINoPF b) e0) (if v then Ft else Ff) (Frame s') /\ Mem s' = (if v then Mt else Mf).
Proof.
  pose proof (sized_1248 _ _ Hsize) as H1. pose proof (size_1248_bounds _ H1).
  assert (Z.land (OP Op) 0xF = OP Op mod 16) as Ecc by (change 0xF with (Z.ones 4); rewrite Z.land_ones by lia; reflexivity).
  pose proof (Z.mod_pos_bound (OP Op) 16 ltac:(lia)) as Hcc.
  assert (mwp ((if cmov then CMOVOp else SETccOp) Op) (fun _ _ s' => exists F1 v,
    agrees (no_PF (ABINoPF b) e0) (Frame s) F1 /\ condition (OP Op mod 16) F1 = Some v /\
    agrees (no_PF (ABINoPF b) e0) (if v then Ft else Ff) (Frame s') /\ Mem s' = (if v then Mt else Mf)) b s) as Hw.
  { assert (forall b1 s1 v b2 s2 n r k, agrees (no_PF (ABINoPF b) e0) (Frame s) (Frame s1) -> Mem s1 = Mem s ->
      condition (OP Op mod 16) (Frame s1) = Some v -> at_state b1 s1 (Frame s1) (Mem s) b2 s2 ->
      val (emitter b2) s2 n r k -> r = (if v then c else a) ->
      mwp (StoreResult Op n) (fun _ _ s' => exists F1 v, agrees (no_PF (ABINoPF b) e0) (Frame s) F1 /\
        condition (OP Op mod 16) F1 = Some v /\
        agrees (no_PF (ABINoPF b) e0) (if v then Ft else Ff) (Frame s') /\ Mem s' = (if v then Mt else Mf)) b2 s2) as Hstore.
    { intros b1 s1 v b2 s2 n r k Hag HM1 Hc Ha Hv Er.
      assert (target Op s (Dest Op) sz r (if v then Ft else Ff) (if v then Mt else Mf)) as Ht by (rewrite Er; destruct v; assumption).
      destruct (target_after _ _ _ _ Hag HM1 _ _ _ _ _ _ H1 Ht) as (F1 & [Hwr He] & Hag1).
      rewrite <- HM1 in Ha. unfold StoreResult.
      eapply mwp_StoreResultTo; [exact Ha|exact (sized_dst _ _ Hsize)|exact H1|exact Hv|exact Hwr|exact He|].
      intros b3 s3 Ha3 _. exists (Frame s1), v. rewrite (at_frame _ _ _ _ _ _ Ha3), (at_mem _ _ _ _ _ _ Ha3). auto. }
    destruct cmov; unfold CMOVOp, SETccOp; rewrite Ecc; apply SelectCC_after with (e0 := e0); try assumption;
      intros b1 s1 Ha1 Hf1 HM1 Hag Hn1; destruct (condition_known (OP Op mod 16) _ Hf1) as [v Hv].
    - destruct Hsrc as [Hs1 Hs2].
      destruct (source_after _ _ _ _ Hag HM1 _ _ _ _ H1 Hs1) as [Hr He].
      destruct (source_after _ _ _ _ Hag HM1 _ _ _ _ H1 Hs2) as [Hrd Hed].
      rewrite <- HM1 in Ha1. apply mwp_bind.
      eapply mwp_LoadOperand; [exact Ha1|exact (sized_src _ _ Hsize)|exact H1|exact Hr|exact He|]. intro_node. apply mwp_bind.
      eapply mwp_LoadOperand; [eassumption|exact (sized_src _ _ Hsize)|exact H1|exact Hrd|exact Hed|]. intro_node. apply mwp_bind.
      eapply mwp_SelectCC; [exact Hn1|exact Hcc|eassumption|exact Hv|eassumption..|]. intro_node.
      eapply Hstore; [exact Hag|exact HM1|exact Hv|rewrite <- HM1; eassumption|eassumption|reflexivity].
    - destruct Hsrc as [-> ->]. node. node. apply mwp_bind.
      eapply mwp_SelectCC; [exact Hn1|exact Hcc|eassumption|exact Hv|eassumption..|]. intro_node.
      eapply Hstore; [exact Hag|exact HM1|exact Hv|eassumption|eassumption|destruct v; reflexivity]. }
  apply mwp_emits in Hw as ([] & b' & s' & Hem & F1 & v & H2 & H3 & H4 & H5). exists b', s', F1, v. auto.
Qed.

(** ** Comparisons *)

Definition compare_flags (test : bool) (w a c : Z) : flag_effect :=
  if test then x86_logical w (Z.land a c) else x86_sub w a c 0.

(** Remembering the comparison does not touch the flags that wait. *)
Lemma mwp_set_comparison `{Machine : IRMachine} b1 s1 sz e0 e F M nopf b s f n d x ds xs :
  at_state b1 s1 F M b s -> flags_wf F -> operand_size sz -> pending b1 s1 sz e -> ABINoPF b1 = nopf -> overwrites e = true ->
  mwp (_ ← set_comparison f n d x ds xs; CalculateDeferredFlags)
    (fun _ _ s' => Mem s' = M /\ composes nopf e0 e F (Frame s')) b s.
Proof.
  intros Ha Hf Hs Hp Hn Ho. unfold set_comparison. apply mwp_bind.
  set (g := fun b => mkBuilder _ _ _ _ _ _ _ _ _ _ _ _ _).
  assert (moves b s (g b) s) as Hm by (constructor; [apply reach_refl|exact (at_good _ _ _ _ Ha)|reflexivity]).
  exists s. split; [exact Hm|].
  assert (at_state (g b) s F M (g b) s) as Ha'.
  { rewrite <- (at_frame _ _ _ _ _ _ Ha), <- (at_mem _ _ _ _ _ _ Ha). apply at_start.
    exact (ready_moves _ _ _ _ (at_ready _ _ _ _ _ _ Ha) Hm). }
  apply (mwp_finish (g b) s sz); [exact Ha'|exact Hf|exact Hs| | |exact Ho].
  - eapply pending_reach; [apply Hm|reflexivity|]. exact (at_pending _ _ _ _ _ _ Ha Hp).
  - rewrite <- Hn. exact (at_ABINoPF _ _ _ _ Ha).
Qed.

Lemma compare_overwrites test w a c : overwrites (compare_flags test w a c) = true.
Proof. destruct test; reflexivity. Qed.

Section Compare.
Context `{Machine : IRMachine} {b0 : OpDispatchBuilder} {s0 : IROpData}.
Variables (Op : DecodedInst) (sz : Z).
Hypothesis Hsize : sized Op sz.

Lemma mwp_TEST i a c b s F M e0 :
  at_state b0 s0 F M b s -> flags_wf F -> read_operand Op F M (SrcOperand Op i) sz = Some c -> address_exact Op (SrcOperand Op i) = true ->
  read_operand Op F M (Dest Op) sz = Some a -> address_exact Op (Dest Op) = true ->
  mwp (_ ← TESTOp i Op; CalculateDeferredFlags)
    (fun _ _ s' => Mem s' = M /\ composes (ABINoPF b0) e0 (compare_flags true (8 * sz) a c) F (Frame s')) b s.
Proof.
  intros Ha Hf Hc Hce Hd Hde. pose proof (sized_1248 _ _ Hsize) as H1. pose proof (size_1248_bounds _ H1).
  pose proof (alu_result_range ALU_AND sz a c H1 (read_operand_range _ _ _ _ _ _ H1 Hd) (read_operand_range _ _ _ _ _ _ H1 Hc)) as Hr.
  unfold TESTOp. apply mwp_bind_assoc, mwp_bind.
  eapply mwp_LoadOperand; [exact Ha|exact (sized_src _ _ Hsize)|exact H1|exact Hc|exact Hce|]. intro_node.
  apply mwp_bind_assoc, mwp_bind.
  eapply mwp_LoadOperand; [eassumption|exact (sized_src _ _ Hsize)|exact H1|exact Hd|exact Hde|]. intro_node.
  apply mwp_bind_assoc, mwp_bind. node. apply mwp_bind_assoc.
  eapply (mwp_record Op sz (mkDeferred TYPE_LOGICAL sz _ (TwoSource _ _)));
    [eassumption|exact (sized_src _ _ Hsize)| |reflexivity|reflexivity|reflexivity|].
  { apply (meaning_LOGICAL _ _ _ _ _ _ (Z.land a c)). eapply operand_val; [eassumption|exact Hr|lia]. }
  intros bc Hbc _ Hpc Hnc Ho. apply mwp_bind_assoc. eapply mwp_read; [exact (sized_dst _ _ Hsize _)|].
  apply mwp_bind_assoc. eapply mwp_read; [reflexivity|].
  eapply mwp_set_comparison; [exact Hbc|exact Hf|exact (sized_operand _ _ Hsize)|exact Hpc|exact Hnc|exact Ho].
Qed.

Lemma mwp_CMP i a c b s F M e0 :
  at_state b0 s0 F M b s -> flags_wf F -> read_operand Op F M (SrcOperand Op i) sz = Some c -> address_exact Op (SrcOperand Op i) = true ->
  read_operand Op F M (Dest Op) sz = Some a -> address_exact Op (Dest Op) = true ->
  mwp (_ ← CMPOp i Op; CalculateDeferredFlags)
    (fun _ _ s' => Mem s' = M /\ composes (ABINoPF b0) e0 (compare_flags false (8 * sz) a c) F (Frame s')) b s.
Proof.
  intros Ha Hf Hc Hce Hd Hde. pose proof (sized_1248 _ _ Hsize) as H1. pose proof (size_1248_bounds _ H1).
  pose proof (read_operand_range _ _ _ _ _ _ H1 Hd) as Hza. pose proof (read_operand_range _ _ _ _ _ _ H1 Hc) as Hzc.
  unfold CMPOp. apply mwp_bind_assoc, mwp_bind.
  eapply mwp_LoadOperand; [exact Ha|exact (sized_src _ _ Hsize)|exact H1|exact Hc|exact Hce|]. intro_node.
  apply mwp_bind_assoc, mwp_bind.
  eapply mwp_LoadOperand; [eassumption|exact (sized_src _ _ Hsize)|exact H1|exact Hd|exact Hde|]. intro_node.
  apply mwp_bind_assoc. eapply mwp_read; [exact (sized_dst _ _ Hsize _)|].
  apply mwp_bind_assoc, mwp_bind. node. apply mwp_bind_assoc, mwp_bind.
  replace (Z.max 4 (Z.max sz sz)) with (Z.max 4 sz) in * by lia.
  eapply mwp_narrow; [exact H1|eassumption|eassumption| |reflexivity]. intros R k b' s' Ha' Hr' HR Hk. shift_nodes Hr'.
  apply mwp_bind_assoc.
  eapply (mwp_record Op sz (mkDeferred TYPE_SUB sz _ (TwoSrcImmediate _ _ true)));
    [eassumption|exact (sized_src _ _ Hsize)| |reflexivity|reflexivity|reflexivity|].
  { eapply (meaning_SUB _ _ _ _ _ _ a c true); [rewrite Z.sub_0_r; eapply operand_val; [exact HR|apply uint_range; lia|exact Hk]|
      eapply operand_val; [eassumption|exact Hza|lia]|eapply operand_val; [eassumption|exact Hzc|lia]]. }
  intros bc Hbc Hrc Hpc Hnc Ho. shift_nodes Hrc.
  destruct (Z.leb_spec 4 sz).
  - eapply mwp_set_comparison; [exact Hbc|exact Hf|exact (sized_operand _ _ Hsize)|exact Hpc|exact Hnc|exact Ho].
  - unfold _Sext. apply mwp_bind_assoc, mwp_bind. by_rule wp_Sbfe; [lia|lia|lia|].
    apply mwp_bind_assoc, mwp_bind. by_rule wp_Sbfe; [lia|lia|lia|].
    eapply mwp_set_comparison; [eassumption|exact Hf|exact (sized_operand _ _ Hsize)|exact Hpc|exact Hnc|exact Ho].
Qed.
End Compare.

(** C17: [CMP] and [TEST] leave registers and memory alone, and the flags are those of
    the subtraction and of the conjunction. *)
Theorem CMPOp_TESTOp_x86 `{Machine : IRMachine} b s e0 Op (test : bool) i sz a c
    (Hbegin : begins b s e0) (Hsize : sized Op sz)
    (Hsrc : source Op s (SrcOperand Op i) sz c) (Hdest : source Op s (Dest Op) sz a) :
  exists b' s', emits (_ ← (if test then TESTOp i Op else CMPOp i Op); CalculateDeferredFlags) b s tt b' s' /\
    Mem s' = Mem s /\ composes (ABINoPF b) e0 (compare_flags test (8 * sz) a c) (Frame s) (Frame s').
Proof.
  destruct Hbegin as [Hr Hf (sz0 & H0 & Hp)]. pose proof (at_start _ _ Hr) as Ha.
  destruct Hsrc as [Hc Hce], Hdest as [Hd Hde].
  assert (mwp (_ ← (if test then TESTOp i Op else CMPOp i Op); CalculateDeferredFlags)
    (fun _ _ s' => Mem s' = Mem s /\ composes (ABINoPF b) e0 (compare_flags test (8 * sz) a c) (Frame s) (Frame s')) b s) as Hw
    by (destruct test; [eapply mwp_TEST|eapply mwp_CMP]; eassumption).
  apply mwp_emits in Hw as ([] & b' & s' & Hem & HM & Hfl). exists b', s'. auto.
Qed.
