(* ===== verification/MoveTheorems.v ===== *)
(** * Moves and exchanges: theorems

    Instructions that do not touch the flags: the guest's registers and memory after
    them are exactly those of the architecture, and the flags that wait still wait,
    so that the next instruction begins where this one ended. *)
From Stdlib Require Import ZArith Lia Bool.
From stdpp Require Import base gmap list numbers option.
From S2P Require Import Prelude IR ALUOps Atomic Interp IRSpec InterpRefines Machine Emitter EmitterLogic Flags FlagsSpec FlagsBlocks FlagsCorrect FlagsLazy FlagsExamples Dispatch DispatchALU DispatchMove DispatchStack X86Spec DispatchLogic OperandLogic ALUTheorems.
#[local] Open Scope Z_scope.

(** ** The end of an instruction without flags *)

Section Ends.
Context `{Machine : IRMachine} {b0 : OpDispatchBuilder} {s0 : IROpData}.
Implicit Types (F M : gmap Z Z) (b : OpDispatchBuilder) (s : IROpData).

Definition ends (e0 : flag_effect) F M (_ : unit) b s : Prop := Frame s = F /\ Mem s = M /\ begins b s e0.

Lemma begins_at e0 F M b s : begins b0 s0 e0 -> at_state b0 s0 F M b s -> flags_wf F -> begins b s e0.
Proof.
  intros [_ _ (sz0 & H0 & Hp)] Ha Hf. constructor; [apply Ha|rewrite (at_frame _ _ _ _ _ _ Ha); exact Hf|].
  exists sz0. split; [exact H0|]. exact (at_pending _ _ _ _ _ _ Ha Hp).
Qed.

Lemma ends_at e0 F M b s : begins b0 s0 e0 -> at_state b0 s0 F M b s -> flags_wf F -> ends e0 F M tt b s.
Proof. intros Hb Ha Hf. split; [apply Ha|]. split; [apply Ha|]. exact (begins_at _ _ _ _ _ Hb Ha Hf). Qed.

Lemma mwp_end_store e0 Op o n v k sz t F M F' M' b s :
  begins b0 s0 e0 -> at_state b0 s0 F M b s -> flags_wf F -> size_1248 sz = true -> val (emitter b) s n v k ->
  write_operand Op F M o sz v = Some (F', M') -> address_exact Op o = true ->
  mwp (StoreResult_WithOpSize Op o n sz t) (ends e0 F' M') b s.
Proof.
  intros Hb Ha Hf Hs Hv Hw He. eapply mwp_StoreResult_WithOpSize; [eassumption..|].
  intros b' s' Ha' _. apply ends_at; [exact Hb|exact Ha'|].
  eapply flags_wf_ext; [|exact Hf]. intros a. eapply write_operand_outside; eassumption.
Qed.
End Ends.

(** ** Moves *)

(** The handlers that move a value to the destination: what they store, at which size. *)
Inductive move_instruction (Op : DecodedInst) (s : IROpData) : B unit -> Z -> Z -> Prop :=
  | move_MOV i sz v : sized Op sz -> source Op s (SrcOperand Op i) sz v -> move_instruction Op s (MOVGPROp i Op) sz v
  | move_MOVNT sz v : sized Op sz -> source Op s (SrcOperand Op 0) sz v -> move_instruction Op s (MOVGPRNTOp Op) sz v
  | move_MOVZX sz ssz v : (forall b, GetSrcSizeOf Op b = Ok (ssz, b)) -> size_1248 ssz = true ->
      (forall b, GetDstSize Op b = Ok (sz, b)) -> source Op s (SrcOperand Op 0) ssz v ->
      move_instruction Op s (MOVZXOp Op) sz v
  | move_MOVSX sz ssz v : (forall b, GetSrcSizeOf Op b = Ok (ssz, b)) -> size_1248 ssz = true ->
      (forall b, GetDstSize Op b = Ok (sz, b)) -> source Op s (SrcOperand Op 0) ssz v ->
      move_instruction Op s (MOVSXOp Op) sz (sint (8 * ssz) v)
  | move_CQO sz v : sized Op sz -> source Op s (SrcOperand Op 0) sz v ->
      move_instruction Op s (CQOOp Op) sz (if msb (8 * sz) v then -1 else 0)
  | move_LEA sz a : (exists n, forall b, GetSrcSizeOf Op b = Ok (n, b)) ->
      sz = (if GetOpAddr (OpFlags Op) 0 =? FLAG_OPERAND_SIZE_LAST then 2
            else if GetOpAddr (OpFlags Op) 0 =? FLAG_WIDENING_SIZE_LAST then 8 else 4) ->
      in_memory (SrcOperand Op 0) = true -> address_exact Op (SrcOperand Op 0) = true ->
      effective_address Op (Frame s) (SrcOperand Op 0) = Some a -> move_instruction Op s (LEAOp Op) sz a.

Section Moves.
Context `{Machine : IRMachine}.

Lemma mwp_LEA Op a sz e0 F' M' b s :
  begins b s e0 -> (exists n, forall b, GetSrcSizeOf Op b = Ok (n, b)) ->
  sz = (if GetOpAddr (OpFlags Op) 0 =? FLAG_OPERAND_SIZE_LAST then 2
        else if GetOpAddr (OpFlags Op) 0 =? FLAG_WIDENING_SIZE_LAST then 8 else 4) ->
  size_1248 sz = true -> in_memory (SrcOperand Op 0) = true -> address_exact Op (SrcOperand Op 0) = true ->
  effective_address Op (Frame s) (SrcOperand Op 0) = Some a -> target Op s (Dest Op) sz a F' M' ->
  mwp (LEAOp Op) (ends e0 F' M') b s.
Proof.
  intros Hb [n Hn] Hsz Hs Hm He Ha [Hw Hde]. pose proof (at_start _ _ (begins_ready _ _ _ Hb)) as Hat.
  unfold LEAOp. eapply mwp_read; [reflexivity|]. rewrite (ready_64 _ _ (begins_ready _ _ _ Hb)). cbv zeta. rewrite <- Hsz.
  eapply mwp_read; [apply Hn|]. unfold LoadSource_WithOpSize. apply mwp_bind_assoc. eapply mwp_read; [reflexivity|].
  unfold effective_address in Ha. apply fmap_Some in Ha as (x & Hx & ->).
  assert (mwp (n ← OperandAddress Op (SrcOperand Op 0); StoreResult_WithOpSize Op (Dest Op) n sz ACCESS_DEFAULT) (ends e0 F' M') b s) as H.
  { apply mwp_bind. eapply mwp_OperandAddress; [exact Hat|exact Hx|exact He|]. intros k. intro_node.
    eapply mwp_end_store; [exact Hb|eassumption|apply (begins_flags _ _ _ Hb)|exact Hs|eassumption|exact Hw|exact Hde]. }
  apply mwp_bind_assoc. destruct (SrcOperand Op 0); try discriminate Hm; exact H.
Qed.

Lemma mwp_move Op handler sz v e0 F' M' b s :
  begins b s e0 -> move_instruction Op s handler sz v -> size_1248 sz = true -> target Op s (Dest Op) sz v F' M' ->
  mwp handler (ends e0 F' M') b s.
Proof.
  intros Hb Hm Hs Ht. pose proof (at_start _ _ (begins_ready _ _ _ Hb)) as Ha. pose proof (begins_flags _ _ _ Hb) as Hf.
  assert (forall b1 s1 n v' k t, at_state b s (Frame s) (Mem s) b1 s1 -> val (emitter b1) s1 n v' k ->
    uint (8 * sz) v' = uint (8 * sz) v -> mwp (StoreResult_WithOpSize Op (Dest Op) n sz t) (ends e0 F' M') b1 s1) as Hend.
  { intros b1 s1 n v' k t Ha1 Hv E. destruct (target_uint _ _ _ _ _ v' _ _ Hs (eq_sym E) Ht) as [Hw He].
    eapply mwp_end_store; eassumption. }
  destruct Hm as [i sz v Hsz [Hr He]|sz v Hsz [Hr He]|sz ssz v Hss H1 Hds [Hr He]|sz ssz v Hss H1 Hds [Hr He]|sz v Hsz [Hr He]|].
  - apply mwp_bind. eapply mwp_LoadOperand; [exact Ha|exact (sized_src _ _ Hsz)|exact Hs|exact Hr|exact He|]. intro_node.
    unfold StoreResult, StoreResultTo. eapply mwp_read; [exact (sized_dst _ _ Hsz _)|]. eapply Hend; [eassumption..|reflexivity].
  - apply mwp_bind. eapply mwp_LoadOperand; [exact Ha|exact (sized_src _ _ Hsz)|exact Hs|exact Hr|exact He|]. intro_node.
    eapply mwp_read; [exact (sized_dst _ _ Hsz _)|]. eapply Hend; [eassumption..|reflexivity].
  - apply mwp_bind. eapply mwp_LoadOperand; [exact Ha|exact Hss|exact H1|exact Hr|exact He|]. intro_node.
    unfold StoreResult, StoreResultTo. eapply mwp_read; [apply Hds|]. eapply Hend; [eassumption..|reflexivity].
  - unfold MOVSXOp. eapply mwp_read; [apply Hss|]. apply mwp_bind. pose proof (size_1248_bounds _ H1). pose proof (size_1248_bounds _ Hs).
    eapply mwp_LoadOperand; [exact Ha|exact Hss|exact H1|exact Hr|exact He|]. intro_node.
    apply mwp_bind. by_rule wp_Sbfe; [lia|lia|lia|]. rewrite Z.pow_0_r, Z.div_1_r in *.
    unfold StoreResult, StoreResultTo. eapply mwp_read; [apply Hds|]. eapply Hend; [eassumption..|].
    replace (ssz * 8) with (8 * ssz) by lia. apply uint_uint. lia.
  - unfold CQOOp. apply mwp_bind. pose proof (size_1248_bounds _ Hs).
    eapply mwp_LoadOperand; [exact Ha|exact (sized_src _ _ Hsz)|exact Hs|exact Hr|exact He|]. intro_node.
    eapply mwp_read; [exact (sized_src _ _ Hsz _)|]. apply mwp_bind. by_rule wp_Sbfe; [lia|lia|lia|]. rewrite sint_bit in * by lia.
    unfold StoreResult, StoreResultTo. eapply mwp_read; [exact (sized_dst _ _ Hsz _)|]. eapply Hend; [eassumption..|].
    unfold msb. replace (sz * 8 - 1) with (8 * sz - 1) by lia. apply uint_uint. lia.
  - eapply mwp_LEA; eassumption.
Qed.
End Moves.

(** C15: [MOV], [MOVNTI], [MOVZX], [MOVSX], [CQO] and [LEA] store the architectural
    value and change nothing else; the flags that waited still wait. *)
Theorem move_x86 `{Machine : IRMachine} b s e0 Op handler sz v F' M'
    (Hbegin : begins b s e0) (Hmove : move_instruction Op s handler sz v) (Hsz : size_1248 sz = true)
    (Hresult : target Op s (Dest Op) sz v F' M') :
  exists b' s', emits handler b s tt b' s' /\ Frame s' = F' /\ Mem s' = M' /\ begins b' s' e0.
Proof.
  destruct (mwp_emits _ _ _ _ (mwp_move _ _ _ _ _ _ _ _ _ Hbegin Hmove Hsz Hresult)) as ([] & b' & s' & He & H1 & H2 & H3).
  exists b', s'. exact (conj He (conj H1 (conj H2 H3))).
Qed.

(** ** Exchanges *)

