(* ===== verification/StackTheorems.v ===== *)
(** * The stack, calls and returns: theorems

    Pushes and pops, and the composition of a call with the return from it. *)
From Stdlib Require Import ZArith Lia Bool.
From stdpp Require Import base gmap list numbers option.
From S2P Require Import Prelude IR ALUOps Atomic Interp IRSpec InterpRefines Machine Emitter EmitterLogic Flags FlagsSpec FlagsBlocks FlagsCorrect FlagsLazy FlagsExamples Dispatch DispatchALU DispatchMove DispatchStack X86Spec DispatchLogic OperandLogic ALUTheorems MoveTheorems.
#[local] Open Scope Z_scope.

(** ** The stack pointer *)

Definition set_RSP (F : gmap Z Z) (sp : Z) : gmap Z Z := store 8 F RSPOffset sp.
Definition set_RIP (F : gmap Z Z) (rip : Z) : gmap Z Z := store 8 F RIP_OFFSET rip.

Lemma RSP_load F sp : reg F REG_RSP = Some sp <-> load 8 F RSPOffset = Some sp.
Proof. reflexivity. Qed.

Lemma set_RSP_outside F sp a : 136 <= a -> set_RSP F sp !! a = F !! a.
Proof. intros. apply store_frame. right. cbn. unfold RSPOffset, GPROffset, gregs, GREGS_OFFSET, REG_RSP. lia. Qed.

Lemma RSP_after F sp : reg (set_RSP F sp) REG_RSP = Some (uint 64 sp).
Proof. exact (load_store_same 8 F RSPOffset sp). Qed.

Lemma RSP_after_RIP F rip : reg (set_RIP F rip) REG_RSP = reg F REG_RSP.
Proof. apply (load_store_other 8 8 F RIP_OFFSET RSPOffset rip). right. vm_compute. discriminate. Qed.

Section Stack.
Context `{Machine : IRMachine} {b0 : OpDispatchBuilder} {s0 : IROpData}.
Implicit Types (F M : gmap Z Z) (b : OpDispatchBuilder) (s : IROpData).

Lemma mwp_push_value n v k sz sp F M b s Q :
  at_state b0 s0 F M b s -> size_1248 sz = true -> val (emitter b) s n v k -> reg F REG_RSP = Some sp ->
  is_Some (load (bytes sz) M (uint 64 (sp - sz))) ->
  sets_state (b0:=b0) (s0:=s0) (set_RSP F (uint 64 (sp - sz))) (store (bytes sz) M (uint 64 (sp - sz)) v) Q b s ->
  mwp (push_value 8 sz n) Q b s.
Proof.
  intros Ha Hs Hv Hsp Hm HQ. unfold push_value. pose proof (size_1248_bounds _ Hs).
  assert (uint 64 sz = sz) as Esz by (apply uint_small; lia).
  node. apply mwp_bind. eapply mwp_LoadContext; [eassumption|reflexivity|exact Hsp|]. intro_node.
  node. apply mwp_bind. eapply mwp_StoreContext; [eassumption|eassumption|]. intro_state.
  rewrite Esz in *. change (8 * Z.max 4 (Z.max 8 8)) with 64 in *.
  refine (mwp_Store false sz _ n _ v _ _ Q _ _ _ _ _ Hs _ _ Hm _); [eassumption..|].
  intro_state. apply HQ; [assumption|eauto 10 using reach_trans].
Qed.

Lemma mwp_pop_value sz v sp F M b s (Q : NodeID -> OpDispatchBuilder -> IROpData -> Prop) :
  at_state b0 s0 F M b s -> size_1248 sz = true -> reg F REG_RSP = Some sp -> load (bytes sz) M sp = Some v ->
  gives (b0:=b0) (s0:=s0) (set_RSP F (uint 64 (sp + sz))) M v sz Q b s ->
  mwp (pop_value 8 sz) Q b s.
Proof.
  intros Ha Hs Hsp Hl HQ. unfold pop_value. pose proof (size_1248_bounds _ Hs).
  assert (uint 64 sz = sz) as Esz by (apply uint_small; lia).
  node. apply mwp_bind. eapply mwp_LoadContext; [eassumption|reflexivity|exact Hsp|]. intro_node.
  apply mwp_bind. refine (mwp_Load false sz _ sp _ v _ _ _ _ _ _ Hs _ Hl _); [eassumption..|]. intro_node.
  node. apply mwp_bind. eapply mwp_StoreContext; [eassumption|eassumption|]. intro_state.
  rewrite Esz in *. change (8 * Z.max 4 (Z.max 8 8)) with 64 in *.
  apply mwp_ret; [good_state|]. apply HQ; [assumption|eauto 10 using reach_trans|assumption].
Qed.
End Stack.

(** ** Pushes and pops *)

(** The handlers that push an operand. *)
Inductive push_instruction (Op : DecodedInst) : B unit -> DecodedOperand -> Prop :=
  | push_operand : push_instruction Op (PUSHOp Op) (SrcOperand Op 0)
  | push_register : push_instruction Op (PUSHREGOp Op) (Dest Op).

Lemma mwp_push `{Machine : IRMachine} Op handler o sz v sp e0 b s :
  begins b s e0 -> push_instruction Op handler o -> size_1248 sz = true -> (forall b, GetSrcSizeOf Op b = Ok (sz, b)) ->
  source Op s o sz v -> reg (Frame s) REG_RSP = Some sp -> is_Some (load (bytes sz) (Mem s) (uint 64 (sp - sz))) ->
  mwp handler (ends e0 (set_RSP (Frame s) (uint 64 (sp - sz))) (store (bytes sz) (Mem s) (uint 64 (sp - sz)) v)) b s.
Proof.
  intros Hb Hp Hs Hsz [Hr He] Hsp Hm. pose proof (at_start _ _ (begins_ready _ _ _ Hb)) as Ha.
  assert (mwp (Size ← GetSrcSizeOf Op; GPRSize ← GetGPRSize; Src_ ← LoadOperand Op o; push_value GPRSize Size Src_)
    (ends e0 (set_RSP (Frame s) (uint 64 (sp - sz))) (store (bytes sz) (Mem s) (uint 64 (sp - sz)) v)) b s) as Hw.
  { eapply mwp_read; [apply Hsz|]. eapply mwp_read; [exact (GetGPRSize_64 _ _ _ _ Ha)|]. apply mwp_bind.
    eapply mwp_LoadOperand; [exact Ha|exact Hsz|exact Hs|exact Hr|exact He|]. intro_node.
    eapply mwp_push_value; [eassumption|exact Hs|eassumption|exact Hsp|exact Hm|]. intros b' s' Ha' _.
    eapply ends_at; [exact Hb|exact Ha'|]. eapply flags_wf_ext; [|exact (begins_flags _ _ _ Hb)].
    intros a. apply set_RSP_outside. }
  destruct Hp; exact Hw.
Qed.

Lemma mwp_pop `{Machine : IRMachine} Op sz v sp F' M' e0 b s :
  begins b s e0 -> sized Op sz -> reg (Frame s) REG_RSP = Some sp -> load (bytes sz) (Mem s) sp = Some v ->
  write_operand Op (set_RSP (Frame s) (uint 64 (sp + sz))) (Mem s) (Dest Op) sz v = Some (F', M') ->
  address_exact Op (Dest Op) = true -> mwp (POPOp Op) (ends e0 F' M') b s.
Proof.
  intros Hb Hs Hsp Hl Hw He. pose proof (at_start _ _ (begins_ready _ _ _ Hb)) as Ha. pose proof (sized_1248 _ _ Hs) as H1.
  unfold POPOp. eapply mwp_read; [exact (sized_src _ _ Hs _)|]. eapply mwp_read; [exact (GetGPRSize_64 _ _ _ _ Ha)|].
  apply mwp_bind. eapply mwp_pop_value; [exact Ha|exact H1|exact Hsp|exact Hl|]. intro_node.
  unfold StoreResult, StoreResultTo. eapply mwp_read; [exact (sized_dst _ _ Hs _)|].
  eapply mwp_end_store; [exact Hb|eassumption| |exact H1|eassumption|exact Hw|exact He].
  eapply flags_wf_ext; [|exact (begins_flags _ _ _ Hb)]. intros a. apply set_RSP_outside.
Qed.

(** C14: [PUSH] moves the stack pointer down by the operand size and stores the operand
    there, as it was before the stack pointer moved; the [POP] that follows restores
    the stack pointer and stores the same value in its destination, which may use the
    restored stack pointer in its address, or be it. *)
Theorem PUSH_POP_x86 `{Machine : IRMachine} b s e0 Op handler o Op' sz v sp F' M'
    (Hbegin : begins b s e0) (Hpush : push_instruction Op handler o) (Hsz : size_1248 sz = true)
    (Hsize : forall b, GetSrcSizeOf Op b = Ok (sz, b)) (Hsize' : sized Op' sz)
    (Hsrc : source Op s o sz v) (Hsp : reg (Frame s) REG_RSP = Some sp)
    (Hmapped : is_Some (load (bytes sz) (Mem s) (uint 64 (sp - sz))))
    (Hdest : write_operand Op' (set_RSP (Frame s) sp) (store (bytes sz) (Mem s) (uint 64 (sp - sz)) v) (Dest Op') sz v = Some (F', M'))
    (Hexact : address_exact Op' (Dest Op') = true) :
  exists b' s', emits (_ ← handler; POPOp Op') b s tt b' s' /\ Frame s' = F' /\ Mem s' = M' /\ begins b' s' e0.
Proof.
  assert (mwp (_ ← handler; POPOp Op') (ends e0 F' M') b s) as Hw.
  { apply mwp_bind. eapply mwp_mono; [exact (mwp_push _ _ _ _ _ _ _ _ _ Hbegin Hpush Hsz Hsize Hsrc Hsp Hmapped)|].
    intros [] b1 s1 _ (HF & HM & Hb1).
    assert (0 <= sp < 2 ^ 64) as Hr by exact (load_zext 8 _ _ _ eq_refl (proj1 (RSP_load _ _) Hsp)).
    pose proof (read_operand_range _ _ _ _ _ _ Hsz (proj1 Hsrc)) as Hzv.
    pose proof (size_1248_bounds _ Hsz).
    refine (mwp_pop Op' sz v (uint 64 (sp - sz)) F' M' e0 b1 s1 Hb1 Hsize' _ _ _ Hexact).
    - rewrite HF, RSP_after. f_equal. apply uint_idemp.
    - rewrite HM, load_store_same, size_1248_bytes by exact Hsz. f_equal. apply uint_small, Hzv.
    - rewrite HF, HM. unfold set_RSP at 1 2. rewrite store_store. rewrite <- Hdest. f_equal.
      unfold set_RSP. f_equal. rewrite <- uint_add, uint_idemp, uint_add.
      replace (sp - sz + sz) with sp by lia. apply uint_small, Hr. }
  destruct (mwp_emits _ _ _ _ Hw) as ([] & b' & s' & He & H2 & H3 & H4). exists b', s'. exact (conj He (conj H2 (conj H3 H4))).
Qed.

(** ** Calls and returns *)

(** The address of the instruction that follows. *)
Definition next_PC (Op : DecodedInst) : Z := uint 64 (PC Op + InstSize Op).

Section Calls.
Context `{Machine : IRMachine}.

(** The waiting flags are computed; the rest of the block begins after them. *)
Lemma mwp_LeaveFlags f e0 (Q : unit -> OpDispatchBuilder -> IROpData -> Prop) b s :
  begins b s e0 -> ABILocalFlags (CTX b) = false ->
  (forall F1 b1 s1, at_state b1 s1 F1 (Mem s) b1 s1 -> agrees (no_PF (ABINoPF b) e0) (Frame s) F1 -> mwp (f tt) Q b1 s1) ->
  mwp (LeaveFlags ≫= f) Q b s.
Proof.
  intros [Hr Hf (sz0 & H0 & Hp)] HA HQ. unfold LeaveFlags. apply mwp_bind. eapply mwp_read; [reflexivity|]. rewrite HA.
  eapply mwp_mono; [exact (mwp_calculate _ _ _ _ _ _ (at_start _ _ Hr) Hf H0 Hp)|].
  intros [] b1 s1 _ (Hr1 & _ & HM & Hag & _ & _). apply (HQ (Frame s1)); [|exact Hag].
  rewrite <- HM. exact (at_start _ _ Hr1).
Qed.

Lemma mwp_CALL Op off sp e0 b s :
  begins b s e0 -> ABILocalFlags (CTX b) = false -> (forall b, GetSrcSizeOf Op b = Ok (8, b)) ->
  source Op s (SrcOperand Op 0) 8 off -> reg (Frame s) REG_RSP = Some sp -> is_Some (load 8 (Mem s) (uint 64 (sp - 8))) ->
  mwp (CALLOp Op) (fun _ _ s' =>
    Mem s' = store 8 (Mem s) (uint 64 (sp - 8)) (next_PC Op) /\
    exists F1, agrees (no_PF (ABINoPF b) e0) (Frame s) F1 /\
      Frame s' = set_RIP (set_RSP F1 (uint 64 (sp - 8))) (uint 64 (next_PC Op + off))) b s.
Proof.
  intros Hb HA Hsz [Hr He] Hsp Hm. pose proof (at_start _ _ (begins_ready _ _ _ Hb)) as Ha.
  unfold CALLOp. eapply mwp_read; [exact (GetGPRSize_64 _ _ _ _ Ha)|].
  apply mwp_bind. eapply mwp_set_BlockSetRIP; [exact Ha|]. intros b0 s0 Ha0 _.
  pose proof (begins_at _ _ _ _ _ Hb Ha0 (begins_flags _ _ _ Hb)) as Hb0.
  pose proof (moves_env _ _ _ _ (at_moves _ _ _ _ _ _ Ha0)) as E. injection E as EC EE.
  eapply mwp_LeaveFlags; [exact Hb0|rewrite EC; exact HA|]. rewrite (at_ABINoPF _ _ _ _ Ha0), (at_frame _ _ _ _ _ _ Ha0), (at_mem _ _ _ _ _ _ Ha0).
  intros F1 b1 s1 Ha1 Hag. pose proof (agrees_same_registers _ _ _ Hag) as Hsame.
  apply mwp_bind. eapply mwp_GetRelocatedPC; [exact Ha1|]. intro_node.
  apply mwp_bind. eapply mwp_LoadOperand; [eassumption|exact Hsz|reflexivity|rewrite (read_operand_same Op _ _ (Mem s) (SrcOperand Op 0) 8 Hsame eq_refl); exact Hr|exact He|]. intro_node.
  node. apply mwp_bind. eapply mwp_GetRelocatedPC; [eassumption|]. intro_node.
  apply mwp_bind. eapply mwp_push_value; [eassumption|reflexivity|eassumption| |exact Hm|].
  { rewrite <- Hsp. exact (same_registers_reg _ _ REG_RSP 8 false Hsame eq_refl ltac:(lia)). }
  intro_state. eapply mwp_ExitFunction; [eassumption|eassumption|]. intros b' s' Ha' _. split.
  - rewrite (at_mem _ _ _ _ _ _ Ha'). unfold next_PC. rewrite Z.add_0_r. reflexivity.
  - exists F1. split; [exact Hag|]. rewrite (at_frame _ _ _ _ _ _ Ha'). unfold next_PC. rewrite Z.add_0_r. reflexivity.
Qed.

Lemma mwp_RET Op ret sp e0 b s :
  begins b s e0 -> ABILocalFlags (CTX b) = false -> OP Op <> 0xC2 ->
  reg (Frame s) REG_RSP = Some sp -> load 8 (Mem s) sp = Some ret ->
  mwp (RETOp Op) (fun _ _ s' =>
    Mem s' = Mem s /\
    exists F1, agrees (no_PF (ABINoPF b) e0) (Frame s) F1 /\ Frame s' = set_RIP (set_RSP F1 (uint 64 (sp + 8))) ret) b s.
Proof.
  intros Hb HA HO Hsp Hl. pose proof (at_start _ _ (begins_ready _ _ _ Hb)) as Ha.
  unfold RETOp. eapply mwp_read; [exact (GetGPRSize_64 _ _ _ _ Ha)|].
  eapply mwp_LeaveFlags; [exact Hb|exact HA|]. intros F1 b1 s1 Ha1 Hag.
  pose proof (agrees_same_registers _ _ _ Hag) as Hsame.
  node. apply mwp_bind. eapply mwp_LoadContext; [eassumption|reflexivity| |].
  { rewrite <- Hsp. exact (same_registers_reg _ _ REG_RSP 8 false Hsame eq_refl ltac:(lia)). }
  intro_node. apply mwp_bind. refine (mwp_Load false 8 _ sp _ ret _ _ _ _ _ _ eq_refl _ Hl _); [eassumption..|]. intro_node.
  apply mwp_bind. rewrite (proj2 (Z.eqb_neq _ _) HO). node.
  apply mwp_bind. eapply mwp_StoreContext; [eassumption|eassumption|]. intro_state.
  apply mwp_bind. eapply mwp_ExitFunction; [eassumption|eassumption|]. intro_state.
  eapply mwp_set_BlockSetRIP; [eassumption|]. intros b' s' Ha' _. split; [exact (at_mem _ _ _ _ _ _ Ha')|].
  exists F1. split; [exact Hag|exact (at_frame _ _ _ _ _ _ Ha')].
Qed.
End Calls.

(** C13: [CALL] pushes the address of the next instruction and leaves for the sum of
    that address and the displacement; [RET], in whatever block it is translated, run
    from a state with the same stack pointer and return address on the stack, leaves
    for the instruction after the call with the stack pointer of before it. *)
Theorem CALLOp_RETOp_x86 `{Machine : IRMachine} b s e0 Op off sp
    (Hbegin : begins b s e0) (Hflags : ABILocalFlags (CTX b) = false)
    (Hsize : forall b, GetSrcSizeOf Op b = Ok (8, b)) (Hsrc : source Op s (SrcOperand Op 0) 8 off)
    (Hsp : reg (Frame s) REG_RSP = Some sp) (Hmapped : is_Some (load 8 (Mem s) (uint 64 (sp - 8)))) :
  exists b1 s1, emits (CALLOp Op) b s tt b1 s1 /\
    load 8 (Frame s1) RIP_OFFSET = Some (uint 64 (next_PC Op + off)) /\
    reg (Frame s1) REG_RSP = Some (uint 64 (sp - 8)) /\
    Mem s1 = store 8 (Mem s) (uint 64 (sp - 8)) (next_PC Op) /\
    forall Op' e1 b2 s2, begins b2 s2 e1 -> ABILocalFlags (CTX b2) = false -> OP Op' <> 0xC2 ->
      reg (Frame s2) REG_RSP = reg (Frame s1) REG_RSP ->
      load 8 (Mem s2) (uint 64 (sp - 8)) = load 8 (Mem s1) (uint 64 (sp - 8)) ->
      exists b3 s3, emits (RETOp Op') b2 s2 tt b3 s3 /\
        load 8 (Frame s3) RIP_OFFSET = Some (next_PC Op) /\ reg (Frame s3) REG_RSP = Some sp /\ Mem s3 = Mem s2.
Proof.
  destruct (mwp_emits _ _ _ _ (mwp_CALL _ _ _ _ _ _ Hbegin Hflags Hsize Hsrc Hsp Hmapped)) as ([] & b1 & s1 & He1 & HM1 & F1 & _ & HF1).
  assert (0 <= sp < 2 ^ 64) as Hr by exact (load_zext 8 _ _ _ eq_refl (proj1 (RSP_load _ _) Hsp)).
  assert (reg (Frame s1) REG_RSP = Some (uint 64 (sp - 8))) as HR1 by (rewrite HF1, RSP_after_RIP, RSP_after, uint_idemp; reflexivity).
  exists b1, s1. split; [exact He1|]. split; [rewrite HF1; unfold set_RIP; rewrite load_store_same; f_equal; apply uint_idemp|].
  split; [exact HR1|]. split; [exact HM1|].
  intros Op' e1 b2 s2 Hb2 Hf2 HO HR2 HM2. rewrite HR1 in HR2. rewrite HM1, load_store_same in HM2.
  change (8 * Z.of_nat 8) with 64 in HM2. unfold next_PC in HM2 at 1. rewrite uint_idemp in HM2.
  destruct (mwp_emits _ _ _ _ (mwp_RET Op' _ _ _ _ _ Hb2 Hf2 HO HR2 HM2)) as ([] & b3 & s3 & He3 & HM3 & F3 & _ & HF3).
  exists b3, s3. split; [exact He3|]. rewrite HF3. split; [|split; [|exact HM3]].
  - unfold set_RIP. rewrite load_store_same. f_equal. apply uint_idemp.
  - rewrite RSP_after_RIP, RSP_after, uint_idemp. f_equal. rewrite <- uint_add, uint_idemp, uint_add.
    replace (sp - 8 + 8) with sp by lia. apply uint_small, Hr.
Qed.
