(* ===== verification/DispatchExamples.v ===== *)
(** * Instructions on the interpreter

    A concrete builder at the start of a block and a concrete guest, and one
    instruction for each property of the dispatcher. *)
From Stdlib Require Import ZArith Lia Bool.
From stdpp Require Import base gmap list numbers option.
From S2P Require Import Prelude IR ALUOps Atomic Interp IRSpec InterpRefines Machine Emitter EmitterLogic Flags FlagsSpec FlagsBlocks FlagsCorrect FlagsLazy FlagsExamples FlagsTheorems Dispatch DispatchALU DispatchMove DispatchStack X86Spec DispatchLogic OperandLogic ALUTheorems CarryTheorems ConditionTheorems MoveTheorems StackTheorems.
#[local] Open Scope Z_scope.

(** ** The guest *)

(** Every flag but the carry is clear. *)
Definition guest_flags : gmap Z Z := set_rflag (flag_image false) RFLAG_CF_LOC true.
Definition guest_registers (l : list (Z * Z)) : gmap Z Z :=
  foldr (fun '(g, v) F => store 8 F (gregs g) v) guest_flags l.
(** [RAX] points to the data, [RSP] into the same page. *)
Definition guest_frame : gmap Z Z :=
  guest_registers [(REG_RAX, 0x1000); (REG_RBX, 0xFFFFFFFF00000002); (REG_RCX, 0x80000001); (REG_RDX, 5); (REG_RSP, 0x1020)].
Definition guest_memory : gmap Z Z :=
  foldr (fun i m => <[0x1000 + Z.of_nat i := Z.of_nat i]> m) ∅ (seq 0 64).
Definition guest_state : IROpData := mkData 0 ∅ guest_frame guest_memory false false 0.
Definition none_record : DeferredFlagData := mkDeferred TYPE_NONE 0 0%nat NoSource.
Definition guest_builder : OpDispatchBuilder := builder_of false [] none_record.

Lemma guest_frame_wf : flags_wf guest_frame.
Proof. repeat constructor; eexists; vm_compute; reflexivity. Qed.

Lemma guest_begins : begins guest_builder guest_state all_kept.
Proof.
  constructor; [constructor; [constructor; [discriminate|intros; apply lookup_empty]|reflexivity..]|exact guest_frame_wf|].
  exists 4. split; [unfold operand_size; lia|]. left. split; reflexivity.
Qed.

(** ** Instructions *)

(** [SizeIndex] is 1 to 4 for operands of 1, 2, 4 and 8 bytes. *)
Definition inst (OP SizeIndex Flags : Z) (dest : DecodedOperand) (src : list DecodedOperand) : DecodedInst :=
  mkInst 0x400 OP (Z.lor Flags (Z.lor (Z.shiftl SizeIndex 19) (Z.shiftl SizeIndex 22))) 4 dest src.
Definition r (g : Z) : DecodedOperand := GPR false g.
(** [\[RAX + 8\]] *)
Definition data : DecodedOperand := GPRIndirect REG_RAX 8.

Ltac sized_inst := constructor; [reflexivity|intros; reflexivity..].
Ltac operand := split; [vm_compute; reflexivity|reflexivity].

(** ** The properties *)

(** [lock add \[rax + 8\], ecx] *)
Definition lock_add : DecodedInst := inst 0x01 3 FLAG_LOCK data [r REG_RCX].
Lemma ALUOp_x86_witness :
  exists b' s', emits (_ ← ALUOp lock_add; CalculateDeferredFlags) guest_builder guest_state tt b' s' /\
    Mem s' = store 4 guest_memory 0x1008 0x8B0A0909 /\
    composes false all_kept (x86_add 32 0x0B0A0908 0x80000001 0) guest_frame (Frame s').
Proof.
  apply (ALUOp_x86 guest_builder guest_state all_kept lock_add (ALUOp lock_add) ALU_ADD (r REG_RCX) 4 0x0B0A0908 0x80000001
    guest_frame (store 4 guest_memory 0x1008 0x8B0A0909)).
  - exact guest_begins.
  - sized_inst.
  - apply (alu_primary lock_add ALU_ADD). reflexivity.
  - operand.
  - operand.
  - operand.
Defined.

(** [sbb bl, ch] *)
Definition sbb_bl : DecodedInst := inst 0x18 1 0 (r REG_RBX) [GPR true REG_RCX].
Lemma ADCOp_SBBOp_x86_witness :
  exists b' s', emits (_ ← SBBOp 0 sbb_bl; CalculateDeferredFlags) guest_builder guest_state tt b' s' /\
    Mem s' = guest_memory /\
    composes false all_kept (x86_sub 8 2 0 1) (write_reg guest_frame false REG_RBX 1 1) (Frame s').
Proof.
  apply (ADCOp_SBBOp_x86 guest_builder guest_state all_kept sbb_bl true 1 2 0 true
    (write_reg guest_frame false REG_RBX 1 1) guest_memory).
  - exact guest_begins.
  - sized_inst.
  - vm_compute. reflexivity.
  - operand.
  - operand.
  - operand.
Defined.

(** [inc word \[rax + 8\]] *)
Definition inc_word : DecodedInst := inst 0xFF 2 0 data [].
Lemma INCOp_DECOp_x86_witness :
  exists b' s', emits (_ ← INCOp inc_word; CalculateDeferredFlags) guest_builder guest_state tt b' s' /\
    Mem s' = store 2 guest_memory 0x1008 0x0909 /\
    composes false all_kept (keep_CF (x86_add 16 0x0908 1 0)) guest_frame (Frame s').
Proof.
  apply (INCOp_DECOp_x86 guest_builder guest_state all_kept inc_word false 2 0x0908 guest_frame (store 2 guest_memory 0x1008 0x0909)).
  - exact guest_begins.
  - sized_inst.
  - reflexivity.
  - operand.
  - operand.
Defined.

(** [cmovb ebx, ecx], with the carry set *)
Definition cmovb : DecodedInst := inst 0x142 3 0 (r REG_RBX) [r REG_RCX].
Lemma SETccOp_CMOVOp_x86_witness :
  exists b' s' F1 v, emits (CMOVOp cmovb) guest_builder guest_state tt b' s' /\
    agrees all_kept guest_frame F1 /\ condition 2 F1 = Some v /\
    agrees all_kept (if v then write_reg guest_frame false REG_RBX 4 0x80000001 else write_reg guest_frame false REG_RBX 4 2) (Frame s') /\
    Mem s' = guest_memory.
Proof.
  destruct (SETccOp_CMOVOp_x86 guest_builder guest_state all_kept cmovb true 4 2 0x80000001
    (write_reg guest_frame false REG_RBX 4 0x80000001) guest_memory (write_reg guest_frame false REG_RBX 4 2) guest_memory)
    as (b' & s' & F1 & v & H).
  - exact guest_begins.
  - left. reflexivity.
  - sized_inst.
  - split; operand.
  - operand.
  - operand.
  - exists b', s', F1, v. destruct v; exact H.
Defined.

(** [cmp dl, \[rax + 8\]] *)
Definition cmp_dl : DecodedInst := inst 0x3A 1 0 (r REG_RDX) [data].
Lemma CMPOp_TESTOp_x86_witness :
  exists b' s', emits (_ ← CMPOp 0 cmp_dl; CalculateDeferredFlags) guest_builder guest_state tt b' s' /\
    Mem s' = guest_memory /\ composes false all_kept (x86_sub 8 5 8 0) guest_frame (Frame s').
Proof.
  apply (CMPOp_TESTOp_x86 guest_builder guest_state all_kept cmp_dl false 0 1 5 8).
  - exact guest_begins.
  - sized_inst.
  - operand.
  - operand.
Defined.

(** [movsxd rdx, ecx], the source being of another size *)
Definition movsxd : DecodedInst := mkInst 0x400 0x63 (Z.lor (Z.shiftl 4 19) (Z.shiftl 3 22)) 3 (r REG_RDX) [r REG_RCX].
Lemma move_x86_witness :
  exists b' s', emits (MOVSXOp movsxd) guest_builder guest_state tt b' s' /\
    Frame s' = write_reg guest_frame false REG_RDX 8 0xFFFFFFFF80000001 /\ Mem s' = guest_memory /\ begins b' s' all_kept.
Proof.
  apply (move_x86 guest_builder guest_state all_kept movsxd (MOVSXOp movsxd) 8 (sint 32 0x80000001)
    (write_reg guest_frame false REG_RDX 8 0xFFFFFFFF80000001) guest_memory).
  - exact guest_begins.
  - apply (move_MOVSX movsxd guest_state 8 4); [intros; reflexivity|reflexivity|intros; reflexivity|operand].
  - reflexivity.
  - operand.
Defined.

(** [xchg \[rax + 8\], rdx], which is atomic *)
Definition xchg : DecodedInst := inst 0x87 4 0 data [r REG_RDX].

(** [push rdx], [pop \[rax + 8\]] *)
Definition push_rdx : DecodedInst := inst 0x52 4 0 (r REG_RDX) [].
Definition pop_data : DecodedInst := inst 0x8F 4 0 data [].
Lemma PUSH_POP_x86_witness :
  exists b' s', emits (_ ← PUSHREGOp push_rdx; POPOp pop_data) guest_builder guest_state tt b' s' /\
    Frame s' = set_RSP guest_frame 0x1020 /\ Mem s' = store 8 (store 8 guest_memory 0x1018 5) 0x1008 5 /\ begins b' s' all_kept.
Proof.
  apply (PUSH_POP_x86 guest_builder guest_state all_kept push_rdx (PUSHREGOp push_rdx) (r REG_RDX) pop_data 8 5 0x1020
    (set_RSP guest_frame 0x1020) (store 8 (store 8 guest_memory 0x1018 5) 0x1008 5)).
  - exact guest_begins.
  - constructor.
  - reflexivity.
  - intros; reflexivity.
  - sized_inst.
  - operand.
  - vm_compute. reflexivity.
  - vm_compute. eauto.
  - vm_compute. reflexivity.
  - reflexivity.
Defined.

(** [call +0x20] *)
Definition call : DecodedInst := inst 0xE8 4 0 OperandNothing [Literal 8 0x20].
Lemma CALLOp_RETOp_x86_witness :
  exists b1 s1, emits (CALLOp call) guest_builder guest_state tt b1 s1 /\
    load 8 (Frame s1) RIP_OFFSET = Some 0x424 /\ Mem s1 = store 8 guest_memory 0x1018 0x404.
Proof.
  destruct (CALLOp_RETOp_x86 guest_builder guest_state all_kept call 0x20 0x1020) as (b1 & s1 & He & HR & _ & HM & _).
  - exact guest_begins.
  - reflexivity.
  - intros; reflexivity.
  - operand.
  - vm_compute. reflexivity.
  - vm_compute. eauto.
  - exists b1, s1. auto.
Defined.

(** ** Where the interpreter differs

    [NEG] of a 32-bit register: the node has four bytes, so the handler of the
    dispatcher takes the upper half of its value for zero and stores all of it, and
    the interpreter's [Neg] stores the sign-extended result of an [int]. *)
Theorem NEGOp_sign_extends :
  reg guest_frame REG_RDX = Some 5 /\
  (s ← run_emitted (NEGOp (inst 0x1F 3 0 (r REG_RDX) [])) guest_builder guest_state; Ok (reg (Frame s) REG_RDX)) =
    Ok (Some 0xFFFFFFFFFFFFFFFB).
Proof. split; vm_compute; reflexivity. Qed.
