(* ===== verification/X86Tables.v ===== *)
(** * The tables of the decoder

    [include/FEXCore/Debug/X86Tables.h] and [Interface/Core/X86Tables/]: what the
    decoder knows of each opcode, as the lists the initialisers copy into the
    arrays, and the copying. This file holds the tables of the integer instructions
    and of the two-byte opcodes, [X86TablesExt] the others. *)
From Stdlib Require Import ZArith Lia Bool String.
From stdpp Require Import base gmap list numbers option.
From S2P Require Import Prelude.
#[local] Open Scope Z_scope.

(** ** Types of entries: [InstType], an enumeration whose order matters *)

Definition TYPE_UNKNOWN : Z := 0.
Definition TYPE_LEGACY_PREFIX : Z := 1.
Definition TYPE_PREFIX : Z := 2.
Definition TYPE_REX_PREFIX : Z := 3.
Definition TYPE_SECONDARY_TABLE_PREFIX : Z := 4.
Definition TYPE_X87_TABLE_PREFIX : Z := 5.
Definition TYPE_VEX_TABLE_PREFIX : Z := 6.
Definition TYPE_XOP_TABLE_PREFIX : Z := 7.
Definition TYPE_INST : Z := 8.
Definition TYPE_X87 : Z := TYPE_INST.
Definition TYPE_INVALID : Z := 9.
Definition TYPE_COPY_OTHER : Z := 10.
Definition TYPE_GROUP_1 : Z := 11.
Definition TYPE_GROUP_1A : Z := 12.
Definition TYPE_GROUP_2 : Z := 13.
Definition TYPE_GROUP_3 : Z := 14.
Definition TYPE_GROUP_4 : Z := 15.
Definition TYPE_GROUP_5 : Z := 16.
Definition TYPE_GROUP_11 : Z := 17.
Definition TYPE_GROUP_6 : Z := 18.
Definition TYPE_GROUP_7 : Z := 19.
Definition TYPE_GROUP_8 : Z := 20.
Definition TYPE_GROUP_9 : Z := 21.
Definition TYPE_GROUP_10 : Z := 22.
Definition TYPE_GROUP_12 : Z := 23.
Definition TYPE_GROUP_13 : Z := 24.
Definition TYPE_GROUP_14 : Z := 25.
Definition TYPE_GROUP_15 : Z := 26.
Definition TYPE_GROUP_16 : Z := 27.
Definition TYPE_GROUP_17 : Z := 28.
Definition TYPE_GROUP_P : Z := 29.
Definition TYPE_SECOND_GROUP_MODRM : Z := 30.
Definition TYPE_VEX_GROUP_12 : Z := 31.
Definition TYPE_VEX_GROUP_13 : Z := 32.
Definition TYPE_VEX_GROUP_14 : Z := 33.
Definition TYPE_VEX_GROUP_15 : Z := 34.
Definition TYPE_VEX_GROUP_17 : Z := 35.
Definition TYPE_GROUP_EVEX : Z := 36.
Definition TYPE_UNDEC : Z := TYPE_INVALID.
Definition TYPE_MMX : Z := TYPE_INVALID.
Definition TYPE_PRIV : Z := TYPE_INVALID.
Definition TYPE_0F38_TABLE : Z := TYPE_INVALID.
Definition TYPE_0F3A_TABLE : Z := TYPE_INVALID.
Definition TYPE_3DNOW_TABLE : Z := TYPE_INVALID.

(** ** Flags of entries: [InstFlags] *)

Definition FLAGS_NONE : Z := 0.
Definition FLAGS_DEBUG : Z := Z.shiftl 1 1.
Definition FLAGS_DEBUG_MEM_ACCESS : Z := Z.shiftl 1 2.
Definition FLAGS_SUPPORTS_REP : Z := Z.shiftl 1 3.
Definition FLAGS_BLOCK_END : Z := Z.shiftl 1 4.
Definition FLAGS_SETS_RIP : Z := Z.shiftl 1 5.
Definition FLAGS_DISPLACE_SIZE_MUL_2 : Z := Z.shiftl 1 6.
Definition FLAGS_DISPLACE_SIZE_DIV_2 : Z := Z.shiftl 1 7.
Definition FLAGS_SRC_SEXT : Z := Z.shiftl 1 8.
Definition FLAGS_MEM_OFFSET : Z := Z.shiftl 1 9.
Definition FLAGS_XMM_FLAGS : Z := Z.shiftl 1 10.
Definition FLAGS_X87_FLAGS : Z := Z.shiftl 1 10.
Definition FLAGS_SF_DST_RAX : Z := Z.shiftl 1 11.
Definition FLAGS_SF_DST_RDX : Z := Z.shiftl 1 12.
Definition FLAGS_SF_SRC_RAX : Z := Z.shiftl 1 13.
Definition FLAGS_SF_SRC_RCX : Z := Z.shiftl 1 14.
Definition FLAGS_SF_REX_IN_BYTE : Z := Z.shiftl 1 15.
Definition FLAGS_SF_HIGH_XMM_REG : Z := Z.shiftl 1 11.
Definition FLAGS_SF_DST_GPR : Z := Z.shiftl 1 12.
Definition FLAGS_SF_SRC_GPR : Z := Z.shiftl 1 13.
Definition FLAGS_SF_MMX_DST : Z := Z.shiftl 1 14.
Definition FLAGS_SF_MMX_SRC : Z := Z.shiftl 1 15.
Definition FLAGS_SF_MMX : Z := Z.lor FLAGS_SF_MMX_DST FLAGS_SF_MMX_SRC.
Definition FLAGS_MODRM : Z := Z.shiftl 1 16.
Definition FLAGS_SF_MOD_DST : Z := Z.shiftl 1 17.
Definition FLAGS_SF_MOD_MEM_ONLY : Z := Z.shiftl 1 18.
Definition FLAGS_SF_MOD_REG_ONLY : Z := Z.shiftl 1 19.
Definition FLAGS_NO_OVERLAY : Z := Z.shiftl 1 20.
Definition FLAGS_NO_OVERLAY66 : Z := Z.shiftl 1 21.
Definition FLAGS_POP : Z := Z.shiftl 1 22.
Definition FLAGS_SRC_SEXT64BIT : Z := Z.shiftl 1 23.
Definition FLAGS_VEX_1ST_SRC : Z := Z.shiftl 1 24.
Definition FLAGS_VEX_2ND_SRC : Z := Z.shiftl 1 25.
Definition FLAGS_VEX_DST : Z := Z.shiftl 1 26.
Definition FLAGS_SIZE_DST_OFF : Z := 58.
Definition FLAGS_SIZE_SRC_OFF : Z := FLAGS_SIZE_DST_OFF + 3.

Definition SIZE_DEF : Z := 0.
Definition SIZE_8BIT : Z := 1.
Definition SIZE_16BIT : Z := 2.
Definition SIZE_32BIT : Z := 3.
Definition SIZE_64BIT : Z := 4.
Definition SIZE_128BIT : Z := 5.
Definition SIZE_256BIT : Z := 6.
Definition SIZE_64BITDEF : Z := 7.

Definition InstFlags_GetSizeDstFlags (Flags : Z) : Z := Z.land (Z.shiftr Flags FLAGS_SIZE_DST_OFF) 7.
Definition InstFlags_GetSizeSrcFlags (Flags : Z) : Z := Z.land (Z.shiftr Flags FLAGS_SIZE_SRC_OFF) 7.
Definition GenFlagsDstSize (Size : Z) : Z := Z.shiftl Size FLAGS_SIZE_DST_OFF.
Definition GenFlagsSrcSize (Size : Z) : Z := Z.shiftl Size FLAGS_SIZE_SRC_OFF.
Definition GenFlagsSameSize (Size : Z) : Z := Z.lor (Z.shiftl Size FLAGS_SIZE_DST_OFF) (Z.shiftl Size FLAGS_SIZE_SRC_OFF).
Definition GenFlagsSizes (Dest Src : Z) : Z := Z.lor (Z.shiftl Dest FLAGS_SIZE_DST_OFF) (Z.shiftl Src FLAGS_SIZE_SRC_OFF).

Definition has_flag (Flags f : Z) : bool := negb (Z.land Flags f =? 0).
Definition HAS_XMM_SUBFLAG (x flag : Z) : bool :=
  Z.land x (Z.lor FLAGS_XMM_FLAGS flag) =? Z.lor FLAGS_XMM_FLAGS flag.
Definition HAS_NON_XMM_SUBFLAG (x flag : Z) : bool := Z.land x (Z.lor FLAGS_XMM_FLAGS flag) =? flag.

(** ** Entries and arrays *)

(** [X86InstInfo] without the dispatcher's handler, which is installed later. *)
Record X86InstInfo := mkInfo {
  Name : string;
  InfoType : Z;
  InfoFlags : Z;
  MoreBytes : Z
}.
(** A zero-initialised element. *)
Definition no_info : X86InstInfo := mkInfo "" TYPE_UNKNOWN FLAGS_NONE 0.

(** [X86TablesInfoStruct]: the first opcode, how many, and what they are. *)
Record Entry := mkEntry { first : Z; second : Z; Info : X86InstInfo }.
Definition Ent (first second : Z) (Name : string) (Type_ Flags MoreBytes : Z) : Entry :=
  mkEntry first second (mkInfo Name Type_ Flags MoreBytes).

(** An array with its size; an access past it is undefined. *)
Record InfoTable := mkTable { table_size : Z; table_map : gmap Z X86InstInfo }.
Definition table_get (T : InfoTable) (i : Z) : outcome X86InstInfo :=
  if (0 <=? i) && (i <? table_size T) then Ok (default no_info (table_map T !! i)) else Undef.
Definition table_set (T : InfoTable) (i : Z) (info : X86InstInfo) : outcome InfoTable :=
  if (0 <=? i) && (i <? table_size T) then Ok (mkTable (table_size T) (<[i := info]> (table_map T))) else Undef.
Definition empty_table (size : Z) : InfoTable := mkTable size ∅.

Fixpoint for_each {A S} (f : A -> S -> outcome S) (l : list A) (s : S) : outcome S :=
  match l with [] => Ok s | a :: l => s ← f a s; for_each f l s end.
Definition offsets (n : Z) : list Z := Z.of_nat <$> seq 0 (Z.to_nat n).

(** The duplicate check, then the assignment. *)
Definition set_new (i : Z) (info : X86InstInfo) (T : InfoTable) : outcome InfoTable :=
  old ← table_get T i;
  _ ← throw_unless (InfoType old =? TYPE_UNKNOWN);
  table_set T i info.

Definition GenerateTable (LocalTable : list Entry) : InfoTable -> outcome InfoTable :=
  for_each (fun Op => for_each (fun i => set_new (first Op + i) (Info Op)) (offsets (second Op))) LocalTable.

Definition GenerateTableWithCopy (LocalTable : list Entry) (OtherLocal : InfoTable) : InfoTable -> outcome InfoTable :=
  for_each (fun Op => for_each (fun i T =>
    if InfoType (Info Op) =? TYPE_COPY_OTHER then
      old ← table_get T (first Op + i);
      _ ← throw_unless (InfoType old =? TYPE_UNKNOWN);
      other ← table_get OtherLocal (first Op + i);
      table_set T (first Op + i) other
    else set_new (first Op + i) (Info Op) T) (offsets (second Op))) LocalTable.

(** An entry whose [mod] field is not 3 stands for every [mod] below 3 and every [rm]. *)
Definition GenerateX87Table (LocalTable : list Entry) : InfoTable -> outcome InfoTable :=
  for_each (fun Op => for_each (fun i T =>
    let OpNum := first Op in
    old ← table_get T (OpNum + i);
    _ ← throw_unless (InfoType old =? TYPE_UNKNOWN);
    if Z.land OpNum 192 =? 192 then table_set T (OpNum + i) (Info Op)
    else
      _ ← throw_unless (Z.land OpNum 192 =? 0);
      for_each (fun mod_ => for_each (fun rm T => table_set T (Z.lor (Z.lor OpNum mod_) rm + i) (Info Op)) (offsets 8))
        [0; 64; 128] T) (offsets (second Op))) LocalTable.

(** ** Keys *)

Definition OPD_primary (group prefix Reg : Z) : Z :=
  Z.lor (Z.lor (Z.shiftl (group - TYPE_GROUP_1) 6) (Z.shiftl prefix 3)) Reg.
Definition OpToIndex (Op : Z) : Z :=
  if Op =? 0x80 then 0 else if Op =? 0x81 then 1 else if Op =? 0x82 then 2 else if Op =? 0x83 then 3
  else if Op =? 0xC0 then 0 else if Op =? 0xC1 then 1 else if Op =? 0xD0 then 2 else if Op =? 0xD1 then 3
  else if Op =? 0xD2 then 4 else if Op =? 0xD3 then 5
  else if Op =? 0xF6 then 0 else if Op =? 0xF7 then 1
  else if Op =? 0xFE then 0 else if Op =? 0xFF then 0
  else if Op =? 0xC6 then 0 else if Op =? 0xC7 then 1
  else 0.

#[local] Infix ".|" := Z.lor (at level 50, left associativity).
#[local] Open Scope string_scope.
#[local] Open Scope Z_scope.

(** ** [BaseTables.cpp] *)

Definition BaseOpTable_00 : list Entry := [
    Ent 0x66 1 "" TYPE_PREFIX FLAGS_NONE 0;
    Ent 0x67 1 "" TYPE_PREFIX FLAGS_NONE 0;
    Ent 0x26 1 "ES" TYPE_LEGACY_PREFIX FLAGS_NONE 0;
    Ent 0x2E 1 "CS" TYPE_LEGACY_PREFIX FLAGS_NONE 0;
    Ent 0x36 1 "SS" TYPE_LEGACY_PREFIX FLAGS_NONE 0;
    Ent 0x3E 1 "DS" TYPE_LEGACY_PREFIX FLAGS_NONE 0;
    Ent 0x64 1 "FS" TYPE_PREFIX FLAGS_NONE 0;
    Ent 0x65 1 "GS" TYPE_PREFIX FLAGS_NONE 0;
    Ent 0xF0 1 "LOCK" TYPE_PREFIX FLAGS_NONE 0;
    Ent 0xF2 1 "REPNE" TYPE_PREFIX FLAGS_NONE 0;
    Ent 0xF3 1 "REP" TYPE_PREFIX FLAGS_NONE 0;
    Ent 0x00 1 "ADD" TYPE_INST (GenFlagsSameSize SIZE_8BIT .| FLAGS_MODRM .| FLAGS_SF_MOD_DST) 0;
    Ent 0x01 1 "ADD" TYPE_INST (FLAGS_MODRM .| FLAGS_SF_MOD_DST .| FLAGS_DISPLACE_SIZE_DIV_2) 0;
    Ent 0x02 1 "ADD" TYPE_INST (GenFlagsSameSize SIZE_8BIT .| FLAGS_MODRM) 0;
    Ent 0x03 1 "ADD" TYPE_INST FLAGS_MODRM 0;
    Ent 0x04 1 "ADD" TYPE_INST (GenFlagsSameSize SIZE_8BIT .| FLAGS_SF_DST_RAX) 1;
    Ent 0x05 1 "ADD" TYPE_INST (FLAGS_SF_DST_RAX .| FLAGS_SRC_SEXT .| FLAGS_DISPLACE_SIZE_DIV_2) 4;
    Ent 0x08 1 "OR" TYPE_INST (GenFlagsSameSize SIZE_8BIT .| FLAGS_MODRM .| FLAGS_SF_MOD_DST) 0;
    Ent 0x09 1 "OR" TYPE_INST (FLAGS_MODRM .| FLAGS_SF_MOD_DST) 0;
    Ent 0x0A 1 "OR" TYPE_INST (GenFlagsSameSize SIZE_8BIT .| FLAGS_MODRM) 0;
    Ent 0x0B 1 "OR" TYPE_INST FLAGS_MODRM 0;
    Ent 0x0C 1 "OR" TYPE_INST (GenFlagsSameSize SIZE_8BIT .| FLAGS_SF_DST_RAX) 1;
    Ent 0x0D 1 "OR" TYPE_INST (FLAGS_SF_DST_RAX .| FLAGS_SRC_SEXT .| FLAGS_DISPLACE_SIZE_DIV_2) 4;
    Ent 0x10 1 "ADC" TYPE_INST (GenFlagsSameSize SIZE_8BIT .| FLAGS_MODRM .| FLAGS_SF_MOD_DST) 0;
    Ent 0x11 1 "ADC" TYPE_INST (FLAGS_MODRM .| FLAGS_SF_MOD_DST .| FLAGS_DISPLACE_SIZE_DIV_2) 0;
    Ent 0x12 1 "ADC" TYPE_INST (GenFlagsSameSize SIZE_8BIT .| FLAGS_MODRM) 0;
    Ent 0x13 1 "ADC" TYPE_INST FLAGS_MODRM 0;
    Ent 0x14 1 "ADC" TYPE_INST (GenFlagsSameSize SIZE_8BIT .| FLAGS_SF_DST_RAX) 1;
    Ent 0x15 1 "ADC" TYPE_INST (FLAGS_SF_DST_RAX .| FLAGS_SRC_SEXT .| FLAGS_DISPLACE_SIZE_DIV_2) 4;
    Ent 0x18 1 "SBB" TYPE_INST (GenFlagsSameSize SIZE_8BIT .| FLAGS_MODRM .| FLAGS_SF_MOD_DST) 0;
    Ent 0x19 1 "SBB" TYPE_INST (FLAGS_MODRM .| FLAGS_SF_MOD_DST .| FLAGS_DISPLACE_SIZE_DIV_2) 0;
    Ent 0x1A 1 "SBB" TYPE_INST (GenFlagsSameSize SIZE_8BIT .| FLAGS_MODRM) 0;
    Ent 0x1B 1 "SBB" TYPE_INST FLAGS_MODRM 0;
    Ent 0x1C 1 "SBB" TYPE_INST (GenFlagsSameSize SIZE_8BIT .| FLAGS_SF_DST_RAX) 1;
    Ent 0x1D 1 "SBB" TYPE_INST (FLAGS_SF_DST_RAX .| FLAGS_SRC_SEXT .| FLAGS_DISPLACE_SIZE_DIV_2) 4;
    Ent 0x20 1 "AND" TYPE_INST (GenFlagsSameSize SIZE_8BIT .| FLAGS_MODRM .| FLAGS_SF_MOD_DST) 0;
    Ent 0x21 1 "AND" TYPE_INST (FLAGS_MODRM .| FLAGS_SF_MOD_DST) 0;
    Ent 0x22 1 "AND" TYPE_INST (GenFlagsSameSize SIZE_8BIT .| FLAGS_MODRM) 0;
    Ent 0x23 1 "AND" TYPE_INST FLAGS_MODRM 0;
    Ent 0x24 1 "AND" TYPE_INST (GenFlagsSameSize SIZE_8BIT .| FLAGS_SF_DST_RAX) 1;
    Ent 0x25 1 "AND" TYPE_INST (FLAGS_SF_DST_RAX .| FLAGS_SRC_SEXT .| FLAGS_DISPLACE_SIZE_DIV_2) 4;
    Ent 0x28 1 "SUB" TYPE_INST (GenFlagsSameSize SIZE_8BIT .| FLAGS_MODRM .| FLAGS_SF_MOD_DST) 0;
    Ent 0x29 1 "SUB" TYPE_INST (FLAGS_MODRM .| FLAGS_SF_MOD_DST) 0;
    Ent 0x2A 1 "SUB" TYPE_INST (GenFlagsSameSize SIZE_8BIT .| FLAGS_MODRM) 0;
    Ent 0x2B 1 "SUB" TYPE_INST FLAGS_MODRM 0;
    Ent 0x2C 1 "SUB" TYPE_INST (GenFlagsSameSize SIZE_8BIT .| FLAGS_SF_DST_RAX) 1;
    Ent 0x2D 1 "SUB" TYPE_INST (FLAGS_SF_DST_RAX .| FLAGS_SRC_SEXT .| FLAGS_DISPLACE_SIZE_DIV_2) 4;
    Ent 0x30 1 "XOR" TYPE_INST (GenFlagsSameSize SIZE_8BIT .| FLAGS_MODRM .| FLAGS_SF_MOD_DST) 0;
    Ent 0x31 1 "XOR" TYPE_INST (FLAGS_MODRM .| FLAGS_SF_MOD_DST) 0;
    Ent 0x32 1 "XOR" TYPE_INST (GenFlagsSameSize SIZE_8BIT .| FLAGS_MODRM) 0;
    Ent 0x33 1 "XOR" TYPE_INST FLAGS_MODRM 0;
    Ent 0x34 1 "XOR" TYPE_INST (GenFlagsSameSize SIZE_8BIT .| FLAGS_SF_DST_RAX) 1
  ].
Definition BaseOpTable_38 : list Entry := [
    Ent 0x35 1 "XOR" TYPE_INST (FLAGS_SF_DST_RAX .| FLAGS_SRC_SEXT .| FLAGS_DISPLACE_SIZE_DIV_2) 4;
    Ent 0x38 1 "CMP" TYPE_INST (GenFlagsSameSize SIZE_8BIT .| FLAGS_MODRM .| FLAGS_SF_MOD_DST) 0;
    Ent 0x39 1 "CMP" TYPE_INST (FLAGS_MODRM .| FLAGS_SF_MOD_DST) 0;
    Ent 0x3A 1 "CMP" TYPE_INST (GenFlagsSameSize SIZE_8BIT .| FLAGS_MODRM) 0;
    Ent 0x3B 1 "CMP" TYPE_INST FLAGS_MODRM 0;
    Ent 0x3C 1 "CMP" TYPE_INST (GenFlagsSameSize SIZE_8BIT .| FLAGS_SF_DST_RAX) 1;
    Ent 0x3D 1 "CMP" TYPE_INST (FLAGS_SF_DST_RAX .| FLAGS_SRC_SEXT .| FLAGS_DISPLACE_SIZE_DIV_2) 4;
    Ent 0x50 8 "PUSH" TYPE_INST (GenFlagsSameSize SIZE_64BITDEF .| FLAGS_SF_REX_IN_BYTE .| FLAGS_DEBUG_MEM_ACCESS) 0;
    Ent 0x58 8 "POP" TYPE_INST (GenFlagsSameSize SIZE_64BITDEF .| FLAGS_SF_REX_IN_BYTE .| FLAGS_DEBUG_MEM_ACCESS) 0;
    Ent 0x62 1 "" TYPE_GROUP_EVEX FLAGS_NONE 0;
    Ent 0x68 1 "PUSH" TYPE_INST (GenFlagsSameSize SIZE_64BITDEF .| FLAGS_DEBUG_MEM_ACCESS .| FLAGS_DISPLACE_SIZE_DIV_2 .| FLAGS_SRC_SEXT) 4;
    Ent 0x69 1 "IMUL" TYPE_INST (FLAGS_MODRM .| FLAGS_SRC_SEXT .| FLAGS_DISPLACE_SIZE_DIV_2) 4;
    Ent 0x6A 1 "PUSH" TYPE_INST (GenFlagsSameSize SIZE_64BITDEF .| FLAGS_DEBUG_MEM_ACCESS .| FLAGS_SRC_SEXT) 1;
    Ent 0x6B 1 "IMUL" TYPE_INST (FLAGS_MODRM .| FLAGS_SRC_SEXT) 1;
    Ent 0x6C 1 "INSB" TYPE_INVALID FLAGS_SUPPORTS_REP 0;
    Ent 0x6D 1 "INSW" TYPE_INVALID FLAGS_SUPPORTS_REP 0;
    Ent 0x6E 1 "OUTS" TYPE_INVALID FLAGS_SUPPORTS_REP 0;
    Ent 0x6F 1 "OUTS" TYPE_INVALID FLAGS_SUPPORTS_REP 0;
    Ent 0x70 1 "JO" TYPE_INST (GenFlagsSameSize SIZE_64BITDEF .| FLAGS_SETS_RIP .| FLAGS_SRC_SEXT) 1;
    Ent 0x71 1 "JNO" TYPE_INST (GenFlagsSameSize SIZE_64BITDEF .| FLAGS_SETS_RIP .| FLAGS_SRC_SEXT) 1;
    Ent 0x72 1 "JB" TYPE_INST (GenFlagsSameSize SIZE_64BITDEF .| FLAGS_SETS_RIP .| FLAGS_SRC_SEXT) 1;
    Ent 0x73 1 "JNB" TYPE_INST (GenFlagsSameSize SIZE_64BITDEF .| FLAGS_SETS_RIP .| FLAGS_SRC_SEXT) 1;
    Ent 0x74 1 "JZ" TYPE_INST (GenFlagsSameSize SIZE_64BITDEF .| FLAGS_SETS_RIP .| FLAGS_SRC_SEXT) 1;
    Ent 0x75 1 "JNZ" TYPE_INST (GenFlagsSameSize SIZE_64BITDEF .| FLAGS_SETS_RIP .| FLAGS_SRC_SEXT) 1;
    Ent 0x76 1 "JBE" TYPE_INST (GenFlagsSameSize SIZE_64BITDEF .| FLAGS_SETS_RIP .| FLAGS_SRC_SEXT) 1;
    Ent 0x77 1 "JNBE" TYPE_INST (GenFlagsSameSize SIZE_64BITDEF .| FLAGS_SETS_RIP .| FLAGS_SRC_SEXT) 1;
    Ent 0x78 1 "JS" TYPE_INST (GenFlagsSameSize SIZE_64BITDEF .| FLAGS_SETS_RIP .| FLAGS_SRC_SEXT) 1;
    Ent 0x79 1 "JNS" TYPE_INST (GenFlagsSameSize SIZE_64BITDEF .| FLAGS_SETS_RIP .| FLAGS_SRC_SEXT) 1;
    Ent 0x7A 1 "JP" TYPE_INST (GenFlagsSameSize SIZE_64BITDEF .| FLAGS_SETS_RIP .| FLAGS_SRC_SEXT) 1;
    Ent 0x7B 1 "JNP" TYPE_INST (GenFlagsSameSize SIZE_64BITDEF .| FLAGS_SETS_RIP .| FLAGS_SRC_SEXT) 1;
    Ent 0x7C 1 "JL" TYPE_INST (GenFlagsSameSize SIZE_64BITDEF .| FLAGS_SETS_RIP .| FLAGS_SRC_SEXT) 1;
    Ent 0x7D 1 "JNL" TYPE_INST (GenFlagsSameSize SIZE_64BITDEF .| FLAGS_SETS_RIP .| FLAGS_SRC_SEXT) 1;
    Ent 0x7E 1 "JLE" TYPE_INST (GenFlagsSameSize SIZE_64BITDEF .| FLAGS_SETS_RIP .| FLAGS_SRC_SEXT) 1;
    Ent 0x7F 1 "JNLE" TYPE_INST (GenFlagsSameSize SIZE_64BITDEF .| FLAGS_SETS_RIP .| FLAGS_SRC_SEXT) 1;
    Ent 0x84 1 "TEST" TYPE_INST (GenFlagsSameSize SIZE_8BIT .| FLAGS_MODRM .| FLAGS_SF_MOD_DST) 0;
    Ent 0x85 1 "TEST" TYPE_INST (FLAGS_MODRM .| FLAGS_SF_MOD_DST) 0;
    Ent 0x86 1 "XCHG" TYPE_INST (GenFlagsSameSize SIZE_8BIT .| FLAGS_MODRM .| FLAGS_SF_MOD_DST) 0;
    Ent 0x87 1 "XCHG" TYPE_INST (FLAGS_MODRM .| FLAGS_SF_MOD_DST) 0;
    Ent 0x88 1 "MOV" TYPE_INST (GenFlagsSameSize SIZE_8BIT .| FLAGS_MODRM .| FLAGS_SF_MOD_DST) 0;
    Ent 0x89 1 "MOV" TYPE_INST (FLAGS_MODRM .| FLAGS_SF_MOD_DST) 0;
    Ent 0x8A 1 "MOV" TYPE_INST (GenFlagsSameSize SIZE_8BIT .| FLAGS_MODRM) 0;
    Ent 0x8B 1 "MOV" TYPE_INST FLAGS_MODRM 0;
    Ent 0x8C 1 "MOV" TYPE_INST (GenFlagsSrcSize SIZE_16BIT .| FLAGS_MODRM .| FLAGS_SF_MOD_DST) 0;
    Ent 0x8D 1 "LEA" TYPE_INST (GenFlagsSameSize SIZE_64BITDEF .| FLAGS_MODRM) 0;
    Ent 0x8E 1 "MOV" TYPE_INST (GenFlagsSameSize SIZE_16BIT .| FLAGS_MODRM) 0;
    Ent 0x8F 1 "POP" TYPE_INST (GenFlagsSameSize SIZE_64BITDEF .| FLAGS_MODRM .| FLAGS_SF_MOD_DST .| FLAGS_DEBUG_MEM_ACCESS) 0;
    Ent 0x90 8 "XCHG" TYPE_INST (FLAGS_SF_REX_IN_BYTE .| FLAGS_SF_SRC_RAX) 0;
    Ent 0x98 1 "CDQE" TYPE_INST (FLAGS_SF_DST_RAX .| FLAGS_SF_SRC_RAX) 0;
    Ent 0x99 1 "CQO" TYPE_INST (FLAGS_SF_DST_RDX .| FLAGS_SF_SRC_RAX) 0;
    Ent 0x9B 1 "FWAIT" TYPE_INST FLAGS_NONE 0;
    Ent 0x9C 1 "PUSHF" TYPE_INST (GenFlagsSameSize SIZE_64BITDEF) 0;
    Ent 0x9D 1 "POPF" TYPE_INST (GenFlagsSameSize SIZE_64BITDEF) 0;
    Ent 0x9E 1 "SAHF" TYPE_INST FLAGS_NONE 0;
    Ent 0x9F 1 "LAHF" TYPE_INST FLAGS_NONE 0;
    Ent 0xA4 1 "MOVSB" TYPE_INST (GenFlagsSameSize SIZE_8BIT .| FLAGS_SUPPORTS_REP) 0;
    Ent 0xA5 1 "MOVS" TYPE_INST FLAGS_SUPPORTS_REP 0;
    Ent 0xA6 1 "CMPSB" TYPE_INST (GenFlagsSameSize SIZE_8BIT .| FLAGS_SUPPORTS_REP) 0;
    Ent 0xA7 1 "CMPS" TYPE_INST FLAGS_SUPPORTS_REP 0;
    Ent 0xA8 1 "TEST" TYPE_INST (GenFlagsSameSize SIZE_8BIT .| FLAGS_SF_DST_RAX) 1;
    Ent 0xA9 1 "TEST" TYPE_INST (FLAGS_SF_DST_RAX .| FLAGS_SRC_SEXT .| FLAGS_DISPLACE_SIZE_DIV_2) 4;
    Ent 0xAA 1 "STOS" TYPE_INST (GenFlagsSameSize SIZE_8BIT .| FLAGS_DEBUG_MEM_ACCESS .| FLAGS_SUPPORTS_REP .| FLAGS_SF_SRC_RAX) 0;
    Ent 0xAB 1 "STOS" TYPE_INST (FLAGS_DEBUG_MEM_ACCESS .| FLAGS_SUPPORTS_REP .| FLAGS_SF_SRC_RAX) 0;
    Ent 0xAC 1 "LODS" TYPE_INST (GenFlagsSameSize SIZE_8BIT .| FLAGS_SF_DST_RAX .| FLAGS_DEBUG_MEM_ACCESS .| FLAGS_SUPPORTS_REP) 0;
    Ent 0xAD 1 "LODS" TYPE_INST (FLAGS_SF_DST_RAX .| FLAGS_DEBUG_MEM_ACCESS .| FLAGS_SUPPORTS_REP) 0;
    Ent 0xAE 1 "SCAS" TYPE_INST (GenFlagsSameSize SIZE_8BIT .| FLAGS_DEBUG_MEM_ACCESS .| FLAGS_SUPPORTS_REP .| FLAGS_SF_SRC_RAX) 0;
    Ent 0xAF 1 "SCAS" TYPE_INST (FLAGS_DEBUG_MEM_ACCESS .| FLAGS_SUPPORTS_REP .| FLAGS_SF_SRC_RAX) 0;
    Ent 0xB0 8 "MOV" TYPE_INST (GenFlagsSameSize SIZE_8BIT .| FLAGS_SF_REX_IN_BYTE) 1;
    Ent 0xB8 8 "MOV" TYPE_INST (FLAGS_SF_REX_IN_BYTE .| FLAGS_DISPLACE_SIZE_DIV_2 .| FLAGS_DISPLACE_SIZE_MUL_2) 4;
    Ent 0xC2 1 "RET" TYPE_INST (FLAGS_SETS_RIP .| FLAGS_BLOCK_END) 2;
    Ent 0xC3 1 "RET" TYPE_INST (GenFlagsSameSize SIZE_64BITDEF .| FLAGS_SETS_RIP .| FLAGS_BLOCK_END) 0;
    Ent 0xC8 1 "ENTER" TYPE_INST (GenFlagsSameSize SIZE_64BITDEF .| FLAGS_DEBUG_MEM_ACCESS) 3;
    Ent 0xC9 1 "LEAVE" TYPE_INST (GenFlagsSameSize SIZE_64BITDEF .| FLAGS_DEBUG_MEM_ACCESS) 0;
    Ent 0xCA 2 "RETF" TYPE_PRIV (GenFlagsSameSize SIZE_64BITDEF .| FLAGS_SETS_RIP .| FLAGS_BLOCK_END) 0;
    Ent 0xCC 1 "INT3" TYPE_INST FLAGS_DEBUG 0;
    Ent 0xCD 1 "INT" TYPE_INST FLAGS_DEBUG 1;
    Ent 0xCF 1 "IRET" TYPE_INST (FLAGS_SETS_RIP .| FLAGS_BLOCK_END) 0;
    Ent 0xD6 1 "[INV]" TYPE_INVALID FLAGS_NONE 0;
    Ent 0xD7 1 "XLAT" TYPE_INST FLAGS_DEBUG_MEM_ACCESS 0;
    Ent 0xE0 1 "LOOPNE" TYPE_INST (GenFlagsSameSize SIZE_64BITDEF .| FLAGS_SETS_RIP .| FLAGS_SRC_SEXT .| FLAGS_SF_SRC_RCX) 1;
    Ent 0xE1 1 "LOOPE" TYPE_INST (GenFlagsSameSize SIZE_64BITDEF .| FLAGS_SETS_RIP .| FLAGS_SRC_SEXT .| FLAGS_SF_SRC_RCX) 1;
    Ent 0xE2 1 "LOOP" TYPE_INST (GenFlagsSameSize SIZE_64BITDEF .| FLAGS_SETS_RIP .| FLAGS_SRC_SEXT .| FLAGS_SF_SRC_RCX) 1;
    Ent 0xE3 1 "JrCXZ" TYPE_INST (GenFlagsSameSize SIZE_64BITDEF .| FLAGS_SETS_RIP .| FLAGS_SRC_SEXT) 1;
    Ent 0xE4 2 "IN" TYPE_INVALID FLAGS_NONE 0;
    Ent 0xE6 2 "OUT" TYPE_INVALID FLAGS_NONE 0;
    Ent 0xE8 1 "CALL" TYPE_INST (GenFlagsSameSize SIZE_64BITDEF .| FLAGS_SETS_RIP .| FLAGS_SRC_SEXT .| FLAGS_DISPLACE_SIZE_DIV_2 .| FLAGS_BLOCK_END) 4;
    Ent 0xE9 1 "JMP" TYPE_INST (GenFlagsSameSize SIZE_64BITDEF .| FLAGS_SETS_RIP .| FLAGS_SRC_SEXT .| FLAGS_DISPLACE_SIZE_DIV_2 .| FLAGS_BLOCK_END) 4;
    Ent 0xEB 1 "JMP" TYPE_INST (GenFlagsSameSize SIZE_64BITDEF .| FLAGS_SETS_RIP .| FLAGS_SRC_SEXT .| FLAGS_BLOCK_END) 1;
    Ent 0xEC 2 "IN" TYPE_INVALID FLAGS_NONE 0;
    Ent 0xEE 2 "OUT" TYPE_INVALID FLAGS_NONE 0;
    Ent 0xF1 1 "INT1" TYPE_INST FLAGS_DEBUG 0;
    Ent 0xF4 1 "HLT" TYPE_INST (FLAGS_DEBUG .| FLAGS_BLOCK_END) 0;
    Ent 0xF5 1 "CMC" TYPE_INST FLAGS_NONE 0;
    Ent 0xF8 1 "CLC" TYPE_INST FLAGS_NONE 0;
    Ent 0xF9 1 "STC" TYPE_INST FLAGS_NONE 0;
    Ent 0xFA 1 "CLI" TYPE_PRIV FLAGS_NONE 0;
    Ent 0xFB 1 "STI" TYPE_PRIV FLAGS_NONE 0;
    Ent 0xFC 1 "CLD" TYPE_INST FLAGS_NONE 0;
    Ent 0xFD 1 "STD" TYPE_INST FLAGS_NONE 0
  ].
Definition BaseOpTable_groups : list Entry := [
    Ent 0x0F 1 "" TYPE_SECONDARY_TABLE_PREFIX FLAGS_NONE 0;
    Ent 0xD8 8 "" TYPE_X87_TABLE_PREFIX FLAGS_MODRM 0;
    Ent 0x80 1 "" TYPE_GROUP_1 FLAGS_MODRM 0;
    Ent 0x81 1 "" TYPE_GROUP_1 FLAGS_MODRM 1;
    Ent 0x82 1 "" TYPE_GROUP_1 FLAGS_MODRM 2;
    Ent 0x83 1 "" TYPE_GROUP_1 FLAGS_MODRM 3;
    Ent 0xC0 1 "" TYPE_GROUP_2 FLAGS_MODRM 0;
    Ent 0xC1 1 "" TYPE_GROUP_2 FLAGS_MODRM 1;
    Ent 0xD0 1 "" TYPE_GROUP_2 FLAGS_MODRM 2;
    Ent 0xD1 1 "" TYPE_GROUP_2 FLAGS_MODRM 3;
    Ent 0xD2 1 "" TYPE_GROUP_2 FLAGS_MODRM 4;
    Ent 0xD3 1 "" TYPE_GROUP_2 FLAGS_MODRM 5;
    Ent 0xF6 1 "" TYPE_GROUP_3 FLAGS_MODRM 0;
    Ent 0xF7 1 "" TYPE_GROUP_3 FLAGS_MODRM 1;
    Ent 0xFE 1 "" TYPE_GROUP_4 FLAGS_MODRM 0;
    Ent 0xFF 1 "" TYPE_GROUP_5 FLAGS_MODRM 0;
    Ent 0xC6 1 "" TYPE_GROUP_11 FLAGS_MODRM 0;
    Ent 0xC7 1 "" TYPE_GROUP_11 FLAGS_MODRM 1;
    Ent 0xC4 2 "" TYPE_VEX_TABLE_PREFIX FLAGS_NONE 0
  ].
Definition BaseOpTable : list Entry := BaseOpTable_00 ++ BaseOpTable_38 ++ BaseOpTable_groups.

Definition BaseOpTable_64 : list Entry := [
    Ent 0x06 2 "[INV]" TYPE_INVALID FLAGS_NONE 0;
    Ent 0x0E 1 "[INV]" TYPE_INVALID FLAGS_NONE 0;
    Ent 0x16 2 "[INV]" TYPE_INVALID FLAGS_NONE 0;
    Ent 0x1E 2 "[INV]" TYPE_INVALID FLAGS_NONE 0;
    Ent 0x27 1 "[INV]" TYPE_INVALID FLAGS_NONE 0;
    Ent 0x2F 1 "[INV]" TYPE_INVALID FLAGS_NONE 0;
    Ent 0x37 1 "[INV]" TYPE_INVALID FLAGS_NONE 0;
    Ent 0x3F 1 "[INV]" TYPE_INVALID FLAGS_NONE 0;
    Ent 0x40 16 "" TYPE_REX_PREFIX FLAGS_NONE 0;
    Ent 0x60 2 "[INV]" TYPE_INVALID FLAGS_NONE 0;
    Ent 0x63 1 "MOVSXD" TYPE_INST (GenFlagsDstSize SIZE_64BIT .| FLAGS_MODRM) 0;
    Ent 0x9A 1 "[INV]" TYPE_INVALID FLAGS_NONE 0;
    Ent 0xA0 1 "MOV" TYPE_INST (GenFlagsSameSize SIZE_8BIT .| FLAGS_SF_DST_RAX .| FLAGS_MEM_OFFSET) 8;
    Ent 0xA2 1 "MOV" TYPE_INST (GenFlagsSameSize SIZE_8BIT .| FLAGS_SF_SRC_RAX .| FLAGS_MEM_OFFSET) 8;
    Ent 0xA1 1 "MOV" TYPE_INST (FLAGS_SF_DST_RAX .| FLAGS_MEM_OFFSET) 8;
    Ent 0xA3 1 "MOV" TYPE_INST (FLAGS_SF_SRC_RAX .| FLAGS_MEM_OFFSET) 8;
    Ent 0xCE 1 "[INV]" TYPE_INVALID FLAGS_NONE 0;
    Ent 0xD4 2 "[INV]" TYPE_INVALID FLAGS_NONE 0;
    Ent 0xEA 1 "[INV]" TYPE_INVALID FLAGS_NONE 0
  ].

Definition BaseOpTable_32 : list Entry := [
    Ent 0x06 1 "PUSH ES" TYPE_INST (GenFlagsSrcSize SIZE_16BIT .| FLAGS_DEBUG_MEM_ACCESS) 0;
    Ent 0x07 1 "POP ES" TYPE_INST (GenFlagsSizes SIZE_16BIT SIZE_DEF .| FLAGS_DEBUG_MEM_ACCESS) 0;
    Ent 0x0E 1 "PUSH CS" TYPE_INST (GenFlagsSrcSize SIZE_16BIT .| FLAGS_DEBUG_MEM_ACCESS) 0;
    Ent 0x16 1 "PUSH SS" TYPE_INST (GenFlagsSrcSize SIZE_16BIT .| FLAGS_DEBUG_MEM_ACCESS) 0;
    Ent 0x17 1 "POP SS" TYPE_INST (GenFlagsSizes SIZE_16BIT SIZE_DEF .| FLAGS_DEBUG_MEM_ACCESS) 0;
    Ent 0x1E 1 "PUSH DS" TYPE_INST (GenFlagsSrcSize SIZE_16BIT .| FLAGS_DEBUG_MEM_ACCESS) 0;
    Ent 0x1F 1 "POP DS" TYPE_INST (GenFlagsSizes SIZE_16BIT SIZE_DEF .| FLAGS_DEBUG_MEM_ACCESS) 0;
    Ent 0x27 1 "DAA" TYPE_INST FLAGS_NONE 0;
    Ent 0x2F 1 "DAS" TYPE_INST FLAGS_NONE 0;
    Ent 0x37 1 "AAA" TYPE_INST FLAGS_NONE 0;
    Ent 0x3F 1 "AAS" TYPE_INST FLAGS_NONE 0;
    Ent 0x40 8 "INC" TYPE_INST FLAGS_SF_REX_IN_BYTE 0;
    Ent 0x48 8 "DEC" TYPE_INST FLAGS_SF_REX_IN_BYTE 0;
    Ent 0x60 1 "PUSHA" TYPE_INST FLAGS_DEBUG_MEM_ACCESS 0;
    Ent 0x61 1 "POPA" TYPE_INST FLAGS_DEBUG_MEM_ACCESS 0;
    Ent 0x63 1 "ARPL" TYPE_INVALID FLAGS_NONE 0;
    Ent 0x9A 1 "CALLF" TYPE_INST FLAGS_NONE 0;
    Ent 0xA0 1 "MOV" TYPE_INST (GenFlagsSameSize SIZE_8BIT .| FLAGS_SF_DST_RAX .| FLAGS_MEM_OFFSET) 4;
    Ent 0xA2 1 "MOV" TYPE_INST (GenFlagsSameSize SIZE_8BIT .| FLAGS_SF_SRC_RAX .| FLAGS_MEM_OFFSET) 4;
    Ent 0xA1 1 "MOV" TYPE_INST (FLAGS_SF_DST_RAX .| FLAGS_MEM_OFFSET) 4;
    Ent 0xA3 1 "MOV" TYPE_INST (FLAGS_SF_SRC_RAX .| FLAGS_MEM_OFFSET) 4;
    Ent 0xCE 1 "INTO" TYPE_INST FLAGS_NONE 0;
    Ent 0xD4 1 "AAM" TYPE_INST FLAGS_NONE 1;
    Ent 0xD5 1 "AAD" TYPE_INST FLAGS_NONE 1;
    Ent 0xEA 1 "JMPF" TYPE_INST FLAGS_NONE 0
  ].

(** ** [PrimaryGroupTables.cpp] *)

Definition PrimaryGroupOpTable_1 : list Entry := [
    Ent (OPD_primary TYPE_GROUP_1 (OpToIndex 0x80) 0) 1 "ADD" TYPE_INST (GenFlagsSameSize SIZE_8BIT .| FLAGS_MODRM .| FLAGS_SF_MOD_DST) 1;
    Ent (OPD_primary TYPE_GROUP_1 (OpToIndex 0x80) 1) 1 "OR" TYPE_INST (GenFlagsSameSize SIZE_8BIT .| FLAGS_MODRM .| FLAGS_SF_MOD_DST) 1;
    Ent (OPD_primary TYPE_GROUP_1 (OpToIndex 0x80) 2) 1 "ADC" TYPE_INST (GenFlagsSameSize SIZE_8BIT .| FLAGS_MODRM .| FLAGS_SF_MOD_DST) 1;
    Ent (OPD_primary TYPE_GROUP_1 (OpToIndex 0x80) 3) 1 "SBB" TYPE_INST (GenFlagsSameSize SIZE_8BIT .| FLAGS_MODRM .| FLAGS_SF_MOD_DST) 1;
    Ent (OPD_primary TYPE_GROUP_1 (OpToIndex 0x80) 4) 1 "AND" TYPE_INST (GenFlagsSameSize SIZE_8BIT .| FLAGS_MODRM .| FLAGS_SF_MOD_DST) 1;
    Ent (OPD_primary TYPE_GROUP_1 (OpToIndex 0x80) 5) 1 "SUB" TYPE_INST (GenFlagsSameSize SIZE_8BIT .| FLAGS_MODRM .| FLAGS_SF_MOD_DST) 1;
    Ent (OPD_primary TYPE_GROUP_1 (OpToIndex 0x80) 6) 1 "XOR" TYPE_INST (GenFlagsSameSize SIZE_8BIT .| FLAGS_MODRM .| FLAGS_SF_MOD_DST) 1;
    Ent (OPD_primary TYPE_GROUP_1 (OpToIndex 0x80) 7) 1 "CMP" TYPE_INST (GenFlagsSameSize SIZE_8BIT .| FLAGS_MODRM .| FLAGS_SF_MOD_DST) 1;
    Ent (OPD_primary TYPE_GROUP_1 (OpToIndex 0x81) 0) 1 "ADD" TYPE_INST (FLAGS_MODRM .| FLAGS_SF_MOD_DST .| FLAGS_SRC_SEXT64BIT .| FLAGS_DISPLACE_SIZE_DIV_2) 4;
    Ent (OPD_primary TYPE_GROUP_1 (OpToIndex 0x81) 1) 1 "OR" TYPE_INST (FLAGS_MODRM .| FLAGS_SF_MOD_DST .| FLAGS_SRC_SEXT64BIT .| FLAGS_DISPLACE_SIZE_DIV_2) 4;
    Ent (OPD_primary TYPE_GROUP_1 (OpToIndex 0x81) 2) 1 "ADC" TYPE_INST (FLAGS_MODRM .| FLAGS_SF_MOD_DST .| FLAGS_SRC_SEXT64BIT .| FLAGS_DISPLACE_SIZE_DIV_2) 4;
    Ent (OPD_primary TYPE_GROUP_1 (OpToIndex 0x81) 3) 1 "SBB" TYPE_INST (FLAGS_MODRM .| FLAGS_SF_MOD_DST .| FLAGS_SRC_SEXT64BIT .| FLAGS_DISPLACE_SIZE_DIV_2) 4;
    Ent (OPD_primary TYPE_GROUP_1 (OpToIndex 0x81) 4) 1 "AND" TYPE_INST (FLAGS_MODRM .| FLAGS_SF_MOD_DST .| FLAGS_SRC_SEXT64BIT .| FLAGS_DISPLACE_SIZE_DIV_2) 4;
    Ent (OPD_primary TYPE_GROUP_1 (OpToIndex 0x81) 5) 1 "SUB" TYPE_INST (FLAGS_MODRM .| FLAGS_SF_MOD_DST .| FLAGS_SRC_SEXT64BIT .| FLAGS_DISPLACE_SIZE_DIV_2) 4;
    Ent (OPD_primary TYPE_GROUP_1 (OpToIndex 0x81) 6) 1 "XOR" TYPE_INST (FLAGS_MODRM .| FLAGS_SF_MOD_DST .| FLAGS_SRC_SEXT64BIT .| FLAGS_DISPLACE_SIZE_DIV_2) 4;
    Ent (OPD_primary TYPE_GROUP_1 (OpToIndex 0x81) 7) 1 "CMP" TYPE_INST (FLAGS_MODRM .| FLAGS_SF_MOD_DST .| FLAGS_SRC_SEXT64BIT .| FLAGS_DISPLACE_SIZE_DIV_2) 4;
    Ent (OPD_primary TYPE_GROUP_1 (OpToIndex 0x83) 0) 1 "ADD" TYPE_INST (FLAGS_SRC_SEXT .| FLAGS_MODRM .| FLAGS_SF_MOD_DST) 1;
    Ent (OPD_primary TYPE_GROUP_1 (OpToIndex 0x83) 1) 1 "OR" TYPE_INST (FLAGS_SRC_SEXT .| FLAGS_MODRM .| FLAGS_SF_MOD_DST) 1;
    Ent (OPD_primary TYPE_GROUP_1 (OpToIndex 0x83) 2) 1 "ADC" TYPE_INST (FLAGS_SRC_SEXT .| FLAGS_MODRM .| FLAGS_SF_MOD_DST) 1;
    Ent (OPD_primary TYPE_GROUP_1 (OpToIndex 0x83) 3) 1 "SBB" TYPE_INST (FLAGS_SRC_SEXT .| FLAGS_MODRM .| FLAGS_SF_MOD_DST) 1;
    Ent (OPD_primary TYPE_GROUP_1 (OpToIndex 0x83) 4) 1 "AND" TYPE_INST (FLAGS_SRC_SEXT .| FLAGS_MODRM .| FLAGS_SF_MOD_DST) 1;
    Ent (OPD_primary TYPE_GROUP_1 (OpToIndex 0x83) 5) 1 "SUB" TYPE_INST (FLAGS_SRC_SEXT .| FLAGS_MODRM .| FLAGS_SF_MOD_DST) 1;
    Ent (OPD_primary TYPE_GROUP_1 (OpToIndex 0x83) 6) 1 "XOR" TYPE_INST (FLAGS_SRC_SEXT .| FLAGS_MODRM .| FLAGS_SF_MOD_DST) 1;
    Ent (OPD_primary TYPE_GROUP_1 (OpToIndex 0x83) 7) 1 "CMP" TYPE_INST (FLAGS_SRC_SEXT .| FLAGS_MODRM .| FLAGS_SF_MOD_DST) 1
  ].
Definition PrimaryGroupOpTable_2 : list Entry := [
    Ent (OPD_primary TYPE_GROUP_2 (OpToIndex 0xC0) 0) 1 "ROL" TYPE_INST (GenFlagsSameSize SIZE_8BIT .| FLAGS_MODRM .| FLAGS_SF_MOD_DST) 1;
    Ent (OPD_primary TYPE_GROUP_2 (OpToIndex 0xC0) 1) 1 "ROR" TYPE_INST (GenFlagsSameSize SIZE_8BIT .| FLAGS_MODRM .| FLAGS_SF_MOD_DST) 1;
    Ent (OPD_primary TYPE_GROUP_2 (OpToIndex 0xC0) 2) 1 "RCL" TYPE_INST (GenFlagsSameSize SIZE_8BIT .| FLAGS_MODRM .| FLAGS_SF_MOD_DST) 1;
    Ent (OPD_primary TYPE_GROUP_2 (OpToIndex 0xC0) 3) 1 "RCR" TYPE_INST (GenFlagsSameSize SIZE_8BIT .| FLAGS_MODRM .| FLAGS_SF_MOD_DST) 1;
    Ent (OPD_primary TYPE_GROUP_2 (OpToIndex 0xC0) 4) 1 "SHL" TYPE_INST (GenFlagsSameSize SIZE_8BIT .| FLAGS_MODRM .| FLAGS_SF_MOD_DST) 1;
    Ent (OPD_primary TYPE_GROUP_2 (OpToIndex 0xC0) 5) 1 "SHR" TYPE_INST (GenFlagsSameSize SIZE_8BIT .| FLAGS_MODRM .| FLAGS_SF_MOD_DST) 1;
    Ent (OPD_primary TYPE_GROUP_2 (OpToIndex 0xC0) 6) 1 "SHL" TYPE_INST (GenFlagsSameSize SIZE_8BIT .| FLAGS_MODRM .| FLAGS_SF_MOD_DST) 1;
    Ent (OPD_primary TYPE_GROUP_2 (OpToIndex 0xC0) 7) 1 "SAR" TYPE_INST (GenFlagsSameSize SIZE_8BIT .| FLAGS_MODRM .| FLAGS_SF_MOD_DST) 1;
    Ent (OPD_primary TYPE_GROUP_2 (OpToIndex 0xC1) 0) 1 "ROL" TYPE_INST (FLAGS_MODRM .| FLAGS_SF_MOD_DST) 1;
    Ent (OPD_primary TYPE_GROUP_2 (OpToIndex 0xC1) 1) 1 "ROR" TYPE_INST (FLAGS_MODRM .| FLAGS_SF_MOD_DST) 1;
    Ent (OPD_primary TYPE_GROUP_2 (OpToIndex 0xC1) 2) 1 "RCL" TYPE_INST (FLAGS_MODRM .| FLAGS_SF_MOD_DST) 1;
    Ent (OPD_primary TYPE_GROUP_2 (OpToIndex 0xC1) 3) 1 "RCR" TYPE_INST (FLAGS_MODRM .| FLAGS_SF_MOD_DST) 1;
    Ent (OPD_primary TYPE_GROUP_2 (OpToIndex 0xC1) 4) 1 "SHL" TYPE_INST (FLAGS_MODRM .| FLAGS_SF_MOD_DST) 1;
    Ent (OPD_primary TYPE_GROUP_2 (OpToIndex 0xC1) 5) 1 "SHR" TYPE_INST (FLAGS_MODRM .| FLAGS_SF_MOD_DST) 1;
    Ent (OPD_primary TYPE_GROUP_2 (OpToIndex 0xC1) 6) 1 "SHL" TYPE_INST (FLAGS_MODRM .| FLAGS_SF_MOD_DST) 1;
    Ent (OPD_primary TYPE_GROUP_2 (OpToIndex 0xC1) 7) 1 "SAR" TYPE_INST (FLAGS_MODRM .| FLAGS_SF_MOD_DST) 1;
    Ent (OPD_primary TYPE_GROUP_2 (OpToIndex 0xD0) 0) 1 "ROL" TYPE_INST (GenFlagsSameSize SIZE_8BIT .| FLAGS_MODRM .| FLAGS_SF_MOD_DST) 0;
    Ent (OPD_primary TYPE_GROUP_2 (OpToIndex 0xD0) 1) 1 "ROR" TYPE_INST (GenFlagsSameSize SIZE_8BIT .| FLAGS_MODRM .| FLAGS_SF_MOD_DST) 0;
    Ent (OPD_primary TYPE_GROUP_2 (OpToIndex 0xD0) 2) 1 "RCL" TYPE_INST (GenFlagsSameSize SIZE_8BIT .| FLAGS_MODRM .| FLAGS_SF_MOD_DST) 0;
    Ent (OPD_primary TYPE_GROUP_2 (OpToIndex 0xD0) 3) 1 "RCR" TYPE_INST (GenFlagsSameSize SIZE_8BIT .| FLAGS_MODRM .| FLAGS_SF_MOD_DST) 0;
    Ent (OPD_primary TYPE_GROUP_2 (OpToIndex 0xD0) 4) 1 "SHL" TYPE_INST (GenFlagsSameSize SIZE_8BIT .| FLAGS_MODRM .| FLAGS_SF_MOD_DST) 0;
    Ent (OPD_primary TYPE_GROUP_2 (OpToIndex 0xD0) 5) 1 "SHR" TYPE_INST (GenFlagsSameSize SIZE_8BIT .| FLAGS_MODRM .| FLAGS_SF_MOD_DST) 0;
    Ent (OPD_primary TYPE_GROUP_2 (OpToIndex 0xD0) 6) 1 "SHL" TYPE_INST (GenFlagsSameSize SIZE_8BIT .| FLAGS_MODRM .| FLAGS_SF_MOD_DST) 0;
    Ent (OPD_primary TYPE_GROUP_2 (OpToIndex 0xD0) 7) 1 "SAR" TYPE_INST (GenFlagsSameSize SIZE_8BIT .| FLAGS_MODRM .| FLAGS_SF_MOD_DST) 0;
    Ent (OPD_primary TYPE_GROUP_2 (OpToIndex 0xD1) 0) 1 "ROL" TYPE_INST (FLAGS_MODRM .| FLAGS_SF_MOD_DST) 0;
    Ent (OPD_primary TYPE_GROUP_2 (OpToIndex 0xD1) 1) 1 "ROR" TYPE_INST (FLAGS_MODRM .| FLAGS_SF_MOD_DST) 0;
    Ent (OPD_primary TYPE_GROUP_2 (OpToIndex 0xD1) 2) 1 "RCL" TYPE_INST (FLAGS_MODRM .| FLAGS_SF_MOD_DST) 0;
    Ent (OPD_primary TYPE_GROUP_2 (OpToIndex 0xD1) 3) 1 "RCR" TYPE_INST (FLAGS_MODRM .| FLAGS_SF_MOD_DST) 0;
    Ent (OPD_primary TYPE_GROUP_2 (OpToIndex 0xD1) 4) 1 "SHL" TYPE_INST (FLAGS_MODRM .| FLAGS_SF_MOD_DST) 0;
    Ent (OPD_primary TYPE_GROUP_2 (OpToIndex 0xD1) 5) 1 "SHR" TYPE_INST (FLAGS_MODRM .| FLAGS_SF_MOD_DST) 0;
    Ent (OPD_primary TYPE_GROUP_2 (OpToIndex 0xD1) 6) 1 "SHL" TYPE_INST (FLAGS_MODRM .| FLAGS_SF_MOD_DST) 0;
    Ent (OPD_primary TYPE_GROUP_2 (OpToIndex 0xD1) 7) 1 "SAR" TYPE_INST (FLAGS_MODRM .| FLAGS_SF_MOD_DST) 0;
    Ent (OPD_primary TYPE_GROUP_2 (OpToIndex 0xD2) 0) 1 "ROL" TYPE_INST (GenFlagsSameSize SIZE_8BIT .| FLAGS_MODRM .| FLAGS_SF_MOD_DST .| FLAGS_SF_SRC_RCX) 0;
    Ent (OPD_primary TYPE_GROUP_2 (OpToIndex 0xD2) 1) 1 "ROR" TYPE_INST (GenFlagsSameSize SIZE_8BIT .| FLAGS_MODRM .| FLAGS_SF_MOD_DST .| FLAGS_SF_SRC_RCX) 0;
    Ent (OPD_primary TYPE_GROUP_2 (OpToIndex 0xD2) 2) 1 "RCL" TYPE_INST (GenFlagsSameSize SIZE_8BIT .| FLAGS_MODRM .| FLAGS_SF_MOD_DST .| FLAGS_SF_SRC_RCX) 0;
    Ent (OPD_primary TYPE_GROUP_2 (OpToIndex 0xD2) 3) 1 "RCR" TYPE_INST (GenFlagsSameSize SIZE_8BIT .| FLAGS_MODRM .| FLAGS_SF_MOD_DST .| FLAGS_SF_SRC_RCX) 0;
    Ent (OPD_primary TYPE_GROUP_2 (OpToIndex 0xD2) 4) 1 "SHL" TYPE_INST (GenFlagsSameSize SIZE_8BIT .| FLAGS_MODRM .| FLAGS_SF_MOD_DST .| FLAGS_SF_SRC_RCX) 0;
    Ent (OPD_primary TYPE_GROUP_2 (OpToIndex 0xD2) 5) 1 "SHR" TYPE_INST (GenFlagsSameSize SIZE_8BIT .| FLAGS_MODRM .| FLAGS_SF_MOD_DST .| FLAGS_SF_SRC_RCX) 0;
    Ent (OPD_primary TYPE_GROUP_2 (OpToIndex 0xD2) 6) 1 "SHL" TYPE_INST (GenFlagsSameSize SIZE_8BIT .| FLAGS_MODRM .| FLAGS_SF_MOD_DST .| FLAGS_SF_SRC_RCX) 0;
    Ent (OPD_primary TYPE_GROUP_2 (OpToIndex 0xD2) 7) 1 "SAR" TYPE_INST (GenFlagsSameSize SIZE_8BIT .| FLAGS_MODRM .| FLAGS_SF_MOD_DST .| FLAGS_SF_SRC_RCX) 0;
    Ent (OPD_primary TYPE_GROUP_2 (OpToIndex 0xD3) 0) 1 "ROL" TYPE_INST (FLAGS_MODRM .| FLAGS_SF_MOD_DST .| FLAGS_SF_SRC_RCX) 0;
    Ent (OPD_primary TYPE_GROUP_2 (OpToIndex 0xD3) 1) 1 "ROR" TYPE_INST (FLAGS_MODRM .| FLAGS_SF_MOD_DST .| FLAGS_SF_SRC_RCX) 0;
    Ent (OPD_primary TYPE_GROUP_2 (OpToIndex 0xD3) 2) 1 "RCL" TYPE_INST (FLAGS_MODRM .| FLAGS_SF_MOD_DST .| FLAGS_SF_SRC_RCX) 0;
    Ent (OPD_primary TYPE_GROUP_2 (OpToIndex 0xD3) 3) 1 "RCR" TYPE_INST (FLAGS_MODRM .| FLAGS_SF_MOD_DST .| FLAGS_SF_SRC_RCX) 0;
    Ent (OPD_primary TYPE_GROUP_2 (OpToIndex 0xD3) 4) 1 "SHL" TYPE_INST (FLAGS_MODRM .| FLAGS_SF_MOD_DST .| FLAGS_SF_SRC_RCX) 0;
    Ent (OPD_primary TYPE_GROUP_2 (OpToIndex 0xD3) 5) 1 "SHR" TYPE_INST (FLAGS_MODRM .| FLAGS_SF_MOD_DST .| FLAGS_SF_SRC_RCX) 0;
    Ent (OPD_primary TYPE_GROUP_2 (OpToIndex 0xD3) 6) 1 "SHL" TYPE_INST (FLAGS_MODRM .| FLAGS_SF_MOD_DST .| FLAGS_SF_SRC_RCX) 0;
    Ent (OPD_primary TYPE_GROUP_2 (OpToIndex 0xD3) 7) 1 "SAR" TYPE_INST (FLAGS_MODRM .| FLAGS_SF_MOD_DST .| FLAGS_SF_SRC_RCX) 0
  ].
Definition PrimaryGroupOpTable_3_11 : list Entry := [
    Ent (OPD_primary TYPE_GROUP_3 (OpToIndex 0xF6) 0) 1 "TEST" TYPE_INST (GenFlagsSameSize SIZE_8BIT .| FLAGS_MODRM .| FLAGS_SF_MOD_DST) 1;
    Ent (OPD_primary TYPE_GROUP_3 (OpToIndex 0xF6) 1) 1 "TEST" TYPE_INST (GenFlagsSameSize SIZE_8BIT .| FLAGS_MODRM .| FLAGS_SF_MOD_DST) 1;
    Ent (OPD_primary TYPE_GROUP_3 (OpToIndex 0xF6) 2) 1 "NOT" TYPE_INST (GenFlagsSameSize SIZE_8BIT .| FLAGS_MODRM .| FLAGS_SF_MOD_DST) 0;
    Ent (OPD_primary TYPE_GROUP_3 (OpToIndex 0xF6) 3) 1 "NEG" TYPE_INST (GenFlagsSameSize SIZE_8BIT .| FLAGS_MODRM .| FLAGS_SF_MOD_DST) 0;
    Ent (OPD_primary TYPE_GROUP_3 (OpToIndex 0xF6) 4) 1 "MUL" TYPE_INST (GenFlagsSameSize SIZE_8BIT .| FLAGS_MODRM .| FLAGS_SF_MOD_DST) 0;
    Ent (OPD_primary TYPE_GROUP_3 (OpToIndex 0xF6) 5) 1 "IMUL" TYPE_INST (GenFlagsSameSize SIZE_8BIT .| FLAGS_MODRM .| FLAGS_SF_MOD_DST) 0;
    Ent (OPD_primary TYPE_GROUP_3 (OpToIndex 0xF6) 6) 1 "DIV" TYPE_INST (GenFlagsSameSize SIZE_8BIT .| FLAGS_MODRM .| FLAGS_SF_MOD_DST) 0;
    Ent (OPD_primary TYPE_GROUP_3 (OpToIndex 0xF6) 7) 1 "IDIV" TYPE_INST (GenFlagsSameSize SIZE_8BIT .| FLAGS_MODRM .| FLAGS_SF_MOD_DST) 0;
    Ent (OPD_primary TYPE_GROUP_3 (OpToIndex 0xF7) 0) 1 "TEST" TYPE_INST (FLAGS_MODRM .| FLAGS_SF_MOD_DST .| FLAGS_SRC_SEXT64BIT .| FLAGS_DISPLACE_SIZE_DIV_2) 4;
    Ent (OPD_primary TYPE_GROUP_3 (OpToIndex 0xF7) 1) 1 "TEST" TYPE_INST (FLAGS_MODRM .| FLAGS_SF_MOD_DST .| FLAGS_SRC_SEXT64BIT .| FLAGS_DISPLACE_SIZE_DIV_2) 4;
    Ent (OPD_primary TYPE_GROUP_3 (OpToIndex 0xF7) 2) 1 "NOT" TYPE_INST (FLAGS_MODRM .| FLAGS_SF_MOD_DST) 0;
    Ent (OPD_primary TYPE_GROUP_3 (OpToIndex 0xF7) 3) 1 "NEG" TYPE_INST (FLAGS_MODRM .| FLAGS_SF_MOD_DST) 0;
    Ent (OPD_primary TYPE_GROUP_3 (OpToIndex 0xF7) 4) 1 "MUL" TYPE_INST (FLAGS_MODRM .| FLAGS_SF_MOD_DST) 0;
    Ent (OPD_primary TYPE_GROUP_3 (OpToIndex 0xF7) 5) 1 "IMUL" TYPE_INST (FLAGS_MODRM .| FLAGS_SF_MOD_DST) 0;
    Ent (OPD_primary TYPE_GROUP_3 (OpToIndex 0xF7) 6) 1 "DIV" TYPE_INST (FLAGS_MODRM .| FLAGS_SF_MOD_DST) 0;
    Ent (OPD_primary TYPE_GROUP_3 (OpToIndex 0xF7) 7) 1 "IDIV" TYPE_INST (FLAGS_MODRM .| FLAGS_SF_MOD_DST) 0;
    Ent (OPD_primary TYPE_GROUP_4 (OpToIndex 0xFE) 0) 1 "INC" TYPE_INST (GenFlagsSameSize SIZE_8BIT .| FLAGS_MODRM .| FLAGS_SF_MOD_DST) 0;
    Ent (OPD_primary TYPE_GROUP_4 (OpToIndex 0xFE) 1) 1 "DEC" TYPE_INST (GenFlagsSameSize SIZE_8BIT .| FLAGS_MODRM .| FLAGS_SF_MOD_DST) 0;
    Ent (OPD_primary TYPE_GROUP_4 (OpToIndex 0xFE) 2) 6 "" TYPE_INVALID FLAGS_NONE 0;
    Ent (OPD_primary TYPE_GROUP_5 (OpToIndex 0xFF) 0) 1 "INC" TYPE_INST (FLAGS_MODRM .| FLAGS_SF_MOD_DST) 0;
    Ent (OPD_primary TYPE_GROUP_5 (OpToIndex 0xFF) 1) 1 "DEC" TYPE_INST (FLAGS_MODRM .| FLAGS_SF_MOD_DST) 0;
    Ent (OPD_primary TYPE_GROUP_5 (OpToIndex 0xFF) 2) 1 "CALL" TYPE_INST (GenFlagsSameSize SIZE_64BITDEF .| FLAGS_SETS_RIP .| FLAGS_MODRM .| FLAGS_BLOCK_END) 0;
    Ent (OPD_primary TYPE_GROUP_5 (OpToIndex 0xFF) 3) 1 "CALLF" TYPE_INST (FLAGS_SETS_RIP .| FLAGS_MODRM .| FLAGS_BLOCK_END) 0;
    Ent (OPD_primary TYPE_GROUP_5 (OpToIndex 0xFF) 4) 1 "JMP" TYPE_INST (GenFlagsSameSize SIZE_64BITDEF .| FLAGS_SETS_RIP .| FLAGS_MODRM .| FLAGS_BLOCK_END) 0;
    Ent (OPD_primary TYPE_GROUP_5 (OpToIndex 0xFF) 5) 1 "JMPF" TYPE_INST (FLAGS_SETS_RIP .| FLAGS_MODRM .| FLAGS_BLOCK_END) 0;
    Ent (OPD_primary TYPE_GROUP_5 (OpToIndex 0xFF) 6) 1 "PUSH" TYPE_INST (GenFlagsSameSize SIZE_64BITDEF .| FLAGS_DEBUG_MEM_ACCESS .| FLAGS_MODRM) 0;
    Ent (OPD_primary TYPE_GROUP_5 (OpToIndex 0xFF) 7) 1 "" TYPE_INVALID FLAGS_NONE 0;
    Ent (OPD_primary TYPE_GROUP_11 (OpToIndex 0xC6) 0) 1 "MOV" TYPE_INST (GenFlagsSameSize SIZE_8BIT .| FLAGS_MODRM .| FLAGS_SF_MOD_DST .| FLAGS_SRC_SEXT) 1;
    Ent (OPD_primary TYPE_GROUP_11 (OpToIndex 0xC6) 1) 5 "" TYPE_INVALID FLAGS_NONE 0;
    Ent (OPD_primary TYPE_GROUP_11 (OpToIndex 0xC6) 7) 1 "XABORT" TYPE_INST FLAGS_MODRM 1;
    Ent (OPD_primary TYPE_GROUP_11 (OpToIndex 0xC7) 0) 1 "MOV" TYPE_INST (FLAGS_MODRM .| FLAGS_SF_MOD_DST .| FLAGS_SRC_SEXT .| FLAGS_DISPLACE_SIZE_DIV_2) 4;
    Ent (OPD_primary TYPE_GROUP_11 (OpToIndex 0xC7) 1) 5 "" TYPE_INVALID FLAGS_NONE 0;
    Ent (OPD_primary TYPE_GROUP_11 (OpToIndex 0xC7) 7) 1 "XBEGIN" TYPE_INST (FLAGS_MODRM .| FLAGS_SRC_SEXT .| FLAGS_SETS_RIP .| FLAGS_DISPLACE_SIZE_DIV_2) 4
  ].
Definition PrimaryGroupOpTable : list Entry := PrimaryGroupOpTable_1 ++ PrimaryGroupOpTable_2 ++ PrimaryGroupOpTable_3_11.

Definition PrimaryGroupOpTable_64 : list Entry := [
    Ent (OPD_primary TYPE_GROUP_1 (OpToIndex 0x82) 0) 8 "" TYPE_INVALID FLAGS_NONE 0
  ].

Definition PrimaryGroupOpTable_32 : list Entry := [
    Ent (OPD_primary TYPE_GROUP_1 (OpToIndex 0x82) 0) 1 "ADD" TYPE_INST (GenFlagsSameSize SIZE_8BIT .| FLAGS_MODRM .| FLAGS_SF_MOD_DST) 1;
    Ent (OPD_primary TYPE_GROUP_1 (OpToIndex 0x82) 1) 1 "OR" TYPE_INST (GenFlagsSameSize SIZE_8BIT .| FLAGS_MODRM .| FLAGS_SF_MOD_DST) 1;
    Ent (OPD_primary TYPE_GROUP_1 (OpToIndex 0x82) 2) 1 "ADC" TYPE_INST (GenFlagsSameSize SIZE_8BIT .| FLAGS_MODRM .| FLAGS_SF_MOD_DST) 1;
    Ent (OPD_primary TYPE_GROUP_1 (OpToIndex 0x82) 3) 1 "SBB" TYPE_INST (GenFlagsSameSize SIZE_8BIT .| FLAGS_MODRM .| FLAGS_SF_MOD_DST) 1;
    Ent (OPD_primary TYPE_GROUP_1 (OpToIndex 0x82) 4) 1 "AND" TYPE_INST (GenFlagsSameSize SIZE_8BIT .| FLAGS_MODRM .| FLAGS_SF_MOD_DST) 1;
    Ent (OPD_primary TYPE_GROUP_1 (OpToIndex 0x82) 5) 1 "SUB" TYPE_INST (GenFlagsSameSize SIZE_8BIT .| FLAGS_MODRM .| FLAGS_SF_MOD_DST) 1;
    Ent (OPD_primary TYPE_GROUP_1 (OpToIndex 0x82) 6) 1 "XOR" TYPE_INST (GenFlagsSameSize SIZE_8BIT .| FLAGS_MODRM .| FLAGS_SF_MOD_DST) 1;
    Ent (OPD_primary TYPE_GROUP_1 (OpToIndex 0x82) 7) 1 "CMP" TYPE_INST (GenFlagsSameSize SIZE_8BIT .| FLAGS_MODRM .| FLAGS_SF_MOD_DST) 1
  ].

(** ** [SecondaryTables.cpp] *)

Definition TwoByteOpTable_00 : list Entry := [
    Ent 0x00 1 "" TYPE_GROUP_6 (FLAGS_MODRM .| FLAGS_NO_OVERLAY) 0;
    Ent 0x01 1 "" TYPE_GROUP_7 FLAGS_NO_OVERLAY 0;
    Ent 0x02 1 "LAR" TYPE_UNDEC FLAGS_NO_OVERLAY 0;
    Ent 0x03 1 "LSL" TYPE_UNDEC FLAGS_NO_OVERLAY 0;
    Ent 0x04 1 "" TYPE_INVALID FLAGS_NO_OVERLAY 0;
    Ent 0x05 1 "SYSCALL" TYPE_INST FLAGS_NO_OVERLAY 0;
    Ent 0x06 1 "CLTS" TYPE_PRIV FLAGS_NO_OVERLAY 0;
    Ent 0x07 1 "SYSRET" TYPE_PRIV FLAGS_NO_OVERLAY 0;
    Ent 0x08 1 "INVD" TYPE_PRIV FLAGS_NO_OVERLAY 0;
    Ent 0x09 1 "WBINVD" TYPE_PRIV FLAGS_NO_OVERLAY 0;
    Ent 0x0A 1 "" TYPE_INVALID FLAGS_NO_OVERLAY 0;
    Ent 0x0B 1 "UD2" TYPE_INST (FLAGS_DEBUG .| FLAGS_BLOCK_END .| FLAGS_NO_OVERLAY) 0;
    Ent 0x0C 1 "" TYPE_INVALID FLAGS_NO_OVERLAY 0;
    Ent 0x0D 1 "" TYPE_GROUP_P (FLAGS_MODRM .| FLAGS_NO_OVERLAY) 0;
    Ent 0x0E 1 "FEMMS" TYPE_INST FLAGS_NO_OVERLAY 0;
    Ent 0x0F 1 "" TYPE_3DNOW_TABLE FLAGS_NO_OVERLAY 0;
    Ent 0x10 1 "MOVUPS" TYPE_INST (GenFlagsSameSize SIZE_128BIT .| FLAGS_MODRM .| FLAGS_XMM_FLAGS) 0;
    Ent 0x11 1 "MOVUPS" TYPE_INST (GenFlagsSameSize SIZE_128BIT .| FLAGS_MODRM .| FLAGS_SF_MOD_DST .| FLAGS_XMM_FLAGS) 0;
    Ent 0x12 1 "MOVLPS" TYPE_INST (GenFlagsSameSize SIZE_128BIT .| FLAGS_MODRM .| FLAGS_SF_MOD_MEM_ONLY .| FLAGS_XMM_FLAGS) 0;
    Ent 0x13 1 "MOVLPS" TYPE_INST (GenFlagsSameSize SIZE_128BIT .| FLAGS_MODRM .| FLAGS_SF_MOD_MEM_ONLY .| FLAGS_SF_MOD_DST .| FLAGS_XMM_FLAGS) 0;
    Ent 0x14 1 "UNPCKLPS" TYPE_INST (GenFlagsSameSize SIZE_128BIT .| FLAGS_MODRM .| FLAGS_XMM_FLAGS) 0;
    Ent 0x15 1 "UNPCKHPS" TYPE_INST (GenFlagsSameSize SIZE_128BIT .| FLAGS_MODRM .| FLAGS_XMM_FLAGS) 0;
    Ent 0x16 1 "MOVLHPS" TYPE_INST (GenFlagsSameSize SIZE_128BIT .| FLAGS_MODRM .| FLAGS_XMM_FLAGS) 0;
    Ent 0x17 1 "MOVHPS" TYPE_INST (GenFlagsSameSize SIZE_64BIT .| FLAGS_SF_HIGH_XMM_REG .| FLAGS_MODRM .| FLAGS_SF_MOD_DST .| FLAGS_SF_MOD_MEM_ONLY .| FLAGS_XMM_FLAGS) 0;
    Ent 0x18 1 "" TYPE_GROUP_16 FLAGS_NO_OVERLAY 0;
    Ent 0x19 7 "NOP" TYPE_INST (FLAGS_DEBUG .| FLAGS_MODRM .| FLAGS_NO_OVERLAY) 0;
    Ent 0x20 2 "MOV" TYPE_PRIV (GenFlagsSameSize SIZE_64BIT .| FLAGS_NO_OVERLAY) 0;
    Ent 0x22 2 "MOV" TYPE_PRIV (GenFlagsSameSize SIZE_64BIT .| FLAGS_NO_OVERLAY) 0;
    Ent 0x24 4 "" TYPE_INVALID FLAGS_NONE 0;
    Ent 0x28 1 "MOVAPS" TYPE_INST (GenFlagsSameSize SIZE_128BIT .| FLAGS_MODRM .| FLAGS_XMM_FLAGS) 0;
    Ent 0x29 1 "MOVAPS" TYPE_INST (GenFlagsSameSize SIZE_128BIT .| FLAGS_MODRM .| FLAGS_SF_MOD_DST .| FLAGS_XMM_FLAGS) 0;
    Ent 0x2A 1 "CVTPI2PS" TYPE_INST (GenFlagsSizes SIZE_128BIT SIZE_64BIT .| FLAGS_MODRM .| FLAGS_XMM_FLAGS .| FLAGS_SF_MMX_SRC) 0;
    Ent 0x2B 1 "MOVNTPS" TYPE_INST (GenFlagsSameSize SIZE_128BIT .| FLAGS_MODRM .| FLAGS_SF_MOD_MEM_ONLY .| FLAGS_SF_MOD_DST .| FLAGS_XMM_FLAGS) 0;
    Ent 0x2C 1 "CVTTPS2PI" TYPE_INST (GenFlagsSameSize SIZE_64BIT .| FLAGS_MODRM .| FLAGS_XMM_FLAGS .| FLAGS_SF_MMX_DST) 0;
    Ent 0x2D 1 "CVTPS2PI" TYPE_INST (GenFlagsSameSize SIZE_64BIT .| FLAGS_MODRM .| FLAGS_XMM_FLAGS .| FLAGS_SF_MMX_DST) 0;
    Ent 0x2E 1 "UCOMISS" TYPE_INST (GenFlagsSizes SIZE_128BIT SIZE_32BIT .| FLAGS_MODRM .| FLAGS_XMM_FLAGS) 0;
    Ent 0x2F 1 "COMISS" TYPE_INST (GenFlagsSizes SIZE_128BIT SIZE_32BIT .| FLAGS_MODRM .| FLAGS_XMM_FLAGS) 0;
    Ent 0x30 1 "WRMSR" TYPE_PRIV FLAGS_NO_OVERLAY 0;
    Ent 0x31 1 "RDTSC" TYPE_INST (FLAGS_DEBUG .| FLAGS_NO_OVERLAY) 0;
    Ent 0x32 1 "RDMSR" TYPE_PRIV FLAGS_NO_OVERLAY 0;
    Ent 0x33 1 "RDPMC" TYPE_PRIV FLAGS_NO_OVERLAY 0;
    Ent 0x34 1 "SYSENTER" TYPE_PRIV FLAGS_NO_OVERLAY 0;
    Ent 0x35 1 "SYSEXIT" TYPE_PRIV FLAGS_NO_OVERLAY 0;
    Ent 0x38 1 "" TYPE_0F38_TABLE FLAGS_NO_OVERLAY 0;
    Ent 0x39 1 "" TYPE_INVALID FLAGS_NO_OVERLAY 0;
    Ent 0x3A 1 "" TYPE_0F3A_TABLE FLAGS_NO_OVERLAY 0;
    Ent 0x3B 4 "" TYPE_INVALID FLAGS_NO_OVERLAY 0;
    Ent 0x40 1 "CMOVO" TYPE_INST (FLAGS_MODRM .| FLAGS_NO_OVERLAY) 0;
    Ent 0x41 1 "CMOVNO" TYPE_INST (FLAGS_MODRM .| FLAGS_NO_OVERLAY) 0;
    Ent 0x42 1 "CMOVB" TYPE_INST (FLAGS_MODRM .| FLAGS_NO_OVERLAY) 0;
    Ent 0x43 1 "CMOVNB" TYPE_INST (FLAGS_MODRM .| FLAGS_NO_OVERLAY) 0;
    Ent 0x44 1 "CMOVZ" TYPE_INST (FLAGS_MODRM .| FLAGS_NO_OVERLAY) 0;
    Ent 0x45 1 "CMOVNZ" TYPE_INST (FLAGS_MODRM .| FLAGS_NO_OVERLAY) 0;
    Ent 0x46 1 "CMOVBE" TYPE_INST (FLAGS_MODRM .| FLAGS_NO_OVERLAY) 0;
    Ent 0x47 1 "CMOVNBE" TYPE_INST (FLAGS_MODRM .| FLAGS_NO_OVERLAY) 0;
    Ent 0x48 1 "CMOVS" TYPE_INST (FLAGS_MODRM .| FLAGS_NO_OVERLAY) 0;
    Ent 0x49 1 "CMOVNS" TYPE_INST (FLAGS_MODRM .| FLAGS_NO_OVERLAY) 0;
    Ent 0x4A 1 "CMOVP" TYPE_INST (FLAGS_MODRM .| FLAGS_NO_OVERLAY) 0;
    Ent 0x4B 1 "CMOVNP" TYPE_INST (FLAGS_MODRM .| FLAGS_NO_OVERLAY) 0;
    Ent 0x4C 1 "CMOVL" TYPE_INST (FLAGS_MODRM .| FLAGS_NO_OVERLAY) 0;
    Ent 0x4D 1 "CMOVNL" TYPE_INST (FLAGS_MODRM .| FLAGS_NO_OVERLAY) 0;
    Ent 0x4E 1 "CMOVLE" TYPE_INST (FLAGS_MODRM .| FLAGS_NO_OVERLAY) 0;
    Ent 0x4F 1 "CMOVNLE" TYPE_INST (FLAGS_MODRM .| FLAGS_NO_OVERLAY) 0;
    Ent 0x50 1 "MOVMSKPS" TYPE_INST (GenFlagsSizes SIZE_32BIT SIZE_128BIT .| FLAGS_MODRM .| FLAGS_SF_MOD_REG_ONLY .| FLAGS_XMM_FLAGS .| FLAGS_SF_DST_GPR) 0;
    Ent 0x51 1 "SQRTPS" TYPE_INST (GenFlagsSameSize SIZE_128BIT .| FLAGS_MODRM .| FLAGS_XMM_FLAGS) 0;
    Ent 0x52 1 "RSQRTPS" TYPE_INST (GenFlagsSameSize SIZE_128BIT .| FLAGS_MODRM .| FLAGS_XMM_FLAGS) 0;
    Ent 0x53 1 "RCPPS" TYPE_INST (GenFlagsSameSize SIZE_128BIT .| FLAGS_MODRM .| FLAGS_XMM_FLAGS) 0;
    Ent 0x54 1 "ANDPS" TYPE_INST (GenFlagsSameSize SIZE_128BIT .| FLAGS_MODRM .| FLAGS_XMM_FLAGS) 0;
    Ent 0x55 1 "ANDNPS" TYPE_INST (GenFlagsSameSize SIZE_128BIT .| FLAGS_MODRM .| FLAGS_XMM_FLAGS) 0;
    Ent 0x56 1 "ORPS" TYPE_INST (GenFlagsSameSize SIZE_128BIT .| FLAGS_MODRM .| FLAGS_XMM_FLAGS) 0;
    Ent 0x57 1 "XORPS" TYPE_INST (GenFlagsSameSize SIZE_128BIT .| FLAGS_MODRM .| FLAGS_XMM_FLAGS) 0;
    Ent 0x58 1 "ADDPS" TYPE_INST (GenFlagsSameSize SIZE_128BIT .| FLAGS_MODRM .| FLAGS_XMM_FLAGS) 0;
    Ent 0x59 1 "MULPS" TYPE_INST (GenFlagsSameSize SIZE_128BIT .| FLAGS_MODRM .| FLAGS_XMM_FLAGS) 0;
    Ent 0x5A 1 "CVTPS2PD" TYPE_INST (GenFlagsSameSize SIZE_128BIT .| FLAGS_MODRM .| FLAGS_XMM_FLAGS) 0;
    Ent 0x5B 1 "CVTDQ2PS" TYPE_INST (GenFlagsSameSize SIZE_128BIT .| FLAGS_MODRM .| FLAGS_XMM_FLAGS) 0;
    Ent 0x5C 1 "SUBPS" TYPE_INST (GenFlagsSameSize SIZE_128BIT .| FLAGS_MODRM .| FLAGS_XMM_FLAGS) 0;
    Ent 0x5D 1 "MINPS" TYPE_INST (GenFlagsSameSize SIZE_128BIT .| FLAGS_MODRM .| FLAGS_XMM_FLAGS) 0;
    Ent 0x5E 1 "DIVPS" TYPE_INST (GenFlagsSameSize SIZE_128BIT .| FLAGS_MODRM .| FLAGS_XMM_FLAGS) 0;
    Ent 0x5F 1 "MAXPS" TYPE_INST (GenFlagsSameSize SIZE_128BIT .| FLAGS_MODRM .| FLAGS_XMM_FLAGS) 0
  ].
Definition TwoByteOpTable_60 : list Entry := [
    Ent 0x60 1 "PUNPCKLBW" TYPE_INST (GenFlagsSameSize SIZE_64BIT .| FLAGS_MODRM .| FLAGS_XMM_FLAGS .| FLAGS_SF_MMX) 0;
    Ent 0x61 1 "PUNPCKLWD" TYPE_INST (GenFlagsSameSize SIZE_64BIT .| FLAGS_MODRM .| FLAGS_XMM_FLAGS .| FLAGS_SF_MMX) 0;
    Ent 0x62 1 "PUNPCKLDQ" TYPE_INST (GenFlagsSameSize SIZE_64BIT .| FLAGS_MODRM .| FLAGS_XMM_FLAGS .| FLAGS_SF_MMX) 0;
    Ent 0x63 1 "PACKSSWB" TYPE_INST (GenFlagsSameSize SIZE_64BIT .| FLAGS_MODRM .| FLAGS_XMM_FLAGS .| FLAGS_SF_MMX) 0;
    Ent 0x64 1 "PCMPGTB" TYPE_INST (GenFlagsSameSize SIZE_64BIT .| FLAGS_MODRM .| FLAGS_XMM_FLAGS .| FLAGS_SF_MMX) 0;
    Ent 0x65 1 "PCMPGTW" TYPE_INST (GenFlagsSameSize SIZE_64BIT .| FLAGS_MODRM .| FLAGS_XMM_FLAGS .| FLAGS_SF_MMX) 0;
    Ent 0x66 1 "PCMPGTD" TYPE_INST (GenFlagsSameSize SIZE_64BIT .| FLAGS_MODRM .| FLAGS_XMM_FLAGS .| FLAGS_SF_MMX) 0;
    Ent 0x67 1 "PACKUSWB" TYPE_INST (GenFlagsSameSize SIZE_64BIT .| FLAGS_MODRM .| FLAGS_XMM_FLAGS .| FLAGS_SF_MMX) 0;
    Ent 0x68 1 "PUNPCKHBW" TYPE_INST (GenFlagsSameSize SIZE_64BIT .| FLAGS_MODRM .| FLAGS_XMM_FLAGS .| FLAGS_SF_MMX) 0;
    Ent 0x69 1 "PUNPCKHBD" TYPE_INST (GenFlagsSameSize SIZE_64BIT .| FLAGS_MODRM .| FLAGS_XMM_FLAGS .| FLAGS_SF_MMX) 0;
    Ent 0x6A 1 "PUNPCKHDQ" TYPE_INST (GenFlagsSameSize SIZE_64BIT .| FLAGS_MODRM .| FLAGS_XMM_FLAGS .| FLAGS_SF_MMX) 0;
    Ent 0x6B 1 "PACKSSDW" TYPE_INST (GenFlagsSameSize SIZE_64BIT .| FLAGS_MODRM .| FLAGS_XMM_FLAGS .| FLAGS_SF_MMX) 0;
    Ent 0x6C 2 "" TYPE_INVALID FLAGS_NONE 0;
    Ent 0x6E 1 "MOVD" TYPE_INST (GenFlagsDstSize SIZE_64BIT .| FLAGS_MODRM .| FLAGS_SF_SRC_GPR .| FLAGS_XMM_FLAGS .| FLAGS_SF_MMX) 0;
    Ent 0x6F 1 "MOVQ" TYPE_INST (GenFlagsSameSize SIZE_64BIT .| FLAGS_MODRM .| FLAGS_XMM_FLAGS .| FLAGS_SF_MMX) 0;
    Ent 0x70 1 "PSHUFW" TYPE_INST (GenFlagsSameSize SIZE_64BIT .| FLAGS_MODRM .| FLAGS_XMM_FLAGS .| FLAGS_SF_MMX) 1;
    Ent 0x71 1 "" TYPE_GROUP_12 FLAGS_NO_OVERLAY 0;
    Ent 0x72 1 "" TYPE_GROUP_13 FLAGS_NO_OVERLAY 0;
    Ent 0x73 1 "" TYPE_GROUP_14 FLAGS_NO_OVERLAY 0;
    Ent 0x74 1 "PCMPEQB" TYPE_INST (GenFlagsSameSize SIZE_64BIT .| FLAGS_MODRM .| FLAGS_XMM_FLAGS .| FLAGS_SF_MMX) 0;
    Ent 0x75 1 "PCMPEQW" TYPE_INST (GenFlagsSameSize SIZE_64BIT .| FLAGS_MODRM .| FLAGS_XMM_FLAGS .| FLAGS_SF_MMX) 0;
    Ent 0x76 1 "PCMPEQD" TYPE_INST (GenFlagsSameSize SIZE_64BIT .| FLAGS_MODRM .| FLAGS_XMM_FLAGS .| FLAGS_SF_MMX) 0;
    Ent 0x77 1 "EMMS" TYPE_INST FLAGS_NONE 0;
    Ent 0x78 6 "" TYPE_INVALID FLAGS_NONE 0;
    Ent 0x7E 1 "MOVD" TYPE_INST (GenFlagsSrcSize SIZE_64BIT .| FLAGS_MODRM .| FLAGS_SF_MOD_DST .| FLAGS_SF_DST_GPR .| FLAGS_XMM_FLAGS .| FLAGS_SF_MMX) 0;
    Ent 0x7F 1 "MOVQ" TYPE_INST (GenFlagsSameSize SIZE_64BIT .| FLAGS_MODRM .| FLAGS_SF_MOD_DST .| FLAGS_XMM_FLAGS .| FLAGS_SF_MMX) 0;
    Ent 0x80 1 "JO" TYPE_INST (GenFlagsSameSize SIZE_64BITDEF .| FLAGS_SETS_RIP .| FLAGS_SRC_SEXT .| FLAGS_DISPLACE_SIZE_DIV_2 .| FLAGS_NO_OVERLAY) 4;
    Ent 0x81 1 "JNO" TYPE_INST (GenFlagsSameSize SIZE_64BITDEF .| FLAGS_SETS_RIP .| FLAGS_SRC_SEXT .| FLAGS_DISPLACE_SIZE_DIV_2 .| FLAGS_NO_OVERLAY) 4;
    Ent 0x82 1 "JB" TYPE_INST (GenFlagsSameSize SIZE_64BITDEF .| FLAGS_SETS_RIP .| FLAGS_SRC_SEXT .| FLAGS_DISPLACE_SIZE_DIV_2 .| FLAGS_NO_OVERLAY) 4;
    Ent 0x83 1 "JNB" TYPE_INST (GenFlagsSameSize SIZE_64BITDEF .| FLAGS_SETS_RIP .| FLAGS_SRC_SEXT .| FLAGS_DISPLACE_SIZE_DIV_2 .| FLAGS_NO_OVERLAY) 4;
    Ent 0x84 1 "JZ" TYPE_INST (GenFlagsSameSize SIZE_64BITDEF .| FLAGS_SETS_RIP .| FLAGS_SRC_SEXT .| FLAGS_DISPLACE_SIZE_DIV_2 .| FLAGS_NO_OVERLAY) 4;
    Ent 0x85 1 "JNZ" TYPE_INST (GenFlagsSameSize SIZE_64BITDEF .| FLAGS_SETS_RIP .| FLAGS_SRC_SEXT .| FLAGS_DISPLACE_SIZE_DIV_2 .| FLAGS_NO_OVERLAY) 4;
    Ent 0x86 1 "JBE" TYPE_INST (GenFlagsSameSize SIZE_64BITDEF .| FLAGS_SETS_RIP .| FLAGS_SRC_SEXT .| FLAGS_DISPLACE_SIZE_DIV_2 .| FLAGS_NO_OVERLAY) 4;
    Ent 0x87 1 "JNBE" TYPE_INST (GenFlagsSameSize SIZE_64BITDEF .| FLAGS_SETS_RIP .| FLAGS_SRC_SEXT .| FLAGS_DISPLACE_SIZE_DIV_2 .| FLAGS_NO_OVERLAY) 4;
    Ent 0x88 1 "JS" TYPE_INST (GenFlagsSameSize SIZE_64BITDEF .| FLAGS_SETS_RIP .| FLAGS_SRC_SEXT .| FLAGS_DISPLACE_SIZE_DIV_2 .| FLAGS_NO_OVERLAY) 4;
    Ent 0x89 1 "JNS" TYPE_INST (GenFlagsSameSize SIZE_64BITDEF .| FLAGS_SETS_RIP .| FLAGS_SRC_SEXT .| FLAGS_DISPLACE_SIZE_DIV_2 .| FLAGS_NO_OVERLAY) 4;
    Ent 0x8A 1 "JP" TYPE_INST (GenFlagsSameSize SIZE_64BITDEF .| FLAGS_SETS_RIP .| FLAGS_SRC_SEXT .| FLAGS_DISPLACE_SIZE_DIV_2 .| FLAGS_NO_OVERLAY) 4;
    Ent 0x8B 1 "JNP" TYPE_INST (GenFlagsSameSize SIZE_64BITDEF .| FLAGS_SETS_RIP .| FLAGS_SRC_SEXT .| FLAGS_DISPLACE_SIZE_DIV_2 .| FLAGS_NO_OVERLAY) 4;
    Ent 0x8C 1 "JL" TYPE_INST (GenFlagsSameSize SIZE_64BITDEF .| FLAGS_SETS_RIP .| FLAGS_SRC_SEXT .| FLAGS_DISPLACE_SIZE_DIV_2 .| FLAGS_NO_OVERLAY) 4;
    Ent 0x8D 1 "JNL" TYPE_INST (GenFlagsSameSize SIZE_64BITDEF .| FLAGS_SETS_RIP .| FLAGS_SRC_SEXT .| FLAGS_DISPLACE_SIZE_DIV_2 .| FLAGS_NO_OVERLAY) 4;
    Ent 0x8E 1 "JLE" TYPE_INST (GenFlagsSameSize SIZE_64BITDEF .| FLAGS_SETS_RIP .| FLAGS_SRC_SEXT .| FLAGS_DISPLACE_SIZE_DIV_2 .| FLAGS_NO_OVERLAY) 4;
    Ent 0x8F 1 "JNLE" TYPE_INST (GenFlagsSameSize SIZE_64BITDEF .| FLAGS_SETS_RIP .| FLAGS_SRC_SEXT .| FLAGS_DISPLACE_SIZE_DIV_2 .| FLAGS_NO_OVERLAY) 4
  ].
Definition TwoByteOpTable_90 : list Entry := [
    Ent 0x90 1 "SETO" TYPE_INST (GenFlagsSameSize SIZE_8BIT .| FLAGS_MODRM .| FLAGS_SF_MOD_DST .| FLAGS_NO_OVERLAY) 0;
    Ent 0x91 1 "SETNO" TYPE_INST (GenFlagsSameSize SIZE_8BIT .| FLAGS_MODRM .| FLAGS_SF_MOD_DST .| FLAGS_NO_OVERLAY) 0;
    Ent 0x92 1 "SETB" TYPE_INST (GenFlagsSameSize SIZE_8BIT .| FLAGS_MODRM .| FLAGS_SF_MOD_DST .| FLAGS_NO_OVERLAY) 0;
    Ent 0x93 1 "SETNB" TYPE_INST (GenFlagsSameSize SIZE_8BIT .| FLAGS_MODRM .| FLAGS_SF_MOD_DST .| FLAGS_NO_OVERLAY) 0;
    Ent 0x94 1 "SETZ" TYPE_INST (GenFlagsSameSize SIZE_8BIT .| FLAGS_MODRM .| FLAGS_SF_MOD_DST .| FLAGS_NO_OVERLAY) 0;
    Ent 0x95 1 "SETNZ" TYPE_INST (GenFlagsSameSize SIZE_8BIT .| FLAGS_MODRM .| FLAGS_SF_MOD_DST .| FLAGS_NO_OVERLAY) 0;
    Ent 0x96 1 "SETBE" TYPE_INST (GenFlagsSameSize SIZE_8BIT .| FLAGS_MODRM .| FLAGS_SF_MOD_DST .| FLAGS_NO_OVERLAY) 0;
    Ent 0x97 1 "SETNBE" TYPE_INST (GenFlagsSameSize SIZE_8BIT .| FLAGS_MODRM .| FLAGS_SF_MOD_DST .| FLAGS_NO_OVERLAY) 0;
    Ent 0x98 1 "SETS" TYPE_INST (GenFlagsSameSize SIZE_8BIT .| FLAGS_MODRM .| FLAGS_SF_MOD_DST .| FLAGS_NO_OVERLAY) 0;
    Ent 0x99 1 "SETNS" TYPE_INST (GenFlagsSameSize SIZE_8BIT .| FLAGS_MODRM .| FLAGS_SF_MOD_DST .| FLAGS_NO_OVERLAY) 0;
    Ent 0x9A 1 "SETP" TYPE_INST (GenFlagsSameSize SIZE_8BIT .| FLAGS_MODRM .| FLAGS_SF_MOD_DST .| FLAGS_NO_OVERLAY) 0;
    Ent 0x9B 1 "SETNP" TYPE_INST (GenFlagsSameSize SIZE_8BIT .| FLAGS_MODRM .| FLAGS_SF_MOD_DST .| FLAGS_NO_OVERLAY) 0;
    Ent 0x9C 1 "SETL" TYPE_INST (GenFlagsSameSize SIZE_8BIT .| FLAGS_MODRM .| FLAGS_SF_MOD_DST .| FLAGS_NO_OVERLAY) 0;
    Ent 0x9D 1 "SETNL" TYPE_INST (GenFlagsSameSize SIZE_8BIT .| FLAGS_MODRM .| FLAGS_SF_MOD_DST .| FLAGS_NO_OVERLAY) 0;
    Ent 0x9E 1 "SETLE" TYPE_INST (GenFlagsSameSize SIZE_8BIT .| FLAGS_MODRM .| FLAGS_SF_MOD_DST .| FLAGS_NO_OVERLAY) 0;
    Ent 0x9F 1 "SETNLE" TYPE_INST (GenFlagsSameSize SIZE_8BIT .| FLAGS_MODRM .| FLAGS_SF_MOD_DST .| FLAGS_NO_OVERLAY) 0;
    Ent 0xA2 1 "CPUID" TYPE_INST (FLAGS_DEBUG .| FLAGS_SF_SRC_RAX .| FLAGS_NO_OVERLAY) 0;
    Ent 0xA3 1 "BT" TYPE_INST (FLAGS_DEBUG_MEM_ACCESS .| FLAGS_MODRM .| FLAGS_SF_MOD_DST .| FLAGS_NO_OVERLAY) 0;
    Ent 0xA4 1 "SHLD" TYPE_INST (FLAGS_MODRM .| FLAGS_SF_MOD_DST .| FLAGS_NO_OVERLAY) 1;
    Ent 0xA5 1 "SHLD" TYPE_INST (FLAGS_MODRM .| FLAGS_SF_MOD_DST .| FLAGS_SF_SRC_RCX .| FLAGS_NO_OVERLAY) 0;
    Ent 0xA6 2 "" TYPE_INVALID FLAGS_NO_OVERLAY 0;
    Ent 0xAA 1 "RSM" TYPE_PRIV FLAGS_NO_OVERLAY 0;
    Ent 0xAB 1 "BTS" TYPE_INST (FLAGS_DEBUG_MEM_ACCESS .| FLAGS_MODRM .| FLAGS_SF_MOD_DST .| FLAGS_NO_OVERLAY) 0;
    Ent 0xAC 1 "SHRD" TYPE_INST (FLAGS_MODRM .| FLAGS_SF_MOD_DST .| FLAGS_NO_OVERLAY) 1;
    Ent 0xAD 1 "SHRD" TYPE_INST (FLAGS_MODRM .| FLAGS_SF_MOD_DST .| FLAGS_SF_SRC_RCX .| FLAGS_NO_OVERLAY) 0;
    Ent 0xAE 1 "" TYPE_GROUP_15 FLAGS_NO_OVERLAY 0;
    Ent 0xAF 1 "IMUL" TYPE_INST (FLAGS_MODRM .| FLAGS_NO_OVERLAY) 0;
    Ent 0xB0 1 "CMPXCHG" TYPE_INST (GenFlagsSameSize SIZE_8BIT .| FLAGS_MODRM .| FLAGS_SF_MOD_DST .| FLAGS_NO_OVERLAY) 0;
    Ent 0xB1 1 "CMPXCHG" TYPE_INST (FLAGS_MODRM .| FLAGS_SF_MOD_DST .| FLAGS_NO_OVERLAY) 0;
    Ent 0xB2 1 "LSS" TYPE_INVALID FLAGS_NO_OVERLAY 0;
    Ent 0xB3 1 "BTR" TYPE_INST (FLAGS_DEBUG_MEM_ACCESS .| FLAGS_MODRM .| FLAGS_SF_MOD_DST .| FLAGS_NO_OVERLAY) 0;
    Ent 0xB4 1 "LFS" TYPE_INVALID FLAGS_NO_OVERLAY 0;
    Ent 0xB5 1 "LGS" TYPE_INVALID FLAGS_NO_OVERLAY 0;
    Ent 0xB6 1 "MOVZX" TYPE_INST (GenFlagsSrcSize SIZE_8BIT .| FLAGS_MODRM .| FLAGS_NO_OVERLAY) 0;
    Ent 0xB7 1 "MOVZX" TYPE_INST (GenFlagsSrcSize SIZE_16BIT .| FLAGS_MODRM .| FLAGS_NO_OVERLAY) 0;
    Ent 0xB8 1 "" TYPE_INVALID FLAGS_NONE 0;
    Ent 0xB9 1 "" TYPE_GROUP_10 FLAGS_NO_OVERLAY 0;
    Ent 0xBA 1 "" TYPE_GROUP_8 FLAGS_NO_OVERLAY 0;
    Ent 0xBB 1 "BTC" TYPE_INST (FLAGS_DEBUG_MEM_ACCESS .| FLAGS_MODRM .| FLAGS_SF_MOD_DST .| FLAGS_NO_OVERLAY) 0;
    Ent 0xBC 1 "BSF" TYPE_INST (FLAGS_MODRM .| FLAGS_NO_OVERLAY66) 0;
    Ent 0xBD 1 "BSR" TYPE_INST (FLAGS_MODRM .| FLAGS_NO_OVERLAY66) 0;
    Ent 0xBE 1 "MOVSX" TYPE_INST (GenFlagsSrcSize SIZE_8BIT .| FLAGS_MODRM .| FLAGS_NO_OVERLAY) 0;
    Ent 0xBF 1 "MOVSX" TYPE_INST (GenFlagsSrcSize SIZE_16BIT .| FLAGS_MODRM .| FLAGS_NO_OVERLAY) 0;
    Ent 0xC0 1 "XADD" TYPE_INST (GenFlagsSameSize SIZE_8BIT .| FLAGS_MODRM .| FLAGS_SF_MOD_DST) 0;
    Ent 0xC1 1 "XADD" TYPE_INST (FLAGS_MODRM .| FLAGS_SF_MOD_DST .| FLAGS_NO_OVERLAY) 0;
    Ent 0xC2 1 "CMPPS" TYPE_INST (GenFlagsSameSize SIZE_128BIT .| FLAGS_MODRM .| FLAGS_XMM_FLAGS) 1;
    Ent 0xC3 1 "MOVNTI" TYPE_INST (FLAGS_MODRM .| FLAGS_SF_MOD_MEM_ONLY .| FLAGS_SF_MOD_DST) 0;
    Ent 0xC4 1 "PINSRW" TYPE_INST (GenFlagsSizes SIZE_64BIT SIZE_16BIT .| FLAGS_MODRM .| FLAGS_XMM_FLAGS .| FLAGS_SF_MMX .| FLAGS_SF_SRC_GPR) 1;
    Ent 0xC5 1 "PEXTRW" TYPE_INST (GenFlagsSizes SIZE_32BIT SIZE_64BIT .| FLAGS_MODRM .| FLAGS_SF_MOD_REG_ONLY .| FLAGS_SF_DST_GPR .| FLAGS_XMM_FLAGS .| FLAGS_SF_MMX) 1;
    Ent 0xC6 1 "SHUFPS" TYPE_INST (GenFlagsSameSize SIZE_128BIT .| FLAGS_MODRM .| FLAGS_XMM_FLAGS) 1;
    Ent 0xC7 1 "" TYPE_GROUP_9 FLAGS_NO_OVERLAY 0;
    Ent 0xC8 8 "BSWAP" TYPE_INST (FLAGS_SF_REX_IN_BYTE .| FLAGS_NO_OVERLAY) 0;
    Ent 0xD0 1 "" TYPE_INVALID FLAGS_NONE 0
  ].
Definition TwoByteOpTable_D0 : list Entry := [
    Ent 0xD1 1 "PSRLW" TYPE_INST (GenFlagsSameSize SIZE_64BIT .| FLAGS_MODRM .| FLAGS_XMM_FLAGS .| FLAGS_SF_MMX) 0;
    Ent 0xD2 1 "PSRLD" TYPE_INST (GenFlagsSameSize SIZE_64BIT .| FLAGS_MODRM .| FLAGS_XMM_FLAGS .| FLAGS_SF_MMX) 0;
    Ent 0xD3 1 "PSRLQ" TYPE_INST (GenFlagsSameSize SIZE_64BIT .| FLAGS_MODRM .| FLAGS_XMM_FLAGS .| FLAGS_SF_MMX) 0;
    Ent 0xD4 1 "PADDQ" TYPE_INST (GenFlagsSameSize SIZE_64BIT .| FLAGS_MODRM .| FLAGS_XMM_FLAGS .| FLAGS_SF_MMX) 0;
    Ent 0xD5 1 "PMULLW" TYPE_INST (GenFlagsSameSize SIZE_64BIT .| FLAGS_MODRM .| FLAGS_XMM_FLAGS .| FLAGS_SF_MMX) 0;
    Ent 0xD6 1 "" TYPE_INVALID FLAGS_NONE 0;
    Ent 0xD7 1 "PMOVMSKB" TYPE_INST (GenFlagsSizes SIZE_32BIT SIZE_64BIT .| FLAGS_MODRM .| FLAGS_SF_MOD_REG_ONLY .| FLAGS_XMM_FLAGS .| FLAGS_SF_DST_GPR .| FLAGS_SF_MMX_SRC) 0;
    Ent 0xD8 1 "PSUBUSB" TYPE_INST (GenFlagsSameSize SIZE_64BIT .| FLAGS_MODRM .| FLAGS_XMM_FLAGS .| FLAGS_SF_MMX) 0;
    Ent 0xD9 1 "PSUBUSW" TYPE_INST (GenFlagsSameSize SIZE_64BIT .| FLAGS_MODRM .| FLAGS_XMM_FLAGS .| FLAGS_SF_MMX) 0;
    Ent 0xDA 1 "PMINUB" TYPE_INST (GenFlagsSameSize SIZE_64BIT .| FLAGS_MODRM .| FLAGS_XMM_FLAGS .| FLAGS_SF_MMX) 0;
    Ent 0xDB 1 "PAND" TYPE_INST (GenFlagsSameSize SIZE_64BIT .| FLAGS_MODRM .| FLAGS_XMM_FLAGS .| FLAGS_SF_MMX) 0;
    Ent 0xDC 1 "PADDUSB" TYPE_INST (GenFlagsSameSize SIZE_64BIT .| FLAGS_MODRM .| FLAGS_XMM_FLAGS .| FLAGS_SF_MMX) 0;
    Ent 0xDD 1 "PADDUSW" TYPE_INST (GenFlagsSameSize SIZE_64BIT .| FLAGS_MODRM .| FLAGS_XMM_FLAGS .| FLAGS_SF_MMX) 0;
    Ent 0xDE 1 "PMAXUB" TYPE_INST (GenFlagsSameSize SIZE_64BIT .| FLAGS_MODRM .| FLAGS_XMM_FLAGS .| FLAGS_SF_MMX) 0;
    Ent 0xDF 1 "PANDN" TYPE_INST (GenFlagsSameSize SIZE_64BIT .| FLAGS_MODRM .| FLAGS_XMM_FLAGS .| FLAGS_SF_MMX) 0;
    Ent 0xE0 1 "PAVGB" TYPE_INST (GenFlagsSameSize SIZE_64BIT .| FLAGS_MODRM .| FLAGS_XMM_FLAGS .| FLAGS_SF_MMX) 0;
    Ent 0xE1 1 "PSRAW" TYPE_INST (GenFlagsSameSize SIZE_64BIT .| FLAGS_MODRM .| FLAGS_XMM_FLAGS .| FLAGS_SF_MMX) 0;
    Ent 0xE2 1 "PSRAD" TYPE_INST (GenFlagsSameSize SIZE_64BIT .| FLAGS_MODRM .| FLAGS_XMM_FLAGS .| FLAGS_SF_MMX) 0;
    Ent 0xE3 1 "PAVGW" TYPE_INST (GenFlagsSameSize SIZE_64BIT .| FLAGS_MODRM .| FLAGS_XMM_FLAGS .| FLAGS_SF_MMX) 0;
    Ent 0xE4 1 "PMULHUW" TYPE_INST (GenFlagsSameSize SIZE_64BIT .| FLAGS_MODRM .| FLAGS_XMM_FLAGS .| FLAGS_SF_MMX) 0;
    Ent 0xE5 1 "PMULHW" TYPE_INST (GenFlagsSameSize SIZE_64BIT .| FLAGS_MODRM .| FLAGS_XMM_FLAGS .| FLAGS_SF_MMX) 0;
    Ent 0xE6 1 "" TYPE_INVALID FLAGS_NONE 0;
    Ent 0xE7 1 "MOVNTQ" TYPE_INST (GenFlagsSameSize SIZE_64BIT .| FLAGS_MODRM .| FLAGS_SF_MOD_DST .| FLAGS_XMM_FLAGS .| FLAGS_SF_MMX) 0;
    Ent 0xE8 1 "PSUBSB" TYPE_INST (GenFlagsSameSize SIZE_64BIT .| FLAGS_MODRM .| FLAGS_XMM_FLAGS .| FLAGS_SF_MMX) 0;
    Ent 0xE9 1 "PSUBSW" TYPE_INST (GenFlagsSameSize SIZE_64BIT .| FLAGS_MODRM .| FLAGS_XMM_FLAGS .| FLAGS_SF_MMX) 0;
    Ent 0xEA 1 "PMINSW" TYPE_INST (GenFlagsSameSize SIZE_64BIT .| FLAGS_MODRM .| FLAGS_XMM_FLAGS .| FLAGS_SF_MMX) 0;
    Ent 0xEB 1 "POR" TYPE_INST (GenFlagsSameSize SIZE_64BIT .| FLAGS_MODRM .| FLAGS_XMM_FLAGS .| FLAGS_SF_MMX) 0;
    Ent 0xEC 1 "PADDSB" TYPE_INST (GenFlagsSameSize SIZE_64BIT .| FLAGS_MODRM .| FLAGS_XMM_FLAGS .| FLAGS_SF_MMX) 0;
    Ent 0xED 1 "PADDSW" TYPE_INST (GenFlagsSameSize SIZE_64BIT .| FLAGS_MODRM .| FLAGS_XMM_FLAGS .| FLAGS_SF_MMX) 0;
    Ent 0xEE 1 "PMAXSW" TYPE_INST (GenFlagsSameSize SIZE_64BIT .| FLAGS_MODRM .| FLAGS_XMM_FLAGS .| FLAGS_SF_MMX) 0;
    Ent 0xEF 1 "PXOR" TYPE_INST (GenFlagsSameSize SIZE_64BIT .| FLAGS_MODRM .| FLAGS_XMM_FLAGS .| FLAGS_SF_MMX) 0;
    Ent 0xF0 1 "" TYPE_INVALID FLAGS_NONE 0;
    Ent 0xF1 1 "PSLLW" TYPE_INST (GenFlagsSameSize SIZE_64BIT .| FLAGS_MODRM .| FLAGS_XMM_FLAGS .| FLAGS_SF_MMX) 0;
    Ent 0xF2 1 "PSLLD" TYPE_INST (GenFlagsSameSize SIZE_64BIT .| FLAGS_MODRM .| FLAGS_XMM_FLAGS .| FLAGS_SF_MMX) 0;
    Ent 0xF3 1 "PSLLQ" TYPE_INST (GenFlagsSameSize SIZE_64BIT .| FLAGS_MODRM .| FLAGS_XMM_FLAGS .| FLAGS_SF_MMX) 0;
    Ent 0xF4 1 "PMULUDQ" TYPE_INST (GenFlagsSameSize SIZE_64BIT .| FLAGS_MODRM .| FLAGS_XMM_FLAGS .| FLAGS_SF_MMX) 0;
    Ent 0xF5 1 "PMADDWD" TYPE_INST (GenFlagsSameSize SIZE_64BIT .| FLAGS_MODRM .| FLAGS_XMM_FLAGS .| FLAGS_SF_MMX) 0;
    Ent 0xF6 1 "PSADBW" TYPE_INST (GenFlagsSameSize SIZE_64BIT .| FLAGS_MODRM .| FLAGS_XMM_FLAGS .| FLAGS_SF_MMX) 0;
    Ent 0xF7 1 "MASKMOVQ" TYPE_INST (GenFlagsSameSize SIZE_64BIT .| FLAGS_MODRM .| FLAGS_XMM_FLAGS .| FLAGS_SF_MMX) 0;
    Ent 0xF8 1 "PSUBB" TYPE_INST (GenFlagsSameSize SIZE_64BIT .| FLAGS_MODRM .| FLAGS_XMM_FLAGS .| FLAGS_SF_MMX) 0;
    Ent 0xF9 1 "PSUBW" TYPE_INST (GenFlagsSameSize SIZE_64BIT .| FLAGS_MODRM .| FLAGS_XMM_FLAGS .| FLAGS_SF_MMX) 0;
    Ent 0xFA 1 "PSUBD" TYPE_INST (GenFlagsSameSize SIZE_64BIT .| FLAGS_MODRM .| FLAGS_XMM_FLAGS .| FLAGS_SF_MMX) 0;
    Ent 0xFB 1 "PSUBQ" TYPE_INST (GenFlagsSameSize SIZE_64BIT .| FLAGS_MODRM .| FLAGS_XMM_FLAGS .| FLAGS_SF_MMX) 0;
    Ent 0xFC 1 "PADDB" TYPE_INST (GenFlagsSameSize SIZE_64BIT .| FLAGS_MODRM .| FLAGS_XMM_FLAGS .| FLAGS_SF_MMX) 0;
    Ent 0xFD 1 "PADDW" TYPE_INST (GenFlagsSameSize SIZE_64BIT .| FLAGS_MODRM .| FLAGS_XMM_FLAGS .| FLAGS_SF_MMX) 0;
    Ent 0xFE 1 "PADDD" TYPE_INST (GenFlagsSameSize SIZE_64BIT .| FLAGS_MODRM .| FLAGS_XMM_FLAGS .| FLAGS_SF_MMX) 0;
    Ent 0xFF 1 "UD0" TYPE_INST (FLAGS_DEBUG .| FLAGS_BLOCK_END) 0;
    Ent 0x36 1 "SIGRET" TYPE_INST (FLAGS_BLOCK_END .| FLAGS_NO_OVERLAY .| FLAGS_SETS_RIP) 0;
    Ent 0x37 1 "CALLBACKRET" TYPE_INST (FLAGS_BLOCK_END .| FLAGS_NO_OVERLAY .| FLAGS_SETS_RIP) 0;
    Ent 0x3F 1 "ALTINST" TYPE_INST (FLAGS_BLOCK_END .| FLAGS_NO_OVERLAY .| FLAGS_SETS_RIP) 0
  ].
Definition TwoByteOpTable : list Entry := TwoByteOpTable_00 ++ TwoByteOpTable_60 ++ TwoByteOpTable_90 ++ TwoByteOpTable_D0.

Definition TwoByteOpTable_32 : list Entry := [
    Ent 0xA0 1 "PUSH FS" TYPE_INST (GenFlagsSrcSize SIZE_16BIT .| FLAGS_DEBUG_MEM_ACCESS .| FLAGS_NO_OVERLAY) 0;
    Ent 0xA1 1 "POP FS" TYPE_INST (GenFlagsSizes SIZE_16BIT SIZE_DEF .| FLAGS_DEBUG_MEM_ACCESS .| FLAGS_NO_OVERLAY) 0;
    Ent 0xA8 1 "PUSH GS" TYPE_INST (GenFlagsSrcSize SIZE_16BIT .| FLAGS_DEBUG_MEM_ACCESS .| FLAGS_NO_OVERLAY) 0;
    Ent 0xA9 1 "POP GS" TYPE_INST (GenFlagsSizes SIZE_16BIT SIZE_DEF .| FLAGS_DEBUG_MEM_ACCESS .| FLAGS_NO_OVERLAY) 0
  ].

Definition TwoByteOpTable_64 : list Entry := [
    Ent 0xA0 1 "PUSH FS" TYPE_INST (GenFlagsSameSize SIZE_64BIT .| FLAGS_DEBUG_MEM_ACCESS .| FLAGS_NO_OVERLAY) 0;
    Ent 0xA1 1 "POP FS" TYPE_INST (GenFlagsSizes SIZE_16BIT SIZE_64BIT .| FLAGS_DEBUG_MEM_ACCESS .| FLAGS_NO_OVERLAY) 0;
    Ent 0xA8 1 "PUSH GS" TYPE_INST (GenFlagsSameSize SIZE_64BIT .| FLAGS_DEBUG_MEM_ACCESS .| FLAGS_NO_OVERLAY) 0;
    Ent 0xA9 1 "POP GS" TYPE_INST (GenFlagsSizes SIZE_16BIT SIZE_64BIT .| FLAGS_DEBUG_MEM_ACCESS .| FLAGS_NO_OVERLAY) 0
  ].

Definition RepModOpTable : list Entry := [
    Ent 0x0 16 "" TYPE_COPY_OTHER FLAGS_NONE 0;
    Ent 0x10 1 "MOVSS" TYPE_INST (GenFlagsSameSize SIZE_128BIT .| FLAGS_MODRM .| FLAGS_XMM_FLAGS) 0;
    Ent 0x11 1 "MOVSS" TYPE_INST (GenFlagsSameSize SIZE_128BIT .| FLAGS_MODRM .| FLAGS_SF_MOD_DST .| FLAGS_XMM_FLAGS) 0;
    Ent 0x12 1 "MOVSLDUP" TYPE_INST (GenFlagsSameSize SIZE_128BIT .| FLAGS_MODRM .| FLAGS_XMM_FLAGS) 0;
    Ent 0x13 3 "" TYPE_INVALID FLAGS_NONE 0;
    Ent 0x16 1 "MOVSHDUP" TYPE_INST (GenFlagsSameSize SIZE_128BIT .| FLAGS_MODRM .| FLAGS_XMM_FLAGS) 0;
    Ent 0x17 2 "" TYPE_INVALID FLAGS_NONE 0;
    Ent 0x19 7 "" TYPE_COPY_OTHER FLAGS_NONE 0;
    Ent 0x20 4 "" TYPE_COPY_OTHER FLAGS_NONE 0;
    Ent 0x24 6 "" TYPE_INVALID FLAGS_NONE 0;
    Ent 0x2A 1 "CVTSI2SS" TYPE_INST (FLAGS_MODRM .| FLAGS_XMM_FLAGS .| FLAGS_SF_SRC_GPR) 0;
    Ent 0x2B 1 "MOVNTSS" TYPE_INST (GenFlagsSameSize SIZE_32BIT .| FLAGS_MODRM .| FLAGS_SF_MOD_MEM_ONLY .| FLAGS_SF_MOD_DST .| FLAGS_XMM_FLAGS) 0;
    Ent 0x2C 1 "CVTTSS2SI" TYPE_INST (FLAGS_MODRM .| FLAGS_XMM_FLAGS .| FLAGS_SF_DST_GPR) 0;
    Ent 0x2D 1 "CVTSS2SI" TYPE_INST (FLAGS_MODRM .| FLAGS_XMM_FLAGS .| FLAGS_SF_DST_GPR) 0;
    Ent 0x2E 2 "" TYPE_INVALID FLAGS_NONE 0;
    Ent 0x30 16 "" TYPE_COPY_OTHER FLAGS_NONE 0;
    Ent 0x40 16 "" TYPE_COPY_OTHER FLAGS_NONE 0;
    Ent 0x50 1 "" TYPE_INVALID FLAGS_NONE 0;
    Ent 0x51 1 "SQRTSS" TYPE_INST (FLAGS_MODRM .| FLAGS_XMM_FLAGS) 0;
    Ent 0x52 1 "RSQRTSS" TYPE_INST (FLAGS_MODRM .| FLAGS_XMM_FLAGS) 0;
    Ent 0x53 1 "RCPSS" TYPE_INST (FLAGS_MODRM .| FLAGS_XMM_FLAGS) 0;
    Ent 0x54 4 "" TYPE_INVALID FLAGS_NONE 0;
    Ent 0x58 1 "ADDSS" TYPE_INST (FLAGS_MODRM .| FLAGS_XMM_FLAGS) 0;
    Ent 0x59 1 "MULSS" TYPE_INST (FLAGS_MODRM .| FLAGS_XMM_FLAGS) 0;
    Ent 0x5A 1 "CVTSS2SD" TYPE_INST (GenFlagsSameSize SIZE_64BIT .| FLAGS_MODRM .| FLAGS_XMM_FLAGS) 0;
    Ent 0x5B 1 "CVTTPS2DQ" TYPE_INST (GenFlagsSameSize SIZE_128BIT .| FLAGS_MODRM .| FLAGS_XMM_FLAGS) 0;
    Ent 0x5C 1 "SUBSS" TYPE_INST (FLAGS_MODRM .| FLAGS_XMM_FLAGS) 0;
    Ent 0x5D 1 "MINSS" TYPE_INST (FLAGS_MODRM .| FLAGS_XMM_FLAGS) 0;
    Ent 0x5E 1 "DIVSS" TYPE_INST (FLAGS_MODRM .| FLAGS_XMM_FLAGS) 0;
    Ent 0x5F 1 "MAXSS" TYPE_INST (FLAGS_MODRM .| FLAGS_XMM_FLAGS) 0;
    Ent 0x60 8 "" TYPE_INVALID FLAGS_NONE 0;
    Ent 0x68 7 "" TYPE_INVALID FLAGS_NONE 0;
    Ent 0x6F 1 "MOVDQU" TYPE_INST (GenFlagsSameSize SIZE_128BIT .| FLAGS_MODRM .| FLAGS_XMM_FLAGS) 0;
    Ent 0x70 1 "PSHUFHW" TYPE_INST (GenFlagsSameSize SIZE_128BIT .| FLAGS_MODRM .| FLAGS_XMM_FLAGS) 1;
    Ent 0x71 3 "" TYPE_COPY_OTHER FLAGS_NONE 0;
    Ent 0x74 4 "" TYPE_INVALID FLAGS_NONE 0;
    Ent 0x78 6 "" TYPE_INVALID FLAGS_NONE 0;
    Ent 0x7E 1 "MOVQ" TYPE_INST (GenFlagsSameSize SIZE_64BIT .| FLAGS_MODRM .| FLAGS_XMM_FLAGS) 0;
    Ent 0x7F 1 "MOVDQU" TYPE_INST (GenFlagsSameSize SIZE_128BIT .| FLAGS_MODRM .| FLAGS_SF_MOD_DST .| FLAGS_XMM_FLAGS) 0;
    Ent 0x80 16 "" TYPE_COPY_OTHER FLAGS_NONE 0;
    Ent 0x90 16 "" TYPE_COPY_OTHER FLAGS_NONE 0;
    Ent 0xA0 16 "" TYPE_COPY_OTHER FLAGS_NONE 0;
    Ent 0xB0 8 "" TYPE_COPY_OTHER FLAGS_NONE 0;
    Ent 0xB8 1 "POPCNT" TYPE_INST FLAGS_MODRM 0;
    Ent 0xB9 1 "" TYPE_COPY_OTHER FLAGS_NONE 0;
    Ent 0xBA 1 "" TYPE_COPY_OTHER FLAGS_NONE 0;
    Ent 0xBB 1 "" TYPE_INVALID FLAGS_NONE 0;
    Ent 0xBC 1 "TZCNT" TYPE_INST FLAGS_MODRM 0;
    Ent 0xBD 1 "LZCNT" TYPE_INST FLAGS_MODRM 0;
    Ent 0xBE 2 "" TYPE_INVALID FLAGS_NONE 0;
    Ent 0xC0 2 "" TYPE_COPY_OTHER FLAGS_NONE 0;
    Ent 0xC2 1 "CMPSS" TYPE_INST (GenFlagsSizes SIZE_128BIT SIZE_32BIT .| FLAGS_MODRM .| FLAGS_XMM_FLAGS) 1;
    Ent 0xC3 5 "" TYPE_INVALID FLAGS_NONE 0;
    Ent 0xC8 8 "" TYPE_COPY_OTHER FLAGS_NONE 0;
    Ent 0xD0 6 "" TYPE_INVALID FLAGS_NONE 0;
    Ent 0xD6 1 "MOVQ2DQ" TYPE_INST (GenFlagsSizes SIZE_128BIT SIZE_64BIT .| FLAGS_MODRM .| FLAGS_XMM_FLAGS .| FLAGS_SF_MMX_SRC) 0;
    Ent 0xD7 1 "" TYPE_INVALID FLAGS_NONE 0;
    Ent 0xD8 8 "" TYPE_INVALID FLAGS_NONE 0;
    Ent 0xE0 6 "" TYPE_INVALID FLAGS_NONE 0;
    Ent 0xE6 1 "CVTDQ2PD" TYPE_INST (GenFlagsSameSize SIZE_128BIT .| FLAGS_MODRM .| FLAGS_XMM_FLAGS) 0;
    Ent 0xE7 1 "" TYPE_INVALID FLAGS_NONE 0;
    Ent 0xE8 8 "" TYPE_INVALID FLAGS_NONE 0;
    Ent 0xF0 8 "" TYPE_INVALID FLAGS_NONE 0;
    Ent 0xF8 7 "" TYPE_INVALID FLAGS_NONE 0;
    Ent 0xFF 1 "" TYPE_COPY_OTHER FLAGS_NONE 0
  ].

Definition RepNEModOpTable : list Entry := [
    Ent 0x0 16 "" TYPE_COPY_OTHER FLAGS_NONE 0;
    Ent 0x10 1 "MOVSD" TYPE_INST (GenFlagsSameSize SIZE_128BIT .| FLAGS_MODRM .| FLAGS_XMM_FLAGS) 0;
    Ent 0x11 1 "MOVSD" TYPE_INST (GenFlagsSameSize SIZE_128BIT .| FLAGS_MODRM .| FLAGS_SF_MOD_DST .| FLAGS_XMM_FLAGS) 0;
    Ent 0x12 1 "MOVDDUP" TYPE_INST (GenFlagsSizes SIZE_128BIT SIZE_64BIT .| FLAGS_MODRM .| FLAGS_XMM_FLAGS) 0;
    Ent 0x13 6 "" TYPE_INVALID FLAGS_NONE 0;
    Ent 0x19 7 "" TYPE_COPY_OTHER FLAGS_NONE 0;
    Ent 0x20 4 "" TYPE_COPY_OTHER FLAGS_NONE 0;
    Ent 0x24 6 "" TYPE_INVALID FLAGS_NONE 0;
    Ent 0x2A 1 "CVTSI2SD" TYPE_INST (GenFlagsDstSize SIZE_128BIT .| FLAGS_MODRM .| FLAGS_XMM_FLAGS .| FLAGS_SF_SRC_GPR) 0;
    Ent 0x2B 1 "MOVNTSD" TYPE_INST (GenFlagsSameSize SIZE_64BIT .| FLAGS_MODRM .| FLAGS_SF_MOD_MEM_ONLY .| FLAGS_SF_MOD_DST .| FLAGS_XMM_FLAGS) 0;
    Ent 0x2C 1 "CVTTSD2SI" TYPE_INST (GenFlagsSrcSize SIZE_128BIT .| FLAGS_MODRM .| FLAGS_XMM_FLAGS .| FLAGS_SF_DST_GPR) 0;
    Ent 0x2D 1 "CVTSD2SI" TYPE_INST (GenFlagsSameSize SIZE_64BITDEF .| FLAGS_MODRM .| FLAGS_XMM_FLAGS .| FLAGS_SF_DST_GPR) 0;
    Ent 0x2E 2 "" TYPE_INVALID FLAGS_NONE 0;
    Ent 0x30 16 "" TYPE_COPY_OTHER FLAGS_NONE 0;
    Ent 0x40 16 "" TYPE_COPY_OTHER FLAGS_NONE 0;
    Ent 0x50 1 "" TYPE_INVALID FLAGS_NONE 0;
    Ent 0x51 1 "SQRTSD" TYPE_INST (GenFlagsSameSize SIZE_64BIT .| FLAGS_MODRM .| FLAGS_XMM_FLAGS) 0;
    Ent 0x52 6 "" TYPE_INVALID FLAGS_NONE 0;
    Ent 0x58 1 "ADDSD" TYPE_INST (GenFlagsSameSize SIZE_64BIT .| FLAGS_MODRM .| FLAGS_XMM_FLAGS) 0;
    Ent 0x59 1 "MULSD" TYPE_INST (GenFlagsSameSize SIZE_64BIT .| FLAGS_MODRM .| FLAGS_XMM_FLAGS) 0;
    Ent 0x5A 1 "CVTSD2SS" TYPE_INST (GenFlagsSameSize SIZE_128BIT .| FLAGS_MODRM .| FLAGS_XMM_FLAGS) 0;
    Ent 0x5B 1 "" TYPE_INVALID FLAGS_NONE 0;
    Ent 0x5C 1 "SUBSD" TYPE_INST (GenFlagsSameSize SIZE_64BIT .| FLAGS_MODRM .| FLAGS_XMM_FLAGS) 0;
    Ent 0x5D 1 "MINSD" TYPE_INST (GenFlagsSameSize SIZE_64BIT .| FLAGS_MODRM .| FLAGS_XMM_FLAGS) 0;
    Ent 0x5E 1 "DIVSD" TYPE_INST (GenFlagsSameSize SIZE_64BIT .| FLAGS_MODRM .| FLAGS_XMM_FLAGS) 0;
    Ent 0x5F 1 "MAXSD" TYPE_INST (GenFlagsSameSize SIZE_64BIT .| FLAGS_MODRM .| FLAGS_XMM_FLAGS) 0;
    Ent 0x60 16 "" TYPE_INVALID FLAGS_NONE 0;
    Ent 0x70 1 "PSHUFLW" TYPE_INST (GenFlagsSameSize SIZE_128BIT .| FLAGS_MODRM .| FLAGS_XMM_FLAGS) 1;
    Ent 0x71 3 "" TYPE_COPY_OTHER FLAGS_NONE 0;
    Ent 0x74 4 "" TYPE_INVALID FLAGS_NONE 0;
    Ent 0x78 1 "INSERTQ" TYPE_INST (GenFlagsSameSize SIZE_64BIT .| FLAGS_MODRM .| FLAGS_SF_MOD_REG_ONLY .| FLAGS_XMM_FLAGS) 2;
    Ent 0x79 1 "INSERTQ" TYPE_INST (GenFlagsSameSize SIZE_128BIT .| FLAGS_MODRM .| FLAGS_SF_MOD_REG_ONLY .| FLAGS_XMM_FLAGS) 0;
    Ent 0x7A 2 "" TYPE_INVALID FLAGS_NONE 0;
    Ent 0x7C 1 "HADDPS" TYPE_INST (GenFlagsSameSize SIZE_128BIT .| FLAGS_MODRM .| FLAGS_XMM_FLAGS) 0;
    Ent 0x7D 1 "HSUBPS" TYPE_INST (GenFlagsSameSize SIZE_128BIT .| FLAGS_MODRM .| FLAGS_XMM_FLAGS) 0;
    Ent 0x7E 2 "" TYPE_INVALID FLAGS_NONE 0;
    Ent 0x80 16 "" TYPE_COPY_OTHER FLAGS_NONE 0;
    Ent 0x90 16 "" TYPE_COPY_OTHER FLAGS_NONE 0;
    Ent 0xA0 16 "" TYPE_COPY_OTHER FLAGS_NONE 0;
    Ent 0xB0 8 "" TYPE_COPY_OTHER FLAGS_NONE 0;
    Ent 0xB8 1 "" TYPE_INVALID FLAGS_NONE 0;
    Ent 0xB9 1 "" TYPE_COPY_OTHER FLAGS_NONE 0;
    Ent 0xBA 1 "" TYPE_COPY_OTHER FLAGS_NONE 0;
    Ent 0xBB 5 "" TYPE_INVALID FLAGS_NONE 0;
    Ent 0xC0 2 "" TYPE_COPY_OTHER FLAGS_NONE 0;
    Ent 0xC2 1 "CMPSD" TYPE_INST (GenFlagsSizes SIZE_128BIT SIZE_64BIT .| FLAGS_MODRM .| FLAGS_XMM_FLAGS) 1;
    Ent 0xC3 5 "" TYPE_INVALID FLAGS_NONE 0;
    Ent 0xC8 8 "" TYPE_COPY_OTHER FLAGS_NONE 0;
    Ent 0xD0 1 "ADDSUBPS" TYPE_INST (GenFlagsSameSize SIZE_128BIT .| FLAGS_MODRM .| FLAGS_XMM_FLAGS) 0;
    Ent 0xD1 5 "" TYPE_INVALID FLAGS_NONE 0;
    Ent 0xD6 1 "MOVDQ2Q" TYPE_INST (GenFlagsSizes SIZE_64BIT SIZE_128BIT .| FLAGS_MODRM .| FLAGS_XMM_FLAGS .| FLAGS_SF_MMX_DST) 0;
    Ent 0xD7 1 "" TYPE_INVALID FLAGS_NONE 0;
    Ent 0xD8 8 "" TYPE_INVALID FLAGS_NONE 0;
    Ent 0xE0 6 "" TYPE_INVALID FLAGS_NONE 0;
    Ent 0xE6 1 "CVTPD2DQ" TYPE_INST (GenFlagsSameSize SIZE_128BIT .| FLAGS_MODRM .| FLAGS_XMM_FLAGS) 0;
    Ent 0xE7 1 "" TYPE_INVALID FLAGS_NONE 0;
    Ent 0xE8 8 "" TYPE_INVALID FLAGS_NONE 0;
    Ent 0xF0 1 "LDDQU" TYPE_INST (GenFlagsSameSize SIZE_128BIT .| FLAGS_MODRM .| FLAGS_SF_MOD_MEM_ONLY .| FLAGS_XMM_FLAGS) 0;
    Ent 0xF1 7 "" TYPE_INVALID FLAGS_NONE 0;
    Ent 0xF8 8 "" TYPE_INVALID FLAGS_NONE 0
  ].

Definition OpSizeModOpTable : list Entry := [
    Ent 0x0 16 "" TYPE_COPY_OTHER FLAGS_NONE 0;
    Ent 0x10 1 "MOVUPD" TYPE_INST (GenFlagsSameSize SIZE_128BIT .| FLAGS_MODRM .| FLAGS_XMM_FLAGS) 0;
    Ent 0x11 1 "MOVUPD" TYPE_INST (GenFlagsSameSize SIZE_128BIT .| FLAGS_MODRM .| FLAGS_SF_MOD_DST .| FLAGS_XMM_FLAGS) 0;
    Ent 0x12 1 "MOVLPD" TYPE_INST (GenFlagsSizes SIZE_128BIT SIZE_64BIT .| FLAGS_MODRM .| FLAGS_SF_MOD_MEM_ONLY .| FLAGS_XMM_FLAGS) 0;
    Ent 0x13 1 "MOVLPD" TYPE_INST (GenFlagsSizes SIZE_64BIT SIZE_64BIT .| FLAGS_MODRM .| FLAGS_SF_MOD_MEM_ONLY .| FLAGS_SF_MOD_DST .| FLAGS_XMM_FLAGS) 0;
    Ent 0x14 1 "UNPCKLPD" TYPE_INST (GenFlagsSameSize SIZE_128BIT .| FLAGS_MODRM .| FLAGS_XMM_FLAGS) 0;
    Ent 0x15 1 "UNPCKHPD" TYPE_INST (GenFlagsSameSize SIZE_128BIT .| FLAGS_MODRM .| FLAGS_XMM_FLAGS) 0;
    Ent 0x16 1 "MOVHPD" TYPE_INST (GenFlagsSizes SIZE_128BIT SIZE_64BIT .| FLAGS_MODRM .| FLAGS_SF_MOD_MEM_ONLY .| FLAGS_XMM_FLAGS) 0;
    Ent 0x17 1 "MOVHPD" TYPE_INST (GenFlagsSizes SIZE_64BIT SIZE_128BIT .| FLAGS_MODRM .| FLAGS_SF_MOD_MEM_ONLY .| FLAGS_SF_MOD_DST .| FLAGS_XMM_FLAGS) 0;
    Ent 0x18 1 "" TYPE_INVALID FLAGS_NONE 0;
    Ent 0x19 7 "" TYPE_COPY_OTHER FLAGS_NONE 0;
    Ent 0x20 4 "" TYPE_COPY_OTHER FLAGS_NONE 0;
    Ent 0x24 4 "" TYPE_INVALID FLAGS_NONE 0;
    Ent 0x28 1 "MOVAPD" TYPE_INST (GenFlagsSameSize SIZE_128BIT .| FLAGS_MODRM .| FLAGS_XMM_FLAGS) 0;
    Ent 0x29 1 "MOVAPD" TYPE_INST (GenFlagsSameSize SIZE_128BIT .| FLAGS_MODRM .| FLAGS_SF_MOD_DST .| FLAGS_XMM_FLAGS) 0;
    Ent 0x2A 1 "CVTPI2PD" TYPE_INST (GenFlagsSizes SIZE_128BIT SIZE_64BIT .| FLAGS_MODRM .| FLAGS_XMM_FLAGS .| FLAGS_SF_MMX_SRC) 0;
    Ent 0x2B 1 "MOVNTPD" TYPE_INST (GenFlagsSameSize SIZE_128BIT .| FLAGS_MODRM .| FLAGS_SF_MOD_MEM_ONLY .| FLAGS_SF_MOD_DST .| FLAGS_XMM_FLAGS) 0;
    Ent 0x2C 1 "CVTTPD2PI" TYPE_INST (GenFlagsSizes SIZE_64BIT SIZE_128BIT .| FLAGS_MODRM .| FLAGS_XMM_FLAGS .| FLAGS_SF_MMX_DST) 0;
    Ent 0x2D 1 "CVTPD2PI" TYPE_INST (GenFlagsSizes SIZE_64BIT SIZE_128BIT .| FLAGS_MODRM .| FLAGS_XMM_FLAGS .| FLAGS_SF_MMX_DST) 0;
    Ent 0x2E 1 "UCOMISD" TYPE_INST (GenFlagsSizes SIZE_128BIT SIZE_64BIT .| FLAGS_MODRM .| FLAGS_XMM_FLAGS) 0;
    Ent 0x2F 1 "COMISD" TYPE_INST (GenFlagsSizes SIZE_128BIT SIZE_64BIT .| FLAGS_MODRM .| FLAGS_XMM_FLAGS) 0;
    Ent 0x30 16 "" TYPE_COPY_OTHER FLAGS_NONE 0;
    Ent 0x40 16 "" TYPE_COPY_OTHER FLAGS_NONE 0;
    Ent 0x50 1 "MOVMSKPD" TYPE_INST (GenFlagsSizes SIZE_32BIT SIZE_128BIT .| FLAGS_MODRM .| FLAGS_SF_MOD_REG_ONLY .| FLAGS_XMM_FLAGS .| FLAGS_SF_DST_GPR) 0;
    Ent 0x51 1 "SQRTPD" TYPE_INST (GenFlagsSameSize SIZE_128BIT .| FLAGS_MODRM .| FLAGS_XMM_FLAGS) 0;
    Ent 0x52 2 "" TYPE_INVALID FLAGS_NONE 0;
    Ent 0x54 1 "ANDPD" TYPE_INST (GenFlagsSameSize SIZE_128BIT .| FLAGS_MODRM .| FLAGS_XMM_FLAGS) 0;
    Ent 0x55 1 "ANDNPD" TYPE_INST (GenFlagsSameSize SIZE_128BIT .| FLAGS_MODRM .| FLAGS_XMM_FLAGS) 0;
    Ent 0x56 1 "ORPD" TYPE_INST (GenFlagsSameSize SIZE_128BIT .| FLAGS_MODRM .| FLAGS_XMM_FLAGS) 0;
    Ent 0x57 1 "XORPD" TYPE_INST (GenFlagsSameSize SIZE_128BIT .| FLAGS_MODRM .| FLAGS_XMM_FLAGS) 0;
    Ent 0x58 1 "ADDPD" TYPE_INST (GenFlagsSameSize SIZE_128BIT .| FLAGS_MODRM .| FLAGS_XMM_FLAGS) 0;
    Ent 0x59 1 "MULPD" TYPE_INST (GenFlagsSameSize SIZE_128BIT .| FLAGS_MODRM .| FLAGS_XMM_FLAGS) 0;
    Ent 0x5A 1 "CVTPD2PS" TYPE_INST (GenFlagsSameSize SIZE_128BIT .| FLAGS_MODRM .| FLAGS_XMM_FLAGS) 0;
    Ent 0x5B 1 "CVTPS2DQ" TYPE_INST (GenFlagsSameSize SIZE_128BIT .| FLAGS_MODRM .| FLAGS_XMM_FLAGS) 0;
    Ent 0x5C 1 "SUBPD" TYPE_INST (GenFlagsSameSize SIZE_128BIT .| FLAGS_MODRM .| FLAGS_XMM_FLAGS) 0;
    Ent 0x5D 1 "MINPD" TYPE_INST (GenFlagsSameSize SIZE_128BIT .| FLAGS_MODRM .| FLAGS_XMM_FLAGS) 0;
    Ent 0x5E 1 "DIVPD" TYPE_INST (GenFlagsSameSize SIZE_128BIT .| FLAGS_MODRM .| FLAGS_XMM_FLAGS) 0;
    Ent 0x5F 1 "MAXPD" TYPE_INST (GenFlagsSameSize SIZE_128BIT .| FLAGS_MODRM .| FLAGS_XMM_FLAGS) 0;
    Ent 0x60 1 "PUNPCKLBW" TYPE_INST (GenFlagsSameSize SIZE_128BIT .| FLAGS_MODRM .| FLAGS_XMM_FLAGS) 0;
    Ent 0x61 1 "PUNPCKLWD" TYPE_INST (GenFlagsSameSize SIZE_128BIT .| FLAGS_MODRM .| FLAGS_XMM_FLAGS) 0;
    Ent 0x62 1 "PUNPCKLDQ" TYPE_INST (GenFlagsSameSize SIZE_128BIT .| FLAGS_MODRM .| FLAGS_XMM_FLAGS) 0;
    Ent 0x63 1 "PACKSSWB" TYPE_INST (GenFlagsSameSize SIZE_128BIT .| FLAGS_MODRM .| FLAGS_XMM_FLAGS) 0;
    Ent 0x64 1 "PCMPGTB" TYPE_INST (GenFlagsSameSize SIZE_128BIT .| FLAGS_MODRM .| FLAGS_XMM_FLAGS) 0;
    Ent 0x65 1 "PCMPGTW" TYPE_INST (GenFlagsSameSize SIZE_128BIT .| FLAGS_MODRM .| FLAGS_XMM_FLAGS) 0;
    Ent 0x66 1 "PCMPGTD" TYPE_INST (GenFlagsSameSize SIZE_128BIT .| FLAGS_MODRM .| FLAGS_XMM_FLAGS) 0;
    Ent 0x67 1 "PACKUSWB" TYPE_INST (GenFlagsSameSize SIZE_128BIT .| FLAGS_MODRM .| FLAGS_XMM_FLAGS) 0;
    Ent 0x68 1 "PUNPCKHBW" TYPE_INST (GenFlagsSameSize SIZE_128BIT .| FLAGS_MODRM .| FLAGS_XMM_FLAGS) 0;
    Ent 0x69 1 "PUNPCKHWD" TYPE_INST (GenFlagsSameSize SIZE_128BIT .| FLAGS_MODRM .| FLAGS_XMM_FLAGS) 0;
    Ent 0x6A 1 "PUNPCKHDQ" TYPE_INST (GenFlagsSameSize SIZE_128BIT .| FLAGS_MODRM .| FLAGS_XMM_FLAGS) 0;
    Ent 0x6B 1 "PACKSSDW" TYPE_INST (GenFlagsSameSize SIZE_128BIT .| FLAGS_MODRM .| FLAGS_XMM_FLAGS) 0;
    Ent 0x6C 1 "PUNPCKLQDQ" TYPE_INST (GenFlagsSameSize SIZE_128BIT .| FLAGS_MODRM .| FLAGS_XMM_FLAGS) 0;
    Ent 0x6D 1 "PUNPCKHQDQ" TYPE_INST (GenFlagsSameSize SIZE_128BIT .| FLAGS_MODRM .| FLAGS_XMM_FLAGS) 0;
    Ent 0x6E 1 "MOVD" TYPE_INST (GenFlagsDstSize SIZE_128BIT .| FLAGS_MODRM .| FLAGS_SF_SRC_GPR .| FLAGS_XMM_FLAGS) 0;
    Ent 0x6F 1 "MOVDQA" TYPE_INST (GenFlagsSameSize SIZE_128BIT .| FLAGS_MODRM .| FLAGS_XMM_FLAGS) 0;
    Ent 0x70 1 "PSHUFD" TYPE_INST (GenFlagsSameSize SIZE_128BIT .| FLAGS_MODRM .| FLAGS_XMM_FLAGS) 1;
    Ent 0x71 3 "" TYPE_COPY_OTHER FLAGS_NONE 0;
    Ent 0x74 1 "PCMPEQB" TYPE_INST (GenFlagsSameSize SIZE_128BIT .| FLAGS_MODRM .| FLAGS_XMM_FLAGS) 0;
    Ent 0x75 1 "PCMPEQW" TYPE_INST (GenFlagsSameSize SIZE_128BIT .| FLAGS_MODRM .| FLAGS_XMM_FLAGS) 0;
    Ent 0x76 1 "PCMPEQD" TYPE_INST (GenFlagsSameSize SIZE_128BIT .| FLAGS_MODRM .| FLAGS_XMM_FLAGS) 0;
    Ent 0x77 1 "" TYPE_INVALID FLAGS_NONE 0;
    Ent 0x78 1 "" TYPE_GROUP_17 FLAGS_NONE 0;
    Ent 0x79 1 "EXTRQ" TYPE_INST (GenFlagsSameSize SIZE_128BIT .| FLAGS_MODRM .| FLAGS_SF_MOD_REG_ONLY .| FLAGS_XMM_FLAGS) 0;
    Ent 0x7A 2 "" TYPE_INVALID FLAGS_NONE 0;
    Ent 0x7C 1 "HADDPD" TYPE_INST (GenFlagsSameSize SIZE_128BIT .| FLAGS_MODRM .| FLAGS_XMM_FLAGS) 0;
    Ent 0x7D 1 "HSUBPD" TYPE_INST (GenFlagsSameSize SIZE_128BIT .| FLAGS_MODRM .| FLAGS_XMM_FLAGS) 0;
    Ent 0x7E 1 "MOVD" TYPE_INST (GenFlagsSrcSize SIZE_128BIT .| FLAGS_MODRM .| FLAGS_SF_MOD_DST .| FLAGS_SF_DST_GPR .| FLAGS_XMM_FLAGS) 0;
    Ent 0x7F 1 "MOVDQA" TYPE_INST (GenFlagsSameSize SIZE_128BIT .| FLAGS_MODRM .| FLAGS_SF_MOD_DST .| FLAGS_XMM_FLAGS) 0;
    Ent 0x80 16 "" TYPE_COPY_OTHER FLAGS_NONE 0;
    Ent 0x90 16 "" TYPE_COPY_OTHER FLAGS_NONE 0;
    Ent 0xA0 16 "" TYPE_COPY_OTHER FLAGS_NONE 0;
    Ent 0xB0 8 "" TYPE_COPY_OTHER FLAGS_NONE 0;
    Ent 0xB8 1 "" TYPE_INVALID FLAGS_NONE 0;
    Ent 0xB9 1 "" TYPE_COPY_OTHER FLAGS_NONE 0;
    Ent 0xBA 1 "" TYPE_COPY_OTHER FLAGS_NONE 0;
    Ent 0xBB 5 "" TYPE_INVALID FLAGS_NONE 0;
    Ent 0xC0 2 "" TYPE_COPY_OTHER FLAGS_NONE 0;
    Ent 0xC2 1 "CMPPD" TYPE_INST (GenFlagsSameSize SIZE_128BIT .| FLAGS_MODRM .| FLAGS_XMM_FLAGS) 1;
    Ent 0xC3 1 "" TYPE_INVALID FLAGS_NONE 0;
    Ent 0xC4 1 "PINSRW" TYPE_INST (GenFlagsSizes SIZE_128BIT SIZE_16BIT .| FLAGS_MODRM .| FLAGS_SF_SRC_GPR .| FLAGS_XMM_FLAGS) 1;
    Ent 0xC5 1 "PEXTRW" TYPE_INST (GenFlagsSizes SIZE_32BIT SIZE_128BIT .| FLAGS_MODRM .| FLAGS_SF_MOD_REG_ONLY .| FLAGS_SF_DST_GPR .| FLAGS_XMM_FLAGS) 1;
    Ent 0xC6 1 "SHUFPD" TYPE_INST (GenFlagsSameSize SIZE_128BIT .| FLAGS_MODRM .| FLAGS_XMM_FLAGS) 1;
    Ent 0xC7 1 "" TYPE_INVALID FLAGS_NONE 0;
    Ent 0xC8 8 "" TYPE_COPY_OTHER FLAGS_NONE 0;
    Ent 0xD0 1 "ADDSUBPD" TYPE_INST (GenFlagsSameSize SIZE_128BIT .| FLAGS_MODRM .| FLAGS_XMM_FLAGS) 0;
    Ent 0xD1 1 "PSRLW" TYPE_INST (GenFlagsSameSize SIZE_128BIT .| FLAGS_MODRM .| FLAGS_XMM_FLAGS) 0;
    Ent 0xD2 1 "PSRLD" TYPE_INST (GenFlagsSameSize SIZE_128BIT .| FLAGS_MODRM .| FLAGS_XMM_FLAGS) 0;
    Ent 0xD3 1 "PSRLQ" TYPE_INST (GenFlagsSameSize SIZE_128BIT .| FLAGS_MODRM .| FLAGS_XMM_FLAGS) 0;
    Ent 0xD4 1 "PADDQ" TYPE_INST (GenFlagsSameSize SIZE_128BIT .| FLAGS_MODRM .| FLAGS_XMM_FLAGS) 0;
    Ent 0xD5 1 "PMULLW" TYPE_INST (GenFlagsSameSize SIZE_128BIT .| FLAGS_MODRM .| FLAGS_XMM_FLAGS) 0;
    Ent 0xD6 1 "MOVQ" TYPE_INST (GenFlagsSameSize SIZE_64BIT .| FLAGS_MODRM .| FLAGS_SF_MOD_DST .| FLAGS_XMM_FLAGS) 0;
    Ent 0xD7 1 "PMOVMSKB" TYPE_INST (GenFlagsSizes SIZE_32BIT SIZE_128BIT .| FLAGS_MODRM .| FLAGS_SF_MOD_REG_ONLY .| FLAGS_XMM_FLAGS .| FLAGS_SF_DST_GPR) 0;
    Ent 0xD8 1 "PSUBUSB" TYPE_INST (GenFlagsSameSize SIZE_128BIT .| FLAGS_MODRM .| FLAGS_XMM_FLAGS) 0;
    Ent 0xD9 1 "PSUBUSW" TYPE_INST (GenFlagsSameSize SIZE_128BIT .| FLAGS_MODRM .| FLAGS_XMM_FLAGS) 0;
    Ent 0xDA 1 "PMINUB" TYPE_INST (GenFlagsSameSize SIZE_128BIT .| FLAGS_MODRM .| FLAGS_XMM_FLAGS) 0;
    Ent 0xDB 1 "PAND" TYPE_INST (GenFlagsSameSize SIZE_128BIT .| FLAGS_MODRM .| FLAGS_XMM_FLAGS) 0;
    Ent 0xDC 1 "PADDUSB" TYPE_INST (GenFlagsSameSize SIZE_128BIT .| FLAGS_MODRM .| FLAGS_XMM_FLAGS) 0;
    Ent 0xDD 1 "PADDUSW" TYPE_INST (GenFlagsSameSize SIZE_128BIT .| FLAGS_MODRM .| FLAGS_XMM_FLAGS) 0;
    Ent 0xDE 1 "PMAXUB" TYPE_INST (GenFlagsSameSize SIZE_128BIT .| FLAGS_MODRM .| FLAGS_XMM_FLAGS) 0;
    Ent 0xDF 1 "PANDN" TYPE_INST (GenFlagsSameSize SIZE_128BIT .| FLAGS_MODRM .| FLAGS_XMM_FLAGS) 0;
    Ent 0xE0 1 "PAVGB" TYPE_INST (GenFlagsSameSize SIZE_128BIT .| FLAGS_MODRM .| FLAGS_XMM_FLAGS) 0;
    Ent 0xE1 1 "PSRAW" TYPE_INST (GenFlagsSameSize SIZE_128BIT .| FLAGS_MODRM .| FLAGS_XMM_FLAGS) 0;
    Ent 0xE2 1 "PSRAD" TYPE_INST (GenFlagsSameSize SIZE_128BIT .| FLAGS_MODRM .| FLAGS_XMM_FLAGS) 0;
    Ent 0xE3 1 "PAVGW" TYPE_INST (GenFlagsSameSize SIZE_128BIT .| FLAGS_MODRM .| FLAGS_XMM_FLAGS) 0;
    Ent 0xE4 1 "PMULHUW" TYPE_INST (GenFlagsSameSize SIZE_128BIT .| FLAGS_MODRM .| FLAGS_XMM_FLAGS) 0;
    Ent 0xE5 1 "PMULHW" TYPE_INST (GenFlagsSameSize SIZE_128BIT .| FLAGS_MODRM .| FLAGS_XMM_FLAGS) 0;
    Ent 0xE6 1 "CVTTPD2DQ" TYPE_INST (GenFlagsSameSize SIZE_128BIT .| FLAGS_MODRM .| FLAGS_XMM_FLAGS) 0;
    Ent 0xE7 1 "MOVNTDQ" TYPE_INST (GenFlagsSameSize SIZE_128BIT .| FLAGS_MODRM .| FLAGS_SF_MOD_MEM_ONLY .| FLAGS_SF_MOD_DST .| FLAGS_XMM_FLAGS) 0;
    Ent 0xE8 1 "PSUBSB" TYPE_INST (GenFlagsSameSize SIZE_128BIT .| FLAGS_MODRM .| FLAGS_XMM_FLAGS) 0;
    Ent 0xE9 1 "PSUBSW" TYPE_INST (GenFlagsSameSize SIZE_128BIT .| FLAGS_MODRM .| FLAGS_XMM_FLAGS) 0;
    Ent 0xEA 1 "PMINSW" TYPE_INST (GenFlagsSameSize SIZE_128BIT .| FLAGS_MODRM .| FLAGS_XMM_FLAGS) 0;
    Ent 0xEB 1 "POR" TYPE_INST (GenFlagsSameSize SIZE_128BIT .| FLAGS_MODRM .| FLAGS_XMM_FLAGS) 0;
    Ent 0xEC 1 "PADDSB" TYPE_INST (GenFlagsSameSize SIZE_128BIT .| FLAGS_MODRM .| FLAGS_XMM_FLAGS) 0;
    Ent 0xED 1 "PADDSW" TYPE_INST (GenFlagsSameSize SIZE_128BIT .| FLAGS_MODRM .| FLAGS_XMM_FLAGS) 0;
    Ent 0xEE 1 "PMAXSW" TYPE_INST (GenFlagsSameSize SIZE_128BIT .| FLAGS_MODRM .| FLAGS_XMM_FLAGS) 0;
    Ent 0xEF 1 "PXOR" TYPE_INST (GenFlagsSameSize SIZE_128BIT .| FLAGS_MODRM .| FLAGS_XMM_FLAGS) 0;
    Ent 0xF0 1 "" TYPE_INVALID FLAGS_NONE 0;
    Ent 0xF1 1 "PSLLW" TYPE_INST (GenFlagsSameSize SIZE_128BIT .| FLAGS_MODRM .| FLAGS_XMM_FLAGS) 0;
    Ent 0xF2 1 "PSLLD" TYPE_INST (GenFlagsSameSize SIZE_128BIT .| FLAGS_MODRM .| FLAGS_XMM_FLAGS) 0;
    Ent 0xF3 1 "PSLLQ" TYPE_INST (GenFlagsSameSize SIZE_128BIT .| FLAGS_MODRM .| FLAGS_XMM_FLAGS) 0;
    Ent 0xF4 1 "PMULUDQ" TYPE_INST (GenFlagsSameSize SIZE_128BIT .| FLAGS_MODRM .| FLAGS_XMM_FLAGS) 0;
    Ent 0xF5 1 "PMADDWD" TYPE_INST (GenFlagsSameSize SIZE_128BIT .| FLAGS_MODRM .| FLAGS_XMM_FLAGS) 0;
    Ent 0xF6 1 "PSADBW" TYPE_INST (GenFlagsSameSize SIZE_128BIT .| FLAGS_MODRM .| FLAGS_XMM_FLAGS) 0;
    Ent 0xF7 1 "MASKMOVDQU" TYPE_INST (GenFlagsSameSize SIZE_128BIT .| FLAGS_MODRM .| FLAGS_SF_MOD_REG_ONLY .| FLAGS_XMM_FLAGS) 0;
    Ent 0xF8 1 "PSUBB" TYPE_INST (GenFlagsSameSize SIZE_128BIT .| FLAGS_MODRM .| FLAGS_XMM_FLAGS) 0;
    Ent 0xF9 1 "PSUBW" TYPE_INST (GenFlagsSameSize SIZE_128BIT .| FLAGS_MODRM .| FLAGS_XMM_FLAGS) 0;
    Ent 0xFA 1 "PSUBD" TYPE_INST (GenFlagsSameSize SIZE_128BIT .| FLAGS_MODRM .| FLAGS_XMM_FLAGS) 0;
    Ent 0xFB 1 "PSUBQ" TYPE_INST (GenFlagsSameSize SIZE_128BIT .| FLAGS_MODRM .| FLAGS_XMM_FLAGS) 0;
    Ent 0xFC 1 "PADDB" TYPE_INST (GenFlagsSameSize SIZE_128BIT .| FLAGS_MODRM .| FLAGS_XMM_FLAGS) 0;
    Ent 0xFD 1 "PADDW" TYPE_INST (GenFlagsSameSize SIZE_128BIT .| FLAGS_MODRM .| FLAGS_XMM_FLAGS) 0;
    Ent 0xFE 1 "PADDD" TYPE_INST (GenFlagsSameSize SIZE_128BIT .| FLAGS_MODRM .| FLAGS_XMM_FLAGS) 0;
    Ent 0xFF 1 "" TYPE_COPY_OTHER FLAGS_NONE 0
  ].
