(* ===== verification/X86TablesExt.v ===== *)
(** * The other tables of the decoder

    The groups of the two-byte opcodes, the x87, [0F38], [0F3A], [3DNow!], [VEX] and
    [EVEX] tables, and [InitializeInfoTables], which fills all the arrays. *)
From Stdlib Require Import ZArith Lia Bool String.
From stdpp Require Import base gmap list numbers option.
From S2P Require Import Prelude X86Tables.
#[local] Open Scope Z_scope.

(** ** Keys *)

Definition OPD_secondary (group prefix Reg : Z) : Z :=
  Z.lor (Z.lor (Z.shiftl (group - TYPE_GROUP_6) 5) (Z.shiftl prefix 3)) Reg.
Definition PF_NONE : Z := 0.
Definition PF_F3 : Z := 1.
Definition PF_66 : Z := 2.
Definition PF_F2 : Z := 3.
Definition OPD_modrm (Field rm : Z) : Z := Z.lor (Z.shiftl Field 3) rm.
Definition OPD_x87 (op modrmop : Z) : Z := Z.lor (Z.shiftl (op - 0xD8) 8) modrmop.
Definition OPDReg (op reg : Z) : Z := Z.lor (Z.shiftl (op - 0xD8) 8) (Z.shiftl reg 3).
Definition OPD_0F38 (prefix opcode : Z) : Z := Z.lor (Z.shiftl prefix 8) opcode.
Definition PF_38_NONE : Z := 0.
Definition PF_38_66 : Z := Z.shiftl 1 0.
Definition PF_38_F2 : Z := Z.shiftl 1 1.
Definition PF_38_F3 : Z := Z.shiftl 1 2.
Definition OPD_0F3A (REX prefix opcode : Z) : Z := Z.lor (Z.lor (Z.shiftl REX 9) (Z.shiftl prefix 8)) opcode.
Definition PF_3A_NONE : Z := 0.
Definition PF_3A_66 : Z := Z.shiftl 1 0.
Definition PF_3A_REX : Z := Z.shiftl 1 1.
Definition OPD_VEX (map_select pp opcode : Z) : Z :=
  Z.lor (Z.lor (Z.shiftl (map_select - 1) 10) (Z.shiftl pp 8)) opcode.
Definition OPD_VEX_group (group pp opcode : Z) : Z :=
  Z.lor (Z.lor (Z.shiftl (group - TYPE_VEX_GROUP_12) 4) (Z.shiftl pp 3)) opcode.

#[local] Infix ".|" := Z.lor (at level 50, left associativity).
#[local] Open Scope string_scope.
#[local] Open Scope Z_scope.

(** ** [SecondaryGroupTables.cpp] *)

Definition SecondaryExtensionOpTable_6_8 : list Entry := [
    Ent (OPD_secondary TYPE_GROUP_6 PF_NONE 0) 1 "SLDT" TYPE_UNDEC (FLAGS_MODRM .| FLAGS_SF_MOD_DST) 0;
    Ent (OPD_secondary TYPE_GROUP_6 PF_NONE 1) 1 "STR" TYPE_PRIV (FLAGS_MODRM .| FLAGS_SF_MOD_DST) 0;
    Ent (OPD_secondary TYPE_GROUP_6 PF_NONE 2) 1 "LLDT" TYPE_PRIV FLAGS_NONE 0;
    Ent (OPD_secondary TYPE_GROUP_6 PF_NONE 3) 1 "LTR" TYPE_PRIV FLAGS_NONE 0;
    Ent (OPD_secondary TYPE_GROUP_6 PF_NONE 4) 1 "VERR" TYPE_UNDEC FLAGS_MODRM 0;
    Ent (OPD_secondary TYPE_GROUP_6 PF_NONE 5) 1 "VERW" TYPE_UNDEC FLAGS_MODRM 0;
    Ent (OPD_secondary TYPE_GROUP_6 PF_NONE 6) 1 "" TYPE_INVALID FLAGS_NONE 0;
    Ent (OPD_secondary TYPE_GROUP_6 PF_NONE 7) 1 "" TYPE_INVALID FLAGS_NONE 0;
    Ent (OPD_secondary TYPE_GROUP_6 PF_F3 0) 1 "SLDT" TYPE_UNDEC (FLAGS_MODRM .| FLAGS_SF_MOD_DST) 0;
    Ent (OPD_secondary TYPE_GROUP_6 PF_F3 1) 1 "STR" TYPE_PRIV (FLAGS_MODRM .| FLAGS_SF_MOD_DST) 0;
    Ent (OPD_secondary TYPE_GROUP_6 PF_F3 2) 1 "LLDT" TYPE_PRIV FLAGS_NONE 0;
    Ent (OPD_secondary TYPE_GROUP_6 PF_F3 3) 1 "LTR" TYPE_PRIV FLAGS_NONE 0;
    Ent (OPD_secondary TYPE_GROUP_6 PF_F3 4) 1 "VERR" TYPE_UNDEC FLAGS_MODRM 0;
    Ent (OPD_secondary TYPE_GROUP_6 PF_F3 5) 1 "VERW" TYPE_UNDEC FLAGS_MODRM 0;
    Ent (OPD_secondary TYPE_GROUP_6 PF_F3 6) 1 "" TYPE_INVALID FLAGS_NONE 0;
    Ent (OPD_secondary TYPE_GROUP_6 PF_F3 7) 1 "" TYPE_INVALID FLAGS_NONE 0;
    Ent (OPD_secondary TYPE_GROUP_6 PF_66 0) 1 "SLDT" TYPE_UNDEC (FLAGS_MODRM .| FLAGS_SF_MOD_DST) 0;
    Ent (OPD_secondary TYPE_GROUP_6 PF_66 1) 1 "STR" TYPE_PRIV (FLAGS_MODRM .| FLAGS_SF_MOD_DST) 0;
    Ent (OPD_secondary TYPE_GROUP_6 PF_66 2) 1 "LLDT" TYPE_PRIV FLAGS_NONE 0;
    Ent (OPD_secondary TYPE_GROUP_6 PF_66 3) 1 "LTR" TYPE_PRIV FLAGS_NONE 0;
    Ent (OPD_secondary TYPE_GROUP_6 PF_66 4) 1 "VERR" TYPE_UNDEC FLAGS_MODRM 0;
    Ent (OPD_secondary TYPE_GROUP_6 PF_66 5) 1 "VERW" TYPE_UNDEC FLAGS_MODRM 0;
    Ent (OPD_secondary TYPE_GROUP_6 PF_66 6) 1 "" TYPE_INVALID FLAGS_NONE 0;
    Ent (OPD_secondary TYPE_GROUP_6 PF_66 7) 1 "" TYPE_INVALID FLAGS_NONE 0;
    Ent (OPD_secondary TYPE_GROUP_6 PF_F2 0) 1 "SLDT" TYPE_UNDEC (FLAGS_MODRM .| FLAGS_SF_MOD_DST) 0;
    Ent (OPD_secondary TYPE_GROUP_6 PF_F2 1) 1 "STR" TYPE_PRIV (FLAGS_MODRM .| FLAGS_SF_MOD_DST) 0;
    Ent (OPD_secondary TYPE_GROUP_6 PF_F2 2) 1 "LLDT" TYPE_PRIV FLAGS_NONE 0;
    Ent (OPD_secondary TYPE_GROUP_6 PF_F2 3) 1 "LTR" TYPE_PRIV FLAGS_NONE 0;
    Ent (OPD_secondary TYPE_GROUP_6 PF_F2 4) 1 "VERR" TYPE_UNDEC FLAGS_MODRM 0;
    Ent (OPD_secondary TYPE_GROUP_6 PF_F2 5) 1 "VERW" TYPE_UNDEC FLAGS_MODRM 0;
    Ent (OPD_secondary TYPE_GROUP_6 PF_F2 6) 1 "" TYPE_INVALID FLAGS_NONE 0;
    Ent (OPD_secondary TYPE_GROUP_6 PF_F2 7) 1 "" TYPE_INVALID FLAGS_NONE 0;
    Ent (OPD_secondary TYPE_GROUP_7 PF_NONE 0) 1 "SGDT" TYPE_UNDEC (FLAGS_MODRM .| FLAGS_SF_MOD_DST) 0;
    Ent (OPD_secondary TYPE_GROUP_7 PF_NONE 1) 1 "" TYPE_SECOND_GROUP_MODRM FLAGS_NONE 0;
    Ent (OPD_secondary TYPE_GROUP_7 PF_NONE 2) 1 "" TYPE_SECOND_GROUP_MODRM FLAGS_NONE 0;
    Ent (OPD_secondary TYPE_GROUP_7 PF_NONE 3) 1 "" TYPE_SECOND_GROUP_MODRM FLAGS_NONE 0;
    Ent (OPD_secondary TYPE_GROUP_7 PF_NONE 4) 1 "SMSW" TYPE_INST (FLAGS_MODRM .| FLAGS_SF_MOD_DST) 0;
    Ent (OPD_secondary TYPE_GROUP_7 PF_NONE 5) 1 "" TYPE_INVALID FLAGS_NONE 0;
    Ent (OPD_secondary TYPE_GROUP_7 PF_NONE 6) 1 "LMSW" TYPE_PRIV FLAGS_MODRM 0;
    Ent (OPD_secondary TYPE_GROUP_7 PF_NONE 7) 1 "" TYPE_SECOND_GROUP_MODRM FLAGS_NONE 0;
    Ent (OPD_secondary TYPE_GROUP_7 PF_F3 0) 1 "SGDT" TYPE_UNDEC (FLAGS_MODRM .| FLAGS_SF_MOD_DST) 0;
    Ent (OPD_secondary TYPE_GROUP_7 PF_F3 1) 1 "" TYPE_SECOND_GROUP_MODRM FLAGS_NONE 0;
    Ent (OPD_secondary TYPE_GROUP_7 PF_F3 2) 1 "" TYPE_SECOND_GROUP_MODRM FLAGS_NONE 0;
    Ent (OPD_secondary TYPE_GROUP_7 PF_F3 3) 1 "" TYPE_SECOND_GROUP_MODRM FLAGS_NONE 0;
    Ent (OPD_secondary TYPE_GROUP_7 PF_F3 4) 1 "SMSW" TYPE_INST (FLAGS_MODRM .| FLAGS_SF_MOD_DST) 0;
    Ent (OPD_secondary TYPE_GROUP_7 PF_F3 5) 1 "" TYPE_INVALID FLAGS_NONE 0;
    Ent (OPD_secondary TYPE_GROUP_7 PF_F3 6) 1 "LMSW" TYPE_PRIV FLAGS_MODRM 0;
    Ent (OPD_secondary TYPE_GROUP_7 PF_F3 7) 1 "" TYPE_SECOND_GROUP_MODRM FLAGS_NONE 0;
    Ent (OPD_secondary TYPE_GROUP_7 PF_66 0) 1 "SGDT" TYPE_UNDEC (FLAGS_MODRM .| FLAGS_SF_MOD_DST) 0;
    Ent (OPD_secondary TYPE_GROUP_7 PF_66 1) 1 "" TYPE_SECOND_GROUP_MODRM FLAGS_NONE 0;
    Ent (OPD_secondary TYPE_GROUP_7 PF_66 2) 1 "" TYPE_SECOND_GROUP_MODRM FLAGS_NONE 0;
    Ent (OPD_secondary TYPE_GROUP_7 PF_66 3) 1 "" TYPE_SECOND_GROUP_MODRM FLAGS_NONE 0;
    Ent (OPD_secondary TYPE_GROUP_7 PF_66 4) 1 "SMSW" TYPE_INST (FLAGS_MODRM .| FLAGS_SF_MOD_DST) 0;
    Ent (OPD_secondary TYPE_GROUP_7 PF_66 5) 1 "" TYPE_INVALID FLAGS_NONE 0;
    Ent (OPD_secondary TYPE_GROUP_7 PF_66 6) 1 "LMSW" TYPE_PRIV FLAGS_MODRM 0;
    Ent (OPD_secondary TYPE_GROUP_7 PF_66 7) 1 "" TYPE_SECOND_GROUP_MODRM FLAGS_NONE 0;
    Ent (OPD_secondary TYPE_GROUP_7 PF_F2 0) 1 "SGDT" TYPE_UNDEC (FLAGS_MODRM .| FLAGS_SF_MOD_DST) 0;
    Ent (OPD_secondary TYPE_GROUP_7 PF_F2 1) 1 "" TYPE_SECOND_GROUP_MODRM FLAGS_NONE 0;
    Ent (OPD_secondary TYPE_GROUP_7 PF_F2 2) 1 "" TYPE_SECOND_GROUP_MODRM FLAGS_NONE 0;
    Ent (OPD_secondary TYPE_GROUP_7 PF_F2 3) 1 "" TYPE_SECOND_GROUP_MODRM FLAGS_NONE 0;
    Ent (OPD_secondary TYPE_GROUP_7 PF_F2 4) 1 "SMSW" TYPE_INST (FLAGS_MODRM .| FLAGS_SF_MOD_DST) 0;
    Ent (OPD_secondary TYPE_GROUP_7 PF_F2 5) 1 "" TYPE_INVALID FLAGS_NONE 0;
    Ent (OPD_secondary TYPE_GROUP_7 PF_F2 6) 1 "LMSW" TYPE_PRIV FLAGS_MODRM 0;
    Ent (OPD_secondary TYPE_GROUP_7 PF_F2 7) 1 "" TYPE_SECOND_GROUP_MODRM FLAGS_NONE 0;
    Ent (OPD_secondary TYPE_GROUP_8 PF_NONE 0) 1 "" TYPE_INVALID FLAGS_NONE 0;
    Ent (OPD_secondary TYPE_GROUP_8 PF_NONE 1) 1 "" TYPE_INVALID FLAGS_NONE 0;
    Ent (OPD_secondary TYPE_GROUP_8 PF_NONE 2) 1 "" TYPE_INVALID FLAGS_NONE 0;
    Ent (OPD_secondary TYPE_GROUP_8 PF_NONE 3) 1 "" TYPE_INVALID FLAGS_NONE 0;
    Ent (OPD_secondary TYPE_GROUP_8 PF_NONE 4) 1 "BT" TYPE_INST (FLAGS_MODRM .| FLAGS_SF_MOD_DST) 1;
    Ent (OPD_secondary TYPE_GROUP_8 PF_NONE 5) 1 "BTS" TYPE_INST (FLAGS_MODRM .| FLAGS_SF_MOD_DST) 1;
    Ent (OPD_secondary TYPE_GROUP_8 PF_NONE 6) 1 "BTR" TYPE_INST (FLAGS_MODRM .| FLAGS_SF_MOD_DST) 1;
    Ent (OPD_secondary TYPE_GROUP_8 PF_NONE 7) 1 "BTC" TYPE_INST (FLAGS_MODRM .| FLAGS_SF_MOD_DST) 1;
    Ent (OPD_secondary TYPE_GROUP_8 PF_F3 0) 1 "" TYPE_INVALID FLAGS_NONE 0;
    Ent (OPD_secondary TYPE_GROUP_8 PF_F3 1) 1 "" TYPE_INVALID FLAGS_NONE 0;
    Ent (OPD_secondary TYPE_GROUP_8 PF_F3 2) 1 "" TYPE_INVALID FLAGS_NONE 0;
    Ent (OPD_secondary TYPE_GROUP_8 PF_F3 3) 1 "" TYPE_INVALID FLAGS_NONE 0;
    Ent (OPD_secondary TYPE_GROUP_8 PF_F3 4) 1 "BT" TYPE_INST (FLAGS_MODRM .| FLAGS_SF_MOD_DST) 1;
    Ent (OPD_secondary TYPE_GROUP_8 PF_F3 5) 1 "BTS" TYPE_INST (FLAGS_MODRM .| FLAGS_SF_MOD_DST) 1;
    Ent (OPD_secondary TYPE_GROUP_8 PF_F3 6) 1 "BTR" TYPE_INST (FLAGS_MODRM .| FLAGS_SF_MOD_DST) 1;
    Ent (OPD_secondary TYPE_GROUP_8 PF_F3 7) 1 "BTC" TYPE_INST (FLAGS_MODRM .| FLAGS_SF_MOD_DST) 1;
    Ent (OPD_secondary TYPE_GROUP_8 PF_66 0) 1 "" TYPE_INVALID FLAGS_NONE 0;
    Ent (OPD_secondary TYPE_GROUP_8 PF_66 1) 1 "" TYPE_INVALID FLAGS_NONE 0;
    Ent (OPD_secondary TYPE_GROUP_8 PF_66 2) 1 "" TYPE_INVALID FLAGS_NONE 0;
    Ent (OPD_secondary TYPE_GROUP_8 PF_66 3) 1 "" TYPE_INVALID FLAGS_NONE 0;
    Ent (OPD_secondary TYPE_GROUP_8 PF_66 4) 1 "BT" TYPE_INST (FLAGS_MODRM .| FLAGS_SF_MOD_DST) 1;
    Ent (OPD_secondary TYPE_GROUP_8 PF_66 5) 1 "BTS" TYPE_INST (FLAGS_MODRM .| FLAGS_SF_MOD_DST) 1;
    Ent (OPD_secondary TYPE_GROUP_8 PF_66 6) 1 "BTR" TYPE_INST (FLAGS_MODRM .| FLAGS_SF_MOD_DST) 1;
    Ent (OPD_secondary TYPE_GROUP_8 PF_66 7) 1 "BTC" TYPE_INST (FLAGS_MODRM .| FLAGS_SF_MOD_DST) 1;
    Ent (OPD_secondary TYPE_GROUP_8 PF_F2 0) 1 "" TYPE_INVALID FLAGS_NONE 0;
    Ent (OPD_secondary TYPE_GROUP_8 PF_F2 1) 1 "" TYPE_INVALID FLAGS_NONE 0;
    Ent (OPD_secondary TYPE_GROUP_8 PF_F2 2) 1 "" TYPE_INVALID FLAGS_NONE 0;
    Ent (OPD_secondary TYPE_GROUP_8 PF_F2 3) 1 "" TYPE_INVALID FLAGS_NONE 0;
    Ent (OPD_secondary TYPE_GROUP_8 PF_F2 4) 1 "BT" TYPE_INST (FLAGS_MODRM .| FLAGS_SF_MOD_DST) 1;
    Ent (OPD_secondary TYPE_GROUP_8 PF_F2 5) 1 "BTS" TYPE_INST (FLAGS_MODRM .| FLAGS_SF_MOD_DST) 1;
    Ent (OPD_secondary TYPE_GROUP_8 PF_F2 6) 1 "BTR" TYPE_INST (FLAGS_MODRM .| FLAGS_SF_MOD_DST) 1;
    Ent (OPD_secondary TYPE_GROUP_8 PF_F2 7) 1 "BTC" TYPE_INST (FLAGS_MODRM .| FLAGS_SF_MOD_DST) 1
  ].
Definition SecondaryExtensionOpTable_9_12 : list Entry := [
    Ent (OPD_secondary TYPE_GROUP_9 PF_NONE 0) 1 "" TYPE_INVALID FLAGS_NONE 0;
    Ent (OPD_secondary TYPE_GROUP_9 PF_NONE 1) 1 "CMPXCHG8B/16B" TYPE_INST (FLAGS_MODRM .| FLAGS_SF_MOD_DST .| FLAGS_SF_MOD_MEM_ONLY) 0;
    Ent (OPD_secondary TYPE_GROUP_9 PF_NONE 2) 1 "" TYPE_INVALID FLAGS_NONE 0;
    Ent (OPD_secondary TYPE_GROUP_9 PF_NONE 3) 1 "" TYPE_INVALID FLAGS_NONE 0;
    Ent (OPD_secondary TYPE_GROUP_9 PF_NONE 4) 1 "" TYPE_INVALID FLAGS_NONE 0;
    Ent (OPD_secondary TYPE_GROUP_9 PF_NONE 5) 1 "" TYPE_INVALID FLAGS_NONE 0;
    Ent (OPD_secondary TYPE_GROUP_9 PF_NONE 6) 1 "RDRAND" TYPE_INST (FLAGS_MODRM .| FLAGS_SF_MOD_DST .| FLAGS_SF_MOD_REG_ONLY) 0;
    Ent (OPD_secondary TYPE_GROUP_9 PF_NONE 7) 1 "RDSEED" TYPE_INST (FLAGS_MODRM .| FLAGS_SF_MOD_DST .| FLAGS_SF_MOD_REG_ONLY) 0;
    Ent (OPD_secondary TYPE_GROUP_9 PF_F3 0) 1 "" TYPE_INVALID FLAGS_NONE 0;
    Ent (OPD_secondary TYPE_GROUP_9 PF_F3 1) 1 "CMPXCHG8B/16B" TYPE_INST (FLAGS_MODRM .| FLAGS_SF_MOD_DST .| FLAGS_SF_MOD_MEM_ONLY) 0;
    Ent (OPD_secondary TYPE_GROUP_9 PF_F3 2) 1 "" TYPE_INVALID FLAGS_NONE 0;
    Ent (OPD_secondary TYPE_GROUP_9 PF_F3 3) 1 "" TYPE_INVALID FLAGS_NONE 0;
    Ent (OPD_secondary TYPE_GROUP_9 PF_F3 4) 1 "" TYPE_INVALID FLAGS_NONE 0;
    Ent (OPD_secondary TYPE_GROUP_9 PF_F3 5) 1 "" TYPE_INVALID FLAGS_NONE 0;
    Ent (OPD_secondary TYPE_GROUP_9 PF_F3 6) 1 "" TYPE_INVALID FLAGS_NONE 0;
    Ent (OPD_secondary TYPE_GROUP_9 PF_F3 7) 1 "RDPID" TYPE_INVALID FLAGS_NONE 0;
    Ent (OPD_secondary TYPE_GROUP_9 PF_66 0) 1 "" TYPE_INVALID FLAGS_NONE 0;
    Ent (OPD_secondary TYPE_GROUP_9 PF_66 1) 1 "CMPXCHG8B/16B" TYPE_INST (FLAGS_MODRM .| FLAGS_SF_MOD_DST .| FLAGS_SF_MOD_MEM_ONLY) 0;
    Ent (OPD_secondary TYPE_GROUP_9 PF_66 2) 1 "" TYPE_INVALID FLAGS_NONE 0;
    Ent (OPD_secondary TYPE_GROUP_9 PF_66 3) 1 "" TYPE_INVALID FLAGS_NONE 0;
    Ent (OPD_secondary TYPE_GROUP_9 PF_66 4) 1 "" TYPE_INVALID FLAGS_NONE 0;
    Ent (OPD_secondary TYPE_GROUP_9 PF_66 5) 1 "" TYPE_INVALID FLAGS_NONE 0;
    Ent (OPD_secondary TYPE_GROUP_9 PF_66 6) 1 "RDRAND" TYPE_INST (FLAGS_MODRM .| FLAGS_SF_MOD_DST .| FLAGS_SF_MOD_REG_ONLY) 0;
    Ent (OPD_secondary TYPE_GROUP_9 PF_66 7) 1 "RDSEED" TYPE_INST (FLAGS_MODRM .| FLAGS_SF_MOD_DST .| FLAGS_SF_MOD_REG_ONLY) 0;
    Ent (OPD_secondary TYPE_GROUP_9 PF_F2 0) 1 "" TYPE_INVALID FLAGS_NONE 0;
    Ent (OPD_secondary TYPE_GROUP_9 PF_F2 1) 1 "CMPXCHG8B/16B" TYPE_INST (FLAGS_MODRM .| FLAGS_SF_MOD_DST .| FLAGS_SF_MOD_MEM_ONLY) 0;
    Ent (OPD_secondary TYPE_GROUP_9 PF_F2 2) 1 "" TYPE_INVALID FLAGS_NONE 0;
    Ent (OPD_secondary TYPE_GROUP_9 PF_F2 3) 1 "" TYPE_INVALID FLAGS_NONE 0;
    Ent (OPD_secondary TYPE_GROUP_9 PF_F2 4) 1 "" TYPE_INVALID FLAGS_NONE 0;
    Ent (OPD_secondary TYPE_GROUP_9 PF_F2 5) 1 "" TYPE_INVALID FLAGS_NONE 0;
    Ent (OPD_secondary TYPE_GROUP_9 PF_F2 6) 1 "" TYPE_INVALID FLAGS_NONE 0;
    Ent (OPD_secondary TYPE_GROUP_9 PF_F2 7) 1 "" TYPE_INVALID FLAGS_NONE 0;
    Ent (OPD_secondary TYPE_GROUP_10 PF_NONE 0) 1 "UD1" TYPE_INST (FLAGS_DEBUG .| FLAGS_BLOCK_END) 0;
    Ent (OPD_secondary TYPE_GROUP_10 PF_NONE 1) 1 "UD1" TYPE_INST (FLAGS_DEBUG .| FLAGS_BLOCK_END) 0;
    Ent (OPD_secondary TYPE_GROUP_10 PF_NONE 2) 1 "UD1" TYPE_INST (FLAGS_DEBUG .| FLAGS_BLOCK_END) 0;
    Ent (OPD_secondary TYPE_GROUP_10 PF_NONE 3) 1 "UD1" TYPE_INST (FLAGS_DEBUG .| FLAGS_BLOCK_END) 0;
    Ent (OPD_secondary TYPE_GROUP_10 PF_NONE 4) 1 "UD1" TYPE_INST (FLAGS_DEBUG .| FLAGS_BLOCK_END) 0;
    Ent (OPD_secondary TYPE_GROUP_10 PF_NONE 5) 1 "UD1" TYPE_INST (FLAGS_DEBUG .| FLAGS_BLOCK_END) 0;
    Ent (OPD_secondary TYPE_GROUP_10 PF_NONE 6) 1 "UD1" TYPE_INST (FLAGS_DEBUG .| FLAGS_BLOCK_END) 0;
    Ent (OPD_secondary TYPE_GROUP_10 PF_NONE 7) 1 "UD1" TYPE_INST (FLAGS_DEBUG .| FLAGS_BLOCK_END) 0;
    Ent (OPD_secondary TYPE_GROUP_10 PF_F3 0) 1 "UD1" TYPE_INST (FLAGS_DEBUG .| FLAGS_BLOCK_END) 0;
    Ent (OPD_secondary TYPE_GROUP_10 PF_F3 1) 1 "UD1" TYPE_INST (FLAGS_DEBUG .| FLAGS_BLOCK_END) 0;
    Ent (OPD_secondary TYPE_GROUP_10 PF_F3 2) 1 "UD1" TYPE_INST (FLAGS_DEBUG .| FLAGS_BLOCK_END) 0;
    Ent (OPD_secondary TYPE_GROUP_10 PF_F3 3) 1 "UD1" TYPE_INST (FLAGS_DEBUG .| FLAGS_BLOCK_END) 0;
    Ent (OPD_secondary TYPE_GROUP_10 PF_F3 4) 1 "UD1" TYPE_INST (FLAGS_DEBUG .| FLAGS_BLOCK_END) 0;
    Ent (OPD_secondary TYPE_GROUP_10 PF_F3 5) 1 "UD1" TYPE_INST (FLAGS_DEBUG .| FLAGS_BLOCK_END) 0;
    Ent (OPD_secondary TYPE_GROUP_10 PF_F3 6) 1 "UD1" TYPE_INST (FLAGS_DEBUG .| FLAGS_BLOCK_END) 0;
    Ent (OPD_secondary TYPE_GROUP_10 PF_F3 7) 1 "UD1" TYPE_INST (FLAGS_DEBUG .| FLAGS_BLOCK_END) 0;
    Ent (OPD_secondary TYPE_GROUP_10 PF_66 0) 1 "UD1" TYPE_INST (FLAGS_DEBUG .| FLAGS_BLOCK_END) 0;
    Ent (OPD_secondary TYPE_GROUP_10 PF_66 1) 1 "UD1" TYPE_INST (FLAGS_DEBUG .| FLAGS_BLOCK_END) 0;
    Ent (OPD_secondary TYPE_GROUP_10 PF_66 2) 1 "UD1" TYPE_INST (FLAGS_DEBUG .| FLAGS_BLOCK_END) 0;
    Ent (OPD_secondary TYPE_GROUP_10 PF_66 3) 1 "UD1" TYPE_INST (FLAGS_DEBUG .| FLAGS_BLOCK_END) 0;
    Ent (OPD_secondary TYPE_GROUP_10 PF_66 4) 1 "UD1" TYPE_INST (FLAGS_DEBUG .| FLAGS_BLOCK_END) 0;
    Ent (OPD_secondary TYPE_GROUP_10 PF_66 5) 1 "UD1" TYPE_INST (FLAGS_DEBUG .| FLAGS_BLOCK_END) 0;
    Ent (OPD_secondary TYPE_GROUP_10 PF_66 6) 1 "UD1" TYPE_INST (FLAGS_DEBUG .| FLAGS_BLOCK_END) 0;
    Ent (OPD_secondary TYPE_GROUP_10 PF_66 7) 1 "UD1" TYPE_INST (FLAGS_DEBUG .| FLAGS_BLOCK_END) 0;
    Ent (OPD_secondary TYPE_GROUP_10 PF_F2 0) 1 "UD1" TYPE_INST (FLAGS_DEBUG .| FLAGS_BLOCK_END) 0;
    Ent (OPD_secondary TYPE_GROUP_10 PF_F2 1) 1 "UD1" TYPE_INST (FLAGS_DEBUG .| FLAGS_BLOCK_END) 0;
    Ent (OPD_secondary TYPE_GROUP_10 PF_F2 2) 1 "UD1" TYPE_INST (FLAGS_DEBUG .| FLAGS_BLOCK_END) 0;
    Ent (OPD_secondary TYPE_GROUP_10 PF_F2 3) 1 "UD1" TYPE_INST (FLAGS_DEBUG .| FLAGS_BLOCK_END) 0;
    Ent (OPD_secondary TYPE_GROUP_10 PF_F2 4) 1 "UD1" TYPE_INST (FLAGS_DEBUG .| FLAGS_BLOCK_END) 0;
    Ent (OPD_secondary TYPE_GROUP_10 PF_F2 5) 1 "UD1" TYPE_INST (FLAGS_DEBUG .| FLAGS_BLOCK_END) 0;
    Ent (OPD_secondary TYPE_GROUP_10 PF_F2 6) 1 "UD1" TYPE_INST (FLAGS_DEBUG .| FLAGS_BLOCK_END) 0;
    Ent (OPD_secondary TYPE_GROUP_10 PF_F2 7) 1 "UD1" TYPE_INST (FLAGS_DEBUG .| FLAGS_BLOCK_END) 0;
    Ent (OPD_secondary TYPE_GROUP_12 PF_NONE 0) 1 "" TYPE_INVALID FLAGS_NONE 0;
    Ent (OPD_secondary TYPE_GROUP_12 PF_NONE 1) 1 "" TYPE_INVALID FLAGS_NONE 0;
    Ent (OPD_secondary TYPE_GROUP_12 PF_NONE 2) 1 "PSRLW" TYPE_INST (GenFlagsSameSize SIZE_64BIT .| FLAGS_MODRM .| FLAGS_SF_MOD_DST .| FLAGS_XMM_FLAGS .| FLAGS_SF_MMX) 1;
    Ent (OPD_secondary TYPE_GROUP_12 PF_NONE 3) 1 "" TYPE_INVALID FLAGS_NONE 0;
    Ent (OPD_secondary TYPE_GROUP_12 PF_NONE 4) 1 "PSRAW" TYPE_INST (GenFlagsSameSize SIZE_64BIT .| FLAGS_MODRM .| FLAGS_SF_MOD_DST .| FLAGS_XMM_FLAGS .| FLAGS_SF_MMX) 1;
    Ent (OPD_secondary TYPE_GROUP_12 PF_NONE 5) 1 "" TYPE_INVALID FLAGS_NONE 0;
    Ent (OPD_secondary TYPE_GROUP_12 PF_NONE 6) 1 "PSLLW" TYPE_INST (GenFlagsSameSize SIZE_64BIT .| FLAGS_MODRM .| FLAGS_SF_MOD_DST .| FLAGS_XMM_FLAGS .| FLAGS_SF_MMX) 1;
    Ent (OPD_secondary TYPE_GROUP_12 PF_NONE 7) 1 "" TYPE_INVALID FLAGS_NONE 0;
    Ent (OPD_secondary TYPE_GROUP_12 PF_66 0) 1 "" TYPE_INVALID FLAGS_NONE 0;
    Ent (OPD_secondary TYPE_GROUP_12 PF_66 1) 1 "" TYPE_INVALID FLAGS_NONE 0;
    Ent (OPD_secondary TYPE_GROUP_12 PF_66 2) 1 "PSRLW" TYPE_INST (GenFlagsSameSize SIZE_128BIT .| FLAGS_MODRM .| FLAGS_SF_MOD_DST .| FLAGS_SF_MOD_REG_ONLY .| FLAGS_XMM_FLAGS) 1;
    Ent (OPD_secondary TYPE_GROUP_12 PF_66 3) 1 "" TYPE_INVALID FLAGS_NONE 0;
    Ent (OPD_secondary TYPE_GROUP_12 PF_66 4) 1 "PSRAW" TYPE_INST (GenFlagsSameSize SIZE_128BIT .| FLAGS_MODRM .| FLAGS_SF_MOD_DST .| FLAGS_SF_MOD_REG_ONLY .| FLAGS_XMM_FLAGS) 1;
    Ent (OPD_secondary TYPE_GROUP_12 PF_66 5) 1 "" TYPE_INVALID FLAGS_NONE 0;
    Ent (OPD_secondary TYPE_GROUP_12 PF_66 6) 1 "PSLLW" TYPE_INST (GenFlagsSameSize SIZE_128BIT .| FLAGS_MODRM .| FLAGS_SF_MOD_DST .| FLAGS_SF_MOD_REG_ONLY .| FLAGS_XMM_FLAGS) 1;
    Ent (OPD_secondary TYPE_GROUP_12 PF_66 7) 1 "" TYPE_INVALID FLAGS_NONE 0;
    Ent (OPD_secondary TYPE_GROUP_12 PF_F3 0) 1 "" TYPE_INVALID FLAGS_NONE 0;
    Ent (OPD_secondary TYPE_GROUP_12 PF_F3 1) 1 "" TYPE_INVALID FLAGS_NONE 0;
    Ent (OPD_secondary TYPE_GROUP_12 PF_F3 2) 1 "" TYPE_INVALID FLAGS_NONE 0;
    Ent (OPD_secondary TYPE_GROUP_12 PF_F3 3) 1 "" TYPE_INVALID FLAGS_NONE 0;
    Ent (OPD_secondary TYPE_GROUP_12 PF_F3 4) 1 "" TYPE_INVALID FLAGS_NONE 0;
    Ent (OPD_secondary TYPE_GROUP_12 PF_F3 5) 1 "" TYPE_INVALID FLAGS_NONE 0;
    Ent (OPD_secondary TYPE_GROUP_12 PF_F3 6) 1 "" TYPE_INVALID FLAGS_NONE 0;
    Ent (OPD_secondary TYPE_GROUP_12 PF_F3 7) 1 "" TYPE_INVALID FLAGS_NONE 0;
    Ent (OPD_secondary TYPE_GROUP_12 PF_F2 0) 1 "" TYPE_INVALID FLAGS_NONE 0;
    Ent (OPD_secondary TYPE_GROUP_12 PF_F2 1) 1 "" TYPE_INVALID FLAGS_NONE 0;
    Ent (OPD_secondary TYPE_GROUP_12 PF_F2 2) 1 "" TYPE_INVALID FLAGS_NONE 0;
    Ent (OPD_secondary TYPE_GROUP_12 PF_F2 3) 1 "" TYPE_INVALID FLAGS_NONE 0;
    Ent (OPD_secondary TYPE_GROUP_12 PF_F2 4) 1 "" TYPE_INVALID FLAGS_NONE 0;
    Ent (OPD_secondary TYPE_GROUP_12 PF_F2 5) 1 "" TYPE_INVALID FLAGS_NONE 0;
    Ent (OPD_secondary TYPE_GROUP_12 PF_F2 6) 1 "" TYPE_INVALID FLAGS_NONE 0;
    Ent (OPD_secondary TYPE_GROUP_12 PF_F2 7) 1 "" TYPE_INVALID FLAGS_NONE 0
  ].
Definition SecondaryExtensionOpTable_13_15 : list Entry := [
    Ent (OPD_secondary TYPE_GROUP_13 PF_NONE 0) 1 "" TYPE_INVALID FLAGS_NONE 0;
    Ent (OPD_secondary TYPE_GROUP_13 PF_NONE 1) 1 "" TYPE_INVALID FLAGS_NONE 0;
    Ent (OPD_secondary TYPE_GROUP_13 PF_NONE 2) 1 "PSRLD" TYPE_INST (GenFlagsSameSize SIZE_64BIT .| FLAGS_MODRM .| FLAGS_SF_MOD_DST .| FLAGS_XMM_FLAGS .| FLAGS_SF_MMX) 1;
    Ent (OPD_secondary TYPE_GROUP_13 PF_NONE 3) 1 "" TYPE_INVALID FLAGS_NONE 0;
    Ent (OPD_secondary TYPE_GROUP_13 PF_NONE 4) 1 "PSRAD" TYPE_INST (GenFlagsSameSize SIZE_64BIT .| FLAGS_MODRM .| FLAGS_SF_MOD_DST .| FLAGS_XMM_FLAGS .| FLAGS_SF_MMX) 1;
    Ent (OPD_secondary TYPE_GROUP_13 PF_NONE 5) 1 "" TYPE_INVALID FLAGS_NONE 0;
    Ent (OPD_secondary TYPE_GROUP_13 PF_NONE 6) 1 "PSLLD" TYPE_INST (GenFlagsSameSize SIZE_64BIT .| FLAGS_MODRM .| FLAGS_SF_MOD_DST .| FLAGS_XMM_FLAGS .| FLAGS_SF_MMX) 1;
    Ent (OPD_secondary TYPE_GROUP_13 PF_NONE 7) 1 "" TYPE_INVALID FLAGS_NONE 0;
    Ent (OPD_secondary TYPE_GROUP_13 PF_66 0) 1 "" TYPE_INVALID FLAGS_NONE 0;
    Ent (OPD_secondary TYPE_GROUP_13 PF_66 1) 1 "" TYPE_INVALID FLAGS_NONE 0;
    Ent (OPD_secondary TYPE_GROUP_13 PF_66 2) 1 "PSRLD" TYPE_INST (GenFlagsSameSize SIZE_128BIT .| FLAGS_MODRM .| FLAGS_SF_MOD_DST .| FLAGS_SF_MOD_REG_ONLY .| FLAGS_XMM_FLAGS) 1;
    Ent (OPD_secondary TYPE_GROUP_13 PF_66 3) 1 "" TYPE_INVALID FLAGS_NONE 0;
    Ent (OPD_secondary TYPE_GROUP_13 PF_66 4) 1 "PSRAD" TYPE_INST (GenFlagsSameSize SIZE_128BIT .| FLAGS_MODRM .| FLAGS_SF_MOD_DST .| FLAGS_SF_MOD_REG_ONLY .| FLAGS_XMM_FLAGS) 1;
    Ent (OPD_secondary TYPE_GROUP_13 PF_66 5) 1 "" TYPE_INVALID FLAGS_NONE 0;
    Ent (OPD_secondary TYPE_GROUP_13 PF_66 6) 1 "PSLLD" TYPE_INST (GenFlagsSameSize SIZE_128BIT .| FLAGS_MODRM .| FLAGS_SF_MOD_DST .| FLAGS_SF_MOD_REG_ONLY .| FLAGS_XMM_FLAGS) 1;
    Ent (OPD_secondary TYPE_GROUP_13 PF_66 7) 1 "" TYPE_INVALID FLAGS_NONE 0;
    Ent (OPD_secondary TYPE_GROUP_13 PF_F3 0) 1 "" TYPE_INVALID FLAGS_NONE 0;
    Ent (OPD_secondary TYPE_GROUP_13 PF_F3 1) 1 "" TYPE_INVALID FLAGS_NONE 0;
    Ent (OPD_secondary TYPE_GROUP_13 PF_F3 2) 1 "" TYPE_INVALID FLAGS_NONE 0;
    Ent (OPD_secondary TYPE_GROUP_13 PF_F3 3) 1 "" TYPE_INVALID FLAGS_NONE 0;
    Ent (OPD_secondary TYPE_GROUP_13 PF_F3 4) 1 "" TYPE_INVALID FLAGS_NONE 0;
    Ent (OPD_secondary TYPE_GROUP_13 PF_F3 5) 1 "" TYPE_INVALID FLAGS_NONE 0;
    Ent (OPD_secondary TYPE_GROUP_13 PF_F3 6) 1 "" TYPE_INVALID FLAGS_NONE 0;
    Ent (OPD_secondary TYPE_GROUP_13 PF_F3 7) 1 "" TYPE_INVALID FLAGS_NONE 0;
    Ent (OPD_secondary TYPE_GROUP_13 PF_F2 0) 1 "" TYPE_INVALID FLAGS_NONE 0;
    Ent (OPD_secondary TYPE_GROUP_13 PF_F2 1) 1 "" TYPE_INVALID FLAGS_NONE 0;
    Ent (OPD_secondary TYPE_GROUP_13 PF_F2 2) 1 "" TYPE_INVALID FLAGS_NONE 0;
    Ent (OPD_secondary TYPE_GROUP_13 PF_F2 3) 1 "" TYPE_INVALID FLAGS_NONE 0;
    Ent (OPD_secondary TYPE_GROUP_13 PF_F2 4) 1 "" TYPE_INVALID FLAGS_NONE 0;
    Ent (OPD_secondary TYPE_GROUP_13 PF_F2 5) 1 "" TYPE_INVALID FLAGS_NONE 0;
    Ent (OPD_secondary TYPE_GROUP_13 PF_F2 6) 1 "" TYPE_INVALID FLAGS_NONE 0;
    Ent (OPD_secondary TYPE_GROUP_13 PF_F2 7) 1 "" TYPE_INVALID FLAGS_NONE 0;
    Ent (OPD_secondary TYPE_GROUP_14 PF_NONE 0) 1 "" TYPE_INVALID FLAGS_NONE 0;
    Ent (OPD_secondary TYPE_GROUP_14 PF_NONE 1) 1 "" TYPE_INVALID FLAGS_NONE 0;
    Ent (OPD_secondary TYPE_GROUP_14 PF_NONE 2) 1 "PSRLQ" TYPE_INST (GenFlagsSameSize SIZE_64BIT .| FLAGS_MODRM .| FLAGS_SF_MOD_DST .| FLAGS_XMM_FLAGS .| FLAGS_SF_MMX) 1;
    Ent (OPD_secondary TYPE_GROUP_14 PF_NONE 3) 1 "" TYPE_INVALID FLAGS_NONE 0;
    Ent (OPD_secondary TYPE_GROUP_14 PF_NONE 4) 1 "" TYPE_INVALID FLAGS_NONE 0;
    Ent (OPD_secondary TYPE_GROUP_14 PF_NONE 5) 1 "" TYPE_INVALID FLAGS_NONE 0;
    Ent (OPD_secondary TYPE_GROUP_14 PF_NONE 6) 1 "PSLLQ" TYPE_INST (GenFlagsSameSize SIZE_64BIT .| FLAGS_MODRM .| FLAGS_SF_MOD_DST .| FLAGS_XMM_FLAGS .| FLAGS_SF_MMX) 1;
    Ent (OPD_secondary TYPE_GROUP_14 PF_NONE 7) 1 "" TYPE_INVALID FLAGS_NONE 0;
    Ent (OPD_secondary TYPE_GROUP_14 PF_66 0) 1 "" TYPE_INVALID FLAGS_NONE 0;
    Ent (OPD_secondary TYPE_GROUP_14 PF_66 1) 1 "" TYPE_INVALID FLAGS_NONE 0;
    Ent (OPD_secondary TYPE_GROUP_14 PF_66 2) 1 "PSRLQ" TYPE_INST (GenFlagsSameSize SIZE_128BIT .| FLAGS_MODRM .| FLAGS_SF_MOD_DST .| FLAGS_SF_MOD_REG_ONLY .| FLAGS_XMM_FLAGS) 1;
    Ent (OPD_secondary TYPE_GROUP_14 PF_66 3) 1 "PSRLDQ" TYPE_INST (GenFlagsSameSize SIZE_128BIT .| FLAGS_MODRM .| FLAGS_SF_MOD_DST .| FLAGS_SF_MOD_REG_ONLY .| FLAGS_XMM_FLAGS) 1;
    Ent (OPD_secondary TYPE_GROUP_14 PF_66 4) 1 "" TYPE_INVALID FLAGS_NONE 0;
    Ent (OPD_secondary TYPE_GROUP_14 PF_66 5) 1 "" TYPE_INVALID FLAGS_NONE 0;
    Ent (OPD_secondary TYPE_GROUP_14 PF_66 6) 1 "PSLLQ" TYPE_INST (GenFlagsSameSize SIZE_128BIT .| FLAGS_MODRM .| FLAGS_SF_MOD_DST .| FLAGS_SF_MOD_REG_ONLY .| FLAGS_XMM_FLAGS) 1;
    Ent (OPD_secondary TYPE_GROUP_14 PF_66 7) 1 "PSLLDQ" TYPE_INST (GenFlagsSameSize SIZE_128BIT .| FLAGS_MODRM .| FLAGS_SF_MOD_DST .| FLAGS_SF_MOD_REG_ONLY .| FLAGS_XMM_FLAGS) 1;
    Ent (OPD_secondary TYPE_GROUP_14 PF_F3 0) 1 "" TYPE_INVALID FLAGS_NONE 0;
    Ent (OPD_secondary TYPE_GROUP_14 PF_F3 1) 1 "" TYPE_INVALID FLAGS_NONE 0;
    Ent (OPD_secondary TYPE_GROUP_14 PF_F3 2) 1 "" TYPE_INVALID FLAGS_NONE 0;
    Ent (OPD_secondary TYPE_GROUP_14 PF_F3 3) 1 "" TYPE_INVALID FLAGS_NONE 0;
    Ent (OPD_secondary TYPE_GROUP_14 PF_F3 4) 1 "" TYPE_INVALID FLAGS_NONE 0;
    Ent (OPD_secondary TYPE_GROUP_14 PF_F3 5) 1 "" TYPE_INVALID FLAGS_NONE 0;
    Ent (OPD_secondary TYPE_GROUP_14 PF_F3 6) 1 "" TYPE_INVALID FLAGS_NONE 0;
    Ent (OPD_secondary TYPE_GROUP_14 PF_F3 7) 1 "" TYPE_INVALID FLAGS_NONE 0;
    Ent (OPD_secondary TYPE_GROUP_14 PF_F2 0) 1 "" TYPE_INVALID FLAGS_NONE 0;
    Ent (OPD_secondary TYPE_GROUP_14 PF_F2 1) 1 "" TYPE_INVALID FLAGS_NONE 0;
    Ent (OPD_secondary TYPE_GROUP_14 PF_F2 2) 1 "" TYPE_INVALID FLAGS_NONE 0;
    Ent (OPD_secondary TYPE_GROUP_14 PF_F2 3) 1 "" TYPE_INVALID FLAGS_NONE 0;
    Ent (OPD_secondary TYPE_GROUP_14 PF_F2 4) 1 "" TYPE_INVALID FLAGS_NONE 0;
    Ent (OPD_secondary TYPE_GROUP_14 PF_F2 5) 1 "" TYPE_INVALID FLAGS_NONE 0;
    Ent (OPD_secondary TYPE_GROUP_14 PF_F2 6) 1 "" TYPE_INVALID FLAGS_NONE 0;
    Ent (OPD_secondary TYPE_GROUP_14 PF_F2 7) 1 "" TYPE_INVALID FLAGS_NONE 0;
    Ent (OPD_secondary TYPE_GROUP_15 PF_NONE 0) 1 "FXSAVE" TYPE_INST (FLAGS_MODRM .| FLAGS_SF_MOD_DST) 0;
    Ent (OPD_secondary TYPE_GROUP_15 PF_NONE 1) 1 "FXRSTOR" TYPE_INST FLAGS_MODRM 0;
    Ent (OPD_secondary TYPE_GROUP_15 PF_NONE 2) 1 "LDMXCSR" TYPE_INST (GenFlagsSameSize SIZE_32BIT .| FLAGS_MODRM .| FLAGS_SF_MOD_DST .| FLAGS_SF_MOD_MEM_ONLY) 0;
    Ent (OPD_secondary TYPE_GROUP_15 PF_NONE 3) 1 "STMXCSR" TYPE_INST (GenFlagsSameSize SIZE_32BIT .| FLAGS_MODRM .| FLAGS_SF_MOD_DST .| FLAGS_SF_MOD_MEM_ONLY) 0;
    Ent (OPD_secondary TYPE_GROUP_15 PF_NONE 4) 1 "XSAVE" TYPE_PRIV FLAGS_NONE 0;
    Ent (OPD_secondary TYPE_GROUP_15 PF_NONE 5) 1 "LFENCE/XRSTOR" TYPE_INST (FLAGS_MODRM .| FLAGS_SF_MOD_DST) 0;
    Ent (OPD_secondary TYPE_GROUP_15 PF_NONE 6) 1 "MFENCE/XSAVEOPT" TYPE_INST FLAGS_MODRM 0;
    Ent (OPD_secondary TYPE_GROUP_15 PF_NONE 7) 1 "SFENCE/CLFLUSH" TYPE_INST (FLAGS_MODRM .| FLAGS_SF_MOD_DST) 0;
    Ent (OPD_secondary TYPE_GROUP_15 PF_F3 0) 1 "RDFSBASE" TYPE_INST (FLAGS_MODRM .| FLAGS_SF_MOD_DST .| FLAGS_SF_MOD_REG_ONLY) 0;
    Ent (OPD_secondary TYPE_GROUP_15 PF_F3 1) 1 "RDGSBASE" TYPE_INST (FLAGS_MODRM .| FLAGS_SF_MOD_DST .| FLAGS_SF_MOD_REG_ONLY) 0;
    Ent (OPD_secondary TYPE_GROUP_15 PF_F3 2) 1 "WRFSBASE" TYPE_INST (GenFlagsDstSize SIZE_64BIT .| FLAGS_MODRM .| FLAGS_SF_MOD_REG_ONLY) 0;
    Ent (OPD_secondary TYPE_GROUP_15 PF_F3 3) 1 "WRGSBASE" TYPE_INST (GenFlagsDstSize SIZE_64BIT .| FLAGS_MODRM .| FLAGS_SF_MOD_REG_ONLY) 0;
    Ent (OPD_secondary TYPE_GROUP_15 PF_F3 4) 1 "" TYPE_INVALID FLAGS_NONE 0;
    Ent (OPD_secondary TYPE_GROUP_15 PF_F3 5) 1 "INCSSPQ" TYPE_INST FLAGS_MODRM 0;
    Ent (OPD_secondary TYPE_GROUP_15 PF_F3 6) 1 "CLRSSBSY" TYPE_INST FLAGS_NONE 0;
    Ent (OPD_secondary TYPE_GROUP_15 PF_F3 7) 1 "" TYPE_INVALID FLAGS_NONE 0;
    Ent (OPD_secondary TYPE_GROUP_15 PF_66 0) 1 "" TYPE_INVALID FLAGS_NONE 0;
    Ent (OPD_secondary TYPE_GROUP_15 PF_66 1) 1 "" TYPE_INVALID FLAGS_NONE 0;
    Ent (OPD_secondary TYPE_GROUP_15 PF_66 2) 1 "" TYPE_INVALID FLAGS_NONE 0;
    Ent (OPD_secondary TYPE_GROUP_15 PF_66 3) 1 "" TYPE_INVALID FLAGS_NONE 0;
    Ent (OPD_secondary TYPE_GROUP_15 PF_66 4) 1 "" TYPE_INVALID FLAGS_NONE 0;
    Ent (OPD_secondary TYPE_GROUP_15 PF_66 5) 1 "" TYPE_INVALID FLAGS_NONE 0;
    Ent (OPD_secondary TYPE_GROUP_15 PF_66 6) 1 "" TYPE_INVALID FLAGS_NONE 0;
    Ent (OPD_secondary TYPE_GROUP_15 PF_66 7) 1 "" TYPE_INVALID FLAGS_NONE 0;
    Ent (OPD_secondary TYPE_GROUP_15 PF_F2 0) 1 "" TYPE_INVALID FLAGS_NONE 0;
    Ent (OPD_secondary TYPE_GROUP_15 PF_F2 1) 1 "" TYPE_INVALID FLAGS_NONE 0;
    Ent (OPD_secondary TYPE_GROUP_15 PF_F2 2) 1 "" TYPE_INVALID FLAGS_NONE 0;
    Ent (OPD_secondary TYPE_GROUP_15 PF_F2 3) 1 "" TYPE_INVALID FLAGS_NONE 0;
    Ent (OPD_secondary TYPE_GROUP_15 PF_F2 4) 1 "" TYPE_INVALID FLAGS_NONE 0;
    Ent (OPD_secondary TYPE_GROUP_15 PF_F2 5) 1 "" TYPE_INVALID FLAGS_NONE 0;
    Ent (OPD_secondary TYPE_GROUP_15 PF_F2 6) 1 "" TYPE_INVALID FLAGS_NONE 0;
    Ent (OPD_secondary TYPE_GROUP_15 PF_F2 7) 1 "" TYPE_INVALID FLAGS_NONE 0
  ].
Definition SecondaryExtensionOpTable_16_P : list Entry := [
    Ent (OPD_secondary TYPE_GROUP_16 PF_NONE 0) 1 "PREFETCH NTA" TYPE_INST (FLAGS_MODRM .| FLAGS_SF_MOD_MEM_ONLY) 0;
    Ent (OPD_secondary TYPE_GROUP_16 PF_NONE 1) 1 "PREFETCH T0" TYPE_INST (FLAGS_MODRM .| FLAGS_SF_MOD_MEM_ONLY) 0;
    Ent (OPD_secondary TYPE_GROUP_16 PF_NONE 2) 1 "PREFETCH T1" TYPE_INST (FLAGS_MODRM .| FLAGS_SF_MOD_MEM_ONLY) 0;
    Ent (OPD_secondary TYPE_GROUP_16 PF_NONE 3) 1 "PREFETCH T2" TYPE_INST (FLAGS_MODRM .| FLAGS_SF_MOD_MEM_ONLY) 0;
    Ent (OPD_secondary TYPE_GROUP_16 PF_NONE 4) 1 "NOP" TYPE_INST FLAGS_MODRM 0;
    Ent (OPD_secondary TYPE_GROUP_16 PF_NONE 5) 1 "NOP" TYPE_INST FLAGS_MODRM 0;
    Ent (OPD_secondary TYPE_GROUP_16 PF_NONE 6) 1 "NOP" TYPE_INST FLAGS_MODRM 0;
    Ent (OPD_secondary TYPE_GROUP_16 PF_NONE 7) 1 "NOP" TYPE_INST FLAGS_MODRM 0;
    Ent (OPD_secondary TYPE_GROUP_16 PF_F3 0) 1 "PREFETCH NTA" TYPE_INST (FLAGS_MODRM .| FLAGS_SF_MOD_MEM_ONLY) 0;
    Ent (OPD_secondary TYPE_GROUP_16 PF_F3 1) 1 "PREFETCH T0" TYPE_INST (FLAGS_MODRM .| FLAGS_SF_MOD_MEM_ONLY) 0;
    Ent (OPD_secondary TYPE_GROUP_16 PF_F3 2) 1 "PREFETCH T1" TYPE_INST (FLAGS_MODRM .| FLAGS_SF_MOD_MEM_ONLY) 0;
    Ent (OPD_secondary TYPE_GROUP_16 PF_F3 3) 1 "PREFETCH T2" TYPE_INST (FLAGS_MODRM .| FLAGS_SF_MOD_MEM_ONLY) 0;
    Ent (OPD_secondary TYPE_GROUP_16 PF_F3 4) 1 "NOP" TYPE_INST FLAGS_MODRM 0;
    Ent (OPD_secondary TYPE_GROUP_16 PF_F3 5) 1 "NOP" TYPE_INST FLAGS_MODRM 0;
    Ent (OPD_secondary TYPE_GROUP_16 PF_F3 6) 1 "NOP" TYPE_INST FLAGS_MODRM 0;
    Ent (OPD_secondary TYPE_GROUP_16 PF_F3 7) 1 "NOP" TYPE_INST FLAGS_MODRM 0;
    Ent (OPD_secondary TYPE_GROUP_16 PF_66 0) 1 "PREFETCH NTA" TYPE_INST (FLAGS_MODRM .| FLAGS_SF_MOD_MEM_ONLY) 0;
    Ent (OPD_secondary TYPE_GROUP_16 PF_66 1) 1 "PREFETCH T0" TYPE_INST (FLAGS_MODRM .| FLAGS_SF_MOD_MEM_ONLY) 0;
    Ent (OPD_secondary TYPE_GROUP_16 PF_66 2) 1 "PREFETCH T1" TYPE_INST (FLAGS_MODRM .| FLAGS_SF_MOD_MEM_ONLY) 0;
    Ent (OPD_secondary TYPE_GROUP_16 PF_66 3) 1 "PREFETCH T2" TYPE_INST (FLAGS_MODRM .| FLAGS_SF_MOD_MEM_ONLY) 0;
    Ent (OPD_secondary TYPE_GROUP_16 PF_66 4) 1 "NOP" TYPE_INST FLAGS_MODRM 0;
    Ent (OPD_secondary TYPE_GROUP_16 PF_66 5) 1 "NOP" TYPE_INST FLAGS_MODRM 0;
    Ent (OPD_secondary TYPE_GROUP_16 PF_66 6) 1 "NOP" TYPE_INST FLAGS_MODRM 0;
    Ent (OPD_secondary TYPE_GROUP_16 PF_66 7) 1 "NOP" TYPE_INST FLAGS_MODRM 0;
    Ent (OPD_secondary TYPE_GROUP_16 PF_F2 0) 1 "PREFETCH NTA" TYPE_INST (FLAGS_MODRM .| FLAGS_SF_MOD_MEM_ONLY) 0;
    Ent (OPD_secondary TYPE_GROUP_16 PF_F2 1) 1 "PREFETCH T0" TYPE_INST (FLAGS_MODRM .| FLAGS_SF_MOD_MEM_ONLY) 0;
    Ent (OPD_secondary TYPE_GROUP_16 PF_F2 2) 1 "PREFETCH T1" TYPE_INST (FLAGS_MODRM .| FLAGS_SF_MOD_MEM_ONLY) 0;
    Ent (OPD_secondary TYPE_GROUP_16 PF_F2 3) 1 "PREFETCH T2" TYPE_INST (FLAGS_MODRM .| FLAGS_SF_MOD_MEM_ONLY) 0;
    Ent (OPD_secondary TYPE_GROUP_16 PF_F2 4) 1 "NOP" TYPE_INST FLAGS_MODRM 0;
    Ent (OPD_secondary TYPE_GROUP_16 PF_F2 5) 1 "NOP" TYPE_INST FLAGS_MODRM 0;
    Ent (OPD_secondary TYPE_GROUP_16 PF_F2 6) 1 "NOP" TYPE_INST FLAGS_MODRM 0;
    Ent (OPD_secondary TYPE_GROUP_16 PF_F2 7) 1 "NOP" TYPE_INST FLAGS_MODRM 0;
    Ent (OPD_secondary TYPE_GROUP_17 PF_NONE 0) 1 "" TYPE_INVALID FLAGS_NONE 0;
    Ent (OPD_secondary TYPE_GROUP_17 PF_NONE 1) 1 "" TYPE_INVALID FLAGS_NONE 0;
    Ent (OPD_secondary TYPE_GROUP_17 PF_NONE 2) 1 "" TYPE_INVALID FLAGS_NONE 0;
    Ent (OPD_secondary TYPE_GROUP_17 PF_NONE 3) 1 "" TYPE_INVALID FLAGS_NONE 0;
    Ent (OPD_secondary TYPE_GROUP_17 PF_NONE 4) 1 "" TYPE_INVALID FLAGS_NONE 0;
    Ent (OPD_secondary TYPE_GROUP_17 PF_NONE 5) 1 "" TYPE_INVALID FLAGS_NONE 0;
    Ent (OPD_secondary TYPE_GROUP_17 PF_NONE 6) 1 "" TYPE_INVALID FLAGS_NONE 0;
    Ent (OPD_secondary TYPE_GROUP_17 PF_NONE 7) 1 "" TYPE_INVALID FLAGS_NONE 0;
    Ent (OPD_secondary TYPE_GROUP_17 PF_F3 0) 1 "" TYPE_INVALID FLAGS_NONE 0;
    Ent (OPD_secondary TYPE_GROUP_17 PF_F3 1) 1 "" TYPE_INVALID FLAGS_NONE 0;
    Ent (OPD_secondary TYPE_GROUP_17 PF_F3 2) 1 "" TYPE_INVALID FLAGS_NONE 0;
    Ent (OPD_secondary TYPE_GROUP_17 PF_F3 3) 1 "" TYPE_INVALID FLAGS_NONE 0;
    Ent (OPD_secondary TYPE_GROUP_17 PF_F3 4) 1 "" TYPE_INVALID FLAGS_NONE 0;
    Ent (OPD_secondary TYPE_GROUP_17 PF_F3 5) 1 "" TYPE_INVALID FLAGS_NONE 0;
    Ent (OPD_secondary TYPE_GROUP_17 PF_F3 6) 1 "" TYPE_INVALID FLAGS_NONE 0;
    Ent (OPD_secondary TYPE_GROUP_17 PF_F3 7) 1 "" TYPE_INVALID FLAGS_NONE 0;
    Ent (OPD_secondary TYPE_GROUP_17 PF_66 0) 1 "EXTRQ" TYPE_INST (GenFlagsSameSize SIZE_128BIT .| FLAGS_MODRM .| FLAGS_SF_MOD_DST .| FLAGS_SF_MOD_REG_ONLY .| FLAGS_XMM_FLAGS) 2;
    Ent (OPD_secondary TYPE_GROUP_17 PF_66 1) 1 "" TYPE_INVALID FLAGS_NONE 0;
    Ent (OPD_secondary TYPE_GROUP_17 PF_66 2) 1 "" TYPE_INVALID FLAGS_NONE 0;
    Ent (OPD_secondary TYPE_GROUP_17 PF_66 3) 1 "" TYPE_INVALID FLAGS_NONE 0;
    Ent (OPD_secondary TYPE_GROUP_17 PF_66 4) 1 "" TYPE_INVALID FLAGS_NONE 0;
    Ent (OPD_secondary TYPE_GROUP_17 PF_66 5) 1 "" TYPE_INVALID FLAGS_NONE 0;
    Ent (OPD_secondary TYPE_GROUP_17 PF_66 6) 1 "" TYPE_INVALID FLAGS_NONE 0;
    Ent (OPD_secondary TYPE_GROUP_17 PF_66 7) 1 "" TYPE_INVALID FLAGS_NONE 0;
    Ent (OPD_secondary TYPE_GROUP_17 PF_F2 0) 1 "" TYPE_INVALID FLAGS_NONE 0;
    Ent (OPD_secondary TYPE_GROUP_17 PF_F2 1) 1 "" TYPE_INVALID FLAGS_NONE 0;
    Ent (OPD_secondary TYPE_GROUP_17 PF_F2 2) 1 "" TYPE_INVALID FLAGS_NONE 0;
    Ent (OPD_secondary TYPE_GROUP_17 PF_F2 3) 1 "" TYPE_INVALID FLAGS_NONE 0;
    Ent (OPD_secondary TYPE_GROUP_17 PF_F2 4) 1 "" TYPE_INVALID FLAGS_NONE 0;
    Ent (OPD_secondary TYPE_GROUP_17 PF_F2 5) 1 "" TYPE_INVALID FLAGS_NONE 0;
    Ent (OPD_secondary TYPE_GROUP_17 PF_F2 6) 1 "" TYPE_INVALID FLAGS_NONE 0;
    Ent (OPD_secondary TYPE_GROUP_17 PF_F2 7) 1 "" TYPE_INVALID FLAGS_NONE 0;
    Ent (OPD_secondary TYPE_GROUP_P PF_NONE 0) 1 "PREFETCH Ex" TYPE_INST (FLAGS_MODRM .| FLAGS_SF_MOD_MEM_ONLY) 0;
    Ent (OPD_secondary TYPE_GROUP_P PF_NONE 1) 1 "PREFETCH Mod" TYPE_INST (FLAGS_MODRM .| FLAGS_SF_MOD_MEM_ONLY) 0;
    Ent (OPD_secondary TYPE_GROUP_P PF_NONE 2) 1 "PREFETCH Res" TYPE_INST (FLAGS_MODRM .| FLAGS_SF_MOD_MEM_ONLY) 0;
    Ent (OPD_secondary TYPE_GROUP_P PF_NONE 3) 1 "PREFETCH Mod" TYPE_INST (FLAGS_MODRM .| FLAGS_SF_MOD_MEM_ONLY) 0;
    Ent (OPD_secondary TYPE_GROUP_P PF_NONE 4) 1 "PREFETCH Res" TYPE_INST (FLAGS_MODRM .| FLAGS_SF_MOD_MEM_ONLY) 0;
    Ent (OPD_secondary TYPE_GROUP_P PF_NONE 5) 1 "PREFETCH Res" TYPE_INST (FLAGS_MODRM .| FLAGS_SF_MOD_MEM_ONLY) 0;
    Ent (OPD_secondary TYPE_GROUP_P PF_NONE 6) 1 "PREFETCH Res" TYPE_INST (FLAGS_MODRM .| FLAGS_SF_MOD_MEM_ONLY) 0;
    Ent (OPD_secondary TYPE_GROUP_P PF_NONE 7) 1 "PREFETCH Res" TYPE_INST (FLAGS_MODRM .| FLAGS_SF_MOD_MEM_ONLY) 0;
    Ent (OPD_secondary TYPE_GROUP_P PF_F3 0) 1 "PREFETCH Ex" TYPE_INST (FLAGS_MODRM .| FLAGS_SF_MOD_MEM_ONLY) 0;
    Ent (OPD_secondary TYPE_GROUP_P PF_F3 1) 1 "PREFETCH Mod" TYPE_INST (FLAGS_MODRM .| FLAGS_SF_MOD_MEM_ONLY) 0;
    Ent (OPD_secondary TYPE_GROUP_P PF_F3 2) 1 "PREFETCH Res" TYPE_INST (FLAGS_MODRM .| FLAGS_SF_MOD_MEM_ONLY) 0;
    Ent (OPD_secondary TYPE_GROUP_P PF_F3 3) 1 "PREFETCH Mod" TYPE_INST (FLAGS_MODRM .| FLAGS_SF_MOD_MEM_ONLY) 0;
    Ent (OPD_secondary TYPE_GROUP_P PF_F3 4) 1 "PREFETCH Res" TYPE_INST (FLAGS_MODRM .| FLAGS_SF_MOD_MEM_ONLY) 0;
    Ent (OPD_secondary TYPE_GROUP_P PF_F3 5) 1 "PREFETCH Res" TYPE_INST (FLAGS_MODRM .| FLAGS_SF_MOD_MEM_ONLY) 0;
    Ent (OPD_secondary TYPE_GROUP_P PF_F3 6) 1 "PREFETCH Res" TYPE_INST (FLAGS_MODRM .| FLAGS_SF_MOD_MEM_ONLY) 0;
    Ent (OPD_secondary TYPE_GROUP_P PF_F3 7) 1 "PREFETCH Res" TYPE_INST (FLAGS_MODRM .| FLAGS_SF_MOD_MEM_ONLY) 0;
    Ent (OPD_secondary TYPE_GROUP_P PF_66 0) 1 "PREFETCH Ex" TYPE_INST (FLAGS_MODRM .| FLAGS_SF_MOD_MEM_ONLY) 0;
    Ent (OPD_secondary TYPE_GROUP_P PF_66 1) 1 "PREFETCH Mod" TYPE_INST (FLAGS_MODRM .| FLAGS_SF_MOD_MEM_ONLY) 0;
    Ent (OPD_secondary TYPE_GROUP_P PF_66 2) 1 "PREFETCH Res" TYPE_INST (FLAGS_MODRM .| FLAGS_SF_MOD_MEM_ONLY) 0;
    Ent (OPD_secondary TYPE_GROUP_P PF_66 3) 1 "PREFETCH Mod" TYPE_INST (FLAGS_MODRM .| FLAGS_SF_MOD_MEM_ONLY) 0;
    Ent (OPD_secondary TYPE_GROUP_P PF_66 4) 1 "PREFETCH Res" TYPE_INST (FLAGS_MODRM .| FLAGS_SF_MOD_MEM_ONLY) 0;
    Ent (OPD_secondary TYPE_GROUP_P PF_66 5) 1 "PREFETCH Res" TYPE_INST (FLAGS_MODRM .| FLAGS_SF_MOD_MEM_ONLY) 0;
    Ent (OPD_secondary TYPE_GROUP_P PF_66 6) 1 "PREFETCH Res" TYPE_INST (FLAGS_MODRM .| FLAGS_SF_MOD_MEM_ONLY) 0;
    Ent (OPD_secondary TYPE_GROUP_P PF_66 7) 1 "PREFETCH Res" TYPE_INST (FLAGS_MODRM .| FLAGS_SF_MOD_MEM_ONLY) 0;
    Ent (OPD_secondary TYPE_GROUP_P PF_F2 0) 1 "PREFETCH Ex" TYPE_INST (FLAGS_MODRM .| FLAGS_SF_MOD_MEM_ONLY) 0;
    Ent (OPD_secondary TYPE_GROUP_P PF_F2 1) 1 "PREFETCH Mod" TYPE_INST (FLAGS_MODRM .| FLAGS_SF_MOD_MEM_ONLY) 0;
    Ent (OPD_secondary TYPE_GROUP_P PF_F2 2) 1 "PREFETCH Res" TYPE_INST (FLAGS_MODRM .| FLAGS_SF_MOD_MEM_ONLY) 0;
    Ent (OPD_secondary TYPE_GROUP_P PF_F2 3) 1 "PREFETCH Mod" TYPE_INST (FLAGS_MODRM .| FLAGS_SF_MOD_MEM_ONLY) 0;
    Ent (OPD_secondary TYPE_GROUP_P PF_F2 4) 1 "PREFETCH Res" TYPE_INST (FLAGS_MODRM .| FLAGS_SF_MOD_MEM_ONLY) 0;
    Ent (OPD_secondary TYPE_GROUP_P PF_F2 5) 1 "PREFETCH Res" TYPE_INST (FLAGS_MODRM .| FLAGS_SF_MOD_MEM_ONLY) 0;
    Ent (OPD_secondary TYPE_GROUP_P PF_F2 6) 1 "PREFETCH Res" TYPE_INST (FLAGS_MODRM .| FLAGS_SF_MOD_MEM_ONLY) 0;
    Ent (OPD_secondary TYPE_GROUP_P PF_F2 7) 1 "PREFETCH Res" TYPE_INST (FLAGS_MODRM .| FLAGS_SF_MOD_MEM_ONLY) 0
  ].
Definition SecondaryExtensionOpTable : list Entry := SecondaryExtensionOpTable_6_8 ++ SecondaryExtensionOpTable_9_12 ++ SecondaryExtensionOpTable_13_15 ++ SecondaryExtensionOpTable_16_P.

(** ** [SecondaryModRMTables.cpp] *)

Definition SecondaryModRMExtensionOpTable : list Entry := [
    Ent (OPD_modrm 0 0) 1 "MONITOR" TYPE_PRIV FLAGS_NONE 0;
    Ent (OPD_modrm 0 1) 1 "MWAIT" TYPE_PRIV FLAGS_NONE 0;
    Ent (OPD_modrm 0 2) 1 "" TYPE_INVALID FLAGS_NONE 0;
    Ent (OPD_modrm 0 3) 1 "" TYPE_INVALID FLAGS_NONE 0;
    Ent (OPD_modrm 0 4) 1 "" TYPE_INVALID FLAGS_NONE 0;
    Ent (OPD_modrm 0 5) 1 "" TYPE_INVALID FLAGS_NONE 0;
    Ent (OPD_modrm 0 6) 1 "" TYPE_INVALID FLAGS_NONE 0;
    Ent (OPD_modrm 0 7) 1 "" TYPE_INVALID FLAGS_NONE 0;
    Ent (OPD_modrm 1 0) 1 "XGETBV" TYPE_INST FLAGS_NONE 0;
    Ent (OPD_modrm 1 1) 1 "XSETBV" TYPE_PRIV FLAGS_NONE 0;
    Ent (OPD_modrm 1 2) 1 "" TYPE_INVALID FLAGS_NONE 0;
    Ent (OPD_modrm 1 3) 1 "" TYPE_INVALID FLAGS_NONE 0;
    Ent (OPD_modrm 1 4) 1 "" TYPE_INVALID FLAGS_NONE 0;
    Ent (OPD_modrm 1 5) 1 "XEND" TYPE_INST FLAGS_NONE 0;
    Ent (OPD_modrm 1 6) 1 "XTEST" TYPE_INST FLAGS_NONE 0;
    Ent (OPD_modrm 1 7) 1 "" TYPE_INVALID FLAGS_NONE 0;
    Ent (OPD_modrm 2 0) 1 "VMRUN" TYPE_PRIV FLAGS_NONE 0;
    Ent (OPD_modrm 2 1) 1 "VMMCALL" TYPE_PRIV FLAGS_NONE 0;
    Ent (OPD_modrm 2 2) 1 "VMLOAD" TYPE_PRIV FLAGS_NONE 0;
    Ent (OPD_modrm 2 3) 1 "VMSAVE" TYPE_PRIV FLAGS_NONE 0;
    Ent (OPD_modrm 2 4) 1 "STGI" TYPE_PRIV FLAGS_NONE 0;
    Ent (OPD_modrm 2 5) 1 "CLGI" TYPE_PRIV FLAGS_NONE 0;
    Ent (OPD_modrm 2 6) 1 "SKINIT" TYPE_PRIV FLAGS_NONE 0;
    Ent (OPD_modrm 2 7) 1 "INVLPGA" TYPE_PRIV FLAGS_NONE 0;
    Ent (OPD_modrm 3 0) 1 "SWAPGS" TYPE_PRIV FLAGS_NONE 0;
    Ent (OPD_modrm 3 1) 1 "RDTSCP" TYPE_INST FLAGS_NONE 0;
    Ent (OPD_modrm 3 2) 1 "MONITORX" TYPE_PRIV FLAGS_NONE 0;
    Ent (OPD_modrm 3 3) 1 "MWAITX" TYPE_PRIV FLAGS_NONE 0;
    Ent (OPD_modrm 3 4) 1 "CLZERO" TYPE_INST FLAGS_SF_SRC_RAX 0;
    Ent (OPD_modrm 3 5) 1 "" TYPE_INVALID FLAGS_NONE 0;
    Ent (OPD_modrm 3 6) 1 "" TYPE_INVALID FLAGS_NONE 0;
    Ent (OPD_modrm 3 7) 1 "" TYPE_INVALID FLAGS_NONE 0
  ].

(** ** [X87Tables.cpp] *)

Definition X87OpTable_D8 : list Entry := [
    Ent (OPDReg 0xD8 0) 1 "FADD" TYPE_X87 FLAGS_MODRM 0;
    Ent (OPDReg 0xD8 1) 1 "FMUL" TYPE_X87 FLAGS_MODRM 0;
    Ent (OPDReg 0xD8 2) 1 "FCOM" TYPE_X87 FLAGS_MODRM 0;
    Ent (OPDReg 0xD8 3) 1 "FCOMP" TYPE_X87 (FLAGS_MODRM .| FLAGS_POP) 0;
    Ent (OPDReg 0xD8 4) 1 "FSUB" TYPE_X87 FLAGS_MODRM 0;
    Ent (OPDReg 0xD8 5) 1 "FSUBR" TYPE_X87 FLAGS_MODRM 0;
    Ent (OPDReg 0xD8 6) 1 "FDIV" TYPE_X87 FLAGS_MODRM 0;
    Ent (OPDReg 0xD8 7) 1 "FDIVR" TYPE_X87 FLAGS_MODRM 0;
    Ent (OPD_x87 0xD8 0xC0) 8 "FADD" TYPE_X87 FLAGS_NONE 0;
    Ent (OPD_x87 0xD8 0xC8) 8 "FMUL" TYPE_X87 FLAGS_NONE 0;
    Ent (OPD_x87 0xD8 0xD0) 8 "FCOM" TYPE_X87 FLAGS_NONE 0;
    Ent (OPD_x87 0xD8 0xD8) 8 "FCOMP" TYPE_X87 FLAGS_POP 0;
    Ent (OPD_x87 0xD8 0xE0) 8 "FSUB" TYPE_X87 FLAGS_NONE 0;
    Ent (OPD_x87 0xD8 0xE8) 8 "FSUBR" TYPE_X87 FLAGS_NONE 0;
    Ent (OPD_x87 0xD8 0xF0) 8 "FDIV" TYPE_X87 FLAGS_NONE 0;
    Ent (OPD_x87 0xD8 0xF8) 8 "FDIVR" TYPE_X87 FLAGS_NONE 0;
    Ent (OPDReg 0xD9 0) 1 "FLD" TYPE_INST FLAGS_MODRM 0;
    Ent (OPDReg 0xD9 1) 1 "" TYPE_INVALID FLAGS_NONE 0;
    Ent (OPDReg 0xD9 2) 1 "FST" TYPE_X87 (FLAGS_MODRM .| FLAGS_SF_MOD_DST) 0;
    Ent (OPDReg 0xD9 3) 1 "FSTP" TYPE_X87 (FLAGS_MODRM .| FLAGS_SF_MOD_DST .| FLAGS_POP) 0;
    Ent (OPDReg 0xD9 4) 1 "FLDENV" TYPE_X87 FLAGS_MODRM 0;
    Ent (OPDReg 0xD9 5) 1 "FLDCW" TYPE_X87 (GenFlagsSameSize SIZE_16BIT .| FLAGS_MODRM) 0;
    Ent (OPDReg 0xD9 6) 1 "FNSTENV" TYPE_X87 (FLAGS_MODRM .| FLAGS_SF_MOD_DST) 0;
    Ent (OPDReg 0xD9 7) 1 "FNSTCW" TYPE_INST (GenFlagsSameSize SIZE_16BIT .| FLAGS_MODRM .| FLAGS_SF_MOD_DST) 0;
    Ent (OPD_x87 0xD9 0xC0) 8 "FLD" TYPE_INST FLAGS_NONE 0;
    Ent (OPD_x87 0xD9 0xC8) 8 "FXCH" TYPE_X87 FLAGS_NONE 0;
    Ent (OPD_x87 0xD9 0xD0) 1 "FNOP" TYPE_X87 FLAGS_NONE 0;
    Ent (OPD_x87 0xD9 0xD1) 7 "" TYPE_INVALID FLAGS_NONE 0;
    Ent (OPD_x87 0xD9 0xD8) 8 "" TYPE_INVALID FLAGS_NONE 0;
    Ent (OPD_x87 0xD9 0xE0) 1 "FCHS" TYPE_X87 FLAGS_NONE 0;
    Ent (OPD_x87 0xD9 0xE1) 1 "FABS" TYPE_X87 FLAGS_NONE 0;
    Ent (OPD_x87 0xD9 0xE2) 2 "" TYPE_INVALID FLAGS_NONE 0;
    Ent (OPD_x87 0xD9 0xE4) 1 "FTST" TYPE_X87 FLAGS_NONE 0;
    Ent (OPD_x87 0xD9 0xE5) 1 "FXAM" TYPE_INST FLAGS_NONE 0;
    Ent (OPD_x87 0xD9 0xE6) 2 "" TYPE_INVALID FLAGS_NONE 0;
    Ent (OPD_x87 0xD9 0xE8) 1 "FLD1" TYPE_X87 FLAGS_NONE 0;
    Ent (OPD_x87 0xD9 0xE9) 1 "FLDL2T" TYPE_X87 FLAGS_NONE 0;
    Ent (OPD_x87 0xD9 0xEA) 1 "FLDL2E" TYPE_X87 FLAGS_NONE 0;
    Ent (OPD_x87 0xD9 0xEB) 1 "FLDPI" TYPE_X87 FLAGS_NONE 0;
    Ent (OPD_x87 0xD9 0xEC) 1 "FLDLG2" TYPE_X87 FLAGS_NONE 0;
    Ent (OPD_x87 0xD9 0xED) 1 "FLDLN2" TYPE_X87 FLAGS_NONE 0;
    Ent (OPD_x87 0xD9 0xEE) 1 "FLDZ" TYPE_X87 FLAGS_NONE 0;
    Ent (OPD_x87 0xD9 0xEF) 1 "" TYPE_INVALID FLAGS_NONE 0;
    Ent (OPD_x87 0xD9 0xF0) 1 "F2XM1" TYPE_X87 FLAGS_NONE 0;
    Ent (OPD_x87 0xD9 0xF1) 1 "FYL2X" TYPE_X87 FLAGS_NONE 0;
    Ent (OPD_x87 0xD9 0xF2) 1 "FPTAN" TYPE_X87 FLAGS_NONE 0;
    Ent (OPD_x87 0xD9 0xF3) 1 "FPATAN" TYPE_X87 FLAGS_NONE 0;
    Ent (OPD_x87 0xD9 0xF4) 1 "FXTRACT" TYPE_X87 FLAGS_NONE 0;
    Ent (OPD_x87 0xD9 0xF5) 1 "FPREM1" TYPE_X87 FLAGS_NONE 0;
    Ent (OPD_x87 0xD9 0xF6) 1 "FDECSTP" TYPE_X87 FLAGS_POP 0;
    Ent (OPD_x87 0xD9 0xF7) 1 "FINCSTP" TYPE_X87 FLAGS_POP 0;
    Ent (OPD_x87 0xD9 0xF8) 1 "FPREM" TYPE_X87 FLAGS_NONE 0;
    Ent (OPD_x87 0xD9 0xF9) 1 "FYL2XP1" TYPE_X87 FLAGS_NONE 0;
    Ent (OPD_x87 0xD9 0xFA) 1 "FSQRT" TYPE_X87 FLAGS_NONE 0;
    Ent (OPD_x87 0xD9 0xFB) 1 "FSINCOS" TYPE_X87 FLAGS_NONE 0;
    Ent (OPD_x87 0xD9 0xFC) 1 "FRNDINT" TYPE_X87 FLAGS_NONE 0;
    Ent (OPD_x87 0xD9 0xFD) 1 "FSCALE" TYPE_X87 FLAGS_NONE 0;
    Ent (OPD_x87 0xD9 0xFE) 1 "FSIN" TYPE_X87 FLAGS_NONE 0;
    Ent (OPD_x87 0xD9 0xFF) 1 "FCOS" TYPE_X87 FLAGS_NONE 0
  ].
Definition X87OpTable_DA : list Entry := [
    Ent (OPDReg 0xDA 0) 1 "FIADD" TYPE_X87 (GenFlagsSrcSize SIZE_32BIT .| FLAGS_MODRM) 0;
    Ent (OPDReg 0xDA 1) 1 "FIMUL" TYPE_X87 (GenFlagsSrcSize SIZE_32BIT .| FLAGS_MODRM) 0;
    Ent (OPDReg 0xDA 2) 1 "FICOM" TYPE_X87 (GenFlagsSrcSize SIZE_32BIT .| FLAGS_MODRM) 0;
    Ent (OPDReg 0xDA 3) 1 "FICOMP" TYPE_X87 (GenFlagsSrcSize SIZE_32BIT .| FLAGS_MODRM .| FLAGS_POP) 0;
    Ent (OPDReg 0xDA 4) 1 "FISUB" TYPE_X87 (GenFlagsSrcSize SIZE_32BIT .| FLAGS_MODRM) 0;
    Ent (OPDReg 0xDA 5) 1 "FISUBR" TYPE_X87 (GenFlagsSrcSize SIZE_32BIT .| FLAGS_MODRM) 0;
    Ent (OPDReg 0xDA 6) 1 "FIDIV" TYPE_X87 (GenFlagsSrcSize SIZE_32BIT .| FLAGS_MODRM) 0;
    Ent (OPDReg 0xDA 7) 1 "FIDIVR" TYPE_X87 (GenFlagsSrcSize SIZE_32BIT .| FLAGS_MODRM) 0;
    Ent (OPD_x87 0xDA 0xC0) 8 "FCMOVB" TYPE_X87 FLAGS_NONE 0;
    Ent (OPD_x87 0xDA 0xC8) 8 "FCMOVE" TYPE_X87 FLAGS_NONE 0;
    Ent (OPD_x87 0xDA 0xD0) 8 "FCMOVBE" TYPE_X87 FLAGS_NONE 0;
    Ent (OPD_x87 0xDA 0xD8) 8 "FCMOVU" TYPE_X87 FLAGS_NONE 0;
    Ent (OPD_x87 0xDA 0xE0) 8 "" TYPE_INVALID FLAGS_NONE 0;
    Ent (OPD_x87 0xDA 0xE8) 1 "" TYPE_INVALID FLAGS_NONE 0;
    Ent (OPD_x87 0xDA 0xE9) 1 "FUCOMPP" TYPE_X87 FLAGS_POP 0;
    Ent (OPD_x87 0xDA 0xEA) 6 "" TYPE_INVALID FLAGS_NONE 0;
    Ent (OPD_x87 0xDA 0xF0) 8 "" TYPE_INVALID FLAGS_NONE 0;
    Ent (OPD_x87 0xDA 0xF8) 8 "" TYPE_INVALID FLAGS_NONE 0;
    Ent (OPDReg 0xDB 0) 1 "FILD" TYPE_X87 (GenFlagsSrcSize SIZE_32BIT .| FLAGS_MODRM) 0;
    Ent (OPDReg 0xDB 1) 1 "FISTTP" TYPE_X87 (GenFlagsSrcSize SIZE_32BIT .| FLAGS_MODRM .| FLAGS_SF_MOD_DST .| FLAGS_POP) 0;
    Ent (OPDReg 0xDB 2) 1 "FIST" TYPE_X87 (GenFlagsSrcSize SIZE_32BIT .| FLAGS_MODRM .| FLAGS_SF_MOD_DST) 0;
    Ent (OPDReg 0xDB 3) 1 "FISTP" TYPE_X87 (GenFlagsSrcSize SIZE_32BIT .| FLAGS_MODRM .| FLAGS_SF_MOD_DST .| FLAGS_POP) 0;
    Ent (OPDReg 0xDB 4) 1 "" TYPE_INVALID FLAGS_NONE 0;
    Ent (OPDReg 0xDB 5) 1 "FLD" TYPE_X87 FLAGS_MODRM 0;
    Ent (OPDReg 0xDB 6) 1 "" TYPE_INVALID FLAGS_NONE 0;
    Ent (OPDReg 0xDB 7) 1 "FSTP" TYPE_X87 (FLAGS_MODRM .| FLAGS_SF_MOD_DST .| FLAGS_POP) 0;
    Ent (OPD_x87 0xDB 0xC0) 8 "FCMOVNB" TYPE_X87 FLAGS_NONE 0;
    Ent (OPD_x87 0xDB 0xC8) 8 "FCMOVNE" TYPE_X87 FLAGS_NONE 0;
    Ent (OPD_x87 0xDB 0xD0) 8 "FCMOVNBE" TYPE_X87 FLAGS_NONE 0;
    Ent (OPD_x87 0xDB 0xD8) 8 "FCMOVNU" TYPE_X87 FLAGS_NONE 0;
    Ent (OPD_x87 0xDB 0xE0) 2 "" TYPE_INVALID FLAGS_NONE 0;
    Ent (OPD_x87 0xDB 0xE2) 1 "FNCLEX" TYPE_X87 FLAGS_NONE 0;
    Ent (OPD_x87 0xDB 0xE3) 1 "FNINIT" TYPE_X87 FLAGS_NONE 0;
    Ent (OPD_x87 0xDB 0xE4) 4 "" TYPE_INVALID FLAGS_NONE 0;
    Ent (OPD_x87 0xDB 0xE8) 8 "FUCOMI" TYPE_INST FLAGS_NONE 0;
    Ent (OPD_x87 0xDB 0xF0) 8 "FCOMI" TYPE_X87 FLAGS_NONE 0;
    Ent (OPD_x87 0xDB 0xF8) 8 "" TYPE_INVALID FLAGS_NONE 0;
    Ent (OPDReg 0xDC 0) 1 "FADD" TYPE_X87 (GenFlagsSrcSize SIZE_64BIT .| FLAGS_MODRM .| FLAGS_X87_FLAGS) 0;
    Ent (OPDReg 0xDC 1) 1 "FMUL" TYPE_X87 (GenFlagsSrcSize SIZE_64BIT .| FLAGS_MODRM .| FLAGS_X87_FLAGS) 0;
    Ent (OPDReg 0xDC 2) 1 "FCOM" TYPE_X87 (GenFlagsSrcSize SIZE_64BIT .| FLAGS_MODRM .| FLAGS_X87_FLAGS) 0;
    Ent (OPDReg 0xDC 3) 1 "FCOMP" TYPE_X87 (GenFlagsSrcSize SIZE_64BIT .| FLAGS_MODRM .| FLAGS_X87_FLAGS .| FLAGS_POP) 0;
    Ent (OPDReg 0xDC 4) 1 "FSUB" TYPE_X87 (GenFlagsSrcSize SIZE_64BIT .| FLAGS_MODRM .| FLAGS_X87_FLAGS) 0;
    Ent (OPDReg 0xDC 5) 1 "FSUBR" TYPE_X87 (GenFlagsSrcSize SIZE_64BIT .| FLAGS_MODRM .| FLAGS_X87_FLAGS) 0;
    Ent (OPDReg 0xDC 6) 1 "FDIV" TYPE_X87 (GenFlagsSrcSize SIZE_64BIT .| FLAGS_MODRM .| FLAGS_X87_FLAGS) 0;
    Ent (OPDReg 0xDC 7) 1 "FDIVR" TYPE_X87 (GenFlagsSrcSize SIZE_64BIT .| FLAGS_MODRM .| FLAGS_X87_FLAGS) 0;
    Ent (OPD_x87 0xDC 0xC0) 8 "FADD" TYPE_X87 FLAGS_NONE 0;
    Ent (OPD_x87 0xDC 0xC8) 8 "FMUL" TYPE_X87 FLAGS_NONE 0;
    Ent (OPD_x87 0xDC 0xD0) 8 "" TYPE_INVALID FLAGS_NONE 0;
    Ent (OPD_x87 0xDC 0xD8) 8 "" TYPE_INVALID FLAGS_NONE 0;
    Ent (OPD_x87 0xDC 0xE0) 8 "FSUBR" TYPE_X87 FLAGS_NONE 0;
    Ent (OPD_x87 0xDC 0xE8) 8 "FSUB" TYPE_X87 FLAGS_NONE 0;
    Ent (OPD_x87 0xDC 0xF0) 8 "FDIVR" TYPE_X87 FLAGS_NONE 0;
    Ent (OPD_x87 0xDC 0xF8) 8 "FDIV" TYPE_X87 FLAGS_NONE 0;
    Ent (OPDReg 0xDD 0) 1 "FLD" TYPE_X87 FLAGS_MODRM 0;
    Ent (OPDReg 0xDD 1) 1 "FISTTP" TYPE_X87 (GenFlagsSrcSize SIZE_64BIT .| FLAGS_MODRM .| FLAGS_X87_FLAGS .| FLAGS_SF_MOD_DST .| FLAGS_POP) 0;
    Ent (OPDReg 0xDD 2) 1 "FST" TYPE_X87 (FLAGS_MODRM .| FLAGS_SF_MOD_DST) 0;
    Ent (OPDReg 0xDD 3) 1 "FSTP" TYPE_X87 (FLAGS_MODRM .| FLAGS_SF_MOD_DST .| FLAGS_POP) 0;
    Ent (OPDReg 0xDD 4) 1 "FRSTOR" TYPE_X87 FLAGS_MODRM 0;
    Ent (OPDReg 0xDD 5) 1 "" TYPE_INVALID FLAGS_NONE 0;
    Ent (OPDReg 0xDD 6) 1 "FNSAVE" TYPE_X87 (FLAGS_MODRM .| FLAGS_SF_MOD_DST) 0;
    Ent (OPDReg 0xDD 7) 1 "FNSTSW" TYPE_X87 (GenFlagsSameSize SIZE_16BIT .| FLAGS_MODRM .| FLAGS_SF_MOD_DST) 0;
    Ent (OPD_x87 0xDD 0xC0) 8 "FFREE" TYPE_X87 FLAGS_NONE 0;
    Ent (OPD_x87 0xDD 0xC8) 8 "" TYPE_INVALID FLAGS_NONE 0;
    Ent (OPD_x87 0xDD 0xD0) 8 "FST" TYPE_INST FLAGS_SF_MOD_DST 0;
    Ent (OPD_x87 0xDD 0xD8) 8 "FSTP" TYPE_X87 (FLAGS_SF_MOD_DST .| FLAGS_POP) 0;
    Ent (OPD_x87 0xDD 0xE0) 8 "FUCOM" TYPE_X87 FLAGS_NONE 0;
    Ent (OPD_x87 0xDD 0xE8) 8 "FUCOMP" TYPE_X87 FLAGS_POP 0;
    Ent (OPD_x87 0xDD 0xF0) 8 "" TYPE_INVALID FLAGS_NONE 0;
    Ent (OPD_x87 0xDD 0xF8) 8 "" TYPE_INVALID FLAGS_NONE 0
  ].
Definition X87OpTable_DE : list Entry := [
    Ent (OPDReg 0xDE 0) 1 "FIADD" TYPE_X87 (GenFlagsSrcSize SIZE_16BIT .| FLAGS_MODRM) 0;
    Ent (OPDReg 0xDE 1) 1 "FIMUL" TYPE_X87 (GenFlagsSrcSize SIZE_16BIT .| FLAGS_MODRM) 0;
    Ent (OPDReg 0xDE 2) 1 "FICOM" TYPE_X87 (GenFlagsSrcSize SIZE_16BIT .| FLAGS_MODRM) 0;
    Ent (OPDReg 0xDE 3) 1 "FICOMP" TYPE_X87 (GenFlagsSrcSize SIZE_16BIT .| FLAGS_MODRM .| FLAGS_POP) 0;
    Ent (OPDReg 0xDE 4) 1 "FISUB" TYPE_X87 (GenFlagsSrcSize SIZE_16BIT .| FLAGS_MODRM) 0;
    Ent (OPDReg 0xDE 5) 1 "FISUBR" TYPE_X87 (GenFlagsSrcSize SIZE_16BIT .| FLAGS_MODRM) 0;
    Ent (OPDReg 0xDE 6) 1 "FIDIV" TYPE_X87 (GenFlagsSrcSize SIZE_16BIT .| FLAGS_MODRM) 0;
    Ent (OPDReg 0xDE 7) 1 "FIDIVR" TYPE_X87 (GenFlagsSrcSize SIZE_16BIT .| FLAGS_MODRM) 0;
    Ent (OPD_x87 0xDE 0xC0) 8 "FADDP" TYPE_X87 FLAGS_POP 0;
    Ent (OPD_x87 0xDE 0xC8) 8 "FMULP" TYPE_X87 FLAGS_POP 0;
    Ent (OPD_x87 0xDE 0xD0) 8 "" TYPE_INVALID FLAGS_NONE 0;
    Ent (OPD_x87 0xDE 0xD8) 1 "" TYPE_INVALID FLAGS_NONE 0;
    Ent (OPD_x87 0xDE 0xD9) 1 "FCOMPP" TYPE_X87 FLAGS_POP 0;
    Ent (OPD_x87 0xDE 0xDA) 6 "" TYPE_INVALID FLAGS_NONE 0;
    Ent (OPD_x87 0xDE 0xE0) 8 "FSUBRP" TYPE_X87 FLAGS_POP 0;
    Ent (OPD_x87 0xDE 0xE8) 8 "FSUBP" TYPE_X87 FLAGS_POP 0;
    Ent (OPD_x87 0xDE 0xF0) 8 "FDIVRP" TYPE_X87 FLAGS_POP 0;
    Ent (OPD_x87 0xDE 0xF8) 8 "FDIVP" TYPE_X87 FLAGS_POP 0;
    Ent (OPDReg 0xDF 0) 1 "FILD" TYPE_X87 (GenFlagsSrcSize SIZE_16BIT .| FLAGS_MODRM) 0;
    Ent (OPDReg 0xDF 1) 1 "FISTTP" TYPE_X87 (GenFlagsSrcSize SIZE_16BIT .| FLAGS_MODRM .| FLAGS_SF_MOD_DST .| FLAGS_POP) 0;
    Ent (OPDReg 0xDF 2) 1 "FIST" TYPE_X87 (GenFlagsSrcSize SIZE_16BIT .| FLAGS_MODRM .| FLAGS_SF_MOD_DST) 0;
    Ent (OPDReg 0xDF 3) 1 "FISTP" TYPE_X87 (GenFlagsSrcSize SIZE_16BIT .| FLAGS_MODRM .| FLAGS_SF_MOD_DST .| FLAGS_POP) 0;
    Ent (OPDReg 0xDF 4) 1 "FBLD" TYPE_X87 FLAGS_MODRM 0;
    Ent (OPDReg 0xDF 5) 1 "FILD" TYPE_X87 (GenFlagsSrcSize SIZE_64BIT .| FLAGS_MODRM .| FLAGS_X87_FLAGS) 0;
    Ent (OPDReg 0xDF 6) 1 "FBSTP" TYPE_X87 (FLAGS_MODRM .| FLAGS_SF_MOD_DST .| FLAGS_POP) 0;
    Ent (OPDReg 0xDF 7) 1 "FISTP" TYPE_X87 (GenFlagsSrcSize SIZE_64BIT .| FLAGS_MODRM .| FLAGS_X87_FLAGS .| FLAGS_SF_MOD_DST .| FLAGS_POP) 0;
    Ent (OPD_x87 0xDF 0xC0) 8 "FFREEP" TYPE_X87 FLAGS_POP 0;
    Ent (OPD_x87 0xDF 0xC8) 8 "" TYPE_INVALID FLAGS_NONE 0;
    Ent (OPD_x87 0xDF 0xD0) 8 "" TYPE_INVALID FLAGS_NONE 0;
    Ent (OPD_x87 0xDF 0xD8) 8 "" TYPE_INVALID FLAGS_NONE 0;
    Ent (OPD_x87 0xDF 0xE0) 1 "FNSTSW" TYPE_INST (GenFlagsSameSize SIZE_16BIT .| FLAGS_SF_DST_RAX) 0;
    Ent (OPD_x87 0xDF 0xE1) 7 "" TYPE_INVALID FLAGS_NONE 0;
    Ent (OPD_x87 0xDF 0xE8) 8 "FUCOMIP" TYPE_INST FLAGS_POP 0;
    Ent (OPD_x87 0xDF 0xF0) 8 "FCOMIP" TYPE_X87 FLAGS_POP 0;
    Ent (OPD_x87 0xDF 0xF8) 8 "" TYPE_INVALID FLAGS_NONE 0
  ].
Definition X87OpTable : list Entry := X87OpTable_D8 ++ X87OpTable_DA ++ X87OpTable_DE.

(** ** [DDDTables.cpp] *)

Definition DDDNowOpTable : list Entry := [
    Ent 0x0C 1 "PI2FW" TYPE_INST (GenFlagsSameSize SIZE_64BIT .| FLAGS_MODRM .| FLAGS_XMM_FLAGS .| FLAGS_SF_MMX) 0;
    Ent 0x0D 1 "PI2FD" TYPE_INST (GenFlagsSameSize SIZE_64BIT .| FLAGS_MODRM .| FLAGS_XMM_FLAGS .| FLAGS_SF_MMX) 0;
    Ent 0x1C 1 "PF2IW" TYPE_INST (GenFlagsSameSize SIZE_64BIT .| FLAGS_MODRM .| FLAGS_XMM_FLAGS .| FLAGS_SF_MMX) 0;
    Ent 0x1D 1 "PF2ID" TYPE_INST (GenFlagsSameSize SIZE_64BIT .| FLAGS_MODRM .| FLAGS_XMM_FLAGS .| FLAGS_SF_MMX) 0;
    Ent 0x86 1 "PFRCPV" TYPE_INST (GenFlagsSameSize SIZE_64BIT .| FLAGS_MODRM .| FLAGS_XMM_FLAGS .| FLAGS_SF_MMX) 0;
    Ent 0x87 1 "PFRSQRTV" TYPE_INST (GenFlagsSameSize SIZE_64BIT .| FLAGS_MODRM .| FLAGS_XMM_FLAGS .| FLAGS_SF_MMX) 0;
    Ent 0x8A 1 "PFNACC" TYPE_INST (GenFlagsSameSize SIZE_64BIT .| FLAGS_MODRM .| FLAGS_XMM_FLAGS .| FLAGS_SF_MMX) 0;
    Ent 0x8E 1 "PFPNACC" TYPE_INST (GenFlagsSameSize SIZE_64BIT .| FLAGS_MODRM .| FLAGS_XMM_FLAGS .| FLAGS_SF_MMX) 0;
    Ent 0x90 1 "PFCMPGE" TYPE_INST (GenFlagsSameSize SIZE_64BIT .| FLAGS_MODRM .| FLAGS_XMM_FLAGS .| FLAGS_SF_MMX) 0;
    Ent 0x94 1 "PFMIN" TYPE_INST (GenFlagsSameSize SIZE_64BIT .| FLAGS_MODRM .| FLAGS_XMM_FLAGS .| FLAGS_SF_MMX) 0;
    Ent 0x96 1 "PFRCP" TYPE_INST (GenFlagsSameSize SIZE_64BIT .| FLAGS_MODRM .| FLAGS_XMM_FLAGS .| FLAGS_SF_MMX) 0;
    Ent 0x97 1 "PFRSQRT" TYPE_INST (GenFlagsSameSize SIZE_64BIT .| FLAGS_MODRM .| FLAGS_XMM_FLAGS .| FLAGS_SF_MMX) 0;
    Ent 0x9A 1 "PFSUB" TYPE_INST (GenFlagsSameSize SIZE_64BIT .| FLAGS_MODRM .| FLAGS_XMM_FLAGS .| FLAGS_SF_MMX) 0;
    Ent 0x9E 1 "PFADD" TYPE_INST (GenFlagsSameSize SIZE_64BIT .| FLAGS_MODRM .| FLAGS_XMM_FLAGS .| FLAGS_SF_MMX) 0;
    Ent 0xA0 1 "PFCMPGT" TYPE_INST (GenFlagsSameSize SIZE_64BIT .| FLAGS_MODRM .| FLAGS_XMM_FLAGS .| FLAGS_SF_MMX) 0;
    Ent 0xA4 1 "PFMAX" TYPE_INST (GenFlagsSameSize SIZE_64BIT .| FLAGS_MODRM .| FLAGS_XMM_FLAGS .| FLAGS_SF_MMX) 0;
    Ent 0xA6 1 "PFRCPIT1" TYPE_INST (GenFlagsSameSize SIZE_64BIT .| FLAGS_MODRM .| FLAGS_XMM_FLAGS .| FLAGS_SF_MMX) 0;
    Ent 0xA7 1 "PFRSQIT1" TYPE_INST (GenFlagsSameSize SIZE_64BIT .| FLAGS_MODRM .| FLAGS_XMM_FLAGS .| FLAGS_SF_MMX) 0;
    Ent 0xAA 1 "PFSUBR" TYPE_INST (GenFlagsSameSize SIZE_64BIT .| FLAGS_MODRM .| FLAGS_XMM_FLAGS .| FLAGS_SF_MMX) 0;
    Ent 0xAE 1 "PFACC" TYPE_INST (GenFlagsSameSize SIZE_64BIT .| FLAGS_MODRM .| FLAGS_XMM_FLAGS .| FLAGS_SF_MMX) 0;
    Ent 0xB0 1 "PFCMPEQ" TYPE_INST (GenFlagsSameSize SIZE_64BIT .| FLAGS_MODRM .| FLAGS_XMM_FLAGS .| FLAGS_SF_MMX) 0;
    Ent 0xB4 1 "PFMUL" TYPE_INST (GenFlagsSameSize SIZE_64BIT .| FLAGS_MODRM .| FLAGS_XMM_FLAGS .| FLAGS_SF_MMX) 0;
    Ent 0xB6 1 "PFRCPIT2" TYPE_INST (GenFlagsSameSize SIZE_64BIT .| FLAGS_MODRM .| FLAGS_XMM_FLAGS .| FLAGS_SF_MMX) 0;
    Ent 0xB7 1 "PMULHRW" TYPE_INST (GenFlagsSameSize SIZE_64BIT .| FLAGS_MODRM .| FLAGS_XMM_FLAGS .| FLAGS_SF_MMX) 0;
    Ent 0xBB 1 "PSWAPD" TYPE_INST (GenFlagsSameSize SIZE_64BIT .| FLAGS_MODRM .| FLAGS_XMM_FLAGS .| FLAGS_SF_MMX) 0;
    Ent 0xBF 1 "PAVGUSB" TYPE_INST (GenFlagsSameSize SIZE_64BIT .| FLAGS_MODRM .| FLAGS_XMM_FLAGS .| FLAGS_SF_MMX) 0
  ].

(** ** [H0F38Tables.cpp] *)

Definition H0F38Table : list Entry := [
    Ent (OPD_0F38 PF_38_NONE 0x00) 1 "PSHUFB" TYPE_INST (GenFlagsSameSize SIZE_64BIT .| FLAGS_MODRM .| FLAGS_XMM_FLAGS .| FLAGS_SF_MMX) 0;
    Ent (OPD_0F38 PF_38_66 0x00) 1 "PSHUFB" TYPE_INST (GenFlagsSameSize SIZE_128BIT .| FLAGS_MODRM .| FLAGS_XMM_FLAGS) 0;
    Ent (OPD_0F38 PF_38_NONE 0x01) 1 "PHADDW" TYPE_INST (GenFlagsSameSize SIZE_64BIT .| FLAGS_MODRM .| FLAGS_XMM_FLAGS .| FLAGS_SF_MMX) 0;
    Ent (OPD_0F38 PF_38_66 0x01) 1 "PHADDW" TYPE_INST (GenFlagsSameSize SIZE_128BIT .| FLAGS_MODRM .| FLAGS_XMM_FLAGS) 0;
    Ent (OPD_0F38 PF_38_NONE 0x02) 1 "PHADDD" TYPE_INST (GenFlagsSameSize SIZE_64BIT .| FLAGS_MODRM .| FLAGS_XMM_FLAGS .| FLAGS_SF_MMX) 0;
    Ent (OPD_0F38 PF_38_66 0x02) 1 "PHADDD" TYPE_INST (GenFlagsSameSize SIZE_128BIT .| FLAGS_MODRM .| FLAGS_XMM_FLAGS) 0;
    Ent (OPD_0F38 PF_38_NONE 0x03) 1 "PHADDSW" TYPE_INST (GenFlagsSameSize SIZE_64BIT .| FLAGS_MODRM .| FLAGS_XMM_FLAGS .| FLAGS_SF_MMX) 0;
    Ent (OPD_0F38 PF_38_66 0x03) 1 "PHADDSW" TYPE_INST (GenFlagsSameSize SIZE_128BIT .| FLAGS_MODRM .| FLAGS_XMM_FLAGS) 0;
    Ent (OPD_0F38 PF_38_NONE 0x04) 1 "PMADDUBSW" TYPE_INST (GenFlagsSameSize SIZE_64BIT .| FLAGS_MODRM .| FLAGS_XMM_FLAGS .| FLAGS_SF_MMX) 0;
    Ent (OPD_0F38 PF_38_66 0x04) 1 "PMADDUBSW" TYPE_INST (GenFlagsSameSize SIZE_128BIT .| FLAGS_MODRM .| FLAGS_XMM_FLAGS) 0;
    Ent (OPD_0F38 PF_38_NONE 0x05) 1 "PHSUBW" TYPE_INST (GenFlagsSameSize SIZE_64BIT .| FLAGS_MODRM .| FLAGS_XMM_FLAGS .| FLAGS_SF_MMX) 0;
    Ent (OPD_0F38 PF_38_66 0x05) 1 "PHSUBW" TYPE_INST (GenFlagsSameSize SIZE_128BIT .| FLAGS_MODRM .| FLAGS_XMM_FLAGS) 0;
    Ent (OPD_0F38 PF_38_NONE 0x06) 1 "PHSUBD" TYPE_INST (GenFlagsSameSize SIZE_64BIT .| FLAGS_MODRM .| FLAGS_XMM_FLAGS .| FLAGS_SF_MMX) 0;
    Ent (OPD_0F38 PF_38_66 0x06) 1 "PHSUBD" TYPE_INST (GenFlagsSameSize SIZE_128BIT .| FLAGS_MODRM .| FLAGS_XMM_FLAGS) 0;
    Ent (OPD_0F38 PF_38_NONE 0x07) 1 "PHSUBSW" TYPE_INST (GenFlagsSameSize SIZE_64BIT .| FLAGS_MODRM .| FLAGS_XMM_FLAGS .| FLAGS_SF_MMX) 0;
    Ent (OPD_0F38 PF_38_66 0x07) 1 "PHSUBSW" TYPE_INST (GenFlagsSameSize SIZE_128BIT .| FLAGS_MODRM .| FLAGS_XMM_FLAGS) 0;
    Ent (OPD_0F38 PF_38_NONE 0x08) 1 "PSIGNB" TYPE_INST (GenFlagsSameSize SIZE_64BIT .| FLAGS_MODRM .| FLAGS_XMM_FLAGS .| FLAGS_SF_MMX) 0;
    Ent (OPD_0F38 PF_38_66 0x08) 1 "PSIGNB" TYPE_INST (GenFlagsSameSize SIZE_128BIT .| FLAGS_MODRM .| FLAGS_XMM_FLAGS) 0;
    Ent (OPD_0F38 PF_38_NONE 0x09) 1 "PSIGNW" TYPE_INST (GenFlagsSameSize SIZE_64BIT .| FLAGS_MODRM .| FLAGS_XMM_FLAGS .| FLAGS_SF_MMX) 0;
    Ent (OPD_0F38 PF_38_66 0x09) 1 "PSIGNW" TYPE_INST (GenFlagsSameSize SIZE_128BIT .| FLAGS_MODRM .| FLAGS_XMM_FLAGS) 0;
    Ent (OPD_0F38 PF_38_NONE 0x0A) 1 "PSIGND" TYPE_INST (GenFlagsSameSize SIZE_64BIT .| FLAGS_MODRM .| FLAGS_XMM_FLAGS .| FLAGS_SF_MMX) 0;
    Ent (OPD_0F38 PF_38_66 0x0A) 1 "PSIGND" TYPE_INST (GenFlagsSameSize SIZE_128BIT .| FLAGS_MODRM .| FLAGS_XMM_FLAGS) 0;
    Ent (OPD_0F38 PF_38_NONE 0x0B) 1 "PMULHRSW" TYPE_INST (GenFlagsSameSize SIZE_64BIT .| FLAGS_MODRM .| FLAGS_XMM_FLAGS .| FLAGS_SF_MMX) 0;
    Ent (OPD_0F38 PF_38_66 0x0B) 1 "PMULHRSW" TYPE_INST (GenFlagsSameSize SIZE_128BIT .| FLAGS_MODRM .| FLAGS_XMM_FLAGS) 0;
    Ent (OPD_0F38 PF_38_66 0x10) 1 "PBLENDVB" TYPE_INST (GenFlagsSameSize SIZE_128BIT .| FLAGS_MODRM .| FLAGS_XMM_FLAGS) 0;
    Ent (OPD_0F38 PF_38_66 0x14) 1 "BLENDVPS" TYPE_INST (GenFlagsSameSize SIZE_128BIT .| FLAGS_MODRM .| FLAGS_XMM_FLAGS) 0;
    Ent (OPD_0F38 PF_38_66 0x15) 1 "BLENDVPD" TYPE_INST (GenFlagsSameSize SIZE_128BIT .| FLAGS_MODRM .| FLAGS_XMM_FLAGS) 0;
    Ent (OPD_0F38 PF_38_66 0x17) 1 "PTEST" TYPE_INST (GenFlagsSameSize SIZE_128BIT .| FLAGS_MODRM .| FLAGS_XMM_FLAGS) 0;
    Ent (OPD_0F38 PF_38_NONE 0x1C) 1 "PABSB" TYPE_INST (GenFlagsSameSize SIZE_64BIT .| FLAGS_MODRM .| FLAGS_XMM_FLAGS .| FLAGS_SF_MMX) 0;
    Ent (OPD_0F38 PF_38_66 0x1C) 1 "PABSB" TYPE_INST (GenFlagsSameSize SIZE_128BIT .| FLAGS_MODRM .| FLAGS_XMM_FLAGS) 0;
    Ent (OPD_0F38 PF_38_NONE 0x1D) 1 "PABSW" TYPE_INST (GenFlagsSameSize SIZE_64BIT .| FLAGS_MODRM .| FLAGS_XMM_FLAGS .| FLAGS_SF_MMX) 0;
    Ent (OPD_0F38 PF_38_66 0x1D) 1 "PABSW" TYPE_INST (GenFlagsSameSize SIZE_128BIT .| FLAGS_MODRM .| FLAGS_XMM_FLAGS) 0;
    Ent (OPD_0F38 PF_38_NONE 0x1E) 1 "PABSD" TYPE_INST (GenFlagsSameSize SIZE_64BIT .| FLAGS_MODRM .| FLAGS_XMM_FLAGS .| FLAGS_SF_MMX) 0;
    Ent (OPD_0F38 PF_38_66 0x1E) 1 "PABSD" TYPE_INST (GenFlagsSameSize SIZE_128BIT .| FLAGS_MODRM .| FLAGS_XMM_FLAGS) 0;
    Ent (OPD_0F38 PF_38_66 0x20) 1 "PMOVSXBW" TYPE_INST (GenFlagsSizes SIZE_128BIT SIZE_64BIT .| FLAGS_MODRM .| FLAGS_XMM_FLAGS) 0;
    Ent (OPD_0F38 PF_38_66 0x21) 1 "PMOVSXBD" TYPE_INST (GenFlagsSizes SIZE_128BIT SIZE_32BIT .| FLAGS_MODRM .| FLAGS_XMM_FLAGS) 0;
    Ent (OPD_0F38 PF_38_66 0x22) 1 "PMOVSXBQ" TYPE_INST (GenFlagsSizes SIZE_128BIT SIZE_16BIT .| FLAGS_MODRM .| FLAGS_XMM_FLAGS) 0;
    Ent (OPD_0F38 PF_38_66 0x23) 1 "PMOVSXWD" TYPE_INST (GenFlagsSizes SIZE_128BIT SIZE_64BIT .| FLAGS_MODRM .| FLAGS_XMM_FLAGS) 0;
    Ent (OPD_0F38 PF_38_66 0x24) 1 "PMOVSXWQ" TYPE_INST (GenFlagsSizes SIZE_128BIT SIZE_32BIT .| FLAGS_MODRM .| FLAGS_XMM_FLAGS) 0;
    Ent (OPD_0F38 PF_38_66 0x25) 1 "PMOVSXDQ" TYPE_INST (GenFlagsSizes SIZE_128BIT SIZE_64BIT .| FLAGS_MODRM .| FLAGS_XMM_FLAGS) 0;
    Ent (OPD_0F38 PF_38_66 0x28) 1 "PMULDQ" TYPE_INST (GenFlagsSameSize SIZE_128BIT .| FLAGS_MODRM .| FLAGS_XMM_FLAGS) 0;
    Ent (OPD_0F38 PF_38_66 0x29) 1 "PCMPEQQ" TYPE_INST (GenFlagsSameSize SIZE_128BIT .| FLAGS_MODRM .| FLAGS_XMM_FLAGS) 0;
    Ent (OPD_0F38 PF_38_66 0x2A) 1 "MOVNTDQA" TYPE_INST (GenFlagsSameSize SIZE_128BIT .| FLAGS_MODRM .| FLAGS_SF_MOD_MEM_ONLY .| FLAGS_XMM_FLAGS) 0;
    Ent (OPD_0F38 PF_38_66 0x2B) 1 "PACKUSDW" TYPE_INST (GenFlagsSameSize SIZE_128BIT .| FLAGS_MODRM .| FLAGS_XMM_FLAGS) 0;
    Ent (OPD_0F38 PF_38_66 0x30) 1 "PMOVZXBW" TYPE_INST (GenFlagsSizes SIZE_128BIT SIZE_64BIT .| FLAGS_MODRM .| FLAGS_XMM_FLAGS) 0;
    Ent (OPD_0F38 PF_38_66 0x31) 1 "PMOVZXBD" TYPE_INST (GenFlagsSizes SIZE_128BIT SIZE_32BIT .| FLAGS_MODRM .| FLAGS_XMM_FLAGS) 0;
    Ent (OPD_0F38 PF_38_66 0x32) 1 "PMOVZXBQ" TYPE_INST (GenFlagsSizes SIZE_128BIT SIZE_16BIT .| FLAGS_MODRM .| FLAGS_XMM_FLAGS) 0;
    Ent (OPD_0F38 PF_38_66 0x33) 1 "PMOVZXWD" TYPE_INST (GenFlagsSizes SIZE_128BIT SIZE_64BIT .| FLAGS_MODRM .| FLAGS_XMM_FLAGS) 0;
    Ent (OPD_0F38 PF_38_66 0x34) 1 "PMOVZXWQ" TYPE_INST (GenFlagsSizes SIZE_128BIT SIZE_32BIT .| FLAGS_MODRM .| FLAGS_XMM_FLAGS) 0;
    Ent (OPD_0F38 PF_38_66 0x35) 1 "PMOVZXDQ" TYPE_INST (GenFlagsSizes SIZE_128BIT SIZE_64BIT .| FLAGS_MODRM .| FLAGS_XMM_FLAGS) 0;
    Ent (OPD_0F38 PF_38_66 0x37) 1 "PCMPGTQ" TYPE_INST (GenFlagsSameSize SIZE_128BIT .| FLAGS_MODRM .| FLAGS_XMM_FLAGS) 0;
    Ent (OPD_0F38 PF_38_66 0x38) 1 "PMINSB" TYPE_INST (GenFlagsSameSize SIZE_128BIT .| FLAGS_MODRM .| FLAGS_XMM_FLAGS) 0;
    Ent (OPD_0F38 PF_38_66 0x39) 1 "PMINSD" TYPE_INST (GenFlagsSameSize SIZE_128BIT .| FLAGS_MODRM .| FLAGS_XMM_FLAGS) 0;
    Ent (OPD_0F38 PF_38_66 0x3A) 1 "PMINUW" TYPE_INST (GenFlagsSameSize SIZE_128BIT .| FLAGS_MODRM .| FLAGS_XMM_FLAGS) 0;
    Ent (OPD_0F38 PF_38_66 0x3B) 1 "PMINUD" TYPE_INST (GenFlagsSameSize SIZE_128BIT .| FLAGS_MODRM .| FLAGS_XMM_FLAGS) 0;
    Ent (OPD_0F38 PF_38_66 0x3C) 1 "PMAXSB" TYPE_INST (GenFlagsSameSize SIZE_128BIT .| FLAGS_MODRM .| FLAGS_XMM_FLAGS) 0;
    Ent (OPD_0F38 PF_38_66 0x3D) 1 "PMAXSD" TYPE_INST (GenFlagsSameSize SIZE_128BIT .| FLAGS_MODRM .| FLAGS_XMM_FLAGS) 0;
    Ent (OPD_0F38 PF_38_66 0x3E) 1 "PMAXUW" TYPE_INST (GenFlagsSameSize SIZE_128BIT .| FLAGS_MODRM .| FLAGS_XMM_FLAGS) 0;
    Ent (OPD_0F38 PF_38_66 0x3F) 1 "PMAXUD" TYPE_INST (GenFlagsSameSize SIZE_128BIT .| FLAGS_MODRM .| FLAGS_XMM_FLAGS) 0;
    Ent (OPD_0F38 PF_38_66 0x40) 1 "PMULLD" TYPE_INST (GenFlagsSameSize SIZE_128BIT .| FLAGS_MODRM .| FLAGS_XMM_FLAGS) 0;
    Ent (OPD_0F38 PF_38_66 0x41) 1 "PHMINPOSUW" TYPE_INST (GenFlagsSameSize SIZE_128BIT .| FLAGS_MODRM .| FLAGS_XMM_FLAGS) 0;
    Ent (OPD_0F38 PF_38_NONE 0xC8) 1 "SHA1NEXTE" TYPE_INST (GenFlagsSameSize SIZE_128BIT .| FLAGS_MODRM .| FLAGS_XMM_FLAGS) 0;
    Ent (OPD_0F38 PF_38_NONE 0xC9) 1 "SHA1MSG1" TYPE_INST (GenFlagsSameSize SIZE_128BIT .| FLAGS_MODRM .| FLAGS_XMM_FLAGS) 0;
    Ent (OPD_0F38 PF_38_NONE 0xCA) 1 "SHA1MSG2" TYPE_INST (GenFlagsSameSize SIZE_128BIT .| FLAGS_MODRM .| FLAGS_XMM_FLAGS) 0;
    Ent (OPD_0F38 PF_38_NONE 0xCB) 1 "SHA256RNDS2" TYPE_INST (GenFlagsSameSize SIZE_128BIT .| FLAGS_MODRM .| FLAGS_XMM_FLAGS) 0;
    Ent (OPD_0F38 PF_38_NONE 0xCC) 1 "SHA256MSG1" TYPE_INST (GenFlagsSameSize SIZE_128BIT .| FLAGS_MODRM .| FLAGS_XMM_FLAGS) 0;
    Ent (OPD_0F38 PF_38_NONE 0xCD) 1 "SHA256MSG2" TYPE_INST (GenFlagsSameSize SIZE_128BIT .| FLAGS_MODRM .| FLAGS_XMM_FLAGS) 0;
    Ent (OPD_0F38 PF_38_66 0xDB) 1 "AESIMC" TYPE_INST (GenFlagsSameSize SIZE_128BIT .| FLAGS_MODRM .| FLAGS_XMM_FLAGS) 0;
    Ent (OPD_0F38 PF_38_66 0xDC) 1 "AESENC" TYPE_INST (GenFlagsSameSize SIZE_128BIT .| FLAGS_MODRM .| FLAGS_XMM_FLAGS) 0;
    Ent (OPD_0F38 PF_38_66 0xDD) 1 "AESENCLAST" TYPE_INST (GenFlagsSameSize SIZE_128BIT .| FLAGS_MODRM .| FLAGS_XMM_FLAGS) 0;
    Ent (OPD_0F38 PF_38_66 0xDE) 1 "AESDEC" TYPE_INST (GenFlagsSameSize SIZE_128BIT .| FLAGS_MODRM .| FLAGS_XMM_FLAGS) 0;
    Ent (OPD_0F38 PF_38_66 0xDF) 1 "AESDECLAST" TYPE_INST (GenFlagsSameSize SIZE_128BIT .| FLAGS_MODRM .| FLAGS_XMM_FLAGS) 0;
    Ent (OPD_0F38 PF_38_NONE 0xF0) 1 "MOVBE" TYPE_INST (FLAGS_MODRM .| FLAGS_SF_MOD_MEM_ONLY) 0;
    Ent (OPD_0F38 PF_38_NONE 0xF1) 1 "MOVBE" TYPE_INST (FLAGS_MODRM .| FLAGS_SF_MOD_DST .| FLAGS_SF_MOD_MEM_ONLY) 0;
    Ent (OPD_0F38 PF_38_66 0xF0) 1 "MOVBE" TYPE_INST (FLAGS_MODRM .| FLAGS_SF_MOD_MEM_ONLY) 0;
    Ent (OPD_0F38 PF_38_66 0xF1) 1 "MOVBE" TYPE_INST (FLAGS_MODRM .| FLAGS_SF_MOD_DST .| FLAGS_SF_MOD_MEM_ONLY) 0;
    Ent (OPD_0F38 PF_38_F2 0xF0) 1 "CRC32" TYPE_INST (GenFlagsSizes SIZE_DEF SIZE_8BIT .| FLAGS_MODRM) 0;
    Ent (OPD_0F38 PF_38_F2 0xF1) 1 "CRC32" TYPE_INST FLAGS_MODRM 0;
    Ent (OPD_0F38 (PF_38_66 .| PF_38_F2) 0xF0) 1 "CRC32" TYPE_INST (GenFlagsSizes SIZE_DEF SIZE_8BIT .| FLAGS_MODRM) 0;
    Ent (OPD_0F38 (PF_38_66 .| PF_38_F2) 0xF1) 1 "CRC32" TYPE_INST FLAGS_MODRM 0;
    Ent (OPD_0F38 PF_38_66 0xF6) 1 "ADCX" TYPE_INST FLAGS_MODRM 0;
    Ent (OPD_0F38 PF_38_F3 0xF6) 1 "ADOX" TYPE_INST FLAGS_MODRM 0
  ].

(** ** [H0F3ATables.cpp] *)

Definition H0F3ATable : list Entry := [
    Ent (OPD_0F3A 0 PF_3A_NONE 0x0F) 1 "PALIGNR" TYPE_INST (GenFlagsSameSize SIZE_64BIT .| FLAGS_MODRM .| FLAGS_XMM_FLAGS .| FLAGS_SF_MMX) 1;
    Ent (OPD_0F3A 0 PF_3A_66 0x08) 1 "ROUNDPS" TYPE_INST (GenFlagsSameSize SIZE_128BIT .| FLAGS_MODRM .| FLAGS_XMM_FLAGS) 1;
    Ent (OPD_0F3A 0 PF_3A_66 0x09) 1 "ROUNDPD" TYPE_INST (GenFlagsSameSize SIZE_128BIT .| FLAGS_MODRM .| FLAGS_XMM_FLAGS) 1;
    Ent (OPD_0F3A 0 PF_3A_66 0x0A) 1 "ROUNDSS" TYPE_INST (GenFlagsSameSize SIZE_128BIT .| FLAGS_MODRM .| FLAGS_XMM_FLAGS) 1;
    Ent (OPD_0F3A 0 PF_3A_66 0x0B) 1 "ROUNDSD" TYPE_INST (GenFlagsSameSize SIZE_128BIT .| FLAGS_MODRM .| FLAGS_XMM_FLAGS) 1;
    Ent (OPD_0F3A 0 PF_3A_66 0x0C) 1 "BLENDPS" TYPE_INST (GenFlagsSameSize SIZE_128BIT .| FLAGS_MODRM .| FLAGS_XMM_FLAGS) 1;
    Ent (OPD_0F3A 0 PF_3A_66 0x0D) 1 "BLENDPD" TYPE_INST (GenFlagsSameSize SIZE_128BIT .| FLAGS_MODRM .| FLAGS_XMM_FLAGS) 1;
    Ent (OPD_0F3A 0 PF_3A_66 0x0E) 1 "PBLENDW" TYPE_INST (GenFlagsSameSize SIZE_128BIT .| FLAGS_MODRM .| FLAGS_XMM_FLAGS) 1;
    Ent (OPD_0F3A 0 PF_3A_66 0x0F) 1 "PALIGNR" TYPE_INST (GenFlagsSameSize SIZE_128BIT .| FLAGS_MODRM .| FLAGS_XMM_FLAGS) 1;
    Ent (OPD_0F3A 0 PF_3A_66 0x14) 1 "PEXTRB" TYPE_INST (GenFlagsSizes SIZE_32BIT SIZE_128BIT .| FLAGS_MODRM .| FLAGS_SF_MOD_DST .| FLAGS_SF_DST_GPR .| FLAGS_XMM_FLAGS) 1;
    Ent (OPD_0F3A 0 PF_3A_66 0x15) 1 "PEXTRW" TYPE_INST (GenFlagsSizes SIZE_16BIT SIZE_128BIT .| FLAGS_MODRM .| FLAGS_SF_MOD_DST .| FLAGS_SF_DST_GPR .| FLAGS_XMM_FLAGS) 1;
    Ent (OPD_0F3A 0 PF_3A_66 0x16) 1 "PEXTRD" TYPE_INST (GenFlagsSizes SIZE_32BIT SIZE_128BIT .| FLAGS_MODRM .| FLAGS_SF_MOD_DST .| FLAGS_SF_DST_GPR .| FLAGS_XMM_FLAGS) 1;
    Ent (OPD_0F3A 0 PF_3A_66 0x17) 1 "EXTRACTPS" TYPE_INST (GenFlagsSizes SIZE_32BIT SIZE_128BIT .| FLAGS_MODRM .| FLAGS_SF_MOD_DST .| FLAGS_SF_DST_GPR .| FLAGS_XMM_FLAGS) 1;
    Ent (OPD_0F3A 0 PF_3A_66 0x20) 1 "PINSRB" TYPE_INST (GenFlagsDstSize SIZE_128BIT .| FLAGS_MODRM .| FLAGS_XMM_FLAGS .| FLAGS_SF_SRC_GPR) 1;
    Ent (OPD_0F3A 0 PF_3A_66 0x21) 1 "INSERTPS" TYPE_INST (GenFlagsSameSize SIZE_128BIT .| FLAGS_MODRM .| FLAGS_XMM_FLAGS) 1;
    Ent (OPD_0F3A 0 PF_3A_66 0x22) 1 "PINSRD" TYPE_INST (GenFlagsSizes SIZE_128BIT SIZE_32BIT .| FLAGS_MODRM .| FLAGS_XMM_FLAGS .| FLAGS_SF_SRC_GPR) 1;
    Ent (OPD_0F3A 0 PF_3A_66 0x40) 1 "DPPS" TYPE_INST (GenFlagsSameSize SIZE_128BIT .| FLAGS_MODRM .| FLAGS_XMM_FLAGS) 1;
    Ent (OPD_0F3A 0 PF_3A_66 0x41) 1 "DPPD" TYPE_INST (GenFlagsSameSize SIZE_128BIT .| FLAGS_MODRM .| FLAGS_XMM_FLAGS) 1;
    Ent (OPD_0F3A 0 PF_3A_66 0x42) 1 "MPSADBW" TYPE_INST (GenFlagsSameSize SIZE_128BIT .| FLAGS_MODRM .| FLAGS_XMM_FLAGS) 1;
    Ent (OPD_0F3A 0 PF_3A_66 0x44) 1 "PCLMULQDQ" TYPE_INST (GenFlagsSameSize SIZE_128BIT .| FLAGS_MODRM .| FLAGS_XMM_FLAGS) 1;
    Ent (OPD_0F3A 0 PF_3A_66 0x60) 1 "PCMPESTRM" TYPE_UNDEC FLAGS_NONE 0;
    Ent (OPD_0F3A 0 PF_3A_66 0x61) 1 "PCMPESTRI" TYPE_UNDEC FLAGS_NONE 0;
    Ent (OPD_0F3A 0 PF_3A_66 0x62) 1 "PCMPISTRM" TYPE_UNDEC FLAGS_NONE 0;
    Ent (OPD_0F3A 0 PF_3A_66 0x63) 1 "PCMPISTRI" TYPE_INST (GenFlagsSameSize SIZE_128BIT .| FLAGS_MODRM .| FLAGS_XMM_FLAGS) 1;
    Ent (OPD_0F3A 0 PF_3A_NONE 0xCC) 1 "SHA1RNDS4" TYPE_INST (GenFlagsSameSize SIZE_128BIT .| FLAGS_MODRM .| FLAGS_XMM_FLAGS) 1;
    Ent (OPD_0F3A 0 PF_3A_66 0xDF) 1 "AESKEYGENASSIST" TYPE_INST (GenFlagsSameSize SIZE_128BIT .| FLAGS_MODRM .| FLAGS_XMM_FLAGS) 1
  ].

Definition H0F3ATable_64 : list Entry := [
    Ent (OPD_0F3A 1 PF_3A_66 0x0F) 1 "PALIGNR" TYPE_INST (GenFlagsSameSize SIZE_128BIT .| FLAGS_MODRM .| FLAGS_XMM_FLAGS) 1;
    Ent (OPD_0F3A 1 PF_3A_66 0x16) 1 "PEXTRQ" TYPE_INST (GenFlagsSizes SIZE_64BIT SIZE_128BIT .| FLAGS_MODRM .| FLAGS_SF_MOD_DST .| FLAGS_SF_DST_GPR .| FLAGS_XMM_FLAGS) 1;
    Ent (OPD_0F3A 1 PF_3A_66 0x22) 1 "PINSRQ" TYPE_INST (GenFlagsSizes SIZE_128BIT SIZE_64BIT .| FLAGS_MODRM .| FLAGS_XMM_FLAGS .| FLAGS_SF_SRC_GPR) 1
  ].

(** ** [VEXTables.cpp] *)

Definition VEXTable_1_00 : list Entry := [
    Ent (OPD_VEX 1 0 0x10) 1 "VMOVUPS" TYPE_UNDEC FLAGS_NONE 0;
    Ent (OPD_VEX 1 1 0x10) 1 "VMODUPD" TYPE_UNDEC FLAGS_NONE 0;
    Ent (OPD_VEX 1 2 0x10) 1 "VMOVSS" TYPE_UNDEC FLAGS_NONE 0;
    Ent (OPD_VEX 1 3 0x10) 1 "VMOVSD" TYPE_UNDEC FLAGS_NONE 0;
    Ent (OPD_VEX 1 0 0x11) 1 "VMOVUPS" TYPE_UNDEC FLAGS_NONE 0;
    Ent (OPD_VEX 1 1 0x11) 1 "VMODUPD" TYPE_UNDEC FLAGS_NONE 0;
    Ent (OPD_VEX 1 2 0x11) 1 "VMOVSS" TYPE_UNDEC FLAGS_NONE 0;
    Ent (OPD_VEX 1 3 0x11) 1 "VMOVSD" TYPE_UNDEC FLAGS_NONE 0;
    Ent (OPD_VEX 1 0 0x12) 1 "VMOVLPS" TYPE_UNDEC FLAGS_NONE 0;
    Ent (OPD_VEX 1 1 0x12) 1 "VMOVLPD" TYPE_UNDEC FLAGS_NONE 0;
    Ent (OPD_VEX 1 2 0x12) 1 "VMOVSLDUP" TYPE_UNDEC FLAGS_NONE 0;
    Ent (OPD_VEX 1 3 0x12) 1 "VMOVDDUP" TYPE_UNDEC FLAGS_NONE 0;
    Ent (OPD_VEX 1 0 0x13) 1 "VMOVLPS" TYPE_UNDEC FLAGS_NONE 0;
    Ent (OPD_VEX 1 1 0x13) 1 "VMOVLPD" TYPE_UNDEC FLAGS_NONE 0;
    Ent (OPD_VEX 1 0 0x14) 1 "VUNPCKLPS" TYPE_UNDEC FLAGS_NONE 0;
    Ent (OPD_VEX 1 1 0x14) 1 "VUNPCKLPD" TYPE_UNDEC FLAGS_NONE 0;
    Ent (OPD_VEX 1 0 0x15) 1 "VUNPCKHPS" TYPE_UNDEC FLAGS_NONE 0;
    Ent (OPD_VEX 1 1 0x15) 1 "VUNPCKHPD" TYPE_UNDEC FLAGS_NONE 0;
    Ent (OPD_VEX 1 0 0x16) 1 "VMOVHPS" TYPE_UNDEC FLAGS_NONE 0;
    Ent (OPD_VEX 1 1 0x16) 1 "VMOVHPD" TYPE_UNDEC FLAGS_NONE 0;
    Ent (OPD_VEX 1 2 0x16) 1 "VMOVSHDUP" TYPE_UNDEC FLAGS_NONE 0;
    Ent (OPD_VEX 1 0 0x17) 1 "VMOVHPS" TYPE_UNDEC FLAGS_NONE 0;
    Ent (OPD_VEX 1 1 0x17) 1 "VMOVHPD" TYPE_UNDEC FLAGS_NONE 0;
    Ent (OPD_VEX 1 0 0x50) 1 "VMOVMSKPS" TYPE_UNDEC FLAGS_NONE 0;
    Ent (OPD_VEX 1 1 0x50) 1 "VMOVMSKPD" TYPE_UNDEC FLAGS_NONE 0;
    Ent (OPD_VEX 1 0 0x51) 1 "VSQRTPS" TYPE_UNDEC FLAGS_NONE 0;
    Ent (OPD_VEX 1 1 0x51) 1 "VSQRTPD" TYPE_UNDEC FLAGS_NONE 0;
    Ent (OPD_VEX 1 2 0x51) 1 "VSQRTSS" TYPE_UNDEC FLAGS_NONE 0;
    Ent (OPD_VEX 1 3 0x51) 1 "VSQRTSD" TYPE_UNDEC FLAGS_NONE 0;
    Ent (OPD_VEX 1 0 0x52) 1 "VRSQRTPS" TYPE_UNDEC FLAGS_NONE 0;
    Ent (OPD_VEX 1 2 0x52) 1 "VRSQRTSS" TYPE_UNDEC FLAGS_NONE 0;
    Ent (OPD_VEX 1 0 0x53) 1 "VRCPPS" TYPE_UNDEC FLAGS_NONE 0;
    Ent (OPD_VEX 1 2 0x53) 1 "VRCPSS" TYPE_UNDEC FLAGS_NONE 0;
    Ent (OPD_VEX 1 0 0x54) 1 "VANDPS" TYPE_UNDEC FLAGS_NONE 0;
    Ent (OPD_VEX 1 1 0x54) 1 "VANDPD" TYPE_UNDEC FLAGS_NONE 0;
    Ent (OPD_VEX 1 0 0x55) 1 "VANDNPS" TYPE_UNDEC FLAGS_NONE 0;
    Ent (OPD_VEX 1 1 0x55) 1 "VANDNPD" TYPE_UNDEC FLAGS_NONE 0;
    Ent (OPD_VEX 1 0 0x56) 1 "VORPS" TYPE_UNDEC FLAGS_NONE 0;
    Ent (OPD_VEX 1 1 0x56) 1 "VORPD" TYPE_UNDEC FLAGS_NONE 0;
    Ent (OPD_VEX 1 0 0x57) 1 "VXORPS" TYPE_UNDEC FLAGS_NONE 0;
    Ent (OPD_VEX 1 1 0x57) 1 "VDORPD" TYPE_UNDEC FLAGS_NONE 0;
    Ent (OPD_VEX 1 1 0x60) 1 "VPUNPCKLBW" TYPE_UNDEC FLAGS_NONE 0;
    Ent (OPD_VEX 1 1 0x61) 1 "VPUNPCKLWD" TYPE_UNDEC FLAGS_NONE 0;
    Ent (OPD_VEX 1 1 0x62) 1 "VPUNPCKLDQ" TYPE_UNDEC FLAGS_NONE 0;
    Ent (OPD_VEX 1 1 0x63) 1 "VPACKSSWB" TYPE_UNDEC FLAGS_NONE 0;
    Ent (OPD_VEX 1 1 0x64) 1 "VPCMPGTB" TYPE_INST (FLAGS_MODRM .| FLAGS_XMM_FLAGS) 0;
    Ent (OPD_VEX 1 1 0x65) 1 "VPVMPGTW" TYPE_INST (FLAGS_MODRM .| FLAGS_XMM_FLAGS) 0;
    Ent (OPD_VEX 1 1 0x66) 1 "VPVMPGTD" TYPE_INST (FLAGS_MODRM .| FLAGS_XMM_FLAGS) 0;
    Ent (OPD_VEX 1 1 0x67) 1 "VPACKUSWB" TYPE_UNDEC FLAGS_NONE 0;
    Ent (OPD_VEX 1 1 0x70) 1 "VPSHUFD" TYPE_UNDEC FLAGS_NONE 0;
    Ent (OPD_VEX 1 2 0x70) 1 "VPSHUFHW" TYPE_UNDEC FLAGS_NONE 0;
    Ent (OPD_VEX 1 3 0x70) 1 "VPSHUFLW" TYPE_UNDEC FLAGS_NONE 0;
    Ent (OPD_VEX 1 1 0x71) 1 "" TYPE_VEX_GROUP_12 FLAGS_NONE 0;
    Ent (OPD_VEX 1 1 0x72) 1 "" TYPE_VEX_GROUP_13 FLAGS_NONE 0;
    Ent (OPD_VEX 1 1 0x73) 1 "" TYPE_VEX_GROUP_14 FLAGS_NONE 0;
    Ent (OPD_VEX 1 1 0x74) 1 "VPCMPEQB" TYPE_INST (FLAGS_MODRM .| FLAGS_XMM_FLAGS) 0;
    Ent (OPD_VEX 1 1 0x75) 1 "VPCMPEQW" TYPE_INST (FLAGS_MODRM .| FLAGS_XMM_FLAGS) 0;
    Ent (OPD_VEX 1 1 0x76) 1 "VPCMPEQD" TYPE_INST (FLAGS_MODRM .| FLAGS_XMM_FLAGS) 0;
    Ent (OPD_VEX 1 0 0x77) 1 "VZERO*" TYPE_INST FLAGS_NONE 0;
    Ent (OPD_VEX 1 0 0xC2) 1 "VCMPccPS" TYPE_UNDEC FLAGS_NONE 0;
    Ent (OPD_VEX 1 1 0xC2) 1 "VCMPccPD" TYPE_UNDEC FLAGS_NONE 0;
    Ent (OPD_VEX 1 2 0xC2) 1 "VCMPccSS" TYPE_UNDEC FLAGS_NONE 0;
    Ent (OPD_VEX 1 3 0xC2) 1 "VCMPccSD" TYPE_UNDEC FLAGS_NONE 0;
    Ent (OPD_VEX 1 1 0xC4) 1 "VPINSRW" TYPE_UNDEC FLAGS_NONE 0;
    Ent (OPD_VEX 1 1 0xC5) 1 "VPEXTRW" TYPE_UNDEC FLAGS_NONE 0;
    Ent (OPD_VEX 1 0 0xC6) 1 "VSHUFPS" TYPE_UNDEC FLAGS_NONE 0;
    Ent (OPD_VEX 1 1 0xC6) 1 "VSHUFPD" TYPE_UNDEC FLAGS_NONE 0
  ].
Definition VEXTable_1_60 : list Entry := [
    Ent (OPD_VEX 1 0 0x28) 1 "VMOVAPS" TYPE_UNDEC FLAGS_NONE 0;
    Ent (OPD_VEX 1 1 0x28) 1 "VMOVAPD" TYPE_UNDEC FLAGS_NONE 0;
    Ent (OPD_VEX 1 0 0x29) 1 "VMOVAPS" TYPE_UNDEC FLAGS_NONE 0;
    Ent (OPD_VEX 1 1 0x29) 1 "VMOVAPD" TYPE_UNDEC FLAGS_NONE 0;
    Ent (OPD_VEX 1 2 0x2A) 1 "VCVTSI2SS" TYPE_UNDEC FLAGS_NONE 0;
    Ent (OPD_VEX 1 3 0x2A) 1 "VCVTSI2SD" TYPE_UNDEC FLAGS_NONE 0;
    Ent (OPD_VEX 1 0 0x2B) 1 "VMOVNTPS" TYPE_UNDEC FLAGS_NONE 0;
    Ent (OPD_VEX 1 1 0x2B) 1 "VMOVNTPD" TYPE_UNDEC FLAGS_NONE 0;
    Ent (OPD_VEX 1 2 0x2C) 1 "VCVTTSS2SI" TYPE_UNDEC FLAGS_NONE 0;
    Ent (OPD_VEX 1 3 0x2C) 1 "VCVTTSD2SI" TYPE_UNDEC FLAGS_NONE 0;
    Ent (OPD_VEX 1 2 0x2D) 1 "VCVTSS2SI" TYPE_UNDEC FLAGS_NONE 0;
    Ent (OPD_VEX 1 3 0x2D) 1 "VCVTSD2SI" TYPE_UNDEC FLAGS_NONE 0;
    Ent (OPD_VEX 1 0 0x2E) 1 "VUCOMISS" TYPE_UNDEC FLAGS_NONE 0;
    Ent (OPD_VEX 1 1 0x2E) 1 "VUCOMISD" TYPE_UNDEC FLAGS_NONE 0;
    Ent (OPD_VEX 1 0 0x2F) 1 "VUCOMISS" TYPE_UNDEC FLAGS_NONE 0;
    Ent (OPD_VEX 1 1 0x2F) 1 "VUCOMISD" TYPE_UNDEC FLAGS_NONE 0;
    Ent (OPD_VEX 1 0 0x58) 1 "VADDPS" TYPE_UNDEC FLAGS_NONE 0;
    Ent (OPD_VEX 1 1 0x58) 1 "VADDPD" TYPE_UNDEC FLAGS_NONE 0;
    Ent (OPD_VEX 1 2 0x58) 1 "VADDSS" TYPE_UNDEC FLAGS_NONE 0;
    Ent (OPD_VEX 1 3 0x58) 1 "VADDSD" TYPE_UNDEC FLAGS_NONE 0;
    Ent (OPD_VEX 1 0 0x59) 1 "VMULPS" TYPE_UNDEC FLAGS_NONE 0;
    Ent (OPD_VEX 1 1 0x59) 1 "VMULPD" TYPE_UNDEC FLAGS_NONE 0;
    Ent (OPD_VEX 1 2 0x59) 1 "VMULSS" TYPE_UNDEC FLAGS_NONE 0;
    Ent (OPD_VEX 1 3 0x59) 1 "VMULSD" TYPE_UNDEC FLAGS_NONE 0;
    Ent (OPD_VEX 1 0 0x5B) 1 "VCVTDQ2PS" TYPE_UNDEC FLAGS_NONE 0;
    Ent (OPD_VEX 1 1 0x5B) 1 "VCVTPS2DQ" TYPE_UNDEC FLAGS_NONE 0;
    Ent (OPD_VEX 1 2 0x5B) 1 "VCVTPS2DQ" TYPE_UNDEC FLAGS_NONE 0;
    Ent (OPD_VEX 1 0 0x5C) 1 "VSUBPS" TYPE_UNDEC FLAGS_NONE 0;
    Ent (OPD_VEX 1 1 0x5C) 1 "VSUBPD" TYPE_UNDEC FLAGS_NONE 0;
    Ent (OPD_VEX 1 2 0x5C) 1 "VSUBSS" TYPE_UNDEC FLAGS_NONE 0;
    Ent (OPD_VEX 1 3 0x5C) 1 "VSUBSD" TYPE_UNDEC FLAGS_NONE 0;
    Ent (OPD_VEX 1 0 0x5D) 1 "VMINPS" TYPE_UNDEC FLAGS_NONE 0;
    Ent (OPD_VEX 1 1 0x5D) 1 "VMINPD" TYPE_UNDEC FLAGS_NONE 0;
    Ent (OPD_VEX 1 2 0x5D) 1 "VMINSS" TYPE_UNDEC FLAGS_NONE 0;
    Ent (OPD_VEX 1 3 0x5D) 1 "VMINSD" TYPE_UNDEC FLAGS_NONE 0;
    Ent (OPD_VEX 1 0 0x5E) 1 "VDIVPS" TYPE_UNDEC FLAGS_NONE 0;
    Ent (OPD_VEX 1 1 0x5E) 1 "VDIVPD" TYPE_UNDEC FLAGS_NONE 0;
    Ent (OPD_VEX 1 2 0x5E) 1 "VDIVSS" TYPE_UNDEC FLAGS_NONE 0;
    Ent (OPD_VEX 1 3 0x5E) 1 "VDIVSD" TYPE_UNDEC FLAGS_NONE 0;
    Ent (OPD_VEX 1 0 0x5F) 1 "VMAXPS" TYPE_UNDEC FLAGS_NONE 0;
    Ent (OPD_VEX 1 1 0x5F) 1 "VMAXPD" TYPE_UNDEC FLAGS_NONE 0;
    Ent (OPD_VEX 1 2 0x5F) 1 "VMAXSS" TYPE_UNDEC FLAGS_NONE 0;
    Ent (OPD_VEX 1 3 0x5F) 1 "VMAXSD" TYPE_UNDEC FLAGS_NONE 0;
    Ent (OPD_VEX 1 1 0x68) 1 "VPUNPCKHBW" TYPE_UNDEC FLAGS_NONE 0;
    Ent (OPD_VEX 1 1 0x69) 1 "VPUNPCKHWD" TYPE_UNDEC FLAGS_NONE 0;
    Ent (OPD_VEX 1 1 0x6A) 1 "VPUNPCKHDQ" TYPE_UNDEC FLAGS_NONE 0;
    Ent (OPD_VEX 1 1 0x6B) 1 "VPACKSSDW" TYPE_UNDEC FLAGS_NONE 0;
    Ent (OPD_VEX 1 1 0x6C) 1 "VPUNPCKLQDQ" TYPE_UNDEC FLAGS_NONE 0;
    Ent (OPD_VEX 1 1 0x6D) 1 "VPUNPCKHQDQ" TYPE_UNDEC FLAGS_NONE 0;
    Ent (OPD_VEX 1 1 0x6E) 1 "VMOV*" TYPE_INST (GenFlagsDstSize SIZE_128BIT .| FLAGS_MODRM .| FLAGS_XMM_FLAGS .| FLAGS_SF_SRC_GPR) 0;
    Ent (OPD_VEX 1 1 0x6F) 1 "VMOVDQA" TYPE_INST (FLAGS_MODRM .| FLAGS_XMM_FLAGS) 0;
    Ent (OPD_VEX 1 2 0x6F) 1 "VMOVDQU" TYPE_INST (FLAGS_MODRM .| FLAGS_XMM_FLAGS) 0;
    Ent (OPD_VEX 1 1 0x7C) 1 "VHADDPD" TYPE_UNDEC FLAGS_NONE 0;
    Ent (OPD_VEX 1 3 0x7C) 1 "VHADDPS" TYPE_UNDEC FLAGS_NONE 0;
    Ent (OPD_VEX 1 1 0x7D) 1 "VHSUBPD" TYPE_UNDEC FLAGS_NONE 0;
    Ent (OPD_VEX 1 3 0x7D) 1 "VHSUBPS" TYPE_UNDEC FLAGS_NONE 0;
    Ent (OPD_VEX 1 1 0x7E) 1 "VMOV*" TYPE_INST (FLAGS_MODRM .| FLAGS_XMM_FLAGS) 0;
    Ent (OPD_VEX 1 2 0x7E) 1 "VMOVQ" TYPE_INST (FLAGS_MODRM .| FLAGS_XMM_FLAGS) 0;
    Ent (OPD_VEX 1 1 0x7F) 1 "VMOVDQA" TYPE_INST (FLAGS_MODRM .| FLAGS_SF_MOD_DST .| FLAGS_XMM_FLAGS) 0;
    Ent (OPD_VEX 1 2 0x7F) 1 "VMOVDQU" TYPE_INST (FLAGS_MODRM .| FLAGS_SF_MOD_DST .| FLAGS_XMM_FLAGS) 0;
    Ent (OPD_VEX 1 0 0xAE) 1 "" TYPE_VEX_GROUP_15 FLAGS_NONE 0;
    Ent (OPD_VEX 1 1 0xAE) 1 "" TYPE_VEX_GROUP_15 FLAGS_NONE 0;
    Ent (OPD_VEX 1 2 0xAE) 1 "" TYPE_VEX_GROUP_15 FLAGS_NONE 0;
    Ent (OPD_VEX 1 3 0xAE) 1 "" TYPE_VEX_GROUP_15 FLAGS_NONE 0;
    Ent (OPD_VEX 1 1 0xD0) 1 "VADDSUBPD" TYPE_UNDEC FLAGS_NONE 0;
    Ent (OPD_VEX 1 3 0xD0) 1 "VADDSUBPS" TYPE_UNDEC FLAGS_NONE 0;
    Ent (OPD_VEX 1 1 0xD1) 1 "VPSRLW" TYPE_UNDEC FLAGS_NONE 0;
    Ent (OPD_VEX 1 1 0xD2) 1 "VPSRLD" TYPE_UNDEC FLAGS_NONE 0;
    Ent (OPD_VEX 1 1 0xD3) 1 "VPSRLQ" TYPE_UNDEC FLAGS_NONE 0;
    Ent (OPD_VEX 1 1 0xD4) 1 "VPADDQ" TYPE_INST (GenFlagsSameSize SIZE_256BIT .| FLAGS_MODRM .| FLAGS_XMM_FLAGS) 0;
    Ent (OPD_VEX 1 1 0xD5) 1 "VPMULLW" TYPE_UNDEC FLAGS_NONE 0;
    Ent (OPD_VEX 1 1 0xD6) 1 "VMOVQ" TYPE_INST (FLAGS_MODRM .| FLAGS_SF_MOD_DST .| FLAGS_XMM_FLAGS) 0;
    Ent (OPD_VEX 1 1 0xD7) 1 "VPMOVMSKB" TYPE_INST (FLAGS_MODRM .| FLAGS_XMM_FLAGS .| FLAGS_SF_DST_GPR .| FLAGS_SF_MOD_REG_ONLY) 0;
    Ent (OPD_VEX 1 1 0xD8) 1 "VPSUBUSB" TYPE_INST (FLAGS_MODRM .| FLAGS_XMM_FLAGS) 0;
    Ent (OPD_VEX 1 1 0xD9) 1 "VPSUBUSW" TYPE_INST (FLAGS_MODRM .| FLAGS_XMM_FLAGS) 0;
    Ent (OPD_VEX 1 1 0xDA) 1 "VPMINUB" TYPE_INST (FLAGS_MODRM .| FLAGS_XMM_FLAGS) 0;
    Ent (OPD_VEX 1 1 0xDB) 1 "VPAND" TYPE_INST (FLAGS_MODRM .| FLAGS_XMM_FLAGS) 0;
    Ent (OPD_VEX 1 1 0xDC) 1 "VPADDUSB" TYPE_INST (FLAGS_MODRM .| FLAGS_XMM_FLAGS) 0;
    Ent (OPD_VEX 1 1 0xDD) 1 "VPADDUSW" TYPE_INST (FLAGS_MODRM .| FLAGS_XMM_FLAGS) 0;
    Ent (OPD_VEX 1 1 0xDE) 1 "VPMAXUB" TYPE_INST (FLAGS_MODRM .| FLAGS_XMM_FLAGS) 0;
    Ent (OPD_VEX 1 1 0xDF) 1 "VPANDN" TYPE_INST (FLAGS_MODRM .| FLAGS_XMM_FLAGS) 0;
    Ent (OPD_VEX 1 1 0xE0) 1 "VPAVGB" TYPE_UNDEC FLAGS_NONE 0;
    Ent (OPD_VEX 1 1 0xE1) 1 "VPSRAW" TYPE_UNDEC FLAGS_NONE 0;
    Ent (OPD_VEX 1 1 0xE2) 1 "VPSRAD" TYPE_UNDEC FLAGS_NONE 0;
    Ent (OPD_VEX 1 1 0xE3) 1 "VPAVGW" TYPE_UNDEC FLAGS_NONE 0;
    Ent (OPD_VEX 1 1 0xE4) 1 "VPMULHUW" TYPE_UNDEC FLAGS_NONE 0;
    Ent (OPD_VEX 1 1 0xE5) 1 "VPMULHW" TYPE_UNDEC FLAGS_NONE 0;
    Ent (OPD_VEX 1 1 0xE6) 1 "VCVTTPD2DQ" TYPE_UNDEC FLAGS_NONE 0;
    Ent (OPD_VEX 1 2 0xE6) 1 "VCVTDQ2PD" TYPE_UNDEC FLAGS_NONE 0;
    Ent (OPD_VEX 1 3 0xE6) 1 "VCVTPD2DQ" TYPE_UNDEC FLAGS_NONE 0;
    Ent (OPD_VEX 1 1 0xE7) 1 "VMOVNTDQ" TYPE_INST (FLAGS_MODRM .| FLAGS_SF_MOD_DST .| FLAGS_XMM_FLAGS) 0;
    Ent (OPD_VEX 1 1 0xE8) 1 "VPSUBSB" TYPE_UNDEC FLAGS_NONE 0;
    Ent (OPD_VEX 1 1 0xE9) 1 "VPSUBSW" TYPE_UNDEC FLAGS_NONE 0;
    Ent (OPD_VEX 1 1 0xEA) 1 "VPMINSW" TYPE_UNDEC FLAGS_NONE 0;
    Ent (OPD_VEX 1 1 0xEB) 1 "VPOR" TYPE_INST (FLAGS_MODRM .| FLAGS_XMM_FLAGS) 0;
    Ent (OPD_VEX 1 1 0xEC) 1 "VPADDSB" TYPE_UNDEC FLAGS_NONE 0;
    Ent (OPD_VEX 1 1 0xED) 1 "VPADDSW" TYPE_UNDEC FLAGS_NONE 0;
    Ent (OPD_VEX 1 1 0xEE) 1 "VPMAXSW" TYPE_UNDEC FLAGS_NONE 0;
    Ent (OPD_VEX 1 1 0xEF) 1 "VPXOR" TYPE_INST (FLAGS_MODRM .| FLAGS_XMM_FLAGS) 0;
    Ent (OPD_VEX 1 3 0xF0) 1 "VLDDQU" TYPE_UNDEC FLAGS_NONE 0;
    Ent (OPD_VEX 1 1 0xF1) 1 "VPSLLW" TYPE_UNDEC FLAGS_NONE 0;
    Ent (OPD_VEX 1 1 0xF2) 1 "VPSLLD" TYPE_UNDEC FLAGS_NONE 0;
    Ent (OPD_VEX 1 1 0xF3) 1 "VPSLLQ" TYPE_UNDEC FLAGS_NONE 0;
    Ent (OPD_VEX 1 1 0xF4) 1 "VPMULUDQ" TYPE_UNDEC FLAGS_NONE 0;
    Ent (OPD_VEX 1 1 0xF5) 1 "VPMADDWD" TYPE_UNDEC FLAGS_NONE 0;
    Ent (OPD_VEX 1 1 0xF6) 1 "VPSADBW" TYPE_UNDEC FLAGS_NONE 0;
    Ent (OPD_VEX 1 1 0xF7) 1 "VMASKMOVDQU" TYPE_UNDEC FLAGS_NONE 0;
    Ent (OPD_VEX 1 1 0xF8) 1 "VPSUBB" TYPE_INST (GenFlagsSameSize SIZE_256BIT .| FLAGS_MODRM .| FLAGS_XMM_FLAGS) 0;
    Ent (OPD_VEX 1 1 0xF9) 1 "VPSUBW" TYPE_INST (GenFlagsSameSize SIZE_256BIT .| FLAGS_MODRM .| FLAGS_XMM_FLAGS) 0;
    Ent (OPD_VEX 1 1 0xFA) 1 "VPSUBD" TYPE_INST (GenFlagsSameSize SIZE_256BIT .| FLAGS_MODRM .| FLAGS_XMM_FLAGS) 0;
    Ent (OPD_VEX 1 1 0xFB) 1 "VPSUBQ" TYPE_INST (GenFlagsSameSize SIZE_256BIT .| FLAGS_MODRM .| FLAGS_XMM_FLAGS) 0;
    Ent (OPD_VEX 1 1 0xFC) 1 "VPADDB" TYPE_INST (GenFlagsSameSize SIZE_256BIT .| FLAGS_MODRM .| FLAGS_XMM_FLAGS) 0;
    Ent (OPD_VEX 1 1 0xFD) 1 "VPADDW" TYPE_INST (GenFlagsSameSize SIZE_256BIT .| FLAGS_MODRM .| FLAGS_XMM_FLAGS) 0;
    Ent (OPD_VEX 1 1 0xFE) 1 "VPADDD" TYPE_INST (GenFlagsSameSize SIZE_256BIT .| FLAGS_MODRM .| FLAGS_XMM_FLAGS) 0
  ].
Definition VEXTable_2 : list Entry := [
    Ent (OPD_VEX 2 1 0x00) 1 "VPSHUFB" TYPE_INST (FLAGS_MODRM .| FLAGS_XMM_FLAGS) 0;
    Ent (OPD_VEX 2 1 0x01) 1 "VPADDW" TYPE_UNDEC FLAGS_NONE 0;
    Ent (OPD_VEX 2 1 0x02) 1 "VPHADDD" TYPE_UNDEC FLAGS_NONE 0;
    Ent (OPD_VEX 2 1 0x03) 1 "VPHADDSW" TYPE_UNDEC FLAGS_NONE 0;
    Ent (OPD_VEX 2 1 0x04) 1 "VPMADDUBSW" TYPE_UNDEC FLAGS_NONE 0;
    Ent (OPD_VEX 2 1 0x05) 1 "VPHSUBW" TYPE_UNDEC FLAGS_NONE 0;
    Ent (OPD_VEX 2 1 0x06) 1 "VPHSUBD" TYPE_UNDEC FLAGS_NONE 0;
    Ent (OPD_VEX 2 1 0x07) 1 "VPHSUBSW" TYPE_UNDEC FLAGS_NONE 0;
    Ent (OPD_VEX 2 1 0x08) 1 "VPSIGNB" TYPE_UNDEC FLAGS_NONE 0;
    Ent (OPD_VEX 2 1 0x09) 1 "VPSIGNW" TYPE_UNDEC FLAGS_NONE 0;
    Ent (OPD_VEX 2 1 0x0A) 1 "VPSIGND" TYPE_UNDEC FLAGS_NONE 0;
    Ent (OPD_VEX 2 1 0x0B) 1 "VPMULHRSW" TYPE_UNDEC FLAGS_NONE 0;
    Ent (OPD_VEX 2 1 0x0C) 1 "VPERMILPS" TYPE_UNDEC FLAGS_NONE 0;
    Ent (OPD_VEX 2 1 0x0D) 1 "VPERMILPD" TYPE_UNDEC FLAGS_NONE 0;
    Ent (OPD_VEX 2 1 0x0E) 1 "VTESTPS" TYPE_UNDEC FLAGS_NONE 0;
    Ent (OPD_VEX 2 1 0x0F) 1 "VTESTPD" TYPE_UNDEC FLAGS_NONE 0;
    Ent (OPD_VEX 2 1 0x13) 1 "VCVTPH2PS" TYPE_UNDEC FLAGS_NONE 0;
    Ent (OPD_VEX 2 1 0x16) 1 "VPERMPS" TYPE_UNDEC FLAGS_NONE 0;
    Ent (OPD_VEX 2 1 0x17) 1 "VPTEST" TYPE_UNDEC FLAGS_NONE 0;
    Ent (OPD_VEX 2 1 0x18) 1 "VBROADCASTSS" TYPE_UNDEC FLAGS_NONE 0;
    Ent (OPD_VEX 2 1 0x19) 1 "VBROADCASTSD" TYPE_UNDEC FLAGS_NONE 0;
    Ent (OPD_VEX 2 1 0x1A) 1 "VBROADCASTF128" TYPE_UNDEC FLAGS_NONE 0;
    Ent (OPD_VEX 2 1 0x1C) 1 "VPABSB" TYPE_UNDEC FLAGS_NONE 0;
    Ent (OPD_VEX 2 1 0x1D) 1 "VPABSW" TYPE_UNDEC FLAGS_NONE 0;
    Ent (OPD_VEX 2 1 0x1E) 1 "VPABSD" TYPE_UNDEC FLAGS_NONE 0;
    Ent (OPD_VEX 2 1 0x20) 1 "VPMOVSXBW" TYPE_UNDEC FLAGS_NONE 0;
    Ent (OPD_VEX 2 1 0x21) 1 "VPMOVSXBD" TYPE_UNDEC FLAGS_NONE 0;
    Ent (OPD_VEX 2 1 0x22) 1 "VPMOVSXBQ" TYPE_UNDEC FLAGS_NONE 0;
    Ent (OPD_VEX 2 1 0x23) 1 "VPMOVSXWD" TYPE_UNDEC FLAGS_NONE 0;
    Ent (OPD_VEX 2 1 0x24) 1 "VPMOVSXWQ" TYPE_UNDEC FLAGS_NONE 0;
    Ent (OPD_VEX 2 1 0x25) 1 "VPMOVSXDQ" TYPE_UNDEC FLAGS_NONE 0;
    Ent (OPD_VEX 2 1 0x28) 1 "VPMULDQ" TYPE_UNDEC FLAGS_NONE 0;
    Ent (OPD_VEX 2 1 0x29) 1 "VPCMPEQQ" TYPE_UNDEC FLAGS_NONE 0;
    Ent (OPD_VEX 2 1 0x2A) 1 "VMOVNTDQA" TYPE_UNDEC FLAGS_NONE 0;
    Ent (OPD_VEX 2 1 0x2B) 1 "VPACKUSDW" TYPE_UNDEC FLAGS_NONE 0;
    Ent (OPD_VEX 2 1 0x2C) 1 "VMASKMOVPS" TYPE_UNDEC FLAGS_NONE 0;
    Ent (OPD_VEX 2 1 0x2D) 1 "VMASKMOVPD" TYPE_UNDEC FLAGS_NONE 0;
    Ent (OPD_VEX 2 1 0x2E) 1 "VMASKMOVPS" TYPE_UNDEC FLAGS_NONE 0;
    Ent (OPD_VEX 2 1 0x2F) 1 "VMASKMOVPD" TYPE_UNDEC FLAGS_NONE 0;
    Ent (OPD_VEX 2 1 0x30) 1 "VPMOVZXBW" TYPE_UNDEC FLAGS_NONE 0;
    Ent (OPD_VEX 2 1 0x31) 1 "VPMOVZXBD" TYPE_UNDEC FLAGS_NONE 0;
    Ent (OPD_VEX 2 1 0x32) 1 "VPMOVZXBQ" TYPE_UNDEC FLAGS_NONE 0;
    Ent (OPD_VEX 2 1 0x33) 1 "VPMOVZXWD" TYPE_UNDEC FLAGS_NONE 0;
    Ent (OPD_VEX 2 1 0x34) 1 "VPMOVZXWQ" TYPE_UNDEC FLAGS_NONE 0;
    Ent (OPD_VEX 2 1 0x35) 1 "VPMOVZXDQ" TYPE_UNDEC FLAGS_NONE 0;
    Ent (OPD_VEX 2 1 0x36) 1 "VPERMD" TYPE_UNDEC FLAGS_NONE 0;
    Ent (OPD_VEX 2 1 0x37) 1 "VPVMPGTQ" TYPE_UNDEC FLAGS_NONE 0;
    Ent (OPD_VEX 2 1 0x38) 1 "VPMINSB" TYPE_UNDEC FLAGS_NONE 0;
    Ent (OPD_VEX 2 1 0x39) 1 "VPMINSD" TYPE_UNDEC FLAGS_NONE 0;
    Ent (OPD_VEX 2 1 0x3A) 1 "VPMINUW" TYPE_UNDEC FLAGS_NONE 0;
    Ent (OPD_VEX 2 1 0x3B) 1 "VPMINUD" TYPE_INST (FLAGS_MODRM .| FLAGS_XMM_FLAGS) 0;
    Ent (OPD_VEX 2 1 0x3C) 1 "VPMAXSB" TYPE_UNDEC FLAGS_NONE 0;
    Ent (OPD_VEX 2 1 0x3D) 1 "VPMAXSD" TYPE_UNDEC FLAGS_NONE 0;
    Ent (OPD_VEX 2 1 0x3E) 1 "VPMAXUW" TYPE_UNDEC FLAGS_NONE 0;
    Ent (OPD_VEX 2 1 0x3F) 1 "VPMAXUD" TYPE_UNDEC FLAGS_NONE 0;
    Ent (OPD_VEX 2 1 0x40) 1 "VPMULLD" TYPE_UNDEC FLAGS_NONE 0;
    Ent (OPD_VEX 2 1 0x41) 1 "VPHMINPOSUW" TYPE_UNDEC FLAGS_NONE 0;
    Ent (OPD_VEX 2 1 0x45) 1 "VPSRLV" TYPE_UNDEC FLAGS_NONE 0;
    Ent (OPD_VEX 2 1 0x46) 1 "VPSRAVD" TYPE_UNDEC FLAGS_NONE 0;
    Ent (OPD_VEX 2 1 0x47) 1 "VPSLLV" TYPE_UNDEC FLAGS_NONE 0;
    Ent (OPD_VEX 2 1 0x58) 1 "VPBROADCASTD" TYPE_INST FLAGS_MODRM 0;
    Ent (OPD_VEX 2 1 0x59) 1 "VPBROADCASTQ" TYPE_INST FLAGS_MODRM 0;
    Ent (OPD_VEX 2 1 0x5A) 1 "VBBROADCASTI128" TYPE_INST FLAGS_MODRM 0;
    Ent (OPD_VEX 2 1 0x78) 1 "VPBROADCASTB" TYPE_INST FLAGS_MODRM 0;
    Ent (OPD_VEX 2 1 0x79) 1 "VPBROADCASTW" TYPE_INST FLAGS_MODRM 0;
    Ent (OPD_VEX 2 1 0x8C) 1 "VPMASKMOV" TYPE_UNDEC FLAGS_NONE 0;
    Ent (OPD_VEX 2 1 0x8E) 1 "VPMASKMOV" TYPE_UNDEC FLAGS_NONE 0;
    Ent (OPD_VEX 2 1 0x90) 1 "VPGATHERD" TYPE_UNDEC FLAGS_NONE 0;
    Ent (OPD_VEX 2 1 0x91) 1 "VPGATHERQ" TYPE_UNDEC FLAGS_NONE 0;
    Ent (OPD_VEX 2 1 0x92) 1 "VPGATHERD" TYPE_UNDEC FLAGS_NONE 0;
    Ent (OPD_VEX 2 1 0x93) 1 "VPGATHERQ" TYPE_UNDEC FLAGS_NONE 0;
    Ent (OPD_VEX 2 1 0x96) 1 "VFMADDSUB132" TYPE_UNDEC FLAGS_NONE 0;
    Ent (OPD_VEX 2 1 0x97) 1 "VFMSUBADD132" TYPE_UNDEC FLAGS_NONE 0;
    Ent (OPD_VEX 2 1 0x98) 1 "VFMADD132" TYPE_UNDEC FLAGS_NONE 0;
    Ent (OPD_VEX 2 1 0x99) 1 "VFMADD132" TYPE_UNDEC FLAGS_NONE 0;
    Ent (OPD_VEX 2 1 0x9A) 1 "VFMSUB132" TYPE_UNDEC FLAGS_NONE 0;
    Ent (OPD_VEX 2 1 0x9B) 1 "VFMSUB132" TYPE_UNDEC FLAGS_NONE 0;
    Ent (OPD_VEX 2 1 0x9C) 1 "VFNMADD132" TYPE_UNDEC FLAGS_NONE 0;
    Ent (OPD_VEX 2 1 0x9D) 1 "VFNMADD132" TYPE_UNDEC FLAGS_NONE 0;
    Ent (OPD_VEX 2 1 0x9E) 1 "VFNMSUB132" TYPE_UNDEC FLAGS_NONE 0;
    Ent (OPD_VEX 2 1 0x9F) 1 "VFNMSUB132" TYPE_UNDEC FLAGS_NONE 0;
    Ent (OPD_VEX 2 1 0xA8) 1 "VFMADD213" TYPE_UNDEC FLAGS_NONE 0;
    Ent (OPD_VEX 2 1 0xA9) 1 "VFMADD213" TYPE_UNDEC FLAGS_NONE 0;
    Ent (OPD_VEX 2 1 0xAA) 1 "VFMSUB213" TYPE_UNDEC FLAGS_NONE 0;
    Ent (OPD_VEX 2 1 0xAB) 1 "VFMSUB213" TYPE_UNDEC FLAGS_NONE 0;
    Ent (OPD_VEX 2 1 0xAC) 1 "VFNMADD213" TYPE_UNDEC FLAGS_NONE 0;
    Ent (OPD_VEX 2 1 0xAD) 1 "VFNMADD213" TYPE_UNDEC FLAGS_NONE 0;
    Ent (OPD_VEX 2 1 0xAE) 1 "VFNMSUB213" TYPE_UNDEC FLAGS_NONE 0;
    Ent (OPD_VEX 2 1 0xAF) 1 "VFNMSUB213" TYPE_UNDEC FLAGS_NONE 0;
    Ent (OPD_VEX 2 1 0xB8) 1 "VFMADD231" TYPE_UNDEC FLAGS_NONE 0;
    Ent (OPD_VEX 2 1 0xB9) 1 "VFMADD231" TYPE_UNDEC FLAGS_NONE 0;
    Ent (OPD_VEX 2 1 0xBA) 1 "VFMSUB231" TYPE_UNDEC FLAGS_NONE 0;
    Ent (OPD_VEX 2 1 0xBB) 1 "VFMSUB231" TYPE_UNDEC FLAGS_NONE 0;
    Ent (OPD_VEX 2 1 0xBC) 1 "VFNMADD231" TYPE_UNDEC FLAGS_NONE 0;
    Ent (OPD_VEX 2 1 0xBD) 1 "VFNMADD231" TYPE_UNDEC FLAGS_NONE 0;
    Ent (OPD_VEX 2 1 0xBE) 1 "VFNMSUB231" TYPE_UNDEC FLAGS_NONE 0;
    Ent (OPD_VEX 2 1 0xBF) 1 "VFNMSUB231" TYPE_UNDEC FLAGS_NONE 0;
    Ent (OPD_VEX 2 1 0xA6) 1 "VFMADDSUB213" TYPE_UNDEC FLAGS_NONE 0;
    Ent (OPD_VEX 2 1 0xA7) 1 "VFMSUBADD213" TYPE_UNDEC FLAGS_NONE 0;
    Ent (OPD_VEX 2 1 0xB6) 1 "VFMADDSUB231" TYPE_UNDEC FLAGS_NONE 0;
    Ent (OPD_VEX 2 1 0xB7) 1 "VFMSUBADD231" TYPE_UNDEC FLAGS_NONE 0;
    Ent (OPD_VEX 2 1 0xDB) 1 "VAESIMC" TYPE_UNDEC FLAGS_NONE 0;
    Ent (OPD_VEX 2 1 0xDC) 1 "VAESENC" TYPE_UNDEC FLAGS_NONE 0;
    Ent (OPD_VEX 2 1 0xDD) 1 "VAESENCLAST" TYPE_UNDEC FLAGS_NONE 0;
    Ent (OPD_VEX 2 1 0xDE) 1 "VAESDEC" TYPE_UNDEC FLAGS_NONE 0;
    Ent (OPD_VEX 2 1 0xDF) 1 "VAESDECLAST" TYPE_UNDEC FLAGS_NONE 0;
    Ent (OPD_VEX 2 0 0xF2) 1 "ANDN" TYPE_INST (FLAGS_MODRM .| FLAGS_VEX_1ST_SRC) 0;
    Ent (OPD_VEX 2 0 0xF3) 1 "" TYPE_VEX_GROUP_17 FLAGS_NONE 0;
    Ent (OPD_VEX 2 1 0xF3) 1 "" TYPE_VEX_GROUP_17 FLAGS_NONE 0;
    Ent (OPD_VEX 2 2 0xF3) 1 "" TYPE_VEX_GROUP_17 FLAGS_NONE 0;
    Ent (OPD_VEX 2 3 0xF3) 1 "" TYPE_VEX_GROUP_17 FLAGS_NONE 0;
    Ent (OPD_VEX 2 0 0xF5) 1 "BZHI" TYPE_INST (FLAGS_MODRM .| FLAGS_VEX_2ND_SRC) 0;
    Ent (OPD_VEX 2 2 0xF5) 1 "PEXT" TYPE_INST (FLAGS_MODRM .| FLAGS_VEX_1ST_SRC) 0;
    Ent (OPD_VEX 2 3 0xF5) 1 "PDEP" TYPE_INST (FLAGS_MODRM .| FLAGS_VEX_1ST_SRC) 0;
    Ent (OPD_VEX 2 3 0xF6) 1 "MULX" TYPE_INST (FLAGS_MODRM .| FLAGS_VEX_1ST_SRC) 0;
    Ent (OPD_VEX 2 0 0xF7) 1 "BEXTR" TYPE_INST (FLAGS_MODRM .| FLAGS_VEX_2ND_SRC) 0;
    Ent (OPD_VEX 2 1 0xF7) 1 "SHLX" TYPE_INST (FLAGS_MODRM .| FLAGS_VEX_2ND_SRC) 0;
    Ent (OPD_VEX 2 2 0xF7) 1 "SARX" TYPE_INST (FLAGS_MODRM .| FLAGS_VEX_2ND_SRC) 0;
    Ent (OPD_VEX 2 3 0xF7) 1 "SHRX" TYPE_INST (FLAGS_MODRM .| FLAGS_VEX_2ND_SRC) 0
  ].
Definition VEXTable_3 : list Entry := [
    Ent (OPD_VEX 3 1 0x00) 1 "VPERMQ" TYPE_UNDEC FLAGS_NONE 0;
    Ent (OPD_VEX 3 1 0x01) 1 "VPERMPD" TYPE_UNDEC FLAGS_NONE 0;
    Ent (OPD_VEX 3 1 0x02) 1 "VPBLENDD" TYPE_UNDEC FLAGS_NONE 0;
    Ent (OPD_VEX 3 1 0x04) 1 "VPERMILPS" TYPE_UNDEC FLAGS_NONE 0;
    Ent (OPD_VEX 3 1 0x05) 1 "VPERMILPD" TYPE_UNDEC FLAGS_NONE 0;
    Ent (OPD_VEX 3 1 0x06) 1 "VPERM2F128" TYPE_UNDEC FLAGS_NONE 0;
    Ent (OPD_VEX 3 1 0x08) 1 "VROUNDPS" TYPE_UNDEC FLAGS_NONE 0;
    Ent (OPD_VEX 3 1 0x09) 1 "VROUNDPD" TYPE_UNDEC FLAGS_NONE 0;
    Ent (OPD_VEX 3 1 0x0A) 1 "VROUNDSS" TYPE_UNDEC FLAGS_NONE 0;
    Ent (OPD_VEX 3 1 0x0B) 1 "VROUNDSD" TYPE_UNDEC FLAGS_NONE 0;
    Ent (OPD_VEX 3 1 0x0C) 1 "VBLENDPS" TYPE_UNDEC FLAGS_NONE 0;
    Ent (OPD_VEX 3 1 0x0D) 1 "VBLENDPD" TYPE_UNDEC FLAGS_NONE 0;
    Ent (OPD_VEX 3 1 0x0E) 1 "VBLENDW" TYPE_UNDEC FLAGS_NONE 0;
    Ent (OPD_VEX 3 1 0x0F) 1 "VPALIGNR" TYPE_INST (FLAGS_MODRM .| FLAGS_XMM_FLAGS) 1;
    Ent (OPD_VEX 3 1 0x14) 1 "VPEXTRB" TYPE_UNDEC FLAGS_NONE 0;
    Ent (OPD_VEX 3 1 0x15) 1 "VPEXTRW" TYPE_UNDEC FLAGS_NONE 0;
    Ent (OPD_VEX 3 1 0x16) 1 "VPEXTRD" TYPE_UNDEC FLAGS_NONE 0;
    Ent (OPD_VEX 3 1 0x17) 1 "VEXTRACTPS" TYPE_UNDEC FLAGS_NONE 0;
    Ent (OPD_VEX 3 1 0x18) 1 "VINSERTF128" TYPE_UNDEC FLAGS_NONE 0;
    Ent (OPD_VEX 3 1 0x19) 1 "VEXTRACTF128" TYPE_UNDEC FLAGS_NONE 0;
    Ent (OPD_VEX 3 1 0x1D) 1 "VCVTPS2PH" TYPE_UNDEC FLAGS_NONE 0;
    Ent (OPD_VEX 3 1 0x20) 1 "VPINSRB" TYPE_UNDEC FLAGS_NONE 0;
    Ent (OPD_VEX 3 1 0x21) 1 "VINSERTPS" TYPE_UNDEC FLAGS_NONE 0;
    Ent (OPD_VEX 3 1 0x22) 1 "VPINSRD" TYPE_UNDEC FLAGS_NONE 0;
    Ent (OPD_VEX 3 1 0x38) 1 "VINSERTI128" TYPE_UNDEC FLAGS_NONE 0;
    Ent (OPD_VEX 3 1 0x39) 1 "VEXTRACTI128" TYPE_UNDEC FLAGS_NONE 0;
    Ent (OPD_VEX 3 1 0x40) 1 "VDPPS" TYPE_UNDEC FLAGS_NONE 0;
    Ent (OPD_VEX 3 1 0x41) 1 "VDPPD" TYPE_UNDEC FLAGS_NONE 0;
    Ent (OPD_VEX 3 1 0x42) 1 "VMPSADBW" TYPE_UNDEC FLAGS_NONE 0;
    Ent (OPD_VEX 3 1 0x44) 1 "VPCLMULQDQ" TYPE_INST (GenFlagsSameSize SIZE_128BIT .| FLAGS_MODRM .| FLAGS_VEX_1ST_SRC .| FLAGS_XMM_FLAGS) 1;
    Ent (OPD_VEX 3 1 0x46) 1 "VPERM2I128" TYPE_UNDEC FLAGS_NONE 0;
    Ent (OPD_VEX 3 1 0x48) 1 "VPERMILzz2PS" TYPE_UNDEC FLAGS_NONE 0;
    Ent (OPD_VEX 3 1 0x49) 1 "VPERMILzz2PD" TYPE_UNDEC FLAGS_NONE 0;
    Ent (OPD_VEX 3 1 0x4A) 1 "VBLENDVPS" TYPE_UNDEC FLAGS_NONE 0;
    Ent (OPD_VEX 3 1 0x4B) 1 "VBLENDVPD" TYPE_UNDEC FLAGS_NONE 0;
    Ent (OPD_VEX 3 1 0x4C) 1 "VBLENDVB" TYPE_UNDEC FLAGS_NONE 0;
    Ent (OPD_VEX 3 1 0x5C) 1 "VFMADDSUBPS" TYPE_UNDEC FLAGS_NONE 0;
    Ent (OPD_VEX 3 1 0x5D) 1 "VFMADDSUBPD" TYPE_UNDEC FLAGS_NONE 0;
    Ent (OPD_VEX 3 1 0x5E) 1 "VMFSUBADDPS" TYPE_UNDEC FLAGS_NONE 0;
    Ent (OPD_VEX 3 1 0x5F) 1 "VFMSUBADDPD" TYPE_UNDEC FLAGS_NONE 0;
    Ent (OPD_VEX 3 1 0x60) 1 "VPCMPESTRM" TYPE_UNDEC FLAGS_NONE 0;
    Ent (OPD_VEX 3 1 0x61) 1 "VPCMPESTRI" TYPE_UNDEC FLAGS_NONE 0;
    Ent (OPD_VEX 3 1 0x62) 1 "VPCMPISTRM" TYPE_UNDEC FLAGS_NONE 0;
    Ent (OPD_VEX 3 1 0x63) 1 "VPCMPISTRI" TYPE_INST (FLAGS_MODRM .| FLAGS_XMM_FLAGS) 1;
    Ent (OPD_VEX 3 1 0x68) 1 "VFMADDPS" TYPE_UNDEC FLAGS_NONE 0;
    Ent (OPD_VEX 3 1 0x69) 1 "VFMADDPD" TYPE_UNDEC FLAGS_NONE 0;
    Ent (OPD_VEX 3 1 0x6A) 1 "VFMADDSS" TYPE_UNDEC FLAGS_NONE 0;
    Ent (OPD_VEX 3 1 0x6B) 1 "VFMADDSD" TYPE_UNDEC FLAGS_NONE 0;
    Ent (OPD_VEX 3 1 0x6C) 1 "VFMSUBPS" TYPE_UNDEC FLAGS_NONE 0;
    Ent (OPD_VEX 3 1 0x6D) 1 "VFMSUBPD" TYPE_UNDEC FLAGS_NONE 0;
    Ent (OPD_VEX 3 1 0x6E) 1 "VFMSUBSS" TYPE_UNDEC FLAGS_NONE 0;
    Ent (OPD_VEX 3 1 0x6F) 1 "VFMSUBSD" TYPE_UNDEC FLAGS_NONE 0;
    Ent (OPD_VEX 3 1 0x78) 1 "VFNMADDPS" TYPE_UNDEC FLAGS_NONE 0;
    Ent (OPD_VEX 3 1 0x79) 1 "VFNMADDPD" TYPE_UNDEC FLAGS_NONE 0;
    Ent (OPD_VEX 3 1 0x7A) 1 "VFNMADDSS" TYPE_UNDEC FLAGS_NONE 0;
    Ent (OPD_VEX 3 1 0x7B) 1 "VFNMADDSD" TYPE_UNDEC FLAGS_NONE 0;
    Ent (OPD_VEX 3 1 0x7C) 1 "VFNMSUBPS" TYPE_UNDEC FLAGS_NONE 0;
    Ent (OPD_VEX 3 1 0x7D) 1 "VFNMSUBPD" TYPE_UNDEC FLAGS_NONE 0;
    Ent (OPD_VEX 3 1 0x7E) 1 "VFNMSUBSS" TYPE_UNDEC FLAGS_NONE 0;
    Ent (OPD_VEX 3 1 0x7F) 1 "VFNMSUBSD" TYPE_UNDEC FLAGS_NONE 0;
    Ent (OPD_VEX 3 1 0xDF) 1 "VAESKEYGENASSIST" TYPE_UNDEC FLAGS_NONE 0;
    Ent (OPD_VEX 3 3 0xF0) 1 "RORX" TYPE_INST FLAGS_MODRM 1
  ].
Definition VEXTable : list Entry := VEXTable_1_00 ++ VEXTable_1_60 ++ VEXTable_2 ++ VEXTable_3.

Definition VEXGroupTable : list Entry := [
    Ent (OPD_VEX_group TYPE_VEX_GROUP_12 1 2) 1 "VPSRLW" TYPE_UNDEC FLAGS_MODRM 0;
    Ent (OPD_VEX_group TYPE_VEX_GROUP_12 1 4) 1 "VPSRAW" TYPE_UNDEC FLAGS_MODRM 0;
    Ent (OPD_VEX_group TYPE_VEX_GROUP_12 1 6) 1 "VPSLLW" TYPE_UNDEC FLAGS_MODRM 0;
    Ent (OPD_VEX_group TYPE_VEX_GROUP_13 1 2) 1 "VPSRLD" TYPE_UNDEC FLAGS_MODRM 0;
    Ent (OPD_VEX_group TYPE_VEX_GROUP_13 1 4) 1 "VPSRAD" TYPE_UNDEC FLAGS_MODRM 0;
    Ent (OPD_VEX_group TYPE_VEX_GROUP_13 1 6) 1 "VPSLLD" TYPE_UNDEC FLAGS_MODRM 0;
    Ent (OPD_VEX_group TYPE_VEX_GROUP_14 1 2) 1 "VPSRLQ" TYPE_INST (FLAGS_MODRM .| FLAGS_XMM_FLAGS) 1;
    Ent (OPD_VEX_group TYPE_VEX_GROUP_14 1 3) 1 "VPSRLDQ" TYPE_INST (FLAGS_MODRM .| FLAGS_XMM_FLAGS) 1;
    Ent (OPD_VEX_group TYPE_VEX_GROUP_14 1 6) 1 "VPSLLQ" TYPE_INST (FLAGS_MODRM .| FLAGS_XMM_FLAGS) 1;
    Ent (OPD_VEX_group TYPE_VEX_GROUP_14 1 7) 1 "VPSLLDQ" TYPE_INST (FLAGS_MODRM .| FLAGS_XMM_FLAGS) 1;
    Ent (OPD_VEX_group TYPE_VEX_GROUP_15 1 2) 1 "VLDMXCSR" TYPE_UNDEC FLAGS_MODRM 0;
    Ent (OPD_VEX_group TYPE_VEX_GROUP_15 1 3) 1 "VSTMXCSR" TYPE_UNDEC FLAGS_MODRM 0;
    Ent (OPD_VEX_group TYPE_VEX_GROUP_17 0 1) 1 "BLSR" TYPE_INST (FLAGS_MODRM .| FLAGS_VEX_DST) 0;
    Ent (OPD_VEX_group TYPE_VEX_GROUP_17 0 2) 1 "BLSMSK" TYPE_INST (FLAGS_MODRM .| FLAGS_VEX_DST) 0;
    Ent (OPD_VEX_group TYPE_VEX_GROUP_17 0 3) 1 "BLSI" TYPE_INST (FLAGS_MODRM .| FLAGS_VEX_DST) 0
  ].

(** ** [EVEXTables.cpp] *)

Definition EVEXTable : list Entry := [
    Ent 0x10 1 "VMOVUPS" TYPE_INST (FLAGS_MODRM .| FLAGS_XMM_FLAGS) 0;
    Ent 0x11 1 "VMOVUPS" TYPE_INST (FLAGS_MODRM .| FLAGS_SF_MOD_DST .| FLAGS_XMM_FLAGS) 0;
    Ent 0x18 1 "VBROADCASTSS" TYPE_INST (FLAGS_MODRM .| FLAGS_XMM_FLAGS) 0;
    Ent 0x19 1 "VBROADCASTD" TYPE_INST (FLAGS_MODRM .| FLAGS_XMM_FLAGS) 0;
    Ent 0x1A 1 "VBROADCASTSD" TYPE_INST (FLAGS_MODRM .| FLAGS_XMM_FLAGS) 0;
    Ent 0x1B 1 "VBROADCASTF64X4" TYPE_INST (FLAGS_MODRM .| FLAGS_XMM_FLAGS) 0;
    Ent 0x28 1 "VMOVAPS" TYPE_INST (FLAGS_MODRM .| FLAGS_XMM_FLAGS) 0;
    Ent 0x29 1 "VMOVAPS" TYPE_INST (FLAGS_MODRM .| FLAGS_SF_MOD_DST .| FLAGS_XMM_FLAGS) 0;
    Ent 0x59 1 "VBROADCASTQ" TYPE_INST (FLAGS_MODRM .| FLAGS_SF_MOD_DST .| FLAGS_XMM_FLAGS) 0;
    Ent 0x6F 1 "VMOVDQU64" TYPE_INST (FLAGS_MODRM .| FLAGS_XMM_FLAGS) 0;
    Ent 0x73 1 "VPSLLDQ" TYPE_INST (FLAGS_MODRM .| FLAGS_SF_MOD_DST .| FLAGS_XMM_FLAGS) 0;
    Ent 0x7F 1 "VMOVDQU64" TYPE_INST (FLAGS_MODRM .| FLAGS_SF_MOD_DST .| FLAGS_XMM_FLAGS) 0;
    Ent 0xE7 1 "VMOVNTDQ" TYPE_INST (FLAGS_MODRM .| FLAGS_SF_MOD_DST .| FLAGS_XMM_FLAGS) 0
  ].

(** ** [X86Tables.cpp]: the arrays *)

Inductive TableId :=
  | BaseOps | SecondBaseOps | RepModOps | RepNEModOps | OpSizeModOps | PrimaryInstGroupOps | SecondInstGroupOps
  | SecondModRMTableOps | X87Ops | DDDNowOps | H0F38TableOps | H0F3ATableOps | VEXTableOps | VEXTableGroupOps | EVEXTableOps.
#[export] Instance TableId_eq : EqDecision TableId.
Proof. solve_decision. Defined.

Definition Tables : Type := TableId -> InfoTable.

(** The arrays of a process whose guest has 64-bit mode or not. *)
Definition InitializeInfoTables (Is64 : bool) : outcome Tables :=
  let mode (t64 t32 : list Entry) : list Entry := if Is64 then t64 else t32 in
  base ← GenerateTable BaseOpTable (empty_table 256);
  base ← GenerateTable (mode BaseOpTable_64 BaseOpTable_32) base;
  second ← GenerateTable TwoByteOpTable (empty_table 256);
  second ← GenerateTable (mode TwoByteOpTable_64 TwoByteOpTable_32) second;
  rep ← GenerateTableWithCopy RepModOpTable second (empty_table 256);
  repne ← GenerateTableWithCopy RepNEModOpTable second (empty_table 256);
  opsize ← GenerateTableWithCopy OpSizeModOpTable second (empty_table 256);
  primary ← GenerateTable PrimaryGroupOpTable (empty_table 512);
  primary ← GenerateTable (mode PrimaryGroupOpTable_64 PrimaryGroupOpTable_32) primary;
  group ← GenerateTable SecondaryExtensionOpTable (empty_table 512);
  modrm ← GenerateTable SecondaryModRMExtensionOpTable (empty_table 32);
  x87 ← GenerateX87Table X87OpTable (empty_table 2048);
  ddd ← GenerateTable DDDNowOpTable (empty_table 256);
  h38 ← GenerateTable H0F38Table (empty_table 2048);
  h3a ← GenerateTable H0F3ATable (empty_table 2048);
  h3a ← GenerateTable (mode H0F3ATable_64 []) h3a;
  vex ← GenerateTable VEXTable (empty_table 8192);
  vexgroup ← GenerateTable VEXGroupTable (empty_table 128);
  evex ← GenerateTable EVEXTable (empty_table 256);
  Ok (fun id => match id with
    | BaseOps => base | SecondBaseOps => second | RepModOps => rep | RepNEModOps => repne | OpSizeModOps => opsize
    | PrimaryInstGroupOps => primary | SecondInstGroupOps => group | SecondModRMTableOps => modrm | X87Ops => x87
    | DDDNowOps => ddd | H0F38TableOps => h38 | H0F3ATableOps => h3a | VEXTableOps => vex | VEXTableGroupOps => vexgroup
    | EVEXTableOps => evex
    end).

Definition tables (Is64 : bool) : Tables :=
  match InitializeInfoTables Is64 with Ok T => T | _ => fun _ => empty_table 0 end.
