(* ===== verification/Frontend.v ===== *)
(** * The decoder

    [Interface/Core/Frontend.cpp]: guest bytes to decoded instructions. The state of
    a decoding is the instruction that is being filled in and the number of bytes
    read; checks are those of a build with assertions, where [ReadData] reads its
    bytes one by one. *)
From Stdlib Require Import ZArith Lia Bool.
From stdpp Require Import base gmap list numbers option.
From S2P Require Import Prelude Flags Dispatch X86Tables X86TablesExt.
#[local] Open Scope Z_scope.

(** ** Registers *)

Definition REG_R8 : Z := 8.
Definition REG_R9 : Z := 9.
Definition REG_R10 : Z := 10.
Definition REG_R11 : Z := 11.
Definition REG_R12 : Z := 12.
Definition REG_R13 : Z := 13.
Definition REG_R14 : Z := 14.
Definition REG_R15 : Z := 15.

Definition GPRIndexes : list Z :=
  [REG_RAX; REG_RCX; REG_RDX; REG_RBX; REG_RSP; REG_RBP; REG_RSI; REG_RDI;
   REG_R8; REG_R9; REG_R10; REG_R11; REG_R12; REG_R13; REG_R14; REG_R15].
Definition GPR8BitHighIndexes : list Z :=
  [REG_RAX; REG_RCX; REG_RDX; REG_RBX; REG_RAX; REG_RCX; REG_RDX; REG_RBX;
   REG_R8; REG_R9; REG_R10; REG_R11; REG_R12; REG_R13; REG_R14; REG_R15].
Definition XMMIndexes : list Z := (fun i => REG_XMM_0 + i) <$> offsets 16.
Definition MMIndexes : list Z := ((fun i => REG_MM_0 + i) <$> offsets 8) ++ ((fun _ => REG_INVALID) <$> offsets 8).

Definition MapModRMToReg (REX bits : Z) (HighBits HasREX HasXMM HasMM : bool) (InvalidOffset : Z) : outcome Z :=
  let GPRs := if HasXMM then XMMIndexes else if HasMM then MMIndexes
    else if HighBits && negb HasREX then GPR8BitHighIndexes else GPRIndexes in
  let Offset := Z.lor (Z.shiftl REX 3) bits in
  if Offset =? InvalidOffset then Ok REG_INVALID else deref (GPRs !! Z.to_nat Offset).
(** The default argument. *)
Definition NoInvalidOffset : Z := 16.

Definition MapVEXToReg (vvvv : Z) (HasXMM : bool) : outcome Z :=
  deref ((if HasXMM then XMMIndexes else GPRIndexes) !! Z.to_nat vvvv).

(** ** The instruction stream *)

(** The page of system calls at a fixed address: three stubs and breakpoints. *)
Definition VSyscallData : gmap Z Z :=
  let stub (number_low number_high : Z) := [0xB8; number_low; number_high; 0; 0; 0x0F; 0x05; 0xC3] in
  let put (at_ : Z) (l : list Z) (m : gmap Z Z) := foldr (fun '(i, x) m => <[at_ + Z.of_nat i := x]> m) m (imap pair l) in
  put 0 (stub 0x60 0x00) (put 0x400 (stub 0xC9 0x00) (put 0x800 (stub 0x35 0x01) (put 0 (replicate 0x1000 0xCC) ∅))).

(** [InstStream]: a guest address, or an offset into that page. *)
Inductive CodePointer := InGuest (address : Z) | InVSyscall (offset : Z).
Definition advance (p : CodePointer) (n : Z) : CodePointer :=
  match p with InGuest a => InGuest (a + n) | InVSyscall o => InVSyscall (o + n) end.
Definition read_code (Mem : gmap Z Z) (p : CodePointer) (n : nat) : option Z :=
  match p with InGuest a => load n Mem a | InVSyscall o => load n VSyscallData o end.

(** ** Flags of a decoded instruction *)

Definition FLAG_REX_PREFIX : Z := Z.shiftl 1 4.
Definition FLAG_REX_XGPR_B : Z := Z.shiftl 1 8.
Definition FLAG_REX_XGPR_X : Z := Z.shiftl 1 9.
Definition FLAG_REX_XGPR_R : Z := Z.shiftl 1 10.
Definition DecodeSizeMask : Z := 7.
Definition GetSizeDstFlags (Flags : Z) : Z := Z.land (Z.shiftr Flags FLAG_SIZE_DST_OFF) DecodeSizeMask.
Definition GetSizeSrcFlags (Flags : Z) : Z := Z.land (Z.shiftr Flags (FLAG_SIZE_DST_OFF + 3)) DecodeSizeMask.
Definition GenSizeDstSize (Size : Z) : Z := Z.shiftl Size FLAG_SIZE_DST_OFF.
Definition GenSizeSrcSize (Size : Z) : Z := Z.shiftl Size (FLAG_SIZE_DST_OFF + 3).

(** The stack of the two size prefixes, the last one at the bottom. *)
Definition PushOpAddr (Flags Flag : Z) : Z :=
  let BottomOfStack := Z.land (Z.shiftr (Z.land Flags FLAG_OPADDR_MASK) FLAG_OPADDR_OFF) 3 in
  uint 32 (Z.lor (Z.ldiff Flags FLAG_OPADDR_MASK)
                 (Z.lor (Z.shiftl BottomOfStack (FLAG_OPADDR_OFF + 2)) (Z.shiftl Flag FLAG_OPADDR_OFF))).
Definition PopOpAddrIf (Flags Flag : Z) : Z :=
  let BottomOfStack := Z.land (Z.shiftr (Z.land Flags FLAG_OPADDR_MASK) FLAG_OPADDR_OFF) 3 in
  if BottomOfStack =? Flag then
    let TopOfStack := Z.land (Z.shiftr (Z.land Flags FLAG_OPADDR_MASK) (FLAG_OPADDR_OFF + 2)) 3 in
    uint 32 (Z.lor (Z.ldiff Flags FLAG_OPADDR_MASK) (Z.shiftl TopOfStack FLAG_OPADDR_OFF))
  else Flags.

(** ** The state of a decoding *)

Definition MAX_INST_SIZE : Z := 15.

(** What [DecodedInst] holds besides what the dispatcher reads, and [InstructionSize]. *)
Record Decoding := mkDecoding {
  InstructionSize : Z;
  Inst : DecodedInst;
  ModRM : Z;
  SIBByte : Z;
  LastEscapePrefix : Z;
  DecodedModRM : bool;
  DecodedSIB : bool;
  TableInfo : option (TableId * Z)
}.
Definition D : Type -> Type := M Decoding.

Definition cleared (PC : Z) : Decoding :=
  mkDecoding 0 (mkInst PC 0 0 0 OperandNothing (replicate 3 OperandNothing)) 0 0 0 false false None.

Definition set_size (n : Z) (d : Decoding) : Decoding :=
  mkDecoding n (Inst d) (ModRM d) (SIBByte d) (LastEscapePrefix d) (DecodedModRM d) (DecodedSIB d) (TableInfo d).
Definition set_Inst (i : DecodedInst) (d : Decoding) : Decoding :=
  mkDecoding (InstructionSize d) i (ModRM d) (SIBByte d) (LastEscapePrefix d) (DecodedModRM d) (DecodedSIB d) (TableInfo d).
Definition set_ModRM (m : Z) (d : Decoding) : Decoding :=
  mkDecoding (InstructionSize d) (Inst d) m (SIBByte d) (LastEscapePrefix d) true (DecodedSIB d) (TableInfo d).
Definition set_SIB (s : Z) (d : Decoding) : Decoding :=
  mkDecoding (InstructionSize d) (Inst d) (ModRM d) s (LastEscapePrefix d) (DecodedModRM d) true (TableInfo d).
Definition set_LastEscapePrefix (p : Z) (d : Decoding) : Decoding :=
  mkDecoding (InstructionSize d) (Inst d) (ModRM d) (SIBByte d) p (DecodedModRM d) (DecodedSIB d) (TableInfo d).
Definition set_TableInfo (t : option (TableId * Z)) (d : Decoding) : Decoding :=
  mkDecoding (InstructionSize d) (Inst d) (ModRM d) (SIBByte d) (LastEscapePrefix d) (DecodedModRM d) (DecodedSIB d) t.

Definition set_Flags (f : Z) (d : Decoding) : Decoding :=
  let i := Inst d in set_Inst (mkInst (PC i) (OP i) f (InstSize i) (Dest i) (Src i)) d.
Definition set_OP (op : Z) (d : Decoding) : Decoding :=
  let i := Inst d in set_Inst (mkInst (PC i) op (OpFlags i) (InstSize i) (Dest i) (Src i)) d.
Definition set_InstSize (n : Z) (d : Decoding) : Decoding :=
  let i := Inst d in set_Inst (mkInst (PC i) (OP i) (OpFlags i) n (Dest i) (Src i)) d.
Definition set_Dest (o : DecodedOperand) (d : Decoding) : Decoding :=
  let i := Inst d in set_Inst (mkInst (PC i) (OP i) (OpFlags i) (InstSize i) o (Src i)) d.
Definition set_Src (n : nat) (o : DecodedOperand) (d : Decoding) : Decoding :=
  let i := Inst d in set_Inst (mkInst (PC i) (OP i) (OpFlags i) (InstSize i) (Dest i) (<[n := o]> (Src i))) d.

(** A reference to one of the operands; [Src] has three elements. *)
Inductive Slot := AtDest | AtSrc (i : nat).
Definition get_operand (s : Slot) : D DecodedOperand :=
  d ← get_state; match s with AtDest => mret (Dest (Inst d)) | AtSrc i => lift (deref (Src (Inst d) !! i)) end.
Definition set_operand (s : Slot) (o : DecodedOperand) : D unit :=
  match s with
  | AtDest => modify (set_Dest o)
  | AtSrc i => _ ← get_operand (AtSrc i); modify (set_Src i o)
  end.

Definition get_Flags : D Z := d ← get_state; mret (OpFlags (Inst d)).
Definition or_Flags (f : Z) : D unit := modify (fun d => set_Flags (Z.lor (OpFlags (Inst d)) f) d).
Definition clear_Flags (f : Z) : D unit := modify (fun d => set_Flags (Z.ldiff (OpFlags (Inst d)) f) d).

Definition modrm_rm (m : Z) : Z := Z.land m 7.
Definition modrm_reg (m : Z) : Z := Z.land (Z.shiftr m 3) 7.
Definition modrm_mod (m : Z) : Z := Z.land (Z.shiftr m 6) 3.

(** ** Decoding *)

Section Decoder.
Variables (Is64BitMode : bool) (T : Tables) (Mem : gmap Z Z) (InstStream : CodePointer).

Definition ReadByte : D Z :=
  d ← get_state;
  Byte ← lift (deref (read_code Mem (advance InstStream (InstructionSize d)) 1));
  _ ← check (InstructionSize d <? MAX_INST_SIZE);
  _ ← modify (set_size (InstructionSize d + 1));
  mret Byte.

Fixpoint read_bytes (n : nat) : D unit :=
  match n with O => mret tt | S n => _ ← ReadByte; read_bytes n end.
Definition ReadData (Size : Z) : D Z :=
  _ ← check (negb (Size =? 0) && (Size <=? 8));
  d ← get_state;
  Res ← lift (deref (read_code Mem (advance InstStream (InstructionSize d)) (Z.to_nat Size)));
  _ ← read_bytes (Z.to_nat Size);
  mret Res.

Definition map_gpr (REX bits : Z) (InvalidOffset : Z) : D Z :=
  lift (MapModRMToReg REX bits false false false false InvalidOffset).
(** [DecodeInst->Flags & flag ? 1 : 0] *)
Definition REX_bit (flag : Z) : D Z := Flags ← get_Flags; mret (if flag_set Flags flag then 1 else 0).

Definition ModRM_16_lookup : list (Z * Z) :=
  [(REG_RBX, REG_RSI); (REG_RBX, REG_RDI); (REG_RBP, REG_RSI); (REG_RBP, REG_RDI);
   (REG_RSI, REG_INVALID); (REG_RDI, REG_INVALID); (REG_INVALID, REG_INVALID); (REG_RBX, REG_INVALID);
   (REG_RBX, REG_RSI); (REG_RBX, REG_RDI); (REG_RBP, REG_RSI); (REG_RBP, REG_RDI);
   (REG_RSI, REG_INVALID); (REG_RDI, REG_INVALID); (REG_RBP, REG_INVALID); (REG_RBX, REG_INVALID);
   (REG_RBX, REG_RSI); (REG_RBX, REG_RDI); (REG_RBP, REG_RSI); (REG_RBP, REG_RDI);
   (REG_RSI, REG_INVALID); (REG_RDI, REG_INVALID); (REG_RBP, REG_INVALID); (REG_RBX, REG_INVALID)].

Definition DecodeModRM_16 (m : Z) : D DecodedOperand :=
  let DisplacementSize :=
    if ((modrm_mod m =? 0) && (modrm_rm m =? 6)) || (modrm_mod m =? 2) then 2
    else if modrm_mod m =? 1 then 1 else 0 in
  Literal_ ← (if DisplacementSize =? 0 then mret 0
              else
                l ← ReadData DisplacementSize;
                mret (if DisplacementSize =? 1 then uint 32 (sint 8 l) else uint 32 l));
  '(Base, Index) ← lift (deref (ModRM_16_lookup !! Z.to_nat (Z.lor (Z.shiftl (modrm_mod m) 3) (modrm_rm m))));
  mret (SIB Index Base 1 (sint 32 Literal_)).

(** The operand of an [SIB] byte; without a displacement its offset is the zero that
    the instruction was cleared to. *)
Definition DecodeSIB (m : Z) : D DecodedOperand :=
  d ← get_state;
  s ← (if DecodedSIB d then mret (SIBByte d) else b ← ReadByte; _ ← modify (set_SIB b); mret b);
  let Displacement := if modrm_mod m =? 1 then 1 else if modrm_mod m =? 2 then 4
    else if (modrm_mod m =? 0) && (modrm_rm s =? 5) then 4 else 0 in
  let Scale := Z.shiftl 1 (modrm_mod s) in
  X ← REX_bit FLAG_REX_XGPR_X;
  Index ← map_gpr X (modrm_reg s) 4;
  b ← REX_bit FLAG_REX_XGPR_B;
  Base ← map_gpr b (modrm_rm s) (if modrm_mod m =? 0 then 5 else NoInvalidOffset);
  _ ← check (Displacement <=? 4);
  if Displacement =? 0 then mret (SIB Index Base Scale 0)
  else
    Literal_ ← ReadData Displacement;
    mret (SIB Index Base Scale (sint 32 (if Displacement =? 1 then sint 8 Literal_ else Literal_))).

Definition DecodeModRM_64 (m : Z) : D DecodedOperand :=
  if negb (modrm_mod m =? 3) && (modrm_rm m =? 4) then DecodeSIB m
  else if modrm_mod m =? 0 then
    if modrm_rm m =? 5 then Literal_ ← ReadData 4; mret (RIPRelative (uint 32 Literal_))
    else b ← REX_bit FLAG_REX_XGPR_B; r ← map_gpr b (modrm_rm m) NoInvalidOffset; mret (GPRDirect r)
  else
    let DisplacementSize := if modrm_mod m =? 1 then 1 else 4 in
    Literal_ ← ReadData DisplacementSize;
    b ← REX_bit FLAG_REX_XGPR_B;
    r ← map_gpr b (modrm_rm m) NoInvalidOffset;
    mret (GPRIndirect r (sint 32 (if DisplacementSize =? 1 then sint 8 Literal_ else Literal_))).

Definition Has16BitAddressing : D bool :=
  Flags ← get_Flags; mret (negb Is64BitMode && flag_set Flags FLAG_ADDRESS_SIZE).
Definition DecodeModRM_Disp (m : Z) : D DecodedOperand :=
  h ← Has16BitAddressing; if h : bool then DecodeModRM_16 m else DecodeModRM_64 m.

(** [DecodedHeader]: what a [VEX] prefix passes on. *)
Record DecodedHeader := mkHeader { vvvv : Z; w : bool }.
Definition no_header : DecodedHeader := mkHeader 0 false.

(** *** The registers files of an entry *)

Definition uses_XMM (Flags gpr mmx : Z) : bool :=
  has_flag Flags FLAGS_XMM_FLAGS && negb (HAS_XMM_SUBFLAG Flags gpr) && negb (HAS_XMM_SUBFLAG Flags mmx).
Definition uses_MM (Flags gpr mmx : Z) : bool :=
  has_flag Flags FLAGS_XMM_FLAGS && negb (HAS_XMM_SUBFLAG Flags gpr) && HAS_XMM_SUBFLAG Flags mmx.
Definition HasXMMSrc (Flags : Z) : bool := uses_XMM Flags FLAGS_SF_SRC_GPR FLAGS_SF_MMX_SRC.
Definition HasXMMDst (Flags : Z) : bool := uses_XMM Flags FLAGS_SF_DST_GPR FLAGS_SF_MMX_DST.
Definition HasMMSrc (Flags : Z) : bool := uses_MM Flags FLAGS_SF_SRC_GPR FLAGS_SF_MMX_SRC.
Definition HasMMDst (Flags : Z) : bool := uses_MM Flags FLAGS_SF_DST_GPR FLAGS_SF_MMX_DST.
Definition HasHighXMM (Flags : Z) : bool := HAS_XMM_SUBFLAG Flags FLAGS_SF_HIGH_XMM_REG.

(** *** Operand sizes *)

(** The size of one side of an instruction, as an index and in bytes. *)
Definition OperandSize (SizeFlag : Z) (HasNarrowing HasWidening HasVector : bool) : Z * Z :=
  if SizeFlag =? SIZE_8BIT then (SIZE_8BIT, 1)
  else if SizeFlag =? SIZE_16BIT then (SIZE_16BIT, 2)
  else if SizeFlag =? SIZE_128BIT then (SIZE_128BIT, 16)
  else if HasNarrowing && ((SizeFlag =? SIZE_DEF) || (SizeFlag =? SIZE_64BITDEF)) then (SIZE_16BIT, 2)
  else if (HasVector || Is64BitMode) && (HasWidening || (SizeFlag =? SIZE_64BIT) || (SizeFlag =? SIZE_64BITDEF)) then (SIZE_64BIT, 8)
  else (SIZE_32BIT, 4).

Definition DecodeSizes (Flags : Z) (HasNarrowing HasWidening : bool) : D Z :=
  let '(dst, DestSize) := OperandSize (InstFlags_GetSizeDstFlags Flags) HasNarrowing HasWidening (HasXMMDst Flags || HasMMDst Flags) in
  _ ← or_Flags (GenSizeDstSize dst);
  let '(src, _) := OperandSize (InstFlags_GetSizeSrcFlags Flags) HasNarrowing HasWidening (HasXMMSrc Flags || HasMMSrc Flags) in
  _ ← or_Flags (GenSizeSrcSize src);
  mret DestSize.

(** *** Operands *)

(** The register and the other operand of [ModRM]; false when there is no such register. *)
Definition ModRMOperand (GPR_ NonGPR : Slot) (HasREX HighXMM HasXMMGPR HasXMMNonGPR HasMMGPR HasMMNonGPR GPR8Bit NonGPR8Bit : bool)
    : D bool :=
  d ← get_state;
  let m := ModRM d in
  R ← REX_bit FLAG_REX_XGPR_R;
  g ← lift (MapModRMToReg R (modrm_reg m) GPR8Bit HasREX HasXMMGPR HasMMGPR NoInvalidOffset);
  _ ← set_operand GPR_ (GPR ((GPR8Bit && (4 <=? modrm_reg m) && negb HasREX) || HighXMM) g);
  if g =? REG_INVALID then mret false
  else if modrm_mod m =? 3 then
    b ← REX_bit FLAG_REX_XGPR_B;
    g ← lift (MapModRMToReg b (modrm_rm m) NonGPR8Bit HasREX HasXMMNonGPR HasMMNonGPR NoInvalidOffset);
    _ ← set_operand NonGPR (GPR ((NonGPR8Bit && (4 <=? modrm_rm m) && negb HasREX) || HighXMM) g);
    mret (negb (g =? REG_INVALID))
  else
    o ← get_operand NonGPR;
    match o with
    | OperandNothing => o ← DecodeModRM_Disp m; _ ← set_operand NonGPR o; mret true
    | _ => mret true
    end.

(** Destinations that the opcode names: the next destination is then a source. *)
Definition DecodeFixedDest (Flags : Z) : D Slot :=
  let RAX := HAS_NON_XMM_SUBFLAG Flags FLAGS_SF_DST_RAX in
  if RAX || HAS_NON_XMM_SUBFLAG Flags FLAGS_SF_DST_RDX then
    _ ← set_operand AtDest (GPR false (if RAX then REG_RAX else REG_RDX)); mret (AtSrc 0)
  else mret AtDest.

(** A register in the opcode byte. The high half is recorded in the destination,
    wherever the register goes. *)
Definition DecodeRegInByte (Flags Op : Z) (CurrentDest : Slot) (HasREX Is8BitDest : bool) : D bool :=
  if HAS_NON_XMM_SUBFLAG Flags FLAGS_SF_REX_IN_BYTE then
    _ ← check (negb (has_flag Flags FLAGS_MODRM));
    let HighBits := (Is8BitDest && negb HasREX && (4 <=? Z.land Op 7)) || HasHighXMM Flags in
    b ← REX_bit FLAG_REX_XGPR_B;
    g ← lift (MapModRMToReg b (Z.land Op 7) Is8BitDest HasREX false false NoInvalidOffset);
    _ ← (match CurrentDest with
         | AtDest => set_operand AtDest (GPR HighBits g)
         | AtSrc _ =>
             o ← get_operand AtDest;
             _ ← set_operand AtDest (match o with GPR _ r => GPR HighBits r | _ => o end);
             set_operand CurrentDest (GPR false g)
         end);
    mret (negb (g =? REG_INVALID))
  else mret true.

Definition LiteralBytes (Info : X86InstInfo) (Flags : Z) (HasNarrowing HasWidening : bool) : Z :=
  let Bytes := MoreBytes Info in
  let Bytes := if has_flag (InfoFlags Info) FLAGS_DISPLACE_SIZE_MUL_2 && HasWidening then uint 8 (Z.shiftl Bytes 1) else Bytes in
  let Bytes := if has_flag (InfoFlags Info) FLAGS_DISPLACE_SIZE_DIV_2 && HasNarrowing then Z.shiftr Bytes 1 else Bytes in
  if has_flag (InfoFlags Info) FLAGS_MEM_OFFSET && flag_set Flags FLAG_ADDRESS_SIZE then Z.shiftr Bytes 1 else Bytes.

Definition DecodeLiteral (Flags : Z) (Bytes DestSize : Z) (CurrentSrc : nat) : D unit :=
  if Bytes =? 0 then mret tt
  else
    _ ← check (Bytes <=? 8);
    _ ← get_operand (AtSrc CurrentSrc);
    Literal_ ← ReadData Bytes;
    InstFlags_ ← get_Flags;
    if has_flag Flags FLAGS_SRC_SEXT
       || ((GetSizeDstFlags InstFlags_ =? SIZE_64BIT) && has_flag Flags FLAGS_SRC_SEXT64BIT) then
      let v := if Bytes =? 1 then sint 8 Literal_ else if Bytes =? 2 then sint 16 Literal_ else sint 32 Literal_ in
      set_operand (AtSrc CurrentSrc) (Literal DestSize (uint 64 v))
    else set_operand (AtSrc CurrentSrc) (Literal Bytes Literal_).

(** A register that [VEX.vvvv] names. *)
Definition vex_register (s : Slot) (Options : DecodedHeader) (HasXMM : bool) : D unit :=
  r ← lift (MapVEXToReg (vvvv Options) HasXMM); set_operand s (GPR false r).

(** The operands of [ModRM], one of them the next source. *)
Definition DecodeModRMOperands (Flags : Z) (CurrentSrc : nat) (HasREX Is8BitSrc Is8BitDest : bool) : D bool :=
  if has_flag Flags FLAGS_MODRM then
    if has_flag Flags FLAGS_SF_MOD_DST then
      ModRMOperand (AtSrc CurrentSrc) AtDest HasREX (HasHighXMM Flags) (HasXMMSrc Flags) (HasXMMDst Flags)
        (HasMMSrc Flags) (HasMMDst Flags) Is8BitSrc Is8BitDest
    else
      ModRMOperand AtDest (AtSrc CurrentSrc) HasREX (HasHighXMM Flags) (HasXMMDst Flags) (HasXMMSrc Flags)
        (HasMMDst Flags) (HasMMSrc Flags) Is8BitDest Is8BitSrc
  else mret true.

(** Sources that the prefix or the opcode names; the index of the next one. *)
Definition DecodeNamedSources (Flags : Z) (Options : DecodedHeader) (CurrentSrc : nat) : D nat :=
  CurrentSrc ← (if has_flag Flags FLAGS_VEX_2ND_SRC then
                  _ ← vex_register (AtSrc CurrentSrc) Options (HasXMMSrc Flags); mret (S CurrentSrc)
                else mret CurrentSrc);
  if HAS_NON_XMM_SUBFLAG Flags FLAGS_SF_SRC_RAX then
    _ ← set_operand (AtSrc CurrentSrc) (GPR false REG_RAX); mret (S CurrentSrc)
  else if HAS_NON_XMM_SUBFLAG Flags FLAGS_SF_SRC_RCX then
    _ ← set_operand (AtSrc CurrentSrc) (GPR false REG_RCX); mret (S CurrentSrc)
  else mret CurrentSrc.

Definition DecodeSources (Flags : Z) (Options : DecodedHeader) (HasREX Is8BitSrc Is8BitDest : bool) : D (bool * nat) :=
  CurrentSrc ← (if has_flag Flags FLAGS_VEX_1ST_SRC then
                  _ ← vex_register (AtSrc 0) Options (HasXMMSrc Flags); mret 1%nat
                else mret 0%nat);
  ok ← DecodeModRMOperands Flags CurrentSrc HasREX Is8BitSrc Is8BitDest;
  if negb ok then mret (false, CurrentSrc)
  else
    CurrentSrc ← DecodeNamedSources Flags Options (if has_flag Flags FLAGS_MODRM then S CurrentSrc else CurrentSrc);
    mret (true, CurrentSrc).

(** *** Instructions *)

(** [&Table\[i\]]: the entry with its place. *)
Definition entry (id : TableId) (i : Z) : D (X86InstInfo * (TableId * Z)) :=
  info ← lift (table_get (T id) i); mret (info, (id, i)).

(** The types that no instruction has, which both functions refuse. *)
Definition refused (Info : X86InstInfo) : bool :=
  (InfoType Info =? TYPE_LEGACY_PREFIX) || (InfoType Info =? TYPE_UNKNOWN) || (InfoType Info =? TYPE_INVALID).

Definition NormalOp (place : X86InstInfo * (TableId * Z)) (Op : Z) (Options : DecodedHeader) : D bool :=
  let Info := fst place in
  let Flags := InfoFlags Info in
  _ ← modify (set_OP Op);
  _ ← modify (set_TableInfo (Some (snd place)));
  if refused Info then mret false
  else
    _ ← check (negb ((TYPE_GROUP_1 <=? InfoType Info) && (InfoType Info <=? TYPE_GROUP_P)));
    InstFlags_ ← get_Flags;
    let HasWidening := has_flag (GetOpAddr InstFlags_ 0) FLAG_WIDENING_SIZE_LAST || (w Options && Is64BitMode) in
    let HasNarrowing := has_flag (GetOpAddr InstFlags_ 0) FLAG_OPERAND_SIZE_LAST in
    let HasREX := flag_set InstFlags_ FLAG_REX_PREFIX in
    d ← get_state;
    _ ← (if has_flag Flags FLAGS_MODRM && negb (DecodedModRM d) then m ← ReadByte; modify (set_ModRM m) else mret tt);
    DestSize ← DecodeSizes Flags HasNarrowing HasWidening;
    Sized ← get_Flags;
    let Is8BitSrc := GetSizeSrcFlags Sized =? SIZE_8BIT in
    let Is8BitDest := GetSizeDstFlags Sized =? SIZE_8BIT in
    CurrentDest ← DecodeFixedDest Flags;
    ok ← DecodeRegInByte Flags Op CurrentDest HasREX Is8BitDest;
    if negb ok then mret false
    else
      let Bytes := LiteralBytes Info Sized HasNarrowing HasWidening in
      '(ok, CurrentSrc) ← DecodeSources Flags Options HasREX Is8BitSrc Is8BitDest;
      if negb (ok : bool) then mret false
      else
        _ ← (if has_flag Flags FLAGS_VEX_DST then vex_register CurrentDest Options (HasXMMDst Flags) else mret tt);
        _ ← DecodeLiteral Flags Bytes DestSize CurrentSrc;
        d ← get_state;
        _ ← modify (set_InstSize (InstructionSize d));
        mret true.

Definition ReadModRM : D Z := m ← ReadByte; _ ← modify (set_ModRM m); mret m.

(** The groups whose instruction [ModRM.reg] selects. *)
Definition PrimaryGroup (Info : X86InstInfo) : D bool :=
  m ← ReadModRM;
  let Op := OPD_primary (InfoType Info) (MoreBytes Info) (modrm_reg m) in
  e ← entry PrimaryInstGroupOps Op; NormalOp e Op no_header.

Definition RegToField : list Z := [255; 0; 1; 2; 255; 255; 255; 3].
Definition SecondaryGroup (Info : X86InstInfo) : D bool :=
  d ← get_state;
  let PrefixType := if LastEscapePrefix d =? 0xF3 then PF_F3 else if LastEscapePrefix d =? 0xF2 then PF_F2
    else if LastEscapePrefix d =? 0x66 then PF_66 else PF_NONE in
  m ← ReadModRM;
  let LocalOp := OPD_secondary (InfoType Info) PrefixType (modrm_reg m) in
  e ← entry SecondInstGroupOps LocalOp;
  if InfoType (fst e) =? TYPE_SECOND_GROUP_MODRM then
    Field ← lift (deref (RegToField !! Z.to_nat (modrm_reg m)));
    _ ← check (negb (Field =? 255));
    let LocalOp := OPD_modrm Field (modrm_rm m) in
    e ← entry SecondModRMTableOps LocalOp; NormalOp e LocalOp no_header
  else NormalOp e LocalOp no_header.

Definition X87 (Op : Z) : D bool :=
  m ← ReadModRM;
  let X87Op := Z.lor (Z.shiftl (Op - 0xD8) 8) m in
  e ← entry X87Ops X87Op; NormalOp e X87Op no_header.

Definition VEX_instruction (pp map_select : Z) (options : DecodedHeader) : D bool :=
  VEXOp ← ReadByte;
  let Op := OPD_VEX map_select pp VEXOp in
  e ← entry VEXTableOps Op;
  let Type_ := InfoType (fst e) in
  if (TYPE_VEX_GROUP_12 <=? Type_) && (Type_ <=? TYPE_VEX_GROUP_17) then
    m ← ReadModRM;
    let Op := OPD_VEX_group Type_ pp (modrm_reg m) in
    e ← entry VEXTableGroupOps Op; NormalOp e Op options
  else NormalOp e Op options.

Definition VEX (Op : Z) : D bool :=
  Byte1 ← ReadByte;
  _ ← (if Z.land Byte1 128 =? 0 then _ ← check Is64BitMode; or_Flags FLAG_REX_XGPR_R else mret tt);
  if Op =? 0xC5 then
    VEX_instruction (Z.land Byte1 3) 1 (mkHeader (15 - Z.shiftr (Z.land Byte1 120) 3) false)
  else
    Byte2 ← ReadByte;
    let map_select := Z.land Byte1 31 in
    _ ← (if Z.land Byte1 64 =? 0 then _ ← check Is64BitMode; or_Flags FLAG_REX_XGPR_X else mret tt);
    _ ← (if Is64BitMode && (Z.land Byte1 32 =? 0) then or_Flags FLAG_REX_XGPR_B else mret tt);
    if (1 <=? map_select) && (map_select <=? 3) then
      VEX_instruction (Z.land Byte2 3) map_select (mkHeader (15 - Z.shiftr (Z.land Byte2 120) 3) (negb (Z.land Byte2 128 =? 0)))
    else mret false.

Definition EVEX : D bool :=
  _ ← ReadByte; _ ← ReadByte; _ ← ReadByte;
  EVEXOp ← ReadByte;
  e ← entry EVEXTableOps EVEXOp; NormalOp e EVEXOp no_header.

Definition NormalOpHeader (place : X86InstInfo * (TableId * Z)) (Op : Z) : D bool :=
  let Info := fst place in
  let Type_ := InfoType Info in
  _ ← modify (set_OP Op);
  _ ← modify (set_TableInfo (Some (snd place)));
  if refused Info then mret false
  else
    _ ← check (negb (Type_ =? TYPE_REX_PREFIX));
    if (TYPE_GROUP_1 <=? Type_) && (Type_ <=? TYPE_GROUP_11) then PrimaryGroup Info
    else if (TYPE_GROUP_6 <=? Type_) && (Type_ <=? TYPE_GROUP_P) then SecondaryGroup Info
    else if Type_ =? TYPE_X87_TABLE_PREFIX then X87 Op
    else if Type_ =? TYPE_VEX_TABLE_PREFIX then VEX Op
    else if Type_ =? TYPE_GROUP_EVEX then EVEX
    else NormalOp place Op no_header.

Definition table_header (id : TableId) (i Op : Z) : D bool := e ← entry id i; NormalOpHeader e Op.

(** *** Escapes and prefixes *)

(** [3DNow!]: the opcode follows the operands. *)
Definition Escape_3DNow : D bool :=
  m ← ReadModRM;
  _ ← (if negb (modrm_mod m =? 3) then o ← DecodeModRM_Disp m; set_operand (AtSrc 0) o else mret tt);
  LocalOp ← ReadByte;
  table_header DDDNowOps LocalOp LocalOp.

Definition Escape_38 : D bool :=
  Flags ← get_Flags;
  let Prefix := Z.lor (Z.lor (if flag_set Flags FLAG_OPERAND_SIZE then PF_38_66 else PF_38_NONE)
                             (if flag_set Flags FLAG_REPNE_PREFIX then PF_38_F2 else 0))
                      (if flag_set Flags FLAG_REP_PREFIX then PF_38_F3 else 0) in
  b ← ReadByte;
  let LocalOp := OPD_0F38 Prefix b in table_header H0F38TableOps LocalOp LocalOp.

Definition Escape_3A : D bool :=
  Flags ← get_Flags; d ← get_state;
  let Prefix := Z.lor (if LastEscapePrefix d =? 0x66 then PF_3A_66 else PF_3A_NONE)
                      (if flag_set Flags FLAG_REX_WIDENING then PF_3A_REX else 0) in
  b ← ReadByte;
  let LocalOp := Z.lor (Z.shiftl Prefix 8) b in table_header H0F3ATableOps LocalOp LocalOp.

(** The last of the prefixes [66], [F2] and [F3] selects the table. *)
Definition Escape_TwoByte (EscapeOp : Z) : D bool :=
  e ← entry SecondBaseOps EscapeOp; d ← get_state;
  if has_flag (InfoFlags (fst e)) FLAGS_NO_OVERLAY then NormalOpHeader e EscapeOp
  else if LastEscapePrefix d =? 0xF3 then
    _ ← clear_Flags FLAG_REP_PREFIX; table_header RepModOps EscapeOp EscapeOp
  else if LastEscapePrefix d =? 0xF2 then
    _ ← clear_Flags FLAG_REPNE_PREFIX; table_header RepNEModOps EscapeOp EscapeOp
  else if (LastEscapePrefix d =? 0x66) && negb (has_flag (InfoFlags (fst e)) FLAGS_NO_OVERLAY66) then
    _ ← clear_Flags FLAG_OPERAND_SIZE;
    _ ← modify (fun d => set_Flags (PopOpAddrIf (OpFlags (Inst d)) FLAG_OPERAND_SIZE_LAST) d);
    table_header OpSizeModOps EscapeOp EscapeOp
  else NormalOpHeader e EscapeOp.

Definition Escape : D bool :=
  EscapeOp ← ReadByte;
  if EscapeOp =? 0x0F then Escape_3DNow
  else if EscapeOp =? 0x38 then Escape_38
  else if EscapeOp =? 0x3A then Escape_3A
  else Escape_TwoByte EscapeOp.

Definition escape_prefix (Op flag : Z) : D unit := _ ← or_Flags flag; modify (set_LastEscapePrefix Op).
Definition push_opaddr (flag : Z) : D unit := modify (fun d => set_Flags (PushOpAddr (OpFlags (Inst d)) flag) d).
Definition segment_32 (flag : Z) : D unit := if Is64BitMode then mret tt else or_Flags flag.

(** The prefixes that are cases of their own. *)
Definition legacy_prefix (Op : Z) : option (D unit) :=
  if Op =? 0x66 then Some (_ ← escape_prefix Op FLAG_OPERAND_SIZE; push_opaddr FLAG_OPERAND_SIZE_LAST)
  else if Op =? 0x67 then Some (or_Flags FLAG_ADDRESS_SIZE)
  else if Op =? 0x26 then Some (segment_32 FLAG_ES_PREFIX)
  else if Op =? 0x2E then Some (segment_32 FLAG_CS_PREFIX)
  else if Op =? 0x36 then Some (segment_32 FLAG_SS_PREFIX)
  else if Op =? 0x3E then Some (segment_32 FLAG_DS_PREFIX)
  else if Op =? 0xF0 then Some (or_Flags FLAG_LOCK)
  else if Op =? 0xF2 then Some (escape_prefix Op FLAG_REPNE_PREFIX)
  else if Op =? 0xF3 then Some (escape_prefix Op FLAG_REP_PREFIX)
  else if Op =? 0x64 then Some (or_Flags FLAG_FS_PREFIX)
  else if Op =? 0x65 then Some (or_Flags FLAG_GS_PREFIX)
  else None.

Definition REX_prefix (Op : Z) : D unit :=
  let bit (b : Z) (f : D unit) : D unit := if Z.land Op b =? 0 then mret tt else f in
  _ ← check Is64BitMode;
  _ ← or_Flags FLAG_REX_PREFIX;
  _ ← bit 8 (_ ← or_Flags FLAG_REX_WIDENING; push_opaddr FLAG_WIDENING_SIZE_LAST);
  _ ← bit 1 (or_Flags FLAG_REX_XGPR_B);
  _ ← bit 2 (or_Flags FLAG_REX_XGPR_X);
  bit 4 (or_Flags FLAG_REX_XGPR_R).

(** One round of the loop: a result, or another prefix was read. *)
Definition decode_round : D (option bool) :=
  d ← get_state;
  if MAX_INST_SIZE <=? InstructionSize d then mret (Some false)
  else
    Op ← ReadByte;
    if Op =? 0x0F then r ← Escape; mret (Some r)
    else match legacy_prefix Op with
    | Some p => _ ← p; mret None
    | None =>
        e ← entry BaseOps Op;
        if InfoType (fst e) =? TYPE_REX_PREFIX then _ ← REX_prefix Op; mret None
        else r ← NormalOpHeader e Op; mret (Some r)
    end.

Fixpoint decode_loop (fuel : nat) : D bool :=
  match fuel with
  | O => lift Undef
  | S fuel => r ← decode_round; match r with Some r => mret r | None => decode_loop fuel end
  end.

(** Each round but the last reads a byte of at most fifteen. *)
Definition DecodeInstruction (PC : Z) : outcome (bool * Decoding) := decode_loop 16 (cleared PC).
End Decoder.
