(* ===== verification/FrontendLogic.v ===== *)
(** * The decoder: what a decoding reads

    A decoding depends only on the bytes it consumes, which are at most fifteen, and
    it keeps the address of its instruction. *)
From Stdlib Require Import ZArith Lia Bool.
From stdpp Require Import base gmap list numbers option.
From S2P Require Import Prelude Flags Dispatch X86Tables X86TablesExt Frontend.
#[local] Open Scope Z_scope.

(** ** Reading from two memories *)

Section Same.
Variables (Is64BitMode : bool) (T : Tables) (Mem Mem' : gmap Z Z) (p : CodePointer).
Implicit Types d : Decoding.

Definition same_code (lo hi : Z) : Prop :=
  forall i, lo <= i < hi -> read_code Mem (advance p i) 1 = read_code Mem' (advance p i) 1.

(** From [d] the decoding went on to [d']. *)
Record extends d d' : Prop := {
  extends_size : InstructionSize d <= InstructionSize d';
  extends_max : InstructionSize d <= MAX_INST_SIZE -> InstructionSize d' <= MAX_INST_SIZE;
  extends_PC : PC (Inst d') = PC (Inst d)
}.

(** [m] and [m'] read the two memories: what [m] consumed decides what [m'] does. *)
Definition same {A} (m m' : D A) : Prop :=
  forall d a d', m d = Ok (a, d') ->
    extends d d' /\ (same_code (InstructionSize d) (InstructionSize d') -> m' d = Ok (a, d')).

Lemma extends_refl d : extends d d.
Proof. constructor; lia || auto. Qed.
Lemma extends_trans d1 d2 d3 : extends d1 d2 -> extends d2 d3 -> extends d1 d3.
Proof. intros [H1 H2 H3] [H4 H5 H6]. constructor; [lia|auto|congruence]. Qed.

Lemma same_ret {A} (a : A) : same (mret a) (mret a).
Proof. intros d a' d' H. injection H as <- <-. split; [apply extends_refl|reflexivity]. Qed.

Lemma same_bind {A C} (m m' : D A) (f f' : A -> D C) :
  same m m' -> (forall a, same (f a) (f' a)) -> same (m ≫= f) (m' ≫= f').
Proof.
  intros Hm Hf d c d' H. unfold mbind, M_bind in *. destruct (m d) as [[a d1]| |] eqn:E; try discriminate H.
  destruct (Hm d a d1 E) as [H1 E1]. destruct (Hf a d1 c d' H) as [H2 E2].
  split; [exact (extends_trans _ _ _ H1 H2)|]. intros Hs.
  rewrite E1; [apply E2|]; intros i Hi; apply Hs; destruct H1, H2; lia.
Qed.

Lemma same_get : same get_state get_state.
Proof. intros d a d' H. injection H as <- <-. split; [apply extends_refl|reflexivity]. Qed.

Lemma same_modify f : (forall d, InstructionSize (f d) = InstructionSize d /\ PC (Inst (f d)) = PC (Inst d)) ->
  same (modify f) (modify f).
Proof.
  intros Hf d a d' H. injection H as <- <-. destruct (Hf d) as [H1 H2]. split; [|reflexivity].
  constructor; rewrite ?H1; auto; lia.
Qed.

Lemma same_lift {A} (o : outcome A) : same (lift o) (lift o).
Proof.
  intros d a d' H. unfold lift in *. destruct o; try discriminate H. injection H as <- <-.
  split; [apply extends_refl|reflexivity].
Qed.
Lemma same_check b : same (check b) (check b).
Proof. apply same_lift. Qed.

Lemma same_ReadByte : same (ReadByte Mem p) (ReadByte Mem' p).
Proof.
  intros d a d' H. unfold ReadByte, mbind, M_bind, get_state, lift, check, modify in *. cbn in *.
  destruct (read_code Mem _ _) as [x|] eqn:E; [|discriminate H]. cbn in H.
  destruct (Z.ltb_spec (InstructionSize d) MAX_INST_SIZE); [|discriminate H]. cbn in H. injection H as <- <-.
  split; [constructor; cbn; lia || auto|]. intros Hs. rewrite <- Hs, E by (destruct d; cbn; lia). reflexivity.
Qed.

(** What the successive bytes are, when reading them succeeds. *)
Lemma read_bytes_Ok n d u d' : read_bytes Mem p n d = Ok (u, d') ->
  d' = set_size (InstructionSize d + Z.of_nat n) d.
Proof.
  revert d. induction n as [|n IH]; intros d H; cbn in H.
  - injection H as _ <-. rewrite Z.add_0_r. destruct d. reflexivity.
  - unfold ReadByte, mbind, M_bind, get_state, lift, check, modify in H. cbn in H.
    destruct (read_code _ _ _); [|discriminate H]. cbn in H.
    destruct (_ <? _); [|discriminate H]. cbn in H. apply IH in H. rewrite H. unfold set_size. cbn [InstructionSize]. f_equal; lia.
Qed.

Lemma advance_advance q i j : advance (advance q i) j = advance q (i + j).
Proof. destruct q; cbn; f_equal; lia. Qed.

Lemma load_same n m m' a : (forall i, 0 <= i < Z.of_nat n -> load 1 m (a + i) = load 1 m' (a + i)) -> load n m a = load n m' a.
Proof.
  revert a. induction n as [|n IH]; intros a H; [reflexivity|]. cbn [load].
  pose proof (H 0 ltac:(lia)) as H0. rewrite Z.add_0_r in H0. cbn in H0.
  rewrite (IH (a + 1)) by (intros i Hi; replace (a + 1 + i) with (a + (1 + i)) by lia; apply H; lia).
  destruct (m !! a), (m' !! a); cbn in *; try discriminate H0; try reflexivity.
  destruct (load n m' (a + 1)); [|reflexivity]. cbn. injection H0 as E. f_equal. rewrite !Z.add_0_r in E. congruence.
Qed.

Lemma read_code_same n q : (forall i, 0 <= i < Z.of_nat n -> read_code Mem (advance q i) 1 = read_code Mem' (advance q i) 1) ->
  read_code Mem q n = read_code Mem' q n.
Proof. destruct q; intros H; [apply load_same; exact H|reflexivity]. Qed.

Lemma same_ReadData Size : same (ReadData Mem p Size) (ReadData Mem' p Size).
Proof.
  intros d a d' H. unfold ReadData in *.
  destruct (negb (Size =? 0) && (Size <=? 8)) eqn:Hc; [|discriminate H].
  unfold check, throw_unless in H.
  unfold mbind, M_bind, get_state, lift in H. cbn in H.
  destruct (read_code Mem _ _) as [x|] eqn:E; [|discriminate H]. cbn in H.
  destruct (read_bytes Mem p _ d) as [[u d1]| |] eqn:Eb; try discriminate H. injection H as <- <-.
  assert (same (read_bytes Mem p (Z.to_nat Size)) (read_bytes Mem' p (Z.to_nat Size))) as Hb.
  { clear. induction (Z.to_nat Size) as [|n IH]; [apply same_ret|]. cbn. apply same_bind; [apply same_ReadByte|auto]. }
  destruct (Hb _ _ _ Eb) as [He Hs]. split; [exact He|]. intros Hcode.
  pose proof (read_bytes_Ok _ _ _ _ Eb) as E1. unfold mbind, M_bind, check, throw_unless, lift, get_state.
  rewrite <- (read_code_same _ (advance p (InstructionSize d))), E.
  - cbn. rewrite (Hs Hcode). reflexivity.
  - intros i Hi. rewrite advance_advance. apply Hcode. rewrite E1. cbn. lia.
Qed.

(** ** The whole decoder *)

Create HintDb same_code.
#[local] Hint Resolve same_ret same_get same_check same_lift same_ReadByte same_ReadData : same_code.
#[local] Ltac kept := apply same_modify; intros; split; reflexivity.
(** One step along the structure of two programs that differ in the memory only. *)
#[local] Ltac same_step :=
  first [ solve [auto with same_code nocore]
        | apply same_bind; [|intros]
        | kept
        | match goal with |- same _ (match ?x with _ => _ end) => destruct x end
        | progress cbv zeta ].
#[local] Ltac same_tac := repeat same_step.

Lemma same_get_Flags : same get_Flags get_Flags.
Proof. unfold get_Flags. same_tac. Qed.
Lemma same_or_Flags f : same (or_Flags f) (or_Flags f).
Proof. kept. Qed.
Lemma same_clear_Flags f : same (clear_Flags f) (clear_Flags f).
Proof. kept. Qed.
Lemma same_get_operand s : same (get_operand s) (get_operand s).
Proof. unfold get_operand. same_tac. Qed.
#[local] Hint Resolve same_get_Flags same_or_Flags same_clear_Flags same_get_operand : same_code.
Lemma same_set_operand s o : same (set_operand s o) (set_operand s o).
Proof. unfold set_operand. same_tac. Qed.
Lemma same_REX_bit f : same (REX_bit f) (REX_bit f).
Proof. unfold REX_bit. same_tac. Qed.
Lemma same_map_gpr X b i : same (map_gpr X b i) (map_gpr X b i).
Proof. apply same_lift. Qed.
#[local] Hint Resolve same_set_operand same_REX_bit same_map_gpr : same_code.

Lemma same_DecodeModRM_16 m : same (DecodeModRM_16 Mem p m) (DecodeModRM_16 Mem' p m).
Proof. unfold DecodeModRM_16. same_tac. Qed.
Lemma same_DecodeSIB m : same (DecodeSIB Mem p m) (DecodeSIB Mem' p m).
Proof. unfold DecodeSIB. same_tac. Qed.
#[local] Hint Resolve same_DecodeModRM_16 same_DecodeSIB : same_code.
Lemma same_DecodeModRM_64 m : same (DecodeModRM_64 Mem p m) (DecodeModRM_64 Mem' p m).
Proof. unfold DecodeModRM_64. same_tac. Qed.
#[local] Hint Resolve same_DecodeModRM_64 : same_code.
Lemma same_DecodeModRM_Disp m : same (DecodeModRM_Disp Is64BitMode Mem p m) (DecodeModRM_Disp Is64BitMode Mem' p m).
Proof. unfold DecodeModRM_Disp, Has16BitAddressing. same_tac. Qed.
#[local] Hint Resolve same_DecodeModRM_Disp : same_code.

Lemma same_ModRMOperand g n b1 b2 b3 b4 b5 b6 b7 b8 :
  same (ModRMOperand Is64BitMode Mem p g n b1 b2 b3 b4 b5 b6 b7 b8) (ModRMOperand Is64BitMode Mem' p g n b1 b2 b3 b4 b5 b6 b7 b8).
Proof. unfold ModRMOperand. same_tac. Qed.
#[local] Hint Resolve same_ModRMOperand : same_code.
Lemma same_vex_register s h b : same (vex_register s h b) (vex_register s h b).
Proof. unfold vex_register. same_tac. Qed.
#[local] Hint Resolve same_vex_register : same_code.
Lemma same_DecodeSources f o b1 b2 b3 : same (DecodeSources Is64BitMode Mem p f o b1 b2 b3) (DecodeSources Is64BitMode Mem' p f o b1 b2 b3).
Proof. unfold DecodeSources, DecodeModRMOperands, DecodeNamedSources. same_tac. Qed.
Lemma same_DecodeLiteral f b s n : same (DecodeLiteral Mem p f b s n) (DecodeLiteral Mem' p f b s n).
Proof. unfold DecodeLiteral. same_tac. Qed.
Lemma same_DecodeSizes f b1 b2 : same (DecodeSizes Is64BitMode f b1 b2) (DecodeSizes Is64BitMode f b1 b2).
Proof. unfold DecodeSizes. same_tac. Qed.
Lemma same_DecodeFixedDest f : same (DecodeFixedDest f) (DecodeFixedDest f).
Proof. unfold DecodeFixedDest. same_tac. Qed.
Lemma same_DecodeRegInByte f o c b1 b2 : same (DecodeRegInByte f o c b1 b2) (DecodeRegInByte f o c b1 b2).
Proof. unfold DecodeRegInByte. same_tac. Qed.
#[local] Hint Resolve same_DecodeSources same_DecodeLiteral same_DecodeSizes same_DecodeFixedDest same_DecodeRegInByte : same_code.

Lemma same_NormalOp e o h : same (NormalOp Is64BitMode Mem p e o h) (NormalOp Is64BitMode Mem' p e o h).
Proof. unfold NormalOp. same_tac. Qed.
Lemma same_ReadModRM : same (ReadModRM Mem p) (ReadModRM Mem' p).
Proof. unfold ReadModRM. same_tac. Qed.
Lemma same_entry id i : same (entry T id i) (entry T id i).
Proof. unfold entry. same_tac. Qed.
#[local] Hint Resolve same_NormalOp same_ReadModRM same_entry : same_code.

Lemma same_NormalOpHeader e o : same (NormalOpHeader Is64BitMode T Mem p e o) (NormalOpHeader Is64BitMode T Mem' p e o).
Proof. unfold NormalOpHeader, PrimaryGroup, SecondaryGroup, X87, VEX, EVEX, VEX_instruction. same_tac. Qed.
#[local] Hint Resolve same_NormalOpHeader : same_code.
Lemma same_Escape : same (Escape Is64BitMode T Mem p) (Escape Is64BitMode T Mem' p).
Proof. unfold Escape, Escape_3DNow, Escape_38, Escape_3A, Escape_TwoByte, table_header. same_tac. Qed.
Lemma same_REX_prefix o : same (REX_prefix Is64BitMode o) (REX_prefix Is64BitMode o).
Proof. unfold REX_prefix, push_opaddr. same_tac. Qed.
Lemma same_legacy_prefix o f : legacy_prefix Is64BitMode o = Some f -> same f f.
Proof.
  unfold legacy_prefix, escape_prefix, push_opaddr, segment_32.
  repeat (destruct (o =? _); [intros E; injection E as <-; same_tac|]). discriminate.
Qed.
#[local] Hint Resolve same_Escape same_REX_prefix : same_code.
Lemma same_decode_round : same (decode_round Is64BitMode T Mem p) (decode_round Is64BitMode T Mem' p).
Proof.
  unfold decode_round. apply same_bind; [apply same_get|intros d]. destruct (MAX_INST_SIZE <=? _); [apply same_ret|].
  apply same_bind; [apply same_ReadByte|intros Op]. destruct (Op =? _); [same_tac|].
  destruct (legacy_prefix Is64BitMode Op) as [f|] eqn:E; [pose proof (same_legacy_prefix _ _ E)|]; same_tac.
Qed.
Lemma same_decode_loop n : same (decode_loop Is64BitMode T Mem p n) (decode_loop Is64BitMode T Mem' p n).
Proof. induction n as [|n IH]; cbn [decode_loop]; [apply same_lift|]. apply same_bind; [apply same_decode_round|]. intros [r|]; same_tac. Qed.

(** Decoding consumes at most fifteen bytes, and they decide it. *)
Lemma DecodeInstruction_same PC0 r d : DecodeInstruction Is64BitMode T Mem p PC0 = Ok (r, d) ->
  PC (Inst d) = PC0 /\ 0 <= InstructionSize d <= MAX_INST_SIZE /\
  (same_code 0 (InstructionSize d) -> DecodeInstruction Is64BitMode T Mem' p PC0 = Ok (r, d)).
Proof.
  intros H. destruct (same_decode_loop 16 _ _ _ H) as [[H1 H2 H3] Hs]. cbn in H1, H2, H3.
  split; [exact H3|]. split; [|exact Hs]. split; [exact H1|]. apply H2. unfold MAX_INST_SIZE. lia.
Qed.
End Same.

(** ** The size of an instruction *)

Section Sized.
Variables (Is64BitMode : bool) (T : Tables) (Mem : gmap Z Z) (p : CodePointer).

(** An instruction that was decoded has the size that was read. *)
Definition sized_when (r : bool) (d : Decoding) : Prop := r = true -> InstSize (Inst d) = InstructionSize d.
Definition leaves {A} (Q : A -> Decoding -> Prop) (m : D A) : Prop := forall d a d', m d = Ok (a, d') -> Q a d'.
Definition sizes : D bool -> Prop := leaves sized_when.

Lemma leaves_bind {A C} (P : A -> Prop) (Q : C -> Decoding -> Prop) (m : D A) (f : A -> D C) :
  leaves (fun a _ => P a) m -> (forall a, P a -> leaves Q (f a)) -> leaves Q (m ≫= f).
Proof.
  intros Hm Hf d c d' H. unfold mbind, M_bind in H. destruct (m d) as [[a d1]| |] eqn:E; try discriminate H.
  exact (Hf a (Hm _ _ _ E) _ _ _ H).
Qed.
Lemma leaves_then {A C} (Q : C -> Decoding -> Prop) (m : D A) (f : A -> D C) : (forall a, leaves Q (f a)) -> leaves Q (m ≫= f).
Proof. intros Hf. apply (leaves_bind (fun _ => True)); [exact (fun _ _ _ _ => Logic.I)|auto]. Qed.
Lemma sizes_false : sizes (mret false).
Proof. intros d r d' H. injection H as <- <-. discriminate. Qed.
Lemma sizes_done : sizes (d ← get_state; _ ← modify (set_InstSize (InstructionSize d)); mret true).
Proof. intros d r d' H. injection H as <- <-. intros _. reflexivity. Qed.

#[local] Ltac sizes_step :=
  first [ exact sizes_done | exact sizes_false | assumption
        | match goal with H : forall _, _ |- _ => apply H end
        | apply leaves_then; intros
        | match goal with |- leaves _ (match ?x with _ => _ end) => destruct x
          | |- sizes (match ?x with _ => _ end) => destruct x end
        | progress cbv zeta ].
Lemma sizes_NormalOp e o h : sizes (NormalOp Is64BitMode Mem p e o h).
Proof. unfold NormalOp. repeat sizes_step. Qed.
Lemma sizes_NormalOpHeader e o : sizes (NormalOpHeader Is64BitMode T Mem p e o).
Proof. pose proof sizes_NormalOp. unfold NormalOpHeader, PrimaryGroup, SecondaryGroup, X87, VEX, EVEX, VEX_instruction. repeat sizes_step. Qed.
Lemma sizes_Escape : sizes (Escape Is64BitMode T Mem p).
Proof. pose proof sizes_NormalOpHeader. unfold Escape, Escape_3DNow, Escape_38, Escape_3A, Escape_TwoByte, table_header. repeat sizes_step. Qed.

Definition round_sized (o : option bool) (d : Decoding) : Prop := match o with Some r => sized_when r d | None => True end.
Lemma round_some (m : D bool) : sizes m -> leaves round_sized (r ← m; mret (Some r)).
Proof.
  intros Hm d o d' H. unfold mbind, M_bind in H. destruct (m d) as [[r d1]| |] eqn:E; try discriminate H.
  injection H as <- <-. exact (Hm _ _ _ E).
Qed.
Lemma round_none (m : D unit) : leaves round_sized (_ ← m; mret None).
Proof. apply leaves_then. intros _ d o d' H. injection H as <- _. exact Logic.I. Qed.
Lemma sizes_round : leaves round_sized (decode_round Is64BitMode T Mem p).
Proof.
  unfold decode_round. apply leaves_then. intros d. destruct (_ <=? _).
  - intros d1 o d' H. injection H as <- _. discriminate.
  - apply leaves_then. intros Op. destruct (Op =? _); [exact (round_some _ sizes_Escape)|].
    destruct (legacy_prefix _ Op); [apply round_none|]. apply leaves_then. intros e.
    destruct (_ =? _); [apply round_none|exact (round_some _ (sizes_NormalOpHeader _ _))].
Qed.
Lemma sizes_decode_loop n : sizes (decode_loop Is64BitMode T Mem p n).
Proof.
  induction n as [|n IH]; cbn [decode_loop]; [discriminate|]. intros d r d' H. unfold mbind, M_bind in H.
  destruct (decode_round _ _ _ _ d) as [[[r'|] d1]| |] eqn:E; try discriminate H; [|exact (IH _ _ _ H)].
  injection H as -> ->. exact (sizes_round _ _ _ E).
Qed.

Lemma DecodeInstruction_sized PC0 d : DecodeInstruction Is64BitMode T Mem p PC0 = Ok (true, d) ->
  InstSize (Inst d) = InstructionSize d.
Proof. intros H. exact (sizes_decode_loop _ _ _ _ H eq_refl). Qed.
End Sized.
