(* ===== verification/FrontendTotal.v ===== *)
(** * The decoder: it always answers

    With the tables of a 64-bit guest no check fails and no access is out of bounds,
    whatever the bytes, provided that no more than four prefixes precede the
    instruction. *)
From Stdlib Require Import ZArith Lia Bool.
From stdpp Require Import base gmap list numbers option.
From S2P Require Import Prelude Flags Dispatch X86Tables X86TablesExt Frontend FrontendLogic.
#[local] Open Scope Z_scope.
#[local] Opaque VSyscallData.

(** ** The tables *)

(** The most bytes that the operands of an entry take, after [ModRM]. *)
Definition literal_max (Info : X86InstInfo) : Z :=
  MoreBytes Info * (if has_flag (InfoFlags Info) FLAGS_DISPLACE_SIZE_MUL_2 then 2 else 1).
Definition operand_bytes (rm : Z) (Info : X86InstInfo) : Z :=
  (if has_flag (InfoFlags Info) FLAGS_MODRM then rm else 0) + literal_max Info.
Definition sources (Info : X86InstInfo) : Z :=
  let f := InfoFlags Info in
  Z.b2z (has_flag f FLAGS_VEX_1ST_SRC) + Z.b2z (has_flag f FLAGS_MODRM) + Z.b2z (has_flag f FLAGS_VEX_2ND_SRC) +
  Z.b2z (HAS_NON_XMM_SUBFLAG f FLAGS_SF_SRC_RAX || HAS_NON_XMM_SUBFLAG f FLAGS_SF_SRC_RCX).

(** An entry that [NormalOp] can decode in [k] bytes. *)
Definition plain_ok (rm k : Z) (Info : X86InstInfo) : bool :=
  refused Info ||
  (negb ((TYPE_GROUP_1 <=? InfoType Info) && (InfoType Info <=? TYPE_GROUP_P)) &&
   (0 <=? MoreBytes Info) && (literal_max Info <=? 8) && (operand_bytes rm Info <=? k) && (sources Info <=? 2) &&
   negb (HAS_NON_XMM_SUBFLAG (InfoFlags Info) FLAGS_SF_REX_IN_BYTE && has_flag (InfoFlags Info) FLAGS_MODRM)).

Definition is_group (lo hi t : Z) : bool := (lo <=? t) && (t <=? hi).
(** An entry that [NormalOpHeader] can decode: it may lead to another table. *)
Definition header_ok (k : Z) (Info : X86InstInfo) : bool :=
  let t := InfoType Info in
  refused Info ||
  (negb (t =? TYPE_REX_PREFIX) &&
   (if is_group TYPE_GROUP_1 TYPE_GROUP_11 t then (0 <=? MoreBytes Info) && (MoreBytes Info <? 8) && (9 <=? k)
    else if is_group TYPE_GROUP_6 TYPE_GROUP_P t then 8 <=? k
    else if (t =? TYPE_X87_TABLE_PREFIX) || (t =? TYPE_VEX_TABLE_PREFIX) || (t =? TYPE_GROUP_EVEX) then 9 <=? k
    else plain_ok 5 k Info)).

(** What is checked of the entries of each array; a group by [ModRM] leaves the
    register field in the index. *)
Definition entry_ok (id : TableId) (i : Z) (Info : X86InstInfo) : bool :=
  match id with
  | BaseOps => ((InfoType Info =? TYPE_REX_PREFIX) && (0x40 <=? i) && (i <=? 0x4F)) ||
      (header_ok 9 Info && (negb (InfoType Info =? TYPE_X87_TABLE_PREFIX) || (0xD8 <=? i) && (i <=? 0xDF)))
  | SecondBaseOps | RepModOps | RepNEModOps | OpSizeModOps =>
      header_ok 8 Info && negb ((InfoType Info =? TYPE_X87_TABLE_PREFIX) || (InfoType Info =? TYPE_VEX_TABLE_PREFIX) || (InfoType Info =? TYPE_GROUP_EVEX))
  | PrimaryInstGroupOps => plain_ok 5 9 Info
  | SecondInstGroupOps =>
      if InfoType Info =? TYPE_SECOND_GROUP_MODRM then
        match RegToField !! Z.to_nat (Z.land i 7) with Some f => (0 <=? f) && (f <? 4) | None => false end
      else plain_ok 5 8 Info
  | SecondModRMTableOps => plain_ok 5 8 Info
  | X87Ops => plain_ok 5 9 Info
  | DDDNowOps => plain_ok 0 2 Info && negb (is_group TYPE_GROUP_1 TYPE_GROUP_P (InfoType Info)) &&
      (refused Info || ((InfoType Info =? TYPE_INST) && negb (has_flag (InfoFlags Info) FLAGS_SF_MOD_DST) && negb (has_flag (InfoFlags Info) FLAGS_VEX_1ST_SRC)))
  | H0F38TableOps | H0F3ATableOps => plain_ok 5 7 Info && (refused Info || (InfoType Info =? TYPE_INST))
  | VEXTableOps => is_group TYPE_VEX_GROUP_12 TYPE_VEX_GROUP_17 (InfoType Info) || plain_ok 5 6 Info
  | VEXTableGroupOps => plain_ok 5 6 Info
  | EVEXTableOps => plain_ok 5 5 Info
  end.

Definition table_ids : list TableId :=
  [BaseOps; SecondBaseOps; RepModOps; RepNEModOps; OpSizeModOps; PrimaryInstGroupOps; SecondInstGroupOps;
   SecondModRMTableOps; X87Ops; DDDNowOps; H0F38TableOps; H0F3ATableOps; VEXTableOps; VEXTableGroupOps; EVEXTableOps].
Definition array_size (id : TableId) : Z :=
  match id with
  | BaseOps | SecondBaseOps | RepModOps | RepNEModOps | OpSizeModOps | DDDNowOps | EVEXTableOps => 256
  | PrimaryInstGroupOps | SecondInstGroupOps => 512
  | SecondModRMTableOps => 32
  | X87Ops | H0F38TableOps | H0F3ATableOps => 2048
  | VEXTableOps => 8192
  | VEXTableGroupOps => 128
  end.

Definition T64 : Tables := tables true.

(** The arrays fill without a duplicate, and every entry passes. *)
Lemma tables_checked :
  forallb (fun id => (table_size (T64 id) =? array_size id) &&
                     forallb (fun '(i, info) => entry_ok id i info) (map_to_list (table_map (T64 id)))) table_ids = true.
Proof. vm_compute. reflexivity. Qed.

Lemma no_info_ok id i : entry_ok id i no_info = true.
Proof. destruct id; reflexivity. Qed.

Lemma table_get_ok id i : 0 <= i < array_size id -> exists info, table_get (T64 id) i = Ok info /\ entry_ok id i info = true.
Proof.
  intros Hi. pose proof tables_checked as H. rewrite forallb_forall in H.
  assert (In id table_ids) as Hid by (destruct id; cbn; tauto). specialize (H id Hid).
  apply andb_true_iff in H as [Hs H]. apply Z.eqb_eq in Hs. rewrite forallb_forall in H.
  unfold table_get. rewrite Hs. replace ((0 <=? i) && (i <? array_size id)) with true by lia.
  generalize dependent (table_map (T64 id)). clear Hs. intros m H.
  eexists. split; [reflexivity|]. destruct (m !! i) as [info|] eqn:E; cbn; [|apply no_info_ok].
  exact (H (i, info) (proj1 (list_elem_of_In _ _) (proj2 (elem_of_map_to_list _ _ _) E))).
Qed.

(** ** Programs that answer within a number of bytes *)

Section Total.
Variables (Mem : gmap Z Z) (p : CodePointer).
(** The fifteen bytes are mapped. *)
Hypothesis mapped : forall i, 0 <= i < MAX_INST_SIZE -> is_Some (read_code Mem (advance p i) 1).
Implicit Types (d : Decoding) (k : Z).

Record well_formed d : Prop := {
  wf_size : 0 <= InstructionSize d;
  wf_sources : length (Src (Inst d)) = 3%nat;
  wf_ModRM : 0 <= ModRM d < 256;
  wf_SIB : 0 <= SIBByte d < 256
}.
(** The operand of [3DNow!] is decoded before the rest. *)
Definition predecoded d : Prop :=
  DecodedModRM d = true /\ (modrm_mod (ModRM d) = 3 \/ exists o, Src (Inst d) !! 0%nat = Some o /\ o <> OperandNothing).
(** What has been decoded stays so. *)
Definition keeps d d' : Prop := (DecodedModRM d = true -> DecodedModRM d' = true) /\ (predecoded d -> predecoded d').
Lemma keeps_refl d : keeps d d.
Proof. split; auto. Qed.
Lemma keeps_trans d1 d2 d3 : keeps d1 d2 -> keeps d2 d3 -> keeps d1 d3.
Proof. intros [H1 H2] [H3 H4]. split; auto. Qed.
#[local] Hint Resolve keeps_refl : core.
#[local] Hint Extern 1 (keeps _ _) => eapply keeps_trans; eassumption : core.
(** The bytes read, and [ModRM] while it is to come. *)
Definition measure d : Z := InstructionSize d + (if DecodedModRM d then 0 else 1).

Definition runs k {A} (m : D A) (d : Decoding) (Q : A -> Decoding -> Prop) : Prop :=
  well_formed d -> measure d + k <= MAX_INST_SIZE ->
  exists a d', m d = Ok (a, d') /\ well_formed d' /\ measure d' <= measure d + k /\
    keeps d d' /\ Q a d'.

Lemma runs_ret {A} k (a : A) d (Q : A -> Decoding -> Prop) : 0 <= k -> Q a d -> runs k (mret a) d Q.
Proof. intros Hk HQ Hw Hm. exists a, d. split; [reflexivity|]. split; [exact Hw|]. split; [lia|]. auto. Qed.

Lemma runs_bind {A C} k1 k (m : D A) (f : A -> D C) d Q : k1 <= k ->
  runs k1 m d (fun a d' => runs (k - k1) (f a) d' Q) -> runs k (m ≫= f) d Q.
Proof.
  intros Hk H Hw Hm. destruct (H Hw ltac:(lia)) as (a & d1 & E & Hw1 & Hm1 & Hp1 & H1).
  destruct (H1 Hw1 ltac:(lia)) as (c & d2 & E2 & Hw2 & Hm2 & Hp2 & HQ).
  exists c, d2. unfold mbind, M_bind. rewrite E, E2. split; [reflexivity|]. split; [exact Hw2|]. split; [lia|]. auto.
Qed.

Lemma runs_weaken {A} k k' (m : D A) d (Q Q' : A -> Decoding -> Prop) :
  runs k m d Q -> k <= k' -> (forall a d', Q a d' -> Q' a d') -> runs k' m d Q'.
Proof.
  intros H Hk HQ Hw Hm. destruct (H Hw ltac:(lia)) as (a & d' & E & Hw' & Hm' & Hp & Hq).
  exists a, d'. split; [exact E|]. split; [exact Hw'|]. split; [lia|]. auto.
Qed.

Lemma runs_get k d (Q : Decoding -> Decoding -> Prop) : 0 <= k -> Q d d -> runs k get_state d Q.
Proof. intros Hk HQ Hw Hm. exists d, d. split; [reflexivity|]. split; [exact Hw|]. split; [lia|]. auto. Qed.

Lemma runs_lift {A} k (o : outcome A) a d (Q : A -> Decoding -> Prop) : 0 <= k -> o = Ok a -> Q a d -> runs k (lift o) d Q.
Proof. intros Hk -> HQ Hw Hm. exists a, d. split; [reflexivity|]. split; [exact Hw|]. split; [lia|]. auto. Qed.

Lemma runs_check k b d (Q : unit -> Decoding -> Prop) : 0 <= k -> b = true -> Q tt d -> runs k (check b) d Q.
Proof. intros Hk -> HQ. apply (runs_lift k _ tt); auto. Qed.

(** A change of neither the size nor [ModRM] nor the sources. *)
Definition harmless (f : Decoding -> Decoding) : Prop := forall d,
  InstructionSize (f d) = InstructionSize d /\ Src (Inst (f d)) = Src (Inst d) /\ ModRM (f d) = ModRM d /\
  SIBByte (f d) = SIBByte d /\ DecodedModRM (f d) = DecodedModRM d.
Lemma runs_modify k f d (Q : unit -> Decoding -> Prop) : 0 <= k -> harmless f -> Q tt (f d) -> runs k (modify f) d Q.
Proof.
  intros Hk Hf HQ [H1 H2 H3 H4] Hm. destruct (Hf d) as (E1 & E2 & E3 & E4 & E5). exists tt, (f d).
  split; [reflexivity|]. split; [constructor; congruence|].
  unfold measure, keeps, predecoded in *. rewrite E1, E2, E3, E5. split; [lia|]. auto.
Qed.

(** ** Bytes *)

Lemma read_byte_range m q x : read_code m q 1 = Some x -> 0 <= x < 256.
Proof.
  assert (forall m' a, load 1 m' a = Some x -> 0 <= x < 256) as Hl.
  { intros m' a H. cbn in H. apply bind_Some in H as (b & _ & H). injection H as <-. rewrite Z.add_0_r. apply (uint_range 8). lia. }
  destruct q; apply Hl.
Qed.

Lemma runs_ReadByte_code k d Q : 1 <= k ->
  (forall x, read_code Mem (advance p (InstructionSize d)) 1 = Some x -> 0 <= x < 256 -> Q x (set_size (InstructionSize d + 1) d)) ->
  runs k (ReadByte Mem p) d Q.
Proof.
  intros Hk HQ [H1 H2 H3 H4] Hm. unfold measure in Hm.
  destruct (mapped (InstructionSize d)) as [x Hx]; [destruct (DecodedModRM d); lia|].
  exists x, (set_size (InstructionSize d + 1) d). unfold ReadByte, mbind, M_bind, get_state, lift, check, modify.
  rewrite Hx. cbn. replace (InstructionSize d <? MAX_INST_SIZE) with true by (destruct (DecodedModRM d); lia). cbn.
  split; [reflexivity|]. split; [constructor; cbn; lia || assumption|]. split; [unfold measure; cbn; lia|].
  split; [split; auto|]. apply (HQ _ Hx), (read_byte_range _ _ _ Hx).
Qed.
Lemma runs_ReadByte k d Q : 1 <= k ->
  (forall x, 0 <= x < 256 -> Q x (set_size (InstructionSize d + 1) d)) -> runs k (ReadByte Mem p) d Q.
Proof. intros Hk HQ. apply runs_ReadByte_code; [exact Hk|]. intros x _. apply HQ. Qed.

Lemma runs_bytes n k d (Q : unit -> Decoding -> Prop) : Z.of_nat n <= k ->
  Q tt (set_size (InstructionSize d + Z.of_nat n) d) -> runs k (read_bytes Mem p n) d Q.
Proof.
  revert k d. induction n as [|n IH]; intros k d Hk HQ; cbn [read_bytes].
  - apply runs_ret; [lia|]. rewrite Z.add_0_r in HQ. destruct d; exact HQ.
  - apply (runs_bind 1); [lia|]. apply runs_ReadByte; [lia|]. intros x _. apply IH; [lia|].
    unfold set_size in *. cbn. replace (InstructionSize d + 1 + Z.of_nat n) with (InstructionSize d + Z.of_nat (S n)) by lia. exact HQ.
Qed.

Lemma load_mapped n m a : (forall i, 0 <= i < Z.of_nat n -> is_Some (load 1 m (a + i))) -> is_Some (load n m a).
Proof.
  revert a. induction n as [|n IH]; intros a H; [eexists; reflexivity|]. cbn [load].
  destruct (H 0 ltac:(lia)) as [x Hx]. rewrite Z.add_0_r in Hx. cbn in Hx. destruct (m !! a); [|discriminate Hx]. cbn.
  destruct (IH (a + 1)) as [y ->]; [|eexists; reflexivity].
  intros i Hi. replace (a + 1 + i) with (a + (1 + i)) by lia. apply H. lia.
Qed.

Lemma runs_ReadData Size k d Q : 1 <= Size <= 8 -> Size <= k ->
  (forall x, Q x (set_size (InstructionSize d + Size) d)) -> runs k (ReadData Mem p Size) d Q.
Proof.
  intros Hs Hk HQ Hw Hm.
  assert (is_Some (read_code Mem (advance p (InstructionSize d)) (Z.to_nat Size))) as [x Hx].
  { pose proof (wf_size _ Hw). unfold measure in Hm.
    assert (forall i, 0 <= i < Size -> is_Some (read_code Mem (advance p (InstructionSize d + i)) 1)) as Hmap.
    { intros i Hi. apply mapped. destruct (DecodedModRM d); lia. }
    destruct p; unfold read_code, advance in *; apply load_mapped; intros i Hi; rewrite <- Z.add_assoc; apply Hmap; lia. }
  revert Hw Hm. unfold ReadData. apply (runs_bind 0); [lia|]. apply runs_check; [lia|lia|].
  apply (runs_bind 0); [lia|]. apply runs_get; [lia|]. apply (runs_bind 0); [lia|].
  rewrite Hx. apply (runs_lift _ _ x); [lia|reflexivity|].
  apply (runs_bind Size); [lia|]. apply runs_bytes; [lia|]. apply runs_ret; [lia|].
  rewrite Z2Nat.id by lia. apply HQ.
Qed.

(** ** Operands *)

Lemma deref_lookup {A} (l : list A) i : 0 <= i < Z.of_nat (length l) -> exists a, deref (l !! Z.to_nat i) = Ok a.
Proof. intros Hi. destruct (lookup_lt_is_Some_2 l (Z.to_nat i)) as [a ->]; [lia|]. exists a. reflexivity. Qed.

Lemma lor_shift_range n a b hi : 0 <= n -> 0 <= b < 2 ^ n -> 0 <= a < hi -> 0 <= Z.lor (Z.shiftl a n) b < hi * 2 ^ n.
Proof.
  intros Hn Hb Ha. rewrite Z.lor_comm, Z.shiftl_mul_pow2, lor_fields by lia. pose proof (pow2_pos n Hn). nia.
Qed.

Lemma land_ones_range n a : 0 <= n -> 0 <= Z.land a (Z.ones n) < 2 ^ n.
Proof. intros Hn. rewrite Z.land_ones by exact Hn. apply Z.mod_pos_bound, pow2_pos, Hn. Qed.

Lemma modrm_fields m : 0 <= m < 256 -> 0 <= modrm_rm m < 8 /\ 0 <= modrm_reg m < 8 /\ 0 <= modrm_mod m < 4.
Proof.
  intros _. unfold modrm_rm, modrm_reg, modrm_mod.
  pose proof (land_ones_range 3 m). pose proof (land_ones_range 3 (Z.shiftr m 3)). pose proof (land_ones_range 2 (Z.shiftr m 6)).
  change (Z.ones 3) with 7 in *. change (Z.ones 2) with 3 in *. lia.
Qed.

Lemma MapModRMToReg_ok X b h1 h2 h3 h4 i : 0 <= X < 2 -> 0 <= b < 8 -> exists r, MapModRMToReg X b h1 h2 h3 h4 i = Ok r.
Proof.
  intros HX Hb. unfold MapModRMToReg. pose proof (lor_shift_range 3 X b 2 ltac:(lia) ltac:(lia) HX).
  destruct (_ =? i); [eauto|]. apply deref_lookup.
  match goal with |- _ <= _ < Z.of_nat ?n => replace n with 16%nat by (destruct h3, h4, (h1 && negb h2); vm_compute; reflexivity) end. lia.
Qed.

Lemma runs_REX_bit flag k d Q : 0 <= k -> (forall X, 0 <= X < 2 -> Q X d) -> runs k (REX_bit flag) d Q.
Proof.
  intros Hk HQ. unfold REX_bit, get_Flags. apply (runs_bind 0); [lia|]. apply (runs_bind 0); [lia|].
  apply runs_get; [lia|]. apply runs_ret; [lia|]. apply runs_ret; [lia|]. apply HQ. destruct (flag_set _ _); lia.
Qed.

Lemma runs_map_gpr X b i k d Q : 0 <= k -> 0 <= X < 2 -> 0 <= b < 8 -> (forall r, Q r d) -> runs k (map_gpr X b i) d Q.
Proof.
  intros Hk HX Hb HQ. destruct (MapModRMToReg_ok X b false false false false i HX Hb) as [r Hr].
  apply (runs_lift _ _ r); auto.
Qed.

(** Bookkeeping: [by_bind k] runs the first program within [k] bytes. *)
Ltac by_bind n := apply (runs_bind n); [try lia|].

Lemma harmless_Flags f : harmless (fun d => set_Flags (f d) d).
Proof. intros d. repeat split. Qed.
Lemma harmless_LastEscapePrefix o : harmless (set_LastEscapePrefix o).
Proof. intros d. repeat split. Qed.
Lemma harmless_TableInfo t : harmless (set_TableInfo t).
Proof. intros d. repeat split. Qed.
Lemma harmless_OP o : harmless (set_OP o).
Proof. intros d. repeat split. Qed.
Lemma harmless_InstSize n : harmless (set_InstSize n).
Proof. intros d. repeat split. Qed.
#[local] Hint Resolve harmless_Flags harmless_LastEscapePrefix harmless_TableInfo harmless_OP harmless_InstSize : core.

Lemma runs_SIB_byte k d (Q : Z -> Decoding -> Prop) : 1 <= k -> (forall x d', 0 <= x < 256 -> Q x d') ->
  runs k (if DecodedSIB d then mret (SIBByte d) else b ← ReadByte Mem p; _ ← modify (set_SIB b); mret b) d Q.
Proof.
  intros Hk HQ. destruct (DecodedSIB d).
  - intros Hw. pose proof (wf_SIB _ Hw) as Hr. revert Hw. apply runs_ret; [lia|]. apply HQ, Hr.
  - by_bind 1. apply runs_ReadByte; [lia|]. intros x Hx. by_bind 0.
    intros [H1 H2 H3 H4] Hm. exists tt, (set_SIB x (set_size (InstructionSize d + 1) d)).
    split; [reflexivity|]. split; [constructor; assumption|]. split; [unfold measure; cbn; lia|]. split; [split; auto|].
    apply runs_ret; [lia|]. apply HQ, Hx.
Qed.

Definition operand_found (Q : DecodedOperand -> Decoding -> Prop) : Prop := forall o d, o <> OperandNothing -> Q o d.

Lemma runs_DecodeSIB m k d Q : 0 <= m < 256 -> 5 <= k -> operand_found Q -> runs k (DecodeSIB Mem p m) d Q.
Proof.
  intros Hm Hk HQ. unfold DecodeSIB. by_bind 0. apply runs_get; [lia|]. by_bind 1.
  apply runs_SIB_byte; [lia|]. intros s d1 Hs. destruct (modrm_fields s Hs) as (Hrm & Hreg & Hmod). cbv zeta.
  by_bind 0. apply runs_REX_bit; [lia|]. intros X HX. by_bind 0. apply runs_map_gpr; [lia|exact HX|exact Hreg|]. intros i.
  by_bind 0. apply runs_REX_bit; [lia|]. intros b Hb. by_bind 0. apply runs_map_gpr; [lia|exact Hb|exact Hrm|]. intros g.
  match goal with |- context [check (?D <=? 4)] => set (disp := D);
    assert (disp = 0 \/ disp = 1 \/ disp = 4) as Hd by (subst disp; repeat destruct (_ =? _); cbn; auto) end.
  by_bind 0. apply runs_check; [lia|lia|]. destruct (Z.eqb_spec disp 0); [apply runs_ret; [lia|]; apply HQ; discriminate|].
  by_bind 4. apply runs_ReadData; [lia|lia|]. intros x. apply runs_ret; [lia|]. apply HQ. discriminate.
Qed.

Lemma runs_DecodeModRM_64 m k d Q : 0 <= m < 256 -> 5 <= k -> operand_found Q -> runs k (DecodeModRM_64 Mem p m) d Q.
Proof.
  intros Hm Hk HQ. destruct (modrm_fields m Hm) as (Hrm & Hreg & Hmod). unfold DecodeModRM_64.
  destruct (_ && _); [apply runs_DecodeSIB; assumption|]. destruct (_ =? 0); [destruct (_ =? 5)|].
  - by_bind 4. apply runs_ReadData; [lia|lia|]. intros x. apply runs_ret; [lia|]. apply HQ. discriminate.
  - by_bind 0. apply runs_REX_bit; [lia|]. intros b Hb. by_bind 0. apply runs_map_gpr; [lia|exact Hb|exact Hrm|]. intros g.
    apply runs_ret; [lia|]. apply HQ. discriminate.
  - cbv zeta. by_bind 4. apply runs_ReadData; [destruct (_ =? 1); lia|destruct (_ =? 1); lia|]. intros x.
    by_bind 0. apply runs_REX_bit; [lia|]. intros b Hb. by_bind 0. apply runs_map_gpr; [lia|exact Hb|exact Hrm|]. intros g.
    apply runs_ret; [lia|]. apply HQ. discriminate.
Qed.

Lemma runs_DecodeModRM_Disp m k d Q : 0 <= m < 256 -> 5 <= k -> operand_found Q -> runs k (DecodeModRM_Disp true Mem p m) d Q.
Proof.
  intros Hm Hk HQ. unfold DecodeModRM_Disp, Has16BitAddressing, get_Flags. by_bind 0. by_bind 0. by_bind 0.
  apply runs_get; [lia|]. apply runs_ret; [lia|]. apply runs_ret; [lia|]. cbn [negb andb].
  apply runs_DecodeModRM_64; [exact Hm|lia|exact HQ].
Qed.

(** *** The fields of the instruction *)

Definition in_sources (s : Slot) : Prop := match s with AtDest => True | AtSrc i => (i < 3)%nat end.

Lemma runs_get_operand s k d (Q : DecodedOperand -> Decoding -> Prop) : 0 <= k -> in_sources s ->
  (forall o, (forall i, s = AtSrc i -> Src (Inst d) !! i = Some o) -> Q o d) -> runs k (get_operand s) d Q.
Proof.
  intros Hk Hs HQ Hw. assert (runs k (get_operand s) d Q) as H; [|exact (H Hw)].
  unfold get_operand. by_bind 0. apply runs_get; [lia|]. destruct s as [|i].
  - apply runs_ret; [lia|]. apply HQ. discriminate.
  - destruct (lookup_lt_is_Some_2 (Src (Inst d)) i) as [o Ho]; [rewrite (wf_sources _ Hw); exact Hs|]. rewrite Ho.
    apply (runs_lift _ _ o); [lia|reflexivity|]. apply HQ. intros j E. injection E as <-. exact Ho.
Qed.

Lemma runs_set_operand s o k d Q : 0 <= k -> in_sources s -> o <> OperandNothing ->
  (forall d', (forall i, s <> AtSrc i -> Src (Inst d') !! i = Src (Inst d) !! i) -> ModRM d' = ModRM d ->
     DecodedModRM d' = DecodedModRM d -> OpFlags (Inst d') = OpFlags (Inst d) -> Q tt d') ->
  runs k (set_operand s o) d Q.
Proof.
  intros Hk Hs Ho HQ. destruct s as [|i]; unfold set_operand.
  - apply runs_modify; [lia|intros x; repeat split|]. apply HQ; auto.
  - by_bind 0. apply runs_get_operand; [lia|exact Hs|]. intros o0 H0. specialize (H0 i eq_refl).
    intros [H1 H2 H3 H4] Hm. exists tt, (set_Src i o d). split; [reflexivity|].
    split; [constructor; cbn; try assumption; rewrite length_insert; exact H2|]. split; [unfold measure in *; cbn; lia|].
    split.
    + split; [auto|]. intros [Hp [Hp'|(x & Hx & Hn)]]; split; cbn; auto. right. destruct (decide (i = 0%nat)) as [->|Hi].
      * exists o. split; [|exact Ho]. apply list_lookup_insert_eq. lia.
      * exists x. split; [|exact Hn]. rewrite list_lookup_insert_ne by exact Hi. exact Hx.
    + apply HQ; auto. intros j Hj. cbn. apply list_lookup_insert_ne. congruence.
Qed.

(** How many bytes the memory operand takes: none when it was decoded before. *)
Definition rm_bytes (rm : Z) (g n : Slot) d : Prop :=
  rm = 5 \/ (rm = 0 /\ g = AtDest /\ n = AtSrc 0 /\ predecoded d).

Lemma runs_ModRMOperand rm g n b1 b2 b3 b4 b5 b6 b7 b8 k d (Q : bool -> Decoding -> Prop) :
  in_sources g -> in_sources n -> rm_bytes rm g n d -> rm <= k -> (forall r d', Q r d') ->
  runs k (ModRMOperand true Mem p g n b1 b2 b3 b4 b5 b6 b7 b8) d Q.
Proof.
  intros Hg Hn Hrm Hk HQ Hw. assert (0 <= rm) as H0 by (destruct Hrm as [->|[-> _]]; lia).
  pose proof (modrm_fields _ (wf_ModRM _ Hw)) as (Hm1 & Hm2 & Hm3). revert Hw.
  unfold ModRMOperand. by_bind 0. apply runs_get; [lia|].
  by_bind 0. apply runs_REX_bit; [lia|]. intros R HR. destruct (MapModRMToReg_ok R (modrm_reg (ModRM d)) b7 b1 b3 b5 NoInvalidOffset HR Hm2) as [r Hr].
  by_bind 0. apply (runs_lift _ _ r); [lia|exact Hr|].
  by_bind 0. apply runs_set_operand; [lia|exact Hg|discriminate|]. intros d1 Hsrc Hmod Hdec _.
  destruct (r =? REG_INVALID); [apply runs_ret; [lia|apply HQ]|]. destruct (Z.eqb_spec (modrm_mod (ModRM d)) 3) as [E3|E3].
  - by_bind 0. apply runs_REX_bit; [lia|]. intros b Hb.
    destruct (MapModRMToReg_ok b (modrm_rm (ModRM d)) b8 b1 b4 b6 NoInvalidOffset Hb Hm1) as [g' Hg'].
    by_bind 0. apply (runs_lift _ _ g'); [lia|exact Hg'|].
    by_bind 0. apply runs_set_operand; [lia|exact Hn|discriminate|]. intros. apply runs_ret; [lia|apply HQ].
  - by_bind 0. apply runs_get_operand; [lia|exact Hn|]. intros o Ho.
    assert (o = OperandNothing -> rm = 5) as Hnone.
    { intros ->. destruct Hrm as [->|(_ & -> & -> & _ & [Hp|(x & Hx & Hp)])]; [reflexivity|contradiction|].
      rewrite <- (Hsrc 0%nat) in Hx by discriminate. rewrite (Ho _ eq_refl) in Hx. congruence. }
    destruct o; try (apply runs_ret; [lia|apply HQ]).
    intros Hw1 Hms. assert (0 <= ModRM d < 256) as Hb by (rewrite <- Hmod; apply (wf_ModRM _ Hw1)). revert Hw1 Hms.
    by_bind 5; [rewrite <- Hnone by reflexivity; lia|].
    apply runs_DecodeModRM_Disp; [exact Hb|lia|]. intros o d2 Ho'. by_bind 0; [rewrite Hnone in Hk by reflexivity; lia|].
    apply runs_set_operand; [lia|exact Hn|exact Ho'|]. intros. apply runs_ret; [rewrite Hnone in Hk by reflexivity; lia|apply HQ].
Qed.

Definition header_wf (h : DecodedHeader) : Prop := 0 <= vvvv h < 16.
Lemma MapVEXToReg_ok v b : 0 <= v < 16 -> exists r, MapVEXToReg v b = Ok r.
Proof. intros Hv. apply deref_lookup. destruct b; exact Hv. Qed.

Lemma runs_vex_register h b s k d (Q : unit -> Decoding -> Prop) : 0 <= k -> header_wf h -> in_sources s ->
  (forall d', (s <> AtSrc 0 -> Src (Inst d') !! 0%nat = Src (Inst d) !! 0%nat) -> ModRM d' = ModRM d -> DecodedModRM d' = DecodedModRM d -> Q tt d') ->
  runs k (vex_register s h b) d Q.
Proof.
  intros Hk Hh Hs HQ. unfold vex_register. destruct (MapVEXToReg_ok (vvvv h) b Hh) as [r Hr].
  by_bind 0. apply (runs_lift _ _ r); [lia|exact Hr|]. apply runs_set_operand; [lia|exact Hs|discriminate|].
  intros d' H1 H2 H3 _. apply HQ; auto.
Qed.

(** The index of the next source. *)
Definition flag_count (b : bool) : nat := if b then 1 else 0.
Definition sources_of (f : Z) : nat :=
  (flag_count (has_flag f FLAGS_VEX_1ST_SRC) + flag_count (has_flag f FLAGS_MODRM) +
   flag_count (has_flag f FLAGS_VEX_2ND_SRC) +
   flag_count (HAS_NON_XMM_SUBFLAG f FLAGS_SF_SRC_RAX || HAS_NON_XMM_SUBFLAG f FLAGS_SF_SRC_RCX))%nat.

Lemma sources_count info : Z.of_nat (sources_of (InfoFlags info)) = sources info.
Proof. unfold sources_of, sources. repeat (destruct (has_flag _ _) || destruct (_ || _)); reflexivity. Qed.

(** What an entry says of the bytes of its memory operand. *)
Definition modrm_bytes (rm f : Z) d : Prop :=
  rm = 5 \/ (rm = 0 /\ predecoded d /\ has_flag f FLAGS_VEX_1ST_SRC = false /\ has_flag f FLAGS_SF_MOD_DST = false).

Lemma runs_DecodeModRMOperands rm f n b1 b2 b3 k d (Q : bool -> Decoding -> Prop) :
  (n + flag_count (has_flag f FLAGS_MODRM) <= 3)%nat -> 0 <= k -> (has_flag f FLAGS_MODRM = true -> rm <= k) ->
  rm = 5 \/ (rm = 0 /\ n = 0%nat /\ predecoded d /\ has_flag f FLAGS_SF_MOD_DST = false) ->
  (forall r d', Q r d') -> runs k (DecodeModRMOperands true Mem p f n b1 b2 b3) d Q.
Proof.
  intros Hn Hk Hrm Hpre HQ. unfold DecodeModRMOperands. destruct (has_flag f FLAGS_MODRM); [|apply runs_ret; auto].
  cbn in Hn. destruct (has_flag f FLAGS_SF_MOD_DST).
  - apply (runs_ModRMOperand rm); [cbn; lia|exact Logic.I| |auto|exact HQ]. destruct Hpre as [->|(_ & _ & _ & E)]; [left; reflexivity|discriminate E].
  - apply (runs_ModRMOperand rm); [exact Logic.I|cbn; lia| |auto|exact HQ].
    destruct Hpre as [->|(-> & -> & Hp & _)]; [left; reflexivity|right; auto].
Qed.

Lemma runs_DecodeNamedSources f h n k d (Q : nat -> Decoding -> Prop) :
  header_wf h -> (n + flag_count (has_flag f FLAGS_VEX_2ND_SRC) +
    flag_count (HAS_NON_XMM_SUBFLAG f FLAGS_SF_SRC_RAX || HAS_NON_XMM_SUBFLAG f FLAGS_SF_SRC_RCX) <= 2)%nat -> 0 <= k ->
  (forall n' d', (n' <= 2)%nat -> Q n' d') -> runs k (DecodeNamedSources f h n) d Q.
Proof.
  intros Hh Hn Hk HQ. unfold DecodeNamedSources. by_bind 0.
  assert (forall m d1, m = (n + flag_count (has_flag f FLAGS_VEX_2ND_SRC))%nat ->
    runs (k - 0) (if HAS_NON_XMM_SUBFLAG f FLAGS_SF_SRC_RAX then _ ← set_operand (AtSrc m) (GPR false REG_RAX); mret (S m)
      else if HAS_NON_XMM_SUBFLAG f FLAGS_SF_SRC_RCX then _ ← set_operand (AtSrc m) (GPR false REG_RCX); mret (S m)
      else mret m) d1 Q) as Hrest.
  { intros m d1 ->. destruct (HAS_NON_XMM_SUBFLAG f FLAGS_SF_SRC_RAX); [|destruct (HAS_NON_XMM_SUBFLAG f FLAGS_SF_SRC_RCX)]; cbn in Hn;
      try (by_bind 0; apply runs_set_operand; [lia|cbn; lia|discriminate|]; intros); (apply runs_ret; [lia|]); apply HQ; lia. }
  destruct (has_flag f FLAGS_VEX_2ND_SRC); cbn in Hn, Hrest.
  - by_bind 0. apply runs_vex_register; [lia|exact Hh|cbn; lia|]. intros. apply runs_ret; [lia|]. apply Hrest. lia.
  - apply runs_ret; [lia|]. apply Hrest. lia.
Qed.

Lemma runs_DecodeSources rm f h b1 b2 b3 k d (Q : bool * nat -> Decoding -> Prop) :
  header_wf h -> (sources_of f <= 2)%nat -> 0 <= k -> (has_flag f FLAGS_MODRM = true -> rm <= k) -> modrm_bytes rm f d ->
  (forall r d', (snd r <= 2)%nat -> Q r d') -> runs k (DecodeSources true Mem p f h b1 b2 b3) d Q.
Proof.
  intros Hh Hn Hk Hrm Hpre HQ. unfold DecodeSources, sources_of in *.
  set (c := if has_flag f FLAGS_MODRM then rm else 0).
  assert (0 <= c <= k) as Hc by (subst c; destruct (has_flag f FLAGS_MODRM), Hpre as [->|[-> _]]; lia || (specialize (Hrm eq_refl); lia)).
  assert (forall n d1, n = flag_count (has_flag f FLAGS_VEX_1ST_SRC) ->
    rm = 5 \/ (rm = 0 /\ n = 0%nat /\ predecoded d1 /\ has_flag f FLAGS_SF_MOD_DST = false) ->
    runs (k - 0) (ok ← DecodeModRMOperands true Mem p f n b1 b2 b3;
      if negb ok then mret (false, n)
      else m ← DecodeNamedSources f h (if has_flag f FLAGS_MODRM then S n else n); mret (true, m)) d1 Q) as Hrest.
  { intros n d1 -> Hp. by_bind c. apply (runs_DecodeModRMOperands rm); [lia|lia|subst c; intros ->; lia|exact Hp|].
    intros [|] d2; cbn [negb].
    - by_bind 0. apply runs_DecodeNamedSources; [exact Hh| |lia|].
      + destruct (has_flag f FLAGS_MODRM); cbn [flag_count] in *; lia.
      + intros m d3 Hm. apply runs_ret; [lia|]. apply HQ. exact Hm.
    - apply runs_ret; [lia|]. apply HQ. cbn. destruct (has_flag f FLAGS_VEX_1ST_SRC); cbn; lia. }
  by_bind 0. destruct (has_flag f FLAGS_VEX_1ST_SRC) eqn:E1; cbn [flag_count] in *.
  - by_bind 0. apply runs_vex_register; [lia|exact Hh|cbn; lia|]. intros d' _ _ _. apply runs_ret; [lia|]. apply Hrest; [reflexivity|].
    destruct Hpre as [->|(_ & _ & E & _)]; [left; reflexivity|congruence].
  - apply runs_ret; [lia|]. apply Hrest; [reflexivity|]. destruct Hpre as [->|(-> & Hp & _ & E)]; auto.
Qed.

Lemma runs_DecodeLiteral f Bytes DestSize n k d (Q : unit -> Decoding -> Prop) :
  0 <= Bytes <= 8 -> Bytes <= k -> (n <= 2)%nat -> (forall d', Q tt d') -> runs k (DecodeLiteral Mem p f Bytes DestSize n) d Q.
Proof.
  intros Hb Hk Hn HQ. unfold DecodeLiteral, get_Flags. destruct (Z.eqb_spec Bytes 0); [apply runs_ret; [lia|apply HQ]|].
  by_bind 0. apply runs_check; [lia|lia|]. by_bind 0. apply runs_get_operand; [lia|cbn; lia|]. intros o _.
  by_bind Bytes. apply runs_ReadData; [lia|lia|]. intros x. by_bind 0. by_bind 0. apply runs_get; [lia|]. apply runs_ret; [lia|].
  cbv zeta. destruct (_ || _); (apply runs_set_operand; [lia|cbn; lia|discriminate|]; intros; apply HQ).
Qed.

(** Changes that keep the operands and [ModRM]. *)
Definition same_operands d d' : Prop :=
  Src (Inst d') = Src (Inst d) /\ ModRM d' = ModRM d /\ DecodedModRM d' = DecodedModRM d.

Lemma runs_DecodeSizes f b1 b2 k d (Q : Z -> Decoding -> Prop) : 0 <= k ->
  (forall x d', same_operands d d' -> Q x d') -> runs k (DecodeSizes true f b1 b2) d Q.
Proof.
  intros Hk HQ. unfold DecodeSizes, or_Flags. destruct (OperandSize _ _ _ _ _) as [x y].
  by_bind 0. apply runs_modify; [lia|auto|]. destruct (OperandSize _ _ _ _ _) as [x' y'].
  by_bind 0. apply runs_modify; [lia|auto|]. apply runs_ret; [lia|]. apply HQ. repeat split.
Qed.

Lemma runs_DecodeFixedDest f k d (Q : Slot -> Decoding -> Prop) : 0 <= k ->
  (forall s d', s = AtDest \/ s = AtSrc 0 -> Q s d') -> runs k (DecodeFixedDest f) d Q.
Proof.
  intros Hk HQ. unfold DecodeFixedDest. cbv zeta. destruct (_ || _); [|apply runs_ret; auto].
  by_bind 0. apply runs_set_operand; [lia|exact Logic.I|discriminate|]. intros. apply runs_ret; auto; lia.
Qed.

Lemma runs_set_HighBits h k d (Q : unit -> Decoding -> Prop) : 0 <= k -> (forall d', Q tt d') ->
  runs k (o ← get_operand AtDest; set_operand AtDest (match o with GPR _ r => GPR h r | _ => o end)) d Q.
Proof.
  intros Hk HQ. by_bind 0. apply runs_get_operand; [lia|exact Logic.I|]. intros o _. apply runs_modify; [lia| |apply HQ].
  intros x. repeat split.
Qed.

Lemma runs_bind_assoc {A C E} k (m : D A) (f : A -> D C) (g : C -> D E) d Q :
  runs k ((m ≫= f) ≫= g) d Q -> runs k (a ← m; f a ≫= g) d Q.
Proof.
  intros H Hw Hm. destruct (H Hw Hm) as (c & d' & E1 & Hr). exists c, d'. split; [|exact Hr].
  rewrite <- E1. symmetry. exact (M_bind_assoc m f g d).
Qed.

Lemma runs_DecodeRegInByte f Op s b1 b2 k d (Q : bool -> Decoding -> Prop) : 0 <= k ->
  HAS_NON_XMM_SUBFLAG f FLAGS_SF_REX_IN_BYTE && has_flag f FLAGS_MODRM = false ->
  s = AtDest \/ s = AtSrc 0 -> (forall r d', Q r d') -> runs k (DecodeRegInByte f Op s b1 b2) d Q.
Proof.
  intros Hk Hf Hs HQ. unfold DecodeRegInByte. destruct (HAS_NON_XMM_SUBFLAG f FLAGS_SF_REX_IN_BYTE); [|apply runs_ret; auto].
  cbn [andb] in Hf. rewrite Hf. by_bind 0. apply runs_check; [lia|reflexivity|]. cbv zeta.
  assert (0 <= Z.land Op 7 < 8) as Hop by (change 7 with (Z.ones 3); rewrite Z.land_ones by lia; apply Z.mod_pos_bound; lia).
  by_bind 0. apply runs_REX_bit; [lia|]. intros X HX.
  destruct (MapModRMToReg_ok X (Z.land Op 7) b2 b1 false false NoInvalidOffset HX Hop) as [r Hr].
  by_bind 0. apply (runs_lift _ _ r); [lia|exact Hr|]. by_bind 0.
  destruct Hs as [->| ->].
  - apply runs_set_operand; [lia|exact Logic.I|discriminate|]. intros. apply runs_ret; auto; lia.
  - apply runs_bind_assoc. by_bind 0. apply runs_set_HighBits; [lia|]. intros d1.
    apply runs_set_operand; [lia|cbn; lia|discriminate|]. intros. apply runs_ret; auto; lia.
Qed.

(** ** Instructions *)

Lemma LiteralBytes_range info f b1 b2 : 0 <= MoreBytes info -> literal_max info <= 8 ->
  0 <= LiteralBytes info f b1 b2 <= literal_max info.
Proof.
  unfold LiteralBytes, literal_max. intros H0 Hm. cbv zeta.
  set (x := if _ && _ then uint 8 _ else _).
  assert (0 <= x <= literal_max info) as Hx.
  { subst x. unfold literal_max. destruct (has_flag (InfoFlags info) FLAGS_DISPLACE_SIZE_MUL_2), b2; cbn [andb]; try lia.
    rewrite Z.shiftl_mul_pow2 by lia. rewrite uint_small by lia. lia. }
  change (MoreBytes info * (if has_flag (InfoFlags info) FLAGS_DISPLACE_SIZE_MUL_2 then 2 else 1)) with (literal_max info).
  assert (forall y, 0 <= y -> 0 <= Z.shiftr y 1 <= y) as Hs.
  { intros y Hy. rewrite Z.shiftr_div_pow2 by lia. change (2 ^ 1) with 2. split; [apply Z.div_pos|apply Z.div_le_upper_bound]; lia. }
  clearbody x. pose proof (Hs x ltac:(lia)) as H1. pose proof (Hs (Z.shiftr x 1) ltac:(lia)) as H2.
  destruct (has_flag (InfoFlags info) FLAGS_DISPLACE_SIZE_DIV_2 && b1), (_ && _); lia.
Qed.

(** The first reading of [ModRM] is counted from the start. *)
Lemma runs_first_ModRM {A} (f : Z -> D A) k d Q : DecodedModRM d = false -> 0 <= k ->
  (forall m, 0 <= m < 256 -> runs k (f m) (set_ModRM m (set_size (InstructionSize d + 1) d)) Q) ->
  runs k (m ← ReadByte Mem p; _ ← modify (set_ModRM m); f m) d Q.
Proof.
  intros Hd Hk H Hw Hm. unfold measure in Hm. rewrite Hd in Hm. pose proof (wf_size _ Hw).
  destruct (mapped (InstructionSize d)) as [x Hx]; [lia|].
  destruct (H x (read_byte_range _ _ _ Hx)) as (a & d' & E & Hw' & Hm' & Hp & HQ).
  - destruct Hw. constructor; cbn; try assumption; [lia|exact (read_byte_range _ _ _ Hx)].
  - unfold measure. cbn. lia.
  - exists a, d'. split; [|split; [exact Hw'|split; [unfold measure in *; cbn in Hm'; rewrite Hd; lia|split; [|exact HQ]]]].
    + unfold ReadByte, mbind, M_bind, get_state, lift, check, modify in *. rewrite Hx. cbn.
      replace (InstructionSize d <? MAX_INST_SIZE) with true by lia. cbn. exact E.
    + split; [congruence|]. intros [Hpd _]. congruence.
Qed.

Lemma runs_keeps rm f {A C} k1 k (m : D A) (g : A -> D C) d Q : modrm_bytes rm f d -> k1 <= k ->
  runs k1 m d (fun a d' => modrm_bytes rm f d' -> runs (k - k1) (g a) d' Q) -> runs k (m ≫= g) d Q.
Proof.
  intros Hp Hk H Hw Hm. destruct (H Hw ltac:(lia)) as (a & d1 & E & Hw1 & Hm1 & Hp1 & H1).
  destruct H1 as (c & d2 & E2 & Hw2 & Hm2 & Hp2 & HQ); [|exact Hw1|lia|].
  { destruct Hp as [->|(-> & Hp & Hr)]; [left; reflexivity|right; destruct Hp1; auto]. }
  exists c, d2. unfold mbind, M_bind. rewrite E, E2. split; [reflexivity|]. split; [exact Hw2|]. split; [lia|]. auto.
Qed.

Lemma runs_read_ModRM f k d (Q : unit -> Decoding -> Prop) : 0 <= k -> (forall d', Q tt d') ->
  runs k (if has_flag f FLAGS_MODRM && negb (DecodedModRM d) then m ← ReadByte Mem p; modify (set_ModRM m) else mret tt) d Q.
Proof.
  intros Hk HQ. destruct (has_flag f FLAGS_MODRM && negb (DecodedModRM d)) eqn:E; [|apply runs_ret; auto].
  apply andb_true_iff in E as [_ E]. apply negb_true_iff in E.
  intros Hw Hm. destruct (runs_first_ModRM (fun _ => mret tt) k d (fun _ _ => True) E Hk) as (a & d' & H & Hr); [|exact Hw|exact Hm|].
  { intros m _. apply runs_ret; auto. }
  exists tt, d'. destruct a, Hr as (H1 & H2 & H3 & _). split; [|auto].
  unfold mbind, M_bind in H |- *. destruct (ReadByte Mem p d) as [[x d1]| |]; try discriminate H. exact H.
Qed.

Lemma runs_NormalOp rm e Op h k d : header_wf h -> plain_ok rm k (fst e) = true -> modrm_bytes rm (InfoFlags (fst e)) d -> 0 <= k ->
  runs k (NormalOp true Mem p e Op h) d (fun _ _ => True).
Proof.
  intros Hh Hok Hrm Hk. unfold NormalOp. cbv zeta. set (info := fst e) in *. set (f := InfoFlags info) in *.
  apply (runs_keeps rm f 0); [exact Hrm|lia|]. apply runs_modify; [lia|auto|]. clear Hrm. intros Hrm.
  apply (runs_keeps rm f 0); [exact Hrm|lia|]. apply runs_modify; [lia|auto|]. clear Hrm. intros Hrm.
  destruct (refused info) eqn:Hr; [apply runs_ret; [lia|exact Logic.I]|].
  unfold plain_ok in Hok. rewrite Hr in Hok. cbn [orb] in Hok. rewrite !andb_true_iff in Hok.
  destruct Hok as (((((Hg & Hm0) & Hlit) & Hbytes) & Hsrc) & Hrex). apply negb_true_iff in Hrex.
  by_bind 0. apply runs_check; [lia|exact Hg|]. by_bind 0. unfold get_Flags at 1. by_bind 0. apply runs_get; [lia|]. apply runs_ret; [lia|].
  by_bind 0. apply runs_get; [lia|].
  apply (runs_keeps rm f 0); [exact Hrm|lia|].
  apply runs_read_ModRM; [lia|]. intros d1. clear Hrm. intros Hrm.
  apply (runs_keeps rm f 0); [exact Hrm|lia|]. apply runs_DecodeSizes; [lia|]. intros DestSize d2 _. clear Hrm. intros Hrm.
  apply (runs_keeps rm f 0); [exact Hrm|lia|]. unfold get_Flags at 1. by_bind 0. apply runs_get; [lia|]. apply runs_ret; [lia|]. intros _.
  apply (runs_keeps rm f 0); [exact Hrm|lia|]. apply runs_DecodeFixedDest; [lia|]. intros s d3 Hs. clear Hrm. intros Hrm.
  apply (runs_keeps rm f 0); [exact Hrm|lia|]. apply runs_DecodeRegInByte; [lia|exact Hrex|exact Hs|]. intros ok d4. clear Hrm. intros Hrm.
  destruct ok; cbn [negb]; [|apply runs_ret; [lia|exact Logic.I]].
  match goal with |- context [DecodeLiteral _ _ _ ?b] => set (Bytes := b) end.
  assert (0 <= Bytes <= literal_max info) as HB by (apply LiteralBytes_range; lia).
  set (c := if has_flag f FLAGS_MODRM then rm else 0).
  assert (0 <= c /\ c + Bytes <= k) as Hc.
  { subst c. unfold operand_bytes in Hbytes. fold f in Hbytes. destruct (has_flag f FLAGS_MODRM), Hrm as [->|[-> _]]; lia. }
  by_bind c. apply (runs_DecodeSources rm); [exact Hh|rewrite <- sources_count in Hsrc; fold f in Hsrc; lia|lia|subst c; intros ->; lia|exact Hrm|].
  intros [ok n] d5 Hn. destruct ok; cbn [negb]; [|apply runs_ret; [lia|exact Logic.I]]. cbn in Hn.
  by_bind 0. eapply runs_weaken with (k := 0) (Q := fun _ _ => True); [|lia|].
  { destruct (has_flag f FLAGS_VEX_DST); [|apply runs_ret; [lia|exact Logic.I]].
    apply runs_vex_register; [lia|exact Hh|destruct Hs as [->| ->]; cbn; [exact Logic.I|lia]|auto]. }
  intros _ d6 _. by_bind Bytes. apply runs_DecodeLiteral; [lia|lia|exact Hn|]. intros d7.
  by_bind 0. apply runs_get; [lia|]. by_bind 0. apply runs_modify; [lia|auto|]. apply runs_ret; [lia|exact Logic.I].
Qed.

Lemma runs_ReadModRM k d (Q : Z -> Decoding -> Prop) : DecodedModRM d = false -> 0 <= k ->
  (forall m d', 0 <= m < 256 -> ModRM d' = m -> DecodedModRM d' = true -> Q m d') -> runs k (ReadModRM Mem p) d Q.
Proof.
  intros Hd Hk HQ. apply (runs_first_ModRM (fun m => mret m)); [exact Hd|exact Hk|]. intros m Hm.
  apply runs_ret; [exact Hk|]. apply HQ; [exact Hm|reflexivity..].
Qed.

Lemma runs_entry id i k d (Q : X86InstInfo * (TableId * Z) -> Decoding -> Prop) : 0 <= k -> 0 <= i < array_size id ->
  (forall info, entry_ok id i info = true -> Q (info, (id, i)) d) -> runs k (entry T64 id i) d Q.
Proof.
  intros Hk Hi HQ. destruct (table_get_ok id i Hi) as (info & E & Hok). unfold entry.
  by_bind 0. apply (runs_lift _ _ info); [lia|exact E|]. apply runs_ret; [lia|]. apply HQ, Hok.
Qed.

Lemma no_header_wf : header_wf no_header.
Proof. unfold header_wf, no_header. cbn. lia. Qed.
#[local] Hint Resolve no_header_wf : core.
Definition answers {A} (_ : A) (_ : Decoding) : Prop := True.

(** An entry of a table that holds instructions only. *)
Lemma runs_plain id i Op h k d : 0 <= i < array_size id -> header_wf h -> 0 <= k ->
  (forall info, entry_ok id i info = true -> plain_ok 5 k info = true) ->
  runs k (e ← entry T64 id i; NormalOp true Mem p e Op h) d answers.
Proof.
  intros Hi Hh Hk Hp. by_bind 0. apply runs_entry; [lia|exact Hi|]. intros info Hok.
  rewrite Z.sub_0_r. apply (runs_NormalOp 5); [exact Hh|exact (Hp info Hok)|left; reflexivity|lia].
Qed.

Lemma runs_PrimaryGroup info k d : DecodedModRM d = false -> is_group TYPE_GROUP_1 TYPE_GROUP_11 (InfoType info) = true ->
  0 <= MoreBytes info < 8 -> k = 9 -> runs k (PrimaryGroup true T64 Mem p info) d answers.
Proof.
  intros Hd Hg Hm ->. unfold PrimaryGroup. by_bind 0. apply runs_ReadModRM; [exact Hd|lia|]. intros m d1 Hr _ _. cbv zeta.
  destruct (modrm_fields m Hr) as (_ & Hreg & _). unfold is_group, TYPE_GROUP_1, TYPE_GROUP_11 in Hg.
  apply runs_plain; [|auto|lia|auto]. cbn [array_size]. unfold OPD_primary, TYPE_GROUP_1.
  pose proof (lor_shift_range 3 (MoreBytes info) (modrm_reg m) 8 ltac:(lia) ltac:(lia) ltac:(lia)) as H1.
  pose proof (lor_shift_range 6 (InfoType info - 11) (Z.lor (Z.shiftl (MoreBytes info) 3) (modrm_reg m)) 8 ltac:(lia) ltac:(lia) ltac:(lia)) as H2.
  rewrite Z.lor_assoc in H2. lia.
Qed.

Lemma modrm_land_reg a m : 0 <= m < 8 -> Z.land (Z.lor (Z.shiftl a 3) m) 7 = m.
Proof.
  intros Hm. rewrite Z.lor_comm, Z.shiftl_mul_pow2, lor_fields by lia. change 7 with (Z.ones 3). rewrite Z.land_ones by lia.
  rewrite Z_mod_plus_full. apply Z.mod_small. lia.
Qed.

Lemma runs_SecondaryGroup info d : DecodedModRM d = false -> is_group TYPE_GROUP_6 TYPE_GROUP_P (InfoType info) = true ->
  runs 8 (SecondaryGroup true T64 Mem p info) d answers.
Proof.
  intros Hd Hg. unfold SecondaryGroup. by_bind 0. apply runs_get; [lia|]. cbv zeta.
  set (P := if LastEscapePrefix d =? 0xF3 then PF_F3 else _).
  assert (0 <= P < 4) as HP by (subst P; unfold PF_F3, PF_F2, PF_66, PF_NONE; repeat destruct (_ =? _); lia).
  by_bind 0. apply runs_ReadModRM; [exact Hd|lia|]. intros m d1 Hr _ _. destruct (modrm_fields m Hr) as (Hrm & Hreg & _).
  set (i := OPD_secondary _ _ _).
  assert (0 <= i < 512 /\ Z.land i 7 = modrm_reg m) as [Hi Hil].
  { subst i. unfold OPD_secondary, is_group, TYPE_GROUP_6, TYPE_GROUP_P in *.
    pose proof (lor_shift_range 3 P (modrm_reg m) 4 ltac:(lia) ltac:(lia) HP) as H1.
    pose proof (lor_shift_range 5 (InfoType info - 18) (Z.lor (Z.shiftl P 3) (modrm_reg m)) 12 ltac:(lia) ltac:(lia) ltac:(lia)) as H2.
    rewrite Z.lor_assoc in H2. split; [lia|].
    replace (Z.shiftl (InfoType info - 18) 5) with (Z.shiftl (Z.shiftl (InfoType info - 18) 2) 3) by (rewrite Z.shiftl_shiftl; [f_equal|]; lia).
    rewrite <- Z.shiftl_lor. apply modrm_land_reg, Hreg. }
  clearbody i. by_bind 0. apply runs_entry; [lia|exact Hi|]. intros info' Hok. cbn [fst].
  cbn [entry_ok] in Hok. rewrite Hil in Hok. destruct (InfoType info' =? TYPE_SECOND_GROUP_MODRM).
  - destruct (RegToField !! Z.to_nat (modrm_reg m)) as [f|] eqn:Ef; [|discriminate Hok].
    by_bind 0. apply (runs_lift _ _ f); [lia|reflexivity|]. by_bind 0. apply runs_check; [lia|lia|].
    apply runs_plain; [|auto|lia|auto]. cbn [array_size]. unfold OPD_modrm.
    pose proof (lor_shift_range 3 f (modrm_rm m) 4 ltac:(lia) ltac:(lia) ltac:(lia)). lia.
  - apply (runs_NormalOp 5); [auto|exact Hok|left; reflexivity|lia].
Qed.

Lemma runs_X87 Op d : DecodedModRM d = false -> 0xD8 <= Op <= 0xDF -> runs 9 (X87 true T64 Mem p Op) d answers.
Proof.
  intros Hd Ho. unfold X87. by_bind 0. apply runs_ReadModRM; [exact Hd|lia|]. intros m d1 Hr _ _. cbv zeta.
  apply runs_plain; [|auto|lia|auto]. cbn [array_size].
  pose proof (lor_shift_range 8 (Op - 0xD8) m 8 ltac:(lia) ltac:(lia) ltac:(lia)). lia.
Qed.

(** *** [VEX] and [EVEX] *)

Lemma vvvv_range b w : header_wf (mkHeader (15 - Z.shiftr (Z.land b 120) 3) w).
Proof.
  assert (0 <= Z.shiftr (Z.land b 120) 3 < 16) as H.
  { rewrite Z.shiftr_land. change (Z.shiftr 120 3) with (Z.ones 4). apply (land_ones_range 4). lia. }
  unfold header_wf. cbn [vvvv]. lia.
Qed.

Lemma runs_VEX_instruction pp map_select h d : DecodedModRM d = false -> 0 <= pp < 4 -> 1 <= map_select <= 3 -> header_wf h ->
  runs 7 (VEX_instruction true T64 Mem p pp map_select h) d answers.
Proof.
  intros Hd Hp Hs Hh. unfold VEX_instruction. by_bind 1. apply runs_ReadByte; [lia|]. intros x Hx. cbv zeta.
  by_bind 0. apply runs_entry; [lia| |].
  { cbn [array_size]. unfold OPD_VEX.
    pose proof (lor_shift_range 8 pp x 4 ltac:(lia) ltac:(lia) Hp) as H1.
    pose proof (lor_shift_range 10 (map_select - 1) (Z.lor (Z.shiftl pp 8) x) 3 ltac:(lia) ltac:(lia) ltac:(lia)) as H2.
    rewrite Z.lor_assoc in H2. lia. }
  intros info Hok. cbn [fst]. destruct (_ && _) eqn:Eg.
  - by_bind 0. apply runs_ReadModRM; [exact Hd|lia|]. intros m d1 Hm _ _. destruct (modrm_fields m Hm) as (_ & Hreg & _).
    unfold TYPE_VEX_GROUP_12, TYPE_VEX_GROUP_17 in Eg.
    apply runs_plain; [|exact Hh|lia|auto]. cbn [array_size]. unfold OPD_VEX_group, TYPE_VEX_GROUP_12.
    apply (lor_range 7); [apply (lor_range 7)|]; rewrite ?Z.shiftl_mul_pow2 by lia; lia.
  - cbn [entry_ok] in Hok. unfold is_group in Hok. rewrite Eg in Hok. cbn [orb] in Hok.
    apply (runs_NormalOp 5); [exact Hh|exact Hok|left; reflexivity|lia].
Qed.

(** A bit of a prefix is recorded. *)
Lemma runs_or_Flags f k d (Q : unit -> Decoding -> Prop) : 0 <= k ->
  (forall d', same_operands d d' -> Q tt d') -> runs k (or_Flags f) d Q.
Proof. intros Hk HQ. apply runs_modify; [lia|auto|]. apply HQ. repeat split. Qed.
Lemma runs_when_or_Flags (b : bool) f k d (Q : unit -> Decoding -> Prop) : 0 <= k ->
  (forall d', same_operands d d' -> Q tt d') -> runs k (if b then or_Flags f else mret tt) d Q.
Proof. intros Hk HQ. destruct b; [apply runs_or_Flags; auto|apply runs_ret; [lia|]]. apply HQ. repeat split. Qed.
Lemma runs_when_checked (b : bool) f k d (Q : unit -> Decoding -> Prop) : 0 <= k ->
  (forall d', same_operands d d' -> Q tt d') -> runs k (if b then _ ← check true; or_Flags f else mret tt) d Q.
Proof. intros Hk HQ. apply (runs_when_or_Flags b f); [exact Hk|exact HQ]. Qed.

Lemma runs_VEX Op d : DecodedModRM d = false -> runs 9 (VEX true T64 Mem p Op) d answers.
Proof.
  intros Hd. unfold VEX. by_bind 1. apply runs_ReadByte; [lia|]. intros b1 _.
  by_bind 0. apply runs_when_checked; [lia|]. intros d1 (_ & _ & H1).
  pose proof (land_ones_range 2 b1 ltac:(lia)) as Hp1. change (Z.ones 2) with 3 in Hp1.
  destruct (Op =? 0xC5).
  - eapply runs_weaken; [apply runs_VEX_instruction|lia|auto]; [rewrite H1; exact Hd|exact Hp1|lia|apply vvvv_range].
  - by_bind 1. apply runs_ReadByte; [lia|]. intros b2 _. cbv zeta.
    by_bind 0. apply runs_when_checked; [lia|]. intros d2 (_ & _ & H2).
    by_bind 0. apply runs_when_or_Flags; [lia|]. intros d3 (_ & _ & H3).
    pose proof (land_ones_range 2 b2 ltac:(lia)) as Hp2. change (Z.ones 2) with 3 in Hp2.
    destruct (_ && _) eqn:Em; [|apply runs_ret; [lia|exact Logic.I]].
    apply runs_VEX_instruction; [|exact Hp2|lia|apply vvvv_range]. rewrite H3, H2. cbn. rewrite H1. exact Hd.
Qed.

Lemma runs_EVEX d : runs 9 (EVEX true T64 Mem p) d answers.
Proof.
  unfold EVEX. do 3 (by_bind 1; apply runs_ReadByte; [lia|]; intros _ _).
  by_bind 1. apply runs_ReadByte; [lia|]. intros x Hx. apply runs_plain; [exact Hx|auto|lia|auto].
Qed.

(** *** Entries that lead to other tables *)

Lemma runs_NormalOpHeader place Op k d : DecodedModRM d = false -> header_ok k (fst place) = true -> 0 <= k ->
  (InfoType (fst place) = TYPE_X87_TABLE_PREFIX -> 0xD8 <= Op <= 0xDF) ->
  runs k (NormalOpHeader true T64 Mem p place Op) d answers.
Proof.
  intros Hd Hok Hk Hx. unfold NormalOpHeader. cbv zeta. set (info := fst place) in *.
  by_bind 0. apply runs_modify; [lia|auto|]. by_bind 0. apply runs_modify; [lia|auto|].
  unfold header_ok in Hok. cbv zeta in Hok. destruct (refused info) eqn:Hr; [apply runs_ret; [lia|exact Logic.I]|].
  cbn [orb] in Hok. apply andb_true_iff in Hok as [Hrex Hok]. by_bind 0. apply runs_check; [lia|exact Hrex|]. rewrite !Z.sub_0_r.
  change (is_group TYPE_GROUP_1 TYPE_GROUP_11 (InfoType info)) with ((TYPE_GROUP_1 <=? InfoType info) && (InfoType info <=? TYPE_GROUP_11)) in Hok.
  change (is_group TYPE_GROUP_6 TYPE_GROUP_P (InfoType info)) with ((TYPE_GROUP_6 <=? InfoType info) && (InfoType info <=? TYPE_GROUP_P)) in Hok.
  destruct (_ && _) eqn:E1 in |- *; rewrite E1 in Hok.
  { eapply runs_weaken; [apply (runs_PrimaryGroup info 9); [exact Hd|exact E1|lia|reflexivity]|lia|auto]. }
  destruct (_ && _) eqn:E2 in |- *; rewrite E2 in Hok.
  { eapply runs_weaken; [apply runs_SecondaryGroup; [exact Hd|exact E2]|lia|auto]. }
  destruct (Z.eqb_spec (InfoType info) TYPE_X87_TABLE_PREFIX) as [E3|_]; cbn [orb] in Hok.
  { eapply runs_weaken; [apply runs_X87; [exact Hd|exact (Hx E3)]|lia|auto]. }
  destruct (InfoType info =? TYPE_VEX_TABLE_PREFIX); cbn [orb] in Hok.
  { eapply runs_weaken; [apply runs_VEX; exact Hd|lia|auto]. }
  destruct (InfoType info =? TYPE_GROUP_EVEX).
  { eapply runs_weaken; [apply runs_EVEX|lia|auto]. }
  apply (runs_NormalOp 5); [auto|exact Hok|left; reflexivity|lia].
Qed.

(** ** Escapes *)

Lemma runs_table_header id i Op k d : DecodedModRM d = false -> 0 <= i < array_size id -> 0 <= k ->
  (forall info, entry_ok id i info = true ->
     header_ok k info = true /\ (InfoType info = TYPE_X87_TABLE_PREFIX -> 0xD8 <= Op <= 0xDF)) ->
  runs k (table_header true T64 Mem p id i Op) d answers.
Proof.
  intros Hd Hi Hk H. unfold table_header. by_bind 0. apply runs_entry; [lia|exact Hi|]. intros info Hok.
  rewrite Z.sub_0_r. destruct (H info Hok). apply runs_NormalOpHeader; assumption.
Qed.

(** An instruction of an escape is not in another table. *)
Lemma header_plain k info : plain_ok 5 k info && (refused info || (InfoType info =? TYPE_INST)) = true -> header_ok k info = true.
Proof.
  unfold header_ok, plain_ok. destruct (refused info); [reflexivity|]. cbn [orb]. rewrite andb_true_iff, Z.eqb_eq.
  intros [H E]. rewrite E in H |- *. exact H.
Qed.
Lemma inst_not_x87 info : refused info || (InfoType info =? TYPE_INST) = true -> InfoType info = TYPE_X87_TABLE_PREFIX -> False.
Proof.
  unfold refused. intros H E. rewrite E in H. discriminate H.
Qed.

Lemma runs_map_table id i k d : id = H0F38TableOps \/ id = H0F3ATableOps -> DecodedModRM d = false -> 0 <= i < 2048 -> k = 7 ->
  runs k (table_header true T64 Mem p id i i) d answers.
Proof.
  intros Hid Hd Hi ->. apply runs_table_header; [exact Hd|destruct Hid; subst id; exact Hi|lia|]. intros info Hok.
  assert (plain_ok 5 7 info && (refused info || (InfoType info =? TYPE_INST)) = true) as H by (destruct Hid; subst id; exact Hok).
  split; [exact (header_plain _ _ H)|]. apply andb_true_iff in H as [_ H]. intros E. destruct (inst_not_x87 _ H E).
Qed.

Lemma runs_Escape_38 d : DecodedModRM d = false -> runs 8 (Escape_38 true T64 Mem p) d answers.
Proof.
  intros Hd. unfold Escape_38, get_Flags. by_bind 0. by_bind 0. apply runs_get; [lia|]. apply runs_ret; [lia|]. cbv zeta.
  set (P := Z.lor (Z.lor _ _) _).
  assert (0 <= P < 8) as HP by (subst P; destruct (flag_set _ FLAG_OPERAND_SIZE), (flag_set _ FLAG_REPNE_PREFIX), (flag_set _ FLAG_REP_PREFIX); vm_compute; split; congruence).
  by_bind 1. apply runs_ReadByte; [lia|]. intros x Hx. apply runs_map_table; [auto|exact Hd| |reflexivity].
  unfold OPD_0F38. pose proof (lor_shift_range 8 P x 8 ltac:(lia) ltac:(lia) HP). lia.
Qed.

Lemma runs_Escape_3A d : DecodedModRM d = false -> runs 8 (Escape_3A true T64 Mem p) d answers.
Proof.
  intros Hd. unfold Escape_3A, get_Flags. by_bind 0. by_bind 0. apply runs_get; [lia|]. apply runs_ret; [lia|].
  by_bind 0. apply runs_get; [lia|]. cbv zeta. set (P := Z.lor _ (if flag_set _ FLAG_REX_WIDENING then _ else _)).
  assert (0 <= P < 4) as HP by (subst P; destruct (_ =? 0x66), (flag_set _ FLAG_REX_WIDENING); vm_compute; split; congruence).
  by_bind 1. apply runs_ReadByte; [lia|]. intros x Hx. apply runs_map_table; [auto|exact Hd| |reflexivity].
  pose proof (lor_shift_range 8 P x 4 ltac:(lia) ltac:(lia) HP). lia.
Qed.

Definition two_byte (id : TableId) : Prop := id = SecondBaseOps \/ id = RepModOps \/ id = RepNEModOps \/ id = OpSizeModOps.
Lemma two_byte_header id i info Op : two_byte id -> entry_ok id i info = true ->
  header_ok 8 info = true /\ (InfoType info = TYPE_X87_TABLE_PREFIX -> 0xD8 <= Op <= 0xDF).
Proof.
  intros Hid Hok.
  assert (header_ok 8 info && negb ((InfoType info =? TYPE_X87_TABLE_PREFIX) || (InfoType info =? TYPE_VEX_TABLE_PREFIX) || (InfoType info =? TYPE_GROUP_EVEX)) = true) as H
    by (destruct Hid as [->|[->|[->| ->]]]; exact Hok).
  apply andb_true_iff in H as [H1 H2]. split; [exact H1|]. intros E. rewrite E in H2. discriminate H2.
Qed.
Lemma runs_two_byte id i d : two_byte id -> DecodedModRM d = false -> 0 <= i < 256 ->
  runs 8 (table_header true T64 Mem p id i i) d answers.
Proof.
  intros Hid Hd Hi. apply runs_table_header; [exact Hd|destruct Hid as [->|[->|[->| ->]]]; exact Hi|lia|].
  intros info. apply two_byte_header, Hid.
Qed.

Lemma runs_Escape_TwoByte i d : DecodedModRM d = false -> 0 <= i < 256 -> runs 8 (Escape_TwoByte true T64 Mem p i) d answers.
Proof.
  intros Hd Hi. unfold Escape_TwoByte, clear_Flags.
  by_bind 0. apply runs_entry; [lia|exact Hi|]. intros info Hok. by_bind 0. apply runs_get; [lia|].
  destruct (two_byte_header SecondBaseOps i info i ltac:(left; reflexivity) Hok) as [H1 H2].
  assert (runs 8 (NormalOpHeader true T64 Mem p (info, (SecondBaseOps, i)) i) d answers) as Hbase
    by (apply runs_NormalOpHeader; [exact Hd|exact H1|lia|exact H2]).
  cbn [fst]. rewrite !Z.sub_0_r. destruct (has_flag _ _); [exact Hbase|].
  destruct (_ =? 0xF3); [|destruct (_ =? 0xF2); [|destruct (_ && _); [|exact Hbase]]].
  - by_bind 0. apply runs_modify; [lia|auto|]. apply runs_two_byte; [unfold two_byte; auto|exact Hd|exact Hi].
  - by_bind 0. apply runs_modify; [lia|auto|]. apply runs_two_byte; [unfold two_byte; auto|exact Hd|exact Hi].
  - by_bind 0. apply runs_modify; [lia|auto|]. by_bind 0. apply runs_modify; [lia|auto|].
    apply runs_two_byte; [unfold two_byte; auto|exact Hd|exact Hi].
Qed.

(** The operand of [3DNow!] is there when its opcode is read. *)
Lemma runs_predecode m d : 0 <= m < 256 -> ModRM d = m -> DecodedModRM d = true ->
  runs 5 (if negb (modrm_mod m =? 3) then o ← DecodeModRM_Disp true Mem p m; set_operand (AtSrc 0) o else mret tt) d
    (fun _ d' => predecoded d').
Proof.
  intros Hm Hr Hd. destruct (Z.eqb_spec (modrm_mod m) 3) as [E|E]; cbn [negb].
  - apply runs_ret; [lia|]. split; [exact Hd|]. left. rewrite Hr. exact E.
  - intros Hw Hms. destruct (runs_DecodeModRM_Disp m 5 d (fun o _ => o <> OperandNothing) Hm ltac:(lia) ltac:(intros o ? H; exact H) Hw Hms)
      as (o & d1 & E1 & Hw1 & Hm1 & [Hk _] & Ho).
    destruct (lookup_lt_is_Some_2 (Src (Inst d1)) 0) as [o0 Ho0]; [rewrite (wf_sources _ Hw1); lia|].
    assert (set_operand (AtSrc 0) o d1 = Ok (tt, set_Src 0 o d1)) as E2
      by (unfold set_operand, get_operand, mbind, M_bind, get_state, lift; rewrite Ho0; reflexivity).
    destruct (runs_set_operand (AtSrc 0) o 0 d1 (fun _ _ => True)) as ([] & d2 & E3 & Hw2 & Hm2 & Hk2 & _);
      [lia|cbn; lia|exact Ho|auto|exact Hw1|lia|]. rewrite E2 in E3. injection E3 as <-.
    assert (predecoded (set_Src 0 o d1)) as Hp.
    { split; [exact (Hk Hd)|]. right. exists o. split; [|exact Ho]. cbn. apply list_lookup_insert_eq. rewrite (wf_sources _ Hw1). lia. }
    exists tt, (set_Src 0 o d1). split; [unfold mbind, M_bind; rewrite E1; exact E2|]. split; [exact Hw2|]. split; [lia|].
    split; [split; [intros _; exact (proj1 Hp)|auto]|exact Hp].
Qed.

Lemma runs_Escape_3DNow d : DecodedModRM d = false -> runs 8 (Escape_3DNow true T64 Mem p) d answers.
Proof.
  intros Hd. unfold Escape_3DNow. by_bind 0. apply runs_ReadModRM; [exact Hd|lia|]. intros m d1 Hm Hr Hdec.
  by_bind 5. eapply runs_weaken; [apply (runs_predecode m d1 Hm Hr Hdec)|lia|]. intros u d2 Hp. cbv beta in Hp.
  by_bind 1. apply runs_ReadByte; [lia|]. intros x Hx. unfold table_header.
  by_bind 0. apply runs_entry; [lia|exact Hx|]. intros info Hok.
  cbn [entry_ok] in Hok. rewrite !andb_true_iff in Hok. destruct Hok as ((H1 & _) & H3).
  unfold NormalOpHeader. cbv zeta. cbn [fst snd].
  by_bind 0. apply runs_modify; [lia|auto|]. by_bind 0. apply runs_modify; [lia|auto|].
  destruct (refused info) eqn:Er; [apply runs_ret; [lia|exact Logic.I]|]. cbn [orb] in H3.
  rewrite !andb_true_iff, !negb_true_iff, Z.eqb_eq in H3. destruct H3 as ((E & H3) & H4). rewrite E.
  by_bind 0. apply runs_check; [lia|reflexivity|].
  apply (runs_NormalOp 0); [auto|exact H1|right; auto|lia].
Qed.

Lemma runs_Escape d : DecodedModRM d = false -> runs 9 (Escape true T64 Mem p) d answers.
Proof.
  intros Hd. unfold Escape. by_bind 1. apply runs_ReadByte; [lia|]. intros x Hx.
  destruct (_ =? 0x0F); [apply runs_Escape_3DNow; exact Hd|]. destruct (_ =? 0x38); [apply runs_Escape_38; exact Hd|].
  destruct (_ =? 0x3A); [apply runs_Escape_3A; exact Hd|]. apply runs_Escape_TwoByte; [exact Hd|exact Hx].
Qed.

(** ** Prefixes *)

Definition is_prefix (b : Z) : bool :=
  match legacy_prefix true b with Some _ => true | None => (0x40 <=? b) && (b <=? 0x4F) end.
(** How many of the next [n] bytes are prefixes before anything else. *)
Fixpoint prefixes (n : nat) (i : Z) : Z :=
  match n with
  | O => 0
  | S n => match read_code Mem (advance p i) 1 with
           | Some b => if is_prefix b then 1 + prefixes n (i + 1) else 0
           | None => 0
           end
  end.
Lemma prefixes_nonneg n i : 0 <= prefixes n i.
Proof. revert i. induction n as [|n IH]; intros i; cbn [prefixes]; [lia|]. destruct (read_code _ _ _); [|lia]. destruct (is_prefix _); [|lia]. specialize (IH (i + 1)). lia. Qed.

(** The programs of the prefixes change the flags only. *)
Definition only_flags (m : D unit) : Prop := forall d, exists d', m d = Ok (tt, d') /\
  InstructionSize d' = InstructionSize d /\ Src (Inst d') = Src (Inst d) /\ ModRM d' = ModRM d /\
  SIBByte d' = SIBByte d /\ DecodedModRM d' = DecodedModRM d.
Lemma only_flags_ret : only_flags (mret tt).
Proof. intros d. exists d. repeat split. Qed.
Lemma only_flags_modify f : harmless f -> only_flags (modify f).
Proof. intros Hf d. exists (f d). split; [reflexivity|apply Hf]. Qed.
Lemma only_flags_bind (m n : D unit) : only_flags m -> only_flags n -> only_flags (_ ← m; n).
Proof.
  intros Hm Hn d. destruct (Hm d) as (d1 & E1 & H1). destruct (Hn d1) as (d2 & E2 & H2). exists d2.
  unfold mbind, M_bind. rewrite E1. split; [exact E2|]. intuition congruence.
Qed.
#[local] Hint Resolve only_flags_ret only_flags_modify only_flags_bind : core.

Lemma only_flags_legacy b m : legacy_prefix true b = Some m -> only_flags m.
Proof.
  unfold legacy_prefix, escape_prefix, push_opaddr, segment_32, or_Flags.
  repeat (destruct (b =? _); [intros E; injection E as <-; auto|]). discriminate.
Qed.
Lemma only_flags_REX b : only_flags (REX_prefix true b).
Proof.
  assert (only_flags (check true)) as Hc by exact only_flags_ret. unfold REX_prefix, push_opaddr, or_Flags. cbv zeta.
  repeat apply only_flags_bind; auto; destruct (_ =? 0); auto.
Qed.

Lemma runs_only_flags m k d (Q : unit -> Decoding -> Prop) : only_flags m -> 0 <= k ->
  (forall d', InstructionSize d' = InstructionSize d -> DecodedModRM d' = DecodedModRM d -> Q tt d') -> runs k m d Q.
Proof.
  intros Hf Hk HQ [H1 H2 H3 H4] Hm. destruct (Hf d) as (d' & E & E1 & E2 & E3 & E4 & E5). exists tt, d'.
  split; [exact E|]. split; [constructor; congruence|]. unfold measure, keeps, predecoded in *. rewrite E1, E2, E3, E5.
  split; [lia|]. auto.
Qed.

(** ** The loop *)

(** What a round makes of the byte [x]. *)
Definition round_result (x : Z) d (r : option bool) (d' : Decoding) : Prop :=
  match r with
  | None => is_prefix x = true /\ DecodedModRM d' = false /\ InstructionSize d' = InstructionSize d + 1
  | Some _ => True
  end.

Lemma runs_last k (m : D bool) x d d0 : runs k m d answers -> runs k (r ← m; mret (Some r)) d (round_result x d0).
Proof.
  intros Hm. by_bind k. eapply runs_weaken; [exact Hm|lia|]. intros r d' _. apply runs_ret; [lia|exact Logic.I].
Qed.

Lemma runs_round x d : DecodedModRM d = false -> InstructionSize d < MAX_INST_SIZE ->
  read_code Mem (advance p (InstructionSize d)) 1 = Some x -> runs 10 (decode_round true T64 Mem p) d (round_result x d).
Proof.
  intros Hd Hs Hx. unfold decode_round. by_bind 0. apply runs_get; [lia|].
  replace (MAX_INST_SIZE <=? InstructionSize d) with false by lia.
  by_bind 1. apply runs_ReadByte_code; [lia|]. intros x' Hx' Hr. rewrite Hx in Hx'. injection Hx' as <-.
  destruct (Z.eqb_spec x 0x0F) as [->|Hn]; [apply (runs_last 9), runs_Escape, Hd|].
  destruct (legacy_prefix true x) as [m|] eqn:El.
  { by_bind 0. apply runs_only_flags; [exact (only_flags_legacy _ _ El)|lia|]. intros d' H1 H2. apply runs_ret; [lia|].
    split; [unfold is_prefix; rewrite El; reflexivity|]. rewrite H1, H2. auto. }
  by_bind 0. apply runs_entry; [lia|exact Hr|]. intros info Hok. cbn [fst]. cbn [entry_ok] in Hok.
  destruct (InfoType info =? TYPE_REX_PREFIX) eqn:Et.
  - by_bind 0. apply runs_only_flags; [apply only_flags_REX|lia|]. intros d' H1 H2. apply runs_ret; [lia|].
    split; [|rewrite H1, H2; auto]. unfold is_prefix. rewrite El. apply Z.eqb_eq in Et.
    assert (header_ok 9 info = true -> refused info = true) as Hh.
    { unfold header_ok. cbv zeta. rewrite Et. cbn. destruct (refused info); auto. }
    assert (refused info = false) as Hf by (unfold refused; rewrite Et; reflexivity). rewrite Hf in Hh.
    destruct (header_ok 9 info); [discriminate (Hh eq_refl)|]. cbn [andb orb] in Hok. rewrite orb_false_r in Hok. lia.
  - cbn [andb orb] in Hok. apply andb_true_iff in Hok as [Hok Hx87]. apply (runs_last 9).
    apply runs_NormalOpHeader; [exact Hd|exact Hok|lia|]. cbn [fst]. intros E. rewrite E in Hx87. cbn in Hx87. lia.
Qed.

Lemma loop_total (n k fuel : nat) d : DecodedModRM d = false -> well_formed d -> prefixes n (InstructionSize d) = Z.of_nat k ->
  (k < n)%nat -> (k < fuel)%nat -> InstructionSize d + Z.of_nat k <= 4 ->
  exists r d', decode_loop true T64 Mem p fuel d = Ok (r, d') /\ InstructionSize d' <= InstructionSize d + Z.of_nat k + 11.
Proof.
  revert n fuel d. induction k as [|k IH]; intros n fuel d Hd Hw Hp Hn Hf Hs; (destruct fuel as [|fuel]; [lia|]);
    (destruct n as [|n]; [lia|]); pose proof (wf_size _ Hw) as H0; unfold MAX_INST_SIZE in *;
    (destruct (mapped (InstructionSize d)) as [x Hx]; [unfold MAX_INST_SIZE; lia|]);
    cbn [prefixes] in Hp; rewrite Hx in Hp;
    (destruct (runs_round x d Hd ltac:(unfold MAX_INST_SIZE; lia) Hx Hw) as (r & d1 & E & Hw1 & Hm & _ & HQ);
       [unfold measure, MAX_INST_SIZE; rewrite Hd; lia|]); unfold measure in Hm; rewrite Hd in Hm;
    cbn [decode_loop]; unfold mbind, M_bind; rewrite E; destruct r as [r|]; cbn [round_result] in HQ.
  1,3: exists r, d1; split; [reflexivity|]; destruct (DecodedModRM d1); lia.
  - destruct HQ as (Hx' & _). rewrite Hx' in Hp. pose proof (prefixes_nonneg n (InstructionSize d + 1)). lia.
  - destruct HQ as (Hx' & Hd1 & Hs1). rewrite Hx' in Hp.
    destruct (IH n fuel d1 Hd1 Hw1) as (r & d' & E' & Hb); [rewrite Hs1; lia|lia|lia|lia|].
    exists r, d'. split; [exact E'|]. lia.
Qed.

(** At most four prefixes leave eleven bytes to the rest of the instruction. *)
Lemma decoding_total PC : prefixes 15 0 <= 4 ->
  exists r d, DecodeInstruction true T64 Mem p PC = Ok (r, d) /\ InstructionSize d <= prefixes 15 0 + 11.
Proof.
  intros Hp. pose proof (prefixes_nonneg 15 0) as H0.
  destruct (loop_total 15 (Z.to_nat (prefixes 15 0)) 16 (cleared PC)) as (r & d & E & Hb).
  - reflexivity.
  - constructor; cbn; lia || reflexivity.
  - cbn [InstructionSize cleared]. rewrite Z2Nat.id by lia. reflexivity.
  - lia.
  - lia.
  - cbn [InstructionSize cleared]. lia.
  - exists r, d. split; [exact E|]. cbn [InstructionSize cleared] in Hb. lia.
Qed.
End Total.
