(* ===== verification/Pages.v ===== *)
(** * Pages and flags

    [FEXHeaderUtils/TypeDefines.h], [FEXCore/Utils/MathUtils.h], the constants of
    the kernel interface that the memory system calls use, and sets of
    consecutive pages. *)
From Stdlib Require Import ZArith Lia Bool.
From stdpp Require Import base gmap list numbers option fin_sets.
From S2P Require Import Prelude.
#[local] Open Scope Z_scope.

(** ** Constants *)

Definition PROT_NONE : Z := 0.
Definition PROT_READ : Z := 1.
Definition PROT_WRITE : Z := 2.
Definition PROT_EXEC : Z := 4.
Definition MAP_SHARED : Z := 1.
Definition MAP_PRIVATE : Z := 2.
Definition MAP_FIXED : Z := 0x10.
Definition MAP_ANONYMOUS : Z := 0x20.
Definition MAP_FIXED_NOREPLACE : Z := 0x100000.
Definition SHM_RDONLY : Z := 0x1000.
Definition MREMAP_MAYMOVE : Z := 1.
Definition MREMAP_FIXED : Z := 2.
Definition MREMAP_DONTUNMAP : Z := 4.
Definition ENOMEM : Z := 12.
Definition EFAULT : Z := 14.
Definition EEXIST : Z := 17.
Definition EINVAL : Z := 22.
Definition EOVERFLOW : Z := 75.
Definition MAP_FAILED : Z := uint 64 (-1).

Definition FEX_PAGE_SIZE : Z := 4096.
Definition FEX_PAGE_SHIFT : Z := 12.
Definition FEX_PAGE_MASK : Z := uint 64 (Z.lnot (FEX_PAGE_SIZE - 1)).

Definition AlignUp (value size : Z) : Z := uint 64 (value + (size - value mod size) mod size).
Definition AlignDown (value size : Z) : Z := value - value mod size.

Definition has (bits mask : Z) : bool := negb (Z.land bits mask =? 0).

(** ** Alignment *)

Lemma AlignUp_range v : 0 <= v -> v + FEX_PAGE_SIZE < 2 ^ 64 ->
  AlignUp v FEX_PAGE_SIZE mod FEX_PAGE_SIZE = 0 /\ v <= AlignUp v FEX_PAGE_SIZE < v + FEX_PAGE_SIZE.
Proof.
  unfold AlignUp, FEX_PAGE_SIZE. intros. pose proof (Z.mod_pos_bound v 4096 ltac:(lia)).
  pose proof (Z.mod_pos_bound (4096 - v mod 4096) 4096 ltac:(lia)). rewrite uint_small by lia. split; [|lia].
  rewrite Z.add_mod_idemp_r by lia. replace (v + (4096 - v mod 4096)) with (v - v mod 4096 + 1 * 4096) by lia.
  rewrite Z.mod_add by lia. pose proof (Z.div_mod v 4096 ltac:(lia)).
  replace (v - v mod 4096) with (v / 4096 * 4096) by lia. apply Z.mod_mul. lia.
Qed.

Lemma land_PAGE_MASK v : 0 <= v < 2 ^ 64 -> Z.land v FEX_PAGE_MASK = v - v mod FEX_PAGE_SIZE.
Proof.
  intros Hv. assert (FEX_PAGE_MASK = Z.ldiff (Z.ones 64) (Z.ones 12)) as -> by reflexivity.
  transitivity (Z.ldiff v (Z.ones 12)).
  - apply Z.bits_inj'. intros n Hn. rewrite Z.land_spec, !Z.ldiff_spec.
    destruct (Z_lt_le_dec n 64).
    + rewrite (Z.ones_spec_low 64 n) by lia. reflexivity.
    + rewrite (testbit_high 64 v n) by lia. reflexivity.
  - rewrite Z.ldiff_ones_r by lia. rewrite Z.shiftl_mul_pow2, Z.shiftr_div_pow2 by lia.
    unfold FEX_PAGE_SIZE. change (2 ^ 12) with 4096. pose proof (Z.div_mod v 4096 ltac:(lia)). lia.
Qed.

(** The bits below a page: [Addr & ~FHU::FEX_PAGE_MASK]. *)
Definition page_offset_bits (v : Z) : Z := Z.land v (uint 64 (Z.lnot FEX_PAGE_MASK)).
Lemma page_offset_bits_mod v : page_offset_bits v = v mod FEX_PAGE_SIZE.
Proof. unfold page_offset_bits. change (uint 64 (Z.lnot FEX_PAGE_MASK)) with (Z.ones 12). apply Z.land_ones. lia. Qed.

(** ** Sets of pages *)

Definition pages (first count : Z) : gset Z := list_to_set (seqZ first count).
Lemma elem_of_pages p first count : p ∈ pages first count <-> first <= p < first + count.
Proof. unfold pages. rewrite elem_of_list_to_set, elem_of_seqZ. reflexivity. Qed.
Lemma pages_nil first count : count <= 0 -> pages first count = ∅.
Proof. intros Hc. apply set_eq. intros p. rewrite elem_of_pages. split; [lia|intros []%elem_of_empty]. Qed.
