(* ===== verification/FrontendBlocks.v ===== *)
(** * Decoding the blocks of a function

    The other half of [Interface/Core/Frontend.cpp]: from an entry point, decode the
    block there, and the blocks that its direct branches reach, reporting each page
    of code before it is read. *)
From Stdlib Require Import ZArith Lia Bool.
From stdpp Require Import base gmap list numbers option fin_sets.
From S2P Require Import Prelude Flags Dispatch X86Tables X86TablesExt Frontend Pages.
#[local] Open Scope Z_scope.

(** ** State *)

(** An element of [DecodedBuffer]; one that could not be decoded has no table entry. *)
Record DecodedEntry := mkDecoded { decoded : DecodedInst; decoded_info : option (TableId * Z) }.

Record DecodedBlock := mkBlock {
  BlockEntry : Z;
  DecodedInstructions : list DecodedEntry;
  HasInvalidInstruction : bool
}.

(** The members of [Decoder] that last for one function, the local variables of
    [DecodeInstructionsAtEntry], and the calls of [AddContainedCodePage] in order. *)
Record FunctionState := mkFunction {
  Blocks : list DecodedBlock;
  BlocksToDecode : gset Z;
  HasBlocks : gset Z;
  DecodedSize : Z;
  TotalInstructions : Z;
  MaxCondBranchForward : Z;
  MaxCondBranchBackwards : Z;
  DecodedMinAddress : Z;
  DecodedMaxAddress : Z;
  ExternalBranches : option (gset Z);
  CurrentCodePage : Z;
  FunctionCodePages : gset Z;
  ContainedCodePages : list (Z * Z * Z)
}.
Definition N : Type -> Type := M FunctionState.

Definition DefaultDecodedBufferSize : Z := 0x10000.

(** [std::set::begin] *)
Definition set_begin (X : gset Z) : option Z :=
  match elements X with [] => None | x :: l => Some (foldr Z.min x l) end.

Section Blocks.
Variables (Is64BitMode : bool) (T : Tables) (Mem : gmap Z Z).
Variables (OS_LINUX64 Multiblock : bool) (MaxInstPerBlock SymbolMinAddress SymbolMaxAddress : Z).

(** ** Pages *)

Definition AddContainedCodePage (BlockEntry Start Length : Z) : N unit :=
  modify (fun f => mkFunction (Blocks f) (BlocksToDecode f) (HasBlocks f) (DecodedSize f) (TotalInstructions f)
    (MaxCondBranchForward f) (MaxCondBranchBackwards f) (DecodedMinAddress f) (DecodedMaxAddress f)
    (ExternalBranches f) (CurrentCodePage f) (FunctionCodePages f) (ContainedCodePages f ++ [(BlockEntry, Start, Length)])).
Definition set_CurrentCodePage (Page : Z) : N unit :=
  modify (fun f => mkFunction (Blocks f) (BlocksToDecode f) (HasBlocks f) (DecodedSize f) (TotalInstructions f)
    (MaxCondBranchForward f) (MaxCondBranchBackwards f) (DecodedMinAddress f) (DecodedMaxAddress f)
    (ExternalBranches f) Page ({[ Page ]} ∪ FunctionCodePages f) (ContainedCodePages f)).

(** The page becomes the current one; it is reported when it is new. *)
Definition touch_page (PC Page : Z) : N unit :=
  f ← get_state;
  if Page =? CurrentCodePage f then mret tt
  else
    _ ← set_CurrentCodePage Page;
    if decide (Page ∈ FunctionCodePages f) then mret tt else AddContainedCodePage PC Page FEX_PAGE_SIZE.
Definition touch_instruction (PC OpMinAddress : Z) : N unit :=
  _ ← touch_page PC (Z.land OpMinAddress FEX_PAGE_MASK);
  touch_page PC (Z.land (uint 64 (OpMinAddress + MAX_INST_SIZE)) FEX_PAGE_MASK).

(** ** Branches *)

Definition set_BlocksToDecode (X : gset Z) : N unit :=
  modify (fun f => mkFunction (Blocks f) X (HasBlocks f) (DecodedSize f) (TotalInstructions f)
    (MaxCondBranchForward f) (MaxCondBranchBackwards f) (DecodedMinAddress f) (DecodedMaxAddress f)
    (ExternalBranches f) (CurrentCodePage f) (FunctionCodePages f) (ContainedCodePages f)).
Definition set_MaxCondBranch (TargetRIP : Z) : N unit :=
  modify (fun f => mkFunction (Blocks f) (BlocksToDecode f) (HasBlocks f) (DecodedSize f) (TotalInstructions f)
    (Z.max (MaxCondBranchForward f) TargetRIP) (Z.min (MaxCondBranchBackwards f) TargetRIP)
    (DecodedMinAddress f) (DecodedMaxAddress f)
    (ExternalBranches f) (CurrentCodePage f) (FunctionCodePages f) (ContainedCodePages f)).
Definition AddExternalBranch (RIP : Z) : N unit :=
  modify (fun f => mkFunction (Blocks f) (BlocksToDecode f) (HasBlocks f) (DecodedSize f) (TotalInstructions f)
    (MaxCondBranchForward f) (MaxCondBranchBackwards f) (DecodedMinAddress f) (DecodedMaxAddress f)
    ((fun X => {[ RIP ]} ∪ X) <$> ExternalBranches f) (CurrentCodePage f) (FunctionCodePages f) (ContainedCodePages f)).

(** A block that is neither decoded nor waiting is to be decoded. *)
Definition AddBlock (RIP : Z) : N unit :=
  f ← get_state;
  if decide (RIP ∈ HasBlocks f) then mret tt else set_BlocksToDecode ({[ RIP ]} ∪ BlocksToDecode f).

Definition branch_kind (OP : Z) : option bool :=
  if ((0x70 <=? OP) && (OP <=? 0x7F)) || ((0x80 <=? OP) && (OP <=? 0x8F)) then Some true
  else if (OP =? 0xE9) || (OP =? 0xEB) then Some false
  else None.

Definition BranchTargetInMultiblockRange (i : DecodedInst) : N unit :=
  if negb Multiblock then mret tt
  else match branch_kind (OP i) with
  | None => if OP i =? 0xE8 then AddExternalBranch (uint 64 (PC i + InstSize i)) else mret tt
  | Some Conditional =>
      match SrcOperand i 0 with
      | Literal _ Value =>
          let TargetRIP := uint 64 (PC i + InstSize i + Value) in
          let TargetRIP := if Is64BitMode then TargetRIP else Z.land TargetRIP 0xFFFFFFFF in
          if (SymbolMinAddress <=? TargetRIP) && (TargetRIP <? SymbolMaxAddress) then
            _ ← (if Conditional then _ ← set_MaxCondBranch TargetRIP; AddBlock (uint 64 (PC i + InstSize i)) else mret tt);
            AddBlock TargetRIP
          else AddExternalBranch TargetRIP
      | _ => lift Assert
      end
  end.

Definition VSyscall_Base : Z := 0xFFFFFFFFFF600000.
Definition VSyscall_End : Z := VSyscall_Base + 0x1000.
(** The stream of a guest address: the host sees guest memory at its own address. *)
Definition AdjustAddrForSpecialRegion (RIP : Z) : CodePointer :=
  if OS_LINUX64 && (VSyscall_Base <=? RIP) && (RIP <? VSyscall_End) then InVSyscall (RIP - VSyscall_Base)
  else InGuest RIP.

(** ** Blocks *)

(** The bounds and the counters after an instruction. *)
Definition count_instruction (RIP Size : Z) : N unit :=
  modify (fun f => mkFunction (Blocks f) (BlocksToDecode f) (HasBlocks f) (DecodedSize f + 1) (TotalInstructions f + 1)
    (MaxCondBranchForward f) (MaxCondBranchBackwards f)
    (Z.min (DecodedMinAddress f) RIP) (Z.max (DecodedMaxAddress f) (uint 64 (RIP + Size)))
    (ExternalBranches f) (CurrentCodePage f) (FunctionCodePages f) (ContainedCodePages f)).

(** [TableInfo->Flags] *)
Definition TableFlags (e : DecodedEntry) : outcome Z :=
  match decoded_info e with
  | None => Undef
  | Some (id, i) => info ← table_get (T id) i; Ok (InfoFlags info)
  end.

(** The instruction at [RIP], as it is left in the buffer. *)
Definition decode_entry (Stream : CodePointer) (RIP : Z) : outcome (bool * DecodedEntry) :=
  '(ok, d) ← DecodeInstruction Is64BitMode T Mem Stream RIP;
  Ok (ok, if ok : bool then mkDecoded (Inst d) (TableInfo d) else mkDecoded (Inst (set_InstSize 0 d)) None).

(** The instructions of a block in reverse, and whether the last one is invalid; no
    result when the fuel runs out. *)
Fixpoint decode_block (fuel : nat) (PC RIP : Z) (Stream : CodePointer) (acc : list DecodedEntry)
    : N (option (list DecodedEntry * bool)) :=
  match fuel with
  | O => mret None
  | S fuel =>
      _ ← touch_instruction PC RIP;
      f ← get_state;
      _ ← lift (if DecodedSize f <? DefaultDecodedBufferSize then Ok tt else Undef);
      '(ok, e) ← lift (decode_entry Stream RIP);
      _ ← count_instruction RIP (InstSize (decoded e));
      if negb (ok : bool) then mret (Some (e :: acc, true))
      else
        Flags ← lift (TableFlags e);
        _ ← (if has_flag Flags FLAGS_SETS_RIP then BranchTargetInMultiblockRange (decoded e) else mret tt);
        f ← get_state;
        if has_flag Flags (Z.lor FLAGS_BLOCK_END FLAGS_SETS_RIP)
           || (MaxInstPerBlock <=? DecodedSize f) || (DefaultDecodedBufferSize <=? DecodedSize f)
           || (MaxInstPerBlock <=? TotalInstructions f)
        then mret (Some (e :: acc, false))
        else decode_block fuel PC (uint 64 (RIP + InstSize (decoded e))) (advance Stream (InstSize (decoded e))) (e :: acc)
  end.

(** The block is removed from those to decode and added to the others. *)
Definition finish_block (RIP : Z) (l : list DecodedEntry) (invalid : bool) : N unit :=
  modify (fun f => mkFunction (Blocks f ++ [mkBlock RIP (rev l) invalid]) (BlocksToDecode f ∖ {[ RIP ]}) ({[ RIP ]} ∪ HasBlocks f)
    (DecodedSize f) (TotalInstructions f) (MaxCondBranchForward f) (MaxCondBranchBackwards f)
    (DecodedMinAddress f) (DecodedMaxAddress f) (ExternalBranches f) (CurrentCodePage f) (FunctionCodePages f) (ContainedCodePages f)).

Fixpoint decode_blocks (fuel block_fuel : nat) (PC : Z) : N (option unit) :=
  match fuel with
  | O => mret None
  | S fuel =>
      f ← get_state;
      match set_begin (BlocksToDecode f) with
      | None => mret (Some tt)
      | Some RIP =>
          r ← decode_block block_fuel PC RIP (AdjustAddrForSpecialRegion RIP) [];
          match r with
          | None => mret None
          | Some (l, invalid) => _ ← finish_block RIP l invalid; decode_blocks fuel block_fuel PC
          end
      end
  end.
End Blocks.

(** ** Functions *)

(** [std::sort] by entry; no two blocks have the same one. *)
Fixpoint insert_block (b : DecodedBlock) (l : list DecodedBlock) : list DecodedBlock :=
  match l with
  | [] => [b]
  | c :: l => if BlockEntry b <? BlockEntry c then b :: c :: l else c :: insert_block b l
  end.
Definition sort_blocks (l : list DecodedBlock) : list DecodedBlock := foldr insert_block [] l.

(** The state that the function begins with: its page is reported at once. *)
Definition start_function (External : option (gset Z)) (PC : Z) : FunctionState :=
  let Page := Z.land PC FEX_PAGE_MASK in
  mkFunction [] {[ PC ]} ∅ 0 0 0 (uint 64 (-1)) PC PC External Page {[ Page ]} [(PC, Page, FEX_PAGE_SIZE)].

(** Symbols are never available: the function may reach from its entry to the end of
    the section. *)
Definition DecodeInstructionsAtEntry (Is64BitMode : bool) (T : Tables) (Mem : gmap Z Z) (OS_LINUX64 Multiblock : bool)
    (MaxInstPerBlock SectionMaxAddress : Z) (External : option (gset Z)) (fuel block_fuel : nat) (PC : Z)
    : outcome (option (list DecodedBlock) * FunctionState) :=
  match decode_blocks Is64BitMode T Mem OS_LINUX64 Multiblock MaxInstPerBlock PC SectionMaxAddress fuel block_fuel PC
          (start_function External PC) with
  | Ok (Some tt, f) => Ok (Some (sort_blocks (Blocks f)), f)
  | Ok (None, f) => Ok (None, f)
  | Assert => Assert
  | Undef => Undef
  end.
