(* ===== verification/FrontendBlocksLogic.v ===== *)
(** * Decoding the blocks of a function: what the state records

    The invariant of [DecodeInstructionsAtEntry], shown together with what the
    decoding reads: each program is related to itself on another memory. *)
From Stdlib Require Import ZArith Lia Bool.
From stdpp Require Import base gmap list numbers option fin_sets.
From S2P Require Import Prelude Flags Dispatch X86Tables X86TablesExt Frontend FrontendLogic Pages FrontendBlocks.
#[local] Open Scope Z_scope.
#[local] Opaque VSyscallData.

Section Blocks.
Variables (Is64BitMode : bool) (T : Tables) (Mem Mem' : gmap Z Z).
Variables (OS_LINUX64 Multiblock : bool) (MaxInstPerBlock SymbolMinAddress SymbolMaxAddress : Z).
(** The entry point, under which the pages are reported. *)
Variable PC0 : Z.
(** Guest memory is an address space of 64 bits. *)
Definition addressed (m : gmap Z Z) : Prop := forall a, is_Some (m !! a) -> 0 <= a < 2 ^ 64.
Hypotheses (HMem : addressed Mem) (HMem' : addressed Mem').
Implicit Types (f : FunctionState) (e : DecodedEntry).

Definition page_of (a : Z) : Z := Z.land a FEX_PAGE_MASK.
(** The two memories agree on the pages that the function knows. *)
Definition agree f : Prop := forall a, 0 <= a < 2 ^ 64 -> page_of a ∈ FunctionCodePages f -> Mem !! a = Mem' !! a.

(** From [f] each result of [m] satisfies [Q], and [m'] has it too when the memories
    agree on what [m] knows at its end. *)
Definition ends {A} (m m' : N A) f (Q : A -> FunctionState -> Prop) : Prop :=
  forall a f', m f = Ok (a, f') ->
    FunctionCodePages f ⊆ FunctionCodePages f' /\ Q a f' /\ (agree f' -> m' f = Ok (a, f')).

Lemma ends_ret {A} (a : A) f (Q : A -> FunctionState -> Prop) : Q a f -> ends (mret a) (mret a) f Q.
Proof. intros HQ a' f' H. injection H as <- <-. auto. Qed.
Lemma ends_bind {A C} (m m' : N A) (g g' : A -> N C) f Q :
  ends m m' f (fun a f1 => ends (g a) (g' a) f1 Q) -> ends (m ≫= g) (m' ≫= g') f Q.
Proof.
  intros H c f' E. unfold mbind, M_bind in *. destruct (m f) as [[a f1]| |] eqn:E1; try discriminate E.
  destruct (H _ _ E1) as (H1 & H2 & H3). destruct (H2 _ _ E) as (H4 & H5 & H6).
  split; [set_solver|]. split; [exact H5|]. intros Ha. rewrite H3; [exact (H6 Ha)|]. intros x Hx Hp. apply Ha; [exact Hx|]. exact (H4 _ Hp).
Qed.
Lemma ends_weaken {A} (m m' : N A) f (Q Q' : A -> FunctionState -> Prop) :
  ends m m' f Q -> (forall a f', FunctionCodePages f ⊆ FunctionCodePages f' -> Q a f' -> Q' a f') -> ends m m' f Q'.
Proof. intros H HQ a f' E. destruct (H _ _ E) as (H1 & H2 & H3). auto. Qed.
Lemma ends_get f (Q : FunctionState -> FunctionState -> Prop) : Q f f -> ends get_state get_state f Q.
Proof. intros HQ a f' H. injection H as <- <-. auto. Qed.
Lemma ends_modify g f (Q : unit -> FunctionState -> Prop) : FunctionCodePages f ⊆ FunctionCodePages (g f) -> Q tt (g f) ->
  ends (modify g) (modify g) f Q.
Proof. intros Hg HQ a f' H. injection H as <- <-. auto. Qed.
Lemma ends_lift {A} (o : outcome A) f (Q : A -> FunctionState -> Prop) : (forall a, o = Ok a -> Q a f) -> ends (lift o) (lift o) f Q.
Proof. intros HQ a f' H. unfold lift in *. destruct o; try discriminate H. injection H as <- <-. auto. Qed.

(** ** Pages *)

Lemma page_covers RIP a : 0 <= RIP < 2 ^ 64 -> RIP <= a < RIP + MAX_INST_SIZE -> a < 2 ^ 64 ->
  page_of a = page_of RIP \/ page_of a = page_of (uint 64 (RIP + MAX_INST_SIZE)).
Proof.
  unfold MAX_INST_SIZE. intros HR Ha Hl. destruct (Z.eq_dec (page_of a) (page_of RIP)) as [E|E]; [left; exact E|right].
  unfold page_of in *. rewrite !land_PAGE_MASK in E by lia. unfold FEX_PAGE_SIZE in E.
  assert (RIP + 15 < 2 ^ 64) as Hw.
  { destruct (Z_lt_le_dec (RIP + 15) (2 ^ 64)); [assumption|]. exfalso. apply E. Z.div_mod_to_equations. lia. }
  rewrite (uint_small 64 (RIP + 15)), !land_PAGE_MASK by lia. unfold FEX_PAGE_SIZE. Z.div_mod_to_equations. lia.
Qed.

(** The stream and the address go together: the stream leaves guest memory where the
    address wraps. *)
Definition stream_at (S : CodePointer) (RIP : Z) : Prop :=
  0 <= RIP < 2 ^ 64 /\ match S with InGuest a => a = RIP \/ 2 ^ 64 <= a | InVSyscall _ => True end.
Lemma stream_advance S RIP n : stream_at S RIP -> 0 <= n -> stream_at (advance S n) (uint 64 (RIP + n)).
Proof.
  intros [HR HS] Hn. split; [apply uint_range; lia|]. destruct S as [a|o]; cbn; [|exact Logic.I].
  destruct HS as [->|HS]; [|right; lia]. destruct (Z_lt_le_dec (RIP + n) (2 ^ 64)); [left|right; assumption].
  rewrite uint_small by lia. reflexivity.
Qed.
Lemma stream_Adjust RIP : 0 <= RIP < 2 ^ 64 -> stream_at (AdjustAddrForSpecialRegion OS_LINUX64 RIP) RIP.
Proof. intros HR. split; [exact HR|]. unfold AdjustAddrForSpecialRegion. destruct (_ && _); auto. Qed.

Lemma unmapped m a : addressed m -> 2 ^ 64 <= a -> m !! a = None.
Proof. intros Hm Ha. destruct (m !! a) eqn:E; [|reflexivity]. destruct (Hm a ltac:(eauto)). lia. Qed.

Lemma same_stream S RIP f n : stream_at S RIP -> agree f -> n <= MAX_INST_SIZE ->
  page_of RIP ∈ FunctionCodePages f -> page_of (uint 64 (RIP + MAX_INST_SIZE)) ∈ FunctionCodePages f ->
  same_code Mem Mem' S 0 n.
Proof.
  intros [HR HS] Ha Hn H1 H2 i Hi. destruct S as [a|o]; [|reflexivity]. cbn.
  replace (Mem' !! (a + i)) with (Mem !! (a + i)); [reflexivity|].
  destruct (Z_lt_le_dec (a + i) (2 ^ 64)) as [Hl|Hl]; [|rewrite !unmapped by assumption; reflexivity].
  destruct HS as [->|HS]; [|lia]. apply Ha; [lia|].
  destruct (page_covers RIP (RIP + i) HR ltac:(lia) Hl) as [->| ->]; assumption.
Qed.

Lemma decode_entry_facts S RIP ok e : decode_entry Is64BitMode T Mem S RIP = Ok (ok, e) ->
  0 <= InstSize (decoded e) <= MAX_INST_SIZE /\ PC (decoded e) = RIP /\
  (same_code Mem Mem' S 0 MAX_INST_SIZE -> decode_entry Is64BitMode T Mem' S RIP = Ok (ok, e)).
Proof.
  unfold decode_entry. destruct (DecodeInstruction Is64BitMode T Mem S RIP) as [[r d]| |] eqn:Ed; try discriminate.
  intros E. cbn in E. injection E as <- <-. destruct (DecodeInstruction_same _ _ _ Mem' _ _ _ _ Ed) as (HPC & Hs & Hsame).
  split; [|split; [destruct r; exact HPC|]].
  - destruct r; [|cbn; unfold MAX_INST_SIZE; lia]. cbn. rewrite (DecodeInstruction_sized _ _ _ _ _ _ Ed). exact Hs.
  - intros Hc. rewrite Hsame; [reflexivity|]. intros i Hi. apply Hc. lia.
Qed.

Lemma ends_decode_entry S RIP f (Q : bool * DecodedEntry -> FunctionState -> Prop) : stream_at S RIP ->
  page_of RIP ∈ FunctionCodePages f -> page_of (uint 64 (RIP + MAX_INST_SIZE)) ∈ FunctionCodePages f ->
  (forall ok e, decode_entry Is64BitMode T Mem S RIP = Ok (ok, e) -> Q (ok, e) f) ->
  ends (lift (decode_entry Is64BitMode T Mem S RIP)) (lift (decode_entry Is64BitMode T Mem' S RIP)) f Q.
Proof.
  intros HS H1 H2 HQ [ok e] f' H. unfold lift in *. destruct (decode_entry _ _ Mem S RIP) as [[ok' e']| |] eqn:E; try discriminate H.
  injection H as -> -> <-. split; [reflexivity|]. split; [exact (HQ _ _ eq_refl)|]. intros Ha.
  destruct (decode_entry_facts _ _ _ _ E) as (_ & _ & ->); [reflexivity|].
  exact (same_stream _ _ _ _ HS Ha (Z.le_refl _) H1 H2).
Qed.

(** ** Steps within a block *)

Definition known f : gset Z := HasBlocks f ∪ BlocksToDecode f.
Definition reported (c : Z * Z * Z) : Prop := exists a, 0 <= a < 2 ^ 64 /\ c = (PC0, page_of a, FEX_PAGE_SIZE).
Definition pages_inv f : Prop := CurrentCodePage f ∈ FunctionCodePages f /\
  (forall q, q ∈ FunctionCodePages f -> (PC0, q, FEX_PAGE_SIZE) ∈ ContainedCodePages f) /\
  Forall reported (ContainedCodePages f).
Definition in_space (X : gset Z) : Prop := forall a, a ∈ X -> 0 <= a < 2 ^ 64.

(** From [f] to [f'] the decoding of a block went on by [n] instructions. *)
Record within (n : Z) f f' : Prop := {
  within_Blocks : Blocks f' = Blocks f;
  within_HasBlocks : HasBlocks f' = HasBlocks f;
  within_todo : BlocksToDecode f ⊆ BlocksToDecode f';
  within_new : BlocksToDecode f' ∖ BlocksToDecode f ## HasBlocks f;
  within_space : in_space (BlocksToDecode f) -> in_space (BlocksToDecode f');
  within_pages : pages_inv f -> pages_inv f';
  within_size : DecodedSize f' = DecodedSize f + n;
  within_buffer : DecodedSize f <= DefaultDecodedBufferSize -> DecodedSize f' <= DefaultDecodedBufferSize
}.
Lemma within_refl f : within 0 f f.
Proof. constructor; auto; [set_solver|lia]. Qed.
Lemma within_trans n m f1 f2 f3 : within n f1 f2 -> within m f2 f3 -> within (n + m) f1 f3.
Proof.
  intros [A1 A2 A3 A4 A5 A6 A7 A8] [B1 B2 B3 B4 B5 B6 B7 B8]. rewrite A2 in B4.
  constructor; auto; [congruence|congruence|set_solver| |lia]. intros x. destruct (decide (x ∈ BlocksToDecode f2)); set_solver.
Qed.
Lemma within_known n f f' : within n f f' -> known f ⊆ known f'.
Proof. intros [A1 A2 A3 A4 A5 A6 A7 A8]. unfold known. rewrite A2. set_solver. Qed.

(** A change that only touches what [within] does not mention. *)
Lemma within_other f f' : Blocks f' = Blocks f -> HasBlocks f' = HasBlocks f -> BlocksToDecode f' = BlocksToDecode f ->
  DecodedSize f' = DecodedSize f -> (pages_inv f -> pages_inv f') -> within 0 f f'.
Proof. intros H1 H2 H3 H4 H5. constructor; rewrite ?H1, ?H2, ?H3, ?H4; auto; [set_solver|lia]. Qed.

Lemma ends_touch_page a f : 0 <= a < 2 ^ 64 -> ends (touch_page PC0 (page_of a)) (touch_page PC0 (page_of a)) f
  (fun _ f' => within 0 f f' /\ (pages_inv f -> page_of a ∈ FunctionCodePages f')).
Proof.
  intros Ha. assert (reported (PC0, page_of a, FEX_PAGE_SIZE)) as Hr by (exists a; auto). set (Page := page_of a) in *. clearbody Page.
  unfold touch_page, set_CurrentCodePage, AddContainedCodePage. apply ends_bind, ends_get.
  destruct (Z.eqb_spec Page (CurrentCodePage f)) as [->|Hn].
  { apply ends_ret. split; [apply within_refl|intros [H _]; exact H]. }
  apply ends_bind, ends_modify; [cbn; set_solver|]. destruct (decide _) as [Hin|Hout].
  - apply ends_ret. cbn. split; [|set_solver]. apply within_other; try reflexivity. intros (H1 & H2 & H3). split; cbn; [set_solver|].
    split; [|exact H3]. intros q Hq. apply H2. set_solver.
  - apply ends_modify; [reflexivity|]. cbn. split; [|set_solver].  apply within_other; try reflexivity. intros (H1 & H2 & H3). split; cbn; [set_solver|].
    split; [|apply Forall_app; auto]. intros q [->%elem_of_singleton|Hq]%elem_of_union.
    + apply elem_of_app. right. apply list_elem_of_singleton. reflexivity.
    + apply elem_of_app. left. exact (H2 q Hq).
Qed.

Lemma ends_touch_instruction RIP f : 0 <= RIP < 2 ^ 64 -> ends (touch_instruction PC0 RIP) (touch_instruction PC0 RIP) f
  (fun _ f' => within 0 f f' /\ (pages_inv f -> page_of RIP ∈ FunctionCodePages f' /\
     page_of (uint 64 (RIP + MAX_INST_SIZE)) ∈ FunctionCodePages f')).
Proof.
  intros HR. unfold touch_instruction. apply ends_bind. eapply ends_weaken; [apply ends_touch_page, HR|]. intros [] f1 _ [H1 H2].
  eapply ends_weaken; [apply ends_touch_page, uint_range; lia|]. intros _ f2 Hs [H3 H4]. split; [exact (within_trans 0 0 _ _ _ H1 H3)|].
  intros Hp. split; [apply Hs, H2, Hp|apply H4, (within_pages _ _ _ H1), Hp].
Qed.

(** ** Branches *)

(** Where an instruction may go besides the next one, as far as its block is concerned:
    the target of a direct branch within the function, and the instruction after a
    conditional one. *)
Definition targets e : list Z :=
  match TableFlags T e with
  | Ok Flags =>
      let i := decoded e in
      let next := uint 64 (PC i + InstSize i) in
      if Multiblock && has_flag Flags FLAGS_SETS_RIP then
        match branch_kind (OP i), SrcOperand i 0 with
        | Some Conditional, Literal _ Value =>
            let target := uint 64 (PC i + InstSize i + Value) in
            let target := if Is64BitMode then target else Z.land target 0xFFFFFFFF in
            if (SymbolMinAddress <=? target) && (target <? SymbolMaxAddress)
            then target :: if (Conditional : bool) then [next] else [] else []
        | _, _ => []
        end
      else []
  | _ => []
  end.
Definition targets_known f e : Prop := Forall (fun a => a ∈ known f) (targets e).

Lemma ends_AddBlock RIP f : 0 <= RIP < 2 ^ 64 -> ends (AddBlock RIP) (AddBlock RIP) f (fun _ f' => within 0 f f' /\ RIP ∈ known f').
Proof.
  intros HR. unfold AddBlock, set_BlocksToDecode, known. apply ends_bind, ends_get. destruct (decide _) as [Hin|Hout].
  - apply ends_ret. split; [apply within_refl|set_solver].
  - apply ends_modify; [reflexivity|]. split; [|cbn; set_solver].
    constructor; cbn; auto; [set_solver|set_solver| |lia]. intros Hs a [->%elem_of_singleton|Ha]%elem_of_union; [exact HR|exact (Hs a Ha)].
Qed.

Lemma ends_other g f : (forall f, Blocks (g f) = Blocks f /\ HasBlocks (g f) = HasBlocks f /\ BlocksToDecode (g f) = BlocksToDecode f /\
    DecodedSize (g f) = DecodedSize f /\ CurrentCodePage (g f) = CurrentCodePage f /\ FunctionCodePages (g f) = FunctionCodePages f /\
    ContainedCodePages (g f) = ContainedCodePages f) ->
  ends (modify g) (modify g) f (fun _ f' => within 0 f f').
Proof.
  intros Hg. destruct (Hg f) as (H1 & H2 & H3 & H4 & H5 & H6 & H7). apply ends_modify; [rewrite H6; reflexivity|].
  apply within_other; auto. unfold pages_inv. rewrite H5, H6, H7. auto.
Qed.

Lemma target_range x : 0 <= (if Is64BitMode then uint 64 x else Z.land (uint 64 x) 0xFFFFFFFF) < 2 ^ 64.
Proof.
  pose proof (uint_range 64 x ltac:(lia)). destruct Is64BitMode; [assumption|]. change 0xFFFFFFFF with (Z.ones 32).
  rewrite Z.land_ones by lia. pose proof (Z.mod_pos_bound (uint 64 x) (2 ^ 32) ltac:(lia)). lia.
Qed.

Lemma ends_branch e f Flags : TableFlags T e = Ok Flags ->
  let m := if has_flag Flags FLAGS_SETS_RIP
           then BranchTargetInMultiblockRange Is64BitMode Multiblock SymbolMinAddress SymbolMaxAddress (decoded e) else mret tt in
  ends m m f (fun _ f' => within 0 f f' /\ targets_known f' e).
Proof.
  intros HF. cbv zeta. unfold BranchTargetInMultiblockRange, targets_known, targets. rewrite HF. cbv zeta.
  destruct (has_flag Flags FLAGS_SETS_RIP); [|rewrite andb_false_r; apply ends_ret; split; [apply within_refl|constructor]].
  destruct Multiblock; cbn [negb andb]; [|apply ends_ret; split; [apply within_refl|constructor]].
  destruct (branch_kind _) as [c|].
  2: { destruct (_ =? 0xE8); [|apply ends_ret; split; [apply within_refl|constructor]].
       eapply ends_weaken; [apply ends_other; intros; repeat split|]. intros [] f' _ H. split; [exact H|constructor]. }
  destruct (SrcOperand _ 0); try (intros a f' H; discriminate H). set (t := if Is64BitMode then _ else _).
  pose proof (target_range (PC (decoded e) + InstSize (decoded e) + Value)) as Ht. fold t in Ht.
  destruct (_ && _).
  2: { eapply ends_weaken; [apply ends_other; intros; repeat split|]. intros [] f' _ H. split; [exact H|constructor]. }
  apply ends_bind. destruct c.
  - apply ends_bind. eapply ends_weaken; [apply ends_other; intros; repeat split|]. intros [] f1 _ H1.
    eapply ends_weaken; [apply ends_AddBlock, uint_range; lia|]. intros [] f2 _ [H2 H2'].
    eapply ends_weaken; [apply ends_AddBlock, Ht|]. intros [] f3 _ [H3 H3']. split; [exact (within_trans 0 0 _ _ _ (within_trans 0 0 _ _ _ H1 H2) H3)|].
    constructor; [exact H3'|]. constructor; [exact (within_known _ _ _ H3 _ H2')|constructor].
  - apply ends_ret. eapply ends_weaken; [apply ends_AddBlock, Ht|]. intros [] f1 _ [H1 H1']. split; [exact H1|]. constructor; [exact H1'|constructor].
Qed.

(** ** Blocks *)

(** The instruction ends its block by itself. *)
Definition ends_block e : bool :=
  match TableFlags T e with Ok Flags => has_flag Flags (Z.lor FLAGS_BLOCK_END FLAGS_SETS_RIP) | _ => true end.

(** The instructions are those of the code, one after the other; only the last one
    may end the block, or be invalid. *)
Fixpoint code_of (S : CodePointer) (RIP : Z) (l : list DecodedEntry) (invalid : bool) : Prop :=
  match l with
  | [] => False
  | [e] => decode_entry Is64BitMode T Mem S RIP = Ok (negb invalid, e)
  | e :: l => decode_entry Is64BitMode T Mem S RIP = Ok (true, e) /\ ends_block e = false /\
      code_of (advance S (InstSize (decoded e))) (uint 64 (RIP + InstSize (decoded e))) l invalid
  end.

Definition block_result (n : nat) S RIP (acc : list DecodedEntry) f (r : option (list DecodedEntry * bool)) f' : Prop :=
  exists l, within (Z.of_nat (length l)) f f' /\ Forall (targets_known f') l /\
    match r with
    | None => length l = n
    | Some (l', invalid) => l' = rev l ++ acc /\ code_of S RIP l invalid
    end.

Lemma targets_known_mono n f f' e : within n f f' -> targets_known f e -> targets_known f' e.
Proof. intros Hw H. eapply Forall_impl; [exact H|]. intros a. exact (within_known _ _ _ Hw a). Qed.
Lemma targets_invalid i f : targets_known f (mkDecoded i None).
Proof. constructor. Qed.

Lemma ends_count RIP Size f : DecodedSize f < DefaultDecodedBufferSize ->
  ends (count_instruction RIP Size) (count_instruction RIP Size) f (fun _ f' => within 1 f f').
Proof.
  intros Hs. apply ends_modify; [reflexivity|]. constructor; cbn; auto; [set_solver|lia].
Qed.

Notation decode_block_ M n RIP S acc := (decode_block Is64BitMode T M Multiblock MaxInstPerBlock SymbolMinAddress SymbolMaxAddress n PC0 RIP S acc).
Lemma ends_decode_block n RIP S acc f : stream_at S RIP -> pages_inv f ->
  ends (decode_block_ Mem n RIP S acc) (decode_block_ Mem' n RIP S acc) f (block_result n S RIP acc f).
Proof.
  revert RIP S acc f. induction n as [|n IH]; intros RIP S acc f HS Hp; cbn [decode_block].
  { apply ends_ret. exists []. split; [apply within_refl|]. split; constructor. }
  apply ends_bind. eapply ends_weaken; [apply ends_touch_instruction, HS|]. intros [] f1 _ [W1 Hpages]. specialize (Hpages Hp).
  apply ends_bind, ends_get, ends_bind, ends_lift. intros u Hu.
  destruct (Z.ltb_spec (DecodedSize f1) DefaultDecodedBufferSize) as [Hb|]; [clear u Hu|discriminate Hu].
  apply ends_bind, ends_decode_entry; [exact HS|apply Hpages|apply Hpages|]. intros ok e He.
  destruct (decode_entry_facts _ _ _ _ He) as (Hsize & HPC & _).
  apply ends_bind. eapply ends_weaken; [apply ends_count, Hb|]. intros [] f2 _ W2.
  assert (within 1 f f2) as W by exact (within_trans 0 1 _ _ _ W1 W2).
  destruct ok; cbn [negb].
  2: { apply ends_ret. exists [e]. split; [exact W|]. split; [|split; [reflexivity|exact He]]. constructor; [|constructor].
       unfold decode_entry in He. destruct (DecodeInstruction _ _ _ _ _) as [[r d]| |]; try discriminate He. cbn in He.
       destruct r; [discriminate He|]. injection He as <-. apply targets_invalid. }
  apply ends_bind, ends_lift. intros Flags HF. apply ends_bind. eapply ends_weaken; [exact (ends_branch e f2 Flags HF)|].
  intros [] f3 _ [W3 Ht]. assert (within 1 f f3) as W' by exact (within_trans 1 0 _ _ _ W W3).
  apply ends_bind, ends_get. destruct (_ || _) eqn:Estop.
  { apply ends_ret. exists [e]. split; [exact W'|]. split; [constructor; [exact Ht|constructor]|]. split; [reflexivity|exact He]. }
  eapply ends_weaken; [apply IH|].
  - apply stream_advance; [exact HS|lia].
  - exact (within_pages _ _ _ W' Hp).
  - intros r f4 _ (l & W4 & Hl & Hr). exists (e :: l).
    split; [replace (Z.of_nat (length (e :: l))) with (1 + Z.of_nat (length l)) by (cbn [length]; lia); exact (within_trans _ _ _ _ _ W' W4)|].
    split; [constructor; [exact (targets_known_mono _ _ _ _ W4 Ht)|exact Hl]|].
    destruct r as [[l' invalid]|]; [|cbn [length]; lia]. destruct Hr as [-> Hc].
    split; [cbn [rev]; rewrite <- app_assoc; reflexivity|]. cbn [code_of]. destruct l as [|e' l]; [destruct Hc|].
    split; [exact He|]. split; [|exact Hc]. unfold ends_block. rewrite HF. rewrite !orb_false_iff in Estop. apply Estop.
Qed.

(** ** Functions *)

Definition block_ok f (b : DecodedBlock) : Prop :=
  code_of (AdjustAddrForSpecialRegion OS_LINUX64 (BlockEntry b)) (BlockEntry b) (DecodedInstructions b) (HasInvalidInstruction b) /\
  Forall (targets_known f) (DecodedInstructions b).
Definition instructions (l : list DecodedBlock) : Z := foldr (fun b n => Z.of_nat (length (DecodedInstructions b)) + n) 0 l.

Record function_inv f : Prop := {
  inv_pages : pages_inv f;
  inv_space : in_space (BlocksToDecode f);
  inv_blocks : Forall (block_ok f) (Blocks f);
  inv_has : HasBlocks f = list_to_set (BlockEntry <$> Blocks f);
  inv_distinct : NoDup (BlockEntry <$> Blocks f);
  inv_todo : BlocksToDecode f ## HasBlocks f;
  inv_entry : PC0 ∈ known f;
  inv_size : DecodedSize f = instructions (Blocks f);
  inv_buffer : DecodedSize f <= DefaultDecodedBufferSize
}.

Lemma set_begin_None X : set_begin X = None -> X = ∅.
Proof. unfold set_begin. destruct (elements X) eqn:E; [intros _; apply elements_empty_inv in E; set_solver|discriminate]. Qed.
Lemma foldr_min_in x l : foldr Z.min x l ∈ x :: l.
Proof.
  induction l as [|y l IH]; cbn; [left|]. destruct (Z.min_spec y (foldr Z.min x l)) as [[_ ->]|[_ ->]]; [right; left|].
  apply elem_of_cons in IH as [->|IH]; [left|right; right; exact IH].
Qed.
Lemma set_begin_Some X a : set_begin X = Some a -> a ∈ X.
Proof.
  unfold set_begin. destruct (elements X) as [|x l] eqn:E; [discriminate|]. intros H. injection H as <-.
  apply elem_of_elements. rewrite E. apply foldr_min_in.
Qed.

Lemma instructions_app l1 l2 : instructions (l1 ++ l2) = instructions l1 + instructions l2.
Proof. unfold instructions. induction l1 as [|b l1 IH]; cbn; [reflexivity|]. rewrite IH. lia. Qed.

(** A finished block joins the others. *)
Lemma function_finish RIP f f1 l invalid : function_inv f -> RIP ∈ BlocksToDecode f -> within (Z.of_nat (length l)) f f1 ->
  Forall (targets_known f1) l -> code_of (AdjustAddrForSpecialRegion OS_LINUX64 RIP) RIP l invalid ->
  forall u f2, finish_block RIP (rev l) invalid f1 = Ok (u, f2) -> function_inv f2 /\ known f2 = known f1.
Proof.
  intros [I1 I2 I3 I4 I5 I6 I7 I8 I9] Hin W Hl Hc u f2 H. injection H as _ <-. rewrite rev_involutive.
  pose proof (within_known _ _ _ W) as HK. destruct W as [W1 W2 W3 W4 W5 W6 W7 W8].
  match goal with |- function_inv ?f2 /\ _ => assert (known f2 = known f1) as Hk end.
  { unfold known. cbn. apply set_eq. intros a. destruct (decide (a = RIP)); set_solver. }
  split; [|exact Hk]. constructor.
  - exact (W6 I1).
  - intros a Ha. apply (W5 I2). cbn in Ha. set_solver.
  - unfold block_ok, targets_known in *. rewrite Hk. cbn. rewrite W1. apply Forall_app. split.
    + eapply Forall_impl; [exact I3|]. intros b [H1 H2]. split; [exact H1|]. eapply Forall_impl; [exact H2|].
      intros e He. eapply Forall_impl; [exact He|]. intros a. apply HK.
    + constructor; [split; [exact Hc|exact Hl]|constructor].
  - cbn. rewrite W1, W2, I4, fmap_app, list_to_set_app_L. cbn. set_solver.
  - cbn. rewrite W1, fmap_app. apply NoDup_app. split; [exact I5|]. split; [|apply NoDup_singleton].
    intros a Ha Ha'. apply list_elem_of_singleton in Ha'. cbn in Ha'. subst a. apply (I6 RIP Hin). rewrite I4.
    apply elem_of_list_to_set, Ha.
  - cbn. rewrite W2. set_solver.
  - rewrite Hk. apply HK, I7.
  - cbn. rewrite W7, W1, instructions_app, I8. unfold instructions. cbn. lia.
  - exact (W8 I9).
Qed.

Lemma code_of_nonempty S RIP l invalid : code_of S RIP l invalid -> 1 <= Z.of_nat (length l).
Proof. destruct l; [intros []|cbn [length]; lia]. Qed.

(** Out of fuel, as many instructions were decoded as there was fuel. *)
Definition function_result (n bn : nat) f (r : option unit) f' : Prop :=
  match r with
  | None => DecodedSize f + Z.of_nat (Nat.min n bn) <= DecodedSize f' <= DefaultDecodedBufferSize
  | Some tt => function_inv f' /\ BlocksToDecode f' = ∅
  end.

Notation decode_blocks_ M n bn := (decode_blocks Is64BitMode T M OS_LINUX64 Multiblock MaxInstPerBlock SymbolMinAddress SymbolMaxAddress n bn PC0).
Lemma ends_decode_blocks n bn f : function_inv f ->
  ends (decode_blocks_ Mem n bn) (decode_blocks_ Mem' n bn) f (function_result n bn f).
Proof.
  revert f. induction n as [|n IH]; intros f Hf; cbn [decode_blocks].
  { apply ends_ret. unfold function_result. cbn [Nat.min]. pose proof (inv_buffer _ Hf). lia. }
  apply ends_bind, ends_get. destruct (set_begin (BlocksToDecode f)) as [RIP|] eqn:E.
  2: { apply ends_ret. split; [exact Hf|exact (set_begin_None _ E)]. }
  apply set_begin_Some in E. apply ends_bind.
  eapply ends_weaken; [apply ends_decode_block; [apply stream_Adjust, (inv_space _ Hf _ E)|exact (inv_pages _ Hf)]|].
  intros r f1 _ (l & W & Hl & Hr). destruct r as [[l' invalid]|].
  2: { apply ends_ret. unfold function_result. rewrite (within_size _ _ _ W), Hr.
       pose proof (within_buffer _ _ _ W (inv_buffer _ Hf)) as Hb. rewrite (within_size _ _ _ W), Hr in Hb. lia. }
  destruct Hr as [-> Hc]. rewrite app_nil_r. apply ends_bind.
  apply (ends_modify _ _ (fun _ f2 => ends _ _ f2 _)); [reflexivity|].
  destruct (function_finish _ _ _ _ _ Hf E W Hl Hc tt _ eq_refl) as [Hf2 _].
  eapply ends_weaken; [exact (IH _ Hf2)|]. intros r f3 _ H. destruct r as [[]|]; [exact H|].
  unfold function_result in *. cbn [DecodedSize] in H. rewrite (within_size _ _ _ W) in H.
  pose proof (code_of_nonempty _ _ _ _ Hc). lia.
Qed.

Lemma function_start External : 0 <= PC0 < 2 ^ 64 -> function_inv (start_function External PC0).
Proof.
  intros HP. constructor; cbn.
  - split; [|split]; cbn; [set_solver|intros q ->%elem_of_singleton; left|]. constructor; [exists PC0; auto|constructor].
  - intros a ->%elem_of_singleton. exact HP.
  - constructor.
  - reflexivity.
  - constructor.
  - set_solver.
  - unfold known. cbn. set_solver.
  - reflexivity.
  - unfold DefaultDecodedBufferSize. lia.
Qed.
End Blocks.
