(* ===== verification/VMATracking.v ===== *)
(** * Tracking of guest memory mappings

    [Source/Tests/LinuxSyscalls/SyscallsVMATracking.cpp]: the mappings of the
    guest, ordered by start address, with a doubly linked list of the mappings of each shared
    resource. A [VMAEntry *] is the key of its entry in [VMAs] (the nodes of a
    [std::map] do not move) and a [MappedResource *] is the key of the resource;
    following a pointer to an erased object is undefined behaviour. *)
From Stdlib Require Import ZArith Lia Bool.
From stdpp Require Import base gmap list numbers option.
From S2P Require Import Prelude.
#[local] Open Scope Z_scope.

(** ** Data *)

Record MRID := mkMRID { dev : Z; id : Z }.
#[export] Instance MRID_eq_dec : EqDecision MRID.
Proof. solve_decision. Defined.
#[export] Instance MRID_countable : Countable MRID.
Proof.
  refine (inj_countable' (fun m => (dev m, id m)) (fun p => mkMRID p.1 p.2) _). intros []. reflexivity.
Defined.

Definition SpecialDev_Anon : Z := 0x100000000.
Definition SpecialDev_SHM : Z := 0x200000000.

Record MappedResource := mkResource {
  AOTIRCacheEntry : option Z;
  FirstVMA : option Z;
  Resource_Length : Z
}.

(** [VMAProt::All] is three bits; [VMAFlags] is the bit [Shared]. *)
Record VMAEntry := mkVMA {
  Resource : option MRID;
  ResourcePrevVMA : option Z;
  ResourceNextVMA : option Z;
  Base : Z;
  Offset : Z;
  Length : Z;
  Flags : bool;
  Prot : Z
}.

(** [UnloadedAOTIR] records the calls of [UnloadAOTIRCacheEntry]. *)
Record VMATracking := mkTracking {
  VMAs : gmap Z VMAEntry;
  MappedResources : gmap MRID MappedResource;
  UnloadedAOTIR : list Z
}.

Abbreviation T := (M VMATracking).

Definition with_prev (p : option Z) (e : VMAEntry) : VMAEntry :=
  mkVMA (Resource e) p (ResourceNextVMA e) (Base e) (Offset e) (Length e) (Flags e) (Prot e).
Definition with_next (n : option Z) (e : VMAEntry) : VMAEntry :=
  mkVMA (Resource e) (ResourcePrevVMA e) n (Base e) (Offset e) (Length e) (Flags e) (Prot e).
Definition with_length (l : Z) (e : VMAEntry) : VMAEntry :=
  mkVMA (Resource e) (ResourcePrevVMA e) (ResourceNextVMA e) (Base e) (Offset e) l (Flags e) (Prot e).
Definition with_prot (p : Z) (e : VMAEntry) : VMAEntry :=
  mkVMA (Resource e) (ResourcePrevVMA e) (ResourceNextVMA e) (Base e) (Offset e) (Length e) (Flags e) p.
Definition with_first (f : option Z) (r : MappedResource) : MappedResource :=
  mkResource (AOTIRCacheEntry r) f (Resource_Length r).

Definition set_vmas (m : gmap Z VMAEntry) (t : VMATracking) : VMATracking :=
  mkTracking m (MappedResources t) (UnloadedAOTIR t).
Definition set_resources (m : gmap MRID MappedResource) (t : VMATracking) : VMATracking :=
  mkTracking (VMAs t) m (UnloadedAOTIR t).

(** Reading and writing through pointers. *)
Definition getV (k : Z) : T VMAEntry := t ← get_state; lift (deref (VMAs t !! k)).
Definition setV (k : Z) (f : VMAEntry -> VMAEntry) : T unit :=
  e ← getV k; modify (fun t => set_vmas (<[k := f e]> (VMAs t)) t).
Definition getR (r : MRID) : T MappedResource := t ← get_state; lift (deref (MappedResources t !! r)).
Definition setR (r : MRID) (f : MappedResource -> MappedResource) : T unit :=
  R ← getR r; modify (fun t => set_resources (<[r := f R]> (MappedResources t)) t).

(** [VMAs.emplace]: whether the entry was inserted. *)
Definition emplace (k : Z) (e : VMAEntry) : T bool :=
  t ← get_state;
  match VMAs t !! k with
  | Some _ => mret false
  | None => _ ← modify (set_vmas (<[k := e]> (VMAs t))); mret true
  end.
Definition erase (k : Z) : T unit := modify (fun t => set_vmas (base.delete k (VMAs t)) t).
Definition erase_resource (r : MRID) : T unit :=
  modify (fun t => set_resources (base.delete r (MappedResources t)) t).

Definition ptr_eqb (p q : option Z) : bool := bool_decide (p = q).
Definition res_eqb (p q : option MRID) : bool := bool_decide (p = q).
Definition isSome {A} (o : option A) : bool := match o with Some _ => true | None => false end.
Definition when_ptr (p : option Z) (f : Z -> T unit) : T unit :=
  match p with Some k => f k | None => mret tt end.

(** ** List operations *)

Definition ListCheckVMALinks (VMA : option Z) : T unit :=
  when_ptr VMA (fun k =>
    e ← getV k;
    _ ← check (negb (ptr_eqb (ResourceNextVMA e) (Some k)));
    check (negb (ptr_eqb (ResourcePrevVMA e) (Some k)))).

(** The resource of a mapping that must have one. *)
Definition resource_of (e : VMAEntry) : T MRID := lift (deref (Resource e)).

Definition ListRemove (VMA : Z) : T bool :=
  e ← getV VMA;
  _ ← check (isSome (Resource e));
  r ← resource_of e;
  _ ← match ResourcePrevVMA e with
      | Some p =>
          pe ← getV p; _ ← check (ptr_eqb (ResourceNextVMA pe) (Some VMA));
          setV p (with_next (ResourceNextVMA e))
      | None => R ← getR r; check (ptr_eqb (FirstVMA R) (Some VMA))
      end;
  e ← getV VMA;
  _ ← when_ptr (ResourceNextVMA e) (fun n =>
        ne ← getV n; _ ← check (ptr_eqb (ResourcePrevVMA ne) (Some VMA));
        setV n (with_prev (ResourcePrevVMA e)));
  e ← getV VMA;
  R ← getR r;
  _ ← (if ptr_eqb (FirstVMA R) (Some VMA) then
         _ ← when_ptr (ResourceNextVMA e) (fun n =>
               ne ← getV n; check (negb (isSome (ResourcePrevVMA ne))));
         setR r (with_first (ResourceNextVMA e))
       else mret tt);
  _ ← ListCheckVMALinks (Some VMA);
  _ ← ListCheckVMALinks (ResourceNextVMA e);
  _ ← ListCheckVMALinks (ResourcePrevVMA e);
  R ← getR r;
  mret (negb (isSome (FirstVMA R))).

Definition ListReplace (VMA NewVMA : Z) : T unit :=
  e ← getV VMA; ne ← getV NewVMA;
  _ ← check (isSome (Resource e));
  _ ← check (res_eqb (Resource e) (Resource ne));
  _ ← check (ptr_eqb (ResourcePrevVMA ne) (ResourcePrevVMA e));
  _ ← check (ptr_eqb (ResourceNextVMA ne) (ResourceNextVMA e));
  r ← resource_of e;
  R ← getR r;
  _ ← match ResourcePrevVMA e with
      | Some p =>
          _ ← check (negb (ptr_eqb (FirstVMA R) (Some VMA)));
          pe ← getV p; _ ← check (ptr_eqb (ResourceNextVMA pe) (Some VMA));
          setV p (with_next (Some NewVMA))
      | None =>
          _ ← check (ptr_eqb (FirstVMA R) (Some VMA));
          setR r (with_first (Some NewVMA))
      end;
  e ← getV VMA;
  _ ← when_ptr (ResourceNextVMA e) (fun n =>
        nx ← getV n; _ ← check (ptr_eqb (ResourcePrevVMA nx) (Some VMA));
        setV n (with_prev (Some NewVMA)));
  _ ← ListCheckVMALinks (Some VMA);
  _ ← ListCheckVMALinks (Some NewVMA);
  e ← getV VMA;
  _ ← ListCheckVMALinks (ResourceNextVMA e);
  ListCheckVMALinks (ResourcePrevVMA e).

Definition ListInsertAfter (AfterVMA NewVMA : Z) : T unit :=
  ae ← getV AfterVMA; ne ← getV NewVMA;
  _ ← check (isSome (Resource ne));
  _ ← check (res_eqb (Resource ae) (Resource ne));
  _ ← check (ptr_eqb (ResourcePrevVMA ne) (Some AfterVMA));
  _ ← check (ptr_eqb (ResourceNextVMA ne) (ResourceNextVMA ae));
  _ ← when_ptr (ResourceNextVMA ae) (fun n =>
        nx ← getV n; _ ← check (ptr_eqb (ResourcePrevVMA nx) (Some AfterVMA));
        setV n (with_prev (Some NewVMA)));
  _ ← setV AfterVMA (with_next (Some NewVMA));
  _ ← ListCheckVMALinks (Some AfterVMA);
  _ ← ListCheckVMALinks (Some NewVMA);
  ae ← getV AfterVMA;
  _ ← ListCheckVMALinks (ResourceNextVMA ae);
  ListCheckVMALinks (ResourcePrevVMA ae).

Definition ListPrepend (r : MRID) (NewVMA : Z) : T unit :=
  ne ← getV NewVMA;
  R ← getR r;
  _ ← check (res_eqb (Resource ne) (Some r));
  _ ← check (negb (isSome (ResourcePrevVMA ne)));
  _ ← check (ptr_eqb (ResourceNextVMA ne) (FirstVMA R));
  _ ← when_ptr (FirstVMA R) (fun f =>
        fe ← getV f; _ ← check (negb (isSome (ResourcePrevVMA fe)));
        setV f (with_prev (Some NewVMA)));
  _ ← setR r (with_first (Some NewVMA));
  _ ← ListCheckVMALinks (Some NewVMA);
  ne ← getV NewVMA;
  _ ← ListCheckVMALinks (ResourceNextVMA ne);
  ListCheckVMALinks (ResourcePrevVMA ne).

(** ** Iteration order of [VMAs]

    An iterator is the key of its entry. [key_before m k] is the entry a
    decrement reaches from [lower_bound(k)], [key_from m k] is
    [lower_bound(k)]. *)
Definition key_before (m : gmap Z VMAEntry) (k : Z) : option Z :=
  foldr (fun x acc => if x <? k then Some (match acc with Some y => Z.max x y | None => x end) else acc)
        None (map_to_list m).*1.
Definition key_from (m : gmap Z VMAEntry) (k : Z) : option Z :=
  foldr (fun x acc => if k <=? x then Some (match acc with Some y => Z.min x y | None => x end) else acc)
        None (map_to_list m).*1.

(** ** Tracking *)

(** [upper_bound(GuestAddr)], stepped back once unless it is the first entry. *)
Definition LookupVMAUnsafe (t : VMATracking) (GuestAddr : Z) : option (Z * VMAEntry) :=
  k ← key_before (VMAs t) (GuestAddr + 1);
  e ← VMAs t !! k;
  if (k <=? GuestAddr) && (GuestAddr <? uint 64 (k + Length e)) then Some (k, e) else None.

Definition release (r : MRID) : T unit :=
  R ← getR r;
  _ ← (match AOTIRCacheEntry R with
       | Some a => modify (fun t => mkTracking (VMAs t) (MappedResources t) (UnloadedAOTIR t ++ [a]))
       | None => mret tt
       end);
  erase_resource r.

(** The body of [ClearUnsafe]'s loop at the entry [Current]; the result is
    whether the loop goes on. *)
Definition clear_step (Base_ Top : Z) (Preserved : option MRID) (Current : Z) : T bool :=
  e ← getV Current;
  let MapBase := Base e in
  let MapTop := uint 64 (MapBase + Length e) in
  let OffsetDiff := uint 64 (Offset e - MapBase) in
  if MapTop <=? Base_ then mret false
  else
    let HasFirstPart := MapBase <? Base_ in
    let HasTrailingPart := Top <? MapTop in
    if negb HasFirstPart && negb HasTrailingPart then
      _ ← (match Resource e with
           | Some r =>
               empty ← ListRemove Current;
               if (empty : bool) && negb (res_eqb (Some r) Preserved) then release r else mret tt
           | None => mret tt
           end);
      _ ← erase Current; mret true
    else
      _ ← (if HasFirstPart then setV Current (with_length (uint 64 (Base_ - MapBase))) else mret tt);
      let ReplaceAndErase := negb HasFirstPart in
      _ ← (if HasTrailingPart then
             let NewOffset := uint 64 (OffsetDiff + Top) in
             let NewLength := uint 64 (MapTop - Top) in
             e ← getV Current;
             Inserted ← emplace Top
               (mkVMA (Resource e) (if ReplaceAndErase then ResourcePrevVMA e else Some Current)
                      (ResourceNextVMA e) Top NewOffset NewLength (Flags e) (Prot e));
             _ ← check Inserted;
             if isSome (Resource e) then
               (if ReplaceAndErase then ListReplace Current Top else ListInsertAfter Current Top)
             else mret tt
           else mret tt);
      _ ← (if ReplaceAndErase then erase Current else mret tt);
      mret true.

(** The backward iteration from the entry before [k], with fuel. The entries the
    body inserts are not before the current one. *)
Fixpoint walk_back (fuel : nat) (step : Z -> T bool) (k : Z) : T unit :=
  match fuel with
  | O => fun _ => Undef
  | S fuel =>
      t ← get_state;
      match key_before (VMAs t) k with
      | None => mret tt
      | Some c => go ← step c; if (go : bool) then walk_back fuel step c else mret tt
      end
  end.

(** One iteration per entry, and the test that ends the loop. *)
Definition loop_fuel (t : VMATracking) : nat := S (size (VMAs t)).

Definition ClearUnsafe (Base_ Length_ : Z) (Preserved : option MRID) : T unit :=
  let Top := uint 64 (Base_ + Length_) in
  t ← get_state; walk_back (loop_fuel t) (clear_step Base_ Top Preserved) Top.

Definition SetUnsafe (Resource_ : option MRID) (Base_ Offset_ Length_ : Z) (Flags_ : bool) (Prot_ : Z)
    : T unit :=
  _ ← ClearUnsafe Base_ Length_ Resource_;
  First ← (match Resource_ with Some r => R ← getR r; mret (FirstVMA R) | None => mret None end);
  Inserted ← emplace Base_ (mkVMA Resource_ None First Base_ Offset_ Length_ Flags_ Prot_);
  _ ← check Inserted;
  match Resource_ with Some r => ListPrepend r Base_ | None => mret tt end.

(** The body of [ChangeUnsafe]'s loop. *)
Definition change_step (Base_ Top NewProt : Z) (Current : Z) : T bool :=
  e ← getV Current;
  let MapBase := Base e in
  let MapTop := uint 64 (MapBase + Length e) in
  let MapFlags := Flags e in
  let MapProt := Prot e in
  let OffsetDiff := uint 64 (Offset e - MapBase) in
  if MapTop <=? Base_ then mret false
  else if MapProt =? NewProt then mret true
  else
    let HasFirstPart := MapBase <? Base_ in
    let HasTrailingPart := Top <? MapTop in
    Current ← (if HasFirstPart then
        _ ← setV Current (with_length (uint 64 (Base_ - MapBase)));
        let NewOffset := uint 64 (OffsetDiff + Base_) in
        let NewLength := uint 64 (Top - Base_) in
        e ← getV Current;
        Inserted ← emplace Base_ (mkVMA (Resource e) (Some Current) (ResourceNextVMA e)
                                     Base_ NewOffset NewLength MapFlags NewProt);
        _ ← check Inserted;
        _ ← (if isSome (Resource e) then ListInsertAfter Current Base_ else mret tt);
        mret Base_
      else
        _ ← setV Current (with_prot NewProt); mret Current);
    _ ← (if HasTrailingPart then
        e ← getV Current;
        _ ← setV Current (with_length (uint 64 (Top - Base e)));
        let NewOffset := uint 64 (OffsetDiff + Top) in
        let NewLength := uint 64 (MapTop - Top) in
        e ← getV Current;
        Inserted ← emplace Top (mkVMA (Resource e) (Some Current) (ResourceNextVMA e)
                                   Top NewOffset NewLength MapFlags MapProt);
        _ ← check Inserted;
        if isSome (Resource e) then ListInsertAfter Current Top else mret tt
      else mret tt);
    mret true.

Definition ChangeUnsafe (Base_ Length_ NewProt : Z) : T unit :=
  let Top := uint 64 (Base_ + Length_) in
  t ← get_state; walk_back (loop_fuel t) (change_step Base_ Top NewProt) Top.

(** The search of [ClearShmUnsafe] and its second loop, forward from [k]. *)
Fixpoint find_shm (fuel : nat) (Base_ k : Z) : T (option Z) :=
  match fuel with
  | O => fun _ => Undef
  | S fuel =>
      t ← get_state;
      match key_from (VMAs t) k with
      | None => mret None
      | Some c =>
          e ← getV c;
          _ ← check (Base_ <=? Base e);
          match Resource e with
          | Some r =>
              if (uint 64 (Base e - Base_) =? Offset e) && (dev r =? SpecialDev_SHM)
              then mret (Some c) else find_shm fuel Base_ (c + 1)
          | None => find_shm fuel Base_ (c + 1)
          end
      end
  end.

Fixpoint clear_shm (fuel : nat) (Base_ ShmLength : Z) (r : MRID) (c : Z) : T unit :=
  match fuel with
  | O => fun _ => Undef
  | S fuel =>
      e ← getV c;
      _ ← (if res_eqb (Resource e) (Some r) then
             empty ← ListRemove c;
             _ ← (if (empty : bool) then release r else mret tt);
             erase c
           else mret tt);
      t ← get_state;
      match key_from (VMAs t) (c + 1) with
      | None => mret tt
      | Some c =>
          e ← getV c;
          if uint 64 (Base e + Length e - Base_) <=? ShmLength
          then clear_shm fuel Base_ ShmLength r c else mret tt
      end
  end.

Definition ClearShmUnsafe (Base_ : Z) : T Z :=
  t ← get_state;
  Entry ← find_shm (loop_fuel t) Base_ Base_;
  match Entry with
  | None => mret 0
  | Some c =>
      e ← getV c;
      r ← resource_of e;
      R ← getR r;
      let ShmLength := Resource_Length R in
      _ ← clear_shm (loop_fuel t) Base_ ShmLength r c;
      mret ShmLength
  end.
