(* ===== verification/VMALists.v ===== *)
(** * The lists of mappings of a resource

    The doubly linked list that starts at [FirstVMA] of a resource, as a ghost
    list of keys; and for each list operation: it runs without a failed check,
    and it removes, replaces or inserts one element of the ghost list. *)
From Stdlib Require Import ZArith Lia Bool.
From stdpp Require Import base gmap list numbers option.
From S2P Require Import Prelude VMATracking.
#[local] Open Scope Z_scope.

(** ** Segments of a doubly linked list *)

Definition hd_or (ks : list Z) (n : option Z) : option Z :=
  match ks with [] => n | k :: _ => Some k end.
Fixpoint last_or (p : option Z) (ks : list Z) : option Z :=
  match ks with [] => p | k :: ks => last_or (Some k) ks end.

Definition node_at (m : gmap Z VMAEntry) (r : MRID) (p : option Z) (k : Z) (n : option Z) : Prop :=
  exists e, m !! k = Some e /\ Resource e = Some r /\ ResourcePrevVMA e = p /\ ResourceNextVMA e = n.

(** [ks] is linked from [p] to [n]. *)
Fixpoint dseg (m : gmap Z VMAEntry) (r : MRID) (p : option Z) (ks : list Z) (n : option Z) : Prop :=
  match ks with
  | [] => True
  | k :: ks => node_at m r p k (hd_or ks n) /\ dseg m r (Some k) ks n
  end.

Lemma dseg_app m r p l1 l2 n :
  dseg m r p (l1 ++ l2) n <-> dseg m r p l1 (hd_or l2 n) /\ dseg m r (last_or p l1) l2 n.
Proof.
  revert p. induction l1 as [|k l1 IH]; intros p; cbn [app dseg last_or]; [tauto|].
  rewrite IH. assert (hd_or (l1 ++ l2) n = hd_or l1 (hd_or l2 n)) as -> by (destruct l1; reflexivity).
  tauto.
Qed.

Lemma last_or_snoc p l k : last_or p (l ++ [k]) = Some k.
Proof. revert p. induction l as [|x l IH]; intros p; cbn; auto. Qed.

Lemma dseg_frame m m' r p ks n :
  (forall k, k ∈ ks -> m' !! k = m !! k) -> dseg m r p ks n -> dseg m' r p ks n.
Proof.
  revert p. induction ks as [|k ks IH]; intros p Hm; cbn [dseg]; [tauto|].
  intros [(e & He & H) Hs]. split.
  - exists e. rewrite Hm by apply list_elem_of_here. auto.
  - apply IH; [|exact Hs]. intros. apply Hm, list_elem_of_further. assumption.
Qed.

Lemma dseg_resource m r p ks n k :
  dseg m r p ks n -> k ∈ ks -> exists e, m !! k = Some e /\ Resource e = Some r.
Proof.
  revert p. induction ks as [|x ks IH]; intros p H Hk; [inversion Hk|].
  destruct H as [(e & He & Hr & _) H]. apply elem_of_cons in Hk as [->|Hk]; eauto.
Qed.

(** ** The ghost lists *)

Record linked (t : VMATracking) (L : MRID -> list Z) : Prop := {
  linked_first r R : MappedResources t !! r = Some R -> FirstVMA R = hd_or (L r) None;
  linked_seg r : dseg (VMAs t) r None (L r) None;
  linked_nodup r : NoDup (L r);
  linked_dom r : L r <> [] -> is_Some (MappedResources t !! r)
}.

(** What the list operations leave alone: everything but the links. *)
Definition strip (e : VMAEntry) : VMAEntry := with_prev None (with_next None e).
Definition strip_r (R : MappedResource) : MappedResource := with_first None R.

Record same_shape (t t' : VMATracking) : Prop := {
  shape_vmas : strip <$> VMAs t' = strip <$> VMAs t;
  shape_res : strip_r <$> MappedResources t' = strip_r <$> MappedResources t;
  shape_aot : UnloadedAOTIR t' = UnloadedAOTIR t
}.

Lemma same_shape_refl t : same_shape t t.
Proof. constructor; reflexivity. Qed.
Lemma same_shape_trans t0 t1 t2 : same_shape t0 t1 -> same_shape t1 t2 -> same_shape t0 t2.
Proof. intros [] []. constructor; congruence. Qed.

Lemma strip_insert (m : gmap Z VMAEntry) k e e' :
  m !! k = Some e -> strip e' = strip e -> strip <$> <[k := e']> m = strip <$> m.
Proof.
  intros Hk He. rewrite fmap_insert, He. apply insert_id. rewrite lookup_fmap, Hk. reflexivity.
Qed.

Lemma strip_r_insert (m : gmap MRID MappedResource) r R R' :
  m !! r = Some R -> strip_r R' = strip_r R -> strip_r <$> <[r := R']> m = strip_r <$> m.
Proof.
  intros Hk He. rewrite fmap_insert, He. apply insert_id. rewrite lookup_fmap, Hk. reflexivity.
Qed.

(** ** Running the operations *)

Lemma getV_Ok t k e : VMAs t !! k = Some e -> getV k t = Ok (e, t).
Proof. intros H. unfold getV, get_state, mbind, M_bind, lift. rewrite H. reflexivity. Qed.
Lemma getR_Ok t r R : MappedResources t !! r = Some R -> getR r t = Ok (R, t).
Proof. intros H. unfold getR, get_state, mbind, M_bind, lift. rewrite H. reflexivity. Qed.
Lemma setV_Ok t k e f :
  VMAs t !! k = Some e -> setV k f t = Ok (tt, set_vmas (<[k := f e]> (VMAs t)) t).
Proof. intros H. unfold setV. rewrite (M_bind_Ok _ _ _ _ _ (getV_Ok _ _ _ H)). reflexivity. Qed.
Lemma setR_Ok t r R f :
  MappedResources t !! r = Some R -> setR r f t = Ok (tt, set_resources (<[r := f R]> (MappedResources t)) t).
Proof. intros H. unfold setR. rewrite (M_bind_Ok _ _ _ _ _ (getR_Ok _ _ _ H)). reflexivity. Qed.
Lemma check_Ok (t : VMATracking) b : b = true -> check b t = Ok (tt, t).
Proof. intros ->. reflexivity. Qed.

Lemma ptr_eqb_refl p : ptr_eqb p p = true.
Proof. apply bool_decide_true. reflexivity. Qed.
Lemma res_eqb_refl p : res_eqb p p = true.
Proof. apply bool_decide_true. reflexivity. Qed.
Lemma ptr_eqb_ne p q : p <> q -> ptr_eqb p q = false.
Proof. apply bool_decide_false. Qed.

(** A mapping whose links do not point to itself passes [ListCheckVMALinks]. *)
Lemma ListCheck_Ok t VMA :
  (forall k, VMA = Some k -> exists e, VMAs t !! k = Some e /\
     ResourceNextVMA e <> Some k /\ ResourcePrevVMA e <> Some k) ->
  ListCheckVMALinks VMA t = Ok (tt, t).
Proof.
  intros H. destruct VMA as [k|]; [|reflexivity].
  destruct (H k eq_refl) as (e & He & Hn & Hp). unfold ListCheckVMALinks, when_ptr.
  rewrite (M_bind_Ok _ _ _ _ _ (getV_Ok _ _ _ He)), !ptr_eqb_ne by assumption. reflexivity.
Qed.

(** ** Updating links *)

Lemma dseg_set_next m r p l x e n0 n :
  dseg m r p (l ++ [x]) n0 -> m !! x = Some e -> x ∉ l ->
  dseg (<[x := with_next n e]> m) r p (l ++ [x]) n.
Proof.
  rewrite !dseg_app. intros [Hl [(e' & He' & Hr & Hp & _) _]] He Hx. rewrite He in He'.
  injection He' as <-. split.
  - eapply dseg_frame; [|exact Hl]. intros k Hk. apply lookup_insert_ne. congruence.
  - split; [|exact I]. exists (with_next n e). rewrite lookup_insert_eq. auto.
Qed.

Lemma dseg_set_prev m r p0 p x l e n :
  dseg m r p0 (x :: l) n -> m !! x = Some e -> x ∉ l ->
  dseg (<[x := with_prev p e]> m) r p (x :: l) n.
Proof.
  intros [(e' & He' & Hr & _ & Hn) Hl] He Hx. rewrite He in He'. injection He' as <-. split.
  - exists (with_prev p e). rewrite lookup_insert_eq. auto.
  - eapply dseg_frame; [|exact Hl]. intros k Hk. apply lookup_insert_ne. congruence.
Qed.

(** A segment is not affected by a node outside it. *)
Lemma dseg_insert_ne m r p ks n x e : x ∉ ks -> dseg m r p ks n -> dseg (<[x := e]> m) r p ks n.
Proof. intros Hx. apply dseg_frame. intros k Hk. apply lookup_insert_ne. congruence. Qed.

Definition upd (r : MRID) (l : list Z) (L : MRID -> list Z) : MRID -> list Z :=
  fun r' => if decide (r' = r) then l else L r'.

Lemma upd_eq r l L : upd r l L r = l.
Proof. unfold upd. rewrite decide_True; reflexivity. Qed.
Lemma upd_ne r r' l L : r' <> r -> upd r l L r' = L r'.
Proof. intros. unfold upd. rewrite decide_False; auto. Qed.

(** Changing the links of mappings of [r] only concerns its own list. *)
Lemma linked_upd t t' L r R R' l :
  linked t L -> MappedResources t !! r = Some R ->
  MappedResources t' = <[r := R']> (MappedResources t) ->
  (forall k e, VMAs t !! k = Some e -> Resource e <> Some r -> VMAs t' !! k = Some e) ->
  FirstVMA R' = hd_or l None -> dseg (VMAs t') r None l None -> NoDup l ->
  linked t' (upd r l L).
Proof.
  intros [HF HS HN HD] HR HR' Hother Hf Hs Hn. constructor.
  - intros r' R0 H0. rewrite HR' in H0. destruct (decide (r' = r)) as [->|Hne].
    + rewrite lookup_insert_eq in H0. injection H0 as <-. rewrite upd_eq. exact Hf.
    + rewrite lookup_insert_ne in H0 by congruence. rewrite upd_ne by exact Hne. auto.
  - intros r'. destruct (decide (r' = r)) as [->|Hne]; [rewrite upd_eq; exact Hs|].
    rewrite upd_ne by exact Hne. eapply dseg_frame; [|apply HS].
    intros k Hk. destruct (dseg_resource _ _ _ _ _ _ (HS r') Hk) as (e & He & Hre).
    rewrite He. apply Hother; [exact He|congruence].
  - intros r'. destruct (decide (r' = r)) as [->|Hne]; [rewrite upd_eq; exact Hn|].
    rewrite upd_ne by exact Hne. apply HN.
  - intros r' H. rewrite HR'. destruct (decide (r' = r)) as [->|Hne].
    + rewrite lookup_insert_eq. eauto.
    + rewrite upd_ne in H by exact Hne. rewrite lookup_insert_ne by congruence. auto.
Qed.

(** The nodes around a node of a list. *)
Lemma linked_node t L r k l1 l2 :
  linked t L -> L r = l1 ++ k :: l2 ->
  exists R e, MappedResources t !! r = Some R /\ FirstVMA R = hd_or (l1 ++ k :: l2) None /\
    VMAs t !! k = Some e /\ Resource e = Some r /\
    ResourcePrevVMA e = last_or None l1 /\ ResourceNextVMA e = hd_or l2 None /\
    dseg (VMAs t) r None l1 (Some k) /\ dseg (VMAs t) r (Some k) l2 None /\
    NoDup (l1 ++ k :: l2).
Proof.
  intros Hl HL. destruct (linked_dom _ _ Hl r) as [R HR]; [rewrite HL; destruct l1; discriminate|].
  pose proof (linked_seg _ _ Hl r) as Hs. rewrite HL in Hs. apply dseg_app in Hs as [H1 [(e & He & ?) H2]].
  exists R, e. pose proof (linked_first _ _ Hl r R HR) as HF. pose proof (linked_nodup _ _ Hl r) as HN.
  rewrite HL in HF, HN. intuition.
Qed.

Lemma NoDup_middle (l1 l2 : list Z) k :
  NoDup (l1 ++ k :: l2) -> (k ∉ l1) /\ (k ∉ l2) /\ NoDup (l1 ++ l2).
Proof.
  intros H. apply list.NoDup_app in H as (N1 & Hd & N2). apply list.NoDup_cons in N2 as [Hk N2].
  split; [|split].
  - intros Hi. apply (Hd k Hi), list_elem_of_here.
  - exact Hk.
  - apply list.NoDup_app. split; [exact N1|]. split; [|exact N2].
    intros x Hx Hx2. apply (Hd x Hx), list_elem_of_further, Hx2.
Qed.

(** ** Removal *)

(** Runs an operation on known nodes: reads, checks, writes and the branches on
    pointers that the hypotheses determine. *)
Ltac lookups :=
  cbn [VMAs MappedResources set_vmas set_resources];
  repeat first [ rewrite lookup_insert_eq | rewrite lookup_insert_ne by congruence ];
  first [eassumption | reflexivity].
Ltac links :=
  repeat first
  [ progress cbn [deref lift when_ptr Resource ResourcePrevVMA ResourceNextVMA FirstVMA with_prev
                  with_next with_first isSome negb]
  | match goal with
    | H : Resource ?e = _ |- context [Resource ?e] => rewrite H
    | H : ResourcePrevVMA ?e = _ |- context [ResourcePrevVMA ?e] => rewrite H
    | H : ResourceNextVMA ?e = _ |- context [ResourceNextVMA ?e] => rewrite H
    | H : FirstVMA ?e = _ |- context [FirstVMA ?e] => rewrite H
    end
  | rewrite ptr_eqb_refl | rewrite res_eqb_refl
  | match goal with |- context [ptr_eqb ?p ?q] => rewrite (ptr_eqb_ne p q) by congruence end ].
Ltac run_check :=
  let k := fresh in let E := fresh in
  intros k E; first
  [ discriminate E
  | injection E as <-; eexists; split; [lookups|split; links; congruence] ].
Ltac vstep :=
  lazymatch goal with
  | |- context [((_ ≫= _) ≫= _) _] => rewrite M_bind_assoc
  | |- context [(lift (Ok ?a) ≫= ?f) ?s] => change ((lift (Ok a) ≫= f) s) with (f a s)
  | |- context [(mret ?a ≫= ?f) ?s] => change ((mret a ≫= f) s) with (f a s)
  | |- context [(getV _ ≫= _) _] => erewrite (M_bind_Ok (getV _)) by (apply getV_Ok; lookups)
  | |- context [(getR _ ≫= _) _] => erewrite (M_bind_Ok (getR _)) by (apply getR_Ok; lookups)
  | |- context [(setV _ _ ≫= _) _] => erewrite (M_bind_Ok (setV _ _)) by (apply setV_Ok; lookups)
  | |- context [(setR _ _ ≫= _) _] => erewrite (M_bind_Ok (setR _ _)) by (apply setR_Ok; lookups)
  | |- context [(check _ ≫= _) _] =>
      erewrite (M_bind_Ok (check _)) by (apply check_Ok; links; reflexivity)
  | |- context [(ListCheckVMALinks _ ≫= _) _] =>
      erewrite (M_bind_Ok (ListCheckVMALinks _)) by (apply ListCheck_Ok; run_check)
  | |- context [ListCheckVMALinks ?v ?s] => rewrite (ListCheck_Ok s v) by run_check
  end; cbv beta iota.
Ltac vrun := repeat (links; vstep); links.

Lemma last_or_in l x : last_or None l = Some x -> x ∈ l.
Proof.
  destruct l as [|y l _] using rev_ind; [discriminate|]. rewrite last_or_snoc. intros [= ->].
  apply elem_of_app. right. apply list_elem_of_here.
Qed.
Lemma hd_or_in l x : hd_or l None = Some x -> x ∈ l.
Proof. destruct l; [discriminate|]. intros [= ->]. apply list_elem_of_here. Qed.

(** The predecessor of a node of a list. *)
Lemma pred_node m r l1 p k :
  dseg m r None (l1 ++ [p]) (Some k) -> NoDup (l1 ++ [p]) ->
  exists pe, m !! p = Some pe /\ Resource pe = Some r /\ ResourcePrevVMA pe = last_or None l1 /\
    ResourceNextVMA pe = Some k /\ last_or None l1 <> Some p.
Proof.
  intros Hs HN. apply dseg_app in Hs as [_ [(pe & ? & ? & ? & ?) _]]. exists pe.
  apply list.NoDup_app in HN as (_ & Hd & _). repeat split; auto.
  intros E. apply (Hd p); [apply last_or_in, E|apply list_elem_of_here].
Qed.

(** The successor. *)
Lemma succ_node m r k n l2 :
  dseg m r (Some k) (n :: l2) None -> NoDup (n :: l2) ->
  exists ne, m !! n = Some ne /\ Resource ne = Some r /\ ResourcePrevVMA ne = Some k /\
    ResourceNextVMA ne = hd_or l2 None /\ hd_or l2 None <> Some n.
Proof.
  intros [(ne & ? & ? & ? & ?) _] HN. exists ne. apply list.NoDup_cons in HN as [Hn _].
  repeat split; auto. intros E. apply Hn, hd_or_in, E.
Qed.

Lemma hd_or_app l1 l2 n : hd_or (l1 ++ l2) n = hd_or l1 (hd_or l2 n).
Proof. destruct l1; reflexivity. Qed.

(** Lists are equal up to the nodes outside them. *)
Lemma other_resource (m : gmap Z VMAEntry) r k e x ex :
  m !! x = Some ex -> Resource ex = Some r -> m !! k = Some e -> Resource e <> Some r -> k <> x.
Proof. congruence. Qed.

(** The first node of a list that does not start with its last part. *)
Lemma first_of_app l p l' : exists f, hd_or ((l ++ [p]) ++ l') None = Some f /\ f ∈ l ++ [p].
Proof. destruct l as [|x l]; eexists; (split; [reflexivity|apply list_elem_of_here]). Qed.

Ltac solve_shape :=
  constructor; cbn [VMAs MappedResources UnloadedAOTIR set_vmas set_resources]; try reflexivity;
  repeat first
  [ reflexivity
  | erewrite strip_insert by first [lookups | reflexivity]
  | erewrite strip_r_insert by first [lookups | reflexivity] ].

(** What a list says of the predecessor and of the successor of a node. *)
Lemma pred_facts t L r l1 p k l2 :
  linked t L -> L r = (l1 ++ [p]) ++ k :: l2 ->
  exists pe f, VMAs t !! p = Some pe /\ Resource pe = Some r /\ ResourcePrevVMA pe = last_or None l1 /\
    ResourceNextVMA pe = Some k /\ last_or None l1 <> Some p /\ p <> k /\ (p ∉ l1) /\ (p ∉ l2) /\
    hd_or (L r) None = Some f /\ f <> k.
Proof.
  intros Hl HL. destruct (linked_node _ _ _ _ _ _ Hl HL) as (R & e & _ & _ & _ & _ & _ & _ & Hs1 & _ & HN).
  destruct (NoDup_middle _ _ _ HN) as (Hk1 & Hk2 & HN'). apply list.NoDup_app in HN' as (HN1 & Hd & _).
  destruct (pred_node _ _ _ _ _ Hs1 HN1) as (pe & Hp & Hrp & Hpp & Hnp & Hpp').
  destruct (first_of_app l1 p (k :: l2)) as (f & Hf & Hfk).
  assert (p ∈ l1 ++ [p]) as Hin by (apply elem_of_app; right; apply list_elem_of_here).
  exists pe, f. rewrite HL. apply list.NoDup_app in HN1 as (_ & Hd1 & _).
  repeat split; auto; try (intros ->; tauto).
  - intros Hi. apply (Hd1 p Hi), list_elem_of_here.
Qed.

Lemma succ_facts t L r l1 k n l2 :
  linked t L -> L r = l1 ++ k :: n :: l2 ->
  exists ne, VMAs t !! n = Some ne /\ Resource ne = Some r /\ ResourcePrevVMA ne = Some k /\
    ResourceNextVMA ne = hd_or l2 None /\ hd_or l2 None <> Some n /\ n <> k /\ (n ∉ l1) /\ (n ∉ l2).
Proof.
  intros Hl HL. destruct (linked_node _ _ _ _ _ _ Hl HL) as (R & e & _ & _ & _ & _ & _ & _ & _ & Hs2 & HN).
  destruct (NoDup_middle _ _ _ HN) as (Hk1 & Hk2 & HN'). apply list.NoDup_app in HN' as (_ & Hd & HN2).
  destruct (succ_node _ _ _ _ _ Hs2 HN2) as (ne & Hn & Hrn & Hpn & Hnn & Hnn').
  apply list.NoDup_cons in HN2 as [Hn2 _]. exists ne.
  repeat split; auto.
  - intros ->. apply Hk2, list_elem_of_here.
  - intros Hi. apply (Hd n Hi), list_elem_of_here.
Qed.

(** A node that is new to a list is not next to one of its nodes. *)
Lemma NoDup_replace (l1 l2 : list Z) k x : NoDup (l1 ++ k :: l2) -> x ∉ l1 ++ k :: l2 -> NoDup (l1 ++ x :: l2).
Proof.
  intros HN Hx. destruct (NoDup_middle _ _ _ HN) as (_ & _ & HN').
  rewrite <- Permutation_middle. apply list.NoDup_cons. split; [|exact HN'].
  intros Hi. apply Hx. apply elem_of_app in Hi as [?|?]; apply elem_of_app; [left|right; apply list_elem_of_further]; assumption.
Qed.

(** The facts of a list operation at a node [k] between [l1] and [l2]. *)
Ltac around_pred Hl HL l1 :=
  let p := fresh "p" in
  destruct l1 as [|p l1 _] using rev_ind;
  [|let pe := fresh "pe" in let f := fresh "f" in let Hf := fresh "Hf" in
    destruct (pred_facts _ _ _ _ _ _ _ Hl HL) as (pe & f & ? & ? & ? & ? & ? & ? & ? & ? & Hf & ?);
    rewrite HL in Hf; match goal with H : _ = hd_or _ None |- _ => rewrite Hf in H end;
    rewrite ?last_or_snoc in * ].
Ltac around_succ Hl HL l2 :=
  let n := fresh "n" in
  destruct l2 as [|n l2];
  [|destruct (succ_facts _ _ _ _ _ _ _ Hl HL) as (? & ? & ? & ? & ? & ? & ? & ? & ?)].
Ltac in_cons := first [apply list_elem_of_here | apply list_elem_of_further; in_cons].
(** Inequalities of nodes from the absence of one in a list. *)
Ltac absent := repeat match goal with
  | H : ?x ∉ ?l ++ [?p] |- _ =>
      let H1 := fresh in let H2 := fresh in
      assert (x ∉ l) as H1 by (intros ?; apply H, elem_of_app; left; assumption);
      assert (x <> p) as H2 by (intros ->; apply H, elem_of_app; right; apply list_elem_of_here); clear H
  | H : ?x ∉ ?l ++ _ :: _ |- _ =>
      let H1 := fresh in let H2 := fresh in
      assert (x ∉ l) as H1 by (intros ?; apply H, elem_of_app; left; assumption);
      pose proof (fun Hi => H (proj2 (elem_of_app _ _ _) (or_intror Hi))) as H2; change (x ∉ _) in H2; clear H
  | H : ?x ∉ ?y :: ?l |- _ =>
      let H1 := fresh in let H2 := fresh in
      assert (x <> y) as H1 by (intros ->; apply H, list_elem_of_here);
      assert (x ∉ l) as H2 by (intros ?; apply H, list_elem_of_further; assumption); clear H
  | H : ?x ∉ [] |- _ => clear H
  | H : ?x ∉ ?l |- _ =>
      lazymatch l with _ :: _ => fail | _ ++ _ => fail | _ => idtac end;
      assert_fails (assert (last_or None l <> Some x) by assumption);
      assert (last_or None l <> Some x) by (intros E; apply H, last_or_in, E);
      assert (hd_or l None <> Some x) by (intros E; apply H, hd_or_in, E)
  end.
Ltac notin := rewrite ?elem_of_app, ?elem_of_cons, ?elem_of_nil; intuition congruence.
(** Segments after an update of the nodes around them. *)
Ltac elsewhere := intros ? ? ? ?; cbn; rewrite ?lookup_insert_ne by congruence; assumption.

Lemma ListRemove_spec t L r k l1 l2 :
  linked t L -> L r = l1 ++ k :: l2 ->
  exists t', ListRemove k t = Ok (bool_decide (l1 ++ l2 = []), t') /\
    linked t' (upd r (l1 ++ l2) L) /\ same_shape t t'.
Proof.
  intros Hl HL.
  destruct (linked_node _ _ _ _ _ _ Hl HL) as (R & e & HR & HF & He & Hre & Hpe & Hne & Hs1 & Hs2 & HN).
  destruct (NoDup_middle _ _ _ HN) as (Hk1 & Hk2 & HN').
  around_pred Hl HL l1; around_succ Hl HL l2; cbn [hd_or last_or app] in *; absent;
    eexists; unfold ListRemove, resource_of; vrun;
    rewrite ?bool_decide_false by (destruct l1; discriminate); (split; [reflexivity|]; split; [|solve_shape]).
  - eapply linked_upd; [exact Hl|exact HR|reflexivity|auto|reflexivity|exact I|exact HN'].
  - eapply linked_upd; [exact Hl|exact HR|reflexivity|elsewhere|reflexivity| |exact HN'].
    eapply dseg_set_prev; [exact Hs2|eassumption|assumption].
  - eapply linked_upd; [exact Hl|exact HR|symmetry; apply insert_id, HR|elsewhere| | |exact HN'].
    + rewrite HF, <- Hf. rewrite !hd_or_app. destruct l1; reflexivity.
    + rewrite app_nil_r. eapply dseg_set_next; [exact Hs1|eassumption|assumption].
  - eapply linked_upd; [exact Hl|exact HR|symmetry; apply insert_id, HR|elsewhere| | |exact HN'].
    + rewrite HF, <- Hf. rewrite !hd_or_app. destruct l1; reflexivity.
    + apply dseg_app. rewrite last_or_snoc. split.
      * apply dseg_insert_ne; [notin|]. eapply dseg_set_next; [exact Hs1|eassumption|assumption].
      * eapply dseg_set_prev; [|cbn; rewrite lookup_insert_ne by congruence; eassumption|assumption].
        apply dseg_insert_ne; [notin|exact Hs2].
Qed.

(** ** Replacement and insertion *)

Section NewNode.
Context (t : VMATracking) (L : MRID -> list Z) (r : MRID) (x : Z) (nx : VMAEntry).
Hypothesis Hl : linked t L.
Hypothesis Hx : VMAs t !! x = Some nx.
Hypothesis Hrx : Resource nx = Some r.
Hypothesis Hnew : x ∉ L r.

Lemma ListReplace_spec k l1 l2 :
  L r = l1 ++ k :: l2 ->
  ResourcePrevVMA nx = last_or None l1 -> ResourceNextVMA nx = hd_or l2 None ->
  exists t', ListReplace k x t = Ok (tt, t') /\ linked t' (upd r (l1 ++ x :: l2) L) /\ same_shape t t'.
Proof.
  intros HL Hpx Hnx. rewrite HL in Hnew.
  destruct (linked_node _ _ _ _ _ _ Hl HL) as (R & e & HR & HF & He & Hre & Hpe & Hne & Hs1 & Hs2 & HN).
  pose proof (NoDup_replace _ _ _ _ HN Hnew) as HNx. destruct (NoDup_middle _ _ _ HN) as (Hk1 & Hk2 & HN').
  around_pred Hl HL l1; around_succ Hl HL l2; cbn [hd_or last_or app] in *; absent;
    eexists; unfold ListReplace, resource_of; vrun; (split; [reflexivity|]; split; [|solve_shape]).
  - eapply linked_upd; [exact Hl|exact HR|reflexivity|auto|reflexivity| |exact HNx].
    split; [|exact I]. exists nx. auto.
  - eapply linked_upd; [exact Hl|exact HR|reflexivity|elsewhere|reflexivity| |exact HNx].
    split.
    + exists nx. cbn. rewrite lookup_insert_ne by congruence. auto.
    + eapply dseg_set_prev; [exact Hs2|eassumption|assumption].
  - eapply linked_upd; [exact Hl|exact HR|symmetry; apply insert_id, HR|elsewhere| | |exact HNx].
    + rewrite HF, <- Hf. rewrite !hd_or_app. destruct l1; reflexivity.
    + apply dseg_app. split; [eapply dseg_set_next; [exact Hs1|eassumption|assumption]|].
      rewrite last_or_snoc. split; [|exact I]. exists nx. cbn. rewrite lookup_insert_ne by congruence. auto.
  - eapply linked_upd; [exact Hl|exact HR|symmetry; apply insert_id, HR|elsewhere| | |exact HNx].
    + rewrite HF, <- Hf. rewrite !hd_or_app. destruct l1; reflexivity.
    + apply dseg_app. rewrite last_or_snoc. split; [|split].
      * apply dseg_insert_ne; [notin|]. eapply dseg_set_next; [exact Hs1|eassumption|assumption].
      * exists nx. cbn. rewrite !lookup_insert_ne by congruence. auto.
      * eapply dseg_set_prev; [|cbn; rewrite lookup_insert_ne by congruence; eassumption|assumption].
        apply dseg_insert_ne; [notin|exact Hs2].
Qed.

Lemma ListInsertAfter_spec k l1 l2 :
  L r = l1 ++ k :: l2 ->
  ResourcePrevVMA nx = Some k -> ResourceNextVMA nx = hd_or l2 None ->
  exists t', ListInsertAfter k x t = Ok (tt, t') /\ linked t' (upd r (l1 ++ k :: x :: l2) L) /\ same_shape t t'.
Proof.
  intros HL Hpx Hnx. rewrite HL in Hnew.
  destruct (linked_node _ _ _ _ _ _ Hl HL) as (R & e & HR & HF & He & Hre & Hpe & Hne & Hs1 & Hs2 & HN).
  assert (NoDup (l1 ++ k :: x :: l2)) as HNx.
  { replace (l1 ++ k :: x :: l2) with ((l1 ++ [k]) ++ x :: l2) by (rewrite <- app_assoc; reflexivity).
    rewrite <- Permutation_middle, <- app_assoc.
    apply list.NoDup_cons. split; [exact Hnew|exact HN]. }
  destruct (NoDup_middle _ _ _ HN) as (Hk1 & Hk2 & HN').
  pose proof HF as HF'.
  around_pred Hl HL l1; around_succ Hl HL l2; cbn [hd_or last_or app] in *; absent;
    eexists; unfold ListInsertAfter; vrun; (split; [reflexivity|]; split; [|solve_shape]);
    (eapply linked_upd; [exact Hl|exact HR|symmetry; apply insert_id, HR|elsewhere
    |rewrite HF, ?hd_or_app; reflexivity| |exact HNx]);
    (lazymatch type of Hs1 with dseg _ _ _ ?l _ => refine (proj2 (dseg_app _ _ _ l _ _) _) end;
    rewrite ?last_or_snoc; cbn [dseg hd_or last_or]; split;
    [repeat (apply dseg_insert_ne; [notin|]); exact Hs1
    |split; [exists (with_next (Some x) e)|split; [exists nx|]]]); cbn;
    try (rewrite ?lookup_insert_ne by congruence; rewrite ?lookup_insert_eq; rewrite ?lookup_insert_ne by congruence; tauto).
  all: lazymatch goal with |- node_at ?m ?r ?p ?k _ /\ dseg _ _ _ ?l ?n => change (dseg m r p (k :: l) n) end;
    apply dseg_insert_ne; [notin|]; eapply dseg_set_prev; [exact Hs2|eassumption|assumption].
Qed.

Lemma ListPrepend_spec R :
  MappedResources t !! r = Some R ->
  ResourcePrevVMA nx = None -> ResourceNextVMA nx = hd_or (L r) None ->
  exists t', ListPrepend r x t = Ok (tt, t') /\ linked t' (upd r (x :: L r) L) /\ same_shape t t'.
Proof.
  intros HR Hpx Hnx. pose proof (linked_first _ _ Hl r R HR) as HF.
  pose proof (linked_seg _ _ Hl r) as Hs. pose proof (linked_nodup _ _ Hl r) as HN.
  assert (NoDup (x :: L r)) as HNx by (apply list.NoDup_cons; auto).
  destruct (L r) as [|f l] eqn:HL; cbn [hd_or] in *; absent.
  - eexists; unfold ListPrepend; vrun. split; [reflexivity|]. split; [|solve_shape].
    eapply linked_upd; [exact Hl|exact HR|reflexivity|auto|reflexivity| |exact HNx].
    split; [|exact I]. exists nx. auto.
  - pose proof Hs as [(fe & Hfe & Hrf & Hpf & Hnf) _]. apply list.NoDup_cons in HN as [Hfl HN]. absent.
    eexists; unfold ListPrepend; vrun. split; [reflexivity|]. split; [|solve_shape].
    eapply linked_upd; [exact Hl|exact HR|reflexivity|elsewhere|reflexivity| |exact HNx].
    split.
    + exists nx. cbn. rewrite lookup_insert_ne by congruence. auto.
    + eapply dseg_set_prev; [exact Hs|exact Hfe|assumption].
Qed.
End NewNode.

(** * The address space a [VMATracking] describes

    Well-formedness of the tracking state, the mapping of an address, the order
    of the iterators, and a rule for the backward loops. *)
(** ** Iterators *)

Lemma elem_of_keys (m : gmap Z VMAEntry) x : x ∈ (map_to_list m).*1 <-> is_Some (m !! x).
Proof.
  rewrite list_elem_of_fmap. split.
  - intros ([y e] & -> & H%elem_of_map_to_list). exists e. exact H.
  - intros [e He]. exists (x, e). split; [reflexivity|]. apply elem_of_map_to_list, He.
Qed.

(** [c] is the last entry before [k], [c] is the first entry from [k]. *)
Definition is_before (m : gmap Z VMAEntry) (k : Z) (o : option Z) : Prop :=
  match o with
  | Some c => is_Some (m !! c) /\ c < k /\ forall x, is_Some (m !! x) -> x < k -> x <= c
  | None => forall x, is_Some (m !! x) -> k <= x
  end.
Definition is_from (m : gmap Z VMAEntry) (k : Z) (o : option Z) : Prop :=
  match o with
  | Some c => is_Some (m !! c) /\ k <= c /\ forall x, is_Some (m !! x) -> k <= x -> c <= x
  | None => forall x, is_Some (m !! x) -> x < k
  end.

Lemma key_before_spec m k : is_before m k (key_before m k).
Proof.
  unfold key_before.
  enough (forall l, match foldr (fun x acc => if x <? k then Some (match acc with Some y => Z.max x y | None => x end) else acc) None l with
    | Some c => c ∈ l /\ c < k /\ forall x, x ∈ l -> x < k -> x <= c
    | None => forall x, x ∈ l -> k <= x end) as H.
  { specialize (H (map_to_list m).*1). destruct (foldr _ _ _) as [c|]; cbn.
    - rewrite <- elem_of_keys. destruct H as (? & ? & H). repeat split; auto.
      intros x Hx. apply H, elem_of_keys, Hx.
    - intros x Hx. apply H, elem_of_keys, Hx. }
  induction l as [|y l IH]; cbn [foldr]; [intros x Hx; inversion Hx|].
  destruct (Z.ltb_spec y k).
  - destruct (foldr _ _ l) as [c|]; repeat split; try lia.
    + destruct IH as (Hc & _ & _). destruct (Z.max_spec y c) as [[_ ->]|[_ ->]]; apply elem_of_cons; auto.
    + intros x [->|Hx]%elem_of_cons Hlt; [lia|]. destruct IH as (_ & _ & IH). specialize (IH x Hx Hlt). lia.
    + apply list_elem_of_here.
    + intros x [->|Hx]%elem_of_cons Hlt; [lia|]. specialize (IH x Hx). lia.
  - destruct (foldr _ _ l) as [c|].
    + destruct IH as (Hc & ? & IH). repeat split; [apply elem_of_cons; auto|lia|].
      intros x [->|Hx]%elem_of_cons Hlt; [lia|auto].
    + intros x [->|Hx]%elem_of_cons; [lia|auto].
Qed.

Lemma key_from_spec m k : is_from m k (key_from m k).
Proof.
  unfold key_from.
  enough (forall l, match foldr (fun x acc => if k <=? x then Some (match acc with Some y => Z.min x y | None => x end) else acc) None l with
    | Some c => c ∈ l /\ k <= c /\ forall x, x ∈ l -> k <= x -> c <= x
    | None => forall x, x ∈ l -> x < k end) as H.
  { specialize (H (map_to_list m).*1). destruct (foldr _ _ _) as [c|]; cbn.
    - rewrite <- elem_of_keys. destruct H as (? & ? & H). repeat split; auto.
      intros x Hx. apply H, elem_of_keys, Hx.
    - intros x Hx. apply H, elem_of_keys, Hx. }
  induction l as [|y l IH]; cbn [foldr]; [intros x Hx; inversion Hx|].
  destruct (Z.leb_spec k y).
  - destruct (foldr _ _ l) as [c|]; repeat split; try lia.
    + destruct IH as (Hc & _ & _). destruct (Z.min_spec y c) as [[_ ->]|[_ ->]]; apply elem_of_cons; auto.
    + intros x [->|Hx]%elem_of_cons Hlt; [lia|]. destruct IH as (_ & _ & IH). specialize (IH x Hx Hlt). lia.
    + apply list_elem_of_here.
    + intros x [->|Hx]%elem_of_cons Hlt; [lia|]. specialize (IH x Hx). lia.
  - destruct (foldr _ _ l) as [c|].
    + destruct IH as (Hc & ? & IH). repeat split; [apply elem_of_cons; auto|lia|].
      intros x [->|Hx]%elem_of_cons Hlt; [lia|auto].
    + intros x [->|Hx]%elem_of_cons; [lia|auto].
Qed.

(** ** Well-formedness *)

(** The entries: keyed by their base, not empty, below the end of the address
    space, and apart from each other. *)
Record ok_vmas (m : gmap Z VMAEntry) : Prop := {
  ok_entry k e : m !! k = Some e -> Base e = k /\ 0 <= k /\ 0 < Length e /\ k + Length e < 2 ^ 64;
  ok_apart k e k' : m !! k = Some e -> is_Some (m !! k') -> k < k' -> k + Length e <= k'
}.

Record wf_with (t : VMATracking) (L : MRID -> list Z) : Prop := {
  wf_vmas : ok_vmas (VMAs t);
  wf_linked : linked t L;
  wf_member k e r : VMAs t !! k = Some e -> Resource e = Some r -> k ∈ L r
}.
Definition wf (t : VMATracking) : Prop := exists L, wf_with t L.

(** What is mapped at an address: the resource, the offset in it, the flags and
    the protection. *)
Definition mapping : Type := option MRID * Z * bool * Z.
Definition at_offset (e : VMAEntry) (a : Z) : mapping :=
  (Resource e, uint 64 (Offset e + (a - Base e)), Flags e, Prot e).
Definition maps (m : gmap Z VMAEntry) (a : Z) (v : mapping) : Prop :=
  exists k e, m !! k = Some e /\ k <= a < k + Length e /\ v = at_offset e a.
Definition view (t : VMATracking) (a : Z) : option mapping :=
  match LookupVMAUnsafe t a with Some (_, e) => Some (at_offset e a) | None => None end.
(** The resources some entry maps. *)
Definition used (m : gmap Z VMAEntry) (r : MRID) : Prop :=
  exists k e, m !! k = Some e /\ Resource e = Some r.

Section Wf.
Context (m : gmap Z VMAEntry).
Hypothesis Hm : ok_vmas m.

Lemma ok_unique k e k' e' a :
  m !! k = Some e -> m !! k' = Some e' -> k <= a < k + Length e -> k' <= a < k' + Length e' -> k = k'.
Proof.
  intros Hk Hk' H H'. destruct (Z.lt_trichotomy k k') as [Hlt|[->|Hlt]]; [|reflexivity|].
  - pose proof (ok_apart _ Hm k e k' Hk (mk_is_Some _ _ Hk') Hlt). lia.
  - pose proof (ok_apart _ Hm k' e' k Hk' (mk_is_Some _ _ Hk) Hlt). lia.
Qed.

(** No other entry starts in the middle of an entry. *)
Lemma ok_inside k e x : m !! k = Some e -> k < x < k + Length e -> m !! x = None.
Proof.
  intros Hk Hx. destruct (m !! x) as [e'|] eqn:E; [|reflexivity].
  pose proof (ok_apart _ Hm k e x Hk (mk_is_Some _ _ E)). lia.
Qed.

(** What is mapped before the last entry before [k] ends with that entry. *)
Lemma ok_last k c e a v :
  is_before m k (Some c) -> m !! c = Some e -> maps m a v -> k <= a \/ a < c + Length e.
Proof.
  intros (_ & Hck & Hmax) Hc (x & ex & Hx & Hr & _). destruct (Z_le_gt_dec k a); [auto|right].
  specialize (Hmax x (mk_is_Some _ _ Hx) ltac:(lia)). destruct (ok_entry _ Hm c e Hc) as (_ & _ & ? & _).
  destruct (Z.eq_dec x c) as [->|Hne]; [replace ex with e in * by congruence; lia|].
  pose proof (ok_apart _ Hm x ex c Hx (mk_is_Some _ _ Hc) ltac:(lia)). lia.
Qed.
End Wf.

(** [LookupVMAUnsafe] finds the entry that contains the address, if any. *)
Lemma LookupVMAUnsafe_spec t a k e :
  ok_vmas (VMAs t) ->
  LookupVMAUnsafe t a = Some (k, e) <-> VMAs t !! k = Some e /\ k <= a < k + Length e.
Proof.
  intros Hm. unfold LookupVMAUnsafe, mbind, option_bind.
  pose proof (key_before_spec (VMAs t) (a + 1)) as Hb. destruct (key_before _ _) as [c|]; cbn [is_before] in Hb.
  - destruct Hb as ([ec Hc] & Hlt & Hmax). rewrite Hc.
    destruct (ok_entry _ Hm c ec Hc) as (_ & ? & ? & ?). rewrite uint_small by lia.
    destruct (Z.leb_spec c a); [|lia]. cbn [andb]. destruct (Z.ltb_spec a (c + Length ec)).
    + split; [intros [= -> ->]; split; [exact Hc|lia]|].
      intros [Hk Hr]. assert (c = k) as -> by (eapply (ok_unique _ Hm _ _ _ _ a); eauto; lia).
      congruence.
    + split; [discriminate|]. intros [Hk Hr]. exfalso.
      specialize (Hmax k (mk_is_Some _ _ Hk)).
      destruct (Z.eq_dec k c) as [->|]; [replace ec with e in * by congruence; lia|].
      pose proof (ok_apart _ Hm k e c Hk (mk_is_Some _ _ Hc)). lia.
  - split; [discriminate|]. intros [Hk Hr]. specialize (Hb k (mk_is_Some _ _ Hk)). lia.
Qed.

Lemma view_maps t a v : ok_vmas (VMAs t) -> view t a = Some v <-> maps (VMAs t) a v.
Proof.
  intros Hm. unfold view, maps. split.
  - destruct (LookupVMAUnsafe t a) as [[k e]|] eqn:E; [|discriminate]. intros [= <-].
    apply LookupVMAUnsafe_spec in E as [? ?]; eauto.
  - intros (k & e & Hk & Hr & ->).
    assert (LookupVMAUnsafe t a = Some (k, e)) as -> by (apply LookupVMAUnsafe_spec; auto). reflexivity.
Qed.

(** A view is determined by what is mapped. *)
Lemma view_when t t' a (b : bool) (P : Prop) :
  ok_vmas (VMAs t) -> ok_vmas (VMAs t') -> (b = true <-> P) ->
  (forall v, maps (VMAs t') a v <-> maps (VMAs t) a v /\ ~ P) ->
  view t' a = if b then None else view t a.
Proof.
  intros Hm Hm' Hb H. apply option_eq. intros v. rewrite view_maps, H by assumption.
  destruct b.
  - split; [intros [_ []]; tauto|discriminate].
  - rewrite view_maps by assumption. assert (~ P) by (intros HP; apply Hb in HP; discriminate). tauto.
Qed.

(** ** Changes of the entries *)

Lemma ok_delete m c : ok_vmas m -> ok_vmas (base.delete c m).
Proof.
  intros [He Ha]. constructor.
  - intros k e [_ Hk]%lookup_delete_Some. auto.
  - intros k e k' [_ Hk]%lookup_delete_Some [e' [_ Hk']%lookup_delete_Some]. eauto.
Qed.

Lemma ok_insert m x e :
  ok_vmas m -> m !! x = None -> Base e = x -> 0 <= x -> 0 < Length e -> x + Length e < 2 ^ 64 ->
  (forall k e', m !! k = Some e' -> k + Length e' <= x \/ x + Length e <= k) -> ok_vmas (<[x := e]> m).
Proof.
  intros [He Ha] Hx ? ? ? ? Hd. constructor.
  - intros k e' [[<- <-]|[_ Hk]]%lookup_insert_Some; auto.
  - intros k e1 k' [[<- <-]|[Hne Hk]]%lookup_insert_Some [e2 [[<- <-]|[Hne' Hk']]%lookup_insert_Some] Hlt.
    + lia.
    + destruct (Hd k' e2 Hk'); [|assumption]. destruct (He _ _ Hk') as (_ & _ & ? & _). lia.
    + destruct (Hd k e1 Hk); [assumption|]. lia.
    + eauto.
Qed.

Lemma maps_delete m c e a v :
  ok_vmas m -> m !! c = Some e -> maps (base.delete c m) a v <-> maps m a v /\ ~ (c <= a < c + Length e).
Proof.
  intros Hm Hc. split.
  - intros (k & e' & [Hne Hk]%lookup_delete_Some & Hr & ->). split; [exists k, e'; auto|].
    intros Hr'. apply Hne. eapply (ok_unique _ Hm _ _ _ _ a); eauto.
  - intros [(k & e' & Hk & Hr & ->) Hn]. exists k, e'. rewrite lookup_delete_Some. split; [|auto].
    split; [|exact Hk]. intros <-. rewrite Hc in Hk. injection Hk as <-. auto.
Qed.

Lemma maps_insert m x e a v :
  m !! x = None -> maps (<[x := e]> m) a v <-> maps m a v \/ (x <= a < x + Length e /\ v = at_offset e a).
Proof.
  intros Hx. split.
  - intros (k & e' & [[<- <-]|[Hne Hk]]%lookup_insert_Some & Hr & ->); [auto|left; exists k, e'; auto].
  - intros [(k & e' & Hk & Hr & ->)|[Hr ->]].
    + exists k, e'. rewrite lookup_insert_ne by congruence. auto.
    + exists x, e. rewrite lookup_insert_eq. auto.
Qed.

(** The links do not matter to the address space. *)
Lemma strip_fields e e' :
  strip e = strip e' ->
  Resource e = Resource e' /\ Base e = Base e' /\ Offset e = Offset e' /\ Length e = Length e' /\
  Flags e = Flags e' /\ Prot e = Prot e'.
Proof. intros [=]. repeat split; assumption. Qed.

Section Shape.
Context (m m' : gmap Z VMAEntry).
Hypothesis Hshape : strip <$> m' = strip <$> m.

Lemma shape_lookup k e : m' !! k = Some e -> exists e0, m !! k = Some e0 /\ strip e0 = strip e.
Proof.
  intros Hk. assert ((strip <$> m') !! k = Some (strip e)) as H by (rewrite lookup_fmap, Hk; reflexivity).
  rewrite Hshape, lookup_fmap in H. destruct (m !! k) as [e0|]; [|discriminate].
  change (Some (strip e0) = Some (strip e)) in H. exists e0. split; [reflexivity|congruence].
Qed.
Lemma shape_some k : is_Some (m' !! k) <-> is_Some (m !! k).
Proof.
  rewrite <- (fmap_is_Some strip (m' !! k)), <- (fmap_is_Some strip (m !! k)), <- !lookup_fmap, Hshape.
  reflexivity.
Qed.

Lemma shape_ok : ok_vmas m -> ok_vmas m'.
Proof.
  intros Hm. constructor.
  - intros k e Hk. destruct (shape_lookup k e Hk) as (e0 & Hk0 & (_ & <- & _ & <- & _)%strip_fields).
    exact (ok_entry _ Hm k e0 Hk0).
  - intros k e k' Hk. destruct (shape_lookup k e Hk) as (e0 & Hk0 & (_ & _ & _ & <- & _)%strip_fields).
    rewrite shape_some. exact (ok_apart _ Hm k e0 k' Hk0).
Qed.
End Shape.

Lemma shape_maps m m' a v : strip <$> m' = strip <$> m -> maps m' a v <-> maps m a v.
Proof.
  assert (forall m m', strip <$> m' = strip <$> m -> maps m' a v -> maps m a v) as H.
  { clear. intros m m' Hs (k & e & Hk & Hr & ->).
    destruct (shape_lookup _ _ Hs k e Hk) as (e0 & Hk0 & (E1 & E2 & E3 & E4 & E5 & E6)%strip_fields).
    exists k, e0. unfold at_offset. rewrite E1, E2, E3, E4, E5, E6. auto. }
  intros Hs. split; apply H; auto.
Qed.
Lemma shape_used m m' r : strip <$> m' = strip <$> m -> used m' r <-> used m r.
Proof.
  assert (forall m m', strip <$> m' = strip <$> m -> used m' r -> used m r) as H.
  { clear. intros m m' Hs (k & e & Hk & Hr).
    destruct (shape_lookup _ _ Hs k e Hk) as (e0 & Hk0 & (E1 & _)%strip_fields).
    exists k, e0. split; congruence. }
  intros Hs. split; apply H; auto.
Qed.

(** ** Changes of the lists *)

Section Linked.
Context (t : VMATracking) (L : MRID -> list Z).
Hypothesis Hl : linked t L.

Lemma linked_mem r k : k ∈ L r -> exists e, VMAs t !! k = Some e /\ Resource e = Some r.
Proof. exact (dseg_resource _ _ _ _ _ _ (linked_seg _ _ Hl r)). Qed.
Lemma linked_fresh x r : VMAs t !! x = None -> x ∉ L r.
Proof. intros Hx (e & He & _)%linked_mem. congruence. Qed.

Lemma linked_vmas m' :
  (forall r k, k ∈ L r -> m' !! k = VMAs t !! k) -> linked (set_vmas m' t) L.
Proof.
  intros H. destruct Hl as [HF HS HN HD]. constructor; cbn; auto.
  intros r. eapply dseg_frame; [|apply HS]. intros k. apply H.
Qed.
Lemma linked_erase c e :
  VMAs t !! c = Some e -> (forall r, Resource e = Some r -> c ∉ L r) ->
  linked (set_vmas (base.delete c (VMAs t)) t) L.
Proof.
  intros Hc Hr. apply linked_vmas. intros r k Hk. apply lookup_delete_ne. intros ->.
  destruct (linked_mem r k Hk) as (e' & He' & Hr'). apply (Hr r); congruence.
Qed.
Lemma linked_emplace x e : VMAs t !! x = None -> linked (set_vmas (<[x := e]> (VMAs t)) t) L.
Proof.
  intros Hx. apply linked_vmas. intros r k Hk. apply lookup_insert_ne. intros ->.
  exact (linked_fresh k r Hx Hk).
Qed.
(** An update of an entry that keeps its resource and links. *)
Lemma linked_same c e e' :
  VMAs t !! c = Some e -> Resource e' = Resource e -> ResourcePrevVMA e' = ResourcePrevVMA e ->
  ResourceNextVMA e' = ResourceNextVMA e -> linked (set_vmas (<[c := e']> (VMAs t)) t) L.
Proof.
  intros Hc Er Ep En. destruct Hl as [HF HS HN HD]. constructor; cbn; auto.
  intros r. specialize (HS r). revert HS. generalize (@None Z) at 1 3 as p.
  induction (L r) as [|k l IH]; intros p; cbn [dseg]; [auto|].
  intros [(ek & Hk & Hrk & Hpk & Hnk) Hs]. split; [|auto].
  destruct (Z.eq_dec c k) as [->|Hne].
  - exists e'. rewrite lookup_insert_eq. replace ek with e in * by congruence. repeat split; congruence.
  - exists ek. rewrite lookup_insert_ne by exact Hne. auto.
Qed.
Lemma linked_release r : L r = [] -> linked (set_resources (base.delete r (MappedResources t)) t) L.
Proof.
  intros Hr. destruct Hl as [HF HS HN HD]. constructor; cbn; auto.
  - intros r' R [_ H]%lookup_delete_Some. auto.
  - intros r' H. rewrite lookup_delete_ne; [auto|]. intros <-. contradiction.
Qed.
Lemma linked_same_state t' : VMAs t' = VMAs t -> MappedResources t' = MappedResources t -> linked t' L.
Proof. intros E1 E2. destruct Hl as [HF HS HN HD]. constructor; intros; rewrite ?E1, ?E2 in *; auto. Qed.
End Linked.

(** ** Backward loops *)

(** The entries before [k], the measure of the iteration. *)
Definition below (k : Z) (t : VMATracking) : nat := size (filter (fun x => x < k) (dom (VMAs t))).

Lemma below_step k c t t' :
  key_before (VMAs t) k = Some c ->
  (forall x, x < c -> is_Some (VMAs t' !! x) <-> is_Some (VMAs t !! x)) -> (below c t' < below k t)%nat.
Proof.
  intros Hk Hs. pose proof (key_before_spec (VMAs t) k) as Hb. rewrite Hk in Hb. destruct Hb as (Hc & Hlt & _).
  unfold below. apply subset_size. split.
  - intros x. rewrite !elem_of_filter, !elem_of_dom. intros [Hx Hd]. rewrite Hs in Hd by exact Hx. split; [lia|auto].
  - intros H. specialize (H c). rewrite !elem_of_filter, !elem_of_dom in H. destruct H; [auto|lia].
Qed.

Lemma below_loop_fuel k t : (below k t < loop_fuel t)%nat.
Proof.
  unfold below, loop_fuel. rewrite <- size_dom. apply Nat.lt_succ_r, subseteq_size.
  intros x. rewrite elem_of_filter. tauto.
Qed.

(** The rule of the loops: an invariant of the iterator and the state, with
    iterations that leave the entries before the current one in place. *)
Lemma walk_back_rule (step : Z -> T bool) (I : Z -> VMATracking -> Prop) (Q : VMATracking -> Prop) k t :
  (forall k t, I k t -> key_before (VMAs t) k = None -> Q t) ->
  (forall k t c, I k t -> key_before (VMAs t) k = Some c -> exists go t', step c t = Ok (go, t') /\
     if (go : bool) then I c t' /\ (forall x, x < c -> is_Some (VMAs t' !! x) <-> is_Some (VMAs t !! x)) else Q t') ->
  I k t -> exists t', walk_back (loop_fuel t) step k t = Ok (tt, t') /\ Q t'.
Proof.
  intros Hend Hstep HI.
  assert (forall fuel k t, (below k t < fuel)%nat -> I k t ->
    exists t', walk_back fuel step k t = Ok (tt, t') /\ Q t') as H.
  { clear k t HI. induction fuel as [|fuel IH]; intros k t Hf HI; [lia|].
    cbn [walk_back]. rewrite (M_bind_Ok get_state _ t t t eq_refl).
    destruct (key_before (VMAs t) k) as [c|] eqn:Hk; [|exists t; split; [reflexivity|eauto]].
    destruct (Hstep k t c HI Hk) as (go & t' & Hs & Hgo). rewrite (M_bind_Ok _ _ _ _ _ Hs).
    destruct go; [|exists t'; split; [reflexivity|exact Hgo]].
    destruct Hgo as [HI' Hx]. apply IH; [|exact HI']. pose proof (below_step k c t t' Hk Hx). lia. }
  apply H; [apply below_loop_fuel|exact HI].
Qed.
