(* ===== verification/VMAClear.v ===== *)
(** * Clearing and setting a range of the address space

    [ClearUnsafe] runs to completion without a failed check from every
    well-formed state, unmaps its range and nothing else, and frees exactly the
    resources whose last mapping it removes; [SetUnsafe] then maps the range. *)
From Stdlib Require Import ZArith Lia Bool.
From stdpp Require Import base gmap list numbers option.
From S2P Require Import Prelude VMATracking VMALists.
#[local] Open Scope Z_scope.

(** ** What happens to the resources *)

Record cleared (P : option MRID) (t t' : VMATracking) : Prop := {
  cl_used r : used (VMAs t') r -> used (VMAs t) r;
  cl_res r : is_Some (MappedResources t' !! r) <->
             is_Some (MappedResources t !! r) /\ (used (VMAs t') r \/ Some r = P \/ ~ used (VMAs t) r);
  cl_kept r R' : MappedResources t' !! r = Some R' ->
                 exists R, MappedResources t !! r = Some R /\ strip_r R' = strip_r R;
  cl_aot a : a ∈ UnloadedAOTIR t' <-> a ∈ UnloadedAOTIR t \/
             exists r R, MappedResources t !! r = Some R /\ AOTIRCacheEntry R = Some a /\
                         MappedResources t' !! r = None
}.

Lemma shape_r_lookup (m m' : gmap MRID MappedResource) r R :
  strip_r <$> m' = strip_r <$> m -> m' !! r = Some R -> exists R0, m !! r = Some R0 /\ strip_r R = strip_r R0.
Proof.
  intros Hs Hr. assert ((strip_r <$> m') !! r = Some (strip_r R)) as H by (rewrite lookup_fmap, Hr; reflexivity).
  rewrite Hs, lookup_fmap in H. destruct (m !! r) as [R0|]; [|discriminate].
  change (Some (strip_r R0) = Some (strip_r R)) in H. exists R0. split; congruence.
Qed.
Lemma shape_r_some (m m' : gmap MRID MappedResource) r :
  strip_r <$> m' = strip_r <$> m -> is_Some (m' !! r) <-> is_Some (m !! r).
Proof.
  intros Hs. rewrite <- (fmap_is_Some strip_r (m' !! r)), <- (fmap_is_Some strip_r (m !! r)), <- !lookup_fmap, Hs.
  reflexivity.
Qed.

Lemma strip_r_fields R R' :
  strip_r R = strip_r R' -> AOTIRCacheEntry R = AOTIRCacheEntry R' /\ Resource_Length R = Resource_Length R'.
Proof. intros [=]. auto. Qed.

Lemma used_list t L r : wf_with t L -> used (VMAs t) r <-> L r <> [].
Proof.
  intros [_ Hl Hm]. split.
  - intros (k & e & Hk & Hr) H. pose proof (Hm k e r Hk Hr) as Hi. rewrite H in Hi. inversion Hi.
  - intros H. destruct (L r) as [|k l] eqn:E; [contradiction|].
    destruct (linked_mem t L Hl r k) as (e & ? & ?); [rewrite E; apply list_elem_of_here|]. exists k, e. auto.
Qed.

Lemma used_dec t L r : wf_with t L -> used (VMAs t) r \/ ~ used (VMAs t) r.
Proof. intros Hw. rewrite (used_list t L r Hw). destruct (L r); [right|left]; congruence. Qed.

(** No resource is freed. *)
Lemma cleared_same P t t' :
  strip_r <$> MappedResources t' = strip_r <$> MappedResources t -> UnloadedAOTIR t' = UnloadedAOTIR t ->
  (forall r, used (VMAs t') r -> used (VMAs t) r) ->
  (forall r, used (VMAs t') r \/ Some r = P \/ ~ used (VMAs t) r) -> cleared P t t'.
Proof.
  intros Hs Ha Hu Hu'. constructor; auto.
  - intros r. rewrite (shape_r_some _ _ r Hs). specialize (Hu' r). tauto.
  - intros r R'. apply shape_r_lookup, Hs.
  - intros a. rewrite Ha. split; [auto|]. intros [?|(r & R & HR & _ & Hn)]; [assumption|].
    exfalso. assert (is_Some (MappedResources t' !! r)) as [? ?] by (rewrite (shape_r_some _ _ r Hs); eauto). congruence.
Qed.

Lemma cleared_refl P t L : wf_with t L -> cleared P t t.
Proof. intros Hw. apply cleared_same; auto. intros r. destruct (used_dec t L r Hw); auto. Qed.

Lemma cleared_trans P t0 t1 t2 : cleared P t0 t1 -> cleared P t1 t2 -> cleared P t0 t2.
Proof.
  intros [U1 R1 K1 A1] [U2 R2 K2 A2]. constructor.
  - auto.
  - intros r. rewrite R2, R1. specialize (U1 r). specialize (U2 r). tauto.
  - intros r R' H. destruct (K2 r R' H) as (R & H1 & E1). destruct (K1 r R H1) as (R0 & H0 & E0).
    exists R0. split; congruence.
  - intros a. rewrite A2, A1. split.
    + intros [[?|(r & R & HR & HA & HN)]|(r & R & HR & HA & HN)]; [auto|right..].
      * exists r, R. repeat split; auto. destruct (MappedResources t2 !! r) as [R2'|] eqn:E; [|reflexivity].
        destruct (K2 r R2' E) as (? & ? & _). congruence.
      * destruct (K1 r R HR) as (R0 & H0 & E0). exists r, R0. repeat split; auto.
        injection E0. congruence.
    + intros [?|(r & R & HR & HA & HN)]; [auto|]. destruct (MappedResources t1 !! r) as [R1'|] eqn:E.
      * right. destruct (K1 r R1' E) as (R0 & H0 & E0). exists r, R1'. repeat split; auto.
        injection E0. congruence.
      * left. right. exists r, R. auto.
Qed.

(** ** The entries after an iteration *)

(** Offsets are modulo 2^64. *)
Lemma trailing_offset o b x a : uint 64 (uint 64 (uint 64 (o - b) + x) + (a - x)) = uint 64 (o + (a - b)).
Proof.
  assert (forall x y, uint 64 (uint 64 x + y) = uint 64 (x + y)) as H
    by (intros; rewrite <- uint_add, uint_idemp, uint_add; reflexivity).
  rewrite H, <- Z.add_assoc, H. f_equal. lia.
Qed.

Definition first_part (B c : Z) (e : VMAEntry) : VMAEntry := with_length (B - c) e.
Definition trailing_part (p n : option Z) (Top : Z) (e : VMAEntry) : VMAEntry :=
  mkVMA (Resource e) p n Top (uint 64 (uint 64 (Offset e - Base e) + Top)) (Base e + Length e - Top) (Flags e) (Prot e).

Definition pieces (B Top c : Z) (e fp tr : VMAEntry) (m : gmap Z VMAEntry) : gmap Z VMAEntry :=
  let m1 := base.delete c m in
  let m2 := if c <? B then <[c := fp]> m1 else m1 in
  if Top <? c + Length e then <[Top := tr]> m2 else m2.

Section Pieces.
Context (m : gmap Z VMAEntry) (c : Z) (e fp tr : VMAEntry) (B Top : Z).
Hypothesis Hm : ok_vmas m.
Hypothesis Hc : m !! c = Some e.
Hypothesis HB : 0 <= B <= Top.
Hypothesis HT : Top < 2 ^ 64.
Hypothesis HcT : c < Top.
Hypothesis HcB : B < c + Length e.
Hypothesis Hfp : strip fp = strip (first_part B c e).
Hypothesis Htr : strip tr = strip (trailing_part None None Top e).

Lemma pieces_ok : ok_vmas (pieces B Top c e fp tr m).
Proof using All.
apply strip_fields in Hfp as (_ & F2 & _ & F4 & _), Htr as (_ & T2 & _ & T4 & _).
cbn in F2, F4, T2, T4. destruct (ok_entry _ Hm c e Hc) as (Eb & ? & ? & ?).
assert (ok_vmas (base.delete c m)) as Hd by (apply ok_delete, Hm).
assert (forall k e', base.delete c m !! k = Some e' -> k + Length e' <= c \/ c + Length e <= k) as Hsep.
{ intros k e' [Hne Hk]%lookup_delete_Some. destruct (Z.lt_trichotomy k c) as [?|[?|?]]; [left|lia|right].
- exact (ok_apart _ Hm k e' c Hk (mk_is_Some _ _ Hc) ltac:(assumption)).
- exact (ok_apart _ Hm c e k Hc (mk_is_Some _ _ Hk) ltac:(assumption)). }
unfold pieces. destruct (Z.ltb_spec c B), (Z.ltb_spec Top (c + Length e)); auto;
repeat (apply ok_insert; auto; try lia); rewrite ?lookup_delete_eq; auto;
rewrite ?lookup_insert_ne by lia; rewrite ?lookup_delete_ne by lia; try (eapply (ok_inside m Hm c e); auto; lia).
all: try (intros k e' Hk; try (apply lookup_insert_Some in Hk as [[<- <-]|[_ Hk]]; [lia|]);
  pose proof (Hsep k e' Hk); lia).
Qed.

Lemma pieces_maps a v :
  maps (pieces B Top c e fp tr m) a v <-> maps m a v /\ ~ (c <= a < c + Length e /\ B <= a < Top).
Proof using All.
apply strip_fields in Hfp as (F1 & F2 & F3 & F4 & F5 & F6), Htr as (T1 & T2 & T3 & T4 & T5 & T6).
cbn in F1, F2, F3, F4, F5, F6, T1, T2, T4, T5, T6. destruct (ok_entry _ Hm c e Hc) as (Eb & ? & ? & ?).
assert (at_offset fp a = at_offset e a) as EF by (unfold at_offset; congruence).
assert (at_offset tr a = at_offset e a) as ET.
{ unfold at_offset. rewrite T1, T5, T6, T3, T2. cbn [trailing_part strip with_prev with_next Offset Base].
rewrite trailing_offset. reflexivity. }
pose proof (maps_delete m c e a v Hm Hc) as Hdel.
assert (maps m a v <-> maps (base.delete c m) a v \/ (c <= a < c + Length e /\ v = at_offset e a)) as ->.
{ rewrite <- maps_insert by apply lookup_delete_eq. rewrite insert_delete_id by exact Hc. reflexivity. }
assert (base.delete c m !! Top = None \/ c + Length e <= Top) as HTop.
{ destruct (Z_lt_le_dec Top (c + Length e)); [left|lia]. rewrite lookup_delete_ne by lia.
apply (ok_inside m Hm c e); auto; lia. }
unfold pieces. destruct (Z.ltb_spec c B) as [l|l], (Z.ltb_spec Top (c + Length e)) as [l0|l0], HTop; try lia;
repeat (rewrite maps_insert; [|rewrite ?lookup_insert_ne by lia; first [assumption | apply lookup_delete_eq]]);
rewrite ?EF, ?ET, ?F4, ?T4, ?Eb.
all: generalize dependent (maps (base.delete c m) a v); intros D HD;
generalize dependent (v = at_offset e a); intros Q; clear - HD HB HcT HcB l l0;
destruct (Z_lt_le_dec a c), (Z_lt_le_dec a B), (Z_lt_le_dec a Top), (Z_lt_le_dec a (c + Length e)); try lia;
intuition lia.
Qed.

(** The iteration order before [c] is not affected. *)
Lemma pieces_below x : x < c -> is_Some (pieces B Top c e fp tr m !! x) <-> is_Some (m !! x).
Proof using All.
intros Hx. unfold pieces. destruct (c <? B), (Top <? c + Length e); cbn;
rewrite ?lookup_insert_ne by lia; rewrite lookup_delete_ne by lia; reflexivity.
Qed.

(** The resources that are still mapped. *)
Lemma pieces_used r : used (pieces B Top c e fp tr m) r -> used m r.
Proof using All.
apply strip_fields in Hfp as (F1 & _), Htr as (T1 & _). cbn in F1, T1.
intros (k & e' & Hk & Hr). unfold pieces in Hk.
destruct (c <? B), (Top <? c + Length e); cbn in Hk;
repeat match goal with H : <[_ := _]> _ !! _ = _ |- _ => apply lookup_insert_Some in H as [[<- <-]|[_ H]] end;
try (apply lookup_delete_Some in Hk as [_ Hk]; exists k, e'; auto);
exists c, e; split; congruence.
Qed.
End Pieces.

(** ** One iteration of [ClearUnsafe] *)

(** [t'] has the entries [m] and the lists [L'], and resources are accounted for. *)
Record cleared_to (P : option MRID) (t : VMATracking) (m : gmap Z VMAEntry) (t' : VMATracking)
    (L' : MRID -> list Z) : Prop := {
  ct_shape : strip <$> VMAs t' = strip <$> m;
  ct_linked : linked t' L';
  ct_member k e r : m !! k = Some e -> Resource e = Some r -> k ∈ L' r;
  ct_cleared : cleared P t t'
}.

Lemma cleared_to_wf P t m t' L' : ok_vmas m -> cleared_to P t m t' L' -> wf_with t' L'.
Proof.
  intros Hm [Hs Hl Hmem _]. constructor; [exact (shape_ok _ _ Hs Hm)|exact Hl|].
  intros k e r Hk Hr. destruct (shape_lookup _ _ Hs k e Hk) as (e0 & Hk0 & (E & _)%strip_fields).
  apply (Hmem k e0); congruence.
Qed.

Lemma mem_split t L c e r :
  wf_with t L -> VMAs t !! c = Some e -> Resource e = Some r -> exists l1 l2, L r = l1 ++ c :: l2.
Proof. intros Hw Hc Hr. apply list_elem_of_split, (wf_member _ _ Hw c e r); assumption. Qed.

(** The list that an entry is not in, after it has been taken out of its own. *)
Lemma not_in_other t L c e r l :
  wf_with t L -> VMAs t !! c = Some e -> Resource e = Some r -> c ∉ l -> forall r', c ∉ upd r l L r'.
Proof.
  intros [_ Hl _] Hc Hr Hn r'. unfold upd. destruct (decide (r' = r)); [exact Hn|].
  intros Hi. destruct (linked_mem t L Hl r' c Hi) as (e' & ? & ?). congruence.
Qed.

Lemma used_kept (m m' : gmap Z VMAEntry) r k e :
  m' !! k = Some e -> Resource e = Some r -> used m' r.
Proof. intros. exists k, e. auto. Qed.

(** Resources when every mapped resource but [r] keeps its entries. *)
Lemma used_delete_other m c e r r' :
  m !! c = Some e -> Resource e = Some r -> r' <> r -> used m r' -> used (base.delete c m) r'.
Proof.
  intros Hc Hr Hne (k & e' & Hk & Hr'). exists k, e'. split; [|exact Hr'].
  rewrite lookup_delete_ne; [exact Hk|]. congruence.
Qed.
Lemma used_delete m c r : used (base.delete c m) r -> used m r.
Proof. intros (k & e & [_ Hk]%lookup_delete_Some & Hr). exists k, e. auto. Qed.

Section Step.
Context (t : VMATracking) (L : MRID -> list Z) (c : Z) (e : VMAEntry) (P : option MRID).
Hypothesis Hw : wf_with t L.
Hypothesis Hc : VMAs t !! c = Some e.

(** Erasing an entry without a resource. *)
Lemma erase_anon :
  Resource e = None -> cleared_to P t (base.delete c (VMAs t)) (set_vmas (base.delete c (VMAs t)) t) L.
Proof.
  intros Hr. destruct Hw as [Hm Hl Hmem]. constructor.
  - reflexivity.
  - apply (linked_erase t L Hl c e Hc). congruence.
  - intros k e' r [_ Hk]%lookup_delete_Some. eauto.
  - apply cleared_same; auto; cbn; [apply used_delete|]. intros r.
    destruct (used_dec t L r Hw) as [(k & e' & Hk & Hr')|]; [left|auto].
    exists k, e'. rewrite lookup_delete_ne by congruence. auto.
Qed.

(** Case (3): the whole entry goes, with its resource if this was its last. *)
Lemma remove_spec r :
  Resource e = Some r ->
  exists t' L', (empty ← ListRemove c;
       _ ← (if (empty : bool) && negb (res_eqb (Some r) P) then release r else mret tt);
       _ ← erase c; mret true) t = Ok (true, t') /\
  cleared_to P t (base.delete c (VMAs t)) t' L'.
Proof.
  intros Hr. destruct (mem_split t L c e r Hw Hc Hr) as (l1 & l2 & HL).
  pose proof Hw as [Hm Hl Hmem]. destruct (ListRemove_spec t L r c l1 l2 Hl HL) as (t1 & Hrun & Hl1 & [S1 S2 S3]).
  assert (c ∉ l1 ++ l2) as Hcl.
  { pose proof (linked_nodup _ _ Hl r) as HN. rewrite HL in HN. apply NoDup_middle in HN as (? & ? & _). notin. }
  pose proof (not_in_other t L c e r _ Hw Hc Hr Hcl) as Hout.
  assert (forall k e' r', base.delete c (VMAs t) !! k = Some e' -> Resource e' = Some r' -> k ∈ upd r (l1 ++ l2) L r') as Hmem1.
  { intros k e' r' [Hne Hk]%lookup_delete_Some Hr'. pose proof (Hmem k e' r' Hk Hr') as Hi. unfold upd.
    destruct (decide (r' = r)) as [->|]; [|exact Hi]. rewrite HL in Hi. revert Hi.
    rewrite !elem_of_app, elem_of_cons. intuition congruence. }
  assert (strip <$> base.delete c (VMAs t1) = strip <$> base.delete c (VMAs t)) as HS
    by (rewrite !fmap_delete, S1; reflexivity).
  destruct (shape_lookup _ _ (eq_sym S1) c e Hc) as (e1 & Hc1 & (E1 & _)%strip_fields).
  assert (forall r', l1 ++ l2 = [] -> r' = r -> ~ used (base.delete c (VMAs t)) r') as Hlast.
  { intros r' H0 -> (k & e' & Hk & Hr'). pose proof (Hmem1 k e' r Hk Hr') as Hi. rewrite upd_eq, H0 in Hi. inversion Hi. }
  rewrite (M_bind_Ok _ _ _ _ _ Hrun).
  destruct (bool_decide (l1 ++ l2 = []) && negb (res_eqb (Some r) P)) eqn:Hrel.
  - apply andb_prop in Hrel as [H0%bool_decide_eq_true HP%negb_true_iff]. apply bool_decide_eq_false in HP.
    destruct (linked_dom _ _ Hl r) as [R HR]; [rewrite HL; destruct l1; discriminate|].
    destruct (shape_r_lookup _ _ r R (eq_sym S2) HR) as (R1 & HR1 & ER).
    set (aot := UnloadedAOTIR t1 ++ match AOTIRCacheEntry R1 with Some a => [a] | None => [] end).
    exists (mkTracking (base.delete c (VMAs t1)) (base.delete r (MappedResources t1)) aot), (upd r (l1 ++ l2) L).
    split.
    { unfold release. rewrite M_bind_assoc, (M_bind_Ok _ _ _ _ _ (getR_Ok t1 r R1 HR1)). unfold aot.
      destruct (AOTIRCacheEntry R1); [reflexivity|]. rewrite app_nil_r. reflexivity. }
    constructor; cbn.
    + exact HS.
    + eapply linked_same_state; [apply (linked_release (set_vmas (base.delete c (VMAs t1)) t1)); [|rewrite upd_eq; exact H0]|reflexivity..].
      apply (linked_erase t1 _ Hl1 c e1 Hc1). intros. apply Hout.
    + exact Hmem1.
    + apply strip_r_fields in ER. constructor; cbn.
      * intros r'. rewrite (shape_used _ _ r' HS). apply used_delete.
      * intros r'. rewrite (shape_used _ _ r' HS). destruct (decide (r' = r)) as [->|Hne].
        -- rewrite lookup_delete_eq. split; [intros []; discriminate|].
          specialize (Hlast r H0 eq_refl). intros [_ [?|[?|Hn]]]; [contradiction..|].
          exfalso. apply Hn. exists c, e. auto.
        -- rewrite lookup_delete_ne, (shape_r_some _ _ r' S2) by congruence.
          pose proof (used_delete_other _ c e r r' Hc Hr Hne). destruct (used_dec t L r' Hw); tauto.
      * intros r' R' [_ HR']%lookup_delete_Some. exact (shape_r_lookup _ _ r' R' S2 HR').
      * intros a. unfold aot. rewrite elem_of_app, S3. split.
        -- intros [?|Ha]; [auto|right]. exists r, R. rewrite lookup_delete_eq. destruct ER as [EA _].
          rewrite EA. destruct (AOTIRCacheEntry R1); [|inversion Ha].
          apply elem_of_cons in Ha as [->|Ha]; [auto|inversion Ha].
        -- intros [?|(r' & R' & HR' & HA & HN)]; [auto|right]. destruct (decide (r' = r)) as [->|Hne].
          ++ destruct ER as [EA _]. replace R' with R in * by congruence. rewrite <- EA, HA. apply list_elem_of_here.
          ++ rewrite lookup_delete_ne in HN by congruence.
            assert (is_Some (MappedResources t1 !! r')) as [? ?] by (rewrite (shape_r_some _ _ r' S2); eauto). congruence.
  - exists (set_vmas (base.delete c (VMAs t1)) t1), (upd r (l1 ++ l2) L). split; [reflexivity|].
    constructor; cbn; [exact HS|apply (linked_erase t1 _ Hl1 c e1 Hc1); intros; apply Hout|exact Hmem1|].
    apply cleared_same; auto; cbn; intros r'; rewrite (shape_used _ _ r' HS); [apply used_delete|].
    destruct (decide (r' = r)) as [->|Hne].
    + destruct (l1 ++ l2) as [|k l] eqn:E; [|left].
      * cbn in Hrel. right. left. apply negb_false_iff, bool_decide_eq_true in Hrel. exact Hrel.
      * assert (k ∈ k :: l) as Hk by apply list_elem_of_here. rewrite <- E in Hk.
        destruct (linked_mem t L Hl r k) as (e' & He' & Hr').
        { rewrite HL. revert Hk. rewrite !elem_of_app, elem_of_cons. tauto. }
        exists k, e'. split; [|exact Hr']. rewrite lookup_delete_ne; [exact He'|]. intros ->. rewrite <- E in Hcl. contradiction.
    + pose proof (used_delete_other _ c e r r' Hc Hr Hne). destruct (used_dec t L r' Hw); tauto.
Qed.

(** An entry that keeps its resource and links. *)
Definition same_links (e' : VMAEntry) : Prop :=
  Resource e' = Resource e /\ ResourcePrevVMA e' = ResourcePrevVMA e /\ ResourceNextVMA e' = ResourceNextVMA e.

(** Nothing is freed while [e] keeps an entry of its resource. *)
Lemma cleared_kept t' m k ek :
  strip <$> VMAs t' = strip <$> m -> strip_r <$> MappedResources t' = strip_r <$> MappedResources t ->
  UnloadedAOTIR t' = UnloadedAOTIR t ->
  m !! k = Some ek -> Resource ek = Resource e ->
  (forall j ej, m !! j = Some ej -> Resource ej = Resource e \/ VMAs t !! j = Some ej) ->
  (forall j ej, VMAs t !! j = Some ej -> j <> c -> m !! j = Some ej) ->
  cleared P t t'.
Proof.
  intros HS HR HA Hk Ek Hback Hforth. apply cleared_same; auto; intros r; rewrite (shape_used _ _ r HS).
  - intros (j & ej & Hj & Hr). destruct (Hback j ej Hj) as [E|Hj']; [exists c, e|exists j, ej]; split; congruence.
  - destruct (used_dec t L r Hw) as [(j & ej & Hj & Hr)|]; [left|auto].
    destruct (Z.eq_dec j c) as [->|Hne]; [exists k, ek; split; congruence|exists j, ej; auto].
Qed.

(** Case (1), and the first part of the others. *)
Lemma trim_spec e' :
  same_links e' -> cleared_to P t (<[c := e']> (VMAs t)) (set_vmas (<[c := e']> (VMAs t)) t) L.
Proof.
  intros (Er & Ep & En). pose proof Hw as [Hm Hl Hmem]. constructor.
  - reflexivity.
  - apply (linked_same t L Hl c e e'); assumption.
  - intros k e0 r [[<- <-]|[_ Hk]]%lookup_insert_Some Hr; [apply (Hmem c e); congruence|eauto].
  - apply (cleared_kept _ (<[c := e']> (VMAs t)) c e'); auto; [apply lookup_insert_eq| |].
    + intros j ej [[<- <-]|[_ Hj]]%lookup_insert_Some; auto.
    + intros j ej Hj Hne. rewrite lookup_insert_ne; congruence.
Qed.

Section Trailing.
Context (x : Z) (tr : VMAEntry).
Hypothesis Hx : VMAs t !! x = None.
Hypothesis Hrt : Resource tr = Resource e.
Hypothesis Hnt : ResourceNextVMA tr = ResourceNextVMA e.

Lemma fresh_ne : x <> c.
Proof using Hx Hc. congruence. Qed.

(** Case (2): the trailing part is linked after the first part. *)
Lemma insert_after_spec e' (m := <[x := tr]> (<[c := e']> (VMAs t))) :
  same_links e' -> ResourcePrevVMA tr = Some c ->
  exists t' L', (if isSome (Resource e) then ListInsertAfter c x else mret tt) (set_vmas m t) = Ok (tt, t') /\
  cleared_to P t m t' L'.
Proof using All.
intros He' Hpt. pose proof fresh_ne. pose proof Hw as [Hm Hl Hmem].
destruct (trim_spec e' He') as [_ Hl1 Hmem1 _].
assert (<[c := e']> (VMAs t) !! x = None) as Hx1 by (rewrite lookup_insert_ne by congruence; exact Hx).
pose proof (linked_emplace _ L Hl1 x tr Hx1) as Hl2. change (linked (set_vmas m t) L) in Hl2.
assert (forall t', strip <$> VMAs t' = strip <$> m -> strip_r <$> MappedResources t' = strip_r <$> MappedResources t ->
UnloadedAOTIR t' = UnloadedAOTIR t -> cleared P t t') as Hcl.
{ intros t' HS HR HA. apply (cleared_kept t' m x tr); auto; unfold m; [apply lookup_insert_eq| |].
- intros j ej [[<- <-]|[_ [[<- <-]|[_ Hj]]%lookup_insert_Some]]%lookup_insert_Some; auto. left. apply He'.
- intros j ej Hj Hne. rewrite !lookup_insert_ne by congruence. exact Hj. }
destruct (Resource e) as [r|] eqn:Hr; cbn [isSome].
- destruct (mem_split t L c e r Hw Hc Hr) as (l1 & l2 & HL).
destruct (linked_node t L r c l1 l2 Hl HL) as (_ & e0 & _ & _ & He0 & _ & _ & Hn0 & _).
replace e0 with e in * by congruence.
destruct (ListInsertAfter_spec (set_vmas m t) L r x tr Hl2 (lookup_insert_eq _ _ _) Hrt
(linked_fresh t L Hl x r Hx) c l1 l2 HL Hpt ltac:(congruence)) as (t' & Hrun & Hl' & [S1 S2 S3]).
exists t', (upd r (l1 ++ c :: x :: l2) L). split; [exact Hrun|]. constructor; [exact S1|exact Hl'| |auto].
intros k ek r' Hk Hr'. unfold upd. destruct (decide (r' = r)) as [->|Hne].
+ apply lookup_insert_Some in Hk as [[<- <-]|[_ Hk]]; [apply elem_of_app; right; in_cons|].
pose proof (Hmem1 k ek r Hk Hr') as Hi. rewrite HL in Hi. revert Hi. rewrite !elem_of_app, !elem_of_cons. tauto.
+ apply lookup_insert_Some in Hk as [[<- <-]|[_ Hk]]; [congruence|eauto].
- exists (set_vmas m t), L. split; [reflexivity|]. constructor; [reflexivity|exact Hl2| |auto].
intros k ek r [[<- <-]|[_ Hk]]%lookup_insert_Some Hr'; [congruence|eauto].
Qed.

(** Case (4): the trailing part takes the place of the entry. *)
Lemma replace_spec (m := <[x := tr]> (base.delete c (VMAs t))) :
  ResourcePrevVMA tr = ResourcePrevVMA e ->
  exists t' L', (_ ← (if isSome (Resource e) then ListReplace c x else mret tt); erase c)
  (set_vmas (<[x := tr]> (VMAs t)) t) = Ok (tt, t') /\ cleared_to P t m t' L'.
Proof using All.
intros Hpt. pose proof fresh_ne. pose proof Hw as [Hm Hl Hmem].
pose proof (linked_emplace t L Hl x tr Hx) as Hl1. set (t1 := set_vmas (<[x := tr]> (VMAs t)) t) in *.
assert (VMAs t1 !! c = Some e) as Hc1 by (cbn; rewrite lookup_insert_ne; assumption).
assert (base.delete c (<[x := tr]> (VMAs t)) = m) as Em by (apply delete_insert_ne; congruence).
assert (forall t', strip <$> VMAs t' = strip <$> m -> strip_r <$> MappedResources t' = strip_r <$> MappedResources t ->
UnloadedAOTIR t' = UnloadedAOTIR t -> cleared P t t') as Hcl.
{ intros t' HS HR HA. apply (cleared_kept t' m x tr); auto; unfold m; [apply lookup_insert_eq| |].
- intros j ej [[<- <-]|[_ [_ Hj]%lookup_delete_Some]]%lookup_insert_Some; auto.
- intros j ej Hj Hne. rewrite lookup_insert_ne, lookup_delete_ne by congruence. exact Hj. }
destruct (Resource e) as [r|] eqn:Hr; cbn [isSome].
- destruct (mem_split t L c e r Hw Hc Hr) as (l1 & l2 & HL).
destruct (linked_node t L r c l1 l2 Hl HL) as (_ & e0 & _ & _ & He0 & _ & Hp0 & Hn0 & _).
replace e0 with e in * by congruence.
destruct (ListReplace_spec t1 L r x tr Hl1 (lookup_insert_eq _ _ _) Hrt
(linked_fresh t L Hl x r Hx) c l1 l2 HL ltac:(congruence) ltac:(congruence)) as (t2 & Hrun & Hl2 & [S1 S2 S3]).
destruct (shape_lookup _ _ (eq_sym S1) c e Hc1) as (e2 & Hc2 & (E2 & _)%strip_fields).
assert (c ∉ l1 ++ x :: l2) as Hcl'.
{ pose proof (linked_nodup _ _ Hl r) as HN. rewrite HL in HN. apply NoDup_middle in HN as (? & ? & _). notin. }
exists (set_vmas (base.delete c (VMAs t2)) t2), (upd r (l1 ++ x :: l2) L).
rewrite (M_bind_Ok _ _ _ _ _ Hrun). split; [reflexivity|].
assert (strip <$> base.delete c (VMAs t2) = strip <$> m) as HS by (rewrite <- Em, !fmap_delete, S1; reflexivity).
constructor; cbn; [exact HS| | |apply Hcl; assumption].
+ apply (linked_erase t2 _ Hl2 c e2 Hc2). intros. apply (not_in_other t L c e r _ Hw Hc Hr Hcl').
+ intros k ek r' Hk Hr'. unfold upd. apply lookup_insert_Some in Hk as [[<- <-]|[_ [Hne Hk]%lookup_delete_Some]].
* rewrite decide_True by congruence. apply elem_of_app. right. apply list_elem_of_here.
* pose proof (Hmem k ek r' Hk Hr') as Hi. destruct (decide (r' = r)) as [->|]; [|exact Hi].
rewrite HL in Hi. revert Hi. rewrite !elem_of_app, !elem_of_cons. intuition congruence.
- exists (set_vmas m t), L. split; [unfold erase, modify, mbind, M_bind, mret, M_ret; cbn; rewrite Em; reflexivity|].
constructor; [reflexivity| | |auto].
+ rewrite <- Em. apply (linked_erase t1 L Hl1 c e Hc1). congruence.
+ intros k ek r [[<- <-]|[_ [_ Hk]%lookup_delete_Some]]%lookup_insert_Some Hr'; [congruence|eauto].
Qed.
End Trailing.
End Step.

Lemma emplace_Ok t k e : VMAs t !! k = None -> emplace k e t = Ok (true, set_vmas (<[k := e]> (VMAs t)) t).
Proof. intros H. unfold emplace, get_state, mbind, M_bind. rewrite H. reflexivity. Qed.

(** The effect of an iteration at [c] on the address space and the resources. *)
Record step_effect (P : option MRID) (B Top c len : Z) (t t' : VMATracking) : Prop := {
  se_wf : wf t';
  se_maps a v : maps (VMAs t') a v <-> maps (VMAs t) a v /\ ~ (c <= a < c + len /\ B <= a < Top);
  se_below x : x < c -> is_Some (VMAs t' !! x) <-> is_Some (VMAs t !! x);
  se_cleared : cleared P t t'
}.

Ltac replace_tr := match goal with
  | E : ?tr = mkVMA _ _ _ _ _ _ _ _ |- context [emplace _ ?v] => replace v with tr by (rewrite E; reflexivity) end.

Section ClearStep.
Context (t : VMATracking) (L : MRID -> list Z) (c : Z) (e : VMAEntry) (P : option MRID) (B Top : Z).
Hypothesis Hw : wf_with t L.
Hypothesis Hc : VMAs t !! c = Some e.
Hypothesis HB : 0 <= B <= Top.
Hypothesis HT : Top < 2 ^ 64.
Hypothesis HcT : c < Top.

Lemma clear_step_stop : c + Length e <= B -> clear_step B Top P c t = Ok (false, t).
Proof using Hw Hc.
intros H. destruct (ok_entry _ (wf_vmas _ _ Hw) c e Hc) as (Eb & ? & ? & ?).
unfold clear_step. rewrite (M_bind_Ok _ _ _ _ _ (getV_Ok _ _ _ Hc)). cbv beta zeta.
rewrite Eb, (uint_small 64 (c + Length e)) by lia. destruct (Z.leb_spec (c + Length e) B); [reflexivity|lia].
Qed.

Lemma clear_step_spec :
  B < c + Length e ->
  exists t', clear_step B Top P c t = Ok (true, t') /\ step_effect P B Top c (Length e) t t'.
Proof using All.
intros HcB. pose proof (wf_vmas _ _ Hw) as Hm. destruct (ok_entry _ Hm c e Hc) as (Eb & ? & ? & ?).
set (p := if negb (c <? B) then ResourcePrevVMA e else Some c).
set (fp := first_part B c e). set (tr := trailing_part p (ResourceNextVMA e) Top e).
enough (exists t' L', clear_step B Top P c t = Ok (true, t') /\ cleared_to P t (pieces B Top c e fp tr (VMAs t)) t' L')
as (t' & L' & Hrun & Hto).
{ exists t'. split; [exact Hrun|].
pose proof (pieces_ok _ c e fp tr B Top Hm Hc HB HT HcT HcB eq_refl eq_refl) as Hok.
constructor.
- exists L'. eapply cleared_to_wf; eauto.
- intros a v. rewrite (shape_maps _ _ a v (ct_shape _ _ _ _ _ Hto)). apply pieces_maps; auto.
- intros x Hx. rewrite (shape_some _ _ (ct_shape _ _ _ _ _ Hto)). apply pieces_below; auto.
- apply Hto. }
unfold clear_step. rewrite (M_bind_Ok _ _ _ _ _ (getV_Ok _ _ _ Hc)). cbv beta zeta.
rewrite Eb, (uint_small 64 (c + Length e)) by lia. destruct (Z.leb_spec (c + Length e) B); [lia|].
assert (tr = mkVMA (Resource e) p (ResourceNextVMA e) Top (uint 64 (uint 64 (Offset e - c) + Top))
      (c + Length e - Top) (Flags e) (Prot e)) as Etr by (unfold tr, trailing_part; rewrite Eb; reflexivity).
fold p. assert (Top < c + Length e -> VMAs t !! Top = None) as HTop
by (intros; apply (ok_inside _ Hm c e); auto; lia).
unfold pieces. destruct (Z.ltb_spec c B), (Z.ltb_spec Top (c + Length e)); cbn [negb andb];
rewrite ?(uint_small 64 (B - c)) by lia; rewrite ?(uint_small 64 (c + Length e - Top)) by lia.
- assert (<[c := fp]> (VMAs t) !! Top = None) as HTop' by (rewrite lookup_insert_ne by lia; auto).
rewrite insert_delete_eq, (M_bind_Ok _ _ _ _ _ (setV_Ok t c e _ Hc)), M_bind_assoc.
rewrite (M_bind_Ok _ _ _ _ _ (getV_Ok (set_vmas (<[c := fp]> (VMAs t)) t) c fp (lookup_insert_eq _ _ _))).
cbv beta. replace_tr.
rewrite M_bind_assoc.
rewrite (M_bind_Ok _ _ _ _ _ (emplace_Ok (set_vmas (<[c := fp]> (VMAs t)) t) Top tr HTop')).
rewrite M_bind_assoc, (M_bind_Ok (check true) _ _ tt _ eq_refl).
destruct (insert_after_spec t L c e P Hw Hc Top tr (HTop ltac:(lia)) eq_refl eq_refl fp) as (t' & L' & Hrun & Hto);
[repeat split|reflexivity|].
exists t', L'. split; [|exact Hto]. rewrite (M_bind_Ok _ _ _ _ _ Hrun). reflexivity.
- exists (set_vmas (<[c := fp]> (VMAs t)) t), L. rewrite insert_delete_eq.
rewrite (M_bind_Ok _ _ _ _ _ (setV_Ok t c e _ Hc)). split; [reflexivity|].
apply (trim_spec t L c e P Hw Hc fp). repeat split.
- change (mret tt ≫= ?f) with (f tt). cbv beta. rewrite M_bind_assoc, (M_bind_Ok _ _ _ _ _ (getV_Ok t c e Hc)).
cbv beta. replace_tr. rewrite M_bind_assoc, (M_bind_Ok _ _ _ _ _ (emplace_Ok t Top tr (HTop ltac:(lia)))).
rewrite M_bind_assoc, (M_bind_Ok (check true) _ _ tt _ eq_refl).
destruct (replace_spec t L c e P Hw Hc Top tr (HTop ltac:(lia)) eq_refl eq_refl) as (t' & L' & Hrun & Hto);
[cbn; unfold p; destruct (Z.ltb_spec c B); [lia|reflexivity]|].
exists t', L'. split; [|exact Hto]. rewrite <- M_bind_assoc. rewrite (M_bind_Ok _ _ _ _ _ Hrun). reflexivity.
- destruct (Resource e) as [r|] eqn:Hr.
+ destruct (remove_spec t L c e P Hw Hc r Hr) as (t' & L' & Hrun & Hto). exists t', L'. split; [|exact Hto].
rewrite M_bind_assoc. rewrite <- Hrun. reflexivity.
+ eexists _, L. split; [reflexivity|]. apply (erase_anon t L c e P Hw Hc Hr).
Qed.
End ClearStep.

(** ** [ClearUnsafe] and [SetUnsafe] *)

(** A range of the address space: below its end, without wrapping around. *)
Definition in_space (B len : Z) : Prop := 0 <= B /\ 0 <= len /\ B + len < 2 ^ 64.

(** The effect of [ClearUnsafe]: the range is unmapped, the rest is as before. *)
Record clear_effect (P : option MRID) (B len : Z) (t t' : VMATracking) : Prop := {
  ce_wf : wf t';
  ce_maps a v : maps (VMAs t') a v <-> maps (VMAs t) a v /\ ~ (B <= a < B + len);
  ce_cleared : cleared P t t'
}.

Lemma ClearUnsafe_wp t B len P :
  wf t -> in_space B len -> exists t', ClearUnsafe B len P t = Ok (tt, t') /\ clear_effect P B len t t'.
Proof.
  intros Hwf (HB & Hlen & HT). unfold ClearUnsafe. rewrite uint_small by lia.
  rewrite (M_bind_Ok get_state _ t t t eq_refl).
  set (I := fun k t' => wf t' /\ cleared P t t' /\
    (forall a v, maps (VMAs t') a v -> maps (VMAs t) a v) /\
    (forall a v, maps (VMAs t) a v -> maps (VMAs t') a v \/ B <= a < B + len) /\
    (forall a v, maps (VMAs t') a v -> k <= a -> ~ (B <= a < B + len)) /\ k <= B + len).
  apply (walk_back_rule _ I).
  - intros k t' (Hw & Hcl & Hsub & Hsup & Hgone & _) Hk. constructor; [exact Hw| |exact Hcl].
    intros a v. split; [|intros [Ha Hn]; destruct (Hsup a v Ha); tauto].
    intros Ha. split; [auto|]. apply (Hgone a v Ha). pose proof (key_before_spec (VMAs t') k) as Hb. rewrite Hk in Hb.
    destruct Ha as (x & e & Hx & ? & _). specialize (Hb x (mk_is_Some _ _ Hx)). lia.
  - intros k t1 c (Hw & Hcl & Hsub & Hsup & Hgone & HkT) Hk.
    pose proof (key_before_spec (VMAs t1) k) as Hb. rewrite Hk in Hb. pose proof Hb as ([e Hc] & Hck & _).
    destruct Hw as [L Hw]. destruct (Z_le_gt_dec (c + Length e) B) as [Hstop|Hgo].
    + exists false, t1. split; [apply (clear_step_stop t1 L c e); auto|].
      constructor; [exists L; exact Hw| |exact Hcl]. intros a v. split; [|intros [Ha Hn]; destruct (Hsup a v Ha); tauto].
      intros Ha. split; [auto|]. destruct (ok_last _ (wf_vmas _ _ Hw) k c e a v Hb Hc Ha); [apply (Hgone a v Ha); assumption|lia].
    + destruct (clear_step_spec t1 L c e P B (B + len) Hw Hc) as (t2 & Hrun & [Hw2 Hm2 Hb2 Hc2]); try lia.
      exists true, t2. split; [exact Hrun|]. split; [|exact Hb2].
      refine (conj Hw2 (conj (cleared_trans _ _ _ _ Hcl Hc2) (conj _ (conj _ (conj _ _))))); [| | |lia].
      * intros a v [Ha _]%Hm2. auto.
      * intros a v Ha. rewrite Hm2. destruct (Hsup a v Ha) as [Ha1|]; [|auto].
        destruct (Z_lt_le_dec a B), (Z_lt_le_dec a (B + len)); try (right; lia); left; (split; [exact Ha1|lia]).
      * intros a v [Ha Hn]%Hm2 Hca Hr. destruct (ok_last _ (wf_vmas _ _ Hw) k c e a v Hb Hc Ha); [exact (Hgone a v Ha ltac:(assumption) Hr)|lia].
  - destruct Hwf as [L Hw].
    refine (conj (ex_intro _ L Hw) (conj (cleared_refl P t L Hw) (conj _ (conj _ (conj _ _))))); auto; lia.
Qed.

(** The effect of [SetUnsafe]: the range maps the resource from the offset. *)
Record set_effect (Res : option MRID) (B Off len : Z) (Fl : bool) (Pr : Z) (t t' : VMATracking) : Prop := {
  st_wf : wf t';
  st_maps a v : maps (VMAs t') a v <->
    (maps (VMAs t) a v /\ ~ (B <= a < B + len)) \/
    (B <= a < B + len /\ v = (Res, uint 64 (Off + (a - B)), Fl, Pr));
  st_kept r : Some r = Res -> is_Some (MappedResources t' !! r);
  st_res r : Some r <> Res -> is_Some (MappedResources t' !! r) <->
             is_Some (MappedResources t !! r) /\ (used (VMAs t') r \/ ~ used (VMAs t) r)
}.

Section Set_.
Context (t1 : VMATracking) (L : MRID -> list Z) (Res : option MRID) (B Off len Pr : Z) (Fl : bool).
Hypothesis Hw : wf_with t1 L.
Hypothesis Hin : in_space B len.
Hypothesis Hlen : 0 < len.
Hypothesis Hfree : forall a v, maps (VMAs t1) a v -> ~ (B <= a < B + len).

Lemma free_start : VMAs t1 !! B = None.
Proof using Hw Hlen Hfree.
destruct (VMAs t1 !! B) as [e|] eqn:E; [|reflexivity]. exfalso.
destruct (ok_entry _ (wf_vmas _ _ Hw) B e E) as (_ & _ & ? & _).
apply (Hfree B (at_offset e B)); [exists B, e; repeat split; auto; lia|lia].
Qed.

Lemma set_ok p n : ok_vmas (<[B := mkVMA Res p n B Off len Fl Pr]> (VMAs t1)).
Proof using All.
destruct Hin as (HB & _ & HT). apply ok_insert; cbn; auto using free_start; [apply (wf_vmas _ _ Hw)|].
intros k e Hk. destruct (ok_entry _ (wf_vmas _ _ Hw) k e Hk) as (_ & _ & ? & _).
destruct (Z_le_gt_dec (k + Length e) B); [auto|right]. destruct (Z_le_gt_dec (B + len) k); [auto|exfalso].
apply (Hfree (Z.max B k) (at_offset e (Z.max B k))); [exists k, e; repeat split; auto; lia|lia].
Qed.

Lemma set_maps p n a v :
  maps (<[B := mkVMA Res p n B Off len Fl Pr]> (VMAs t1)) a v <->
  maps (VMAs t1) a v \/ (B <= a < B + len /\ v = (Res, uint 64 (Off + (a - B)), Fl, Pr)).
Proof using All. rewrite maps_insert by apply free_start. reflexivity. Qed.

(** The new entry is linked in front of the list of its resource. *)
Lemma set_spec :
  (forall r, Res = Some r -> is_Some (MappedResources t1 !! r)) ->
  exists t' L' p n, (First ← (match Res with Some r => R ← getR r; mret (FirstVMA R) | None => mret None end);
  Inserted ← emplace B (mkVMA Res None First B Off len Fl Pr);
  _ ← check Inserted;
  match Res with Some r => ListPrepend r B | None => mret tt end) t1 = Ok (tt, t') /\
  wf_with t' L' /\ strip <$> VMAs t' = strip <$> <[B := mkVMA Res p n B Off len Fl Pr]> (VMAs t1) /\
  strip_r <$> MappedResources t' = strip_r <$> MappedResources t1.
Proof using All.
intros HRes. pose proof Hw as [Hm Hl Hmem]. pose proof set_ok as Hok.
destruct Res as [r|].
- destruct (HRes r eq_refl) as [R HR]. set (nx := mkVMA (Some r) None (FirstVMA R) B Off len Fl Pr).
set (t2 := set_vmas (<[B := nx]> (VMAs t1)) t1).
pose proof (linked_emplace t1 L Hl B nx free_start) as Hl2.
destruct (ListPrepend_spec t2 L r B nx Hl2 (lookup_insert_eq _ _ _) eq_refl
      (linked_fresh t1 L Hl B r free_start) R HR eq_refl (linked_first _ _ Hl r R HR))
as (t' & Hrun & Hl' & [S1 S2 S3]).
exists t', (upd r (B :: L r) L), None, (FirstVMA R). split.
{ rewrite M_bind_assoc, (M_bind_Ok _ _ _ _ _ (getR_Ok t1 r R HR)).
change (mret (FirstVMA R) ≫= ?f) with (f (FirstVMA R)). cbv beta.
rewrite (M_bind_Ok _ _ _ _ _ (emplace_Ok t1 B _ free_start)), (M_bind_Ok (check true) _ _ tt _ eq_refl).
exact Hrun. }
split; [|split; assumption]. constructor; [|exact Hl'|].
+ exact (shape_ok _ _ S1 (Hok None (FirstVMA R))).
+ intros k e' r' Hk Hr. destruct (shape_lookup _ _ S1 k e' Hk) as (e0 & Hk0 & (E & _)%strip_fields).
unfold upd. cbn [t2 VMAs set_vmas] in Hk0. apply lookup_insert_Some in Hk0 as [[<- <-]|[_ Hk0]].
* cbn in E. rewrite decide_True by congruence. apply list_elem_of_here.
* pose proof (Hmem k e0 r' Hk0 ltac:(congruence)) as Hi. destruct (decide (r' = r)) as [->|]; [|exact Hi].
apply list_elem_of_further, Hi.
- exists (set_vmas (<[B := mkVMA None None None B Off len Fl Pr]> (VMAs t1)) t1), L, None, None. split.
{ change (mret None ≫= ?f) with (f (@None Z)). cbv beta.
rewrite (M_bind_Ok _ _ _ _ _ (emplace_Ok t1 B _ free_start)). reflexivity. }
split; [|split; reflexivity]. constructor; [apply Hok|apply (linked_emplace t1 L Hl), free_start|].
cbn. intros k e' r [[<- <-]|[_ Hk]]%lookup_insert_Some Hr; [discriminate|eauto].
Qed.
End Set_.

Lemma SetUnsafe_wp t Res B Off len Fl Pr :
  wf t -> in_space B len -> 0 < len -> (forall r, Res = Some r -> is_Some (MappedResources t !! r)) ->
  exists t', SetUnsafe Res B Off len Fl Pr t = Ok (tt, t') /\ set_effect Res B Off len Fl Pr t t'.
Proof.
  intros Hwf Hin Hlen HRes. destruct (ClearUnsafe_wp t B len Res Hwf Hin) as (t1 & Hclear & [[L Hw] Hm [U1 R1 _ _]]).
  assert (forall a v, maps (VMAs t1) a v -> ~ (B <= a < B + len)) as Hfree by (intros a v Ha; apply Hm in Ha; tauto).
  assert (forall r, Some r = Res -> is_Some (MappedResources t1 !! r)) as HRes1
    by (intros r <-; apply R1; split; [apply HRes; reflexivity|auto]).
  destruct (set_spec t1 L Res B Off len Pr Fl Hw Hin Hlen Hfree) as (t' & L' & p & n & Hrun & Hw' & S1 & S2); [auto|].
  exists t'. unfold SetUnsafe. rewrite (M_bind_Ok _ _ _ _ _ Hclear). split; [exact Hrun|]. constructor.
  - exists L'. exact Hw'.
  - intros a v. rewrite (shape_maps _ _ a v S1), (set_maps t1 L Res B Off len Pr Fl Hw Hin Hlen Hfree), Hm. reflexivity.
  - intros r Hr. rewrite (shape_r_some _ _ r S2). auto.
  - intros r Hr. rewrite (shape_r_some _ _ r S2), (shape_used _ _ r S1), R1.
    assert (used (<[B := mkVMA Res p n B Off len Fl Pr]> (VMAs t1)) r <-> used (VMAs t1) r) as ->; [|tauto].
    pose proof (free_start t1 L B len Hw Hlen Hfree) as Hfs. split.
    + intros (k & e & [[<- <-]|[_ Hk]]%lookup_insert_Some & Hre); [cbn in Hre; congruence|exists k, e; auto].
    + intros (k & e & Hk & Hre). exists k, e. rewrite lookup_insert_ne by congruence. auto.
Qed.
