(* ===== verification/VMAChange.v ===== *)
(** * Changing the protection of a range

    [ChangeUnsafe] sets the protection of what is mapped in its range, provided
    that an entry that starts before the range reaches its end. The new entry of
    such a mapping is given the length of the whole range, so that without the
    proviso it overlaps the next entry, and a later [ClearUnsafe] fails. *)
From Stdlib Require Import ZArith Lia Bool.
From stdpp Require Import base gmap list numbers option.
From S2P Require Import Prelude VMATracking VMALists VMAClear.
#[local] Open Scope Z_scope.

Definition reprot (p : Z) (v : mapping) : mapping := let '(r, o, f, _) := v in (r, o, f, p).

Lemma reprot_same p e a : Prot e = p -> reprot p (at_offset e a) = at_offset e a.
Proof. intros <-. reflexivity. Qed.

(** ** Splitting an entry *)

(** The entry at [c] replaced by parts of its range, in order. *)
Definition ins (l : list (Z * VMAEntry)) (m : gmap Z VMAEntry) : gmap Z VMAEntry :=
  foldr (fun p m => <[p.1 := p.2]> m) m l.
Fixpoint fits (lo hi : Z) (l : list (Z * VMAEntry)) : Prop :=
  match l with
  | [] => lo <= hi
  | (x, e) :: l => lo <= x /\ Base e = x /\ 0 < Length e /\ fits (x + Length e) hi l
  end.

Section Parts.
Context (m : gmap Z VMAEntry) (c : Z) (e : VMAEntry).
Hypothesis Hm : ok_vmas m.
Hypothesis Hc : m !! c = Some e.

Lemma outside k e' : base.delete c m !! k = Some e' -> k + Length e' <= c \/ c + Length e <= k.
Proof using All.
intros [Hne Hk]%lookup_delete_Some. destruct (Z.lt_trichotomy k c) as [?|[?|?]]; [left|lia|right].
- exact (ok_apart _ Hm k e' c Hk (mk_is_Some _ _ Hc) ltac:(assumption)).
- exact (ok_apart _ Hm c e k Hc (mk_is_Some _ _ Hk) ltac:(assumption)).
Qed.

Lemma fits_le lo hi l : fits lo hi l -> lo <= hi.
Proof. revert lo. induction l as [|[x f] l IH]; intros lo; cbn; [auto|]. intros (? & ? & ? & H%IH). lia. Qed.

Lemma ins_lookup l lo hi k e' :
  fits lo hi l -> ins l (base.delete c m) !! k = Some e' ->
  base.delete c m !! k = Some e' \/ (lo <= k /\ k + Length e' <= hi).
Proof.
  revert lo. induction l as [|[x f] l IH]; intros lo; cbn; [auto|]. intros (? & ? & ? & Hf).
  intros [[<- <-]|[_ Hk]]%lookup_insert_Some; [right; pose proof (fits_le _ _ _ Hf); lia|].
  destruct (IH _ Hf Hk) as [|[]]; [auto|right; lia].
Qed.

Lemma ins_fresh l lo x f hi :
  fits lo hi ((x, f) :: l) -> c <= lo -> hi <= c + Length e -> ins l (base.delete c m) !! x = None.
Proof using All.
intros (? & ? & ? & Hf) ? ?. pose proof (fits_le _ _ _ Hf).
destruct (ins l _ !! x) as [e'|] eqn:E; [|reflexivity]. exfalso.
destruct (ins_lookup l _ _ x e' Hf E) as [Hx|[]]; [|lia].
destruct (ok_entry _ (ok_delete m c Hm) x e' Hx) as (_ & _ & ? & _). destruct (outside x e' Hx); lia.
Qed.

Lemma ins_ok l lo hi :
  fits lo hi l -> c <= lo -> hi <= c + Length e -> ok_vmas (ins l (base.delete c m)).
Proof using All.
destruct (ok_entry _ Hm c e Hc) as (_ & ? & _ & ?).
revert lo. induction l as [|[x f] l IH]; intros lo Hfits ? ?; [apply ok_delete, Hm|].
pose proof (ins_fresh l lo x f hi Hfits ltac:(lia) ltac:(lia)). destruct Hfits as (? & ? & ? & Hf).
pose proof (fits_le _ _ _ Hf). cbn. apply ok_insert; try lia; [apply (IH _ Hf); lia|assumption|].
intros k e' Hk. destruct (ins_lookup l _ _ k e' Hf Hk) as [Hd|[]]; [|lia].
destruct (outside k e' Hd); lia.
Qed.

Lemma ins_maps l lo hi a v :
  fits lo hi l -> c <= lo -> hi <= c + Length e ->
  maps (ins l (base.delete c m)) a v <->
  maps (base.delete c m) a v \/ Exists (fun p => p.1 <= a < p.1 + Length p.2 /\ v = at_offset p.2 a) l.
Proof using All.
revert lo. induction l as [|[x f] l IH]; intros lo Hfits ? ?.
- rewrite Exists_nil. cbn. tauto.
- pose proof (ins_fresh l lo x f hi Hfits ltac:(lia) ltac:(lia)) as Hx. destruct Hfits as (? & ? & ? & Hf).
cbn. rewrite maps_insert by exact Hx. rewrite (IH _ Hf) by lia. rewrite Exists_cons. cbn. tauto.
Qed.

Lemma maps_at a v : maps m a v <-> maps (base.delete c m) a v \/ (c <= a < c + Length e /\ v = at_offset e a).
Proof using Hc.
rewrite <- maps_insert by apply lookup_delete_eq. rewrite insert_delete_id by exact Hc. reflexivity.
Qed.
End Parts.

(** ** One iteration *)

(** What [ChangeUnsafe] relies on: an entry from before the range whose
    protection changes reaches the end of the range. *)
Definition reaches (B Top New : Z) (m : gmap Z VMAEntry) : Prop :=
  forall k e, m !! k = Some e -> k < B -> B < k + Length e -> Prot e <> New -> Top <= k + Length e.

Record change_effect_at (B Top New c : Z) (e : VMAEntry) (t t' : VMATracking) : Prop := {
  ch_wf : wf t';
  ch_maps a v : maps (VMAs t') a v <->
    (maps (VMAs t) a v /\ ~ (c <= a < c + Length e /\ B <= a < Top)) \/
    (c <= a < c + Length e /\ B <= a < Top /\ v = reprot New (at_offset e a));
  ch_reaches : reaches B Top New (VMAs t) -> reaches B Top New (VMAs t');
  ch_keys x : x < c -> is_Some (VMAs t' !! x) <-> is_Some (VMAs t !! x);
  ch_cleared : cleared None t t'
}.

Section ChangeStep.
Context (t : VMATracking) (L : MRID -> list Z) (c : Z) (e : VMAEntry) (B Top New : Z).
Hypothesis Hw : wf_with t L.
Hypothesis Hc : VMAs t !! c = Some e.
Hypothesis HB : 0 <= B < Top.
Hypothesis HT : Top < 2 ^ 64.
Hypothesis HcT : c < Top.
Hypothesis HcB : B < c + Length e.
Hypothesis Hreach : c < B -> Top <= c + Length e.

Definition parts (fp mid tl : VMAEntry) : list (Z * VMAEntry) :=
  (if c <? B then [(c, fp)] else []) ++ (Z.max c B, mid) :: (if Top <? c + Length e then [(Top, tl)] else []).

Record good_parts (fp mid tl : VMAEntry) : Prop := {
  gp_first : c < B -> Base fp = c /\ Length fp = B - c /\ forall a, at_offset fp a = at_offset e a;
  gp_mid : Base mid = Z.max c B /\ Length mid = Z.min Top (c + Length e) - Z.max c B /\
  forall a, at_offset mid a = reprot New (at_offset e a);
  gp_last : Top < c + Length e -> Base tl = Top /\ Length tl = c + Length e - Top /\
  forall a, at_offset tl a = at_offset e a
}.

Lemma parts_fits fp mid tl : good_parts fp mid tl -> fits c (c + Length e) (parts fp mid tl).
Proof using Hw Hc HB HcT HcB Hreach.
destruct (ok_entry _ (wf_vmas _ _ Hw) c e Hc) as (_ & _ & ? & _).
intros [F (M1 & M2 & _) T]. unfold parts.
destruct (Z.ltb_spec c B) as [l|l]; [destruct (F l) as (F1 & F2 & _); specialize (Hreach l)|];
(destruct (Z.ltb_spec Top (c + Length e)) as [l'|l']; [destruct (T l') as (T1 & T2 & _)|]);
cbn [fits app]; split_and!; try assumption; lia.
Qed.

Context (fp mid tl : VMAEntry).
Hypothesis Hgood : good_parts fp mid tl.
Local Abbreviation m' := (ins (parts fp mid tl) (base.delete c (VMAs t))).

Lemma parts_maps a v :
  maps m' a v <->
  (maps (VMAs t) a v /\ ~ (c <= a < c + Length e /\ B <= a < Top)) \/
  (c <= a < c + Length e /\ B <= a < Top /\ v = reprot New (at_offset e a)).
Proof using All.
pose proof (wf_vmas _ _ Hw) as Hm. destruct (ok_entry _ Hm c e Hc) as (_ & _ & ? & _).
rewrite (ins_maps _ c e Hm Hc _ c (c + Length e)) by (auto using parts_fits; lia).
rewrite (maps_at (VMAs t) c e Hc). pose proof (maps_delete _ c e a v Hm Hc) as HD.
destruct Hgood as [F (_ & M2 & M3) T]. unfold parts.
destruct (Z.ltb_spec c B) as [l|l]; [destruct (F l) as (_ & F2 & F3); specialize (Hreach l)|];
(destruct (Z.ltb_spec Top (c + Length e)) as [l'|l']; [destruct (T l') as (_ & T2 & T3)|]);
cbn [app]; rewrite ?Exists_cons, ?Exists_nil; cbn [fst snd]; rewrite ?M2, ?M3, ?F2, ?F3, ?T2, ?T3;
generalize dependent (maps (base.delete c (VMAs t)) a v); intros D HD;
generalize (v = at_offset e a), (v = reprot New (at_offset e a)); intros Q1 Q2;
clear - HD HB HcT HcB l l' Hreach H;
destruct (Z_lt_le_dec a c), (Z_lt_le_dec a B), (Z_lt_le_dec a Top), (Z_lt_le_dec a (c + Length e)); try lia;
intuition lia.
Qed.

Lemma parts_keys x : x < c -> is_Some (m' !! x) <-> is_Some (VMAs t !! x).
Proof using HB HcT.
intros Hx. unfold parts. destruct (c <? B), (Top <? c + Length e); cbn;
rewrite ?lookup_insert_ne by lia; rewrite lookup_delete_ne by lia; reflexivity.
Qed.

Lemma parts_reaches : reaches B Top New (VMAs t) -> reaches B Top New m'.
Proof using All.
intros H k ek Hk HkB Hlen Hne. destruct Hgood as [F (M1 & M2 & M3) T].
pose proof (ok_entry _ (wf_vmas _ _ Hw) c e Hc) as (_ & _ & ? & _).
destruct (Z.eq_dec k c) as [->|Hkc].
- assert (c < B) as l by lia. destruct (F l) as (_ & F2 & _). unfold parts in Hk.
destruct (Z.ltb_spec c B); [|lia]. cbn in Hk. rewrite lookup_insert_eq in Hk. injection Hk as <-. lia.
- apply (H k ek); auto. revert Hk. unfold parts. destruct (c <? B), (Top <? c + Length e); cbn;
rewrite ?lookup_insert_ne by lia; rewrite lookup_delete_ne by lia; auto.
Qed.

Lemma parts_effect t' L' : cleared None t t' -> strip <$> VMAs t' = strip <$> m' -> wf_with t' L' ->
  change_effect_at B Top New c e t t'.
Proof using All.
intros Hcl HS Hw'. constructor.
- exists L'. exact Hw'.
- intros a v. rewrite (shape_maps _ _ a v HS). apply parts_maps.
- intros H%parts_reaches k ek Hk HkB Hlen Hne.
destruct (shape_lookup _ _ HS k ek Hk) as (e0 & Hk0 & (_ & _ & _ & E4 & _ & E6)%strip_fields).
rewrite <- E4 in *. rewrite <- E6 in Hne. exact (H k e0 Hk0 HkB Hlen Hne).
- intros x Hx. rewrite (shape_some _ _ HS). apply parts_keys, Hx.
- exact Hcl.
Qed.

Lemma parts_ok : ok_vmas m'.
Proof using All.
pose proof (wf_vmas _ _ Hw) as Hm. apply (ins_ok _ c e Hm Hc _ c (c + Length e)); [apply parts_fits; assumption|lia..].
Qed.
End ChangeStep.

(** An entry is updated to [f e] and a new entry linked after it. *)
Lemma split_run t L k e (f : VMAEntry -> VMAEntry) x off len Fl Pr :
  wf_with t L -> VMAs t !! k = Some e -> same_links e (f e) -> VMAs t !! x = None ->
  exists t' L', (_ ← setV k f; e ← getV k;
      Inserted ← emplace x (mkVMA (Resource e) (Some k) (ResourceNextVMA e) x off len Fl Pr);
      _ ← check Inserted;
      if isSome (Resource e) then ListInsertAfter k x else mret tt) t = Ok (tt, t') /\
    (forall A (K : T A), (_ ← setV k f; e ← getV k;
      Inserted ← emplace x (mkVMA (Resource e) (Some k) (ResourceNextVMA e) x off len Fl Pr);
      _ ← check Inserted;
      _ ← (if isSome (Resource e) then ListInsertAfter k x else mret tt); K) t = K t') /\
    cleared_to None t (<[x := mkVMA (Resource e) (Some k) (ResourceNextVMA e) x off len Fl Pr]> (<[k := f e]> (VMAs t))) t' L'.
Proof.
  intros Hw Hk Hf Hx. pose proof Hf as (Er & Ep & En).
  set (tr := mkVMA (Resource e) (Some k) (ResourceNextVMA e) x off len Fl Pr).
  destruct (insert_after_spec t L k e None Hw Hk x tr Hx eq_refl eq_refl (f e) Hf eq_refl) as (t' & L' & Hrun & Hto).
  set (t1 := set_vmas (<[k := f e]> (VMAs t)) t).
  assert (VMAs t1 !! x = None) as Hx1 by (cbn; rewrite lookup_insert_ne by congruence; exact Hx).
  exists t', L'. split; [|split; [intros A K|exact Hto]]; rewrite (M_bind_Ok _ _ _ _ _ (setV_Ok t k e f Hk));
    rewrite (M_bind_Ok _ _ _ _ _ (getV_Ok t1 k (f e) (lookup_insert_eq _ _ _))); cbv beta; rewrite Er, En;
    rewrite (M_bind_Ok _ _ _ _ _ (emplace_Ok t1 x tr Hx1)), (M_bind_Ok (check true) _ _ tt _ eq_refl).
  - exact Hrun.
  - rewrite (M_bind_Ok _ _ _ _ _ Hrun). reflexivity.
Qed.

Section ChangeRun.
Context (t : VMATracking) (L : MRID -> list Z) (c : Z) (e : VMAEntry) (B Top New : Z).
Hypothesis Hw : wf_with t L.
Hypothesis Hc : VMAs t !! c = Some e.
Hypothesis HB : 0 <= B < Top.
Hypothesis HT : Top < 2 ^ 64.
Hypothesis HcT : c < Top.
Hypothesis HcB : B < c + Length e.
Hypothesis Hreach : Prot e <> New -> c < B -> Top <= c + Length e.


(** The new parts, as the code builds them from an entry with their resource. *)
Lemma offset_part x p pr nx fl len a :
  Base e = c -> at_offset (mkVMA (Resource e) pr nx x (uint 64 (uint 64 (Offset e - c) + x)) len fl p) a =
  (Resource e, uint 64 (Offset e + (a - Base e)), fl, p).
Proof. intros ->. unfold at_offset. cbn [Resource Offset Base Flags Prot]. rewrite trailing_offset. reflexivity. Qed.

(** A mapping that starts in the range. *)
Lemma change_in_range :
  Prot e <> New -> B <= c ->
  exists t', change_step B Top New c t = Ok (true, t') /\ change_effect_at B Top New c e t t'.
Proof using All.
intros Hp l. pose proof (wf_vmas _ _ Hw) as Hm. destruct (ok_entry _ Hm c e Hc) as (Eb & ? & ? & ?).
unfold change_step. rewrite (M_bind_Ok _ _ _ _ _ (getV_Ok _ _ _ Hc)). cbv beta zeta.
rewrite Eb, (uint_small 64 (c + Length e)) by lia. destruct (Z.leb_spec (c + Length e) B); [lia|].
destruct (Z.eqb_spec (Prot e) New); [contradiction|]. destruct (Z.ltb_spec c B); [lia|].
set (e1 := with_prot New e). set (m1 := <[c := e1]> (VMAs t)). set (t1 := set_vmas m1 t).
assert (same_links e e1) as Hsl by (repeat split).
pose proof (trim_spec t L c e None Hw Hc e1 Hsl) as Hto1.
assert (ok_vmas m1) as Hm1.
{ unfold m1. rewrite <- insert_delete_eq.
apply (ins_ok _ c e Hm Hc [(c, e1)] c (c + Length e)); [|lia..].
cbn [fits]. change (Length e1) with (Length e). split_and!; [lia|exact Eb|lia|lia]. }
pose proof (cleared_to_wf _ _ _ _ _ Hm1 Hto1) as Hw1.
rewrite M_bind_assoc, (M_bind_Ok _ _ _ _ _ (setV_Ok t c e _ Hc)). fold e1 m1 t1.
change (mret c ≫= ?f) with (f c). cbv beta.
assert (VMAs t1 !! c = Some e1) as Hc1 by apply lookup_insert_eq.
destruct (Z.ltb_spec Top (c + Length e)) as [l'|l'].
- set (tr := mkVMA (Resource e) (Some c) (ResourceNextVMA e) Top (uint 64 (uint 64 (Offset e - c) + Top))
       (uint 64 (c + Length e - Top)) (Flags e) (Prot e)).
assert (VMAs t1 !! Top = None) as HTop
by (apply (ok_inside _ Hm1 c e1 Top Hc1); change (Length e1) with (Length e); lia).
assert (same_links e1 (with_length (uint 64 (Top - Base e1)) e1)) as Hsl1 by (split; [|split]; reflexivity).
destruct (split_run t1 L c e1 (with_length (uint 64 (Top - Base e1))) Top (uint 64 (uint 64 (Offset e - c) + Top))
      (uint 64 (c + Length e - Top)) (Flags e) (Prot e) Hw1 Hc1 Hsl1 HTop)
as (t' & L' & Hrun & _ & Hto).
exists t'. split.
{ rewrite M_bind_assoc, (M_bind_Ok _ _ _ _ _ (getV_Ok t1 c e1 Hc1)). cbv beta.
rewrite (M_bind_Ok _ _ _ _ _ Hrun). reflexivity. }
set (mid := with_length (uint 64 (Top - Base e1)) e1) in *. fold tr in Hto.
assert (good_parts c e B Top New e mid tr) as Hg.
{ constructor.
- lia.
- rewrite Z.max_l, Z.min_l by lia. split; [exact Eb|]. split; [|reflexivity].
change (uint 64 (Top - Base e) = Top - c). rewrite Eb. apply uint_small. lia.
- intros _. split; [reflexivity|]. split; [apply uint_small; lia|]. intros a. apply offset_part, Eb. }
assert (<[Top := tr]> (<[c := mid]> (VMAs t1)) = ins (parts c e B Top e mid tr) (base.delete c (VMAs t))) as Em.
{ unfold parts. destruct (Z.ltb_spec c B), (Z.ltb_spec Top (c + Length e)); try lia. cbn. rewrite Z.max_l by lia.
unfold t1, m1. cbn [VMAs set_vmas]. rewrite insert_insert_eq, <- (insert_delete_eq (VMAs t) c mid).
apply insert_insert_ne. lia. }
pose proof (parts_ok t L c e B Top New Hw Hc HB HT HcT HcB (Hreach Hp) e mid tr Hg) as Hok. rewrite <- Em in Hok.
apply (parts_effect t L c e B Top New Hw Hc HB HT HcT HcB (Hreach Hp) e mid tr Hg t' L').
+ eapply cleared_trans; [apply Hto1|apply Hto].
+ rewrite <- Em. apply Hto.
+ eapply cleared_to_wf; [exact Hok|exact Hto].
- exists t1. split; [reflexivity|].
assert (good_parts c e B Top New e e1 e) as Hg.
{ constructor; [lia| |lia]. rewrite Z.max_l, Z.min_r by lia. split; [exact Eb|]. split; [|reflexivity].
change (Length e = c + Length e - c). lia. }
assert (m1 = ins (parts c e B Top e e1 e) (base.delete c (VMAs t))) as Em.
{ unfold parts. destruct (Z.ltb_spec c B), (Z.ltb_spec Top (c + Length e)); try lia. cbn. rewrite Z.max_l by lia.
unfold m1. rewrite insert_delete_eq. reflexivity. }
apply (parts_effect t L c e B Top New Hw Hc HB HT HcT HcB (Hreach Hp) e e1 e Hg t1 L);
[apply Hto1|rewrite <- Em; reflexivity|exact Hw1].
Qed.

(** A mapping that starts before the range. *)
Lemma change_across :
  Prot e <> New -> c < B ->
  exists t', change_step B Top New c t = Ok (true, t') /\ change_effect_at B Top New c e t t'.
Proof using All.
intros Hp l. pose proof (wf_vmas _ _ Hw) as Hm. destruct (ok_entry _ Hm c e Hc) as (Eb & ? & ? & ?).
pose proof (Hreach Hp l) as Hr.
unfold change_step. rewrite (M_bind_Ok _ _ _ _ _ (getV_Ok _ _ _ Hc)). cbv beta zeta.
rewrite Eb, (uint_small 64 (c + Length e)) by lia. destruct (Z.leb_spec (c + Length e) B); [lia|].
destruct (Z.eqb_spec (Prot e) New); [contradiction|]. destruct (Z.ltb_spec c B); [|lia].
set (fp := with_length (uint 64 (B - c)) e).
set (rest := mkVMA (Resource e) (Some c) (ResourceNextVMA e) B (uint 64 (uint 64 (Offset e - c) + B))
       (uint 64 (Top - B)) (Flags e) New).
assert (same_links e fp) as Hsl by (split; [|split]; reflexivity).
assert (VMAs t !! B = None) as HBf by (apply (ok_inside _ Hm c e B Hc); lia).
destruct (split_run t L c e (with_length (uint 64 (B - c))) B (uint 64 (uint 64 (Offset e - c) + B))
    (uint 64 (Top - B)) (Flags e) New Hw Hc Hsl HBf) as (t1 & L1 & _ & Hrun1 & Hto1).
fold fp rest in Hto1. set (m1 := <[B := rest]> (<[c := fp]> (VMAs t))) in *.
erewrite M_bind_Ok by exact (Hrun1 Z (mret B)).
assert (forall tl, (Top < c + Length e -> Base tl = Top /\ Length tl = c + Length e - Top /\
              forall a, at_offset tl a = at_offset e a) -> good_parts c e B Top New fp rest tl) as Hg.
{ intros tl Htl. constructor; [| |exact Htl].
- intros _. split; [exact Eb|]. split; [apply uint_small; lia|reflexivity].
- rewrite Z.max_r, Z.min_l by lia. split; [reflexivity|]. split; [apply uint_small; lia|].
intros a. apply offset_part, Eb. }
assert (m1 = ins [(c, fp); (B, rest)] (base.delete c (VMAs t))) as Em1.
{ cbn. unfold m1. rewrite <- (insert_delete_eq (VMAs t) c fp). apply insert_insert_ne. lia. }
assert (ok_vmas m1) as Hm1.
{ rewrite Em1. apply (ins_ok _ c e Hm Hc _ c Top); [|lia..]. cbn [fits].
change (Length fp) with (uint 64 (B - c)). change (Length rest) with (uint 64 (Top - B)).
rewrite !uint_small by lia. split_and!; try lia; [exact Eb|reflexivity]. }
pose proof (cleared_to_wf _ _ _ _ _ Hm1 Hto1) as Hw1. pose proof (ct_shape _ _ _ _ _ Hto1) as S1.
destruct (Z.ltb_spec Top (c + Length e)) as [l'|l'].
- destruct (shape_lookup _ _ (eq_sym S1) B rest (lookup_insert_eq _ _ _)) as (e1 & He1 & Es).
pose proof (strip_fields _ _ Es) as (E1 & E2 & _).
assert (VMAs t1 !! Top = None) as HTop.
{ apply eq_None_not_Some. rewrite (shape_some _ _ S1). unfold m1. rewrite !lookup_insert_ne by lia.
rewrite (ok_inside _ Hm c e Top Hc) by lia. intros [? ?]. discriminate. }
set (f := with_length (uint 64 (Top - Base e1))).
set (tr := mkVMA (Resource e) None None Top (uint 64 (uint 64 (Offset e - c) + Top))
       (uint 64 (c + Length e - Top)) (Flags e) (Prot e)).
destruct (split_run t1 L1 B e1 f Top (uint 64 (uint 64 (Offset e - c) + Top))
      (uint 64 (c + Length e - Top)) (Flags e) (Prot e) Hw1 He1 (conj eq_refl (conj eq_refl eq_refl)) HTop)
as (t' & L' & Hrun & _ & Hto).
exists t'. split.
{ rewrite M_bind_assoc, (M_bind_Ok _ _ _ _ _ (getV_Ok t1 B e1 He1)). cbv beta. fold f.
rewrite (M_bind_Ok _ _ _ _ _ Hrun). reflexivity. }
assert (good_parts c e B Top New fp rest tr) as Hgp.
{ apply Hg. intros _. split; [reflexivity|]. split; [apply uint_small; lia|]. intros a. apply offset_part, Eb. }
pose proof (parts_ok t L c e B Top New Hw Hc HB HT HcT HcB (Hreach Hp) fp rest tr Hgp) as Hok.
match type of Hto with cleared_to _ _ ?m _ _ =>
assert (strip <$> m = strip <$> ins (parts c e B Top fp rest tr) (base.delete c (VMAs t))) as Em2 end.
{ unfold parts. destruct (Z.ltb_spec c B), (Z.ltb_spec Top (c + Length e)); try lia.
cbn [app ins foldr fst snd]. rewrite Z.max_r by lia. rewrite !fmap_insert, S1. unfold m1. rewrite !fmap_insert.
assert (strip (f e1) = strip rest) as -> by
(unfold f; rewrite E2; change (strip (with_length (Length rest) e1) = strip rest);
change (with_length (Length rest) (strip e1) = strip rest); rewrite Es; reflexivity).
rewrite insert_insert_eq, fmap_delete, <- (insert_delete_eq (strip <$> VMAs t) c (strip fp)).
rewrite E1. rewrite (insert_insert_ne _ B c) by lia. rewrite (insert_insert_ne _ Top c) by lia. f_equal.
apply insert_insert_ne. lia. }
assert (wf_with t' L') as Hw' by (eapply cleared_to_wf; [exact (shape_ok _ _ Em2 Hok)|exact Hto]).
apply (parts_effect t L c e B Top New Hw Hc HB HT HcT HcB (Hreach Hp) fp rest tr Hgp t' L'); [| |exact Hw'].
+ eapply cleared_trans; [apply Hto1|apply Hto].
+ rewrite <- Em2. apply Hto.
- assert (Top = c + Length e) as ET by lia. exists t1. split; [reflexivity|].
assert (good_parts c e B Top New fp rest e) as Hgp by (apply Hg; lia).
apply (parts_effect t L c e B Top New Hw Hc HB HT HcT HcB (Hreach Hp) fp rest e Hgp t1 L1);
[apply Hto1| |exact Hw1].
rewrite S1, Em1. unfold parts. destruct (Z.ltb_spec c B), (Z.ltb_spec Top (c + Length e)); try lia.
rewrite Z.max_r by lia. reflexivity.
Qed.
End ChangeRun.

(** ** [ChangeUnsafe] *)

Lemma change_step_stop t L c e B Top New :
  wf_with t L -> VMAs t !! c = Some e -> c + Length e <= B -> change_step B Top New c t = Ok (false, t).
Proof.
  intros Hw Hc H. destruct (ok_entry _ (wf_vmas _ _ Hw) c e Hc) as (Eb & ? & ? & ?).
  unfold change_step. rewrite (M_bind_Ok _ _ _ _ _ (getV_Ok _ _ _ Hc)). cbv beta zeta.
  rewrite Eb, (uint_small 64 (c + Length e)) by lia. destruct (Z.leb_spec (c + Length e) B); [reflexivity|lia].
Qed.

Lemma change_step_spec t L c e B Top New :
  wf_with t L -> VMAs t !! c = Some e -> 0 <= B < Top -> Top < 2 ^ 64 -> c < Top -> B < c + Length e ->
  reaches B Top New (VMAs t) ->
  exists t', change_step B Top New c t = Ok (true, t') /\ change_effect_at B Top New c e t t'.
Proof.
  intros Hw Hc HB HT HcT HcB Hr. assert (Prot e <> New -> c < B -> Top <= c + Length e) as Hreach
    by (intros; apply (Hr c e); auto; lia).
  destruct (Z.eq_dec (Prot e) New) as [Hp|Hp].
  - exists t. destruct (ok_entry _ (wf_vmas _ _ Hw) c e Hc) as (Eb & ? & ? & ?). split.
    { unfold change_step. rewrite (M_bind_Ok _ _ _ _ _ (getV_Ok _ _ _ Hc)). cbv beta zeta.
      rewrite Eb, (uint_small 64 (c + Length e)) by lia. destruct (Z.leb_spec (c + Length e) B); [lia|].
      rewrite (proj2 (Z.eqb_eq _ _) Hp). reflexivity. }
    constructor; [exists L; exact Hw| |auto|reflexivity|eapply cleared_refl; exact Hw].
    intros a v. rewrite reprot_same by exact Hp. rewrite (maps_at (VMAs t) c e Hc).
    destruct (Z_lt_le_dec a c), (Z_lt_le_dec a B), (Z_lt_le_dec a Top), (Z_lt_le_dec a (c + Length e)); try lia;
      pose proof (maps_delete _ c e a v (wf_vmas _ _ Hw) Hc); intuition lia.
  - destruct (Z_lt_le_dec c B).
    + apply (change_across t L c e B Top New); auto.
    + apply (change_in_range t L c e B Top New); auto.
Qed.

(** The effect of [ChangeUnsafe]: what is mapped in the range gets the new
    protection, the rest is as before, and no resource is freed. *)
Record change_effect (B len New : Z) (t t' : VMATracking) : Prop := {
  cg_wf : wf t';
  cg_maps a v : maps (VMAs t') a v <->
    (maps (VMAs t) a v /\ ~ (B <= a < B + len)) \/
    (B <= a < B + len /\ exists v0, maps (VMAs t) a v0 /\ v = reprot New v0);
  cg_cleared : cleared None t t'
}.

Lemma maps_unique m a v v' : ok_vmas m -> maps m a v -> maps m a v' -> v = v'.
Proof.
  intros Hm (k & e & Hk & Hr & ->) (k' & e' & Hk' & Hr' & ->).
  pose proof (ok_unique _ Hm _ _ _ _ a Hk Hk' Hr Hr') as <-. congruence.
Qed.

Lemma reprot_idemp p v : reprot p (reprot p v) = reprot p v.
Proof. destruct v as [[[? ?] ?] ?]. reflexivity. Qed.

(** What is mapped when the entries from [k] on have been changed. *)
Definition changed_from (k B len New : Z) (m0 m : gmap Z VMAEntry) : Prop :=
  forall a v, maps m a v <->
    (maps m0 a v /\ ~ (k <= a /\ B <= a < B + len)) \/
    (k <= a /\ B <= a < B + len /\ exists v0, maps m0 a v0 /\ v = reprot New v0).

Section Changed.
Context (k B len New : Z) (m0 m : gmap Z VMAEntry).
Hypothesis H : changed_from k B len New m0 m.

(** The end of the loop: nothing is mapped in the rest of the range. *)
Lemma changed_all :
  (forall a v, maps m a v -> B <= a < B + len -> k <= a) ->
  forall a v, maps m a v <-> (maps m0 a v /\ ~ (B <= a < B + len)) \/
                   (B <= a < B + len /\ exists v0, maps m0 a v0 /\ v = reprot New v0).
Proof using H.
intros Hend a v. assert (forall v, maps m0 a v -> B <= a < B + len -> k <= a) as Hka.
{ intros v0 Hv0 Ha. destruct (Z_le_gt_dec k a); [assumption|]. apply (Hend a v0); [|exact Ha].
apply H. left. split; [exact Hv0|lia]. }
rewrite (H a v). split.
- intros [[Hv Hn]|(? & ? & ?)]; [|right; auto]. left. split; [exact Hv|]. intros Ha. pose proof (Hka v Hv Ha). tauto.
- intros [[Hv Hn]|(Ha & v0 & Hv0 & ->)]; [left; tauto|right]. pose proof (Hka v0 Hv0 Ha). eauto.
Qed.

(** An iteration at the last entry before [k]. *)
Lemma changed_step c e m' :
  ok_vmas m -> is_before m k (Some c) -> m !! c = Some e ->
  (forall a v, maps m' a v <-> (maps m a v /\ ~ (c <= a < c + Length e /\ B <= a < B + len)) \/
  (c <= a < c + Length e /\ B <= a < B + len /\ v = reprot New (at_offset e a))) ->
  changed_from c B len New m0 m'.
Proof using H.
intros Hm Hb Hc H' a v. rewrite (H' a v). pose proof Hb as (_ & Hck & _).
assert (c <= a < c + Length e -> maps m a (at_offset e a)) as Hat by (intros; exists c, e; auto).
destruct (decide (B <= a < B + len)) as [Hin|Hout]; [|rewrite (H a v); tauto].
destruct (Z_lt_le_dec a c); [rewrite (H a v); intuition lia|].
destruct (Z_le_gt_dec k a) as [Hka|Hka].
- split.
+ intros [[Hv _]|(Ha & _ & ->)]; right.
* apply H in Hv as [[_ []]|?]; [auto|]. tauto.
* pose proof (proj1 (H _ _) (Hat Ha)) as [[_ []]|(_ & _ & v0 & Hv0 & ->)]; [auto|].
rewrite reprot_idemp. eauto.
+ intros [[_ []]|(_ & _ & v0 & Hv0 & ->)]; [auto|].
assert (maps m a (reprot New v0)) as Hv by (apply H; right; eauto).
destruct (decide (c <= a < c + Length e)) as [Ha|Ha]; [right|left; tauto].
split; [exact Ha|]. split; [exact Hin|]. rewrite <- (maps_unique m a _ _ Hm Hv (Hat Ha)). symmetry. apply reprot_idemp.
- assert (forall v, maps m a v <-> maps m0 a v) as Hsame by (intros; rewrite (H a); intuition lia).
assert (forall v, maps m a v -> c <= a < c + Length e) as Hend
by (intros v0 Hv0; destruct (ok_last m Hm k c e a v0 Hb Hc Hv0); lia).
split.
+ intros [[Hv Hn]|(Ha & _ & ->)]; [pose proof (Hend v Hv); tauto|]. right. split; [lia|]. split; [exact Hin|].
exists (at_offset e a). rewrite <- Hsame. auto.
+ intros [[_ []]|(_ & _ & v0 & Hv0%Hsame & ->)]; [auto|]. pose proof (Hend v0 Hv0) as Ha. right.
split; [exact Ha|]. split; [exact Hin|]. rewrite (maps_unique m a _ _ Hm Hv0 (Hat Ha)). reflexivity.
Qed.
End Changed.

Lemma ChangeUnsafe_wp t B len New :
  wf t -> in_space B len -> 0 < len -> reaches B (B + len) New (VMAs t) ->
  exists t', ChangeUnsafe B len New t = Ok (tt, t') /\ change_effect B len New t t'.
Proof.
  intros [L0 Hw0] (HB & _ & HT) Hlen Hr0. unfold ChangeUnsafe. rewrite uint_small by lia.
  rewrite (M_bind_Ok get_state _ t t t eq_refl).
  set (I := fun k t' => wf t' /\ cleared None t t' /\ reaches B (B + len) New (VMAs t') /\ k <= B + len /\
    changed_from k B len New (VMAs t) (VMAs t')).
  apply (walk_back_rule _ I).
  - intros k t1 (Hw & Hcl & _ & HkT & Hm) Hk. constructor; [exact Hw| |exact Hcl].
    pose proof (key_before_spec (VMAs t1) k) as Hb. rewrite Hk in Hb.
    apply (changed_all k B len New _ _ Hm). intros a v (x & e & Hx & ? & _) _.
    specialize (Hb x (mk_is_Some _ _ Hx)). lia.
  - intros k t1 c (Hw & Hcl & Hr & HkT & Hm) Hk.
    pose proof (key_before_spec (VMAs t1) k) as Hb. rewrite Hk in Hb. pose proof Hb as ([e Hc] & Hck & _).
    destruct Hw as [L Hw]. destruct (Z_le_gt_dec (c + Length e) B) as [Hstop|Hgo].
    + exists false, t1. split; [exact (change_step_stop t1 L c e B (B + len) New Hw Hc Hstop)|].
      constructor; [exists L; exact Hw| |exact Hcl]. apply (changed_all k B len New _ _ Hm). intros a v Ha Hin.
      destruct (ok_last _ (wf_vmas _ _ Hw) k c e a v Hb Hc Ha); lia.
    + destruct (change_step_spec t1 L c e B (B + len) New Hw Hc) as (t2 & Hrun & [Hw2 Hm2 Hr2 Hk2 Hc2]); auto; try lia.
      exists true, t2. split; [exact Hrun|]. split; [|exact Hk2].
      refine (conj Hw2 (conj (cleared_trans _ _ _ _ Hcl Hc2) (conj (Hr2 Hr) (conj _ _)))); [lia|].
      exact (changed_step k B len New _ _ Hm c e _ (wf_vmas _ _ Hw) Hb Hc Hm2).
  - refine (conj (ex_intro _ L0 Hw0) (conj (cleared_refl None t L0 Hw0) (conj Hr0 (conj _ _)))); [lia|].
    intros a v. split; [|intros [[? _]|[? [? _]]]; [assumption|lia]]. intros Ha. left. split; [exact Ha|lia].
Qed.
