(* ===== verification/VMATheorems.v ===== *)
(** * Theorems on the tracking of mappings

    The contract of [VMATracking] as properties of the address space that
    [LookupVMAUnsafe] shows, and the states in which [ChangeUnsafe] breaks it. *)
From Stdlib Require Import ZArith Lia Bool.
From stdpp Require Import base gmap list numbers option.
From S2P Require Import Prelude VMATracking VMALists VMAClear VMAChange.
#[local] Open Scope Z_scope.

(** ** Example states *)

Definition empty_tracking : VMATracking := mkTracking ∅ ∅ [].
Definition file : MRID := mkMRID 8 42.
Definition with_file : VMATracking := mkTracking ∅ {[file := mkResource (Some 7) None 0]} [].
Definition then_ok {A} (m : T A) (t : VMATracking) : VMATracking :=
  match m t with Ok (_, t') => t' | _ => t end.

Lemma empty_list_wf t : VMAs t = ∅ -> (forall r R, MappedResources t !! r = Some R -> FirstVMA R = None) -> wf t.
Proof.
  intros HV HR. exists (fun _ => []). constructor.
  - rewrite HV. constructor; [intros k e|intros k e k']; rewrite lookup_empty; discriminate.
  - constructor; cbn; auto; [constructor|contradiction].
  - intros k e r H. rewrite HV, lookup_empty in H. discriminate.
Qed.
Lemma empty_tracking_wf : wf empty_tracking.
Proof. apply empty_list_wf; [reflexivity|]. intros r R H. inversion H. Qed.
Lemma with_file_wf : wf with_file.
Proof.
  apply empty_list_wf; [reflexivity|]. cbn. intros r R [<- <-]%lookup_singleton_Some. reflexivity.
Qed.

(** A state with the file mapped at [0x1000, 0x5000). *)
Definition mapped : VMATracking := then_ok (SetUnsafe (Some file) 0x1000 0x8000 0x4000 true 1) with_file.

Ltac in_range := unfold in_space; lia.

Lemma mapped_eq : SetUnsafe (Some file) 0x1000 0x8000 0x4000 true 1 with_file = Ok (tt, mapped).
Proof. vm_compute. reflexivity. Qed.
Lemma mapped_wf : wf mapped.
Proof.
  destruct (SetUnsafe_wp with_file (Some file) 0x1000 0x8000 0x4000 true 1 with_file_wf ltac:(in_range) ltac:(lia))
    as (t' & Hrun & He).
  - intros r [= <-]. cbn. eauto.
  - rewrite mapped_eq in Hrun. injection Hrun as <-. exact (st_wf _ _ _ _ _ _ _ _ He).
Qed.

(** ** Theorems *)

(** The address space after an operation, from what the operation does to what
    is mapped. *)
Lemma view_None t a : ok_vmas (VMAs t) -> view t a = None <-> forall v, ~ maps (VMAs t) a v.
Proof.
  intros Hm. split.
  - intros H v Hv%view_maps; [congruence|exact Hm].
  - intros H. destruct (view t a) as [v|] eqn:E; [|reflexivity]. apply view_maps in E; [|exact Hm]. destruct (H v E).
Qed.

Lemma wf_ok t : wf t -> ok_vmas (VMAs t).
Proof. intros [L Hw]. apply Hw. Qed.

(** C8: [ClearUnsafe] on a well-formed state returns normally (every list check
    and insertion check passes and the loop ends), keeps the state well-formed,
    unmaps every address of the range and leaves every other address mapped as it
    was, offsets included, whatever parts of entries the range cuts. *)
Theorem ClearUnsafe_unmaps t B len P :
  wf t -> in_space B len ->
  exists t', ClearUnsafe B len P t = Ok (tt, t') /\ wf t' /\
    forall a, view t' a = if decide (B <= a < B + len) then None else view t a.
Proof.
  intros Hwf Hin. destruct (ClearUnsafe_wp t B len P Hwf Hin) as (t' & Hrun & [Hw Hm _]).
  exists t'. split; [exact Hrun|]. split; [exact Hw|]. intros a. pose proof (wf_ok _ Hwf). pose proof (wf_ok _ Hw).
  apply option_eq. intros v. rewrite view_maps, Hm by assumption.
  destruct (decide (B <= a < B + len)); [split; [tauto|discriminate]|]. rewrite view_maps by assumption. tauto.
Qed.

Lemma ClearUnsafe_unmaps_witness :
  wf mapped /\ exists t', ClearUnsafe 0x2000 0x1000 None mapped = Ok (tt, t') /\ wf t' /\
    forall a, view t' a = if decide (0x2000 <= a < 0x2000 + 0x1000) then None else view mapped a.
Proof. split; [exact mapped_wf|]. apply ClearUnsafe_unmaps; [exact mapped_wf|in_range]. Defined.

(** [ClearUnsafe] frees a [MappedResource] exactly when it removed its last
    mapping and it is not the preserved one: no mapping is left with a freed
    resource, the other resources keep their data, and the AOT cache entries that
    are unloaded are those of the freed resources. *)
Theorem ClearUnsafe_frees_unused t B len P :
  wf t -> in_space B len ->
  exists t', ClearUnsafe B len P t = Ok (tt, t') /\
    (forall r, is_Some (MappedResources t' !! r) <->
       is_Some (MappedResources t !! r) /\
       (used (VMAs t') r \/ Some r = P \/ ~ used (VMAs t) r)) /\
    (forall r R', MappedResources t' !! r = Some R' -> exists R, MappedResources t !! r = Some R /\
       AOTIRCacheEntry R' = AOTIRCacheEntry R /\ Resource_Length R' = Resource_Length R) /\
    (forall a, a ∈ UnloadedAOTIR t' <-> a ∈ UnloadedAOTIR t \/
       exists r R, MappedResources t !! r = Some R /\ AOTIRCacheEntry R = Some a /\ MappedResources t' !! r = None).
Proof.
  intros Hwf Hin. destruct (ClearUnsafe_wp t B len P Hwf Hin) as (t' & Hrun & [_ _ [_ HR HK HA]]).
  exists t'. split; [exact Hrun|]. split; [exact HR|]. split; [|exact HA].
  intros r R' H. destruct (HK r R' H) as (R & H0 & E%strip_r_fields). exists R. tauto.
Qed.

Lemma ClearUnsafe_frees_unused_witness :
  wf mapped /\ UnloadedAOTIR (then_ok (ClearUnsafe 0x1000 0x4000 None) mapped) = [7] /\
  exists t', ClearUnsafe 0x1000 0x4000 None mapped = Ok (tt, t') /\
    (forall r, is_Some (MappedResources t' !! r) <->
       is_Some (MappedResources mapped !! r) /\
       (used (VMAs t') r \/ Some r = None \/ ~ used (VMAs mapped) r)) /\
    (forall r R', MappedResources t' !! r = Some R' -> exists R, MappedResources mapped !! r = Some R /\
       AOTIRCacheEntry R' = AOTIRCacheEntry R /\ Resource_Length R' = Resource_Length R) /\
    (forall a, a ∈ UnloadedAOTIR t' <-> a ∈ UnloadedAOTIR mapped \/
       exists r R, MappedResources mapped !! r = Some R /\ AOTIRCacheEntry R = Some a /\
                   MappedResources t' !! r = None).
Proof.
  split; [exact mapped_wf|]. split; [vm_compute; reflexivity|].
  apply ClearUnsafe_frees_unused; [exact mapped_wf|in_range].
Defined.

(** C22: [SetUnsafe] maps the whole range to the resource from the given offset,
    with the given flags and protection, whatever was mapped there; the rest of
    the address space is as before and the resource is still registered. *)
Theorem SetUnsafe_maps t Res B Off len Fl Pr :
  wf t -> in_space B len -> 0 < len -> (forall r, Res = Some r -> is_Some (MappedResources t !! r)) ->
  exists t', SetUnsafe Res B Off len Fl Pr t = Ok (tt, t') /\ wf t' /\
    (forall a, view t' a = if decide (B <= a < B + len)
                           then Some (Res, uint 64 (Off + (a - B)), Fl, Pr) else view t a) /\
    (forall r, Some r = Res -> is_Some (MappedResources t' !! r)).
Proof.
  intros Hwf Hin Hlen HRes.
  destruct (SetUnsafe_wp t Res B Off len Fl Pr Hwf Hin Hlen HRes) as (t' & Hrun & [Hw Hm HK _]).
  exists t'. split; [exact Hrun|]. split; [exact Hw|]. split; [|exact HK].
  intros a. pose proof (wf_ok _ Hwf). pose proof (wf_ok _ Hw).
  apply option_eq. intros v. rewrite view_maps, Hm by assumption.
  destruct (decide (B <= a < B + len)).
  - split; [intros [[_ []]|[_ ->]]; tauto|intros [= <-]; auto].
  - rewrite view_maps by assumption. tauto.
Qed.

Lemma SetUnsafe_maps_witness :
  wf mapped /\
  exists t', SetUnsafe (Some file) 0x4000 0 0x2000 true 3 mapped = Ok (tt, t') /\ wf t' /\
    (forall a, view t' a = if decide (0x4000 <= a < 0x4000 + 0x2000)
                           then Some (Some file, uint 64 (0 + (a - 0x4000)), true, 3) else view mapped a) /\
    (forall r, Some r = Some file -> is_Some (MappedResources t' !! r)).
Proof.
  split; [exact mapped_wf|]. apply SetUnsafe_maps; [exact mapped_wf|in_range|lia|].
  intros r [= <-]. vm_compute. eexists. reflexivity.
Defined.

(** [LookupVMAUnsafe] returns the entry that contains the address when there
    is one, and [end()] when there is none. *)
Theorem LookupVMAUnsafe_finds t a :
  wf t ->
  (forall k e, LookupVMAUnsafe t a = Some (k, e) <-> VMAs t !! k = Some e /\ Base e = k /\ k <= a < k + Length e) /\
  (LookupVMAUnsafe t a = None <-> forall k e, VMAs t !! k = Some e -> ~ (k <= a < k + Length e)).
Proof.
  intros Hwf. pose proof (wf_ok _ Hwf) as Hm. split.
  - intros k e. rewrite LookupVMAUnsafe_spec by exact Hm. split; [|tauto]. intros [Hk Hr].
    pose proof (ok_entry _ Hm k e Hk). tauto.
  - split.
    + intros H k e Hk Hr. pose proof (proj2 (LookupVMAUnsafe_spec t a k e Hm) (conj Hk Hr)). congruence.
    + intros H. destruct (LookupVMAUnsafe t a) as [[k e]|] eqn:E; [|reflexivity].
      apply LookupVMAUnsafe_spec in E as [Hk Hr]; [|exact Hm]. destruct (H k e Hk Hr).
Qed.

Lemma LookupVMAUnsafe_finds_witness :
  wf mapped /\ (LookupVMAUnsafe mapped 0x5000 = None <->
                forall k e, VMAs mapped !! k = Some e -> ~ (k <= 0x5000 < k + Length e)).
Proof. split; [exact mapped_wf|]. apply LookupVMAUnsafe_finds, mapped_wf. Defined.

(** C38: When an entry that starts before the range and has another protection
    reaches the end of the range, [ChangeUnsafe] returns normally, keeps the state
    well-formed, gives the new protection to what is mapped in the range and to
    nothing else, and frees no resource. *)
Theorem ChangeUnsafe_protects t B len New :
  wf t -> in_space B len -> 0 < len -> reaches B (B + len) New (VMAs t) ->
  exists t', ChangeUnsafe B len New t = Ok (tt, t') /\ wf t' /\
    (forall a, view t' a = if decide (B <= a < B + len) then reprot New <$> view t a else view t a) /\
    (forall r, is_Some (MappedResources t !! r) -> used (VMAs t) r -> is_Some (MappedResources t' !! r)).
Proof.
  intros Hwf Hin Hlen Hr. destruct (ChangeUnsafe_wp t B len New Hwf Hin Hlen Hr) as (t' & Hrun & [Hw Hm [_ HR _ _]]).
  pose proof (wf_ok _ Hwf) as Ho. pose proof (wf_ok _ Hw) as Ho'.
  exists t'. split; [exact Hrun|]. split; [exact Hw|]. split.
  - intros a. apply option_eq. intros v. rewrite view_maps, Hm by exact Ho'.
    destruct (decide (B <= a < B + len)) as [Ha|Ha].
    + rewrite fmap_Some. setoid_rewrite view_maps; [|exact Ho]. intuition.
    + rewrite view_maps by exact Ho. intuition.
  - intros r HS (k & e & Hk & Hre). apply HR. split; [exact HS|]. left.
    destruct (ok_entry _ Ho k e Hk) as (_ & _ & ? & _).
    assert (maps (VMAs t) k (at_offset e k)) as Hv by (exists k, e; repeat split; auto; lia).
    assert (exists v, maps (VMAs t') k v /\ v.1.1.1 = Some r) as (v & (k' & e' & Hk' & _ & ->) & Hr').
    { destruct (decide (B <= k < B + len)) as [Hb|Hb].
      - exists (reprot New (at_offset e k)). split; [apply Hm; right; eauto|exact Hre].
      - exists (at_offset e k). split; [apply Hm; left; auto|exact Hre]. }
    exists k', e'. auto.
Qed.

Lemma ChangeUnsafe_protects_witness :
  wf mapped /\ reaches 0x2000 (0x2000 + 0x1000) 3 (VMAs mapped) /\
  exists t', ChangeUnsafe 0x2000 0x1000 3 mapped = Ok (tt, t') /\ wf t' /\
    (forall a, view t' a = if decide (0x2000 <= a < 0x2000 + 0x1000) then reprot 3 <$> view mapped a else view mapped a) /\
    (forall r, is_Some (MappedResources mapped !! r) -> used (VMAs mapped) r -> is_Some (MappedResources t' !! r)).
Proof.
  assert (reaches 0x2000 (0x2000 + 0x1000) 3 (VMAs mapped)) as Hr.
  { intros k e Hk _ _ _. vm_compute in Hk. change (VMAs mapped) with (VMAs mapped) in Hk.
    assert (map_to_list (VMAs mapped) = [(0x1000, mkVMA (Some file) None None 0x1000 0x8000 0x4000 true 1)]) as Hl
      by (vm_compute; reflexivity).
    assert ((k, e) ∈ map_to_list (VMAs mapped)) as Hin by (apply elem_of_map_to_list; exact Hk).
    rewrite Hl in Hin. apply elem_of_cons in Hin as [[= -> ->]|Hin]; [cbn; lia|inversion Hin]. }
  split; [exact mapped_wf|]. split; [exact Hr|].
  apply ChangeUnsafe_protects; [exact mapped_wf|in_range|lia|exact Hr].
Defined.

(** Two anonymous mappings side by side, and what [mprotect] does to a range that
    starts in the first and ends in the second. *)
Definition side_by_side : VMATracking :=
  then_ok (_ ← SetUnsafe None 0x1000 0 0x2000 false 1; SetUnsafe None 0x3000 0 0x2000 false 1) empty_tracking.
Definition overlapping : VMATracking := then_ok (ChangeUnsafe 0x2000 0x2000 3) side_by_side.

(** Without that proviso [ChangeUnsafe] corrupts the state. The new entry for
    the rest of a mapping cut by the start of the range has the length of the
    whole range: from two adjacent mappings, changing a range across their border
    leaves two entries that contain the same addresses, and a later [ClearUnsafe]
    of a part of the range stops at a failed check. *)
Theorem ChangeUnsafe_overlaps :
  wf side_by_side /\
  ChangeUnsafe 0x2000 0x2000 3 side_by_side = Ok (tt, overlapping) /\
  ~ wf overlapping /\
  (exists e1 e2, VMAs overlapping !! 0x2000 = Some e1 /\ VMAs overlapping !! 0x3000 = Some e2 /\
     0x2000 <= 0x3000 < 0x2000 + Length e1) /\
  ClearUnsafe 0x3000 0x800 None overlapping = Assert.
Proof.
  assert (exists e1 e2, VMAs overlapping !! 0x2000 = Some e1 /\ VMAs overlapping !! 0x3000 = Some e2 /\
     0x2000 <= 0x3000 < 0x2000 + Length e1) as Hover.
  { eexists _, _. split; [vm_compute; reflexivity|]. split; [vm_compute; reflexivity|]. cbn. lia. }
  split; [|split; [vm_compute; reflexivity|split; [|split; [exact Hover|vm_compute; reflexivity]]]].
  - destruct (SetUnsafe_wp empty_tracking None 0x1000 0 0x2000 false 1 empty_tracking_wf ltac:(in_range) ltac:(lia))
      as (t1 & H1 & E1); [discriminate|].
    destruct (SetUnsafe_wp t1 None 0x3000 0 0x2000 false 1 (st_wf _ _ _ _ _ _ _ _ E1) ltac:(in_range) ltac:(lia))
      as (t2 & H2 & E2); [discriminate|].
    unfold side_by_side, then_ok. rewrite (M_bind_Ok _ _ _ _ _ H1), H2. exact (st_wf _ _ _ _ _ _ _ _ E2).
  - intros [L [Hm _ _]]. destruct Hover as (e1 & e2 & He1 & He2 & Hr).
    pose proof (ok_apart _ Hm 0x2000 e1 0x3000 He1 (mk_is_Some _ _ He2)). lia.
Qed.
