(* ===== verification/SMCTracking.v ===== *)
(** * Tracking of the memory system calls and of self-modifying code

    [Source/Tests/LinuxSyscalls/SyscallsSMCTracking.cpp]: the [Track*] functions
    that the handlers of the memory system calls run, the write fault handler and
    the protection of pages with translated code. The kernel and the loader of
    AOT caches are parameters; the calls of [InvalidateGuestCodeRange] and
    [mprotect] are recorded in order in [Events]. *)
From Stdlib Require Import ZArith Lia Bool.
From stdpp Require Import base gmap list numbers option.
From S2P Require Import Prelude Pages VMATracking.
#[local] Open Scope Z_scope.

(** [SMCChecks]. *)
Inductive SMCMode := CONFIG_SMC_NONE | CONFIG_SMC_MTRACK | CONFIG_SMC_FULL | CONFIG_SMC_MMAN.

(** ** Protections and flags *)

Definition VMAProt_All (Readable Writable Executable : bool) : Z :=
  Z.b2z Readable + 2 * Z.b2z Writable + 4 * Z.b2z Executable.
Definition Writable (All : Z) : bool := Z.testbit All 1.
Definition fromProt (Prot : Z) : Z :=
  VMAProt_All (has Prot PROT_READ) (has Prot PROT_WRITE) (has Prot PROT_EXEC).
Definition fromSHM (SHMFlg : Z) : Z := VMAProt_All true (negb (has SHMFlg SHM_RDONLY)) false.
Definition fromFlags (Flags : Z) : bool := has Flags MAP_SHARED.

(** ** State *)

Inductive Event :=
  | Invalidated (Start Length : Z)
  | Protected (Start Length Prot : Z).

Record SyscallHandler := mkHandler {
  Tracking : VMATracking;
  AnonSharedId : Z;
  IsMemoryShared : bool;
  Events : list Event
}.
Abbreviation H := (M SyscallHandler).

(** An operation on the tracking state, under its mutex. *)
Definition locked {A} (m : T A) : H A := fun h =>
  match m (Tracking h) with
  | Ok (a, t) => Ok (a, mkHandler t (AnonSharedId h) (IsMemoryShared h) (Events h))
  | Assert => Assert
  | Undef => Undef
  end.
Definition event (e : Event) : H unit :=
  modify (fun h => mkHandler (Tracking h) (AnonSharedId h) (IsMemoryShared h) (Events h ++ [e])).
Definition InvalidateGuestCodeRange (Start Length : Z) : H unit := event (Invalidated Start Length).
Definition MarkMemoryShared : H unit :=
  modify (fun h => mkHandler (Tracking h) (AnonSharedId h) true (Events h)).
(** [AnonSharedId++] *)
Definition next_anon_id : H Z := fun h =>
  Ok (AnonSharedId h, mkHandler (Tracking h) (uint 64 (AnonSharedId h + 1)) (IsMemoryShared h) (Events h)).

(** [MappedResources.emplace]: whether the resource was inserted. *)
Definition emplace_resource (r : MRID) (R : MappedResource) : T bool :=
  t ← get_state;
  match MappedResources t !! r with
  | Some _ => mret false
  | None => _ ← modify (set_resources (<[r := R]> (MappedResources t))); mret true
  end.

Definition with_cache (c : option Z) (R : MappedResource) : MappedResource :=
  mkResource c (FirstVMA R) (Resource_Length R).

(** [do { body } while ((VMA = VMA->ResourceNextVMA))] from a [FirstVMA]. *)
Fixpoint for_vmas (fuel : nat) (body : VMAEntry -> H unit) (k : Z) : H unit :=
  match fuel with
  | O => fun _ => Undef
  | S fuel =>
      e ← locked (getV k);
      _ ← body e;
      match ResourceNextVMA e with Some n => for_vmas fuel body n | None => mret tt end
  end.

Section Handler.
(** The configuration, [fstat64], [get_fdpath], [LoadAOTIRCacheEntry] (null when
there is no cache), [shmctl(IPC_STAT)] (absent when it fails) and whether a
[mprotect] succeeds. *)
Context (SMCChecks : SMCMode) {Path : Type} (fstat64 : Z -> MRID) (get_fdpath : Z -> option Path)
(LoadAOTIRCacheEntry : Path -> option Z) (shm_segsz : Z -> option Z)
(mprotect_ok : Z -> Z -> Z -> bool).

Definition mprotect (Start Length Prot : Z) : H unit :=
_ ← event (Protected Start Length Prot); check (mprotect_ok Start Length Prot).

(** The mirrors of a resource: [FirstVMA] must not be null. *)
Definition for_mirrors (r : MRID) (body : VMAEntry -> H unit) : H unit :=
R ← locked (getR r);
_ ← check (isSome (FirstVMA R));
k ← lift (deref (FirstVMA R));
h ← get_state;
for_vmas (loop_fuel (Tracking h)) body k.

Definition flush_mirror (Off : Z) (VMA : VMAEntry) : H unit :=
if (Offset VMA <=? Off) && (Off <? uint 64 (Offset VMA + Length VMA)) then
let FaultBaseMirrored := uint 64 (Off - Offset VMA + Base VMA) in
_ ← InvalidateGuestCodeRange FaultBaseMirrored FEX_PAGE_SIZE;
if Writable (Prot VMA) then mprotect FaultBaseMirrored FEX_PAGE_SIZE (Z.lor PROT_READ PROT_WRITE)
else mret tt
else mret tt.

Definition HandleSegfault (FaultAddress : Z) : H bool :=
h ← get_state;
match LookupVMAUnsafe (Tracking h) FaultAddress with
| None => mret false
| Some (first, Entry) =>
if negb (Writable (Prot Entry)) then mret false
else
let FaultBase := AlignDown FaultAddress FEX_PAGE_SIZE in
if Flags Entry then
_ ← check (isSome (Resource Entry));
r ← lift (deref (Resource Entry));
let Off := uint 64 (FaultBase - first + Offset Entry) in
_ ← for_mirrors r (flush_mirror Off);
mret true
else
_ ← InvalidateGuestCodeRange FaultBase FEX_PAGE_SIZE;
_ ← mprotect FaultBase FEX_PAGE_SIZE (Z.lor PROT_READ PROT_WRITE);
mret true
end.

(** ** [MarkGuestExecutableRange] *)

Definition protect_mirror (OffsetBase OffsetTop : Z) (VMA : VMAEntry) : H unit :=
let VMAOffsetBase := Offset VMA in
let VMAOffsetTop := uint 64 (Offset VMA + Length VMA) in
if Writable (Prot VMA) && (VMAOffsetBase <? OffsetTop) && (OffsetBase <? VMAOffsetTop) then
let MirroredBase := Z.max VMAOffsetBase OffsetBase in
let MirroredSize := uint 64 (Z.min OffsetTop VMAOffsetTop - MirroredBase) in
mprotect (uint 64 (MirroredBase - VMAOffsetBase + Base VMA)) MirroredSize PROT_READ
else mret tt.

(** The body of the loop; the result is whether it goes on. *)
Definition mark_step (Base_ Top Current : Z) : H bool :=
e ← locked (getV Current);
let MapTop := uint 64 (Current + Length e) in
if MapTop <=? Base_ then mret false
else
let ProtectBase := Z.max Current Base_ in
let ProtectSize := uint 64 (Z.min MapTop Top - ProtectBase) in
_ ← (if Flags e then
 _ ← check (isSome (Resource e));
 r ← lift (deref (Resource e));
 let OffsetBase := uint 64 (ProtectBase - Current + Offset e) in
 let OffsetTop := uint 64 (OffsetBase + ProtectSize) in
 for_mirrors r (protect_mirror OffsetBase OffsetTop)
else if Writable (Prot e) then mprotect ProtectBase ProtectSize PROT_READ
else mret tt);
mret true.

Fixpoint mark_back (fuel : nat) (Base_ Top k : Z) : H unit :=
match fuel with
| O => fun _ => Undef
| S fuel =>
h ← get_state;
match key_before (VMAs (Tracking h)) k with
| None => mret tt
| Some c => go ← mark_step Base_ Top c; if (go : bool) then mark_back fuel Base_ Top c else mret tt
end
end.

Definition MarkGuestExecutableRange (Start Length : Z) : H unit :=
let Base_ := Z.land Start FEX_PAGE_MASK in
let Top := AlignUp (uint 64 (Start + Length)) FEX_PAGE_SIZE in
match SMCChecks with
| CONFIG_SMC_MTRACK => h ← get_state; mark_back (loop_fuel (Tracking h)) Base_ Top Top
| _ => mret tt
end.

(** The AOT cache entry of an address and the start of its file. *)
Definition LookupAOTIRCacheEntry (GuestAddr : Z) : H (option Z * Z) :=
h ← get_state;
match LookupVMAUnsafe (Tracking h) GuestAddr with
| None => mret (None, 0)
| Some (_, e) =>
c ← match Resource e with
| Some r => R ← locked (getR r); mret (AOTIRCacheEntry R)
| None => mret None
end;
mret (c, uint 64 (Base e - Offset e))
end.

(** ** The system calls *)

Definition invalidate (Start Length : Z) : H unit :=
match SMCChecks with CONFIG_SMC_NONE => mret tt | _ => InvalidateGuestCodeRange Start Length end.

Definition mmap_resource (Flags fd : Z) : H (option MRID) :=
if negb (has Flags MAP_ANONYMOUS) then
let mrid := fstat64 fd in
match get_fdpath fd with
| Some filename =>
Inserted ← locked (emplace_resource mrid (mkResource None None 0));
_ ← (if (Inserted : bool) then locked (setR mrid (with_cache (LoadAOTIRCacheEntry filename))) else mret tt);
mret (Some mrid)
| None => mret None
end
else if has Flags MAP_SHARED then
i ← next_anon_id;
let mrid := mkMRID SpecialDev_Anon i in
Inserted ← locked (emplace_resource mrid (mkResource None None 0));
_ ← check Inserted;
mret (Some mrid)
else mret None.

Definition TrackMmap (Base_ Size Prot_ Flags_ fd Offset_ : Z) : H unit :=
let Size := AlignUp Size FEX_PAGE_SIZE in
_ ← (if has Flags_ MAP_SHARED then MarkMemoryShared else mret tt);
r ← mmap_resource Flags_ fd;
_ ← locked (SetUnsafe r Base_ (uint 64 Offset_) Size (fromFlags Flags_) (fromProt Prot_));
invalidate Base_ Size.

Definition TrackMunmap (Base_ Size : Z) : H unit :=
let Size := AlignUp Size FEX_PAGE_SIZE in
_ ← locked (ClearUnsafe Base_ Size None);
invalidate Base_ Size.

Definition TrackMprotect (Base_ Size Prot_ : Z) : H unit :=
let Size := AlignUp Size FEX_PAGE_SIZE in
_ ← locked (ChangeUnsafe Base_ Size (fromProt Prot_));
invalidate Base_ Size.

(** The entry is read before the check that it is not [end()]. *)
Definition TrackMremap (OldAddress OldSize NewSize flags NewAddress : Z) : H unit :=
let OldSize := AlignUp OldSize FEX_PAGE_SIZE in
let NewSize := AlignUp NewSize FEX_PAGE_SIZE in
h ← get_state;
OldVMA ← lift (deref (LookupVMAUnsafe (Tracking h) OldAddress));
let '(first, e) := (OldVMA : Z * VMAEntry) in
let OldOffset := uint 64 (Offset e + OldAddress - first) in
_ ← (if OldSize =? 0 then
_ ← check (isSome (Resource e));
_ ← check (Flags e);
locked (SetUnsafe (Resource e) NewAddress OldOffset NewSize (Flags e) (Prot e))
else
_ ← (if negb (has flags MREMAP_DONTUNMAP) then locked (ClearUnsafe OldAddress OldSize (Resource e))
    else mret tt);
locked (SetUnsafe (Resource e) NewAddress OldOffset NewSize (Flags e) (Prot e)));
match SMCChecks with
| CONFIG_SMC_NONE => mret tt
| _ =>
if negb (OldAddress =? NewAddress) then
if negb (OldSize =? 0) then InvalidateGuestCodeRange OldAddress OldSize else mret tt
else if NewSize <? OldSize then
InvalidateGuestCodeRange (uint 64 (OldAddress + NewSize)) (OldSize - NewSize)
else mret tt
end.

Definition TrackShmat (shmid Base_ shmflg : Z) : H unit :=
_ ← MarkMemoryShared;
_ ← check (isSome (shm_segsz shmid));
Length ← lift (deref (shm_segsz shmid));
let mrid := mkMRID SpecialDev_SHM (uint 64 shmid) in
_ ← locked (emplace_resource mrid (mkResource None None Length));
_ ← locked (SetUnsafe (Some mrid) Base_ 0 Length (fromFlags MAP_SHARED)
      (fromProt (if has shmflg SHM_RDONLY then PROT_READ else Z.lor PROT_READ PROT_WRITE)));
invalidate Base_ Length.

Definition TrackShmdt (Base_ : Z) : H unit :=
Length ← locked (ClearShmUnsafe Base_);
invalidate Base_ Length.

(** [TrackMadvise] only aligns its size and takes the lock. *)
Definition TrackMadvise (Base_ Size advice : Z) : H unit := mret tt.
End Handler.
