(* ===== verification/SMCLogic.v ===== *)
(** * Running the tracking functions

    The loops over the mirrors of a resource visit each mapping of the resource
    once, and operations on the tracking state lift to the handler's state. *)
From Stdlib Require Import ZArith Lia Bool.
From stdpp Require Import base gmap list numbers option.
From S2P Require Import Prelude Pages VMATracking VMALists VMAClear VMAChange SMCTracking.
#[local] Open Scope Z_scope.

Definition add_events (es : list Event) (h : SyscallHandler) : SyscallHandler :=
  mkHandler (Tracking h) (AnonSharedId h) (IsMemoryShared h) (Events h ++ es).

Lemma add_events_nil h : add_events [] h = h.
Proof. destruct h. unfold add_events. cbn. rewrite app_nil_r. reflexivity. Qed.
Lemma add_events_app es1 es2 h : add_events es2 (add_events es1 h) = add_events (es1 ++ es2) h.
Proof. unfold add_events. cbn. rewrite app_assoc. reflexivity. Qed.

(** [m] only records the events [es]. *)
Definition logs (m : H unit) (es : list Event) : Prop := forall h, m h = Ok (tt, add_events es h).

Lemma logs_ret : logs (mret tt) [].
Proof. intros h. rewrite add_events_nil. reflexivity. Qed.
Lemma logs_event e : logs (event e) [e].
Proof. intros h. reflexivity. Qed.
Lemma logs_bind m f es1 es2 : logs m es1 -> logs (f tt) es2 -> logs (m ≫= f) (es1 ++ es2).
Proof.
  intros H1 H2 h. rewrite (M_bind_Ok _ _ _ _ _ (H1 h)), H2, add_events_app. reflexivity.
Qed.

Lemma locked_Ok {A} (m : T A) h a t :
  m (Tracking h) = Ok (a, t) ->
  locked m h = Ok (a, mkHandler t (AnonSharedId h) (IsMemoryShared h) (Events h)).
Proof. intros E. unfold locked. rewrite E. reflexivity. Qed.

(** Reading does not change the state. *)
Lemma locked_getV h k e : VMAs (Tracking h) !! k = Some e -> locked (getV k) h = Ok (e, h).
Proof. intros E. rewrite (locked_Ok _ h e (Tracking h) (getV_Ok _ _ _ E)). destruct h. reflexivity. Qed.
Lemma locked_getR h r R : MappedResources (Tracking h) !! r = Some R -> locked (getR r) h = Ok (R, h).
Proof. intros E. rewrite (locked_Ok _ h R (Tracking h) (getR_Ok _ _ _ E)). destruct h. reflexivity. Qed.

(** ** The mirrors of a resource *)

Section Mirrors.
Context (L : MRID -> list Z) (r : MRID) (body : VMAEntry -> H unit) (f : VMAEntry -> list Event).
Hypothesis Hbody : forall e, logs (body e) (f e).

(** The entries of a list of keys. *)
Definition entries (t : VMATracking) (ks : list Z) : list VMAEntry := omap (fun k => VMAs t !! k) ks.

Lemma for_vmas_logs fuel p k l h :
  dseg (VMAs (Tracking h)) r p (k :: l) None -> (length (k :: l) <= fuel)%nat ->
  for_vmas fuel body k h = Ok (tt, add_events (concat (map f (entries (Tracking h) (k :: l)))) h).
Proof using Hbody.
revert p k h fuel. induction l as [|n l IH]; intros p k h fuel [(e & He & Hr & _ & Hn) Hs] Hf;
(destruct fuel as [|fuel]; [cbn in Hf; lia|]); cbn [for_vmas entries omap list_omap map concat];
rewrite (M_bind_Ok _ _ _ _ _ (locked_getV h k e He)), (M_bind_Ok _ _ _ _ _ (Hbody e h)), He, Hn; cbn [hd_or].
- cbn. rewrite app_nil_r. reflexivity.
- rewrite (IH (Some k) n (add_events (f e) h) fuel); [|exact Hs|cbn in *; lia].
rewrite add_events_app. reflexivity.
Qed.

Lemma list_fuel t : linked t L -> (length (L r) <= loop_fuel t)%nat.
Proof.
  intros Hl. unfold loop_fuel. rewrite <- size_dom. apply le_S.
  rewrite <- (size_list_to_set (C := gset Z) (L r)) by apply (linked_nodup _ _ Hl r).
  apply subseteq_size. intros k Hk. apply elem_of_list_to_set in Hk.
  destruct (linked_mem t L Hl r k Hk) as (e & He & _). apply elem_of_dom. eauto.
Qed.

(** Every mapping of a mapped resource is visited. *)
Lemma for_mirrors_logs h :
  wf_with (Tracking h) L -> used (VMAs (Tracking h)) r ->
  for_mirrors r body h = Ok (tt, add_events (concat (map f (entries (Tracking h) (L r)))) h).
Proof using Hbody.
intros Hw Hu. pose proof (wf_linked _ _ Hw) as Hl. apply (used_list _ _ _ Hw) in Hu.
destruct (linked_dom _ _ Hl r Hu) as [R HR]. pose proof (linked_first _ _ Hl r R HR) as HF.
pose proof (linked_seg _ _ Hl r) as Hs. pose proof (list_fuel _ Hl) as Hfuel.
unfold for_mirrors. rewrite (M_bind_Ok _ _ _ _ _ (locked_getR h r R HR)), HF.
destruct (L r) as [|k l]; [contradiction|]. cbn [hd_or isSome].
exact (for_vmas_logs _ None k l h Hs Hfuel).
Qed.

Lemma entries_spec t e :
  wf_with t L -> e ∈ entries t (L r) <-> exists k, VMAs t !! k = Some e /\ Resource e = Some r.
Proof.
  intros Hw. unfold entries. rewrite list_elem_of_omap. split.
  - intros (k & Hk & He). destruct (linked_mem t L (wf_linked _ _ Hw) r k Hk) as (e' & He' & Hr').
    exists k. split; congruence.
  - intros (k & He & Hr). exists k. split; [exact (wf_member _ _ Hw k e r He Hr)|exact He].
Qed.

Lemma mirror_events t ev :
  wf_with t L -> ev ∈ concat (map f (entries t (L r))) <->
  exists k e, VMAs t !! k = Some e /\ Resource e = Some r /\ ev ∈ f e.
Proof.
  intros Hw. rewrite list_elem_of_In, in_concat. setoid_rewrite <- list_elem_of_In. split.
  - intros (x & Hx & Hev). apply list_elem_of_In, in_map_iff in Hx as (e & <- & He).
    apply list_elem_of_In, entries_spec in He as (k & Hk & Hr); [|exact Hw]. exists k, e. auto.
  - intros (k & e & Hk & Hr & Hev). exists (f e). split; [|exact Hev].
    apply list_elem_of_In, in_map, list_elem_of_In, entries_spec; eauto.
Qed.
End Mirrors.

(** ** The bodies of the two loops *)

Section Bodies.
Context (mprotect_ok : Z -> Z -> Z -> bool).
Hypothesis Hok : forall a l p, mprotect_ok a l p = true.

Lemma mprotect_logs a l p : logs (mprotect mprotect_ok a l p) [Protected a l p].
Proof using Hok.
intros h. unfold mprotect. rewrite (M_bind_Ok _ _ _ _ _ (logs_event _ h)), Hok. reflexivity.
Qed.

Definition flush_events (Off : Z) (e : VMAEntry) : list Event :=
  if (Offset e <=? Off) && (Off <? uint 64 (Offset e + Length e)) then
  Invalidated (uint 64 (Off - Offset e + Base e)) FEX_PAGE_SIZE ::
  (if Writable (Prot e) then [Protected (uint 64 (Off - Offset e + Base e)) FEX_PAGE_SIZE (Z.lor PROT_READ PROT_WRITE)]
  else [])
  else [].

Lemma flush_mirror_logs Off e : logs (flush_mirror mprotect_ok Off e) (flush_events Off e).
Proof using Hok.
unfold flush_mirror, flush_events. destruct (_ && _); [|apply logs_ret].
apply (logs_bind _ _ [_]); [apply logs_event|].
destruct (Writable (Prot e)); [apply mprotect_logs|apply logs_ret].
Qed.

Definition protect_events (OffsetBase OffsetTop : Z) (e : VMAEntry) : list Event :=
  let VMAOffsetTop := uint 64 (Offset e + Length e) in
  if Writable (Prot e) && (Offset e <? OffsetTop) && (OffsetBase <? VMAOffsetTop) then
  let MirroredBase := Z.max (Offset e) OffsetBase in
  [Protected (uint 64 (MirroredBase - Offset e + Base e)) (uint 64 (Z.min OffsetTop VMAOffsetTop - MirroredBase)) PROT_READ]
  else [].

Lemma protect_mirror_logs OB OT e : logs (protect_mirror mprotect_ok OB OT e) (protect_events OB OT e).
Proof using Hok.
unfold protect_mirror, protect_events. destruct (_ && _); [apply mprotect_logs|apply logs_ret].
Qed.
End Bodies.

(** Mappings whose offsets do not wrap around, at page boundaries. *)
Definition regular (m : gmap Z VMAEntry) : Prop :=
  forall k e, m !! k = Some e -> k mod FEX_PAGE_SIZE = 0 /\ 0 <= Offset e /\ Offset e + Length e < 2 ^ 64.

(** The entry behind a view. *)
Lemma view_entry t a r off fl pr :
  ok_vmas (VMAs t) -> regular (VMAs t) -> view t a = Some (Some r, off, fl, pr) ->
  exists k e, VMAs t !! k = Some e /\ k <= a < k + Length e /\ LookupVMAUnsafe t a = Some (k, e) /\
    Resource e = Some r /\ off = Offset e + (a - k) /\ fl = Flags e /\ pr = Prot e /\ Base e = k.
Proof.
  intros Hm Hreg Hv. apply view_maps in Hv; [|exact Hm]. destruct Hv as (k & e & Hk & Hr & Hv).
  destruct (Hreg k e Hk) as (_ & ? & ?). destruct (ok_entry _ Hm k e Hk) as (Eb & ? & ? & ?).
  unfold at_offset in Hv. rewrite Eb, uint_small in Hv by lia. injection Hv as E1 E2 E3 E4.
  exists k, e. repeat split; auto; try lia. apply LookupVMAUnsafe_spec; auto.
Qed.
Lemma entry_view t k e a r :
  ok_vmas (VMAs t) -> regular (VMAs t) -> VMAs t !! k = Some e -> k <= a < k + Length e -> Resource e = Some r ->
  view t a = Some (Some r, Offset e + (a - k), Flags e, Prot e).
Proof.
  intros Hm Hreg Hk Hr Hres. apply view_maps; [exact Hm|]. exists k, e. repeat split; auto; try lia.
  destruct (Hreg k e Hk) as (_ & ? & ?). destruct (ok_entry _ Hm k e Hk) as (Eb & ? & ? & ?).
  unfold at_offset. rewrite Eb, uint_small by lia. congruence.
Qed.

(** A mirror's flush is that of the address at the offset. *)
Lemma flush_events_spec t k e Off ev r :
  ok_vmas (VMAs t) -> regular (VMAs t) -> VMAs t !! k = Some e -> Resource e = Some r ->
  ev ∈ flush_events Off e <->
  exists a, k <= a < k + Length e /\ view t a = Some (Some r, Off, Flags e, Prot e) /\
    (ev = Invalidated a FEX_PAGE_SIZE \/
     (Writable (Prot e) = true /\ ev = Protected a FEX_PAGE_SIZE (Z.lor PROT_READ PROT_WRITE))).
Proof.
  intros Hm Hreg Hk Hres. destruct (Hreg k e Hk) as (_ & ? & ?). destruct (ok_entry _ Hm k e Hk) as (Eb & ? & ? & ?).
  assert (forall a, k <= a < k + Length e -> view t a = Some (Some r, Off, Flags e, Prot e) <-> a = Off - Offset e + k) as Hv.
  { intros a Ha. rewrite (entry_view t k e a r Hm Hreg Hk Ha Hres). split; [intros [= <-]; lia|intros ->].
    repeat f_equal. lia. }
  unfold flush_events. rewrite Eb, (uint_small 64 (Offset e + Length e)) by lia.
  destruct (Z.leb_spec (Offset e) Off), (Z.ltb_spec Off (Offset e + Length e)); cbn [andb].
  - rewrite (uint_small 64 (Off - Offset e + k)) by lia. set (a0 := Off - Offset e + k).
    assert (ev ∈ Invalidated a0 FEX_PAGE_SIZE ::
      (if Writable (Prot e) then [Protected a0 FEX_PAGE_SIZE (Z.lor PROT_READ PROT_WRITE)] else []) <->
      ev = Invalidated a0 FEX_PAGE_SIZE \/
      (Writable (Prot e) = true /\ ev = Protected a0 FEX_PAGE_SIZE (Z.lor PROT_READ PROT_WRITE))) as ->.
    { destruct (Writable (Prot e)); rewrite !elem_of_cons, elem_of_nil; intuition discriminate. }
    split.
    + intros He. exists a0. split; [unfold a0; lia|]. split; [apply Hv; unfold a0; lia|exact He].
    + intros (a & Ha & Hview & He). apply Hv in Hview; [|exact Ha]. replace a0 with a by (unfold a0; lia). exact He.
  - split; [intros Hi; inversion Hi|]. intros (a & Ha & Hview%Hv & _); [lia|exact Ha].
  - split; [intros Hi; inversion Hi|]. intros (a & Ha & Hview%Hv & _); [lia|exact Ha].
  - split; [intros Hi; inversion Hi|]. intros (a & Ha & Hview%Hv & _); [lia|exact Ha].
Qed.

(** ** [MarkGuestExecutableRange] *)

(** Address [a] is in a range that was made read-only. *)
Definition covered (evs : list Event) (a : Z) : Prop :=
  exists s l, Protected s l PROT_READ ∈ evs /\ s <= a < s + l.

(** A write to what is mapped at [a] faults: the mapping itself when it is
    private, all its mirrors when it is shared. *)
Definition guarded (t : VMATracking) (evs : list Event) (a : Z) : Prop :=
  forall res off fl pr, view t a = Some (res, off, fl, pr) ->
    if fl then forall r a' fl' pr', res = Some r -> view t a' = Some (Some r, off, fl', pr') ->
                 Writable pr' = true -> covered evs a'
    else Writable pr = true -> covered evs a.

(** Shared mappings have a resource. *)
Definition shared_backed (m : gmap Z VMAEntry) : Prop :=
  forall k e, m !! k = Some e -> Flags e = true -> is_Some (Resource e).

Lemma covered_app evs evs' a : covered evs a -> covered (evs ++ evs') a.
Proof. intros (s & l & Hi & Hr). exists s, l. split; [apply elem_of_app; auto|exact Hr]. Qed.
Lemma covered_app_r evs evs' a : covered evs' a -> covered (evs ++ evs') a.
Proof. intros (s & l & Hi & Hr). exists s, l. split; [apply elem_of_app; auto|exact Hr]. Qed.
Lemma guarded_app t evs evs' a : guarded t evs a -> guarded t (evs ++ evs') a.
Proof.
  intros Hg res off fl pr Hv. specialize (Hg res off fl pr Hv). destruct fl; [|intros; apply covered_app; auto].
  intros. eapply covered_app, Hg; eauto.
Qed.

Section Mark.
Context (mprotect_ok : Z -> Z -> Z -> bool) (L : MRID -> list Z).
Hypothesis Hok : forall a l p, mprotect_ok a l p = true.

(** A mirror's protection covers its part of the offsets. *)
Lemma protect_events_cover t k e OB OT a off r :
  ok_vmas (VMAs t) -> regular (VMAs t) -> VMAs t !! k = Some e -> Resource e = Some r ->
  0 <= OB -> OT < 2 ^ 64 -> k <= a < k + Length e -> off = Offset e + (a - k) -> OB <= off < OT ->
  Writable (Prot e) = true -> covered (protect_events OB OT e) a.
Proof.
  intros Hm Hreg Hk Hres HO HT Ha -> Hoff Hw. destruct (Hreg k e Hk) as (_ & ? & ?).
  destruct (ok_entry _ Hm k e Hk) as (Eb & ? & ? & ?).
  unfold protect_events. rewrite Hw, Eb, (uint_small 64 (Offset e + Length e)) by lia.
  destruct (Z.ltb_spec (Offset e) OT); [|lia]. destruct (Z.ltb_spec OB (Offset e + Length e)); [|lia]. cbn [andb].
  rewrite !uint_small by lia. eexists _, _. split; [apply list_elem_of_here|]. lia.
Qed.

Section Step.
Context (h : SyscallHandler) (B Top c : Z) (e : VMAEntry).
Hypothesis Hw : wf_with (Tracking h) L.
Hypothesis Hreg : regular (VMAs (Tracking h)).
Hypothesis Hsh : shared_backed (VMAs (Tracking h)).
Hypothesis Hc : VMAs (Tracking h) !! c = Some e.
Hypothesis HB : 0 <= B <= Top.
Hypothesis HcT : c < Top.

Lemma mark_step_stop : c + Length e <= B -> mark_step mprotect_ok B Top c h = Ok (false, h).
Proof using Hw Hc.
intros Hs. destruct (ok_entry _ (wf_vmas _ _ Hw) c e Hc) as (Eb & ? & ? & ?).
unfold mark_step. rewrite (M_bind_Ok _ _ _ _ _ (locked_getV h c e Hc)). cbv zeta.
rewrite uint_small by lia. destruct (Z.leb_spec (c + Length e) B); [reflexivity|lia].
Qed.

Lemma mark_step_spec :
  B < c + Length e -> Top < 2 ^ 64 ->
  exists new, mark_step mprotect_ok B Top c h = Ok (true, add_events new h) /\
  forall a, c <= a < c + Length e -> B <= a < Top -> guarded (Tracking h) new a.
Proof using All.
intros Hs HT. pose proof (wf_vmas _ _ Hw) as Hm. destruct (ok_entry _ Hm c e Hc) as (Eb & ? & ? & ?).
destruct (Hreg c e Hc) as (_ & ? & ?).
set (PB := Z.max c B). set (PS := Z.min (c + Length e) Top - PB).
assert (forall a v, c <= a < c + Length e -> view (Tracking h) a = Some v -> v = at_offset e a) as Hview.
{ intros a v Ha Hv%view_maps; [|exact Hm]. eapply maps_unique; [exact Hm|exact Hv|]. exists c, e. auto. }
unfold mark_step. rewrite (M_bind_Ok _ _ _ _ _ (locked_getV h c e Hc)). cbv beta zeta.
rewrite (uint_small 64 (c + Length e)) by lia. destruct (Z.leb_spec (c + Length e) B); [lia|].
fold PB. rewrite (uint_small 64 (Z.min (c + Length e) Top - PB)) by lia. fold PS.
destruct (Flags e) eqn:Hf.
- destruct (Hsh c e Hc Hf) as [r Hr]. rewrite Hr. cbn [isSome].
rewrite M_bind_assoc, (M_bind_Ok (check true) _ h tt h eq_refl).
rewrite M_bind_assoc, (M_bind_Ok (lift (deref (Some r))) _ h r h eq_refl).
rewrite (uint_small 64 (PB - c + Offset e)), (uint_small 64 (PB - c + Offset e + PS)) by lia.
set (OB := PB - c + Offset e). set (OT := OB + PS).
assert (used (VMAs (Tracking h)) r) as Hu by (exists c, e; auto).
rewrite (M_bind_Ok _ _ _ _ _ (for_mirrors_logs L r _ _ (protect_mirror_logs mprotect_ok Hok OB OT) h Hw Hu)).
eexists. split; [reflexivity|]. intros a Ha Hin res off fl pr Hv.
pose proof (Hview a _ Ha Hv) as E. unfold at_offset in E. rewrite Eb, uint_small, Hr, Hf in E by lia.
injection E as -> -> -> ->. intros r' a' fl' pr' [= <-] Hv' Hwr.
destruct (view_entry _ _ _ _ _ _ Hm Hreg Hv') as (k' & e' & Hk' & Ha' & _ & Hr' & EO & _ & -> & _).
destruct (protect_events_cover (Tracking h) k' e' OB OT a' (Offset e + (a - c)) r Hm Hreg Hk' Hr') as (s & l & Hi & Hl);
[lia|lia|exact Ha'|exact EO|lia|exact Hwr|].
exists s, l. split; [|exact Hl]. apply (mirror_events L r _ (Tracking h)); [exact Hw|]. eauto.
- destruct (Writable (Prot e)) eqn:Hp.
+ rewrite (M_bind_Ok _ _ _ _ _ (mprotect_logs mprotect_ok Hok PB PS PROT_READ h)).
exists [Protected PB PS PROT_READ]. split; [reflexivity|]. intros a Ha Hin res off fl pr Hv.
pose proof (Hview a _ Ha Hv) as E. unfold at_offset in E. rewrite Hf in E. injection E as -> -> -> ->.
intros _. exists PB, PS. split; [apply list_elem_of_here|]. lia.
+ exists []. rewrite add_events_nil. split; [reflexivity|]. intros a Ha Hin res off fl pr Hv.
pose proof (Hview a _ Ha Hv) as E. unfold at_offset in E. rewrite Hf in E. injection E as -> -> -> ->.
congruence.
Qed.
End Step.

Lemma mark_back_spec fuel B Top k h :
  wf_with (Tracking h) L -> regular (VMAs (Tracking h)) -> shared_backed (VMAs (Tracking h)) ->
  0 <= B <= Top -> Top < 2 ^ 64 -> k <= Top -> (below k (Tracking h) < fuel)%nat ->
  exists new, mark_back mprotect_ok fuel B Top k h = Ok (tt, add_events new h) /\
  forall a, B <= a < Top -> a < k -> guarded (Tracking h) new a.
Proof using Hok.
intros Hw Hreg Hsh HB HT. pose proof (wf_vmas _ _ Hw) as Hm.
revert k h Hw Hreg Hsh Hm. induction fuel as [|fuel IH]; intros k h Hw Hreg Hsh Hm Hk Hf; [lia|].
cbn [mark_back]. rewrite (M_bind_Ok get_state _ h h h eq_refl).
pose proof (key_before_spec (VMAs (Tracking h)) k) as Hb.
destruct (key_before (VMAs (Tracking h)) k) as [c|] eqn:Ek.
- pose proof Hb as ([e Hc] & Hck & _). destruct (Z_le_gt_dec (c + Length e) B) as [Hs|Hs].
+ rewrite (M_bind_Ok _ _ _ _ _ (mark_step_stop h B Top c e Hw Hc Hs)). exists []. rewrite add_events_nil.
split; [reflexivity|]. intros a Ha Hak res off fl pr Hv%view_maps; [|exact Hm].
destruct (ok_last _ Hm k c e a _ Hb Hc Hv); lia.
+ destruct (mark_step_spec h B Top c e Hw Hreg Hsh Hc HB ltac:(lia) ltac:(lia) HT) as (new1 & Hrun & Hg1).
rewrite (M_bind_Ok _ _ _ _ _ Hrun).
destruct (IH c (add_events new1 h) Hw Hreg Hsh Hm ltac:(lia)) as (new2 & Hrun2 & Hg2).
{ pose proof (below_step k c _ _ Ek (fun x _ => iff_refl _)) as Hlt. cbn. cbn in Hlt. lia. }
exists (new1 ++ new2). rewrite Hrun2, add_events_app. split; [reflexivity|]. intros a Ha Hak.
destruct (Z_lt_le_dec a c); [|].
* intros res off fl pr Hv. specialize (Hg2 a Ha ltac:(assumption) res off fl pr Hv).
destruct fl; intros; eapply covered_app_r; eauto.
* destruct (Z_lt_le_dec a (c + Length e)); [apply guarded_app, Hg1; lia|].
intros res off fl pr Hv%view_maps; [|exact Hm]. destruct (ok_last _ Hm k c e a _ Hb Hc Hv); lia.
- exists []. rewrite add_events_nil. split; [reflexivity|]. intros a Ha Hak res off fl pr Hv%view_maps; [|exact Hm].
destruct Hv as (x & ex & Hx & ? & _). specialize (Hb x (mk_is_Some _ _ Hx)). lia.
Qed.
End Mark.

(** ** The system calls *)

(** The invariant of the handler: the tracking state is well formed, and the next
    identifier of an anonymous shared mapping is new. *)
Record handler_ok (h : SyscallHandler) : Prop := {
  ho_wf : wf (Tracking h);
  ho_anon i : AnonSharedId h <= i -> MappedResources (Tracking h) !! mkMRID SpecialDev_Anon i = None;
  ho_id : 0 <= AnonSharedId h
}.

(** Resources that appear can only be the given one. *)
Definition no_new_resource (Res : option MRID) (t t' : VMATracking) : Prop :=
  forall r, is_Some (MappedResources t' !! r) -> is_Some (MappedResources t !! r) \/ Some r = Res.

Lemma set_no_new Res B Off len Fl Pr t t' :
  set_effect Res B Off len Fl Pr t t' -> no_new_resource Res t t'.
Proof.
  intros [_ _ _ HR] r Hr. destruct (decide (Some r = Res)) as [|Hne]; [auto|left]. apply HR in Hr; tauto.
Qed.
Lemma cleared_no_new P t t' : cleared P t t' -> no_new_resource None t t'.
Proof. intros [_ HR _ _] r Hr. left. apply HR in Hr. tauto. Qed.

Definition set_tracking (t : VMATracking) (h : SyscallHandler) : SyscallHandler :=
  mkHandler t (AnonSharedId h) (IsMemoryShared h) (Events h).

Lemma handler_ok_set h t Res :
  handler_ok h -> wf t -> no_new_resource Res (Tracking h) t ->
  (forall r, Res = Some r -> is_Some (MappedResources (Tracking h) !! r)) -> handler_ok (set_tracking t h).
Proof.
  intros [Hw Ha Hi] Ht Hn HR. constructor; cbn; auto.
  intros i Hge. apply eq_None_not_Some. intros Hs. destruct (Hn _ Hs) as [[R HR0]|E].
  - rewrite Ha in HR0 by exact Hge. discriminate.
  - destruct (HR _ (eq_sym E)) as [R HR0]. rewrite Ha in HR0 by exact Hge. discriminate.
Qed.

(** A new resource without mappings. *)
Lemma wf_new_resource t r R :
  wf t -> MappedResources t !! r = None -> FirstVMA R = None -> wf (set_resources (<[r := R]> (MappedResources t)) t).
Proof.
  intros [L [Hm [HF HS HN HD] Hmem]] Hr HR. exists L.
  assert (L r = []) as HL by (destruct (L r) eqn:E; [reflexivity|]; destruct (HD r); [congruence|congruence]).
  constructor; [exact Hm| |exact Hmem]. constructor; cbn; auto.
  - intros r' R' [[<- <-]|[_ H']]%lookup_insert_Some; [rewrite HL; exact HR|auto].
  - intros r' H'. destruct (decide (r = r')) as [<-|]; [rewrite lookup_insert_eq; eauto|].
    rewrite lookup_insert_ne by assumption. auto.
Qed.

(** Storing the cache of a resource does not concern the lists. *)
Lemma wf_with_cache t r R c :
  wf t -> MappedResources t !! r = Some R -> wf (set_resources (<[r := with_cache c R]> (MappedResources t)) t).
Proof.
  intros [L [Hm [HF HS HN HD] Hmem]] Hr. exists L. constructor; [exact Hm| |exact Hmem]. constructor; cbn; auto.
  - intros r' R' [[<- <-]|[_ H']]%lookup_insert_Some; [exact (HF r R Hr)|auto].
  - intros r' H'. destruct (decide (r = r')) as [<-|]; [rewrite lookup_insert_eq; eauto|].
    rewrite lookup_insert_ne by assumption. auto.
Qed.

Section Syscalls.
Context (SMCChecks : SMCMode) {Path : Type} (fstat64 : Z -> MRID) (get_fdpath : Z -> option Path)
  (LoadAOTIRCacheEntry : Path -> option Z) (shm_segsz : Z -> option Z).
(** A device number of the kernel is 32 bits wide. *)
Hypothesis Hdev : forall fd, dev (fstat64 fd) <> SpecialDev_Anon.

(** The resource [TrackMmap] maps. *)
Definition resource_for (h : SyscallHandler) (Flags fd : Z) : option MRID :=
  if negb (has Flags MAP_ANONYMOUS) then
  match get_fdpath fd with Some _ => Some (fstat64 fd) | None => None end
  else if has Flags MAP_SHARED then Some (mkMRID SpecialDev_Anon (AnonSharedId h)) else None.

Lemma emplace_resource_spec t r R :
  wf t -> FirstVMA R = None ->
  exists ins t', emplace_resource r R t = Ok (ins, t') /\ wf t' /\ VMAs t' = VMAs t /\
  is_Some (MappedResources t' !! r) /\ (ins = true <-> MappedResources t !! r = None) /\
  (forall r', r' <> r -> MappedResources t' !! r' = MappedResources t !! r').
Proof.
  intros Hw HR. unfold emplace_resource. rewrite (M_bind_Ok get_state _ t t t eq_refl).
  destruct (MappedResources t !! r) as [R0|] eqn:E.
  - exists false, t. repeat split; eauto; discriminate.
  - exists true, (set_resources (<[r := R]> (MappedResources t)) t).
    split; [reflexivity|]. split; [apply wf_new_resource; assumption|]. split; [reflexivity|]. cbn.
    rewrite lookup_insert_eq. split; [eauto|]. split; [tauto|]. intros. apply lookup_insert_ne. congruence.
Qed.

Lemma mmap_resource_spec h Flags fd :
  handler_ok h -> AnonSharedId h + 1 < 2 ^ 64 ->
  exists h', mmap_resource fstat64 get_fdpath LoadAOTIRCacheEntry Flags fd h = Ok (resource_for h Flags fd, h') /\
  handler_ok h' /\ VMAs (Tracking h') = VMAs (Tracking h) /\ Events h' = Events h /\
  IsMemoryShared h' = IsMemoryShared h /\
  (forall r, resource_for h Flags fd = Some r -> is_Some (MappedResources (Tracking h') !! r)).
Proof using Hdev.
intros Hh Hid. pose proof Hh as [Hw Ha Hi]. unfold mmap_resource, resource_for.
destruct (negb (has Flags MAP_ANONYMOUS)).
- destruct (get_fdpath fd) as [p|]; [|exists h; repeat split; auto; discriminate].
destruct (emplace_resource_spec (Tracking h) (fstat64 fd) (mkResource None None 0) Hw eq_refl)
as (ins & t1 & Hrun & Hw1 & HV & [R HR] & _ & Hother).
rewrite (M_bind_Ok _ _ _ _ _ (locked_Ok _ h ins t1 Hrun)). set (h1 := mkHandler t1 _ _ _).
assert (forall t', wf t' -> (forall r, r <> fstat64 fd -> MappedResources t' !! r = MappedResources (Tracking h) !! r) ->
    handler_ok (set_tracking t' h)) as Hok'.
{ intros t' Hw' Ho. constructor; cbn; auto. intros i Hge. rewrite Ho; [auto|].
intros E. apply (Hdev fd). rewrite <- E. reflexivity. }
destruct ins.
+ exists (set_tracking (set_resources (<[fstat64 fd := with_cache (LoadAOTIRCacheEntry p) R]> (MappedResources t1)) t1) h).
rewrite (M_bind_Ok _ _ _ _ _ (locked_Ok _ h1 tt _ (setR_Ok t1 (fstat64 fd) R _ HR))). split; [reflexivity|].
split; [|split; [exact HV|split; [reflexivity|split; [reflexivity|]]]].
* apply Hok'; [apply wf_with_cache; assumption|]. cbn. intros r Hr. rewrite lookup_insert_ne by congruence. auto.
* intros r [= <-]. cbn. rewrite lookup_insert_eq. eauto.
+ exists h1. split; [reflexivity|]. split; [apply Hok'; assumption|].
split; [exact HV|split; [reflexivity|split; [reflexivity|]]]. intros r [= <-]. cbn. eauto.
- destruct (has Flags MAP_SHARED); [|exists h; repeat split; auto; discriminate].
unfold next_anon_id. set (h0 := mkHandler (Tracking h) (uint 64 (AnonSharedId h + 1)) (IsMemoryShared h) (Events h)).
change (?m ≫= ?f) with (fun s : SyscallHandler => M_bind _ _ _ f m s).
destruct (emplace_resource_spec (Tracking h) (mkMRID SpecialDev_Anon (AnonSharedId h)) (mkResource None None 0) Hw eq_refl)
as (ins & t1 & Hrun & Hw1 & HV & HS & Hins & Hother).
assert (ins = true) as -> by (apply Hins, Ha; lia).
exists (set_tracking t1 h0). split.
{ cbn beta. unfold M_bind at 1. fold h0.
rewrite (M_bind_Ok _ _ _ _ _ (locked_Ok _ h0 true t1 Hrun)). reflexivity. }
split; [|split; [exact HV|split; [reflexivity|split; [reflexivity|intros r [= <-]; exact HS]]]].
constructor; cbn; [exact Hw1| |]; rewrite uint_small by lia; [|lia].
intros i Hge. rewrite Hother; [apply Ha; lia|]. intros [= ->]. lia.
Qed.
End Syscalls.

(** ** Write faults *)

Lemma view_used t a r off fl pr : ok_vmas (VMAs t) -> view t a = Some (Some r, off, fl, pr) -> used (VMAs t) r.
Proof.
  intros Hm Hv. apply view_maps in Hv; [|exact Hm]. destruct Hv as (k & e & Hk & _ & E). injection E as E _ _ _.
  exists k, e. auto.
Qed.

(** A write fault on a shared page flushes the mirrors of the page. *)
Lemma HandleSegfault_mirrors mprotect_ok h FaultAddress r off pr :
  (forall a l p, mprotect_ok a l p = true) ->
  wf (Tracking h) -> regular (VMAs (Tracking h)) ->
  view (Tracking h) FaultAddress = Some (Some r, off, true, pr) -> Writable pr = true ->
  exists new, HandleSegfault mprotect_ok FaultAddress h = Ok (true, add_events new h) /\
    forall ev, ev ∈ new <->
      exists a fl p, view (Tracking h) a = Some (Some r, off - FaultAddress mod FEX_PAGE_SIZE, fl, p) /\
        (ev = Invalidated a FEX_PAGE_SIZE \/
         (Writable p = true /\ ev = Protected a FEX_PAGE_SIZE (Z.lor PROT_READ PROT_WRITE))).
Proof.
  intros Hok [L Hw] Hreg Hv Hpr. pose proof (wf_vmas _ _ Hw) as Hm.
  pose proof (view_used _ _ _ _ _ _ Hm Hv) as Hu.
  destruct (view_entry _ _ _ _ _ _ Hm Hreg Hv) as (k & e & Hk & Hr & Hlook & Hres & -> & Hfl & -> & Eb).
  set (Off := Offset e + (FaultAddress - k) - FaultAddress mod FEX_PAGE_SIZE).
  exists (concat (map (flush_events Off) (entries (Tracking h) (L r)))). split.
  - unfold HandleSegfault. rewrite (M_bind_Ok get_state _ h h h eq_refl), Hlook. cbv beta iota zeta.
    rewrite Hpr, <- Hfl, Hres. cbn [negb isSome].
    rewrite (M_bind_Ok (check true) _ h tt h eq_refl), (M_bind_Ok (lift (deref (Some r))) _ h r h eq_refl).
    replace (uint 64 (AlignDown FaultAddress FEX_PAGE_SIZE - k + Offset e)) with Off.
    + rewrite (M_bind_Ok _ _ _ _ _ (for_mirrors_logs L r _ _ (flush_mirror_logs mprotect_ok Hok Off) h Hw Hu)).
      reflexivity.
    + destruct (Hreg k e Hk) as (Hal & ? & ?). destruct (ok_entry _ Hm k e Hk) as (_ & ? & ? & ?).
      unfold Off, AlignDown, FEX_PAGE_SIZE in *.
      pose proof (Z.div_mod FaultAddress 4096 ltac:(lia)). pose proof (Z.mod_pos_bound FaultAddress 4096 ltac:(lia)).
      pose proof (Z.div_mod k 4096 ltac:(lia)).
      assert (k / 4096 <= FaultAddress / 4096) by (apply Z.div_le_mono; lia).
      rewrite uint_small by lia. lia.
  - intros ev. rewrite (mirror_events L r _ (Tracking h) ev Hw). fold Off. split.
    + intros (k' & e' & Hk' & Hr' & He). apply (flush_events_spec _ k' e' Off ev r Hm Hreg Hk' Hr') in He as (a & _ & Hva & He).
      exists a, (Flags e'), (Prot e'). auto.
    + intros (a & fl & p & Hva & He).
      destruct (view_entry _ _ _ _ _ _ Hm Hreg Hva) as (k' & e' & Hk' & Ha & _ & Hr' & EO & -> & -> & _).
      exists k', e'. split; [exact Hk'|]. split; [exact Hr'|].
      apply (flush_events_spec _ k' e' Off ev r Hm Hreg Hk' Hr'). exists a. auto.
Qed.
