(* ===== verification/SMCTheorems.v ===== *)
(** * Theorems on the memory system calls and self-modifying code *)
From Stdlib Require Import ZArith Lia Bool.
From stdpp Require Import base gmap list numbers option.
From S2P Require Import Prelude Pages VMATracking VMALists VMAClear VMAChange VMATheorems SMCTracking SMCLogic.
#[local] Open Scope Z_scope.

(** ** Write faults *)

(** C9: A write fault on a page of a writable shared mapping is handled: the code
    of every mirror of the page, that is of every address at which the same offset
    of the same resource is mapped, is invalidated, the writable mirrors are made
    writable again, and nothing else is invalidated or remapped. *)
Theorem HandleSegfault_flushes_mirrors mprotect_ok h FaultAddress r off pr :
  (forall a l p, mprotect_ok a l p = true) ->
  wf (Tracking h) -> regular (VMAs (Tracking h)) ->
  view (Tracking h) FaultAddress = Some (Some r, off, true, pr) -> Writable pr = true ->
  exists new, HandleSegfault mprotect_ok FaultAddress h = Ok (true, add_events new h) /\
    forall ev, ev ∈ new <->
      exists a fl p, view (Tracking h) a = Some (Some r, off - FaultAddress mod FEX_PAGE_SIZE, fl, p) /\
        (ev = Invalidated a FEX_PAGE_SIZE \/
         (Writable p = true /\ ev = Protected a FEX_PAGE_SIZE (Z.lor PROT_READ PROT_WRITE))).
Proof. apply HandleSegfault_mirrors. Qed.

(** An example with two mirrors of the same pages of a file, one of them read-only. *)
Definition mirrored : VMATracking :=
  then_ok (_ ← SetUnsafe (Some file) 0x1000 0x8000 0x4000 true 3;
           SetUnsafe (Some file) 0x10000 0x9000 0x2000 true 1) with_file.
Definition handler (t : VMATracking) : SyscallHandler := mkHandler t 1 false [].
Definition mprotect_works (_ _ _ : Z) : bool := true.

Lemma mirrored_wf : wf mirrored.
Proof.
  destruct (SetUnsafe_wp with_file (Some file) 0x1000 0x8000 0x4000 true 3 with_file_wf ltac:(in_range) ltac:(lia))
    as (t1 & H1 & E1); [intros r [= <-]; cbn; eauto|].
  destruct (SetUnsafe_wp t1 (Some file) 0x10000 0x9000 0x2000 true 1 (st_wf _ _ _ _ _ _ _ _ E1) ltac:(in_range) ltac:(lia))
    as (t2 & H2 & E2); [intros r [= <-]; apply (st_kept _ _ _ _ _ _ _ _ E1); reflexivity|].
  unfold mirrored, then_ok. rewrite (M_bind_Ok _ _ _ _ _ H1), H2. exact (st_wf _ _ _ _ _ _ _ _ E2).
Qed.

(** Properties of all entries, by computation. *)
Lemma all_entries (P : Z -> VMAEntry -> Prop) m l :
  map_to_list m = l -> Forall (fun '(k, e) => P k e) l -> forall k e, m !! k = Some e -> P k e.
Proof.
  intros <- H k e Hk. rewrite Forall_forall in H. apply (H (k, e)), list_elem_of_In, elem_of_map_to_list, Hk.
Qed.
Lemma mirrored_regular : regular (VMAs mirrored).
Proof.
  let l := eval vm_compute in (map_to_list (VMAs mirrored)) in
    refine (all_entries (fun k e => k mod FEX_PAGE_SIZE = 0 /\ 0 <= Offset e /\ Offset e + Length e < 2 ^ 64) _ l _ _);
    [vm_compute; reflexivity|].
  repeat (apply Forall_cons; [unfold FEX_PAGE_SIZE; cbn; split_and!; [reflexivity|lia|lia]|]). constructor.
Qed.
Lemma mirrored_backed : shared_backed (VMAs mirrored).
Proof.
  let l := eval vm_compute in (map_to_list (VMAs mirrored)) in
    refine (all_entries (fun k e => Flags e = true -> is_Some (Resource e)) _ l _ _); [vm_compute; reflexivity|].
  repeat (apply Forall_cons; [cbn; eauto|]). constructor.
Qed.

Lemma HandleSegfault_flushes_mirrors_witness :
  view mirrored 0x2234 = Some (Some file, 0x9234, true, 3) /\
  exists new, HandleSegfault mprotect_works 0x2234 (handler mirrored) = Ok (true, add_events new (handler mirrored)) /\
    forall ev, ev ∈ new <->
      exists a fl p, view mirrored a = Some (Some file, 0x9234 - 0x2234 mod FEX_PAGE_SIZE, fl, p) /\
        (ev = Invalidated a FEX_PAGE_SIZE \/
         (Writable p = true /\ ev = Protected a FEX_PAGE_SIZE (Z.lor PROT_READ PROT_WRITE))).
Proof.
  split; [vm_compute; reflexivity|].
  apply (HandleSegfault_flushes_mirrors mprotect_works (handler mirrored) 0x2234 file 0x9234 3);
    [reflexivity|exact mirrored_wf|exact mirrored_regular|vm_compute; reflexivity|reflexivity].
Defined.

(** A write fault is declined, without any effect, exactly when the address is
    not tracked or its mapping is not writable; on a private writable page the
    code of that page is invalidated and the page made writable again. *)
Theorem HandleSegfault_private mprotect_ok h FaultAddress :
  (forall a l p, mprotect_ok a l p = true) -> wf (Tracking h) ->
  match view (Tracking h) FaultAddress with
  | None => HandleSegfault mprotect_ok FaultAddress h = Ok (false, h)
  | Some (_, _, fl, pr) =>
      if negb (Writable pr) then HandleSegfault mprotect_ok FaultAddress h = Ok (false, h)
      else fl = false ->
           HandleSegfault mprotect_ok FaultAddress h =
           Ok (true, add_events [Invalidated (AlignDown FaultAddress FEX_PAGE_SIZE) FEX_PAGE_SIZE;
                                 Protected (AlignDown FaultAddress FEX_PAGE_SIZE) FEX_PAGE_SIZE
                                           (Z.lor PROT_READ PROT_WRITE)] h)
  end.
Proof.
  intros Hok Hw. unfold view. unfold HandleSegfault. rewrite (M_bind_Ok get_state _ h h h eq_refl).
  destruct (LookupVMAUnsafe (Tracking h) FaultAddress) as [[k e]|]; [|reflexivity]. cbn [at_offset].
  destruct (Writable (Prot e)); cbn [negb]; [|reflexivity]. intros ->. unfold InvalidateGuestCodeRange.
  rewrite (M_bind_Ok _ _ _ _ _ (logs_event _ h)), (M_bind_Ok _ _ _ _ _ (mprotect_logs mprotect_ok Hok _ _ _ _)).
  rewrite add_events_app. reflexivity.
Qed.

Lemma HandleSegfault_private_witness :
  (forall a l p, mprotect_works a l p = true) /\ wf mirrored /\
  HandleSegfault mprotect_works 0x10000 (handler mirrored) = Ok (false, handler mirrored).
Proof.
  split; [reflexivity|]. split; [exact mirrored_wf|].
  exact (HandleSegfault_private mprotect_works (handler mirrored) 0x10000 (fun _ _ _ => eq_refl) mirrored_wf).
Defined.



(** ** The system calls *)

(** The invalidation at the end of a call. *)
Definition flushed (SMCChecks : SMCMode) (Start Length : Z) : list Event :=
  match SMCChecks with CONFIG_SMC_NONE => [] | _ => [Invalidated Start Length] end.
Lemma invalidate_logs SMCChecks s l : logs (invalidate SMCChecks s l) (flushed SMCChecks s l).
Proof. destruct SMCChecks; [apply logs_ret|apply logs_event..]. Qed.

Lemma handler_ok_events h es : handler_ok h -> handler_ok (add_events es h).
Proof. intros []. constructor; auto. Qed.

(** The address space after a range was set. *)
Definition space_set (t t' : VMATracking) (B len : Z) (Res : option MRID) (Off : Z) (Fl : bool) (Pr : Z) : Prop :=
  forall a, view t' a = if decide (B <= a < B + len) then Some (Res, uint 64 (Off + (a - B)), Fl, Pr) else view t a.

Lemma set_effect_space t t' Res B Off len Fl Pr :
  wf t -> set_effect Res B Off len Fl Pr t t' -> space_set t t' B len Res Off Fl Pr.
Proof.
  intros Hwf [Hw Hm _ _] a. pose proof (wf_ok _ Hwf). pose proof (wf_ok _ Hw).
  apply option_eq. intros v. rewrite view_maps, Hm by assumption. destruct (decide (B <= a < B + len)).
  - split; [intros [[_ []]|[_ ->]]; tauto|intros [= <-]; auto].
  - rewrite view_maps by assumption. tauto.
Qed.

Lemma view_VMAs t t' a : VMAs t' = VMAs t -> view t' a = view t a.
Proof. intros E. unfold view, LookupVMAUnsafe. rewrite E. reflexivity. Qed.

Section Calls.
Context (SMCChecks : SMCMode) {Path : Type} (fstat64 : Z -> MRID) (get_fdpath : Z -> option Path)
  (LoadAOTIRCacheEntry : Path -> option Z) (shm_segsz : Z -> option Z).

(** [TrackMmap] returns normally and preserves the invariant; afterwards
    the page-aligned range maps, from the given offset, the file of the
    descriptor (by device and inode), a new anonymous resource for an anonymous
    shared mapping, or no resource; the rest of the address space is unchanged,
    and the code of the range is invalidated unless SMC checks are off. *)
Theorem TrackMmap_maps h Base_ Size Prot_ Flags_ fd Offset_ (len := AlignUp Size FEX_PAGE_SIZE) :
  (forall fd, dev (fstat64 fd) <> SpecialDev_Anon) ->
  handler_ok h -> AnonSharedId h + 1 < 2 ^ 64 ->
  0 <= Base_ -> 0 < Size -> Base_ + Size + FEX_PAGE_SIZE < 2 ^ 64 ->
  exists h', TrackMmap SMCChecks fstat64 get_fdpath LoadAOTIRCacheEntry Base_ Size Prot_ Flags_ fd Offset_ h = Ok (tt, h') /\
  handler_ok h' /\
  space_set (Tracking h) (Tracking h') Base_ len (resource_for fstat64 get_fdpath h Flags_ fd)
  (uint 64 Offset_) (fromFlags Flags_) (fromProt Prot_) /\
  Events h' = Events h ++ flushed SMCChecks Base_ len.
Proof.
  intros Hdev Hh Hid HB HS HT. pose proof (AlignUp_range Size ltac:(lia) ltac:(lia)) as [_ Hup]. fold len in Hup.
  unfold TrackMmap. fold len.
  set (h0 := if has Flags_ MAP_SHARED then mkHandler (Tracking h) (AnonSharedId h) true (Events h) else h).
  assert (handler_ok h0 /\ Tracking h0 = Tracking h /\ AnonSharedId h0 = AnonSharedId h /\ Events h0 = Events h)
    as (Hh0 & E1 & E2 & E3)
    by (unfold h0; destruct (has Flags_ MAP_SHARED); repeat split; try apply Hh).
  assert (resource_for fstat64 get_fdpath h0 Flags_ fd = resource_for fstat64 get_fdpath h Flags_ fd) as Er
    by (unfold resource_for; rewrite E2; reflexivity).
  destruct (mmap_resource_spec fstat64 get_fdpath LoadAOTIRCacheEntry Hdev h0 Flags_ fd Hh0 ltac:(lia))
    as (h1 & Hrun1 & Hh1 & EV & EE & _ & HR).
  destruct (SetUnsafe_wp (Tracking h1) (resource_for fstat64 get_fdpath h0 Flags_ fd) Base_ (uint 64 Offset_) len
    (fromFlags Flags_) (fromProt Prot_) (ho_wf _ Hh1)) as (t' & Hrun2 & He); [split; lia|lia|exact HR|].
  rewrite (M_bind_Ok _ _ _ tt h0) by (unfold h0; destruct (has Flags_ MAP_SHARED); reflexivity).
  rewrite (M_bind_Ok _ _ _ _ _ Hrun1), (M_bind_Ok _ _ _ _ _ (locked_Ok _ h1 tt t' Hrun2)).
  eexists. split; [apply invalidate_logs|]. rewrite <- Er. split; [|split].
  - apply handler_ok_events. eapply handler_ok_set; [exact Hh1|exact (st_wf _ _ _ _ _ _ _ _ He)| |exact HR].
    eapply set_no_new, He.
  - intros a. transitivity (view t' a); [reflexivity|].
    rewrite (set_effect_space _ _ _ _ _ _ _ _ (ho_wf _ Hh1) He a). destruct (decide _); [reflexivity|]. apply view_VMAs. congruence.
  - cbn. congruence.
Qed.

End Calls.

(** [TrackMunmap] unmaps exactly the page-aligned range, preserves the
    invariant, and invalidates the code of the range unless SMC checks are off. *)
Theorem TrackMunmap_unmaps SMCChecks h Base_ Size (len := AlignUp Size FEX_PAGE_SIZE) :
  handler_ok h -> 0 <= Base_ -> 0 <= Size -> Base_ + Size + FEX_PAGE_SIZE < 2 ^ 64 ->
  exists h', TrackMunmap SMCChecks Base_ Size h = Ok (tt, h') /\ handler_ok h' /\
    (forall a, view (Tracking h') a = if decide (Base_ <= a < Base_ + len) then None else view (Tracking h) a) /\
    Events h' = Events h ++ flushed SMCChecks Base_ len.
Proof.
  intros Hh HB HS HT. pose proof (AlignUp_range Size ltac:(lia) ltac:(lia)) as [_ Hup]. fold len in Hup.
  destruct (ClearUnsafe_wp (Tracking h) Base_ len None (ho_wf _ Hh)) as (t' & Hrun & [Hw Hm Hcl]); [split; lia|].
  unfold TrackMunmap. fold len. rewrite (M_bind_Ok _ _ _ _ _ (locked_Ok _ h tt t' Hrun)).
  eexists. split; [apply invalidate_logs|]. split; [|split; [|reflexivity]].
  - apply handler_ok_events. eapply handler_ok_set; [exact Hh|exact Hw|eapply cleared_no_new, Hcl|discriminate].
  - intros a. cbn. pose proof (wf_ok _ (ho_wf _ Hh)). pose proof (wf_ok _ Hw).
    apply option_eq. intros v. rewrite view_maps, Hm by assumption.
    destruct (decide (Base_ <= a < Base_ + len)); [split; [tauto|discriminate]|].
    rewrite view_maps by assumption. tauto.
Qed.

(** [TrackMremap] of a whole mapping to another place moves it: the new
    range maps the resource of the old address from its offset, with its flags and
    protection, the old range is unmapped where it is not reused, and the code
    of the old range is invalidated when the mapping moved. *)
Theorem TrackMremap_moves SMCChecks h OldAddress OldSize NewSize flags NewAddress
    (len := AlignUp OldSize FEX_PAGE_SIZE) (len' := AlignUp NewSize FEX_PAGE_SIZE) Res off Fl Pr :
  handler_ok h -> view (Tracking h) OldAddress = Some (Res, off, Fl, Pr) ->
  has flags MREMAP_DONTUNMAP = false ->
  0 <= OldAddress -> 0 < OldSize -> OldAddress + OldSize + FEX_PAGE_SIZE < 2 ^ 64 ->
  0 <= NewAddress -> 0 < NewSize -> NewAddress + NewSize + FEX_PAGE_SIZE < 2 ^ 64 ->
  exists h', TrackMremap SMCChecks OldAddress OldSize NewSize flags NewAddress h = Ok (tt, h') /\ handler_ok h' /\
    (forall a, view (Tracking h') a =
       if decide (NewAddress <= a < NewAddress + len') then Some (Res, uint 64 (off + (a - NewAddress)), Fl, Pr)
       else if decide (OldAddress <= a < OldAddress + len) then None else view (Tracking h) a) /\
    (OldAddress <> NewAddress -> Events h' = Events h ++ flushed SMCChecks OldAddress len).
Proof.
  intros Hh Hv Hfl ? HS ? ? HS' ?. pose proof (AlignUp_range OldSize ltac:(lia) ltac:(lia)) as [_ Hup]. fold len in Hup.
  pose proof (AlignUp_range NewSize ltac:(lia) ltac:(lia)) as [_ Hup']. fold len' in Hup'.
  pose proof (ho_wf _ Hh) as Hwf. pose proof (wf_ok _ Hwf) as Hm0.
  unfold view in Hv. destruct (LookupVMAUnsafe (Tracking h) OldAddress) as [[k e]|] eqn:Hlook; [|discriminate].
  apply LookupVMAUnsafe_spec in Hlook as Hke; [|exact Hm0]. destruct Hke as [Hk Hr].
  destruct (ok_entry _ Hm0 k e Hk) as (Eb & ? & ? & ?).
  unfold at_offset in Hv. rewrite Eb in Hv. injection Hv as E1 E2 E3 E4.
  assert (forall r, Res = Some r -> used (VMAs (Tracking h)) r) as Hused by (intros r ->; exists k, e; auto).
  destruct (ClearUnsafe_wp (Tracking h) OldAddress len Res Hwf) as (t1 & Hrun1 & [Hw1 Hm1 Hcl1]); [split; lia|].
  assert (forall r, Res = Some r -> is_Some (MappedResources t1 !! r)) as HR1.
  { intros r Er. apply (cl_res _ _ _ Hcl1). split; [|auto]. destruct Hwf as [L Hw].
    apply (linked_dom _ _ (wf_linked _ _ Hw)). apply (used_list _ _ _ Hw). auto. }
  destruct (SetUnsafe_wp t1 Res NewAddress off len' Fl Pr Hw1) as (t2 & Hrun2 & He2); [split; lia|lia|exact HR1|].
  unfold TrackMremap. fold len len'. rewrite (M_bind_Ok get_state _ h h h eq_refl), Hlook.
  rewrite (M_bind_Ok (lift (deref (Some (k, e)))) _ h (k, e) h eq_refl). cbv beta iota.
  destruct (Z.eqb_spec len 0); [lia|]. rewrite Hfl, E1, E3, E4. cbn [negb].
  replace (uint 64 (Offset e + OldAddress - k)) with off by (rewrite <- E2; f_equal; lia).
  rewrite M_bind_assoc, (M_bind_Ok _ _ _ _ _ (locked_Ok _ h tt t1 Hrun1)).
  set (h1 := mkHandler t1 _ _ _). rewrite (M_bind_Ok _ _ _ _ _ (locked_Ok _ h1 tt t2 Hrun2)).
  assert (handler_ok (set_tracking t2 h)) as Hh2.
  { assert (handler_ok h1) as Hh1 by
      (eapply (handler_ok_set h t1 None); [exact Hh|exact Hw1|eapply cleared_no_new, Hcl1|discriminate]).
    eapply (handler_ok_set h1 t2 Res); [exact Hh1|exact (st_wf _ _ _ _ _ _ _ _ He2)|eapply set_no_new, He2|exact HR1]. }
  assert (forall a, view t2 a =
    if decide (NewAddress <= a < NewAddress + len') then Some (Res, uint 64 (off + (a - NewAddress)), Fl, Pr)
    else if decide (OldAddress <= a < OldAddress + len) then None else view (Tracking h) a) as Hview.
  { intros a. rewrite (set_effect_space _ _ _ _ _ _ _ _ Hw1 He2 a). destruct (decide _); [reflexivity|].
    pose proof (wf_ok _ Hw1). apply option_eq. intros v. rewrite view_maps, Hm1 by assumption.
    destruct (decide (OldAddress <= a < OldAddress + len)); [split; [tauto|discriminate]|].
    rewrite view_maps by assumption. tauto. }
  assert (forall es, handler_ok (add_events es (set_tracking t2 h))) as Hh3 by (intros; apply handler_ok_events, Hh2).
  destruct (Z.eqb_spec OldAddress NewAddress) as [Heq|Hne]; cbn [negb].
  - destruct SMCChecks, (Z.ltb_spec len' len); eexists; (split; [reflexivity|]);
      (split; [first [exact Hh2|apply Hh3]|split; [exact Hview|intros []; exact Heq]]).
  - exists (add_events (flushed SMCChecks OldAddress len) (set_tracking t2 h)).
    split; [destruct SMCChecks; cbn [flushed]; rewrite ?add_events_nil; reflexivity|]. split; [apply Hh3|]. split; [exact Hview|].
    intros _. reflexivity.
Qed.

(** Concrete parameters: one file, whose cache entry is 7. *)
Definition one_file (_ : Z) : MRID := file.
Definition any_path (fd : Z) : option Z := Some fd.
Definition cache_7 (_ : Z) : option Z := Some 7.

Lemma handler_ok_example t : wf t -> (forall i, MappedResources t !! mkMRID SpecialDev_Anon i = None) -> handler_ok (handler t).
Proof. intros Hw Ha. constructor; cbn; auto; lia. Qed.
Lemma mirrored_handler_ok : handler_ok (handler mirrored).
Proof.
  apply handler_ok_example; [exact mirrored_wf|]. intros i.
  let l := eval vm_compute in (map_to_list (MappedResources mirrored)) in
    assert (map_to_list (MappedResources mirrored) = l) as Hl by (vm_compute; reflexivity).
  apply eq_None_not_Some. intros [R HR%elem_of_map_to_list]. rewrite Hl in HR.
  apply elem_of_cons in HR as [[=]|HR]. inversion HR.
Qed.

Lemma TrackMmap_maps_witness :
  handler_ok (handler empty_tracking) /\
  exists h', TrackMmap CONFIG_SMC_MTRACK one_file any_path cache_7 0x1000 0x1800 5 2 3 0x4000 (handler empty_tracking) = Ok (tt, h') /\
    handler_ok h' /\
    space_set empty_tracking (Tracking h') 0x1000 (AlignUp 0x1800 FEX_PAGE_SIZE)
      (resource_for one_file any_path (handler empty_tracking) 2 3) (uint 64 0x4000) (fromFlags 2) (fromProt 5) /\
    Events h' = [] ++ flushed CONFIG_SMC_MTRACK 0x1000 (AlignUp 0x1800 FEX_PAGE_SIZE).
Proof.
  assert (handler_ok (handler empty_tracking)) as Hh
    by (apply handler_ok_example; [exact empty_tracking_wf|intros i; apply lookup_empty]).
  split; [exact Hh|].
  apply (TrackMmap_maps CONFIG_SMC_MTRACK one_file any_path cache_7 (handler empty_tracking) 0x1000 0x1800 5 2 3 0x4000);
    [intros fd; discriminate|exact Hh|cbn; lia|lia|lia|unfold FEX_PAGE_SIZE; lia].
Defined.

Lemma TrackMunmap_unmaps_witness :
  handler_ok (handler mirrored) /\
  exists h', TrackMunmap CONFIG_SMC_FULL 0x2000 0x1001 (handler mirrored) = Ok (tt, h') /\ handler_ok h' /\
    (forall a, view (Tracking h') a = if decide (0x2000 <= a < 0x2000 + AlignUp 0x1001 FEX_PAGE_SIZE) then None else view mirrored a) /\
    Events h' = [] ++ flushed CONFIG_SMC_FULL 0x2000 (AlignUp 0x1001 FEX_PAGE_SIZE).
Proof.
  split; [exact mirrored_handler_ok|].
  apply (TrackMunmap_unmaps CONFIG_SMC_FULL (handler mirrored) 0x2000 0x1001);
    [exact mirrored_handler_ok|lia|lia|unfold FEX_PAGE_SIZE; lia].
Defined.

Lemma TrackMremap_moves_witness :
  view mirrored 0x10000 = Some (Some file, 0x9000, true, 1) /\
  exists h', TrackMremap CONFIG_SMC_MMAN 0x10000 0x2000 0x3000 1 0x20000 (handler mirrored) = Ok (tt, h') /\ handler_ok h' /\
    (forall a, view (Tracking h') a =
       if decide (0x20000 <= a < 0x20000 + AlignUp 0x3000 FEX_PAGE_SIZE)
       then Some (Some file, uint 64 (0x9000 + (a - 0x20000)), true, 1)
       else if decide (0x10000 <= a < 0x10000 + AlignUp 0x2000 FEX_PAGE_SIZE) then None else view mirrored a) /\
    (0x10000 <> 0x20000 -> Events h' = [] ++ flushed CONFIG_SMC_MMAN 0x10000 (AlignUp 0x2000 FEX_PAGE_SIZE)).
Proof.
  split; [vm_compute; reflexivity|].
  apply (TrackMremap_moves CONFIG_SMC_MMAN (handler mirrored) 0x10000 0x2000 0x3000 1 0x20000 (Some file) 0x9000 true 1);
    first [exact mirrored_handler_ok|vm_compute; reflexivity|unfold FEX_PAGE_SIZE; lia].
Defined.
