(* ===== verification/LookupCache.v ===== *)
(** * The lookup cache: from guest addresses to translated code

    [Interface/Core/LookupCache.h] and [LookupCache.cpp]: a direct-mapped table
    (L1), a two-level page table (L2) whose pages come from a fixed region, and
    the full map (L3, [BlockList]); the links between translated blocks and the
    guest pages they come from. [Interface/Core/Core.cpp]: the invalidation of
    guest code. [JIT/x86_64/JIT.cpp]: the linking of block exits.

    A [Thread] holds the fields of its [LookupCache], its [DebugStore], the exit
    records of its translated code and its guest [rip]. The three tables are
    anonymous mappings: what was never written, or was dropped by
    [madvise(MADV_DONTNEED)], reads as zero. *)
From Stdlib Require Import ZArith Lia Bool.
From stdpp Require Import base gmap list numbers list_numbers option sorting.
From S2P Require Import Prelude.
#[local] Open Scope Z_scope.

(** ** Constants *)

Definition L1_ENTRIES : Z := 1 * 1024 * 1024.
Definition L1_ENTRIES_MASK : Z := L1_ENTRIES - 1.
Definition sizeof_LookupCacheEntry : Z := 16.
Definition CODE_SIZE : Z := 128 * 1024 * 1024.
Definition SIZE_PER_PAGE : Z := 4096 * sizeof_LookupCacheEntry.

(** ** State *)

Record LookupCacheEntry := mkEntry { HostCode : Z; GuestCode : Z }.
Definition entry_at (m : gmap Z LookupCacheEntry) (a : Z) : LookupCacheEntry :=
  default (mkEntry 0 0) (m !! a).

(** A block exit: [record[0]], where it jumps, and [record[1]], its guest
    destination. *)
Record ExitRecord := mkExit { Target : Z; GuestRip : Z }.

(** The closure [[record, LinkerAddress] { record[0] = LinkerAddress; }]. *)
Record Delinker := mkDelinker { delink_record : Z; delink_target : Z }.

Record Thread := mkThread {
  L1 : gmap Z LookupCacheEntry;
  PagePointers : gmap Z Z;
  PageMem : gmap Z LookupCacheEntry;
  AllocateOffset : Z;
  BlockList : gmap Z Z;
  BlockLinks : gmap (Z * Z) Delinker;
  CodePages : gmap Z (list Z);
  DebugStore : gmap Z Z;
  Records : gmap Z ExitRecord;
  rip : Z
}.
Abbreviation C := (M Thread).

Definition set_L1 (m : gmap Z LookupCacheEntry) (t : Thread) : Thread :=
  mkThread m (PagePointers t) (PageMem t) (AllocateOffset t) (BlockList t) (BlockLinks t)
    (CodePages t) (DebugStore t) (Records t) (rip t).
(** The second level: its directory, its pages and the end of those in use. *)
Definition set_L2 (p : gmap Z Z) (m : gmap Z LookupCacheEntry) (o : Z) (t : Thread) : Thread :=
  mkThread (L1 t) p m o (BlockList t) (BlockLinks t) (CodePages t) (DebugStore t) (Records t) (rip t).
Definition set_BlockList (m : gmap Z Z) (t : Thread) : Thread :=
  mkThread (L1 t) (PagePointers t) (PageMem t) (AllocateOffset t) m (BlockLinks t)
    (CodePages t) (DebugStore t) (Records t) (rip t).
Definition set_BlockLinks (m : gmap (Z * Z) Delinker) (t : Thread) : Thread :=
  mkThread (L1 t) (PagePointers t) (PageMem t) (AllocateOffset t) (BlockList t) m
    (CodePages t) (DebugStore t) (Records t) (rip t).
Definition set_CodePages (m : gmap Z (list Z)) (t : Thread) : Thread :=
  mkThread (L1 t) (PagePointers t) (PageMem t) (AllocateOffset t) (BlockList t) (BlockLinks t)
    m (DebugStore t) (Records t) (rip t).
Definition set_DebugStore (m : gmap Z Z) (t : Thread) : Thread :=
  mkThread (L1 t) (PagePointers t) (PageMem t) (AllocateOffset t) (BlockList t) (BlockLinks t)
    (CodePages t) m (Records t) (rip t).
Definition set_Records (m : gmap Z ExitRecord) (t : Thread) : Thread :=
  mkThread (L1 t) (PagePointers t) (PageMem t) (AllocateOffset t) (BlockList t) (BlockLinks t)
    (CodePages t) (DebugStore t) m (rip t).
Definition set_rip (r : Z) (t : Thread) : Thread :=
  mkThread (L1 t) (PagePointers t) (PageMem t) (AllocateOffset t) (BlockList t) (BlockLinks t)
    (CodePages t) (DebugStore t) (Records t) r.

(** ** Second level: clearing and allocation *)

Definition ClearL2Cache : C unit := modify (set_L2 ∅ ∅ 0).

Section Cache.
(** The configured size of the guest address space, which the L2 directory
covers, and the base of the region the pages come from. *)
Context (VirtualMemSize PageMemory : Z).

Definition L1_index (Address : Z) : Z := Z.land Address L1_ENTRIES_MASK.
Definition page_index (Address : Z) : Z := Z.shiftr (Z.land Address (VirtualMemSize - 1)) 12.
Definition page_offset (Address : Z) : Z := Z.land Address 0x0FFF.

(** [Pointers[i]], and the address of [BlockPointers[PageOffset]]. *)
Definition page_pointer (t : Thread) (i : Z) : Z := default 0 (PagePointers t !! i).
Definition block_pointer (LocalPagePointer PageOffset : Z) : Z :=
LocalPagePointer + sizeof_LookupCacheEntry * PageOffset.

(** Zero when the region is full. *)
Definition AllocateBackingForPage : C Z :=
t ← get_state;
let NewBase := AllocateOffset t in
let NewEnd := uint 64 (AllocateOffset t + SIZE_PER_PAGE) in
if CODE_SIZE <=? NewEnd then mret 0
else
_ ← modify (set_L2 (PagePointers t) (PageMem t) NewEnd);
mret (uint 64 (PageMemory + NewBase)).

(** The retry of the code passes [Address], which is by then the page index. *)
Fixpoint CacheBlockMapping (fuel : nat) (Address Host : Z) : C unit :=
match fuel with
| O => fun _ => Undef
| S fuel =>
_ ← modify (fun t => set_L1 (<[L1_index Address := mkEntry Host Address]> (L1 t)) t);
let FullAddress := Address in
let Address := Z.land Address (VirtualMemSize - 1) in
let PageOffset := Z.land Address 0x0FFF in
let Address := Z.shiftr Address 12 in
t ← get_state;
let store (LocalPagePointer : Z) : C unit :=
modify (fun t => set_L2 (PagePointers t)
(<[block_pointer LocalPagePointer PageOffset := mkEntry Host FullAddress]> (PageMem t))
(AllocateOffset t) t) in
if page_pointer t Address =? 0 then
NewPageBacking ← AllocateBackingForPage;
if NewPageBacking =? 0 then
_ ← ClearL2Cache;
CacheBlockMapping fuel Address Host
else
_ ← modify (fun t => set_L2 (<[Address := NewPageBacking]> (PagePointers t)) (PageMem t) (AllocateOffset t) t);
store NewPageBacking
else store (page_pointer t Address)
end.

(** After [ClearL2Cache] there is backing for a page: one retry. *)
Definition retry_fuel : nat := 2.

(** ** The operations *)

Definition FindBlock (Address : Z) : C Z :=
t ← get_state;
let L1Entry := entry_at (L1 t) (L1_index Address) in
if GuestCode L1Entry =? Address then mret (HostCode L1Entry)
else
let LocalPagePointer := page_pointer t (page_index Address) in
let BlockPointer := entry_at (PageMem t) (block_pointer LocalPagePointer (page_offset Address)) in
if negb (LocalPagePointer =? 0) && (GuestCode BlockPointer =? Address) then
_ ← modify (set_L1 (<[L1_index Address := mkEntry (HostCode BlockPointer) Address]> (L1 t)));
mret (HostCode BlockPointer)
else
match BlockList t !! Address with
| Some Host => _ ← CacheBlockMapping retry_fuel Address Host; mret Host
| None => mret 0
end.

Definition AddBlockMapping (Address Host : Z) : C unit :=
t ← get_state;
let Inserted := negb (bool_decide (is_Some (BlockList t !! Address))) in
_ ← (if Inserted then modify (set_BlockList (<[Address := Host]> (BlockList t))) else mret tt);
_ ← check Inserted;
modify (fun t => set_L1 (<[L1_index Address := mkEntry Host Address]> (L1 t)) t).

(** The links to a destination, in the order of the map. *)
Definition links_to (t : Thread) (Address : Z) : list Z :=
merge_sort Z.le (map snd (filter (fun k : Z * Z => k.1 = Address) (elements (dom (BlockLinks t))))).

(** One iteration of the loop of [Erase]: runs the delinker, drops the link. *)
Definition sever (Address : Z) (t : Thread) (HostLink : Z) : Thread :=
match BlockLinks t !! (Address, HostLink) with
| Some d =>
set_BlockLinks (delete (Address, HostLink) (BlockLinks t))
(set_Records (alter (fun r => mkExit (delink_target d) (GuestRip r)) (delink_record d) (Records t)) t)
| None => t
end.

Definition erase_L1 (Address : Z) (t : Thread) : Thread :=
let L1Entry := entry_at (L1 t) (L1_index Address) in
if GuestCode L1Entry =? Address then
set_L1 (<[L1_index Address := mkEntry (HostCode L1Entry) 0]> (L1 t)) t
else t.

Definition erase_L2 (Address : Z) (t : Thread) : Thread :=
let LocalPagePointer := page_pointer t (page_index Address) in
if LocalPagePointer =? 0 then t
else
set_L2 (PagePointers t)
(<[block_pointer LocalPagePointer (page_offset (Z.land Address (VirtualMemSize - 1))) := mkEntry 0 0]> (PageMem t))
(AllocateOffset t) t.

Definition Erase (Address : Z) : C unit :=
_ ← modify (fun t => foldl (sever Address) t (links_to t Address));
_ ← modify (fun t => set_BlockList (delete Address (BlockList t)) t);
_ ← modify (erase_L1 Address);
modify (erase_L2 Address).

(** [std::map::insert] leaves an existing link alone. *)
Definition AddBlockLink (GuestDestination HostLink : Z) (delinker : Delinker) : C unit :=
modify (fun t =>
match BlockLinks t !! (GuestDestination, HostLink) with
| Some _ => t
| None => set_BlockLinks (<[(GuestDestination, HostLink) := delinker]> (BlockLinks t)) t
end).

Definition ClearCache : C unit :=
_ ← modify (set_L1 ∅);
_ ← ClearL2Cache;
_ ← modify (set_BlockLinks ∅);
modify (set_BlockList ∅).

(** ** Guest pages that hold code *)

(** One iteration: the new result and [CodePages[CurrentPage].push_back(Address)]. *)
Definition add_to_page (Address : Z) (acc : bool * gmap Z (list Z)) (CurrentPage : Z) : bool * gmap Z (list Z) :=
let CodePage := default [] (acc.2 !! CurrentPage) in
(acc.1 || bool_decide (length CodePage = 0%nat), <[CurrentPage := CodePage ++ [Address]]> acc.2).

(** The pages from [CurrentPage] to [EndPage], both included. *)
Definition page_range (CurrentPage EndPage : Z) : list Z := seqZ CurrentPage (EndPage - CurrentPage + 1).
Definition first_page (Start : Z) : Z := Z.shiftr Start 12.
Definition last_page (Start Length : Z) : Z := Z.shiftr (uint 64 (Start + Length - 1)) 12.

Definition AddBlockExecutableRange (Address Start Length : Z) : C bool :=
t ← get_state;
let '(rv, pages) := foldl (add_to_page Address) (false, CodePages t)
              (page_range (first_page Start) (last_page Start Length)) in
_ ← modify (set_CodePages pages);
mret rv.

Definition ThreadRemoveCodeEntry (GuestRIP : Z) : C unit :=
_ ← modify (fun t => set_DebugStore (delete GuestRIP (DebugStore t)) t);
Erase GuestRIP.

Fixpoint remove_entries (l : list Z) : C unit :=
match l with
| [] => mret tt
| Address :: l => _ ← ThreadRemoveCodeEntry Address; remove_entries l
end.

(** The loop over [[lower, upper)]. *)
Fixpoint invalidate_pages (pages : list Z) : C unit :=
match pages with
| [] => mret tt
| p :: pages =>
t ← get_state;
_ ← remove_entries (default [] (CodePages t !! p));
_ ← modify (fun t => set_CodePages (<[p := []]> (CodePages t)) t);
invalidate_pages pages
end.

(** The keys of the map from [lower_bound(lo)] to [upper_bound(hi)]; when a key
separates the bounds the first iterator is past the second, and the loop
runs off the end of the map. *)
Definition key_range (m : gmap Z (list Z)) (lo hi : Z) : outcome (list Z) :=
let keys := merge_sort Z.le (elements (dom m)) in
if existsb (fun k => (hi <? k) && (k <? lo)) keys then Undef
else Ok (filter (fun k => lo <= k <= hi) keys).

Definition InvalidateGuestThreadCodeRange (Start Length : Z) : C unit :=
t ← get_state;
pages ← lift (key_range (CodePages t) (first_page Start) (last_page Start Length));
invalidate_pages pages.

(** Every thread of the context, in order. *)
Fixpoint InvalidateGuestCodeRangeInternal (Threads : list Thread) (Start Length : Z) : outcome (list Thread) :=
match Threads with
| [] => mret []
| t :: ts =>
r ← InvalidateGuestThreadCodeRange Start Length t;
ts' ← InvalidateGuestCodeRangeInternal ts Start Length;
mret (r.2 :: ts')
end.

(** ** Linking of block exits *)

Definition ThreadAddBlockLink (GuestDestination HostLink : Z) (delinker : Delinker) : C unit :=
AddBlockLink GuestDestination HostLink delinker.

(** [LinkerAddress] is [Pointers.Common.ExitFunctionLinker]. *)
Definition ExitFunctionLink (LinkerAddress DispatcherLoopTop record : Z) : C Z :=
t ← get_state;
r ← lift (deref (Records t !! record));
let Guest := GuestRip r in
Host ← FindBlock Guest;
if Host =? 0 then
_ ← modify (set_rip Guest);
mret DispatcherLoopTop
else
_ ← ThreadAddBlockLink Guest record (mkDelinker record LinkerAddress);
_ ← modify (fun t => set_Records (alter (fun r => mkExit Host (GuestRip r)) record (Records t)) t);
mret Host.
End Cache.
