(* ===== verification/LookupCacheLogic.v ===== *)
(** * Lemmas on the lookup cache

    The invariant of the three tables, which update of a table keeps it, and the
    effect of every operation of [LookupCache] on the full map. *)
From Stdlib Require Import ZArith Lia Bool.
From stdpp Require Import base gmap list numbers list_numbers option sorting.
From S2P Require Import Prelude LookupCache.
#[local] Open Scope Z_scope.

Section Logic.
Context (VirtualMemSize PageMemory : Z).

(** The mappings of [LookupCache::LookupCache]: a power of two of guest memory,
    of at least a page, and a region that neither is null nor wraps. *)
Record cache_layout : Prop := {
  layout_size : exists k, 12 <= k /\ VirtualMemSize = 2 ^ k;
  layout_base : 0 < PageMemory;
  layout_top : PageMemory + CODE_SIZE <= 2 ^ 64
}.

(** Entries of L1 and of L2 for guest addresses from [lo] on are copies of the
    full map, at the place where their own address is looked up. *)
Record cache_wf (lo : Z) (t : Thread) : Prop := {
  cache_wf_L1 : forall i e, L1 t !! i = Some e -> lo <= GuestCode e ->
  i = L1_index (GuestCode e) /\ BlockList t !! GuestCode e = Some (HostCode e);
  cache_wf_L2 : forall a e, PageMem t !! a = Some e -> lo <= GuestCode e ->
  page_pointer t (page_index VirtualMemSize (GuestCode e)) <> 0 /\
  a = block_pointer (page_pointer t (page_index VirtualMemSize (GuestCode e))) (page_offset (GuestCode e)) /\
  BlockList t !! GuestCode e = Some (HostCode e);
  cache_wf_offset : 0 <= AllocateOffset t <= CODE_SIZE
}.

(** The states that differ only in L1 and L2. *)
Definition tables_only (t t' : Thread) : Prop :=
  BlockList t' = BlockList t /\ BlockLinks t' = BlockLinks t /\ CodePages t' = CodePages t /\
  DebugStore t' = DebugStore t /\ Records t' = Records t /\ rip t' = rip t.

#[export] Instance tables_only_preorder : PreOrder tables_only.
Proof.
  split; [intros t; repeat split|].
  intros a b c (?&?&?&?&?&?) (?&?&?&?&?&?). repeat split; congruence.
Qed.

(** L2 can take an entry for the address without being cleared. *)
Definition has_backing (t : Thread) (Address : Z) : Prop :=
  page_pointer t (page_index VirtualMemSize Address) <> 0 \/ AllocateOffset t + SIZE_PER_PAGE < CODE_SIZE.

(** ** Indices *)

Lemma page_offset_masked A : cache_layout ->
  Z.land (Z.land A (VirtualMemSize - 1)) 0x0FFF = page_offset A.
Proof.
  intros [(k & Hk & ->) _ _]. unfold page_offset. rewrite <- Z.land_assoc. f_equal.
  change 0x0FFF with (Z.ones 12). rewrite Z.sub_1_r, <- Z.ones_equiv. zbits.
Qed.

Lemma page_index_range A : cache_layout -> 0 <= page_index VirtualMemSize A < VirtualMemSize / 4096.
Proof.
  intros [(k & Hk & ->) _ _]. unfold page_index.
  rewrite Z.sub_1_r, <- Z.ones_equiv, land_ones_uint, Z.shiftr_div_pow2 by lia.
  replace (2 ^ k / 4096) with (2 ^ (k - 12)) by (rewrite Z.pow_sub_r by lia; reflexivity).
  apply (div_pow2_range_sub _ k 12); [lia|]. apply uint_range. lia.
Qed.

Lemma entry_at_zero m a : 0 < GuestCode (entry_at m a) -> m !! a = Some (entry_at m a).
Proof. unfold entry_at. destruct (m !! a); cbn; [reflexivity|lia]. Qed.

(** ** Updates that keep the invariant *)

Lemma cache_wf_put_L1 lo t A h : cache_wf lo t -> (lo <= A -> BlockList t !! A = Some h) ->
  cache_wf lo (set_L1 (<[L1_index A := mkEntry h A]> (L1 t)) t).
Proof.
  intros [H1 H2 H3] HA. split; [|exact H2|exact H3]. intros i e He Hlo. cbn [L1 set_L1] in He.
  apply lookup_insert_Some in He as [[<- <-]|[_ He]]; [|apply H1; assumption].
  split; [reflexivity|exact (HA Hlo)].
Qed.

Lemma cache_wf_put_L2 lo t A h : cache_wf lo t -> (lo <= A -> BlockList t !! A = Some h) ->
  page_pointer t (page_index VirtualMemSize A) <> 0 ->
  cache_wf lo (set_L2 (PagePointers t)
  (<[block_pointer (page_pointer t (page_index VirtualMemSize A)) (page_offset A) := mkEntry h A]> (PageMem t))
  (AllocateOffset t) t).
Proof.
  intros [H1 H2 H3] HA Hq. split; [exact H1| |exact H3]. intros a e He Hlo. cbn [PageMem set_L2] in He.
  apply lookup_insert_Some in He as [[<- <-]|[_ He]]; [|apply (H2 a e He Hlo)].
  split; [exact Hq|]. split; [reflexivity|exact (HA Hlo)].
Qed.

Lemma cache_wf_new_page lo t p q o : cache_wf lo t -> page_pointer t p = 0 -> q <> 0 -> 0 <= o <= CODE_SIZE ->
  cache_wf lo (set_L2 (<[p := q]> (PagePointers t)) (PageMem t) o t).
Proof.
  intros [H1 H2 H3] Hp Hq Ho. split; [exact H1| |exact Ho]. intros a e He Hlo.
  destruct (H2 a e He Hlo) as (Hn & Ha & Hb). unfold page_pointer in *. cbn [PagePointers set_L2 BlockList].
  rewrite lookup_insert_ne; [auto|]. intros E. apply Hn. rewrite <- E. exact Hp.
Qed.

Lemma cache_wf_move lo t m o : cache_wf lo t -> 0 <= o <= CODE_SIZE -> m = PageMem t ->
  cache_wf lo (set_L2 (PagePointers t) m o t).
Proof. intros [H1 H2 H3] Ho ->. split; assumption. Qed.

Lemma cache_wf_clear_L2 lo t : cache_wf lo t -> cache_wf lo (set_L2 ∅ ∅ 0 t).
Proof. intros [H1 _ _]. split; [exact H1| |cbn; unfold CODE_SIZE; lia]. intros a e He. inversion He. Qed.

(** A change of the other fields. *)
Lemma cache_wf_transport lo t t' : cache_wf lo t -> L1 t' = L1 t -> PagePointers t' = PagePointers t ->
  PageMem t' = PageMem t -> AllocateOffset t' = AllocateOffset t -> BlockList t' = BlockList t ->
  cache_wf lo t'.
Proof.
  intros [H1 H2 H3] E1 E2 E3 E4 E5. unfold page_pointer in *.
  split; rewrite ?E1, ?E3, ?E4, ?E5; auto. unfold page_pointer. rewrite E2. exact H2.
Qed.

(** ** [CacheBlockMapping] *)

Ltac run := unfold mbind, M_bind, get_state, modify, mret, M_ret; cbn beta iota zeta.

Lemma CacheBlockMapping_space lo fuel t A h : cache_layout -> cache_wf lo t ->
  (lo <= A -> BlockList t !! A = Some h) -> has_backing t A ->
  exists t', CacheBlockMapping VirtualMemSize PageMemory (S fuel) A h t = Ok (tt, t') /\
  cache_wf lo t' /\ tables_only t t'.
Proof.
  intros HL Hwf HA Hsp. cbn [CacheBlockMapping]. run. rewrite page_offset_masked by exact HL.
  fold (page_index VirtualMemSize A).
  set (t1 := set_L1 _ t). assert (cache_wf lo t1) as H1 by (apply cache_wf_put_L1; assumption).
  change (page_pointer t1) with (page_pointer t).
  destruct (Z.eqb_spec (page_pointer t (page_index VirtualMemSize A)) 0) as [Hp|Hp].
  - destruct Hsp as [?|Hsp]; [contradiction|]. pose proof (cache_wf_offset _ _ Hwf) as Ho.
    destruct HL as [_ Hb Ht]. unfold AllocateBackingForPage. run.
    change (AllocateOffset t1) with (AllocateOffset t).
    unfold SIZE_PER_PAGE, sizeof_LookupCacheEntry, CODE_SIZE in *.
    rewrite !(uint_small 64) by lia.
    destruct (Z.leb_spec (128 * 1024 * 1024) (AllocateOffset t + 4096 * 16)); [lia|]. cbn beta iota.
    destruct (Z.eqb_spec (PageMemory + AllocateOffset t) 0); [lia|].
    eexists. split; [reflexivity|]. split; [|repeat split].
    set (o := AllocateOffset t + 4096 * 16). set (q := PageMemory + AllocateOffset t).
    set (t2 := set_L2 (<[page_index VirtualMemSize A := q]> (PagePointers t1)) (PageMem t1) o t1).
    assert (cache_wf lo t2) as H2 by (apply cache_wf_new_page; unfold CODE_SIZE; try assumption; lia).
    assert (page_pointer t2 (page_index VirtualMemSize A) = q) as E.
    { unfold page_pointer, t2. cbn. rewrite lookup_insert_eq. reflexivity. }
    assert (page_pointer t2 (page_index VirtualMemSize A) <> 0) as Hq by (rewrite E; assumption).
    pose proof (cache_wf_put_L2 lo t2 A h H2 HA Hq) as X. rewrite E in X. exact X.
  - eexists. split; [reflexivity|]. split; [|repeat split].
    apply (cache_wf_put_L2 lo t1 A h H1 HA Hp).
Qed.

(** Whatever the tables hold, the entry of L1 is the mapping. *)
Lemma CacheBlockMapping_L1 fuel t A h : cache_layout -> has_backing t A -> 0 <= AllocateOffset t <= CODE_SIZE ->
  exists t', CacheBlockMapping VirtualMemSize PageMemory (S fuel) A h t = Ok (tt, t') /\
  BlockList t' = BlockList t /\ L1 t' !! L1_index A = Some (mkEntry h A).
Proof.
  intros HL Hsp Ho. cbn [CacheBlockMapping]. run. fold (page_index VirtualMemSize A).
  set (t1 := set_L1 _ t). change (page_pointer t1) with (page_pointer t).
  assert (L1 t1 !! L1_index A = Some (mkEntry h A)) as E by apply lookup_insert_eq.
  destruct (Z.eqb_spec (page_pointer t (page_index VirtualMemSize A)) 0) as [Hp|Hp].
  2: { eexists. split; [reflexivity|]. split; [reflexivity|exact E]. }
  destruct Hsp as [?|Hsp]; [contradiction|]. destruct HL as [_ Hb Ht].
  unfold AllocateBackingForPage. run. change (AllocateOffset t1) with (AllocateOffset t).
  unfold SIZE_PER_PAGE, sizeof_LookupCacheEntry, CODE_SIZE in *. rewrite !(uint_small 64) by lia.
  destruct (Z.leb_spec (128 * 1024 * 1024) (AllocateOffset t + 4096 * 16)); [lia|]. cbn beta iota.
  destruct (Z.eqb_spec (PageMemory + AllocateOffset t) 0); [lia|].
  eexists. split; [reflexivity|]. split; [reflexivity|exact E].
Qed.

(** When the region is full L2 is cleared, and what is then entered is the
    mapping of the page index. *)
Lemma CacheBlockMapping_full fuel t A h : cache_layout -> 0 <= AllocateOffset t <= CODE_SIZE ->
  ~ has_backing t A ->
  CacheBlockMapping VirtualMemSize PageMemory (S fuel) A h t =
  CacheBlockMapping VirtualMemSize PageMemory fuel (page_index VirtualMemSize A) h
  (set_L2 ∅ ∅ 0 (set_L1 (<[L1_index A := mkEntry h A]> (L1 t)) t)).
Proof.
  intros HL Ho Hsp. unfold has_backing in Hsp. cbn [CacheBlockMapping]. run.
  fold (page_index VirtualMemSize A). set (t1 := set_L1 _ t).
  change (page_pointer t1) with (page_pointer t).
  destruct (Z.eqb_spec (page_pointer t (page_index VirtualMemSize A)) 0) as [Hp|Hp]; [|tauto].
  unfold AllocateBackingForPage. run. change (AllocateOffset t1) with (AllocateOffset t).
  unfold SIZE_PER_PAGE, sizeof_LookupCacheEntry, CODE_SIZE in *.
  rewrite (uint_small 64) by lia.
  destruct (Z.leb_spec (128 * 1024 * 1024) (AllocateOffset t + 4096 * 16)); [reflexivity|lia].
Qed.

Lemma has_backing_dec t A : has_backing t A \/ ~ has_backing t A.
Proof.
  unfold has_backing.
  destruct (Z.eq_dec (page_pointer t (page_index VirtualMemSize A)) 0), (Z_lt_le_dec (AllocateOffset t + SIZE_PER_PAGE) CODE_SIZE);
    [left|right|left|left]; lia.
Qed.

(** The retry finds space, so the mapping always ends. *)
Lemma CacheBlockMapping_ok lo t A h : cache_layout -> cache_wf lo t ->
  (lo <= A -> BlockList t !! A = Some h) -> has_backing t A \/ VirtualMemSize / 4096 <= lo ->
  exists t', CacheBlockMapping VirtualMemSize PageMemory retry_fuel A h t = Ok (tt, t') /\
  cache_wf lo t' /\ tables_only t t'.
Proof.
  intros HL Hwf HA Hor. destruct (has_backing_dec t A) as [Hs|Hs].
  { apply CacheBlockMapping_space; assumption. }
  destruct Hor as [?|Hlo]; [contradiction|].
  unfold retry_fuel. rewrite CacheBlockMapping_full by first [assumption | apply Hwf].
  set (t1 := set_L1 _ t). set (t2 := set_L2 _ _ _ t1).
  assert (cache_wf lo t2) as H2 by (apply cache_wf_clear_L2, cache_wf_put_L1; assumption).
  destruct (CacheBlockMapping_space lo 0 t2 (page_index VirtualMemSize A) h HL H2) as (t' & E & W & S).
  { pose proof (page_index_range A HL). lia. }
  { right. reflexivity. }
  exists t'. split; [exact E|]. split; [exact W|]. etrans; [|exact S]. repeat split.
Qed.

(** ** [FindBlock] and [AddBlockMapping] *)

Lemma FindBlock_ok lo t A : cache_layout -> cache_wf lo t -> 0 < lo <= A ->
  has_backing t A \/ VirtualMemSize / 4096 <= lo ->
  exists t', FindBlock VirtualMemSize PageMemory A t = Ok (default 0 (BlockList t !! A), t') /\
  cache_wf lo t' /\ tables_only t t'.
Proof.
  intros HL Hwf HA Hor. unfold FindBlock. run.
  destruct (Z.eqb_spec (GuestCode (entry_at (L1 t) (L1_index A))) A) as [E1|_].
  { destruct (cache_wf_L1 _ _ Hwf _ _ (entry_at_zero (L1 t) (L1_index A) ltac:(lia)) ltac:(lia)) as [_ E].
    rewrite E1 in E. rewrite E. exists t. split; [reflexivity|]. split; [exact Hwf|reflexivity]. }
  set (a := block_pointer _ _).
  destruct (Z.eqb_spec (GuestCode (entry_at (PageMem t) a)) A) as [E2|_].
  - destruct (cache_wf_L2 _ _ Hwf _ _ (entry_at_zero (PageMem t) a ltac:(lia)) ltac:(lia)) as (Hp & _ & E).
    rewrite E2 in Hp, E. destruct (Z.eqb_spec (page_pointer t (page_index VirtualMemSize A)) 0); [contradiction|].
    cbn [negb andb]. rewrite E. eexists. split; [reflexivity|].
    split; [apply cache_wf_put_L1; auto|repeat split].
  - rewrite andb_false_r. destruct (BlockList t !! A) as [h|] eqn:E.
    + destruct (CacheBlockMapping_ok lo t A h HL Hwf ltac:(auto) Hor) as (t' & Et & W & S).
      rewrite Et. exists t'. auto.
    + exists t. split; [reflexivity|]. split; [exact Hwf|reflexivity].
Qed.

Lemma cache_wf_set_BlockList lo t m : cache_wf lo t ->
  (forall a h, lo <= a -> BlockList t !! a = Some h -> m !! a = Some h) -> cache_wf lo (set_BlockList m t).
Proof.
  intros [H1 H2 H3] Hm. split; [| |exact H3].
  - intros i e He Hlo. destruct (H1 i e He Hlo) as [? ?]. split; [assumption|apply Hm; assumption].
  - intros a e He Hlo. destruct (H2 a e He Hlo) as (?&?&?). repeat split; try assumption. apply Hm; assumption.
Qed.

Lemma AddBlockMapping_ok lo t A h : cache_wf lo t -> BlockList t !! A = None ->
  exists t', AddBlockMapping A h t = Ok (tt, t') /\ cache_wf lo t' /\
  tables_only (set_BlockList (<[A := h]> (BlockList t)) t) t'.
Proof.
  intros Hwf HA. unfold AddBlockMapping. run. rewrite HA.
  rewrite bool_decide_eq_false_2 by (intros [? ?]; discriminate). cbn [negb].
  eexists. split; [reflexivity|]. split; [|repeat split].
  apply (cache_wf_put_L1 lo (set_BlockList _ t)).
  - apply cache_wf_set_BlockList; [exact Hwf|]. intros a h' _ E. rewrite lookup_insert_ne; congruence.
  - intros _. apply lookup_insert_eq.
Qed.

Lemma AddBlockMapping_duplicate t A h h' : BlockList t !! A = Some h' -> AddBlockMapping A h t = Assert.
Proof.
  intros HA. unfold AddBlockMapping. run. rewrite HA.
  rewrite bool_decide_eq_true_2 by eauto. reflexivity.
Qed.

Lemma ClearCache_ok lo t :
  exists t', ClearCache t = Ok (tt, t') /\ cache_wf lo t' /\
  BlockList t' = ∅ /\ BlockLinks t' = ∅ /\ CodePages t' = CodePages t /\ Records t' = Records t.
Proof.
  eexists. split; [reflexivity|]. split; [|repeat split].
  split; cbn; [intros i e He; inversion He|intros i e He; inversion He|unfold CODE_SIZE; lia].
Qed.

(** ** [Erase] *)

(** The states that differ only in links and exit records. *)
Definition links_only (t t' : Thread) : Prop :=
  L1 t' = L1 t /\ PagePointers t' = PagePointers t /\ PageMem t' = PageMem t /\
  AllocateOffset t' = AllocateOffset t /\ BlockList t' = BlockList t /\ CodePages t' = CodePages t /\
  DebugStore t' = DebugStore t /\ rip t' = rip t.

#[export] Instance links_only_preorder : PreOrder links_only.
Proof.
  split; [intros t; repeat split|].
  intros a b c (?&?&?&?&?&?&?&?) (?&?&?&?&?&?&?&?). repeat split; congruence.
Qed.

(** Every exit record jumps to the linker, or has a link and jumps to the
    translation of its destination. *)
Record links_ok (Linker : Z) (t : Thread) : Prop := {
  links_delinker : forall k d, BlockLinks t !! k = Some d -> d = mkDelinker k.2 Linker;
  links_target : forall r e, Records t !! r = Some e ->
  Target e = Linker \/
  is_Some (BlockLinks t !! (GuestRip e, r)) /\ BlockList t !! GuestRip e = Some (Target e)
}.

Lemma sever_frame A t r : links_only t (sever A t r).
Proof. unfold sever. destruct (BlockLinks t !! (A, r)); repeat split. Qed.

Lemma sever_all_frame A l t : links_only t (foldl (sever A) t l).
Proof.
  revert t. induction l as [|r l IH]; intros t; cbn [foldl]; [reflexivity|].
  etrans; [apply sever_frame|apply IH].
Qed.

Lemma sever_links_ok Linker A t r : links_ok Linker t -> links_ok Linker (sever A t r).
Proof.
  intros [Hd Ht]. unfold sever. destruct (BlockLinks t !! (A, r)) as [d|] eqn:E; [|split; assumption].
  apply Hd in E. subst d. split; cbn.
  - intros k d Hk. apply lookup_delete_Some in Hk as [_ Hk]. apply Hd, Hk.
  - intros r' e. destruct (Z.eq_dec r r') as [<-|Hr].
    + rewrite lookup_alter_eq. destruct (Records t !! r); intros [= <-]. left. reflexivity.
    + rewrite lookup_alter_ne by exact Hr. intros He. destruct (Ht _ _ He) as [?|[? ?]]; [auto|right].
      rewrite lookup_delete_ne by congruence. auto.
Qed.

Lemma sever_all_links_ok Linker A l t : links_ok Linker t -> links_ok Linker (foldl (sever A) t l).
Proof.
  revert t. induction l as [|r l IH]; intros t H; cbn [foldl]; [exact H|]. apply IH, sever_links_ok, H.
Qed.

Lemma sever_removes A t r k : BlockLinks t !! k = None \/ k = (A, r) -> BlockLinks (sever A t r) !! k = None.
Proof.
  unfold sever. destruct (BlockLinks t !! (A, r)) as [d|] eqn:E; cbn.
  - intros [H|H]; [apply lookup_delete_None; auto|subst; apply lookup_delete_eq].
  - intros [H|H]; congruence.
Qed.

Lemma sever_all_removes A l t k :
  BlockLinks t !! k = None \/ (exists r, r ∈ l /\ k = (A, r)) -> BlockLinks (foldl (sever A) t l) !! k = None.
Proof.
  revert t. induction l as [|r l IH]; intros t; cbn [foldl].
  - intros [H|(r & Hr & _)]; [exact H|]. apply elem_of_nil in Hr. destruct Hr.
  - intros [H|(r' & Hr & ->)]; apply IH.
    + left. apply sever_removes. auto.
    + apply elem_of_cons in Hr as [->|Hr]; [left; apply sever_removes; auto|eauto].
Qed.

Lemma links_to_complete t A r d : BlockLinks t !! (A, r) = Some d -> r ∈ links_to t A.
Proof.
  intros H. unfold links_to. rewrite merge_sort_Permutation. apply list_elem_of_fmap.
  exists (A, r). split; [reflexivity|]. apply list_elem_of_filter. split; [reflexivity|].
  apply elem_of_elements, elem_of_dom. eauto.
Qed.

Lemma links_to_severed t A r : BlockLinks (foldl (sever A) t (links_to t A)) !! (A, r) = None.
Proof.
  apply sever_all_removes. destruct (BlockLinks t !! (A, r)) eqn:E; [right|auto].
  apply links_to_complete in E. eauto.
Qed.

Lemma erase_L1_lookup lo t A i e : cache_wf lo t -> 0 < lo -> L1 (erase_L1 A t) !! i = Some e -> lo <= GuestCode e ->
  L1 t !! i = Some e /\ GuestCode e <> A.
Proof.
  intros Hwf Hlo. unfold erase_L1.
  destruct (Z.eqb_spec (GuestCode (entry_at (L1 t) (L1_index A))) A) as [E|E]; intros He Hg.
  - cbn [L1 set_L1] in He. apply lookup_insert_Some in He as [[_ <-]|[Hi He]]; [cbn in Hg; lia|].
    split; [exact He|]. intros <-. apply Hi. symmetry. apply (cache_wf_L1 _ _ Hwf i e He Hg).
  - split; [exact He|]. intros <-. destruct (cache_wf_L1 _ _ Hwf i e He Hg) as [-> _].
    apply E. unfold entry_at. rewrite He. reflexivity.
Qed.

Lemma erase_L2_lookup lo t A a e : cache_layout -> cache_wf lo t -> 0 < lo ->
  PageMem (erase_L2 VirtualMemSize A t) !! a = Some e -> lo <= GuestCode e ->
  PageMem t !! a = Some e /\ GuestCode e <> A.
Proof.
  intros HL Hwf Hlo. unfold erase_L2, page_offset at 1. rewrite page_offset_masked by exact HL.
  destruct (Z.eqb_spec (page_pointer t (page_index VirtualMemSize A)) 0) as [E|E]; intros He Hg.
  - split; [exact He|]. intros <-. destruct (cache_wf_L2 _ _ Hwf a e He Hg) as [? _]. contradiction.
  - cbn [PageMem set_L2] in He. apply lookup_insert_Some in He as [[_ <-]|[Ha He]]; [cbn in Hg; lia|].
    split; [exact He|]. intros <-. apply Ha. symmetry. apply (cache_wf_L2 _ _ Hwf a e He Hg).
Qed.

(** What an erased address leaves of a state. *)
Record erased (Linker : Z) (A : Z) (t t' : Thread) : Prop := {
  erased_BlockList : BlockList t' = delete A (BlockList t);
  erased_CodePages : CodePages t' = CodePages t;
  erased_rip : rip t' = rip t;
  erased_links : links_ok Linker t -> links_ok Linker t'
}.

Lemma erase_frame A t : let t' := erase_L2 VirtualMemSize A (erase_L1 A t) in
  tables_only t t' /\ PagePointers t' = PagePointers t /\ AllocateOffset t' = AllocateOffset t.
Proof.
  cbn zeta. unfold erase_L2, erase_L1.
  destruct (_ =? A); cbn [set_L1 PagePointers]; destruct (_ =? 0); repeat split.
Qed.

Lemma cache_wf_erase lo t A : cache_layout -> cache_wf lo t -> 0 < lo ->
  cache_wf lo (erase_L2 VirtualMemSize A (erase_L1 A (set_BlockList (delete A (BlockList t)) t))).
Proof.
  intros HL Hwf Hlo. set (t1 := set_BlockList _ t).
  assert (L1 (erase_L2 VirtualMemSize A (erase_L1 A t1)) = L1 (erase_L1 A t)) as E1.
  { unfold erase_L2, erase_L1. change (L1 t1) with (L1 t).
    destruct (_ =? A); cbn [set_L1 L1]; destruct (_ =? 0); reflexivity. }
  assert (PageMem (erase_L2 VirtualMemSize A (erase_L1 A t1)) = PageMem (erase_L2 VirtualMemSize A t)) as E2.
  { unfold erase_L2, erase_L1. change (L1 t1) with (L1 t).
    destruct (_ =? A); cbn [set_L1 PageMem]; unfold page_pointer; cbn [set_L1 t1 set_BlockList PagePointers];
      destruct (_ =? 0); reflexivity. }
  destruct (erase_frame A t1) as ((B & _) & P & O). cbn in B.
  split.
  - rewrite E1, B. intros i e He Hg. apply (erase_L1_lookup lo) in He as [He Hn]; try assumption.
    rewrite lookup_delete_ne by congruence. apply (cache_wf_L1 _ _ Hwf i e He Hg).
  - rewrite E2, B. unfold page_pointer. rewrite P. intros a e He Hg.
    apply (erase_L2_lookup lo) in He as [He Hn]; try assumption.
    rewrite lookup_delete_ne by congruence. apply (cache_wf_L2 _ _ Hwf a e He Hg).
  - rewrite O. apply Hwf.
Qed.

Lemma links_ok_transport Linker t t' : links_ok Linker t ->
  BlockLinks t' = BlockLinks t -> Records t' = Records t -> BlockList t' = BlockList t -> links_ok Linker t'.
Proof. intros [H1 H2] E1 E2 E3. split; rewrite ?E1, ?E2, ?E3; assumption. Qed.

(** No link to an address is left: its translation may go. *)
Lemma links_ok_delete Linker t A : links_ok Linker t -> (forall r, BlockLinks t !! (A, r) = None) ->
  links_ok Linker (set_BlockList (delete A (BlockList t)) t).
Proof.
  intros [H1 H2] HA. split; [exact H1|]. intros r e He. destruct (H2 r e He) as [?|[[d Hd] Hb]]; [auto|right].
  split; [eauto|]. cbn. rewrite lookup_delete_ne; [exact Hb|]. intros ->. rewrite HA in Hd. discriminate.
Qed.

Lemma Erase_ok lo t A : cache_layout -> cache_wf lo t -> 0 < lo ->
  exists t', Erase VirtualMemSize A t = Ok (tt, t') /\ cache_wf lo t' /\ DebugStore t' = DebugStore t /\
  forall Linker, erased Linker A t t'.
Proof.
  intros HL Hwf Hlo. unfold Erase. run. set (t1 := foldl (sever A) t (links_to t A)).
  destruct (sever_all_frame A (links_to t A) t) as (F1&F2&F3&F4&F5&F6&F7&F8). fold t1 in F1, F2, F3, F4, F5, F6, F7, F8.
  assert (cache_wf lo t1) as H1 by (apply (cache_wf_transport lo t); assumption).
  destruct (erase_frame A (set_BlockList (delete A (BlockList t1)) t1)) as ((B1&B2&B3&B4&B5&B6)&_).
  eexists. split; [reflexivity|]. split; [apply cache_wf_erase; assumption|].
  split; [rewrite B4; exact F7|]. intros Linker. split.
  - rewrite B1, <- F5. reflexivity.
  - rewrite B3. exact F6.
  - rewrite B6. exact F8.
  - intros Hl. eapply links_ok_transport; [|exact B2|exact B5|exact B1].
    apply links_ok_delete; [apply sever_all_links_ok, Hl|]. intros r. apply links_to_severed.
Qed.

(** A translation that is gone is jumped to by no exit. *)
Lemma links_ok_gone Linker t A r e : links_ok Linker t -> BlockList t !! A = None ->
  Records t !! r = Some e -> GuestRip e = A -> Target e = Linker.
Proof. intros [_ H] HA He <-. destruct (H r e He) as [?|[_ ?]]; [assumption|congruence]. Qed.

(** ** Invalidation *)

(** [t'] is [t] without the translations and the debug data of the addresses in [P]. *)
Record forgot (P : Z -> Prop) (t t' : Thread) : Prop := {
  forgot_in : forall a, P a -> BlockList t' !! a = None /\ DebugStore t' !! a = None;
  forgot_out : forall a, ~ P a -> BlockList t' !! a = BlockList t !! a /\ DebugStore t' !! a = DebugStore t !! a;
  forgot_none : forall a, BlockList t !! a = None -> BlockList t' !! a = None;
  forgot_debug : forall a, DebugStore t !! a = None -> DebugStore t' !! a = None;
  forgot_rip : rip t' = rip t;
  forgot_links : forall Linker, links_ok Linker t -> links_ok Linker t'
}.

Lemma forgot_refl (P : Z -> Prop) t : (forall a, ~ P a) -> forgot P t t.
Proof. intros H. split; auto. intros a Ha. destruct (H a Ha). Qed.

Lemma forgot_trans (P Q R : Z -> Prop) t t1 t2 : forgot P t t1 -> forgot Q t1 t2 ->
  (forall a, R a -> P a \/ Q a) -> (forall a, P a \/ Q a -> R a) -> forgot R t t2.
Proof.
  intros [A1 A2 A3 A4 A5 A6] [B1 B2 B3 B4 B5 B6] H1 H2. split; auto; try congruence.
  - intros a Ha. destruct (H1 a Ha) as [Hp|Hq]; [|apply B1, Hq].
    destruct (A1 a Hp). auto.
  - intros a Ha. destruct (B2 a) as [-> ->]; [intros Hq; apply Ha; auto|].
    apply A2. intros Hp; apply Ha; auto.
Qed.

Lemma ThreadRemoveCodeEntry_ok lo t A : cache_layout -> cache_wf lo t -> 0 < lo ->
  exists t', ThreadRemoveCodeEntry VirtualMemSize A t = Ok (tt, t') /\ cache_wf lo t' /\
  CodePages t' = CodePages t /\ forgot (fun a => a = A) t t'.
Proof.
  intros HL Hwf Hlo. unfold ThreadRemoveCodeEntry. run. set (t1 := set_DebugStore _ t).
  destruct (Erase_ok lo t1 A HL) as (t' & E & W & D & Er); [apply (cache_wf_transport lo t); auto|assumption|].
  exists t'. split; [exact E|]. split; [exact W|]. destruct (Er 0) as [B P R _]. cbn in B, P, R.
  split; [exact P|]. split; rewrite ?B, ?D; cbn.
  - intros a ->. split; apply lookup_delete_eq.
  - intros a Ha. split; apply lookup_delete_ne; congruence.
  - intros a Ha. apply lookup_delete_None. auto.
  - intros a Ha. apply lookup_delete_None. auto.
  - exact R.
  - intros Linker Hl. apply (erased_links _ _ _ _ (Er Linker)).
    apply (links_ok_transport Linker t); auto.
Qed.

Lemma remove_entries_ok lo l t : cache_layout -> cache_wf lo t -> 0 < lo ->
  exists t', remove_entries VirtualMemSize l t = Ok (tt, t') /\ cache_wf lo t' /\
  CodePages t' = CodePages t /\ forgot (fun a => a ∈ l) t t'.
Proof.
  intros HL Hwf Hlo. revert t Hwf. induction l as [|A l IH]; intros t Hwf; cbn [remove_entries].
  - exists t. split; [reflexivity|]. split; [exact Hwf|]. split; [reflexivity|].
    apply forgot_refl. intros a Ha. apply elem_of_nil in Ha. exact Ha.
  - destruct (ThreadRemoveCodeEntry_ok lo t A HL Hwf Hlo) as (t1 & E1 & W1 & P1 & F1).
    destruct (IH t1 W1) as (t2 & E2 & W2 & P2 & F2).
    exists t2. rewrite (M_bind_Ok _ _ _ _ _ E1). split; [exact E2|]. split; [exact W2|].
    split; [congruence|]. eapply forgot_trans; [exact F1|exact F2| |]; intros a; rewrite elem_of_cons; tauto.
Qed.

(** The addresses with code on one of the pages. *)
Definition on_pages (t : Thread) (Q : Z -> Prop) (a : Z) : Prop :=
  exists p, Q p /\ a ∈ default [] (CodePages t !! p).

Lemma forgot_set_CodePages P t t' m : forgot P t t' -> forgot P t (set_CodePages m t').
Proof.
  intros [A1 A2 A3 A4 A5 A6]. split; auto. intros Linker Hl.
  apply (links_ok_transport Linker t'); auto.
Qed.

Lemma invalidate_pages_ok lo pages t : cache_layout -> cache_wf lo t -> 0 < lo ->
  exists t', invalidate_pages VirtualMemSize pages t = Ok (tt, t') /\ cache_wf lo t' /\
  forgot (on_pages t (fun p => p ∈ pages)) t t' /\
  (forall p, p ∈ pages -> CodePages t' !! p = Some []) /\
  (forall p, ~ p ∈ pages -> CodePages t' !! p = CodePages t !! p).
Proof.
  intros HL Hwf Hlo. revert t Hwf. induction pages as [|p pages IH]; intros t Hwf; cbn [invalidate_pages].
  - exists t. split; [reflexivity|]. split; [exact Hwf|]. split.
    { apply forgot_refl. intros a (p & Hp & _). apply elem_of_nil in Hp. exact Hp. }
    split; [|reflexivity]. intros p Hp. apply elem_of_nil in Hp. destruct Hp.
  - unfold mbind at 1, M_bind at 1, get_state at 1.
    destruct (remove_entries_ok lo (default [] (CodePages t !! p)) t HL Hwf Hlo) as (t1 & E1 & W1 & P1 & F1).
    rewrite (M_bind_Ok _ _ _ _ _ E1). set (t2 := set_CodePages (<[p := []]> (CodePages t1)) t1).
    destruct (IH t2) as (t3 & E3 & W3 & F3 & I3 & O3); [apply (cache_wf_transport lo t1); auto|].
    exists t3. split; [exact E3|]. split; [exact W3|].
    assert (CodePages t2 = <[p := []]> (CodePages t)) as C2 by (cbn; congruence).
    split; [|split].
    + eapply forgot_trans; [apply (forgot_set_CodePages _ _ _ (<[p := []]> (CodePages t1)) F1)|exact F3| |].
      * intros a (q & Hq & Ha). apply elem_of_cons in Hq as [->|Hq]; [left; exact Ha|].
        destruct (Z.eq_dec p q) as [->|Hn]; [left; exact Ha|]. right. exists q. split; [exact Hq|].
        rewrite C2, lookup_insert_ne by exact Hn. exact Ha.
      * intros a [Ha|(q & Hq & Ha)]; [exists p; split; [apply elem_of_cons; auto|exact Ha]|].
        rewrite C2 in Ha. destruct (Z.eq_dec p q) as [->|Hn].
        { rewrite lookup_insert_eq in Ha. apply elem_of_nil in Ha. destruct Ha. }
        rewrite lookup_insert_ne in Ha by exact Hn. exists q. split; [apply elem_of_cons; auto|exact Ha].
    + intros q Hq. destruct (decide (q ∈ pages)) as [Hin|Hout]; [apply I3, Hin|].
      apply elem_of_cons in Hq as [->|Hq]; [|contradiction].
      rewrite O3 by exact Hout. rewrite C2. apply lookup_insert_eq.
    + intros q Hq. rewrite elem_of_cons in Hq. rewrite O3 by tauto. rewrite C2.
      apply lookup_insert_ne. intros ->. tauto.
Qed.

Lemma key_range_ok m lo hi : lo <= hi ->
  exists l, key_range m lo hi = Ok l /\ forall p, p ∈ l <-> is_Some (m !! p) /\ lo <= p <= hi.
Proof.
  intros Hle. unfold key_range.
  destruct (existsb _ _) eqn:E.
  { apply existsb_exists in E as (k & _ & Hk). lia. }
  eexists. split; [reflexivity|]. intros p. rewrite list_elem_of_filter, merge_sort_Permutation, elem_of_elements, elem_of_dom.
  tauto.
Qed.

Lemma page_bounds Start Length : 0 <= Start -> 0 < Length -> Start + Length <= 2 ^ 64 ->
  last_page Start Length = (Start + Length - 1) / 4096 /\ first_page Start = Start / 4096 /\
  first_page Start <= last_page Start Length.
Proof.
  intros. unfold first_page, last_page. rewrite uint_small, !Z.shiftr_div_pow2 by lia. change (2 ^ 12) with 4096.
  repeat split. apply Z.div_le_mono; lia.
Qed.

Lemma InvalidateGuestThreadCodeRange_ok lo t Start Length : cache_layout -> cache_wf lo t -> 0 < lo ->
  0 <= Start -> 0 < Length -> Start + Length <= 2 ^ 64 ->
  let inside p := Start / 4096 <= p <= (Start + Length - 1) / 4096 in
  exists t', InvalidateGuestThreadCodeRange VirtualMemSize Start Length t = Ok (tt, t') /\ cache_wf lo t' /\
  forgot (on_pages t inside) t t' /\
  (forall p, inside p -> default [] (CodePages t' !! p) = []) /\
  (forall p, ~ inside p -> CodePages t' !! p = CodePages t !! p).
Proof.
  intros HL Hwf Hlo H0 H1 H2 inside. destruct (page_bounds Start Length H0 H1 H2) as (Eh & El & Hle).
  unfold InvalidateGuestThreadCodeRange.
  destruct (key_range_ok (CodePages t) _ _ Hle) as (pages & Ek & Hp).
  unfold mbind, M_bind, get_state, lift. rewrite Ek. rewrite El, Eh in Hp.
  destruct (invalidate_pages_ok lo pages t HL Hwf Hlo) as (t' & E & W & F & I & O).
  exists t'. split; [exact E|]. split; [exact W|]. split; [|split].
  - eapply forgot_trans; [exact F|apply (forgot_refl (fun _ => False)); auto| |].
    + intros a (p & Hin & Ha). left. exists p. split; [|exact Ha]. apply Hp. split; [|exact Hin].
      destruct (CodePages t !! p); [eauto|apply elem_of_nil in Ha; destruct Ha].
    + intros a [(p & Hin & Ha)|[]]. apply Hp in Hin as [_ Hin]. exists p. auto.
  - intros p Hin. destruct (decide (p ∈ pages)) as [Hy|Hn]; [rewrite I by exact Hy; reflexivity|].
    rewrite O by exact Hn. destruct (CodePages t !! p) eqn:Ep; [|reflexivity].
    destruct Hn. apply Hp. eauto.
  - intros p Hout. apply O. rewrite Hp. intros [_ Hin]. apply Hout, Hin.
Qed.

(** ** [AddBlockExecutableRange] *)

Lemma add_to_page_fold A l acc : base.NoDup l ->
  let r := foldl (add_to_page A) acc l in
  (r.1 = true <-> acc.1 = true \/ exists p, p ∈ l /\ default [] (acc.2 !! p) = []) /\
  (forall p, p ∈ l -> r.2 !! p = Some (default [] (acc.2 !! p) ++ [A])) /\
  (forall p, ~ p ∈ l -> r.2 !! p = acc.2 !! p).
Proof.
  revert acc. induction l as [|q l IH]; intros acc Hnd; cbn [foldl]; cbn zeta.
  { split; [|split]; [|intros p Hp; apply elem_of_nil in Hp; destruct Hp|reflexivity].
    split; [auto|]. intros [?|(p & Hp & _)]; [assumption|apply elem_of_nil in Hp; destruct Hp]. }
  apply list.NoDup_cons in Hnd as [Hq Hnd]. destruct (IH (add_to_page A acc q) Hnd) as (I1 & I2 & I3).
  assert (forall p, p <> q -> (add_to_page A acc q).2 !! p = acc.2 !! p) as Hne.
  { intros p Hp. cbn. apply lookup_insert_ne. congruence. }
  split; [|split].
  - rewrite I1. cbn [add_to_page fst]. rewrite orb_true_iff, bool_decide_eq_true, length_zero_iff_nil. split.
    + intros [[?|?]|(p & Hp & E)]; [auto|right; exists q; split; [apply elem_of_cons; auto|assumption]|].
      right. exists p. rewrite Hne in E by congruence. split; [apply elem_of_cons; auto|exact E].
    + intros [?|(p & Hp & E)]; [auto|]. apply elem_of_cons in Hp as [->|Hp]; [auto|].
      right. exists p. split; [exact Hp|]. rewrite Hne by congruence. exact E.
  - intros p Hp. destruct (Z.eq_dec p q) as [->|Hn].
    + rewrite I3 by exact Hq. cbn. apply lookup_insert_eq.
    + apply elem_of_cons in Hp as [?|Hp]; [contradiction|]. rewrite I2, Hne by assumption. reflexivity.
  - intros p Hp. rewrite elem_of_cons in Hp. rewrite I3 by tauto. apply Hne. tauto.
Qed.

Lemma page_range_in p a b : p ∈ page_range a b <-> a <= p <= b.
Proof. unfold page_range. rewrite elem_of_seqZ. lia. Qed.

Lemma AddBlockExecutableRange_ok t A Start Length :
  0 <= Start -> 0 < Length -> Start + Length <= 2 ^ 64 ->
  let inside p := Start / 4096 <= p <= (Start + Length - 1) / 4096 in
  exists rv t', AddBlockExecutableRange A Start Length t = Ok (rv, t') /\
  (rv = true <-> exists p, inside p /\ default [] (CodePages t !! p) = []) /\
  (forall p, inside p -> CodePages t' !! p = Some (default [] (CodePages t !! p) ++ [A])) /\
  (forall p, ~ inside p -> CodePages t' !! p = CodePages t !! p) /\
  t' = set_CodePages (CodePages t') t.
Proof.
  intros H0 H1 H2 inside. destruct (page_bounds Start Length H0 H1 H2) as (Eh & El & _).
  unfold AddBlockExecutableRange. run. rewrite Eh, El.
  set (l := page_range _ _). pose proof (add_to_page_fold A l (false, CodePages t) (NoDup_seqZ _ _)) as Hf.
  assert (forall p, p ∈ l <-> inside p) as Hl by (intros p; apply page_range_in).
  destruct (foldl _ _ l) as [rv m]. cbn in Hf. destruct Hf as (F1 & F2 & F3).
  exists rv, (set_CodePages m t). split; [reflexivity|]. split; [|split; [|split; [|reflexivity]]].
  - rewrite F1. split; [intros [?|(p & Hp & E)]; [discriminate|]|intros (p & Hp & E); right];
      exists p; rewrite ?Hl in *; auto.
  - intros p Hp. apply F2, Hl, Hp.
  - intros p Hp. apply F3. rewrite Hl. exact Hp.
Qed.

(** ** Blocks that are not there *)

Lemma FindBlock_None lo t A : cache_layout -> cache_wf lo t -> 0 < lo <= A -> BlockList t !! A = None ->
  FindBlock VirtualMemSize PageMemory A t = Ok (0, t).
Proof.
  intros HL Hwf HA Hn. unfold FindBlock. run.
  destruct (Z.eqb_spec (GuestCode (entry_at (L1 t) (L1_index A))) A) as [E1|_].
  { destruct (cache_wf_L1 _ _ Hwf _ _ (entry_at_zero (L1 t) (L1_index A) ltac:(lia)) ltac:(lia)) as [_ E]. congruence. }
  set (a := block_pointer _ _).
  destruct (Z.eqb_spec (GuestCode (entry_at (PageMem t) a)) A) as [E2|_].
  { destruct (cache_wf_L2 _ _ Hwf _ _ (entry_at_zero (PageMem t) a ltac:(lia)) ltac:(lia)) as (_ & _ & E). congruence. }
  rewrite andb_false_r, Hn. reflexivity.
Qed.

(** ** Linking *)

Lemma alter_as_insert {A} (f : A -> A) (m : gmap Z A) k v : m !! k = Some v -> alter f k m = <[k := f v]> m.
Proof.
  intros H. apply map_eq. intros i. destruct (Z.eq_dec k i) as [<-|Hi].
  - rewrite lookup_alter_eq, lookup_insert_eq, H. reflexivity.
  - rewrite lookup_alter_ne, lookup_insert_ne by exact Hi. reflexivity.
Qed.

Lemma links_ok_link Linker t t' record g h : links_ok Linker t -> BlockList t !! g = Some h ->
  BlockList t' = BlockList t -> Records t' = <[record := mkExit h g]> (Records t) ->
  BlockLinks t' = match BlockLinks t !! (g, record) with
        | Some _ => BlockLinks t
        | None => <[(g, record) := mkDelinker record Linker]> (BlockLinks t) end ->
  links_ok Linker t'.
Proof.
  intros [Hd Ht] Hg E1 E2 E3.
  assert (forall k, is_Some (BlockLinks t !! k) -> is_Some (BlockLinks t' !! k)) as Hmono.
  { intros k Hk. rewrite E3. destruct (BlockLinks t !! (g, record)) eqn:E; [exact Hk|].
    apply lookup_insert_is_Some. destruct (decide ((g, record) = k)); auto. }
  split.
  - intros k d. rewrite E3. destruct (BlockLinks t !! (g, record)) eqn:E; [apply Hd|].
    intros H. apply lookup_insert_Some in H as [[<- <-]|[_ H]]; [reflexivity|apply Hd, H].
  - intros r e. rewrite E2. intros H. apply lookup_insert_Some in H as [[<- <-]|[_ H]]; cbn.
    + right. rewrite E1. split; [|exact Hg]. rewrite E3.
      destruct (BlockLinks t !! (g, record)) eqn:E; [rewrite E; eauto|]. rewrite lookup_insert_eq. eauto.
    + destruct (Ht _ _ H) as [?|[? ?]]; [auto|right]. rewrite E1. auto.
Qed.
End Logic.
