(* ===== verification/FrontendTheorems.v ===== *)
(** * The decoder: theorems

    Every 64-bit encoding with at most four prefixes is decoded within bounds; the
    blocks of a function are its code, closed under direct branches; and whatever the
    decoding of a function depends on lies in pages that are reported for it. *)
From Stdlib Require Import ZArith Lia Bool Sorted.
From stdpp Require Import base gmap list numbers option fin_sets.
From S2P Require Import Prelude Flags Dispatch LookupCache LookupCacheLogic.
From S2P Require Import X86Tables X86TablesExt Frontend FrontendLogic FrontendTotal Pages FrontendBlocks FrontendBlocksLogic.
#[local] Open Scope Z_scope.
#[local] Opaque VSyscallData.

(** ** Instructions *)

(** C4: In 64-bit mode, whatever fifteen bytes there are, when at most four of them are
    prefixes before the instruction, the decoder answers without a failed check or an
    access out of the bounds of its arrays and within them. It reads no more than
    eleven bytes after the prefixes, a decoded instruction has the size that was
    read, and the answer is that of every memory with the same bytes. *)
Theorem DecodeInstruction_total Mem p PC0 :
  (forall i, 0 <= i < MAX_INST_SIZE -> is_Some (read_code Mem (advance p i) 1)) -> prefixes Mem p 15 0 <= 4 ->
  exists ok d, DecodeInstruction true T64 Mem p PC0 = Ok (ok, d) /\ PC (Inst d) = PC0 /\
    0 <= InstructionSize d <= prefixes Mem p 15 0 + 11 /\ (ok = true -> InstSize (Inst d) = InstructionSize d) /\
    forall Mem', same_code Mem Mem' p 0 (InstructionSize d) -> DecodeInstruction true T64 Mem' p PC0 = Ok (ok, d).
Proof.
  intros Hm Hp. destruct (decoding_total Mem p Hm PC0 Hp) as (ok & d & E & Hs). exists ok, d.
  destruct (DecodeInstruction_same _ _ _ Mem _ _ _ _ E) as (HPC & H0 & _).
  split; [exact E|]. split; [exact HPC|]. split; [lia|]. split; [intros ->; exact (DecodeInstruction_sized _ _ _ _ _ _ E)|].
  intros Mem' Hc. exact (proj2 (proj2 (DecodeInstruction_same _ _ _ Mem' _ _ _ _ E)) Hc).
Qed.

(** ** Sorting the blocks *)

Lemma insert_block_perm b l : insert_block b l ≡ₚ b :: l.
Proof.
  induction l as [|c l IH]; cbn; [reflexivity|]. destruct (_ <? _); [reflexivity|]. rewrite IH. apply Permutation_swap.
Qed.
Lemma sort_blocks_perm l : sort_blocks l ≡ₚ l.
Proof. induction l as [|b l IH]; cbn; [reflexivity|]. rewrite insert_block_perm, IH. reflexivity. Qed.

Definition by_entry (b c : DecodedBlock) : Prop := BlockEntry b < BlockEntry c.
Lemma insert_block_sorted b l : BlockEntry b ∉ BlockEntry <$> l -> StronglySorted by_entry l -> StronglySorted by_entry (insert_block b l).
Proof.
  induction l as [|c l IH]; cbn; intros Hn Hs; [repeat constructor|]. apply not_elem_of_cons in Hn as [Hne Hn].
  apply StronglySorted_inv in Hs as [Hs Hc]. unfold by_entry in *. destruct (Z.ltb_spec (BlockEntry b) (BlockEntry c)) as [Hl|Hl].
  - constructor; [constructor; assumption|]. constructor; [exact Hl|]. eapply Forall_impl; [exact Hc|]. cbn. lia.
  - constructor; [exact (IH Hn Hs)|]. rewrite insert_block_perm. constructor; [lia|exact Hc].
Qed.
Lemma sort_blocks_sorted l : NoDup (BlockEntry <$> l) -> StronglySorted by_entry (sort_blocks l).
Proof.
  induction l as [|b l IH]; cbn; intros Hd; [constructor|]. apply NoDup_cons in Hd as [Hn Hd].
  apply insert_block_sorted; [rewrite sort_blocks_perm; exact Hn|exact (IH Hd)].
Qed.

(** ** The pages of a function in the lookup cache *)

(** What [CompileCode] in [Core.cpp] makes of the reports: the ranges that are to be
    marked executable are those of pages that held no code. *)
Fixpoint add_contained_pages (l : list (Z * Z * Z)) : C (list (Z * Z)) :=
  match l with
  | [] => mret []
  | (BlockEntry, Start, Length) :: l =>
      rv ← AddBlockExecutableRange BlockEntry Start Length;
      marked ← add_contained_pages l;
      mret (if rv : bool then (Start, Length) :: marked else marked)
  end.

Lemma page_of_range a : 0 <= a < 2 ^ 64 -> page_of a = a / 4096 * 4096 /\ 0 <= page_of a /\ page_of a + 4096 <= 2 ^ 64 /\ page_of a <= a < page_of a + 4096.
Proof. intros Ha. unfold page_of. rewrite land_PAGE_MASK by exact Ha. unfold FEX_PAGE_SIZE. Z.div_mod_to_equations. lia. Qed.

Definition registered (PC : Z) (t : Thread) (q : Z) : Prop := PC ∈ default [] (CodePages t !! (q / 4096)).

Lemma add_contained_pages_ok PC l t : Forall (reported PC) l ->
  exists marked t', add_contained_pages l t = Ok (marked, t') /\
    (forall q, registered PC t q -> registered PC t' q) /\ (forall q, (PC, q, FEX_PAGE_SIZE) ∈ l -> registered PC t' q).
Proof.
  revert t. induction l as [|c l IH]; intros t Hl; [exists [], t; split; [reflexivity|]; set_solver|].
  apply Forall_cons in Hl as [(a & Ha & ->) Hl]. destruct (page_of_range a Ha) as (Eq & H1 & H2 & _).
  destruct (AddBlockExecutableRange_ok t PC (page_of a) FEX_PAGE_SIZE H1 ltac:(reflexivity) H2) as (rv & t1 & E & _ & Hin & Hout & _).
  destruct (IH t1 Hl) as (marked & t' & E' & Hk & Hr). eexists _, t'. split.
  { cbn [add_contained_pages]. rewrite (M_bind_Ok _ _ _ _ _ E), (M_bind_Ok _ _ _ _ _ E'). reflexivity. }
  assert (forall q, registered PC t q \/ q / 4096 = page_of a / 4096 -> registered PC t1 q) as H.
  { unfold registered. intros q Hq. destruct (decide (page_of a / 4096 <= q / 4096 <= (page_of a + FEX_PAGE_SIZE - 1) / 4096)) as [Hi|Hi].
    - rewrite (Hin _ Hi). cbn. apply elem_of_app. right. left.
    - rewrite (Hout _ Hi). destruct Hq as [Hq|Hq]; [exact Hq|]. exfalso. apply Hi. rewrite Hq. split; [lia|]. apply Z.div_le_mono; unfold FEX_PAGE_SIZE; lia. }
  split; [intros q Hq; apply Hk, H; left; exact Hq|].
  intros q [Hq|Hq]%elem_of_cons; [|exact (Hr q Hq)]. injection Hq as ->. apply Hk, H. right. reflexivity.
Qed.

(** ** Functions *)

Section Functions.
Variables (Is64BitMode : bool) (T : Tables) (OS_LINUX64 Multiblock : bool) (MaxInstPerBlock SectionMaxAddress : Z).
Variables (External : option (gset Z)) (fuel block_fuel : nat) (PC : Z).
Hypotheses (Hfuel : DefaultDecodedBufferSize < Z.of_nat fuel) (Hblock_fuel : DefaultDecodedBufferSize < Z.of_nat block_fuel).
Hypothesis HPC : 0 <= PC < 2 ^ 64.
Notation Decode Mem := (DecodeInstructionsAtEntry Is64BitMode T Mem OS_LINUX64 Multiblock MaxInstPerBlock SectionMaxAddress External fuel block_fuel PC).
Notation Inv Mem := (function_inv Is64BitMode T Mem OS_LINUX64 Multiblock PC SectionMaxAddress PC).

Lemma function_facts Mem Mem' r f : addressed Mem -> addressed Mem' -> Decode Mem = Ok (r, f) ->
  r = Some (sort_blocks (Blocks f)) /\ Inv Mem f /\ BlocksToDecode f = ∅ /\ (agree Mem Mem' f -> Decode Mem' = Ok (r, f)).
Proof.
  intros HM HM' E. unfold DecodeInstructionsAtEntry in *.
  pose proof (ends_decode_blocks Is64BitMode T Mem Mem' OS_LINUX64 Multiblock MaxInstPerBlock PC SectionMaxAddress PC HM HM'
    fuel block_fuel _ (function_start _ _ Mem Mem' _ _ _ _ _ HM HM' External HPC)) as H.
  destruct (decode_blocks _ _ Mem _ _ _ _ _ _ _ _ _) as [[[[]|] f0]| |] eqn:Ed; try discriminate E; injection E as <- <-;
    destruct (H _ _ Ed) as (_ & Hr & Ha); cbn [function_result] in Hr.
  - destruct Hr as [Hi Ht]. split; [reflexivity|]. split; [exact Hi|]. split; [exact Ht|]. intros Hag. rewrite (Ha Hag). reflexivity.
  - exfalso. cbn [start_function DecodedSize] in Hr. lia.
Qed.

(** C5: However many branches there are, decoding a function ends with a list of
    blocks: they are sorted and distinct, the entry point is one of them, each is
    the code at its address, instruction after instruction up to the first that ends
    it, and the targets of their direct branches within the function are blocks too. *)
Theorem DecodeInstructionsAtEntry_blocks Mem r f : addressed Mem -> Decode Mem = Ok (r, f) ->
  exists blocks, r = Some blocks /\ StronglySorted by_entry blocks /\ PC ∈ BlockEntry <$> blocks /\
    instructions blocks <= DefaultDecodedBufferSize /\
    Forall (fun b =>
      code_of Is64BitMode T Mem (AdjustAddrForSpecialRegion OS_LINUX64 (BlockEntry b)) (BlockEntry b) (DecodedInstructions b) (HasInvalidInstruction b) /\
      Forall (fun e => Forall (fun a => a ∈ BlockEntry <$> blocks) (targets Is64BitMode T Multiblock PC SectionMaxAddress e)) (DecodedInstructions b)) blocks.
Proof.
  intros HM E. destruct (function_facts Mem Mem r f HM HM E) as (-> & HI & Ht & _). exists (sort_blocks (Blocks f)).
  assert (forall a, a ∈ known f <-> a ∈ BlockEntry <$> sort_blocks (Blocks f)) as Hk.
  { intros a. unfold known. rewrite Ht, (inv_has _ _ _ _ _ _ _ _ _ HI), sort_blocks_perm. set_solver. }
  split; [reflexivity|]. split; [exact (sort_blocks_sorted _ (inv_distinct _ _ _ _ _ _ _ _ _ HI))|].
  split; [apply Hk, (inv_entry _ _ _ _ _ _ _ _ _ HI)|]. split.
  - assert (forall l l', l ≡ₚ l' -> instructions l = instructions l') as Hp by (unfold instructions; induction 1; cbn in *; lia).
    rewrite (Hp _ _ (sort_blocks_perm _)), <- (inv_size _ _ _ _ _ _ _ _ _ HI). exact (inv_buffer _ _ _ _ _ _ _ _ _ HI).
  - apply Forall_forall. intros b Hb. rewrite sort_blocks_perm in Hb.
    destruct (proj1 (Forall_forall _ _) (inv_blocks _ _ _ _ _ _ _ _ _ HI) b Hb) as [H1 H2]. split; [exact H1|].
    eapply Forall_impl; [exact H2|]. intros e He. eapply Forall_impl; [exact He|]. intros a. apply Hk.
Qed.

(** C6: Once the pages that were reported are registered in the lookup cache, the
    decoding of a function depends on no others: any memory that agrees with the
    first on the pages registered for the entry point has the same blocks. *)
Theorem DecodeInstructionsAtEntry_tracked Mem r f t : addressed Mem -> Decode Mem = Ok (r, f) ->
  exists marked t', add_contained_pages (ContainedCodePages f) t = Ok (marked, t') /\
    forall Mem', addressed Mem' -> (forall a, 0 <= a < 2 ^ 64 -> registered PC t' a -> Mem !! a = Mem' !! a) -> Decode Mem' = Ok (r, f).
Proof.
  intros HM E. destruct (function_facts Mem Mem r f HM HM E) as (_ & HI & _ & _).
  destruct (inv_pages _ _ _ _ _ _ _ _ _ HI) as (_ & Hin & Hall).
  destruct (add_contained_pages_ok PC _ t Hall) as (marked & t' & Er & _ & Hr). exists marked, t'. split; [exact Er|].
  intros Mem' HM' Hag. destruct (function_facts Mem Mem' r f HM HM' E) as (_ & _ & _ & Ha). apply Ha.
  intros a H0 Hp. apply Hag; [exact H0|]. specialize (Hr _ (Hin _ Hp)). unfold registered in *.
  destruct (page_of_range a H0) as (Eq & _). rewrite Eq, Z.div_mul in Hr by lia. exact Hr.
Qed.
End Functions.

(** ** Examples *)

(** Bytes in guest memory from an address on. *)
Definition code_at (a : Z) (l : list Z) : gmap Z Z := list_to_map (imap (fun i b => (a + Z.of_nat i, b)) l).

Lemma addressed_decide m : forallb (fun '(a, _) => (0 <=? a) && (a <? 2 ^ 64)) (map_to_list m) = true -> addressed m.
Proof.
  intros H a [b Hb]. rewrite forallb_forall in H.
  specialize (H (a, b) (proj1 (list_elem_of_In _ _) (proj2 (elem_of_map_to_list _ _ _) Hb))). cbn in H. lia.
Qed.
Lemma mapped_decide Mem p : forallb (fun i => match read_code Mem (advance p i) 1 with Some _ => true | None => false end) (seqZ 0 15) = true ->
  forall i, 0 <= i < MAX_INST_SIZE -> is_Some (read_code Mem (advance p i) 1).
Proof.
  intros H i Hi. unfold MAX_INST_SIZE in Hi. assert (i ∈ seqZ 0 15) as Hin by (apply elem_of_seqZ; lia).
  rewrite forallb_forall in H. specialize (H i (proj1 (list_elem_of_In _ _) Hin)).
  destruct (read_code _ _ _); [eauto|discriminate H].
Qed.

(** [lock add dword fs:\[ecx + edx*4 + 0x12345678\], 0x55667788] with four prefixes is as
    long as an instruction can be. *)
Definition longest : gmap Z Z := code_at 0x400000 [0x64; 0x67; 0xF0; 0x41; 0x81; 0x84; 0x91; 0x78; 0x56; 0x34; 0x12; 0x88; 0x77; 0x66; 0x55].
Lemma DecodeInstruction_total_witness :
  exists d, DecodeInstruction true T64 longest (InGuest 0x400000) 0x400000 = Ok (true, d) /\ InstSize (Inst d) = 15 /\
    Dest (Inst d) = SIB REG_RDX REG_R9 4 0x12345678 /\ SrcOperand (Inst d) 1 = Literal 4 0x55667788.
Proof.
  destruct (DecodeInstruction_total longest (InGuest 0x400000) 0x400000) as (ok & d & E & _ & _ & Hs & _).
  - apply mapped_decide. vm_compute. reflexivity.
  - vm_compute. discriminate.
  - assert (match DecodeInstruction true T64 longest (InGuest 0x400000) 0x400000 with
            | Ok (ok, d) => ok = true /\ InstructionSize d = 15 /\ Dest (Inst d) = SIB REG_RDX REG_R9 4 0x12345678 /\ SrcOperand (Inst d) 1 = Literal 4 0x55667788
            | _ => False end) as H by (vm_compute; auto).
    rewrite E in H. destruct H as (-> & H1 & H2 & H3). exists d. rewrite (Hs eq_refl). auto.
Defined.

(** One prefix more, and the last byte would be written after the buffer. *)
Lemma overlong_asserts :
  DecodeInstruction true T64 (code_at 0x400000 [0x64; 0x67; 0xF0; 0x2E; 0x41; 0xC7; 0x84; 0x91; 0x78; 0x56; 0x34; 0x12; 0x88; 0x77; 0x66; 0x55])
    (InGuest 0x400000) 0x400000 = Assert.
Proof. vm_compute. reflexivity. Qed.

(** [jz 2; inc eax; ret] at the end of a page: three blocks on two pages. *)
Definition branching : gmap Z Z := code_at 0x400FF8 ([0x74; 0x02; 0xFF; 0xC0; 0xC3] ++ replicate 40 0x90).
Definition decode_branching : outcome (option (list DecodedBlock) * FunctionState) :=
  DecodeInstructionsAtEntry true T64 branching true true 5000 0x500000 (Some ∅) 65537 65537 0x400FF8.
Definition entries (l : list DecodedBlock) : list (Z * nat) := (fun b => (BlockEntry b, length (DecodedInstructions b))) <$> l.
Definition page_reports : list (Z * Z * Z) := [(0x400FF8, 0x400000, FEX_PAGE_SIZE); (0x400FF8, 0x401000, FEX_PAGE_SIZE)].
Lemma decode_branching_runs : exists l f, decode_branching = Ok (Some l, f) /\
  entries l = [(0x400FF8, 1%nat); (0x400FFA, 2%nat); (0x400FFC, 1%nat)] /\ ContainedCodePages f = page_reports.
Proof.
  assert (match decode_branching with
          | Ok (Some l, f) => entries l = [(0x400FF8, 1%nat); (0x400FFA, 2%nat); (0x400FFC, 1%nat)] /\ ContainedCodePages f = page_reports
          | _ => False end) as H by (vm_compute; auto).
  destruct decode_branching as [[[l|] f]| |]; try contradiction. eauto.
Qed.

Lemma DecodeInstructionsAtEntry_blocks_witness : exists l f, decode_branching = Ok (Some l, f) /\
  StronglySorted by_entry l /\ 0x400FF8 ∈ BlockEntry <$> l /\ instructions l <= DefaultDecodedBufferSize.
Proof.
  destruct decode_branching_runs as (l & f & E & _).
  destruct (DecodeInstructionsAtEntry_blocks true T64 true true 5000 0x500000 (Some ∅) 65537 65537 0x400FF8
    ltac:(reflexivity) ltac:(reflexivity) ltac:(lia) branching (Some l) f) as (l' & H & H1 & H2 & H3 & _).
  - apply addressed_decide. vm_compute. reflexivity.
  - exact E.
  - injection H as <-. exists l, f. auto.
Defined.

(** A byte on another page is no part of the code. *)
Definition elsewhere : gmap Z Z := <[0x403000 := 0xCC]> branching.
Definition sample_thread : Thread := mkThread ∅ ∅ ∅ 0 ∅ ∅ ∅ ∅ ∅ 0.
Lemma DecodeInstructionsAtEntry_tracked_witness : exists l f, decode_branching = Ok (Some l, f) /\
  DecodeInstructionsAtEntry true T64 elsewhere true true 5000 0x500000 (Some ∅) 65537 65537 0x400FF8 = Ok (Some l, f).
Proof.
  destruct decode_branching_runs as (l & f & E & _ & Hp). exists l, f. split; [exact E|].
  destruct (DecodeInstructionsAtEntry_tracked true T64 true true 5000 0x500000 (Some ∅) 65537 65537 0x400FF8
    ltac:(reflexivity) ltac:(reflexivity) ltac:(lia) branching (Some l) f sample_thread) as (marked & t' & Er & H).
  - apply addressed_decide. vm_compute. reflexivity.
  - exact E.
  - rewrite Hp in Er. apply H.
    + apply addressed_decide. vm_compute. reflexivity.
    + intros a Ha Hr. unfold elsewhere. rewrite lookup_insert_ne; [reflexivity|]. intros <-.
      unfold registered in Hr. vm_compute in Er. injection Er as _ <-. vm_compute in Hr. inversion Hr.
Defined.
