(* ===== verification/LookupCacheTheorems.v ===== *)
(** * Properties of the lookup cache

    The three levels together are a finite map from guest addresses to translated
    code; invalidation forgets every block of the pages it meets and undoes the
    links to it. Two corners where the tables disagree with the map are proved
    as well. *)
From Stdlib Require Import ZArith Lia Bool.
From stdpp Require Import base gmap list numbers list_numbers option.
From S2P Require Import Prelude LookupCache LookupCacheLogic.
#[local] Open Scope Z_scope.

(** ** The specification: a finite map *)

Inductive cache_op :=
  | Find (Address : Z)
  | Add (Address Host : Z)
  | Remove (Address : Z)
  | Clear.

Definition op_address (o : cache_op) : option Z :=
  match o with Find a | Add a _ | Remove a => Some a | Clear => None end.

Definition spec_op (o : cache_op) : M (gmap Z Z) Z :=
  match o with
  | Find a => m ← get_state; mret (default 0 (m !! a))
  | Add a h => m ← get_state; _ ← check (bool_decide (m !! a = None)); _ ← modify (insert a h); mret 0
  | Remove a => _ ← modify (delete a); mret 0
  | Clear => _ ← modify (fun _ => ∅); mret 0
  end.

Fixpoint run_all {S} (run : cache_op -> M S Z) (l : list cache_op) : M S (list Z) :=
  match l with
  | [] => mret []
  | o :: l => r ← run o; rs ← run_all run l; mret (r :: rs)
  end.

Definition cache_op_run (VirtualMemSize PageMemory : Z) (o : cache_op) : C Z :=
  match o with
  | Find a => FindBlock VirtualMemSize PageMemory a
  | Add a h => _ ← AddBlockMapping a h; mret 0
  | Remove a => _ ← Erase VirtualMemSize a; mret 0
  | Clear => _ ← ClearCache; mret 0
  end.

(** What the map sees of a result. *)
Definition as_map {A} (r : outcome (A * Thread)) : outcome (A * gmap Z Z) :=
  (fun p => (p.1, BlockList p.2)) <$> r.

(** ** Concrete states *)

Definition empty_thread : Thread := mkThread ∅ ∅ ∅ 0 ∅ ∅ ∅ ∅ ∅ 0.
Definition sample_size : Z := 2 ^ 36.
Definition sample_base : Z := 0x7f0000000000.
(** A block at 0x40001000 with code on two pages; the exit at 16 is linked to it. *)
Definition sample_thread : Thread :=
  mkThread ∅ ∅ ∅ 0 {[ 0x40001000 := 0x9000 ]} {[ (0x40001000, 16) := mkDelinker 16 0x5000 ]}
    {[ 0x40001 := [0x40001000]; 0x40002 := [0x40001000] ]} {[ 0x40001000 := 7 ]}
    {[ 16 := mkExit 0x9000 0x40001000; 32 := mkExit 0x5000 0x40001000 ]} 0.

Lemma sample_layout : cache_layout sample_size sample_base.
Proof. split; [exists 36; split; [lia|reflexivity]|reflexivity|vm_compute; discriminate]. Qed.

Lemma cache_wf_empty_tables lo t : L1 t = ∅ -> PageMem t = ∅ -> 0 <= AllocateOffset t <= CODE_SIZE ->
  cache_wf sample_size lo t.
Proof.
  intros E1 E2 H. split; [| |exact H]; intros i e He; rewrite ?E1, ?E2 in He; inversion He.
Qed.

Lemma sample_links : links_ok 0x5000 sample_thread.
Proof.
  split.
  - intros k d H. cbn [BlockLinks sample_thread] in H. apply lookup_singleton_Some in H as [<- <-]. reflexivity.
  - intros r e H. cbn [Records sample_thread] in H. apply lookup_insert_Some in H as [[<- <-]|[_ H]].
    + right. split; [exists (mkDelinker 16 0x5000)|]; reflexivity.
    + apply lookup_singleton_Some in H as [<- <-]. left. reflexivity.
Qed.

Section Theorems.
Context (VirtualMemSize PageMemory : Z).

Lemma cache_op_refines lo t o : cache_layout VirtualMemSize PageMemory -> cache_wf VirtualMemSize lo t -> 0 < lo ->
  VirtualMemSize / 4096 <= lo -> (forall a, op_address o = Some a -> lo <= a) ->
  as_map (cache_op_run VirtualMemSize PageMemory o t) = spec_op o (BlockList t) /\
  forall r t', cache_op_run VirtualMemSize PageMemory o t = Ok (r, t') -> cache_wf VirtualMemSize lo t'.
Proof.
  intros HL Hwf Hlo Hsz Ha. destruct o as [a|a h|a|]; cbn [cache_op_run spec_op].
  - destruct (FindBlock_ok _ _ lo t a HL Hwf) as (t' & E & W & S); [specialize (Ha a eq_refl); lia|auto|].
    rewrite E. destruct S as [S _]. split; [|intros ? ? [= _ <-]; exact W].
    unfold as_map. cbn. rewrite S. reflexivity.
  - destruct (BlockList t !! a) as [h'|] eqn:E.
    + unfold mbind, M_bind. rewrite (AddBlockMapping_duplicate _ _ _ _ E). split; [|discriminate].
      unfold get_state. rewrite bool_decide_eq_false_2 by congruence. reflexivity.
    + destruct (AddBlockMapping_ok _ lo t a h Hwf E) as (t' & Et & W & S & _).
      rewrite (M_bind_Ok _ _ _ _ _ Et). split; [|intros ? ? [= _ <-]; exact W].
      unfold mbind, M_bind, get_state. rewrite bool_decide_eq_true_2 by exact E.
      unfold as_map. cbn. rewrite S. reflexivity.
  - destruct (Erase_ok _ PageMemory lo t a HL Hwf Hlo) as (t' & E & W & _ & Er).
    rewrite (M_bind_Ok _ _ _ _ _ E). split; [|intros ? ? [= _ <-]; exact W].
    unfold as_map. cbn. rewrite (erased_BlockList _ _ _ _ (Er 0)). reflexivity.
  - destruct (ClearCache_ok VirtualMemSize lo t) as (t' & E & W & B & _).
    rewrite (M_bind_Ok _ _ _ _ _ E). split; [|intros ? ? [= _ <-]; exact W].
    unfold as_map. cbn. rewrite B. reflexivity.
Qed.

(** C10: Over every sequence of lookups, insertions, removals and clears the
    cache answers as one finite map would, and stops at a duplicate insertion
    exactly when the map would: for guest addresses above the number of pages of
    the guest address space, whatever the tables hold, including when the
    backing of L2 runs out. *)
Theorem LookupCache_refines_map lo t (ops : list cache_op) :
  cache_layout VirtualMemSize PageMemory -> cache_wf VirtualMemSize lo t -> 0 < lo -> VirtualMemSize / 4096 <= lo ->
  (forall o a, o ∈ ops -> op_address o = Some a -> lo <= a) ->
  as_map (run_all (cache_op_run VirtualMemSize PageMemory) ops t) = run_all spec_op ops (BlockList t).
Proof.
  intros HL Hwf Hlo Hsz. revert t Hwf. induction ops as [|o ops IH]; intros t Hwf Ha; [reflexivity|].
  destruct (cache_op_refines lo t o HL Hwf Hlo Hsz) as [E W].
  { intros a. apply Ha, elem_of_cons. auto. }
  cbn [run_all]. unfold mbind, M_bind. rewrite <- E.
  destruct (cache_op_run VirtualMemSize PageMemory o t) as [[r t']| |]; [|reflexivity|reflexivity].
  cbn [as_map fmap outcome_fmap fst snd]. rewrite <- IH; [|apply (W r t' eq_refl)|].
  2: { intros o' a Hin. apply Ha, elem_of_cons. auto. }
  destruct (run_all _ ops t') as [[rs t'']| |]; reflexivity.
Qed.
End Theorems.

Lemma LookupCache_refines_map_witness :
  let ops := [Add 0x40001000 5; Find 0x40001000; Find 0x40001008; Remove 0x40001000; Find 0x40001000;
              Add 0x40001000 6; Clear; Add 0x40101000 8; Find 0x40001000; Find 0x40101000] in
  as_map (run_all (cache_op_run sample_size sample_base) ops empty_thread) = run_all spec_op ops ∅.
Proof.
  intros ops. apply (LookupCache_refines_map sample_size sample_base (2 ^ 24) empty_thread ops).
  - apply sample_layout.
  - apply cache_wf_empty_tables; [reflexivity|reflexivity|vm_compute; split; discriminate].
  - lia.
  - vm_compute; discriminate.
  - intros o a Ho. unfold ops in Ho. repeat (apply elem_of_cons in Ho as [->|Ho]; [cbn; intros [= <-]; lia || discriminate|]).
    apply elem_of_nil in Ho. destruct Ho.
Defined.

(** ** Invalidation *)

Section Invalidation.
Context (VirtualMemSize PageMemory : Z).

(** After the invalidation of a range, no block that was registered on a
    page of the range can be found, its debug data is gone and no block exit
    jumps to it; every other block and page is as before. *)
Theorem InvalidateGuestThreadCodeRange_forgets lo t Start Length Linker :
  cache_layout VirtualMemSize PageMemory -> cache_wf VirtualMemSize lo t -> 0 < lo -> links_ok Linker t ->
  0 <= Start -> 0 < Length -> Start + Length <= 2 ^ 64 ->
  let inside p := Start / 4096 <= p <= (Start + Length - 1) / 4096 in
  exists t', InvalidateGuestThreadCodeRange VirtualMemSize Start Length t = Ok (tt, t') /\
  cache_wf VirtualMemSize lo t' /\ links_ok Linker t' /\
  (forall a, on_pages t inside a ->
  (lo <= a -> FindBlock VirtualMemSize PageMemory a t' = Ok (0, t')) /\
  DebugStore t' !! a = None /\
  forall r e, Records t' !! r = Some e -> GuestRip e = a -> Target e = Linker) /\
  (forall a, ~ on_pages t inside a -> BlockList t' !! a = BlockList t !! a /\ DebugStore t' !! a = DebugStore t !! a) /\
  (forall p, inside p -> default [] (CodePages t' !! p) = []) /\
  (forall p, ~ inside p -> CodePages t' !! p = CodePages t !! p).
Proof.
  intros HL Hwf Hlo Hk H0 H1 H2 inside.
  destruct (InvalidateGuestThreadCodeRange_ok _ _ lo t Start Length HL Hwf Hlo H0 H1 H2)
    as (t' & E & W & F & In & Out).
  pose proof (forgot_links _ _ _ F _ Hk) as Hk'.
  exists t'. split; [exact E|]. split; [exact W|]. split; [exact Hk'|].
  split; [|split; [apply (forgot_out _ _ _ F)|split; assumption]].
  intros a Ha. destruct (forgot_in _ _ _ F a Ha) as [B D]. split; [|split; [exact D|]].
  - intros Hle. apply (FindBlock_None _ _ lo); try assumption; lia.
  - intros r e. apply (links_ok_gone Linker t' a r e Hk' B).
Qed.

(** A block whose pages were registered with [AddBlockExecutableRange]
    is not found after an invalidation of any range that shares a page with its
    own, and registering code on the pages of the range again reports new pages,
    so that they are guarded again. *)
Theorem AddBlockExecutableRange_Invalidate lo t A Start Length Start' Length' :
  cache_layout VirtualMemSize PageMemory -> cache_wf VirtualMemSize lo t -> 0 < lo -> lo <= A ->
  0 <= Start -> 0 < Length -> Start + Length <= 2 ^ 64 ->
  0 <= Start' -> 0 < Length' -> Start' + Length' <= 2 ^ 64 ->
  Start / 4096 <= (Start' + Length' - 1) / 4096 -> Start' / 4096 <= (Start + Length - 1) / 4096 ->
  exists rv t', (_ ← AddBlockExecutableRange A Start Length;
       _ ← InvalidateGuestThreadCodeRange VirtualMemSize Start' Length';
       h ← FindBlock VirtualMemSize PageMemory A;
       rv ← AddBlockExecutableRange A Start Length;
       mret (h, rv)) t = Ok ((0, rv), t') /\ rv = true.
Proof.
  intros HL Hwf Hlo HA H0 H1 H2 H0' H1' H2' Hov Hov'.
  destruct (AddBlockExecutableRange_ok t A Start Length H0 H1 H2) as (rv1 & t1 & E1 & _ & In1 & _ & Et1).
  assert (cache_wf VirtualMemSize lo t1) as W1 by (rewrite Et1; apply (cache_wf_transport _ lo t); auto).
  destruct (InvalidateGuestThreadCodeRange_ok _ _ lo t1 Start' Length' HL W1 Hlo H0' H1' H2')
    as (t2 & E2 & W2 & F2 & In2 & _).
  (* a shared page *)
  set (p := Z.max (Start / 4096) (Start' / 4096)).
  assert (Start / 4096 <= (Start + Length - 1) / 4096) by (apply Z.div_le_mono; lia).
  assert (Start' / 4096 <= (Start' + Length' - 1) / 4096) by (apply Z.div_le_mono; lia).
  assert (Start / 4096 <= p <= (Start + Length - 1) / 4096) as Hp1 by lia.
  assert (Start' / 4096 <= p <= (Start' + Length' - 1) / 4096) as Hp2 by lia.
  assert (BlockList t2 !! A = None) as B2.
  { apply (forgot_in _ _ _ F2 A). exists p. split; [exact Hp2|]. rewrite In1 by exact Hp1.
    apply elem_of_app. right. apply list_elem_of_singleton. reflexivity. }
  pose proof (FindBlock_None VirtualMemSize PageMemory lo t2 A HL W2 ltac:(lia) B2) as E3.
  destruct (AddBlockExecutableRange_ok t2 A Start Length H0 H1 H2) as (rv & t4 & E4 & R4 & _).
  exists rv, t4. rewrite (M_bind_Ok _ _ _ _ _ E1), (M_bind_Ok _ _ _ _ _ E2), (M_bind_Ok _ _ _ _ _ E3), (M_bind_Ok _ _ _ _ _ E4).
  split; [reflexivity|]. apply R4. exists p. split; [exact Hp1|]. apply In2, Hp2.
Qed.

(** [ExitFunctionLink] returns the translation of the exit's destination and
    makes the exit jump to it, or leaves the exit alone and returns to the
    dispatcher at the destination; every exit still jumps to the linker or to
    the current translation of its destination. *)
Theorem ExitFunctionLink_links lo t Linker Top record e :
  cache_layout VirtualMemSize PageMemory -> cache_wf VirtualMemSize lo t -> 0 < lo -> links_ok Linker t ->
  Records t !! record = Some e -> lo <= GuestRip e ->
  has_backing VirtualMemSize t (GuestRip e) \/ VirtualMemSize / 4096 <= lo ->
  let h := default 0 (BlockList t !! GuestRip e) in
  exists t', ExitFunctionLink VirtualMemSize PageMemory Linker Top record t = Ok (if h =? 0 then Top else h, t') /\
  cache_wf VirtualMemSize lo t' /\ links_ok Linker t' /\ BlockList t' = BlockList t /\
  (if h =? 0 then rip t' = GuestRip e /\ Records t' = Records t
  else rip t' = rip t /\ Records t' = <[record := mkExit h (GuestRip e)]> (Records t)).
Proof.
  intros HL Hwf Hlo Hk Hr Hg Hor h. unfold ExitFunctionLink.
  unfold mbind at 1, M_bind at 1, get_state at 1. rewrite Hr. cbn [deref].
  unfold mbind at 1, M_bind at 1, lift at 1.
  destruct (FindBlock_ok _ _ lo t _ HL Hwf (conj Hlo Hg) Hor) as (t1 & E & W & (S1 & S2 & S3 & S4 & S5 & S6)).
  rewrite (M_bind_Ok _ _ _ _ _ E). fold h.
  assert (links_ok Linker t1) as Hk1 by (apply (links_ok_transport Linker t); assumption).
  destruct (Z.eqb_spec h 0) as [H0|H0].
  - eexists. split; [reflexivity|]. split; [apply (cache_wf_transport _ lo t1); auto|].
    split; [apply (links_ok_transport Linker t1); auto|]. split; [exact S1|]. split; [reflexivity|exact S5].
  - eexists. split; [reflexivity|].
    match goal with |- cache_wf _ _ ?t' /\ _ => set (t2 := t') end.
    assert (L1 t2 = L1 t1 /\ PagePointers t2 = PagePointers t1 /\ PageMem t2 = PageMem t1 /\
      AllocateOffset t2 = AllocateOffset t1 /\ BlockList t2 = BlockList t1 /\ rip t2 = rip t1 /\
      Records t2 = <[record := mkExit h (GuestRip e)]> (Records t1) /\
      BlockLinks t2 = match BlockLinks t1 !! (GuestRip e, record) with
      | Some _ => BlockLinks t1
      | None => <[(GuestRip e, record) := mkDelinker record Linker]> (BlockLinks t1) end)
      as (T1 & T2 & T3 & T4 & T5 & T6 & T7 & T8).
    { unfold t2. destruct (BlockLinks t1 !! (GuestRip e, record)); cbn; repeat split;
        rewrite (alter_as_insert _ _ _ e) by (rewrite S5; exact Hr); reflexivity. }
    split; [apply (cache_wf_transport _ lo t1); assumption|].
    split; [apply (links_ok_link Linker t1 t2 record (GuestRip e) h); auto; rewrite S1; unfold h;
      destruct (BlockList t !! GuestRip e); [reflexivity|contradiction H0; reflexivity]|].
    rewrite T5, T6, T7, S1, S5, S6. auto.
Qed.
End Invalidation.

Lemma sample_wf : cache_wf sample_size (2 ^ 24) sample_thread.
Proof. apply cache_wf_empty_tables; [reflexivity|reflexivity|vm_compute; split; discriminate]. Qed.

Lemma InvalidateGuestThreadCodeRange_forgets_witness :
  exists t', InvalidateGuestThreadCodeRange sample_size 0x40002010 8 sample_thread = Ok (tt, t') /\
    FindBlock sample_size sample_base 0x40001000 t' = Ok (0, t') /\ links_ok 0x5000 t'.
Proof.
  destruct (InvalidateGuestThreadCodeRange_forgets sample_size sample_base (2 ^ 24) sample_thread 0x40002010 8 0x5000
    sample_layout sample_wf ltac:(lia) sample_links ltac:(lia) ltac:(lia) ltac:(lia)) as (t' & E & _ & K & H & _).
  exists t'. split; [exact E|]. split; [|exact K]. apply H.
  - exists 0x40002. split; [vm_compute; split; discriminate|]. apply elem_of_cons. auto.
  - vm_compute. discriminate.
Defined.

Lemma AddBlockExecutableRange_Invalidate_witness :
  exists t', (_ ← AddBlockExecutableRange 0x40003ff0 0x40003ff0 0x20;
              _ ← InvalidateGuestThreadCodeRange sample_size 0x40004f00 1;
              h ← FindBlock sample_size sample_base 0x40003ff0;
              rv ← AddBlockExecutableRange 0x40003ff0 0x40003ff0 0x20;
              mret (h, rv)) sample_thread = Ok ((0, true), t').
Proof.
  destruct (AddBlockExecutableRange_Invalidate sample_size sample_base (2 ^ 24) sample_thread
    0x40003ff0 0x40003ff0 0x20 0x40004f00 1 sample_layout sample_wf eq_refl ltac:(discriminate) ltac:(discriminate) eq_refl ltac:(discriminate)
    ltac:(discriminate) eq_refl ltac:(discriminate) ltac:(discriminate) ltac:(discriminate)) as (rv & t' & E & ->).
  exists t'. exact E.
Defined.

Lemma ExitFunctionLink_links_witness :
  exists t', ExitFunctionLink sample_size sample_base 0x5000 0x6000 32 sample_thread = Ok (0x9000, t') /\
    Records t' !! 32 = Some (mkExit 0x9000 0x40001000) /\ links_ok 0x5000 t'.
Proof.
  destruct (ExitFunctionLink_links sample_size sample_base (2 ^ 24) sample_thread 0x5000 0x6000 32
    (mkExit 0x5000 0x40001000) sample_layout sample_wf ltac:(lia) sample_links eq_refl ltac:(cbn; lia)
    ltac:(right; vm_compute; discriminate)) as (t' & E & _ & K & _ & H).
  exists t'. split; [exact E|]. split; [|exact K]. destruct H as [_ ->]. apply lookup_insert_eq.
Defined.

(** ** Pages that hold code *)

(** [AddBlockExecutableRange] appends the block to every page of the range
    and to no other, and reports whether one of them held no code. *)
Lemma AddBlockExecutableRange_pages t A Start Length :
  0 <= Start -> 0 < Length -> Start + Length <= 2 ^ 64 ->
  let inside p := Start / 4096 <= p <= (Start + Length - 1) / 4096 in
  exists rv t', AddBlockExecutableRange A Start Length t = Ok (rv, t') /\
    (rv = true <-> exists p, inside p /\ default [] (CodePages t !! p) = []) /\
    (forall p, inside p -> CodePages t' !! p = Some (default [] (CodePages t !! p) ++ [A])) /\
    (forall p, ~ inside p -> CodePages t' !! p = CodePages t !! p) /\
    t' = set_CodePages (CodePages t') t.
Proof. apply AddBlockExecutableRange_ok. Qed.

(** ** Where the tables disagree with the map *)

Section Corners.
Context (VirtualMemSize PageMemory : Z).

(** When L2 has no backing left for the page of a block that is found in L3,
    the retry of [CacheBlockMapping] enters the host code under the index of the
    page: the lookup of that number as an address returns the block, whether or
    not it has a translation of its own. *)
Theorem FindBlock_out_of_backing t A h :
  cache_layout VirtualMemSize PageMemory -> 0 <= AllocateOffset t <= CODE_SIZE ->
  ~ has_backing VirtualMemSize t A -> GuestCode (entry_at (L1 t) (L1_index A)) <> A ->
  BlockList t !! A = Some h ->
  exists t1 t2, FindBlock VirtualMemSize PageMemory A t = Ok (h, t1) /\ BlockList t1 = BlockList t /\
  FindBlock VirtualMemSize PageMemory (page_index VirtualMemSize A) t1 = Ok (h, t2).
Proof.
  intros HL Ho Hn H1 Hb. assert (page_pointer t (page_index VirtualMemSize A) = 0) as Hp.
  { unfold has_backing in Hn. destruct (Z.eq_dec (page_pointer t (page_index VirtualMemSize A)) 0); tauto. }
  set (t0 := set_L2 ∅ ∅ 0 (set_L1 (<[L1_index A := mkEntry h A]> (L1 t)) t)).
  destruct (CacheBlockMapping_L1 VirtualMemSize PageMemory 0 t0 (page_index VirtualMemSize A) h HL)
    as (t1 & E & B & HL1); [right; reflexivity|cbn; unfold CODE_SIZE; lia|].
  exists t1, t1. split; [|split; [exact B|]].
  - unfold FindBlock, mbind, M_bind, get_state, mret, M_ret.
    destruct (Z.eqb_spec (GuestCode (entry_at (L1 t) (L1_index A))) A) as [?|_]; [contradiction|].
    rewrite Hp. cbn [Z.eqb negb andb]. rewrite Hb. unfold retry_fuel.
    rewrite CacheBlockMapping_full by assumption. fold t0. rewrite E. reflexivity.
  - unfold FindBlock, mbind, M_bind, get_state, mret, M_ret. unfold entry_at. rewrite HL1.
    cbn [default GuestCode HostCode]. rewrite Z.eqb_refl. reflexivity.
Qed.

(** [Erase] clears only the guest half of an L1 entry, and zero is the tag of
    an empty one: after a block whose L1 index is zero was added and erased, the
    lookup of address zero returns its host code. *)
Theorem FindBlock_null_after_Erase t A h : BlockList t !! A = None -> L1_index A = 0 ->
  exists t', (_ ← AddBlockMapping A h; _ ← Erase VirtualMemSize A; FindBlock VirtualMemSize PageMemory 0) t = Ok (h, t').
Proof.
  intros Hn H0.
  assert (exists t1, AddBlockMapping A h t = Ok (tt, t1) /\ L1 t1 !! 0 = Some (mkEntry h A)) as (t1 & E1 & L).
  { unfold AddBlockMapping, mbind, M_bind, get_state, modify. rewrite Hn.
    rewrite bool_decide_eq_false_2 by (intros [? ?]; discriminate). cbn [negb check throw_unless lift].
    eexists. split; [reflexivity|]. cbn [L1 set_L1]. rewrite H0. apply lookup_insert_eq. }
  rewrite (M_bind_Ok _ _ _ _ _ E1). unfold Erase, mbind, M_bind, modify.
  set (t2 := foldl (sever A) t1 _). set (t3 := set_BlockList _ t2).
  assert (L1 t3 !! 0 = Some (mkEntry h A)) as L3.
  { destruct (sever_all_frame A (links_to t1 A) t1) as [F _]. cbn. fold t2 in F. rewrite F. exact L. }
  eexists. unfold FindBlock, mbind, M_bind, get_state, mret, M_ret.
  set (t4 := erase_L2 _ _ _).
  assert (L1 t4 !! 0 = Some (mkEntry h 0)) as L4.
  { unfold t4, erase_L2, erase_L1, entry_at. rewrite H0, L3. cbn [default GuestCode HostCode]. rewrite Z.eqb_refl.
    destruct (_ =? 0); cbn [L1 set_L1 set_L2]; apply lookup_insert_eq. }
  change (L1_index 0) with 0. unfold entry_at at 1 2. rewrite L4. reflexivity.
Qed.
End Corners.

(** The region is full, and the block is in L3 only. *)
Definition full_thread : Thread :=
  mkThread ∅ ∅ ∅ (CODE_SIZE - SIZE_PER_PAGE) {[ 0x40001000 := 0x9000 ]} ∅ ∅ ∅ ∅ 0.

Lemma FindBlock_out_of_backing_witness :
  exists t1 t2, FindBlock sample_size sample_base 0x40001000 full_thread = Ok (0x9000, t1) /\
    BlockList t1 !! 0x40001 = None /\ FindBlock sample_size sample_base 0x40001 t1 = Ok (0x9000, t2).
Proof.
  destruct (FindBlock_out_of_backing sample_size sample_base full_thread 0x40001000 0x9000 sample_layout
    ltac:(vm_compute; split; discriminate) ltac:(vm_compute; intros [H|H]; [apply H; reflexivity|discriminate])
    ltac:(discriminate) eq_refl) as (t1 & t2 & E1 & B & E2).
  exists t1, t2. split; [exact E1|]. split; [rewrite B; reflexivity|exact E2].
Defined.

Lemma FindBlock_null_after_Erase_witness :
  exists t', (_ ← AddBlockMapping 0x40000000 0x9000; _ ← Erase sample_size 0x40000000;
              FindBlock sample_size sample_base 0) empty_thread = Ok (0x9000, t').
Proof. apply (FindBlock_null_after_Erase sample_size sample_base empty_thread 0x40000000 0x9000 eq_refl eq_refl). Defined.
