(* ===== verification/SMCInvalidation.v ===== *)
(** * From a write fault to the translated code of every thread

    [SyscallHandler] asks for the invalidation of guest code, the context runs it
    on the lookup cache of every thread: the two components composed. *)
From Stdlib Require Import ZArith Lia Bool.
From stdpp Require Import base gmap list numbers list_numbers option.
From S2P Require Import Prelude Pages VMATracking VMALists VMAClear VMAChange VMATheorems SMCTracking SMCLogic SMCTheorems LookupCache LookupCacheLogic.
#[local] Open Scope Z_scope.

(** Guest mappings end below the last page of the address space. *)
Definition user_space (m : gmap Z VMAEntry) : Prop :=
  forall k e, m !! k = Some e -> k + Length e + FEX_PAGE_SIZE <= 2 ^ 64.

Section Compose.
Context (VirtualMemSize PageMemory lo Linker : Z).
Hypothesis layout : cache_layout VirtualMemSize PageMemory.
Hypothesis lo_pos : 0 < lo.

(** The context's side of what the system-call layer logged, in order. *)
Fixpoint run_invalidations (es : list Event) (Threads : list Thread) : outcome (list Thread) :=
  match es with
  | [] => mret Threads
  | Invalidated Start Length :: es =>
  ts ← InvalidateGuestCodeRangeInternal VirtualMemSize Threads Start Length;
  run_invalidations es ts
  | Protected _ _ _ :: es => run_invalidations es Threads
  end.

Definition thread_ok (t : Thread) : Prop := cache_wf VirtualMemSize lo t /\ links_ok Linker t.

(** No lookup finds a block of address [a], and no exit jumps to one. *)
Definition discarded (a : Z) (t : Thread) : Prop :=
  (lo <= a -> FindBlock VirtualMemSize PageMemory a t = Ok (0, t)) /\
  forall r e, Records t !! r = Some e -> GuestRip e = a -> Target e = Linker.

Lemma discarded_None t a : thread_ok t -> BlockList t !! a = None -> discarded a t.
Proof.
  intros [W K] Hn. split.
  - intros Hle. apply (FindBlock_None _ _ lo); auto.
  - intros r e. apply (links_ok_gone Linker t a r e K Hn).
Qed.

(** One thread, one range: what was forgotten stays forgotten, and a page of the
    range loses its blocks. *)
Definition step_of (Start Length : Z) (t t' : Thread) : Prop :=
  thread_ok t' /\ (forall a, BlockList t !! a = None -> BlockList t' !! a = None) /\
  forall p a, a ∈ default [] (CodePages t !! p) ->
  (Start / 4096 <= p <= (Start + Length - 1) / 4096 -> BlockList t' !! a = None) /\
  (BlockList t' !! a = None \/ a ∈ default [] (CodePages t' !! p)).

Lemma invalidate_step t Start Length : thread_ok t -> 0 <= Start -> 0 < Length -> Start + Length <= 2 ^ 64 ->
  exists t', InvalidateGuestThreadCodeRange VirtualMemSize Start Length t = Ok (tt, t') /\ step_of Start Length t t'.
Proof.
  intros [W K] H0 H1 H2.
  destruct (InvalidateGuestThreadCodeRange_ok _ _ lo t Start Length layout W lo_pos H0 H1 H2) as (t' & E & W' & F & _ & Out).
  exists t'. split; [exact E|]. split; [split; [exact W'|apply (forgot_links _ _ _ F), K]|].
  split; [apply (forgot_none _ _ _ F)|]. intros p a Ha.
  assert (Start / 4096 <= p <= (Start + Length - 1) / 4096 -> BlockList t' !! a = None) as Hin.
  { intros Hp. apply (forgot_in _ _ _ F a). exists p. auto. }
  split; [exact Hin|].
  destruct (decide (Start / 4096 <= p <= (Start + Length - 1) / 4096)) as [Hp|Hp]; [auto|].
  right. rewrite Out by exact Hp. exact Ha.
Qed.

Lemma invalidate_all_step ts Start Length : Forall thread_ok ts -> 0 <= Start -> 0 < Length -> Start + Length <= 2 ^ 64 ->
  exists ts', InvalidateGuestCodeRangeInternal VirtualMemSize ts Start Length = Ok ts' /\
  Forall2 (step_of Start Length) ts ts'.
Proof.
  intros Hts H0 H1 H2. induction Hts as [|t ts Ht Hts IH]; [exists []; split; [reflexivity|constructor]|].
  destruct (invalidate_step t Start Length Ht H0 H1 H2) as (t' & E & S). destruct IH as (ts' & Es & Ss).
  exists (t' :: ts'). cbn [InvalidateGuestCodeRangeInternal]. rewrite E. cbn [mbind outcome_bind]. rewrite Es.
  split; [reflexivity|]. constructor; assumption.
Qed.

(** The effect of a whole log. *)
Definition steps_of (es : list Event) (t t' : Thread) : Prop :=
  thread_ok t' /\ (forall a, BlockList t !! a = None -> BlockList t' !! a = None) /\
  forall p a, a ∈ default [] (CodePages t !! p) ->
  ((exists s l, Invalidated s l ∈ es /\ s / 4096 <= p <= (s + l - 1) / 4096) -> BlockList t' !! a = None) /\
  (BlockList t' !! a = None \/ a ∈ default [] (CodePages t' !! p)).

Lemma steps_nil t : thread_ok t -> steps_of [] t t.
Proof.
  intros Ht. split; [exact Ht|]. split; [auto|]. intros p a Ha. split; [|auto].
  intros (s & l & Hin & _). apply elem_of_nil in Hin. destruct Hin.
Qed.

Lemma steps_cons s l es t t1 t2 : step_of s l t t1 -> steps_of es t1 t2 -> steps_of (Invalidated s l :: es) t t2.
Proof.
  intros (O1 & N1 & P1) (O2 & N2 & P2). split; [exact O2|]. split; [auto|]. intros p a Ha.
  destruct (P1 p a Ha) as [I1 [G1|L1]]; [split; auto|]. destruct (P2 p a L1) as [I2 R2]. split; [|exact R2].
  intros (s' & l' & Hin & Hp). apply elem_of_cons in Hin as [[= -> ->]|Hin]; [auto|]. apply I2. eauto.
Qed.

Lemma steps_skip s l p es t t' : steps_of es t t' -> steps_of (Protected s l p :: es) t t'.
Proof.
  intros (O & N & P). split; [exact O|]. split; [exact N|]. intros q a Ha. destruct (P q a Ha) as [I R].
  split; [|exact R]. intros (s' & l' & Hin & Hq). apply elem_of_cons in Hin as [?|Hin]; [discriminate|]. apply I. eauto.
Qed.

Definition in_range (ev : Event) : Prop :=
  match ev with Invalidated s l => 0 <= s /\ 0 < l /\ s + l <= 2 ^ 64 | Protected _ _ _ => True end.

Lemma Forall2_compose {A} (P Q R : A -> A -> Prop) l1 l2 l3 :
  (forall x y z, P x y -> Q y z -> R x z) -> Forall2 P l1 l2 -> Forall2 Q l2 l3 -> Forall2 R l1 l3.
Proof.
  intros H H1. revert l3. induction H1; intros l3 H2; inversion H2; subst; constructor; eauto.
Qed.

Lemma run_invalidations_steps es ts : Forall thread_ok ts -> Forall in_range es ->
  exists ts', run_invalidations es ts = Ok ts' /\ Forall2 (steps_of es) ts ts'.
Proof.
  intros Hts Hes. revert ts Hts. induction Hes as [|ev es Hev Hes IH]; intros ts Hts.
  - exists ts. split; [reflexivity|]. induction Hts; constructor; auto using steps_nil.
  - destruct ev as [s l|s l p]; cbn [run_invalidations].
    + destruct Hev as (H0 & H1 & H2). destruct (invalidate_all_step ts s l Hts H0 H1 H2) as (ts1 & E1 & S1).
      destruct (IH ts1) as (ts2 & E2 & S2).
      { clear -S1. induction S1 as [|t t' ts ts' S]; constructor; [apply S|assumption]. }
      exists ts2. rewrite E1. split; [exact E2|].
      eapply Forall2_compose; [|exact S1|exact S2]. intros; eapply steps_cons; eassumption.
    + destruct (IH ts Hts) as (ts' & E & S). exists ts'. split; [exact E|].
      eapply Forall2_impl; [|exact S]. intros; apply steps_skip; assumption.
Qed.

Lemma HandleSegfault_events mprotect_ok h FaultAddress r off pr :
  (forall a l p, mprotect_ok a l p = true) ->
  wf (Tracking h) -> regular (VMAs (Tracking h)) -> user_space (VMAs (Tracking h)) ->
  view (Tracking h) FaultAddress = Some (Some r, off, true, pr) -> Writable pr = true ->
  exists new, HandleSegfault mprotect_ok FaultAddress h = Ok (true, add_events new h) /\ Forall in_range new /\
  forall a fl p, view (Tracking h) a = Some (Some r, off - FaultAddress mod FEX_PAGE_SIZE, fl, p) ->
  Invalidated a FEX_PAGE_SIZE ∈ new.
Proof.
  intros Hok Hw Hreg Hus Hv Hpr.
  destruct (HandleSegfault_mirrors mprotect_ok h FaultAddress r off pr Hok Hw Hreg Hv Hpr) as (new & E & Hnew).
  exists new. split; [exact E|]. split.
  - apply List.Forall_forall. intros ev Hin. apply list_elem_of_In, Hnew in Hin.
    destruct Hin as (a & fl & p & Hva & [->|[_ ->]]); [|exact I].
    destruct Hw as [L Hw]. destruct (view_entry _ _ _ _ _ _ (wf_vmas _ _ Hw) Hreg Hva) as (k & e & Hk & Ha & _).
    pose proof (Hus k e Hk). destruct (ok_entry _ (wf_vmas _ _ Hw) k e Hk) as (_ & ? & _ & _).
    unfold FEX_PAGE_SIZE in *. cbn. lia.
  - intros a fl p Hva. apply Hnew. exists a, fl, p. auto.
Qed.

(** C11: A write fault on a page of a writable shared mapping discards, in every
    thread, every block with code on any page at which the same page of the same
    resource is mapped: no lookup finds it and no linked exit jumps to it. *)
Theorem HandleSegfault_discards_code mprotect_ok h FaultAddress r off pr Threads :
  (forall a l p, mprotect_ok a l p = true) ->
  wf (Tracking h) -> regular (VMAs (Tracking h)) -> user_space (VMAs (Tracking h)) ->
  view (Tracking h) FaultAddress = Some (Some r, off, true, pr) -> Writable pr = true ->
  Forall thread_ok Threads ->
  exists new Threads', HandleSegfault mprotect_ok FaultAddress h = Ok (true, add_events new h) /\
  run_invalidations new Threads = Ok Threads' /\
  Forall2 (fun t t' => thread_ok t' /\
  forall a fl p A, view (Tracking h) a = Some (Some r, off - FaultAddress mod FEX_PAGE_SIZE, fl, p) ->
  A ∈ default [] (CodePages t !! (a / FEX_PAGE_SIZE)) -> discarded A t') Threads Threads'.
Proof.
  intros Hok Hw Hreg Hus Hv Hpr Hts.
  destruct (HandleSegfault_events mprotect_ok h FaultAddress r off pr Hok Hw Hreg Hus Hv Hpr) as (new & E & Hin & Hall).
  destruct (run_invalidations_steps new Threads Hts Hin) as (Threads' & E' & S).
  exists new, Threads'. split; [exact E|]. split; [exact E'|].
  eapply Forall2_impl; [|exact S]. intros t t' (O & _ & P). split; [exact O|].
  intros a fl p A Hva HA. apply discarded_None; [exact O|]. apply (P _ _ HA).
  exists a, FEX_PAGE_SIZE. split; [apply (Hall a fl p Hva)|]. unfold FEX_PAGE_SIZE.
  split; [lia|]. apply Z.div_le_mono; lia.
Qed.
End Compose.

(** An example: the pages of [file] mapped twice, a thread with a block on each
    mirror and a block exit linked to the first. *)
Definition code_thread : Thread :=
  mkThread ∅ ∅ ∅ 0 {[ 0x2010 := 0x9000; 0x10020 := 0x9100 ]} {[ (0x2010, 16) := mkDelinker 16 0x5000 ]}
    {[ 2 := [0x2010]; 16 := [0x10020] ]} ∅ {[ 16 := mkExit 0x9000 0x2010 ]} 0.

Lemma code_thread_ok : thread_ok (2 ^ 36) 1 0x5000 code_thread.
Proof.
  split; [split|split].
  - intros i e H. inversion H.
  - intros i e H. inversion H.
  - vm_compute. split; discriminate.
  - intros k d H. cbn [BlockLinks code_thread] in H. apply lookup_singleton_Some in H as [<- <-]. reflexivity.
  - intros r e H. cbn [Records code_thread] in H. apply lookup_singleton_Some in H as [<- <-]. right.
    split; [exists (mkDelinker 16 0x5000)|]; reflexivity.
Qed.

Lemma mirrored_user_space : user_space (VMAs mirrored).
Proof.
  let l := eval vm_compute in (map_to_list (VMAs mirrored)) in
    refine (all_entries (fun k e => k + Length e + FEX_PAGE_SIZE <= 2 ^ 64) _ l _ _); [vm_compute; reflexivity|].
  repeat (apply Forall_cons; [vm_compute; discriminate|]). constructor.
Qed.

Lemma HandleSegfault_discards_code_witness :
  exists new t', HandleSegfault mprotect_works 0x2234 (handler mirrored) = Ok (true, add_events new (handler mirrored)) /\
    run_invalidations (2 ^ 36) new [code_thread] = Ok [t'] /\
    discarded (2 ^ 36) 0x7f0000000000 1 0x5000 0x2010 t' /\ discarded (2 ^ 36) 0x7f0000000000 1 0x5000 0x10020 t'.
Proof.
  destruct (HandleSegfault_discards_code (2 ^ 36) 0x7f0000000000 1 0x5000) with
    (mprotect_ok := mprotect_works) (h := handler mirrored) (FaultAddress := 0x2234) (r := file) (off := 0x9234) (pr := 3)
    (Threads := [code_thread]) as (new & ts & E & R & F).
  - split; [exists 36; split; [lia|reflexivity]|reflexivity|vm_compute; discriminate].
  - lia.
  - reflexivity.
  - exact mirrored_wf.
  - exact mirrored_regular.
  - exact mirrored_user_space.
  - vm_compute. reflexivity.
  - reflexivity.
  - constructor; [exact code_thread_ok|constructor].
  - inversion F as [|? t' ? l' [_ D] F']; subst. inversion F'; subst.
    exists new, t'. split; [exact E|]. split; [exact R|]. split.
    + apply (D 0x2000 true 3); [vm_compute; reflexivity|]. apply elem_of_cons. auto.
    + apply (D 0x10000 true 1); [vm_compute; reflexivity|]. apply elem_of_cons. auto.
Defined.
