(* ===== verification/IRList.v ===== *)
(** * Rewriting the ordered list of nodes

    [Interface/IR/IREmitter.cpp] and the part of [IREmitter.h] that the
    optimisation passes use: the code of a block as an ordered list of nodes with
    a write cursor, exact use counts, the replacement of uses, of arguments and
    of nodes, and the iteration over a list that changes on the way
    ([AllNodesIterator] in [IR.h]); then what such code means: its valuations and
    the executions they describe. *)
From Stdlib Require Import ZArith Lia Bool.
From stdpp Require Import base gmap list numbers option.
From S2P Require Import Prelude IR ALUOps Interp IRSpec.
#[local] Open Scope Z_scope.

(** ** State *)

(** [Code] is the linked list, [Cursor] the write cursor, [NextNode] the next free
    slot. An unlinked node keeps its links: [Stale] is the [Next] it had. *)
Record IRList := mkIR {
  Data : gmap NodeID IROp_Header;
  NumUses : gmap NodeID Z;
  Code : list NodeID;
  Cursor : NodeID;
  NextNode : NodeID;
  Stale : gmap NodeID NodeID
}.
Abbreviation P := (M IRList).

Definition set_Data (d : gmap NodeID IROp_Header) (s : IRList) : IRList :=
  mkIR d (NumUses s) (Code s) (Cursor s) (NextNode s) (Stale s).
Definition set_NumUses (u : gmap NodeID Z) (s : IRList) : IRList :=
  mkIR (Data s) u (Code s) (Cursor s) (NextNode s) (Stale s).
Definition set_Cursor (n : NodeID) (s : IRList) : IRList :=
  mkIR (Data s) (NumUses s) (Code s) n (NextNode s) (Stale s).

(** [HasSideEffects], the table that [IR.json] gives. *)
Definition HasSideEffects (op : IROps) : bool :=
  match op with
  | OP_BEGINBLOCK | OP_ENDBLOCK | OP_INVALIDATEFLAGS _ | OP_JUMP | OP_CONDJUMP _ _ | OP_EXITFUNCTION
  | OP_STORECONTEXT _ | OP_STOREFLAG _ | OP_STOREMEM _ _ | OP_STOREMEMTSO _ _
  | OP_INLINECONSTANT _ | OP_INLINEENTRYPOINTOFFSET _ | OP_STORECONTEXTINDEXED _ _
  | OP_CAS | OP_CASPAIR | OP_ATOMICADD | OP_ATOMICSUB | OP_ATOMICAND | OP_ATOMICOR | OP_ATOMICXOR
  | OP_ATOMICSWAP | OP_ATOMICFETCHADD | OP_ATOMICFETCHSUB | OP_ATOMICFETCHAND | OP_ATOMICFETCHOR
  | OP_ATOMICFETCHXOR | OP_ATOMICFETCHNEG | OP_YIELD => true
  | _ => false
  end.

(** [IRSizes], in bytes: four of header, four for each argument, then the
    immediates; for the operations that are replaced by constants. *)
Definition IRSizes (h : IROp_Header) : Z :=
  4 + 4 * Z.of_nat (length (Args h)) +
  match Op h with
  | OP_CONSTANT _ => 8
  | OP_BFE _ _ | OP_SBFE _ _ | OP_BFI _ _ => 2
  | _ => 0
  end.
Definition sizeof_IROp_Constant : Z := 12.

(** ** Queries *)

Definition GetOpHeader (n : NodeID) : P IROp_Header := s ← get_state; lift (deref (Data s !! n)).

Definition constant_of (h : IROp_Header) : option Z :=
  match Op h with OP_CONSTANT k => Some k | _ => None end.
(** The constant of a node, which the code writes through a pointer. *)
Definition IsValueConstant (n : NodeID) : P (option Z) := h ← GetOpHeader n; mret (constant_of h).

(** ** Use counts *)

Definition use_of (u : gmap NodeID Z) (n : NodeID) : Z := default 0 (u !! n).
Definition uses (s : IRList) (n : NodeID) : Z := use_of (NumUses s) n.
(** The counters have 32 bits, and the list's backing of eight megabytes has no
    room for that many uses: they do not wrap. *)
Definition AddUse (n : NodeID) (u : gmap NodeID Z) : gmap NodeID Z := <[n := use_of u n + 1]> u.
Definition RemoveUse (n : NodeID) (u : gmap NodeID Z) : gmap NodeID Z := <[n := use_of u n - 1]> u.

(** ** Insertion *)

Fixpoint insert_after (c n : NodeID) (l : list NodeID) : option (list NodeID) :=
  match l with
  | [] => None
  | x :: l => if decide (x = c) then Some (x :: n :: l) else cons x <$> insert_after c n l
  end.

(** [AllocateOp] and [CreateNode]: the node is linked after the cursor and becomes
    the cursor. Appending to a node that is not linked is left undefined. *)
Definition AllocateOp (op : IROps) (size : Z) (args : list NodeID) : P NodeID :=
  s ← get_state;
  l ← lift (deref (insert_after (Cursor s) (NextNode s) (Code s)));
  let n := NextNode s in
  _ ← modify (fun s => mkIR (<[n := mkOp op size size args]> (Data s)) (foldl (fun u a => AddUse a u) (NumUses s) args)
                            l n (S n) (Stale s));
  mret n.

Definition SetWriteCursor (n : NodeID) : P unit := modify (set_Cursor n).

Definition EmitConstant (c : Z) : P NodeID := AllocateOp (OP_CONSTANT (uint 64 c)) 8 [].
Definition EmitInlineConstant (c : Z) : P NodeID := AllocateOp (OP_INLINECONSTANT (uint 64 c)) 8 [].
Definition EmitInlineEntrypointOffset (o size : Z) : P NodeID := AllocateOp (OP_INLINEENTRYPOINTOFFSET o) size [].
Definition EmitLshl (x y : NodeID) : P NodeID :=
  h ← GetOpHeader x; AllocateOp OP_LSHL (Z.max 4 (Size h)) [x; y].

(** ** Replacement *)

Definition set_args (args : list NodeID) (h : IROp_Header) : IROp_Header := mkOp (Op h) (Size h) (ElementSize h) args.

(** The inner loop of [ReplaceAllUsesWithRange]; the result is whether the last
    use of the node is gone. *)
Fixpoint replace_args (Node NewNode : NodeID) (args : list NodeID) (u : gmap NodeID Z)
    : list NodeID * gmap NodeID Z * bool :=
  match args with
  | [] => ([], u, false)
  | a :: args =>
      if decide (a = Node) then
        let u := AddUse NewNode (RemoveUse Node u) in
        if use_of u Node =? 0 then (NewNode :: args, u, true)
        else let '(r, u, b) := replace_args Node NewNode args u in (NewNode :: r, u, b)
      else let '(r, u, b) := replace_args Node NewNode args u in (a :: r, u, b)
  end.

Fixpoint ReplaceAllUsesWithRange (Node NewNode : NodeID) (range : list NodeID) : P unit :=
  match range with
  | [] => mret tt
  | n :: range =>
      h ← GetOpHeader n;
      s ← get_state;
      let '(args, u, last) := replace_args Node NewNode (Args h) (NumUses s) in
      _ ← modify (fun s => set_NumUses u (set_Data (<[n := set_args args h]> (Data s)) s));
      if (last : bool) then mret tt else ReplaceAllUsesWithRange Node NewNode range
  end.

(** The list from a node on. *)
Fixpoint from_node (n : NodeID) (l : list NodeID) : option (list NodeID) :=
  match l with
  | [] => None
  | x :: l' => if decide (x = n) then Some l else from_node n l'
  end.

Definition RemoveArgUses (Node : NodeID) : P unit :=
  h ← GetOpHeader Node;
  modify (fun s => set_NumUses (foldl (fun u a => RemoveUse a u) (NumUses s) (Args h)) s).

(** The node after [n] in the list, the invalid node at its end. *)
Definition next_in (n : NodeID) (l : list NodeID) : NodeID :=
  match from_node n l with Some (_ :: x :: _) => x | _ => InvalidNode end.

Definition Unlink (Node : NodeID) : P unit :=
  modify (fun s => mkIR (Data s) (NumUses s) (filter (fun x => x <> Node) (Code s)) (Cursor s) (NextNode s)
                        (<[Node := next_in Node (Code s)]> (Stale s))).

Definition Remove (Node : NodeID) : P unit := _ ← RemoveArgUses Node; Unlink Node.

Definition ReplaceAllUsesWith (Node NewNode : NodeID) : P unit :=
  s ← get_state;
  range ← lift (deref (from_node Node (Code s)));
  _ ← ReplaceAllUsesWithRange Node NewNode range;
  s ← get_state;
  _ ← check (uses s Node =? 0);
  h ← GetOpHeader Node;
  if negb (HasSideEffects (Op h)) then Remove Node else mret tt.

Definition ReplaceNodeArgument (Node : NodeID) (Arg : nat) (NewArg : NodeID) : P unit :=
  h ← GetOpHeader Node;
  OldArg ← lift (deref (Args h !! Arg));
  modify (fun s => set_NumUses (AddUse NewArg (RemoveUse OldArg (NumUses s)))
                     (set_Data (<[Node := set_args (<[Arg := NewArg]> (Args h)) h]> (Data s)) s)).

(** The size of the overwritten node stays. *)
Definition ReplaceWithConstant (Node : NodeID) (Value : Z) : P unit :=
  h ← GetOpHeader Node;
  if sizeof_IROp_Constant <=? IRSizes h then
    _ ← RemoveArgUses Node;
    modify (fun s => set_Data (<[Node := mkOp (OP_CONSTANT Value) (Size h) (ElementSize h) []]> (Data s)) s)
  else
    s ← get_state;
    let cursor := Cursor s in
    _ ← SetWriteCursor Node;
    NewNode ← EmitConstant Value;
    _ ← ReplaceAllUsesWith Node NewNode;
    SetWriteCursor cursor.

(** ** Iteration *)

(** [Header.Previous] *)
Fixpoint previous_in (n : NodeID) (l : list NodeID) : NodeID :=
  match l with
  | x :: (y :: _) as l => if decide (y = n) then x else previous_in n l
  | _ => InvalidNode
  end.

Definition NextOf (n : NodeID) : P NodeID :=
  s ← get_state;
  if decide (n ∈ Code s) then mret (next_in n (Code s)) else lift (deref (Stale s !! n)).

(** A loop over the nodes from [n] on, with a loop state. *)
Fixpoint for_code {A} (fuel : nat) (body : NodeID -> A -> P A) (n : NodeID) (a : A) : P A :=
  match fuel with
  | O => fun _ => Undef
  | S fuel =>
      if decide (n = InvalidNode) then mret a
      else
        a ← body n a;
        n ← NextOf n;
        for_code fuel body n a
  end.

Definition first_node (l : list NodeID) : NodeID := match l with n :: _ => n | [] => InvalidNode end.
(** Every node of the block, with fuel for nodes that the body may insert. *)
Definition for_all_code {A} (body : NodeID -> A -> P A) (a : A) : P A :=
  s ← get_state; for_code (S (4 * length (Code s))) body (first_node (Code s)) a.

(** ** What a block of IR means, independently of the order of allocation

    A valuation gives every node of a block its value. [valid] says that it does
    so consistently with the reference semantics of the operations, node by node
    in the order of the code, the effects on the guest being those of a [World].
    Rewriting the code is correct when every valuation of the old code extends to
    one of the new code with the same effects. *)
(** ** The guest, as the IR sees it

    Loads and stores of memory, the direction of a conditional branch, and every
    other operation that is not a function of its operands. *)
Class World (W : Type) := {
  entrypoint : Z;
  w_load : bool -> Z -> Z -> W -> option Z;
  w_store : bool -> Z -> Z -> Z -> W -> option W;
  w_branch : bool -> W -> option W;
  w_other : IROps -> Z -> list Z -> W -> option (Z * W);
  w_load_zext tso sz a w v : w_load tso sz a w = Some v -> zext sz v;
  w_other_zext o sz args w v w' : w_other (OP_LOADCONTEXT o) sz args w = Some (v, w') -> zext sz v;
  w_other_pure op sz args w v w' : HasSideEffects op = false -> w_other op sz args w = Some (v, w') -> w' = w
}.

(** Operations whose value [ir_value] gives. *)
Definition is_arith (op : IROps) : bool :=
  match op with
  | OP_ADD | OP_SUB | OP_NEG | OP_MUL | OP_UMUL | OP_MULH | OP_UMULH
  | OP_OR | OP_AND | OP_ANDN | OP_XOR | OP_NOT | OP_LSHL | OP_LSHR | OP_ASHR | OP_ROR | OP_POPCOUNT
  | OP_BFE _ _ | OP_SBFE _ _ | OP_BFI _ _ | OP_SELECT _ _ | OP_GETHOSTFLAG _ => true
  | _ => false
  end.

(** The operands an operation is defined for: those of the logical operations, of
    shifts and of products fit the size of the node, and a shift amount is below
    the width. *)
Definition fits (w v : Z) : bool := (0 <=? v) && (v <? 2 ^ w).
Definition operands_ok (op : IROps) (sz : Z) (args : list Z) : bool :=
  let w := 8 * sz in
  match op, args with
  | (OP_OR | OP_AND | OP_XOR | OP_MUL), [a; b] => fits w a && fits w b
  | (OP_LSHL | OP_LSHR), [a; b] => fits w a && ((0 <=? b) && (b <? w))
  | OP_SELECT _ _, [_; _; t; f] => fits w t && fits w f
  | _, _ => true
  end.

Section Semantics.
Context {W : Type} `{World W}.

Definition offset_value (G : NodeID -> Z) (o : NodeID) : option Z :=
if decide (o = InvalidNode) then None else Some (G o).

(** The value of a node and the guest after it. *)
Definition node_sem (G : NodeID -> Z) (h : IROp_Header) (w : W) : option (Z * W) :=
match Op h, Args h with
| (OP_CONSTANT k | OP_INLINECONSTANT k), [] => Some (uint 64 k, w)
| (OP_ENTRYPOINTOFFSET o | OP_INLINEENTRYPOINTOFFSET o), [] =>
if size_48 (Size h) then Some (uint (8 * Size h) (entrypoint + o), w) else None
| OP_LOADMEM ty sc, [a; o] => v ← w_load false (Size h) (mem_address ty sc (G a) (offset_value G o)) w; Some (v, w)
| OP_LOADMEMTSO ty sc, [a; o] => v ← w_load true (Size h) (mem_address ty sc (G a) (offset_value G o)) w; Some (v, w)
| OP_STOREMEM ty sc, [v; a; o] =>
w ← w_store false (Size h) (mem_address ty sc (G a) (offset_value G o)) (G v) w; Some (0, w)
| OP_STOREMEMTSO ty sc, [v; a; o] =>
w ← w_store true (Size h) (mem_address ty sc (G a) (offset_value G o)) (G v) w; Some (0, w)
| OP_CONDJUMP c cs, [x; y; _; _] =>
b ← cond_holds (if cs =? 4 then 32 else 64) c (G x) (G y); w ← w_branch b w; Some (0, w)
| (OP_CONSTANT _ | OP_INLINECONSTANT _ | OP_ENTRYPOINTOFFSET _ | OP_INLINEENTRYPOINTOFFSET _
| OP_LOADMEM _ _ | OP_LOADMEMTSO _ _ | OP_STOREMEM _ _ | OP_STOREMEMTSO _ _ | OP_CONDJUMP _ _), _ => None
| op, args =>
let vs := map G args in
if is_arith op then
if operands_ok op (Size h) vs then v ← ir_value op (Size h) vs; Some (v, w) else None
else w_other op (Size h) vs w
end.

Fixpoint valid (G : NodeID -> Z) (D : gmap NodeID IROp_Header) (ns : list NodeID) (w w' : W) : Prop :=
match ns with
| [] => w = w'
| n :: ns => exists h w1, D !! n = Some h /\ node_sem G h w = Some (G n, w1) /\ valid G D ns w1 w'
end.
End Semantics.

(** ** Well-formed code *)

(** The arguments that are values; the others name blocks or are absent. *)
Definition offset_arg (o : NodeID) : list NodeID := if decide (o = InvalidNode) then [] else [o].
Definition value_args (h : IROp_Header) : list NodeID :=
  match Op h, Args h with
  | OP_CONDJUMP _ _, [x; y; _; _] => [x; y]
  | (OP_JUMP | OP_CODEBLOCK | OP_BEGINBLOCK | OP_ENDBLOCK), _ => []
  | (OP_LOADMEM _ _ | OP_LOADMEMTSO _ _), [a; o] => a :: offset_arg o
  | (OP_STOREMEM _ _ | OP_STOREMEMTSO _ _), [v; a; o] => v :: a :: offset_arg o
  | _, args => args
  end.

(** The arguments that name blocks. *)
Definition block_args (h : IROp_Header) : list NodeID :=
  match Op h, Args h with
  | OP_CONDJUMP _ _, [_; _; t; f] => [t; f]
  | (OP_JUMP | OP_CODEBLOCK | OP_BEGINBLOCK | OP_ENDBLOCK), args => args
  | _, _ => []
  end.

(** Every value is defined before it is used. *)
Fixpoint deps (D : gmap NodeID IROp_Header) (seen ns : list NodeID) : Prop :=
  match ns with
  | [] => True
  | n :: ns => (forall h a, D !! n = Some h -> a ∈ value_args h -> a ∈ seen) /\ deps D (n :: seen) ns
  end.

(** How often a node occurs as an argument. *)
Definition count (a : NodeID) (args : list NodeID) : Z := Z.of_nat (count_occ Nat.eq_dec args a).
Definition args_of (D : gmap NodeID IROp_Header) (n : NodeID) : list NodeID :=
  match D !! n with Some h => Args h | None => [] end.
Fixpoint occ (D : gmap NodeID IROp_Header) (ns : list NodeID) (a : NodeID) : Z :=
  match ns with [] => 0 | n :: ns => count a (args_of D n) + occ D ns a end.

Record wf_ir (s : IRList) : Prop := {
  ir_nodup : base.NoDup (Code s);
  ir_data n : n ∈ Code s -> is_Some (Data s !! n);
  ir_ids n : n ∈ Code s -> n <> InvalidNode /\ (n < NextNode s)%nat;
  ir_args n a : n ∈ Code s -> a ∈ args_of (Data s) n -> (a < NextNode s)%nat;
  ir_deps : deps (Data s) [] (Code s);
  ir_blocks n h a : n ∈ Code s -> Data s !! n = Some h -> a ∈ block_args h -> ~ a ∈ Code s;
  ir_uses a : a ∈ Code s -> uses s a = occ (Data s) (Code s) a;
  ir_fresh a : (NextNode s <= a)%nat -> uses s a = 0;
  ir_header : exists h, Data s !! InvalidNode = Some h /\ Op h = OP_IRHEADER
}.
