(* ===== verification/IRListLogic.v ===== *)
(** * Lemmas on rewriting a block

    Each editing operation keeps the code well formed, and keeps every valuation
    in which the values it relies on agree. *)
From Stdlib Require Import ZArith Lia Bool.
From stdpp Require Import base gmap list numbers option.
From S2P Require Import Prelude IR ALUOps Interp IRSpec IRList.
#[local] Open Scope Z_scope.

(** ** Counting arguments *)

Definition subst (n m a : NodeID) : NodeID := if decide (a = n) then m else a.

Lemma count_cons a b l : count a (b :: l) = (if decide (b = a) then 1 else 0) + count a l.
Proof. unfold count. cbn [count_occ]. destruct (Nat.eq_dec b a), (decide (b = a)); try congruence; lia. Qed.
Lemma count_nonneg a l : 0 <= count a l.
Proof. unfold count. lia. Qed.
Lemma count_zero a l : count a l = 0 <-> ~ a ∈ l.
Proof.
  induction l as [|b l IH]; [split; [intros _ H; inversion H|reflexivity]|].
  rewrite count_cons, elem_of_cons. pose proof (count_nonneg a l). destruct (decide (b = a)); [subst; split; [lia|tauto]|].
  rewrite <- (Z.add_0_l (count a l)) in IH. split; [intros ? [?|?]; [congruence|tauto]|]. intros Hn. apply IH. tauto.
Qed.

(** The effect of a substitution on the number of occurrences. *)
Definition moved (n m a : NodeID) (k : Z) (c : Z) : Z :=
  if decide (a = n) then 0 else if decide (a = m) then c + k else c.

Lemma count_subst n m a l : n <> m -> count a (map (subst n m) l) = moved n m a (count n l) (count a l).
Proof.
  intros Hnm. unfold moved. induction l as [|b l IH]; [destruct (decide (a = n)), (decide (a = m)); reflexivity|].
  cbn [map]. rewrite !count_cons, IH. unfold subst.
  destruct (decide (b = n)), (decide (a = n)), (decide (a = m)); subst;
    repeat match goal with |- context [decide (?x = ?y)] => destruct (decide (x = y)) end; subst; try congruence; lia.
Qed.

Lemma subst_id n m l : ~ n ∈ l -> map (subst n m) l = l.
Proof.
  induction l as [|b l IH]; [reflexivity|]. rewrite not_elem_of_cons. intros [H1 H2]. cbn [map].
  rewrite IH by exact H2. unfold subst. destruct (decide (b = n)); congruence.
Qed.

Lemma occ_nonneg D ns a : 0 <= occ D ns a.
Proof. induction ns; cbn [occ]; [lia|]. pose proof (count_nonneg a (args_of D a0)). lia. Qed.

Lemma occ_app D l1 l2 a : occ D (l1 ++ l2) a = occ D l1 a + occ D l2 a.
Proof. induction l1; cbn [occ app]; lia. Qed.

Lemma occ_zero D ns a : occ D ns a = 0 <-> forall n, n ∈ ns -> ~ a ∈ args_of D n.
Proof.
  induction ns as [|n ns IH]; cbn [occ]; [split; [intros _ x Hx; inversion Hx|reflexivity]|].
  pose proof (count_nonneg a (args_of D n)). pose proof (occ_nonneg D ns a). split.
  - intros E x Hx. apply elem_of_cons in Hx as [->|Hx]; [apply count_zero; lia|]. apply IH; [lia|exact Hx].
  - intros Hx. assert (count a (args_of D n) = 0) by (apply count_zero, Hx, elem_of_cons; auto).
    assert (occ D ns a = 0) by (apply IH; intros x Hin; apply Hx, elem_of_cons; auto). lia.
Qed.

Lemma occ_ext D D' ns a : (forall n, n ∈ ns -> args_of D' n = args_of D n) -> occ D' ns a = occ D ns a.
Proof.
  induction ns as [|n ns IH]; intros H; [reflexivity|]. cbn [occ].
  rewrite H by (apply elem_of_cons; auto). rewrite IH; [reflexivity|]. intros x Hx. apply H, elem_of_cons; auto.
Qed.

Lemma occ_subst D D' n m ns a : n <> m ->
  (forall x, x ∈ ns -> args_of D' x = map (subst n m) (args_of D x)) ->
  occ D' ns a = moved n m a (occ D ns n) (occ D ns a).
Proof.
  intros Hnm. induction ns as [|x ns IH]; intros H; cbn [occ].
  - unfold moved. destruct (decide (a = n)), (decide (a = m)); reflexivity.
  - rewrite H by (apply elem_of_cons; auto). rewrite count_subst by exact Hnm.
    rewrite IH by (intros y Hy; apply H, elem_of_cons; auto). unfold moved.
    destruct (decide (a = n)), (decide (a = m)); lia.
Qed.

(** ** Use counters *)

Lemma use_AddUse n a u : use_of (AddUse n u) a = use_of u a + (if decide (n = a) then 1 else 0).
Proof.
  unfold AddUse, use_of at 1. destruct (decide (n = a)) as [->|Hn].
  - rewrite lookup_insert_eq. reflexivity.
  - rewrite lookup_insert_ne by exact Hn. unfold use_of. lia.
Qed.
Lemma use_RemoveUse n a u : use_of (RemoveUse n u) a = use_of u a - (if decide (n = a) then 1 else 0).
Proof.
  unfold RemoveUse, use_of at 1. destruct (decide (n = a)) as [->|Hn].
  - rewrite lookup_insert_eq. reflexivity.
  - rewrite lookup_insert_ne by exact Hn. unfold use_of. lia.
Qed.
Lemma use_add_all args a u : use_of (foldl (fun u x => AddUse x u) u args) a = use_of u a + count a args.
Proof.
  revert u. induction args as [|b args IH]; intros u; cbn [foldl]; [unfold count; cbn; lia|].
  rewrite IH, use_AddUse, count_cons. lia.
Qed.
Lemma use_remove_all args a u : use_of (foldl (fun u x => RemoveUse x u) u args) a = use_of u a - count a args.
Proof.
  revert u. induction args as [|b args IH]; intros u; cbn [foldl]; [unfold count; cbn; lia|].
  rewrite IH, use_RemoveUse, count_cons. lia.
Qed.

(** ** [ReplaceAllUsesWithRange] *)

Lemma replace_args_spec n m args u rest : n <> m -> use_of u n = count n args + rest -> 0 <= rest ->
  exists u' last, replace_args n m args u = (map (subst n m) args, u', last) /\
    use_of u' n = rest /\ (last = true -> rest = 0) /\
    forall a, a <> n -> use_of u' a = use_of u a + (if decide (a = m) then count n args else 0).
Proof.
  intros Hnm. revert u. induction args as [|b args IH]; intros u Hu Hr; cbn [replace_args map].
  - exists u, false. split; [reflexivity|]. unfold count in *. cbn in *. split; [lia|]. split; [discriminate|].
    intros a _. destruct (decide (a = m)); lia.
  - rewrite count_cons in Hu. unfold subst at 1. destruct (decide (b = n)) as [->|Hb].
    + set (u1 := AddUse m (RemoveUse n u)).
      assert (use_of u1 n = count n args + rest) as H1.
      { unfold u1. rewrite use_AddUse, use_RemoveUse. destruct (decide (n = n)), (decide (m = n)); try congruence. lia. }
      assert (forall a, a <> n -> use_of u1 a = use_of u a + (if decide (a = m) then 1 else 0)) as H2.
      { intros a Ha. unfold u1. rewrite use_AddUse, use_RemoveUse.
        destruct (decide (m = a)), (decide (n = a)), (decide (a = m)); try congruence; lia. }
      pose proof (count_nonneg n args).
      destruct (Z.eqb_spec (use_of u1 n) 0) as [E|E].
      * exists u1, true. rewrite subst_id by (apply count_zero; lia). split; [reflexivity|]. split; [lia|]. split; [lia|].
        intros a Ha. rewrite H2 by exact Ha. rewrite count_cons. destruct (decide (n = n)), (decide (a = m)); try congruence; lia.
      * destruct (IH u1 H1 Hr) as (u' & last & E' & F & L & G). rewrite E'. exists u', last.
        split; [reflexivity|]. split; [exact F|]. split; [exact L|]. intros a Ha. rewrite G, H2 by exact Ha.
        rewrite count_cons. destruct (decide (n = n)), (decide (a = m)); try congruence; lia.
    + destruct (IH u ltac:(lia) Hr) as (u' & last & E' & F & L & G). rewrite E'. exists u', last.
      split; [reflexivity|]. split; [exact F|]. split; [exact L|]. intros a Ha. rewrite G by exact Ha.
      rewrite count_cons. destruct (decide (b = n)); [congruence|]. destruct (decide (a = m)); lia.
Qed.

(** The same operation and sizes, arguments substituted. *)
Definition substituted (n m : NodeID) (ns : list NodeID) (D D' : gmap NodeID IROp_Header) : Prop :=
  forall x, D' !! x = if decide (x ∈ ns) then (fun h => set_args (map (subst n m) (Args h)) h) <$> D !! x else D !! x.

Lemma set_args_id h : set_args (Args h) h = h.
Proof. destruct h; reflexivity. Qed.

Lemma substituted_nil n m D : substituted n m [] D D.
Proof. intros x. destruct (decide (x ∈ [])) as [H|H]; [inversion H|reflexivity]. Qed.

Lemma substituted_unused n m ns D : (forall x, x ∈ ns -> ~ n ∈ args_of D x) -> substituted n m ns D D.
Proof.
  intros H x. destruct (decide (x ∈ ns)) as [Hx|Hx]; [|reflexivity]. specialize (H x Hx). unfold args_of in H.
  destruct (D !! x) as [h|]; [|reflexivity]. cbn. rewrite subst_id by exact H. rewrite set_args_id. reflexivity.
Qed.

Lemma args_of_insert D n h x : args_of (<[n := h]> D) x = if decide (n = x) then Args h else args_of D x.
Proof.
  unfold args_of. destruct (decide (n = x)) as [->|Hn]; [rewrite lookup_insert_eq|rewrite lookup_insert_ne by exact Hn]; reflexivity.
Qed.

Lemma ReplaceAllUsesWithRange_spec n m ns s rest : n <> m -> base.NoDup ns ->
  (forall x, x ∈ ns -> is_Some (Data s !! x)) ->
  uses s n = occ (Data s) ns n + rest -> 0 <= rest ->
  exists D u, ReplaceAllUsesWithRange n m ns s = Ok (tt, set_NumUses u (set_Data D s)) /\
    substituted n m ns (Data s) D /\ use_of u n = rest /\
    forall a, a <> n -> use_of u a = uses s a + (if decide (a = m) then occ (Data s) ns n else 0).
Proof.
  intros Hnm. revert s. induction ns as [|x ns IH]; intros s Hnd Hd Hu Hr; cbn [ReplaceAllUsesWithRange].
  - exists (Data s), (NumUses s). split; [destruct s; reflexivity|]. split; [apply substituted_nil|].
    cbn [occ] in Hu. split; [unfold uses in Hu; lia|]. intros a _. cbn [occ]. unfold uses. destruct (decide (a = m)); lia.
  - apply list.NoDup_cons in Hnd as [Hx Hnd].
    destruct (Hd x ltac:(apply elem_of_cons; auto)) as [h Hh]. unfold GetOpHeader, mbind, M_bind, get_state, lift.
    rewrite Hh. cbn [deref]. cbn [occ] in Hu. unfold args_of at 1 in Hu. rewrite Hh in Hu.
    pose proof (occ_nonneg (Data s) ns n) as Ho.
    destruct (replace_args_spec n m (Args h) (NumUses s) (occ (Data s) ns n + rest) Hnm) as (u & last & E & F & L & G);
      [unfold uses in Hu; lia|lia|].
    rewrite E. cbn beta iota. unfold modify. set (s1 := set_NumUses u _).
    assert (forall a, occ (Data s1) ns a = occ (Data s) ns a) as Hocc.
    { intros a. apply occ_ext. intros y Hy. cbn. rewrite args_of_insert. destruct (decide (x = y)); [congruence|reflexivity]. }
    assert (forall y, y <> x -> Data s1 !! y = Data s !! y) as Hother by (intros y Hy; apply lookup_insert_ne; congruence).
    destruct last.
    + specialize (L eq_refl). assert (occ (Data s) ns n = 0) as Hz by lia.
      exists (Data s1), u. split; [reflexivity|]. split; [|split; [lia|]].
      * intros y. destruct (decide (y ∈ x :: ns)) as [Hy|Hy].
        { destruct (Nat.eq_dec y x) as [->|Hne]; [cbn; rewrite lookup_insert_eq, Hh; reflexivity|].
          rewrite Hother by exact Hne. apply elem_of_cons in Hy as [?|Hy]; [contradiction|].
          pose proof (substituted_unused n m ns (Data s) (proj1 (occ_zero _ _ _) Hz) y) as Sy.
          destruct (decide (y ∈ ns)); [exact Sy|contradiction]. }
        apply not_elem_of_cons in Hy as [Hy _]. apply Hother, Hy.
      * intros a Ha. rewrite G by exact Ha. unfold uses. cbn [occ]. unfold args_of at 1. rewrite Hh.
        destruct (decide (a = m)); lia.
    + destruct (IH s1 Hnd) as (D & u' & E' & S & U & V).
      * intros y Hy. rewrite Hother; [apply Hd, elem_of_cons; auto|]. congruence.
      * rewrite Hocc. exact F.
      * exact Hr.
      * exists D, u'. split; [exact E'|]. split; [|split; [exact U|]].
        { intros y. rewrite (S y). destruct (decide (y ∈ ns)) as [Hy|Hy], (decide (y ∈ x :: ns)) as [Hy'|Hy'].
          - rewrite Hother; [reflexivity|congruence].
          - destruct Hy'. apply elem_of_cons; auto.
          - apply elem_of_cons in Hy' as [->|?]; [|contradiction]. cbn. rewrite lookup_insert_eq, Hh. reflexivity.
          - apply not_elem_of_cons in Hy' as [Hy' _]. apply Hother, Hy'. }
        { intros a Ha. rewrite V, Hocc by exact Ha. change (uses s1 a) with (use_of u a). rewrite G by exact Ha.
          unfold uses. cbn [occ]. unfold args_of at 1. rewrite Hh. destruct (decide (a = m)); lia. }
Qed.

(** ** Definitions before uses *)

Lemma value_args_sub h a : a ∈ value_args h -> a ∈ Args h.
Proof.
  destruct h as [op sz es args]. unfold value_args. cbn [Op Args]. unfold offset_arg.
  destruct op; try (intros H; exact H); try (intros H; inversion H; fail);
    destruct args as [|x [|y [|z [|t [|]]]]]; try (intros H; exact H);
    repeat match goal with |- context [decide (?o = ?p)] => destruct (decide (o = p)) end;
    rewrite ?elem_of_cons; tauto.
Qed.

Lemma value_args_subst n m h : n <> InvalidNode -> m <> InvalidNode ->
  value_args (set_args (map (subst n m) (Args h)) h) = map (subst n m) (value_args h).
Proof.
  intros Hn Hm. assert (forall o, offset_arg (subst n m o) = map (subst n m) (offset_arg o)) as Ho.
  { intros o. unfold offset_arg, subst. destruct (decide (o = n)), (decide (o = InvalidNode)); subst; try congruence; cbn.
    - destruct (decide (m = InvalidNode)); [congruence|]. unfold subst. destruct (decide (n = n)); congruence.
    - destruct (decide (InvalidNode = InvalidNode)); congruence.
    - destruct (decide (o = InvalidNode)); [congruence|]. unfold subst. destruct (decide (o = n)); congruence. }
  destruct h as [op sz es args]. unfold value_args, set_args. cbn [Op Args].
  destruct op; try reflexivity; destruct args as [|x [|y [|z [|t [|]]]]]; try reflexivity;
    cbn [map]; rewrite Ho; reflexivity.
Qed.

Lemma block_args_subst n m h : block_args (set_args (map (subst n m) (Args h)) h) = map (subst n m) (block_args h).
Proof.
  destruct h as [op sz es args]. unfold block_args, set_args. cbn [Op Args].
  destruct op; try reflexivity; destruct args as [|x [|y [|z [|t [|]]]]]; reflexivity.
Qed.

Lemma args_kinds h a : a ∈ Args h -> a ∈ value_args h \/ a ∈ block_args h \/ a = InvalidNode.
Proof.
  destruct h as [op sz es args]. unfold value_args, block_args, offset_arg. cbn [Op Args].
  destruct op; auto; destruct args as [|x [|y [|z [|t [|]]]]]; auto;
    repeat match goal with |- context [decide (?o = ?p)] => destruct (decide (o = p)) end;
    rewrite ?elem_of_cons; intuition congruence.
Qed.

(** What is not a value does not name a node of the code. *)
Lemma args_kind s n h a : wf_ir s -> n ∈ Code s -> Data s !! n = Some h -> a ∈ Args h -> a ∈ value_args h \/ ~ a ∈ Code s.
Proof.
  intros Hw Hn Hh Ha. destruct (args_kinds h a Ha) as [Hv|[Hb| ->]]; [auto|right; apply (ir_blocks _ Hw n h a Hn Hh Hb)|right].
  intros Hc. destruct (ir_ids _ Hw _ Hc). congruence.
Qed.

Lemma deps_mono D seen seen' ns : (forall x, x ∈ seen -> x ∈ seen') -> deps D seen ns -> deps D seen' ns.
Proof.
  revert seen seen'. induction ns as [|n ns IH]; intros seen seen' Hs; [auto|]. intros [H1 H2]. split.
  - intros h a Hh Ha. apply Hs, (H1 h a Hh Ha).
  - apply (IH (n :: seen)); [|exact H2]. intros x. rewrite !elem_of_cons. intros [?|?]; auto.
Qed.

Lemma deps_app D seen l1 l2 : deps D seen (l1 ++ l2) <-> deps D seen l1 /\ deps D (l1 ++ seen) l2.
Proof.
  revert seen. induction l1 as [|x l1 IH]; intros seen; cbn [app deps]; [tauto|].
  rewrite IH. assert (deps D (l1 ++ x :: seen) l2 <-> deps D (x :: l1 ++ seen) l2) as ->; [|tauto].
  split; apply deps_mono; intros y; rewrite !elem_of_cons, !elem_of_app, ?elem_of_cons; tauto.
Qed.

(** The arguments are substituted; what was seen of the old node is the new one. *)
Lemma deps_subst D D' n m seen seen' ns : n <> InvalidNode -> m <> InvalidNode -> ~ n ∈ ns ->
  (forall x, x ∈ ns -> D' !! x = (fun h => set_args (map (subst n m) (Args h)) h) <$> D !! x) ->
  (forall x, x ∈ seen -> x <> n -> x ∈ seen') -> m ∈ seen' \/ (forall x, x ∈ ns -> ~ n ∈ args_of D x) ->
  deps D seen ns -> deps D' seen' ns.
Proof.
  intros Hn Hm. revert seen seen'. induction ns as [|x ns IH]; intros seen seen' Hnot HD Hs Hor; [intros _; exact I|]. intros [H1 H2].
  apply not_elem_of_cons in Hnot as [Hx Hnot]. split.
  - intros h' a Hh' Ha. rewrite (HD x ltac:(apply elem_of_cons; auto)) in Hh'.
    destruct (D !! x) as [h|] eqn:Eh; [|discriminate]. injection Hh' as <-.
    rewrite value_args_subst in Ha by assumption. apply list_elem_of_fmap in Ha as (b & -> & Hb).
    pose proof (H1 h b eq_refl Hb) as Hb'. unfold subst. destruct (decide (b = n)) as [->|Hbn]; [|auto].
    destruct Hor as [?|Hor]; [assumption|]. destruct (Hor x ltac:(apply elem_of_cons; auto)).
    unfold args_of. rewrite Eh. apply value_args_sub, Hb.
  - apply (IH (x :: seen)); [exact Hnot|intros y Hy; apply HD, elem_of_cons; auto| | |exact H2].
    + intros y. rewrite !elem_of_cons. intros [?|?]; auto.
    + destruct Hor as [?|Hor]; [left; apply elem_of_cons; auto|right]. intros y Hy. apply Hor, elem_of_cons; auto.
Qed.

Lemma deps_ext D D' seen ns : (forall x, x ∈ ns -> D' !! x = D !! x) -> deps D seen ns -> deps D' seen ns.
Proof.
  revert seen. induction ns as [|x ns IH]; intros seen HD; [auto|]. intros [H1 H2]. split.
  - intros h a. rewrite HD by (apply elem_of_cons; auto). apply H1.
  - apply IH; [intros y Hy; apply HD, elem_of_cons; auto|exact H2].
Qed.

(** ** Positions *)

Lemma from_node_split n pre post : ~ n ∈ pre -> from_node n (pre ++ n :: post) = Some (n :: post).
Proof.
  induction pre as [|x pre IH]; cbn; [destruct (decide (n = n)); congruence|].
  rewrite not_elem_of_cons. intros [H1 H2]. destruct (decide (x = n)); [congruence|auto].
Qed.

Lemma insert_after_split c n pre post : ~ c ∈ pre -> insert_after c n (pre ++ c :: post) = Some (pre ++ c :: n :: post).
Proof.
  induction pre as [|x pre IH]; cbn; [destruct (decide (c = c)); congruence|].
  rewrite not_elem_of_cons. intros [H1 H2]. destruct (decide (x = c)); [congruence|]. rewrite IH by exact H2. reflexivity.
Qed.

Lemma next_in_split n pre post : ~ n ∈ pre -> next_in n (pre ++ n :: post) = first_node post.
Proof. intros H. unfold next_in. rewrite from_node_split by exact H. destruct post; reflexivity. Qed.

Lemma filter_split (n : NodeID) pre post : ~ n ∈ pre -> ~ n ∈ post -> filter (fun x => x <> n) (pre ++ n :: post) = pre ++ post.
Proof.
  intros H1 H2. assert (forall l : list NodeID, ~ n ∈ l -> filter (fun x => x <> n) l = l) as Hf.
  { intros l Hl. induction l as [|x l IH]; [reflexivity|]. apply not_elem_of_cons in Hl as [Hx Hl].
    rewrite filter_cons_True by congruence. rewrite IH by exact Hl. reflexivity. }
  rewrite list.filter_app, filter_cons_False by tauto. rewrite !Hf by assumption. reflexivity.
Qed.

Lemma nodup_split (n : NodeID) pre post : base.NoDup (pre ++ n :: post) ->
  ~ n ∈ pre /\ ~ n ∈ post /\ base.NoDup (pre ++ post) /\ base.NoDup (n :: post).
Proof.
  intros H. apply list.NoDup_app in H as (H1 & H2 & H3). apply list.NoDup_cons in H3 as [H3 H4].
  assert (~ n ∈ pre) as Hn by (intros Hx; apply (H2 n Hx), elem_of_cons; auto).
  split; [exact Hn|]. split; [exact H3|]. split; [|constructor; assumption].
  apply list.NoDup_app. split; [exact H1|]. split; [|exact H4]. intros x Hx Hx'. apply (H2 x Hx), elem_of_cons. auto.
Qed.

Lemma deps_in D seen ns x h a : deps D seen ns -> x ∈ ns -> D !! x = Some h -> a ∈ value_args h -> a ∈ seen \/ a ∈ ns.
Proof.
  revert seen. induction ns as [|y ns IH]; intros seen; [intros _ Hx; inversion Hx|].
  intros [H1 H2] Hx Hh Ha. apply elem_of_cons in Hx as [->|Hx]; [left; apply (H1 h a Hh Ha)|].
  destruct (IH _ H2 Hx Hh Ha) as [Hs|Hs]; [apply elem_of_cons in Hs as [->|Hs]; [right; apply elem_of_cons; auto|auto]|].
  right. apply elem_of_cons. auto.
Qed.

(** ** Meaning under substitution *)

Section Meaning.
Context {W : Type} `{World W}.

Lemma valid_app G D l1 l2 w w' : valid G D (l1 ++ l2) w w' <-> exists w1, valid G D l1 w w1 /\ valid G D l2 w1 w'.
Proof.
  revert w. induction l1 as [|x l1 IH]; intros w; cbn [app valid].
  - split; [intros Hv; exists w; auto|intros (w1 & -> & Hv); exact Hv].
  - split.
    + intros (h & w1 & Hh & Hs & Hv). apply IH in Hv as (w2 & H1 & H2). exists w2. eauto 6.
    + intros (w2 & (h & w1 & Hh & Hs & Hv) & H2). exists h, w1. split; [exact Hh|]. split; [exact Hs|]. apply IH. eauto.
Qed.

Lemma map_subst_values (G : NodeID -> Z) n m args : G n = G m -> map G (map (subst n m) args) = map G args.
Proof.
  intros E. rewrite map_map. apply map_ext. intros a. unfold subst. destruct (decide (a = n)); congruence.
Qed.

Lemma node_sem_subst G n m h w : n <> InvalidNode -> m <> InvalidNode -> G n = G m ->
  node_sem G (set_args (map (subst n m) (Args h)) h) w = node_sem G h w.
Proof.
  intros Hn Hm E. assert (forall a, G (subst n m a) = G a) as HG.
  { intros a. unfold subst. destruct (decide (a = n)); congruence. }
  assert (forall o, offset_value G (subst n m o) = offset_value G o) as Ho.
  { intros o. unfold offset_value. rewrite HG. unfold subst.
    destruct (decide (o = n)), (decide (o = InvalidNode)); subst; try congruence; destruct (decide (_ = InvalidNode)); congruence. }
  destruct h as [op sz es args]. unfold node_sem, set_args. cbn [Op Args Size].
  destruct op; rewrite ?map_subst_values by exact E; try reflexivity;
    destruct args as [|x [|y [|z [|t [|]]]]]; cbn [map]; rewrite ?HG, ?Ho; try reflexivity.
  all: try (rewrite map_subst_values by exact E; reflexivity).
Qed.

Lemma node_sem_pure G h w v w' : HasSideEffects (Op h) = false -> node_sem G h w = Some (v, w') -> w' = w.
Proof.
  destruct h as [op sz es args]. unfold node_sem. cbn [Op Args Size].
  destruct op; try discriminate; intros _; destruct args as [|x [|y [|z [|t [|]]]]]; cbn [is_arith];
    repeat match goal with
    | |- (if ?b then _ else _) = _ -> _ => destruct b
    | |- (?m ≫= _) = _ -> _ => destruct m; cbn [mbind option_bind]
    end; try congruence; apply w_other_pure; reflexivity.
Qed.

Lemma valid_subst G D D' n m ns w w' : n <> InvalidNode -> m <> InvalidNode -> G n = G m ->
  (forall x, x ∈ ns -> D' !! x = (fun h => set_args (map (subst n m) (Args h)) h) <$> D !! x) ->
  valid G D ns w w' -> valid G D' ns w w'.
Proof.
  intros Hn Hm E. revert w. induction ns as [|x ns IH]; intros w HD; [auto|]. intros (h & w1 & Hh & Hs & Hv).
  exists (set_args (map (subst n m) (Args h)) h), w1. split; [|split].
  - rewrite HD by (apply elem_of_cons; auto). rewrite Hh. reflexivity.
  - rewrite node_sem_subst by assumption. exact Hs.
  - apply IH; [intros y Hy; apply HD, elem_of_cons; auto|exact Hv].
Qed.

Lemma valid_ext G D D' ns w w' : (forall x, x ∈ ns -> D' !! x = D !! x) -> valid G D ns w w' -> valid G D' ns w w'.
Proof.
  revert w. induction ns as [|x ns IH]; intros w HD; [auto|]. intros (h & w1 & Hh & Hs & Hv).
  exists h, w1. rewrite HD by (apply elem_of_cons; auto). split; [exact Hh|]. split; [exact Hs|].
  apply IH; [intros y Hy; apply HD, elem_of_cons; auto|exact Hv].
Qed.

(** A pure node may go. *)
Lemma valid_remove G D pre n post h w w' : D !! n = Some h -> HasSideEffects (Op h) = false ->
  valid G D (pre ++ n :: post) w w' -> valid G D (pre ++ post) w w'.
Proof.
  intros Hh Hp. rewrite !valid_app. intros (w1 & H1 & (h' & w2 & Hh' & Hs & H2)). exists w1. split; [exact H1|].
  replace h' with h in Hs by congruence. apply node_sem_pure in Hs; [|exact Hp]. subst. exact H2.
Qed.
End Meaning.

(** ** Uses lie behind definitions *)

Lemma unused_before s pre n post x : wf_ir s -> Code s = pre ++ n :: post -> x ∈ pre \/ x = n -> ~ n ∈ args_of (Data s) x.
Proof.
  intros Hw HC Hx Hin. pose proof (ir_nodup _ Hw) as Hnd. rewrite HC in Hnd.
  destruct (nodup_split n pre post Hnd) as (Hn & _ & _ & _).
  assert (x ∈ Code s) as Hxc by (rewrite HC, elem_of_app, elem_of_cons; tauto).
  destruct (ir_data _ Hw x Hxc) as [h Hh]. unfold args_of in Hin. rewrite Hh in Hin.
  destruct (args_kind _ x h n Hw Hxc Hh Hin) as [Hv|Hv]; [|apply Hv; rewrite HC, elem_of_app, elem_of_cons; tauto].
  pose proof (ir_deps _ Hw) as Hd. rewrite HC in Hd. apply deps_app in Hd as [Hd1 [Hd2 _]].
  destruct Hx as [Hx| ->].
  - destruct (deps_in _ _ _ _ _ _ Hd1 Hx Hh Hv) as [H1|H1]; [inversion H1|contradiction].
  - specialize (Hd2 h n Hh Hv). apply elem_of_app in Hd2 as [?|H1]; [contradiction|inversion H1].
Qed.

Lemma bind_run {S A B} (m : M S A) (f : A -> M S B) s a s' : m s = Ok (a, s') -> (m ≫= f) s = f a s'.
Proof. apply M_bind_Ok. Qed.

Lemma GetOpHeader_run s n h : Data s !! n = Some h -> GetOpHeader n s = Ok (h, s).
Proof. intros E. unfold GetOpHeader, mbind, M_bind, get_state, lift. rewrite E. reflexivity. Qed.

(** What the replacement of a pure node leaves of the state. *)
Record replaced (n m : NodeID) (pre post : list NodeID) (s s' : IRList) : Prop := {
  rp_wf : wf_ir s';
  rp_code : Code s' = pre ++ post;
  rp_cursor : Cursor s' = Cursor s;
  rp_next : NextNode s' = NextNode s;
  rp_stale : Stale s' !! n = Some (first_node post);
  rp_data : substituted n m (n :: post) (Data s) (Data s')
}.

Lemma substituted_code s n m pre post D : wf_ir s -> Code s = pre ++ n :: post -> n <> m ->
  substituted n m (n :: post) (Data s) D ->
  forall x, x ∈ Code s -> D !! x = (fun h => set_args (map (subst n m) (Args h)) h) <$> Data s !! x.
Proof.
  intros Hw HC Hnm HS x Hx. rewrite (HS x). destruct (decide (x ∈ n :: post)) as [Hin|Hout]; [reflexivity|].
  assert (x ∈ pre) as Hp by (rewrite HC, elem_of_app in Hx; tauto).
  pose proof (unused_before s pre n post x Hw HC (or_introl Hp)) as Hu. unfold args_of in Hu.
  destruct (Data s !! x) as [h|]; [|reflexivity]. cbn. rewrite subst_id, set_args_id by exact Hu. reflexivity.
Qed.

Lemma substituted_args D n m x h : D !! x = (fun h => set_args (map (subst n m) (Args h)) h) <$> Some h ->
  args_of D x = map (subst n m) (Args h).
Proof. unfold args_of. intros ->. reflexivity. Qed.

Lemma in_map_subst n m a l : a ∈ map (subst n m) l -> a = m \/ (a ∈ l /\ a <> n).
Proof.
  intros Ha. apply list_elem_of_fmap in Ha as (b & -> & Hb). unfold subst. destruct (decide (b = n)); auto.
Qed.

Section Replace.
Context (s : IRList) (n m : NodeID) (pre X Y : list NodeID) (h : IROp_Header).
Hypothesis Hw : wf_ir s.
Hypothesis HC : Code s = pre ++ n :: X ++ Y.
Hypothesis HX : forall x, x ∈ X -> ~ n ∈ args_of (Data s) x.
Hypothesis Hm : m ∈ pre ++ X.
Hypothesis Hh : Data s !! n = Some h.
Hypothesis Hp : HasSideEffects (Op h) = false.

#[local] Lemma rep_split : ~ n ∈ pre /\ ~ n ∈ X ++ Y /\ base.NoDup (pre ++ X ++ Y) /\ base.NoDup (n :: X ++ Y).
Proof. apply nodup_split. rewrite <- HC. apply Hw. Qed.

Lemma rep_ne : n <> m.
Proof.
  intros <-. destruct rep_split as (H1 & H2 & _). apply elem_of_app in Hm as [?|?]; [contradiction|].
  apply H2, elem_of_app. auto.
Qed.

#[local] Lemma rep_in x : x ∈ pre ++ X ++ Y -> x ∈ Code s /\ x <> n.
Proof.
  intros Hx. split; [rewrite HC; rewrite !elem_of_app, ?elem_of_cons, ?elem_of_app in *; tauto|].
  intros ->. destruct rep_split as (H1 & H2 & _). apply elem_of_app in Hx as [?|?]; contradiction.
Qed.

#[local] Lemma rep_m : m ∈ Code s.
Proof. apply rep_in. rewrite !elem_of_app in *. tauto. Qed.

#[local] Lemma rep_ids : n <> InvalidNode /\ m <> InvalidNode.
Proof.
  split; [apply (ir_ids _ Hw n); rewrite HC, elem_of_app, elem_of_cons; auto|apply (ir_ids _ Hw m), rep_m].
Qed.

(** The structure after the substitution and the removal. *)
#[local] Lemma rep_wf D u st : substituted n m (n :: X ++ Y) (Data s) D ->
  (forall a, a <> n -> use_of u a = uses s a + (if decide (a = m) then occ (Data s) (n :: X ++ Y) n else 0) - count a (args_of D n)) ->
  wf_ir (mkIR D u (pre ++ X ++ Y) (Cursor s) (NextNode s) st).
Proof.
  intros HS HU. pose proof rep_ne as Hne. destruct rep_ids as [Hn0 Hm0]. destruct rep_split as (Hn1 & Hn2 & Hnd & _).
  pose proof (substituted_code s n m pre (X ++ Y) D Hw HC Hne HS) as HD.
  split; cbn [Code Data NextNode].
  - exact Hnd.
  - intros x Hx. destruct (rep_in x Hx) as [Hxc _]. rewrite HD by exact Hxc.
    destruct (ir_data _ Hw x Hxc) as [h' ->]. eexists. reflexivity.
  - intros x Hx. apply (ir_ids _ Hw), rep_in, Hx.
  - intros x a Hx Ha. destruct (rep_in x Hx) as [Hxc _]. destruct (ir_data _ Hw x Hxc) as [h' Hh'].
    rewrite (substituted_args D n m x h') in Ha by (rewrite HD, Hh' by exact Hxc; reflexivity).
    apply in_map_subst in Ha as [->|[Ha _]]; [apply (ir_ids _ Hw m), rep_m|].
    apply (ir_args _ Hw x a Hxc). unfold args_of. rewrite Hh'. exact Ha.
  - pose proof (ir_deps _ Hw) as Hd. rewrite HC in Hd. apply deps_app in Hd as [Hd1 [_ Hd2]].
    apply deps_app in Hd2 as [Hd2 Hd3]. rewrite !deps_app.
    assert (forall l : list NodeID, (forall x, x ∈ l -> x ∈ Code s) -> forall x, x ∈ l ->
      D !! x = (fun h => set_args (map (subst n m) (Args h)) h) <$> Data s !! x) as HDl
      by (intros l Hl x Hx; apply HD, Hl, Hx).
    split; [|split].
    + apply (deps_subst (Data s) D n m [] [] pre Hn0 Hm0 Hn1); [|auto| |exact Hd1].
      * apply HDl. intros x Hx. rewrite HC, elem_of_app. auto.
      * right. intros x Hx. apply (unused_before s pre n (X ++ Y)); auto.
    + apply (deps_subst (Data s) D n m (n :: pre ++ []) (pre ++ []) X Hn0 Hm0); [| | |auto|exact Hd2].
      * intros Hx. apply Hn2, elem_of_app. auto.
      * apply HDl. intros x Hx. rewrite HC, elem_of_app, elem_of_cons, elem_of_app. auto.
      * intros x Hx Hxn. apply elem_of_cons in Hx as [?|?]; [contradiction|assumption].
    + apply (deps_subst (Data s) D n m (X ++ n :: pre ++ []) (X ++ pre ++ []) Y Hn0 Hm0); [| | | |exact Hd3].
      * intros Hx. apply Hn2, elem_of_app. auto.
      * apply HDl. intros x Hx. rewrite HC, elem_of_app, elem_of_cons, elem_of_app. auto.
      * intros x. rewrite !elem_of_app, elem_of_cons, elem_of_app. intros [?|[?|?]] ?; tauto.
      * left. rewrite !elem_of_app in *. tauto.
  - intros x h' a Hx Hh' Ha. destruct (rep_in x Hx) as [Hxc _]. rewrite HD in Hh' by exact Hxc.
    destruct (Data s !! x) as [h0|] eqn:E0; [|discriminate]. injection Hh' as <-.
    rewrite block_args_subst in Ha. apply list_elem_of_fmap in Ha as (b & -> & Hb).
    intros Hin. apply (ir_blocks _ Hw x h0 b Hxc E0 Hb). unfold subst in Hin. destruct (decide (b = n)) as [->|].
    + rewrite HC, elem_of_app, elem_of_cons. auto.
    + apply rep_in, Hin.
  - intros a Ha. change (uses _ a) with (use_of u a). destruct (rep_in a Ha) as [Hac Han]. rewrite HU by exact Han.
    rewrite (ir_uses _ Hw a Hac).
    assert (occ D (Code s) a = moved n m a (occ (Data s) (Code s) n) (occ (Data s) (Code s) a)) as E.
    { apply occ_subst; [exact Hne|]. intros x Hx. destruct (ir_data _ Hw x Hx) as [h' Hh'].
      rewrite (substituted_args D n m x h') by (rewrite HD, Hh' by exact Hx; reflexivity).
      unfold args_of. rewrite Hh'. reflexivity. }
    assert (occ (Data s) pre n = 0) as Ez.
    { apply occ_zero. intros x Hx. apply (unused_before s pre n (X ++ Y)); auto. }
    rewrite HC in E |- *. rewrite !occ_app in *. cbn [occ] in E |- *. rewrite !occ_app in *.
    unfold moved in E. destruct (decide (a = n)); [contradiction|]. destruct (decide (a = m)); lia.
  - intros a Ha. change (uses _ a) with (use_of u a).
    assert (n ∈ Code s) as Hnc by (rewrite HC, elem_of_app, elem_of_cons; auto).
    pose proof (ir_ids _ Hw n Hnc). pose proof (ir_ids _ Hw m rep_m).
    assert (count a (args_of D n) = 0) as Ec.
    { apply count_zero. rewrite (substituted_args D n m n h) by (rewrite HD, Hh by exact Hnc; reflexivity).
      intros [->|[Hin _]]%in_map_subst; [lia|].
      enough (a < NextNode s)%nat by lia. apply (ir_args _ Hw n a Hnc). unfold args_of. rewrite Hh. exact Hin. }
    rewrite HU by (intros ->; lia). rewrite (ir_fresh _ Hw a Ha), Ec. destruct (decide (a = m)); [subst; lia|lia].
  - destruct (ir_header _ Hw) as (h0 & H0 & HO). exists h0. split; [|exact HO].
    rewrite (HS InvalidNode). destruct (decide (InvalidNode ∈ n :: X ++ Y)) as [Hin|_]; [|exact H0].
    assert (InvalidNode ∈ Code s) as Hc by (rewrite HC, elem_of_app; auto).
    destruct (ir_ids _ Hw _ Hc) as [? _]. congruence.
Qed.

Lemma ReplaceAllUsesWith_ok : exists s', ReplaceAllUsesWith n m s = Ok (tt, s') /\ replaced n m pre (X ++ Y) s s'.
Proof.
  pose proof rep_ne as Hne. destruct rep_split as (Hn1 & Hn2 & Hnd & Hnd2).
  unfold ReplaceAllUsesWith. rewrite (M_bind_Ok get_state _ s s s eq_refl). cbn beta.
  rewrite HC, from_node_split by exact Hn1.
  rewrite (M_bind_Ok (lift (deref (Some (n :: X ++ Y)))) _ s (n :: X ++ Y) s eq_refl).
  assert (n ∈ Code s) as Hnc by (rewrite HC, elem_of_app, elem_of_cons; auto).
  destruct (ReplaceAllUsesWithRange_spec n m (n :: X ++ Y) s 0 Hne Hnd2) as (D & u & E & HS & Un & Ua).
  { intros x Hx. apply (ir_data _ Hw). rewrite HC, elem_of_app. auto. }
  { rewrite (ir_uses _ Hw n Hnc), HC, occ_app. rewrite (proj2 (occ_zero (Data s) pre n)); [lia|].
    intros x Hx. apply (unused_before s pre n (X ++ Y)); auto. }
  { lia. }
  rewrite (M_bind_Ok _ _ _ _ _ E). set (s1 := set_NumUses u (set_Data D s)).
  rewrite (M_bind_Ok get_state _ s1 s1 s1 eq_refl). cbn beta. change (uses s1 n) with (use_of u n). rewrite Un.
  rewrite (M_bind_Ok (check (0 =? 0)) _ s1 tt s1 eq_refl).
  assert (D !! n = Some (set_args (map (subst n m) (Args h)) h)) as HDn.
  { rewrite (HS n). destruct (decide (n ∈ n :: X ++ Y)) as [_|Hx]; [rewrite Hh; reflexivity|]. destruct Hx. apply elem_of_cons. auto. }
  rewrite (M_bind_Ok _ _ _ _ _ (GetOpHeader_run s1 n _ HDn)). cbn [Op set_args]. rewrite Hp. cbn [negb].
  unfold Remove, RemoveArgUses. rewrite M_bind_assoc.
  rewrite (M_bind_Ok _ _ _ _ _ (GetOpHeader_run s1 n _ HDn)).
  unfold mbind, M_bind, Unlink, modify, s1. cbn [Code set_NumUses set_Data Args set_args].
  rewrite HC, next_in_split, filter_split by assumption.
  eexists. split; [reflexivity|]. split; try reflexivity.
  - apply (rep_wf D); [exact HS|]. intros a Ha. cbn [NumUses set_NumUses]. rewrite use_remove_all.
    rewrite Ua by exact Ha.
    assert (args_of D n = map (subst n m) (Args h)) as -> by (unfold args_of; rewrite HDn; reflexivity). reflexivity.
  - cbn. apply lookup_insert_eq.
  - exact HS.
Qed.
End Replace.

Lemma replaced_valid {W} `{World W} G s s' n m pre post h w w' : wf_ir s -> Code s = pre ++ n :: post -> n <> m -> m ∈ Code s ->
  replaced n m pre post s s' -> Data s !! n = Some h -> HasSideEffects (Op h) = false -> G n = G m ->
  valid G (Data s) (Code s) w w' -> valid G (Data s') (Code s') w w'.
Proof.
  intros Hw HC Hne Hm R Hh Hp HG Hv. rewrite (rp_code _ _ _ _ _ _ R).
  assert (n ∈ Code s) as Hnc by (rewrite HC, elem_of_app, elem_of_cons; auto).
  rewrite HC in Hv. apply (valid_remove _ _ _ _ _ _ _ _ Hh Hp) in Hv.
  refine (valid_subst G (Data s) (Data s') n m _ w w' _ _ HG _ Hv); [apply (ir_ids _ Hw n Hnc)|apply (ir_ids _ Hw m Hm)|].
  intros x Hx. apply (substituted_code s n m pre post (Data s') Hw HC Hne (rp_data _ _ _ _ _ _ R)).
  rewrite HC, elem_of_app, elem_of_cons. apply elem_of_app in Hx. tauto.
Qed.

(** ** Changing a node in place *)

Lemma split_code s n : n ∈ Code s -> exists pre post, Code s = pre ++ n :: post.
Proof. intros H. apply list_elem_of_split in H as (pre & post & E). eauto. Qed.

Lemma in_code s pre n post : Code s = pre ++ n :: post -> n ∈ Code s.
Proof. intros ->. apply elem_of_app. right. apply elem_of_cons. auto. Qed.

Lemma wf_change s pre n post h h' u : wf_ir s -> Code s = pre ++ n :: post -> Data s !! n = Some h ->
  (forall a, a ∈ value_args h' -> a ∈ pre) ->
  (forall a, a ∈ Args h' -> (a < NextNode s)%nat) -> (forall a, a ∈ block_args h' -> ~ a ∈ Code s) ->
  (forall a, use_of u a = uses s a + count a (Args h') - count a (Args h)) ->
  wf_ir (set_NumUses u (set_Data (<[n := h']> (Data s)) s)).
Proof.
  intros Hw HC Hh Hv Ha Hb Hu. pose proof (in_code _ _ _ _ HC) as Hnc. pose proof (ir_nodup _ Hw) as Hnd. rewrite HC in Hnd.
  destruct (nodup_split n pre post Hnd) as (Hn1 & Hn2 & _ & _).
  assert (forall x, x <> n -> <[n := h']> (Data s) !! x = Data s !! x) as Hother by (intros; apply lookup_insert_ne; congruence).
  split; cbn [Code Data NextNode set_NumUses set_Data].
  - apply Hw.
  - intros x Hx. apply lookup_insert_is_Some. destruct (decide (n = x)); [auto|right; split; [assumption|apply (ir_data _ Hw x Hx)]].
  - apply Hw.
  - intros x a Hx. rewrite args_of_insert. destruct (decide (n = x)); [apply Ha|apply (ir_args _ Hw x a Hx)].
  - pose proof (ir_deps _ Hw) as Hd. rewrite HC in Hd |- *. apply deps_app in Hd as [Hd1 [_ Hd2]]. apply deps_app.
    split; [eapply deps_ext; [|exact Hd1]; intros x Hx; apply Hother; congruence|]. split.
    + intros h0 a. rewrite lookup_insert_eq. intros [= <-] Hin. apply elem_of_app. left. apply Hv, Hin.
    + eapply deps_ext; [|exact Hd2]. intros x Hx. apply Hother. congruence.
  - intros x h0 a Hx Hx0 Hin. destruct (Nat.eq_dec x n) as [->|Hne].
    + rewrite lookup_insert_eq in Hx0. injection Hx0 as <-. apply Hb, Hin.
    + rewrite Hother in Hx0 by exact Hne. apply (ir_blocks _ Hw x h0 a Hx Hx0 Hin).
  - intros a Hac. change (uses _ a) with (use_of u a). rewrite Hu, (ir_uses _ Hw a Hac).
    rewrite HC, !occ_app. cbn [occ]. rewrite args_of_insert. unfold args_of at 1. rewrite Hh.
    destruct (decide (n = n)); [|congruence].
    rewrite !(occ_ext (Data s) (<[n := h']> (Data s))); [lia| |];
      intros x Hx; rewrite args_of_insert; destruct (decide (n = x)); congruence.
  - intros a Hf. change (uses _ a) with (use_of u a). rewrite Hu, (ir_fresh _ Hw a Hf).
    rewrite !(proj2 (count_zero a _)); [lia| |].
    + intros Hin. enough (a < NextNode s)%nat by lia. apply (ir_args _ Hw n a Hnc). unfold args_of. rewrite Hh. exact Hin.
    + intros Hin. specialize (Ha a Hin). lia.
  - destruct (ir_header _ Hw) as (h0 & H0 & HO). exists h0. split; [|exact HO]. rewrite Hother; [exact H0|].
    intros E. apply (ir_ids _ Hw n Hnc). congruence.
Qed.

Lemma args_code s pre n post h a : wf_ir s -> Code s = pre ++ n :: post -> Data s !! n = Some h -> a ∈ value_args h -> a ∈ pre.
Proof.
  intros Hw HC Hh Ha. pose proof (ir_deps _ Hw) as Hd. rewrite HC in Hd. apply deps_app in Hd as [_ [Hd _]].
  specialize (Hd h a Hh Ha). apply elem_of_app in Hd as [?|Hd]; [assumption|inversion Hd].
Qed.

Lemma in_pre s pre n post a : Code s = pre ++ n :: post -> a ∈ pre -> a ∈ Code s.
Proof. intros -> Ha. apply elem_of_app. auto. Qed.

(** Overwriting a node by a constant. *)
Lemma ReplaceWithConstant_ok s pre n post h k : wf_ir s -> Code s = pre ++ n :: post -> Data s !! n = Some h ->
  sizeof_IROp_Constant <= IRSizes h ->
  exists s', ReplaceWithConstant n k s = Ok (tt, s') /\ wf_ir s' /\
    Code s' = Code s /\ Cursor s' = Cursor s /\ NextNode s' = NextNode s /\ Stale s' = Stale s /\
    Data s' = <[n := mkOp (OP_CONSTANT k) (Size h) (ElementSize h) []]> (Data s).
Proof.
  intros Hw HC Hh Hsz. unfold ReplaceWithConstant, RemoveArgUses.
  rewrite (M_bind_Ok _ _ _ _ _ (GetOpHeader_run s n h Hh)).
  destruct (Z.leb_spec sizeof_IROp_Constant (IRSizes h)); [|lia]. rewrite M_bind_assoc.
  rewrite (M_bind_Ok _ _ _ _ _ (GetOpHeader_run s n h Hh)). unfold mbind, M_bind, modify.
  eexists. split; [reflexivity|]. split; [|repeat split].
  apply (wf_change s pre n post h (mkOp (OP_CONSTANT k) (Size h) (ElementSize h) [])
    (foldl (fun u a => RemoveUse a u) (NumUses s) (Args h)) Hw HC Hh).
  - intros a Ha. inversion Ha.
  - intros a Ha. inversion Ha.
  - intros a Ha. inversion Ha.
  - intros a. rewrite use_remove_all. unfold uses, count. cbn. lia.
Qed.

(** Replacing an argument by a value defined earlier. *)
Lemma count_insert a (args : list NodeID) (i : nat) old new : args !! i = Some old ->
  count a (<[i := new]> args) = count a args + (if decide (new = a) then 1 else 0) - (if decide (old = a) then 1 else 0).
Proof.
  revert i. induction args as [|b args IH]; intros [|i]; cbn; try discriminate.
  - intros [= ->]. change (count a (new :: args) = count a (old :: args) + (if decide (new = a) then 1 else 0) - (if decide (old = a) then 1 else 0)).
    rewrite !count_cons. lia.
  - intros E. specialize (IH i E). change (count a (b :: <[i := new]> args) = count a (b :: args) + (if decide (new = a) then 1 else 0) - (if decide (old = a) then 1 else 0)).
    rewrite !count_cons. lia.
Qed.

Lemma ReplaceNodeArgument_ok s pre n post h i old new : wf_ir s -> Code s = pre ++ n :: post -> Data s !! n = Some h ->
  Args h !! i = Some old -> let h' := set_args (<[i := new]> (Args h)) h in
  (forall a, a ∈ value_args h' -> a ∈ pre) -> (new < NextNode s)%nat ->
  (forall a, a ∈ block_args h' -> ~ a ∈ Code s) ->
  exists s', ReplaceNodeArgument n i new s = Ok (tt, s') /\ wf_ir s' /\
    Code s' = Code s /\ Cursor s' = Cursor s /\ NextNode s' = NextNode s /\ Stale s' = Stale s /\
    Data s' = <[n := h']> (Data s).
Proof.
  intros Hw HC Hh Hi h' Hv Hlt Hb. unfold ReplaceNodeArgument.
  rewrite (M_bind_Ok _ _ _ _ _ (GetOpHeader_run s n h Hh)). rewrite Hi.
  rewrite (M_bind_Ok (lift (deref (Some old))) _ s old s eq_refl). unfold modify.
  eexists. split; [reflexivity|]. split; [|repeat split].
  apply (wf_change s pre n post h h' (AddUse new (RemoveUse old (NumUses s))) Hw HC Hh Hv).
  - intros a Ha. cbn in Ha. apply list_elem_of_In, list_elem_of_In in Ha.
    assert (a = new \/ a ∈ Args h) as [->|Hin].
    { apply list_elem_of_lookup in Ha as (j & Hj). destruct (Nat.eq_dec i j) as [->|Hne].
      - rewrite list_lookup_insert_eq in Hj by (apply lookup_lt_Some in Hi; exact Hi). injection Hj as ->. auto.
      - rewrite list_lookup_insert_ne in Hj by exact Hne. right. apply list_elem_of_lookup. eauto. }
    + exact Hlt.
    + apply (ir_args _ Hw n a (in_code _ _ _ _ HC)). unfold args_of. rewrite Hh. exact Hin.
  - exact Hb.
  - intros a. rewrite use_AddUse, use_RemoveUse. cbn [Args set_args h']. rewrite (count_insert a _ i old new Hi). unfold uses. lia.
Qed.

(** ** Allocation *)

Definition upd {A} (G : NodeID -> A) (k : NodeID) (v : A) : NodeID -> A := fun a => if decide (a = k) then v else G a.

Record allocated (c k : NodeID) (h : IROp_Header) (pre post : list NodeID) (s s' : IRList) : Prop := {
  al_wf : wf_ir s';
  al_code : Code s' = pre ++ c :: k :: post;
  al_cursor : Cursor s' = k;
  al_next : NextNode s' = S k;
  al_stale : Stale s' = Stale s;
  al_data : Data s' = <[k := h]> (Data s)
}.

Lemma fresh_not_in s : wf_ir s -> ~ NextNode s ∈ Code s.
Proof. intros Hw Hin. destruct (ir_ids _ Hw _ Hin) as [_ ?]. lia. Qed.

Lemma args_lt_block h k : k ∈ block_args h -> (forall a, a ∈ Args h -> (a < k)%nat) -> False.
Proof.
  intros Hb Ha. assert (k ∈ Args h) as Hk; [|specialize (Ha k Hk); lia]. revert Hb. destruct h as [op sz es args]. unfold block_args.
  cbn [Op Args]. destruct op; auto; try (intros Hb; inversion Hb; fail);
    destruct args as [|x [|y [|z [|t [|]]]]]; try (intros Hb; inversion Hb; fail); rewrite !elem_of_cons; tauto.
Qed.

Lemma AllocateOp_ok s c pre post op size args : wf_ir s -> Cursor s = c -> Code s = pre ++ c :: post ->
  let h := mkOp op size size args in let k := NextNode s in
  (forall a, a ∈ value_args h -> a ∈ pre \/ a = c) ->
  (forall a, a ∈ args -> (a < k)%nat) -> (forall a, a ∈ block_args h -> ~ a ∈ Code s) ->
  exists s', AllocateOp op size args s = Ok (k, s') /\ allocated c k h pre post s s'.
Proof.
  intros Hw Hcur HC h k Hv Ha Hb. pose proof (in_code _ _ _ _ HC) as Hcc. pose proof (ir_nodup _ Hw) as Hnd. rewrite HC in Hnd.
  destruct (nodup_split c pre post Hnd) as (Hc1 & Hc2 & _ & _). pose proof (fresh_not_in s Hw) as Hk. fold k in Hk.
  assert (k <> c /\ ~ k ∈ pre /\ ~ k ∈ post) as (Hkc & Hk1 & Hk2).
  { rewrite HC, elem_of_app, elem_of_cons in Hk. tauto. }
  assert (forall x, x <> k -> <[k := h]> (Data s) !! x = Data s !! x) as Hother by (intros; apply lookup_insert_ne; congruence).
  assert (forall x, x ∈ pre ++ c :: k :: post -> x = k \/ x ∈ Code s) as Hin.
  { intros x. rewrite HC, !elem_of_app, !elem_of_cons. tauto. }
  unfold AllocateOp. rewrite (M_bind_Ok get_state _ s s s eq_refl). cbn beta. rewrite Hcur, HC, insert_after_split by exact Hc1.
  rewrite (M_bind_Ok (lift (deref (Some (pre ++ c :: k :: post)))) _ s (pre ++ c :: k :: post) s eq_refl).
  unfold mbind, M_bind, modify, mret, M_ret. eexists. split; [reflexivity|]. split; try reflexivity. fold k. fold h.
  assert (forall x, x ∈ Code s -> args_of (<[k := h]> (Data s)) x = args_of (Data s) x) as Hargs.
  { intros x Hx. rewrite args_of_insert. destruct (decide (k = x)); [congruence|reflexivity]. }
  split; cbn [Code Data NextNode].
  - apply list.NoDup_app in Hnd as (N1 & N2 & N3). apply list.NoDup_cons in N3 as [N3 N4].
    apply list.NoDup_app. split; [exact N1|]. split.
    + intros x Hx. rewrite !elem_of_cons. intros [->|[->|Hx']]; [contradiction|contradiction|]. apply (N2 x Hx), elem_of_cons. auto.
    + constructor; [rewrite elem_of_cons; intuition congruence|]. constructor; [exact Hk2|exact N4].
  - intros x Hx. apply lookup_insert_is_Some. destruct (decide (k = x)); [auto|right]. split; [assumption|].
    apply (ir_data _ Hw). destruct (Hin x Hx); congruence.
  - intros x Hx. destruct (Hin x Hx) as [->|Hxc]; [split; [|lia]|destruct (ir_ids _ Hw x Hxc); split; [assumption|lia]].
    destruct (ir_ids _ Hw c Hcc). intros E. unfold k, InvalidNode in *. lia.
  - intros x a Hx. rewrite args_of_insert. destruct (decide (k = x)) as [E|Hn].
    + intros Hin'. specialize (Ha a Hin'). unfold k in *. lia.
    + intros Hin'. destruct (Hin x Hx) as [?|Hxc]; [congruence|]. pose proof (ir_args _ Hw x a Hxc Hin'). unfold k. lia.
  - pose proof (ir_deps _ Hw) as Hd. rewrite HC in Hd. apply deps_app in Hd as [Hd1 [Hd2 Hd3]].
    apply deps_app. split; [eapply deps_ext; [|exact Hd1]; intros x Hx; apply Hother; congruence|]. split; [|split].
    + intros h0 a. rewrite Hother by congruence. apply Hd2.
    + intros h0 a. rewrite lookup_insert_eq. intros [= <-] Hin'. rewrite elem_of_cons, elem_of_app. destruct (Hv a Hin'); auto.
    + eapply (deps_mono _ (c :: pre ++ [])); [intros x Hx; apply elem_of_cons; auto|].
      eapply deps_ext; [|exact Hd3]. intros x Hx. apply Hother. congruence.
  - intros x h0 a Hx Hx0 Hin'. destruct (Nat.eq_dec x k) as [->|Hne].
    + rewrite lookup_insert_eq in Hx0. injection Hx0 as <-. intros Hc. destruct (Hin a Hc) as [->|?]; [|apply (Hb a Hin'); assumption].
      destruct (args_lt_block h k Hin' Ha).
    + rewrite Hother in Hx0 by exact Hne. destruct (Hin x Hx) as [?|Hxc]; [contradiction|].
      intros Hc. destruct (Hin a Hc) as [->|?]; [|apply (ir_blocks _ Hw x h0 a Hxc Hx0 Hin'); assumption].
      apply (args_lt_block h0 k Hin'). intros a Ha0. apply (ir_args _ Hw x a Hxc). unfold args_of. rewrite Hx0. exact Ha0.
  - intros a Hac. change (uses _ a) with (use_of (foldl (fun u a => AddUse a u) (NumUses s) args) a). rewrite use_add_all.
    rewrite occ_app. cbn [occ]. rewrite args_of_insert. destruct (decide (k = c)); [congruence|].
    rewrite (args_of_insert _ k h k). destruct (decide (k = k)); [|congruence]. cbn [Args h].
    rewrite !(occ_ext (Data s) (<[k := h]> (Data s)));
      try (intros x Hx; apply Hargs; rewrite HC, elem_of_app, elem_of_cons; tauto).
    destruct (Hin a Hac) as [->|Hc].
    + assert (count k args = 0) as Ez by (apply count_zero; intros Hx; specialize (Ha k Hx); lia).
      assert (occ (Data s) (Code s) k = 0) as Eo.
      { apply occ_zero. intros x Hx Hx'. pose proof (ir_args _ Hw x k Hx Hx'). unfold k in *. lia. }
      rewrite HC, occ_app in Eo. cbn [occ] in Eo. pose proof (occ_nonneg (Data s) pre k).
      pose proof (occ_nonneg (Data s) post k). pose proof (count_nonneg k (args_of (Data s) c)).
      fold (uses s k). rewrite (ir_fresh _ Hw k (Nat.le_refl _)). lia.
    + fold (uses s a). rewrite (ir_uses _ Hw a Hc), HC, occ_app. cbn [occ]. lia.
  - intros a Hf. change (uses _ a) with (use_of (foldl (fun u a => AddUse a u) (NumUses s) args) a). rewrite use_add_all.
    rewrite (proj2 (count_zero a args)) by (intros Hx; specialize (Ha a Hx); lia).
    fold (uses s a). rewrite (ir_fresh _ Hw a); [reflexivity|]. unfold k in Hf. lia.
  - destruct (ir_header _ Hw) as (h0 & H0 & HO). exists h0. split; [|exact HO]. rewrite Hother; [exact H0|].
    destruct (ir_ids _ Hw c Hcc). unfold k, InvalidNode in *. lia.
Qed.

(** The sizes of a new node may be set afterwards. *)
Lemma allocated_resize c k h h' pre post s s' : wf_ir s -> Code s = pre ++ c :: post -> k = NextNode s -> Op h' = Op h -> Args h' = Args h ->
  allocated c k h pre post s s' -> allocated c k h' pre post s (set_Data (<[k := h']> (Data s')) s').
Proof.
  intros Hw HC Hk Ho Ha [Hw' HC' Hcur HN Hst HD].
  assert (forall x, args_of (<[k := h']> (Data s')) x = args_of (Data s') x) as Hargs.
  { intros x. rewrite args_of_insert. destruct (decide (k = x)) as [<-|]; [|reflexivity].
    unfold args_of. rewrite HD, lookup_insert_eq. exact Ha. }
  assert (value_args h' = value_args h) as Hva by (unfold value_args; rewrite Ho, Ha; reflexivity).
  assert (block_args h' = block_args h) as Hba by (unfold block_args; rewrite Ho, Ha; reflexivity).
  assert (forall x h0, <[k := h']> (Data s') !! x = Some h0 -> exists h1, Data s' !! x = Some h1 /\ value_args h0 = value_args h1 /\ block_args h0 = block_args h1) as Hd.
  { intros x h0. destruct (Nat.eq_dec k x) as [<-|Hne].
    - rewrite lookup_insert_eq. intros [= <-]. exists h. rewrite HD, lookup_insert_eq. auto.
    - rewrite lookup_insert_ne by exact Hne. eauto. }
  split; cbn [Code Data NextNode Cursor Stale set_Data]; try assumption.
  - destruct Hw' as [H1 H2 H3 H4 H5 H6 H7 H8 H9]. split; cbn [Code Data NextNode set_Data]; auto.
    + intros x Hx. apply lookup_insert_is_Some. destruct (decide (k = x)); [auto|right; split; [assumption|auto]].
    + intros x a Hx. rewrite Hargs. apply H4, Hx.
    + assert (forall seen ns, deps (Data s') seen ns -> deps (<[k := h']> (Data s')) seen ns) as Hdeps; [|apply Hdeps, H5].
      intros seen ns. revert seen. induction ns as [|x ns IH]; intros seen; [auto|]. intros [D1 D2]. split; [|auto].
      intros h0 a Hh0. destruct (Hd x h0 Hh0) as (h1 & E1 & -> & _). apply (D1 h1 a E1).
    + intros x h0 a Hx Hh0. destruct (Hd x h0 Hh0) as (h1 & E1 & _ & ->). apply (H6 x h1 a Hx E1).
    + intros a Hx. change (uses _ a) with (uses s' a). rewrite H7 by exact Hx. symmetry. apply occ_ext. auto.
    + destruct H9 as (h0 & E0 & Eo). exists h0. split; [|exact Eo]. rewrite lookup_insert_ne; [exact E0|].
      assert (k ∈ Code s') as Hkc by (rewrite HC', elem_of_app, !elem_of_cons; auto). apply (H3 k Hkc).
  - rewrite HD. apply insert_insert_eq.
Qed.

(** ** Meaning under a change of a node, and of an allocation *)

Definition agree (k : NodeID) (G G' : NodeID -> Z) : Prop := forall a, (a < k)%nat -> G' a = G a.

Section Change.
Context {W : Type} `{World W}.

Lemma node_sem_agree G G' h w : (forall a, a ∈ Args h -> G' a = G a) -> node_sem G' h w = node_sem G h w.
Proof.
  intros HG. assert (forall o, o ∈ Args h -> offset_value G' o = offset_value G o) as Ho.
  { intros o Hin. unfold offset_value. rewrite HG by exact Hin. reflexivity. }
  assert (map G' (Args h) = map G (Args h)) as Hmap.
  { apply map_ext_in. intros a Ha. apply HG, list_elem_of_In, Ha. }
  destruct h as [op sz es args]. unfold node_sem. cbn [Op Args Size] in *.
  destruct op; rewrite ?Hmap; try reflexivity; destruct args as [|x [|y [|z [|t [|]]]]]; rewrite ?Hmap; try reflexivity;
    rewrite ?Ho, ?(HG x), ?(HG y) by (rewrite !elem_of_cons; auto); reflexivity.
Qed.

Lemma valid_agree G G' D ns w w' : (forall x, x ∈ ns -> G' x = G x /\ forall a, a ∈ args_of D x -> G' a = G a) ->
  valid G D ns w w' -> valid G' D ns w w'.
Proof.
  revert w. induction ns as [|x ns IH]; intros w HG; [auto|]. intros (h & w1 & Hh & Hs & Hv).
  destruct (HG x ltac:(apply elem_of_cons; auto)) as [Hx Ha]. exists h, w1. split; [exact Hh|]. split.
  - rewrite (node_sem_agree G), Hx; [exact Hs|]. intros a Hin. apply Ha. unfold args_of. rewrite Hh. exact Hin.
  - apply IH; [intros y Hy; apply HG, elem_of_cons; auto|exact Hv].
Qed.

(** In a valid block every node has its value. *)
Lemma valid_at G D ns w w' n : valid G D ns w w' -> n ∈ ns ->
  exists h w1 w2, D !! n = Some h /\ node_sem G h w1 = Some (G n, w2).
Proof.
  revert w. induction ns as [|x ns IH]; intros w; [intros _ Hn; inversion Hn|]. intros (h & w1 & Hh & Hs & Hv) Hn.
  apply elem_of_cons in Hn as [->|Hn]; [eauto 6|]. apply (IH w1 Hv Hn).
Qed.

Lemma valid_change G D n h h' ns w w' : D !! n = Some h ->
  (forall w r, node_sem G h w = Some r -> node_sem G h' w = Some r) ->
  valid G D ns w w' -> valid G (<[n := h']> D) ns w w'.
Proof.
  intros Hn Hs. revert w. induction ns as [|x ns IH]; intros w; [auto|]. intros (h0 & w1 & Hh & Hs0 & Hv).
  destruct (Nat.eq_dec x n) as [->|Hne].
  - exists h', w1. rewrite lookup_insert_eq. split; [reflexivity|]. split; [|apply IH, Hv].
    apply Hs. congruence.
  - exists h0, w1. rewrite lookup_insert_ne by congruence. split; [exact Hh|]. split; [exact Hs0|apply IH, Hv].
Qed.

Lemma value_upd_eq {A} (G : NodeID -> A) k v : upd G k v k = v.
Proof. unfold upd. destruct (decide (k = k)); congruence. Qed.
Lemma value_upd_ne {A} (G : NodeID -> A) k v a : a <> k -> upd G k v a = G a.
Proof. unfold upd. destruct (decide (a = k)); congruence. Qed.
Lemma upd_agree G k v : agree k G (upd G k v).
Proof. intros a Ha. apply value_upd_ne. lia. Qed.

Lemma allocated_valid G s s' c k h pre post w w' v : wf_ir s -> Code s = pre ++ c :: post -> k = NextNode s ->
  allocated c k h pre post s s' -> (forall a, a ∈ Args h -> (a < k)%nat) ->
  (forall w, node_sem G h w = Some (v, w)) ->
  valid G (Data s) (Code s) w w' -> valid (upd G k v) (Data s') (Code s') w w'.
Proof.
  intros Hw HC -> R Ha Hs Hv. set (k := NextNode s) in *. rewrite (al_code _ _ _ _ _ _ _ R), (al_data _ _ _ _ _ _ _ R).
  assert (valid (upd G k v) (<[k := h]> (Data s)) (pre ++ c :: post) w w') as Hv'.
  { rewrite <- HC. apply (valid_ext _ (Data s)).
    - intros x Hx. apply lookup_insert_ne. pose proof (fresh_not_in s Hw). intros E. apply H0. fold k. rewrite E. exact Hx.
    - apply (valid_agree G); [|exact Hv]. intros x Hx. destruct (ir_ids _ Hw x Hx). split; [apply value_upd_ne; unfold k; lia|].
      intros a Hin. apply value_upd_ne. pose proof (ir_args _ Hw x a Hx Hin). unfold k. lia. }
  apply valid_app in Hv' as (w1 & H1 & (h0 & w2 & Hh0 & Hs0 & H2)). apply valid_app. exists w1. split; [exact H1|].
  exists h0, w2. split; [exact Hh0|]. split; [exact Hs0|]. exists h, w2. rewrite lookup_insert_eq. split; [reflexivity|].
  split; [|exact H2]. rewrite value_upd_eq, (node_sem_agree G); [apply Hs|]. intros a Hin. apply value_upd_ne. specialize (Ha a Hin). lia.
Qed.
End Change.

(** ** The cursor has no meaning *)

Lemma wf_cursor s n : wf_ir s -> wf_ir (set_Cursor n s).
Proof. intros [H1 H2 H3 H4 H5 H6 H7 H8 H9]. split; assumption. Qed.

(** ** Several changes of one node *)

Record changed (n : NodeID) (h' : IROp_Header) (s s' : IRList) : Prop := {
  ch_wf : wf_ir s';
  ch_code : Code s' = Code s;
  ch_cursor : Cursor s' = Cursor s;
  ch_next : NextNode s' = NextNode s;
  ch_data : Data s' = <[n := h']> (Data s)
}.

Lemma changed_trans n h1 h2 s s1 s2 : changed n h1 s s1 -> changed n h2 s1 s2 -> changed n h2 s s2.
Proof.
  intros [W1 C1 K1 N1 D1] [W2 C2 K2 N2 D2]. split; [exact W2|congruence|congruence|congruence|]. rewrite D2, D1. apply insert_insert_eq.
Qed.

Lemma changed_lookup n h' s s' : changed n h' s s' -> Data s' !! n = Some h'.
Proof. intros [_ _ _ _ ->]. apply lookup_insert_eq. Qed.

(** Another argument, which is a value like the old one or takes an empty place. *)
Lemma set_arg_ok s pre n post h i old new : wf_ir s -> Code s = pre ++ n :: post -> Data s !! n = Some h ->
  Args h !! i = Some old -> let h' := set_args (<[i := new]> (Args h)) h in
  (forall a, a ∈ value_args h' -> a = new \/ a ∈ value_args h) ->
  (forall a, a ∈ block_args h' -> ~ a ∈ Code s) -> new ∈ pre ->
  exists s', ReplaceNodeArgument n i new s = Ok (tt, s') /\ changed n h' s s'.
Proof.
  intros Hw HC Hh Hi h' Hv Hb Hn.
  destruct (ReplaceNodeArgument_ok s pre n post h i old new Hw HC Hh Hi) as (s' & E & Hw' & HC' & HK & HN & _ & HD).
  - intros a Ha. destruct (Hv a Ha) as [->|Ha']; [exact Hn|apply (args_code s pre n post h a Hw HC Hh Ha')].
  - apply (ir_ids _ Hw new), (in_pre _ _ _ _ _ HC Hn).
  - exact Hb.
  - exists s'. split; [exact E|]. split; assumption.
Qed.

(** What is computed before a node only needs values before it. *)
Lemma pre_args s pre post x h a : wf_ir s -> Code s = pre ++ post -> x ∈ pre -> Data s !! x = Some h -> a ∈ value_args h -> a ∈ pre.
Proof.
  intros Hw HC Hx Hh Ha. pose proof (ir_deps _ Hw) as Hd. rewrite HC in Hd. apply deps_app in Hd as [Hd _].
  destruct (deps_in _ _ _ _ _ _ Hd Hx Hh Ha) as [H1|H1]; [inversion H1|exact H1].
Qed.

Section ArithSem.
Context {W : Type} `{World W}.
Lemma arith_sem G h w1 v w2 : is_arith (Op h) = true -> node_sem G h w1 = Some (v, w2) ->
  operands_ok (Op h) (Size h) (map G (Args h)) = true /\ ir_value (Op h) (Size h) (map G (Args h)) = Some v /\
  forall w, node_sem G h w = Some (v, w).
Proof.
  destruct h as [op sz es args]. unfold node_sem. cbn [Op Args Size].
  destruct op; cbn [is_arith]; try discriminate; intros _; destruct (operands_ok _ _ _); try discriminate;
    destruct (ir_value _ _ _) as [v0|]; try discriminate; intros [= -> ->]; auto.
Qed.

(** The binary operations. *)
Lemma arith_args2 op sz vs v : (op = OP_ADD \/ op = OP_SUB \/ op = OP_MUL \/ op = OP_AND \/ op = OP_OR \/ op = OP_XOR \/ op = OP_LSHL \/ op = OP_LSHR) ->
  ir_value op sz vs = Some v -> exists x y, vs = [x; y].
Proof.
  intros Ho. destruct vs as [|x [|y [|z vs]]]; repeat destruct Ho as [->|Ho]; subst; cbn; try discriminate; eauto.
Qed.
End ArithSem.
