(* ===== verification/DeadCode.v ===== *)
(** * The dead code elimination pass

    [Interface/IR/Passes/DeadCodeElimination.cpp], on the code of one block: the
    block is walked backwards from its last node, and every node without side
    effects that has no use left is unlinked. *)
From Stdlib Require Import ZArith Lia Bool.
From stdpp Require Import base gmap list numbers option.
From S2P Require Import Prelude IR ALUOps Interp IRSpec IRList IRListLogic.
#[local] Open Scope Z_scope.

(** One round: the node is removed when nothing needs it. System calls, whose
    flags may take their side effects away, are not among the [IROps]. *)
Definition remove_dead (CodeNode : NodeID) (NumRemoved : Z) : P Z :=
  IROp ← GetOpHeader CodeNode;
  s ← get_state;
  if negb (HasSideEffects (Op IROp)) && (uses s CodeNode =? 0) then
    _ ← Remove CodeNode;
    mret (NumRemoved + 1)
  else mret NumRemoved.

(** The loop from [CodeLast] down to [CodeBegin]. A removed node keeps its links,
    so the node before it is the one it had before the round. *)
Fixpoint eliminate (fuel : nat) (CodeBegin CodeLast : NodeID) (NumRemoved : Z) : P Z :=
  match fuel with
  | O => fun _ => Undef
  | S fuel =>
      s ← get_state;
      let Previous := previous_in CodeLast (Code s) in
      NumRemoved ← remove_dead CodeLast NumRemoved;
      if decide (CodeLast = CodeBegin) then mret NumRemoved
      else eliminate fuel CodeBegin Previous NumRemoved
  end.

Definition last_node (l : list NodeID) : NodeID := List.last l InvalidNode.
(** The block's [Begin] and [Last] are the ends of its code. *)
Definition DeadCodeElimination : P bool :=
  s ← get_state;
  NumRemoved ← eliminate (length (Code s)) (first_node (Code s)) (last_node (Code s)) 0;
  mret (negb (NumRemoved =? 0)).

(** ** Removing an unused node *)

Lemma deps_unused D n seen ns : n <> InvalidNode -> ~ n ∈ ns -> (forall x, x ∈ ns -> ~ n ∈ args_of D x) ->
  deps D (n :: seen) ns -> deps D seen ns.
Proof.
  intros Hn Hnot Hu. apply (deps_subst D D n n (n :: seen) seen ns Hn Hn Hnot); [|intros x [->|Hx]%elem_of_cons; tauto|right; exact Hu].
  intros x Hx. specialize (Hu x Hx). unfold args_of in Hu. destruct (D !! x); [|reflexivity]. cbn.
  rewrite subst_id, set_args_id by exact Hu. reflexivity.
Qed.

Record removed (n : NodeID) (h : IROp_Header) (pre post : list NodeID) (s s' : IRList) : Prop := {
  rm_wf : wf_ir s';
  rm_code : Code s' = pre ++ post;
  rm_data : Data s' = Data s;
  rm_uses a : uses s' a = uses s a - count a (Args h)
}.

Lemma removed_wf s n h pre post u c st : wf_ir s -> Code s = pre ++ n :: post -> Data s !! n = Some h -> uses s n = 0 ->
  (forall a, use_of u a = uses s a - count a (Args h)) -> wf_ir (mkIR (Data s) u (pre ++ post) c (NextNode s) st).
Proof.
  intros Hw HC Hh H0 Hu. pose proof (in_code _ _ _ _ HC) as Hn. pose proof (ir_nodup _ Hw) as Hnd.
  rewrite HC in Hnd. destruct (nodup_split n pre post Hnd) as (Hn1 & Hn2 & Hnd' & _).
  assert (forall x, x ∈ pre ++ post -> x ∈ Code s) as Hsub by (intros x; rewrite HC, !elem_of_app, elem_of_cons; tauto).
  assert (forall x, x ∈ Code s -> ~ n ∈ args_of (Data s) x) as Hno by (apply occ_zero; rewrite <- (ir_uses _ Hw n Hn); exact H0).
  split; cbn [Code Data NextNode].
  - exact Hnd'.
  - intros x Hx. apply (ir_data _ Hw x (Hsub x Hx)).
  - intros x Hx. apply (ir_ids _ Hw x (Hsub x Hx)).
  - intros x a Hx. apply (ir_args _ Hw x a (Hsub x Hx)).
  - pose proof (ir_deps _ Hw) as Hd. rewrite HC in Hd. apply deps_app in Hd as [Hd1 [_ Hd2]]. apply deps_app. split; [exact Hd1|].
    apply (deps_unused _ n); [apply (ir_ids _ Hw n Hn)|exact Hn2| |exact Hd2].
    intros x Hx. apply Hno. rewrite HC, elem_of_app, elem_of_cons. auto.
  - intros x hx a Hx Ex Ha Hin. apply (ir_blocks _ Hw x hx a (Hsub x Hx) Ex Ha), Hsub, Hin.
  - intros a Ha. change (use_of u a = occ (Data s) (pre ++ post) a). rewrite Hu, (ir_uses _ Hw a (Hsub a Ha)), HC, !occ_app.
    cbn [occ]. replace (args_of (Data s) n) with (Args h) by (unfold args_of; rewrite Hh; reflexivity). lia.
  - intros a Ha. change (use_of u a = 0). rewrite Hu, (ir_fresh _ Hw a Ha), (proj2 (count_zero a (Args h))); [reflexivity|].
    intros Hin. pose proof (ir_args _ Hw n a Hn) as Hlt. unfold args_of in Hlt. rewrite Hh in Hlt. specialize (Hlt Hin). lia.
  - apply (ir_header _ Hw).
Qed.

Lemma Remove_ok s n h pre post : wf_ir s -> Code s = pre ++ n :: post -> Data s !! n = Some h -> uses s n = 0 ->
  exists s', Remove n s = Ok (tt, s') /\ removed n h pre post s s'.
Proof.
  intros Hw HC Hh H0. pose proof (ir_nodup _ Hw) as Hnd. rewrite HC in Hnd.
  destruct (nodup_split n pre post Hnd) as (Hn1 & Hn2 & _ & _).
  unfold Remove, RemoveArgUses. rewrite M_bind_assoc, (M_bind_Ok _ _ _ _ _ (GetOpHeader_run s n _ Hh)).
  unfold mbind, M_bind, Unlink, modify. cbn [Code Data NumUses Cursor NextNode Stale set_NumUses].
  rewrite HC, filter_split by assumption. eexists. split; [reflexivity|].
  split; [|reflexivity|reflexivity|intros a; apply use_remove_all].
  apply (removed_wf s n h pre post); try assumption. intros a. apply use_remove_all.
Qed.

(** ** The walk *)

Lemma sublist_same_length {A} (l k : list A) : l `sublist_of` k -> length l = length k -> l = k.
Proof.
  induction 1 as [|x l k Hs IH|x l k Hs IH]; cbn [length]; intros Hl; [reflexivity|f_equal; apply IH; lia|].
  pose proof (sublist_length _ _ Hs). lia.
Qed.

(** A node that the pass must keep: it has side effects or a use. *)
Definition live (s : IRList) (n : NodeID) : Prop :=
  (exists h, Data s !! n = Some h /\ HasSideEffects (Op h) = true) \/ uses s n <> 0.

Definition same_meaning (s s' : IRList) : Prop :=
  forall W (H : World W) G (w w' : W), valid G (Data s) (Code s) w w' -> valid G (Data s') (Code s') w w'.

Record cleaned (kept : list NodeID) (k k' : Z) (s s' : IRList) : Prop := {
  cl_wf : wf_ir s';
  cl_data : Data s' = Data s;
  cl_live n : n ∈ Code s' -> live s' n;
  cl_sub : Code s' `sublist_of` Code s;
  cl_count : k' - k = Z.of_nat (length (Code s)) - Z.of_nat (length (Code s'));
  cl_meaning : same_meaning s s'
}.

Lemma previous_split n p pre post : ~ n ∈ pre -> p <> n -> previous_in n (pre ++ p :: n :: post) = p.
Proof.
  intros Hn Hp. induction pre as [|x pre IH]; cbn [app previous_in]; [rewrite decide_True by reflexivity; reflexivity|].
  apply not_elem_of_cons in Hn as [Hx Hn]. destruct pre as [|y pre]; cbn [app] in *.
  - rewrite decide_False by congruence. apply IH, Hn.
  - rewrite decide_False by (apply not_elem_of_cons in Hn as [? _]; congruence). apply IH, Hn.
Qed.

(** The uses that a removed node gives back are those of nodes before it. *)
Lemma live_after s s' n h pre post x : wf_ir s -> Code s = pre ++ n :: post -> Data s !! n = Some h -> removed n h pre post s s' ->
  x ∈ post -> live s x -> live s' x.
Proof.
  intros Hw HC Hh R Hx [(hx & Ex & Hs)|Hu].
  - left. exists hx. rewrite (rm_data _ _ _ _ _ _ R). auto.
  - right. rewrite (rm_uses _ _ _ _ _ _ R), (proj2 (count_zero x (Args h))); [lia|].
    pose proof (in_code _ _ _ _ HC) as Hn. assert (x ∈ Code s) as Hxc by (rewrite HC, elem_of_app, elem_of_cons; auto).
    intros Ha. destruct (args_kind s n h x Hw Hn Hh Ha) as [Hv|]; [|contradiction].
    pose proof (args_code s pre n post h x Hw HC Hh Hv) as Hp. pose proof (ir_nodup _ Hw) as Hnd. rewrite HC in Hnd.
    destruct (nodup_split n pre post Hnd) as (_ & _ & Hnd' & _). apply list.NoDup_app in Hnd' as (_ & Hdis & _). apply (Hdis x Hp Hx).
Qed.

Lemma remove_dead_ok s n h pre post k : wf_ir s -> Code s = pre ++ n :: post -> Data s !! n = Some h ->
  (forall x, x ∈ post -> live s x) ->
  exists k' s' keep, remove_dead n k s = Ok (k', s') /\ wf_ir s' /\ Data s' = Data s /\ Code s' = pre ++ keep ++ post /\
    (keep = [] /\ k' = k + 1 \/ keep = [n] /\ k' = k) /\ (forall x, x ∈ keep ++ post -> live s' x) /\ same_meaning s s'.
Proof.
  intros Hw HC Hh Hl. unfold remove_dead. rewrite (M_bind_Ok _ _ _ _ _ (GetOpHeader_run s n _ Hh)), (M_bind_Ok get_state _ s s s eq_refl).
  cbn beta. destruct (negb (HasSideEffects (Op h)) && (uses s n =? 0)) eqn:E.
  - apply andb_true_iff in E as [Hp%negb_true_iff H0%Z.eqb_eq].
    destruct (Remove_ok s n h pre post Hw HC Hh H0) as (s' & Er & R). rewrite (M_bind_Ok _ _ _ _ _ Er).
    exists (k + 1), s', []. split; [reflexivity|]. split; [apply (rm_wf _ _ _ _ _ _ R)|]. split; [apply (rm_data _ _ _ _ _ _ R)|].
    split; [apply (rm_code _ _ _ _ _ _ R)|]. split; [auto|]. split.
    + intros x Hx. apply (live_after s s' n h pre post x); auto.
    + intros W H G w w' Hv. rewrite (rm_data _ _ _ _ _ _ R), (rm_code _ _ _ _ _ _ R). rewrite HC in Hv.
      apply (valid_remove _ _ _ n _ h); assumption.
  - exists k, s, [n]. split; [reflexivity|]. do 3 (split; [assumption || reflexivity|]). split; [auto|]. split; [|intros W H G w w' Hv; exact Hv].
    cbn [app]. intros x [->|Hx]%elem_of_cons; [|apply Hl, Hx]. apply andb_false_iff in E as [E%negb_false_iff|E%Z.eqb_neq]; [left; eauto|right; exact E].
Qed.

Lemma eliminate_ok fuel : forall pre n post b k s, wf_ir s -> Code s = pre ++ n :: post -> (forall x, x ∈ post -> live s x) ->
  first_node (pre ++ [n]) = b -> (length pre < fuel)%nat ->
  exists k' s', eliminate fuel b n k s = Ok (k', s') /\ cleaned post k k' s s'.
Proof.
  induction fuel as [|fuel IH]; intros pre n post b k s Hw HC Hl Hb Hf; [lia|]. cbn [eliminate].
  rewrite (M_bind_Ok get_state _ s s s eq_refl). cbn beta zeta. pose proof (in_code _ _ _ _ HC) as Hn.
  destruct (ir_data _ Hw n Hn) as [h Hh]. destruct (remove_dead_ok s n h pre post k Hw HC Hh Hl) as (k1 & s1 & keep & E & Hw1 & HD1 & HC1 & Hk & Hl1 & Hm1).
  rewrite (M_bind_Ok _ _ _ _ _ E). pose proof (ir_nodup _ Hw) as Hnd. rewrite HC in Hnd.
  destruct (nodup_split n pre post Hnd) as (Hn1 & Hn2 & _ & _).
  assert (Code s1 `sublist_of` Code s) as Hsub.
  { rewrite HC, HC1. apply sublist_app; [reflexivity|]. destruct Hk as [[-> _]|[-> _]]; [apply sublist_cons|]; reflexivity. }
  destruct (decide (n = b)) as [->|Hne].
  - assert (pre = []) as -> by (destruct pre as [|x pre]; [reflexivity|cbn in Hb; subst x; destruct Hn1; apply elem_of_cons; auto]).
    exists k1, s1. split; [reflexivity|]. split; auto.
    + intros x Hx. apply Hl1. rewrite HC1 in Hx. exact Hx.
    + rewrite HC, HC1. cbn [app length]. rewrite length_app. destruct Hk as [[-> ->]|[-> ->]]; cbn [length]; lia.
  - destruct (exists_last (l := pre)) as (pre' & p & ->); [intros ->; cbn in Hb; congruence|].
    rewrite <- app_assoc in HC, HC1, Hnd. cbn [app] in HC, HC1, Hnd.
    apply not_elem_of_app in Hn1 as [Hn1 Hp]. rewrite HC, previous_split; [|exact Hn1|intros ->; apply Hp, elem_of_cons; auto].
    destruct (IH pre' p (keep ++ post) b k1 s1 Hw1 HC1 Hl1) as (k2 & s2 & E2 & C).
    { rewrite <- Hb, <- app_assoc. destruct pre'; reflexivity. }
    { rewrite length_app in Hf. cbn [length] in Hf. lia. }
    exists k2, s2. split; [exact E2|]. destruct C as [C1 C2 C3 C4 C5 C6]. split; auto.
    + rewrite C2. exact HD1.
    + etrans; [exact C4|exact Hsub].
    + assert (k1 - k = Z.of_nat (length (Code s)) - Z.of_nat (length (Code s1))); [|lia].
      rewrite HC, HC1, !length_app. cbn [length]. rewrite length_app. destruct Hk as [[-> ->]|[-> ->]]; cbn [length]; lia.
    + intros W H G w w' Hv. apply C6, Hm1, Hv.
Qed.

(** C28: Dead code elimination ends after one round per node without a failed
    check, leaves well-formed code that is a part of the old code, and reports
    whether it removed anything. Every node that is left has side effects or is an
    argument of a node that is left, chains of dead nodes included, and every
    valuation of the block keeps its meaning and its effects on the guest. *)
Theorem DeadCodeElimination_cleans s : wf_ir s -> Code s <> [] ->
  exists Changed s', DeadCodeElimination s = Ok (Changed, s') /\ wf_ir s' /\ Data s' = Data s /\ Code s' `sublist_of` Code s /\
    (Changed = true <-> Code s' <> Code s) /\
    (forall n h, n ∈ Code s' -> Data s' !! n = Some h ->
       HasSideEffects (Op h) = true \/ exists m, m ∈ Code s' /\ n ∈ args_of (Data s') m) /\
    same_meaning s s'.
Proof.
  intros Hw Hne. destruct (exists_last Hne) as (pre & n & HC). unfold DeadCodeElimination.
  rewrite (M_bind_Ok get_state _ s s s eq_refl). cbn beta.
  destruct (eliminate_ok (length (Code s)) pre n [] (first_node (Code s)) 0 s Hw HC) as (k & s' & E & [C1 C2 C3 C4 C5 C6]).
  { intros x Hx. inversion Hx. }
  { rewrite HC. reflexivity. }
  { rewrite HC, length_app. cbn [length]. lia. }
  replace (last_node (Code s)) with n by (unfold last_node; rewrite HC, last_last; reflexivity).
  rewrite (M_bind_Ok _ _ _ _ _ E). eexists _, s'. split; [reflexivity|]. do 3 (split; [assumption|]). split; [|split; [|exact C6]].
  - rewrite negb_true_iff, Z.eqb_neq. split; [intros Hk Heq; rewrite Heq in C5; lia|].
    intros Hd Hk. apply Hd, (sublist_same_length _ _ C4). lia.
  - intros x h Hx Hh. destruct (C3 x Hx) as [(h' & E' & Hs)|Hu]; [left; congruence|right].
    rewrite (ir_uses _ C1 x Hx) in Hu. destruct (decide (Exists (fun m => x ∈ args_of (Data s') m) (Code s'))) as [He|Hno].
    + apply list.Exists_exists in He as (m & Hm & Ha). eauto.
    + destruct Hu. apply occ_zero. intros m Hm Ha. apply Hno, list.Exists_exists. eauto.
Qed.
