(* ===== verification/ConstProp.v ===== *)
(** * The constant propagation pass

    [Interface/IR/Passes/ConstProp.cpp], as built for an x86-64 host, on the code
    of one block: constant pooling, code motion around selects, reduction of
    comparison flags, pooling of addresses, the elimination of redundant
    extensions, constant folding and constant inlining. The cases of vector
    operations have no counterpart in [IROps]. *)
From Stdlib Require Import ZArith Lia Bool.
From stdpp Require Import base gmap list numbers option.
From S2P Require Import Prelude IR ALUOps IRList.
#[local] Open Scope Z_scope.

(** ** Helpers of the file *)

(** [(~0ULL) >> (64 - NumBits)] *)
Definition getMask (Size : Z) : outcome Z := shr 64 (uint 64 (-1)) (64 - Size * 8).

Definition IsImmLogical (imm width : Z) : bool := imm <? 0x80000000.
Definition IsImmAddSub (imm : Z) : bool := imm <? 0x80000000.
Definition IsMemoryScale (Scale AccessSize : Z) : bool :=
  (Scale =? 1) || (Scale =? 2) || (Scale =? 4) || (Scale =? 8).
Definition IsImmMemory (imm AccessSize : Z) : bool :=
  if (-255 <=? sint 64 imm) && (sint 64 imm <=? 256) then true
  else (Z.land imm (AccessSize - 1) =? 0) && (imm / AccessSize <=? 4095).
Definition IsTSOImm9 (imm : Z) : bool := (-256 <=? sint 64 imm) && (sint 64 imm <=? 255).

(** [1 << Constant2] in [int], converted to [uint64_t]. *)
Definition int_shift (Constant2 : Z) : outcome Z :=
  if Constant2 <? 32 then Ok (uint 64 (sint 32 (Z.shiftl 1 Constant2))) else Undef.

Definition MemExtendedAddressing (AccessSize : Z) (AddressHeader : IROp_Header)
    : P (MemOffsetType * Z * NodeID * NodeID) :=
  match Args AddressHeader with
  | [a0; a1] =>
      let no_match : P (MemOffsetType * Z * NodeID * NodeID) := mret (MEM_OFFSET_SXTX, 1, a0, a1) in
      let scaled (Scale : Z) (Offset : NodeID) : P (MemOffsetType * Z * NodeID * NodeID) :=
        if IsMemoryScale Scale AccessSize then mret (MEM_OFFSET_SXTX, uint 8 Scale, a1, Offset)
        else if Scale =? 1 then mret (MEM_OFFSET_SXTX, 1, a1, Offset)
        else no_match in
      Src0Header ← GetOpHeader a0;
      if Size Src0Header =? 8 then
        match Op Src0Header, Args Src0Header with
        | OP_MUL, [b0; b1] =>
            c ← IsValueConstant b1;
            match c with Some Scale => scaled Scale b0 | None => no_match end
        | OP_LSHL, [b0; b1] =>
            c ← IsValueConstant b1;
            match c with
            | Some Constant2 => Scale ← lift (int_shift Constant2); scaled Scale b0
            | None => no_match
            end
        | _, _ => no_match
        end
      else no_match
  | _ => fun _ => Undef
  end.

(** Disabled in the source ([#if 1]). *)
Definition RemoveUselessMasking (src : NodeID) (mask : Z) : P NodeID := mret src.

Definition IsBfeAlreadyDone (src : NodeID) (Width : Z) : P bool :=
  h ← GetOpHeader src;
  mret match Op h with OP_BFE Width' _ => Width' <=? Width | _ => false end.

(** ** Constants are pooled per block *)

Definition HandleConstantPools_step (n : NodeID) (a : gmap Z NodeID * bool) : P (gmap Z NodeID * bool) :=
  let '(ConstPool, Changed) := a in
  h ← GetOpHeader n;
  match Op h with
  | OP_CONSTANT Constant =>
      match ConstPool !! Constant with
      | Some m => _ ← ReplaceAllUsesWith n m; mret (ConstPool, true)
      | None => mret (<[Constant := n]> ConstPool, Changed)
      end
  | OP_ENDBLOCK => mret (∅, Changed)
  | _ => mret a
  end.
Definition HandleConstantPools : P bool :=
  r ← for_all_code HandleConstantPools_step (∅, false); mret r.2.

(** ** Code motion around selects *)

(** [AllocateRawOp] and the copy of a unary operation with an invalid argument. *)
Definition copy_unary (h : IROp_Header) : P NodeID :=
  s ← get_state;
  l ← lift (deref (insert_after (Cursor s) (NextNode s) (Code s)));
  let n := NextNode s in
  _ ← modify (fun s => mkIR (<[n := set_args [InvalidNode] h]> (Data s)) (NumUses s) l n (S n) (Stale s));
  mret n.

Definition CodeMotionAroundSelects_step (UnaryOpNode : NodeID) (_ : unit) : P unit :=
  UnaryOpHdr ← GetOpHeader UnaryOpNode;
  match Args UnaryOpHdr with
  | [SelectOpNode] =>
      if HasSideEffects (Op UnaryOpHdr) then mret tt
      else
        SelectOpHdr ← GetOpHeader SelectOpNode;
        s ← get_state;
        match Op SelectOpHdr, Args SelectOpHdr with
        | OP_SELECT _ _, [_; _; TrueVal; FalseVal] =>
            c1 ← IsValueConstant TrueVal;
            c2 ← IsValueConstant FalseVal;
            if (Size SelectOpHdr =? Size UnaryOpHdr) && (uses s SelectOpNode =? 1)
               && bool_decide (is_Some c1) && bool_decide (is_Some c2) then
              _ ← SetWriteCursor (previous_in SelectOpNode (Code s));
              NewUnaryOp1 ← copy_unary UnaryOpHdr;
              _ ← ReplaceNodeArgument NewUnaryOp1 0 TrueVal;
              _ ← ReplaceNodeArgument SelectOpNode 2 NewUnaryOp1;
              NewUnaryOp2 ← copy_unary UnaryOpHdr;
              _ ← ReplaceNodeArgument NewUnaryOp2 0 FalseVal;
              _ ← ReplaceNodeArgument SelectOpNode 3 NewUnaryOp2;
              s ← get_state;
              range ← lift (deref (from_node UnaryOpNode (Code s)));
              ReplaceAllUsesWithRange UnaryOpNode SelectOpNode (removelast range)
            else mret tt
        | _, _ => mret tt
        end
  | _ => mret tt
  end.
Definition CodeMotionAroundSelects : P unit := for_all_code CodeMotionAroundSelects_step tt.

(** ** Flags of comparisons *)

Definition set_op (op : IROps) (h : IROp_Header) : IROp_Header := mkOp op (Size h) (ElementSize h) (Args h).
Definition set_header (n : NodeID) (h : IROp_Header) : P unit := modify (fun s => set_Data (<[n := h]> (Data s)) s).

Definition clear_FCMP (n : NodeID) (_ : unit) : P unit :=
  h ← GetOpHeader n;
  match Op h with OP_FCMP _ => set_header n (set_op (OP_FCMP 0) h) | _ => mret tt end.
Definition need_FCMP (n : NodeID) (_ : unit) : P unit :=
  h ← GetOpHeader n;
  match Op h, Args h with
  | OP_GETHOSTFLAG Flag, [Value] =>
      fcmp ← GetOpHeader Value;
      match Op fcmp with
      | OP_FCMP Flags => set_header Value (set_op (OP_FCMP (Z.lor Flags (Z.shiftl 1 Flag))) fcmp)
      | _ => check false
      end
  | _, _ => mret tt
  end.
Definition FCMPOptimization : P unit := _ ← for_all_code clear_FCMP tt; for_all_code need_FCMP tt.

(** ** Pooling of constant addresses *)

(** [std::map<OrderedNode*, uint64_t>]: ordered by the node. *)
Fixpoint insert_const (n : NodeID) (c : Z) (l : list (NodeID * Z)) : list (NodeID * Z) :=
  match l with
  | [] => [(n, c)]
  | (m, d) :: l' =>
      if (n <? m)%nat then (n, c) :: l
      else if (n =? m)%nat then (n, c) :: l' else (m, d) :: insert_const n c l'
  end.

Definition LoadMemStoreMemImmediatePooling_step (n : NodeID) (AddressgenConsts : list (NodeID * Z))
    : P (list (NodeID * Z)) :=
  h ← GetOpHeader n;
  let pool (AddrIndex OffsetIndex : nat) (addr offset : NodeID) : P (list (NodeID * Z)) :=
    c ← IsValueConstant addr;
    match c with
    | Some Addr =>
        if decide (offset = InvalidNode) then
          match List.find (fun p => uint 64 (Addr - snd p) <? 65536) AddressgenConsts with
          | Some (base, c) =>
              _ ← ReplaceNodeArgument n AddrIndex base;
              k ← EmitConstant (Addr - c);
              _ ← ReplaceNodeArgument n OffsetIndex k;
              mret AddressgenConsts
          | None => mret (insert_const addr Addr AddressgenConsts)
          end
        else mret AddressgenConsts
    | None => mret AddressgenConsts
    end in
  r ← match Op h, Args h with
      | OP_LOADMEM _ _, [addr; offset] => pool 0%nat 1%nat addr offset
      | OP_STOREMEM _ _, [_; addr; offset] => pool 1%nat 2%nat addr offset
      | _, _ => mret AddressgenConsts
      end;
  _ ← SetWriteCursor n;
  mret match Op h with OP_ENDBLOCK => [] | _ => r end.
Definition LoadMemStoreMemImmediatePooling : P unit :=
  _ ← for_all_code LoadMemStoreMemImmediatePooling_step []; mret tt.

(** ** Redundant masks and extensions *)

(** [RemoveUselessMasking] of argument [i]. *)
Definition remove_masking (CodeNode : NodeID) (i : nat) (arg : NodeID) (mask : Z) : P bool :=
  newArg ← RemoveUselessMasking arg mask;
  if decide (newArg = arg) then mret false
  else _ ← ReplaceNodeArgument CodeNode i newArg; mret true.

Fixpoint remove_maskings (CodeNode : NodeID) (i : nat) (args : list NodeID) (mask : Z) : P bool :=
  match args with
  | [] => mret false
  | a :: args =>
      c ← remove_masking CodeNode i a mask;
      c' ← remove_maskings CodeNode (S i) args mask;
      mret (c || c')
  end.

Definition bfe_mask (Width lsb : Z) : Z := uint 64 (Z.shiftl (Z.ones Width) lsb).

Definition loads_zero_extended (op : IROps) : bool :=
  match op with OP_LOADMEM _ _ | OP_LOADMEMTSO _ _ | OP_LOADCONTEXT _ => true | _ => false end.

Definition ZextAndMaskingElimination (CodeNode : NodeID) (IROp : IROp_Header) : P bool :=
  match Op IROp, Args IROp with
  | (OP_OR | OP_XOR | OP_NOT | OP_ADD | OP_SUB | OP_MUL | OP_UMUL | OP_DIV | OP_UDIV
     | OP_LSHR | OP_ASHR | OP_LSHL | OP_ROR), args =>
      mask ← lift (getMask (Size IROp));
      remove_maskings CodeNode 0 args mask
  | OP_AND, [a; b] =>
      _ ← lift (getMask (Size IROp));
      cb ← IsValueConstant b;
      x ← remove_masking CodeNode 0 a (default 0 cb);
      ca ← IsValueConstant a;
      y ← remove_masking CodeNode 1 b (default 0 ca);
      mret (x || y)
  | OP_BFE Width lsb, [Src] =>
      already ← IsBfeAlreadyDone Src Width;
      if (already : bool) then _ ← ReplaceAllUsesWith CodeNode Src; mret false
      else
        sourceHeader ← GetOpHeader Src;
        if (lsb =? 0) && ((Size sourceHeader * 8 <=? Width) && loads_zero_extended (Op sourceHeader)) then
          _ ← ReplaceAllUsesWith CodeNode Src; mret false
        else remove_masking CodeNode 0 Src (bfe_mask Width lsb)
  | OP_SBFE Width lsb, [Src] => remove_masking CodeNode 0 Src (bfe_mask Width lsb)
  | _, _ => mret false
  end.

(** ** Constant folding *)

(** [IsValueConstant(a, &Constant1) && IsValueConstant(b, &Constant2)]: the second
    is not looked at when the first fails. *)
Definition BothConstant (a b : NodeID) : P (option Z * option Z) :=
  c1 ← IsValueConstant a;
  match c1 with
  | None => mret (None, None)
  | Some _ => c2 ← IsValueConstant b; mret (c1, c2)
  end.

(** A binary operation that is folded when both arguments are constants, and
    handled by [other] with what was read of the second constant otherwise. *)
Definition fold_binary (CodeNode a b : NodeID) (f : Z -> Z -> outcome Z) (other : Z -> P bool) : P bool :=
  cs ← BothConstant a b;
  match cs with
  | (Some Constant1, Some Constant2) =>
      NewConstant ← lift (f Constant1 Constant2);
      _ ← ReplaceWithConstant CodeNode NewConstant;
      mret true
  | (_, c2) => other (default 0 c2)
  end.

Definition unchanged : Z -> P bool := fun _ => mret false.
Definition use_instead (CodeNode a : NodeID) : P bool := _ ← ReplaceAllUsesWith CodeNode a; mret true.

(** A select of one and zero. *)
Definition is_flag_select (h : IROp_Header) : P bool :=
  match Op h, Args h with
  | OP_SELECT _ _, [_; _; t; f] =>
      cs ← BothConstant t f;
      mret match cs with (Some c2, Some c3) => (c2 =? 1) && (c3 =? 0) | _ => false end
  | _, _ => mret false
  end.

(** A shift by the constant zero is its operand; a mask of the amount is not
    removed. *)
Definition shift_other (CodeNode a b : NodeID) (IROp : IROp_Header) : Z -> P bool := fun _ =>
  c2 ← IsValueConstant b;
  if bool_decide (c2 = Some 0) then _ ← SetWriteCursor CodeNode; use_instead CodeNode a
  else remove_masking CodeNode 1 b (Size IROp * 8 - 1).

Definition mul_other (CodeNode a b : NodeID) (IROp : IROp_Header) : Z -> P bool := fun _ =>
  c2 ← IsValueConstant b;
  match c2 with
  | Some Constant2 =>
      if popcount 64 Constant2 =? 1 then
        if (Size IROp =? 4) || (Size IROp =? 8) then
          let amt := countr_zero 64 Constant2 in
          _ ← SetWriteCursor CodeNode;
          k ← EmitConstant amt;
          shift ← EmitLshl a k;
          h ← GetOpHeader shift;
          _ ← modify (fun s => set_Data (<[shift := mkOp (Op h) (Size IROp) (ElementSize h) (Args h)]> (Data s)) s);
          _ ← ReplaceAllUsesWith CodeNode shift;
          mret true
        else mret false
      else mret false
  | None => mret false
  end.

Definition fold_address (CodeNode : NodeID) (IROp : IROp_Header) (Addr : NodeID) (AddrIndex OffsetIndex : nat)
    (with_type : MemOffsetType -> Z -> IROps) : P bool :=
  AddressHeader ← GetOpHeader Addr;
  match Op AddressHeader with
  | OP_ADD =>
      if Size AddressHeader =? 8 then
        r ← MemExtendedAddressing (Size IROp) AddressHeader;
        let '(OffsetType, OffsetScale, Arg0, Arg1) := r in
        _ ← set_header CodeNode (set_op (with_type OffsetType OffsetScale) IROp);
        _ ← ReplaceNodeArgument CodeNode AddrIndex Arg0;
        _ ← ReplaceNodeArgument CodeNode OffsetIndex Arg1;
        mret true
      else mret false
  | _ => mret false
  end.

Definition bfe_source_mask (Width lsb : Z) : outcome Z :=
  m ← low_mask Width; shl 64 m lsb.

Definition ConstantPropagation (CodeNode : NodeID) (IROp : IROp_Header) : P bool :=
  let masked (v : Z) : outcome Z := mask ← getMask (Size IROp); Ok (Z.land v mask) in
  match Op IROp, Args IROp with
  | OP_LOADMEM _ _, [Addr; _] => fold_address CodeNode IROp Addr 0 1 OP_LOADMEM
  | OP_STOREMEM _ _, [_; Addr; _] => fold_address CodeNode IROp Addr 1 2 OP_STOREMEM
  | OP_ADD, [a; b] => fold_binary CodeNode a b (fun x y => masked (uint 64 (x + y))) unchanged
  | OP_SUB, [a; b] => fold_binary CodeNode a b (fun x y => masked (uint 64 (x - y))) unchanged
  | OP_AND, [a; b] =>
      fold_binary CodeNode a b (fun x y => masked (Z.land x y)) (fun Constant2 =>
        if Constant2 =? 1 then
          val ← GetOpHeader a;
          b ← is_flag_select val;
          if (b : bool) then use_instead CodeNode a else mret false
        else if decide (a = b) then use_instead CodeNode a else mret false)
  | OP_OR, [a; b] =>
      fold_binary CodeNode a b (fun x y => Ok (Z.lor x y)) (fun _ =>
        if decide (a = b) then use_instead CodeNode a else mret false)
  | OP_XOR, [a; b] =>
      fold_binary CodeNode a b (fun x y => Ok (Z.lxor x y)) (fun _ =>
        if decide (a = b) then
          _ ← SetWriteCursor CodeNode;
          k ← EmitConstant 0;
          use_instead CodeNode k
        else mret false)
  | OP_LSHL, [a; b] =>
      fold_binary CodeNode a b (fun x y => v ← shl 64 x y; masked v) (shift_other CodeNode a b IROp)
  | OP_LSHR, [a; b] =>
      fold_binary CodeNode a b (fun x y => v ← shr 64 x y; masked v) (shift_other CodeNode a b IROp)
  | OP_BFE Width lsb, [Src] =>
      c ← (if Size IROp <=? 8 then IsValueConstant Src else mret None);
      match c with
      | Some Constant =>
          SourceMask ← lift (bfe_source_mask Width lsb);
          NewConstant ← lift (shr 64 (Z.land Constant SourceMask) lsb);
          _ ← ReplaceWithConstant CodeNode NewConstant;
          mret true
      | None =>
          src ← GetOpHeader Src;
          if (Size IROp =? Size src) && (Width =? Size IROp * 8) && (lsb =? 0) then mret false
          else if (Width =? 1) && (lsb =? 0) then
            b ← is_flag_select src;
            if (b : bool) then use_instead CodeNode Src else mret false
          else mret false
      end
  | OP_MUL, [a; b] =>
      fold_binary CodeNode a b (fun x y => masked (uint 64 (x * y))) (mul_other CodeNode a b IROp)
  | OP_CONDJUMP Cond CompareSize, [Cmp1; Cmp2; TrueBlock; FalseBlock] =>
      Select ← GetOpHeader Cmp1;
      c ← (if Cond =? COND_NEQ then IsValueConstant Cmp2 else mret None);
      match Op Select, Args Select with
      | OP_SELECT Cond' CompareSize', [x; y; _; _] =>
          if bool_decide (c = Some 0) then
            b ← is_flag_select Select;
            if (b : bool) then
              _ ← ReplaceNodeArgument CodeNode 0 x;
              _ ← ReplaceNodeArgument CodeNode 1 y;
              h ← GetOpHeader CodeNode;
              _ ← set_header CodeNode (set_op (OP_CONDJUMP Cond' CompareSize') h);
              mret true
            else mret false
          else mret false
      | _, _ => mret false
      end
  | _, _ => mret false
  end.

(** ** Constant inlining *)

(** The argument is replaced by an inline constant next to the constant. *)
Definition inline_arg (CodeNode : NodeID) (i : nat) (arg : NodeID) (c : Z) : P bool :=
  _ ← SetWriteCursor arg;
  k ← EmitInlineConstant c;
  _ ← ReplaceNodeArgument CodeNode i k;
  mret true.

Definition inline_when (CodeNode : NodeID) (i : nat) (arg : NodeID) (ok : Z -> bool) : P bool :=
  c ← IsValueConstant arg;
  match c with
  | Some c => if ok c then inline_arg CodeNode i arg c else mret false
  | None => mret false
  end.

Definition inline_offset (CodeNode : NodeID) (i : nat) (OffsetType : MemOffsetType) (Offset : NodeID)
    (ok : Z -> bool) : P bool :=
  match OffsetType with
  | MEM_OFFSET_SXTX => inline_when CodeNode i Offset ok
  | _ => mret false
  end.

Section Inlining.
Context (SupportsTSOImm9 : bool).

Definition ConstantInlining_step (CodeNode : NodeID) (Changed : bool) : P bool :=
IROp ← GetOpHeader CodeNode;
c ← match Op IROp, Args IROp with
| (OP_LSHR | OP_ASHR | OP_ROR | OP_LSHL), [_; b] =>
  c ← IsValueConstant b;
  match c with
  | Some Constant2 =>
      inline_arg CodeNode 1 b (if Size IROp <=? 4 then Z.land Constant2 31 else Z.land Constant2 63)
  | None => mret false
  end
| (OP_ADD | OP_SUB), [_; b] => inline_when CodeNode 1 b IsImmAddSub
| OP_SELECT _ _, [_; y; t; f] =>
  r ← inline_when CodeNode 1 y IsImmAddSub;
  b ← is_flag_select IROp;
  if (b : bool) then
    _ ← SetWriteCursor t;
    k1 ← EmitInlineConstant 1;
    _ ← ReplaceNodeArgument CodeNode 2 k1;
    k2 ← EmitInlineConstant 0;
    _ ← ReplaceNodeArgument CodeNode 3 k2;
    mret r
  else mret r
| OP_CONDJUMP _ _, [_; y; _; _] => inline_when CodeNode 1 y IsImmAddSub
| OP_EXITFUNCTION, [NewRIP] =>
  c ← IsValueConstant NewRIP;
  match c with
  | Some c => inline_arg CodeNode 0 NewRIP c
  | None =>
      h ← GetOpHeader NewRIP;
      match Op h with
      | OP_ENTRYPOINTOFFSET o =>
          _ ← SetWriteCursor NewRIP;
          k ← EmitInlineEntrypointOffset o (Size h);
          _ ← ReplaceNodeArgument CodeNode 0 k;
          mret true
      | _ => mret false
      end
  end
| (OP_OR | OP_XOR | OP_AND), [_; b] =>
  inline_when CodeNode 1 b (fun c => IsImmLogical c (Size IROp * 8))
| OP_LOADMEM ty _, [_; o] => inline_offset CodeNode 1 ty o (fun c => IsImmMemory c (Size IROp))
| OP_STOREMEM ty _, [_; _; o] => inline_offset CodeNode 2 ty o (fun c => IsImmMemory c (Size IROp))
| OP_LOADMEMTSO ty _, [_; o] =>
  if SupportsTSOImm9 then inline_offset CodeNode 1 ty o IsTSOImm9 else mret false
| OP_STOREMEMTSO ty _, [_; _; o] =>
  if SupportsTSOImm9 then inline_offset CodeNode 2 ty o IsTSOImm9 else mret false
| _, _ => mret false
end;
mret (Changed || c).
Definition ConstantInlining : P bool := for_all_code ConstantInlining_step false.

(** ** The pass *)

Definition propagate_step (CodeNode : NodeID) (Changed : bool) : P bool :=
IROp ← GetOpHeader CodeNode;
c1 ← ZextAndMaskingElimination CodeNode IROp;
IROp ← GetOpHeader CodeNode;
c2 ← ConstantPropagation CodeNode IROp;
mret (Changed || c1 || c2).

Definition Run (InlineConstants : bool) : P bool :=
s ← get_state;
let OriginalWriteCursor := Cursor s in
c1 ← HandleConstantPools;
_ ← CodeMotionAroundSelects;
_ ← FCMPOptimization;
_ ← LoadMemStoreMemImmediatePooling;
c2 ← for_all_code propagate_step c1;
c3 ← (if InlineConstants then ConstantInlining else mret false);
_ ← SetWriteCursor OriginalWriteCursor;
mret (c2 || c3).
End Inlining.
