(* ===== verification/ConstPropLogic.v ===== *)
(** * Reasoning about the passes

    Weakest preconditions for the monad of the passes, the conditions on a node
    under which propagation keeps its meaning, and what each editing operation
    does to them. *)
From Stdlib Require Import ZArith Lia Bool.
From stdpp Require Import base gmap list numbers option.
From S2P Require Import Prelude IR ALUOps Interp IRSpec IRList IRListLogic ConstProp.
#[local] Open Scope Z_scope.

(** ** Weakest preconditions: the computation ends normally in [Q] *)

Definition wp {A} (m : P A) (Q : A -> IRList -> Prop) (s : IRList) : Prop := exists a s', m s = Ok (a, s') /\ Q a s'.

Lemma pass_ret {A} (a : A) Q s : Q a s -> wp (mret a) Q s.
Proof. intros H. exists a, s. split; [reflexivity|exact H]. Qed.
Lemma pass_bind {A B} (m : P A) (f : A -> P B) Q s : wp m (fun a => wp (f a) Q) s -> wp (m ≫= f) Q s.
Proof. intros (a & s1 & E & b & s2 & F & H). exists b, s2. split; [rewrite (M_bind_Ok _ _ _ _ _ E); exact F|exact H]. Qed.
Lemma pass_mono {A} (m : P A) (Q Q' : A -> IRList -> Prop) s : (forall a s', Q a s' -> Q' a s') -> wp m Q s -> wp m Q' s.
Proof. intros H (a & s' & E & HQ). exists a, s'. auto. Qed.
Lemma wp_run {A} (m : P A) a s' Q s : m s = Ok (a, s') -> Q a s' -> wp m Q s.
Proof. intros E H. exists a, s'. auto. Qed.
Lemma wp_get Q s : Q s s -> wp get_state Q s.
Proof. apply wp_run. reflexivity. Qed.
Lemma wp_modify f Q s : Q tt (f s) -> wp (modify f) Q s.
Proof. apply wp_run. reflexivity. Qed.
Lemma wp_lift {A} (o : outcome A) a (Q : A -> IRList -> Prop) s : o = Ok a -> Q a s -> wp (lift o) Q s.
Proof. intros -> H. exists a, s. auto. Qed.
Lemma wp_header n h (Q : IROp_Header -> IRList -> Prop) s : Data s !! n = Some h -> Q h s -> wp (GetOpHeader n) Q s.
Proof. intros E H. exact (wp_run _ _ _ _ _ (GetOpHeader_run s n h E) H). Qed.
Lemma wp_constant n h (Q : option Z -> IRList -> Prop) s : Data s !! n = Some h -> Q (constant_of h) s -> wp (IsValueConstant n) Q s.
Proof. intros E H. apply pass_bind, (wp_header n h); [exact E|]. apply pass_ret, H. Qed.
Lemma wp_cursor n (Q : unit -> IRList -> Prop) s : Q tt (set_Cursor n s) -> wp (SetWriteCursor n) Q s.
Proof. apply wp_modify. Qed.

(** ** Operations of nodes *)

Definition op_of (D : gmap NodeID IROp_Header) (n : NodeID) : option IROps := Op <$> D !! n.
Definition is_const (D : gmap NodeID IROp_Header) (n : NodeID) : Prop := exists k, op_of D n = Some (OP_CONSTANT k).

Lemma op_of_Some D n h : D !! n = Some h -> op_of D n = Some (Op h).
Proof. unfold op_of. intros ->. reflexivity. Qed.

Lemma op_of_substituted n m ns D D' x : substituted n m ns D D' -> op_of D' x = op_of D x.
Proof. intros HS. unfold op_of. rewrite (HS x). destruct (decide _); [|reflexivity]. destruct (D !! x); reflexivity. Qed.

Lemma op_of_insert n h D x : op_of (<[n := h]> D) x = if decide (n = x) then Some (Op h) else op_of D x.
Proof.
  unfold op_of. destruct (decide (n = x)) as [->|Hn]; [rewrite lookup_insert_eq|rewrite lookup_insert_ne by exact Hn]; reflexivity.
Qed.

(** How many iterations a node may still cost: a product by a power of two
    becomes a constant and a shift, an [XOR] of a value with itself and a field of
    a constant become constants. *)
Definition op_weight (op : IROps) : nat := match op with OP_MUL => 3 | OP_XOR | OP_BFE _ _ => 2 | _ => 1 end.
Definition node_weight (D : gmap NodeID IROp_Header) (n : NodeID) : nat := match op_of D n with Some op => op_weight op | None => 1 end.
Fixpoint weight (D : gmap NodeID IROp_Header) (ns : list NodeID) : nat :=
  match ns with [] => 0 | n :: ns => node_weight D n + weight D ns end.

Lemma node_weight_pos D n : (1 <= node_weight D n)%nat.
Proof. unfold node_weight. destruct (op_of D n) as [op|]; [destruct op|]; cbn; lia. Qed.
Lemma weight_bound D ns : (weight D ns <= 3 * length ns)%nat.
Proof.
  induction ns as [|n ns IH]; cbn; [lia|]. assert (node_weight D n <= 3)%nat; [|lia].
  unfold node_weight. destruct (op_of D n) as [op|]; [destruct op|]; cbn; lia.
Qed.
Lemma weight_ext D D' ns : (forall x, x ∈ ns -> op_of D' x = op_of D x) -> weight D' ns = weight D ns.
Proof.
  induction ns as [|n ns IH]; intros H; [reflexivity|]. cbn [weight]. unfold node_weight.
  rewrite H by (apply elem_of_cons; auto). rewrite IH; [reflexivity|]. intros x Hx. apply H, elem_of_cons; auto.
Qed.

(** ** Conditions on a node

    [rewritable] operations may be replaced by one of their operands. Two
    labellings follow a value through such replacements: [rho] bounds from below
    the width of the fields it may turn out to be, [sigma] holds of what may turn
    out to be a shift by 32 or more. *)

Definition rewritable (op : IROps) : bool :=
  match op with OP_BFE _ _ | OP_AND | OP_OR | OP_XOR | OP_LSHL | OP_LSHR | OP_MUL => true | _ => false end.
(** The operations that [getMask] is applied to. *)
Definition masked (op : IROps) : bool :=
  match op with
  | OP_OR | OP_XOR | OP_NOT | OP_ADD | OP_SUB | OP_MUL | OP_UMUL | OP_DIV | OP_UDIV
  | OP_LSHR | OP_ASHR | OP_LSHL | OP_ROR | OP_AND => true
  | _ => false
  end.

(** A property of operations and sizes that the pass is asked to keep. *)
Class Keeps := {
  kept : IROps -> Z -> Prop;
  kept_constant k sz : kept (OP_CONSTANT k) sz;
  kept_shift sz : size_48 sz = true -> kept OP_LSHL sz;
  kept_load ty sc ty' sc' sz : kept (OP_LOADMEM ty sc) sz -> kept (OP_LOADMEM ty' sc') sz;
  kept_store ty sc ty' sc' sz : kept (OP_STOREMEM ty sc) sz -> kept (OP_STOREMEM ty' sc') sz;
  kept_branch c cs c' cs' sz : kept (OP_CONDJUMP c cs) sz -> kept (OP_CONDJUMP c' cs') sz
}.

Record node_ok `{Keeps} (rho : NodeID -> Z) (sigma : NodeID -> bool) (G : NodeID -> Z) (n : NodeID) (h : IROp_Header) : Prop := {
  no_kept : kept (Op h) (Size h);
  no_const k : Op h = OP_CONSTANT k -> 0 <= k < 2 ^ 64;
  no_size : masked (Op h) = true -> 1 <= Size h <= 8;
  no_alias a : rewritable (Op h) = true -> a ∈ Args h -> rho n <= rho a /\ (sigma a = true -> sigma n = true);
  no_bfe w l : Op h = OP_BFE w l -> rho n <= w /\ 1 <= w <= 64;
  no_field w l a : Op h = OP_BFE w l -> l <> 0 -> a ∈ Args h -> w < rho a;
  no_shift a b : Op h = OP_LSHL -> Size h = 8 -> Args h = [a; b] -> 32 <= G b -> sigma n = true;
  no_mul a b : Op h = OP_MUL -> Size h = 8 -> Args h = [a; b] -> 2 ^ 32 <= G b -> sigma n = true;
  no_add a b : Op h = OP_ADD -> Size h = 8 -> Args h = [a; b] -> sigma a = false
}.
Definition nodes_ok `{Keeps} rho sigma G (D : gmap NodeID IROp_Header) (ns : list NodeID) : Prop :=
  forall x h, x ∈ ns -> D !! x = Some h -> node_ok rho sigma G x h.

(** A load or store that is still to be visited has no offset yet, or a constant
    address. *)
Definition no_offset (D : gmap NodeID IROp_Header) (h : IROp_Header) : Prop :=
  match Op h, Args h with
  | OP_LOADMEM _ _, [a; o] | OP_STOREMEM _ _, [_; a; o] => o = InvalidNode \/ is_const D a
  | _, _ => True
  end.
Definition pending (D : gmap NodeID IROp_Header) (ns : list NodeID) : Prop :=
  forall x h, x ∈ ns -> D !! x = Some h -> no_offset D h.

(** What a labelling says of the operands survives a substitution. *)
Lemma node_ok_subst `{Keeps} rho sigma G n m x h : node_ok rho sigma G x h -> rho n <= rho m -> (sigma m = true -> sigma n = true) ->
  G n = G m -> node_ok rho sigma G x (set_args (map (subst n m) (Args h)) h).
Proof.
  intros [H0 H1 H2 H3 H4 H5 H6 H7 H8] Hr Hs HG.
  assert (forall b, G (subst n m b) = G b /\ rho b <= rho (subst n m b) /\ (sigma (subst n m b) = true -> sigma b = true)) as Hb.
  { intros b. unfold subst. destruct (decide (b = n)) as [->|]; [auto|]. split; [reflexivity|]. split; [lia|auto]. }
  assert (forall a b, map (subst n m) (Args h) = [a; b] -> exists a' b', Args h = [a'; b'] /\ a = subst n m a' /\ b = subst n m b') as Hl.
  { intros a b. destruct (Args h) as [|a' [|b' [|]]]; try discriminate. cbn. intros [= <- <-]. eauto 6. }
  split; cbn [Op Size Args set_args]; auto.
  - intros a Hrw (b & -> & Hin)%list_elem_of_fmap. destruct (H3 b Hrw Hin), (Hb b) as (_ & ? & ?). split; [lia|auto].
  - intros w l a Hop Hl0 (b & -> & Hin)%list_elem_of_fmap. pose proof (H5 w l b Hop Hl0 Hin). destruct (Hb b) as (_ & ? & _). lia.
  - intros a b Hop Hsz (a' & b' & E & -> & ->)%Hl. destruct (Hb b') as (-> & _). eauto.
  - intros a b Hop Hsz (a' & b' & E & -> & ->)%Hl. destruct (Hb b') as (-> & _). eauto.
  - intros a b Hop Hsz (a' & b' & E & -> & ->)%Hl. destruct (Hb a') as (_ & _ & Hi). specialize (H8 _ _ Hop Hsz E).
    destruct (sigma (subst n m a')); [|reflexivity]. rewrite <- H8. symmetry. auto.
Qed.

(** Only the labels and values of a node and its arguments matter. *)
Lemma node_ok_agree `{Keeps} rho sigma G rho' sigma' G' x h : node_ok rho sigma G x h ->
  (forall a, a = x \/ a ∈ Args h -> rho' a = rho a /\ sigma' a = sigma a /\ G' a = G a) -> node_ok rho' sigma' G' x h.
Proof.
  intros [H0 H1 H2 H3 H4 H5 H6 H7 H8] HA. destruct (HA x (or_introl eq_refl)) as (Ex & Fx & _).
  assert (forall a b l, Args h = [a; b] -> l = a \/ l = b -> l ∈ Args h) as Hin.
  { intros a b l -> Hl. rewrite !elem_of_cons. tauto. }
  split; auto; rewrite ?Ex, ?Fx.
  - intros a Hr Ha. destruct (HA a (or_intror Ha)) as (-> & -> & _). auto.
  - auto.
  - intros w l a Hop Hl Ha. destruct (HA a (or_intror Ha)) as (-> & _). eauto.
  - intros a b Hop Hsz E. destruct (HA b) as (_ & _ & ->); [eauto|]. eauto.
  - intros a b Hop Hsz E. destruct (HA b) as (_ & _ & ->); [eauto|]. eauto.
  - intros a b Hop Hsz E. destruct (HA a) as (_ & -> & _); [eauto|]. eauto.
Qed.

Lemma node_ok_constant `{Keeps} rho sigma G n k sz es : 0 <= k < 2 ^ 64 -> node_ok rho sigma G n (mkOp (OP_CONSTANT k) sz es []).
Proof. intros Hk. split; cbn [Op Size Args]; try discriminate; [apply kept_constant|]. intros k' [= <-]. exact Hk. Qed.

Lemma no_offset_const D D' h : (forall a, is_const D a -> is_const D' a) -> no_offset D h -> no_offset D' h.
Proof.
  intros Hc. destruct h as [op sz es args]. unfold no_offset. cbn [Op Args].
  destruct op; auto; destruct args as [|x [|y [|z []]]]; auto; intros [?|?]; auto.
Qed.

Lemma no_offset_subst D D' n m h : n <> InvalidNode -> ~ is_const D n -> (forall a, is_const D a -> is_const D' a) ->
  no_offset D h -> no_offset D' (set_args (map (subst n m) (Args h)) h).
Proof.
  intros Hn Hnc Hc. destruct h as [op sz es args]. unfold no_offset, set_args. cbn [Op Args].
  assert (forall a o, o = InvalidNode \/ is_const D a -> subst n m o = InvalidNode \/ is_const D' (subst n m a)) as HH.
  { intros a o [->|Ha]; [left; unfold subst; destruct (decide (InvalidNode = n)); congruence|right].
    unfold subst. destruct (decide (a = n)); [congruence|auto]. }
  destruct op; auto; destruct args as [|x [|y [|z []]]]; cbn [map]; auto.
Qed.

(** Another operation with the same arguments. *)
Lemma set_header_ok s pre n post h op : wf_ir s -> Code s = pre ++ n :: post -> Data s !! n = Some h ->
  value_args (set_op op h) = value_args h -> block_args (set_op op h) = block_args h ->
  exists s', set_header n (set_op op h) s = Ok (tt, s') /\ changed n (set_op op h) s s'.
Proof.
  intros Hw HC Hh Hv Hb. eexists. split; [reflexivity|]. split; try reflexivity.
  apply (wf_change s pre n post h (set_op op h) (NumUses s) Hw HC Hh); rewrite ?Hv, ?Hb; cbn [Args set_op].
  - intros a. apply (args_code s pre n post h a Hw HC Hh).
  - intros a Ha. apply (ir_args _ Hw n a (in_code _ _ _ _ HC)). unfold args_of. rewrite Hh. exact Ha.
  - intros a. apply (ir_blocks _ Hw n h a (in_code _ _ _ _ HC) Hh).
  - intros a. unfold uses. lia.
Qed.

(** ** The invariant of the propagation loop *)

Section Invariant.
Context {W : Type} `{World W} `{Kp : Keeps} (w w' : W).

Record Inv (rho : NodeID -> Z) (sigma : NodeID -> bool) (G : NodeID -> Z) (s : IRList) (todo : list NodeID) : Prop := {
  inv_wf : wf_ir s;
  inv_nodes : nodes_ok rho sigma G (Data s) (Code s);
  inv_pending : pending (Data s) todo;
  inv_valid : valid G (Data s) (Code s) w w'
}.

Lemma Inv_cursor rho sigma G s todo n : Inv rho sigma G s todo -> Inv rho sigma G (set_Cursor n s) todo.
Proof. intros [H1 H2 H3 H4]. split; try assumption. apply wf_cursor, H1. Qed.

Lemma Inv_todo rho sigma G s todo todo' : (forall x, x ∈ todo' -> x ∈ todo) -> Inv rho sigma G s todo -> Inv rho sigma G s todo'.
Proof. intros Hs [H1 H2 H3 H4]. split; try assumption. intros x h Hx. apply H3, Hs, Hx. Qed.

Lemma Inv_cons rho sigma G s todo x h : Data s !! x = Some h -> no_offset (Data s) h ->
  Inv rho sigma G s todo -> Inv rho sigma G s (x :: todo).
Proof.
  intros Hx Ho [H1 H2 H3 H4]. split; try assumption. intros y h' [->|Hy]%elem_of_cons; [congruence|apply H3, Hy].
Qed.

(** Replacing a rewritable node by an equal value defined before its uses. *)
Lemma Inv_replace rho sigma G s n m pre X Y h : Code s = pre ++ n :: X ++ Y -> Data s !! n = Some h ->
  (forall x, x ∈ X -> ~ n ∈ args_of (Data s) x) -> m ∈ pre ++ X -> HasSideEffects (Op h) = false -> (forall k, Op h <> OP_CONSTANT k) ->
  G n = G m -> rho n <= rho m -> (sigma m = true -> sigma n = true) -> Inv rho sigma G s (X ++ Y) ->
  exists s', ReplaceAllUsesWith n m s = Ok (tt, s') /\ replaced n m pre (X ++ Y) s s' /\ Inv rho sigma G s' (X ++ Y).
Proof.
  intros HC Hh HX Hm Hp Hk HG Hr Hs [Hw Hn Hpe Hv].
  destruct (ReplaceAllUsesWith_ok s n m pre X Y h Hw HC HX Hm Hh Hp) as (s' & E & R).
  exists s'. split; [exact E|]. split; [exact R|].
  assert (n <> m) as Hne by (apply (rep_ne s n m pre X Y Hw HC Hm)).
  assert (m ∈ Code s) as Hmc by (rewrite HC; rewrite !elem_of_app, ?elem_of_cons, ?elem_of_app in *; tauto).
  assert (n ∈ Code s) as Hnc by (rewrite HC, elem_of_app, elem_of_cons; auto).
  pose proof (substituted_code s n m pre (X ++ Y) (Data s') Hw HC Hne (rp_data _ _ _ _ _ _ R)) as HD.
  assert (forall x, x ∈ Code s' -> x ∈ Code s) as Hsub.
  { intros x. rewrite (rp_code _ _ _ _ _ _ R), HC, !elem_of_app, elem_of_cons, elem_of_app. tauto. }
  split.
  - apply (rp_wf _ _ _ _ _ _ R).
  - intros x h' Hx Hh'. rewrite HD in Hh' by auto. destruct (Data s !! x) as [h0|] eqn:E0; [|discriminate].
    injection Hh' as <-. apply node_ok_subst; auto.
  - intros x h' Hx Hh'. rewrite HD in Hh'; [|rewrite HC; rewrite !elem_of_app, ?elem_of_cons, ?elem_of_app in *; tauto].
    destruct (Data s !! x) as [h0|] eqn:E0; [|discriminate]. injection Hh' as <-.
    apply (no_offset_subst (Data s)); [apply (ir_ids _ Hw n Hnc)| | |apply (Hpe x h0 Hx E0)].
    + intros (k & Ek). rewrite (op_of_Some _ _ _ Hh) in Ek. injection Ek as Ek. apply (Hk k Ek).
    + intros a (k & Ek). exists k. rewrite <- Ek. apply (op_of_substituted n m (n :: X ++ Y)), (rp_data _ _ _ _ _ _ R).
  - apply (replaced_valid G s s' n m pre (X ++ Y) h); auto.
Qed.

(** Changing a node in place. *)
Lemma Inv_change rho sigma G s s' n pre post h h' : Code s = pre ++ n :: post -> Data s !! n = Some h ->
  wf_ir s' -> Code s' = Code s -> Data s' = <[n := h']> (Data s) ->
  node_ok rho sigma G n h' -> (forall k, Op h = OP_CONSTANT k -> exists k', Op h' = OP_CONSTANT k') ->
  (forall w r, node_sem G h w = Some r -> node_sem G h' w = Some r) ->
  Inv rho sigma G s post -> Inv rho sigma G s' post.
Proof.
  intros HC Hh Hw' HC' HD' Hok Hk Hsem [Hw Hn Hpe Hv].
  pose proof (ir_nodup _ Hw) as Hnd. rewrite HC in Hnd. destruct (nodup_split n pre post Hnd) as (_ & Hnp & _ & _).
  split; rewrite ?HC', ?HD'; [exact Hw'| | |].
  - intros x h0 Hx. destruct (Nat.eq_dec n x) as [->|Hne].
    + rewrite lookup_insert_eq. intros [= <-]. exact Hok.
    + rewrite lookup_insert_ne by exact Hne. apply Hn, Hx.
  - intros x h0 Hx. rewrite lookup_insert_ne by congruence. intros E0. apply (no_offset_const (Data s)); [|apply (Hpe x h0 Hx E0)].
    intros a (k & Ek). unfold is_const. rewrite op_of_insert. destruct (decide (n = a)) as [->|]; [|eauto].
    rewrite (op_of_Some _ _ _ Hh) in Ek. injection Ek as Ek. destruct (Hk k Ek) as [k' ->]. eauto.
  - apply (valid_change G (Data s) n h h'); assumption.
Qed.

(** A new node after the cursor. *)
Lemma Inv_allocated rho sigma G s s' c k h pre post r b v :
  Code s = pre ++ c :: post -> k = NextNode s -> allocated c k h pre post s s' -> (forall a, a ∈ Args h -> (a < k)%nat) ->
  node_ok (upd rho k r) (upd sigma k b) (upd G k v) k h -> no_offset (Data s) h ->
  (forall w, node_sem G h w = Some (v, w)) ->
  Inv rho sigma G s post ->
  Inv (upd rho k r) (upd sigma k b) (upd G k v) s' (k :: post).
Proof.
  intros HC Ek R Ha Hok Hno Hsem [Hw Hn Hpe Hv].
  pose proof (fresh_not_in s Hw) as Hf. rewrite <- Ek in Hf.
  assert (forall x, x ∈ Code s' -> x = k \/ x ∈ Code s) as Hin.
  { intros x. rewrite (al_code _ _ _ _ _ _ _ R), HC, !elem_of_app, !elem_of_cons. tauto. }
  assert (forall a, is_const (Data s) a -> a <> k -> is_const (Data s') a) as Hconst.
  { intros a (k0 & Ek0) Hne. exists k0. rewrite (al_data _ _ _ _ _ _ _ R), op_of_insert. destruct (decide (k = a)); congruence. }
  assert (forall x h0, x ∈ Code s -> Data s !! x = Some h0 -> forall a, a ∈ Args h0 -> a <> k) as Hlt.
  { intros x h0 Hx Hh0 a Hina. assert (a < k)%nat; [|lia]. rewrite Ek. apply (ir_args _ Hw x a Hx). unfold args_of. rewrite Hh0. exact Hina. }
  split.
  - apply (al_wf _ _ _ _ _ _ _ R).
  - intros x h0 Hx. rewrite (al_data _ _ _ _ _ _ _ R). destruct (Nat.eq_dec k x) as [<-|Hne].
    + rewrite lookup_insert_eq. intros [= <-]. exact Hok.
    + rewrite lookup_insert_ne by exact Hne. intros Hh0. destruct (Hin x Hx) as [?|Hxc]; [congruence|].
      apply (node_ok_agree rho sigma G); [apply Hn; assumption|]. intros a Hax.
      assert (a <> k) as Hak by (destruct Hax as [->|Hax]; [congruence|eauto]).
      rewrite !value_upd_ne by exact Hak. auto.
  - intros x h0 Hx. rewrite (al_data _ _ _ _ _ _ _ R) at 1. destruct (Nat.eq_dec k x) as [<-|Hne].
    + rewrite lookup_insert_eq. intros [= <-]. revert Hno. unfold no_offset.
      assert (forall a o, a ∈ Args h -> o = InvalidNode \/ is_const (Data s) a -> o = InvalidNode \/ is_const (Data s') a) as HH.
      { intros a o Hina [?|?]; [auto|right]. apply Hconst; [assumption|]. specialize (Ha a Hina). lia. }
      destruct (Op h); auto; destruct (Args h) as [|x [|y [|z []]]]; auto; apply HH; rewrite !elem_of_cons; auto.
    + rewrite lookup_insert_ne by exact Hne. intros Hh0. apply elem_of_cons in Hx as [?|Hx]; [congruence|].
      pose proof (Hpe x h0 Hx Hh0) as Hp. assert (x ∈ Code s) as Hxc by (rewrite HC, elem_of_app, elem_of_cons; auto).
      revert Hp. unfold no_offset.
      assert (forall a o, a ∈ Args h0 -> o = InvalidNode \/ is_const (Data s) a -> o = InvalidNode \/ is_const (Data s') a) as HH.
      { intros a o Hina [?|?]; [auto|right]. apply Hconst; [assumption|]. eauto. }
      destruct (Op h0); auto; destruct (Args h0) as [|p [|q [|z []]]]; auto; apply HH; rewrite !elem_of_cons; auto.
  - apply (allocated_valid G s s' c k h pre post); auto.
Qed.
End Invariant.
