(* ===== verification/ConstPropCases.v ===== *)
(** * The rewritings of the propagation loop, one by one

    Each case of [ZextAndMaskingElimination] and [ConstantPropagation] ends
    normally and keeps the values of the block. *)
From Stdlib Require Import ZArith Lia Bool.
From stdpp Require Import base gmap list numbers option.
From S2P Require Import Prelude IR ALUOps Interp IRSpec InterpRefines IRList IRListLogic ConstProp ConstPropLogic.
#[local] Open Scope Z_scope.

(** ** Arithmetic of the folded operations *)

Lemma getMask_ok sz : 1 <= sz <= 8 -> getMask sz = Ok (Z.ones (8 * sz)).
Proof.
  intros Hs. assert (sz = 1 \/ sz = 2 \/ sz = 3 \/ sz = 4 \/ sz = 5 \/ sz = 6 \/ sz = 7 \/ sz = 8) as C by lia.
  destruct C as [->|[->|[->|[->|[->|[->|[->| ->]]]]]]]; reflexivity.
Qed.

Lemma uint_64_range w x : 0 <= w <= 64 -> 0 <= uint w x < 2 ^ 64.
Proof. intros Hw. pose proof (uint_range w x ltac:(lia)). pose proof (Z.pow_le_mono_r 2 w 64 ltac:(lia) ltac:(lia)). lia. Qed.

Lemma fits_range w v : fits w v = true -> 0 <= v < 2 ^ w.
Proof. unfold fits. rewrite andb_true_iff, Z.leb_le, Z.ltb_lt. auto. Qed.

Definition word (x : Z) : Prop := 0 <= x < 2 ^ 64.
Definition masked_value (sz v : Z) : outcome Z := mask ← getMask sz; Ok (Z.land v mask).

Lemma masked_value_ok sz v : 1 <= sz <= 8 -> masked_value sz v = Ok (uint (8 * sz) v).
Proof. intros Hs. unfold masked_value. rewrite getMask_ok by exact Hs. cbn [mbind outcome_bind]. rewrite land_ones_uint by lia. reflexivity. Qed.

(** The folded value is the value of the operation. *)
Definition folds (op : IROps) (sz : Z) (f : Z -> Z -> outcome Z) : Prop :=
  forall x y v, word x -> word y -> operands_ok op sz [x; y] = true -> ir_value op sz [x; y] = Some v -> f x y = Ok v /\ word v.

Ltac fold_case := intros x y v Hx Hy Hok Hv; cbn [ir_value] in Hv; apply when_Some in Hv as [Hsz ->];
  first [apply size_48_cases in Hsz|apply size_1248_cases in Hsz]; rewrite ?masked_value_ok by lia.

Lemma folds_ADD sz : folds OP_ADD sz (fun x y => masked_value sz (uint 64 (x + y))).
Proof. fold_case. rewrite uint_uint by lia. split; [reflexivity|apply uint_64_range; lia]. Qed.
Lemma folds_SUB sz : folds OP_SUB sz (fun x y => masked_value sz (uint 64 (x - y))).
Proof. fold_case. rewrite uint_uint by lia. split; [reflexivity|apply uint_64_range; lia]. Qed.
Lemma folds_MUL sz : folds OP_MUL sz (fun x y => masked_value sz (uint 64 (x * y))).
Proof. fold_case. rewrite uint_uint by lia. split; [reflexivity|apply uint_64_range; lia]. Qed.
Lemma folds_AND sz : folds OP_AND sz (fun x y => masked_value sz (Z.land x y)).
Proof. fold_case. split; [reflexivity|apply uint_64_range; lia]. Qed.

(** A bitwise operation of values that fit a width fits it. *)
Lemma uint_bits2 w (f : Z -> Z -> Z) g x y : 0 <= w -> (forall i, 0 <= i -> Z.testbit (f x y) i = g (Z.testbit x i) (Z.testbit y i)) ->
  g false false = false -> 0 <= x < 2 ^ w -> 0 <= y < 2 ^ w -> uint w (f x y) = f x y.
Proof.
  intros Hw Hf Hg Hx Hy. apply Z.bits_inj'. intros i Hi. rewrite testbit_uint by exact Hw. destruct (Z.ltb_spec i w); [reflexivity|].
  rewrite Hf, (testbit_high w x), (testbit_high w y), Hg by assumption. reflexivity.
Qed.

Lemma folds_OR sz : folds OP_OR sz (fun x y => Ok (Z.lor x y)).
Proof.
  fold_case. cbn [operands_ok] in Hok. apply andb_true_iff in Hok as [Ha Hb]. apply fits_range in Ha, Hb.
  pose proof (uint_bits2 (8 * sz) Z.lor orb x y ltac:(lia) (fun i _ => Z.lor_spec x y i) eq_refl Ha Hb) as E.
  rewrite E. split; [reflexivity|]. rewrite <- E. apply uint_64_range. lia.
Qed.
Lemma folds_XOR sz : folds OP_XOR sz (fun x y => Ok (Z.lxor x y)).
Proof.
  fold_case. cbn [operands_ok] in Hok. apply andb_true_iff in Hok as [Ha Hb]. apply fits_range in Ha, Hb.
  pose proof (uint_bits2 (8 * sz) Z.lxor xorb x y ltac:(lia) (fun i _ => Z.lxor_spec x y i) eq_refl Ha Hb) as E.
  rewrite E. split; [reflexivity|]. rewrite <- E. apply uint_64_range. lia.
Qed.

Lemma shift_operands op sz a b : op = OP_LSHL \/ op = OP_LSHR -> operands_ok op sz [a; b] = true ->
  0 <= a < 2 ^ (8 * sz) /\ 0 <= b < 8 * sz.
Proof.
  intros [-> | ->]; cbn [operands_ok]; rewrite !andb_true_iff, Z.leb_le, Z.ltb_lt; intros [H ?]; apply fits_range in H; lia.
Qed.

Lemma folds_LSHL sz : folds OP_LSHL sz (fun x y => v ← shl 64 x y; masked_value sz v).
Proof.
  fold_case. destruct (shift_operands _ _ _ _ (or_introl eq_refl) Hok). rewrite shiftl_Ok by lia. cbn [mbind outcome_bind].
  rewrite masked_value_ok, uint_uint, Z.shiftl_mul_pow2 by lia. rewrite (Z.mod_small y) by lia. split; [reflexivity|apply uint_64_range; lia].
Qed.
Lemma folds_LSHR sz : folds OP_LSHR sz (fun x y => v ← shr 64 x y; masked_value sz v).
Proof.
  fold_case. destruct (shift_operands _ _ _ _ (or_intror eq_refl) Hok) as [Hx' Hy']. rewrite shiftr_Ok by lia. cbn [mbind outcome_bind].
  rewrite masked_value_ok, Z.shiftr_div_pow2 by lia. rewrite (Z.mod_small y) by lia. rewrite (uint_small 64 x) by exact Hx. rewrite (uint_small (8 * sz) x) by exact Hx'.
  rewrite uint_small by (apply div_pow2_range; lia). split; [reflexivity|].
  apply div_pow2_range; [lia|exact Hx].
Qed.

(** A field of a constant. *)
Lemma folds_BFE sz w l x v : word x -> ir_value (OP_BFE w l) sz [x] = Some v ->
  (m ← bfe_source_mask w l; shr 64 (Z.land x m) l) = Ok v /\ word v.
Proof.
  intros Hx Hv. cbn [ir_value] in Hv. apply when_Some in Hv as [Hs ->].
  rewrite !andb_true_iff, !Z.leb_le, Z.ltb_lt in Hs. destruct Hs as ((((Hw & Hw') & Hs) & Hl) & Hl').
  unfold bfe_source_mask. rewrite low_mask_Ok by lia. cbn [mbind outcome_bind]. rewrite shiftl_Ok by lia.
  cbn [mbind outcome_bind]. rewrite shiftr_Ok by lia. split; [|apply (uint_64_range w); lia].
  f_equal. rewrite <- Z.shiftr_div_pow2 by lia. fold (uint w (Z.shiftr (uint 64 x) l)). zbits.
Qed.

(** ** What an iteration leaves *)

(** [n] is kept or removed, [ins] comes after it and is visited next. The new
    valuation extends the old one, and less remains to be done. *)
Definition step_post {W} `{World W} `{Keeps} (w w' : W) (G : NodeID -> Z) (pre : list NodeID) (n : NodeID) (post : list NodeID)
    (s s' : IRList) : Prop :=
  exists keep ins rho' sigma' G',
    Code s' = pre ++ keep ++ ins ++ post /\ Inv w w' rho' sigma' G' s' (ins ++ post) /\
    agree (NextNode s) G G' /\ (NextNode s <= NextNode s')%nat /\
    NextOf n s' = Ok (first_node (ins ++ post), s') /\
    (weight (Data s') (ins ++ post) < weight (Data s) (n :: post))%nat.

(** A constant is emitted after the cursor. *)
Lemma EmitConstant_ok {W} `{World W} `{Keeps} (w w' : W) rho sigma G s c pre post v r b : Inv w w' rho sigma G s post ->
  Code s = pre ++ c :: post -> Cursor s = c -> word v ->
  let k := NextNode s in
  exists s', EmitConstant v s = Ok (k, s') /\ allocated c k (mkOp (OP_CONSTANT v) 8 8 []) pre post s s' /\
    Inv w w' (upd rho k r) (upd sigma k b) (upd G k v) s' (k :: post).
Proof.
  intros HI HC Hcur Hv k. unfold EmitConstant. rewrite uint_small by exact Hv.
  destruct (AllocateOp_ok s c pre post (OP_CONSTANT v) 8 [] (inv_wf _ _ _ _ _ _ _ HI) Hcur HC) as (s' & E & R);
    [intros a Ha; inversion Ha|intros a Ha; inversion Ha|intros a Ha; inversion Ha|].
  exists s'. split; [exact E|]. split; [exact R|].
  apply (Inv_allocated w w' rho sigma G s s' c k _ pre post r b v HC eq_refl R); [|apply node_ok_constant, Hv|exact I| |exact HI].
  - intros a Ha. inversion Ha.
  - intros w0. unfold node_sem. cbn [Op]. rewrite uint_small by exact Hv. reflexivity.
Qed.

Lemma set_Cursor_id s : set_Cursor (Cursor s) s = s.
Proof. destruct s; reflexivity. Qed.

Lemma step_post_cursor {W} `{World W} `{Keeps} (w w' : W) G pre n post s s' c :
  step_post w w' G pre n post s s' -> step_post w w' G pre n post s (set_Cursor c s').
Proof.
  intros (keep & ins & rho & sigma & G' & HC & HI & Ha & Hn & Hx & Hw). exists keep, ins, rho, sigma, G'.
  split; [exact HC|]. split; [apply Inv_cursor, HI|]. split; [exact Ha|]. split; [exact Hn|]. split; [|exact Hw].
  revert Hx. unfold NextOf, mbind, M_bind, get_state. cbn [Code Stale set_Cursor].
  destruct (decide (n ∈ Code s')); [intros [= ->]; reflexivity|]. unfold lift. destruct (Stale s' !! n); [intros [= ->]; reflexivity|discriminate].
Qed.

Section Cases.
Context {W : Type} `{World W} `{Kp : Keeps} (w w' : W) (rho : NodeID -> Z) (sigma : NodeID -> bool) (G : NodeID -> Z).
Context (s : IRList) (n : NodeID) (pre post : list NodeID) (h : IROp_Header).
Hypothesis HI : Inv w w' rho sigma G s post.
Hypothesis HC : Code s = pre ++ n :: post.
Hypothesis Hh : Data s !! n = Some h.

Lemma case_code : n ∈ Code s.
Proof using HC. apply (in_code s pre n post HC). Qed.
Lemma case_nodup : ~ n ∈ pre /\ ~ n ∈ post.
Proof using HI HC.
pose proof (ir_nodup _ (inv_wf _ _ _ _ _ _ _ HI)) as Hnd. rewrite HC in Hnd. destruct (nodup_split n pre post Hnd) as (? & ? & _). auto.
Qed.

Lemma NextOf_kept s' l : Code s' = pre ++ n :: l -> NextOf n s' = Ok (first_node l, s').
Proof using HI HC.
intros HC'. unfold NextOf, mbind, M_bind, get_state. rewrite HC'.
destruct (decide (n ∈ pre ++ n :: l)) as [_|Hn]; [|destruct Hn; rewrite elem_of_app, elem_of_cons; auto].
rewrite next_in_split by apply case_nodup. reflexivity.
Qed.

Lemma NextOf_removed s' l : Code s' = pre ++ l -> ~ n ∈ l -> Stale s' !! n = Some (first_node l) -> NextOf n s' = Ok (first_node l, s').
Proof using HI HC.
intros HC' Hl Hst. unfold NextOf, mbind, M_bind, get_state. rewrite HC'.
destruct (decide (n ∈ pre ++ l)) as [Hn|_]; [apply elem_of_app in Hn as [Hn|Hn]; [destruct (proj1 case_nodup Hn)|contradiction]|].
unfold lift. rewrite Hst. reflexivity.
Qed.

(** The node's value and what it was computed from. *)
Lemma case_value : exists w1 w2, node_sem G h w1 = Some (G n, w2).
Proof using HI HC Hh.
destruct (valid_at G _ _ _ _ n (inv_valid _ _ _ _ _ _ _ HI) case_code) as (h0 & w1 & w2 & E & Hs).
rewrite Hh in E. injection E as <-. eauto.
Qed.

Lemma case_ok : node_ok rho sigma G n h.
Proof using HI HC Hh. apply (inv_nodes _ _ _ _ _ _ _ HI n h case_code Hh). Qed.

Lemma case_arg a : a ∈ value_args h -> a ∈ pre /\ a <> n /\ exists ha, Data s !! a = Some ha.
Proof using HI HC Hh.
intros Ha. pose proof (inv_wf _ _ _ _ _ _ _ HI) as Hw. pose proof (args_code s pre n post h a Hw HC Hh Ha) as Hp.
split; [exact Hp|]. split; [intros ->; apply (proj1 case_nodup), Hp|].
apply (ir_data _ Hw). apply (in_pre _ _ _ _ _ HC Hp).
Qed.

(** The value of a constant argument. *)
Lemma case_const a ha k : a ∈ pre -> Data s !! a = Some ha -> constant_of ha = Some k -> G a = k /\ word k.
Proof using HI HC.
intros Ha Hd Hk. assert (Op ha = OP_CONSTANT k) as Eo.
{ unfold constant_of in Hk. destruct (Op ha); try discriminate. congruence. }
pose proof (in_pre _ _ _ _ _ HC Ha) as Hac.
pose proof (no_const _ _ _ _ _ (inv_nodes _ _ _ _ _ _ _ HI a ha Hac Hd) k Eo) as Hr. split; [|exact Hr].
destruct (valid_at G _ _ _ _ a (inv_valid _ _ _ _ _ _ _ HI) Hac) as (h0 & w1 & w2 & E & Hs).
rewrite Hd in E. injection E as <-. unfold node_sem in Hs. rewrite Eo in Hs. destruct (Args ha); [|discriminate]. injection Hs as Hs _.
rewrite <- Hs. apply uint_small, Hr.
Qed.

Lemma step_unchanged c : step_post w w' G pre n post s (set_Cursor c s).
Proof using HI HC.
exists [n], [], rho, sigma, G. cbn [app]. split; [exact HC|]. split; [apply Inv_cursor, HI|]. split; [intros a _; reflexivity|].
split; [cbn; lia|]. split; [apply NextOf_kept, HC|]. cbn [weight Data set_Cursor]. pose proof (node_weight_pos (Data s) n). lia.
Qed.

Lemma step_same : step_post w w' G pre n post s s.
Proof using HI HC.
pose proof (step_unchanged (Cursor s)) as Hs. rewrite set_Cursor_id in Hs. exact Hs.
Qed.

(** Replaced by an operand. *)
Lemma wp_replace m : m ∈ pre -> HasSideEffects (Op h) = false -> (forall k, Op h <> OP_CONSTANT k) ->
G n = G m -> rho n <= rho m -> (sigma m = true -> sigma n = true) ->
wp (ReplaceAllUsesWith n m) (fun _ s' => replaced n m pre post s s' /\ step_post w w' G pre n post s s') s.
Proof using HI HC Hh.
intros Hm Hp Hk HG Hr Hs.
destruct (Inv_replace w w' rho sigma G s n m pre [] post h HC Hh) as (s' & E & R & HI'); cbn [app]; auto.
{ intros x Hx. inversion Hx. }
{ rewrite app_nil_r. exact Hm. }
apply (wp_run _ _ _ _ _ E). split; [exact R|]. exists [], [], rho, sigma, G. cbn [app].
split; [apply (rp_code _ _ _ _ _ _ R)|]. split; [exact HI'|]. split; [intros a _; reflexivity|].
split; [rewrite (rp_next _ _ _ _ _ _ R); lia|]. split.
- apply NextOf_removed; [apply (rp_code _ _ _ _ _ _ R)|apply case_nodup|apply (rp_stale _ _ _ _ _ _ R)].
- cbn [weight]. pose proof (node_weight_pos (Data s) n). rewrite (weight_ext (Data s)); [lia|].
intros x _. apply (op_of_substituted n m (n :: post)), (rp_data _ _ _ _ _ _ R).
Qed.

(** Overwritten. *)
Lemma step_changed s' h' : wf_ir s' -> Code s' = Code s -> NextNode s' = NextNode s -> Data s' = <[n := h']> (Data s) ->
node_ok rho sigma G n h' -> (forall k, Op h = OP_CONSTANT k -> exists k', Op h' = OP_CONSTANT k') ->
(forall w r, node_sem G h w = Some r -> node_sem G h' w = Some r) -> step_post w w' G pre n post s s'.
Proof using HI HC Hh.
intros Hw' HC' HN HD Hok Hk Hsem. exists [n], [], rho, sigma, G. cbn [app]. rewrite HC', HC. split; [reflexivity|].
split; [apply (Inv_change w w' rho sigma G s s' n pre post h h'); auto|]. split; [intros a _; reflexivity|].
split; [lia|]. split; [apply NextOf_kept; congruence|].
cbn [weight]. pose proof (node_weight_pos (Data s) n). rewrite (weight_ext (Data s)); [lia|].
intros x Hx. rewrite HD, op_of_insert. destruct (decide (n = x)) as [<-|]; [|reflexivity]. destruct (proj2 case_nodup Hx).
Qed.

Lemma wp_overwrite k : is_arith (Op h) = true -> sizeof_IROp_Constant <= IRSizes h -> word k ->
(forall w r, node_sem G h w = Some r -> r = (k, w)) ->
wp (ReplaceWithConstant n k) (fun _ => step_post w w' G pre n post s) s.
Proof using HI HC Hh.
intros Ha Hsz Hk Hsem. pose proof (inv_wf _ _ _ _ _ _ _ HI) as Hw.
destruct (ReplaceWithConstant_ok s pre n post h k Hw HC Hh Hsz) as (s' & E & Hw' & HC' & _ & HN & _ & HD).
apply (wp_run _ _ _ _ _ E). apply (step_changed s' (mkOp (OP_CONSTANT k) (Size h) (ElementSize h) [])); auto.
- apply node_ok_constant, Hk.
- intros k' Ek. rewrite Ek in Ha. discriminate.
- intros w0 r Hr. rewrite (Hsem w0 r Hr). cbn. rewrite uint_small by exact Hk. reflexivity.
Qed.

(** Replaced by a new constant. *)
Lemma constant_instead v : word v -> HasSideEffects (Op h) = false -> (forall k, Op h <> OP_CONSTANT k) ->
G n = v -> (2 <= op_weight (Op h))%nat ->
exists k s2 s3, EmitConstant v (set_Cursor n s) = Ok (k, s2) /\ ReplaceAllUsesWith n k s2 = Ok (tt, s3) /\
step_post w w' G pre n post s s3.
Proof using HI HC Hh.
intros Hv Hp Hk HG Hwt. set (s1 := set_Cursor n s).
destruct (EmitConstant_ok w w' rho sigma G s1 n pre post v (rho n) false (Inv_cursor _ _ _ _ _ _ _ n HI) HC eq_refl Hv)
as (s2 & E & R & HI2). change (NextNode s1) with (NextNode s) in *.
set (k := NextNode s) in *. pose proof (ir_ids _ (inv_wf _ _ _ _ _ _ _ HI) n case_code) as [_ Hlt].
assert (n <> k) as Hnk by (unfold k; lia).
assert (Data s2 !! n = Some h) as Hh2 by (rewrite (al_data _ _ _ _ _ _ _ R), lookup_insert_ne by congruence; exact Hh).
destruct (Inv_replace w w' (upd rho k (rho n)) (upd sigma k false) (upd G k v) s2 n k pre [k] post h (al_code _ _ _ _ _ _ _ R) Hh2) as (s3 & E3 & R3 & HI3); auto.
{ intros x [->|Hx]%elem_of_cons; [|inversion Hx]. unfold args_of. rewrite (al_data _ _ _ _ _ _ _ R), lookup_insert_eq.
intros Hin. inversion Hin. }
{ rewrite elem_of_app, elem_of_cons. auto. }
{ rewrite value_upd_eq, value_upd_ne by exact Hnk. exact HG. }
{ rewrite value_upd_eq, value_upd_ne by exact Hnk. lia. }
{ rewrite value_upd_eq. discriminate. }
exists k, s2, s3. split; [exact E|]. split; [exact E3|]. exists [], [k], (upd rho k (rho n)), (upd sigma k false), (upd G k v). cbn [app].
split; [apply (rp_code _ _ _ _ _ _ R3)|]. split; [exact HI3|]. split; [apply upd_agree|].
split; [rewrite (rp_next _ _ _ _ _ _ R3), (al_next _ _ _ _ _ _ _ R); fold k; lia|]. split.
- apply (NextOf_removed s3 (k :: post)); [apply (rp_code _ _ _ _ _ _ R3)| |apply (rp_stale _ _ _ _ _ _ R3)].
rewrite elem_of_cons. intros [?|Hx]; [congruence|apply (proj2 case_nodup Hx)].
- rewrite (weight_ext (Data s2)) by (intros x _; apply (op_of_substituted n k (n :: k :: post)), (rp_data _ _ _ _ _ _ R3)).
cbn [weight]. rewrite (weight_ext (Data s)).
+ unfold node_weight. rewrite (op_of_Some _ _ _ Hh), (al_data _ _ _ _ _ _ _ R), op_of_insert.
destruct (decide (k = k)); [|congruence]. cbn [Op op_weight]. lia.
+ intros x Hx. rewrite (al_data _ _ _ _ _ _ _ R), op_of_insert. destruct (decide (k = x)) as [<-|]; [|reflexivity].
destruct (fresh_not_in s (inv_wf _ _ _ _ _ _ _ HI)). rewrite HC, elem_of_app, elem_of_cons. auto.
Qed.

(** Replaced by a new shift. *)
Lemma shift_node_ok a k1 k2 amt es :
Op h = OP_MUL -> a ∈ Args h -> a <> k1 -> a <> k2 -> k1 <> k2 -> Size h = 4 \/ Size h = 8 -> (Size h = 8 -> 32 <= amt -> sigma n = true) ->
node_ok (upd (upd rho k1 (rho n)) k2 (rho n)) (upd (upd sigma k1 false) k2 (sigma n)) (upd (upd G k1 amt) k2 (G n)) k2
(mkOp OP_LSHL (Size h) es [a; k1]).
Proof using HI HC Hh.
intros Ho Ha H1 H2 H12 Hsz Hs.
destruct (no_alias _ _ _ _ _ case_ok a) as [Hr Hsa]; [rewrite Ho; reflexivity|exact Ha|].
split; cbn [Op Size Args]; try discriminate.
- apply kept_shift. unfold size_48. destruct Hsz as [-> | ->]; reflexivity.
- lia.
- intros x _. rewrite !value_upd_eq. rewrite !elem_of_cons. intros [->|[->|Hx]]; [| |inversion Hx].
+ rewrite !value_upd_ne by assumption. auto.
+ rewrite !(value_upd_ne _ k2), !value_upd_eq by assumption. split; [lia|discriminate].
- intros x y _ H8 [= <- <-]. rewrite (value_upd_ne _ k2), !value_upd_eq by assumption. auto.
Qed.

(** The constant, the shift and the size that it is given. *)
Lemma emit_shift a ha amt : Op h = OP_MUL -> a ∈ pre -> a ∈ Args h -> Data s !! a = Some ha -> Size h = 4 \/ Size h = 8 ->
0 <= amt < 8 * Size h -> (Size h = 8 -> 32 <= amt -> sigma n = true) -> fits (8 * Size h) (G a) = true ->
G n = uint (8 * Size h) (G a * 2 ^ amt) ->
let k1 := NextNode s in let k2 := S k1 in
let h2 es := mkOp OP_LSHL (Size h) es [a; k1] in
exists s2 s3 h0, EmitConstant amt (set_Cursor n s) = Ok (k1, s2) /\ EmitLshl a k1 s2 = Ok (k2, s3) /\ Data s3 !! k2 = Some h0 /\
mkOp (Op h0) (Size h) (ElementSize h0) (Args h0) = h2 (ElementSize h0) /\
let s4 := set_Data (<[k2 := h2 (ElementSize h0)]> (Data s3)) s3 in
Code s4 = pre ++ n :: k1 :: k2 :: post /\ NextNode s4 = S k2 /\
Inv w w' (upd (upd rho k1 (rho n)) k2 (rho n)) (upd (upd sigma k1 false) k2 (sigma n)) (upd (upd G k1 amt) k2 (G n)) s4 (k1 :: k2 :: post) /\
Data s4 = <[k2 := h2 (ElementSize h0)]> (<[k1 := mkOp (OP_CONSTANT amt) 8 8 []]> (Data s)).
Proof using HI HC Hh.
intros Ho Ha Haa Hha Hsz Hamt Hs Hfit HG. cbn zeta. set (s1 := set_Cursor n s). pose proof (inv_wf _ _ _ _ _ _ _ HI) as Hwf.
destruct (EmitConstant_ok w w' rho sigma G s1 n pre post amt (rho n) false (Inv_cursor _ _ _ _ _ _ _ n HI) HC eq_refl ltac:(unfold word; lia))
as (s2 & E & R & HI2). change (NextNode s1) with (NextNode s) in *. set (k1 := NextNode s) in *.
pose proof (ir_ids _ Hwf a (in_pre _ _ _ _ _ HC Ha)) as [_ Hla].
assert (a <> k1) as Hak1 by (unfold k1; lia).
assert (forall x, x <> k1 -> Data s2 !! x = Data s !! x) as HD2.
{ intros x Hx. rewrite (al_data _ _ _ _ _ _ _ R). apply lookup_insert_ne. congruence. }
pose proof (al_code _ _ _ _ _ _ _ R) as HC2. pose proof (al_next _ _ _ _ _ _ _ R) as HN2. set (k2 := S k1) in *.
assert (Code s2 = (pre ++ [n]) ++ k1 :: post) as HC2' by (rewrite HC2, <- app_assoc; reflexivity).
set (h0 := mkOp OP_LSHL (Z.max 4 (Size ha)) (Z.max 4 (Size ha)) [a; k1]).
destruct (AllocateOp_ok s2 k1 (pre ++ [n]) post OP_LSHL (Z.max 4 (Size ha)) [a; k1] (inv_wf _ _ _ _ _ _ _ HI2)
      (al_cursor _ _ _ _ _ _ _ R) HC2') as (s3 & E3 & R3).
{ cbn [value_args Op Args]. intros x. rewrite !elem_of_cons, elem_of_app. intros [->|[->|Hx]]; [auto|auto|inversion Hx]. }
{ intros x. rewrite !elem_of_cons, HN2. intros [->|[->|Hx]]; [| |inversion Hx]; unfold k1 in *; lia. }
{ intros x Hx. inversion Hx. }
rewrite HN2 in R3, E3. fold k2 h0 in R3, E3. set (h2 := mkOp OP_LSHL (Size h) (Z.max 4 (Size ha)) [a; k1]).
pose proof (allocated_resize k1 k2 h0 h2 _ _ s2 s3 (inv_wf _ _ _ _ _ _ _ HI2) HC2' (eq_sym HN2) eq_refl eq_refl R3) as R4.
set (s4 := set_Data (<[k2 := h2]> (Data s3)) s3) in *.
assert (Inv w w' (upd (upd rho k1 (rho n)) k2 (rho n)) (upd (upd sigma k1 false) k2 (sigma n)) (upd (upd G k1 amt) k2 (G n))
    s4 (k2 :: post)) as HI4.
{ apply (Inv_allocated w w' (upd rho k1 (rho n)) (upd sigma k1 false) (upd G k1 amt) s2 s4 k1 k2 h2 (pre ++ [n]) post (rho n) (sigma n) (G n) HC2' (eq_sym HN2) R4).
- intros x. unfold h2. cbn [Args]. rewrite !elem_of_cons. intros [->|[->|Hx]]; [unfold k2, k1 in *; lia|unfold k2; lia|inversion Hx].
- apply shift_node_ok; auto; unfold k2, k1 in *; lia.
- exact I.
- intros w0. unfold node_sem, h2. cbn [Op Args Size is_arith map operands_ok ir_value]. rewrite value_upd_eq, value_upd_ne by exact Hak1.
rewrite Hfit, HG. destruct (Z.leb_spec 0 amt), (Z.ltb_spec amt (8 * Size h)); try lia. cbn [andb].
rewrite (Z.mod_small amt) by lia. unfold when. replace (size_48 (Size h)) with true; [reflexivity|].
unfold size_48. destruct Hsz as [-> | ->]; reflexivity.
- apply (Inv_todo _ _ _ _ _ _ (k1 :: post)); [intros x Hx; apply elem_of_cons; auto|exact HI2]. }
assert (Data s4 = <[k2 := h2]> (<[k1 := mkOp (OP_CONSTANT amt) 8 8 []]> (Data s))) as HD4.
{ unfold s4. cbn [Data set_Data]. rewrite (al_data _ _ _ _ _ _ _ R3), (al_data _ _ _ _ _ _ _ R). apply insert_insert_eq. }
exists s2, s3, h0. split; [exact E|]. split.
{ unfold EmitLshl. rewrite (M_bind_Ok _ _ _ _ _ (GetOpHeader_run s2 a ha (eq_trans (HD2 a Hak1) Hha))). exact E3. }
split; [rewrite (al_data _ _ _ _ _ _ _ R3); apply lookup_insert_eq|]. split; [reflexivity|]. cbn zeta. fold h2 s4.
split; [unfold s4; cbn; rewrite (al_code _ _ _ _ _ _ _ R3), <- app_assoc; reflexivity|].
split; [apply (al_next _ _ _ _ _ _ _ R3)|]. split; [|exact HD4].
apply (Inv_cons w w' _ _ _ s4 _ k1 (mkOp (OP_CONSTANT amt) 8 8 [])); [|exact I|exact HI4].
rewrite HD4, lookup_insert_ne, lookup_insert_eq by (unfold k2; lia). reflexivity.
Qed.

Lemma shift_instead a ha amt : Op h = OP_MUL -> a ∈ pre -> a ∈ Args h -> Data s !! a = Some ha -> Size h = 4 \/ Size h = 8 ->
0 <= amt < 8 * Size h -> (Size h = 8 -> 32 <= amt -> sigma n = true) -> fits (8 * Size h) (G a) = true ->
G n = uint (8 * Size h) (G a * 2 ^ amt) ->
exists k1 s2 k2 s3 h2 s5, EmitConstant amt (set_Cursor n s) = Ok (k1, s2) /\ EmitLshl a k1 s2 = Ok (k2, s3) /\
Data s3 !! k2 = Some h2 /\
ReplaceAllUsesWith n k2 (set_Data (<[k2 := mkOp (Op h2) (Size h) (ElementSize h2) (Args h2)]> (Data s3)) s3) = Ok (tt, s5) /\
step_post w w' G pre n post s s5.
Proof using HI HC Hh.
intros Ho Ha Haa Hha Hsz Hamt Hs Hfit HG.
destruct (emit_shift a ha amt Ho Ha Haa Hha Hsz Hamt Hs Hfit HG) as (s2 & s3 & h0 & E2 & E3 & E0 & Eh & HC4 & HN4 & HI4 & HD4).
set (k1 := NextNode s) in *. set (k2 := S k1) in *. set (h2 := mkOp OP_LSHL _ _ _) in *. set (s4 := set_Data _ _) in *.
pose proof (inv_wf _ _ _ _ _ _ _ HI) as Hwf. pose proof (ir_ids _ Hwf n case_code) as [_ Hlt].
pose proof (ir_ids _ Hwf a (in_pre _ _ _ _ _ HC Ha)) as [_ Hla]. pose proof (proj1 case_nodup) as Hnp.
assert (n <> k1 /\ n <> k2 /\ k1 <> k2 /\ n <> a) as (N1 & N2 & N12 & Na).
{ unfold k2, k1. split; [lia|]. split; [lia|]. split; [lia|]. intros ->. contradiction. }
assert (Data s4 !! n = Some h) as Hn4 by (rewrite HD4, !lookup_insert_ne by congruence; exact Hh).
destruct (Inv_replace w w' (upd (upd rho k1 (rho n)) k2 (rho n)) (upd (upd sigma k1 false) k2 (sigma n)) (upd (upd G k1 amt) k2 (G n))
      s4 n k2 pre [k1; k2] post h HC4 Hn4) as (s5 & E5 & R5 & HI5).
{ intros x. rewrite !elem_of_cons, HD4, args_of_insert, args_of_insert. intros [->|[->|Hx]]; [| |inversion Hx].
- rewrite decide_False, decide_True by congruence. intros Hin. inversion Hin.
- rewrite decide_True by reflexivity. unfold h2. cbn [Args]. rewrite !elem_of_cons. intros [?|[?|Hx]]; [congruence|congruence|inversion Hx]. }
{ rewrite elem_of_app, !elem_of_cons. auto. }
{ rewrite Ho. reflexivity. }
{ rewrite Ho. discriminate. }
{ rewrite value_upd_eq, !value_upd_ne by assumption. reflexivity. }
{ rewrite value_upd_eq, !value_upd_ne by assumption. lia. }
{ rewrite value_upd_eq, !value_upd_ne by assumption. auto. }
{ exact HI4. }
exists k1, s2, k2, s3, h0, s5. rewrite Eh. do 4 (split; [assumption|]).
exists [], [k1; k2], (upd (upd rho k1 (rho n)) k2 (rho n)), (upd (upd sigma k1 false) k2 (sigma n)), (upd (upd G k1 amt) k2 (G n)). cbn [app].
split; [apply (rp_code _ _ _ _ _ _ R5)|]. split; [exact HI5|].
split; [intros x Hx; rewrite !value_upd_ne by (unfold k2, k1; lia); reflexivity|].
split; [rewrite (rp_next _ _ _ _ _ _ R5), HN4; unfold k2, k1; lia|]. split.
- apply (NextOf_removed s5 (k1 :: k2 :: post)); [apply (rp_code _ _ _ _ _ _ R5)| |apply (rp_stale _ _ _ _ _ _ R5)].
rewrite !elem_of_cons. intros [?|[?|Hx]]; [congruence|congruence|apply (proj2 case_nodup Hx)].
- rewrite (weight_ext (Data s4)) by (intros x _; apply (op_of_substituted n k2 (n :: k1 :: k2 :: post)), (rp_data _ _ _ _ _ _ R5)).
cbn [weight]. rewrite (weight_ext (Data s)).
+ unfold node_weight. rewrite (op_of_Some _ _ _ Hh), HD4, !op_of_insert, Ho.
destruct (decide (k2 = k1)), (decide (k2 = k2)), (decide (k1 = k1)); try congruence. cbn [Op op_weight h2]. lia.
+ assert (forall x, x ∈ post -> (x < k1)%nat) as Hp.
{ intros x Hx. apply (ir_ids _ Hwf x). rewrite HC, elem_of_app, elem_of_cons. auto. }
intros x Hx. specialize (Hp x Hx). rewrite HD4, !op_of_insert, !decide_False by (unfold k2; lia). reflexivity.
Qed.
End Cases.

(** ** Powers of two *)

Lemma count_bits_nonneg k x : 0 <= count_bits k x.
Proof. induction k as [|k IH]; cbn [count_bits]; [lia|]. destruct (Z.testbit x (Z.of_nat k)); cbn [Z.b2z]; lia. Qed.

Lemma count_bits_zero k x : count_bits k x = 0 -> forall i, 0 <= i < Z.of_nat k -> Z.testbit x i = false.
Proof.
  induction k as [|k IH]; cbn [count_bits]; intros Hc i Hi; [lia|]. pose proof (count_bits_nonneg k x).
  destruct (Z.testbit x (Z.of_nat k)) eqn:E; cbn [Z.b2z] in Hc; [lia|].
  destruct (Z.eq_dec i (Z.of_nat k)) as [->|]; [exact E|]. apply IH; lia.
Qed.

Lemma count_bits_one k x : count_bits k x = 1 ->
  exists i, 0 <= i < Z.of_nat k /\ forall j, 0 <= j < Z.of_nat k -> Z.testbit x j = (j =? i).
Proof.
  induction k as [|k IH]; cbn [count_bits]; intros Hc; [lia|]. destruct (Z.testbit x (Z.of_nat k)) eqn:E; cbn [Z.b2z] in Hc.
  - exists (Z.of_nat k). split; [lia|]. intros j Hj. destruct (Z.eqb_spec j (Z.of_nat k)) as [->|]; [exact E|].
    apply (count_bits_zero k); lia.
  - destruct IH as (i & Hi & Hb); [lia|]. exists i. split; [lia|]. intros j Hj.
    destruct (Z.eq_dec j (Z.of_nat k)) as [->|]; [rewrite E; symmetry; apply Z.eqb_neq; lia|]. apply Hb. lia.
Qed.

Lemma first_set_pow k : forall i j, j <= i < j + Z.of_nat k -> 0 <= j -> first_set k j (2 ^ i) = i.
Proof.
  induction k as [|k IH]; intros i j Hi Hj; [lia|]. cbn [first_set]. rewrite Z.pow2_bits_eqb by lia.
  destruct (Z.eqb_spec i j) as [->|]; [reflexivity|]. apply IH; lia.
Qed.

Lemma power_of_two w c : 0 <= w -> 0 <= c < 2 ^ w -> popcount w c = 1 -> 0 <= countr_zero w c < w /\ c = 2 ^ countr_zero w c.
Proof.
  unfold popcount, countr_zero. intros Hw Hc Hp. destruct (count_bits_one _ c Hp) as (i & Hi & Hb).
  rewrite Z2Nat.id in Hi, Hb by exact Hw.
  assert (c = 2 ^ i) as ->.
  { apply Z.bits_inj'. intros j Hj. rewrite Z.pow2_bits_eqb by lia. destruct (Z.lt_ge_cases j w).
    - rewrite Hb by lia. apply Z.eqb_sym.
    - rewrite (testbit_high w c) by assumption. symmetry. apply Z.eqb_neq. lia. }
  rewrite first_set_pow by (rewrite ?Z2Nat.id; lia). auto.
Qed.
