(* ===== verification/ConstPropSteps.v ===== *)
(** * An iteration of the propagation loop

    Addresses and conditional branches, then the two functions of the loop body
    and the body itself. *)
From Stdlib Require Import ZArith Lia Bool.
From stdpp Require Import base gmap list numbers option.
From S2P Require Import Prelude IR ALUOps Interp IRSpec InterpRefines IRList IRListLogic ConstProp ConstPropLogic ConstPropCases.
#[local] Open Scope Z_scope.

(** ** Scales *)

Lemma IsMemoryScale_cases c sz : IsMemoryScale c sz = true -> c = 1 \/ c = 2 \/ c = 4 \/ c = 8.
Proof. unfold IsMemoryScale. rewrite !orb_true_iff, !Z.eqb_eq. tauto. Qed.

Lemma int_shift_ok c : 0 <= c < 32 -> exists k, int_shift c = Ok k /\ (forall sz, IsMemoryScale k sz = true -> k = 2 ^ c).
Proof.
  intros Hc. unfold int_shift. destruct (Z.ltb_spec c 32); [|lia]. eexists. split; [reflexivity|]. intros sz Hs.
  rewrite Z.shiftl_mul_pow2, Z.mul_1_l in * by lia. destruct (Z.eq_dec c 31) as [->|Hne]; [discriminate Hs|].
  pose proof (Z.pow_le_mono_r 2 c 30 ltac:(lia) ltac:(lia)). pose proof (pow2_pos c ltac:(lia)).
  rewrite sint_small by lia. apply uint_small. lia.
Qed.

Lemma address_scaled x y c : c = 1 \/ c = 2 \/ c = 4 \/ c = 8 ->
  mem_address MEM_OFFSET_SXTX (uint 8 c) x (Some y) = uint 64 (x + uint 64 (y * c)).
Proof.
  intros Hc. unfold mem_address, get. rewrite (uint_small 8 c) by lia. rewrite <- (uint_mul 64 (uint 64 y) c), uint_idemp, uint_mul.
  rewrite <- (uint_add 64 (uint 64 x)), !uint_idemp. rewrite <- (uint_add 64 x), uint_idemp. reflexivity.
Qed.

Lemma address_plain x y : mem_address MEM_OFFSET_SXTX 1 x (Some y) = uint 64 (x + y).
Proof. unfold mem_address, get. rewrite Z.mul_1_r, uint_idemp. apply uint_add. Qed.

Section Steps.
Context {W : Type} `{World W} `{Kp : Keeps} (w w' : W) (rho : NodeID -> Z) (sigma : NodeID -> bool) (G : NodeID -> Z).
Context (s : IRList) (n : NodeID) (pre post : list NodeID) (h : IROp_Header).
Hypothesis HI : Inv w w' rho sigma G s post.
Hypothesis HC : Code s = pre ++ n :: post.
Hypothesis Hh : Data s !! n = Some h.

(** The header, conditions and meaning of a node before [n]. *)
Lemma pre_node x : x ∈ pre -> exists hx, Data s !! x = Some hx /\ node_ok rho sigma G x hx /\
(exists w1 w2, node_sem G hx w1 = Some (G x, w2)) /\ forall a, a ∈ value_args hx -> a ∈ pre.
Proof using HI HC.
intros Hx. pose proof (inv_wf _ _ _ _ _ _ _ HI) as Hw. pose proof (in_pre _ _ _ _ _ HC Hx) as Hxc.
destruct (valid_at G _ _ _ _ x (inv_valid _ _ _ _ _ _ _ HI) Hxc) as (hx & w1 & w2 & E & Hs).
exists hx. split; [exact E|]. split; [apply (inv_nodes _ _ _ _ _ _ _ HI x hx Hxc E)|]. split; [eauto|].
intros a Ha. apply (pre_args s pre (n :: post) x hx a Hw HC Hx E Ha).
Qed.

(** An arithmetic node before [n] with two arguments. *)
Lemma pre_arith x hx : x ∈ pre -> Data s !! x = Some hx ->
Op hx = OP_ADD \/ Op hx = OP_MUL \/ Op hx = OP_LSHL ->
exists a b, Args hx = [a; b] /\ a ∈ pre /\ b ∈ pre /\ operands_ok (Op hx) (Size hx) [G a; G b] = true /\
ir_value (Op hx) (Size hx) [G a; G b] = Some (G x).
Proof using HI HC.
intros Hx E Ho. destruct (pre_node x Hx) as (hx' & E' & _ & (w1 & w2 & Hs) & Ha). rewrite E in E'. injection E' as <-.
destruct (arith_sem G hx w1 (G x) w2) as (Hok & Hv & _); [destruct Ho as [->|[->| ->]]; reflexivity|exact Hs|].
destruct (arith_args2 (Op hx) _ _ _ ltac:(tauto) Hv) as (va & vb & El).
destruct (Args hx) as [|a [|b [|]]] eqn:EA; try discriminate El. exists a, b. split; [reflexivity|].
assert (forall c, c ∈ [a; b] -> c ∈ pre) as Hin.
{ intros c Hc. apply Ha. unfold value_args. rewrite EA. destruct Ho as [->|[->| ->]]; exact Hc. }
split; [apply Hin, elem_of_cons; auto|]. split; [apply Hin; rewrite !elem_of_cons; auto|]. auto.
Qed.

Definition extended (Addr : NodeID) (r : MemOffsetType * Z * NodeID * NodeID) : Prop :=
let '(ty, sc, A0, A1) := r in A0 ∈ pre /\ A1 ∈ pre /\ mem_address ty sc (G A0) (Some (G A1)) = get 64 (G Addr).

Lemma extended_scaled sz Addr a0 a1 b0 c (no : P (MemOffsetType * Z * NodeID * NodeID)) :
G Addr = uint 64 (G a0 + G a1) -> G a0 = uint 64 (G b0 * c) \/ IsMemoryScale c sz = false -> a1 ∈ pre -> b0 ∈ pre ->
wp no (fun r s' => s' = s /\ extended Addr r) s ->
wp (if IsMemoryScale c sz then mret (MEM_OFFSET_SXTX, uint 8 c, a1, b0)
else if c =? 1 then mret (MEM_OFFSET_SXTX, 1, a1, b0) else no)
(fun r s' => s' = s /\ extended Addr r) s.
Proof using.
intros HA Ha0 H1 H0 Hno. destruct (IsMemoryScale c sz) eqn:Ec.
- apply pass_ret. split; [reflexivity|]. unfold extended. split; [exact H1|]. split; [exact H0|].
destruct Ha0 as [Ha0|]; [|discriminate]. rewrite address_scaled by (apply (IsMemoryScale_cases c sz Ec)).
rewrite HA, Ha0. unfold get. rewrite uint_idemp, Z.add_comm. reflexivity.
- destruct (Z.eqb_spec c 1) as [->|_]; [discriminate Ec|exact Hno].
Qed.

Lemma wp_extended sz Addr hA : Addr ∈ pre -> Data s !! Addr = Some hA -> Op hA = OP_ADD -> Size hA = 8 ->
wp (MemExtendedAddressing sz hA) (fun r s' => s' = s /\ extended Addr r) s.
Proof using HI HC.
intros Hp HA Ho Hs. destruct (pre_arith Addr hA Hp HA) as (a0 & a1 & EA & H0 & H1 & _ & Hv); [auto|].
rewrite Ho, Hs in Hv. injection Hv as Hv. change (8 * 8) with 64 in Hv.
destruct (pre_node a0 H0) as (h0 & E0 & Ok0 & _ & Hargs0).
destruct (pre_node Addr Hp) as (hA' & EA' & OkA & _). rewrite HA in EA'. injection EA' as <-.
pose proof (no_add _ _ _ _ _ OkA a0 a1 Ho Hs EA) as Hsig.
assert (wp (mret (MEM_OFFSET_SXTX, 1, a0, a1) : P (MemOffsetType * Z * NodeID * NodeID)) (fun r s' => s' = s /\ extended Addr r) s) as Hno.
{ apply pass_ret. split; [reflexivity|]. unfold extended. rewrite address_plain, <- Hv. unfold get. rewrite uint_idemp. auto. }
unfold MemExtendedAddressing. rewrite EA. cbn zeta. apply pass_bind, (wp_header a0 h0); [exact E0|].
destruct (Z.eqb_spec (Size h0) 8) as [Hs0|_]; [|exact Hno].
destruct (Op h0) eqn:Eo0; try exact Hno;
destruct (pre_arith a0 h0 H0 E0) as (b0 & b1 & EB & Hb0 & Hb1 & Hok & Hv0); try (rewrite Eo0; tauto); rewrite EB;
rewrite Eo0, Hs0 in Hok, Hv0; injection Hv0 as Hv0; change (8 * 8) with 64 in *;
destruct (pre_node b1 Hb1) as (hb1 & Eb1 & _); apply pass_bind, (wp_constant b1 hb1); try exact Eb1;
destruct (constant_of hb1) as [c|] eqn:Ec; try exact Hno;
destruct (case_const w w' rho sigma G s n pre post HI HC b1 hb1 c Hb1 Eb1 Ec) as [Gc Hc]; rewrite Gc in *.
- apply (extended_scaled sz Addr a0 a1 b0 c); auto.
- destruct (shift_operands _ _ _ _ (or_introl eq_refl) Hok) as [_ Hlt].
assert (c < 32) as Hc32.
{ destruct (Z.lt_ge_cases c 32) as [|Hge]; [assumption|].
rewrite (no_shift _ _ _ _ _ Ok0 b0 b1 Eo0 Hs0 EB) in Hsig by lia. discriminate. }
destruct (int_shift_ok c ltac:(lia)) as (k & Ek & Hk). apply pass_bind, (wp_lift _ k); [exact Ek|].
apply (extended_scaled sz Addr a0 a1 b0 k); auto. destruct (IsMemoryScale k sz) eqn:E; [left|right; reflexivity].
rewrite (Hk sz E), <- Hv0, Z.mod_small by lia. reflexivity.
Qed.

(** Another operation, then two arguments. *)
Lemma wp_change_address op i j A0 A1 old0 old1 (b : bool) :
let h1 := set_op op h in let h2 := set_args (<[i := A0]> (Args h)) h1 in let h3 := set_args (<[j := A1]> (Args h2)) h2 in
value_args h1 = value_args h -> block_args h1 = block_args h -> Args h !! i = Some old0 -> Args h2 !! j = Some old1 -> A0 ∈ pre -> A1 ∈ pre ->
(forall a, a ∈ value_args h2 -> a = A0 \/ a ∈ value_args h1) -> (forall a, a ∈ block_args h2 -> ~ a ∈ Code s) ->
(forall a, a ∈ value_args h3 -> a = A1 \/ a ∈ value_args h2) -> (forall a, a ∈ block_args h3 -> ~ a ∈ Code s) ->
node_ok rho sigma G n h3 -> (forall k, Op h <> OP_CONSTANT k) -> (forall w r, node_sem G h w = Some r -> node_sem G h3 w = Some r) ->
wp (_ ← set_header n h1; _ ← ReplaceNodeArgument n i A0; _ ← ReplaceNodeArgument n j A1; mret b)
(fun _ s' => step_post w w' G pre n post s s') s.
Proof using HI HC Hh.
intros h1 h2 h3 V1 V1' I0 I1 P0 P1 V2 B2 V3 B3 Hok Hk Hsem. pose proof (inv_wf _ _ _ _ _ _ _ HI) as Hw.
destruct (set_header_ok s pre n post h op Hw HC Hh V1 V1') as (s1 & E1 & C1). apply pass_bind, (wp_run _ _ _ _ _ E1).
destruct (set_arg_ok s1 pre n post h1 i old0 A0 (ch_wf _ _ _ _ C1)) as (s2 & E2 & C2); try assumption;
[rewrite (ch_code _ _ _ _ C1); exact HC|apply (changed_lookup _ _ _ _ C1)|rewrite (ch_code _ _ _ _ C1); exact B2|].
apply pass_bind, (wp_run _ _ _ _ _ E2). pose proof (changed_trans _ _ _ _ _ _ C1 C2) as C12.
destruct (set_arg_ok s2 pre n post h2 j old1 A1 (ch_wf _ _ _ _ C12)) as (s3 & E3 & C3); try assumption;
[rewrite (ch_code _ _ _ _ C12); exact HC|apply (changed_lookup _ _ _ _ C12)|rewrite (ch_code _ _ _ _ C12); exact B3|].
apply pass_bind, (wp_run _ _ _ _ _ E3), pass_ret. destruct (changed_trans _ _ _ _ _ _ C12 C3) as [Cw CC _ CN CD].
apply (step_changed w w' rho sigma G s n pre post h HI HC Hh s3 h3 Cw CC CN CD Hok); [|exact Hsem].
intros k Ek. destruct (Hk k Ek).
Qed.

Lemma no_InvalidNode : ~ InvalidNode ∈ Code s.
Proof using HI. intros Hin. destruct (ir_ids _ (inv_wf _ _ _ _ _ _ _ HI) _ Hin). congruence. Qed.

Lemma pre_valid a : a ∈ pre -> offset_arg a = [a] /\ offset_value G a = Some (G a).
Proof using HI HC.
intros Ha. assert (a <> InvalidNode) as Hne by (intros ->; apply no_InvalidNode, (in_pre _ _ _ _ _ HC Ha)).
unfold offset_arg, offset_value. rewrite !decide_False by exact Hne. auto.
Qed.

Lemma node_ok_other op sz es args : kept op sz -> rewritable op = false -> masked op = false -> (forall k, op <> OP_CONSTANT k) -> (forall wd l, op <> OP_BFE wd l) ->
op <> OP_LSHL -> op <> OP_MUL -> op <> OP_ADD -> node_ok rho sigma G n (mkOp op sz es args).
Proof using. intros H0 H1 H2 H3 H4 H5 H6 H7. split; cbn [Op Size]; intros; try exact H0; congruence. Qed.

Lemma offset_Invalid : offset_arg InvalidNode = [] /\ offset_value G InvalidNode = None.
Proof using. split; reflexivity. Qed.

(** Unfolds the arguments of a load or store that is being changed. *)
Ltac address_args Ho EA P0 P1 :=
match goal with |- _ = _ => idtac | |- forall a, a ∈ _ -> _ => idtac end;
unfold value_args, block_args; cbn [Op Args set_op set_args]; rewrite ?Ho, ?EA; cbn [insert list_insert];
rewrite ?(proj1 offset_Invalid), ?(proj1 (pre_valid _ P0)), ?(proj1 (pre_valid _ P1));
try reflexivity; intros x; rewrite ?elem_of_cons; pose proof no_InvalidNode;
intuition (subst; auto); try match goal with K : _ ∈ [] |- _ => inversion K end.

Lemma wp_fold_load ty sc Addr o : Op h = OP_LOADMEM ty sc -> Args h = [Addr; o] -> no_offset (Data s) h ->
wp (fold_address n h Addr 0 1 OP_LOADMEM) (fun _ s' => step_post w w' G pre n post s s') s.
Proof using HI HC Hh.
intros Ho EA Hno. destruct (case_arg w w' rho sigma G s n pre post h HI HC Hh Addr) as (Hp & _ & hA & EhA).
{ unfold value_args. rewrite Ho, EA, elem_of_cons. auto. }
apply pass_bind, (wp_header Addr hA); [exact EhA|].
pose proof (step_same w w' rho sigma G s n pre post HI HC) as Hsame.
destruct (Op hA) eqn:EoA; try (apply pass_ret, Hsame). destruct (Z.eqb_spec (Size hA) 8) as [Es|_]; [|apply pass_ret, Hsame].
assert (o = InvalidNode) as ->.
{ unfold no_offset in Hno. rewrite Ho, EA in Hno. destruct Hno as [?|(k & Ek)]; [assumption|].
rewrite (op_of_Some _ _ _ EhA), EoA in Ek. discriminate. }
apply pass_bind. eapply pass_mono; [|apply (wp_extended (Size h) Addr hA Hp EhA EoA Es)].
intros [[[ty' sc'] A0] A1] s' [-> (P0 & P1 & EM)].
apply (wp_change_address (OP_LOADMEM ty' sc') 0 1 A0 A1 Addr InvalidNode true); try assumption;
try (address_args Ho EA P0 P1); [apply node_ok_other; try (discriminate || reflexivity)|rewrite Ho; discriminate|].
{ apply (kept_load ty sc). rewrite <- Ho. apply (no_kept _ _ _ _ _ (case_ok w w' rho sigma G s n pre post h HI HC Hh)). }
intros w0 r. unfold node_sem. cbn [Op Args Size set_op set_args]. rewrite Ho, EA. cbn [insert list_insert].
rewrite (proj2 offset_Invalid), (proj2 (pre_valid _ P1)), EM. unfold mem_address at 1. auto.
Qed.

Lemma wp_fold_store ty sc v Addr o : Op h = OP_STOREMEM ty sc -> Args h = [v; Addr; o] -> no_offset (Data s) h ->
wp (fold_address n h Addr 1 2 OP_STOREMEM) (fun _ s' => step_post w w' G pre n post s s') s.
Proof using HI HC Hh.
intros Ho EA Hno. destruct (case_arg w w' rho sigma G s n pre post h HI HC Hh Addr) as (Hp & _ & hA & EhA).
{ unfold value_args. rewrite Ho, EA, !elem_of_cons. auto. }
apply pass_bind, (wp_header Addr hA); [exact EhA|].
pose proof (step_same w w' rho sigma G s n pre post HI HC) as Hsame.
destruct (Op hA) eqn:EoA; try (apply pass_ret, Hsame). destruct (Z.eqb_spec (Size hA) 8) as [Es|_]; [|apply pass_ret, Hsame].
assert (o = InvalidNode) as ->.
{ unfold no_offset in Hno. rewrite Ho, EA in Hno. destruct Hno as [?|(k & Ek)]; [assumption|].
rewrite (op_of_Some _ _ _ EhA), EoA in Ek. discriminate. }
apply pass_bind. eapply pass_mono; [|apply (wp_extended (Size h) Addr hA Hp EhA EoA Es)].
intros [[[ty' sc'] A0] A1] s' [-> (P0 & P1 & EM)].
apply (wp_change_address (OP_STOREMEM ty' sc') 1 2 A0 A1 Addr InvalidNode true); try assumption;
try (address_args Ho EA P0 P1); [apply node_ok_other; try (discriminate || reflexivity)|rewrite Ho; discriminate|].
{ apply (kept_store ty sc). rewrite <- Ho. apply (no_kept _ _ _ _ _ (case_ok w w' rho sigma G s n pre post h HI HC Hh)). }
intros w0 r. unfold node_sem. cbn [Op Args Size set_op set_args]. rewrite Ho, EA. cbn [insert list_insert].
rewrite (proj2 offset_Invalid), (proj2 (pre_valid _ P1)), EM. unfold mem_address at 1. auto.
Qed.
End Steps.

(** What a load leaves fits its size. *)
Lemma loadmem_zext {W} `{World W} G h w1 v w2 : loads_zero_extended (Op h) = true -> node_sem G h w1 = Some (v, w2) -> 0 <= v < 2 ^ (8 * Size h).
Proof.
  destruct h as [op sz es args]. unfold node_sem. cbn [Op Args Size]. destruct op; try discriminate; intros _.
  - apply w_other_zext.
  - destruct args as [|a [|o [|]]]; try discriminate. destruct (w_load _ _ _ _) as [v0|] eqn:E; [|discriminate].
    intros [= <- _]. apply (w_load_zext _ _ _ _ _ E).
  - destruct args as [|a [|o [|]]]; try discriminate. destruct (w_load _ _ _ _) as [v0|] eqn:E; [|discriminate].
    intros [= <- _]. apply (w_load_zext _ _ _ _ _ E).
Qed.

(** ** Replacement by an operand and by constants *)

Section Fold.
Context {W : Type} `{World W} `{Kp : Keeps} (w w' : W) (rho : NodeID -> Z) (sigma : NodeID -> bool) (G : NodeID -> Z).
Context (s : IRList) (n : NodeID) (pre post : list NodeID) (h : IROp_Header).
Hypothesis HI : Inv w w' rho sigma G s post.
Hypothesis HC : Code s = pre ++ n :: post.
Hypothesis Hh : Data s !! n = Some h.

Lemma rewritable_pure op : rewritable op = true -> HasSideEffects op = false /\ is_arith op = true /\ forall k, op <> OP_CONSTANT k.
Proof using. destruct op; try discriminate; auto. Qed.

Lemma wp_use_instead a : rewritable (Op h) = true -> a ∈ value_args h -> G n = G a ->
wp (use_instead n a) (fun _ s' => step_post w w' G pre n post s s') s.
Proof using HI HC Hh.
intros Hr Ha HG. destruct (rewritable_pure _ Hr) as (Hp & _ & Hk).
destruct (case_arg w w' rho sigma G s n pre post h HI HC Hh a Ha) as (Hpre & _).
destruct (no_alias _ _ _ _ _ (case_ok w w' rho sigma G s n pre post h HI HC Hh) a Hr (value_args_sub _ _ Ha)) as [Hrho Hsig].
unfold use_instead. apply pass_bind. eapply pass_mono; [|apply (wp_replace w w' rho sigma G s n pre post h HI HC Hh a); assumption].
intros _ s' [_ Hs]. apply pass_ret, Hs.
Qed.

(** Both arguments of a binary operation are constants, or nothing is known of
the second one. *)
Lemma wp_both a b (Q : option Z * option Z -> IRList -> Prop) : a ∈ pre -> b ∈ pre ->
(forall x y, G a = x -> G b = y -> word x -> word y -> Q (Some x, Some y) s) -> (forall c, Q (c, None) s) ->
wp (BothConstant a b) Q s.
Proof using HI HC.
intros Ha Hb HS HN. destruct (pre_node w w' rho sigma G s n pre post HI HC a Ha) as (ha & Ea & _).
destruct (pre_node w w' rho sigma G s n pre post HI HC b Hb) as (hb & Eb & _).
unfold BothConstant. apply pass_bind, (wp_constant a ha); [exact Ea|]. destruct (constant_of ha) as [x|] eqn:Ka; [|apply pass_ret, HN].
apply pass_bind, (wp_constant b hb); [exact Eb|]. apply pass_ret. destruct (constant_of hb) as [y|] eqn:Kb; [|apply HN].
destruct (case_const w w' rho sigma G s n pre post HI HC a ha x Ha Ea Ka), (case_const w w' rho sigma G s n pre post HI HC b hb y Hb Eb Kb).
apply HS; assumption.
Qed.

Lemma case_sem : is_arith (Op h) = true -> operands_ok (Op h) (Size h) (map G (Args h)) = true /\
ir_value (Op h) (Size h) (map G (Args h)) = Some (G n) /\ forall w0 r, node_sem G h w0 = Some r -> r = (G n, w0).
Proof using HI HC Hh.
intros Ha. destruct (case_value w w' rho sigma G s n pre post h HI HC Hh) as (w1 & w2 & Hs).
destruct (arith_sem G h w1 (G n) w2 Ha Hs) as (Hok & Hv & Hs'). split; [exact Hok|]. split; [exact Hv|].
intros w0 r. rewrite Hs'. congruence.
Qed.

Lemma wp_fold_binary a b f other : is_arith (Op h) = true -> value_args h = [a; b] -> Args h = [a; b] -> folds (Op h) (Size h) f ->
wp (other 0) (fun _ s' => step_post w w' G pre n post s s') s ->
wp (fold_binary n a b f other) (fun _ s' => step_post w w' G pre n post s s') s.
Proof using HI HC Hh.
intros Har EV EA Hf Hother. destruct (case_sem Har) as (Hok & Hv & Hsem). rewrite EA in Hok, Hv.
destruct (case_arg w w' rho sigma G s n pre post h HI HC Hh a) as (Ha & _); [rewrite EV, elem_of_cons; auto|].
destruct (case_arg w w' rho sigma G s n pre post h HI HC Hh b) as (Hb & _); [rewrite EV, !elem_of_cons; auto|].
unfold fold_binary. apply pass_bind. apply wp_both; [assumption|assumption| |intros [c|]; exact Hother].
intros x y <- <- Hx Hy. destruct (Hf _ _ _ Hx Hy Hok Hv) as [Ef Hw]. apply pass_bind, (wp_lift _ (G n)); [exact Ef|].
apply pass_bind. eapply pass_mono; [|apply (wp_overwrite w w' rho sigma G s n pre post h HI HC Hh (G n) Har)]; try assumption.
- intros u s' Hs. apply pass_ret, Hs.
- unfold IRSizes, sizeof_IROp_Constant. rewrite EA. cbn [length]. destruct (Op h); lia.
Qed.

Lemma wp_remove_masking i arg mask : wp (remove_masking n i arg mask) (fun r s' => r = false /\ s' = s) s.
Proof using.
unfold remove_masking, RemoveUselessMasking. apply pass_bind, pass_ret. rewrite decide_True by reflexivity. apply pass_ret. auto.
Qed.

(** A select of one and zero has the value of its condition. *)
Lemma wp_flag_select x hx (Q : bool -> IRList -> Prop) : x ∈ pre -> Data s !! x = Some hx ->
(forall c cs y z t f r, Op hx = OP_SELECT c cs -> Args hx = [y; z; t; f] -> y ∈ pre -> z ∈ pre ->
cond_holds (if cs =? 4 then 32 else 64) c (G y) (G z) = Some r -> G x = Z.b2z r -> Q true s) -> Q false s ->
wp (is_flag_select hx) Q s.
Proof using HI HC.
intros Hx Ex Ht Hf. destruct (pre_node w w' rho sigma G s n pre post HI HC x Hx) as (hx' & Ex' & _ & (w1 & w2 & Hs) & Hargs).
rewrite Ex in Ex'. injection Ex' as <-. unfold is_flag_select. destruct (Op hx) eqn:Eo; try apply pass_ret, Hf.
destruct (Args hx) as [|y [|z [|t [|f [|]]]]] eqn:EA; try apply pass_ret, Hf.
assert (forall a, a ∈ [y; z; t; f] -> a ∈ pre) as Hin by (intros a Ha; apply Hargs; unfold value_args; rewrite Eo, EA; exact Ha).
apply pass_bind, wp_both; [apply Hin; rewrite !elem_of_cons; auto|apply Hin; rewrite !elem_of_cons; auto| |intros [c'|]; apply pass_ret, Hf].
intros c2 c3 G2 G3 _ _. apply pass_ret. destruct (Z.eqb_spec c2 1) as [->|]; [|exact Hf]. destruct (Z.eqb_spec c3 0) as [->|]; [|exact Hf].
destruct (arith_sem G hx w1 (G x) w2) as (_ & Hv & _); [rewrite Eo; reflexivity|exact Hs|].
rewrite Eo, EA in Hv. cbn [map ir_value] in Hv. rewrite G2, G3 in Hv.
destruct (cond_holds _ _ (G y) (G z)) as [r|] eqn:Er; [|discriminate]. cbn [mbind option_bind] in Hv.
apply when_Some in Hv as [Hsz Hv]. apply size_48_cases in Hsz.
apply (Ht Cond CompareSize y z t f r); auto; try (apply Hin; rewrite !elem_of_cons; auto).
rewrite Hv. destruct r; destruct Hsz as [-> | ->]; reflexivity.
Qed.
End Fold.

(** ** The cases of [ConstantPropagation] *)

Section Dispatch.
Context {W : Type} `{World W} `{Kp : Keeps} (w w' : W) (rho : NodeID -> Z) (sigma : NodeID -> bool) (G : NodeID -> Z).
Context (s : IRList) (n : NodeID) (pre post : list NodeID) (h : IROp_Header).
Hypothesis HI : Inv w w' rho sigma G s post.
Hypothesis HC : Code s = pre ++ n :: post.
Hypothesis Hh : Data s !! n = Some h.
Let Post : bool -> IRList -> Prop := fun _ s' => step_post w w' G pre n post s s'.

Lemma wp_same b : wp (mret b) Post s.
Proof using HI HC. apply pass_ret, (step_same w w' rho sigma G s n pre post HI HC). Qed.

(** [x & x] and [x | x]. *)
Lemma wp_same_operands a b : Op h = OP_AND \/ Op h = OP_OR -> Args h = [a; b] ->
wp (if decide (a = b) then use_instead n a else mret false) Post s.
Proof using HI HC Hh.
intros Ho EA. destruct (decide (a = b)) as [<-|_]; [|apply wp_same].
destruct (case_sem w w' rho sigma G s n pre post h HI HC Hh) as (Hok & Hv & _); [destruct Ho as [-> | ->]; reflexivity|].
apply (wp_use_instead w w' rho sigma G s n pre post h HI HC Hh).
- destruct Ho as [-> | ->]; reflexivity.
- unfold value_args. rewrite EA. destruct Ho as [-> | ->]; apply elem_of_cons; auto.
- rewrite EA in Hok, Hv. cbn [map] in Hok, Hv.
destruct Ho as [Ho|Ho]; rewrite Ho in Hok, Hv; cbn [operands_ok] in Hok; apply andb_true_iff in Hok as [Hf _];
apply fits_range in Hf; cbn [ir_value] in Hv; apply when_Some in Hv as [_ ->];
rewrite ?Z.land_diag, ?Z.lor_diag; apply uint_small, Hf.
Qed.

(** [x ^ x]. *)
Lemma wp_xor_other a b : Op h = OP_XOR -> Args h = [a; b] ->
wp (if decide (a = b) then _ ← SetWriteCursor n; k ← EmitConstant 0; use_instead n k else mret false) Post s.
Proof using HI HC Hh.
intros Ho EA. destruct (decide (a = b)) as [<-|_]; [|apply wp_same].
destruct (case_sem w w' rho sigma G s n pre post h HI HC Hh) as (_ & Hv & _); [rewrite Ho; reflexivity|].
rewrite Ho, EA in Hv. cbn [map ir_value] in Hv. apply when_Some in Hv as [_ Hv]. rewrite Z.lxor_nilpotent in Hv.
destruct (constant_instead w w' rho sigma G s n pre post h HI HC Hh 0) as (k & s2 & s3 & E2 & E3 & Hs);
try (rewrite Ho; discriminate || reflexivity); [unfold word; lia|exact Hv|].
apply pass_bind, wp_cursor, pass_bind, (wp_run _ _ _ _ _ E2), pass_bind, (wp_run _ _ _ _ _ E3), pass_ret, Hs.
Qed.

(** A shift by zero. *)
Lemma wp_shift_other a b : Op h = OP_LSHL \/ Op h = OP_LSHR -> Args h = [a; b] -> wp (shift_other n a b h 0) Post s.
Proof using HI HC Hh.
intros Ho EA. destruct (case_sem w w' rho sigma G s n pre post h HI HC Hh) as (Hok & Hv & _); [destruct Ho as [-> | ->]; reflexivity|].
assert (value_args h = [a; b]) as EV by (unfold value_args; rewrite EA; destruct Ho as [-> | ->]; reflexivity).
destruct (case_arg w w' rho sigma G s n pre post h HI HC Hh b) as (Hb & _ & hb & Eb); [rewrite EV, !elem_of_cons; auto|].
rewrite EA in Hok, Hv. cbn [map] in Hok, Hv. destruct (shift_operands _ _ _ _ Ho Hok) as [Hfa _].
unfold shift_other. apply pass_bind, (wp_constant b hb); [exact Eb|].
destruct (bool_decide_reflect (constant_of hb = Some 0)) as [Ec|_].
- destruct (case_const w w' rho sigma G s n pre post HI HC b hb 0 Hb Eb Ec) as [Gb _]. apply pass_bind, wp_cursor.
apply (wp_use_instead w w' rho sigma G (set_Cursor n s) n pre post h (Inv_cursor _ _ _ _ _ _ _ n HI) HC Hh).
+ destruct Ho as [-> | ->]; reflexivity.
+ rewrite EV. apply elem_of_cons. auto.
+ rewrite Gb in Hv. destruct Ho as [Ho|Ho]; rewrite Ho in Hv; cbn [ir_value] in Hv; apply when_Some in Hv as [_ ->];
rewrite Zmod_0_l, Z.pow_0_r, ?Z.mul_1_r, ?Z.div_1_r; apply uint_small, Hfa.
- eapply pass_mono; [|apply wp_remove_masking]. intros r s' [_ ->]. apply (step_same w w' rho sigma G s n pre post HI HC).
Qed.

(** A product by a power of two. *)
Lemma wp_mul_other a b : Op h = OP_MUL -> Args h = [a; b] -> wp (mul_other n a b h 0) Post s.
Proof using HI HC Hh.
intros Ho EA. destruct (case_sem w w' rho sigma G s n pre post h HI HC Hh) as (Hok & Hv & _); [rewrite Ho; reflexivity|].
assert (value_args h = [a; b]) as EV by (unfold value_args; rewrite EA, Ho; reflexivity).
destruct (case_arg w w' rho sigma G s n pre post h HI HC Hh a) as (Ha & _ & ha & Ea); [rewrite EV, elem_of_cons; auto|].
destruct (case_arg w w' rho sigma G s n pre post h HI HC Hh b) as (Hb & _ & hb & Eb); [rewrite EV, !elem_of_cons; auto|].
rewrite EA, Ho in Hok, Hv. cbn [map operands_ok] in Hok. cbn [map ir_value] in Hv. apply when_Some in Hv as [Hsz Hv].
apply size_48_cases in Hsz. apply andb_true_iff in Hok as [Hfa Hfb].
unfold mul_other. apply pass_bind, (wp_constant b hb); [exact Eb|]. destruct (constant_of hb) as [c|] eqn:Ec; [|apply wp_same].
destruct (Z.eqb_spec (popcount 64 c) 1) as [Hpop|_]; [|apply wp_same].
destruct ((Size h =? 4) || (Size h =? 8)); [|apply wp_same].
destruct (case_const w w' rho sigma G s n pre post HI HC b hb c Hb Eb Ec) as [Gb Hc]. rewrite Gb in Hv, Hfb.
destruct (power_of_two 64 c ltac:(lia) Hc Hpop) as [Hamt Epow]. cbn zeta. set (amt := countr_zero 64 c) in *.
apply fits_range in Hfb. rewrite Epow in Hfb. assert (amt < 8 * Size h) as Hlt.
{ destruct (Z.lt_ge_cases amt (8 * Size h)) as [|Hge]; [assumption|].
pose proof (Z.pow_le_mono_r 2 (8 * Size h) amt ltac:(lia) Hge). lia. }
destruct (shift_instead w w' rho sigma G s n pre post h HI HC Hh a ha amt Ho Ha) as (k1 & s2 & k2 & s3 & h2 & s5 & E2 & E3 & E0 & E5 & Hs);
[rewrite EA, elem_of_cons; auto|assumption|assumption|lia| |assumption|congruence|].
{ intros H8 H32. apply (no_mul _ _ _ _ _ (case_ok w w' rho sigma G s n pre post h HI HC Hh) a b Ho H8 EA).
rewrite Gb, Epow. apply Z.pow_le_mono_r; lia. }
apply pass_bind, wp_cursor, pass_bind, (wp_run _ _ _ _ _ E2), pass_bind, (wp_run _ _ _ _ _ E3), pass_bind, (wp_header k2 h2); [exact E0|].
apply pass_bind, wp_modify, pass_bind, (wp_run _ _ _ _ _ E5), pass_ret, Hs.
Qed.

(** A field of a constant: the node is too small to be overwritten. *)
Lemma wp_small_constant v : word v -> rewritable (Op h) = true -> G n = v -> (2 <= op_weight (Op h))%nat -> IRSizes h < sizeof_IROp_Constant ->
wp (ReplaceWithConstant n v) (fun _ s' => step_post w w' G pre n post s s') s.
Proof using HI HC Hh.
intros Hv Hr HG Hwt Hsz. destruct (rewritable_pure _ Hr) as (Hp & _ & Hk).
destruct (constant_instead w w' rho sigma G s n pre post h HI HC Hh v Hv Hp Hk HG Hwt) as (k & s2 & s3 & E2 & E3 & Hs).
apply pass_bind, (wp_header n h); [exact Hh|]. destruct (Z.leb_spec sizeof_IROp_Constant (IRSizes h)); [lia|].
apply pass_bind, wp_get, pass_bind, wp_cursor, pass_bind, (wp_run _ _ _ _ _ E2), pass_bind, (wp_run _ _ _ _ _ E3), wp_cursor.
apply step_post_cursor, Hs.
Qed.

Lemma wp_bfe wd l Src : Op h = OP_BFE wd l -> Args h = [Src] -> wp (ConstantPropagation n h) Post s.
Proof using HI HC Hh.
intros Ho EA. destruct (case_sem w w' rho sigma G s n pre post h HI HC Hh) as (_ & Hv & _); [rewrite Ho; reflexivity|].
assert (value_args h = [Src]) as EV by (unfold value_args; rewrite EA, Ho; reflexivity).
destruct (case_arg w w' rho sigma G s n pre post h HI HC Hh Src) as (Ha & _ & ha & Ea); [rewrite EV, elem_of_cons; auto|].
rewrite Ho, EA in Hv. cbn [map] in Hv. unfold ConstantPropagation. rewrite Ho, EA. apply pass_bind.
destruct (Z.leb_spec (Size h) 8) as [_|Hs8].
- apply (wp_constant Src ha); [exact Ea|]. destruct (constant_of ha) as [c|] eqn:Ec.
+ destruct (case_const w w' rho sigma G s n pre post HI HC Src ha c Ha Ea Ec) as [Gc Hc]. rewrite Gc in Hv.
destruct (folds_BFE _ _ _ _ _ Hc Hv) as [Ef Hw]. apply bind_Ok in Ef as (m & Em & Ef).
apply pass_bind, (wp_lift _ m); [exact Em|]. apply pass_bind, (wp_lift _ (G n)); [exact Ef|]. apply pass_bind.
eapply pass_mono; [|apply (wp_small_constant (G n) Hw)]; try (rewrite Ho; reflexivity || (cbn; lia)); try reflexivity.
* intros u s' Hs. apply pass_ret, Hs.
* unfold IRSizes, sizeof_IROp_Constant. rewrite Ho, EA. reflexivity.
+ apply pass_bind, (wp_header Src ha); [exact Ea|]. destruct (_ && _ && _); [apply wp_same|].
destruct ((wd =? 1) && (l =? 0)) eqn:E1; [|apply wp_same]. apply andb_true_iff in E1 as [E1 E0].
apply Z.eqb_eq in E1, E0. subst wd l. apply pass_bind.
apply (wp_flag_select w w' rho sigma G s n pre post HI HC Src ha); [exact Ha|exact Ea| |apply wp_same].
intros c cs y z t f r _ _ _ _ _ Gr. apply (wp_use_instead w w' rho sigma G s n pre post h HI HC Hh).
* rewrite Ho. reflexivity.
* rewrite EV. apply elem_of_cons. auto.
* cbn [ir_value] in Hv. apply when_Some in Hv as [_ ->]. rewrite Gr. destruct r; reflexivity.
- cbn [ir_value] in Hv. apply when_Some in Hv as [Hs _]. rewrite !andb_true_iff, !Z.leb_le in Hs. lia.
Qed.

(** A branch on a comparison with zero of a select of one and zero. *)
Lemma COND_NEQ_zero cs b : cond_holds (if cs =? 4 then 32 else 64) COND_NEQ (Z.b2z b) 0 = Some b.
Proof using. destruct (cs =? 4), b; reflexivity. Qed.

Lemma wp_branch c cs c' cs' x y Cmp1 Cmp2 tb fb r (b : bool) :
Op h = OP_CONDJUMP c cs -> Args h = [Cmp1; Cmp2; tb; fb] -> c = COND_NEQ -> G Cmp2 = 0 -> x ∈ pre -> y ∈ pre ->
cond_holds (if cs' =? 4 then 32 else 64) c' (G x) (G y) = Some r -> G Cmp1 = Z.b2z r ->
wp (_ ← ReplaceNodeArgument n 0 x; _ ← ReplaceNodeArgument n 1 y; h ← GetOpHeader n;
_ ← set_header n (set_op (OP_CONDJUMP c' cs') h); mret b) Post s.
Proof using HI HC Hh.
intros Ho EA -> G2 Px Py Hr G1. pose proof (inv_wf _ _ _ _ _ _ _ HI) as Hw.
set (h1 := set_args (<[0%nat := x]> (Args h)) h). set (h2 := set_args (<[1%nat := y]> (Args h1)) h1).
assert (Args h1 = [x; Cmp2; tb; fb] /\ Args h2 = [x; y; tb; fb]) as [EA1 EA2] by (unfold h2, h1; cbn [Args set_args]; rewrite EA; auto).
assert (forall a, a ∈ [tb; fb] -> ~ a ∈ Code s) as Hblocks.
{ intros a Hin. apply (ir_blocks _ Hw n h a (in_code _ _ _ _ HC) Hh). unfold block_args. rewrite Ho, EA. exact Hin. }
destruct (set_arg_ok s pre n post h 0 Cmp1 x Hw HC Hh) as (s1 & E1 & C1); [rewrite EA; reflexivity| | |exact Px|].
{ fold h1. unfold value_args at 1. rewrite EA1. cbn [Op h1 set_args]. rewrite Ho. unfold value_args. rewrite Ho, EA.
intros a. rewrite !elem_of_cons. tauto. }
{ fold h1. unfold block_args. rewrite EA1. cbn [Op h1 set_args]. rewrite Ho. exact Hblocks. }
fold h1 in C1. apply pass_bind, (wp_run _ _ _ _ _ E1).
destruct (set_arg_ok s1 pre n post h1 1 Cmp2 y (ch_wf _ _ _ _ C1)) as (s2 & E2 & C2);
[rewrite (ch_code _ _ _ _ C1); exact HC|apply (changed_lookup _ _ _ _ C1)|rewrite EA1; reflexivity| | |exact Py|].
{ fold h2. unfold value_args. rewrite EA1, EA2. cbn [Op h2 h1 set_args]. rewrite Ho. intros a. rewrite !elem_of_cons. tauto. }
{ fold h2. unfold block_args. rewrite EA2, (ch_code _ _ _ _ C1). cbn [Op h2 h1 set_args]. rewrite Ho. exact Hblocks. }
fold h2 in C2. apply pass_bind, (wp_run _ _ _ _ _ E2). pose proof (changed_trans _ _ _ _ _ _ C1 C2) as C12.
apply pass_bind, (wp_header n h2); [apply (changed_lookup _ _ _ _ C12)|].
destruct (set_header_ok s2 pre n post h2 (OP_CONDJUMP c' cs') (ch_wf _ _ _ _ C12)) as (s3 & E3 & C3);
[rewrite (ch_code _ _ _ _ C12); exact HC|apply (changed_lookup _ _ _ _ C12)| | |].
{ unfold value_args. cbn [Op Args set_op]. rewrite EA2. cbn [Op h2 h1 set_args]. rewrite Ho. reflexivity. }
{ unfold block_args. cbn [Op Args set_op]. rewrite EA2. cbn [Op h2 h1 set_args]. rewrite Ho. reflexivity. }
apply pass_bind, (wp_run _ _ _ _ _ E3), pass_ret. destruct (changed_trans _ _ _ _ _ _ C12 C3) as [Cw CC _ CN CD].
apply (step_changed w w' rho sigma G s n pre post h HI HC Hh s3 (set_op (OP_CONDJUMP c' cs') h2) Cw CC CN CD).
- apply node_ok_other; try (discriminate || reflexivity). apply (kept_branch COND_NEQ cs). rewrite <- Ho.
apply (no_kept _ _ _ _ _ (case_ok w w' rho sigma G s n pre post h HI HC Hh)).
- rewrite Ho. discriminate.
- intros w0 res. unfold node_sem. cbn [Op Args set_op]. rewrite EA2, Ho, EA, G1, G2, COND_NEQ_zero, Hr. auto.
Qed.

Lemma wp_condjump c cs : Op h = OP_CONDJUMP c cs -> wp (ConstantPropagation n h) Post s.
Proof using HI HC Hh.
intros Ho. unfold ConstantPropagation. rewrite Ho.
destruct (Args h) as [|Cmp1 [|Cmp2 [|tb [|fb [|]]]]] eqn:EA; try apply wp_same.
assert (value_args h = [Cmp1; Cmp2]) as EV by (unfold value_args; rewrite EA, Ho; reflexivity).
destruct (case_arg w w' rho sigma G s n pre post h HI HC Hh Cmp1) as (H1 & _ & h1 & E1); [rewrite EV, elem_of_cons; auto|].
destruct (case_arg w w' rho sigma G s n pre post h HI HC Hh Cmp2) as (H2 & _ & h2 & E2); [rewrite EV, !elem_of_cons; auto|].
apply pass_bind, (wp_header Cmp1 h1); [exact E1|]. apply pass_bind.
assert (forall o : option Z, (o = Some 0 -> c = COND_NEQ /\ G Cmp2 = 0) ->
wp (match Op h1, Args h1 with
| OP_SELECT Cond' CompareSize', [x; y; _; _] =>
  if bool_decide (o = Some 0) then
    b ← is_flag_select h1;
    if (b : bool) then
      _ ← ReplaceNodeArgument n 0 x;
      _ ← ReplaceNodeArgument n 1 y;
      h ← GetOpHeader n;
      _ ← set_header n (set_op (OP_CONDJUMP Cond' CompareSize') h);
      mret true
    else mret false
  else mret false
| _, _ => mret false
end) Post s) as Hsel.
{ intros o Hc. destruct (Op h1) eqn:Eo1; try apply wp_same. destruct (Args h1) as [|x [|y [|t [|f [|]]]]] eqn:EA1; try apply wp_same.
destruct (bool_decide_reflect (o = Some 0)) as [Ez|_]; [|apply wp_same]. destruct (Hc Ez) as [-> G2]. apply pass_bind.
apply (wp_flag_select w w' rho sigma G s n pre post HI HC Cmp1 h1 _ H1 E1); [|apply wp_same].
intros c' cs' y' z' t' f' r Eo' EA' Py Pz Hr G1. rewrite Eo1 in Eo'. injection Eo' as -> ->. rewrite EA1 in EA'. injection EA' as -> -> -> ->.
apply (wp_branch COND_NEQ cs c' cs' y' z' Cmp1 Cmp2 tb fb r true); auto. }
destruct (Z.eqb_spec c COND_NEQ) as [->|_]; [|apply pass_ret, Hsel; discriminate].
apply (wp_constant Cmp2 h2); [exact E2|]. apply Hsel. intros Ec. split; [reflexivity|].
apply (case_const w w' rho sigma G s n pre post HI HC Cmp2 h2 0 H2 E2 Ec).
Qed.

Lemma wp_binary a b f other : is_arith (Op h) = true -> (forall sz es, value_args (mkOp (Op h) sz es [a; b]) = [a; b]) -> Args h = [a; b] ->
folds (Op h) (Size h) f -> wp (other 0) Post s -> wp (fold_binary n a b f other) Post s.
Proof using HI HC Hh.
intros Ha Hv EA Hf Ho. apply (wp_fold_binary w w' rho sigma G s n pre post h HI HC Hh a b f other); try assumption.
rewrite <- (Hv (Size h) (ElementSize h)), <- EA. reflexivity.
Qed.

Lemma wp_ConstantPropagation : no_offset (Data s) h -> wp (ConstantPropagation n h) Post s.
Proof using HI HC Hh.
intros Hno. destruct (Op h) eqn:Ho; try (unfold ConstantPropagation; rewrite Ho; apply wp_same);
try (eapply wp_condjump; exact Ho);
destruct (Args h) as [|a [|b [|c [|]]]] eqn:EA; try (unfold ConstantPropagation; rewrite Ho, EA; apply wp_same);
try (eapply wp_bfe; eassumption); unfold ConstantPropagation; rewrite Ho, EA;
try (apply wp_binary; [rewrite Ho; reflexivity|rewrite Ho; reflexivity|exact EA|rewrite Ho|]).
- apply folds_ADD.
- apply wp_same.
- apply folds_SUB.
- apply wp_same.
- apply folds_MUL.
- apply wp_mul_other; assumption.
- apply folds_OR.
- apply wp_same_operands; auto.
- apply folds_AND.
- apply wp_same_operands; auto.
- apply folds_XOR.
- apply wp_xor_other; assumption.
- apply folds_LSHL.
- apply wp_shift_other; auto.
- apply folds_LSHR.
- apply wp_shift_other; auto.
- eapply (wp_fold_load w w' rho sigma G s n pre post h HI HC Hh); eassumption.
- eapply (wp_fold_store w w' rho sigma G s n pre post h HI HC Hh); eassumption.
Qed.

(** ** The cases of [ZextAndMaskingElimination] *)

Lemma wp_remove_maskings args i mask : wp (remove_maskings n i args mask) (fun r s' => s' = s) s.
Proof using.
revert i. induction args as [|a args IH]; intros i; cbn [remove_maskings]; [apply pass_ret; reflexivity|].
apply pass_bind. eapply pass_mono; [|apply wp_remove_masking]. intros r s' [_ ->].
apply pass_bind. eapply pass_mono; [|apply IH]. intros r' s' ->. apply pass_ret. reflexivity.
Qed.

(** Either nothing changes, or the node is a field that was replaced by its
source, which is a field or a load. *)
Definition masked_post (s' : IRList) : Prop :=
s' = s \/ exists wd l Src hs, Op h = OP_BFE wd l /\ Args h = [Src] /\ Data s !! Src = Some hs /\ Src ∈ pre /\
(forall k, Op hs <> OP_CONSTANT k) /\ (forall c cs, Op hs <> OP_SELECT c cs) /\
replaced n Src pre post s s' /\ step_post w w' G pre n post s s'.

Lemma wp_bfe_instead wd l Src hs (b : bool) : Op h = OP_BFE wd l -> Args h = [Src] -> Data s !! Src = Some hs -> G n = G Src ->
(forall k, Op hs <> OP_CONSTANT k) -> (forall c cs, Op hs <> OP_SELECT c cs) ->
wp (_ ← ReplaceAllUsesWith n Src; mret b) (fun _ => masked_post) s.
Proof using HI HC Hh.
intros Ho EA Es HG Hk Hsel. assert (value_args h = [Src]) as EV by (unfold value_args; rewrite EA, Ho; reflexivity).
destruct (case_arg w w' rho sigma G s n pre post h HI HC Hh Src) as (Hp & _); [rewrite EV, elem_of_cons; auto|].
destruct (no_alias _ _ _ _ _ (case_ok w w' rho sigma G s n pre post h HI HC Hh) Src) as [Hr Hs]; [rewrite Ho; reflexivity|rewrite EA, elem_of_cons; auto|].
apply pass_bind. eapply pass_mono; [|apply (wp_replace w w' rho sigma G s n pre post h HI HC Hh Src)]; try (rewrite Ho; discriminate || reflexivity); auto.
intros [] s' [R Hst]. apply pass_ret. right. exists wd, l, Src, hs. auto 9.
Qed.

(** A narrower field of a field, from the lowest bit, is that field. *)
Lemma field_of_field x wd wd' : wd' <= wd <= 64 -> 0 <= x < 2 ^ wd' -> (uint 64 x / 2 ^ 0) mod 2 ^ wd = x.
Proof using.
intros Hw Hx. rewrite Z.pow_0_r, Z.div_1_r. pose proof (Z.pow_le_mono_r 2 wd' wd ltac:(lia) ltac:(lia)).
pose proof (Z.pow_le_mono_r 2 wd 64 ltac:(lia) ltac:(lia)). rewrite (uint_small 64 x) by lia. apply Z.mod_small. lia.
Qed.

Lemma wp_zext_bfe wd l Src : Op h = OP_BFE wd l -> Args h = [Src] -> wp (ZextAndMaskingElimination n h) (fun _ => masked_post) s.
Proof using HI HC Hh.
intros Ho EA. destruct (case_sem w w' rho sigma G s n pre post h HI HC Hh) as (_ & Hv & _); [rewrite Ho; reflexivity|].
assert (value_args h = [Src]) as EV by (unfold value_args; rewrite EA, Ho; reflexivity).
destruct (case_arg w w' rho sigma G s n pre post h HI HC Hh Src) as (Hp & _); [rewrite EV, elem_of_cons; auto|].
destruct (pre_node w w' rho sigma G s n pre post HI HC Src Hp) as (hs & Es & Oks & (w1 & w2 & Hss) & _).
pose proof (case_ok w w' rho sigma G s n pre post h HI HC Hh) as Okn. destruct (no_bfe _ _ _ _ _ Okn wd l Ho) as [_ Hwd].
rewrite Ho, EA in Hv. cbn [map ir_value] in Hv. pose proof Hv as Hv0. apply when_Some in Hv0 as [Hg HGn].
unfold ZextAndMaskingElimination. rewrite Ho, EA. apply pass_bind, pass_bind, (wp_header Src hs); [exact Es|]. apply pass_ret.
destruct (match Op hs with OP_BFE wd' _ => wd' <=? wd | _ => false end) eqn:Ealready.
- destruct (Op hs) eqn:Eos; try discriminate. apply Z.leb_le in Ealready.
destruct (no_bfe _ _ _ _ _ Oks Width lsb Eos) as [Hrho Hw'].
assert (l = 0) as ->.
{ destruct (Z.eq_dec l 0) as [|Hl]; [assumption|].
pose proof (no_field _ _ _ _ _ Okn wd l Src Ho Hl ltac:(rewrite EA; apply elem_of_cons; auto)). lia. }
destruct (arith_sem G hs w1 (G Src) w2) as (_ & Hvs & _); [rewrite Eos; reflexivity|exact Hss|]. rewrite Eos in Hvs.
apply (wp_bfe_instead wd 0 Src hs false Ho EA Es); [|rewrite Eos; discriminate|rewrite Eos; discriminate].
rewrite HGn. apply (field_of_field (G Src) wd Width); [lia|].
destruct (map G (Args hs)) as [|x [|]]; try discriminate Hvs. cbn [ir_value] in Hvs. apply when_Some in Hvs as [_ ->].
apply Z.mod_pos_bound, pow2_pos. lia.
- apply pass_bind, (wp_header Src hs); [exact Es|]. destruct ((l =? 0) && _) eqn:Ez.
+ apply andb_true_iff in Ez as [El Ez]. apply andb_true_iff in Ez as [Esz Eld]. apply Z.eqb_eq in El. apply Z.leb_le in Esz. subst l.
apply (wp_bfe_instead wd 0 Src hs false Ho EA Es); [|intros k Ek; rewrite Ek in Eld; discriminate|intros c cs Ek; rewrite Ek in Eld; discriminate].
rewrite HGn. apply (field_of_field (G Src) wd (8 * Size hs)); [lia|]. apply (loadmem_zext G hs w1 (G Src) w2 Eld Hss).
+ eapply pass_mono; [|apply wp_remove_masking]. intros r s' [_ ->]. left. reflexivity.
Qed.

Lemma wp_Zext : wp (ZextAndMaskingElimination n h) (fun _ => masked_post) s.
Proof using HI HC Hh.
pose proof (case_ok w w' rho sigma G s n pre post h HI HC Hh) as Okn.
assert (forall args, masked (Op h) = true -> wp (mask ← lift (getMask (Size h)); remove_maskings n 0 args mask) (fun _ => masked_post) s) as Hm.
{ intros args Hmask. apply pass_bind, (wp_lift _ _ _ _ (getMask_ok _ (no_size _ _ _ _ _ Okn Hmask))).
eapply pass_mono; [|apply wp_remove_maskings]. intros r s' ->. left. reflexivity. }
assert (forall b, wp (mret b : P bool) (fun _ => masked_post) s) as Hr by (intros b; apply pass_ret; left; reflexivity).
destruct (Op h) eqn:Ho; unfold ZextAndMaskingElimination; rewrite Ho; try apply Hr; try (apply Hm; reflexivity).
- destruct (Args h) as [|a [|b [|]]] eqn:EA; try apply Hr.
assert (value_args h = [a; b]) as EV by (unfold value_args; rewrite EA, Ho; reflexivity).
destruct (case_arg w w' rho sigma G s n pre post h HI HC Hh a) as (_ & _ & ha & Ea); [rewrite EV, elem_of_cons; auto|].
destruct (case_arg w w' rho sigma G s n pre post h HI HC Hh b) as (_ & _ & hb & Eb); [rewrite EV, !elem_of_cons; auto|].
apply pass_bind, (wp_lift _ _ _ _ (getMask_ok _ (no_size _ _ _ _ _ Okn ltac:(rewrite Ho; reflexivity)))).
apply pass_bind, (wp_constant b hb); [exact Eb|]. apply pass_bind. eapply pass_mono; [|apply wp_remove_masking]. intros r s' [_ ->].
apply pass_bind, (wp_constant a ha); [exact Ea|]. apply pass_bind. eapply pass_mono; [|apply wp_remove_masking]. intros r' s' [_ ->].
apply Hr.
- destruct (Args h) as [|Src [|]] eqn:EA; try apply Hr. pose proof (wp_zext_bfe Width lsb Src Ho EA) as Hb.
unfold ZextAndMaskingElimination in Hb. rewrite Ho, EA in Hb. exact Hb.
- destruct (Args h) as [|Src [|]] eqn:EA; try apply Hr.
eapply pass_mono; [|apply wp_remove_masking]. intros r s' [_ ->]. left. reflexivity.
Qed.

(** A field that is gone is not folded again. *)
Lemma wp_bfe_gone wd l Src hs s' (Q : bool -> IRList -> Prop) : Op h = OP_BFE wd l -> Args h = [Src] -> Data s' !! Src = Some hs ->
(forall k, Op hs <> OP_CONSTANT k) -> (forall c cs, Op hs <> OP_SELECT c cs) -> Q false s' -> wp (ConstantPropagation n h) Q s'.
Proof using.
intros Ho EA Es Hk Hsel HQ. unfold ConstantPropagation. rewrite Ho, EA. apply pass_bind.
assert (constant_of hs = None) as Ec.
{ unfold constant_of. destruct (Op hs) eqn:E; try reflexivity. edestruct Hk; reflexivity. }
assert (forall b : bool, wp (if b then mret None else IsValueConstant Src) (fun c s0 => c = None /\ s0 = s') s') as Hc.
{ intros [|]; [apply pass_ret; auto|]. apply (wp_constant Src hs); [exact Es|]. auto. }
eapply (pass_mono _ (fun c s0 => c = None /\ s0 = s')).
- intros c s0 [-> ->]. apply pass_bind, (wp_header Src hs); [exact Es|]. destruct (_ && _ && _); [apply pass_ret, HQ|].
destruct ((wd =? 1) && (l =? 0)); [|apply pass_ret, HQ]. apply pass_bind. unfold is_flag_select.
destruct (Op hs) eqn:E; try (apply pass_ret, pass_ret, HQ). edestruct Hsel; reflexivity.
- destruct (Size h <=? 8); [apply (Hc false)|apply (Hc true)].
Qed.

Lemma wp_propagate_step Changed : no_offset (Data s) h -> wp (propagate_step n Changed) Post s.
Proof using HI HC Hh.
intros Hno. unfold propagate_step. apply pass_bind, (wp_header n h); [exact Hh|]. apply pass_bind.
eapply pass_mono; [|apply wp_Zext]. intros c1 s' [->|(wd & l & Src & hs & Ho & EA & Es & Hp & Hk & Hsel & R & Hst)].
- apply pass_bind, (wp_header n h); [exact Hh|]. apply pass_bind. eapply pass_mono; [|apply wp_ConstantPropagation, Hno].
intros c2 s' Hs. apply pass_ret, Hs.
- pose proof (rp_data _ _ _ _ _ _ R) as HD.
assert (Src <> n) as Hne by (intros ->; apply (proj1 (case_nodup w w' rho sigma G s n pre post HI HC)), Hp).
assert (Data s' !! n = Some h) as Hn.
{ rewrite (HD n), decide_True, Hh by (apply elem_of_cons; auto). cbn. rewrite EA. cbn [map]. unfold subst.
rewrite decide_False by exact Hne. rewrite <- EA, set_args_id. reflexivity. }
apply pass_bind, (wp_header n h); [exact Hn|]. apply pass_bind.
assert (exists hs', Data s' !! Src = Some hs' /\ Op hs' = Op hs) as (hs' & Es' & Eo').
{ rewrite (HD Src), Es. destruct (decide _); eexists; split; reflexivity. }
apply (wp_bfe_gone wd l Src hs' s' _ Ho EA Es'); [rewrite Eo'; exact Hk|rewrite Eo'; exact Hsel|]. apply pass_ret, Hst.
Qed.
End Dispatch.
