(* ===== verification/ConstPropTheorems.v ===== *)
(** * What constant propagation promises

    The loops of the pass end normally, leave well-formed code, and keep every
    valuation of the block with its effects. *)
From Stdlib Require Import ZArith Lia Bool.
From stdpp Require Import base gmap list numbers option.
From S2P Require Import Prelude IR ALUOps Interp IRSpec InterpRefines IRList IRListLogic ConstProp ConstPropLogic ConstPropCases ConstPropSteps.
#[local] Open Scope Z_scope.

(** ** Loops *)

Lemma wp_for_code_nil {A} fuel (body : NodeID -> A -> P A) a Q s : Q a s -> wp (for_code (S fuel) body InvalidNode a) Q s.
Proof. intros HQ. cbn [for_code]. rewrite decide_True by reflexivity. apply pass_ret, HQ. Qed.

Lemma wp_for_code_cons {A} fuel (body : NodeID -> A -> P A) n a Q s : n <> InvalidNode ->
  wp (body n a) (fun a s' => exists n', NextOf n s' = Ok (n', s') /\ wp (for_code fuel body n' a) Q s') s ->
  wp (for_code (S fuel) body n a) Q s.
Proof.
  intros Hn Hb. cbn [for_code]. rewrite decide_False by exact Hn. apply pass_bind. eapply pass_mono; [|exact Hb].
  intros a' s' (n' & E & Hw). apply pass_bind, (wp_run _ _ _ _ _ E), Hw.
Qed.

Section Loop.
Context {W : Type} `{World W} `{Kp : Keeps} (w w' : W).

Lemma propagate_loop fuel : forall pre todo rho sigma G s c, Inv w w' rho sigma G s todo -> Code s = pre ++ todo ->
  (weight (Data s) todo < fuel)%nat ->
  wp (for_code fuel propagate_step (first_node todo) c)
  (fun _ s' => exists rho' sigma' G', Inv w w' rho' sigma' G' s' [] /\ agree (NextNode s) G G') s.
Proof.
  induction fuel as [|fuel IH]; intros pre todo rho sigma G s c HI HC Hf; [lia|]. destruct todo as [|n post].
  - apply wp_for_code_nil. exists rho, sigma, G. split; [exact HI|intros a _; reflexivity].
  - pose proof (inv_wf _ _ _ _ _ _ _ HI) as Hw. pose proof (in_code _ _ _ _ HC) as Hn.
    destruct (ir_data _ Hw n Hn) as [h Hh]. assert (n ∈ n :: post) as Hin by (apply elem_of_cons; auto).
    assert (Inv w w' rho sigma G s post) as HI' by (apply (Inv_todo _ _ _ _ _ _ (n :: post)); [intros x Hx; apply elem_of_cons; auto|exact HI]).
    apply wp_for_code_cons; [apply (ir_ids _ Hw n Hn)|].
    eapply pass_mono; [|apply (wp_propagate_step w w' rho sigma G s n pre post h HI' HC Hh c), (inv_pending _ _ _ _ _ _ _ HI n h Hin Hh)].
    intros c' s' (keep & ins & rho' & sigma' & G' & HC' & HI2 & Ha & Hle & Hx & Hwt).
    exists (first_node (ins ++ post)). split; [exact Hx|].
    eapply pass_mono; [|apply (IH (pre ++ keep) (ins ++ post) rho' sigma' G' s' c' HI2); [rewrite <- app_assoc; exact HC'|lia]].
    intros c'' s'' (rho2 & sigma2 & G2 & HI3 & Ha2). exists rho2, sigma2, G2. split; [exact HI3|].
    intros a Hlt. rewrite Ha2 by lia. apply Ha, Hlt.
Qed.
End Loop.

Lemma propagation_loop {W} `{World W} `{Keeps} (w w' : W) rho sigma G s c :
  wf_ir s -> nodes_ok rho sigma G (Data s) (Code s) -> pending (Data s) (Code s) -> valid G (Data s) (Code s) w w' ->
  exists c' s' G', for_all_code propagate_step c s = Ok (c', s') /\ wf_ir s' /\ agree (NextNode s) G G' /\
    valid G' (Data s') (Code s') w w' /\ forall n h, n ∈ Code s' -> Data s' !! n = Some h -> kept (Op h) (Size h).
Proof.
  intros Hw Hn Hp Hv. unfold for_all_code. rewrite (M_bind_Ok get_state _ s s s eq_refl). cbn beta.
  destruct (propagate_loop w w' (S (4 * length (Code s))) [] (Code s) rho sigma G s c) as (c' & s' & E & rho' & sigma' & G' & HI & Ha).
  - split; assumption.
  - reflexivity.
  - pose proof (weight_bound (Data s) (Code s)). lia.
  - exists c', s', G'. split; [exact E|]. split; [apply (inv_wf _ _ _ _ _ _ _ HI)|]. split; [exact Ha|].
    split; [apply (inv_valid _ _ _ _ _ _ _ HI)|]. intros n h Hn' Hh. apply (no_kept _ _ _ _ _ (inv_nodes _ _ _ _ _ _ _ HI n h Hn' Hh)).
Qed.


(** ** Constant pooling *)

(** The only end of a block is the last node. *)
Definition one_block (D : gmap NodeID IROp_Header) (ns : list NodeID) : Prop :=
  forall pre n post, ns = pre ++ n :: post -> op_of D n = Some OP_ENDBLOCK -> post = [].
(** No constant occurs twice. *)
Definition pooled (D : gmap NodeID IROp_Header) (ns : list NodeID) : Prop :=
  forall n m k, n ∈ ns -> m ∈ ns -> op_of D n = Some (OP_CONSTANT k) -> op_of D m = Some (OP_CONSTANT k) -> n = m.
(** The pool knows the constants seen. *)
Definition pool_sound (D : gmap NodeID IROp_Header) (ns : list NodeID) (pool : gmap Z NodeID) : Prop :=
  forall k m, pool !! k = Some m -> m ∈ ns /\ op_of D m = Some (OP_CONSTANT k).
Definition pool_full (D : gmap NodeID IROp_Header) (ns : list NodeID) (pool : gmap Z NodeID) : Prop :=
  forall m k, m ∈ ns -> op_of D m = Some (OP_CONSTANT k) -> pool !! k = Some m.

Section Pools.
Context {W : Type} `{World W} (w w' : W) (G : NodeID -> Z).

Lemma const_value s n k : n ∈ Code s -> op_of (Data s) n = Some (OP_CONSTANT k) -> valid G (Data s) (Code s) w w' -> G n = uint 64 k.
Proof.
  intros Hn Ho Hv. destruct (valid_at G _ _ _ _ n Hv Hn) as (h & w1 & w2 & Hh & Hs).
  rewrite (op_of_Some _ _ _ Hh) in Ho. injection Ho as Ho. unfold node_sem in Hs. rewrite Ho in Hs. destruct (Args h); [congruence|discriminate].
Qed.

(** A constant that is known is replaced. *)
Lemma pool_replace s pre n post m k : wf_ir s -> valid G (Data s) (Code s) w w' -> Code s = pre ++ n :: post ->
  op_of (Data s) n = Some (OP_CONSTANT k) -> m ∈ pre -> op_of (Data s) m = Some (OP_CONSTANT k) ->
  exists s', ReplaceAllUsesWith n m s = Ok (tt, s') /\ wf_ir s' /\ valid G (Data s') (Code s') w w' /\ Code s' = pre ++ post /\
  NextOf n s' = Ok (first_node post, s') /\ forall x, op_of (Data s') x = op_of (Data s) x.
Proof.
  intros Hw Hv HC Ho Hm Hom. pose proof (in_code _ _ _ _ HC) as Hn. destruct (ir_data _ Hw n Hn) as [h Hh].
  assert (Op h = OP_CONSTANT k) as Eo by (rewrite (op_of_Some _ _ _ Hh) in Ho; congruence).
  assert (HasSideEffects (Op h) = false) as Hp by (rewrite Eo; reflexivity).
  destruct (ReplaceAllUsesWith_ok s n m pre [] post h Hw HC) as (s' & E & R); auto.
  { intros x Hx. inversion Hx. }
  { rewrite app_nil_r. exact Hm. }
  pose proof (ir_nodup _ Hw) as Hnd. rewrite HC in Hnd. destruct (nodup_split n pre post Hnd) as (Hn1 & Hn2 & _).
  exists s'. split; [exact E|]. split; [apply (rp_wf _ _ _ _ _ _ R)|]. pose proof (in_pre _ _ _ _ _ HC Hm) as Hmc. split.
  { apply (replaced_valid G s s' n m pre post h); auto; [intros ->; contradiction|].
    rewrite (const_value s n k Hn Ho Hv). symmetry. apply (const_value s m k Hmc Hom Hv). }
  split; [apply (rp_code _ _ _ _ _ _ R)|]. split; [|intros x; apply (op_of_substituted n m (n :: post)), (rp_data _ _ _ _ _ _ R)].
  unfold NextOf, mbind, M_bind, get_state. rewrite decide_False.
  - unfold lift. rewrite (rp_stale _ _ _ _ _ _ R). reflexivity.
  - rewrite (rp_code _ _ _ _ _ _ R). cbn [app]. rewrite elem_of_app. tauto.
Qed.

Lemma pooled_snoc D pre n pool : pooled D pre -> pool_full D pre pool ->
  (forall k, op_of D n = Some (OP_CONSTANT k) -> pool !! k = None) -> pooled D (pre ++ [n]).
Proof.
  intros Hu Hf Hn x y k. rewrite !elem_of_app, !elem_of_cons.
  intros [Hx|[->|Hx]] [Hy|[->|Hy]] Ex Ey; try (inversion Hx; fail); try (inversion Hy; fail); try reflexivity.
  - apply (Hu x y k); assumption.
  - specialize (Hf x k Hx Ex). rewrite (Hn k Ey) in Hf. discriminate.
  - specialize (Hf y k Hy Ey). rewrite (Hn k Ex) in Hf. discriminate.
Qed.

Record pool_post (s s' : IRList) : Prop := {
  pp_wf : wf_ir s';
  pp_valid : valid G (Data s') (Code s') w w';
  pp_pooled : pooled (Data s') (Code s');
  pp_code x : x ∈ Code s' -> x ∈ Code s;
  pp_op x : op_of (Data s') x = op_of (Data s) x
}.

Lemma pool_loop fuel : forall pre todo pool c s, wf_ir s -> valid G (Data s) (Code s) w w' -> Code s = pre ++ todo ->
  one_block (Data s) todo -> pool_sound (Data s) pre pool -> pooled (Data s) pre -> todo = [] \/ pool_full (Data s) pre pool ->
  (length todo < fuel)%nat ->
  wp (for_code fuel HandleConstantPools_step (first_node todo) (pool, c))
  (fun _ => pool_post s) s.
Proof.
  induction fuel as [|fuel IH]; intros pre todo pool c s Hw Hv HC Hb Hs Hu Hf Hlen; [lia|]. destruct todo as [|n post].
  { apply wp_for_code_nil. rewrite app_nil_r in HC. split; auto. rewrite HC. exact Hu. }
  pose proof (in_code _ _ _ _ HC) as Hn. destruct (ir_data _ Hw n Hn) as [h Hh]. pose proof (op_of_Some _ _ _ Hh) as Ho.
  destruct Hf as [?|Hf]; [discriminate|]. pose proof (ir_nodup _ Hw) as Hnd. rewrite HC in Hnd.
  destruct (nodup_split n pre post Hnd) as (Hn1 & _). cbn [length] in Hlen.
  assert (one_block (Data s) post) as Hb'.
  { intros p x q -> Hx. apply (Hb (n :: p) x q); [reflexivity|exact Hx]. }
  assert (forall pool', pool_sound (Data s) (pre ++ [n]) pool' -> pooled (Data s) (pre ++ [n]) ->
    post = [] \/ pool_full (Data s) (pre ++ [n]) pool' -> exists n', NextOf n s = Ok (n', s) /\
    wp (for_code fuel HandleConstantPools_step n' (pool', c))
    (fun _ => pool_post s) s) as Hkeep.
  { intros pool' Hs' Hu' Hf'. exists (first_node post). split.
    - unfold NextOf, mbind, M_bind, get_state. rewrite decide_True by exact Hn. rewrite HC, next_in_split by exact Hn1. reflexivity.
    - apply (IH (pre ++ [n]) post); try assumption; [rewrite <- app_assoc; exact HC|lia]. }
  apply wp_for_code_cons; [apply (ir_ids _ Hw n Hn)|]. apply pass_bind, (wp_header n h); [exact Hh|].
  assert (forall k m, pool !! k = Some m -> m ∈ pre ++ [n] /\ op_of (Data s) m = Some (OP_CONSTANT k)) as Hs1.
  { intros k m Hk. destruct (Hs k m Hk). split; [apply elem_of_app; auto|assumption]. }
  destruct (Op h) eqn:Eo;
    try (apply pass_ret, Hkeep; [exact Hs1|apply (pooled_snoc _ _ _ pool Hu Hf); rewrite Ho; discriminate|right];
    intros x k [Hx|[->|Hx]%elem_of_cons]%elem_of_app Hk; [apply (Hf x k Hx Hk)|rewrite Ho in Hk; discriminate|inversion Hx]).
  - apply pass_ret, Hkeep; [intros k m Hk; rewrite lookup_empty in Hk; discriminate| |left; apply (Hb [] n post eq_refl); exact Ho].
    apply (pooled_snoc _ _ _ pool Hu Hf). rewrite Ho. discriminate.
  - cbn [first_node]. destruct (pool !! Constant) as [m|] eqn:Ep.
    + destruct (Hs _ _ Ep) as [Hm Hom]. destruct (pool_replace s pre n post m Constant Hw Hv HC Ho Hm Hom) as (s' & E & Hw' & Hv' & HC' & Hx & Hop).
      apply pass_bind, (wp_run _ _ _ _ _ E), pass_ret. exists (first_node post). split; [exact Hx|].
      eapply pass_mono; [|apply (IH pre post pool true s' Hw' Hv' HC')]; try lia.
      * intros c' s'' [P1 P2 P3 P4 P5]. split; auto; [|intros x; rewrite P5; apply Hop].
        intros x Hin. specialize (P4 x Hin). rewrite HC' in P4. rewrite HC. rewrite elem_of_app, ?elem_of_cons in *. tauto.
      * intros p x q Eq Hxo. rewrite Hop in Hxo. apply (Hb' p x q Eq Hxo).
      * intros k x Hk. rewrite Hop. apply (Hs k x Hk).
      * intros x y k Hxp Hyp. rewrite !Hop. apply Hu; assumption.
      * right. intros x k Hxp. rewrite Hop. apply Hf, Hxp.
    + apply pass_ret, Hkeep.
      * intros k m. destruct (Z.eq_dec Constant k) as [->|Hne]; [rewrite lookup_insert_eq|rewrite lookup_insert_ne by exact Hne; apply Hs1].
        intros [= <-]. split; [rewrite elem_of_app, elem_of_cons; auto|exact Ho].
      * apply (pooled_snoc _ _ _ pool Hu Hf). rewrite Ho. intros k [= <-]. exact Ep.
      * right. intros x k [Hx|[->|Hx]%elem_of_cons]%elem_of_app Hk; [|rewrite Ho in Hk; injection Hk as ->; apply lookup_insert_eq|inversion Hx].
        specialize (Hf x k Hx Hk). rewrite lookup_insert_ne; [exact Hf|]. intros ->. congruence.
Qed.
End Pools.

(** Constant pooling terminates, keeps the code well formed, every valuation
    and the effects of the block, and afterwards no constant occurs twice. *)
Theorem HandleConstantPools_pools {W} `{World W} (w w' : W) G s :
  wf_ir s -> one_block (Data s) (Code s) -> valid G (Data s) (Code s) w w' ->
  exists c s', HandleConstantPools s = Ok (c, s') /\ wf_ir s' /\ valid G (Data s') (Code s') w w' /\ pooled (Data s') (Code s').
Proof.
  intros Hw Hb Hv. unfold HandleConstantPools, for_all_code.
  destruct (pool_loop w w' G (S (4 * length (Code s))) [] (Code s) ∅ false s Hw Hv eq_refl Hb) as ([pool c] & s' & E & [P1 P2 P3 _ _]).
  - intros k m Hk. rewrite lookup_empty in Hk. discriminate.
  - intros x y k Hx. inversion Hx.
  - right. intros x k Hx. inversion Hx.
  - lia.
  - exists c, s'. split; [|auto]. rewrite M_bind_assoc, (M_bind_Ok get_state _ s s s eq_refl). cbn beta.
    rewrite (M_bind_Ok _ _ _ _ _ E). reflexivity.
Qed.
