(* ===== verification/ConstPropInlining.v ===== *)
(** * Constant inlining keeps the meaning

    [ConstantInlining] gives an operation the constant itself as an operand: an
    inline constant is emitted next to the constant, and the argument replaced. *)
From Stdlib Require Import ZArith Lia Bool.
From stdpp Require Import base gmap list numbers option.
From S2P Require Import Prelude IR ALUOps Interp IRSpec InterpRefines IRList IRListLogic ConstProp ConstPropLogic ConstPropCases.
#[local] Open Scope Z_scope.

(** Inlining at [n] so far: more nodes before [n], another header for [n]. *)
Section Inlining.
Context {W : Type} `{World W} (w w' : W).

Record inlined (n : NodeID) (pre post : list NodeID) (h' : IROp_Header) (s : IRList) (G : NodeID -> Z) (s' : IRList) (G' : NodeID -> Z) : Prop := {
  inl_wf : wf_ir s';
  inl_valid : valid G' (Data s') (Code s') w w';
  inl_code : exists pre', Code s' = pre' ++ n :: post /\ forall x, x ∈ pre -> x ∈ pre';
  inl_node : Data s' !! n = Some h';
  inl_other x : (x < NextNode s)%nat -> x <> n -> Data s' !! x = Data s !! x;
  inl_agree : agree (NextNode s) G G';
  inl_next : (NextNode s <= NextNode s')%nat
}.

Lemma inlined_refl n pre post h s G : wf_ir s -> valid G (Data s) (Code s) w w' -> Code s = pre ++ n :: post -> Data s !! n = Some h ->
  inlined n pre post h s G s G.
Proof. intros Hw Hv HC Hh. split; auto; [exists pre; auto|intros a _; reflexivity]. Qed.

Lemma inlined_cursor n pre post h s G s' G' c : inlined n pre post h s G s' G' -> inlined n pre post h s G (set_Cursor c s') G'.
Proof. intros [H1 H2 H3 H4 H5 H6 H7]. split; try assumption. apply wf_cursor, H1. Qed.

Lemma inlined_start n pre post h s G s' G' c : inlined n pre post h (set_Cursor c s) G s' G' -> inlined n pre post h s G s' G'.
Proof. intros [H1 H2 H3 H4 H5 H6 H7]. split; assumption. Qed.

(** Operations that only stand for a value. *)
Definition inline_op (op : IROps) : bool :=
  match op with OP_INLINECONSTANT _ | OP_INLINEENTRYPOINTOFFSET _ => true | _ => false end.

(** What the replaced argument must satisfy: the operation means the same with
    the new operand. *)
Definition same_operand (h : IROp_Header) (i : nat) (v : Z) (G : NodeID -> Z) : Prop :=
  forall G' k, k <> InvalidNode -> (forall a, a ∈ Args h -> G' a = G a) -> G' k = v ->
  let h' := set_args (<[i := k]> (Args h)) h in
  (forall a, a ∈ value_args h' -> a = k \/ a ∈ value_args h) /\ (forall a, a ∈ block_args h' -> a ∈ block_args h) /\
  forall w0 r, node_sem G h w0 = Some r -> node_sem G' h' w0 = Some r.

Lemma inline_at s n pre post h i old op sz v G :
  wf_ir s -> valid G (Data s) (Code s) w w' -> Code s = pre ++ n :: post -> Data s !! n = Some h -> Args h !! i = Some old ->
  Cursor s ∈ pre -> inline_op op = true -> (forall G w0, node_sem G (mkOp op sz sz []) w0 = Some (v, w0)) ->
  same_operand h i v G ->
  exists k s1 s2 G', AllocateOp op sz [] s = Ok (k, s1) /\ ReplaceNodeArgument n i k s1 = Ok (tt, s2) /\
  inlined n pre post (set_args (<[i := k]> (Args h)) h) s G s2 G' /\ (NextNode s <= k)%nat /\
  exists pre', Code s2 = pre' ++ n :: post /\ k ∈ pre' /\ (forall x, x ∈ pre -> x ∈ pre') /\ Cursor s2 = k.
Proof.
  intros Hw Hv HC Hh Hi Hc Hop Hsem Hsame. remember (Cursor s) as c eqn:Hcur. symmetry in Hcur.
  assert (exists p1 p2, pre = p1 ++ c :: p2) as (p1 & p2 & Ep) by (apply list_elem_of_split in Hc as (p1 & p2 & ->); eauto).
  assert (Code s = p1 ++ c :: p2 ++ n :: post) as HC1 by (rewrite HC, Ep, <- app_assoc; reflexivity).
  destruct (AllocateOp_ok s c p1 (p2 ++ n :: post) op sz [] Hw Hcur HC1) as (s1 & E1 & R1).
  { intros a Ha. unfold value_args in Ha. destruct op; try discriminate; inversion Ha. }
  { intros a Ha. inversion Ha. }
  { intros a Ha. unfold block_args in Ha. destruct op; try discriminate; inversion Ha. }
  set (k := NextNode s) in *.
  pose proof (allocated_valid G s s1 c k _ p1 (p2 ++ n :: post) w w' v Hw HC1 eq_refl R1 ltac:(intros a Ha; inversion Ha) (Hsem G) Hv) as Hv1.
  pose proof (ir_ids _ Hw n (in_code _ _ _ _ HC)) as [Hn0 Hnk]. fold k in Hnk.
  set (pre' := p1 ++ c :: k :: p2).
  assert (Code s1 = pre' ++ n :: post) as HC2 by (unfold pre'; rewrite (al_code _ _ _ _ _ _ _ R1), <- app_assoc; reflexivity).
  assert (Data s1 !! n = Some h) as Hh1 by (rewrite (al_data _ _ _ _ _ _ _ R1), lookup_insert_ne by lia; exact Hh).
  assert (forall x, x ∈ pre -> x ∈ pre') as Hsub.
  { intros x. rewrite Ep. unfold pre'. rewrite !elem_of_app, !elem_of_cons. tauto. }
  assert (k ∈ pre') as Hk by (unfold pre'; rewrite elem_of_app, !elem_of_cons; auto).
  assert (forall a, a ∈ Args h -> upd G k v a = G a) as HG.
  { intros a Ha. apply value_upd_ne. assert (a < k)%nat; [|lia]. apply (ir_args _ Hw n a (in_code _ _ _ _ HC)). unfold args_of. rewrite Hh. exact Ha. }
  assert (k <> InvalidNode) as Hk0 by (apply (ir_ids _ (al_wf _ _ _ _ _ _ _ R1) k); rewrite HC2, elem_of_app; auto).
  destruct (Hsame (upd G k v) k Hk0 HG (value_upd_eq G k v)) as (Hva & Hba & Hns).
  destruct (set_arg_ok s1 pre' n post h i old k (al_wf _ _ _ _ _ _ _ R1) HC2 Hh1 Hi Hva) as (s2 & E2 & C2); [|exact Hk|].
  { intros a Ha Hac. rewrite HC2 in Hac. apply (ir_blocks _ Hw n h a (in_code _ _ _ _ HC) Hh (Hba a Ha)).
    rewrite HC. apply elem_of_app in Hac as [Hac|Hac]; [|apply elem_of_app; auto].
    unfold pre' in Hac. rewrite Ep. rewrite !elem_of_app, !elem_of_cons in *. destruct Hac as [?|[?|[->|?]]]; try tauto.
    destruct (args_lt_block h k (Hba k Ha)). intros x Hx. apply (ir_args _ Hw n x (in_code _ _ _ _ HC)). unfold args_of. rewrite Hh. exact Hx. }
  exists k, s1, s2, (upd G k v). split; [exact E1|]. split; [exact E2|]. split; [split|].
  - apply (ch_wf _ _ _ _ C2).
  - rewrite (ch_code _ _ _ _ C2), (ch_data _ _ _ _ C2). apply (valid_change _ (Data s1) n h); [exact Hh1| |exact Hv1].
    intros w0 r. rewrite (node_sem_agree G) by exact HG. apply Hns.
  - exists pre'. rewrite (ch_code _ _ _ _ C2). auto.
  - apply (changed_lookup _ _ _ _ C2).
  - intros x Hx Hxn. rewrite (ch_data _ _ _ _ C2), lookup_insert_ne by congruence. rewrite (al_data _ _ _ _ _ _ _ R1).
    apply lookup_insert_ne. fold k in Hx. lia.
  - apply upd_agree.
  - rewrite (ch_next _ _ _ _ C2), (al_next _ _ _ _ _ _ _ R1). fold k. lia.
  - split; [unfold k; lia|]. exists pre'. rewrite (ch_code _ _ _ _ C2). do 3 (split; [assumption|]).
    rewrite (ch_cursor _ _ _ _ C2). apply (al_cursor _ _ _ _ _ _ _ R1).
Qed.

Lemma inlined_trans n pre pre1 post h1 h2 s G s1 G1 s2 G2 : (forall x, x ∈ pre -> x ∈ pre1) ->
  inlined n pre post h1 s G s1 G1 -> inlined n pre1 post h2 s1 G1 s2 G2 -> inlined n pre post h2 s G s2 G2.
Proof.
  intros Hsub [A1 A2 A3 A4 A5 A6 A7] [B1 B2 (pre2 & B3 & B3') B4 B5 B6 B7]. split; auto; try lia.
  - exists pre2. auto.
  - intros x Hx Hxn. rewrite B5 by (lia || exact Hxn). apply A5; assumption.
  - intros a Ha. rewrite B6 by lia. apply A6, Ha.
Qed.

(** ** Operands of equal value *)

Lemma elem_of_insert_arg (a k : NodeID) i (args : list NodeID) : a ∈ <[i := k]> args -> a = k \/ a ∈ args.
Proof.
  intros Ha. apply list_elem_of_lookup in Ha as (j & Hj). destruct (Nat.eq_dec i j) as [->|Hne].
  - assert (j < length args)%nat as Hlt by (rewrite <- (length_insert args j k); apply lookup_lt_Some in Hj; exact Hj).
    rewrite list_lookup_insert_eq in Hj by exact Hlt. injection Hj as ->. auto.
  - rewrite list_lookup_insert_ne in Hj by exact Hne. right. apply list_elem_of_lookup. eauto.
Qed.

Lemma map_insert_same (G G' : NodeID -> Z) i k old (args : list NodeID) : args !! i = Some old -> (forall a, a ∈ args -> G' a = G a) ->
  G' k = G old -> map G' (<[i := k]> args) = map G args.
Proof.
  revert i. induction args as [|x args IH]; intros [|i]; cbn; try discriminate; intros Hi HG Hk.
  - injection Hi as ->. rewrite Hk. f_equal. apply map_ext_in. intros a Ha. apply HG, elem_of_cons. right. apply list_elem_of_In, Ha.
  - rewrite HG by (apply elem_of_cons; auto). f_equal. apply IH; auto. intros a Ha. apply HG, elem_of_cons. auto.
Qed.

(** The positions of values. *)
Definition value_position (h : IROp_Header) (i : nat) (old : NodeID) : Prop :=
  match Op h, Args h with
  | OP_CONDJUMP _ _, [_; _; _; _] => (i < 2)%nat
  | (OP_JUMP | OP_CODEBLOCK | OP_BEGINBLOCK | OP_ENDBLOCK | OP_CONDJUMP _ _
  | OP_CONSTANT _ | OP_INLINECONSTANT _ | OP_ENTRYPOINTOFFSET _ | OP_INLINEENTRYPOINTOFFSET _), _ => False
  | (OP_LOADMEM _ _ | OP_LOADMEMTSO _ _), [_; _] => (i < 2)%nat /\ old <> InvalidNode
  | (OP_STOREMEM _ _ | OP_STOREMEMTSO _ _), [_; _; _] => (i < 3)%nat /\ old <> InvalidNode
  | (OP_LOADMEM _ _ | OP_LOADMEMTSO _ _ | OP_STOREMEM _ _ | OP_STOREMEMTSO _ _), _ => False
  | _, _ => True
  end.

Lemma same_value h i old G : Args h !! i = Some old -> value_position h i old -> same_operand h i (G old) G.
Proof.
  destruct h as [op sz es args]. cbn [Args]. intros Hi Hp G' k Hk HG HGk. cbn zeta. unfold set_args. cbn [Op Size ElementSize Args] in *.
  assert (map G' (<[i := k]> args) = map G args) as Hmap by (apply (map_insert_same G G' i k old); assumption).
  pose proof (elem_of_insert_arg) as Hins.
  destruct op; cbn [value_position Op Args] in Hp; try contradiction;
    try (split; [intros a; apply Hins|]; split; [intros a Ha; exact Ha|]; intros w0 r; unfold node_sem; cbn [Op Args Size];
    rewrite ?Hmap; auto; fail).
  all: destruct args as [|x [|y [|z [|t [|]]]]]; try contradiction; destruct i as [|[|[|]]]; try lia;
    cbn [lookup list_lookup] in Hi; injection Hi as ->; (split; [|split; [intros a Ha; exact Ha|]]).
  all: cbn [insert list_insert] in *; unfold value_args, offset_arg, node_sem, offset_value; cbn [Op Args Size].
  all: try (intros a; repeat destruct (decide _); rewrite ?elem_of_cons; tauto).
  all: intros w0 r; rewrite ?HGk, ?(HG x), ?(HG y), ?(HG z) by (rewrite !elem_of_cons; auto); auto.
  all: repeat destruct (decide _); try tauto; auto.
Qed.

(** A shift amount may be reduced. *)
Definition is_shift (op : IROps) : bool := match op with OP_LSHR | OP_ASHR | OP_ROR | OP_LSHL => true | _ => false end.
Definition shift_amount (sz c : Z) : Z := if sz <=? 4 then Z.land c 31 else Z.land c 63.

Lemma shift_amount_mod sz c : sz = 4 \/ sz = 8 -> uint 64 (shift_amount sz c) = c mod (8 * sz).
Proof.
  unfold shift_amount. intros [-> | ->]; cbn [Z.leb Z.compare Pos.compare Pos.compare_cont].
  - change 31 with (Z.ones 5). rewrite Z.land_ones by lia. change (8 * 4) with 32. change (2 ^ 5) with 32. apply uint_small. pose proof (Z.mod_pos_bound c 32). lia.
  - change 63 with (Z.ones 6). rewrite Z.land_ones by lia. change (8 * 8) with 64. change (2 ^ 6) with 64. apply uint_small. pose proof (Z.mod_pos_bound c 64). lia.
Qed.

Lemma shift_value op sz x y y' v : is_shift op = true -> y' = y mod (8 * sz) ->
  operands_ok op sz [x; y] = true -> ir_value op sz [x; y] = Some v -> operands_ok op sz [x; y'] = true /\ ir_value op sz [x; y'] = Some v.
Proof.
  intros Ho -> Hok Hv. assert (sz = 4 \/ sz = 8) as Hsz.
  { apply size_48_cases. destruct op; try discriminate; cbn [ir_value] in Hv; apply when_Some in Hv as [Hs _]; try exact Hs.
    apply andb_true_iff in Hs. apply Hs. }
  pose proof (Z.mod_pos_bound y (8 * sz) ltac:(lia)) as Hb. split.
  - destruct op; try discriminate; try reflexivity; cbn [operands_ok] in Hok |- *; apply andb_true_iff in Hok as [-> _];
      destruct (Z.leb_spec 0 (y mod (8 * sz))), (Z.ltb_spec (y mod (8 * sz)) (8 * sz)); try lia; reflexivity.
  - destruct op; try discriminate; cbn [ir_value] in *; rewrite Z.mod_mod by lia; exact Hv.
Qed.

Lemma same_shift h a b c G : is_shift (Op h) = true -> Args h = [a; b] -> G b = uint 64 c ->
  (exists v w0, node_sem G h w0 = Some v) -> same_operand h 1 (uint 64 (shift_amount (Size h) c)) G.
Proof.
  intros Ho EA Gb ([v0 w1] & w0 & Hs) G' k Hk HG HGk. cbn zeta. rewrite EA in *. cbn [insert list_insert].
  assert (is_arith (Op h) = true) as Ha by (destruct (Op h); try discriminate; reflexivity).
  destruct (arith_sem G h w0 v0 w1 Ha Hs) as (Hok & Hv & Hall). rewrite EA in Hok, Hv. cbn [map] in Hok, Hv.
  assert (8 * Size h = 32 \/ 8 * Size h = 64) as Hsz.
  { assert (size_48 (Size h) = true) as Hs'; [|apply size_48_cases in Hs'; lia].
    destruct (Op h); try discriminate; cbn [ir_value] in Hv; apply when_Some in Hv as [Hs' _]; try exact Hs'. apply andb_true_iff in Hs'. apply Hs'. }
  destruct (shift_value (Op h) (Size h) (G a) (G b) (uint 64 (shift_amount (Size h) c)) v0 Ho) as [Hok' Hv']; auto.
  { rewrite shift_amount_mod, Gb by lia. unfold uint. symmetry. apply Z.mod_mod_divide.
    destruct Hsz as [-> | ->]; [exists (2 ^ 59)|exists (2 ^ 58)]; reflexivity. }
  split; [intros x|split].
  - unfold value_args. cbn [Op Args set_args]. rewrite EA. destruct (Op h); try discriminate; rewrite !elem_of_cons; tauto.
  - intros x. unfold block_args. cbn [Op Args set_args]. destruct (Op h); try discriminate; auto.
  - intros w2 r Hr. rewrite Hall in Hr. injection Hr as <-. unfold node_sem. cbn [Op Args Size set_args].
    assert (map G' [a; k] = [G a; uint 64 (shift_amount (Size h) c)]) as E.
    { cbn [map]. rewrite HGk, HG by (rewrite !elem_of_cons; auto). reflexivity. }
    destruct (Op h); try discriminate; rewrite E, Hok', Hv'; reflexivity.
Qed.

(** ** The step *)

Section Step.
Context (G : NodeID -> Z) (s : IRList) (n : NodeID) (pre post : list NodeID) (h : IROp_Header).
Hypothesis Hw : wf_ir s.
Hypothesis Hv : valid G (Data s) (Code s) w w'.
Hypothesis HC : Code s = pre ++ n :: post.
Hypothesis Hh : Data s !! n = Some h.

(** After the step the node and what precedes it have changed. *)
Definition inline_post (s' : IRList) : Prop := exists h' G', inlined n pre post h' s G s' G'.

Lemma inline_same : inline_post s.
Proof using Hw Hv HC Hh. exists h, G. apply inlined_refl; assumption. Qed.

Lemma inline_arg_node a : a ∈ value_args h -> a ∈ pre /\ a <> n /\ exists ha, Data s !! a = Some ha /\
  forall c, constant_of ha = Some c -> G a = uint 64 c.
Proof using Hw Hv HC Hh.
intros Ha. pose proof (args_code s pre n post h a Hw HC Hh Ha) as Hp. split; [exact Hp|]. split.
{ intros ->. pose proof (ir_nodup _ Hw) as Hnd. rewrite HC in Hnd. apply (proj1 (nodup_split n pre post Hnd)), Hp. }
destruct (valid_at G _ _ _ _ a Hv (in_pre _ _ _ _ _ HC Hp)) as (ha & w1 & w2 & E & Hs). exists ha. split; [exact E|].
intros c Hc. unfold constant_of in Hc. unfold node_sem in Hs. destruct (Op ha); try discriminate. destruct (Args ha); congruence.
Qed.

Lemma wp_inline_arg i arg c : Args h !! i = Some arg -> arg ∈ pre -> same_operand h i (uint 64 c) G ->
  wp (inline_arg n i arg c) (fun _ s' => exists k G', inlined n pre post (set_args (<[i := k]> (Args h)) h) s G s' G' /\ (NextNode s <= k)%nat) s.
Proof using Hw Hv HC Hh.
intros Hi Hp Hs. unfold inline_arg. apply pass_bind, wp_cursor. set (s1 := set_Cursor arg s).
destruct (inline_at s1 n pre post h i arg (OP_INLINECONSTANT (uint 64 c)) 8 (uint 64 c) G (wf_cursor s arg Hw) Hv HC Hh Hi Hp eq_refl)
as (k & s2 & s3 & G' & E2 & E3 & HI & Hk & _); [intros G0 w0; unfold node_sem; cbn [Op]; rewrite uint_idemp; reflexivity|exact Hs|].
apply pass_bind, (wp_run _ _ _ _ _ E2), pass_bind, (wp_run _ _ _ _ _ E3), pass_ret. exists k, G'. split; [apply (inlined_start _ _ _ _ _ _ _ _ arg), HI|exact Hk].
Qed.

Lemma wp_inline_when i arg ok (Q : bool -> IRList -> Prop) : Args h !! i = Some arg -> arg ∈ value_args h -> value_position h i arg ->
  Q false s -> (forall s' k G', inlined n pre post (set_args (<[i := k]> (Args h)) h) s G s' G' -> (NextNode s <= k)%nat -> Q true s') ->
  wp (inline_when n i arg ok) Q s.
Proof using Hw Hv HC Hh.
intros Hi Ha Hp HF HT. destruct (inline_arg_node arg Ha) as (Hpre & _ & ha & Ea & Hc). unfold inline_when.
apply pass_bind, (wp_constant arg ha); [exact Ea|]. destruct (constant_of ha) as [c|]; [|apply pass_ret, HF].
destruct (ok c); [|apply pass_ret, HF]. specialize (Hc c eq_refl).
destruct (wp_inline_arg i arg c Hi Hpre) as (b & s' & E & k & G' & HI & Hk).
{ rewrite <- Hc. apply same_value; assumption. }
apply (wp_run _ b s'); [exact E|]. assert (b = true) as ->; [|apply (HT s' k G'); assumption].
revert E. unfold inline_arg, mbind, M_bind. destruct (SetWriteCursor arg s) as [[? ?]| |]; try discriminate.
destruct (EmitInlineConstant c _) as [[? ?]| |]; try discriminate. destruct (ReplaceNodeArgument _ _ _ _) as [[? ?]| |]; try discriminate.
intros [= <- _]. reflexivity.
Qed.

(** A select of one and zero gets both as inline constants. *)
Lemma wp_select_rest h0 c cs x y t f c' cs' x' y' (r : bool) : Op h = OP_SELECT c cs -> Args h = [x; y; t; f] ->
  Op h0 = OP_SELECT c' cs' -> Args h0 = [x'; y'; t; f] ->
  wp (b ← is_flag_select h0;
  if (b : bool) then
  _ ← SetWriteCursor t;
  k1 ← EmitInlineConstant 1;
  _ ← ReplaceNodeArgument n 2 k1;
  k2 ← EmitInlineConstant 0;
  _ ← ReplaceNodeArgument n 3 k2;
  mret r
  else mret r) (fun _ => inline_post) s.
Proof using Hw Hv HC Hh.
intros Ho EA Ho0 EA0. assert (value_args h = [x; y; t; f]) as EV by (unfold value_args; rewrite Ho; exact EA).
destruct (inline_arg_node t) as (Ht & Htn & ht & Et & Gt); [rewrite EV, !elem_of_cons; auto|].
destruct (inline_arg_node f) as (Hf & _ & hf & Ef & Gf); [rewrite EV, !elem_of_cons; auto 6|].
unfold is_flag_select. rewrite Ho0, EA0. apply pass_bind, pass_bind, pass_bind, (wp_constant t ht); [exact Et|].
destruct (constant_of ht) as [c2|]; [|apply pass_ret, pass_ret, pass_ret, inline_same].
apply pass_bind, (wp_constant f hf); [exact Ef|]. destruct (constant_of hf) as [c3|]; [|apply pass_ret, pass_ret, pass_ret, inline_same].
apply pass_ret, pass_ret. destruct ((c2 =? 1) && (c3 =? 0)) eqn:E01; [|apply pass_ret, inline_same].
apply andb_true_iff in E01 as [E1 E0]. apply Z.eqb_eq in E1, E0. subst c2 c3. specialize (Gt 1 eq_refl). specialize (Gf 0 eq_refl).
apply pass_bind, wp_cursor. set (s1 := set_Cursor t s).
destruct (inline_at s1 n pre post h 2 t (OP_INLINECONSTANT (uint 64 1)) 8 (G t) G (wf_cursor s t Hw) Hv HC Hh)
as (k1 & s2 & s3 & G3 & E2 & E3 & HI3 & _ & pre3 & HC3 & Hk1 & Hsub & Hcur); try reflexivity; try exact Ht.
{ rewrite EA. reflexivity. }
{ intros G0 w0. rewrite Gt. reflexivity. }
{ apply same_value; [rewrite EA; reflexivity|unfold value_position; rewrite Ho; exact I]. }
apply pass_bind, (wp_run _ _ _ _ _ E2), pass_bind, (wp_run _ _ _ _ _ E3).
set (h1 := set_args (<[2%nat := k1]> (Args h)) h) in *.
assert (Args h1 = [x; y; k1; f]) as EA1 by (unfold h1; cbn [Args set_args]; rewrite EA; reflexivity).
assert (G3 f = G f) as Gf3.
{ apply (inl_agree _ _ _ _ _ _ _ _ HI3). apply (ir_ids _ Hw f), (in_pre _ _ _ _ _ HC Hf). }
destruct (inline_at s3 n pre3 post h1 3 f (OP_INLINECONSTANT (uint 64 0)) 8 (G3 f) G3 (inl_wf _ _ _ _ _ _ _ _ HI3) (inl_valid _ _ _ _ _ _ _ _ HI3) HC3 (inl_node _ _ _ _ _ _ _ _ HI3))
as (k2 & s4 & s5 & G5 & E4 & E5 & HI5 & _); try reflexivity.
{ rewrite EA1. reflexivity. }
{ rewrite Hcur. exact Hk1. }
{ intros G0 w0. rewrite Gf3, Gf. reflexivity. }
{ apply same_value; [rewrite EA1; reflexivity|unfold value_position, h1; cbn [Op set_args]; rewrite Ho; exact I]. }
apply pass_bind, (wp_run _ _ _ _ _ E4), pass_bind, (wp_run _ _ _ _ _ E5), pass_ret. eexists _, G5.
eapply (inlined_trans n pre pre3); [exact Hsub|apply (inlined_start _ _ _ _ _ _ _ _ t), HI3|exact HI5].
Qed.
End Step.

Lemma wp_select G s n pre post h c cs x y t f :
  wf_ir s -> valid G (Data s) (Code s) w w' -> Code s = pre ++ n :: post -> Data s !! n = Some h -> Op h = OP_SELECT c cs -> Args h = [x; y; t; f] ->
  wp (r ← inline_when n 1 y IsImmAddSub;
  b ← is_flag_select h;
  if (b : bool) then
  _ ← SetWriteCursor t;
  k1 ← EmitInlineConstant 1;
  _ ← ReplaceNodeArgument n 2 k1;
  k2 ← EmitInlineConstant 0;
  _ ← ReplaceNodeArgument n 3 k2;
  mret r
  else mret r) (fun _ => inline_post G s n pre post) s.
Proof.
  intros Hw Hv HC Hh Ho EA. apply pass_bind, (wp_inline_when G s n pre post h Hw Hv HC Hh).
  - rewrite EA. reflexivity.
  - unfold value_args. rewrite Ho, EA, !elem_of_cons. auto.
  - unfold value_position. rewrite Ho. exact I.
  - apply (wp_select_rest G s n pre post h Hw Hv HC Hh h c cs x y t f c cs x y); assumption.
  - intros s1 k G1 HI _. destruct (inl_code _ _ _ _ _ _ _ _ HI) as (pre1 & HC1 & Hsub). eapply pass_mono.
    2: { apply (wp_select_rest G1 s1 n pre1 post _ (inl_wf _ _ _ _ _ _ _ _ HI) (inl_valid _ _ _ _ _ _ _ _ HI) HC1 (inl_node _ _ _ _ _ _ _ _ HI) h c cs x k t f c cs x y);
        cbn [Op Args set_args]; rewrite ?EA; auto. }
    intros b s2 (h2 & G2 & HI2). exists h2, G2. apply (inlined_trans n pre pre1 _ _ _ _ _ _ _ _ _ Hsub HI HI2).
Qed.

(** The amount of a shift. *)
Lemma wp_shift_inline G s n pre post h a b (Q : bool -> IRList -> Prop) :
  wf_ir s -> valid G (Data s) (Code s) w w' -> Code s = pre ++ n :: post -> Data s !! n = Some h -> is_shift (Op h) = true -> Args h = [a; b] ->
  Q false s -> (forall b' s', inline_post G s n pre post s' -> Q b' s') ->
  wp (c ← IsValueConstant b;
  match c with
  | Some Constant2 => inline_arg n 1 b (if Size h <=? 4 then Z.land Constant2 31 else Z.land Constant2 63)
  | None => mret false
  end) Q s.
Proof.
  intros Hw Hv HC Hh Ho EA HF HT. destruct (inline_arg_node G s n pre post h Hw Hv HC Hh b) as (Hb & _ & hb & Eb & Hc).
  { unfold value_args. rewrite EA. destruct (Op h); try discriminate; rewrite !elem_of_cons; auto. }
  apply pass_bind, (wp_constant b hb); [exact Eb|]. destruct (constant_of hb) as [c|]; [|apply pass_ret, HF].
  eapply pass_mono; [|apply (wp_inline_arg G s n pre post h Hw Hv HC Hh 1 b); [rewrite EA; reflexivity|exact Hb|]].
  - intros b' s' (k & G' & HI & _). apply HT. eexists _, G'. exact HI.
  - apply (same_shift h a b c G Ho EA (Hc c eq_refl)).
    destruct (valid_at G _ _ _ _ n Hv (in_code _ _ _ _ HC)) as (h0 & w1 & w2 & E & Hs). rewrite Hh in E. injection E as <-. eauto.
Qed.

(** The offset of an access, when there is one. *)
Lemma wp_offset_inline G s n pre post h i ty o ok (Q : bool -> IRList -> Prop) :
  wf_ir s -> valid G (Data s) (Code s) w w' -> Code s = pre ++ n :: post -> Data s !! n = Some h -> Args h !! i = Some o ->
  (o <> InvalidNode -> o ∈ value_args h /\ value_position h i o) -> Q false s -> (forall b' s', inline_post G s n pre post s' -> Q b' s') ->
  wp (inline_offset n i ty o ok) Q s.
Proof.
  intros Hw Hv HC Hh Hi Ho HF HT. unfold inline_offset. destruct ty; try apply pass_ret, HF.
  destruct (decide (o = InvalidNode)) as [->|Hne].
  - destruct (ir_header _ Hw) as (h0 & E0 & Eo0). unfold inline_when. apply pass_bind, (wp_constant InvalidNode h0); [exact E0|].
    unfold constant_of. rewrite Eo0. apply pass_ret, HF.
  - destruct (Ho Hne) as [Ha Hp]. apply (wp_inline_when G s n pre post h Hw Hv HC Hh); try assumption.
    intros s' k G' HI _. apply HT. eexists _, G'. exact HI.
Qed.

(** The target of an exit. *)
Lemma wp_exit_inline G s n pre post h a (Q : bool -> IRList -> Prop) :
  wf_ir s -> valid G (Data s) (Code s) w w' -> Code s = pre ++ n :: post -> Data s !! n = Some h -> Op h = OP_EXITFUNCTION -> Args h = [a] ->
  Q false s -> (forall b' s', inline_post G s n pre post s' -> Q b' s') ->
  wp (c ← IsValueConstant a;
  match c with
  | Some c => inline_arg n 0 a c
  | None =>
  h ← GetOpHeader a;
  match Op h with
  | OP_ENTRYPOINTOFFSET o =>
      _ ← SetWriteCursor a;
      k ← EmitInlineEntrypointOffset o (Size h);
      _ ← ReplaceNodeArgument n 0 k;
      mret true
  | _ => mret false
  end
  end) Q s.
Proof.
  intros Hw Hv HC Hh Ho EA HF HT. destruct (inline_arg_node G s n pre post h Hw Hv HC Hh a) as (Ha & _ & ha & Ea & Hc).
  { unfold value_args. rewrite Ho, EA. apply elem_of_cons. auto. }
  assert (Args h !! 0%nat = Some a /\ value_position h 0 a) as [Hi Hp] by (rewrite EA; unfold value_position; rewrite Ho; auto).
  apply pass_bind, (wp_constant a ha); [exact Ea|]. destruct (constant_of ha) as [c|].
  - eapply pass_mono; [|apply (wp_inline_arg G s n pre post h Hw Hv HC Hh 0 a c Hi Ha)].
    + intros b' s' (k & G' & HI & _). apply HT. eexists _, G'. exact HI.
    + rewrite <- (Hc c eq_refl). apply same_value; assumption.
  - apply pass_bind, (wp_header a ha); [exact Ea|]. destruct (Op ha) eqn:Eo; try apply pass_ret, HF.
    apply pass_bind, wp_cursor. set (s1 := set_Cursor a s).
    assert (size_48 (Size ha) = true /\ G a = uint (8 * Size ha) (entrypoint + Offset)) as [Gs Ga].
    { destruct (valid_at G _ _ _ _ a Hv (in_pre _ _ _ _ _ HC Ha)) as (h0 & w1 & w2 & E & Hs). rewrite Ea in E. injection E as <-.
      unfold node_sem in Hs. rewrite Eo in Hs. destruct (Args ha); [|discriminate].
      destruct (size_48 (Size ha)); [split; congruence|discriminate]. }
    destruct (inline_at s1 n pre post h 0 a (OP_INLINEENTRYPOINTOFFSET Offset) (Size ha) (G a) G (wf_cursor s a Hw) Hv HC Hh Hi Ha eq_refl)
      as (k & s2 & s3 & G' & E2 & E3 & HI & _).
    { intros G0 w0. unfold node_sem. cbn [Op Size]. rewrite Gs, Ga. reflexivity. }
    { apply same_value; assumption. }
    apply pass_bind, (wp_run _ _ _ _ _ E2), pass_bind, (wp_run _ _ _ _ _ E3), pass_ret, HT. eexists _, G'. apply (inlined_start _ _ _ _ _ _ _ _ a), HI.
Qed.

Lemma wp_ConstantInlining_step tso G s n pre post h Changed :
  wf_ir s -> valid G (Data s) (Code s) w w' -> Code s = pre ++ n :: post -> Data s !! n = Some h ->
  wp (ConstantInlining_step tso n Changed) (fun _ => inline_post G s n pre post) s.
Proof.
  intros Hw Hv HC Hh. unfold ConstantInlining_step. apply pass_bind, (wp_header n h); [exact Hh|]. apply pass_bind.
  assert (forall b : bool, wp (mret (Changed || b) : P bool) (fun _ => inline_post G s n pre post) s) as Hret.
  { intros b. apply pass_ret, (inline_same G s n pre post h); assumption. }
  assert (forall i arg ok, Args h !! i = Some arg -> arg ∈ value_args h -> value_position h i arg ->
    wp (inline_when n i arg ok) (fun b => wp (mret (Changed || b)) (fun _ => inline_post G s n pre post)) s) as Hwhen.
  { intros i arg ok Hi Ha Hp. apply (wp_inline_when G s n pre post h Hw Hv HC Hh i arg ok); try assumption; [apply Hret|].
    intros s' k G' HI _. apply pass_ret. exists (set_args (<[i := k]> (Args h)) h), G'. exact HI. }
  destruct (Op h) eqn:Ho; try (apply pass_ret, Hret);
    destruct (Args h) as [|a0 [|a1 [|a2 [|a3 [|]]]]] eqn:EA; try (apply pass_ret, Hret).
  all: assert (forall b' s', inline_post G s n pre post s' -> wp (mret (Changed || b') : P bool) (fun _ => inline_post G s n pre post) s') as Hpost
    by (intros b' s' Hs; apply pass_ret, Hs).
  all: try (apply (wp_shift_inline G s n pre post h a0 a1); try assumption; [rewrite Ho; reflexivity|apply Hret]).
  all: try (apply Hwhen; [reflexivity|unfold value_args; rewrite Ho, ?EA, !elem_of_cons; auto|unfold value_position; rewrite Ho, ?EA; auto]).
  all: try match goal with |- wp (if ?t then inline_offset _ _ _ _ _ else _) _ _ => destruct t end; try (apply pass_ret, Hret).
  all: try (eapply (wp_offset_inline G s n pre post h); try eassumption; [rewrite EA; reflexivity| |apply Hret];
    intros Hne; unfold value_args, value_position, offset_arg; rewrite Ho, EA; split; [|auto];
    rewrite decide_False by exact Hne; rewrite !elem_of_cons; auto).
  - eapply pass_mono; [|apply (wp_select G s n pre post h Cond CompareSize a0 a1 a2 a3 Hw Hv HC Hh Ho EA)].
    intros b s' Hs. apply Hpost, Hs.
  - apply (wp_exit_inline G s n pre post h a0); try assumption. apply Hret.
Qed.

Lemma inline_loop tso fuel : forall pre todo G s c, wf_ir s -> valid G (Data s) (Code s) w w' -> Code s = pre ++ todo ->
  (length todo < fuel)%nat ->
  wp (for_code fuel (ConstantInlining_step tso) (first_node todo) c)
  (fun _ s' => wf_ir s' /\ exists G', agree (NextNode s) G G' /\ valid G' (Data s') (Code s') w w') s.
Proof.
  induction fuel as [|fuel IH]; intros pre todo G s c Hw Hv HC Hf; [lia|]. destruct todo as [|n post].
  - cbn [for_code first_node]. rewrite decide_True by reflexivity. apply pass_ret. split; [exact Hw|]. exists G. split; [intros a _; reflexivity|exact Hv].
  - pose proof (in_code _ _ _ _ HC) as Hn. destruct (ir_data _ Hw n Hn) as [h Hh]. cbn [for_code first_node length] in *.
    rewrite decide_False by apply (ir_ids _ Hw n Hn). apply pass_bind.
    eapply pass_mono; [|apply (wp_ConstantInlining_step tso G s n pre post h c Hw Hv HC Hh)].
    intros c' s' (h' & G' & HI). destruct (inl_code _ _ _ _ _ _ _ _ HI) as (pre' & HC' & _).
    pose proof (ir_nodup _ (inl_wf _ _ _ _ _ _ _ _ HI)) as Hnd. rewrite HC' in Hnd. destruct (nodup_split n pre' post Hnd) as (Hn' & _).
    apply pass_bind, (wp_run _ (first_node post) s').
    { unfold NextOf, mbind, M_bind, get_state. rewrite HC', decide_True by (rewrite elem_of_app, elem_of_cons; auto).
      rewrite next_in_split by exact Hn'. reflexivity. }
    eapply pass_mono; [|apply (IH (pre' ++ [n]) post G' s' c' (inl_wf _ _ _ _ _ _ _ _ HI) (inl_valid _ _ _ _ _ _ _ _ HI)); [rewrite <- app_assoc; exact HC'|lia]].
    intros c'' s'' (Hw2 & G2 & Ha & Hv2). split; [exact Hw2|]. exists G2. split; [|exact Hv2].
    pose proof (inl_next _ _ _ _ _ _ _ _ HI). intros a Hlt. rewrite Ha by lia. apply (inl_agree _ _ _ _ _ _ _ _ HI), Hlt.
Qed.
End Inlining.

(** C27: Constant inlining terminates, keeps the code well formed, and every
    valuation of the block extends to the new code with the same effects,
    whichever width of immediates the host has for ordered accesses. *)
Theorem ConstantInlining_preserves {W} `{World W} (w w' : W) tso G s :
  wf_ir s -> valid G (Data s) (Code s) w w' ->
  exists c s' G', ConstantInlining tso s = Ok (c, s') /\ wf_ir s' /\ agree (NextNode s) G G' /\ valid G' (Data s') (Code s') w w'.
Proof.
  intros Hw Hv. unfold ConstantInlining, for_all_code. rewrite (M_bind_Ok get_state _ s s s eq_refl). cbn beta.
  destruct (inline_loop w w' tso (S (4 * length (Code s))) [] (Code s) G s false Hw Hv eq_refl) as (c & s' & E & Hw' & G' & Ha & Hv'); [lia|].
  exists c, s', G'. auto.
Qed.
