(* ===== verification/ConstPropExamples.v ===== *)
(** * Propagation under the interpreter, and on concrete blocks

    The interpreter cannot tell a block from what propagation made of it. The
    rest of the file runs the pass on small blocks: they satisfy the hypotheses of
    the theorems, and some show what the pass gets wrong without them. *)
From Stdlib Require Import ZArith Lia Bool.
From stdpp Require Import base gmap list numbers option.
From S2P Require Import Prelude IR ALUOps Interp IRSpec InterpRefines IRList IRListLogic DeadCode ConstProp ConstPropLogic ConstPropCases ConstPropSteps ConstPropTheorems ConstPropInlining.
#[local] Open Scope Z_scope.

(** The context, memory, and whether the block was left by an exit. *)
Record Guest := mkGuest { g_frame : gmap Z Z; g_mem : gmap Z Z; g_left : bool }.

Definition ok_of {A} (o : outcome A) : option A := match o with Ok a => Some a | _ => None end.

Definition guest_load (tso : bool) (sz a : Z) (w : Guest) : option Z :=
  if 0 <=? sz then ok_of (Op_LoadMem sz a (g_mem w)) else None.

(** After an exit nothing else happens to the guest. *)
Definition guest_store (tso : bool) (sz a v : Z) (w : Guest) : option Guest :=
  if g_left w then None else m ← ok_of (Op_StoreMem sz a v (g_mem w)); Some (mkGuest (g_frame w) m false).

Definition guest_frame (f : gmap Z Z) (left : bool) (w : Guest) : option (Z * Guest) :=
  if g_left w then None else Some (0, mkGuest f (g_mem w) left).

Definition guest_other (op : IROps) (sz : Z) (args : list Z) (w : Guest) : option (Z * Guest) :=
  match op, args with
  | OP_LOADCONTEXT o, [] => v ← ok_of (Op_LoadContext sz o 0 (g_frame w)); Some (v, w)
  | OP_LOADFLAG fl, [] => v ← ok_of (Op_LoadFlag fl 0 (g_frame w)); Some (v, w)
  | OP_STORECONTEXT o, [v] => guest_frame (Op_StoreContext sz o v (g_frame w)) false w
  | OP_STOREFLAG fl, [v] => guest_frame (Op_StoreFlag fl v (g_frame w)) false w
  | OP_EXITFUNCTION, [rip] => guest_frame (store (Z.to_nat sz) (g_frame w) RIP_OFFSET rip) true w
  | (OP_BEGINBLOCK | OP_ENDBLOCK | OP_INVALIDATEFLAGS _), _ => Some (0, w)
  | _, _ => v ← ir_value op sz args; Some (v, w)
  end.

Lemma ok_of_Some {A} (o : outcome A) a : ok_of o = Some a <-> o = Ok a.
Proof. destruct o; cbn; split; congruence. Qed.

Lemma guest_load_zext tso sz a w v : guest_load tso sz a w = Some v -> zext sz v.
Proof.
  unfold guest_load. destruct (Z.leb_spec 0 sz); [|discriminate]. intros E. apply ok_of_Some in E.
  unfold Op_LoadMem in E. destruct (load _ _ _) as [b|]; [|discriminate]. injection E as <-. unfold put, zext.
  rewrite Z.div_0_l by (pose proof (pow2_pos (8 * sz)); lia). pose proof (uint_range (8 * sz) b). lia.
Qed.

Lemma load_range n m a v : load n m a = Some v -> 0 <= v < 2 ^ (8 * Z.of_nat n).
Proof.
  revert a v. induction n as [|n IH]; intros a v; cbn [load]; [intros [= <-]; cbn; lia|].
  destruct (m !! a) as [b|]; [|discriminate]. cbn [mbind option_bind]. destruct (load n m (a + 1)) as [r|] eqn:E; [|discriminate].
  intros [= <-]. specialize (IH _ _ E). pose proof (uint_range 8 b ltac:(lia)). replace (8 * Z.of_nat (S n)) with (8 + 8 * Z.of_nat n) by lia.
  rewrite Z.pow_add_r by lia. change (2 ^ 8) with 256 in *. lia.
Qed.

Lemma put_zero w v : 0 <= v < 2 ^ w -> put w v 0 = v.
Proof.
  intros Hv. unfold put. rewrite uint_small by exact Hv. destruct (Z.lt_ge_cases w 0) as [Hw|Hw].
  - rewrite Z.pow_neg_r in Hv by exact Hw. lia.
  - rewrite Z.div_0_l by (pose proof (pow2_pos w Hw); lia). lia.
Qed.

(** The cell of a context load holds the bytes. *)
Lemma LoadContext_cell sz o f v : Op_LoadContext sz o 0 f = Ok v -> zext sz v.
Proof.
  assert (forall n w, 8 * Z.of_nat n <= w -> deref (load n f o) ≫= (fun v => Ok (put w v 0)) = Ok v -> 0 <= v < 2 ^ (8 * Z.of_nat n)) as Hld.
  { intros n w0 Hw. destruct (load n f o) as [b|] eqn:E; [|discriminate]. cbn [deref mbind outcome_bind]. intros [= <-].
    pose proof (load_range _ _ _ _ E). pose proof (Z.pow_le_mono_r 2 _ _ ltac:(lia) Hw). rewrite put_zero by lia. assumption. }
  unfold Op_LoadContext, GD, zext.
  destruct (Z.eqb_spec sz 1) as [->|]; [apply (Hld 1%nat 64); lia|]. destruct (Z.eqb_spec sz 2) as [->|]; [apply (Hld 2%nat 64); lia|].
  destruct (Z.eqb_spec sz 4) as [->|]; [apply (Hld 4%nat 64); lia|]. destruct (Z.eqb_spec sz 8) as [->|]; [apply (Hld 8%nat 64); lia|].
  destruct (Z.eqb_spec sz 16) as [->|]; [apply (Hld 16%nat 128); lia|discriminate].
Qed.

Lemma guest_other_zext o sz args w v w' : guest_other (OP_LOADCONTEXT o) sz args w = Some (v, w') -> zext sz v.
Proof.
  destruct args as [|x args]; [|discriminate]. cbn [guest_other]. destruct (ok_of _) as [v0|] eqn:E; [|discriminate].
  intros [= -> _]. apply ok_of_Some in E. apply (LoadContext_cell _ _ _ _ E).
Qed.

Lemma guest_other_cases op sz args w v w' : guest_other op sz args w = Some (v, w') ->
  w' = w \/ (HasSideEffects op = true /\ g_left w = false).
Proof.
  assert (forall (o : option Z), (v0 ← o; Some (v0, w)) = Some (v, w') -> w' = w) as Hpure.
  { intros [v0|]; [intros [= _ <-]; reflexivity|discriminate]. }
  assert (forall f l, guest_frame f l w = Some (v, w') -> g_left w = false) as Hf.
  { intros f l. unfold guest_frame. destruct (g_left w); [discriminate|reflexivity]. }
  intros E. destruct op, args as [|a [|b args]]; cbn [guest_other] in E;
    first [right; split; [reflexivity|exact (Hf _ _ E)]|left; first [exact (Hpure _ E)|injection E as _ <-; reflexivity]].
Qed.

Lemma guest_other_pure op sz args w v w' : HasSideEffects op = false -> guest_other op sz args w = Some (v, w') -> w' = w.
Proof. intros Hp E. destruct (guest_other_cases _ _ _ _ _ _ E) as [?|[? _]]; congruence. Qed.

(** The guest of a block translated for the address [entry]. A conditional branch
    leaves the block for another one, which the model of a block does not follow. *)
Definition guest_world (entry : Z) : World Guest := {|
  entrypoint := entry;
  w_load := guest_load;
  w_store := guest_store;
  w_branch := fun _ _ => None;
  w_other := guest_other;
  w_load_zext := guest_load_zext;
  w_other_zext := guest_other_zext;
  w_other_pure := guest_other_pure
  |}.

(** ** One node *)

Section Run.
Context (entry : Z).
#[local] Instance block_world : World Guest := guest_world entry.

(** The state of the interpreter shows the guest. *)
Record shows (st : IROpData) (w : Guest) : Prop := {
  sh_entry : CurrentEntry st = entry;
  sh_frame : Frame st = g_frame w;
  sh_mem : Mem st = g_mem w;
  sh_left : (Quit st || Redo st) = g_left w
  }.

Lemma shows_set_cell n v st w : shows st w -> shows (set_cell n v st) w.
Proof. intros [H1 H2 H3 H4]. split; assumption. Qed.

Lemma cell_set_cell n v st a : cell (set_cell n v st) a = if decide (n = a) then v else cell st a.
Proof.
  unfold cell, set_cell. cbn [SSAData]. destruct (decide (n = a)) as [->|Hn]; [rewrite lookup_insert_eq|rewrite lookup_insert_ne by exact Hn]; reflexivity.
Qed.

(** What executing node [n] of value [v] must do. *)
Definition stepped (n : NodeID) (v : Z) (w1 : Guest) (st st1 : IROpData) : Prop :=
  shows st1 w1 /\ cell st1 n = v /\ forall a, a <> n -> cell st1 a = cell st a.

Lemma stepped_cell n v st w : shows st w -> stepped n v w st (set_cell n v st).
Proof.
  intros Hs. split; [apply shows_set_cell, Hs|]. split; [rewrite cell_set_cell, decide_True by reflexivity; reflexivity|].
  intros a Ha. rewrite cell_set_cell, decide_False by congruence. reflexivity.
Qed.

Lemma zext_cell n st op sz args v : cell st n = 0 -> ir_value op sz args = Some v -> zext sz (cell st n).
Proof. intros -> Hv. apply zext_0, (zext_nonneg _ v), (ir_value_zext _ _ _ _ Hv). Qed.

(** Operations that the reference semantics gives a value. *)
Lemma exec_value st n h w v G : shows st w -> cell st n = 0 -> (forall a, a ∈ Args h -> cell st a = G a) ->
  ir_value (Op h) (Size h) (map G (Args h)) = Some v -> zero_extending (Op h) (Size h) = true ->
  exists st1, exec_op st n h = Ok st1 /\ stepped n v w st st1.
Proof.
  intros Hs H0 Ha Hv Hz. exists (set_cell n v st). split; [|apply stepped_cell, Hs]. apply exec_op_value; [|exact Hz|].
  - rewrite <- Hv. f_equal. apply map_ext_in. intros a Hin. apply Ha, list_elem_of_In, Hin.
  - apply (zext_cell n st (Op h) (Size h) (map G (Args h)) v); assumption.
Qed.

Lemma offset_cell st G o : (o <> InvalidNode -> cell st o = G o) ->
  (if decide (o = InvalidNode) then None else Some (cell st o)) = offset_value G o.
Proof. intros Ho. unfold offset_value. destruct (decide (o = InvalidNode)); [reflexivity|]. rewrite Ho by assumption. reflexivity. Qed.

(** What the interpreter runs to the reference value: it has no inline constants,
    which are for code generators. *)
Definition runs (op : IROps) (sz : Z) : bool :=
  zero_extending op sz && match op with OP_INLINECONSTANT _ | OP_INLINEENTRYPOINTOFFSET _ => false | _ => true end.

Lemma exec_other st n h w v w1 G : shows st w -> g_left w = false -> cell st n = 0 ->
  (forall a, a ∈ value_args h -> cell st a = G a) -> guest_other (Op h) (Size h) (map G (Args h)) w = Some (v, w1) ->
  is_arith (Op h) = false -> runs (Op h) (Size h) = true ->
  exists st1, exec_op st n h = Ok st1 /\ stepped n v w1 st st1.
Proof.
  intros Hs Hl H0 Ha Hsem Har Hr. apply andb_true_iff in Hr as [Hz Hi].
  assert ((v0 ← ir_value (Op h) (Size h) (map G (Args h)); Some (v0, w)) = Some (v, w1) -> (forall a, a ∈ Args h -> cell st a = G a) ->
    exists st1, exec_op st n h = Ok st1 /\ stepped n v w1 st st1) as Hval.
  { destruct (ir_value _ _ _) as [v0|] eqn:Ev; [|discriminate]. intros [= -> <-] Ha'. apply (exec_value st n h w v G); assumption. }
  destruct h as [op sz es args]. cbn [Op Args Size] in *.
  destruct op; cbn [is_arith] in Har; try discriminate; destruct args as [|a [|b [|c [|d [|]]]]]; cbn [map guest_other] in Hsem;
    try discriminate Hsem; try (apply Hval; [exact Hsem|exact Ha]); unfold exec_op, exec_pure; cbn [Op Args Size].
  all: destruct Hs as [Se Sf Sm Sl].
  all: try (exists st; split; [reflexivity|]; injection Hsem as <- <-; split; [split; assumption|split; [exact H0|reflexivity]]).
  all: try rewrite (Ha a) by (apply elem_of_cons; auto).
  all: try rewrite H0; try rewrite Sf.
  all: try (destruct (ok_of _) as [v0|] eqn:E; [|discriminate Hsem]; apply ok_of_Some in E; rewrite E; injection Hsem as -> <-;
    exists (set_cell n v st); split; [reflexivity|apply stepped_cell; split; assumption]).
  all: unfold guest_frame in Hsem; rewrite Hl in Hsem; injection Hsem as <- <-; eexists; split; [reflexivity|];
    split; [split; cbn; try assumption; try reflexivity; congruence|split; [exact H0|reflexivity]].
Qed.

(** Accesses to memory. *)
Lemma exec_load st n ty sc sz es a o tso w v w1 G : shows st w -> cell st a = G a -> (o <> InvalidNode -> cell st o = G o) ->
  (v ← guest_load tso sz (mem_address ty sc (G a) (offset_value G o)) w; Some (v, w)) = Some (v, w1) ->
  forall op, op = OP_LOADMEM ty sc \/ op = OP_LOADMEMTSO ty sc ->
  exists st1, exec_op st n (mkOp op sz es [a; o]) = Ok st1 /\ stepped n v w1 st st1.
Proof.
  intros Hs Ha Ho Hsem op Hop. unfold guest_load in Hsem. destruct (0 <=? sz); [|discriminate].
  destruct (ok_of _) as [v0|] eqn:E; [|discriminate]. injection Hsem as -> <-. apply ok_of_Some in E.
  exists (set_cell n v st). split; [|apply stepped_cell, Hs].
  destruct Hop as [-> | ->]; unfold exec_op, exec_pure; cbn [Op Args Size]; rewrite Ha, (offset_cell st G o Ho), (sh_mem _ _ Hs), E; reflexivity.
Qed.

Lemma exec_store st n ty sc sz es x a o tso w v w1 G : shows st w -> g_left w = false -> cell st n = 0 -> cell st x = G x -> cell st a = G a ->
  (o <> InvalidNode -> cell st o = G o) ->
  (w ← guest_store tso sz (mem_address ty sc (G a) (offset_value G o)) (G x) w; Some (0, w)) = Some (v, w1) ->
  forall op, op = OP_STOREMEM ty sc \/ op = OP_STOREMEMTSO ty sc ->
  exists st1, exec_op st n (mkOp op sz es [x; a; o]) = Ok st1 /\ stepped n v w1 st st1.
Proof.
  intros Hs Hl H0 Hx Ha Ho Hsem op Hop. unfold guest_store in Hsem. rewrite Hl in Hsem.
  destruct (ok_of _) as [m|] eqn:E; [|discriminate]. injection Hsem as <- <-. apply ok_of_Some in E. destruct Hs as [Se Sf Sm Sl].
  exists (set_mem m st). split.
  - destruct Hop as [-> | ->]; unfold exec_op, exec_pure; cbn [Op Args Size]; rewrite Hx, Ha, (offset_cell st G o Ho), Sm, E; reflexivity.
  - split; [split; cbn; try assumption; try reflexivity; congruence|split; [exact H0|reflexivity]].
Qed.

Lemma exec_stepped st n h w v w1 G : shows st w -> g_left w = false -> cell st n = 0 ->
  (forall a, a ∈ value_args h -> cell st a = G a) -> node_sem G h w = Some (v, w1) -> runs (Op h) (Size h) = true ->
  exists st1, exec_op st n h = Ok st1 /\ stepped n v w1 st st1.
Proof.
  intros Hs Hl H0 Ha Hsem Hr. destruct (is_arith (Op h)) eqn:Har.
  { destruct (arith_sem G h w v w1 Har Hsem) as (_ & Hv & Hall). rewrite Hall in Hsem. injection Hsem as <-.
    apply (exec_value st n h w v G); try assumption; [|apply andb_true_iff in Hr; apply Hr].
    intros a Hin. apply Ha. unfold value_args. destruct (Op h); try discriminate; exact Hin. }
  unfold node_sem in Hsem.
  destruct (Op h) eqn:Ho; cbn [is_arith] in Hsem, Har; try discriminate Har;
    try (rewrite <- Ho in *; apply (exec_other st n h w v w1 G); try assumption; rewrite Ho; assumption);
    destruct h as [op sz es args]; cbn [Op Args Size] in *; subst op.
  all: try discriminate Hr.
  - destruct args; [|discriminate]. injection Hsem as <- <-. exists (set_cell n (uint 64 Constant) st). split; [|apply stepped_cell, Hs].
    unfold exec_op, exec_pure. cbn [Op Args]. rewrite Op_Constant_spec by (rewrite H0; apply zext_0; lia). reflexivity.
  - destruct args; [|discriminate]. destruct (size_48 sz) eqn:Esz; [|discriminate]. injection Hsem as <- <-.
    exists (set_cell n (uint (8 * sz) (entry + Offset)) st). split; [|apply stepped_cell, Hs].
    unfold exec_op, exec_pure, Op_EntrypointOffset. cbn [Op Args Size]. rewrite (sh_entry _ _ Hs), (GD_zext 8) by (rewrite ?H0; try apply zext_0; lia).
    cbn [mbind outcome_bind]. do 2 f_equal. apply size_48_cases in Esz as [-> | ->]; cbn [Z.eqb Pos.eqb].
    + change 0xFFFFFFFF with (Z.ones 32). rewrite land_ones_uint, (uint_uint 32 64), uint_widen by lia. reflexivity.
    + change 0xFFFFFFFFFFFFFFFF with (Z.ones 64). rewrite land_ones_uint, !uint_idemp by lia. reflexivity.
  - destruct args as [|a [|o [|]]]; try discriminate. apply (exec_load st n OffsetType OffsetScale sz es a o false w v w1 G);
      [exact Hs|apply Ha, elem_of_cons; auto|intros Hne; apply Ha; cbn; unfold offset_arg; rewrite decide_False by exact Hne; rewrite !elem_of_cons; auto|exact Hsem|auto].
  - destruct args as [|x [|a [|o [|]]]]; try discriminate. apply (exec_store st n OffsetType OffsetScale sz es x a o false w v w1 G);
      [exact Hs|exact Hl|exact H0|apply Ha; cbn; rewrite !elem_of_cons; auto|apply Ha; cbn; rewrite !elem_of_cons; auto|intros Hne; apply Ha; cbn; unfold offset_arg; rewrite decide_False by exact Hne; rewrite !elem_of_cons; auto|exact Hsem|auto].
  - destruct args as [|a [|o [|]]]; try discriminate. apply (exec_load st n OffsetType OffsetScale sz es a o true w v w1 G);
      [exact Hs|apply Ha, elem_of_cons; auto|intros Hne; apply Ha; cbn; unfold offset_arg; rewrite decide_False by exact Hne; rewrite !elem_of_cons; auto|exact Hsem|auto].
  - destruct args as [|x [|a [|o [|]]]]; try discriminate. apply (exec_store st n OffsetType OffsetScale sz es x a o true w v w1 G);
      [exact Hs|exact Hl|exact H0|apply Ha; cbn; rewrite !elem_of_cons; auto|apply Ha; cbn; rewrite !elem_of_cons; auto|intros Hne; apply Ha; cbn; unfold offset_arg; rewrite decide_False by exact Hne; rewrite !elem_of_cons; auto|exact Hsem|auto].
  - destruct args as [|x [|y [|t [|f [|]]]]]; try discriminate. destruct (cond_holds _ _ _ _); discriminate.
Qed.

(** ** A block *)

Definition headers (D : gmap NodeID IROp_Header) (ns : list NodeID) : list (NodeID * IROp_Header) :=
  omap (fun n => (fun h => (n, h)) <$> D !! n) ns.

(** Nothing happens after an exit. *)
Lemma left_stays G D ns w w' : g_left w = true -> valid G D ns w w' -> w' = w.
Proof.
  revert w. induction ns as [|n ns IH]; intros w Hl; [intros ->; reflexivity|]. intros (h & w1 & _ & Hs & Hv).
  assert (w1 = w) as ->; [|apply IH; assumption]. unfold node_sem in Hs.
  assert (forall tso sz a v, guest_store tso sz a v w = None) as Hst by (intros; unfold guest_store; rewrite Hl; reflexivity).
  assert (forall op sz vs v, guest_other op sz vs w = Some (v, w1) -> w1 = w) as Hot.
  { intros op sz vs v E. destruct (guest_other_cases _ _ _ _ _ _ E) as [?|[_ ?]]; congruence. }
  destruct (Op h), (Args h) as [|x [|y [|z [|t [|]]]]]; cbn [is_arith] in Hs; try discriminate;
    try (apply (Hot _ _ _ _ Hs));
    cbn [w_store w_load w_branch block_world guest_world] in Hs;
    repeat match type of Hs with
    | (if ?b then _ else _) = _ => destruct b
    | (?m ≫= _) = _ => destruct m eqn:?; cbn [mbind option_bind] in Hs
    end; try congruence; match goal with E : guest_store _ _ _ _ w = Some _ |- _ => rewrite Hst in E; discriminate end.
Qed.

Lemma run_valid G D ns : forall seen st w w', deps D seen ns -> base.NoDup ns -> (forall a, a ∈ seen -> cell st a = G a /\ ~ a ∈ ns) ->
  (forall n, n ∈ ns -> cell st n = 0) -> (forall n h, n ∈ ns -> D !! n = Some h -> runs (Op h) (Size h) = true) ->
  shows st w -> g_left w = false -> valid G D ns w w' ->
  exists st', run_code (headers D ns) st = Ok st' /\ shows st' w'.
Proof.
  induction ns as [|n ns IH]; intros seen st w w' Hd Hnd Hseen Hfresh Hruns Hs Hl Hv.
  { exists st. split; [reflexivity|]. cbn in Hv. subst. exact Hs. }
  destruct Hd as [Hd1 Hd2]. destruct Hv as (h & w1 & Hh & Hsem & Hv). apply list.NoDup_cons in Hnd as [Hn Hnd].
  destruct (exec_stepped st n h w (G n) w1 G Hs Hl) as (st1 & E & Hs1 & Hc & Ho).
  { apply Hfresh, elem_of_cons. auto. }
  { intros a Ha. apply Hseen, (Hd1 h a Hh Ha). }
  { exact Hsem. }
  { apply (Hruns n h); [apply elem_of_cons; auto|exact Hh]. }
  unfold headers. cbn [omap list_omap]. rewrite Hh. cbn [fmap option_fmap option_map run_code]. rewrite E. cbn [mbind outcome_bind].
  rewrite (sh_left _ _ Hs1). destruct (g_left w1) eqn:El.
  - exists st1. split; [reflexivity|]. rewrite (left_stays _ _ _ _ _ El Hv). exact Hs1.
  - apply (IH (n :: seen) st1 w1); auto.
    + intros a [->|Ha]%elem_of_cons; [auto|]. destruct (Hseen a Ha) as [Ea Hna]. apply not_elem_of_cons in Hna as [Hne Hna].
      rewrite Ho by exact Hne. auto.
    + intros m Hm. rewrite Ho by congruence. apply Hfresh, elem_of_cons. auto.
    + intros m hm Hm. apply Hruns, elem_of_cons. auto.
Qed.
End Run.

(** ** The interpreter *)

#[export, program] Instance runs_kept : Keeps := { kept := fun op sz => runs op sz = true }.
Solve All Obligations with (intros; first [reflexivity|assumption]).

(** Running a block and running what the propagation loop makes of it leaves
    the same guest: the same context, the same memory, and the block is left in
    the same way. *)
Theorem propagation_interpreted entry rho sigma G s w w' st c :
  wf_ir s -> nodes_ok rho sigma G (Data s) (Code s) -> pending (Data s) (Code s) ->
  @valid _ (guest_world entry) G (Data s) (Code s) w w' -> shows entry st w -> g_left w = false -> SSAData st = ∅ ->
  exists c' s' st1 st2, for_all_code propagate_step c s = Ok (c', s') /\
    run_code (headers (Data s) (Code s)) st = Ok st1 /\ run_code (headers (Data s') (Code s')) st = Ok st2 /\
    Frame st1 = Frame st2 /\ Mem st1 = Mem st2 /\ (Quit st1 || Redo st1) = (Quit st2 || Redo st2).
Proof.
  intros Hw Hn Hp Hv Hs Hl Hc. assert (forall n, cell st n = 0) as H0 by (intros n; unfold cell; rewrite Hc; reflexivity).
  destruct (propagation_loop (H := guest_world entry) w w' rho sigma G s c Hw Hn Hp Hv) as (c' & s' & G' & E & Hw' & _ & Hv' & Hk).
  assert (forall s0 G0, wf_ir s0 -> @valid _ (guest_world entry) G0 (Data s0) (Code s0) w w' ->
    (forall n h, n ∈ Code s0 -> Data s0 !! n = Some h -> runs (Op h) (Size h) = true) ->
    exists st', run_code (headers (Data s0) (Code s0)) st = Ok st' /\ shows entry st' w') as Hrun.
  { intros s0 G0 W0 V0 K0. apply (run_valid entry G0 (Data s0) (Code s0) [] st w w'); auto; try apply W0.
    intros a Ha. inversion Ha. }
  destruct (Hrun s G Hw Hv) as (st1 & E1 & S1); [intros n h Hin Hh; apply (no_kept _ _ _ _ _ (Hn n h Hin Hh))|].
  destruct (Hrun s' G' Hw' Hv' Hk) as (st2 & E2 & S2). exists c', s', st1, st2. do 3 (split; [assumption|]).
  destruct S1 as [_ F1 M1 L1], S2 as [_ F2 M2 L2]. split; [congruence|split; congruence].
Qed.

(** ** Deciding the hypotheses *)

Fixpoint depsb (D : gmap NodeID IROp_Header) (seen ns : list NodeID) : bool :=
  match ns with
  | [] => true
  | n :: ns =>
      match D !! n with Some h => forallb (fun a => bool_decide (a ∈ seen)) (value_args h) | None => true end && depsb D (n :: seen) ns
  end.

Definition node_wf (s : IRList) (n : NodeID) : Prop :=
  n <> InvalidNode /\ (n < NextNode s)%nat /\ uses s n = occ (Data s) (Code s) n /\
  match Data s !! n with
  | Some h => Forall (fun a => (a < NextNode s)%nat) (Args h) /\ Forall (fun a => ~ a ∈ Code s) (block_args h)
  | None => False
  end.
#[export] Instance node_wf_dec s n : Decision (node_wf s n).
Proof. unfold node_wf. destruct (Data s !! n); apply _. Defined.

Definition wf_check (s : IRList) : Prop :=
  base.NoDup (Code s) /\ Forall (node_wf s) (Code s) /\ depsb (Data s) [] (Code s) = true /\
  map_Forall (fun a u => u = 0 \/ (a < NextNode s)%nat) (NumUses s) /\
  match Data s !! InvalidNode with Some (mkOp OP_IRHEADER _ _ _) => True | _ => False end.
#[export] Instance wf_check_dec s : Decision (wf_check s).
Proof.
  unfold wf_check. assert (Decision (match Data s !! InvalidNode with Some (mkOp OP_IRHEADER _ _ _) => True | _ => False end)) as Hd.
  { destruct (Data s !! InvalidNode) as [[[] ? ? ?]|]; apply _. }
  apply _.
Defined.

Lemma depsb_sound D seen ns : depsb D seen ns = true -> deps D seen ns.
Proof.
  revert seen. induction ns as [|n ns IH]; intros seen; [intros _; exact I|]. cbn [depsb deps]. intros [H1 H2]%andb_true_iff. split; [|apply IH, H2].
  intros h a Hh Ha. rewrite Hh in H1. rewrite forallb_forall in H1. apply list_elem_of_In in Ha. specialize (H1 a Ha).
  apply bool_decide_eq_true in H1. exact H1.
Qed.

Lemma wf_check_sound s : wf_check s -> wf_ir s.
Proof.
  intros (Hnd & Hf & Hd & Hu & Hh). rewrite Forall_forall in Hf.
  assert (forall n, n ∈ Code s -> node_wf s n) as Hf' by (intros n Hn; apply Hf, list_elem_of_In, Hn). clear Hf.
  split.
  - exact Hnd.
  - intros n Hn. destruct (Hf' n Hn) as (_ & _ & _ & Hm). destruct (Data s !! n); [eauto|contradiction].
  - intros n Hn. destruct (Hf' n Hn) as (? & ? & _). auto.
  - intros n a Hn. destruct (Hf' n Hn) as (_ & _ & _ & Hm). unfold args_of. destruct (Data s !! n) as [h|]; [|contradiction].
    destruct Hm as [Hm _]. rewrite Forall_forall in Hm. intros Ha. apply Hm, list_elem_of_In, Ha.
  - apply depsb_sound, Hd.
  - intros n h a Hn Eh Ha. destruct (Hf' n Hn) as (_ & _ & _ & Hm). rewrite Eh in Hm. destruct Hm as [_ Hm].
    rewrite Forall_forall in Hm. apply Hm, list_elem_of_In, Ha.
  - intros a Ha. destruct (Hf' a Ha) as (_ & _ & Hu' & _). exact Hu'.
  - intros a Ha. unfold uses, use_of. destruct (NumUses s !! a) as [u|] eqn:E; [|reflexivity].
    destruct (Hu a u E) as [->|Hlt]; [reflexivity|lia].
  - destruct (Data s !! InvalidNode) as [[[] ? ? ?]|]; try contradiction. eexists. split; reflexivity.
Qed.

(** Running a block under a valuation. *)
Fixpoint valid_run {W} `{World W} (G : NodeID -> Z) (D : gmap NodeID IROp_Header) (ns : list NodeID) (w : W) : option W :=
  match ns with
  | [] => Some w
  | n :: ns =>
      h ← D !! n;
      r ← node_sem G h w;
      if r.1 =? G n then valid_run G D ns r.2 else None
  end.

Lemma valid_run_sound {W} `{World W} G D ns (w w' : W) : valid_run G D ns w = Some w' -> valid G D ns w w'.
Proof.
  revert w. induction ns as [|n ns IH]; intros w; cbn [valid_run valid]; [congruence|].
  destruct (D !! n) as [h|]; [|discriminate]. cbn [mbind option_bind]. destruct (node_sem G h w) as [[v w1]|] eqn:E; [|discriminate].
  cbn [mbind option_bind fst snd]. destruct (Z.eqb_spec v (G n)) as [->|]; [|discriminate]. intros Hv. exists h, w1. auto.
Qed.

(** The conditions on a node. *)
Definition node_check (rho : NodeID -> Z) (sigma : NodeID -> bool) (G : NodeID -> Z) (n : NodeID) (h : IROp_Header) : bool :=
  runs (Op h) (Size h) &&
  match Op h with OP_CONSTANT k => (0 <=? k) && (k <? 2 ^ 64) | _ => true end &&
  (negb (masked (Op h)) || ((1 <=? Size h) && (Size h <=? 8))) &&
  (negb (rewritable (Op h)) || forallb (fun a => (rho n <=? rho a) && (negb (sigma a) || sigma n)) (Args h)) &&
  match Op h with
  | OP_BFE w l => (rho n <=? w) && (1 <=? w) && (w <=? 64) && ((l =? 0) || forallb (fun a => w <? rho a) (Args h))
  | _ => true
  end &&
  match Op h, Args h with
  | OP_LSHL, [a; b] => negb (Size h =? 8) || (G b <? 32) || sigma n
  | OP_MUL, [a; b] => negb (Size h =? 8) || (G b <? 2 ^ 32) || sigma n
  | OP_ADD, [a; b] => negb (Size h =? 8) || negb (sigma a)
  | _, _ => true
  end.
Definition nodes_check rho sigma G (s : IRList) : bool :=
  forallb (fun n => match Data s !! n with Some h => node_check rho sigma G n h | None => true end) (Code s).

Lemma node_check_sound rho sigma G n h : node_check rho sigma G n h = true -> node_ok rho sigma G n h.
Proof.
  destruct h as [op sz es args]. unfold node_check. cbn [Op Size Args]. rewrite !andb_true_iff.
  intros (((((H0 & H1) & H2) & H3) & H4) & H5). split; cbn [Op Size Args].
  - exact H0.
  - intros k ->. rewrite andb_true_iff, Z.leb_le, Z.ltb_lt in H1. exact H1.
  - intros Hm. rewrite Hm, orb_true_iff, andb_true_iff, !Z.leb_le in H2. destruct H2; [discriminate|assumption].
  - intros a Hr Ha. rewrite Hr in H3. cbn [negb orb] in H3. rewrite forallb_forall in H3. apply list_elem_of_In in Ha.
    specialize (H3 a Ha). apply andb_true_iff in H3 as [H3 H3']. split; [lia|]. intros Hs. rewrite Hs in H3'. exact H3'.
  - intros wd l ->. rewrite !andb_true_iff in H4. lia.
  - intros wd l a -> Hl Ha. rewrite !andb_true_iff, orb_true_iff in H4. destruct H4 as [_ [H4|H4]]; [lia|].
    rewrite forallb_forall in H4. apply list_elem_of_In in Ha. specialize (H4 a Ha). lia.
  - intros a b -> -> -> Hb. rewrite Z.eqb_refl in H5. cbn [negb orb] in H5. apply orb_true_iff in H5 as [H5|H5]; [lia|exact H5].
  - intros a b -> -> -> Hb. rewrite Z.eqb_refl in H5. cbn [negb orb] in H5. apply orb_true_iff in H5 as [H5|H5]; [|exact H5].
    apply Z.ltb_lt in H5. lia.
  - intros a b -> -> ->. rewrite Z.eqb_refl in H5. cbn [negb orb] in H5. destruct (sigma a); [discriminate|reflexivity].
Qed.

Lemma nodes_check_sound rho sigma G s : nodes_check rho sigma G s = true -> nodes_ok rho sigma G (Data s) (Code s).
Proof.
  unfold nodes_check. rewrite forallb_forall. intros Hc x h Hx Hh. apply list_elem_of_In in Hx. specialize (Hc x Hx).
  rewrite Hh in Hc. apply node_check_sound, Hc.
Qed.

Definition pending_check (s : IRList) : bool :=
  forallb (fun n => match Data s !! n with
    | Some h => match Op h, Args h with
        | OP_LOADMEM _ _, [a; o] | OP_STOREMEM _ _, [_; a; o] => bool_decide (o = InvalidNode)
        | _, _ => true
        end
    | None => true end) (Code s).
Lemma pending_check_sound s : pending_check s = true -> pending (Data s) (Code s).
Proof.
  unfold pending_check. rewrite forallb_forall. intros Hc x h Hx Hh. apply list_elem_of_In in Hx. specialize (Hc x Hx).
  rewrite Hh in Hc. unfold no_offset. destruct (Op h), (Args h) as [|a [|b [|c [|]]]]; auto; left; apply bool_decide_eq_true in Hc; exact Hc.
Qed.

(** ** A block *)

(** The uses of a block, counted. *)
Definition make_block (code : list (NodeID * IROp_Header)) (next : NodeID) : IRList :=
  let D := <[InvalidNode := mkOp OP_IRHEADER 0 0 []]> (list_to_map code) in
  let uses := fold_right (fun p u => foldl (fun u a => AddUse a u) u (Args p.2)) ∅ code in
  mkIR D uses code.*1 InvalidNode next ∅.

Definition values (l : list (NodeID * Z)) (n : NodeID) : Z := default 0 ((list_to_map l : gmap NodeID Z) !! n).

(** [*(rax * 8 + 0x1000)], widened, minus twice nothing, is stored to [rcx]. *)
Definition sample_block : IRList := make_block
  [(2%nat, mkOp OP_BEGINBLOCK 0 0 [1%nat]); (3%nat, mkOp (OP_LOADCONTEXT 8) 8 8 []); (4%nat, mkOp (OP_CONSTANT 8) 8 8 []);
   (5%nat, mkOp OP_MUL 8 8 [3%nat; 4%nat]); (6%nat, mkOp (OP_CONSTANT 0x1000) 8 8 []); (7%nat, mkOp OP_ADD 8 8 [5%nat; 6%nat]);
   (8%nat, mkOp (OP_LOADMEM MEM_OFFSET_SXTX 1) 4 4 [7%nat; 0%nat]); (9%nat, mkOp (OP_BFE 32 0) 8 8 [8%nat]);
   (10%nat, mkOp OP_XOR 8 8 [3%nat; 3%nat]); (11%nat, mkOp OP_ADD 8 8 [6%nat; 4%nat]); (12%nat, mkOp OP_OR 8 8 [9%nat; 10%nat]);
   (13%nat, mkOp (OP_STORECONTEXT 16) 8 8 [12%nat]); (14%nat, mkOp OP_EXITFUNCTION 8 8 [11%nat]); (15%nat, mkOp OP_ENDBLOCK 0 0 [1%nat])] 16.
Definition sample_guest : Guest :=
  mkGuest (store 8 (store 8 (store 8 ∅ 0 0) 8 2) 16 7) (store 4 ∅ 0x1010 0xDEADBEEF) false.
Definition sample_values : NodeID -> Z := values
  [(3%nat, 2); (4%nat, 8); (5%nat, 16); (6%nat, 0x1000); (7%nat, 0x1010); (8%nat, 0xDEADBEEF); (9%nat, 0xDEADBEEF); (10%nat, 0);
   (11%nat, 0x1008); (12%nat, 0xDEADBEEF)].
Definition sample_labels : NodeID -> Z := fun _ => 32.
Definition sample_result : IRList := match for_all_code propagate_step false sample_block with Ok (_, s) => s | _ => sample_block end.
Definition state_of (w : Guest) : IROpData := mkData 0 ∅ (g_frame w) (g_mem w) (g_left w) false 0.
(** The guest after the block: the loaded word in [rcx], the exit in [rip]. *)
Definition sample_after : Guest :=
  mkGuest (store 8 (store 8 (g_frame sample_guest) 16 0xDEADBEEF) 0 0x1008) (g_mem sample_guest) true.

Lemma sample_block_wf : wf_ir sample_block.
Proof. apply wf_check_sound, (bool_decide_unpack _). vm_compute. exact I. Qed.
Lemma sample_nodes : nodes_ok sample_labels (fun _ => false) sample_values (Data sample_block) (Code sample_block).
Proof. apply nodes_check_sound. vm_compute. reflexivity. Qed.
Lemma sample_pending : pending (Data sample_block) (Code sample_block).
Proof. apply pending_check_sound. vm_compute. reflexivity. Qed.
Lemma sample_valid : @valid _ (guest_world 0) sample_values (Data sample_block) (Code sample_block) sample_guest sample_after.
Proof. apply valid_run_sound. vm_compute. reflexivity. Qed.

Lemma propagation_interpreted_witness :
  exists c' s' st1 st2, for_all_code propagate_step false sample_block = Ok (c', s') /\
    run_code (headers (Data sample_block) (Code sample_block)) (state_of sample_guest) = Ok st1 /\
    run_code (headers (Data s') (Code s')) (state_of sample_guest) = Ok st2 /\
    Frame st1 = Frame st2 /\ Mem st1 = Mem st2 /\ (Quit st1 || Redo st1) = (Quit st2 || Redo st2).
Proof.
  apply (propagation_interpreted 0 sample_labels (fun _ => false) sample_values sample_block sample_guest sample_after).
  - exact sample_block_wf.
  - exact sample_nodes.
  - exact sample_pending.
  - exact sample_valid.
  - split; reflexivity.
  - reflexivity.
  - reflexivity.
Defined.


(** After propagation the product, the shift and the sum of the address are dead,
    and with them the constants that only they use. *)
Lemma DeadCodeElimination_cleans_witness :
  exists s', DeadCodeElimination sample_result = Ok (true, s') /\ Code s' = [2; 3; 6; 8; 18; 11; 12; 13; 14; 15]%nat /\ wf_ir s'.
Proof.
  destruct (DeadCodeElimination_cleans sample_result) as (c & s' & E & Hw & _).
  - apply wf_check_sound, (bool_decide_unpack _). vm_compute. exact I.
  - vm_compute. discriminate.
  - assert (Code s' = [2; 3; 6; 8; 18; 11; 12; 13; 14; 15]%nat /\ c = true) as [HC ->].
    { apply (f_equal (fun o => match o with Ok (c, s) => (Code s, c) | _ => ([], false) end)) in E.
      vm_compute in E. injection E as HC Hc. auto. }
    exists s'. auto.
Defined.

(** Two equal constants. *)
Definition pool_block : IRList := make_block
  [(2%nat, mkOp OP_BEGINBLOCK 0 0 [1%nat]); (3%nat, mkOp (OP_CONSTANT 5) 8 8 []); (4%nat, mkOp (OP_CONSTANT 5) 8 8 []);
   (5%nat, mkOp OP_ADD 8 8 [3%nat; 4%nat]); (6%nat, mkOp (OP_STORECONTEXT 16) 8 8 [5%nat]); (7%nat, mkOp OP_ENDBLOCK 0 0 [1%nat])] 8.
Definition pool_values : NodeID -> Z := values [(3%nat, 5); (4%nat, 5); (5%nat, 10)].
Definition pool_after : Guest := mkGuest (store 8 (g_frame sample_guest) 16 10) (g_mem sample_guest) false.
Lemma pool_wf : wf_ir pool_block.
Proof. apply wf_check_sound, (bool_decide_unpack _). vm_compute. exact I. Qed.
Lemma pool_valid : @valid _ (guest_world 0) pool_values (Data pool_block) (Code pool_block) sample_guest pool_after.
Proof. apply valid_run_sound. vm_compute. reflexivity. Qed.

Lemma HandleConstantPools_pools_witness :
  exists c s', HandleConstantPools pool_block = Ok (c, s') /\ wf_ir s' /\
    @valid _ (guest_world 0) pool_values (Data s') (Code s') sample_guest pool_after /\ pooled (Data s') (Code s').
Proof.
  apply (@HandleConstantPools_pools _ (guest_world 0)).
  - exact pool_wf.
  - intros pre n post E Ho. destruct pre as [|? [|? [|? [|? [|? [|? pre]]]]]]; cbn in E; injection E; intros; subst; try discriminate Ho; auto.
    destruct pre; discriminate.
  - exact pool_valid.
Defined.

Lemma ConstantInlining_preserves_witness :
  exists c s' G', ConstantInlining false sample_block = Ok (c, s') /\ wf_ir s' /\ agree 16 sample_values G' /\
    @valid _ (guest_world 0) G' (Data s') (Code s') sample_guest sample_after.
Proof. apply (@ConstantInlining_preserves _ (guest_world 0)); [exact sample_block_wf|exact sample_valid]. Defined.

(** ** What the pass gets wrong *)

(** Runs a block before and after propagation, and shows the value it stores. *)
Definition stores (s : IRList) : option Z :=
  match run_code (headers (Data s) (Code s)) (state_of sample_guest) with Ok st => load 8 (Frame st) 16 | _ => None end.
Definition propagated (s : IRList) : option IRList :=
  match for_all_code propagate_step false s with Ok (_, s') => Some s' | _ => None end.

(** A block that stores the value of one node. *)
Definition storing (code : list (NodeID * IROp_Header)) (n next : NodeID) : IRList :=
  make_block ((2%nat, mkOp OP_BEGINBLOCK 0 0 [1%nat]) :: code ++
    [(next, mkOp (OP_STORECONTEXT 16) 8 8 [n]); (S next, mkOp OP_ENDBLOCK 0 0 [1%nat])]) (S (S next)).

(** [(x & 0xFFFF) >> 8 & 0xFFFF] becomes [x & 0xFFFF]: [IsBfeAlreadyDone] compares
    the widths of two fields and not their positions. *)
Definition bfe_block : IRList := storing
  [(3%nat, mkOp (OP_CONSTANT 0x1234) 8 8 []); (4%nat, mkOp OP_NOT 8 8 [3%nat]);
   (5%nat, mkOp (OP_BFE 16 0) 8 8 [4%nat]); (6%nat, mkOp (OP_BFE 16 8) 8 8 [5%nat])] 6 7.
Theorem IsBfeAlreadyDone_drops_lsb :
  wf_ir bfe_block /\ stores bfe_block = Some 0xED /\ (propagated bfe_block ≫= stores) = Some 0xEDCB.
Proof. split; [apply wf_check_sound, (bool_decide_unpack _); vm_compute; exact I|split; vm_compute; reflexivity]. Qed.

(** A 32-bit shift of a constant by 33, which x86 and the interpreter take modulo
    32, folds to zero. *)
Definition shift_block : IRList := storing
  [(3%nat, mkOp (OP_CONSTANT 1) 8 8 []); (4%nat, mkOp (OP_CONSTANT 33) 8 8 []); (5%nat, mkOp OP_LSHL 4 4 [3%nat; 4%nat])] 5 6.
Theorem LSHL_folds_unmasked :
  wf_ir shift_block /\ stores shift_block = Some 2 /\ (propagated shift_block ≫= stores) = Some 0.
Proof. split; [apply wf_check_sound, (bool_decide_unpack _); vm_compute; exact I|split; vm_compute; reflexivity]. Qed.

(** A select of one and zero masked by one is left as it is: the second constant
    is not looked at when the first operand is not a constant. *)
Definition and_block : IRList := storing
  [(3%nat, mkOp (OP_CONSTANT 1) 8 8 []); (4%nat, mkOp (OP_CONSTANT 0) 8 8 []); (5%nat, mkOp (OP_LOADCONTEXT 8) 8 8 []);
   (6%nat, mkOp (OP_SELECT COND_EQ 8) 8 8 [5%nat; 4%nat; 3%nat; 4%nat]); (7%nat, mkOp OP_AND 8 8 [6%nat; 3%nat])] 7 8.
Theorem AND_one_not_removed :
  wf_ir and_block /\ (propagated and_block ≫= (fun s => op_of (Data s) 7%nat)) = Some OP_AND /\
  (Code <$> propagated and_block) = Some (Code and_block).
Proof. split; [apply wf_check_sound, (bool_decide_unpack _); vm_compute; exact I|split; vm_compute; reflexivity]. Qed.
