(* ===== verification/Alloc32.v ===== *)
(** * The allocator of a 32-bit guest's address space

    [Source/Tests/LinuxSyscalls/LinuxAllocator.cpp], class [MemAllocator32Bit]: a
    bitset of the four-kilobyte pages of the lower four gigabytes, the scans for a
    free range, and the memory system calls on top of the host's. The host is a
    parameter. *)
From Stdlib Require Import ZArith Lia Bool.
From stdpp Require Import base gmap list numbers option fin_sets.
From S2P Require Import Prelude Pages.
#[local] Open Scope Z_scope.

(** ** The host's system calls *)

Inductive sysret := Ret (v : Z) | Err (e : Z).

(** [mmap], [munmap], [mremap], [shmat], [shmdt] and [shmctl(IPC_STAT)], which
    returns the segment's size. *)
Class HostMemory (K : Type) := {
  host_mmap : Z -> Z -> Z -> Z -> Z -> Z -> K -> sysret * K;
  host_munmap : Z -> Z -> K -> sysret * K;
  host_mremap : Z -> Z -> Z -> Z -> Z -> K -> sysret * K;
  host_shmat : Z -> Z -> Z -> K -> sysret * K;
  host_shmdt : Z -> K -> sysret * K;
  host_shm_stat : Z -> K -> sysret * K
}.

(** ** State *)

(** Keys are page numbers. [MappedPages] is a [std::bitset<0x100000>]. *)
Record MemAllocator32Bit := mkAllocator {
  MappedPages : gset Z;
  PageToShm : gmap Z Z;
  LastScanLocation : Z;
  LastKeyLocation : Z;
  LastKeyLocation32Bit : Z
}.
Definition set_MappedPages (m : gset Z) (a : MemAllocator32Bit) : MemAllocator32Bit :=
  mkAllocator m (PageToShm a) (LastScanLocation a) (LastKeyLocation a) (LastKeyLocation32Bit a).
Definition set_PageToShm (m : gmap Z Z) (a : MemAllocator32Bit) : MemAllocator32Bit :=
  mkAllocator (MappedPages a) m (LastScanLocation a) (LastKeyLocation a) (LastKeyLocation32Bit a).
Definition set_LastScanLocation (l : Z) (a : MemAllocator32Bit) : MemAllocator32Bit :=
  mkAllocator (MappedPages a) (PageToShm a) l (LastKeyLocation a) (LastKeyLocation32Bit a).

Definition BASE_KEY : Z := 16.
Definition TOP_KEY : Z := Z.shiftr 0xFFFFF000 FEX_PAGE_SHIFT.
Definition TOP_KEY32BIT : Z := Z.shiftr 0x7FFFF000 FEX_PAGE_SHIFT.
Definition SearchDown : bool := true.
Definition X86_64_MAP_32BIT : Z := 0x40.
Definition FEX_MAP_FIXED_NOREPLACE : Z := 0x100000.
Definition BITSET_SIZE : Z := 0x100000.

(** The constructor. *)
Definition new_MemAllocator32Bit : MemAllocator32Bit :=
  mkAllocator ({[TOP_KEY]} ∪ pages 0 16) ∅
    (if SearchDown then TOP_KEY else BASE_KEY) (if SearchDown then TOP_KEY else BASE_KEY)
    (if SearchDown then TOP_KEY32BIT else 0).

(** ** The bitset *)

(** [test], [set] and [reset] throw when the position is out of range, which ends
    the program: [Assert]. The subscript operator does not look. *)
Definition bitset_test (m : gset Z) (p : Z) : outcome bool :=
  if (0 <=? p) && (p <? BITSET_SIZE) then Ok (bool_decide (p ∈ m)) else Assert.
Definition bitset_set (m : gset Z) (p : Z) : outcome (gset Z) :=
  if (0 <=? p) && (p <? BITSET_SIZE) then Ok ({[p]} ∪ m) else Assert.
Definition bitset_reset (m : gset Z) (p : Z) : outcome (gset Z) :=
  if (0 <=? p) && (p <? BITSET_SIZE) then Ok (m ∖ {[p]}) else Assert.
Definition bitset_at (m : gset Z) (p : Z) : outcome bool :=
  if (0 <=? p) && (p <? BITSET_SIZE) then Ok (bool_decide (p ∈ m)) else Undef.

(** ** The scans *)

(** The inner loops: whether all pages from [Offset] on are free, and the offset
    where the loop stopped. *)
Fixpoint scan_up (m : gset Z) (Start Offset : Z) (n : nat) : outcome (bool * Z) :=
  match n with
  | O => Ok (true, Offset)
  | S n =>
      b ← bitset_test m (uint 64 (Start + Offset));
      if (b : bool) then Ok (false, Offset) else scan_up m Start (Offset + 1) n
  end.
Fixpoint scan_down (m : gset Z) (Start Offset : Z) (n : nat) : outcome (bool * Z) :=
  match n with
  | O => Ok (true, Offset)
  | S n =>
      b ← bitset_test m (uint 64 (Start - Offset));
      if (b : bool) then Ok (false, Offset) else scan_down m Start (Offset + 1) n
  end.

(** The outer loops, with fuel: [Start] moves by at least one page a round. *)
Fixpoint find_up (fuel : nat) (m : gset Z) (Start Pages : Z) : outcome Z :=
  match fuel with
  | O => Undef
  | S fuel =>
      if Start =? TOP_KEY then Ok 0
      else if TOP_KEY <? uint 64 (Start + Pages) then Ok 0
      else
        r ← scan_up m Start 0 (Z.to_nat Pages);
        let '(Free, Offset) := r in
        if (Free : bool) then Ok Start
        else find_up fuel m (uint 64 (Start + (Offset + 1))) Pages
  end.
Fixpoint find_down (fuel : nat) (m : gset Z) (Start Pages : Z) : outcome Z :=
  match fuel with
  | O => Undef
  | S fuel =>
      if (BASE_KEY <=? Start) && (Start <=? TOP_KEY) then
        r ← scan_down m Start 0 (Z.to_nat Pages);
        let '(Free, Offset) := r in
        if (Free : bool) then Ok (uint 64 (Start - Offset))
        else find_down fuel m (uint 64 (Start - (Offset + 1))) Pages
      else Ok 0
  end.
Definition scan_fuel : nat := Z.to_nat 0x100001.
Definition FindPageRange (a : MemAllocator32Bit) (Start Pages : Z) : outcome Z :=
  find_up scan_fuel (MappedPages a) Start Pages.
Definition FindPageRange_TopDown (a : MemAllocator32Bit) (Start Pages : Z) : outcome Z :=
  find_down scan_fuel (MappedPages a) Start Pages.
Definition FindPageRangePtr : MemAllocator32Bit -> Z -> Z -> outcome Z :=
  if SearchDown then FindPageRange_TopDown else FindPageRange.

(** ** Calls *)

Section Calls.
Context {K : Type} `{HostMemory K}.

(** The allocator, the host and the thread's [errno]. *)
Record Process := mkProcess { Allocator : MemAllocator32Bit; Host : K; errno : Z }.
Abbreviation A := (M Process).

(** A host system call through libc: [MAP_FAILED] and [errno] on failure. *)
Definition syscall (call : K -> sysret * K) : A Z := fun p =>
match call (Host p) with
| (Ret v, k) => Ok (v, mkProcess (Allocator p) k (errno p))
| (Err e, k) => Ok (MAP_FAILED, mkProcess (Allocator p) k e)
end.
Definition get_alloc : A MemAllocator32Bit := p ← get_state; mret (Allocator p).
Definition get_errno : A Z := p ← get_state; mret (errno p).
Definition set_alloc (a : MemAllocator32Bit) : A unit := modify (fun p => mkProcess a (Host p) (errno p)).
(** [reinterpret_cast<void*>(-e)] *)
Definition error (e : Z) : Z := uint 64 (- e).
(** [HasSyscallError] *)
Definition HasSyscallError (Result : Z) : bool := 0xFFFFFFFFFFFF0001 <=? Result.
Definition PageLength (length : Z) : Z := Z.shiftr (AlignUp length FEX_PAGE_SIZE) FEX_PAGE_SHIFT.
Definition page_address (p : Z) : Z := uint 64 (Z.shiftl p FEX_PAGE_SHIFT).

Fixpoint set_loop (PageAddr : Z) (i : Z) (n : nat) : A unit :=
match n with
| O => mret tt
| S n =>
a ← get_alloc;
m ← lift (bitset_set (MappedPages a) (uint 64 (PageAddr + i)));
_ ← set_alloc (set_MappedPages m a);
set_loop PageAddr (i + 1) n
end.
Fixpoint reset_loop (PageAddr : Z) (i : Z) (n : nat) : A unit :=
match n with
| O => mret tt
| S n =>
a ← get_alloc;
m ← lift (bitset_reset (MappedPages a) (uint 64 (PageAddr + i)));
_ ← set_alloc (set_MappedPages m a);
reset_loop PageAddr (i + 1) n
end.
Definition SetUsedPages (PageAddr PagesLength : Z) : A unit := set_loop PageAddr 0 (Z.to_nat PagesLength).
Definition SetFreePages (PageAddr PagesLength : Z) : A unit := reset_loop PageAddr 0 (Z.to_nat PagesLength).

(** *** [mmap] *)

Definition AddressAboveTop (MappedPtr : Z) : bool := page_address TOP_KEY <=? MappedPtr.

(** The two scans of a round: the second one is from the start. The result is the
page found and the [BottomPage] it was found from. *)
Definition find_range (BottomPage Again PagesLength : Z) : A (Z * Z) :=
a ← get_alloc;
LowerPage ← lift (FindPageRangePtr a BottomPage PagesLength);
if LowerPage =? 0 then
LowerPage ← lift (FindPageRangePtr a Again PagesLength);
mret (LowerPage, Again)
else mret (LowerPage, BottomPage).

Definition claim (LowerPage UpperPage PagesLength : Z) : A unit :=
a ← get_alloc;
_ ← set_alloc (set_LastScanLocation (if SearchDown then LowerPage else UpperPage) a);
SetUsedPages LowerPage PagesLength.

(** One round from the label [restart]: the result, or the next [BottomPage] and
[Wrapped]. *)
Definition mmap_round (Map32Bit : bool) (length PagesLength prot flags fd offset : Z) (at_ : Z * bool)
: A (Z + Z * bool) :=
let '(BottomPage, Wrapped) := at_ in
a ← get_alloc;
r ← find_range BottomPage (if Map32Bit then LastKeyLocation32Bit a else LastKeyLocation a) PagesLength;
let '(LowerPage, BottomPage) := r in
let UpperPage := uint 64 (LowerPage + PagesLength) in
if LowerPage =? 0 then mret (inl (error ENOMEM))
else
MappedPtr ← syscall (host_mmap (page_address LowerPage) length prot (Z.lor flags FEX_MAP_FIXED_NOREPLACE) fd offset);
e ← get_errno;
if (MappedPtr =? MAP_FAILED) && negb (e =? EEXIST) then mret (inl (error e))
else if (MappedPtr =? MAP_FAILED) || AddressAboveTop MappedPtr then
_ ← (if negb (MappedPtr =? MAP_FAILED) && AddressAboveTop MappedPtr
     then _ ← syscall (host_munmap MappedPtr length); mret tt else mret tt);
if UpperPage =? TOP_KEY then mret (inr (BASE_KEY, true))
else if Wrapped && (LastScanLocation a <=? LowerPage) then e ← get_errno; mret (inl (error e))
else mret (inr (uint 64 (if SearchDown then BottomPage - 1 else BottomPage + 1), Wrapped))
else
_ ← claim LowerPage UpperPage PagesLength;
mret (inl MappedPtr).

(** Rounds until there is a result; with no fuel left, the place of the next one. *)
Fixpoint rounds {B} (round : Z * bool -> A (B + Z * bool)) (fuel : nat) (at_ : Z * bool) : A (B + Z * bool) :=
match fuel with
| O => mret (inr at_)
| S fuel =>
r ← round at_;
match r with
| inl v => mret (inl v)
| inr at_ => rounds round fuel at_
end
end.
Definition until_result {B} (round : Z * bool -> A (B + Z * bool)) (fuel : nat) (at_ : Z * bool) : A B :=
r ← rounds round fuel at_;
match r with inl v => mret v | inr _ => fun _ => Undef end.

Definition first_bottom (Map32Bit : bool) (a : MemAllocator32Bit) : Z :=
if Map32Bit && (LastKeyLocation32Bit a <=? LastScanLocation a) then LastKeyLocation32Bit a else LastScanLocation a.
Definition AllocateNoHint (fuel : nat) (Map32Bit : bool) (length PagesLength prot flags fd offset : Z) : A Z :=
a ← get_alloc;
until_result (mmap_round Map32Bit length PagesLength prot flags fd offset) fuel (first_bottom Map32Bit a, false).

Definition mmap (fuel : nat) (Addr length prot flags fd offset : Z) : A Z :=
let PagesLength := PageLength length in
let PageAddr := Z.shiftr Addr FEX_PAGE_SHIFT in
let Fixed := has flags MAP_FIXED || has flags FEX_MAP_FIXED_NOREPLACE in
if negb (page_offset_bits Addr =? 0) then mret (error EINVAL)
else if negb (fd =? -1) && negb (page_offset_bits offset =? 0) then mret (error EINVAL)
else if 0xFFFFFFFF <? uint 64 (Addr + length) then mret (error EOVERFLOW)
else if Fixed && (PageAddr <? 16) then mret (error EINVAL)
else
let '(Addr, PageAddr) := if Fixed then (Addr, PageAddr) else (0, 0) in
let Map32Bit := has flags X86_64_MAP_32BIT in
let flags := Z.land flags (Z.lnot X86_64_MAP_32BIT) in
if Addr =? 0 then AllocateNoHint fuel Map32Bit length PagesLength prot flags fd offset
else
MappedPtr ← syscall (host_mmap (page_address PageAddr) (page_address PagesLength) prot flags fd offset);
if AddressAboveTop MappedPtr && has flags FEX_MAP_FIXED_NOREPLACE then
  _ ← syscall (host_munmap MappedPtr length);
  mret (error EEXIST)
else if negb (MappedPtr =? MAP_FAILED) then
  _ ← SetUsedPages PageAddr PagesLength;
  mret MappedPtr
else e ← get_errno; mret (error e).

(** *** [munmap]: the result is an [int] *)

Fixpoint munmap_loop (PageAddr : Z) (n : nat) : A Z :=
match n with
| O => mret 0
| S n =>
Result ← syscall (host_munmap (page_address PageAddr) FEX_PAGE_SIZE);
if negb (Result =? 0) then e ← get_errno; mret (- e)
else
  a ← get_alloc;
  used ← lift (bitset_test (MappedPages a) PageAddr);
  _ ← (if (used : bool) then
         m ← lift (bitset_reset (MappedPages a) PageAddr); set_alloc (set_MappedPages m a)
       else mret tt);
  munmap_loop (PageAddr + 1) n
end.
Definition munmap (Addr length : Z) : A Z :=
let PagesLength := PageLength length in
let PageAddr := Z.shiftr Addr FEX_PAGE_SHIFT in
if negb (page_offset_bits Addr =? 0) then mret (- EINVAL)
else if negb (page_offset_bits length =? 0) then mret (- EINVAL)
else if 0xFFFFFFFF <? uint 64 (Addr + length) then mret (- EOVERFLOW)
else if PageAddr <? 16 then mret 0
else munmap_loop PageAddr (Z.to_nat PagesLength).

(** *** [mremap] *)

(** Whether the pages behind the old range are free. *)
Fixpoint can_extend (m : gset Z) (OldPageAddr i : Z) (n : nat) : outcome bool :=
match n with
| O => Ok true
| S n =>
b ← bitset_at m (uint 64 (OldPageAddr + i));
if (b : bool) then Ok false else can_extend m OldPageAddr (i + 1) n
end.

(** The second half: a new range is allocated and the old one moved onto it. *)
Definition mremap_move (fuel : nat) (old_address old_size new_size flags : Z) : A Z :=
MappedPtr ← mmap fuel 0 new_size PROT_NONE (Z.lor MAP_PRIVATE MAP_ANONYMOUS) (-1) 0;
if HasSyscallError MappedPtr then mret MappedPtr
else
MappedPtr ← syscall (host_mremap old_address old_size new_size (Z.lor flags (Z.lor MREMAP_FIXED MREMAP_MAYMOVE)) MappedPtr);
if negb (MappedPtr =? MAP_FAILED) then
_ ← (if negb (has flags MREMAP_DONTUNMAP) && negb (MappedPtr =? old_address)
     then SetFreePages (Z.shiftr old_address FEX_PAGE_SHIFT) (PageLength old_size) else mret tt);
_ ← SetUsedPages (Z.shiftr MappedPtr FEX_PAGE_SHIFT) (PageLength new_size);
mret MappedPtr
else e ← get_errno; mret (error e).

(** The first half: [inl] is a return, [inr] goes on with the second half. *)
Definition mremap_in_place (old_address old_size new_size flags new_address : Z) : A (Z + unit) :=
let OldPagesLength := PageLength old_size in
let NewPagesLength := PageLength new_size in
let OldPageAddr := Z.shiftr old_address FEX_PAGE_SHIFT in
if has flags MREMAP_FIXED then
MappedPtr ← syscall (host_mremap old_address old_size new_size flags new_address);
if negb (MappedPtr =? MAP_FAILED) then
_ ← (if negb (has flags MREMAP_DONTUNMAP) then SetFreePages OldPageAddr OldPagesLength else mret tt);
_ ← SetUsedPages (Z.shiftr MappedPtr FEX_PAGE_SHIFT) NewPagesLength;
mret (inr tt)
else e ← get_errno; mret (inl (error e))
else if NewPagesLength <? OldPagesLength then
MappedPtr ← syscall (host_mremap old_address old_size new_size (Z.land flags (Z.lnot MREMAP_MAYMOVE)) 0);
if negb (MappedPtr =? MAP_FAILED) then
_ ← SetFreePages (Z.shiftr MappedPtr FEX_PAGE_SHIFT + NewPagesLength) (OldPagesLength - NewPagesLength);
mret (inl MappedPtr)
else e ← get_errno; mret (inl (error e))
else
a ← get_alloc;
CanExtend ← lift (can_extend (MappedPages a) OldPageAddr OldPagesLength (Z.to_nat (NewPagesLength - OldPagesLength)));
if (CanExtend : bool) then
MappedPtr ← syscall (host_mremap old_address old_size new_size (Z.land flags (Z.lnot MREMAP_MAYMOVE)) 0);
if negb (MappedPtr =? MAP_FAILED) then
  _ ← SetUsedPages (Z.shiftr MappedPtr FEX_PAGE_SHIFT) NewPagesLength;
  mret (inl MappedPtr)
else if negb (has flags MREMAP_MAYMOVE) then e ← get_errno; mret (inl (error e))
else mret (inr tt)
else mret (inr tt).

Definition mremap (fuel : nat) (old_address old_size new_size flags new_address : Z) : A Z :=
r ← mremap_in_place old_address old_size new_size flags new_address;
match r with
| inl v => mret v
| inr _ => mremap_move fuel old_address old_size new_size flags
end.

(** *** [shmat] and [shmdt]: the result and what is written to [*ResultAddress] *)

Definition record_shm (Page shmid : Z) : A unit :=
a ← get_alloc; set_alloc (set_PageToShm (<[uint 32 Page := shmid]> (PageToShm a)) a).

Definition shmat_at (shmid shmaddr shmflg : Z) : A (Z * option Z) :=
Result ← syscall (host_shmat shmid shmaddr shmflg);
if negb (Result =? MAP_FAILED) then
let SmallRet := uint 32 (Z.shiftr Result 32) in
_ ← check ((SmallRet =? 0) || (SmallRet =? 0xFFFFFFFF));
let NewPageAddr := Z.shiftr Result FEX_PAGE_SHIFT in
_ ← record_shm NewPageAddr shmid;
shm_segsz ← syscall (host_shm_stat shmid);
_ ← (if negb (shm_segsz =? MAP_FAILED) then SetUsedPages NewPageAddr (Z.shiftr shm_segsz FEX_PAGE_SHIFT) else mret tt);
mret (0, Some (uint 32 Result))
else e ← get_errno; mret (error e, None).

(** One round from the label [restart] of [shmat]. *)
Definition shmat_round (shmid shmflg PagesLength : Z) (at_ : Z * bool) : A (Z * option Z + Z * bool) :=
let '(BottomPage, Wrapped) := at_ in
a ← get_alloc;
r ← find_range BottomPage (LastKeyLocation a) PagesLength;
let '(LowerPage, BottomPage) := r in
let UpperPage := uint 64 (LowerPage + PagesLength) in
if LowerPage =? 0 then mret (inl (error ENOMEM, None))
else
MappedPtr ← syscall (host_shmat shmid (page_address LowerPage) shmflg);
if MappedPtr =? MAP_FAILED then
if UpperPage =? TOP_KEY then mret (inr (LastKeyLocation a, true))
else if Wrapped && (LastScanLocation a <=? LowerPage) then e ← get_errno; mret (inl (error e, None))
else mret (inr (uint 64 (BottomPage + PagesLength), Wrapped))
else
_ ← claim LowerPage UpperPage PagesLength;
_ ← record_shm LowerPage shmid;
mret (inl (0, Some (uint 32 MappedPtr))).

Definition shmat (fuel : nat) (shmid shmaddr shmflg : Z) : A (Z * option Z) :=
if negb (shmaddr =? 0) then shmat_at shmid shmaddr shmflg
else
shm_segsz ← syscall (host_shm_stat shmid);
if negb (shm_segsz =? MAP_FAILED) then
a ← get_alloc;
until_result (shmat_round shmid shmflg (PageLength shm_segsz)) fuel (LastScanLocation a, false)
else mret (error EINVAL, None).

Definition shmdt (shmaddr : Z) : A Z :=
let AddrPage := uint 32 (Z.shiftr shmaddr FEX_PAGE_SHIFT) in
a ← get_alloc;
match PageToShm a !! AddrPage with
| None => mret (error EINVAL)
| Some _ =>
Result ← syscall (host_shmdt shmaddr);
a ← get_alloc;
_ ← set_alloc (set_PageToShm (delete AddrPage (PageToShm a)) a);
if Result =? MAP_FAILED then e ← get_errno; mret (error e) else mret Result
end.
End Calls.

(** ** [MemAllocatorPassThrough]: the calls of a 64-bit guest go to the host *)

Module PassThrough.
Section Calls.
Context {K : Type} `{HostMemory K}.

Definition or_errno (call : K -> sysret * K) : M Process Z :=
Result ← syscall call;
if Result =? MAP_FAILED then e ← get_errno; mret (error e) else mret Result.
Definition mmap (addr length prot flags fd offset : Z) : M Process Z := or_errno (host_mmap addr length prot flags fd offset).
(** The result is an [int]. *)
Definition munmap (addr length : Z) : M Process Z := Result ← or_errno (host_munmap addr length); mret (sint 32 Result).
Definition mremap (old_address old_size new_size flags new_address : Z) : M Process Z :=
or_errno (host_mremap old_address old_size new_size flags new_address).
Definition shmat (shmid shmaddr shmflg : Z) : M Process (Z * option Z) :=
Result ← syscall (host_shmat shmid shmaddr shmflg);
if negb (Result =? MAP_FAILED) then mret (0, Some (uint 32 Result))
else e ← get_errno; mret (error e, None).
Definition shmdt (shmaddr : Z) : M Process Z := or_errno (host_shmdt shmaddr).
End Calls.
End PassThrough.
