(* ===== verification/Alloc32Logic.v ===== *)
(** * Lemmas on the 32-bit allocator

    The scans as statements on free runs of pages, the updates of the bitset as
    set operations, and one round of an allocation. *)
From Stdlib Require Import ZArith Lia Bool.
From stdpp Require Import base gmap list numbers option fin_sets.
From S2P Require Import Prelude Pages Alloc32.
#[local] Open Scope Z_scope.

Lemma TOP_KEY_eq : TOP_KEY = 0xFFFFF.
Proof. reflexivity. Qed.
Lemma TOP_KEY32BIT_eq : TOP_KEY32BIT = 0x7FFFF.
Proof. reflexivity. Qed.
Ltac keys := rewrite ?TOP_KEY_eq, ?TOP_KEY32BIT_eq in *; unfold BASE_KEY, BITSET_SIZE, FEX_PAGE_SIZE, FEX_PAGE_SHIFT in *.

(** ** Runs of free pages *)

(** The [n] pages above [r] are free. *)
Definition free_above (m : gset Z) (r n : Z) : Prop := forall p, r < p <= r + n -> ~ p ∈ m.
(** The first sixteen pages are taken. *)
Definition base_taken (m : gset Z) : Prop := forall p, 0 <= p < BASE_KEY -> p ∈ m.

Lemma bitset_test_ok m p : 0 <= p < BITSET_SIZE -> bitset_test m p = Ok (bool_decide (p ∈ m)).
Proof. intros Hp. unfold bitset_test. destruct (Z.leb_spec 0 p); [|lia]. destruct (Z.ltb_spec p BITSET_SIZE); [reflexivity|lia]. Qed.

Lemma scan_down_spec m Start n : base_taken m -> Start < BITSET_SIZE -> forall Offset, 0 <= Offset <= Start - 15 ->
  exists Free Off, scan_down m Start Offset n = Ok (Free, Off) /\ Offset <= Off <= Start - 15 /\
    (forall i, Offset <= i < Off -> ~ Start - i ∈ m) /\
    if (Free : bool) then Off = Offset + Z.of_nat n else Start - Off ∈ m /\ Off < Offset + Z.of_nat n.
Proof.
  intros Hb HS. induction n as [|n IH]; intros Offset HO; cbn [scan_down].
  { exists true, Offset. repeat split; try lia. }
  assert (0 <= Start - Offset < BITSET_SIZE) as Hr by (keys; lia).
  rewrite uint_small, bitset_test_ok by (keys; lia). cbn [mbind outcome_bind]. case_bool_decide as Hin.
  - exists false, Offset. repeat split; try lia. exact Hin.
  - destruct (decide (Offset = Start - 15)) as [->|Hne].
    { destruct Hin. apply Hb. keys. lia. }
    destruct (IH (Offset + 1)) as (Free & Off & E & Hle & Hfree & Hend); [lia|]. exists Free, Off. split; [exact E|]. split; [lia|]. split.
    + intros i Hi. destruct (decide (i = Offset)) as [->|]; [exact Hin|apply Hfree; lia].
    + destruct Free; [lia|]. destruct Hend. split; [assumption|lia].
Qed.

(** No run of [n] pages ends in [(lo, hi]]. *)
Definition no_run (m : gset Z) (n lo hi : Z) : Prop := forall t, lo < t <= hi -> 15 <= t - n -> ~ free_above m (t - n) n.

(** The highest run that ends at [Start] or below, given by the page under it. *)
Definition highest_run (m : gset Z) (Start n r : Z) : Prop :=
  15 <= r /\ r + n <= Start /\ free_above m r n /\ no_run m n (r + n) Start.

Lemma no_run_used m n Start Off : Off < n -> Start - Off ∈ m -> no_run m n (Start - Off - 1) Start.
Proof. intros Ho Hu t Ht _ Hf. apply (Hf (Start - Off)); [lia|exact Hu]. Qed.

Lemma no_run_app m n a b c : no_run m n a b -> no_run m n b c -> no_run m n a c.
Proof. intros H1 H2 t Ht. destruct (Z.leb_spec t b); [apply H1|apply H2]; lia. Qed.

Lemma find_down_spec m n fuel : base_taken m -> 0 < n -> forall Start, 0 <= Start <= TOP_KEY -> (Z.to_nat Start + 1 < fuel)%nat ->
  exists r, find_down fuel m Start n = Ok r /\ (r = 0 /\ no_run m n 0 Start \/ highest_run m Start n r).
Proof.
  intros Hb Hn. induction fuel as [|fuel IH]; intros Start HS Hf; [lia|]. cbn [find_down].
  destruct (Z.leb_spec BASE_KEY Start) as [H1|H1]; cbn [andb].
  2: { exists 0. split; [reflexivity|left]. split; [reflexivity|]. intros t Ht H15. keys. lia. }
  destruct (Z.leb_spec Start TOP_KEY) as [H2|H2]; [|lia].
  destruct (scan_down_spec m Start (Z.to_nat n) Hb) with (Offset := 0) as (Free & Off & E & Hle & Hfree & Hend); [keys; lia..|].
  rewrite E. cbn [mbind outcome_bind]. destruct Free.
  - assert (Off = n) as -> by lia. exists (Start - n). rewrite uint_small by (keys; lia). split; [reflexivity|right].
    split; [lia|]. split; [lia|]. split; [|intros t Ht; lia].
    intros p Hp. replace p with (Start - (Start - p)) by lia. apply Hfree. lia.
  - destruct Hend as [Hu Hlt]. rewrite uint_small by (keys; lia).
    destruct (IH (Start - (Off + 1))) as (r & Er & Hr); [lia..|]. exists r. split; [exact Er|].
    pose proof (no_run_used m n Start Off ltac:(lia) Hu) as Hno. replace (Start - Off - 1) with (Start - (Off + 1)) in Hno by lia.
    destruct Hr as [[-> Hr]|(H15 & Hle2 & Hf2 & Hr)]; [left|right].
    + split; [reflexivity|]. apply (no_run_app _ _ _ _ _ Hr Hno).
    + split; [exact H15|]. split; [lia|]. split; [exact Hf2|apply (no_run_app _ _ _ _ _ Hr Hno)].
Qed.

Lemma find_down_above m n fuel Start : TOP_KEY < Start -> find_down (S fuel) m Start n = Ok 0.
Proof. intros HS. cbn [find_down]. destruct (Z.leb_spec Start TOP_KEY); [lia|]. rewrite andb_false_r. reflexivity. Qed.

Lemma FindPageRangePtr_spec a n Start : base_taken (MappedPages a) -> 0 < n -> 0 <= Start <= TOP_KEY ->
  exists r, FindPageRangePtr a Start n = Ok r /\ (r = 0 /\ no_run (MappedPages a) n 0 Start \/ highest_run (MappedPages a) Start n r).
Proof.
  intros Hb Hn HS. apply (find_down_spec (MappedPages a) n scan_fuel Hb Hn Start HS). unfold scan_fuel. keys. lia.
Qed.
Lemma FindPageRangePtr_above a n Start : TOP_KEY < Start -> FindPageRangePtr a Start n = Ok 0.
Proof.
  intros HS. unfold FindPageRangePtr, SearchDown, FindPageRange_TopDown, scan_fuel.
  replace (Z.to_nat 0x100001) with (S (Z.to_nat 0x100000)) by lia. apply find_down_above, HS.
Qed.

(** ** The bitset *)

Definition with_pages (m : gset Z) (a : MemAllocator32Bit) : MemAllocator32Bit := set_MappedPages m a.
Lemma set_MappedPages_set m m' a : set_MappedPages m (set_MappedPages m' a) = set_MappedPages m a.
Proof. reflexivity. Qed.
Lemma set_MappedPages_id a : set_MappedPages (MappedPages a) a = a.
Proof. destruct a. reflexivity. Qed.

Section Running.
Context {K : Type} `{HostMemory K}.
Implicit Types (a : MemAllocator32Bit) (k : K).

(** *** Running a call step by step *)

Lemma get_alloc_run {B} (f : _ -> M (@Process K) B) p : (get_alloc ≫= f) p = f (Allocator p) p.
Proof. reflexivity. Qed.
Lemma get_errno_run {B} (f : _ -> M (@Process K) B) p : (get_errno ≫= f) p = f (errno p) p.
Proof. reflexivity. Qed.
Lemma set_alloc_run {B} a (f : _ -> M (@Process K) B) p : (set_alloc a ≫= f) p = f tt (mkProcess a (Host p) (errno p)).
Proof. reflexivity. Qed.
Lemma lift_Ok_run {B C} (x : C) (f : _ -> M (@Process K) B) p : (lift (Ok x) ≫= f) p = f x p.
Proof. reflexivity. Qed.
Lemma ret_run {B C} (x : C) (f : _ -> M (@Process K) B) p : (mret x ≫= f) p = f x p.
Proof. reflexivity. Qed.
Lemma syscall_Ret {B} (call : K -> sysret * K) v a k k' e (f : _ -> M (@Process K) B) : call k = (Ret v, k') ->
  (syscall call ≫= f) (mkProcess a k e) = f v (mkProcess a k' e).
Proof. intros E. unfold mbind, M_bind, syscall. cbn [Host]. rewrite E. reflexivity. Qed.
Lemma syscall_Err {B} (call : K -> sysret * K) e' a k k' e (f : _ -> M (@Process K) B) : call k = (Err e', k') ->
  (syscall call ≫= f) (mkProcess a k e) = f MAP_FAILED (mkProcess a k' e').
Proof. intros E. unfold mbind, M_bind, syscall. cbn [Host]. rewrite E. reflexivity. Qed.

Lemma pages_step_union m x n : {[x]} ∪ m ∪ pages (x + 1) (Z.of_nat n) = m ∪ pages x (Z.of_nat (S n)).
Proof.
  apply set_eq. intros p. rewrite !elem_of_union, elem_of_singleton, !elem_of_pages.
  destruct (decide (p = x)) as [->|]; [|split; intros; destruct_or?; try tauto; right; lia].
  split; intros _; [right; lia|left; left; reflexivity].
Qed.
Lemma pages_step_difference m x n : m ∖ {[x]} ∖ pages (x + 1) (Z.of_nat n) = m ∖ pages x (Z.of_nat (S n)).
Proof.
  apply set_eq. intros p. rewrite !elem_of_difference, elem_of_singleton, !elem_of_pages.
  split; intros [Hp Hq]; [destruct Hp|]; repeat split; try tauto; lia.
Qed.

#[local] Ltac run := repeat first [rewrite get_alloc_run|rewrite get_errno_run|rewrite set_alloc_run|rewrite lift_Ok_run|rewrite ret_run
  | progress cbn beta iota zeta delta [Allocator Host errno MappedPages set_MappedPages]].

Lemma set_loop_ok k e r n : 0 <= r -> forall i a, 0 <= i -> r + i + Z.of_nat n <= BITSET_SIZE ->
  set_loop r i n (mkProcess a k e) = Ok (tt, mkProcess (set_MappedPages (MappedPages a ∪ pages (r + i) (Z.of_nat n)) a) k e).
Proof.
  intros Hr. induction n as [|n IH]; intros i a Hi Hn; cbn [set_loop].
  { rewrite pages_nil, union_empty_r_L, set_MappedPages_id by lia. reflexivity. }
  run. unfold bitset_set.
  rewrite uint_small by (keys; lia). destruct (Z.leb_spec 0 (r + i)); [|lia]. destruct (Z.ltb_spec (r + i) BITSET_SIZE); [|lia].
  cbn [andb]. run. rewrite IH by lia. rewrite set_MappedPages_set. cbn [MappedPages set_MappedPages].
  rewrite Z.add_assoc, pages_step_union. reflexivity.
Qed.
Lemma reset_loop_ok k e r n : 0 <= r -> forall i a, 0 <= i -> r + i + Z.of_nat n <= BITSET_SIZE ->
  reset_loop r i n (mkProcess a k e) = Ok (tt, mkProcess (set_MappedPages (MappedPages a ∖ pages (r + i) (Z.of_nat n)) a) k e).
Proof.
  intros Hr. induction n as [|n IH]; intros i a Hi Hn; cbn [reset_loop].
  { rewrite pages_nil, difference_empty_L, set_MappedPages_id by lia. reflexivity. }
  run. unfold bitset_reset.
  rewrite uint_small by (keys; lia). destruct (Z.leb_spec 0 (r + i)); [|lia]. destruct (Z.ltb_spec (r + i) BITSET_SIZE); [|lia].
  cbn [andb]. run. rewrite IH by lia. rewrite set_MappedPages_set. cbn [MappedPages set_MappedPages].
  rewrite Z.add_assoc, pages_step_difference. reflexivity.
Qed.
Lemma SetUsedPages_ok a k e r n : 0 <= r -> 0 <= n -> r + n <= BITSET_SIZE ->
  SetUsedPages r n (mkProcess a k e) = Ok (tt, mkProcess (set_MappedPages (MappedPages a ∪ pages r n) a) k e).
Proof. intros. unfold SetUsedPages. rewrite set_loop_ok, Z.add_0_r, Z2Nat.id by lia. reflexivity. Qed.
Lemma SetFreePages_ok a k e r n : 0 <= r -> 0 <= n -> r + n <= BITSET_SIZE ->
  SetFreePages r n (mkProcess a k e) = Ok (tt, mkProcess (set_MappedPages (MappedPages a ∖ pages r n) a) k e).
Proof. intros. unfold SetFreePages. rewrite reset_loop_ok, Z.add_0_r, Z2Nat.id by lia. reflexivity. Qed.
End Running.

(** ** What the host promises

    [mmap] with [MAP_FIXED_NOREPLACE] (Linux 4.17) or [MAP_FIXED] returns the
    address it was given, the former only where nothing is mapped; nothing is
    mapped below [vm.mmap_min_addr], 64 KB; an error changes no mapping; [munmap]
    removes the pages of the range; [mremap] without [MREMAP_MAYMOVE] keeps the
    address, with [MREMAP_FIXED] it moves the range to the new address, which
    must not overlap; a range that is not mapped is refused ([EFAULT]). *)
Class HostLaws (K : Type) `{HostMemory K} := {
  mapped : K -> gset Z;
  law_min k p : p ∈ mapped k -> BASE_KEY <= p;
  law_mmap addr length prot flags fd offset k v k' : host_mmap addr length prot flags fd offset k = (Ret v, k') ->
    has flags MAP_FIXED_NOREPLACE || has flags MAP_FIXED = true ->
    v = addr /\ mapped k' = mapped k ∪ pages (addr / FEX_PAGE_SIZE) (PageLength length) /\
    (has flags MAP_FIXED_NOREPLACE = true -> pages (addr / FEX_PAGE_SIZE) (PageLength length) ## mapped k);
  law_mmap_err addr length prot flags fd offset k e k' : host_mmap addr length prot flags fd offset k = (Err e, k') ->
    0 < e < 4096 /\ mapped k' = mapped k;
  law_munmap addr length k v k' : host_munmap addr length k = (Ret v, k') ->
    v = 0 /\ mapped k' = mapped k ∖ pages (addr / FEX_PAGE_SIZE) (PageLength length);
  law_munmap_err addr length k e k' : host_munmap addr length k = (Err e, k') -> 0 < e < 4096 /\ mapped k' = mapped k;
  law_mremap_fixed old old_size new_size flags new k v k' : host_mremap old old_size new_size flags new k = (Ret v, k') ->
    has flags MREMAP_FIXED = true ->
    v = new /\ mapped k' = (if has flags MREMAP_DONTUNMAP then mapped k
                            else mapped k ∖ pages (old / FEX_PAGE_SIZE) (PageLength old_size))
                           ∪ pages (new / FEX_PAGE_SIZE) (PageLength new_size);
  law_mremap_stay old old_size new_size flags new k v k' : host_mremap old old_size new_size flags new k = (Ret v, k') ->
    has flags MREMAP_FIXED = false -> has flags MREMAP_MAYMOVE = false ->
    v = old /\ mapped k' = (mapped k ∖ pages (old / FEX_PAGE_SIZE) (PageLength old_size))
                           ∪ pages (old / FEX_PAGE_SIZE) (PageLength new_size);
  law_mremap_unmapped old old_size new_size flags new k : 0 < old_size -> pages (old / FEX_PAGE_SIZE) 1 ## mapped k ->
    host_mremap old old_size new_size flags new k = (Err EFAULT, k);
  law_mremap_overlap old old_size new_size flags new k : has flags MREMAP_FIXED = true ->
    ~ pages (old / FEX_PAGE_SIZE) (PageLength old_size) ## pages (new / FEX_PAGE_SIZE) (PageLength new_size) ->
    exists e, host_mremap old old_size new_size flags new k = (Err e, k);
  law_mremap_err old old_size new_size flags new k e k' : host_mremap old old_size new_size flags new k = (Err e, k') ->
    0 < e < 4096 /\ mapped k' = mapped k
}.

(** ** The allocator's invariant *)

Record alloc_ok (a : MemAllocator32Bit) : Prop := {
  ok_base : base_taken (MappedPages a);
  ok_top : TOP_KEY ∈ MappedPages a;
  ok_bound p : p ∈ MappedPages a -> 0 <= p < BITSET_SIZE;
  ok_scan : 15 <= LastScanLocation a <= TOP_KEY;
  ok_key : LastKeyLocation a = TOP_KEY;
  ok_key32 : LastKeyLocation32Bit a = TOP_KEY32BIT
}.

Lemma new_pages p : p ∈ MappedPages new_MemAllocator32Bit <-> p = TOP_KEY \/ 0 <= p < 16.
Proof. unfold new_MemAllocator32Bit. cbn [MappedPages]. rewrite elem_of_union, elem_of_singleton, elem_of_pages. reflexivity. Qed.
Lemma new_ok : alloc_ok new_MemAllocator32Bit.
Proof.
  split; try reflexivity.
  - intros p Hp. apply (proj2 (new_pages p)). keys. lia.
  - intros p Hp. apply (proj1 (new_pages p)) in Hp. keys. lia.
  - cbn. keys. lia.
Qed.

Lemma page_address_ok r : 0 <= r < BITSET_SIZE -> page_address r = r * FEX_PAGE_SIZE.
Proof. intros Hr. unfold page_address. rewrite Z.shiftl_mul_pow2 by (keys; lia). rewrite uint_small; keys; change (2 ^ 12) with 4096; lia. Qed.
Lemma page_address_div r : 0 <= r < BITSET_SIZE -> page_address r / FEX_PAGE_SIZE = r.
Proof. intros Hr. rewrite page_address_ok by exact Hr. unfold FEX_PAGE_SIZE. apply Z.div_mul. lia. Qed.
Lemma page_address_shift r : 0 <= r < BITSET_SIZE -> Z.shiftr (page_address r) FEX_PAGE_SHIFT = r.
Proof. intros Hr. rewrite Z.shiftr_div_pow2 by (keys; lia). apply page_address_div, Hr. Qed.
Lemma page_address_low r : 0 <= r < TOP_KEY -> (page_address r =? MAP_FAILED) = false /\ AddressAboveTop (page_address r) = false.
Proof.
  intros Hr. unfold AddressAboveTop. rewrite !page_address_ok by (keys; lia). change MAP_FAILED with 0xFFFFFFFFFFFFFFFF.
  split; [apply Z.eqb_neq|apply Z.leb_gt]; keys; lia.
Qed.

Lemma has_or_noreplace fl : has (Z.lor fl FEX_MAP_FIXED_NOREPLACE) MAP_FIXED_NOREPLACE = true.
Proof.
  unfold has, FEX_MAP_FIXED_NOREPLACE, MAP_FIXED_NOREPLACE. apply negb_true_iff, Z.eqb_neq. intros E.
  apply (f_equal (fun x => Z.testbit x 20)) in E. rewrite Z.land_spec, Z.lor_spec in E.
  change (Z.testbit 0x100000 20) with true in E. rewrite orb_true_r in E. discriminate.
Qed.

(** A run below the scan's top does not reach the taken top page. *)
Lemma run_below_top m B n r : TOP_KEY ∈ m -> 0 < n -> B <= TOP_KEY -> highest_run m B n r -> 15 <= r /\ r + n < TOP_KEY.
Proof.
  intros Ht Hn HB (H15 & Hle & Hf & _). split; [exact H15|]. destruct (decide (r + n = TOP_KEY)) as [E|]; [|lia].
  destruct (Hf TOP_KEY); [lia|exact Ht].
Qed.

(** The allocator after the pages from [r] on were handed out. *)
Definition granted (a : MemAllocator32Bit) (r n : Z) : MemAllocator32Bit :=
  set_MappedPages (MappedPages a ∪ pages r n) (set_LastScanLocation r a).
Lemma granted_ok a r n : alloc_ok a -> 0 <= n -> 15 <= r -> r + n < TOP_KEY -> alloc_ok (granted a r n).
Proof.
  intros [B T Bd S K1 K2] H0 Hr Hn. split; cbn [granted MappedPages set_MappedPages set_LastScanLocation LastScanLocation LastKeyLocation LastKeyLocation32Bit]; auto.
  - intros p Hp. apply elem_of_union. left. apply B, Hp.
  - apply elem_of_union. auto.
  - intros p [Hp|Hp%elem_of_pages]%elem_of_union; [apply Bd, Hp|keys; lia].
  - keys. lia.
Qed.

(** ** One round *)

Section Rounds.
Context {K : Type} `{HostLaws K}.
Implicit Types (a : MemAllocator32Bit) (k : K).

(** What the two scans of a round find: nothing in either, or the highest run
    below the place [B] that the next round steps down from. *)
Definition found (a : MemAllocator32Bit) (Bottom Again n r B : Z) : Prop :=
  r = 0 /\ B = Again /\ (TOP_KEY < Bottom \/ no_run (MappedPages a) n 0 Bottom) /\ no_run (MappedPages a) n 0 Again \/
  highest_run (MappedPages a) B n r /\ 0 <= B <= TOP_KEY /\
  (B = Bottom \/ B = Again /\ (TOP_KEY < Bottom \/ no_run (MappedPages a) n 0 Bottom)).

Lemma find_range_spec a k e Bottom Again n : base_taken (MappedPages a) -> 0 < n -> 0 <= Bottom -> 0 <= Again <= TOP_KEY ->
  exists r B, find_range Bottom Again n (mkProcess a k e) = Ok ((r, B), mkProcess a k e) /\ found a Bottom Again n r B.
Proof.
  intros Hb Hn HB HA. unfold find_range, found. rewrite get_alloc_run. cbn [Allocator].
  destruct (FindPageRangePtr_spec a n Again Hb Hn HA) as (r2 & E2 & H2).
  destruct (Z.leb_spec Bottom TOP_KEY) as [Hle|Hgt].
  - destruct (FindPageRangePtr_spec a n Bottom Hb Hn ltac:(lia)) as (r1 & E1 & H1). rewrite E1, lift_Ok_run.
    destruct (Z.eqb_spec r1 0) as [->|Hne].
    + destruct H1 as [[_ H1]|[H1 _]]; [|lia]. rewrite E2, lift_Ok_run. exists r2, Again. split; [reflexivity|].
      destruct H2 as [[-> H2]|H2]; [left|right]; tauto.
    + destruct H1 as [[-> _]|H1]; [congruence|]. exists r1, Bottom. split; [reflexivity|]. right. split; [exact H1|]. split; [lia|tauto].
  - rewrite (FindPageRangePtr_above a n Bottom Hgt), lift_Ok_run, Z.eqb_refl, E2, lift_Ok_run. exists r2, Again. split; [reflexivity|].
    destruct H2 as [[-> H2]|H2]; [left|right]; tauto.
Qed.

Lemma highest_not_zero m B n r : highest_run m B n r -> (r =? 0) = false.
Proof. intros [H15 _]. apply Z.eqb_neq. lia. Qed.

Lemma claim_ok a k e r n : 0 <= r -> 0 <= n -> r + n <= BITSET_SIZE ->
  claim r (uint 64 (r + n)) n (mkProcess a k e) = Ok (tt, mkProcess (granted a r n) k e).
Proof.
  intros. unfold claim. rewrite get_alloc_run, set_alloc_run. cbn [Allocator Host errno]. rewrite SetUsedPages_ok by lia. reflexivity.
Qed.

Definition again (Map32Bit : bool) : Z := if Map32Bit then TOP_KEY32BIT else TOP_KEY.
Lemma again_ok b : 0 <= again b <= TOP_KEY.
Proof. destruct b; cbn [again]; keys; lia. Qed.

(** A round of [mmap]: it fails without a run, otherwise the host decides. *)
Lemma mmap_round_spec a k e b len n prot fl fd off Bottom : alloc_ok a -> 0 < n -> 0 <= Bottom ->
  exists r B, found a Bottom (again b) n r B /\
  mmap_round b len n prot fl fd off (Bottom, false) (mkProcess a k e) =
  if r =? 0 then Ok (inl (error ENOMEM), mkProcess a k e)
  else match host_mmap (page_address r) len prot (Z.lor fl FEX_MAP_FIXED_NOREPLACE) fd off k with
     | (Ret _, k') => Ok (inl (page_address r), mkProcess (granted a r n) k' e)
     | (Err e', k') => Ok (if e' =? EEXIST then inr (B - 1, false) else inl (error e'), mkProcess a k' e')
     end.
Proof.
  intros Hok Hn HB. destruct Hok as [Hb Ht Hbd Hs K1 K2].
  destruct (find_range_spec a k e Bottom (again b) n Hb Hn HB (again_ok b)) as (r & B & E & Hf). exists r, B. split; [exact Hf|].
  unfold mmap_round. rewrite get_alloc_run. cbn [Allocator].
  replace (if b then LastKeyLocation32Bit a else LastKeyLocation a) with (again b) by (rewrite K1, K2; reflexivity).
  rewrite (M_bind_Ok _ _ _ _ _ E). destruct Hf as [(-> & _ & _)|(Hr & HB' & _)]; [reflexivity|].
  rewrite (highest_not_zero _ _ _ _ Hr). destruct (run_below_top _ _ _ _ Ht Hn (proj2 HB') Hr) as [H15 Hlt].
  destruct (host_mmap (page_address r) len prot (Z.lor fl FEX_MAP_FIXED_NOREPLACE) fd off k) as [[v|e'] k'] eqn:Eh.
  - destruct (law_mmap _ _ _ _ _ _ _ _ _ Eh) as (-> & _); [rewrite has_or_noreplace; reflexivity|].
    rewrite (syscall_Ret _ _ _ _ _ _ _ Eh), get_errno_run. cbn [Allocator errno].
    destruct (page_address_low r ltac:(lia)) as [-> ->]. cbn [andb orb].
    rewrite (M_bind_Ok _ _ _ tt (mkProcess (granted a r n) k' e)); [reflexivity|]. apply claim_ok; keys; lia.
  - rewrite (syscall_Err _ _ _ _ _ _ _ Eh), get_errno_run. cbn [Allocator errno]. rewrite Z.eqb_refl. cbn [andb orb negb].
    destruct (e' =? EEXIST); [|reflexivity]. cbn [negb]. rewrite ret_run.
    destruct (Z.eqb_spec (uint 64 (r + n)) TOP_KEY) as [Eu|_]; [rewrite uint_small in Eu by (keys; lia); lia|].
    cbn [andb]. destruct Hr as (_ & Hle & _). change (if SearchDown then B - 1 else B + 1) with (B - 1).
    rewrite uint_small by (keys; lia). reflexivity.
Qed.
End Rounds.
