(* ===== verification/Alloc32Theorems.v ===== *)
(** * What the 32-bit allocator promises, and where it hangs

    Allocation is safe for every host that obeys [HostLaws]; it ends when there is
    a run of free pages with a free page below it, and it never ends when every
    run that is long enough is an exact fit. *)
From Stdlib Require Import ZArith Lia Bool.
From stdpp Require Import base gmap list numbers option fin_sets.
From S2P Require Import Prelude Pages Alloc32 Alloc32Logic.
#[local] Open Scope Z_scope.

Lemma PageLength_pos len : 0 < len < 2 ^ 32 -> 0 < PageLength len.
Proof.
  intros Hl. pose proof (AlignUp_range len ltac:(lia) ltac:(keys; lia)) as [Hm Hr]. unfold PageLength.
  rewrite Z.shiftr_div_pow2 by (keys; lia). change (2 ^ FEX_PAGE_SHIFT) with FEX_PAGE_SIZE.
  pose proof (Z.div_mod (AlignUp len FEX_PAGE_SIZE) FEX_PAGE_SIZE ltac:(keys; lia)). keys. lia.
Qed.

(** ** Allocation is safe *)

Section Safety.
Context {K : Type} `{HostLaws K}.
Implicit Types (a : MemAllocator32Bit) (k : K).

(** A failed call returns an error and changes nothing. *)
Definition failed a k (v : Z) (p' : Process) : Prop :=
  exists e, 0 < e < 4096 /\ v = error e /\ Allocator p' = a /\ mapped (Host p') = mapped k.
(** A successful one hands out pages that nothing on the host was mapped at, and
    tracks exactly these in addition. *)
Definition allocated a k (n v : Z) (p' : Process) : Prop :=
  exists r, v = page_address r /\ BASE_KEY <= r /\ r + n < TOP_KEY /\ pages r n ## mapped k /\
  mapped (Host p') = mapped k ∪ pages r n /\ Allocator p' = granted a r n.

Lemma allocated_alloc_ok a k n v p' : alloc_ok a -> 0 <= n -> allocated a k n v p' -> alloc_ok (Allocator p').
Proof. intros Hok Hn (r & _ & Hr & Hlt & _ & _ & ->). apply granted_ok; keys; auto; lia. Qed.

Lemma rounds_safe b len prot fl fd off fuel : 0 < PageLength len -> forall a k e Bottom, alloc_ok a -> 0 <= Bottom ->
  exists res p', rounds (mmap_round b len (PageLength len) prot fl fd off) fuel (Bottom, false) (mkProcess a k e) = Ok (res, p') /\
  match res with
  | inl v => failed a k v p' \/ allocated a k (PageLength len) v p'
  | inr _ => Allocator p' = a /\ mapped (Host p') = mapped k
  end.
Proof.
  intros Hn. set (n := PageLength len) in *. induction fuel as [|fuel IH]; intros a k e Bottom Hok HB; cbn [rounds].
  { eexists _, _. split; [reflexivity|]. cbn. auto. }
  destruct (mmap_round_spec a k e b len n prot fl fd off Bottom Hok Hn HB) as (r & B & Hf & E).
  destruct Hf as [(-> & _)|(Hr & HB' & _)].
  { rewrite (M_bind_Ok _ _ _ _ _ E). eexists _, _. split; [reflexivity|]. left. exists ENOMEM. cbn. unfold ENOMEM. repeat split; lia. }
  rewrite (highest_not_zero _ _ _ _ Hr) in E.
  destruct (run_below_top _ _ _ _ (ok_top _ Hok) Hn (proj2 HB') Hr) as [H15 Hlt].
  destruct (host_mmap (page_address r) len prot (Z.lor fl FEX_MAP_FIXED_NOREPLACE) fd off k) as [[v|e'] k'] eqn:Eh; rewrite (M_bind_Ok _ _ _ _ _ E).
  - destruct (law_mmap _ _ _ _ _ _ _ _ _ Eh) as (-> & Hm & Hd); [rewrite has_or_noreplace; reflexivity|].
    rewrite page_address_div in Hm, Hd by (keys; lia). specialize (Hd (has_or_noreplace fl)).
    eexists _, _. split; [reflexivity|]. right. exists r. split; [reflexivity|]. split; [|auto].
    apply (law_min k' r). rewrite Hm. apply elem_of_union. right. apply elem_of_pages. fold n. lia.
  - destruct (law_mmap_err _ _ _ _ _ _ _ _ _ Eh) as [He Hm]. destruct (e' =? EEXIST).
    + destruct Hr as (_ & Hle & _). destruct (IH a k' e' (B - 1) Hok ltac:(lia)) as (res & p' & E2 & HR).
      exists res, p'. split; [exact E2|]. unfold failed, allocated in *. rewrite Hm in HR. exact HR.
    + eexists _, _. split; [reflexivity|]. left. exists e'. auto.
Qed.

Lemma first_bottom_range b a : alloc_ok a -> 0 <= first_bottom b a <= TOP_KEY.
Proof. intros [_ _ _ S _ K2]. unfold first_bottom. destruct (b && _); keys; lia. Qed.

(** The guards that a call passes before it looks for pages. *)
Definition plain_request (Addr length flags fd offset : Z) : Prop :=
  page_offset_bits Addr = 0 /\ (fd = -1 \/ page_offset_bits offset = 0) /\ uint 64 (Addr + length) <= 0xFFFFFFFF /\
  has flags MAP_FIXED = false /\ has flags FEX_MAP_FIXED_NOREPLACE = false.

Lemma mmap_plain fuel Addr length prot flags fd offset : plain_request Addr length flags fd offset ->
  mmap fuel Addr length prot flags fd offset =
  AllocateNoHint fuel (has flags X86_64_MAP_32BIT) length (PageLength length) prot (Z.land flags (Z.lnot X86_64_MAP_32BIT)) fd offset.
Proof.
  intros (HA & Hfd & Hov & Hf1 & Hf2). unfold mmap. rewrite HA, Hf1, Hf2. cbn [Z.eqb negb orb andb].
  replace (negb (fd =? -1) && negb (page_offset_bits offset =? 0)) with false.
  - destruct (Z.ltb_spec 0xFFFFFFFF (uint 64 (Addr + length))); [lia|reflexivity].
  - destruct Hfd as [-> | ->]; [reflexivity|]. rewrite andb_comm. reflexivity.
Qed.

Lemma AllocateNoHint_safe fuel b len prot fl fd off a k e v p' : alloc_ok a -> 0 < PageLength len ->
  AllocateNoHint fuel b len (PageLength len) prot fl fd off (mkProcess a k e) = Ok (v, p') ->
  failed a k v p' \/ allocated a k (PageLength len) v p'.
Proof.
  intros Hok Hn E. unfold AllocateNoHint, until_result in E. rewrite get_alloc_run in E. cbn [Allocator] in E.
  destruct (rounds_safe b len prot fl fd off fuel Hn a k e (first_bottom b a) Hok (proj1 (first_bottom_range b a Hok))) as (res & q & Er & HR).
  rewrite (M_bind_Ok _ _ _ _ _ Er) in E. destruct res as [w|]; [|discriminate]. injection E as -> ->. exact HR.
Qed.

(** C29: A request without a fixed address that returns either fails with an error
    number and changes nothing, or hands out whole pages that were mapped by
    nothing on the host, between the reserved pages at the bottom and at the top,
    which the host has then mapped and which are tracked in addition to the old
    ones; the allocator's invariant is kept. *)
Theorem mmap_allocates fuel a k e Addr length prot flags fd offset v p' : alloc_ok a -> 0 < length < 2 ^ 32 ->
  has flags MAP_FIXED = false -> has flags FEX_MAP_FIXED_NOREPLACE = false ->
  mmap fuel Addr length prot flags fd offset (mkProcess a k e) = Ok (v, p') ->
  (failed a k v p' \/ allocated a k (PageLength length) v p') /\ alloc_ok (Allocator p').
Proof.
  intros Hok Hl Hf1 Hf2 E. pose proof (PageLength_pos length Hl) as Hn.
  assert (failed a k v p' \/ allocated a k (PageLength length) v p') as HR.
  { assert (forall e', 0 < e' < 4096 -> Ok (error e', mkProcess a k e) = Ok (v, p') -> failed a k v p') as Hret.
    { intros e' He [= <- <-]. exists e'. auto. }
    revert E. unfold mmap. rewrite Hf1, Hf2. cbn [orb andb].
    destruct (negb (page_offset_bits Addr =? 0)); [left; apply (Hret EINVAL); [unfold EINVAL; lia|exact E]|].
    destruct (negb (fd =? -1) && _); [left; apply (Hret EINVAL); [unfold EINVAL; lia|exact E]|].
    destruct (0xFFFFFFFF <? _); [left; apply (Hret EOVERFLOW); [unfold EOVERFLOW; lia|exact E]|].
    apply AllocateNoHint_safe; assumption. }
  split; [exact HR|]. destruct HR as [(e' & _ & _ & -> & _)|HR]; [exact Hok|]. apply (allocated_alloc_ok a k (PageLength length) v); auto. lia.
Qed.
End Safety.

(** ** When allocation ends *)

Section Progress.
Context {K : Type} `{HostLaws K}.
Implicit Types (a : MemAllocator32Bit) (k : K).

(** The host grants the request wherever nothing is mapped, and answers [EEXIST]
    otherwise. *)
Definition serves k (len prot fl fd off : Z) : Prop :=
  forall r, BASE_KEY <= r -> r + PageLength len < TOP_KEY ->
  let answer := host_mmap (page_address r) len prot (Z.lor fl FEX_MAP_FIXED_NOREPLACE) fd off k in
  (pages r (PageLength len) ## mapped k -> exists k', answer = (Ret (page_address r), k')) /\
  (~ pages r (PageLength len) ## mapped k -> answer = (Err EEXIST, k)).
(** The allocator tracks every mapping of the host in its range, and only these. *)
Definition exact a k : Prop := forall p, BASE_KEY <= p < TOP_KEY -> (p ∈ mapped k <-> p ∈ MappedPages a).

(** The pages from [r] on are free on the host when [r] and the run above it are
    free in the bitset. *)
Lemma exact_disjoint a k r n : exact a k -> BASE_KEY <= r -> r + n < TOP_KEY -> free_above (MappedPages a) r n -> ~ r ∈ MappedPages a ->
  pages r n ## mapped k.
Proof.
  intros Hx Hr Hn Hf Hno. apply elem_of_disjoint. intros p Hp%elem_of_pages Hm. apply Hx in Hm; [|lia].
  destruct (decide (p = r)) as [->|]; [contradiction|]. apply (Hf p); [lia|exact Hm].
Qed.
Lemma exact_meets a k r n : exact a k -> BASE_KEY <= r -> 0 < n -> r + n < TOP_KEY -> r ∈ MappedPages a -> ~ pages r n ## mapped k.
Proof.
  intros Hx Hr Hpos Hn Hin Hd. apply (proj1 (elem_of_disjoint _ _) Hd r); [apply elem_of_pages; lia|apply Hx; [lia|exact Hin]].
Qed.

Section Request.
Context (b : bool) (len prot fl fd off : Z) (n : Z).
Context (Hlen : n = PageLength len) (Hn : 0 < n).
Abbreviation round := (mmap_round b len n prot fl fd off).

Lemma rounds_succeed a k q : alloc_ok a -> exact a k -> serves k len prot fl fd off -> BASE_KEY <= q -> q + n <= TOP_KEY ->
  free_above (MappedPages a) q n -> ~ q ∈ MappedPages a ->
  forall fuel Bottom e, q + n <= Bottom <= TOP_KEY -> (Z.to_nat (Bottom - (q + n)) < fuel)%nat ->
  exists r k' e', q <= r /\ r + n < TOP_KEY /\
  rounds round fuel (Bottom, false) (mkProcess a k e) = Ok (inl (page_address r), mkProcess (granted a r n) k' e').
Proof.
  intros Hok Hx Hs Hq Hqn Hf Hno. induction fuel as [|fuel IH]; intros Bottom e HB Hfuel; [lia|]. cbn [rounds].
  assert (~ no_run (MappedPages a) n 0 Bottom) as Hrun.
  { intros Hnr. apply (Hnr (q + n)); [keys; lia|keys; lia|]. replace (q + n - n) with q by lia. exact Hf. }
  destruct (mmap_round_spec a k e b len n prot fl fd off Bottom Hok Hn ltac:(keys; lia)) as (r & B & Hfd & E).
  destruct Hfd as [(_ & _ & [Hgt|Hnr] & _)|(Hr & HB' & [->|(_ & [Hgt|Hnr])])]; try lia; try contradiction.
  rewrite (highest_not_zero _ _ _ _ Hr) in E.
  destruct (run_below_top _ _ _ _ (ok_top _ Hok) Hn (proj2 HB') Hr) as [H15 Hlt].
  assert (q <= r) as Hqr.
  { destruct (Z.leb_spec q r); [assumption|]. destruct Hr as (_ & _ & _ & Hnr). destruct (Hnr (q + n)); [lia|keys; lia|].
    replace (q + n - n) with q by lia. exact Hf. }
  rewrite Hlen in E, Hlt, Hr. destruct (Hs r ltac:(lia) Hlt) as [Hyes Hnot]. cbn beta zeta in Hyes, Hnot. rewrite <- Hlen in *.
  destruct (decide (r ∈ MappedPages a)) as [Hin|Hin].
  - rewrite (Hnot (exact_meets a k r n Hx ltac:(lia) Hn Hlt Hin)) in E. rewrite Z.eqb_refl in E.
    rewrite (M_bind_Ok _ _ _ _ _ E). destruct Hr as (_ & Hle & _).
    assert (Bottom <> q + n) as Hne by (intros ->; assert (r = q) as -> by lia; contradiction).
    destruct (IH (Bottom - 1) EEXIST) as (r' & k' & e' & H1 & H2 & H3); [lia|lia|]. exists r', k', e'. auto.
  - destruct Hr as (_ & Hle & Hfr & _). destruct (Hyes (exact_disjoint a k r n Hx ltac:(lia) Hlt Hfr Hin)) as (k' & Eh).
    rewrite Eh in E. rewrite (M_bind_Ok _ _ _ _ _ E). exists r, k', e. auto.
Qed.

(** Every free run of the length is an exact fit: the page below it is taken. *)
Definition exact_fits a : Prop := forall r, 15 <= r -> r + n < TOP_KEY -> free_above (MappedPages a) r n -> BASE_KEY <= r /\ r ∈ MappedPages a.

Lemma rounds_hang a k : alloc_ok a -> exact a k -> serves k len prot fl fd off -> exact_fits a -> ~ no_run (MappedPages a) n 0 (again b) ->
  forall fuel Bottom e, 0 <= Bottom ->
  exists at_ e', rounds round fuel (Bottom, false) (mkProcess a k e) = Ok (inr at_, mkProcess a k e').
Proof.
  intros Hok Hx Hs Hfit Hrun. induction fuel as [|fuel IH]; intros Bottom e HB; cbn [rounds]; [eexists _, _; reflexivity|].
  destruct (mmap_round_spec a k e b len n prot fl fd off Bottom Hok Hn HB) as (r & B & Hfd & E).
  destruct Hfd as [(_ & _ & _ & Hnr)|(Hr & HB' & _)]; [contradiction|].
  rewrite (highest_not_zero _ _ _ _ Hr) in E.
  destruct (run_below_top _ _ _ _ (ok_top _ Hok) Hn (proj2 HB') Hr) as [H15 Hlt].
  destruct (Hfit r H15 Hlt ltac:(apply Hr)) as [H16 Hin]. destruct Hr as (_ & Hle & _).
  rewrite Hlen in E, Hlt. destruct (Hs r H16 Hlt) as [_ Hnot]. cbn beta zeta in Hnot. rewrite <- Hlen in *.
  rewrite (Hnot (exact_meets a k r n Hx H16 Hn Hlt Hin)), Z.eqb_refl in E. rewrite (M_bind_Ok _ _ _ _ _ E).
  apply IH. lia.
Qed.
End Request.

(** C30: Allocation ends: when the host's mappings are the tracked ones and below
    the last scan there is a run of free pages one page longer than the request,
    a request without a fixed address succeeds at the lowest page of that run or
    above it, within one round per page between the scan and the run. *)
Theorem mmap_succeeds fuel a k e Addr length prot flags fd offset q : let n := PageLength length in
  let bottom := first_bottom (has flags X86_64_MAP_32BIT) a in
  alloc_ok a -> 0 < length < 2 ^ 32 -> plain_request Addr length flags fd offset ->
  exact a k -> serves k length prot (Z.land flags (Z.lnot X86_64_MAP_32BIT)) fd offset ->
  BASE_KEY <= q -> q + n <= bottom -> (forall p, q <= p <= q + n -> ~ p ∈ MappedPages a) ->
  (Z.to_nat (bottom - (q + n)) < fuel)%nat ->
  exists r k' e', q <= r /\ r + n < TOP_KEY /\
  mmap fuel Addr length prot flags fd offset (mkProcess a k e) = Ok (page_address r, mkProcess (granted a r n) k' e').
Proof.
  intros n bottom Hok Hl Hp Hx Hs Hq Hqn Hf Hfuel. pose proof (PageLength_pos length Hl) as Hn. fold n in Hn.
  pose proof (first_bottom_range (has flags X86_64_MAP_32BIT) a Hok) as HB. fold bottom in HB.
  destruct (rounds_succeed (has flags X86_64_MAP_32BIT) length prot (Z.land flags (Z.lnot X86_64_MAP_32BIT)) fd offset n eq_refl Hn a k q
    Hok Hx Hs Hq ltac:(lia)) with (fuel := fuel) (Bottom := bottom) (e := e) as (r & k' & e' & H1 & H2 & E); auto.
  { intros p Hpr. apply Hf. lia. }
  { apply Hf. lia. }
  { lia. }
  exists r, k', e'. split; [exact H1|]. split; [exact H2|]. rewrite mmap_plain by exact Hp. fold n. unfold AllocateNoHint, until_result.
  rewrite get_alloc_run. cbn [Allocator]. fold bottom. rewrite (M_bind_Ok _ _ _ _ _ E). reflexivity.
Qed.

(** C31: Allocation can hang: when the host's mappings are the tracked ones and
    every run of free pages that is long enough is an exact fit, a request never
    gets to a result, however many rounds it runs. The scan returns the page
    below the run, the host refuses that page, and the next rounds find the same
    runs again, from the top when the bottom is reached. *)
Theorem mmap_hangs a k e b length prot flags fd offset : let n := PageLength length in
  alloc_ok a -> 0 < length < 2 ^ 32 -> exact a k -> serves k length prot flags fd offset ->
  exact_fits n a -> ~ no_run (MappedPages a) n 0 (again b) ->
  forall fuel, exists at_ e', rounds (mmap_round b length n prot flags fd offset) fuel (first_bottom b a, false) (mkProcess a k e)
                   = Ok (inr at_, mkProcess a k e').
Proof.
  intros n Hok Hl Hx Hs Hfit Hrun fuel. pose proof (PageLength_pos length Hl) as Hn.
  apply (rounds_hang b length prot flags fd offset n eq_refl Hn); auto. apply (first_bottom_range b a Hok).
Qed.
End Progress.
