(* ===== verification/Alloc32Calls.v ===== *)
(** * Unmapping, moving and sharing memory in the 32-bit address space

    [munmap], [mremap], [shmat] and [shmdt] of [MemAllocator32Bit] over a host that
    obeys [HostLaws]. *)
From Stdlib Require Import ZArith Lia Bool.
From stdpp Require Import base gmap list numbers option fin_sets.
From S2P Require Import Prelude Pages Alloc32 Alloc32Logic Alloc32Theorems.
#[local] Open Scope Z_scope.

Lemma PageLength_page : PageLength FEX_PAGE_SIZE = 1.
Proof. reflexivity. Qed.
Lemma PageLength_nonneg len : 0 <= PageLength len.
Proof. unfold PageLength. apply Z.shiftr_nonneg. unfold AlignUp. apply uint_range. lia. Qed.
Lemma shift_page v : Z.shiftr v FEX_PAGE_SHIFT = v / FEX_PAGE_SIZE.
Proof. rewrite Z.shiftr_div_pow2 by (keys; lia). reflexivity. Qed.

Lemma difference_pages m x n : 0 <= n -> m ∖ {[x]} ∖ pages (x + 1) n = m ∖ pages x (n + 1).
Proof. intros Hn. rewrite <- (Z2Nat.id n) by exact Hn. rewrite pages_step_difference. do 2 f_equal. lia. Qed.
Lemma pages_one x : pages x 1 = {[x]}.
Proof. apply set_eq. intros p. rewrite elem_of_pages, elem_of_singleton. lia. Qed.

(** The invariant survives when pages of the guest's range are dropped and pages
    below the top are added. *)
Lemma alloc_ok_change a m : alloc_ok a -> (forall p, p ∈ MappedPages a -> p < BASE_KEY \/ p = TOP_KEY -> p ∈ m) ->
  (forall p, p ∈ m -> p ∈ MappedPages a \/ 0 <= p < BITSET_SIZE) -> alloc_ok (set_MappedPages m a).
Proof.
  intros [B T Bd S K1 K2] Hkeep Hnew. split; cbn [MappedPages set_MappedPages LastScanLocation LastKeyLocation LastKeyLocation32Bit]; auto.
  - intros p Hp. apply Hkeep; [apply B, Hp|lia].
  - intros p Hp. destruct (Hnew p Hp); auto.
Qed.

Section Unmap.
Context {K : Type} `{HostLaws K}.
Implicit Types (a : MemAllocator32Bit) (k : K).

Definition without a (P j : Z) : MemAllocator32Bit := set_MappedPages (MappedPages a ∖ pages P j) a.
Lemma without_zero a P : without a P 0 = a.
Proof. unfold without. rewrite pages_nil, difference_empty_L by lia. apply set_MappedPages_id. Qed.

(** One page: the host's part and the bitset's. *)
Lemma munmap_step a k e P v k' n : 0 <= P < BITSET_SIZE -> host_munmap (page_address P) FEX_PAGE_SIZE k = (Ret v, k') ->
  munmap_loop P (S n) (mkProcess a k e) = munmap_loop (P + 1) n (mkProcess (without a P 1) k' e) /\ mapped k' = mapped k ∖ pages P 1.
Proof.
  intros HP E. destruct (law_munmap _ _ _ _ _ E) as [-> Hm]. rewrite page_address_div, PageLength_page in Hm by exact HP. split; [|exact Hm].
  cbn [munmap_loop]. rewrite (syscall_Ret _ _ _ _ _ _ _ E). cbn [Z.eqb negb]. rewrite get_alloc_run. cbn [Allocator].
  rewrite bitset_test_ok, lift_Ok_run by exact HP. unfold without. rewrite pages_one. case_bool_decide as Hin.
  - unfold bitset_reset. destruct (Z.leb_spec 0 P); [|lia]. destruct (Z.ltb_spec P BITSET_SIZE); [|lia]. reflexivity.
  - rewrite ret_run. replace (MappedPages a ∖ {[P]}) with (MappedPages a) by set_solver. rewrite set_MappedPages_id. reflexivity.
Qed.

Lemma munmap_loop_ok n : forall a k e P, 0 <= P -> P + Z.of_nat n <= BITSET_SIZE ->
  exists j v k' e', munmap_loop P n (mkProcess a k e) = Ok (v, mkProcess (without a P j) k' e') /\ 0 <= j <= Z.of_nat n /\
  mapped k' = mapped k ∖ pages P j /\ (j = Z.of_nat n /\ v = 0 \/ exists err, 0 < err < 4096 /\ v = - err).
Proof.
  induction n as [|n IH]; intros a k e P HP Hle.
  { exists 0, 0, k, e. rewrite without_zero, pages_nil, difference_empty_L by lia. cbn [munmap_loop]. repeat split; auto; lia. }
  destruct (host_munmap (page_address P) FEX_PAGE_SIZE k) as [[v|err] k1] eqn:E.
  - destruct (munmap_step a k e P v k1 n ltac:(keys; lia) E) as [-> Hm].
    destruct (IH (without a P 1) k1 e (P + 1)) as (j & w & k' & e' & E2 & Hj & Hm2 & Hv); [lia|lia|].
    exists (j + 1), w, k', e'. split; [|split; [lia|split]].
    + rewrite E2. unfold without. rewrite set_MappedPages_set. cbn [MappedPages set_MappedPages].
      rewrite pages_one, difference_pages by lia. reflexivity.
    + rewrite Hm2, Hm, pages_one, difference_pages by lia. reflexivity.
    + destruct Hv as [[-> ->]|Hv]; [left; split; [lia|reflexivity]|right; exact Hv].
  - destruct (law_munmap_err _ _ _ _ _ E) as [He Hm]. exists 0, (- err), k1, err.
    cbn [munmap_loop]. rewrite (syscall_Err _ _ _ _ _ _ _ E). change (negb (MAP_FAILED =? 0)) with true. cbn iota.
    rewrite without_zero, pages_nil, difference_empty_L by lia. repeat split; auto; try lia. right. eauto.
Qed.

(** [munmap] of whole pages of the guest's range drops the pages from the host
    and from the bitset, one by one and in step: all of them when it returns zero,
    those before the page that the host refused when it returns an error number. *)
Theorem munmap_unmaps a k e Addr length : let P := Addr / FEX_PAGE_SIZE in let n := PageLength length in
  alloc_ok a -> 0 <= Addr -> 0 <= length -> Addr mod FEX_PAGE_SIZE = 0 -> length mod FEX_PAGE_SIZE = 0 ->
  Addr + length <= 0xFFFFFFFF -> BASE_KEY <= P ->
  exists j v k' e', munmap Addr length (mkProcess a k e) = Ok (v, mkProcess (without a P j) k' e') /\ 0 <= j <= n /\
  mapped k' = mapped k ∖ pages P j /\ alloc_ok (without a P j) /\ (j = n /\ v = 0 \/ exists err, 0 < err < 4096 /\ v = - err).
Proof.
  intros P n Hok HA Hl HA0 Hl0 Hle HP. assert (AlignUp length FEX_PAGE_SIZE = length) as Eal.
  { unfold AlignUp. rewrite Hl0. change ((FEX_PAGE_SIZE - 0) mod FEX_PAGE_SIZE) with 0. rewrite Z.add_0_r. apply uint_small. lia. }
  assert (n = length / FEX_PAGE_SIZE) as En by (unfold n, PageLength; rewrite Eal; apply shift_page).
  pose proof (Z.div_mod Addr FEX_PAGE_SIZE ltac:(keys; lia)) as D1. pose proof (Z.div_mod length FEX_PAGE_SIZE ltac:(keys; lia)) as D2.
  fold P in D1. rewrite <- En in D2. pose proof (PageLength_nonneg length) as Hn. fold n in Hn.
  unfold munmap. rewrite !page_offset_bits_mod, HA0, Hl0, shift_page. cbn [Z.eqb negb]. fold P n. rewrite uint_small by lia.
  destruct (Z.ltb_spec 0xFFFFFFFF (Addr + length)); [lia|]. destruct (Z.ltb_spec P 16); [keys; lia|].
  destruct (munmap_loop_ok (Z.to_nat n) a k e P) as (j & v & k' & e' & E & Hj & Hm & Hv); [lia|keys; lia|].
  rewrite Z2Nat.id in Hj, Hv by exact Hn. exists j, v, k', e'. split; [exact E|]. split; [exact Hj|]. split; [exact Hm|]. split; [|exact Hv].
  apply alloc_ok_change; [exact Hok| |set_solver].
  intros p Hp Hp2. apply elem_of_difference. split; [exact Hp|]. rewrite elem_of_pages. keys. lia.
Qed.
End Unmap.

(** ** [mremap] *)

Section Remap.
Context {K : Type} `{HostLaws K}.
Implicit Types (a : MemAllocator32Bit) (k : K).

Lemma can_extend_spec m P n : TOP_KEY ∈ m -> 0 <= P -> forall i, 0 <= i -> P + i <= TOP_KEY ->
  exists b, can_extend m P i n = Ok b /\ (b = true -> P + i + Z.of_nat n <= TOP_KEY /\ forall p, P + i <= p < P + i + Z.of_nat n -> ~ p ∈ m).
Proof.
  intros Ht HP. induction n as [|n IH]; intros i Hi Hle; cbn [can_extend].
  { exists true. split; [reflexivity|]. split; [lia|intros p Hp; lia]. }
  unfold bitset_at. rewrite uint_small by (keys; lia).
  destruct (Z.leb_spec 0 (P + i)); [|lia]. destruct (Z.ltb_spec (P + i) BITSET_SIZE); [|keys; lia]. cbn [andb mbind outcome_bind].
  case_bool_decide as Hin; [exists false; split; [reflexivity|discriminate]|].
  assert (P + i <> TOP_KEY) as Hne by congruence.
  destruct (IH (i + 1)) as (b & E & Hb); [lia|lia|]. exists b. split; [exact E|]. intros ->. destruct (Hb eq_refl) as [Q1 Q2]. split; [lia|].
  intros p Hp. destruct (decide (p = P + i)) as [->|]; [exact Hin|apply Q2; lia].
Qed.

(** The ranges of a call: the old pages from [O] on and the new length. *)
Section Range.
Context (O old_size new_size flags : Z).
Abbreviation n_old := (PageLength old_size).
Abbreviation n_new := (PageLength new_size).
Abbreviation old_address := (page_address O).

(** The allocator and the host after a success: the old pages are [released],
    those from [r] on are taken. *)
Definition remapped a k (r : Z) (released : gset Z) (v : Z) (p' : Process) : Prop :=
  v = page_address r /\ mapped (Host p') = (mapped k ∖ released) ∪ pages r n_new /\
  MappedPages (Allocator p') = (MappedPages a ∖ released) ∪ pages r n_new /\ alloc_ok (Allocator p').
Definition stays a k v p' : Prop := remapped a k O (pages O n_old) v p'.
Definition moves a k v p' : Prop := exists r, BASE_KEY <= r /\ r + n_new < TOP_KEY /\ pages r n_new ## mapped k /\
  remapped a k r (if has flags MREMAP_DONTUNMAP then ∅ else pages O n_old) v p'.
(** After a failure either nothing changed or a fresh range is left behind. *)
Definition gives_up a k v p' : Prop := exists e, 0 < e < 4096 /\ v = error e /\
  ((Allocator p' = a /\ mapped (Host p') = mapped k) \/ exists r, allocated a k n_new (page_address r) p').

Context (Hold : 0 < old_size < 2 ^ 32) (Hnew : 0 < new_size < 2 ^ 32).
Context (HO : BASE_KEY <= O) (HOt : O + n_old <= TOP_KEY).

Lemma error_is_error e : 0 < e < 4096 -> HasSyscallError (error e) = true.
Proof.
  intros He. unfold HasSyscallError, error, uint. apply Z.leb_le. rewrite Z.mod_opp_l_nz; rewrite ?Z.mod_small; lia.
Qed.
Lemma address_no_error r : 0 <= r < TOP_KEY -> HasSyscallError (page_address r) = false.
Proof. intros Hr. rewrite page_address_ok by (keys; lia). apply Z.leb_gt. keys. lia. Qed.
Lemma mmap_fresh fuel a k e : mmap fuel 0 new_size PROT_NONE (Z.lor MAP_PRIVATE MAP_ANONYMOUS) (-1) 0 (mkProcess a k e) =
  AllocateNoHint fuel false new_size n_new PROT_NONE (Z.lor MAP_PRIVATE MAP_ANONYMOUS) (-1) 0 (mkProcess a k e).
Proof.
  rewrite mmap_plain; [reflexivity|]. repeat split; auto. cbn [Z.add]. rewrite uint_small; lia.
Qed.

Lemma move_flags : has (Z.lor flags (Z.lor MREMAP_FIXED MREMAP_MAYMOVE)) MREMAP_FIXED = true /\
  has (Z.lor flags (Z.lor MREMAP_FIXED MREMAP_MAYMOVE)) MREMAP_DONTUNMAP = has flags MREMAP_DONTUNMAP.
Proof.
  unfold has, MREMAP_FIXED, MREMAP_MAYMOVE, MREMAP_DONTUNMAP. change (Z.lor 2 1) with 3. split.
  - apply negb_true_iff, Z.eqb_neq. intros E. apply (f_equal (fun x => Z.testbit x 1)) in E.
    rewrite Z.land_spec, Z.lor_spec in E. change (Z.testbit 3 1) with true in E. rewrite orb_true_r in E. discriminate.
  - do 2 f_equal. apply Z.bits_inj'. intros i Hi. rewrite !Z.land_spec, Z.lor_spec.
    destruct (decide (i = 2)) as [->|Hne]; [change (Z.testbit 3 2) with false; rewrite orb_false_r; reflexivity|].
    assert (Z.testbit 4 i = false) as ->; [|rewrite !andb_false_r; reflexivity].
    change 4 with (2 ^ 2). rewrite Z.pow2_bits_eqb by lia. apply Z.eqb_neq. lia.
Qed.

Lemma mremap_move_ok fuel a k e v p' : alloc_ok a -> O ∈ mapped k ->
  mremap_move fuel old_address old_size new_size flags (mkProcess a k e) = Ok (v, p') -> gives_up a k v p' \/ moves a k v p'.
Proof.
  intros Hok Hin E. pose proof (PageLength_pos _ Hnew) as Hn. pose proof (PageLength_pos _ Hold) as Hno. unfold mremap_move in E.
  destruct (mmap fuel 0 new_size PROT_NONE (Z.lor MAP_PRIVATE MAP_ANONYMOUS) (-1) 0 (mkProcess a k e)) as [[w [a1 k1 e1]]| |] eqn:Em;
    [rewrite (M_bind_Ok _ _ _ _ _ Em) in E|unfold mbind, M_bind in E; rewrite Em in E; discriminate..].
  rewrite mmap_fresh in Em. apply AllocateNoHint_safe in Em; [|assumption..].
  destruct Em as [(err & He & -> & Ha & Hm)|(r & -> & Hr & Hrt & Hd & Hm & Ha)]; cbn [Allocator Host] in Ha, Hm.
  { rewrite error_is_error in E by exact He. injection E as <- <-. left. exists err. cbn. auto. }
  rewrite address_no_error in E by (keys; lia).
  destruct (host_mremap old_address old_size new_size (Z.lor flags (Z.lor MREMAP_FIXED MREMAP_MAYMOVE)) (page_address r) k1) as [[u|err] k2] eqn:Er.
  - destruct move_flags as [F1 F2]. destruct (law_mremap_fixed _ _ _ _ _ _ _ _ Er F1) as [-> Hm2]. rewrite F2 in Hm2.
    rewrite !page_address_div in Hm2 by (keys; lia).
    rewrite (syscall_Ret _ _ _ _ _ _ _ Er) in E. destruct (page_address_low r ltac:(keys; lia)) as [Ef _]. rewrite Ef in E. cbn [negb] in E.
    assert (r <> O) as Hne.
    { intros ->. apply (proj1 (elem_of_disjoint _ _) Hd O); [apply elem_of_pages; lia|exact Hin]. }
    replace (negb (page_address r =? old_address)) with true in E.
    2: { symmetry. apply negb_true_iff, Z.eqb_neq. rewrite !page_address_ok by (keys; lia). keys. lia. }
    rewrite andb_true_r, !page_address_shift in E by (keys; lia).
    assert (forall a2, SetUsedPages r n_new (mkProcess a2 k2 e1) = Ok (tt, mkProcess (set_MappedPages (MappedPages a2 ∪ pages r n_new) a2) k2 e1)) as Hset
      by (intros; apply SetUsedPages_ok; keys; lia).
    assert (mapped k ∪ pages r n_new ∪ pages r n_new = mapped k ∪ pages r n_new) as Hdup by set_solver.
    right. exists r. split; [exact Hr|]. split; [exact Hrt|]. split; [exact Hd|]. unfold remapped.
    destruct (has flags MREMAP_DONTUNMAP); cbn [negb] in E.
    + rewrite ret_run, (M_bind_Ok _ _ _ _ _ (Hset a1)) in E. injection E as <- <-. cbn [Host Allocator]. split; [reflexivity|].
      rewrite Hm2, Hm, Hdup, Ha. rewrite difference_empty_L. split; [reflexivity|]. cbn [granted MappedPages set_MappedPages].
      split; [set_solver|]. apply alloc_ok_change; [apply granted_ok; keys; auto; lia|set_solver|].
      intros q [Hq|Hq%elem_of_pages]%elem_of_union; [left; exact Hq|right; keys; lia].
    + rewrite (M_bind_Ok _ _ _ _ _ (SetFreePages_ok a1 k2 e1 O n_old ltac:(keys; lia) (PageLength_nonneg _) ltac:(keys; lia))) in E.
      rewrite (M_bind_Ok _ _ _ _ _ (Hset _)) in E. injection E as <- <-. cbn [Host Allocator]. split; [reflexivity|].
      rewrite Hm2, Hm, Ha, set_MappedPages_set. cbn [granted MappedPages set_MappedPages]. split; [set_solver|]. split; [set_solver|].
      apply (alloc_ok_change (granted a r n_new)); [apply granted_ok; keys; auto; lia| |]; cbn [granted MappedPages set_MappedPages].
      * intros q Hq Hq2. apply elem_of_union. left. apply elem_of_difference. split; [exact Hq|]. rewrite elem_of_pages. keys. lia.
      * intros q [[Hq _]%elem_of_difference|Hq%elem_of_pages]%elem_of_union; [left; exact Hq|right; keys; lia].
  - destruct (law_mremap_err _ _ _ _ _ _ _ _ Er) as [He Hm2]. rewrite (syscall_Err _ _ _ _ _ _ _ Er) in E.
    rewrite Z.eqb_refl in E. cbn [negb] in E. rewrite get_errno_run in E. injection E as <- <-. left. exists err. split; [exact He|]. split; [reflexivity|].
    right. exists r. unfold allocated. cbn [Host Allocator]. exists r. rewrite Hm2. split_and!; auto.
Qed.

Lemma stay_flags : has flags MREMAP_FIXED = false ->
  has (Z.land flags (Z.lnot MREMAP_MAYMOVE)) MREMAP_FIXED = false /\ has (Z.land flags (Z.lnot MREMAP_MAYMOVE)) MREMAP_MAYMOVE = false.
Proof.
  unfold has, MREMAP_FIXED, MREMAP_MAYMOVE. rewrite !negb_false_iff, !Z.eqb_eq. intros Hf. split.
  - rewrite <- Z.land_assoc, (Z.land_comm (Z.lnot 1)), Z.land_assoc, Hf. apply Z.land_0_l.
  - rewrite <- Z.land_assoc. change (Z.land (Z.lnot 1) 1) with 0. apply Z.land_0_r.
Qed.

(** Staying in place, after the host agreed. *)
Lemma stays_intro a k k' e m : alloc_ok a -> O + n_new <= TOP_KEY -> mapped k' = (mapped k ∖ pages O n_old) ∪ pages O n_new ->
  m = (MappedPages a ∖ pages O n_old) ∪ pages O n_new -> stays a k old_address (mkProcess (set_MappedPages m a) k' e).
Proof.
  intros Hok Hlt Hm ->. pose proof (PageLength_pos _ Hnew) as Hn. split; [reflexivity|]. cbn [Host Allocator]. split; [exact Hm|]. split; [reflexivity|].
  apply alloc_ok_change; [exact Hok| |].
  - intros q Hq Hq2. apply elem_of_union. left. apply elem_of_difference. split; [exact Hq|]. rewrite elem_of_pages. keys. lia.
  - intros q [[Hq _]%elem_of_difference|Hq%elem_of_pages]%elem_of_union; [left; exact Hq|right; keys; lia].
Qed.

Lemma mremap_in_place_ok a k e new_address r p' : alloc_ok a -> pages O n_old ⊆ MappedPages a -> has flags MREMAP_FIXED = false ->
  mremap_in_place old_address old_size new_size flags new_address (mkProcess a k e) = Ok (r, p') ->
  match r with
  | inl v => gives_up a k v p' \/ stays a k v p'
  | inr _ => Allocator p' = a /\ mapped (Host p') = mapped k
  end.
Proof.
  intros Hok Hsub Hf E. pose proof (PageLength_pos _ Hnew) as Hn. pose proof (PageLength_pos _ Hold) as Hno. unfold mremap_in_place in E.
  rewrite Hf in E. destruct (stay_flags Hf) as [F1 F2]. rewrite page_address_shift in E by (keys; lia).
  destruct (page_address_low O ltac:(keys; lia)) as [Ef _].
  assert (forall err k', 0 < err < 4096 -> mapped k' = mapped k -> gives_up a k (error err) (mkProcess a k' err)) as Hfail.
  { intros err k' He Hm. exists err. split; [exact He|]. split; [reflexivity|]. left. auto. }
  assert (forall w k', host_mremap old_address old_size new_size (Z.land flags (Z.lnot MREMAP_MAYMOVE)) 0 k = (Ret w, k') ->
    w = old_address /\ mapped k' = (mapped k ∖ pages O n_old) ∪ pages O n_new) as Hstay.
  { intros w k' Er. destruct (law_mremap_stay _ _ _ _ _ _ _ _ Er F1 F2) as [-> Hm]. rewrite page_address_div in Hm by (keys; lia). auto. }
  destruct (Z.ltb_spec n_new n_old) as [Hlt|Hge].
  - destruct (host_mremap old_address old_size new_size (Z.land flags (Z.lnot MREMAP_MAYMOVE)) 0 k) as [[w|err] k1] eqn:Er.
    + destruct (Hstay w k1 eq_refl) as [-> Hm]. rewrite (syscall_Ret _ _ _ _ _ _ _ Er), Ef in E. cbn [negb] in E.
      rewrite page_address_shift, (M_bind_Ok _ _ _ _ _ (SetFreePages_ok a k1 e (O + n_new) (n_old - n_new) ltac:(keys; lia) ltac:(lia) ltac:(keys; lia))) in E by (keys; lia).
      injection E as <- <-. right. apply stays_intro; [exact Hok|lia|exact Hm|]. apply set_eq. intros q.
      rewrite elem_of_union, !elem_of_difference, !elem_of_pages. specialize (Hsub q). rewrite elem_of_pages in Hsub.
      destruct (decide (O <= q < O + n_old)); [|split; [intros [Hq _]; left; split; [exact Hq|lia]|intros [[Hq _]|]; [split; [exact Hq|lia]|lia]]].
      split; [intros [_ Hq]; right; lia|intros [[_ Hq]|Hq]; [lia|split; [apply Hsub; lia|lia]]].
    + destruct (law_mremap_err _ _ _ _ _ _ _ _ Er) as [He Hm]. rewrite (syscall_Err _ _ _ _ _ _ _ Er), Z.eqb_refl in E. cbn [negb] in E.
      rewrite get_errno_run in E. injection E as <- <-. left. apply Hfail; assumption.
  - rewrite get_alloc_run in E. cbn [Allocator] in E.
    destruct (can_extend_spec (MappedPages a) O (Z.to_nat (n_new - n_old)) (ok_top _ Hok) ltac:(keys; lia) n_old ltac:(lia) HOt) as (b & Eb & Hb).
    rewrite Eb, lift_Ok_run in E. destruct b; [|injection E as <- <-; auto]. destruct (Hb eq_refl) as [Hlt _].
    destruct (host_mremap old_address old_size new_size (Z.land flags (Z.lnot MREMAP_MAYMOVE)) 0 k) as [[w|err] k1] eqn:Er.
    + destruct (Hstay w k1 eq_refl) as [-> Hm]. rewrite (syscall_Ret _ _ _ _ _ _ _ Er), Ef in E. cbn [negb] in E.
      rewrite page_address_shift, (M_bind_Ok _ _ _ _ _ (SetUsedPages_ok a k1 e O n_new ltac:(keys; lia) ltac:(lia) ltac:(keys; lia))) in E by (keys; lia).
      injection E as <- <-. right. apply stays_intro; [exact Hok|lia|exact Hm|]. apply set_eq. intros q.
      rewrite !elem_of_union, !elem_of_difference, !elem_of_pages.
      destruct (decide (O <= q < O + n_new)); [split; intros; right; lia|].
      split; [intros [Hq|Hq]; [left; split; [exact Hq|lia]|lia]|intros [[Hq _]|Hq]; [left; exact Hq|lia]].
    + destruct (law_mremap_err _ _ _ _ _ _ _ _ Er) as [He Hm]. rewrite (syscall_Err _ _ _ _ _ _ _ Er), Z.eqb_refl in E. cbn [negb] in E.
      destruct (negb (has flags MREMAP_MAYMOVE)).
      * rewrite get_errno_run in E. injection E as <- <-. left. apply Hfail; assumption.
      * injection E as <- <-. auto.
Qed.

Lemma gives_up_ext a k k1 v p' : mapped k1 = mapped k -> gives_up a k1 v p' -> gives_up a k v p'.
Proof. intros Hm. unfold gives_up, allocated. rewrite Hm. auto. Qed.
Lemma moves_ext a k k1 v p' : mapped k1 = mapped k -> moves a k1 v p' -> moves a k v p'.
Proof. intros Hm. unfold moves, remapped. rewrite Hm. auto. Qed.
Lemma gives_up_ok a k v p' : alloc_ok a -> gives_up a k v p' -> alloc_ok (Allocator p').
Proof.
  intros Hok (e & _ & _ & [[-> _]|[r HR]]); [exact Hok|]. apply (allocated_alloc_ok a k n_new (page_address r)); auto. apply PageLength_nonneg.
Qed.

Lemma mremap_ok fuel a k e new_address v p' : alloc_ok a -> pages O n_old ⊆ MappedPages a -> pages O n_old ⊆ mapped k ->
  has flags MREMAP_FIXED = false ->
  mremap fuel old_address old_size new_size flags new_address (mkProcess a k e) = Ok (v, p') ->
  (gives_up a k v p' \/ stays a k v p' \/ moves a k v p') /\ alloc_ok (Allocator p').
Proof.
  intros Hok Hsub Hmap Hf E. pose proof (PageLength_pos _ Hold) as Hno. unfold mremap in E.
  destruct (mremap_in_place old_address old_size new_size flags new_address (mkProcess a k e)) as [[r [a1 k1 e1]]| |] eqn:Ei;
    [rewrite (M_bind_Ok _ _ _ _ _ Ei) in E|unfold mbind, M_bind in E; rewrite Ei in E; discriminate..].
  apply mremap_in_place_ok in Ei; [|assumption..]. assert (gives_up a k v p' \/ stays a k v p' \/ moves a k v p') as HR.
  { destruct r as [w|[]].
    - injection E as -> <-. destruct Ei as [Hg|Hs]; auto.
    - cbn [Allocator Host] in Ei. destruct Ei as [-> Hm]. apply mremap_move_ok in E; [|assumption|].
      + destruct E as [E|E]; [left; apply (gives_up_ext _ _ _ _ _ Hm E)|right; right; apply (moves_ext _ _ _ _ _ Hm E)].
      + rewrite Hm. apply Hmap, elem_of_pages. lia. }
  split; [exact HR|]. destruct HR as [Hg|[(_ & _ & _ & Ha)|(r0 & _ & _ & _ & _ & _ & _ & Ha)]]; [apply (gives_up_ok a k v p' Hok Hg)|exact Ha..].
Qed.

Lemma mremap_move_gone fuel a k e v p' : alloc_ok a -> ~ O ∈ mapped k ->
  mremap_move fuel old_address old_size new_size flags (mkProcess a k e) = Ok (v, p') -> exists err, 0 < err < 4096 /\ v = error err.
Proof.
  intros Hok Hout E. pose proof (PageLength_pos _ Hnew) as Hn. pose proof (PageLength_pos _ Hold) as Hno. unfold mremap_move in E.
  destruct (mmap fuel 0 new_size PROT_NONE (Z.lor MAP_PRIVATE MAP_ANONYMOUS) (-1) 0 (mkProcess a k e)) as [[w [a1 k1 e1]]| |] eqn:Em;
    [rewrite (M_bind_Ok _ _ _ _ _ Em) in E|unfold mbind, M_bind in E; rewrite Em in E; discriminate..].
  rewrite mmap_fresh in Em. apply AllocateNoHint_safe in Em; [|assumption..].
  destruct Em as [(err & He & -> & Ha & Hm)|(r & -> & Hr & Hrt & Hd & Hm & Ha)]; cbn [Allocator Host] in Ha, Hm.
  { rewrite error_is_error in E by exact He. injection E as <- <-. eauto. }
  rewrite address_no_error in E by (keys; lia).
  assert (exists err k2, host_mremap old_address old_size new_size (Z.lor flags (Z.lor MREMAP_FIXED MREMAP_MAYMOVE)) (page_address r) k1 = (Err err, k2)) as (err & k2 & Er).
  { destruct (decide (r <= O < r + n_new)) as [Hin|Hno2].
    - destruct (law_mremap_overlap old_address old_size new_size (Z.lor flags (Z.lor MREMAP_FIXED MREMAP_MAYMOVE)) (page_address r) k1) as [err Er];
        [apply move_flags| |eauto].
      rewrite !page_address_div by (keys; lia). intros Hdis. apply (proj1 (elem_of_disjoint _ _) Hdis O); apply elem_of_pages; lia.
    - exists EFAULT, k1. apply law_mremap_unmapped; [lia|]. rewrite page_address_div by (keys; lia). rewrite pages_one, Hm.
      apply disjoint_singleton_l. rewrite elem_of_union, elem_of_pages. tauto. }
  destruct (law_mremap_err _ _ _ _ _ _ _ _ Er) as [He _]. rewrite (syscall_Err _ _ _ _ _ _ _ Er), Z.eqb_refl in E.
  cbn [negb] in E. rewrite get_errno_run in E. injection E as <- <-. eauto.
Qed.
End Range.


(** [mremap] with [MREMAP_FIXED] never succeeds: after the host has moved the
    range the code goes on to the second half, which tries to move the old range,
    now unmapped, once more and reports that error; the caller is not told the new
    address. *)
Theorem mremap_fixed_fails fuel a k e O N old_size new_size flags w k1 v p' :
  0 < old_size < 2 ^ 32 -> 0 < new_size < 2 ^ 32 -> BASE_KEY <= O -> O + PageLength old_size <= TOP_KEY ->
  BASE_KEY <= N -> N + PageLength new_size <= TOP_KEY -> pages O (PageLength old_size) ## pages N (PageLength new_size) ->
  alloc_ok a -> has flags MREMAP_FIXED = true -> has flags MREMAP_DONTUNMAP = false ->
  host_mremap (page_address O) old_size new_size flags (page_address N) k = (Ret w, k1) ->
  mremap fuel (page_address O) old_size new_size flags (page_address N) (mkProcess a k e) = Ok (v, p') ->
  exists err, 0 < err < 4096 /\ v = error err.
Proof.
  intros Hold Hnew HO HOt HN HNt Hdis Hok Hf Hd Er E. pose proof (PageLength_pos _ Hnew) as Hn. pose proof (PageLength_pos _ Hold) as Hno.
  destruct (law_mremap_fixed _ _ _ _ _ _ _ _ Er Hf) as [-> Hm]. rewrite Hd, !page_address_div in Hm by (keys; lia).
  unfold mremap, mremap_in_place in E. rewrite Hf, M_bind_assoc, (syscall_Ret _ _ _ _ _ _ _ Er) in E.
  destruct (page_address_low N ltac:(keys; lia)) as [Ef _]. rewrite Ef, Hd in E. cbn [negb] in E.
  rewrite !page_address_shift, M_bind_assoc in E by (keys; lia).
  rewrite (M_bind_Ok _ _ _ _ _ (SetFreePages_ok a k1 e O (PageLength old_size) ltac:(keys; lia) ltac:(lia) ltac:(keys; lia))) in E.
  rewrite M_bind_assoc in E.
  rewrite (M_bind_Ok _ _ _ _ _ (SetUsedPages_ok _ k1 e N (PageLength new_size) ltac:(keys; lia) ltac:(lia) ltac:(keys; lia))), ret_run in E.
  apply mremap_move_gone in E; auto.
  - cbn [MappedPages set_MappedPages]. apply (alloc_ok_change (set_MappedPages (MappedPages a ∖ pages O (PageLength old_size)) a)).
    + apply alloc_ok_change; [exact Hok| |set_solver]. intros q Hq Hq2. apply elem_of_difference. split; [exact Hq|]. rewrite elem_of_pages. keys. lia.
    + cbn [MappedPages set_MappedPages]. set_solver.
    + cbn [MappedPages set_MappedPages]. intros q [Hq|Hq%elem_of_pages]%elem_of_union; [left; exact Hq|right; keys; lia].
  - rewrite Hm. intros [[_ Hq]%elem_of_difference|Hq]%elem_of_union; [apply Hq, elem_of_pages; lia|].
    apply (proj1 (elem_of_disjoint _ _) Hdis O); [apply elem_of_pages; lia|exact Hq].
Qed.
End Remap.

(** ** Shared memory *)

Section Shared.
Context {K : Type} `{HostLaws K}.
Implicit Types (a : MemAllocator32Bit) (k : K).

Lemma shmat_round_refused a k e shmid shmflg n err Bottom : alloc_ok a -> 0 < n -> 0 <= Bottom -> ~ no_run (MappedPages a) n 0 TOP_KEY ->
  (forall addr, host_shmat shmid addr shmflg k = (Err err, k)) ->
  exists B, 0 <= B /\ shmat_round shmid shmflg n (Bottom, false) (mkProcess a k e) = Ok (inr (B, false), mkProcess a k err).
Proof.
  intros Hok Hn HB Hrun Hr. destruct Hok as [Hb Ht Hbd Hs K1 K2]. unfold shmat_round. rewrite get_alloc_run. cbn [Allocator]. rewrite K1.
  destruct (find_range_spec a k e Bottom TOP_KEY n Hb Hn HB ltac:(keys; lia)) as (r & B & E & Hf). rewrite (M_bind_Ok _ _ _ _ _ E).
  destruct Hf as [(_ & _ & _ & Hno)|(Hh & HB' & _)]; [contradiction|]. rewrite (highest_not_zero _ _ _ _ Hh).
  destruct (run_below_top _ _ _ _ Ht Hn (proj2 HB') Hh) as [H15 Hlt].
  rewrite (syscall_Err _ _ _ _ _ _ _ (Hr _)), Z.eqb_refl.
  destruct (Z.eqb_spec (uint 64 (r + n)) TOP_KEY) as [Eu|_]; [rewrite uint_small in Eu by (keys; lia); lia|].
  cbn [andb]. exists (uint 64 (B + n)). split; [apply uint_range; lia|reflexivity].
Qed.

(** [shmat] without an address never returns when the host refuses the
    segment, whatever its reason (for instance [EACCES]): every refusal is taken
    for a collision, and as long as there is a run of free pages another round
    follows. *)
Theorem shmat_hangs a k e shmid shmflg n err : alloc_ok a -> 0 < n -> ~ no_run (MappedPages a) n 0 TOP_KEY ->
  (forall addr, host_shmat shmid addr shmflg k = (Err err, k)) ->
  forall fuel, exists at_ e', rounds (shmat_round shmid shmflg n) fuel (LastScanLocation a, false) (mkProcess a k e)
                   = Ok (inr at_, mkProcess a k e').
Proof.
  intros Hok Hn Hrun Hr fuel. pose proof (ok_scan _ Hok) as Hs. assert (0 <= LastScanLocation a) as HB by lia. clear Hs.
  revert HB. generalize (LastScanLocation a). revert e. induction fuel as [|fuel IH]; intros e Bottom HB; cbn [rounds]; [eexists _, _; reflexivity|].
  destruct (shmat_round_refused a k e shmid shmflg n err Bottom Hok Hn HB Hrun Hr) as (B & HB2 & E).
  rewrite (M_bind_Ok _ _ _ _ _ E). apply IH, HB2.
Qed.

(** [shmdt] forgets the segment and never releases its pages. *)
Lemma shmdt_keeps_pages a k e shmaddr v p' : shmdt shmaddr (mkProcess a k e) = Ok (v, p') -> MappedPages (Allocator p') = MappedPages a.
Proof.
  unfold shmdt. rewrite get_alloc_run. cbn [Allocator]. destruct (PageToShm a !! _); [|intros [= <- <-]; reflexivity].
  destruct (host_shmdt shmaddr k) as [[w|err] k1] eqn:Er.
  - rewrite (syscall_Ret _ _ _ _ _ _ _ Er), get_alloc_run, set_alloc_run. cbn [Allocator Host errno].
    destruct (w =? MAP_FAILED); [rewrite get_errno_run|]; intros [= <- <-]; reflexivity.
  - rewrite (syscall_Err _ _ _ _ _ _ _ Er), get_alloc_run, set_alloc_run, Z.eqb_refl, get_errno_run. intros [= <- <-]. reflexivity.
Qed.
End Shared.

(** * A small host and the allocator on it

    A host whose state is the set of its mapped pages, for the concrete inputs of
    the allocator's properties. *)
Definition EPERM : Z := 1.
Definition EACCES : Z := 13.

(** Pages below [vm.mmap_min_addr] are never mapped. *)
Definition host_pages (k : gset Z) : gset Z := filter (fun p => BASE_KEY <= p) k.
Definition page_of (addr : Z) : Z := addr / FEX_PAGE_SIZE.
Definition simple_mmap (addr length prot flags fd offset : Z) (k : gset Z) : sysret * gset Z :=
  let P := pages (page_of addr) (PageLength length) in
  if page_of addr <? BASE_KEY then (Err EPERM, k)
  else if has flags MAP_FIXED_NOREPLACE then
    if decide (P ## host_pages k) then (Ret addr, k ∪ P) else (Err EEXIST, k)
  else if has flags MAP_FIXED then (Ret addr, k ∪ P)
  else (Err EINVAL, k).
Definition simple_munmap (addr length : Z) (k : gset Z) : sysret * gset Z :=
  (Ret 0, k ∖ pages (page_of addr) (PageLength length)).
Definition simple_mremap (old old_size new_size flags new : Z) (k : gset Z) : sysret * gset Z :=
  let O := pages (page_of old) (PageLength old_size) in
  let N := pages (page_of new) (PageLength new_size) in
  if decide (page_of old ∈ host_pages k) then
    if has flags MREMAP_FIXED then
      if decide (O ## N) then
        if page_of new <? BASE_KEY then (Err EPERM, k)
        else (Ret new, (if has flags MREMAP_DONTUNMAP then k else k ∖ O) ∪ N)
      else (Err EINVAL, k)
    else if has flags MREMAP_MAYMOVE then (Err EINVAL, k)
    else if decide (pages (page_of old) (PageLength new_size) ∖ O ## host_pages k)
    then (Ret old, (k ∖ O) ∪ pages (page_of old) (PageLength new_size))
    else (Err ENOMEM, k)
  else (Err EFAULT, k).
(** There is one segment, of a page, and the process may not use it. *)
#[export] Instance SimpleHost : HostMemory (gset Z) := {|
  host_mmap := simple_mmap;
  host_munmap := simple_munmap;
  host_mremap := simple_mremap;
  host_shmat _ _ _ k := (Err EACCES, k);
  host_shmdt _ k := (Ret 0, k);
  host_shm_stat _ k := (Ret 4096, k)
|}.

Lemma host_pages_union k P n : BASE_KEY <= P -> host_pages (k ∪ pages P n) = host_pages k ∪ pages P n.
Proof.
  intros HP. apply set_eq. intros p. unfold host_pages. rewrite elem_of_filter, !elem_of_union, elem_of_filter, elem_of_pages.
  split; [intros [? [?|?]]; auto|intros [[? ?]|?]; split; auto; lia].
Qed.
Lemma host_pages_difference k X : host_pages (k ∖ X) = host_pages k ∖ X.
Proof. apply set_eq. intros p. unfold host_pages. rewrite elem_of_filter, !elem_of_difference, elem_of_filter. tauto. Qed.
Lemma host_pages_in k p : p ∈ host_pages k -> BASE_KEY <= p /\ p ∈ k.
Proof. unfold host_pages. rewrite elem_of_filter. auto. Qed.

#[local] Ltac errors := match goal with E : (Err _, _) = (Err _, _) |- _ => injection E as <- <-; split; [cbv; auto|reflexivity] end.

#[export] Program Instance SimpleHost_laws : HostLaws (gset Z) := {| mapped := host_pages |}.
Next Obligation. intros k p Hp. apply host_pages_in in Hp. apply Hp. Qed.
Next Obligation.
  intros addr len prot fl fd off k v k' E Hfl. cbn in E. unfold simple_mmap in E. fold (page_of addr).
  destruct (Z.ltb_spec (page_of addr) BASE_KEY) as [|HP]; [discriminate|]. destruct (has fl MAP_FIXED_NOREPLACE) eqn:F1.
  - destruct (decide _) as [Hd|]; [|discriminate]. injection E as <- <-. rewrite host_pages_union by exact HP. auto.
  - cbn [orb] in Hfl. rewrite Hfl in E. injection E as <- <-. rewrite host_pages_union by exact HP. split_and!; auto; discriminate.
Qed.
Next Obligation.
  intros addr len prot fl fd off k e k' E. cbn in E. unfold simple_mmap in E. repeat case_match; try discriminate; errors.
Qed.
Next Obligation. intros addr len k v k' [= <- <-]. split; [reflexivity|apply host_pages_difference]. Qed.
Next Obligation. intros addr len k e k' [=]. Qed.
Next Obligation.
  intros old os ns fl new k v k' E Hf. cbn in E. unfold simple_mremap in E. rewrite Hf in E. fold (page_of old) (page_of new).
  destruct (decide _); [|discriminate]. destruct (decide _); [|discriminate].
  destruct (Z.ltb_spec (page_of new) BASE_KEY) as [|HN]; [discriminate|]. injection E as <- <-. split; [reflexivity|].
  rewrite host_pages_union by exact HN. destruct (has fl MREMAP_DONTUNMAP); [reflexivity|rewrite host_pages_difference; reflexivity].
Qed.
Next Obligation.
  intros old os ns fl new k v k' E Hf Hm. cbn in E. unfold simple_mremap in E. rewrite Hf, Hm in E. fold (page_of old).
  destruct (decide _) as [Ho|]; [|discriminate]. destruct (decide _); [|discriminate]. injection E as <- <-. split; [reflexivity|].
  apply host_pages_in in Ho as [Ho _]. rewrite host_pages_union, host_pages_difference by exact Ho. reflexivity.
Qed.
Next Obligation.
  intros old os ns fl new k _ Hd. cbn. unfold simple_mremap. rewrite decide_False; [reflexivity|]. intros Hin.
  apply (proj1 (elem_of_disjoint _ _) Hd (page_of old)); [apply elem_of_pages; unfold page_of; lia|exact Hin].
Qed.
Next Obligation.
  intros old os ns fl new k Hf Hd. cbn. unfold simple_mremap. rewrite Hf.
  destruct (decide (page_of old ∈ host_pages k)); [rewrite decide_False by exact Hd|]; eauto.
Qed.
Next Obligation.
  intros old os ns fl new k e k' E. cbn in E. unfold simple_mremap in E. repeat case_match; try discriminate; errors.
Qed.

Lemma simple_serves k len prot fl fd off : serves k len prot fl fd off.
Proof.
  intros r Hr Hlt answer. pose proof (PageLength_nonneg len) as Hn. unfold answer. cbn. unfold simple_mmap, page_of. rewrite has_or_noreplace, page_address_div by (keys; lia).
  destruct (Z.ltb_spec r BASE_KEY); [lia|]. split; intros Hd; [rewrite decide_True by exact Hd; eauto|rewrite decide_False by exact Hd; reflexivity].
Qed.

(** ** Allocation *)

Definition anonymous : Z := Z.lor MAP_PRIVATE MAP_ANONYMOUS.
Definition fresh : Process := mkProcess new_MemAllocator32Bit (∅ : gset Z) 0.
Definition after {B} (m : M (@Process (gset Z)) B) (p : Process) : Process := match m p with Ok (_, p') => p' | _ => p end.

Lemma mmap_allocates_witness :
  let p' := after (mmap 1 0 0x2800 PROT_READ anonymous (-1) 0) fresh in
  (failed new_MemAllocator32Bit (∅ : gset Z) 0xFFFFB000 p' \/ allocated new_MemAllocator32Bit (∅ : gset Z) 3 0xFFFFB000 p') /\ alloc_ok (Allocator p').
Proof.
  intros p'. apply (mmap_allocates 1 new_MemAllocator32Bit (∅ : gset Z) 0 0 0x2800 PROT_READ anonymous (-1) 0).
  - exact new_ok.
  - lia.
  - reflexivity.
  - reflexivity.
  - vm_compute. reflexivity.
Defined.

Lemma fresh_exact : exact new_MemAllocator32Bit (∅ : gset Z).
Proof. intros p Hp. change (mapped ∅) with (host_pages ∅). unfold host_pages. rewrite elem_of_filter, new_pages. keys. split; [intros [_ []%elem_of_empty]|lia]. Qed.
Lemma fresh_free p : 16 <= p < TOP_KEY -> ~ p ∈ MappedPages new_MemAllocator32Bit.
Proof. rewrite new_pages. keys. lia. Qed.

Lemma mmap_succeeds_witness : exists r k' e', 0xFFFFB <= r /\ r + 3 < TOP_KEY /\
  mmap 2 0 0x2800 PROT_READ anonymous (-1) 0 fresh = Ok (page_address r, mkProcess (granted new_MemAllocator32Bit r 3) k' e').
Proof.
  apply (mmap_succeeds 2 new_MemAllocator32Bit (∅ : gset Z) 0 0 0x2800 PROT_READ anonymous (-1) 0 0xFFFFB).
  - exact new_ok.
  - lia.
  - repeat split; auto. vm_compute. discriminate.
  - exact fresh_exact.
  - apply simple_serves.
  - vm_compute. discriminate.
  - vm_compute. discriminate.
  - change (PageLength 0x2800) with 3. intros p Hp. apply fresh_free. keys. lia.
  - vm_compute. lia.
Defined.

(** Everything is mapped but page 100. *)
#[local] Opaque pages.
Definition one_hole : MemAllocator32Bit := set_MappedPages (pages 0 BITSET_SIZE ∖ {[100]}) new_MemAllocator32Bit.
Definition one_hole_host : gset Z := pages BASE_KEY (TOP_KEY - BASE_KEY) ∖ {[100]}.
Lemma one_hole_pages p : p ∈ MappedPages one_hole <-> 0 <= p < BITSET_SIZE /\ p <> 100.
Proof. unfold one_hole. cbn [MappedPages set_MappedPages]. rewrite elem_of_difference, elem_of_pages, elem_of_singleton. reflexivity. Qed.
Lemma one_hole_host_pages p : p ∈ host_pages one_hole_host <-> BASE_KEY <= p < TOP_KEY /\ p <> 100.
Proof.
  unfold host_pages, one_hole_host. rewrite elem_of_filter, elem_of_difference, elem_of_pages, elem_of_singleton. keys.
  split; intros Hp; repeat split; try tauto; lia.
Qed.
Lemma hole_ok m : (forall p, p ∈ m <-> 0 <= p < BITSET_SIZE /\ p <> 100) -> alloc_ok (set_MappedPages m new_MemAllocator32Bit).
Proof.
  intros Hm. apply alloc_ok_change; [exact new_ok|intros p Hp Hc; apply Hm; pose proof (ok_bound _ new_ok p Hp); keys; lia|].
  intros p Hp. apply Hm in Hp. right. apply Hp.
Qed.
Lemma one_hole_ok : alloc_ok one_hole.
Proof. unfold one_hole. apply hole_ok. intros p. rewrite elem_of_difference, elem_of_pages, elem_of_singleton. reflexivity. Qed.
Lemma one_hole_run : free_above (MappedPages one_hole) 99 1.
Proof. intros p Hp. rewrite one_hole_pages. lia. Qed.

Lemma mmap_hangs_witness : exists at_ e',
  rounds (mmap_round false 0x1000 1 PROT_READ anonymous (-1) 0) 4096%nat (TOP_KEY, false) (mkProcess one_hole one_hole_host 0)
  = Ok (inr at_, mkProcess one_hole one_hole_host e').
Proof.
  apply (mmap_hangs one_hole one_hole_host 0 false 0x1000 PROT_READ anonymous (-1) 0).
  - exact one_hole_ok.
  - lia.
  - intros p Hp. change (mapped one_hole_host) with (host_pages one_hole_host). rewrite one_hole_host_pages, one_hole_pages. keys. split; intros []; split; auto; lia.
  - apply simple_serves.
  - intros r H15 Hlt Hf. change (PageLength 0x1000) with 1 in *. specialize (Hf (r + 1) ltac:(lia)). rewrite one_hole_pages in Hf.
    rewrite one_hole_pages. keys. assert (r = 99) as ->; [|lia]. destruct (decide (r + 1 = 100)); [lia|]. destruct Hf. lia.
  - change (PageLength 0x1000) with 1. intros Hno. apply (Hno 100); [cbn; keys; lia|lia|exact one_hole_run].
Defined.

(** ** The other calls *)

(** Three pages from page 0x100 on. *)
Definition three : MemAllocator32Bit := granted new_MemAllocator32Bit 0x100 3.
Definition three_host : gset Z := pages 0x100 3.
Lemma three_ok : alloc_ok three.
Proof. apply granted_ok; [exact new_ok|keys; lia..]. Qed.
Lemma three_tracked : pages 0x100 3 ⊆ MappedPages three.
Proof. intros p Hp. apply elem_of_union. right. exact Hp. Qed.
Lemma three_mapped : pages 0x100 3 ⊆ mapped three_host.
Proof. intros p Hp. change (p ∈ host_pages three_host). unfold host_pages. rewrite elem_of_filter. split; [apply elem_of_pages in Hp; keys; lia|exact Hp]. Qed.

Lemma munmap_unmaps_witness : exists j v k' e',
  munmap 0x101000 0x1000 (mkProcess three three_host 0) = Ok (v, mkProcess (without three 0x101 j) k' e') /\ 0 <= j <= 1 /\
  mapped k' = mapped three_host ∖ pages 0x101 j /\ alloc_ok (without three 0x101 j) /\ (j = 1 /\ v = 0 \/ exists err, 0 < err < 4096 /\ v = - err).
Proof.
  apply (munmap_unmaps three three_host 0 0x101000 0x1000).
  - exact three_ok.
  - lia.
  - lia.
  - reflexivity.
  - reflexivity.
  - lia.
  - vm_compute. discriminate.
Defined.


Lemma mremap_fixed_fails_witness :
  let r := mremap 1 0x100000 0x3000 0x3000 (Z.lor MREMAP_MAYMOVE MREMAP_FIXED) 0x200000 (mkProcess three three_host 0) in
  match r with Ok (v, _) => exists err, 0 < err < 4096 /\ v = error err | _ => False end.
Proof.
  intros r. destruct r as [[v p']| |] eqn:E; [|vm_compute in E; discriminate..].
  destruct (host_mremap 0x100000 0x3000 0x3000 (Z.lor MREMAP_MAYMOVE MREMAP_FIXED) 0x200000 three_host) as [[w|e] k1] eqn:Eh; [|vm_compute in Eh; discriminate].
  apply (mremap_fixed_fails 1 three three_host 0 0x100 0x200 0x3000 0x3000 (Z.lor MREMAP_MAYMOVE MREMAP_FIXED) w k1 v p').
  - lia.
  - lia.
  - vm_compute. discriminate.
  - vm_compute. discriminate.
  - vm_compute. discriminate.
  - vm_compute. discriminate.
  - apply elem_of_disjoint. intros p Hp%elem_of_pages Hq%elem_of_pages. change (PageLength 0x3000) with 3 in *. lia.
  - exact three_ok.
  - reflexivity.
  - reflexivity.
  - exact Eh.
  - exact E.
Defined.

Lemma shmat_hangs_witness : exists at_ e',
  rounds (shmat_round 7 0 1) 4096%nat (TOP_KEY, false) fresh = Ok (inr at_, mkProcess new_MemAllocator32Bit (∅ : gset Z) e').
Proof.
  apply (shmat_hangs new_MemAllocator32Bit (∅ : gset Z) 0 7 0 1 EACCES).
  - exact new_ok.
  - lia.
  - intros Hno. apply (Hno 100); [keys; lia|lia|]. intros p Hp. apply fresh_free. keys. lia.
  - reflexivity.
Defined.
