(* ===== verification/Alloc64.v ===== *)
(** * The allocator of the 64-bit address space

    [Utils/Allocator/64BitAllocator.cpp], class [OSAllocator_64Bit], and the hooks
    of [Utils/Allocator.cpp]: FEX reserves every hole of the address space above
    four gigabytes; an allocation makes a reserved region live, which puts a header
    and a bit set of its used pages at the start of the region itself, and looks
    for a run of free pages in the bit sets. The host's system calls are
    parameters. *)
From Stdlib Require Import ZArith Lia Bool.
From stdpp Require Import base gmap list numbers option.
From S2P Require Import Prelude Pages Alloc32.
#[local] Open Scope Z_scope.

(** ** [FlexBitSet<uint64_t>] *)

(** [Memory]: the words that are not zero, by index. *)
Definition FlexBitSet : Type := gmap Z Z.
Definition MinimumSize : Z := 8.
Definition MinimumSizeBits : Z := MinimumSize * 8.

Definition Memory (m : FlexBitSet) (i : Z) : Z := default 0 (m !! i).
Definition Get (m : FlexBitSet) (Element : Z) : bool :=
  negb (Z.land (Memory m (Element / MinimumSizeBits)) (Z.shiftl 1 (Element mod MinimumSizeBits)) =? 0).
Definition Clear (m : FlexBitSet) (Element : Z) : FlexBitSet :=
  <[Element / MinimumSizeBits :=
      Z.land (Memory m (Element / MinimumSizeBits)) (uint 64 (Z.lnot (Z.shiftl 1 (Element mod MinimumSizeBits))))]> m.
Definition TestAndClear (m : FlexBitSet) (Element : Z) : bool * FlexBitSet := (Get m Element, Clear m Element).
Definition Set_ (m : FlexBitSet) (Element : Z) : FlexBitSet :=
  <[Element / MinimumSizeBits :=
      Z.lor (Memory m (Element / MinimumSizeBits)) (Z.shiftl 1 (Element mod MinimumSizeBits))]> m.

(** [memset] with a byte that makes the word [v], over a number of bytes that is a
    multiple of the word. *)
Fixpoint fill_words (m : FlexBitSet) (v : Z) (n : nat) : FlexBitSet :=
  match n with
  | O => m
  | S n => <[Z.of_nat n := v]> (fill_words m v n)
  end.
(** The bytes that [MemClear], [MemSet] and [Size] compute for a number of elements. *)
Definition Size (Elements : Z) : Z := AlignUp (Elements / MinimumSizeBits) MinimumSizeBits.
Definition MemClear (m : FlexBitSet) (Elements : Z) : FlexBitSet :=
  fill_words m 0 (Z.to_nat (Size Elements / MinimumSize)).
Definition MemSet (m : FlexBitSet) (Elements : Z) : FlexBitSet :=
  fill_words m (Z.ones 64) (Z.to_nat (Size Elements / MinimumSize)).

(** ** What the operations do to the elements *)

(** Two arrays that hold the same set. *)
Definition same_bits (m m' : FlexBitSet) : Prop := forall e, 0 <= e -> Get m e = Get m' e.
#[export] Instance same_bits_equiv : Equivalence same_bits.
Proof.
  split.
  - intros m e _. reflexivity.
  - intros m m' H e He. symmetry. apply H, He.
  - intros m m' m'' H1 H2 e He. etransitivity; [apply H1|apply H2]; exact He.
Qed.

Lemma land_bit_zero x k : 0 <= k -> (Z.land x (Z.shiftl 1 k) =? 0) = negb (Z.testbit x k).
Proof.
  intros Hk. rewrite Z.shiftl_1_l. destruct (Z.testbit x k) eqn:B.
  - apply Z.eqb_neq. intros E. assert (Z.testbit (Z.land x (2 ^ k)) k = false) as F by (rewrite E; apply Z.bits_0).
    rewrite Z.land_spec, B, Z.pow2_bits_true in F by lia. discriminate.
  - apply Z.eqb_eq, Z.bits_inj'. intros i Hi. rewrite Z.land_spec, Z.bits_0. destruct (decide (i = k)) as [->|].
    + rewrite B. reflexivity.
    + rewrite Z.pow2_bits_false by lia. apply andb_false_r.
Qed.
Lemma Get_testbit m e : Get m e = Z.testbit (Memory m (e / 64)) (e mod 64).
Proof.
  unfold Get, MinimumSizeBits, MinimumSize. change (8 * 8) with 64.
  rewrite land_bit_zero, negb_involutive by (apply Z.mod_pos_bound; lia). reflexivity.
Qed.

Lemma Memory_insert m i j v : Memory (<[i := v]> m) j = if decide (i = j) then v else Memory m j.
Proof. unfold Memory, FlexBitSet in *. destruct (decide (i = j)) as [->|]; [rewrite lookup_insert_eq|rewrite lookup_insert_ne by assumption]; reflexivity. Qed.
Lemma same_element e e' : e / 64 = e' / 64 -> e mod 64 = e' mod 64 -> e = e'.
Proof. intros. rewrite (Z.div_mod e 64), (Z.div_mod e' 64) by lia. congruence. Qed.

Lemma Get_Set m e e' : Get (Set_ m e) e' = bool_decide (e = e') || Get m e'.
Proof.
  unfold Set_. change MinimumSizeBits with 64. rewrite !Get_testbit, Memory_insert, Z.shiftl_1_l. pose proof (Z.mod_pos_bound e 64 ltac:(lia)).
  pose proof (Z.mod_pos_bound e' 64 ltac:(lia)).
  destruct (decide (e / 64 = e' / 64)) as [E|E].
  - rewrite Z.lor_spec, E. case_bool_decide as D.
    + subst e'. rewrite Z.pow2_bits_true by lia. apply orb_true_r.
    + rewrite Z.pow2_bits_false by (intros ?; apply D, same_element; congruence). rewrite orb_false_r. reflexivity.
  - case_bool_decide as D; [congruence|reflexivity].
Qed.
Lemma Get_Clear m e e' : Get (Clear m e) e' = negb (bool_decide (e = e')) && Get m e'.
Proof.
  unfold Clear. change MinimumSizeBits with 64. rewrite !Get_testbit, Memory_insert, Z.shiftl_1_l. pose proof (Z.mod_pos_bound e 64 ltac:(lia)).
  pose proof (Z.mod_pos_bound e' 64 ltac:(lia)).
  destruct (decide (e / 64 = e' / 64)) as [E|E].
  - rewrite Z.land_spec, E, testbit_uint, Z.lnot_spec by lia. replace (e' mod 64 <? 64) with true by (symmetry; apply Z.ltb_lt; lia).
    case_bool_decide as D.
    + subst e'. rewrite Z.pow2_bits_true by lia. apply andb_false_r.
    + rewrite Z.pow2_bits_false by (intros ?; apply D, same_element; congruence). apply andb_true_r.
  - case_bool_decide as D; [congruence|reflexivity].
Qed.

Lemma Memory_fill v n : forall m i, 0 <= i -> Memory (fill_words m v n) i = if i <? Z.of_nat n then v else Memory m i.
Proof.
  induction n as [|n IH]; intros m i Hi; cbn [fill_words].
  - destruct (Z.ltb_spec i (Z.of_nat 0)); [lia|reflexivity].
  - rewrite Memory_insert, IH by exact Hi. destruct (decide (Z.of_nat n = i)), (Z.ltb_spec i (Z.of_nat n)), (Z.ltb_spec i (Z.of_nat (S n))); try lia; reflexivity.
Qed.

(** The elements that [MemSet] really sets. *)
Definition filled (Elements : Z) : Z := 8 * Size Elements.
Lemma Size_eq n : 0 <= n < 2 ^ 60 -> Size n = 64 * ((n / 64 + 63) / 64).
Proof.
  intros Hn. unfold Size, AlignUp, MinimumSizeBits, MinimumSize. change (8 * 8) with 64.
  assert (0 <= n / 64 <= n) by (split; [apply Z.div_pos|apply Z.div_le_upper_bound]; lia). set (q := n / 64) in *.
  pose proof (Z.mod_pos_bound q 64 ltac:(lia)). pose proof (Z.mod_pos_bound (64 - q mod 64) 64 ltac:(lia)).
  rewrite uint_small by lia. pose proof (Z.div_mod q 64 ltac:(lia)). destruct (decide (q mod 64 = 0)) as [E|E].
  - rewrite E. change ((64 - 0) mod 64) with 0. replace ((q + 63) / 64) with (q / 64); [lia|].
    apply Z.div_unique with (r := 63); lia.
  - rewrite (Z.mod_small (64 - q mod 64)) by lia. replace ((q + 63) / 64) with (q / 64 + 1); [lia|].
    apply Z.div_unique with (r := q mod 64 - 1); lia.
Qed.
Lemma Get_MemSet m n e : 0 <= n < 2 ^ 60 -> 0 <= e -> Get (MemSet m n) e = (e <? filled n) || Get m e.
Proof.
  intros Hn He. unfold MemSet, filled, MinimumSize. rewrite !Get_testbit, Memory_fill by (apply Z.div_pos; lia).
  rewrite Size_eq by exact Hn. set (c := (n / 64 + 63) / 64). assert (0 <= c) by (apply Z.div_pos; [pose proof (Z.div_pos n 64)|]; lia).
  replace (64 * c / 8) with (8 * c) by (rewrite <- (Z.div_mul (8 * c) 8) by lia; f_equal; lia). rewrite Z2Nat.id by lia.
  assert (e / 64 < 8 * c <-> e < 8 * (64 * c)) as Hiff.
  { pose proof (Z.div_mod e 64 ltac:(lia)). pose proof (Z.mod_pos_bound e 64 ltac:(lia)). lia. }
  destruct (Z.ltb_spec (e / 64) (8 * c)), (Z.ltb_spec e (8 * (64 * c))); try lia; cbn [orb]; [|reflexivity].
  pose proof (Z.mod_pos_bound e 64 ltac:(lia)). apply Z.ones_spec_low. lia.
Qed.

(** ** Regions *)

Definition LOWER_BOUND : Z := 0x100000000.

Record ReservedVMARegion := mkReserved { Base : Z; RegionSize : Z }.
Record LiveVMARegion := mkLive {
  SlabInfo : ReservedVMARegion;
  FreeSpace : Z;
  LastPageAllocation : Z;
  UsedPages : FlexBitSet
}.
Record OSAllocator_64Bit := mkAlloc64 {
  ReservedRegions : list ReservedVMARegion;
  LiveRegions : list LiveVMARegion
}.

Definition sizeof_LiveVMARegion : Z := 4096.
Definition GetSizeWithFlexSet (Size_ : Z) : Z :=
  let NumElements := uint 64 (Z.shiftr Size_ FEX_PAGE_SHIFT * 8) in
  uint 64 (sizeof_LiveVMARegion + Size NumElements).
Definition SizeOfLiveRegion (Size_ : Z) : Z := AlignUp (GetSizeWithFlexSet Size_) FEX_PAGE_SIZE.

Definition RegionEnd (R : ReservedVMARegion) : Z := uint 64 (Base R + RegionSize R).
Definition RegionPages (R : ReservedVMARegion) : Z := Z.shiftr (RegionSize R) FEX_PAGE_SHIFT.

(** [MergeReservedRegionIfPossible]: the region that takes the next one in, if any. *)
Definition MaxReservedRegionSize : Z := 64 * 1024 * 1024 * 1024.
Definition MergeReservedRegionIfPossible (R : ReservedVMARegion) (NextPtr NextSize : Z) : option ReservedVMARegion :=
  let NewRegionSize := uint 64 (RegionSize R + NextSize) in
  if (RegionEnd R =? NextPtr) && (NewRegionSize <=? MaxReservedRegionSize)
  then Some (mkReserved (Base R) NewRegionSize) else None.

(** ** The scans of [CheckIfRangeFits], on the bit set of a region *)

(** The inner loop of the backward scan: the value of [Remaining] where it ends. *)
Fixpoint remaining_below (m : FlexBitSet) (CurrentPage : Z) (Remaining : nat) : nat :=
  match Remaining with
  | O => O
  | S r => if Get m (CurrentPage - Z.of_nat Remaining) then Remaining else remaining_below m CurrentPage r
  end.
(** [while (CurrentPage >= 1)]: back to the page after a used one. *)
Fixpoint back_to_used (m : FlexBitSet) (CurrentPage : nat) : nat :=
  match CurrentPage with
  | O => O
  | S p => if Get m (Z.of_nat p) then CurrentPage else back_to_used m p
  end.
Fixpoint scan_back (fuel : nat) (m : FlexBitSet) (CurrentPage NumberOfPages : Z) : outcome Z :=
  match fuel with
  | O => Undef
  | S fuel =>
      if NumberOfPages <=? CurrentPage then
        let Remaining := remaining_below m CurrentPage (Z.to_nat NumberOfPages) in
        if (Remaining =? 0)%nat then Ok (Z.of_nat (back_to_used m (Z.to_nat (CurrentPage - NumberOfPages))))
        else scan_back fuel m (CurrentPage - Z.of_nat Remaining) NumberOfPages
      else Ok 0
  end.
Fixpoint remaining_above (m : FlexBitSet) (CurrentPage : Z) (Remaining : nat) : nat :=
  match Remaining with
  | O => O
  | S r => if Get m (CurrentPage + Z.of_nat Remaining - 1) then Remaining else remaining_above m CurrentPage r
  end.
Fixpoint scan_forward (fuel : nat) (m : FlexBitSet) (CurrentPage NumberOfPages Pages : Z) : outcome Z :=
  match fuel with
  | O => Undef
  | S fuel =>
      if CurrentPage <? uint 64 (Pages - NumberOfPages) then
        _ ← throw_unless (uint 64 (CurrentPage + NumberOfPages - 1) <? Pages);
        let Remaining := remaining_above m CurrentPage (Z.to_nat NumberOfPages) in
        if (Remaining =? 0)%nat then Ok CurrentPage
        else scan_forward fuel m (CurrentPage + Z.of_nat Remaining) NumberOfPages Pages
      else Ok 0
  end.
(** Both scans: the page found, or zero. *)
Definition find_pages (m : FlexBitSet) (LastAllocation NumberOfPages Pages : Z) : outcome Z :=
  AllocatedPage ← scan_back (S (Z.to_nat LastAllocation)) m LastAllocation NumberOfPages;
  if AllocatedPage =? 0
  then scan_forward (S (Z.to_nat Pages)) m LastAllocation NumberOfPages Pages
  else Ok AllocatedPage.

(** ** Calls *)

(** Two more calls of the host: [mprotect], and [madvise], whose result is not
    looked at. *)
Class HostAdvice (K : Type) := {
  host_mprotect : Z -> Z -> Z -> K -> sysret * K;
  host_madvise : Z -> Z -> Z -> K -> K
}.
Definition MADV_WILLNEED : Z := 3.
Definition MADV_DONTNEED : Z := 4.

Section Calls.
Context {K : Type} `{HostMemory K, HostAdvice K}.

(** The allocator, the host and the thread's [errno]. *)
Record Process64 := mkProcess64 { Alloc64 : OSAllocator_64Bit; Host64 : K; errno64 : Z }.
Abbreviation A := (M Process64).

Definition get_alloc64 : A OSAllocator_64Bit := p ← get_state; mret (Alloc64 p).
Definition set_alloc64 (a : OSAllocator_64Bit) : A unit := modify (fun p => mkProcess64 a (Host64 p) (errno64 p)).
Definition get_errno64 : A Z := p ← get_state; mret (errno64 p).
Definition set_errno64 (e : Z) : A unit := modify (fun p => mkProcess64 (Alloc64 p) (Host64 p) e).
Definition syscall64 (call : K -> sysret * K) : A Z := fun p =>
match call (Host64 p) with
| (Ret v, k) => Ok (v, mkProcess64 (Alloc64 p) k (errno64 p))
| (Err e, k) => Ok (MAP_FAILED, mkProcess64 (Alloc64 p) k e)
end.
Definition madvise (addr length advice : Z) : A unit :=
modify (fun p => mkProcess64 (Alloc64 p) (host_madvise addr length advice (Host64 p)) (errno64 p)).

(** A pointer to a live region is its position: regions are only appended. *)
Definition get_live (i : nat) : A LiveVMARegion := a ← get_alloc64; lift (deref (LiveRegions a !! i)).
Definition set_live (i : nat) (R : LiveVMARegion) : A unit :=
a ← get_alloc64; set_alloc64 (mkAlloc64 (ReservedRegions a) (<[i := R]> (LiveRegions a))).

(** *** Making a reserved region live *)

(** The memory of the region is zero: no page is used before [MemSet]. *)
Definition InitializeVMARegionUsed (SlabInfo_ : ReservedVMARegion) (AdditionalSize : Z) : A LiveVMARegion :=
let SizePlusManagedData := uint 64 (SizeOfLiveRegion (RegionSize SlabInfo_) + AdditionalSize) in
let FreeSpace_ := uint 64 (RegionSize SlabInfo_ - SizePlusManagedData) in
let NumPages := Z.shiftr SizePlusManagedData FEX_PAGE_SHIFT in
let Memory_ := uint 64 (Base SlabInfo_ + sizeof_LiveVMARegion) in
_ ← madvise (uint 64 (Memory_ + NumPages * 4096 * 8)) (uint 64 (RegionPages SlabInfo_ - NumPages * 4096)) MADV_DONTNEED;
_ ← madvise Memory_ (uint 64 (NumPages * 4096)) MADV_WILLNEED;
mret (mkLive SlabInfo_ FreeSpace_ (uint 32 NumPages) (MemSet ∅ NumPages)).

Definition MakeRegionActive (it : nat) (UsedSize : Z) : A nat :=
a ← get_alloc64;
ReservedRegion ← lift (deref (ReservedRegions a !! it));
_ ← set_alloc64 (mkAlloc64 (delete it (ReservedRegions a)) (LiveRegions a));
let SizePlusManagedData := uint 64 (UsedSize + SizeOfLiveRegion (RegionSize ReservedRegion)) in
Res ← syscall64 (host_mprotect (Base ReservedRegion) SizePlusManagedData (Z.lor PROT_READ PROT_WRITE));
_ ← check (Res =? 0);
R ← InitializeVMARegionUsed ReservedRegion UsedSize;
a ← get_alloc64;
_ ← set_alloc64 (mkAlloc64 (ReservedRegions a) (LiveRegions a ++ [R]));
mret (length (LiveRegions a)).

(** *** [Mmap] *)

(** The two loops that look for the region of an address. *)
Definition in_live (Addr : Z) (R : LiveVMARegion) : bool :=
(Base (SlabInfo R) <=? Addr) && (Addr <? RegionEnd (SlabInfo R)).
Definition in_reserved (Addr AddrEnd : Z) (R : ReservedVMARegion) : bool :=
(Base R <=? Addr) && (AddrEnd <? RegionEnd R).
Fixpoint find_index {B} (f : B -> bool) (l : list B) : option nat :=
match l with
| [] => None
| x :: l => if f x then Some O else S <$> find_index f l
end.
Definition find_region (Addr AddrEnd : Z) : A (option nat) :=
a ← get_alloc64;
match find_index (in_live Addr) (LiveRegions a) with
| Some i => mret (Some i)
| None =>
match find_index (in_reserved Addr AddrEnd) (ReservedRegions a) with
| Some it => i ← MakeRegionActive it 0; mret (Some i)
| None => mret None
end
end.

Definition fixed_flags (flags : Z) : Z := Z.lor (Z.land flags (Z.lnot MAP_FIXED_NOREPLACE)) MAP_FIXED.

(** The pair that the lambda returns, and [AllocatedOffset], which it captures. *)
Definition CheckIfRangeFits (AllocatedOffset : Z) (Region : nat) (length prot flags fd offset StartingPosition : Z)
: A (option nat * Z * Z) :=
R ← get_live Region;
if length <=? FreeSpace R then
let NumberOfPages := Z.shiftr length FEX_PAGE_SHIFT in
let LastAllocation :=
  if StartingPosition =? 0 then LastPageAllocation R
  else Z.shiftr (uint 64 (StartingPosition - Base (SlabInfo R))) FEX_PAGE_SHIFT in
AllocatedPage ← lift (find_pages (UsedPages R) LastAllocation NumberOfPages (RegionPages (SlabInfo R)));
if AllocatedPage =? 0 then mret (None, 0, AllocatedOffset)
else
  let AllocatedOffset := uint 64 (Base (SlabInfo R) + AllocatedPage * FEX_PAGE_SIZE) in
  MMapResult ← syscall64 (host_mmap AllocatedOffset length prot (fixed_flags flags) fd offset);
  if MMapResult =? MAP_FAILED then e ← get_errno64; mret (Some Region, error e, AllocatedOffset)
  else mret (Some Region, MMapResult, AllocatedOffset)
else mret (None, 0, AllocatedOffset).

(** [Fits.first && Fits.second == p] *)
Definition fits_at (Fits : option nat * Z) (p : Z) : bool :=
match Fits.1 with Some _ => Fits.2 =? p | None => false end.

(** A fixed request: [inl] is a return, [inr] the region and the offset to mark. *)
Definition place_fixed (LiveRegion : option nat) (Addr length prot flags fd offset : Z) : A (Z + option nat * Z) :=
match LiveRegion with
| None => mret (inr (None, 0))
| Some Region =>
if has flags MAP_FIXED_NOREPLACE then
  r ← CheckIfRangeFits 0 Region length prot flags fd offset Addr;
  let '(first, second, AllocatedOffset) := r in
  if fits_at (first, second) Addr then mret (inr (LiveRegion, Addr)) else mret (inl (error EEXIST))
else
  MMapResult ← syscall64 (host_mmap Addr length prot (fixed_flags flags) fd offset);
  if MMapResult =? MAP_FAILED then e ← get_errno64; mret (inl (error e))
  else mret (inr (LiveRegion, Addr))
end.

(** The loop over the live regions, from position [i] on: a return, or the region
  that fits and [AllocatedOffset]. *)
Fixpoint try_live (AllocatedOffset : Z) (i n : nat) (length prot flags fd offset : Z) : A (Z + option nat * Z) :=
match n with
| O => mret (inr (None, AllocatedOffset))
| S n =>
r ← CheckIfRangeFits AllocatedOffset i length prot flags fd offset 0;
let '(first, second, AllocatedOffset) := r in
if fits_at (first, second) AllocatedOffset then mret (inr (first, AllocatedOffset))
else
match first with
| None => if second =? 0 then try_live AllocatedOffset (S i) n length prot flags fd offset else mret (inl second)
| Some _ => try_live AllocatedOffset (S i) n length prot flags fd offset
end
end.

(** A request at no fixed address, from the label [again] on. Each jump there takes
  a reserved region away. *)
Fixpoint place_anywhere (fuel : nat) (LiveRegion : option nat) (AllocatedOffset Addr length prot flags fd offset : Z)
: A (Z + option nat * Z) :=
match fuel with
| O => fun _ => Undef
| S fuel =>
r ← match LiveRegion with
    | Some Region =>
        if negb (Addr =? 0) then
          r ← CheckIfRangeFits AllocatedOffset Region length prot flags fd offset Addr;
          let '(first, second, AllocatedOffset) := r in
          if fits_at (first, second) Addr then mret (LiveRegion, Addr) else mret (None, AllocatedOffset)
        else mret (LiveRegion, AllocatedOffset)
    | None => mret (None, AllocatedOffset)
    end;
let '(LiveRegion, AllocatedOffset) := (r : option nat * Z) in
match LiveRegion with
| Some _ => mret (inr (LiveRegion, AllocatedOffset))
| None =>
  a ← get_alloc64;
  r ← try_live AllocatedOffset 0 (Datatypes.length (LiveRegions a)) length prot flags fd offset;
  match r with
  | inl v => mret (inl v)
  | inr (Some i, AllocatedOffset) => mret (inr (Some i, AllocatedOffset))
  | inr (None, AllocatedOffset) =>
    let lengthPlusManagedData := uint 64 (length + SizeOfLiveRegion length) in
    a ← get_alloc64;
    match find_index (fun R => lengthPlusManagedData <=? RegionSize R) (ReservedRegions a) with
    | Some it =>
      _ ← MakeRegionActive it 0;
      place_anywhere fuel None AllocatedOffset Addr length prot flags fd offset
    | None => mret (inr (None, AllocatedOffset))
    end
  end
end
end.

Fixpoint set_pages (m : FlexBitSet) (MappedBegin : Z) (n : nat) : FlexBitSet :=
match n with
| O => m
| S n => set_pages (Set_ m MappedBegin) (MappedBegin + 1) n
end.
Definition mark_used (i : nat) (AllocatedOffset length : Z) : A unit :=
R ← get_live i;
let NumberOfPages := length / FEX_PAGE_SIZE in
let MappedBegin := Z.shiftr (uint 64 (AllocatedOffset - Base (SlabInfo R))) FEX_PAGE_SHIFT in
set_live i (mkLive (SlabInfo R) (uint 64 (FreeSpace R - length)) (uint 32 (MappedBegin + NumberOfPages))
(set_pages (UsedPages R) MappedBegin (Z.to_nat NumberOfPages))).

Definition finish (LiveRegion : option nat) (AllocatedOffset length : Z) : A Z :=
_ ← match LiveRegion with Some i => mark_used i AllocatedOffset length | None => mret tt end;
mret (if AllocatedOffset =? 0 then error ENOMEM else AllocatedOffset).

Definition Mmap (Addr length prot flags fd offset : Z) : A Z :=
if negb (Addr =? 0) && (Addr <? LOWER_BOUND) then syscall64 (host_mmap Addr length prot flags fd offset)
else if negb (page_offset_bits Addr =? 0) then mret (error EINVAL)
else if negb (fd =? -1) && negb (page_offset_bits offset =? 0) then mret (error EINVAL)
else if uint 64 (Addr + length) <? Addr then mret (error EOVERFLOW)
else
let Fixed := has flags MAP_FIXED || has flags MAP_FIXED_NOREPLACE in
let length := AlignUp length FEX_PAGE_SIZE in
let AddrEnd := uint 64 (Addr + length) in
LiveRegion ← (if Fixed || negb (Addr =? 0) then find_region Addr AddrEnd else mret None);
a ← get_alloc64;
r ← (if Fixed then place_fixed LiveRegion Addr length prot flags fd offset
   else place_anywhere (S (Datatypes.length (ReservedRegions a))) LiveRegion 0 Addr length prot flags fd offset);
match r with
| inl v => mret v
| inr (LiveRegion, AllocatedOffset) => finish LiveRegion AllocatedOffset length
end.

(** *** [Munmap] *)

Fixpoint clear_pages (m : FlexBitSet) (FreedPages SlabPage : Z) (n : nat) : Z * FlexBitSet :=
match n with
| O => (FreedPages, m)
| S n =>
let '(was, m) := TestAndClear m SlabPage in
clear_pages m (FreedPages + if was then 1 else 0) (SlabPage + 1) n
end.
(** The region holds the whole range. *)
Definition encompasses (PtrBegin PtrEnd : Z) (R : LiveVMARegion) : bool :=
(Base (SlabInfo R) <=? PtrBegin) && (PtrEnd <? RegionEnd (SlabInfo R)).
Definition Munmap (addr length : Z) : A Z :=
if addr <? LOWER_BOUND then
Result ← syscall64 (host_munmap addr length); mret (sint 32 Result)
else if negb (page_offset_bits addr =? 0) then mret (- EINVAL)
else if negb (page_offset_bits length =? 0) then mret (- EINVAL)
else if uint 64 (addr + length) <? addr then mret (- EOVERFLOW)
else
let length := AlignUp length FEX_PAGE_SIZE in
let PtrEnd := uint 64 (addr + length) in
a ← get_alloc64;
match find_index (encompasses addr PtrEnd) (LiveRegions a) with
| None => mret 0
| Some i =>
R ← get_live i;
let SlabPageBegin := uint 32 (Z.shiftr (addr - Base (SlabInfo R)) FEX_PAGE_SHIFT) in
let PagesToFree := Z.shiftr length FEX_PAGE_SHIFT in
let '(FreedPages, Used) := clear_pages (UsedPages R) 0 SlabPageBegin (Z.to_nat PagesToFree) in
_ ← (if negb (FreedPages =? 0) then
       _ ← madvise addr length MADV_DONTNEED;
       _ ← syscall64 (host_mmap addr length PROT_NONE (Z.lor (Z.lor MAP_PRIVATE MAP_ANONYMOUS) MAP_FIXED) (-1) 0);
       mret tt
     else mret tt);
_ ← set_live i (mkLive (SlabInfo R) (uint 64 (FreeSpace R + FreedPages * 4096))
                  (Z.min (LastPageAllocation R) SlabPageBegin) Used);
mret 0
end.

(** *** The hooks of [Allocator.cpp] *)

Definition FEX_mmap (addr length prot flags fd offset : Z) : A Z :=
Result ← Mmap addr length prot flags fd offset;
if uint 64 (- 4096) <=? Result then
_ ← set_errno64 (sint 32 (uint 64 (- Result)));
mret MAP_FAILED
else mret Result.
Definition FEX_munmap (addr length : Z) : A Z :=
Result ← Munmap addr length;
if negb (Result =? 0) then
_ ← set_errno64 (- Result);
mret (-1)
else mret Result.
End Calls.
