(* ===== verification/Alloc64Logic.v ===== *)
(** * Lemmas on the 64-bit allocator

    The scans as statements on runs of free pages, the size of a region's header,
    the invariant of the regions, and what each part of an allocation does. *)
From Stdlib Require Import ZArith Lia Bool.
From stdpp Require Import base gmap list numbers option.
From S2P Require Import Prelude Pages Alloc32 Alloc64.
#[local] Open Scope Z_scope.

(** ** Runs of free pages *)

Definition free_run (m : FlexBitSet) (p n : Z) : Prop := forall i, p <= i < p + n -> Get m i = false.

Lemma free_run_sub m p n q k : free_run m p n -> p <= q -> q + k <= p + n -> free_run m q k.
Proof. intros H Hq Hk i Hi. apply H. lia. Qed.

Lemma remaining_below_spec m C n : let r := Z.of_nat (remaining_below m C n) in
  (r = 0 /\ free_run m (C - Z.of_nat n) (Z.of_nat n)) \/
  (0 < r <= Z.of_nat n /\ Get m (C - r) = true).
Proof.
  induction n as [|n IH]; cbn [remaining_below].
  - left. split; [reflexivity|]. intros i Hi. lia.
  - destruct (Get m (C - Z.of_nat (S n))) eqn:G.
    + right. split; [lia|exact G].
    + destruct IH as [[E Hf]|[Hr Hg]].
      * left. split; [exact E|]. intros i Hi. destruct (decide (i = C - Z.of_nat (S n))) as [->|]; [exact G|apply Hf; lia].
      * right. split; [lia|exact Hg].
Qed.
Lemma remaining_above_spec m C n : let r := Z.of_nat (remaining_above m C n) in
  (r = 0 /\ free_run m C (Z.of_nat n)) \/ (0 < r <= Z.of_nat n /\ Get m (C + r - 1) = true).
Proof.
  induction n as [|n IH]; cbn [remaining_above].
  - left. split; [reflexivity|]. intros i Hi. lia.
  - destruct (Get m (C + Z.of_nat (S n) - 1)) eqn:G.
    + right. split; [lia|exact G].
    + destruct IH as [[E Hf]|[Hr Hg]].
      * left. split; [exact E|]. intros i Hi. destruct (decide (i = C + Z.of_nat n)) as [->|].
        -- rewrite <- G. f_equal. lia.
        -- apply Hf. lia.
      * right. split; [lia|exact Hg].
Qed.
Lemma back_to_used_spec m C : let r := Z.of_nat (back_to_used m C) in
  0 <= r <= Z.of_nat C /\ free_run m r (Z.of_nat C - r) /\ (r = 0 \/ Get m (r - 1) = true).
Proof.
  induction C as [|C IH]; cbn [back_to_used].
  - repeat split; try lia. intros i Hi. lia.
  - destruct (Get m (Z.of_nat C)) eqn:G.
    + repeat split; try lia.
      * intros i Hi. lia.
      * right. rewrite <- G. f_equal. lia.
    + destruct IH as (Hr & Hf & He). repeat split; try lia; [|exact He].
      intros i Hi. destruct (decide (i = Z.of_nat C)) as [->|]; [exact G|apply Hf; lia].
Qed.

(** A run of [n] free pages that ends at [C] or below; one that starts at [C] or
    above and ends before the last page. *)
Definition run_below (m : FlexBitSet) (C n r : Z) : Prop := 0 <= r /\ r + n <= C /\ free_run m r n.
Definition run_above (m : FlexBitSet) (C n P r : Z) : Prop := C <= r /\ r + n < P /\ free_run m r n.

Lemma scan_back_spec m n fuel : 0 < n -> forall C, 0 <= C -> (Z.to_nat C < fuel)%nat ->
  exists r, scan_back fuel m C n = Ok r /\
    (r = 0 /\ (forall s, ~ run_below m C n s) \/
     run_below m C n r /\ (r = 0 \/ Get m (r - 1) = true)).
Proof.
  intros Hn. induction fuel as [|fuel IH]; intros C HC Hf; [lia|]. cbn [scan_back].
  destruct (Z.leb_spec n C) as [Hle|Hlt].
  2:{ exists 0. split; [reflexivity|left]. split; [reflexivity|]. intros s (H0 & H1 & _). lia. }
  pose proof (remaining_below_spec m C (Z.to_nat n)) as HR. cbv zeta in HR. rewrite (Z2Nat.id n) in HR by lia.
  set (rem := remaining_below m C (Z.to_nat n)) in *. destruct HR as [[E Hfree]|[Hr Hg]].
  - assert (rem = 0)%nat as -> by lia. change (0 =? 0)%nat with true. cbv iota.
    pose proof (back_to_used_spec m (Z.to_nat (C - n))) as HB. cbv zeta in HB. rewrite (Z2Nat.id (C - n)) in HB by lia.
    destruct HB as (Hb & Hf2 & He). eexists. split; [reflexivity|right]. split; [|exact He].
    split; [lia|]. split; [lia|]. intros i Hi. destruct (Z.ltb_spec i (C - n)); [apply Hf2|apply Hfree]; lia.
  - destruct (Nat.eqb_spec rem 0); [lia|]. destruct (IH (C - Z.of_nat rem)) as (r & Er & HI); [lia..|].
    exists r. split; [exact Er|]. destruct HI as [[-> Hno]|[(H0 & H1 & H2) He]]; [left|right].
    + split; [reflexivity|]. intros s (Hs0 & Hs1 & Hs2). apply (Hno s). split; [exact Hs0|]. split; [|exact Hs2].
      destruct (Z.leb_spec (s + n) (C - Z.of_nat rem)); [assumption|]. rewrite Hs2 in Hg by lia. discriminate.
    + split; [|exact He]. split; [exact H0|]. split; [lia|exact H2].
Qed.

Lemma scan_forward_spec m n P fuel : 0 < n <= P -> P < 2 ^ 62 -> forall C, 0 <= C <= P -> (Z.to_nat (P - C) < fuel)%nat ->
  exists r, scan_forward fuel m C n P = Ok r /\
    (r = 0 /\ (forall s, ~ run_above m C n P s) \/ run_above m C n P r).
Proof.
  intros Hn HP. induction fuel as [|fuel IH]; intros C HC Hf; [lia|]. cbn [scan_forward].
  rewrite (uint_small 64 (P - n)) by lia. destruct (Z.ltb_spec C (P - n)) as [Hlt|Hge].
  2:{ exists 0. split; [reflexivity|left]. split; [reflexivity|]. intros s (H0 & H1 & _). lia. }
  rewrite uint_small by lia. replace (C + n - 1 <? P) with true by (symmetry; apply Z.ltb_lt; lia). cbn [throw_unless mbind outcome_bind].
  pose proof (remaining_above_spec m C (Z.to_nat n)) as HR. cbv zeta in HR. rewrite (Z2Nat.id n) in HR by lia.
  set (rem := remaining_above m C (Z.to_nat n)) in *. destruct HR as [[E Hfree]|[Hr Hg]].
  - assert (rem = 0)%nat as -> by lia. change (0 =? 0)%nat with true. cbv iota. exists C. split; [reflexivity|right].
    split; [lia|]. split; [lia|exact Hfree].
  - destruct (Nat.eqb_spec rem 0); [lia|]. destruct (IH (C + Z.of_nat rem)) as (r & Er & HI); [lia..|].
    exists r. split; [exact Er|]. destruct HI as [[-> Hno]|(H0 & H1 & H2)]; [left|right].
    + split; [reflexivity|]. intros s (Hs0 & Hs1 & Hs2). apply (Hno s). split; [|split; assumption].
      destruct (Z.leb_spec (C + Z.of_nat rem) s); [assumption|]. rewrite Hs2 in Hg by lia. discriminate.
    + split; [lia|]. split; assumption.
Qed.

(** What both scans find: a run below comes first, right after a used page. With
    the first page used, nothing is found only where there is no run. *)
Lemma find_pages_spec m L n P : 0 < n <= P -> P < 2 ^ 62 -> 0 <= L <= P ->
  exists r, find_pages m L n P = Ok r /\ 0 <= r /\
    (r <> 0 -> run_below m L n r /\ Get m (r - 1) = true \/ run_above m L n P r) /\
    (Get m 0 = true -> r = 0 -> (forall s, ~ run_below m L n s) /\ (forall s, ~ run_above m L n P s)) /\
    (Get m 0 = true -> forall s, run_below m L n s -> r <> 0 /\ run_below m L n r /\ Get m (r - 1) = true).
Proof.
  intros Hn HP HL. unfold find_pages. destruct (scan_back_spec m n (S (Z.to_nat L)) ltac:(lia) L ltac:(lia) ltac:(lia)) as (r & -> & HB).
  cbn [mbind outcome_bind]. destruct (Z.eqb_spec r 0) as [->|Hr].
  - destruct (scan_forward_spec m n P (S (Z.to_nat P)) Hn HP L HL ltac:(lia)) as (r & -> & HF). exists r. split; [reflexivity|].
    assert (Get m 0 = true -> forall s, ~ run_below m L n s) as Hno.
    { intros H0. destruct HB as [[_ HB]|[(_ & Hle & Hf) _]]; [exact HB|]. rewrite Hf in H0 by lia. discriminate. }
    split; [destruct HF as [[-> _]|[? _]]; lia|]. split; [|split].
    + intros Hr. right. destruct HF as [[-> _]|HF]; [lia|exact HF].
    + intros H0 ->. split; [exact (Hno H0)|]. destruct HF as [[_ HF]|(_ & _ & Hf)]; [exact HF|]. rewrite Hf in H0 by lia. discriminate.
    + intros H0 s Hs. destruct (Hno H0 s Hs).
  - exists r. split; [reflexivity|]. destruct HB as [[? _]|[HB [?|He]]]; [lia..|]. split; [apply HB|]. split; [auto|]. split; [lia|]. auto.
Qed.

(** ** Sizes *)

Lemma RegionPages_eq R : RegionPages R = RegionSize R / FEX_PAGE_SIZE.
Proof. unfold RegionPages. rewrite Z.shiftr_div_pow2 by (unfold FEX_PAGE_SHIFT; lia). reflexivity. Qed.

(** The pages of the header of a region of [P] pages: the record and the bits. *)
Definition header_pages (P : Z) : Z := 1 + (64 * ((P / 8 + 63) / 64) + 4095) / 4096.
Lemma SizeOfLiveRegion_eq S : 0 <= S < 2 ^ 58 -> SizeOfLiveRegion S = header_pages (S / FEX_PAGE_SIZE) * FEX_PAGE_SIZE.
Proof.
  intros HS. unfold SizeOfLiveRegion, GetSizeWithFlexSet, sizeof_LiveVMARegion. rewrite Z.shiftr_div_pow2 by (unfold FEX_PAGE_SHIFT; lia).
  change (2 ^ FEX_PAGE_SHIFT) with FEX_PAGE_SIZE. unfold FEX_PAGE_SIZE. set (P := S / 4096).
  assert (0 <= P < 2 ^ 46) by (split; [apply Z.div_pos|apply Z.div_lt_upper_bound]; lia).
  rewrite (uint_small 64 (P * 8)), Size_eq by lia. replace (P * 8 / 64) with (P / 8) by (rewrite <- (Z.div_mul_cancel_r P 8 8) by lia; reflexivity).
  unfold header_pages. assert (0 <= P / 8 <= P) by (split; [apply Z.div_pos|apply Z.div_le_upper_bound]; lia).
  set (w := (P / 8 + 63) / 64). assert (0 <= w <= P / 8 + 63) by (split; [apply Z.div_pos|apply Z.div_le_upper_bound]; lia).
  rewrite (uint_small 64 (4096 + 64 * w)) by lia.
  destruct (AlignUp_range (4096 + 64 * w) ltac:(lia)) as [Hm Hr]; [unfold FEX_PAGE_SIZE; lia|]. unfold FEX_PAGE_SIZE in *.
  pose proof (Z.div_mod (AlignUp (4096 + 64 * w) 4096) 4096 ltac:(lia)) as Hd. rewrite Hm in Hd.
  rewrite Hd, Z.add_0_r, Z.mul_comm. f_equal.
  pose proof (Z.div_mod (64 * w + 4095) 4096 ltac:(lia)). pose proof (Z.mod_pos_bound (64 * w + 4095) 4096 ltac:(lia)). lia.
Qed.
Lemma header_pages_range P : 0 < P < 2 ^ 58 -> 0 < header_pages P <= P.
Proof.
  intros HP. unfold header_pages. pose proof (Z.div_mod P 8 ltac:(lia)). pose proof (Z.mod_pos_bound P 8 ltac:(lia)).
  pose proof (Z.div_mod (P / 8 + 63) 64 ltac:(lia)). pose proof (Z.mod_pos_bound (P / 8 + 63) 64 ltac:(lia)).
  set (w := (P / 8 + 63) / 64) in *.
  pose proof (Z.div_mod (64 * w + 4095) 4096 ltac:(lia)). pose proof (Z.mod_pos_bound (64 * w + 4095) 4096 ltac:(lia)). lia.
Qed.

Lemma header_pages_small P : 0 < P < 2 ^ 45 -> header_pages P < 2 ^ 32.
Proof.
  intros HP. unfold header_pages. pose proof (Z.div_mod P 8 ltac:(lia)). pose proof (Z.mod_pos_bound P 8 ltac:(lia)).
  pose proof (Z.div_mod (P / 8 + 63) 64 ltac:(lia)). pose proof (Z.mod_pos_bound (P / 8 + 63) 64 ltac:(lia)).
  set (w := (P / 8 + 63) / 64) in *.
  pose proof (Z.div_mod (64 * w + 4095) 4096 ltac:(lia)). pose proof (Z.mod_pos_bound (64 * w + 4095) 4096 ltac:(lia)). lia.
Qed.

(** ** The invariant *)

(** A region is whole pages above four gigabytes, below 2^62. *)
Record region_ok (R : ReservedVMARegion) : Prop := {
  base_aligned : Base R mod FEX_PAGE_SIZE = 0;
  base_bound : LOWER_BOUND <= Base R;
  size_aligned : RegionSize R mod FEX_PAGE_SIZE = 0;
  size_bound : 0 < RegionSize R < 2 ^ 57;
  end_bound : Base R + RegionSize R < 2 ^ 62
}.
Record live_ok (R : LiveVMARegion) : Prop := {
  live_region : region_ok (SlabInfo R);
  live_last : 0 <= LastPageAllocation R <= RegionPages (SlabInfo R);
  live_full : LastPageAllocation R < RegionPages (SlabInfo R) \/ FreeSpace R = 0;
  live_free : 0 <= FreeSpace R <= RegionSize (SlabInfo R)
}.
Record alloc64_ok (a : OSAllocator_64Bit) : Prop := {
  reserved_ok i R : ReservedRegions a !! i = Some R -> region_ok R;
  live_regions_ok i R : LiveRegions a !! i = Some R -> live_ok R
}.

Lemma region_pages R : region_ok R -> RegionSize R = RegionPages R * FEX_PAGE_SIZE /\ 0 < RegionPages R < 2 ^ 45.
Proof.
  intros [_ _ Hs Hb _]. rewrite RegionPages_eq. unfold FEX_PAGE_SIZE in *. pose proof (Z.div_mod (RegionSize R) 4096 ltac:(lia)).
  assert (RegionSize R / 4096 < 2 ^ 45) by (apply Z.div_lt_upper_bound; lia). lia.
Qed.
Lemma uint_le w x : 0 <= x -> 0 <= uint w x <= x.
Proof.
  intros Hx. unfold uint. destruct (Z_lt_le_dec w 0) as [Hw|Hw].
  - rewrite Z.pow_neg_r, Z.mod_0_r by exact Hw. lia.
  - pose proof (pow2_pos w Hw). split; [apply Z.mod_pos_bound; lia|apply Z.mod_le; lia].
Qed.
Lemma RegionEnd_eq R : region_ok R -> RegionEnd R = Base R + RegionSize R.
Proof. intros [_ Hb _ Hs He]. unfold RegionEnd. apply uint_small. unfold LOWER_BOUND in *. lia. Qed.

Lemma find_index_Some {B} (f : B -> bool) l i : find_index f l = Some i -> exists x, l !! i = Some x /\ f x = true.
Proof.
  revert i. induction l as [|x l IH]; intros i E; cbn in E; [discriminate|]. destruct (f x) eqn:Ef.
  - injection E as <-. exists x. auto.
  - destruct (find_index f l) as [j|]; [|discriminate]. injection E as <-. apply IH. reflexivity.
Qed.
Lemma find_index_None {B} (f : B -> bool) l : find_index f l = None -> forall i x, l !! i = Some x -> f x = false.
Proof.
  induction l as [|x l IH]; intros E i y Hy; cbn in E; [discriminate|]. destruct (f x) eqn:Ef; [discriminate|].
  destruct (find_index f l); [discriminate|]. destruct i; cbn in Hy; [congruence|]. eapply IH; eauto.
Qed.

(** ** Making a region live *)

Definition fresh_live (R : ReservedVMARegion) : LiveVMARegion :=
  let H := header_pages (RegionPages R) in
  mkLive R (RegionSize R - H * FEX_PAGE_SIZE) (uint 32 H) (MemSet ∅ H).
Definition activate (it : nat) (R : ReservedVMARegion) (a : OSAllocator_64Bit) : OSAllocator_64Bit :=
  mkAlloc64 (delete it (ReservedRegions a)) (LiveRegions a ++ [fresh_live R]).

Lemma fresh_live_ok R : region_ok R -> live_ok (fresh_live R).
Proof.
  intros Hok. destruct (region_pages R Hok) as [E Hp]. pose proof (header_pages_range (RegionPages R) ltac:(lia)).
  pose proof (uint_le 32 (header_pages (RegionPages R)) ltac:(lia)).
  split; cbn [fresh_live SlabInfo LastPageAllocation FreeSpace]; [exact Hok|lia|..]; rewrite E; unfold FEX_PAGE_SIZE; lia.
Qed.
Lemma activate_ok it R a : alloc64_ok a -> ReservedRegions a !! it = Some R -> alloc64_ok (activate it R a).
Proof.
  intros [H1 H2] HR. split; cbn [activate ReservedRegions LiveRegions].
  - intros i S HS. destruct (decide (i < it)%nat).
    + rewrite list_lookup_delete_lt in HS by assumption. eauto.
    + rewrite list_lookup_delete_ge in HS by lia. eauto.
  - intros i L HL. apply lookup_app_Some in HL as [HL|[_ HL]]; [eauto|]. apply list_lookup_singleton_Some in HL as [_ <-].
    apply fresh_live_ok. eauto.
Qed.

(** Some reserved regions become live, one after the other. *)
Inductive activates : OSAllocator_64Bit -> OSAllocator_64Bit -> Prop :=
  | activates_refl a : activates a a
  | activates_step a it R a' : ReservedRegions a !! it = Some R -> activates (activate it R a) a' -> activates a a'.
Lemma activates_ok a a' : activates a a' -> alloc64_ok a -> alloc64_ok a'.
Proof. induction 1 as [|a it R a' HR _ IH]; intros Hok; [exact Hok|]. apply IH, activate_ok; assumption. Qed.
Lemma activates_trans a b c : activates a b -> activates b c -> activates a c.
Proof. induction 1; intros; [assumption|]. econstructor; eauto. Qed.

(** ** Marking pages *)

Lemma Get_set_pages n : forall m p e, Get (set_pages m p n) e = ((p <=? e) && (e <? p + Z.of_nat n)) || Get m e.
Proof.
  induction n as [|n IH]; intros m p e; cbn [set_pages].
  - destruct (Z.leb_spec p e), (Z.ltb_spec e (p + Z.of_nat 0)); cbn [andb orb]; reflexivity || lia.
  - rewrite IH, Get_Set, orb_assoc. f_equal. case_bool_decide; split_cmp; cbn [andb orb]; reflexivity || lia.
Qed.
Definition granted64 (r n : Z) (R : LiveVMARegion) : LiveVMARegion :=
  mkLive (SlabInfo R) (uint 64 (FreeSpace R - n * FEX_PAGE_SIZE)) (uint 32 (r + n)) (set_pages (UsedPages R) r (Z.to_nat n)).
Definition update_live (i : nat) (R : LiveVMARegion) (a : OSAllocator_64Bit) : OSAllocator_64Bit :=
  mkAlloc64 (ReservedRegions a) (<[i := R]> (LiveRegions a)).
Lemma update_live_ok i R a : alloc64_ok a -> live_ok R -> alloc64_ok (update_live i R a).
Proof.
  intros [H1 H2] HR. split; cbn; [eauto|]. intros j L HL. apply list_lookup_insert_Some in HL as [(_ & <- & _)|[_ HL]]; eauto.
Qed.
Lemma granted64_ok r n R : live_ok R -> 0 < n -> 0 <= r -> r + n < RegionPages (SlabInfo R) ->
  n * FEX_PAGE_SIZE <= FreeSpace R -> live_ok (granted64 r n R).
Proof.
  intros [Hr Hl _ Hf] Hn Hr0 Hle Hs. pose proof (size_bound _ Hr). pose proof (uint_le 32 (r + n) ltac:(lia)). split; cbn [granted64 SlabInfo LastPageAllocation FreeSpace]; [assumption|lia|lia|].
  unfold FEX_PAGE_SIZE in *. rewrite uint_small by lia. lia.
Qed.

(** ** The monadic steps *)

Section Steps.
Context {K : Type} `{HostMemory K, HostAdvice K}.
Implicit Types (a : OSAllocator_64Bit) (k : K).

Lemma get_alloc64_run {B} (f : OSAllocator_64Bit -> M (Process64 (K := K)) B) (p : Process64 (K := K)) : (get_alloc64 ≫= f) p = f (Alloc64 p) p.
Proof. destruct p. reflexivity. Qed.
Lemma get_live_run {B} (f : LiveVMARegion -> M (Process64 (K := K)) B) a k e i R : LiveRegions a !! i = Some R ->
  (get_live i ≫= f) (mkProcess64 a k e) = f R (mkProcess64 a k e).
Proof. intros HR. apply M_bind_Ok. unfold get_live. rewrite get_alloc64_run. cbn [Alloc64]. rewrite HR. reflexivity. Qed.
Lemma set_live_run i R (p : Process64 (K := K)) : set_live i R p = Ok (tt, mkProcess64 (update_live i R (Alloc64 p)) (Host64 p) (errno64 p)).
Proof. destruct p. reflexivity. Qed.

(** [mprotect] returns zero when it succeeds. *)
Definition protects : Prop := forall addr len prot k, exists k', host_mprotect addr len prot k = (Ret 0, k').

Lemma MakeRegionActive_run a k e it R : protects -> region_ok R -> ReservedRegions a !! it = Some R ->
  exists k', MakeRegionActive it 0 (mkProcess64 a k e) = Ok (length (LiveRegions a), mkProcess64 (activate it R a) k' e).
Proof.
  intros Hp Hok HR. destruct (region_pages R Hok) as [E Hpg]. pose proof (size_bound R Hok) as Hs.
  unfold MakeRegionActive. rewrite get_alloc64_run. cbn [Alloc64]. rewrite HR. cbn [deref].
  destruct (Hp (Base R) (uint 64 (0 + SizeOfLiveRegion (RegionSize R))) (Z.lor PROT_READ PROT_WRITE) k) as [k1 Ek].
  unfold set_alloc64, syscall64, madvise, InitializeVMARegionUsed, check, lift, modify, get_alloc64, get_state, mbind, M_bind, mret, M_ret.
  cbn [Alloc64 Host64 errno64]. rewrite Ek. cbn. eexists. do 3 f_equal. unfold activate, fresh_live. do 4 f_equal.
  all: pose proof (header_pages_range (RegionPages R) ltac:(lia)) as HH; set (h := header_pages (RegionPages R)) in *.
  all: rewrite SizeOfLiveRegion_eq, <- RegionPages_eq by lia; fold h; rewrite Z.add_0_r, (uint_small 64 (h * _)) by (unfold FEX_PAGE_SIZE; lia).
  all: rewrite ?Z.shiftr_div_pow2 by (unfold FEX_PAGE_SHIFT; lia); change (2 ^ FEX_PAGE_SHIFT) with FEX_PAGE_SIZE;
    rewrite ?Z.div_mul by (unfold FEX_PAGE_SIZE; lia).
  - apply uint_small. unfold FEX_PAGE_SIZE in *. lia.
  - reflexivity.
  - reflexivity.
Qed.

(** What [CheckIfRangeFits] finds in a region. *)
Definition LastAllocation (R : LiveVMARegion) (StartingPosition : Z) : Z :=
  if StartingPosition =? 0 then LastPageAllocation R else (StartingPosition - Base (SlabInfo R)) / FEX_PAGE_SIZE.
Definition no_room (R : LiveVMARegion) (StartingPosition n : Z) : Prop :=
  n * FEX_PAGE_SIZE <= FreeSpace R ->
  find_pages (UsedPages R) (LastAllocation R StartingPosition) n (RegionPages (SlabInfo R)) = Ok 0.
(** The page [r] is what is found. *)
Definition room_at (R : LiveVMARegion) (StartingPosition n r : Z) : Prop :=
  n * FEX_PAGE_SIZE <= FreeSpace R /\ 0 < r /\ r + n < RegionPages (SlabInfo R) /\ free_run (UsedPages R) r n /\
  find_pages (UsedPages R) (LastAllocation R StartingPosition) n (RegionPages (SlabInfo R)) = Ok r.
Definition page_at (R : LiveVMARegion) (r : Z) : Z := Base (SlabInfo R) + r * FEX_PAGE_SIZE.

Definition start_ok (R : LiveVMARegion) (StartingPosition : Z) : Prop :=
  StartingPosition = 0 \/ Base (SlabInfo R) <= StartingPosition < Base (SlabInfo R) + RegionSize (SlabInfo R).

Lemma LastAllocation_range R s : live_ok R -> start_ok R s -> 0 <= LastAllocation R s <= RegionPages (SlabInfo R) /\
  (LastAllocation R s < RegionPages (SlabInfo R) \/ FreeSpace R = 0).
Proof.
  intros [Hr Hl Hl2 _] Hs. destruct (region_pages _ Hr) as [E Hp]. pose proof (base_bound _ Hr) as Hb. unfold LastAllocation, LOWER_BOUND in *.
  destruct (Z.eqb_spec s 0) as [->|]; [auto|]. destruct Hs as [|Hs]; [lia|]. unfold FEX_PAGE_SIZE in *.
  assert ((s - Base (SlabInfo R)) / 4096 < RegionPages (SlabInfo R)) by (apply Z.div_lt_upper_bound; lia).
  split; [split; [apply Z.div_pos; lia|lia]|left; assumption].
Qed.

Lemma room_cases R s n : live_ok R -> start_ok R s -> 0 < n -> no_room R s n \/ exists r, room_at R s n r.
Proof.
  intros Hok Hs Hn. destruct (LastAllocation_range R s Hok Hs) as [[HL1 HL2] HL3]. destruct Hok as [Hr Hl Hl2 Hf].
  destruct (region_pages _ Hr) as [E Hp]. destruct (Z.leb_spec (n * FEX_PAGE_SIZE) (FreeSpace R)) as [Hle|Hlt]; [|left; unfold no_room; lia].
  assert (n <= RegionPages (SlabInfo R)) by (unfold FEX_PAGE_SIZE in *; lia).
  destruct (find_pages_spec (UsedPages R) (LastAllocation R s) n (RegionPages (SlabInfo R))) as (r & Er & Hr0 & Hrun & _ & _); [lia..|].
  destruct (decide (r = 0)) as [->|Hne]; [left; intros _; exact Er|right].
  exists r. destruct (Hrun Hne) as [[(? & ? & ?) _]|(? & ? & ?)]; split_and!; auto; unfold FEX_PAGE_SIZE in *; lia.
Qed.

Lemma CheckIfRangeFits_run a k e off i n prot flags fd offset s R :
  LiveRegions a !! i = Some R -> live_ok R -> start_ok R s -> 0 < n < 2 ^ 51 ->
  (no_room R s n /\ CheckIfRangeFits off i (n * FEX_PAGE_SIZE) prot flags fd offset s (mkProcess64 a k e)
                 = Ok ((None, 0, off), mkProcess64 a k e)) \/
  exists r, room_at R s n r /\
  CheckIfRangeFits off i (n * FEX_PAGE_SIZE) prot flags fd offset s (mkProcess64 a k e) =
  match host_mmap (page_at R r) (n * FEX_PAGE_SIZE) prot (fixed_flags flags) fd offset k with
  | (Ret v, k') => if v =? MAP_FAILED then Ok ((Some i, error e, page_at R r), mkProcess64 a k' e)
                   else Ok ((Some i, v, page_at R r), mkProcess64 a k' e)
  | (Err e', k') => Ok ((Some i, error e', page_at R r), mkProcess64 a k' e')
  end.
Proof.
  intros HR Hok Hs Hn. unfold CheckIfRangeFits. rewrite (get_live_run _ a k e i R HR).
  assert (Z.shiftr (n * FEX_PAGE_SIZE) FEX_PAGE_SHIFT = n) as ->.
  { rewrite Z.shiftr_div_pow2 by (unfold FEX_PAGE_SHIFT; lia). apply Z.div_mul. discriminate. }
  assert ((if s =? 0 then LastPageAllocation R else Z.shiftr (uint 64 (s - Base (SlabInfo R))) FEX_PAGE_SHIFT) = LastAllocation R s) as ->.
  { unfold LastAllocation. destruct (Z.eqb_spec s 0); [reflexivity|]. destruct Hs as [|Hs]; [lia|]. pose proof (size_bound _ (live_region _ Hok)).
    rewrite uint_small, Z.shiftr_div_pow2 by (unfold FEX_PAGE_SHIFT; lia). reflexivity. }
  destruct (room_cases R s n Hok Hs ltac:(lia)) as [Hno|(r & Hroom)]; [left|right].
  - split; [exact Hno|]. destruct (Z.leb_spec (n * FEX_PAGE_SIZE) (FreeSpace R)) as [Hle|]; [|reflexivity]. rewrite (Hno Hle). reflexivity.
  - exists r. split; [exact Hroom|]. destruct Hroom as (Hle & Hr0 & Hrn & _ & ->). destruct (Z.leb_spec (n * FEX_PAGE_SIZE) (FreeSpace R)); [|lia].
    unfold lift. unfold mbind at 1, M_bind at 1. destruct (Z.eqb_spec r 0); [lia|].
    destruct (region_pages _ (live_region _ Hok)) as [E Hp]. pose proof (end_bound _ (live_region _ Hok)). pose proof (base_bound _ (live_region _ Hok)).
    rewrite (uint_small 64 (Base _ + _)) by (unfold FEX_PAGE_SIZE, LOWER_BOUND in *; lia). fold (page_at R r).
    unfold syscall64. unfold mbind at 1, M_bind at 1. cbn [Alloc64 Host64 errno64].
    destruct (host_mmap _ _ _ _ _ _ k) as [[v|e'] k']; [destruct (v =? MAP_FAILED); reflexivity|reflexivity].
Qed.
End Steps.
