(* ===== verification/Alloc64Theorems.v ===== *)
(** * What the 64-bit allocator promises, and where it breaks

    An allocation takes free pages of a live region and marks them; unmapping what
    was allocated gives everything back. The header of a region is not always
    marked, requests for a place are refused although it is free, and errors of the
    host are lost. *)
From Stdlib Require Import ZArith Lia Bool.
From stdpp Require Import base gmap list numbers option.
From S2P Require Import Prelude Pages Alloc32 Alloc64 Alloc64Logic.
#[local] Open Scope Z_scope.

(** The laws of the host: a fixed mapping is at its address, and error numbers are
    small. *)
Class FixedLaws (K : Type) `{HostMemory K} := {
  law_fixed addr length prot flags fd offset k v k' : host_mmap addr length prot flags fd offset k = (Ret v, k') ->
    has flags MAP_FIXED = true -> v = addr;
  law_errno addr length prot flags fd offset k e k' : host_mmap addr length prot flags fd offset k = (Err e, k') ->
    0 < e < 4096
}.

Lemma has_fixed_flags flags : has (fixed_flags flags) MAP_FIXED = true.
Proof.
  unfold has, fixed_flags. rewrite Z.land_lor_distr_l. destruct (Z.eqb_spec (Z.lor (Z.land (Z.land flags (Z.lnot MAP_FIXED_NOREPLACE)) MAP_FIXED) (Z.land MAP_FIXED MAP_FIXED)) 0) as [E|]; [|reflexivity].
  apply Z.lor_eq_0_iff in E as [_ E]. discriminate.
Qed.

Lemma M_ret_bind {S B C} (x : B) (f : B -> M S C) s : (mret x ≫= f) s = f x s.
Proof. reflexivity. Qed.

Section Placement.
Context {K : Type} `{FixedLaws K, HostAdvice K}.
Implicit Types (a : OSAllocator_64Bit) (k : K).
Variables (n prot flags fd offset Addr : Z).
Hypothesis n_range : 0 < n < 2 ^ 45.
Hypothesis Hprot : protects (K := K).

Abbreviation len := (n * FEX_PAGE_SIZE).
Abbreviation ask off k := (host_mmap off len prot (fixed_flags flags) fd offset k).

Lemma page_at_range R r : live_ok R -> 0 < r -> r + n < RegionPages (SlabInfo R) ->
  LOWER_BOUND < page_at R r /\ page_at R r + len < 2 ^ 62.
Proof.
  intros Hok Hr Hle. destruct (region_pages _ (live_region _ Hok)) as [E Hp]. pose proof (end_bound _ (live_region _ Hok)).
  pose proof (base_bound _ (live_region _ Hok)). unfold page_at, FEX_PAGE_SIZE in *. lia.
Qed.

(** The host was asked for a mapping at [off]; without a hint it refused. *)
Definition tried (off : Z) : Prop :=
  off = 0 \/ LOWER_BOUND < off < 2 ^ 62 /\ exists k r k', ask off k = (r, k') /\ (Addr = 0 -> exists e, r = Err e).
Definition mapped_at (off : Z) k' : Prop := exists k, ask off k = (Ret off, k').

(** One look at a region. *)
Lemma check_cases a k e off i s R : LiveRegions a !! i = Some R -> live_ok R -> start_ok R s ->
  let check := CheckIfRangeFits off i len prot flags fd offset s (mkProcess64 a k e) in
  (no_room R s n /\ check = Ok ((None, 0, off), mkProcess64 a k e)) \/
  exists r k' e', room_at R s n r /\
  ((mapped_at (page_at R r) k' /\ check = Ok ((Some i, page_at R r, page_at R r), mkProcess64 a k' e')) \/
  (exists k0 e0, ask (page_at R r) k0 = (Err e0, k') /\ 0 < e0 < 4096 /\ check = Ok ((Some i, error e0, page_at R r), mkProcess64 a k' e'))).
Proof.
  intros HR Hok Hs check. destruct (CheckIfRangeFits_run a k e off i n prot flags fd offset s R HR Hok Hs ltac:(lia)) as [?|(r & Hroom & E)]; [left; assumption|right].
  pose proof Hroom as (_ & Hr0 & Hrn & _). destruct (page_at_range R r Hok Hr0 Hrn) as [Hp1 Hp2].
  unfold check. rewrite E. destruct (ask (page_at R r) k) as [[v|e0] k'] eqn:Ea.
  - pose proof (law_fixed _ _ _ _ _ _ _ _ _ Ea (has_fixed_flags flags)) as ->. exists r, k', e. split; [exact Hroom|].
    replace (page_at R r =? MAP_FAILED) with false by (symmetry; apply Z.eqb_neq; change MAP_FAILED with 0xFFFFFFFFFFFFFFFF; unfold FEX_PAGE_SIZE in *; lia).
    left. split; [exists k; exact Ea|reflexivity].
  - exists r, k', e0. split; [exact Hroom|]. right. exists k, e0. pose proof (law_errno _ _ _ _ _ _ _ _ _ Ea). auto.
Qed.
Lemma error_far R r e0 : live_ok R -> 0 < r -> r + n < RegionPages (SlabInfo R) -> 0 < e0 < 4096 -> (error e0 =? page_at R r) = false.
Proof.
  intros Hok Hr Hle He. destruct (page_at_range R r Hok Hr Hle). apply Z.eqb_neq. unfold error, uint. rewrite Z.mod_opp_l_nz by (rewrite ?Z.mod_small; lia).
  rewrite Z.mod_small by lia. unfold FEX_PAGE_SIZE in *. lia.
Qed.

Lemma try_live_run a : alloc64_ok a -> forall cnt i off k e, (i + cnt = length (LiveRegions a))%nat -> tried off ->
  exists res k' e', try_live off i cnt len prot flags fd offset (mkProcess64 a k e) = Ok (inr res, mkProcess64 a k' e') /\
  match res with
  | (Some j, off') => exists R r, LiveRegions a !! j = Some R /\ room_at R 0 n r /\ off' = page_at R r /\ mapped_at off' k'
  | (None, off') => tried off' /\ (off' = 0 -> off = 0 /\ forall j R, (i <= j)%nat -> LiveRegions a !! j = Some R -> no_room R 0 n)
  end.
Proof.
  intros Hok. induction cnt as [|cnt IH]; intros i off k e Hi Ht; cbn [try_live].
  { exists (None, off), k, e. split; [reflexivity|]. split; [exact Ht|]. intros ->. split; [reflexivity|].
    intros j R Hj HR. apply lookup_lt_Some in HR. lia. }
  destruct (LiveRegions a !! i) as [R|] eqn:HR; [|apply lookup_ge_None in HR; lia].
  pose proof (live_regions_ok a Hok i R HR) as HRok.
  destruct (check_cases a k e off i 0 R HR HRok (or_introl eq_refl)) as [[Hno E]|(r & k1 & e1 & Hroom & [[Hm E]|(k0 & e0 & Ek & He & E)])];
    rewrite (M_bind_Ok _ _ _ _ _ E); cbn [fits_at fst snd Z.eqb].
  - destruct (IH (S i) off k e ltac:(lia) Ht) as (res & k' & e' & E' & Hres). exists res, k', e'. split; [exact E'|].
    destruct res as [[j|] off']; [exact Hres|]. destruct Hres as [Ht' Hz]. split; [exact Ht'|]. intros E0. destruct (Hz E0) as [E1 Hz']. split; [exact E1|].
    intros j R' Hj HR'. destruct (decide (i = j)) as [<-|]; [rewrite HR in HR'; injection HR' as <-; exact Hno|]. apply (Hz' j); [lia|exact HR'].
  - rewrite Z.eqb_refl. exists (Some i, page_at R r), k1, e1. split; [reflexivity|]. exists R, r. auto.
  - destruct Hroom as (? & Hr0 & Hrn & ?). rewrite (error_far R r e0 HRok Hr0 Hrn He).
    destruct (page_at_range R r HRok Hr0 Hrn) as [Hp1 Hp2].
    assert (tried (page_at R r)) as Ht' by (right; split; [unfold FEX_PAGE_SIZE in *; lia|exists k0, (Err e0), k1; eauto]).
    destruct (IH (S i) (page_at R r) k1 e1 ltac:(lia) Ht') as (res & k' & e' & E' & Hres). exists res, k', e'. split; [exact E'|].
    destruct res as [[j|] off']; [exact Hres|]. destruct Hres as [Ht2 Hz]. split; [exact Ht2|]. intros E0. destruct (Hz E0) as [E1 _].
    unfold LOWER_BOUND in *. lia.
Qed.

(** Where a request at no fixed address ends up. *)
Definition placed a (res : option nat * Z) k' : Prop :=
  match res with
  | (Some j, off) => exists R s r, LiveRegions a !! j = Some R /\ (s = 0 \/ s = Addr) /\ room_at R s n r /\ off = page_at R r /\ mapped_at off k'
  | (None, off) => tried off /\ (off = 0 ->
  (forall j R, LiveRegions a !! j = Some R -> no_room R 0 n) /\
  (forall j R, ReservedRegions a !! j = Some R -> RegionSize R < len + SizeOfLiveRegion len))
  end.

Lemma SizeOfLiveRegion_range : 0 <= SizeOfLiveRegion len < 2 ^ 58.
Proof.
  unfold FEX_PAGE_SIZE. rewrite SizeOfLiveRegion_eq by lia. unfold FEX_PAGE_SIZE. rewrite Z.div_mul by lia.
  pose proof (header_pages_range n ltac:(lia)). lia.
Qed.

Lemma place_none_run fuel : forall a k e off, alloc64_ok a -> tried off -> (length (ReservedRegions a) < fuel)%nat ->
  exists a' res k' e', place_anywhere fuel None off Addr len prot flags fd offset (mkProcess64 a k e) = Ok (inr res, mkProcess64 a' k' e') /\
  activates a a' /\ placed a' res k'.
Proof.
  induction fuel as [|fuel IH]; intros a k e off Hok Ht Hf; [lia|]. cbn [place_anywhere].
  rewrite M_ret_bind, get_alloc64_run. cbn [Alloc64].
  destruct (try_live_run a Hok (length (LiveRegions a)) 0 off k e eq_refl Ht) as ([[j|] off'] & k1 & e1 & E & Hres);
    rewrite (M_bind_Ok _ _ _ _ _ E).
  - destruct Hres as (R & r & HR & Hroom & -> & Hm). exists a, (Some j, page_at R r), k1, e1. split; [reflexivity|]. split; [constructor|].
    exists R, 0, r. split_and!; auto.
  - destruct Hres as [Ht' Hz]. rewrite get_alloc64_run. cbn [Alloc64]. pose proof SizeOfLiveRegion_range.
    rewrite (uint_small 64 (len + _)) by (unfold FEX_PAGE_SIZE in *; lia).
    destruct (find_index _ (ReservedRegions a)) as [it|] eqn:Ei.
    + apply find_index_Some in Ei as (S & HS & _). destruct (MakeRegionActive_run a k1 e1 it S Hprot (reserved_ok a Hok it S HS) HS) as (k2 & E2).
      rewrite (M_bind_Ok _ _ _ _ _ E2). destruct (IH (activate it S a) k2 e1 off' (activate_ok it S a Hok HS) Ht') as (a' & res & k' & e' & E3 & Ha & Hp).
      { cbn [activate ReservedRegions]. rewrite length_delete by eauto. apply lookup_lt_Some in HS. lia. }
      exists a', res, k', e'. split; [exact E3|]. split; [|exact Hp]. econstructor; eauto.
    + exists a, (None, off'), k1, e1. split; [reflexivity|]. split; [constructor|]. split; [exact Ht'|]. intros E0. destruct (Hz E0) as [_ Hno]. split.
      * intros j R HR. apply (Hno j); [lia|exact HR].
      * intros j R HR. pose proof (find_index_None _ _ Ei j R HR) as Hs. cbn in Hs. apply Z.leb_gt in Hs. exact Hs.
Qed.

Definition in_region (i : option nat) a : Prop :=
  match i with Some i => exists R, LiveRegions a !! i = Some R /\ start_ok R Addr | None => True end.

Lemma place_anywhere_run fuel a k e i : alloc64_ok a -> in_region i a -> (i <> None -> Addr <> 0) -> (length (ReservedRegions a) < fuel)%nat ->
  exists a' res k' e', place_anywhere fuel i 0 Addr len prot flags fd offset (mkProcess64 a k e) = Ok (inr res, mkProcess64 a' k' e') /\
  activates a a' /\ placed a' res k'.
Proof.
  intros Hok Hi HA Hf. destruct i as [i|]; [|apply place_none_run; auto; left; reflexivity].
  destruct Hi as (R & HR & Hs). specialize (HA ltac:(discriminate)). pose proof (live_regions_ok a Hok i R HR) as HRok.
  destruct fuel as [|fuel]; [lia|].
  assert (forall k e off, tried off -> exists a' res k' e',
    place_anywhere (S fuel) None off Addr len prot flags fd offset (mkProcess64 a k e) = Ok (inr res, mkProcess64 a' k' e') /\
    activates a a' /\ placed a' res k') as Hnone by (intros; apply place_none_run; auto).
  cbn [place_anywhere] in Hnone |- *. destruct (Z.eqb_spec Addr 0); [lia|]. cbn [negb].
  destruct (check_cases a k e 0 i Addr R HR HRok Hs) as [[Hno E]|(r & k1 & e1 & Hroom & [[Hm E]|(k0 & e0 & Ek & He & E)])].
  - specialize (Hnone k e 0 (or_introl eq_refl)). rewrite M_bind_assoc, (M_bind_Ok _ _ _ _ _ E). exact Hnone.
  - pose proof Hroom as (_ & Hr0 & Hrn & _). destruct (page_at_range R r HRok Hr0 Hrn) as [Hp1 Hp2].
    assert (LOWER_BOUND < page_at R r < 2 ^ 62) as Hfar by (unfold FEX_PAGE_SIZE in *; lia).
    rewrite M_bind_assoc, (M_bind_Ok _ _ _ _ _ E). cbn [fits_at fst snd]. destruct (Z.eqb_spec (page_at R r) Addr) as [Eq|Hne].
    + exists a, (Some i, Addr), k1, e1. split; [reflexivity|]. split; [constructor|]. exists R, Addr, r. split_and!; [auto|auto|auto|congruence|rewrite <- Eq; exact Hm].
    + apply Hnone. right. split; [exact Hfar|]. destruct Hm as [kb Hm]. exists kb. eexists _, k1. split; [exact Hm|lia].
  - pose proof Hroom as (_ & Hr0 & Hrn & _). destruct (page_at_range R r HRok Hr0 Hrn) as [Hp1 Hp2].
    assert (LOWER_BOUND < page_at R r < 2 ^ 62) as Hfar by (unfold FEX_PAGE_SIZE in *; lia).
    rewrite M_bind_assoc, (M_bind_Ok _ _ _ _ _ E). cbn [fits_at fst snd]. destruct (Z.eqb_spec (error e0) Addr) as [Eq|Hne].
    + exfalso. destruct Hs as [|Hs]; [lia|]. pose proof (end_bound _ (live_region _ HRok)). revert Eq. unfold error, uint.
      rewrite Z.mod_opp_l_nz by (rewrite ?Z.mod_small; lia). rewrite Z.mod_small by lia. lia.
    + apply Hnone. right. split; [exact Hfar|]. exists k0. eexists _, k1. split; [exact Ek|lia].
Qed.

(** The region of an address. *)
Lemma find_region_run a k e : alloc64_ok a -> 0 <= Addr -> Addr + len < 2 ^ 64 ->
  exists i a' k', find_region Addr (uint 64 (Addr + len)) (mkProcess64 a k e) = Ok (i, mkProcess64 a' k' e) /\ activates a a' /\ in_region i a'.
Proof.
  intros Hok HA0 HA1. unfold find_region. rewrite get_alloc64_run. cbn [Alloc64]. destruct (find_index (in_live Addr) _) as [i|] eqn:Ei.
  - apply find_index_Some in Ei as (R & HR & Hin). exists (Some i), a, k. split; [reflexivity|]. split; [constructor|]. exists R. split; [exact HR|right].
    unfold in_live in Hin. rewrite (RegionEnd_eq _ (live_region _ (live_regions_ok a Hok i R HR))) in Hin. lia.
  - destruct (find_index (in_reserved Addr _) _) as [it|] eqn:Er.
    + apply find_index_Some in Er as (S & HS & Hin). pose proof (reserved_ok a Hok it S HS) as HSok.
      destruct (MakeRegionActive_run a k e it S Hprot HSok HS) as (k1 & E). rewrite (M_bind_Ok _ _ _ _ _ E).
      exists (Some (length (LiveRegions a))), (activate it S a), k1. split; [reflexivity|]. split; [econstructor; [exact HS|constructor]|].
      exists (fresh_live S). split; [apply list_lookup_middle; reflexivity|]. right. cbn [fresh_live SlabInfo].
      unfold in_reserved in Hin. rewrite (RegionEnd_eq _ HSok), (uint_small 64 (Addr + len)) in Hin by (unfold FEX_PAGE_SIZE in *; lia). unfold FEX_PAGE_SIZE in *. lia.
    + exists None, a, k. split; [reflexivity|]. split; [constructor|exact I].
Qed.

(** Marking what was found. *)
Lemma mark_used_run a k e i R r : LiveRegions a !! i = Some R -> live_ok R -> 0 <= r -> r + n < RegionPages (SlabInfo R) ->
  mark_used i (page_at R r) len (mkProcess64 a k e) = Ok (tt, mkProcess64 (update_live i (granted64 r n R) a) k e).
Proof.
  intros HR Hok Hr Hle. unfold mark_used. rewrite (get_live_run _ a k e i R HR). destruct (region_pages _ (live_region _ Hok)) as [E Hp].
  pose proof (end_bound _ (live_region _ Hok)). pose proof (base_bound _ (live_region _ Hok)).
  assert (Z.shiftr (uint 64 (page_at R r - Base (SlabInfo R))) FEX_PAGE_SHIFT = r) as ->.
  { unfold page_at. replace (Base (SlabInfo R) + r * FEX_PAGE_SIZE - Base (SlabInfo R)) with (r * FEX_PAGE_SIZE) by lia.
    rewrite uint_small by (unfold FEX_PAGE_SIZE in *; lia). rewrite Z.shiftr_div_pow2 by (unfold FEX_PAGE_SHIFT; lia). apply Z.div_mul. discriminate. }
  rewrite Z.div_mul by discriminate. rewrite set_live_run. reflexivity.
Qed.
End Placement.

(** ** Requests at no fixed address *)

Lemma AlignUp_PageLength l : 0 < l < 2 ^ 56 -> AlignUp l FEX_PAGE_SIZE = PageLength l * FEX_PAGE_SIZE /\ 0 < PageLength l < 2 ^ 45.
Proof.
  intros Hl. destruct (AlignUp_range l ltac:(lia)) as [Hm Hr]; [unfold FEX_PAGE_SIZE; lia|]. unfold PageLength.
  rewrite Z.shiftr_div_pow2 by (unfold FEX_PAGE_SHIFT; lia). change (2 ^ FEX_PAGE_SHIFT) with FEX_PAGE_SIZE. unfold FEX_PAGE_SIZE in *.
  pose proof (Z.div_mod (AlignUp l 4096) 4096 ltac:(lia)) as Hd. rewrite Hm in Hd. lia.
Qed.

Section Requests.
Context {K : Type} `{FixedLaws K, HostAdvice K}.
Implicit Types (a : OSAllocator_64Bit) (k : K).
Variables (length prot flags fd offset Addr : Z).
Abbreviation n := (PageLength length).

(** What [Mmap] checks before it looks at the regions. *)
Definition aligned_request : Prop :=
  0 < length < 2 ^ 56 /\ (Addr = 0 \/ LOWER_BOUND <= Addr < 2 ^ 57) /\ page_offset_bits Addr = 0 /\
  (fd = -1 \/ page_offset_bits offset = 0).
Definition no_fixed : Prop := has flags MAP_FIXED = false /\ has flags MAP_FIXED_NOREPLACE = false.

(** [n] free pages that the scans find in a region that is live, or was made live,
    are marked, and the host has mapped them. *)
Definition tracks a (v : Z) (p' : Process64 (K := K)) : Prop :=
  exists a1 i R s r, activates a a1 /\ LiveRegions a1 !! i = Some R /\ (s = 0 \/ s = Addr) /\ room_at R s n r /\ v = page_at R r /\ Alloc64 p' = update_live i (granted64 r n R) a1 /\
  mapped_at n prot flags fd offset v (Host64 p').
(** There is no room: in no live region, and no reserved one is large enough. *)
Definition exhausted a (v : Z) (p' : Process64 (K := K)) : Prop :=
  v = error ENOMEM /\ activates a (Alloc64 p') /\
  (forall j R, LiveRegions (Alloc64 p') !! j = Some R -> no_room R 0 n) /\
  (forall j R, ReservedRegions (Alloc64 p') !! j = Some R -> RegionSize R < n * FEX_PAGE_SIZE + SizeOfLiveRegion (n * FEX_PAGE_SIZE)).
(** The address of an attempt that was given up is returned, and tracked nowhere. *)
Definition stray a (v : Z) (p' : Process64 (K := K)) : Prop := activates a (Alloc64 p') /\ v <> 0 /\ tried n prot flags fd offset Addr v.

Lemma Mmap_past_checks (p : Process64 (K := K)) : aligned_request ->
  Mmap Addr length prot flags fd offset p =
  (LiveRegion ← (if (has flags MAP_FIXED || has flags MAP_FIXED_NOREPLACE) || negb (Addr =? 0)
             then find_region Addr (uint 64 (Addr + n * FEX_PAGE_SIZE)) else mret None);
  a ← get_alloc64;
  r ← (if has flags MAP_FIXED || has flags MAP_FIXED_NOREPLACE
    then place_fixed LiveRegion Addr (n * FEX_PAGE_SIZE) prot flags fd offset
    else place_anywhere (S (Datatypes.length (ReservedRegions a))) LiveRegion 0 Addr (n * FEX_PAGE_SIZE) prot flags fd offset);
  match r with inl v => mret v | inr (LiveRegion, AllocatedOffset) => finish LiveRegion AllocatedOffset (n * FEX_PAGE_SIZE) end) p.
Proof.
  intros (Hl & HA & Hal & Hfd). unfold Mmap. destruct (AlignUp_PageLength length Hl) as [-> _]. rewrite Hal.
  replace (negb (Addr =? 0) && (Addr <? LOWER_BOUND)) with false by (unfold LOWER_BOUND in *; destruct HA; split_cmp; cbn; lia || reflexivity).
  replace (negb (fd =? -1) && negb (page_offset_bits offset =? 0)) with false
    by (destruct Hfd as [-> | ->]; [reflexivity|rewrite andb_comm; reflexivity]).
  rewrite uint_small by (unfold LOWER_BOUND in *; lia). replace (Addr + length <? Addr) with false by lia. reflexivity.
Qed.

Lemma Mmap_free_run a k e : alloc64_ok a -> protects (K := K) -> aligned_request -> no_fixed ->
  exists v p', Mmap Addr length prot flags fd offset (mkProcess64 a k e) = Ok (v, p') /\ alloc64_ok (Alloc64 p') /\
  (tracks a v p' \/ exhausted a v p' \/ stray a v p').
Proof.
  intros Hok Hprot Hreq [Hf1 Hf2]. rewrite (Mmap_past_checks _ Hreq), Hf1, Hf2. cbn [orb]. destruct Hreq as (Hl & HA & _).
  destruct (AlignUp_PageLength length Hl) as [_ Hn]. assert (0 <= Addr /\ Addr + n * FEX_PAGE_SIZE < 2 ^ 64) as [HA0 HA1].
  { unfold LOWER_BOUND, FEX_PAGE_SIZE in *. destruct HA; lia. }
  assert (exists i a1 k1, (if negb (Addr =? 0) then find_region Addr (uint 64 (Addr + n * FEX_PAGE_SIZE)) else mret None) (mkProcess64 a k e)
    = Ok (i, mkProcess64 a1 k1 e) /\ activates a a1 /\ in_region Addr i a1 /\ (i <> None -> Addr <> 0)) as (i & a1 & k1 & E & Ha & Hi & Hne).
  { destruct (Z.eqb_spec Addr 0) as [Ez|Ez]; cbn [negb].
    - exists None, a, k. split_and!; [reflexivity|constructor|exact I|congruence].
    - destruct (find_region_run n Addr Hn Hprot a k e Hok HA0 HA1) as (i & a1 & k1 & E & Ha & Hi). exists i, a1, k1. auto. }
  rewrite (M_bind_Ok _ _ _ _ _ E), get_alloc64_run. cbn [Alloc64]. pose proof (activates_ok _ _ Ha Hok) as Hok1.
  destruct (place_anywhere_run n prot flags fd offset Addr Hn Hprot (S (Datatypes.length (ReservedRegions a1))) a1 k1 e i Hok1 Hi Hne ltac:(lia))
    as (a2 & res & k2 & e2 & E2 & Ha2 & Hp). rewrite (M_bind_Ok _ _ _ _ _ E2). pose proof (activates_ok _ _ Ha2 Hok1) as Hok2.
  pose proof (activates_trans _ _ _ Ha Ha2) as Ha3. destruct res as [[j|] off].
  - destruct Hp as (R & s & r & HR & Hs & Hroom & -> & Hm). pose proof Hroom as (Hfs & Hr0 & Hrn & Hfree & _). pose proof (live_regions_ok _ Hok2 j R HR) as HRok.
    unfold finish. rewrite (M_bind_Ok _ _ _ _ _ (mark_used_run n Hn a2 k2 e2 j R r HR HRok ltac:(lia) Hrn)).
    destruct (page_at_range n R r HRok Hr0 Hrn) as [Hp1 Hp2].
    destruct (Z.eqb_spec (page_at R r) 0); [unfold LOWER_BOUND in *; lia|]. eexists _, _. split; [reflexivity|]. split.
    + apply update_live_ok; [exact Hok2|]. apply granted64_ok; auto; lia.
    + left. exists a2, j, R, s, r. split_and!; auto.
  - destruct Hp as [Ht Hz]. unfold finish. rewrite M_ret_bind. eexists _, _. split; [reflexivity|]. split; [exact Hok2|right].
    destruct (Z.eqb_spec off 0) as [->|Hoff].
    + left. destruct (Hz eq_refl). split_and!; auto.
    + right. split_and!; auto.
Qed.


(** A host that refuses every mapping is not noticed. Without a hint, without
    reserved regions and with room in some region, [FEX_mmap] returns an address
    above four gigabytes, as if it had succeeded, that the host refused to map and
    that the allocator does not track. *)
Theorem FEX_mmap_ignores_refusal a k e : alloc64_ok a -> protects (K := K) -> aligned_request -> no_fixed -> Addr = 0 ->
  (forall off k, exists e' k', host_mmap off (n * FEX_PAGE_SIZE) prot (fixed_flags flags) fd offset k = (Err e', k')) ->
  ReservedRegions a = [] -> (exists i R r, LiveRegions a !! i = Some R /\ room_at R 0 n r) ->
  exists v p', FEX_mmap Addr length prot flags fd offset (mkProcess64 a k e) = Ok (v, p') /\
  LOWER_BOUND < v < 2 ^ 62 /\ Alloc64 p' = a.
Proof.
  intros Hok Hprot Hreq Hnf HA Href Hres (i & R & r & HR & Hroom).
  destruct (Mmap_free_run a k e Hok Hprot Hreq Hnf) as (v & p' & E & _ & Hcases).
  assert (forall a', activates a a' -> a' = a) as Hsame.
  { intros a' Ha. destruct Ha as [|? it S ? HS _]; [reflexivity|]. rewrite Hres in HS. discriminate. }
  exists v, p'. unfold FEX_mmap. rewrite (M_bind_Ok _ _ _ _ _ E).
  destruct Hcases as [(a1 & j & R' & s' & r' & _ & _ & _ & _ & _ & _ & k0 & Hm)|[(_ & Ha & Hno & _)|(Ha & Hv & Ht)]].
  - destruct (Href v k0) as (e' & k' & Hr). congruence.
  - rewrite (Hsame _ Ha) in Hno. destruct Hroom as (Hfs & Hr0 & _ & _ & Hfind). rewrite (Hno i R HR Hfs) in Hfind. injection Hfind. lia.
  - destruct Ht as [|[Hrange _]]; [lia|]. replace (uint 64 (-4096) <=? v) with false by (symmetry; apply Z.leb_gt; change (uint 64 (-4096)) with 0xFFFFFFFFFFFFF000; lia).
    split; [reflexivity|]. split; [exact Hrange|]. apply Hsame, Ha.
Qed.
End Requests.
