(* ===== verification/Alloc64Calls.v ===== *)
(** * Fixed requests, unmapping and the header of a region

    What [OSAllocator_64Bit] does with a fixed address, the round trip of an
    allocation through [Munmap], and the places where its bookkeeping goes wrong. *)
From Stdlib Require Import ZArith Lia Bool.
From stdpp Require Import base gmap list numbers option.
From S2P Require Import Prelude Pages Alloc32 Alloc64 Alloc64Logic Alloc64Theorems.
#[local] Open Scope Z_scope.

(** ** Regions that do not overlap *)

Definition apart (R S : ReservedVMARegion) : Prop := Base R + RegionSize R <= Base S \/ Base S + RegionSize S <= Base R.
Definition live_apart (a : OSAllocator_64Bit) : Prop :=
  forall i j R S, i <> j -> LiveRegions a !! i = Some R -> LiveRegions a !! j = Some S -> apart (SlabInfo R) (SlabInfo S).

Lemma find_index_unique {B} (f : B -> bool) l i x : l !! i = Some x -> f x = true ->
  (forall j y, j <> i -> l !! j = Some y -> f y = false) -> find_index f l = Some i.
Proof.
  intros Hx Hf Hu. destruct (find_index f l) as [j|] eqn:E.
  - apply find_index_Some in E as (y & Hy & Hfy). destruct (decide (j = i)) as [->|Hne]; [reflexivity|].
    rewrite (Hu j y Hne Hy) in Hfy. discriminate.
  - rewrite (find_index_None _ _ E i x Hx) in Hf. discriminate.
Qed.

(** All regions, the live ones first; making one live permutes them. *)
Definition all_regions (a : OSAllocator_64Bit) : list ReservedVMARegion := (SlabInfo <$> LiveRegions a) ++ ReservedRegions a.
Definition pairwise_apart (l : list ReservedVMARegion) : Prop :=
  forall i j R S, i <> j -> l !! i = Some R -> l !! j = Some S -> apart R S.
#[export] Instance pairwise_apart_Permutation : Proper (Permutation ==> iff) pairwise_apart.
Proof.
  assert (forall l l', l ≡ₚ l' -> pairwise_apart l' -> pairwise_apart l) as Hone.
  { intros l l' HP Hl' i j R S Hij HR HS. apply Permutation_inj in HP as (_ & f & Hinj & Hf).
    rewrite Hf in HR, HS. apply (Hl' (f i) (f j) R S); auto. }
  intros l l' HP. split; apply Hone; [symmetry|]; exact HP.
Qed.
Definition regions_apart (a : OSAllocator_64Bit) : Prop := pairwise_apart (all_regions a).

Lemma regions_live_apart a : regions_apart a -> live_apart a.
Proof.
  intros Hap i j R S Hij HR HS. apply (Hap i j); [exact Hij|..]; unfold all_regions; rewrite lookup_app_l.
  1, 3: rewrite list_lookup_fmap; rewrite ?HR, ?HS; reflexivity.
  all: rewrite length_fmap; eauto using lookup_lt_Some.
Qed.
Lemma activates_apart a a' : activates a a' -> regions_apart a -> regions_apart a'.
Proof.
  induction 1 as [|a it R a' HR _ IH]; intros Hap; [exact Hap|]. apply IH. unfold regions_apart in *. revert Hap.
  apply pairwise_apart_Permutation. unfold all_regions, activate. cbn [LiveRegions ReservedRegions].
  rewrite fmap_app, <- app_assoc. cbn [fmap list_fmap fresh_live SlabInfo app]. apply Permutation_app_head. symmetry. apply delete_Permutation, HR.
Qed.

Lemma activates_small a a' b : activates a a' -> (forall i R, all_regions a !! i = Some R -> RegionSize R <= b) ->
  forall i R, LiveRegions a' !! i = Some R -> RegionSize (SlabInfo R) <= b.
Proof.
  induction 1 as [|a it S a' HS _ IH]; intros Hb.
  - intros i R HR. apply (Hb i). unfold all_regions. apply lookup_app_l_Some. rewrite list_lookup_fmap, HR. reflexivity.
  - apply IH. intros i R HR. apply list_elem_of_lookup_2 in HR. unfold all_regions, activate in HR. cbn [LiveRegions ReservedRegions] in HR.
    rewrite fmap_app, !elem_of_app in HR. cbn [fmap list_fmap fresh_live SlabInfo] in HR.
    assert (R ∈ all_regions a) as [j Hj]%list_elem_of_lookup_1; [|eauto]. unfold all_regions. rewrite elem_of_app.
    destruct HR as [[HR| ->%list_elem_of_singleton]|HR]; [auto|right; eauto using list_elem_of_lookup_2|right].
    rewrite (delete_Permutation _ _ _ HS). apply elem_of_cons. auto.
Qed.

(** A range inside a live region belongs to that region only. *)
Definition inside (R : LiveVMARegion) (Addr len : Z) : Prop :=
  Base (SlabInfo R) <= Addr /\ Addr + len < Base (SlabInfo R) + RegionSize (SlabInfo R).
Lemma find_live_inside a i R Addr : alloc64_ok a -> live_apart a -> LiveRegions a !! i = Some R -> inside R Addr 0 ->
  find_index (in_live Addr) (LiveRegions a) = Some i.
Proof.
  intros Hok Hap HR [H1 H2]. apply (find_index_unique _ _ i R HR).
  - unfold in_live. rewrite (RegionEnd_eq _ (live_region _ (live_regions_ok a Hok i R HR))). lia.
  - intros j S Hj HS. unfold in_live. rewrite (RegionEnd_eq _ (live_region _ (live_regions_ok a Hok j S HS))).
    destruct (Hap j i S R Hj HS HR); lia.
Qed.
Lemma find_encompasses a i R Addr len : alloc64_ok a -> live_apart a -> LiveRegions a !! i = Some R -> 0 <= len -> inside R Addr len ->
  find_index (encompasses Addr (Addr + len)) (LiveRegions a) = Some i.
Proof.
  intros Hok Hap HR Hlen [H1 H2]. apply (find_index_unique _ _ i R HR).
  - unfold encompasses. rewrite (RegionEnd_eq _ (live_region _ (live_regions_ok a Hok i R HR))). lia.
  - intros j S Hj HS. unfold encompasses. rewrite (RegionEnd_eq _ (live_region _ (live_regions_ok a Hok j S HS))).
    destruct (Hap j i S R Hj HS HR); lia.
Qed.
Lemma update_live_apart a i R S : live_apart a -> LiveRegions a !! i = Some R -> SlabInfo S = SlabInfo R -> live_apart (update_live i S a).
Proof.
  intros Hap HR HS j l T U Hjl HT HU. cbn [update_live LiveRegions] in HT, HU.
  apply list_lookup_insert_Some in HT as [(<- & <- & _)|[Hj HT]]; apply list_lookup_insert_Some in HU as [(<- & <- & _)|[Hl HU]]; try congruence.
  - rewrite HS. eauto.
  - rewrite HS. eauto.
  - eauto.
Qed.

(** ** Clearing pages *)

(** The pages of [[p, p + n)] that are used. *)
Fixpoint used_in (m : FlexBitSet) (p : Z) (n : nat) : Z :=
  match n with O => 0 | S n => Z.b2z (Get m p) + used_in m (p + 1) n end.
Lemma clear_pages_spec n : forall m f p, exists m', clear_pages m f p n = (f + used_in m p n, m') /\
  forall e, Get m' e = negb ((p <=? e) && (e <? p + Z.of_nat n)) && Get m e.
Proof.
  induction n as [|n IH]; intros m f p; cbn [clear_pages used_in TestAndClear].
  - exists m. split; [f_equal; lia|]. intros e. split_cmp; cbn [andb negb]; reflexivity || lia.
  - destruct (IH (Clear m p) (f + (if Get m p then 1 else 0)) (p + 1)) as (m' & -> & Hm').
    assert (forall k q, p < q -> used_in (Clear m p) q k = used_in m q k) as Hu.
    { induction k as [|k IHk]; intros q Hq; cbn [used_in]; [reflexivity|]. rewrite IHk, Get_Clear by lia.
      case_bool_decide; [lia|reflexivity]. }
    exists m'. split.
    + rewrite Hu by lia. f_equal. destruct (Get m p); cbn [Z.b2z]; lia.
    + intros e. rewrite Hm', Get_Clear, andb_assoc. f_equal. case_bool_decide; split_cmp; cbn [andb negb]; reflexivity || lia.
Qed.
Lemma used_in_range m n : forall p, 0 <= used_in m p n <= Z.of_nat n.
Proof. induction n as [|n IH]; intros p; cbn [used_in]; [lia|]. specialize (IH (p + 1)). destruct (Get m p); cbn [Z.b2z]; lia. Qed.
Lemma used_in_all m n : forall p, (forall i, p <= i < p + Z.of_nat n -> Get m i = true) -> used_in m p n = Z.of_nat n.
Proof.
  induction n as [|n IH]; intros p Hp; cbn [used_in]; [reflexivity|]. rewrite IH, Hp by (intros; try apply Hp; lia). cbn [Z.b2z]. lia.
Qed.

Section Calls.
Context {K : Type} `{FixedLaws K, HostAdvice K}.
Implicit Types (a : OSAllocator_64Bit) (k : K).

Definition unmapped_live (R : LiveVMARegion) (p n : Z) (m : FlexBitSet) : LiveVMARegion :=
  mkLive (SlabInfo R) (uint 64 (FreeSpace R + used_in (UsedPages R) p (Z.to_nat n) * 4096)) (Z.min (LastPageAllocation R) p) m.

Lemma Munmap_run a k e i R p n : alloc64_ok a -> live_apart a -> LiveRegions a !! i = Some R -> 0 <= p -> 0 < n ->
  p + n < RegionPages (SlabInfo R) -> let first := uint 32 p in
  exists m' k' e', Munmap (page_at R p) (n * FEX_PAGE_SIZE) (mkProcess64 a k e) = Ok (0, mkProcess64 (update_live i (unmapped_live R first n m') a) k' e') /\
  (forall q, Get m' q = negb ((first <=? q) && (q <? first + n)) && Get (UsedPages R) q).
Proof.
  intros Hok Hap HR Hp Hn Hle first. pose proof (live_regions_ok a Hok i R HR) as [Hr Hl _ Hfs]. destruct (region_pages _ Hr) as [E HP].
  pose proof (end_bound _ Hr). pose proof (base_bound _ Hr). pose proof (base_aligned _ Hr) as Hba. unfold LOWER_BOUND in *.
  assert (page_at R p mod FEX_PAGE_SIZE = 0) as Hal by (unfold page_at; rewrite Z.mod_add by discriminate; exact Hba).
  assert (inside R (page_at R p) (n * FEX_PAGE_SIZE)) as Hin by (unfold inside, page_at, FEX_PAGE_SIZE in *; lia).
  assert (0 <= page_at R p /\ 2 ^ 32 <= page_at R p /\ page_at R p + n * FEX_PAGE_SIZE < 2 ^ 62) as (Hpg & Hpg2 & Hpg3) by (unfold page_at, FEX_PAGE_SIZE in *; lia).
  unfold Munmap. replace (page_at R p <? LOWER_BOUND) with false by (unfold LOWER_BOUND; lia).
  rewrite !page_offset_bits_mod, Hal, Z.mod_mul by discriminate. cbn [negb Z.eqb].
  rewrite (uint_small 64 (page_at R p + n * FEX_PAGE_SIZE)) by (unfold FEX_PAGE_SIZE in *; lia).
  replace (page_at R p + n * FEX_PAGE_SIZE <? page_at R p) with false by (unfold FEX_PAGE_SIZE in *; lia).
  assert (AlignUp (n * FEX_PAGE_SIZE) FEX_PAGE_SIZE = n * FEX_PAGE_SIZE) as ->.
  { unfold AlignUp. rewrite Z.mod_mul by discriminate. change ((FEX_PAGE_SIZE - 0) mod FEX_PAGE_SIZE) with 0. rewrite Z.add_0_r. apply uint_small. unfold FEX_PAGE_SIZE in *. lia. }
  rewrite get_alloc64_run. cbn [Alloc64]. rewrite (uint_small 64 (page_at R p + n * FEX_PAGE_SIZE)) by (unfold FEX_PAGE_SIZE in *; lia).
  rewrite (find_encompasses a i R (page_at R p) (n * FEX_PAGE_SIZE) Hok Hap HR ltac:(unfold FEX_PAGE_SIZE; lia) Hin), (get_live_run _ a k e i R HR).
  assert (uint 32 (Z.shiftr (page_at R p - Base (SlabInfo R)) FEX_PAGE_SHIFT) = first) as ->.
  { unfold page_at. replace (Base (SlabInfo R) + p * FEX_PAGE_SIZE - Base (SlabInfo R)) with (p * FEX_PAGE_SIZE) by lia.
    rewrite Z.shiftr_div_pow2 by discriminate. change (2 ^ FEX_PAGE_SHIFT) with FEX_PAGE_SIZE. rewrite Z.div_mul by discriminate. reflexivity. }
  assert (Z.shiftr (n * FEX_PAGE_SIZE) FEX_PAGE_SHIFT = n) as ->.
  { rewrite Z.shiftr_div_pow2 by discriminate. change (2 ^ FEX_PAGE_SHIFT) with FEX_PAGE_SIZE. apply Z.div_mul. discriminate. }
  destruct (clear_pages_spec (Z.to_nat n) (UsedPages R) 0 first) as (m' & -> & Hm'). rewrite Z.add_0_l. rewrite Z2Nat.id in Hm' by lia.
  exists m'. destruct (negb (used_in (UsedPages R) first (Z.to_nat n) =? 0)).
  - unfold madvise, syscall64, modify. unfold mbind, M_bind. cbn [Alloc64 Host64 errno64].
    match goal with |- context [match host_mmap ?A ?B ?C ?D ?E ?F ?G with _ => _ end] => destruct (host_mmap A B C D E F G) as [[v|e1] k1] end; eauto.
  - eauto.
Qed.

(** ** Unmapping and the round trip *)

(** Unmapping pages that lie in a live region, short of its last page, touches no
    other region; it clears the pages in the region's bit set, and counts those of
    them that were used as free again, but starting from the page number modulo
    2^32: 16 terabytes into a region, the pages of the start of the region are
    cleared instead. *)
Theorem Munmap_frees a k e i R p n : alloc64_ok a -> live_apart a -> LiveRegions a !! i = Some R -> 0 <= p -> 0 < n ->
  p + n < RegionPages (SlabInfo R) -> let first := p mod 2 ^ 32 in
  exists R' p', Munmap (page_at R p) (n * FEX_PAGE_SIZE) (mkProcess64 a k e) = Ok (0, p') /\ Alloc64 p' = update_live i R' a /\
  SlabInfo R' = SlabInfo R /\ FreeSpace R' = uint 64 (FreeSpace R + used_in (UsedPages R) first (Z.to_nat n) * FEX_PAGE_SIZE) /\
  (forall q, Get (UsedPages R') q = negb ((first <=? q) && (q <? first + n)) && Get (UsedPages R) q).
Proof.
  intros Hok Hap HR Hp Hn Hle first. destruct (Munmap_run a k e i R p n Hok Hap HR Hp Hn Hle) as (m' & k' & e' & E & Hm').
  exists (unmapped_live R first n m'). eexists. split; [exact E|]. split_and!; [reflexivity..|exact Hm'].
Qed.

(** The same regions, with the same free space and the same used pages. *)
Definition same_live (R S : LiveVMARegion) : Prop :=
  SlabInfo R = SlabInfo S /\ FreeSpace R = FreeSpace S /\ same_bits (UsedPages R) (UsedPages S).
Definition same_alloc a a' : Prop := ReservedRegions a = ReservedRegions a' /\ Forall2 same_live (LiveRegions a) (LiveRegions a').
Lemma same_live_refl R : same_live R R.
Proof. split_and!; reflexivity. Qed.

Lemma granted_unmapped a k e i R r n : alloc64_ok a -> live_apart a -> LiveRegions a !! i = Some R -> 0 < r -> 0 < n ->
  r + n < RegionPages (SlabInfo R) -> r < 2 ^ 32 -> n * FEX_PAGE_SIZE <= FreeSpace R -> free_run (UsedPages R) r n ->
  exists p2, Munmap (page_at R r) (n * FEX_PAGE_SIZE) (mkProcess64 (update_live i (granted64 r n R) a) k e) = Ok (0, p2) /\
  same_alloc a (Alloc64 p2).
Proof.
  intros Hok Hap HR Hr Hn Hle H32 Hfs Hfree. pose proof (live_regions_ok a Hok i R HR) as HRok. set (R' := granted64 r n R).
  assert (live_ok R') as HR'ok by (apply granted64_ok; auto; lia).
  assert (LiveRegions (update_live i R' a) !! i = Some R') as HR'.
  { apply list_lookup_insert_eq. eauto using lookup_lt_Some. }
  destruct (Munmap_run (update_live i R' a) k e i R' r n (update_live_ok i R' a Hok HR'ok) (update_live_apart a i R R' Hap HR eq_refl) HR'
    ltac:(lia) Hn Hle) as (m' & k' & e' & E & Hm').
  rewrite (uint_small 32 r) in E, Hm' by lia. eexists. split; [exact E|]. split; [reflexivity|]. cbn [Alloc64 update_live LiveRegions]. rewrite list_insert_insert_eq.
  apply Forall2_same_length_lookup_2; [rewrite length_insert; reflexivity|]. intros j S T HS HT.
  apply list_lookup_insert_Some in HT as [(<- & <- & _)|[_ HT]].
  2:{ rewrite HS in HT. injection HT as ->. apply same_live_refl. }
  rewrite HR in HS. injection HS as <-. split; [reflexivity|]. split.
  - assert (used_in (UsedPages R') r (Z.to_nat n) = n) as Hused.
    { rewrite used_in_all; [lia|]. intros q Hq. cbn [R' granted64 UsedPages]. rewrite Get_set_pages.
      destruct (Z.leb_spec r q), (Z.ltb_spec q (r + Z.of_nat (Z.to_nat n))); [reflexivity|lia..]. }
    cbn [unmapped_live FreeSpace]. rewrite Hused. cbn [R' granted64 FreeSpace].
    pose proof (live_free _ HRok). pose proof (size_bound _ (live_region _ HRok)). unfold FEX_PAGE_SIZE in *.
    rewrite (uint_small 64 (FreeSpace R - _)), uint_small by lia. lia.
  - intros q Hq. cbn [unmapped_live UsedPages]. rewrite Hm'. cbn [R' granted64 UsedPages]. rewrite Get_set_pages, Z2Nat.id by lia.
    destruct (Z.leb_spec r q), (Z.ltb_spec q (r + n)); cbn [andb orb negb]; try reflexivity. apply Hfree. lia.
Qed.

(** C34: What [Mmap] hands out, [Munmap] takes back: after a request for whole pages
    at no fixed address that is tracked, unmapping the result succeeds and leaves
    every region with the free space and the used pages that it had, some reserved
    regions having become live. The regions are up to 16 terabytes large. *)
Theorem Mmap_Munmap_roundtrip a k e length prot flags fd offset Addr : alloc64_ok a -> regions_apart a -> protects (K := K) ->
  aligned_request length fd offset Addr -> no_fixed flags -> length mod FEX_PAGE_SIZE = 0 ->
  (forall i R, all_regions a !! i = Some R -> RegionSize R <= 2 ^ 44) ->
  exists v p1, Mmap Addr length prot flags fd offset (mkProcess64 a k e) = Ok (v, p1) /\
  (exhausted length a v p1 \/ stray length prot flags fd offset Addr a v p1 \/
  exists a1 p2, activates a a1 /\ Munmap v length p1 = Ok (0, p2) /\ same_alloc a1 (Alloc64 p2)).
Proof.
  intros Hok Hap Hprot Hreq Hnf Hmod Hsmall.
  destruct (Mmap_free_run length prot flags fd offset Addr a k e Hok Hprot Hreq Hnf) as (v & p1 & E & _ & Hcases).
  exists v, p1. split; [exact E|]. destruct Hcases as [(a1 & i & R & s & r & Ha & HR & _ & (Hfs & Hr0 & Hle & Hfree & _) & -> & Ep & Hm)|[Hx|Hs]]; [|auto..].
  right. right. exists a1. pose proof (activates_ok _ _ Ha Hok) as Hok1. destruct Hreq as (Hl & _).
  destruct (AlignUp_PageLength length Hl) as [HA Hn].
  assert (length = PageLength length * FEX_PAGE_SIZE) as El.
  { rewrite <- HA. unfold AlignUp. rewrite Hmod. change ((FEX_PAGE_SIZE - 0) mod FEX_PAGE_SIZE) with 0. rewrite uint_small; lia. }
  assert (r < 2 ^ 32) as Hr32.
  { pose proof (activates_small a a1 _ Ha Hsmall i R HR). destruct (region_pages _ (live_region _ (live_regions_ok a1 Hok1 i R HR))). unfold FEX_PAGE_SIZE in *. lia. }
  destruct p1 as [a' k' e']. cbn [Alloc64] in Ep. subst a'.
  destruct (granted_unmapped a1 k' e' i R r (PageLength length) Hok1 (regions_live_apart a1 (activates_apart a a1 Ha Hap)) HR Hr0 ltac:(lia) Hle Hr32 Hfs Hfree)
    as (p2 & E2 & Hsame). rewrite <- El in E2. exists p2. auto.
Qed.

(** ** The header of a region *)

(** The host grants every fixed mapping of this size. *)
Definition grants (n prot flags fd offset : Z) : Prop :=
  forall off k, exists k', host_mmap off (n * FEX_PAGE_SIZE) prot (fixed_flags flags) fd offset k = (Ret off, k').

(** The header of a region is larger than what is marked of it: of a header of
    [H] pages, only [filled H] are. The first request for a few pages in a new
    region is placed right there, over the region's own bit set; its memory is what
    the allocator goes on reading. A region of 64 gigabytes has a header of 513
    pages, of which 512 are marked. *)
Theorem Mmap_overwrites_header S k e length prot flags fd offset : region_ok S -> protects (K := K) ->
  aligned_request length fd offset 0 -> no_fixed flags -> grants (PageLength length) prot flags fd offset ->
  let n := PageLength length in let H := header_pages (RegionPages S) in
  0 < filled H -> filled H + n <= H ->
  n * FEX_PAGE_SIZE <= RegionSize S - H * FEX_PAGE_SIZE -> n * FEX_PAGE_SIZE + SizeOfLiveRegion (n * FEX_PAGE_SIZE) <= RegionSize S ->
  exists p', Mmap 0 length prot flags fd offset (mkProcess64 (mkAlloc64 [S] []) k e) = Ok (Base S + filled H * FEX_PAGE_SIZE, p') /\
  Base S + filled H * FEX_PAGE_SIZE + n * FEX_PAGE_SIZE <= Base S + SizeOfLiveRegion (RegionSize S).
Proof.
  intros HS Hprot Hreq Hnf Hgr n H' Hf0 HfH Hfs Hsz. destruct (region_pages _ HS) as [E HP]. pose proof (size_bound _ HS) as Hsb.
  destruct (AlignUp_PageLength length (proj1 Hreq)) as [_ Hn]. fold n in Hn.
  pose proof (header_pages_range (RegionPages S) ltac:(lia)) as HH. fold H' in HH. set (R := fresh_live S).
  assert (LastAllocation R 0 = H') as HL.
  { cbn [R fresh_live LastAllocation LastPageAllocation Z.eqb]. apply uint_small. pose proof (header_pages_small (RegionPages S) ltac:(lia)). fold H' in H2 |- *. lia. }
  assert (forall q, 0 <= q -> Get (UsedPages R) q = (q <? filled H')) as Hget.
  { intros q Hq. cbn [R fresh_live UsedPages]. fold H'. rewrite Get_MemSet by lia. replace (Get ∅ q) with false by reflexivity. apply orb_false_r. }
  assert (forall r, find_pages (UsedPages R) (LastAllocation R 0) n (RegionPages (SlabInfo R)) = Ok r -> r = filled H') as Hfind.
  { intros r Er. assert (Get (UsedPages R) 0 = true) as H0t by (rewrite Hget by lia; apply Z.ltb_lt; lia).
    assert (n <= RegionPages S) by (unfold FEX_PAGE_SIZE in *; lia).
    destruct (find_pages_spec (UsedPages R) (LastAllocation R 0) n (RegionPages (SlabInfo R))) as (r' & Er' & Hr0 & _ & _ & Hrun).
    1-3: rewrite ?HL; cbn [R fresh_live SlabInfo]; lia.
    rewrite Er in Er'. injection Er' as <-. rewrite HL in Hrun. destruct (Hrun H0t (filled H')) as (Hne & (Hp0 & _ & Hfree) & Hg).
    - split; [lia|]. split; [exact HfH|]. intros q Hq. rewrite Hget by lia. apply Z.ltb_ge. lia.
    - rewrite Hget in Hg by lia. specialize (Hfree r ltac:(lia)). rewrite Hget in Hfree by lia. lia. }
  assert (forall a', activates (mkAlloc64 [S] []) a' -> a' = mkAlloc64 [S] [] \/ a' = mkAlloc64 [] [R]) as Hact.
  { intros a' Ha. inversion Ha as [|? it T ? HT Ha2]; subst; [auto|right]. cbn in HT. apply list_lookup_singleton_Some in HT as [-> <-].
    inversion Ha2 as [|? it' T' ? HT' _]; subst; [reflexivity|]. discriminate. }
  assert (alloc64_ok (mkAlloc64 [S] [])) as Hok.
  { split; intros i T HT; cbn in HT; [apply list_lookup_singleton_Some in HT as [_ <-]; exact HS|discriminate]. }
  destruct (Mmap_free_run length prot flags fd offset 0 _ k e Hok Hprot Hreq Hnf) as (v & p' & Em & _ & Hcases).
  exists p'. split.
  - rewrite Em. do 2 f_equal. fold n in Hcases. destruct Hcases as [(a1 & i & R' & s & r & Ha & HR & Hs & Hroom & -> & _)|[(_ & Ha & Hno & Hres)|(_ & Hv & Ht)]].
    + destruct (Hact a1 Ha) as [-> | ->]; [discriminate|]. cbn in HR. apply list_lookup_singleton_Some in HR as [_ <-].
      assert (s = 0) as -> by (destruct Hs; assumption). destruct Hroom as (_ & _ & _ & _ & Er). rewrite (Hfind r Er). reflexivity.
    + exfalso. destruct (Hact _ Ha) as [Ea|Ea]; rewrite Ea in Hno, Hres.
      * specialize (Hres 0%nat S eq_refl). fold n in Hres. lia.
      * specialize (Hno 0%nat R eq_refl Hfs). fold n in Hno. apply Hfind in Hno. lia.
    + exfalso. destruct Ht as [|(_ & k0 & r & k1 & Ek & Herr)]; [contradiction|]. destruct (Herr eq_refl) as [e0 ->].
      destruct (Hgr v k0) as (k' & Ek'). fold n in Ek, Ek'. congruence.
  - rewrite SizeOfLiveRegion_eq, <- RegionPages_eq by lia. fold H'. unfold FEX_PAGE_SIZE. lia.
Qed.

(** ** Requests at a fixed address *)

Lemma find_region_live a k e i R Addr AddrEnd : alloc64_ok a -> live_apart a -> LiveRegions a !! i = Some R -> inside R Addr 0 ->
  find_region Addr AddrEnd (mkProcess64 a k e) = Ok (Some i, mkProcess64 a k e).
Proof. intros Hok Hap HR Hin. unfold find_region. rewrite get_alloc64_run. cbn [Alloc64]. rewrite (find_live_inside a i R); auto. Qed.

(** [MAP_FIXED_NOREPLACE] fails although the place is free: when the pages at
    the address are free, but so is a run of the same length somewhere below it in
    the region, the scan takes that run; the host is asked to map it, over nothing
    that anybody requested and tracked nowhere, and the answer is [EEXIST]. *)
Theorem Mmap_noreplace_refuses_free a k e i R p s length prot flags fd offset : alloc64_ok a -> live_apart a ->
  LiveRegions a !! i = Some R -> let n := PageLength length in
  aligned_request length fd offset (page_at R p) -> has flags MAP_FIXED_NOREPLACE = true -> grants n prot flags fd offset ->
  0 < p -> p + n < RegionPages (SlabInfo R) -> n * FEX_PAGE_SIZE <= FreeSpace R -> Get (UsedPages R) 0 = true ->
  free_run (UsedPages R) p n -> run_below (UsedPages R) p n s ->
  exists r k', Mmap (page_at R p) length prot flags fd offset (mkProcess64 a k e) = Ok (error EEXIST, mkProcess64 a k' e) /\
  run_below (UsedPages R) p n r /\ host_mmap (page_at R r) (n * FEX_PAGE_SIZE) prot (fixed_flags flags) fd offset k = (Ret (page_at R r), k').
Proof.
  intros Hok Hap HR n Hreq Hf Hgr Hp Hpn Hfs H0t Hfree Hs. pose proof (live_regions_ok a Hok i R HR) as HRok.
  destruct (AlignUp_PageLength length (proj1 Hreq)) as [_ Hn]. fold n in Hn. destruct (region_pages _ (live_region _ HRok)) as [E HP].
  pose proof (base_bound _ (live_region _ HRok)) as Hbb. unfold LOWER_BOUND in *.
  assert (inside R (page_at R p) 0) as Hin by (unfold inside, page_at, FEX_PAGE_SIZE in *; lia).
  assert (LastAllocation R (page_at R p) = p) as HL.
  { unfold LastAllocation. destruct (Z.eqb_spec (page_at R p) 0); [unfold page_at, FEX_PAGE_SIZE in *; lia|]. unfold page_at.
    replace (Base (SlabInfo R) + p * FEX_PAGE_SIZE - Base (SlabInfo R)) with (p * FEX_PAGE_SIZE) by lia. apply Z.div_mul. discriminate. }
  assert (start_ok R (page_at R p)) as Hst by (right; destruct Hin; lia).
  destruct (find_pages_spec (UsedPages R) p n (RegionPages (SlabInfo R))) as (r & Er & _ & _ & _ & Hrun); [lia..|].
  destruct (Hrun H0t s Hs) as (_ & Hbelow & _). rewrite <- HL in Er. exists r. destruct (Hgr (page_at R r) k) as (k' & Ek). exists k'.
  rewrite (Mmap_past_checks _ _ _ _ _ _ _ Hreq), Hf, orb_true_r. cbn [orb]. fold n.
  rewrite (M_bind_Ok _ _ _ _ _ (find_region_live a k e i R _ _ Hok Hap HR Hin)), get_alloc64_run. cbn [Alloc64 place_fixed]. rewrite Hf, M_bind_assoc.
  destruct (CheckIfRangeFits_run a k e 0 i n prot flags fd offset (page_at R p) R HR HRok Hst ltac:(lia)) as [[Hno _]|(r' & Hroom & EC)].
  { specialize (Hno Hfs). rewrite Er in Hno. injection Hno as ->. destruct Hbelow as (_ & _ & Hb). destruct (Hrun H0t s Hs) as (Hne & _). lia. }
  destruct Hroom as (_ & Hr0 & _ & _ & Er'). rewrite Er in Er'. injection Er' as <-.
  assert (LOWER_BOUND < page_at R r /\ page_at R r + n * FEX_PAGE_SIZE < 2 ^ 62) as [Hg1 Hg2].
  { apply page_at_range; auto. destruct Hbelow as (_ & Hb & _). lia. }
  rewrite Ek in EC. replace (page_at R r =? MAP_FAILED) with false in EC
    by (symmetry; apply Z.eqb_neq; change MAP_FAILED with 0xFFFFFFFFFFFFFFFF; unfold FEX_PAGE_SIZE in *; lia).
  rewrite (M_bind_Ok _ _ _ _ _ EC). cbn [fits_at fst snd]. destruct (Z.eqb_spec (page_at R r) (page_at R p)) as [Eq|_].
  - destruct Hbelow as (_ & Hb & _). unfold page_at, FEX_PAGE_SIZE in Eq. lia.
  - split; [reflexivity|]. split; [exact Hbelow|exact Ek].
Qed.

(** A fixed request inside a live region, when the host grants it. *)
Lemma Mmap_fixed_run a k e i R p length prot flags fd offset : alloc64_ok a -> live_apart a -> LiveRegions a !! i = Some R ->
  let n := PageLength length in aligned_request length fd offset (page_at R p) ->
  has flags MAP_FIXED = true -> has flags MAP_FIXED_NOREPLACE = false -> 0 <= p -> p + n < RegionPages (SlabInfo R) ->
  Mmap (page_at R p) length prot flags fd offset (mkProcess64 a k e) =
  match host_mmap (page_at R p) (n * FEX_PAGE_SIZE) prot (fixed_flags flags) fd offset k with
  | (Ret _, k') => Ok (page_at R p, mkProcess64 (update_live i (granted64 p n R) a) k' e)
  | (Err e', k') => Ok (error e', mkProcess64 a k' e')
  end.
Proof.
  intros Hok Hap HR n Hreq Hf1 Hf2 Hp Hpn. pose proof (live_regions_ok a Hok i R HR) as HRok. destruct (region_pages _ (live_region _ HRok)) as [E HP].
  destruct (AlignUp_PageLength length (proj1 Hreq)) as [_ Hn]. fold n in Hn. pose proof (base_bound _ (live_region _ HRok)) as Hbb.
  pose proof (end_bound _ (live_region _ HRok)) as Heb. unfold LOWER_BOUND in *.
  assert (inside R (page_at R p) 0) as Hin by (unfold inside, page_at, FEX_PAGE_SIZE in *; lia).
  rewrite (Mmap_past_checks _ _ _ _ _ _ _ Hreq), Hf1. cbn [orb]. fold n.
  rewrite (M_bind_Ok _ _ _ _ _ (find_region_live a k e i R _ _ Hok Hap HR Hin)), get_alloc64_run. cbn [Alloc64 place_fixed]. rewrite Hf2, M_bind_assoc.
  assert (page_at R p <> MAP_FAILED /\ page_at R p <> 0) as [Hne1 Hne2].
  { change MAP_FAILED with 0xFFFFFFFFFFFFFFFF. unfold page_at, FEX_PAGE_SIZE in *. lia. }
  unfold syscall64. unfold mbind at 1, M_bind at 1. cbn [Alloc64 Host64 errno64].
  destruct (host_mmap _ _ _ _ _ _ k) as [[v|e'] k'] eqn:Ek.
  - pose proof (law_fixed _ _ _ _ _ _ _ _ _ Ek (has_fixed_flags flags)) as ->.
    rewrite (proj2 (Z.eqb_neq _ _) Hne1), M_ret_bind. unfold finish.
    rewrite (M_bind_Ok _ _ _ _ _ (mark_used_run n Hn a k' e i R p HR HRok Hp Hpn)), (proj2 (Z.eqb_neq _ _) Hne2). reflexivity.
  - reflexivity.
Qed.

(** A fixed mapping over pages that are used already is charged again: two
    requests for the same free pages, and one unmapping of them, leave the region
    with the free space reduced by their size, although as many pages are free as
    before. *)
Theorem Mmap_fixed_leaks a k e i R p length prot flags fd offset : alloc64_ok a -> live_apart a -> LiveRegions a !! i = Some R ->
  let n := PageLength length in aligned_request length fd offset (page_at R p) ->
  has flags MAP_FIXED = true -> has flags MAP_FIXED_NOREPLACE = false -> grants n prot flags fd offset ->
  0 <= p < 2 ^ 32 -> p + n < RegionPages (SlabInfo R) -> free_run (UsedPages R) p n -> 2 * (n * FEX_PAGE_SIZE) <= FreeSpace R ->
  exists p1 p2 p3 R', Mmap (page_at R p) length prot flags fd offset (mkProcess64 a k e) = Ok (page_at R p, p1) /\
  Mmap (page_at R p) length prot flags fd offset p1 = Ok (page_at R p, p2) /\
  Munmap (page_at R p) (n * FEX_PAGE_SIZE) p2 = Ok (0, p3) /\ LiveRegions (Alloc64 p3) !! i = Some R' /\
  same_bits (UsedPages R') (UsedPages R) /\ FreeSpace R' = FreeSpace R - n * FEX_PAGE_SIZE.
Proof.
  intros Hok Hap HR n Hreq Hf1 Hf2 Hgr [Hp Hp32] Hpn Hfree Hfs. pose proof (live_regions_ok a Hok i R HR) as HRok.
  destruct (AlignUp_PageLength length (proj1 Hreq)) as [_ Hn]. fold n in Hn.
  assert (forall R0 a0 k0 e0, alloc64_ok a0 -> live_apart a0 -> LiveRegions a0 !! i = Some R0 -> SlabInfo R0 = SlabInfo R -> n * FEX_PAGE_SIZE <= FreeSpace R0 ->
    exists k1, Mmap (page_at R p) length prot flags fd offset (mkProcess64 a0 k0 e0) = Ok (page_at R p, mkProcess64 (update_live i (granted64 p n R0) a0) k1 e0) /\
    alloc64_ok (update_live i (granted64 p n R0) a0) /\ live_apart (update_live i (granted64 p n R0) a0) /\
    LiveRegions (update_live i (granted64 p n R0) a0) !! i = Some (granted64 p n R0)) as Hstep.
  { intros R0 a0 k0 e0 Hok0 Hap0 HR0 HS0 Hfs0. assert (page_at R p = page_at R0 p) as -> by (unfold page_at; rewrite HS0; reflexivity).
    pose proof (live_regions_ok a0 Hok0 i R0 HR0) as HR0ok. destruct (Hgr (page_at R0 p) k0) as (k1 & Ek). exists k1.
    assert (aligned_request length fd offset (page_at R0 p)) as Hreq0 by (unfold page_at in *; rewrite HS0; exact Hreq).
    rewrite (Mmap_fixed_run a0 k0 e0 i R0 p length prot flags fd offset Hok0 Hap0 HR0 Hreq0 Hf1 Hf2 Hp ltac:(rewrite HS0; exact Hpn)). fold n. rewrite Ek.
    split; [reflexivity|]. split; [apply update_live_ok; [exact Hok0|apply granted64_ok; auto; try lia; rewrite HS0; exact Hpn]|].
    split; [apply (update_live_apart a0 i R0); auto|]. apply list_lookup_insert_eq. eauto using lookup_lt_Some. }
  pose proof (size_bound _ (live_region _ HRok)). pose proof (live_free _ HRok). unfold FEX_PAGE_SIZE in *.
  destruct (Hstep R a k e Hok Hap HR eq_refl ltac:(lia)) as (k1 & E1 & Hok1 & Hap1 & HR1). set (a1 := update_live i (granted64 p n R) a) in *.
  assert (FreeSpace (granted64 p n R) = FreeSpace R - n * 4096) as HF1 by (cbn [granted64 FreeSpace]; apply uint_small; unfold FEX_PAGE_SIZE; lia).
  destruct (Hstep (granted64 p n R) a1 k1 e Hok1 Hap1 HR1 eq_refl ltac:(lia)) as (k2 & E2 & Hok2 & Hap2 & HR2).
  set (R2 := granted64 p n (granted64 p n R)) in *. set (a2 := update_live i R2 a1) in *.
  assert (FreeSpace R2 = FreeSpace R - 2 * (n * 4096)) as HF2.
  { cbn [R2 granted64 FreeSpace] in HF1 |- *. rewrite HF1. unfold FEX_PAGE_SIZE. rewrite uint_small; lia. }
  destruct (Munmap_run a2 k2 e i R2 p n Hok2 Hap2 HR2 Hp ltac:(lia) Hpn) as (m' & k3 & e3 & E3 & Hm').
  rewrite (uint_small 32 p) in E3, Hm' by lia.
  eexists _, _, _, _. split; [exact E1|]. split; [exact E2|]. split; [exact E3|]. split; [apply list_lookup_insert_eq; eauto using lookup_lt_Some|].
  assert (forall q, p <= q < p + n -> Get (UsedPages R2) q = true) as Hset.
  { intros q Hq. cbn [R2 granted64 UsedPages]. rewrite Get_set_pages, Z2Nat.id by lia. replace (p <=? q) with true by lia. replace (q <? p + n) with true by lia. reflexivity. }
  split.
  - intros q Hq. cbn [unmapped_live UsedPages]. rewrite Hm'. destruct (decide (p <= q < p + n)) as [Hin|Hout].
    + rewrite Hset, Hfree by lia. replace (p <=? q) with true by lia. replace (q <? p + n) with true by lia. reflexivity.
    + cbn [R2 granted64 UsedPages]. rewrite !Get_set_pages, Z2Nat.id by lia. destruct (Z.leb_spec p q), (Z.ltb_spec q (p + n)); try lia; reflexivity.
  - cbn [unmapped_live FreeSpace]. rewrite HF2, used_in_all, Z2Nat.id by (try lia; intros; apply Hset; lia). rewrite uint_small; lia.
Qed.

(** ** Requests below four gigabytes *)

(** For an address below four gigabytes the request goes to the host, and when
    the host fails, the hook replaces its error number by [EPERM], whatever it was:
    both functions return [-1] themselves there, which the hooks take for an error
    number of theirs. *)
Theorem FEX_hooks_lose_errno a k e Addr length prot flags fd offset : 0 < Addr < LOWER_BOUND ->
  (forall e' k', host_mmap Addr length prot flags fd offset k = (Err e', k') ->
  FEX_mmap Addr length prot flags fd offset (mkProcess64 a k e) = Ok (MAP_FAILED, mkProcess64 a k' 1)) /\
  (forall e' k', host_munmap Addr length k = (Err e', k') ->
  FEX_munmap Addr length (mkProcess64 a k e) = Ok (-1, mkProcess64 a k' 1)).
Proof.
  intros HA. split; intros e' k' Ek.
  - unfold FEX_mmap, Mmap. replace (Addr =? 0) with false by lia. replace (Addr <? LOWER_BOUND) with true by lia. cbn [negb andb].
    unfold syscall64. unfold mbind at 1, M_bind at 1. cbn [Host64]. rewrite Ek. reflexivity.
  - unfold FEX_munmap, Munmap. replace (Addr <? LOWER_BOUND) with true by lia.
    unfold syscall64. rewrite M_bind_assoc. unfold mbind at 1, M_bind at 1. cbn [Host64]. rewrite Ek. reflexivity.
Qed.
End Calls.

(** * The 64-bit allocator on concrete inputs

    A host that grants every request and one that refuses them all, a region of 64
    megabytes and one of 64 gigabytes. *)
(** ** Two hosts *)

Inductive Granting := granting.
Inductive Refusing := refusing.
#[export] Instance GrantingHost : HostMemory Granting := {|
  host_mmap addr _ _ _ _ _ k := (Ret addr, k);
  host_munmap _ _ k := (Ret 0, k);
  host_mremap _ _ _ _ new k := (Ret new, k);
  host_shmat _ addr _ k := (Ret addr, k);
  host_shmdt _ k := (Ret 0, k);
  host_shm_stat _ k := (Ret 4096, k)
|}.
#[export] Instance RefusingHost : HostMemory Refusing := {|
  host_mmap _ _ _ _ _ _ k := (Err ENOMEM, k);
  host_munmap _ _ k := (Err EINVAL, k);
  host_mremap _ _ _ _ _ k := (Err ENOMEM, k);
  host_shmat _ _ _ k := (Err ENOMEM, k);
  host_shmdt _ k := (Err EINVAL, k);
  host_shm_stat _ k := (Err EINVAL, k)
|}.
#[export] Instance GrantingAdvice : HostAdvice Granting := {| host_mprotect _ _ _ k := (Ret 0, k); host_madvise _ _ _ k := k |}.
#[export] Instance RefusingAdvice : HostAdvice Refusing := {| host_mprotect _ _ _ k := (Ret 0, k); host_madvise _ _ _ k := k |}.
#[export] Instance GrantingLaws : FixedLaws Granting.
Proof. split; cbn; intros; congruence. Qed.
#[export] Instance RefusingLaws : FixedLaws Refusing.
Proof. split; cbn; intros; [congruence|]. assert (e = ENOMEM) as -> by congruence. unfold ENOMEM. lia. Qed.
Lemma granting_protects : protects (K := Granting).
Proof. intros addr len prot k. eexists. reflexivity. Qed.
Lemma refusing_protects : protects (K := Refusing).
Proof. intros addr len prot k. eexists. reflexivity. Qed.
Lemma granting_grants n prot fl fd off : grants (K := Granting) n prot fl fd off.
Proof. intros o k. eexists. reflexivity. Qed.

(** ** Regions *)

Definition small_region : ReservedVMARegion := mkReserved LOWER_BOUND 0x4000000.
Definition large_region : ReservedVMARegion := mkReserved LOWER_BOUND 0x1000000000.
(** The first page is used. *)
Definition small_live : LiveVMARegion := mkLive small_region 0x3FFE000 2 (Set_ ∅ 0).
Definition one_region : OSAllocator_64Bit := mkAlloc64 [] [small_live].

Lemma small_ok : region_ok small_region.
Proof. split; try reflexivity; cbn; unfold LOWER_BOUND; lia. Qed.
Lemma large_ok : region_ok large_region.
Proof. split; try reflexivity; cbn; unfold LOWER_BOUND; lia. Qed.
Lemma small_pages : RegionPages small_region = 0x4000.
Proof. reflexivity. Qed.
Lemma one_ok : alloc64_ok one_region.
Proof.
  split; intros i R HR; cbn in HR; [discriminate|]. apply list_lookup_singleton_Some in HR as [_ <-].
  split; [exact small_ok|..]; cbn [small_live SlabInfo LastPageAllocation FreeSpace]; rewrite ?small_pages; cbn [small_region RegionSize]; lia.
Qed.
Lemma one_apart : regions_apart one_region.
Proof. intros i j R S Hij HR HS. cbn in HR, HS. apply list_lookup_singleton_Some in HR as [-> _]. apply list_lookup_singleton_Some in HS as [-> _]. lia. Qed.
Lemma small_free p n : 0 < p -> free_run (UsedPages small_live) p n.
Proof. intros Hp q Hq. cbn [small_live UsedPages]. rewrite Get_Set. case_bool_decide; [lia|reflexivity]. Qed.

Definition anonymous64 : Z := Z.lor MAP_PRIVATE MAP_ANONYMOUS.
Lemma aligned_at Addr : Addr = 0 \/ LOWER_BOUND <= Addr < 2 ^ 57 -> page_offset_bits Addr = 0 -> aligned_request 0x3000 (-1) 0 Addr.
Proof. intros H1 H2. split_and!; auto; lia. Qed.
Lemma no_fixed_anonymous : no_fixed anonymous64.
Proof. split; reflexivity. Qed.

(** ** Witnesses *)


Lemma FEX_mmap_ignores_refusal_witness : exists v p', FEX_mmap 0 0x3000 PROT_READ anonymous64 (-1) 0 (mkProcess64 one_region refusing 0) = Ok (v, p') /\
  LOWER_BOUND < v < 2 ^ 62 /\ Alloc64 p' = one_region.
Proof.
  apply (FEX_mmap_ignores_refusal 0x3000 PROT_READ anonymous64 (-1) 0 0 one_region refusing 0).
  - exact one_ok.
  - exact refusing_protects.
  - apply aligned_at; [left|]; reflexivity.
  - exact no_fixed_anonymous.
  - reflexivity.
  - intros off k. eexists _, _. reflexivity.
  - reflexivity.
  - exists 0%nat, small_live, 2. split; [reflexivity|]. split_and!; try (vm_compute; congruence). apply small_free. lia.
Defined.

Lemma Munmap_frees_witness : exists R' p', Munmap (page_at small_live 0) (3 * FEX_PAGE_SIZE) (mkProcess64 one_region granting 0) = Ok (0, p') /\
  Alloc64 p' = update_live 0 R' one_region /\ SlabInfo R' = SlabInfo small_live /\
  FreeSpace R' = uint 64 (FreeSpace small_live + used_in (UsedPages small_live) 0 (Z.to_nat 3) * FEX_PAGE_SIZE) /\
  (forall q, Get (UsedPages R') q = negb ((0 <=? q) && (q <? 0 + 3)) && Get (UsedPages small_live) q).
Proof.
  apply (Munmap_frees one_region granting 0 0 small_live 0 3).
  - exact one_ok.
  - apply regions_live_apart, one_apart.
  - reflexivity.
  - lia.
  - lia.
  - reflexivity.
Defined.

Lemma Mmap_Munmap_roundtrip_witness : exists v p1, Mmap 0 0x3000 PROT_READ anonymous64 (-1) 0 (mkProcess64 one_region granting 0) = Ok (v, p1) /\
  (exhausted 0x3000 one_region v p1 \/ stray 0x3000 PROT_READ anonymous64 (-1) 0 0 one_region v p1 \/
   exists a1 p2, activates one_region a1 /\ Munmap v 0x3000 p1 = Ok (0, p2) /\ same_alloc a1 (Alloc64 p2)).
Proof.
  apply (Mmap_Munmap_roundtrip one_region granting 0 0x3000 PROT_READ anonymous64 (-1) 0 0).
  - exact one_ok.
  - exact one_apart.
  - exact granting_protects.
  - apply aligned_at; [left|]; reflexivity.
  - exact no_fixed_anonymous.
  - reflexivity.
  - intros i R HR. cbn in HR. apply list_lookup_singleton_Some in HR as [_ <-]. cbn. lia.
Defined.

Lemma Mmap_overwrites_header_witness : exists p',
  Mmap 0 0x1000 PROT_READ anonymous64 (-1) 0 (mkProcess64 (mkAlloc64 [large_region] []) granting 0) = Ok (LOWER_BOUND + 512 * FEX_PAGE_SIZE, p') /\
  LOWER_BOUND + 512 * FEX_PAGE_SIZE + 1 * FEX_PAGE_SIZE <= LOWER_BOUND + SizeOfLiveRegion 0x1000000000.
Proof.
  apply (Mmap_overwrites_header large_region granting 0 0x1000 PROT_READ anonymous64 (-1) 0).
  - exact large_ok.
  - exact granting_protects.
  - repeat split; auto; lia.
  - exact no_fixed_anonymous.
  - apply granting_grants.
  - reflexivity.
  - vm_compute. discriminate.
  - vm_compute. discriminate.
  - vm_compute. discriminate.
Defined.

Definition fixed64 : Z := Z.lor anonymous64 MAP_FIXED.
Definition noreplace64 : Z := Z.lor anonymous64 MAP_FIXED_NOREPLACE.

(** Three pages from page 16 on are free, and so are the three below. *)
Lemma Mmap_noreplace_refuses_free_witness : exists r k',
  Mmap (page_at small_live 16) 0x3000 PROT_READ noreplace64 (-1) 0 (mkProcess64 one_region granting 0) = Ok (error EEXIST, mkProcess64 one_region k' 0) /\
  run_below (UsedPages small_live) 16 3 r /\
  host_mmap (page_at small_live r) (3 * FEX_PAGE_SIZE) PROT_READ (fixed_flags noreplace64) (-1) 0 granting = (Ret (page_at small_live r), k').
Proof.
  apply (Mmap_noreplace_refuses_free one_region granting 0 0 small_live 16 13 0x3000 PROT_READ noreplace64 (-1) 0).
  - exact one_ok.
  - apply regions_live_apart, one_apart.
  - reflexivity.
  - apply aligned_at; [right; split; vm_compute; congruence|reflexivity].
  - reflexivity.
  - apply granting_grants.
  - lia.
  - reflexivity.
  - vm_compute. discriminate.
  - reflexivity.
  - apply small_free. lia.
  - split; [lia|]. split; [reflexivity|apply small_free; lia].
Defined.

Lemma Mmap_fixed_leaks_witness : exists p1 p2 p3 R',
  Mmap (page_at small_live 16) 0x3000 PROT_READ fixed64 (-1) 0 (mkProcess64 one_region granting 0) = Ok (page_at small_live 16, p1) /\
  Mmap (page_at small_live 16) 0x3000 PROT_READ fixed64 (-1) 0 p1 = Ok (page_at small_live 16, p2) /\
  Munmap (page_at small_live 16) (3 * FEX_PAGE_SIZE) p2 = Ok (0, p3) /\ LiveRegions (Alloc64 p3) !! 0%nat = Some R' /\
  same_bits (UsedPages R') (UsedPages small_live) /\ FreeSpace R' = FreeSpace small_live - 3 * FEX_PAGE_SIZE.
Proof.
  apply (Mmap_fixed_leaks one_region granting 0 0 small_live 16 0x3000 PROT_READ fixed64 (-1) 0).
  - exact one_ok.
  - apply regions_live_apart, one_apart.
  - reflexivity.
  - apply aligned_at; [right; split; vm_compute; congruence|reflexivity].
  - reflexivity.
  - reflexivity.
  - apply granting_grants.
  - lia.
  - reflexivity.
  - apply small_free. lia.
  - vm_compute. discriminate.
Defined.

Lemma FEX_hooks_lose_errno_witness :
  (forall e' k', host_mmap 0x1000 0x1000 PROT_READ anonymous64 (-1) 0 refusing = (Err e', k') ->
    FEX_mmap 0x1000 0x1000 PROT_READ anonymous64 (-1) 0 (mkProcess64 one_region refusing 0) = Ok (MAP_FAILED, mkProcess64 one_region k' 1)) /\
  (forall e' k', host_munmap 0x1000 0x1000 refusing = (Err e', k') ->
    FEX_munmap 0x1000 0x1000 (mkProcess64 one_region refusing 0) = Ok (-1, mkProcess64 one_region k' 1)).
Proof. apply (FEX_hooks_lose_errno one_region refusing 0 0x1000 0x1000 PROT_READ anonymous64 (-1) 0). unfold LOWER_BOUND. lia. Defined.
