(* ===== verification/AddressSpace.v ===== *)
(** * Taking over the address space

    [Utils/Allocator.cpp]: the size of the host's address space is found by probing,
    and the holes between its mappings are read off [/proc/self/maps] and reserved.
    The constructor of [OSAllocator_64Bit] in [64BitAllocator.cpp] turns these
    reservations into the allocator's regions; its lists live in an arena
    ([IntrusiveArenaAllocator.h]) at the start of the first one. *)
From Stdlib Require Import ZArith Lia Bool.
From stdpp Require Import base gmap list numbers option.
From S2P Require Import Prelude Pages Alloc32 Alloc64.
#[local] Open Scope Z_scope.

Definition MAP_NORESERVE : Z := 0x4000.
Definition MADV_HUGEPAGE : Z := 14.

(** ** [ForwardOnlyIntrusiveArenaAllocator] *)

Record Arena := mkArena { Begin : Z; ArenaSize : Z; LastAllocationOffset : Z }.
(** The object itself, with its table of virtual functions. *)
Definition sizeof_Arena : Z := 32.
Definition new_Arena (Ptr Size_ : Z) : Arena := mkArena Ptr Size_ sizeof_Arena.
(** The pointer, or none where the code returns a null pointer. *)
Definition do_allocate (bytes alignment : Z) (a : Arena) : option (Z * Arena) :=
  let PreviousAligned := AlignUp (LastAllocationOffset a) alignment in
  let NewOffset := uint 64 (PreviousAligned + bytes) in
  if ArenaSize a <? NewOffset then None
  else Some (uint 64 (Begin a + PreviousAligned), mkArena (Begin a) (ArenaSize a) NewOffset).

(** ** Host calls *)

Section Host.
Context {K : Type} `{HostMemory K, HostAdvice K}.

Definition host_call (call : K -> sysret * K) : M K Z := fun k =>
match call k with
| (Ret v, k) => Ok (v, k)
| (Err _, k) => Ok (MAP_FAILED, k)
end.

(** *** [DetermineVASize] *)

Definition TLBSizes : list Z := [57; 52; 48; 47; 42; 39; 36].
Definition probe_flags : Z := Z.lor (Z.lor MAP_FIXED_NOREPLACE MAP_PRIVATE) MAP_ANONYMOUS.
(** The lambda [Find], from page [i] below the top on. *)
Fixpoint Find (Size_ i : Z) (n : nat) : M K bool :=
match n with
| O => mret false
| S n =>
let Want := uint 64 (Size_ - FEX_PAGE_SIZE * i) in
Ptr ← host_call (host_mmap Want FEX_PAGE_SIZE PROT_NONE probe_flags (-1) 0);
if negb (Ptr =? MAP_FAILED) then
  _ ← host_call (host_munmap Ptr FEX_PAGE_SIZE);
  if Ptr =? Want then mret true else Find Size_ (i + 1) n
else Find Size_ (i + 1) n
end.
Fixpoint probe_sizes (sizes : list Z) : M K Z :=
match sizes with
| [] => fun _ => Assert
| Bits :: sizes =>
found ← Find (Z.shiftl 1 Bits) 0 64;
if (found : bool) then mret Bits else probe_sizes sizes
end.
Definition DetermineVASize : M K Z := probe_sizes TLBSizes.

(** *** [StealMemoryRegion] *)

Record MemoryRegion := mkRegion { Ptr : Z; RSize : Z }.
Inductive ParseState := ParseBegin | ParseEnd | ScanEnd.
Record Steal := mkSteal { PState : ParseState; ScanBegin : Z; ScanLast : Z; Regions : list MemoryRegion }.

(** What [read] returns: bytes, none at the end of the file; or an error. *)
Inductive read_result := Chunk (bytes : list Z) | Again | Failed.

Definition isdigit (c : Z) : bool := (48 <=? c) && (c <=? 57).
Definition isalpha (c : Z) : bool := (65 <=? c) && (c <=? 90) || (97 <=? c) && (c <=? 122).
(** [(c <= '9' ? (c - '0') : (c - 'a' + 10))], and the digit appended. *)
Definition hex_digit (c : Z) : Z := if c <=? 57 then c - 48 else c - 97 + 10.
Definition push_digit (v c : Z) : Z := Z.lor (uint 64 (Z.shiftl v 4)) (uint 64 (hex_digit c)).

Definition steal_flags : Z := Z.lor (Z.lor (Z.lor MAP_ANONYMOUS MAP_NORESERVE) MAP_PRIVATE) MAP_FIXED_NOREPLACE.
(** Reserves a hole, if there is one. *)
Definition reserve (MapBegin MapEnd : Z) (Regions_ : list MemoryRegion) : M K (list MemoryRegion) :=
if MapBegin <? MapEnd then
let MapSize := MapEnd - MapBegin in
Alloc ← host_call (host_mmap MapBegin MapSize PROT_NONE steal_flags (-1) 0);
_ ← check (negb (Alloc =? MAP_FAILED));
_ ← check (Alloc =? MapBegin);
mret (Regions_ ++ [mkRegion MapBegin MapSize])
else mret Regions_.

Definition steal_char (First Last c : Z) (s : Steal) : M K Steal :=
match PState s with
| ScanEnd => mret (if c =? 10 then mkSteal ParseBegin (ScanBegin s) (ScanLast s) (Regions s) else s)
| ParseBegin =>
if c =? 45 then
  r ← reserve (Z.max (ScanLast s) First) (Z.min (ScanBegin s) Last) (Regions s);
  mret (mkSteal ParseEnd 0 0 r)
else
  _ ← check (isalpha c || isdigit c);
  mret (mkSteal ParseBegin (push_digit (ScanBegin s) c) (ScanLast s) (Regions s))
| ParseEnd =>
if c =? 32 then mret (mkSteal ScanEnd (ScanBegin s) (ScanLast s) (Regions s))
else
  _ ← check (isalpha c || isdigit c);
  mret (mkSteal ParseEnd (ScanBegin s) (push_digit (ScanLast s) c) (Regions s))
end.
Fixpoint steal_chars (First Last : Z) (cs : list Z) (s : Steal) : M K Steal :=
match cs with
| [] => mret s
| c :: cs => s ← steal_char First Last c s; steal_chars First Last cs s
end.
(** The loop, over what the reads of the file return. *)
Fixpoint steal_loop (First Last : Z) (reads : list read_result) (s : Steal) : M K (list MemoryRegion) :=
match reads with
| [] => fun _ => Undef
| Again :: reads => steal_loop First Last reads s
| Failed :: _ => fun _ => Assert
| Chunk [] :: _ =>
match PState s with
| ParseBegin => reserve (Z.max (ScanLast s) First) Last (Regions s)
| _ => fun _ => Assert
end
| Chunk cs :: reads => s ← steal_chars First Last cs s; steal_loop First Last reads s
end.
(** [reads] stands for the file [/proc/self/maps]. *)
Definition StealMemoryRegion (reads : list read_result) (First Last : Z) : M K (list MemoryRegion) :=
steal_loop First Last reads (mkSteal ParseBegin 0 0 []).

Definition Steal48BitVA (reads : list read_result) : M K (list MemoryRegion) :=
Bits ← DetermineVASize;
if Bits <? 48 then mret []
else StealMemoryRegion reads 0x800000000000 0x1000000000000.

Fixpoint ReclaimMemoryRegion (l : list MemoryRegion) : M K unit :=
match l with
| [] => mret tt
| Region :: l => _ ← host_call (host_munmap (Ptr Region) (RSize Region)); ReclaimMemoryRegion l
end.

(** *** The constructor of [OSAllocator_64Bit] *)

(** Sizes of the objects in the arena: the lists, their nodes, and the record of a
  reserved region. *)
Definition sizeof_list : Z := 32.
Definition sizeof_node : Z := 24.
Definition sizeof_ReservedVMARegion : Z := 16.
Definition new_construct (size : Z) (a : Arena) : outcome Arena :=
match do_allocate size 8 a with Some (_, a) => Ok a | None => Undef end.

(** The loop over the reservations: the arena once there is one, and the list. *)
Definition add_region (Ptr_ Size_ : Z) (a : Arena) (l : list ReservedVMARegion) : outcome (option Arena * list ReservedVMARegion) :=
a ← new_construct sizeof_ReservedVMARegion a;
a ← new_construct sizeof_node a;
Ok (Some a, l ++ [mkReserved Ptr_ Size_]).
Fixpoint add_ranges (ranges : list MemoryRegion) (ObjectAlloc : option Arena) (l : list ReservedVMARegion)
: M K (option Arena * list ReservedVMARegion) :=
match ranges with
| [] => mret (ObjectAlloc, l)
| R :: ranges =>
let AllocationSize := RSize R in
match ObjectAlloc with
| Some a =>
  r ← lift (add_region (Ptr R) AllocationSize a l);
  add_ranges ranges r.1 r.2
| None =>
  let MaxSize := Z.min (64 * 1024 * 1024) AllocationSize in
  _ ← host_call (host_mprotect (Ptr R) MaxSize (Z.lor PROT_READ PROT_WRITE));
  _ ← modify (host_madvise (Ptr R) MaxSize MADV_HUGEPAGE);
  a ← lift (new_construct sizeof_list (new_Arena (Ptr R) MaxSize));
  a ← lift (new_construct sizeof_list a);
  if MaxSize <? AllocationSize then
    r ← lift (add_region (Ptr R + MaxSize) (AllocationSize - MaxSize) a l);
    add_ranges ranges r.1 r.2
  else add_ranges ranges (Some a) l
end
end.

(** [Steal32BitIfOldKernel]; the number that the release string of the kernel is
  parsed to is an argument. *)
Definition Steal32BitIfOldKernel (Version : option Z) (reads : list read_result) : M K (list MemoryRegion) :=
match Version with
| None => mret []
| Some v =>
if Z.lor (Z.lor (Z.shiftl 4 24) (Z.shiftl 17 16)) 0 <=? v then mret []
else StealMemoryRegion reads 0x10000 LOWER_BOUND
end.

(** The upper bound as built for an x86-64 host. *)
Definition UpperBound (Bits : Z) : Z := Z.shiftl 1 Bits - FEX_PAGE_SIZE.
(** The file is read anew for each range: [reads32] and [reads]. Without any
  reservation the lists are null pointers: there is no allocator. *)
Definition new_OSAllocator_64Bit (Version : option Z) (reads32 reads : list read_result) : M K (option OSAllocator_64Bit) :=
Bits ← DetermineVASize;
LowMem ← Steal32BitIfOldKernel Version reads32;
Ranges ← StealMemoryRegion reads LOWER_BOUND (UpperBound Bits);
r ← add_ranges Ranges None [];
_ ← ReclaimMemoryRegion LowMem;
mret (match r.1 with Some _ => Some (mkAlloc64 r.2 []) | None => None end).

(** The destructor: every region is given back, the live ones first. *)
Fixpoint unmap_regions (l : list ReservedVMARegion) : M K unit :=
match l with
| [] => mret tt
| R :: l => _ ← host_call (host_munmap (Base R) (RegionSize R)); unmap_regions l
end.
Definition delete_OSAllocator_64Bit (a : OSAllocator_64Bit) : M K unit :=
_ ← unmap_regions (SlabInfo <$> LiveRegions a); unmap_regions (ReservedRegions a).
End Host.
