(* ===== verification/AddressSpaceTheorems.v ===== *)
(** * What taking over the address space achieves

    The probe finds the size of the address space; the reservations are exactly the
    holes between the host's mappings; the allocator starts with its invariant. *)
From Stdlib Require Import ZArith Lia Bool Sorted.
From stdpp Require Import base gmap list numbers option.
From S2P Require Import Prelude Pages Alloc32 Alloc64 Alloc64Logic Alloc64Theorems Alloc64Calls AddressSpace.
#[local] Open Scope Z_scope.

(** ** The text of [/proc/self/maps] *)

(** Lower-case hexadecimal digits and their value. *)
Definition hex_char (c : Z) : Prop := 48 <= c <= 57 \/ 97 <= c <= 102.
Definition hex_value (v : Z) (cs : list Z) : Z := fold_left (fun v c => v * 16 + hex_digit c) cs v.
(** A line: two addresses, and the rest. *)
Record MapLine := mkLine { line_begin : list Z; line_end : list Z; line_rest : list Z }.
Definition line_text (l : MapLine) : list Z := line_begin l ++ 45 :: line_end l ++ 32 :: line_rest l ++ [10].
Definition first_address (l : MapLine) : Z := hex_value 0 (line_begin l).
Definition last_address (l : MapLine) : Z := hex_value 0 (line_end l).
(** The lines are in order, from [prev] on, and do not overlap. *)
Fixpoint lines_ok (prev : Z) (ls : list MapLine) : Prop :=
  match ls with
  | [] => True
  | l :: ls => Forall hex_char (line_begin l) /\ Forall hex_char (line_end l) /\ Forall (fun c => c <> 10) (line_rest l) /\
      prev <= first_address l <= last_address l /\ last_address l < 2 ^ 64 /\ lines_ok (last_address l) ls
  end.
(** The file comes in pieces; reads may be interrupted. *)
Inductive reads_of : list Z -> list read_result -> Prop :=
  | reads_end : reads_of [] [Chunk []]
  | reads_again t rs : reads_of t rs -> reads_of t (Again :: rs)
  | reads_chunk c cs t rs : reads_of t rs -> reads_of ((c :: cs) ++ t) (Chunk (c :: cs) :: rs).

Lemma hex_digit_range c : hex_char c -> 0 <= hex_digit c < 16 /\ isalpha c || isdigit c = true /\ c <> 45 /\ c <> 32.
Proof.
  intros [Hc|Hc]; unfold hex_digit, isalpha, isdigit.
  - destruct (Z.leb_spec c 57); [|lia]. split; [lia|]. split; [|lia].
    replace (48 <=? c) with true by lia. replace (c <=? 57) with true by lia. apply orb_true_r.
  - destruct (Z.leb_spec c 57); [lia|]. split; [lia|]. split; [|lia].
    replace (97 <=? c) with true by lia. replace (c <=? 122) with true by lia. rewrite !orb_true_r. reflexivity.
Qed.
Lemma push_digit_value v c : 0 <= v -> hex_char c -> v * 16 + hex_digit c < 2 ^ 64 -> push_digit v c = v * 16 + hex_digit c.
Proof.
  intros Hv Hc Hlt. destruct (hex_digit_range c Hc) as [Hd _]. unfold push_digit. rewrite Z.shiftl_mul_pow2 by lia. change (2 ^ 4) with 16.
  rewrite !uint_small by lia. rewrite Z.lor_comm. change 16 with (2 ^ 4). rewrite lor_fields by lia. lia.
Qed.
Lemma hex_value_mono cs : Forall hex_char cs -> forall v, 0 <= v -> v <= hex_value v cs.
Proof.
  induction 1 as [|c cs Hc _ IH]; intros v Hv; cbn; [lia|]. destruct (hex_digit_range c Hc) as [Hd _].
  specialize (IH (v * 16 + hex_digit c) ltac:(lia)). unfold hex_value in IH. lia.
Qed.

Lemma M_bind_ext {S A B} (m m' : M S A) (f : A -> M S B) s : m s = m' s -> (m ≫= f) s = (m' ≫= f) s.
Proof. unfold mbind, M_bind. intros ->. reflexivity. Qed.

(** ** The holes *)

Definition hole (a b : Z) : list MemoryRegion := if a <? b then [mkRegion a (b - a)] else [].
Fixpoint holes (prev First Last : Z) (ls : list MapLine) : list MemoryRegion :=
  match ls with
  | [] => hole (Z.max prev First) Last
  | l :: ls => hole (Z.max prev First) (Z.min (first_address l) Last) ++ holes (last_address l) First Last ls
  end.
Definition in_region64 (x : Z) (R : MemoryRegion) : Prop := Ptr R <= x < Ptr R + RSize R.
Definition in_line (x : Z) (l : MapLine) : Prop := first_address l <= x < last_address l.

Section Stealing.
Context {K : Type} `{HostMemory K}.
Variables (First Last : Z).

(** The host grants a reservation of the range that overlaps none of the lines. *)
Definition grants_free (ls : list MapLine) : Prop :=
  forall a len k, First <= a -> 0 < len -> a + len <= Last -> (forall x l, a <= x < a + len -> l ∈ ls -> ~ in_line x l) ->
  exists k', host_mmap a len PROT_NONE steal_flags (-1) 0 k = (Ret a, k').

Lemma reserve_run all a b r k : grants_free all -> First <= a -> b <= Last -> b < 2 ^ 64 -> b - 1 < MAP_FAILED ->
  (forall x l, a <= x < b -> l ∈ all -> ~ in_line x l) -> exists k', reserve a b r k = Ok (r ++ hole a b, k').
Proof.
  intros Hg Ha HbL Hb Hb2 Hfree. unfold reserve, hole. destruct (Z.ltb_spec a b); [|rewrite app_nil_r; eauto].
  destruct (Hg a (b - a) k) as (k' & E); [lia..|intros x l Hx; apply Hfree; lia|]. exists k'.
  unfold host_call, check, lift. unfold mbind, M_bind. rewrite E. replace (a =? MAP_FAILED) with false by lia. rewrite Z.eqb_refl. reflexivity.
Qed.

Lemma steal_digits_begin cs : Forall hex_char cs -> forall v last r t k, 0 <= v -> hex_value v cs < 2 ^ 64 ->
  steal_chars First Last (cs ++ t) (mkSteal ParseBegin v last r) k = steal_chars First Last t (mkSteal ParseBegin (hex_value v cs) last r) k.
Proof.
  induction 1 as [|c cs Hc Hcs IH]; intros v last r t k Hv Hlt; [reflexivity|]. destruct (hex_digit_range c Hc) as (Hd & Ha & H1 & _).
  pose proof (hex_value_mono cs Hcs (v * 16 + hex_digit c) ltac:(lia)) as Hm. cbn [hex_value fold_left] in Hlt. fold (hex_value (v * 16 + hex_digit c) cs) in Hlt.
  cbn [app steal_chars]. unfold steal_char. cbn [PState]. rewrite (proj2 (Z.eqb_neq _ _) H1), Ha, M_bind_assoc.
  change (check true) with (mret tt : M K unit). rewrite M_ret_bind, M_ret_bind. cbn [ScanBegin ScanLast Regions].
  rewrite push_digit_value by (auto; lia). rewrite IH by (auto; lia). reflexivity.
Qed.
Lemma steal_digits_end cs : Forall hex_char cs -> forall v b r t k, 0 <= v -> hex_value v cs < 2 ^ 64 ->
  steal_chars First Last (cs ++ t) (mkSteal ParseEnd b v r) k = steal_chars First Last t (mkSteal ParseEnd b (hex_value v cs) r) k.
Proof.
  induction 1 as [|c cs Hc Hcs IH]; intros v b r t k Hv Hlt; [reflexivity|]. destruct (hex_digit_range c Hc) as (Hd & Ha & _ & H1).
  pose proof (hex_value_mono cs Hcs (v * 16 + hex_digit c) ltac:(lia)) as Hm. cbn [hex_value fold_left] in Hlt. fold (hex_value (v * 16 + hex_digit c) cs) in Hlt.
  cbn [app steal_chars]. unfold steal_char. cbn [PState]. rewrite (proj2 (Z.eqb_neq _ _) H1), Ha, M_bind_assoc.
  change (check true) with (mret tt : M K unit). rewrite M_ret_bind, M_ret_bind. cbn [ScanBegin ScanLast Regions].
  rewrite push_digit_value by (auto; lia). rewrite IH by (auto; lia). reflexivity.
Qed.
Lemma steal_rest cs : Forall (fun c => c <> 10) cs -> forall b e r t k,
  steal_chars First Last (cs ++ 10 :: t) (mkSteal ScanEnd b e r) k = steal_chars First Last t (mkSteal ParseBegin b e r) k.
Proof.
  induction 1 as [|c cs Hc Hcs IH]; intros b e r t k; cbn [app steal_chars]; unfold steal_char; cbn [PState].
  - rewrite Z.eqb_refl, M_ret_bind. reflexivity.
  - rewrite (proj2 (Z.eqb_neq _ _) Hc), M_ret_bind. apply IH.
Qed.

(** A line reserves the hole in front of it. *)
Lemma steal_line all l prev r t k : grants_free all -> 0 <= First -> Last < 2 ^ 64 -> 0 <= prev -> lines_ok prev [l] ->
  (forall x l', Z.max prev First <= x < Z.min (first_address l) Last -> l' ∈ all -> ~ in_line x l') ->
  exists k', steal_chars First Last (line_text l ++ t) (mkSteal ParseBegin 0 prev r) k =
  steal_chars First Last t (mkSteal ParseBegin 0 (last_address l) (r ++ hole (Z.max prev First) (Z.min (first_address l) Last))) k'.
Proof.
  intros Hg HF HL Hp (Hb & He & Hr & Hord & Hlt & _) Hfree. unfold line_text. rewrite <- app_assoc. cbn [app].
  rewrite steal_digits_begin by (auto; unfold first_address in *; lia). fold (first_address l). cbn [steal_chars]. unfold steal_char at 1. cbn [PState].
  change (45 =? 45) with true. cbv iota. cbn [ScanBegin ScanLast Regions].
  destruct (reserve_run all (Z.max prev First) (Z.min (first_address l) Last) r k Hg) as (k' & E); [lia|lia|lia|change MAP_FAILED with (2 ^ 64 - 1); lia|exact Hfree|].
  exists k'. rewrite M_bind_assoc, (M_bind_Ok _ _ _ _ _ E), M_ret_bind. rewrite <- app_assoc. cbn [app].
  rewrite steal_digits_end by (auto; unfold last_address in *; lia). fold (last_address l).
  cbn [steal_chars]. unfold steal_char at 1. cbn [PState]. change (32 =? 32) with true. cbv iota. rewrite M_ret_bind. cbn [ScanBegin ScanLast Regions].
  rewrite <- app_assoc. cbn [app]. apply steal_rest, Hr.
Qed.

Lemma lines_ok_first prev ls : lines_ok prev ls -> forall l, l ∈ ls -> prev <= first_address l.
Proof.
  revert prev. induction ls as [|l ls IH]; intros prev Hok l' Hl'; [inversion Hl'|]. destruct Hok as (_ & _ & _ & Hord & _ & Hok).
  apply elem_of_cons in Hl' as [->|Hl']; [lia|]. specialize (IH _ Hok l' Hl'). lia.
Qed.

Definition file_text (ls : list MapLine) : list Z := concat (line_text <$> ls).
Lemma steal_lines all : grants_free all -> 0 <= First -> Last < 2 ^ 64 -> forall ls done prev r k, all = done ++ ls -> 0 <= prev ->
  lines_ok prev ls -> (forall l, l ∈ done -> last_address l <= prev) ->
  exists k' s', steal_chars First Last (file_text ls) (mkSteal ParseBegin 0 prev r) k = Ok (s', k') /\ PState s' = ParseBegin /\
  exists k2, reserve (Z.max (ScanLast s') First) Last (Regions s') k' = Ok (r ++ holes prev First Last ls, k2).
Proof.
  intros Hg HF HL. induction ls as [|l ls IH]; intros done prev r k Hall Hp Hok Hdone.
  - exists k, (mkSteal ParseBegin 0 prev r). split; [reflexivity|]. split; [reflexivity|]. cbn [ScanLast Regions holes].
    apply (reserve_run all); auto; [lia|lia|change MAP_FAILED with (2 ^ 64 - 1); lia|]. intros x l Hx Hl [_ Hin]. rewrite Hall, app_nil_r in Hl.
    specialize (Hdone l Hl). lia.
  - cbn [file_text concat fmap list_fmap holes]. fold (file_text ls). destruct Hok as (Hb & He & Hr & Hord & Hlt & Hok).
    destruct (steal_line all l prev r (file_text ls) k Hg HF HL Hp) as (k1 & E1).
    + cbn [lines_ok]. auto 10.
    + intros x l' Hx Hl' [Hin1 Hin2]. rewrite Hall, elem_of_app, elem_of_cons in Hl'. destruct Hl' as [Hl'|[->|Hl']].
      * specialize (Hdone l' Hl'). lia.
      * lia.
      * pose proof (lines_ok_first _ _ Hok l' Hl'). lia.
    + rewrite E1, app_assoc. apply (IH (done ++ [l])); auto; [rewrite <- app_assoc; exact Hall|lia|].
      intros l' [Hl'| ->%list_elem_of_singleton]%elem_of_app; [|lia]. specialize (Hdone l' Hl'). lia.
Qed.

Lemma steal_chars_app a b s : forall k, steal_chars (K := K) First Last (a ++ b) s k = (s ← steal_chars First Last a s; steal_chars First Last b s) k.
Proof.
  revert s. induction a as [|c a IH]; intros s k; [reflexivity|]. cbn [app steal_chars]. unfold mbind, M_bind in IH |- *.
  destruct (steal_char First Last c s k) as [[s' k']| |]; [apply IH|reflexivity..].
Qed.
Lemma steal_loop_text t reads : reads_of t reads -> forall s k,
  steal_loop First Last reads s k =
  (s ← steal_chars First Last t s;
  match PState s with ParseBegin => reserve (Z.max (ScanLast s) First) Last (Regions s) | _ => fun _ => Assert end) k.
Proof.
  induction 1 as [|t rs _ IH|c cs t rs _ IH]; intros s k.
  - reflexivity.
  - apply IH.
  - rewrite (M_bind_ext _ _ _ k (steal_chars_app (c :: cs) t s k)). cbn [steal_loop].
    unfold mbind, M_bind in IH |- *. destruct (steal_chars First Last (c :: cs) s k) as [[s' k']| |]; [apply IH|reflexivity..].
Qed.

Lemma StealMemoryRegion_run ls reads k : grants_free ls -> 0 <= First -> Last < 2 ^ 64 -> lines_ok 0 ls -> reads_of (file_text ls) reads ->
  exists k', StealMemoryRegion reads First Last k = Ok (holes 0 First Last ls, k').
Proof.
  intros Hg HF HL Hok Hr. unfold StealMemoryRegion. rewrite (steal_loop_text _ _ Hr).
  destruct (steal_lines ls Hg HF HL ls [] 0 [] k eq_refl ltac:(lia) Hok) as (k' & s' & E & Hs & k2 & E2); [intros l Hl; inversion Hl|].
  rewrite (M_bind_Ok _ _ _ _ _ E), Hs. exists k2. exact E2.
Qed.
End Stealing.

(** ** The holes are what the lines leave *)

Lemma hole_in a b x : (exists R, R ∈ hole a b /\ in_region64 x R) <-> a <= x < b.
Proof.
  unfold hole, in_region64. destruct (Z.ltb_spec a b).
  - split; [intros (R & ->%list_elem_of_singleton & HR); cbn in HR; lia|]. intros Hx. exists (mkRegion a (b - a)).
    rewrite list_elem_of_singleton. cbn. split; [reflexivity|lia].
  - split; [intros (R & HR & _); inversion HR|lia].
Qed.
Lemma holes_in First Last ls : forall prev x, 0 <= prev -> lines_ok prev ls ->
  (exists R, R ∈ holes prev First Last ls /\ in_region64 x R) <-> prev <= x /\ First <= x < Last /\ forall l, l ∈ ls -> ~ in_line x l.
Proof.
  induction ls as [|l ls IH]; intros prev x Hp Hok; cbn [holes].
  - rewrite hole_in. split; [intros; split_and!; try lia; intros l Hl; inversion Hl|lia].
  - pose proof (lines_ok_first _ _ Hok) as Hfirst. destruct Hok as (_ & _ & _ & Hord & _ & Hok).
    assert ((exists R, R ∈ hole (Z.max prev First) (Z.min (first_address l) Last) ++ holes (last_address l) First Last ls /\ in_region64 x R) <->
      Z.max prev First <= x < Z.min (first_address l) Last \/
      (last_address l <= x /\ First <= x < Last /\ forall l', l' ∈ ls -> ~ in_line x l')) as ->.
    { rewrite <- IH by (auto; lia). rewrite <- hole_in. split; [intros (R & [?|?]%elem_of_app & ?); eauto|].
      intros [(R & ? & ?)|(R & ? & ?)]; exists R; rewrite elem_of_app; auto. }
    unfold in_line. split.
    + intros [Hx|(Hx & Hfl & Hno)].
      * split; [lia|]. split; [lia|]. intros l' Hl'. specialize (Hfirst l' Hl').
        apply elem_of_cons in Hl' as [->|Hl']; [lia|]. pose proof (lines_ok_first _ _ Hok l' Hl'). lia.
      * split; [lia|]. split; [lia|]. intros l' [->|Hl']%elem_of_cons; [lia|]. apply Hno, Hl'.
    + intros (Hx & Hfl & Hno). destruct (Z.ltb_spec x (first_address l)); [left; lia|right].
      pose proof (Hno l ltac:(apply elem_of_cons; auto)). split; [lia|]. split; [exact Hfl|].
      intros l' Hl'. apply Hno, elem_of_cons. auto.
Qed.

(** Reservations in order, none of them empty. *)
Fixpoint ascending (prev : Z) (l : list MemoryRegion) : Prop :=
  match l with [] => True | R :: l => prev <= Ptr R /\ 0 < RSize R /\ ascending (Ptr R + RSize R) l end.
Lemma ascending_weaken l a b : a <= b -> ascending b l -> ascending a l.
Proof. destruct l; cbn; [auto|intros ? (? & ? & ?)]. split_and!; auto; lia. Qed.
Lemma hole_app_ascending prev a b c l : prev <= a -> b <= c -> prev <= c -> ascending c l -> ascending prev (hole a b ++ l).
Proof.
  intros Ha Hb Hc Hl. unfold hole. destruct (Z.ltb_spec a b); cbn.
  - split_and!; try lia. apply (ascending_weaken l _ c); [lia|exact Hl].
  - apply (ascending_weaken l _ c); assumption.
Qed.
Lemma holes_ascending First Last ls : forall prev, 0 <= prev -> lines_ok prev ls -> ascending prev (holes prev First Last ls).
Proof.
  induction ls as [|l ls IH]; intros prev Hp Hok; cbn [holes].
  - rewrite <- (app_nil_r (hole _ _)). apply (hole_app_ascending _ _ _ (Z.max prev Last)); cbn; auto; lia.
  - destruct Hok as (_ & _ & _ & Hord & _ & Hok). apply (hole_app_ascending _ _ _ (last_address l)); try lia. apply IH; [lia|exact Hok].
Qed.


(** ** The allocator starts with its invariant *)

Definition whole_pages (v : Z) : Prop := v mod FEX_PAGE_SIZE = 0.
Definition reservation_ok (First Last : Z) (R : MemoryRegion) : Prop :=
  First <= Ptr R /\ 0 < RSize R /\ Ptr R + RSize R <= Last /\ whole_pages (Ptr R) /\ whole_pages (RSize R).
Lemma whole_pages_sub a b : whole_pages a -> whole_pages b -> whole_pages (a - b).
Proof. unfold whole_pages, FEX_PAGE_SIZE. intros Ha Hb. rewrite Zminus_mod, Ha, Hb. reflexivity. Qed.
Lemma whole_pages_add a b : whole_pages a -> whole_pages b -> whole_pages (a + b).
Proof. unfold whole_pages, FEX_PAGE_SIZE. intros Ha Hb. rewrite Zplus_mod, Ha, Hb. reflexivity. Qed.
Lemma whole_pages_max a b : whole_pages a -> whole_pages b -> whole_pages (Z.max a b).
Proof. intros. destruct (Z.max_spec a b) as [[_ ->]|[_ ->]]; assumption. Qed.
Lemma whole_pages_min a b : whole_pages a -> whole_pages b -> whole_pages (Z.min a b).
Proof. intros. destruct (Z.min_spec a b) as [[_ ->]|[_ ->]]; assumption. Qed.

Lemma hole_reservation_ok a b First Last : First <= a -> b <= Last -> whole_pages a -> whole_pages b -> Forall (reservation_ok First Last) (hole a b).
Proof.
  intros. unfold hole. destruct (Z.ltb_spec a b); [|constructor]. apply Forall_singleton. unfold reservation_ok. cbn.
  split_and!; auto using whole_pages_sub; lia.
Qed.
Lemma holes_reservation_ok First Last ls : whole_pages First -> whole_pages Last -> forall prev, whole_pages prev ->
  (forall l, l ∈ ls -> whole_pages (first_address l) /\ whole_pages (last_address l)) ->
  Forall (reservation_ok First Last) (holes prev First Last ls).
Proof.
  intros HF HL. induction ls as [|l ls IH]; intros prev Hp Hls; cbn [holes].
  - apply hole_reservation_ok; auto using whole_pages_max; lia.
  - destruct (Hls l ltac:(apply elem_of_cons; auto)). apply Forall_app. split.
    + apply hole_reservation_ok; auto using whole_pages_max, whole_pages_min; lia.
    + apply IH; [assumption|]. intros l' Hl'. apply Hls, elem_of_cons. auto.
Qed.

Definition to_reserved (R : MemoryRegion) : ReservedVMARegion := mkReserved (Ptr R) (RSize R).
(** The arena takes the start of the first reservation. *)
Definition ArenaMax : Z := 64 * 1024 * 1024.
Definition after_arena (rs : list MemoryRegion) : list MemoryRegion :=
  match rs with
  | [] => []
  | R :: rs => (if ArenaMax <? RSize R then [mkRegion (Ptr R + ArenaMax) (RSize R - ArenaMax)] else []) ++ rs
  end.

Lemma ascending_ptr l : forall prev R, ascending prev l -> R ∈ l -> prev <= Ptr R.
Proof.
  induction l as [|S l IH]; intros prev R Ha HR; [inversion HR|]. destruct Ha as (H1 & H2 & H3).
  apply elem_of_cons in HR as [->|HR]; [exact H1|]. specialize (IH _ R H3 HR). lia.
Qed.
Lemma ascending_apart l : forall prev, ascending prev l -> pairwise_apart (to_reserved <$> l).
Proof.
  induction l as [|S l IH]; intros prev Ha i j R T Hij HR HT; [discriminate|]. destruct Ha as (H1 & H2 & H3).
  destruct i as [|i], j as [|j]; [lia|..|apply (IH _ H3 i j); auto].
  - injection HR as <-. change ((to_reserved <$> l) !! j = Some T) in HT. rewrite list_lookup_fmap in HT.
    destruct (l !! j) as [T'|] eqn:E; [|discriminate]. injection HT as <-. left. cbn. eapply ascending_ptr; [exact H3|]. eauto using list_elem_of_lookup_2.
  - injection HT as <-. change ((to_reserved <$> l) !! i = Some R) in HR. rewrite list_lookup_fmap in HR.
    destruct (l !! i) as [T'|] eqn:E; [|discriminate]. injection HR as <-. right. cbn. eapply ascending_ptr; [exact H3|]. eauto using list_elem_of_lookup_2.
Qed.
Lemma after_arena_ascending rs prev : ascending prev rs -> ascending prev (after_arena rs).
Proof.
  destruct rs as [|R rs]; [auto|]. intros (H1 & H2 & H3). cbn [after_arena]. destruct (Z.ltb_spec ArenaMax (RSize R)); cbn [app ascending Ptr RSize].
  - split; [unfold ArenaMax; lia|]. split; [lia|]. replace (Ptr R + ArenaMax + (RSize R - ArenaMax)) with (Ptr R + RSize R) by lia. exact H3.
  - apply (ascending_weaken rs _ (Ptr R + RSize R)); [lia|exact H3].
Qed.
Lemma after_arena_ok First Last rs : Forall (reservation_ok First Last) rs -> Forall (reservation_ok First Last) (after_arena rs).
Proof.
  destruct rs as [|R rs]; [auto|]. intros HF. inversion HF as [|? ? HR Hrs]; subst. cbn [after_arena]. apply Forall_app. split; [|exact Hrs].
  destruct (Z.ltb_spec ArenaMax (RSize R)); [|constructor]. apply Forall_singleton. destruct HR as (H1 & H2 & H3 & H4 & H5).
  unfold reservation_ok, ArenaMax in *. cbn. split_and!; try lia; [apply whole_pages_add|apply whole_pages_sub]; auto; reflexivity.
Qed.

Lemma new_construct_run size b s p : 0 <= p -> p mod 8 = 0 -> 0 <= size -> p + size <= s -> s < 2 ^ 62 ->
  new_construct size (mkArena b s p) = Ok (mkArena b s (p + size)).
Proof.
  intros Hp Hm Hs Hle Hb. unfold new_construct, do_allocate. cbn [LastAllocationOffset ArenaSize Begin].
  assert (AlignUp p 8 = p) as ->. { unfold AlignUp. rewrite Hm. change ((8 - 0) mod 8) with 0. rewrite Z.add_0_r. apply uint_small. lia. }
  rewrite uint_small by lia. destruct (Z.ltb_spec s (p + size)); [lia|reflexivity].
Qed.
Lemma add_region_run ptr size b s p l : 0 <= p -> p mod 8 = 0 -> p + 40 <= s -> s < 2 ^ 62 ->
  add_region ptr size (mkArena b s p) l = Ok (Some (mkArena b s (p + 40)), l ++ [mkReserved ptr size]).
Proof.
  intros Hp Hm Hle Hb. unfold add_region, sizeof_ReservedVMARegion, sizeof_node. rewrite new_construct_run by (auto; lia). cbn [mbind outcome_bind].
  rewrite new_construct_run by (try lia; rewrite <- Zplus_mod_idemp_l, Hm; reflexivity). cbn [mbind outcome_bind]. do 3 f_equal. f_equal. lia.
Qed.

Lemma lift_bind_Ok {S A B} (m : outcome A) (a : A) (f : A -> M S B) s : m = Ok a -> (lift m ≫= f) s = f a s.
Proof. intros ->. reflexivity. Qed.

Section Constructor.
Context {K : Type} `{HostMemory K, HostAdvice K}.

Lemma add_ranges_some rs : forall b s p l (k : K), 0 <= p -> p mod 8 = 0 -> p + 40 * Z.of_nat (length rs) <= s -> s < 2 ^ 62 ->
  add_ranges rs (Some (mkArena b s p)) l k = Ok ((Some (mkArena b s (p + 40 * Z.of_nat (length rs))), l ++ (to_reserved <$> rs)), k).
Proof.
  induction rs as [|R rs IH]; intros b s p l k Hp Hm Hle Hb; cbn [add_ranges length fmap list_fmap] in *.
  - rewrite app_nil_r, Z.add_0_r. reflexivity.
  - rewrite (lift_bind_Ok _ _ _ _ (add_region_run (Ptr R) (RSize R) b s p l Hp Hm ltac:(lia) Hb)). cbn [fst snd].
    rewrite IH by (try lia; rewrite <- Zplus_mod_idemp_l, Hm; reflexivity). rewrite <- app_assoc. cbn [app]. do 3 f_equal. f_equal. f_equal. lia.
Qed.

(** The arena has room for the lists and for a record per reservation. *)
Definition arena_fits (rs : list MemoryRegion) : Prop :=
  match rs with [] => True | R :: _ => 96 + 40 * Z.of_nat (length rs) <= Z.min ArenaMax (RSize R) end.
Lemma add_ranges_none R rs (k : K) : RSize R < 2 ^ 62 -> arena_fits (R :: rs) ->
  exists a k', add_ranges (R :: rs) None [] k = Ok ((Some a, to_reserved <$> after_arena (R :: rs)), k').
Proof.
  intros Hb Hfit. unfold arena_fits in Hfit. cbn [length] in Hfit. cbn [add_ranges after_arena]. fold ArenaMax. set (s := Z.min ArenaMax (RSize R)) in *.
  unfold host_call at 1. unfold mbind at 1, M_bind at 1.
  assert (forall k1 (f : Z -> M K (option Arena * list ReservedVMARegion)) r, (forall k2, exists a k', f r k2 = Ok ((Some a, to_reserved <$> after_arena (R :: rs)), k')) ->
    exists a k', f r k1 = Ok ((Some a, to_reserved <$> after_arena (R :: rs)), k')) as Hany by (intros; auto).
  assert (forall k2, exists a k', (_ ← modify (host_madvise (Ptr R) s MADV_HUGEPAGE);
    a ← lift (new_construct sizeof_list (new_Arena (Ptr R) s)); a ← lift (new_construct sizeof_list a);
    if s <? RSize R then r ← lift (add_region (Ptr R + s) (RSize R - s) a []); add_ranges rs r.1 r.2
    else add_ranges rs (Some a) []) k2 = Ok ((Some a, to_reserved <$> after_arena (R :: rs)), k')) as Hrest.
  { intros k2. unfold modify at 1. unfold mbind at 1, M_bind at 1. set (k3 := host_madvise _ _ _ k2).
    unfold new_Arena, sizeof_Arena, sizeof_list.
    rewrite (lift_bind_Ok _ _ _ _ (new_construct_run 32 (Ptr R) s 32 ltac:(lia) eq_refl ltac:(lia) ltac:(lia) ltac:(lia))).
    rewrite (lift_bind_Ok _ _ _ _ (new_construct_run 32 (Ptr R) s (32 + 32) ltac:(lia) eq_refl ltac:(lia) ltac:(lia) ltac:(lia))). change (32 + 32 + 32) with 96.
    cbn [after_arena]. destruct (Z.ltb_spec s (RSize R)) as [Hlt|Hge].
    - assert (s = ArenaMax) as Es by lia. destruct (Z.ltb_spec ArenaMax (RSize R)); [|lia].
      rewrite (lift_bind_Ok _ _ _ _ (add_region_run (Ptr R + s) (RSize R - s) (Ptr R) s 96 [] ltac:(lia) eq_refl ltac:(lia) ltac:(lia))). cbn [fst snd].
      rewrite add_ranges_some by (try lia; reflexivity). rewrite Es. eexists _, _. reflexivity.
    - destruct (Z.ltb_spec ArenaMax (RSize R)); [lia|]. rewrite add_ranges_some by (try lia; reflexivity). eexists _, _. reflexivity. }
  destruct (host_mprotect (Ptr R) s (Z.lor PROT_READ PROT_WRITE) k) as [[v|e] k1]; apply Hrest.
Qed.

Lemma ReclaimMemoryRegion_nil (k : K) : ReclaimMemoryRegion [] k = Ok (tt, k).
Proof. reflexivity. Qed.

End Constructor.

(** ** Finding the size of the address space *)

Lemma descending_split l x : StronglySorted Z.gt l -> x ∈ l -> exists pre post, l = pre ++ x :: post /\ forall b, b ∈ pre -> x < b.
Proof.
  induction 1 as [|y l _ IH Hy]; intros Hx; [inversion Hx|]. apply elem_of_cons in Hx as [->|Hx].
  - exists [], l. split; [reflexivity|]. intros b Hb. inversion Hb.
  - destruct (IH Hx) as (pre & post & -> & Hpre). exists (y :: pre), post. split; [reflexivity|]. intros b [->|Hb]%elem_of_cons; [|auto].
    rewrite Forall_forall in Hy. specialize (Hy x (proj1 (list_elem_of_In _ _) Hx)). lia.
Qed.

Section Probing.
Context {K : Type} `{HostMemory K}.

(** A host with [Bits] bits of address space: a page that does not lie below the
    limit is never mapped where it is asked for. *)
Definition limited (Bits : Z) : Prop :=
  forall addr k v k', 2 ^ Bits - FEX_PAGE_SIZE < addr -> host_mmap addr FEX_PAGE_SIZE PROT_NONE probe_flags (-1) 0 k = (Ret v, k') -> v <> addr.
(** One of the 63 pages below the limit is granted, in every state. *)
Definition grants_top (Bits : Z) : Prop :=
  exists i, 0 < i < 64 /\ forall k, exists k', host_mmap (2 ^ Bits - FEX_PAGE_SIZE * i) FEX_PAGE_SIZE PROT_NONE probe_flags (-1) 0 k = (Ret (2 ^ Bits - FEX_PAGE_SIZE * i), k').

Lemma host_call_run {B} (call : K -> sysret * K) (f : Z -> M K B) k : (host_call call ≫= f) k =
  match call k with (Ret v, k') => f v k' | (Err _, k') => f MAP_FAILED k' end.
Proof. unfold host_call, mbind, M_bind. destruct (call k) as [[v|e] k']; reflexivity. Qed.

Lemma Find_step Size_ i n (k : K) : exists k', Find Size_ i (S n) k =
  match host_mmap (uint 64 (Size_ - FEX_PAGE_SIZE * i)) FEX_PAGE_SIZE PROT_NONE probe_flags (-1) 0 k with
  | (Ret v, _) => if (v =? uint 64 (Size_ - FEX_PAGE_SIZE * i)) && negb (v =? MAP_FAILED) then Ok (true, k') else Find Size_ (i + 1) n k'
  | (Err _, _) => Find Size_ (i + 1) n k'
  end.
Proof.
  cbn [Find]. rewrite host_call_run. destruct (host_mmap _ _ _ _ _ _ k) as [[v|e] k1]; [|exists k1; reflexivity].
  destruct (v =? MAP_FAILED) eqn:Ef; cbn [negb]; [exists k1; rewrite andb_false_r; reflexivity|].
  rewrite host_call_run, andb_true_r. destruct (host_munmap v FEX_PAGE_SIZE k1) as [[w|e] k2]; exists k2; destruct (v =? uint 64 (Size_ - FEX_PAGE_SIZE * i)); reflexivity.
Qed.

Lemma Find_beyond Bits Size_ : limited Bits -> 2 ^ Bits + 0x100000 <= Size_ < 2 ^ 63 -> 0 <= Bits -> forall n i (k : K), 0 <= i -> i + Z.of_nat n <= 64 ->
  exists k', Find Size_ i n k = Ok (false, k').
Proof.
  intros Hl Hs HB. induction n as [|n IH]; intros i k Hi Hn; [exists k; reflexivity|]. pose proof (pow2_pos Bits HB).
  destruct (Find_step Size_ i n k) as (k' & ->). rewrite uint_small by (unfold FEX_PAGE_SIZE; lia).
  destruct (host_mmap _ _ _ _ _ _ k) as [[v|e] k1] eqn:E; [|apply IH; lia]. apply Hl in E; [|unfold FEX_PAGE_SIZE; lia].
  rewrite (proj2 (Z.eqb_neq _ _) E). cbn [andb]. apply IH; lia.
Qed.
Lemma Find_top Bits : 36 <= Bits <= 57 -> grants_top Bits -> forall k : K, exists k', Find (2 ^ Bits) 0 64 k = Ok (true, k').
Proof.
  intros HB (i0 & Hi0 & Hg). assert (2 ^ 36 <= 2 ^ Bits <= 2 ^ 57) as Hp by (split; apply Z.pow_le_mono_r; lia).
  assert (forall n i (k : K), 0 <= i <= i0 -> i + Z.of_nat n = 64 -> exists k', Find (2 ^ Bits) i n k = Ok (true, k')) as Hgen.
  { induction n as [|n IH]; intros i k Hi Hn; [lia|]. destruct (Find_step (2 ^ Bits) i n k) as (k' & ->).
    rewrite uint_small by (unfold FEX_PAGE_SIZE; lia). destruct (decide (i = i0)) as [->|Hne].
    - destruct (Hg k) as (k1 & ->). rewrite Z.eqb_refl. replace (_ =? MAP_FAILED) with false; [exists k'; reflexivity|].
      symmetry. apply Z.eqb_neq. change MAP_FAILED with 0xFFFFFFFFFFFFFFFF. unfold FEX_PAGE_SIZE. lia.
    - destruct (host_mmap _ _ _ _ _ _ k) as [[v|e] k1]; [|apply IH; lia]. destruct ((v =? _) && negb (v =? MAP_FAILED)); [exists k'; reflexivity|apply IH; lia]. }
  intros k. apply Hgen; lia.
Qed.

Lemma probe_sizes_run pre Bits post : limited Bits -> grants_top Bits -> 36 <= Bits <= 57 -> (forall b, b ∈ pre -> Bits < b <= 57) ->
  forall k : K, exists k', probe_sizes (pre ++ Bits :: post) k = Ok (Bits, k').
Proof.
  intros Hl Hg HB. induction pre as [|b pre IH]; intros Hpre k; cbn [app probe_sizes]; rewrite Z.shiftl_1_l.
  - destruct (Find_top Bits HB Hg k) as (k' & E). rewrite (M_bind_Ok _ _ _ _ _ E). exists k'. reflexivity.
  - assert (Bits < b <= 57) as Hb by (apply Hpre, elem_of_cons; auto). assert (2 ^ 36 <= 2 ^ Bits) by (apply Z.pow_le_mono_r; lia).
    assert (2 * 2 ^ Bits <= 2 ^ b <= 2 ^ 57).
    { rewrite <- Z.pow_succ_r by lia. split; apply Z.pow_le_mono_r; lia. }
    destruct (Find_beyond Bits (2 ^ b) Hl ltac:(lia) ltac:(lia) 64 0 k ltac:(lia) ltac:(lia)) as (k1 & E). rewrite (M_bind_Ok _ _ _ _ _ E).
    apply IH. intros c Hc. apply Hpre, elem_of_cons. auto.
Qed.

(** The probe finds the size of the host's address space, when it is one of the
    sizes that are probed and the host grants one of the 63 pages below its end. *)
Theorem DetermineVASize_finds Bits (k : K) : Bits ∈ TLBSizes -> limited Bits -> grants_top Bits -> exists k', DetermineVASize k = Ok (Bits, k').
Proof.
  intros HB Hl Hg. assert (36 <= Bits <= 57) as Hr.
  { unfold TLBSizes in HB. rewrite !elem_of_cons in HB. destruct HB as [?|[?|[?|[?|[?|[?|[?|HB]]]]]]]; [lia..|inversion HB]. }
  destruct (descending_split TLBSizes Bits) as (pre & post & E & Hpre); [repeat constructor|exact HB|].
  assert (forall b, b ∈ pre -> Bits < b <= 57) as Hpre'.
  { intros b Hb. split; [auto|]. assert (b ∈ TLBSizes) as Hin by (rewrite E; apply elem_of_app; auto).
    unfold TLBSizes in Hin. rewrite !elem_of_cons in Hin. destruct Hin as [?|[?|[?|[?|[?|[?|[?|Hin]]]]]]]; [lia..|inversion Hin]. }
  unfold DetermineVASize. rewrite E. apply probe_sizes_run; assumption.
Qed.
End Probing.

(** * Taking over the address space of a small process

    A host with 47 bits of address space and the listing of a process with three
    mappings; the start of the allocator on it. The last example is a listing whose
    first hole is too small for the records of the others. *)
(** The host grants whole requests below 2^47. *)
Inductive Host47 := host47.
#[export] Instance Host47Memory : HostMemory Host47 := {|
  host_mmap addr len _ _ _ _ k := if addr + len <=? 2 ^ 47 then (Ret addr, k) else (Err ENOMEM, k);
  host_munmap _ _ k := (Ret 0, k);
  host_mremap _ _ _ _ _ k := (Err ENOMEM, k);
  host_shmat _ _ _ k := (Err ENOMEM, k);
  host_shmdt _ k := (Err EINVAL, k);
  host_shm_stat _ k := (Err EINVAL, k)
|}.
#[export] Instance Host47Advice : HostAdvice Host47 := {| host_mprotect _ _ _ k := (Ret 0, k); host_madvise _ _ _ k := k |}.

(** "555555554000-555555558000 r--p a", "7ffff7dc3000-7ffff7fff000 rw-p",
    "7ffffffde000-7ffffffff000 rw-p [stack]" *)
Definition digits (n : nat) (v : Z) : list Z :=
  (fun i => let d := Z.land (Z.shiftr v (4 * Z.of_nat (n - 1 - i))) 15 in if d <? 10 then d + 48 else d - 10 + 97) <$> seq 0 n.
Definition line12 (b e : Z) (rest : list Z) : MapLine := mkLine (digits 12 b) (digits 12 e) rest.
Definition process_lines : list MapLine :=
  [line12 0x555555554000 0x555555558000 [114; 45; 45; 112; 32; 97];
   line12 0x7ffff7dc3000 0x7ffff7fff000 [114; 119; 45; 112];
   line12 0x7ffffffde000 0x7ffffffff000 [114; 119; 45; 112; 32; 91; 115; 93]].
(** The file in two pieces, the second read being interrupted. *)
Definition process_reads : list read_result :=
  [Chunk (take 40 (file_text process_lines)); Again; Chunk (drop 40 (file_text process_lines)); Chunk []].

Definition hex_charb (c : Z) : bool := (48 <=? c) && (c <=? 57) || (97 <=? c) && (c <=? 102).
Fixpoint lines_okb (prev : Z) (ls : list MapLine) : bool :=
  match ls with
  | [] => true
  | l :: ls => forallb hex_charb (line_begin l) && forallb hex_charb (line_end l) && forallb (fun c => negb (c =? 10)) (line_rest l) &&
      (prev <=? first_address l) && (first_address l <=? last_address l) && (last_address l <? 2 ^ 64) && lines_okb (last_address l) ls
  end.
Lemma forallb_Forall_impl {A} (f : A -> bool) (P : A -> Prop) l : (forall x, f x = true -> P x) -> forallb f l = true -> Forall P l.
Proof.
  intros Hf. induction l as [|x l IH]; cbn; [constructor|]. intros [Hx Hl]%andb_true_iff. constructor; auto.
Qed.
Lemma lines_okb_ok ls : forall prev, lines_okb prev ls = true -> lines_ok prev ls.
Proof.
  induction ls as [|l ls IH]; intros prev E; cbn in *; [exact I|]. rewrite !andb_true_iff in E. destruct E as [[[[[[E1 E2] E3] E4] E5] E6] E7].
  split; [apply (forallb_Forall_impl hex_charb); [|exact E1]|split; [apply (forallb_Forall_impl hex_charb); [|exact E2]|]].
  1, 2: intros c Hc; unfold hex_charb, hex_char in *; lia.
  split; [apply (forallb_Forall_impl _ _ _ ltac:(intros c Hc; apply negb_true_iff, Z.eqb_neq in Hc; exact Hc) E3)|]. split; [lia|]. split; [lia|]. auto.
Qed.
Lemma process_lines_ok : lines_ok 0 process_lines.
Proof. apply lines_okb_ok. vm_compute. reflexivity. Qed.
Lemma process_reads_ok : reads_of (file_text process_lines) process_reads.
Proof.
  rewrite <- (take_drop 40 (file_text process_lines)). unfold process_reads.
  destruct (take 40 (file_text process_lines)) as [|c cs] eqn:E; [discriminate|]. constructor. constructor.
  destruct (drop 40 (file_text process_lines)) as [|d ds] eqn:E2; [discriminate|]. rewrite <- (app_nil_r (d :: ds)) at 1. constructor. constructor.
Qed.
Lemma host47_grants ls First Last : Last <= 2 ^ 47 -> grants_free (K := Host47) First Last ls.
Proof.
  intros HL a len k _ _ Hle _. exists k. cbn. replace (a + len <=? 2 ^ 47) with true by lia. reflexivity.
Qed.
Lemma host47_limited : limited (K := Host47) 47.
Proof.
  intros addr k v k' Ha E. cbn in E. replace (addr + FEX_PAGE_SIZE <=? 2 ^ 47) with false in E by (unfold FEX_PAGE_SIZE in *; lia). discriminate.
Qed.
Lemma host47_top : grants_top (K := Host47) 47.
Proof. exists 1. split; [lia|]. intros k. exists k. reflexivity. Qed.

(** ** Witnesses *)


Lemma DetermineVASize_finds_witness : exists k', DetermineVASize host47 = Ok (47, k').
Proof.
  apply (DetermineVASize_finds 47 host47).
  - unfold TLBSizes. rewrite !elem_of_cons. auto 10.
  - exact host47_limited.
  - exact host47_top.
Defined.


(** A first hole of one page: its arena is full after a hundred records, and the
  next one is constructed at a null pointer. *)
Definition page_holes (n : nat) : list MemoryRegion := (fun i => mkRegion (LOWER_BOUND + 0x2000 * Z.of_nat i) FEX_PAGE_SIZE) <$> seq 0 n.
Example small_arena_overflows :
  (exists r, add_ranges (page_holes 101) None [] host47 = Ok r) /\ add_ranges (page_holes 102) None [] host47 = Undef.
Proof. split; [eexists|]; vm_compute; reflexivity. Qed.
