(* ===== verification/Encryption.v ===== *)
(** * Encryption and checksums in the interpreter

    [Interface/Core/Interpreter/EncryptionOps.cpp]: the rounds of AES with their
    tables, the checksum CRC-32C and the carry-less product. A handler is given the
    cells of its sources and returns the new contents of the destination cell. *)
From Stdlib Require Import ZArith Lia Bool Btauto.
From stdpp Require Import base list numbers option.
From S2P Require Import Prelude.
#[local] Open Scope Z_scope.

(** ** Bytes of a value *)

(** [reinterpret_cast<uint8_t*>(&x)], and [memcpy] from an array of bytes. *)
Definition bytes_of (n : nat) (x : Z) : list Z := (fun i => uint 8 (Z.shiftr x (8 * Z.of_nat i))) <$> seq 0 n.
Fixpoint from_bytes (l : list Z) : Z :=
  match l with [] => 0 | b :: l => b + 2 ^ 8 * from_bytes l end.
Definition byte_at (State : list Z) (i : nat) : Z := nth i State 0.
Definition pick (State : list Z) (idx : list nat) : list Z := byte_at State <$> idx.

(** ** Tables *)

Definition InvSubstitutionTable : list Z :=
  [ 0x52; 0x09; 0x6a; 0xd5; 0x30; 0x36; 0xa5; 0x38; 0xbf; 0x40; 0xa3; 0x9e; 0x81; 0xf3; 0xd7; 0xfb;
    0x7c; 0xe3; 0x39; 0x82; 0x9b; 0x2f; 0xff; 0x87; 0x34; 0x8e; 0x43; 0x44; 0xc4; 0xde; 0xe9; 0xcb;
    0x54; 0x7b; 0x94; 0x32; 0xa6; 0xc2; 0x23; 0x3d; 0xee; 0x4c; 0x95; 0x0b; 0x42; 0xfa; 0xc3; 0x4e;
    0x08; 0x2e; 0xa1; 0x66; 0x28; 0xd9; 0x24; 0xb2; 0x76; 0x5b; 0xa2; 0x49; 0x6d; 0x8b; 0xd1; 0x25;
    0x72; 0xf8; 0xf6; 0x64; 0x86; 0x68; 0x98; 0x16; 0xd4; 0xa4; 0x5c; 0xcc; 0x5d; 0x65; 0xb6; 0x92;
    0x6c; 0x70; 0x48; 0x50; 0xfd; 0xed; 0xb9; 0xda; 0x5e; 0x15; 0x46; 0x57; 0xa7; 0x8d; 0x9d; 0x84;
    0x90; 0xd8; 0xab; 0x00; 0x8c; 0xbc; 0xd3; 0x0a; 0xf7; 0xe4; 0x58; 0x05; 0xb8; 0xb3; 0x45; 0x06;
    0xd0; 0x2c; 0x1e; 0x8f; 0xca; 0x3f; 0x0f; 0x02; 0xc1; 0xaf; 0xbd; 0x03; 0x01; 0x13; 0x8a; 0x6b;
    0x3a; 0x91; 0x11; 0x41; 0x4f; 0x67; 0xdc; 0xea; 0x97; 0xf2; 0xcf; 0xce; 0xf0; 0xb4; 0xe6; 0x73;
    0x96; 0xac; 0x74; 0x22; 0xe7; 0xad; 0x35; 0x85; 0xe2; 0xf9; 0x37; 0xe8; 0x1c; 0x75; 0xdf; 0x6e;
    0x47; 0xf1; 0x1a; 0x71; 0x1d; 0x29; 0xc5; 0x89; 0x6f; 0xb7; 0x62; 0x0e; 0xaa; 0x18; 0xbe; 0x1b;
    0xfc; 0x56; 0x3e; 0x4b; 0xc6; 0xd2; 0x79; 0x20; 0x9a; 0xdb; 0xc0; 0xfe; 0x78; 0xcd; 0x5a; 0xf4;
    0x1f; 0xdd; 0xa8; 0x33; 0x88; 0x07; 0xc7; 0x31; 0xb1; 0x12; 0x10; 0x59; 0x27; 0x80; 0xec; 0x5f;
    0x60; 0x51; 0x7f; 0xa9; 0x19; 0xb5; 0x4a; 0x0d; 0x2d; 0xe5; 0x7a; 0x9f; 0x93; 0xc9; 0x9c; 0xef;
    0xa0; 0xe0; 0x3b; 0x4d; 0xae; 0x2a; 0xf5; 0xb0; 0xc8; 0xeb; 0xbb; 0x3c; 0x83; 0x53; 0x99; 0x61;
    0x17; 0x2b; 0x04; 0x7e; 0xba; 0x77; 0xd6; 0x26; 0xe1; 0x69; 0x14; 0x63; 0x55; 0x21; 0x0c; 0x7d ].
Definition SubstitutionTable : list Z :=
  [ 0x63; 0x7c; 0x77; 0x7b; 0xf2; 0x6b; 0x6f; 0xc5; 0x30; 0x01; 0x67; 0x2b; 0xfe; 0xd7; 0xab; 0x76;
    0xca; 0x82; 0xc9; 0x7d; 0xfa; 0x59; 0x47; 0xf0; 0xad; 0xd4; 0xa2; 0xaf; 0x9c; 0xa4; 0x72; 0xc0;
    0xb7; 0xfd; 0x93; 0x26; 0x36; 0x3f; 0xf7; 0xcc; 0x34; 0xa5; 0xe5; 0xf1; 0x71; 0xd8; 0x31; 0x15;
    0x04; 0xc7; 0x23; 0xc3; 0x18; 0x96; 0x05; 0x9a; 0x07; 0x12; 0x80; 0xe2; 0xeb; 0x27; 0xb2; 0x75;
    0x09; 0x83; 0x2c; 0x1a; 0x1b; 0x6e; 0x5a; 0xa0; 0x52; 0x3b; 0xd6; 0xb3; 0x29; 0xe3; 0x2f; 0x84;
    0x53; 0xd1; 0x00; 0xed; 0x20; 0xfc; 0xb1; 0x5b; 0x6a; 0xcb; 0xbe; 0x39; 0x4a; 0x4c; 0x58; 0xcf;
    0xd0; 0xef; 0xaa; 0xfb; 0x43; 0x4d; 0x33; 0x85; 0x45; 0xf9; 0x02; 0x7f; 0x50; 0x3c; 0x9f; 0xa8;
    0x51; 0xa3; 0x40; 0x8f; 0x92; 0x9d; 0x38; 0xf5; 0xbc; 0xb6; 0xda; 0x21; 0x10; 0xff; 0xf3; 0xd2;
    0xcd; 0x0c; 0x13; 0xec; 0x5f; 0x97; 0x44; 0x17; 0xc4; 0xa7; 0x7e; 0x3d; 0x64; 0x5d; 0x19; 0x73;
    0x60; 0x81; 0x4f; 0xdc; 0x22; 0x2a; 0x90; 0x88; 0x46; 0xee; 0xb8; 0x14; 0xde; 0x5e; 0x0b; 0xdb;
    0xe0; 0x32; 0x3a; 0x0a; 0x49; 0x06; 0x24; 0x5c; 0xc2; 0xd3; 0xac; 0x62; 0x91; 0x95; 0xe4; 0x79;
    0xe7; 0xc8; 0x37; 0x6d; 0x8d; 0xd5; 0x4e; 0xa9; 0x6c; 0x56; 0xf4; 0xea; 0x65; 0x7a; 0xae; 0x08;
    0xba; 0x78; 0x25; 0x2e; 0x1c; 0xa6; 0xb4; 0xc6; 0xe8; 0xdd; 0x74; 0x1f; 0x4b; 0xbd; 0x8b; 0x8a;
    0x70; 0x3e; 0xb5; 0x66; 0x48; 0x03; 0xf6; 0x0e; 0x61; 0x35; 0x57; 0xb9; 0x86; 0xc1; 0x1d; 0x9e;
    0xe1; 0xf8; 0x98; 0x11; 0x69; 0xd9; 0x8e; 0x94; 0x9b; 0x1e; 0x87; 0xe9; 0xce; 0x55; 0x28; 0xdf;
    0x8c; 0xa1; 0x89; 0x0d; 0xbf; 0xe6; 0x42; 0x68; 0x41; 0x99; 0x2d; 0x0f; 0xb0; 0x54; 0xbb; 0x16 ].
Definition FFMul02_table : list Z :=
  [ 0x00; 0x02; 0x04; 0x06; 0x08; 0x0a; 0x0c; 0x0e; 0x10; 0x12; 0x14; 0x16; 0x18; 0x1a; 0x1c; 0x1e;
    0x20; 0x22; 0x24; 0x26; 0x28; 0x2a; 0x2c; 0x2e; 0x30; 0x32; 0x34; 0x36; 0x38; 0x3a; 0x3c; 0x3e;
    0x40; 0x42; 0x44; 0x46; 0x48; 0x4a; 0x4c; 0x4e; 0x50; 0x52; 0x54; 0x56; 0x58; 0x5a; 0x5c; 0x5e;
    0x60; 0x62; 0x64; 0x66; 0x68; 0x6a; 0x6c; 0x6e; 0x70; 0x72; 0x74; 0x76; 0x78; 0x7a; 0x7c; 0x7e;
    0x80; 0x82; 0x84; 0x86; 0x88; 0x8a; 0x8c; 0x8e; 0x90; 0x92; 0x94; 0x96; 0x98; 0x9a; 0x9c; 0x9e;
    0xa0; 0xa2; 0xa4; 0xa6; 0xa8; 0xaa; 0xac; 0xae; 0xb0; 0xb2; 0xb4; 0xb6; 0xb8; 0xba; 0xbc; 0xbe;
    0xc0; 0xc2; 0xc4; 0xc6; 0xc8; 0xca; 0xcc; 0xce; 0xd0; 0xd2; 0xd4; 0xd6; 0xd8; 0xda; 0xdc; 0xde;
    0xe0; 0xe2; 0xe4; 0xe6; 0xe8; 0xea; 0xec; 0xee; 0xf0; 0xf2; 0xf4; 0xf6; 0xf8; 0xfa; 0xfc; 0xfe;
    0x1b; 0x19; 0x1f; 0x1d; 0x13; 0x11; 0x17; 0x15; 0x0b; 0x09; 0x0f; 0x0d; 0x03; 0x01; 0x07; 0x05;
    0x3b; 0x39; 0x3f; 0x3d; 0x33; 0x31; 0x37; 0x35; 0x2b; 0x29; 0x2f; 0x2d; 0x23; 0x21; 0x27; 0x25;
    0x5b; 0x59; 0x5f; 0x5d; 0x53; 0x51; 0x57; 0x55; 0x4b; 0x49; 0x4f; 0x4d; 0x43; 0x41; 0x47; 0x45;
    0x7b; 0x79; 0x7f; 0x7d; 0x73; 0x71; 0x77; 0x75; 0x6b; 0x69; 0x6f; 0x6d; 0x63; 0x61; 0x67; 0x65;
    0x9b; 0x99; 0x9f; 0x9d; 0x93; 0x91; 0x97; 0x95; 0x8b; 0x89; 0x8f; 0x8d; 0x83; 0x81; 0x87; 0x85;
    0xbb; 0xb9; 0xbf; 0xbd; 0xb3; 0xb1; 0xb7; 0xb5; 0xab; 0xa9; 0xaf; 0xad; 0xa3; 0xa1; 0xa7; 0xa5;
    0xdb; 0xd9; 0xdf; 0xdd; 0xd3; 0xd1; 0xd7; 0xd5; 0xcb; 0xc9; 0xcf; 0xcd; 0xc3; 0xc1; 0xc7; 0xc5;
    0xfb; 0xf9; 0xff; 0xfd; 0xf3; 0xf1; 0xf7; 0xf5; 0xeb; 0xe9; 0xef; 0xed; 0xe3; 0xe1; 0xe7; 0xe5 ].
Definition FFMul03_table : list Z :=
  [ 0x00; 0x03; 0x06; 0x05; 0x0c; 0x0f; 0x0a; 0x09; 0x18; 0x1b; 0x1e; 0x1d; 0x14; 0x17; 0x12; 0x11;
    0x30; 0x33; 0x36; 0x35; 0x3c; 0x3f; 0x3a; 0x39; 0x28; 0x2b; 0x2e; 0x2d; 0x24; 0x27; 0x22; 0x21;
    0x60; 0x63; 0x66; 0x65; 0x6c; 0x6f; 0x6a; 0x69; 0x78; 0x7b; 0x7e; 0x7d; 0x74; 0x77; 0x72; 0x71;
    0x50; 0x53; 0x56; 0x55; 0x5c; 0x5f; 0x5a; 0x59; 0x48; 0x4b; 0x4e; 0x4d; 0x44; 0x47; 0x42; 0x41;
    0xc0; 0xc3; 0xc6; 0xc5; 0xcc; 0xcf; 0xca; 0xc9; 0xd8; 0xdb; 0xde; 0xdd; 0xd4; 0xd7; 0xd2; 0xd1;
    0xf0; 0xf3; 0xf6; 0xf5; 0xfc; 0xff; 0xfa; 0xf9; 0xe8; 0xeb; 0xee; 0xed; 0xe4; 0xe7; 0xe2; 0xe1;
    0xa0; 0xa3; 0xa6; 0xa5; 0xac; 0xaf; 0xaa; 0xa9; 0xb8; 0xbb; 0xbe; 0xbd; 0xb4; 0xb7; 0xb2; 0xb1;
    0x90; 0x93; 0x96; 0x95; 0x9c; 0x9f; 0x9a; 0x99; 0x88; 0x8b; 0x8e; 0x8d; 0x84; 0x87; 0x82; 0x81;
    0x9b; 0x98; 0x9d; 0x9e; 0x97; 0x94; 0x91; 0x92; 0x83; 0x80; 0x85; 0x86; 0x8f; 0x8c; 0x89; 0x8a;
    0xab; 0xa8; 0xad; 0xae; 0xa7; 0xa4; 0xa1; 0xa2; 0xb3; 0xb0; 0xb5; 0xb6; 0xbf; 0xbc; 0xb9; 0xba;
    0xfb; 0xf8; 0xfd; 0xfe; 0xf7; 0xf4; 0xf1; 0xf2; 0xe3; 0xe0; 0xe5; 0xe6; 0xef; 0xec; 0xe9; 0xea;
    0xcb; 0xc8; 0xcd; 0xce; 0xc7; 0xc4; 0xc1; 0xc2; 0xd3; 0xd0; 0xd5; 0xd6; 0xdf; 0xdc; 0xd9; 0xda;
    0x5b; 0x58; 0x5d; 0x5e; 0x57; 0x54; 0x51; 0x52; 0x43; 0x40; 0x45; 0x46; 0x4f; 0x4c; 0x49; 0x4a;
    0x6b; 0x68; 0x6d; 0x6e; 0x67; 0x64; 0x61; 0x62; 0x73; 0x70; 0x75; 0x76; 0x7f; 0x7c; 0x79; 0x7a;
    0x3b; 0x38; 0x3d; 0x3e; 0x37; 0x34; 0x31; 0x32; 0x23; 0x20; 0x25; 0x26; 0x2f; 0x2c; 0x29; 0x2a;
    0x0b; 0x08; 0x0d; 0x0e; 0x07; 0x04; 0x01; 0x02; 0x13; 0x10; 0x15; 0x16; 0x1f; 0x1c; 0x19; 0x1a ].
Definition FFMul09_table : list Z :=
  [ 0x00; 0x09; 0x12; 0x1b; 0x24; 0x2d; 0x36; 0x3f; 0x48; 0x41; 0x5a; 0x53; 0x6c; 0x65; 0x7e; 0x77;
    0x90; 0x99; 0x82; 0x8b; 0xb4; 0xbd; 0xa6; 0xaf; 0xd8; 0xd1; 0xca; 0xc3; 0xfc; 0xf5; 0xee; 0xe7;
    0x3b; 0x32; 0x29; 0x20; 0x1f; 0x16; 0x0d; 0x04; 0x73; 0x7a; 0x61; 0x68; 0x57; 0x5e; 0x45; 0x4c;
    0xab; 0xa2; 0xb9; 0xb0; 0x8f; 0x86; 0x9d; 0x94; 0xe3; 0xea; 0xf1; 0xf8; 0xc7; 0xce; 0xd5; 0xdc;
    0x76; 0x7f; 0x64; 0x6d; 0x52; 0x5b; 0x40; 0x49; 0x3e; 0x37; 0x2c; 0x25; 0x1a; 0x13; 0x08; 0x01;
    0xe6; 0xef; 0xf4; 0xfd; 0xc2; 0xcb; 0xd0; 0xd9; 0xae; 0xa7; 0xbc; 0xb5; 0x8a; 0x83; 0x98; 0x91;
    0x4d; 0x44; 0x5f; 0x56; 0x69; 0x60; 0x7b; 0x72; 0x05; 0x0c; 0x17; 0x1e; 0x21; 0x28; 0x33; 0x3a;
    0xdd; 0xd4; 0xcf; 0xc6; 0xf9; 0xf0; 0xeb; 0xe2; 0x95; 0x9c; 0x87; 0x8e; 0xb1; 0xb8; 0xa3; 0xaa;
    0xec; 0xe5; 0xfe; 0xf7; 0xc8; 0xc1; 0xda; 0xd3; 0xa4; 0xad; 0xb6; 0xbf; 0x80; 0x89; 0x92; 0x9b;
    0x7c; 0x75; 0x6e; 0x67; 0x58; 0x51; 0x4a; 0x43; 0x34; 0x3d; 0x26; 0x2f; 0x10; 0x19; 0x02; 0x0b;
    0xd7; 0xde; 0xc5; 0xcc; 0xf3; 0xfa; 0xe1; 0xe8; 0x9f; 0x96; 0x8d; 0x84; 0xbb; 0xb2; 0xa9; 0xa0;
    0x47; 0x4e; 0x55; 0x5c; 0x63; 0x6a; 0x71; 0x78; 0x0f; 0x06; 0x1d; 0x14; 0x2b; 0x22; 0x39; 0x30;
    0x9a; 0x93; 0x88; 0x81; 0xbe; 0xb7; 0xac; 0xa5; 0xd2; 0xdb; 0xc0; 0xc9; 0xf6; 0xff; 0xe4; 0xed;
    0x0a; 0x03; 0x18; 0x11; 0x2e; 0x27; 0x3c; 0x35; 0x42; 0x4b; 0x50; 0x59; 0x66; 0x6f; 0x74; 0x7d;
    0xa1; 0xa8; 0xb3; 0xba; 0x85; 0x8c; 0x97; 0x9e; 0xe9; 0xe0; 0xfb; 0xf2; 0xcd; 0xc4; 0xdf; 0xd6;
    0x31; 0x38; 0x23; 0x2a; 0x15; 0x1c; 0x07; 0x0e; 0x79; 0x70; 0x6b; 0x62; 0x5d; 0x54; 0x4f; 0x46 ].
Definition FFMul0B_table : list Z :=
  [ 0x00; 0x0b; 0x16; 0x1d; 0x2c; 0x27; 0x3a; 0x31; 0x58; 0x53; 0x4e; 0x45; 0x74; 0x7f; 0x62; 0x69;
    0xb0; 0xbb; 0xa6; 0xad; 0x9c; 0x97; 0x8a; 0x81; 0xe8; 0xe3; 0xfe; 0xf5; 0xc4; 0xcf; 0xd2; 0xd9;
    0x7b; 0x70; 0x6d; 0x66; 0x57; 0x5c; 0x41; 0x4a; 0x23; 0x28; 0x35; 0x3e; 0x0f; 0x04; 0x19; 0x12;
    0xcb; 0xc0; 0xdd; 0xd6; 0xe7; 0xec; 0xf1; 0xfa; 0x93; 0x98; 0x85; 0x8e; 0xbf; 0xb4; 0xa9; 0xa2;
    0xf6; 0xfd; 0xe0; 0xeb; 0xda; 0xd1; 0xcc; 0xc7; 0xae; 0xa5; 0xb8; 0xb3; 0x82; 0x89; 0x94; 0x9f;
    0x46; 0x4d; 0x50; 0x5b; 0x6a; 0x61; 0x7c; 0x77; 0x1e; 0x15; 0x08; 0x03; 0x32; 0x39; 0x24; 0x2f;
    0x8d; 0x86; 0x9b; 0x90; 0xa1; 0xaa; 0xb7; 0xbc; 0xd5; 0xde; 0xc3; 0xc8; 0xf9; 0xf2; 0xef; 0xe4;
    0x3d; 0x36; 0x2b; 0x20; 0x11; 0x1a; 0x07; 0x0c; 0x65; 0x6e; 0x73; 0x78; 0x49; 0x42; 0x5f; 0x54;
    0xf7; 0xfc; 0xe1; 0xea; 0xdb; 0xd0; 0xcd; 0xc6; 0xaf; 0xa4; 0xb9; 0xb2; 0x83; 0x88; 0x95; 0x9e;
    0x47; 0x4c; 0x51; 0x5a; 0x6b; 0x60; 0x7d; 0x76; 0x1f; 0x14; 0x09; 0x02; 0x33; 0x38; 0x25; 0x2e;
    0x8c; 0x87; 0x9a; 0x91; 0xa0; 0xab; 0xb6; 0xbd; 0xd4; 0xdf; 0xc2; 0xc9; 0xf8; 0xf3; 0xee; 0xe5;
    0x3c; 0x37; 0x2a; 0x21; 0x10; 0x1b; 0x06; 0x0d; 0x64; 0x6f; 0x72; 0x79; 0x48; 0x43; 0x5e; 0x55;
    0x01; 0x0a; 0x17; 0x1c; 0x2d; 0x26; 0x3b; 0x30; 0x59; 0x52; 0x4f; 0x44; 0x75; 0x7e; 0x63; 0x68;
    0xb1; 0xba; 0xa7; 0xac; 0x9d; 0x96; 0x8b; 0x80; 0xe9; 0xe2; 0xff; 0xf4; 0xc5; 0xce; 0xd3; 0xd8;
    0x7a; 0x71; 0x6c; 0x67; 0x56; 0x5d; 0x40; 0x4b; 0x22; 0x29; 0x34; 0x3f; 0x0e; 0x05; 0x18; 0x13;
    0xca; 0xc1; 0xdc; 0xd7; 0xe6; 0xed; 0xf0; 0xfb; 0x92; 0x99; 0x84; 0x8f; 0xbe; 0xb5; 0xa8; 0xa3 ].
Definition FFMul0D_table : list Z :=
  [ 0x00; 0x0d; 0x1a; 0x17; 0x34; 0x39; 0x2e; 0x23; 0x68; 0x65; 0x72; 0x7f; 0x5c; 0x51; 0x46; 0x4b;
    0xd0; 0xdd; 0xca; 0xc7; 0xe4; 0xe9; 0xfe; 0xf3; 0xb8; 0xb5; 0xa2; 0xaf; 0x8c; 0x81; 0x96; 0x9b;
    0xbb; 0xb6; 0xa1; 0xac; 0x8f; 0x82; 0x95; 0x98; 0xd3; 0xde; 0xc9; 0xc4; 0xe7; 0xea; 0xfd; 0xf0;
    0x6b; 0x66; 0x71; 0x7c; 0x5f; 0x52; 0x45; 0x48; 0x03; 0x0e; 0x19; 0x14; 0x37; 0x3a; 0x2d; 0x20;
    0x6d; 0x60; 0x77; 0x7a; 0x59; 0x54; 0x43; 0x4e; 0x05; 0x08; 0x1f; 0x12; 0x31; 0x3c; 0x2b; 0x26;
    0xbd; 0xb0; 0xa7; 0xaa; 0x89; 0x84; 0x93; 0x9e; 0xd5; 0xd8; 0xcf; 0xc2; 0xe1; 0xec; 0xfb; 0xf6;
    0xd6; 0xdb; 0xcc; 0xc1; 0xe2; 0xef; 0xf8; 0xf5; 0xbe; 0xb3; 0xa4; 0xa9; 0x8a; 0x87; 0x90; 0x9d;
    0x06; 0x0b; 0x1c; 0x11; 0x32; 0x3f; 0x28; 0x25; 0x6e; 0x63; 0x74; 0x79; 0x5a; 0x57; 0x40; 0x4d;
    0xda; 0xd7; 0xc0; 0xcd; 0xee; 0xe3; 0xf4; 0xf9; 0xb2; 0xbf; 0xa8; 0xa5; 0x86; 0x8b; 0x9c; 0x91;
    0x0a; 0x07; 0x10; 0x1d; 0x3e; 0x33; 0x24; 0x29; 0x62; 0x6f; 0x78; 0x75; 0x56; 0x5b; 0x4c; 0x41;
    0x61; 0x6c; 0x7b; 0x76; 0x55; 0x58; 0x4f; 0x42; 0x09; 0x04; 0x13; 0x1e; 0x3d; 0x30; 0x27; 0x2a;
    0xb1; 0xbc; 0xab; 0xa6; 0x85; 0x88; 0x9f; 0x92; 0xd9; 0xd4; 0xc3; 0xce; 0xed; 0xe0; 0xf7; 0xfa;
    0xb7; 0xba; 0xad; 0xa0; 0x83; 0x8e; 0x99; 0x94; 0xdf; 0xd2; 0xc5; 0xc8; 0xeb; 0xe6; 0xf1; 0xfc;
    0x67; 0x6a; 0x7d; 0x70; 0x53; 0x5e; 0x49; 0x44; 0x0f; 0x02; 0x15; 0x18; 0x3b; 0x36; 0x21; 0x2c;
    0x0c; 0x01; 0x16; 0x1b; 0x38; 0x35; 0x22; 0x2f; 0x64; 0x69; 0x7e; 0x73; 0x50; 0x5d; 0x4a; 0x47;
    0xdc; 0xd1; 0xc6; 0xcb; 0xe8; 0xe5; 0xf2; 0xff; 0xb4; 0xb9; 0xae; 0xa3; 0x80; 0x8d; 0x9a; 0x97 ].
Definition FFMul0E_table : list Z :=
  [ 0x00; 0x0e; 0x1c; 0x12; 0x38; 0x36; 0x24; 0x2a; 0x70; 0x7e; 0x6c; 0x62; 0x48; 0x46; 0x54; 0x5a;
    0xe0; 0xee; 0xfc; 0xf2; 0xd8; 0xd6; 0xc4; 0xca; 0x90; 0x9e; 0x8c; 0x82; 0xa8; 0xa6; 0xb4; 0xba;
    0xdb; 0xd5; 0xc7; 0xc9; 0xe3; 0xed; 0xff; 0xf1; 0xab; 0xa5; 0xb7; 0xb9; 0x93; 0x9d; 0x8f; 0x81;
    0x3b; 0x35; 0x27; 0x29; 0x03; 0x0d; 0x1f; 0x11; 0x4b; 0x45; 0x57; 0x59; 0x73; 0x7d; 0x6f; 0x61;
    0xad; 0xa3; 0xb1; 0xbf; 0x95; 0x9b; 0x89; 0x87; 0xdd; 0xd3; 0xc1; 0xcf; 0xe5; 0xeb; 0xf9; 0xf7;
    0x4d; 0x43; 0x51; 0x5f; 0x75; 0x7b; 0x69; 0x67; 0x3d; 0x33; 0x21; 0x2f; 0x05; 0x0b; 0x19; 0x17;
    0x76; 0x78; 0x6a; 0x64; 0x4e; 0x40; 0x52; 0x5c; 0x06; 0x08; 0x1a; 0x14; 0x3e; 0x30; 0x22; 0x2c;
    0x96; 0x98; 0x8a; 0x84; 0xae; 0xa0; 0xb2; 0xbc; 0xe6; 0xe8; 0xfa; 0xf4; 0xde; 0xd0; 0xc2; 0xcc;
    0x41; 0x4f; 0x5d; 0x53; 0x79; 0x77; 0x65; 0x6b; 0x31; 0x3f; 0x2d; 0x23; 0x09; 0x07; 0x15; 0x1b;
    0xa1; 0xaf; 0xbd; 0xb3; 0x99; 0x97; 0x85; 0x8b; 0xd1; 0xdf; 0xcd; 0xc3; 0xe9; 0xe7; 0xf5; 0xfb;
    0x9a; 0x94; 0x86; 0x88; 0xa2; 0xac; 0xbe; 0xb0; 0xea; 0xe4; 0xf6; 0xf8; 0xd2; 0xdc; 0xce; 0xc0;
    0x7a; 0x74; 0x66; 0x68; 0x42; 0x4c; 0x5e; 0x50; 0x0a; 0x04; 0x16; 0x18; 0x32; 0x3c; 0x2e; 0x20;
    0xec; 0xe2; 0xf0; 0xfe; 0xd4; 0xda; 0xc8; 0xc6; 0x9c; 0x92; 0x80; 0x8e; 0xa4; 0xaa; 0xb8; 0xb6;
    0x0c; 0x02; 0x10; 0x1e; 0x34; 0x3a; 0x28; 0x26; 0x7c; 0x72; 0x60; 0x6e; 0x44; 0x4a; 0x58; 0x56;
    0x37; 0x39; 0x2b; 0x25; 0x0f; 0x01; 0x13; 0x1d; 0x47; 0x49; 0x5b; 0x55; 0x7f; 0x71; 0x63; 0x6d;
    0xd7; 0xd9; 0xcb; 0xc5; 0xef; 0xe1; 0xf3; 0xfd; 0xa7; 0xa9; 0xbb; 0xb5; 0x9f; 0x91; 0x83; 0x8d ].

Definition table_at (t : list Z) (i : Z) : Z := nth (Z.to_nat i) t 0.
Definition FFMul02 : Z -> Z := table_at FFMul02_table.
Definition FFMul03 : Z -> Z := table_at FFMul03_table.
Definition FFMul09 : Z -> Z := table_at FFMul09_table.
Definition FFMul0B : Z -> Z := table_at FFMul0B_table.
Definition FFMul0D : Z -> Z := table_at FFMul0D_table.
Definition FFMul0E : Z -> Z := table_at FFMul0E_table.

(** ** The steps of a round *)

Definition ShiftRows (State : list Z) : Z :=
  from_bytes (pick State [0; 5; 10; 15; 4; 9; 14; 3; 8; 13; 2; 7; 12; 1; 6; 11]%nat).
Definition InvShiftRows (State : list Z) : Z :=
  from_bytes (pick State [0; 13; 10; 7; 4; 1; 14; 11; 8; 5; 2; 15; 12; 9; 6; 3]%nat).
Definition SubBytes (State : list Z) (Bytes : nat) : Z :=
  from_bytes (table_at SubstitutionTable <$> take (Nat.min Bytes 16) State).
Definition InvSubBytes (State : list Z) : Z := from_bytes (table_at InvSubstitutionTable <$> take 16 State).

(** A column of [MixColumns]: iteration [i] of the loop, which reads the bytes of
    column [i] and computes [Out0[i]] to [Out3[i]]. *)
Definition MixColumn (a b c d : Z) : list Z :=
  [ Z.lxor (Z.lxor (Z.lxor (FFMul02 a) (FFMul03 b)) c) d;
    Z.lxor (Z.lxor (Z.lxor a (FFMul02 b)) (FFMul03 c)) d;
    Z.lxor (Z.lxor (Z.lxor a b) (FFMul02 c)) (FFMul03 d);
    Z.lxor (Z.lxor (Z.lxor (FFMul03 a) b) c) (FFMul02 d) ].
Definition InvMixColumn (a b c d : Z) : list Z :=
  [ Z.lxor (Z.lxor (Z.lxor (FFMul0E a) (FFMul0B b)) (FFMul0D c)) (FFMul09 d);
    Z.lxor (Z.lxor (Z.lxor (FFMul09 a) (FFMul0E b)) (FFMul0B c)) (FFMul0D d);
    Z.lxor (Z.lxor (Z.lxor (FFMul0D a) (FFMul09 b)) (FFMul0E c)) (FFMul0B d);
    Z.lxor (Z.lxor (Z.lxor (FFMul0B a) (FFMul0D b)) (FFMul09 c)) (FFMul0E d) ].
(** [In0] is the transposed state, and [OutArray] transposes back. *)
Definition columns (mix : Z -> Z -> Z -> Z -> list Z) (State : list Z) : list Z :=
  let col i := mix (byte_at State (4 * i)) (byte_at State (4 * i + 1)) (byte_at State (4 * i + 2)) (byte_at State (4 * i + 3)) in
  col 0%nat ++ col 1%nat ++ col 2%nat ++ col 3%nat.
Definition MixColumns (State : list Z) : Z := from_bytes (columns MixColumn State).
Definition InvMixColumns (State : list Z) : Z := from_bytes (columns InvMixColumn State).

(** ** Handlers *)

Definition Op_AESImc (Dst Vector : Z) : outcome Z :=
  Ok (put 128 (InvMixColumns (bytes_of 16 (get 128 Vector))) Dst).
Definition Op_AESEnc (Dst State Key : Z) : outcome Z :=
  let Tmp := ShiftRows (bytes_of 16 (get 128 State)) in
  let Tmp := SubBytes (bytes_of 16 Tmp) 16 in
  let Tmp := MixColumns (bytes_of 16 Tmp) in
  Ok (put 128 (Z.lxor Tmp (get 128 Key)) Dst).
Definition Op_AESEncLast (Dst State Key : Z) : outcome Z :=
  let Tmp := ShiftRows (bytes_of 16 (get 128 State)) in
  let Tmp := SubBytes (bytes_of 16 Tmp) 16 in
  Ok (put 128 (Z.lxor Tmp (get 128 Key)) Dst).
Definition Op_AESDec (Dst State Key : Z) : outcome Z :=
  let Tmp := InvShiftRows (bytes_of 16 (get 128 State)) in
  let Tmp := InvSubBytes (bytes_of 16 Tmp) in
  let Tmp := InvMixColumns (bytes_of 16 Tmp) in
  Ok (put 128 (Z.lxor Tmp (get 128 Key)) Dst).
Definition Op_AESDecLast (Dst State Key : Z) : outcome Z :=
  let Tmp := InvShiftRows (bytes_of 16 (get 128 State)) in
  let Tmp := InvSubBytes (bytes_of 16 Tmp) in
  Ok (put 128 (Z.lxor Tmp (get 128 Key)) Dst).

(** The lambda [Ror] on 32-bit values. *)
Definition Ror32 (In R : Z) : outcome Z :=
  let R := Z.land R 31 in
  lo ← shr 32 In R; hi ← shl 32 In (32 - R); Ok (Z.lor lo hi).
Definition Op_AESKeyGenAssist (RCON Dst Src : Z) : outcome Z :=
  let Src1 := bytes_of 16 (get 128 Src) in
  let SubWord_X1 := uint 32 (SubBytes (take 4 (drop 4 Src1)) 4) in
  let SubWord_X3 := uint 32 (SubBytes (take 4 (drop 12 Src1)) 4) in
  Rot_X1 ← Ror32 SubWord_X1 8;
  Rot_X3 ← Ror32 SubWord_X3 8;
  let Tmp := Z.lxor Rot_X3 RCON in
  let Tmp := Z.lor (uint 128 (Z.shiftl Tmp 32)) SubWord_X3 in
  let Tmp := Z.lor (uint 128 (Z.shiftl Tmp 32)) (Z.lxor Rot_X1 RCON) in
  let Tmp := Z.lor (uint 128 (Z.shiftl Tmp 32)) SubWord_X1 in
  Ok (put 128 Tmp Dst).

(** *** CRC-32C *)

Definition PolynomialRev : Z := 0x82F63B78.
(** An iteration of the loop over the bits of a table entry. *)
Definition crc_step (CurrentChar : Z) : Z :=
  if Z.land CurrentChar 1 =? 0 then Z.shiftr CurrentChar 1 else Z.lxor (Z.shiftr CurrentChar 1) PolynomialRev.
Fixpoint crc_steps (n : nat) (c : Z) : Z := match n with O => c | S n => crc_steps n (crc_step c) end.
Definition CRC32CTable : list Z := (fun i => crc_steps 8 (Z.of_nat i)) <$> seq 0 256.
(** A byte of the data. *)
Definition crc_byte (Accumulator data : Z) : Z :=
  Z.lxor (table_at CRC32CTable (Z.lxor (uint 8 Accumulator) data)) (Z.shiftr Accumulator 8).
Definition data_byte (data k : Z) : Z := Z.land (Z.shiftr data k) 0xFF.
Definition crc32cb (Accumulator data : Z) : Z := crc_byte Accumulator data.
Definition crc32ch (Accumulator data : Z) : Z :=
  let Accumulator := crc_byte Accumulator (data_byte data 0) in
  crc_byte Accumulator (data_byte data 8).
Definition crc32cw (Accumulator data : Z) : Z :=
  let Accumulator := crc_byte Accumulator (data_byte data 0) in
  let Accumulator := crc_byte Accumulator (data_byte data 8) in
  let Accumulator := crc_byte Accumulator (data_byte data 16) in
  crc_byte Accumulator (data_byte data 24).
Definition crc32cx (Accumulator data : Z) : Z :=
  let Accumulator := crc_byte Accumulator (data_byte data 0) in
  let Accumulator := crc_byte Accumulator (data_byte data 8) in
  let Accumulator := crc_byte Accumulator (data_byte data 16) in
  let Accumulator := crc_byte Accumulator (data_byte data 24) in
  let Accumulator := crc_byte Accumulator (data_byte data 32) in
  let Accumulator := crc_byte Accumulator (data_byte data 40) in
  let Accumulator := crc_byte Accumulator (data_byte data 48) in
  crc_byte Accumulator (data_byte data 56).
Definition Op_CRC32 (SrcSize Dst Src1 Src2 : Z) : outcome Z :=
  let Src1 := get 32 Src1 in
  if SrcSize =? 1 then Ok (put 32 (crc32cb Src1 (get 8 Src2)) Dst)
  else if SrcSize =? 2 then Ok (put 32 (crc32ch Src1 (get 16 Src2)) Dst)
  else if SrcSize =? 4 then Ok (put 32 (crc32cw Src1 (get 32 Src2)) Dst)
  else if SrcSize =? 8 then Ok (put 32 (crc32cx Src1 (get 64 Src2)) Dst)
  else Assert.

(** *** The carry-less product *)

(** The loops of the lambdas, from bit [i] on. *)
Fixpoint make_lo (lhs rhs result i : Z) (n : nat) : Z :=
  match n with
  | O => result
  | S n =>
      let result := if Z.land lhs (Z.shiftl 1 i) =? 0 then result else Z.lxor result (uint 64 (Z.shiftl rhs i)) in
      make_lo lhs rhs result (i + 1) n
  end.
Fixpoint make_hi (lhs rhs result i : Z) (n : nat) : Z :=
  match n with
  | O => result
  | S n =>
      let result := if Z.land lhs (Z.shiftl 1 i) =? 0 then result else Z.lxor result (Z.shiftr rhs (64 - i)) in
      make_hi lhs rhs result (i + 1) n
  end.
Definition Op_PCLMUL (Selector Dst Src1 Src2 : Z) : outcome Z :=
  let TMP1 := if Z.land Selector 0x01 =? 0 then get 64 Src1 else get 64 (Z.shiftr Src1 64) in
  let TMP2 := if Z.land Selector 0x10 =? 0 then get 64 Src2 else get 64 (Z.shiftr Src2 64) in
  let Dst := put 64 (make_lo TMP1 TMP2 0 0 64) Dst in
  Ok (put 128 (get 64 Dst + 2 ^ 64 * make_hi TMP1 TMP2 0 1 63) Dst).

(** * Reference definitions for the encryption handlers

    The cipher of FIPS-197 over the field GF(2^8), CRC-32C one bit at a time and
    the product of polynomials over GF(2), written from their definitions and
    without tables. *)
(** ** The field *)

(** Multiplication by [x] modulo [x^8 + x^4 + x^3 + x + 1]. *)
Definition xtime (b : Z) : Z := Z.lxor (Z.shiftl b 1) (if Z.testbit b 7 then 0x11b else 0).
(** The product of the polynomial whose [n] low coefficients are the bits of [k]
    with [b]. *)
Fixpoint gmul (n : nat) (k b : Z) : Z :=
  match n with O => 0 | S n => Z.lxor (if Z.odd k then b else 0) (gmul n (Z.div2 k) (xtime b)) end.
Definition gsquares (n : nat) (b : Z) : Z := Nat.iter n (fun x => gmul 8 x x) b.
(** [b^254 = b^2 b^4 ... b^128], the inverse of [b] when it has one. *)
Definition ginv (b : Z) : Z := foldr (fun n => gmul 8 (gsquares n b)) 1 (seq 1 7).

(** ** The cipher *)

Definition byte (b : Z) : Prop := 0 <= b < 256.
Definition is_state (s : list Z) : Prop := length s = 16%nat /\ Forall byte s.

(** The affine map of the S-box, and its inverse, bit by bit. *)
Definition bits8 (f : nat -> bool) : Z := foldr (fun i a => Z.b2z (f i) + 2 * a) 0 (seq 0 8).
Definition bit_mod (b : Z) (i : nat) : bool := Z.testbit b (Z.of_nat (i mod 8)).
Definition affine (b : Z) : Z :=
  Z.lxor (bits8 (fun i => xorb (bit_mod b i) (xorb (bit_mod b (i + 4))
    (xorb (bit_mod b (i + 5)) (xorb (bit_mod b (i + 6)) (bit_mod b (i + 7))))))) 0x63.
Definition inv_affine (b : Z) : Z :=
  Z.lxor (bits8 (fun i => xorb (bit_mod b (i + 2)) (xorb (bit_mod b (i + 5)) (bit_mod b (i + 7))))) 0x05.
Definition sbox (b : Z) : Z := affine (ginv b).
Definition inv_sbox (b : Z) : Z := ginv (inv_affine b).

(** The byte in row [r] and column [c] of a state. *)
Definition cell (s : list Z) (r c : nat) : Z := byte_at s (r + 4 * c).
Definition matrix (f : nat -> nat -> Z) : list Z := (fun i => f (i mod 4)%nat (i / 4)%nat) <$> seq 0 16.

Definition fips_ShiftRows (s : list Z) : list Z := matrix (fun r c => cell s r ((c + r) mod 4)).
Definition fips_InvShiftRows (s : list Z) : list Z := matrix (fun r c => cell s r ((c + 4 - r) mod 4)).
Definition fips_SubBytes (s : list Z) : list Z := sbox <$> s.
Definition fips_InvSubBytes (s : list Z) : list Z := inv_sbox <$> s.
(** Each column times [a(x)] modulo [x^4 + 1]. *)
Definition fips_columns (a : list Z) (s : list Z) : list Z :=
  matrix (fun r c => foldr (fun k => Z.lxor (gmul 8 (byte_at a ((r + 4 - k) mod 4)) (cell s k c))) 0 (seq 0 4)).
Definition fips_MixColumns : list Z -> list Z := fips_columns [2; 1; 1; 3].
Definition fips_InvMixColumns : list Z -> list Z := fips_columns [0x0e; 0x09; 0x0d; 0x0b].
Definition AddRoundKey (s k : list Z) : list Z := zip_with Z.lxor s k.

Definition fips_round (s k : list Z) : list Z := AddRoundKey (fips_MixColumns (fips_ShiftRows (fips_SubBytes s))) k.
Definition fips_last_round (s k : list Z) : list Z := AddRoundKey (fips_ShiftRows (fips_SubBytes s)) k.
(** A round of the equivalent inverse cipher. *)
Definition fips_inv_round (s k : list Z) : list Z :=
  AddRoundKey (fips_InvMixColumns (fips_InvShiftRows (fips_InvSubBytes s))) k.
Definition fips_inv_last_round (s k : list Z) : list Z := AddRoundKey (fips_InvShiftRows (fips_InvSubBytes s)) k.
Definition fips_RotWord (w : list Z) : list Z := drop 1 w ++ take 1 w.

(** ** CRC-32C *)

(** A bit of the message enters the register, which is kept in reverse: the
    polynomial is [0x1EDC6F41] mirrored. *)
Definition crc_bit (c : Z) (b : bool) : Z :=
  let quotient := Z.shiftr c 1 in
  if xorb (Z.testbit c 0) b then Z.lxor quotient 0x82F63B78 else quotient.
Definition message_bits (n : nat) (data : Z) : list bool := (fun i => Z.testbit data (Z.of_nat i)) <$> seq 0 n.
Definition crc32c_serial (n : nat) (c data : Z) : Z := fold_left crc_bit (message_bits n data) c.

(** ** Polynomials over GF(2) *)

Fixpoint clmul (n : nat) (a b : Z) : Z :=
  match n with O => 0 | S n => Z.lxor (if Z.odd a then b else 0) (2 * clmul n (Z.div2 a) b) end.

(** ** Sanity of the field *)

Lemma xtime_lxor a b : xtime (Z.lxor a b) = Z.lxor (xtime a) (xtime b).
Proof.
  unfold xtime. apply Z.bits_inj'. intros i Hi. rewrite Z.lxor_spec.
  autorewrite with zbits.
  destruct (Z.testbit a 7), (Z.testbit b 7); cbn [xorb]; rewrite ?Z.bits_0; btauto.
Qed.

Lemma gmul_lxor n k a b : gmul n k (Z.lxor a b) = Z.lxor (gmul n k a) (gmul n k b).
Proof.
  revert k a b. induction n as [|n IH]; intros k a b; cbn [gmul]; [reflexivity|].
  rewrite xtime_lxor, IH. destruct (Z.odd k); apply Z.bits_inj'; intros i Hi;
    rewrite ?Z.lxor_spec, ?Z.bits_0; btauto.
Qed.

(** A property that evaluation shows of the 256 bytes. *)
Definition all_bytes : list Z := Z.of_nat <$> seq 0 256.

Lemma byte_check (f : Z -> bool) : forallb f all_bytes = true -> forall b, byte b -> f b = true.
Proof.
  rewrite forallb_forall. intros H b Hb. unfold byte in Hb. apply H, list_elem_of_In, list_elem_of_fmap.
  exists (Z.to_nat b). split; [lia|]. apply elem_of_seq. lia.
Qed.

Lemma ginv_inverts b : byte b -> b <> 0 -> gmul 8 b (ginv b) = 1.
Proof.
  intros Hb Hz.
  pose proof (byte_check (fun b => (b =? 0) || (gmul 8 b (ginv b) =? 1)) ltac:(vm_compute; reflexivity) b Hb) as H.
  cbv beta in H. lia.
Qed.
