(* ===== verification/EncryptionLogic.v ===== *)
(** * The tables, the state and the rounds of the cipher

    Each table of [EncryptionOps.cpp] holds the function it is named after; the
    transformations of a state, which the handlers perform on bytes in memory, are
    those of FIPS-197, and the inverse ones undo them; so do the rounds. *)
From Stdlib Require Import ZArith Lia Bool Btauto.
From stdpp Require Import base list numbers option.
From S2P Require Import Prelude Encryption.
#[local] Open Scope Z_scope.

(** ** Tables *)

Lemma table_holds (t : list Z) (f : Z -> Z) :
  forallb (fun b => table_at t b =? f b) all_bytes = true -> forall b, byte b -> table_at t b = f b.
Proof. intros H b Hb. pose proof (byte_check _ H b Hb) as E. cbv beta in E. lia. Qed.

Lemma FFMul02_mul b : byte b -> FFMul02 b = gmul 8 2 b.
Proof. revert b. apply table_holds. vm_compute. reflexivity. Qed.
Lemma FFMul03_mul b : byte b -> FFMul03 b = gmul 8 3 b.
Proof. revert b. apply table_holds. vm_compute. reflexivity. Qed.
Lemma FFMul09_mul b : byte b -> FFMul09 b = gmul 8 9 b.
Proof. revert b. apply table_holds. vm_compute. reflexivity. Qed.
Lemma FFMul0B_mul b : byte b -> FFMul0B b = gmul 8 0x0b b.
Proof. revert b. apply table_holds. vm_compute. reflexivity. Qed.
Lemma FFMul0D_mul b : byte b -> FFMul0D b = gmul 8 0x0d b.
Proof. revert b. apply table_holds. vm_compute. reflexivity. Qed.
Lemma FFMul0E_mul b : byte b -> FFMul0E b = gmul 8 0x0e b.
Proof. revert b. apply table_holds. vm_compute. reflexivity. Qed.
Lemma SubstitutionTable_sbox b : byte b -> table_at SubstitutionTable b = sbox b.
Proof. revert b. apply table_holds. vm_compute. reflexivity. Qed.
Lemma InvSubstitutionTable_sbox b : byte b -> table_at InvSubstitutionTable b = inv_sbox b.
Proof. revert b. apply table_holds. vm_compute. reflexivity. Qed.

(** ** Bytes *)

Definition is_byte (b : Z) : bool := (0 <=? b) && (b <? 256).
Lemma is_byte_spec b : is_byte b = true <-> byte b.
Proof. unfold is_byte, byte. lia. Qed.

Lemma lxor_range n a b : 0 <= n -> 0 <= a < 2 ^ n -> 0 <= b < 2 ^ n -> 0 <= Z.lxor a b < 2 ^ n.
Proof.
  intros Hn Ha Hb. rewrite <- (uint_small n a), <- (uint_small n b) by assumption.
  assert (uint n (Z.lxor (uint n a) (uint n b)) = Z.lxor (uint n a) (uint n b)) as <- by zbits.
  now apply uint_range.
Qed.
Lemma byte_lxor a b : byte a -> byte b -> byte (Z.lxor a b).
Proof. apply (lxor_range 8). lia. Qed.

Lemma byte_xtime b : byte b -> byte (xtime b).
Proof.
  intros Hb. apply is_byte_spec. revert b Hb. apply byte_check. vm_compute. reflexivity.
Qed.

Lemma byte_gmul n k b : byte b -> byte (gmul n k b).
Proof.
  revert k b. induction n as [|n IH]; intros k b Hb; cbn [gmul]; [unfold byte; lia|].
  apply byte_lxor; [destruct (Z.odd k); [exact Hb|unfold byte; lia]|]. apply IH, byte_xtime, Hb.
Qed.

Lemma sbox_inverse b : byte b -> byte (sbox b) /\ inv_sbox (sbox b) = b.
Proof.
  intros Hb. rewrite <- is_byte_spec, <- (Z.eqb_eq _ b), <- andb_true_iff. revert b Hb.
  apply byte_check. vm_compute. reflexivity.
Qed.
Lemma inv_sbox_inverse b : byte b -> byte (inv_sbox b) /\ sbox (inv_sbox b) = b.
Proof.
  intros Hb. rewrite <- is_byte_spec, <- (Z.eqb_eq _ b), <- andb_true_iff. revert b Hb.
  apply byte_check. vm_compute. reflexivity.
Qed.

(** ** Values and their bytes *)

Lemma from_bytes_range l : Forall byte l -> 0 <= from_bytes l < 2 ^ (8 * Z.of_nat (length l)).
Proof.
  induction 1 as [|b l Hb Hl IH]; cbn [from_bytes length]; [lia|]. unfold byte in Hb.
  replace (8 * Z.of_nat (S (length l))) with (8 + 8 * Z.of_nat (length l)) by lia.
  rewrite Z.pow_add_r by lia. nia.
Qed.

Lemma bytes_of_S n x : bytes_of (S n) x = uint 8 x :: bytes_of n (Z.shiftr x 8).
Proof.
  unfold bytes_of. cbn [seq fmap list_fmap]. rewrite Z.shiftr_0_r. f_equal.
  rewrite <- seq_shift, <- list_fmap_compose. apply list_fmap_ext. intros i j _. unfold compose.
  rewrite Z.shiftr_shiftr by lia. do 2 f_equal. lia.
Qed.

Lemma bytes_of_from_bytes l : Forall byte l -> bytes_of (length l) (from_bytes l) = l.
Proof.
  induction 1 as [|b l Hb Hl IH]; cbn [from_bytes length]; [reflexivity|]. rewrite bytes_of_S.
  unfold byte in Hb. f_equal.
  - unfold uint. rewrite Z.mul_comm, Z.mod_add by lia. apply Z.mod_small. lia.
  - rewrite Z.shiftr_div_pow2, Z.mul_comm, Z.div_add, Z.div_small, Z.add_0_l by lia. exact IH.
Qed.

Lemma from_bytes_bytes_of n x : from_bytes (bytes_of n x) = uint (8 * Z.of_nat n) x.
Proof.
  revert x. induction n as [|n IH]; intros x.
  - unfold uint. cbn. now rewrite Z.mod_1_r.
  - rewrite bytes_of_S. cbn [from_bytes]. rewrite IH, Z.shiftr_div_pow2 by lia. unfold uint.
    replace (8 * Z.of_nat (S n)) with (8 + 8 * Z.of_nat n) by lia.
    pose proof (pow2_pos (8 * Z.of_nat n) ltac:(lia)).
    rewrite Z.pow_add_r, Z.rem_mul_r by lia. reflexivity.
Qed.

Lemma bytes_of_bytes n x : length (bytes_of n x) = n /\ Forall byte (bytes_of n x).
Proof.
  unfold bytes_of. split; [now rewrite length_fmap, length_seq|].
  apply Forall_fmap, Forall_true. intros i. unfold byte, compose. apply (uint_range 8). lia.
Qed.

Lemma bytes_of_state x : is_state (bytes_of 16 x).
Proof. apply bytes_of_bytes. Qed.

Lemma uint_bytes n x : bytes_of n (uint (8 * Z.of_nat n) x) = bytes_of n x.
Proof.
  rewrite <- from_bytes_bytes_of. destruct (bytes_of_bytes n x) as [Hl Hb].
  rewrite <- Hl at 1. apply bytes_of_from_bytes, Hb.
Qed.

Lemma bytes_of_lxor n x y : bytes_of n (Z.lxor x y) = zip_with Z.lxor (bytes_of n x) (bytes_of n y).
Proof.
  unfold bytes_of. generalize 0%nat. induction n as [|n IH]; intros i; cbn; [reflexivity|].
  rewrite IH. f_equal. zbits.
Qed.

(** ** Transformations of a state *)

Lemma state_length_cases (s : list Z) :
  length s = 16%nat -> exists a b c d e f g h i j k l m n o p, s = [a; b; c; d; e; f; g; h; i; j; k; l; m; n; o; p].
Proof.
  do 16 (destruct s as [|? s]; [discriminate|]). destruct s; [|discriminate]. intros _. repeat eexists.
Qed.

(** A state as its sixteen bytes. *)
Ltac destruct_state s H :=
  let Hl := fresh "Hl" in let Hb := fresh "Hb" in
  destruct H as [Hl Hb];
  destruct (state_length_cases s Hl) as (?&?&?&?&?&?&?&?&?&?&?&?&?&?&?&?&->);
  clear Hl; rewrite !Forall_cons_iff in Hb; destruct Hb as (?&?&?&?&?&?&?&?&?&?&?&?&?&?&?&?&_).

Lemma is_state_map (f : Z -> Z) s : (forall b, byte b -> byte (f b)) -> is_state s -> is_state (f <$> s).
Proof.
  intros Hf [Hl Hb]. split; [now rewrite length_fmap|]. apply Forall_fmap. eapply Forall_impl; [exact Hf|exact Hb].
Qed.

Lemma is_state_matrix f : (forall r c, byte (f r c)) -> is_state (matrix f).
Proof. intros Hf. split; [reflexivity|]. unfold matrix. apply Forall_fmap, Forall_true. intros i. apply Hf. Qed.

Lemma byte_0 : byte 0.
Proof. unfold byte. lia. Qed.

Lemma byte_cell s r c : is_state s -> byte (cell s r c).
Proof.
  intros [_ Hb]. unfold cell, byte_at. destruct (nth_in_or_default (r + 4 * c) s 0) as [Hin|Hz]; [|rewrite Hz; apply byte_0].
  rewrite Forall_forall in Hb. apply Hb, Hin.
Qed.

Lemma is_state_ShiftRows s : is_state s -> is_state (fips_ShiftRows s).
Proof. intros H. apply is_state_matrix. intros. now apply byte_cell. Qed.
Lemma is_state_InvShiftRows s : is_state s -> is_state (fips_InvShiftRows s).
Proof. intros H. apply is_state_matrix. intros. now apply byte_cell. Qed.
Lemma is_state_SubBytes s : is_state s -> is_state (fips_SubBytes s).
Proof. apply is_state_map. intros b Hb. now apply sbox_inverse. Qed.
Lemma is_state_InvSubBytes s : is_state s -> is_state (fips_InvSubBytes s).
Proof. apply is_state_map. intros b Hb. now apply inv_sbox_inverse. Qed.
Lemma is_state_columns a s : is_state s -> is_state (fips_columns a s).
Proof.
  intros H. apply is_state_matrix. intros r c. generalize (seq 0 4). intros l.
  induction l as [|k l IH]; cbn [foldr]; [apply byte_0|].
  apply byte_lxor; [apply byte_gmul, byte_cell, H|exact IH].
Qed.
Lemma is_state_AddRoundKey s k : is_state s -> is_state k -> is_state (AddRoundKey s k).
Proof.
  intros [Hs Bs] [Hk Bk]. unfold AddRoundKey. split; [rewrite length_zip_with; lia|].
  rewrite Forall_forall. intros b Hb. apply list_elem_of_In, list_elem_of_lookup_1 in Hb as [i Hi].
  apply lookup_zip_with_Some in Hi as (x & y & -> & Hx & Hy).
  apply byte_lxor; [eapply (Forall_lookup_1 _ _ _ _ Bs Hx)|eapply (Forall_lookup_1 _ _ _ _ Bk Hy)].
Qed.

Create HintDb aes.
#[export] Hint Resolve is_state_ShiftRows is_state_InvShiftRows is_state_SubBytes is_state_InvSubBytes
  is_state_columns is_state_AddRoundKey bytes_of_state byte_gmul byte_lxor : aes.

(** The functions on memory are those of the standard. *)
Lemma ShiftRows_fips s : is_state s -> ShiftRows s = from_bytes (fips_ShiftRows s).
Proof. intros H. destruct_state s H. reflexivity. Qed.
Lemma InvShiftRows_fips s : is_state s -> InvShiftRows s = from_bytes (fips_InvShiftRows s).
Proof. intros H. destruct_state s H. reflexivity. Qed.

Lemma fmap_bytes (f g : Z -> Z) s : (forall b, byte b -> f b = g b) -> is_state s -> f <$> take 16 s = g <$> s.
Proof.
  intros Hfg [Hl Hb]. rewrite take_ge by lia. apply list_fmap_ext. intros i b Hi. apply Hfg.
  exact (Forall_lookup_1 _ _ _ _ Hb Hi).
Qed.
Lemma SubBytes_fips s : is_state s -> SubBytes s 16 = from_bytes (fips_SubBytes s).
Proof. intros H. unfold SubBytes. f_equal. now apply fmap_bytes; [apply SubstitutionTable_sbox|]. Qed.
Lemma InvSubBytes_fips s : is_state s -> InvSubBytes s = from_bytes (fips_InvSubBytes s).
Proof. intros H. unfold InvSubBytes. f_equal. now apply fmap_bytes; [apply InvSubstitutionTable_sbox|]. Qed.

Lemma gmul_1 b : gmul 8 1 b = b.
Proof. cbn. apply Z.lxor_0_r. Qed.

(** Equalities between exclusive ors of the same terms. *)
Ltac lxor_solve := apply Z.bits_inj'; intros ? ?; rewrite ?Z.lxor_spec, ?Z.bits_0; btauto.

Ltac list_of_lxors :=
  repeat match goal with |- _ :: _ = _ :: _ => apply (f_equal2 cons) end; [lxor_solve..|reflexivity].

Lemma MixColumns_fips s : is_state s -> MixColumns s = from_bytes (fips_MixColumns s).
Proof.
  intros H. destruct_state s H. unfold MixColumns. f_equal.
  unfold fips_MixColumns, fips_columns, matrix, columns, MixColumn, cell, byte_at.
  cbn -[gmul Z.lxor FFMul02 FFMul03].
  rewrite !FFMul02_mul, !FFMul03_mul by assumption. rewrite !gmul_1. list_of_lxors.
Qed.
Lemma InvMixColumns_fips s : is_state s -> InvMixColumns s = from_bytes (fips_InvMixColumns s).
Proof.
  intros H. destruct_state s H. unfold InvMixColumns. f_equal.
  unfold fips_InvMixColumns, fips_columns, matrix, columns, InvMixColumn, cell, byte_at.
  cbn -[gmul Z.lxor FFMul09 FFMul0B FFMul0D FFMul0E].
  rewrite !FFMul09_mul, !FFMul0B_mul, !FFMul0D_mul, !FFMul0E_mul by assumption. list_of_lxors.
Qed.

(** ** Rounds and their inverses

    The handlers of the rounds perform the rounds of FIPS-197; the inverse
    transformations undo the transformations, so that the equivalent inverse cipher
    undoes the cipher. *)
(** ** Inverses *)

Lemma InvShiftRows_ShiftRows s : is_state s -> fips_InvShiftRows (fips_ShiftRows s) = s.
Proof. intros H. destruct_state s H. unfold fips_InvShiftRows, fips_ShiftRows, matrix, cell, byte_at. cbn. reflexivity. Qed.
Lemma fmap_matrix (f : Z -> Z) g : f <$> matrix g = matrix (fun r c => f (g r c)).
Proof. unfold matrix. rewrite <- list_fmap_compose. reflexivity. Qed.
Lemma cell_fmap (f : Z -> Z) s r c : is_state s -> (r + 4 * c < 16)%nat -> cell (f <$> s) r c = f (cell s r c).
Proof.
  intros [Hl _] Hi. unfold cell, byte_at. rewrite (nth_indep _ 0 (f 0)) by (rewrite length_fmap; lia). apply map_nth.
Qed.
Lemma matrix_ext f g : (forall r c, (r < 4)%nat -> (c < 4)%nat -> f r c = g r c) -> matrix f = matrix g.
Proof.
  intros H. unfold matrix. apply list_fmap_ext. intros i j Hj. apply lookup_seq in Hj as [-> Hi].
  apply H; [apply Nat.mod_upper_bound; lia|apply Nat.Div0.div_lt_upper_bound; lia].
Qed.

Lemma SubBytes_ShiftRows s : is_state s -> fips_SubBytes (fips_ShiftRows s) = fips_ShiftRows (fips_SubBytes s).
Proof.
  intros H. unfold fips_SubBytes, fips_ShiftRows. rewrite fmap_matrix. apply matrix_ext. intros r c Hr Hc.
  pose proof (Nat.mod_upper_bound (c + r) 4). rewrite cell_fmap; [reflexivity|exact H|lia].
Qed.
Lemma InvSubBytes_InvShiftRows s : is_state s ->
  fips_InvSubBytes (fips_InvShiftRows s) = fips_InvShiftRows (fips_InvSubBytes s).
Proof.
  intros H. unfold fips_InvSubBytes, fips_InvShiftRows. rewrite fmap_matrix. apply matrix_ext. intros r c Hr Hc.
  pose proof (Nat.mod_upper_bound (c + 4 - r) 4). rewrite cell_fmap; [reflexivity|exact H|lia].
Qed.

Lemma InvSubBytes_SubBytes s : is_state s -> fips_InvSubBytes (fips_SubBytes s) = s.
Proof.
  intros [_ Hb]. unfold fips_InvSubBytes, fips_SubBytes. rewrite <- list_fmap_compose.
  rewrite <- (list_fmap_id s) at 2. apply list_fmap_ext. intros i b Hi.
  apply sbox_inverse, (Forall_lookup_1 _ _ _ _ Hb Hi).
Qed.

Lemma gmul_02 b : gmul 8 2 b = xtime b.
Proof. cbn -[xtime Z.lxor]. lxor_solve. Qed.
Lemma gmul_03 b : gmul 8 3 b = Z.lxor b (xtime b).
Proof. cbn -[xtime Z.lxor]. lxor_solve. Qed.
Lemma gmul_09 b : gmul 8 9 b = Z.lxor b (xtime (xtime (xtime b))).
Proof. cbn -[xtime Z.lxor]. lxor_solve. Qed.
Lemma gmul_0B b : gmul 8 0x0b b = Z.lxor b (Z.lxor (xtime b) (xtime (xtime (xtime b)))).
Proof. cbn -[xtime Z.lxor]. lxor_solve. Qed.
Lemma gmul_0D b : gmul 8 0x0d b = Z.lxor b (Z.lxor (xtime (xtime b)) (xtime (xtime (xtime b)))).
Proof. cbn -[xtime Z.lxor]. lxor_solve. Qed.
Lemma gmul_0E b : gmul 8 0x0e b = Z.lxor (xtime b) (Z.lxor (xtime (xtime b)) (xtime (xtime (xtime b)))).
Proof. cbn -[xtime Z.lxor]. lxor_solve. Qed.

Lemma gmul_0 n k : gmul n k 0 = 0.
Proof.
  revert k. induction n as [|n IH]; intros k; cbn [gmul]; [reflexivity|].
  change (xtime 0) with 0. rewrite IH. now destruct (Z.odd k).
Qed.

(** A row of the product of [a(x)] and its inverse; the other rows are its rotations. *)
Lemma inverse_column a b c d :
  let col a b c d := Z.lxor (gmul 8 2 a) (Z.lxor (gmul 8 3 b) (Z.lxor (gmul 8 1 c) (gmul 8 1 d))) in
  Z.lxor (gmul 8 0x0e (col a b c d)) (Z.lxor (gmul 8 0x0b (col b c d a))
    (Z.lxor (gmul 8 0x0d (col c d a b)) (gmul 8 9 (col d a b c)))) = a.
Proof.
  cbv beta zeta. rewrite !gmul_1, !gmul_02, !gmul_03, !gmul_lxor, !gmul_09, !gmul_0B, !gmul_0D, !gmul_0E.
  lxor_solve.
Qed.

(** An entry of the product, whose column the coefficients tell. *)
Ltac inverse_row :=
  match goal with |- context [gmul 8 14 ?X] =>
    match X with context [gmul 8 2 ?a] =>
    match X with context [gmul 8 3 ?b] =>
    match goal with |- context [gmul 8 13 ?Y] =>
    match Y with context [gmul 8 2 ?c] =>
    match Y with context [gmul 8 3 ?d] =>
      etransitivity; [|apply (inverse_column a b c d)]
    end end end end end
  end; cbv beta zeta; rewrite !gmul_lxor, ?gmul_0; lxor_solve.

Lemma InvMixColumns_MixColumns s : is_state s -> fips_InvMixColumns (fips_MixColumns s) = s.
Proof.
  intros H. destruct_state s H. unfold fips_InvMixColumns, fips_MixColumns, fips_columns, matrix, cell, byte_at.
  cbn -[gmul Z.lxor].
  repeat match goal with |- _ :: _ = ?x :: _ => apply (f_equal2 cons) end; [..|reflexivity].
  all: inverse_row.
Qed.

Lemma InvMixColumns_AddRoundKey s k : is_state s -> is_state k ->
  fips_InvMixColumns (AddRoundKey s k) = AddRoundKey (fips_InvMixColumns s) (fips_InvMixColumns k).
Proof.
  intros H H'. destruct_state s H. destruct_state k H'.
  unfold fips_InvMixColumns, fips_columns, matrix, AddRoundKey, cell, byte_at.
  cbn -[gmul Z.lxor]. rewrite !gmul_lxor. list_of_lxors.
Qed.

Lemma AddRoundKey_twice s k : is_state s -> is_state k -> AddRoundKey (AddRoundKey s k) k = s.
Proof. intros H H'. destruct_state s H. destruct_state k H'. cbn. list_of_lxors. Qed.

(** ** The handlers *)

Lemma bytes_of_state_value s : is_state s -> bytes_of 16 (from_bytes s) = s.
Proof. intros [Hl Hb]. rewrite <- Hl. now apply bytes_of_from_bytes. Qed.

Lemma bytes_of_get x : bytes_of 16 (get 128 x) = bytes_of 16 x.
Proof. exact (uint_bytes 16 x). Qed.

Lemma from_bytes_AddRoundKey s k : is_state s ->
  Z.lxor (from_bytes s) (get 128 k) = from_bytes (AddRoundKey s (bytes_of 16 k)).
Proof.
  intros Hs.
  assert (0 <= Z.lxor (from_bytes s) (get 128 k) < 2 ^ (8 * Z.of_nat 16)) as Hr.
  { destruct Hs as [Hl Hb]. pose proof (from_bytes_range s Hb) as H. rewrite Hl in H.
    pose proof (uint_range 128 k ltac:(lia)). change (2 ^ (8 * Z.of_nat 16)) with (2 ^ 128) in *.
    now apply lxor_range. }
  rewrite <- (uint_small _ _ Hr), <- from_bytes_bytes_of. f_equal.
  rewrite bytes_of_lxor, bytes_of_state_value, bytes_of_get by exact Hs. reflexivity.
Qed.

(** The transformation a handler makes of its sources' bytes. *)
Definition handler_of (f : list Z -> list Z -> list Z) (Dst State Key : Z) : outcome Z :=
  Ok (put 128 (from_bytes (f (bytes_of 16 State) (bytes_of 16 Key))) Dst).

Lemma Op_AESEnc_round D s k : Op_AESEnc D s k = handler_of fips_round D s k.
Proof.
  unfold Op_AESEnc, handler_of, fips_round. rewrite bytes_of_get, <- SubBytes_ShiftRows by auto with aes.
  rewrite ShiftRows_fips, bytes_of_state_value by auto with aes.
  rewrite SubBytes_fips, bytes_of_state_value by auto with aes.
  rewrite MixColumns_fips, from_bytes_AddRoundKey by (unfold fips_MixColumns; auto with aes). reflexivity.
Qed.
Lemma Op_AESEncLast_round D s k : Op_AESEncLast D s k = handler_of fips_last_round D s k.
Proof.
  unfold Op_AESEncLast, handler_of, fips_last_round. rewrite bytes_of_get, <- SubBytes_ShiftRows by auto with aes.
  rewrite ShiftRows_fips, bytes_of_state_value by auto with aes.
  rewrite SubBytes_fips, from_bytes_AddRoundKey by auto with aes. reflexivity.
Qed.
Lemma Op_AESDec_round D s k : Op_AESDec D s k = handler_of fips_inv_round D s k.
Proof.
  unfold Op_AESDec, handler_of, fips_inv_round. rewrite bytes_of_get, <- InvSubBytes_InvShiftRows by auto with aes.
  rewrite InvShiftRows_fips, bytes_of_state_value by auto with aes.
  rewrite InvSubBytes_fips, bytes_of_state_value by auto with aes.
  rewrite InvMixColumns_fips, from_bytes_AddRoundKey by (unfold fips_InvMixColumns; auto with aes). reflexivity.
Qed.
Lemma Op_AESDecLast_round D s k : Op_AESDecLast D s k = handler_of fips_inv_last_round D s k.
Proof.
  unfold Op_AESDecLast, handler_of, fips_inv_last_round.
  rewrite bytes_of_get, <- InvSubBytes_InvShiftRows by auto with aes.
  rewrite InvShiftRows_fips, bytes_of_state_value by auto with aes.
  rewrite InvSubBytes_fips, from_bytes_AddRoundKey by auto with aes. reflexivity.
Qed.
Lemma Op_AESImc_columns D k : Op_AESImc D k = Ok (put 128 (from_bytes (fips_InvMixColumns (bytes_of 16 k))) D).
Proof. unfold Op_AESImc. rewrite bytes_of_get, InvMixColumns_fips by auto with aes. reflexivity. Qed.
