(* ===== verification/EncryptionTheorems.v ===== *)
(** * What the encryption handlers compute

    The AES handlers against FIPS-197, the cipher and its inverse as sequences of
    handlers, the checksum against its bit-serial definition, the carry-less
    product against the product of polynomials. *)
From Stdlib Require Import ZArith Lia Bool Btauto.
From stdpp Require Import base list numbers option.
From S2P Require Import Prelude Encryption EncryptionLogic.
#[local] Open Scope Z_scope.

(** ** AES *)

(** The destination after a 128-bit result. *)
Lemma bytes_of_put v D : bytes_of 16 (put 128 v D) = bytes_of 16 v.
Proof. rewrite <- bytes_of_get, get_put_same by lia. exact (uint_bytes 16 v). Qed.

Lemma handler_of_bytes f D s k : (forall s k, is_state s -> is_state k -> is_state (f s k)) ->
  exists d, handler_of f D s k = Ok d /\ bytes_of 16 d = f (bytes_of 16 s) (bytes_of 16 k).
Proof.
  intros Hf. eexists. split; [reflexivity|]. rewrite bytes_of_put. apply bytes_of_state_value, Hf; auto with aes.
Qed.

Lemma is_state_round s k : is_state s -> is_state k -> is_state (fips_round s k).
Proof. intros. unfold fips_round, fips_MixColumns. auto with aes. Qed.
Lemma is_state_last_round s k : is_state s -> is_state k -> is_state (fips_last_round s k).
Proof. intros. unfold fips_last_round. auto with aes. Qed.
Lemma is_state_inv_round s k : is_state s -> is_state k -> is_state (fips_inv_round s k).
Proof. intros. unfold fips_inv_round, fips_InvMixColumns. auto with aes. Qed.
Lemma is_state_inv_last_round s k : is_state s -> is_state k -> is_state (fips_inv_last_round s k).
Proof. intros. unfold fips_inv_last_round. auto with aes. Qed.
Lemma is_state_InvMixColumns k : is_state k -> is_state (fips_InvMixColumns k).
Proof. apply is_state_columns. Qed.
#[export] Hint Resolve is_state_round is_state_last_round is_state_inv_round is_state_inv_last_round
  is_state_InvMixColumns : aes.

(** The word of four bytes from byte [i] on. *)
Definition word_at (s : list Z) (i : nat) : list Z := take 4 (drop i s).
Definition fips_keygen (rcon : Z) (s : list Z) : list Z :=
  let x1 := fips_SubBytes (word_at s 4) in
  let x3 := fips_SubBytes (word_at s 12) in
  x1 ++ zip_with Z.lxor (fips_RotWord x1) [rcon; 0; 0; 0] ++ x3 ++ zip_with Z.lxor (fips_RotWord x3) [rcon; 0; 0; 0].

(** ** Key generation *)

Lemma from_bytes_app l m : from_bytes (l ++ m) = from_bytes l + 2 ^ (8 * Z.of_nat (length l)) * from_bytes m.
Proof.
  induction l as [|b l IH]; cbn [app from_bytes length]; [lia|]. rewrite IH.
  replace (8 * Z.of_nat (S (length l))) with (8 + 8 * Z.of_nat (length l)) by lia.
  rewrite Z.pow_add_r by lia. lia.
Qed.

(** The bytes of a word are put below what was already computed. *)
Lemma lor_word w l : length w = 4%nat -> Forall byte w -> Forall byte l -> (length l <= 12)%nat ->
  Z.lor (uint 128 (Z.shiftl (from_bytes l) 32)) (from_bytes w) = from_bytes (w ++ l).
Proof.
  intros Hw Bw Bl Hl. pose proof (from_bytes_range w Bw) as Rw. rewrite Hw in Rw.
  pose proof (from_bytes_range l Bl) as Rl.
  assert (2 ^ (8 * Z.of_nat (length l)) <= 2 ^ 96) by (apply Z.pow_le_mono_r; lia).
  rewrite Z.shiftl_mul_pow2, uint_small by lia.
  rewrite Z.lor_comm, lor_fields, from_bytes_app, Hw by (change (8 * Z.of_nat 4) with 32 in Rw; lia). 
  change (8 * Z.of_nat 4) with 32. lia.
Qed.

Lemma Ror32_8 x : Ror32 x 8 = Ok (Z.lor (Z.shiftr (uint 32 x) 8) (uint 32 (Z.shiftl x 24))).
Proof. reflexivity. Qed.

Lemma Ror32_RotWord w : length w = 4%nat -> Forall byte w -> Ror32 (from_bytes w) 8 = Ok (from_bytes (fips_RotWord w)).
Proof.
  intros Hw Bw. do 4 (destruct w as [|? w]; [discriminate|]). destruct w; [|discriminate].
  rewrite !Forall_cons_iff in Bw. destruct Bw as (?&?&?&?&_). unfold byte in *.
  rewrite Ror32_8. f_equal. unfold fips_RotWord. cbn [drop take app from_bytes]. change (2 ^ 8) with 256.
  set (x := z + 256 * (z0 + 256 * (z1 + 256 * (z2 + 256 * 0)))).
  rewrite (uint_small 32 x) by (unfold x; lia).
  assert (Z.shiftr x 8 = z0 + 256 * (z1 + 256 * z2)) as ->.
  { rewrite Z.shiftr_div_pow2 by lia. symmetry. apply Z.div_unique with z; unfold x; lia. }
  assert (uint 32 (Z.shiftl x 24) = z * 2 ^ 24) as ->.
  { rewrite Z.shiftl_mul_pow2 by lia. unfold uint, x.
    rewrite Z.mul_add_distr_r, (Z.mul_comm 256), <- (Z.mul_assoc _ 256). change (256 * 2 ^ 24) with (2 ^ 32).
    rewrite Z.mod_add, Z.mod_small by lia. reflexivity. }
  rewrite lor_fields by lia. lia.
Qed.

Lemma SubWord_bytes w : length w = 4%nat -> Forall byte w ->
  uint 32 (SubBytes w 4) = from_bytes (fips_SubBytes w) /\
  length (fips_SubBytes w) = 4%nat /\ Forall byte (fips_SubBytes w).
Proof.
  intros Hw Bw. assert (Forall byte (fips_SubBytes w)) as Hb.
  { apply Forall_fmap. eapply Forall_impl; [|exact Bw]. intros b H. now apply sbox_inverse. }
  assert (length (fips_SubBytes w) = 4%nat) as Hl by (unfold fips_SubBytes; now rewrite length_fmap).
  split; [|split; assumption]. unfold SubBytes.
  rewrite take_ge by (rewrite Hw; cbn; lia).
  rewrite (list_fmap_ext (table_at SubstitutionTable) sbox w).
  - apply uint_small. pose proof (from_bytes_range _ Hb) as H. rewrite Hl in H. exact H.
  - intros i b Hi. apply SubstitutionTable_sbox, (Forall_lookup_1 _ _ _ _ Bw Hi).
Qed.

Lemma word_at_bytes s i : is_state s -> (i + 4 <= 16)%nat -> length (word_at s i) = 4%nat /\ Forall byte (word_at s i).
Proof.
  intros [Hl Hb] Hi. unfold word_at. split; [rewrite length_take, length_drop; lia|].
  apply Forall_take, Forall_drop, Hb.
Qed.

Lemma lxor_words v w : length v = length w -> Forall byte v -> Forall byte w ->
  Z.lxor (from_bytes v) (from_bytes w) = from_bytes (zip_with Z.lxor v w).
Proof.
  intros Hl Hv Hw. rewrite <- (bytes_of_from_bytes v Hv) at 2. rewrite <- (bytes_of_from_bytes w Hw) at 2.
  rewrite Hl, <- bytes_of_lxor, from_bytes_bytes_of. symmetry.
  pose proof (from_bytes_range v Hv). pose proof (from_bytes_range w Hw). rewrite Hl in *.
  rewrite <- (uint_small _ _ H), <- (uint_small _ _ H0). zbits.
Qed.

Lemma is_state_keygen_word rcon w : 0 <= rcon < 256 -> length w = 4%nat -> Forall byte w ->
  let v := zip_with Z.lxor (fips_RotWord w) [rcon; 0; 0; 0] in
  length v = 4%nat /\ Forall byte v /\ Z.lxor (from_bytes (fips_RotWord w)) rcon = from_bytes v.
Proof.
  intros Hr Hw Bw. do 4 (destruct w as [|? w]; [discriminate|]). destruct w; [|discriminate].
  rewrite !Forall_cons_iff in Bw. destruct Bw as (?&?&?&?&_). cbv zeta. split; [reflexivity|].
  assert (Forall byte [rcon; 0; 0; 0]) by (repeat apply Forall_cons; try apply Forall_nil; unfold byte; lia).
  split; [unfold fips_RotWord; cbn [drop take app zip_with];
    repeat apply Forall_cons; try apply Forall_nil; apply byte_lxor; try assumption; apply byte_0|].
  rewrite <- lxor_words; [|reflexivity|unfold fips_RotWord; cbn [drop take app]; auto|assumption].
  f_equal. cbn [from_bytes]. lia.
Qed.

(** The words of [AESKEYGENASSIST]: [SubWord] of the second and of the fourth word, each also rotated and
    combined with the round constant. *)
Lemma Op_AESKeyGenAssist_fips rcon D s : 0 <= rcon < 256 ->
  exists d, Op_AESKeyGenAssist rcon D s = Ok d /\ bytes_of 16 d = fips_keygen rcon (bytes_of 16 s).
Proof.
  intros Hrcon. unfold Op_AESKeyGenAssist. rewrite bytes_of_get. unfold fips_keygen.
  destruct (word_at_bytes (bytes_of 16 s) 4 (bytes_of_state s) ltac:(lia)) as [L1 B1].
  destruct (word_at_bytes (bytes_of 16 s) 12 (bytes_of_state s) ltac:(lia)) as [L3 B3].
  destruct (SubWord_bytes _ L1 B1) as (E1 & LS1 & BS1). destruct (SubWord_bytes _ L3 B3) as (E3 & LS3 & BS3).
  unfold word_at in E1, E3. rewrite E1, E3. fold (word_at (bytes_of 16 s) 4) (word_at (bytes_of 16 s) 12).
  set (x1 := fips_SubBytes (word_at (bytes_of 16 s) 4)) in *.
  set (x3 := fips_SubBytes (word_at (bytes_of 16 s) 12)) in *. cbv zeta.
  rewrite !Ror32_RotWord by assumption. cbn [mbind outcome_bind].
  destruct (is_state_keygen_word rcon x1 Hrcon LS1 BS1) as (LR1 & BR1 & ->).
  destruct (is_state_keygen_word rcon x3 Hrcon LS3 BS3) as (LR3 & BR3 & ->).
  eexists. split; [reflexivity|].
  rewrite lor_word by (assumption || lia).
  rewrite lor_word by (rewrite ?Forall_app; auto; rewrite length_app; lia).
  rewrite lor_word by (rewrite ?Forall_app; auto; rewrite !length_app; lia).
  rewrite bytes_of_put. apply bytes_of_state_value. split; [rewrite !length_app; lia|].
  rewrite !Forall_app. auto.
Qed.

(** ** Guest sequences of rounds *)

Definition rounds (op : Z -> Z -> Z -> outcome Z) (ks : list Z) (s : outcome Z) : outcome Z :=
  fold_left (fun s k => s ← s; op 0 s k) ks s.
(** [PXOR], [AESENC] for each inner key, [AESENCLAST]. *)
Definition AES_encrypt (k0 : Z) (ks : list Z) (kn p : Z) : outcome Z :=
  s ← rounds Op_AESEnc ks (Ok (Z.lxor p k0)); Op_AESEncLast 0 s kn.
(** [PXOR], [AESDEC] with each inner key through [AESIMC] in reverse, [AESDECLAST]. *)
Definition AES_decrypt (k0 : Z) (ks : list Z) (kn c : Z) : outcome Z :=
  dks ← mapM (Op_AESImc 0) ks;
  s ← rounds Op_AESDec (reverse dks) (Ok (Z.lxor c kn)); Op_AESDecLast 0 s k0.

Lemma put_state s : is_state s -> put 128 (from_bytes s) 0 = from_bytes s.
Proof.
  intros [Hl Hb]. pose proof (from_bytes_range s Hb) as Hr. rewrite Hl in Hr.
  change (2 ^ (8 * Z.of_nat 16)) with (2 ^ 128) in Hr. unfold put. rewrite Z.div_0_l, uint_small by lia. lia.
Qed.
Lemma handler_of_0 f s k : is_state (f (bytes_of 16 s) (bytes_of 16 k)) ->
  handler_of f 0 s k = Ok (from_bytes (f (bytes_of 16 s) (bytes_of 16 k))).
Proof. intros H. unfold handler_of. now rewrite put_state. Qed.

Lemma rounds_fips op f ks s :
  (forall D s k, op D s k = handler_of f D s k) -> (forall s k, is_state s -> is_state k -> is_state (f s k)) ->
  is_state s ->
  is_state (fold_left f (bytes_of 16 <$> ks) s) /\
  rounds op ks (Ok (from_bytes s)) = Ok (from_bytes (fold_left f (bytes_of 16 <$> ks) s)).
Proof.
  intros Hop Hf. revert s. induction ks as [|k ks IH]; intros s Hs; [split; [exact Hs|reflexivity]|].
  pose proof (Hf s (bytes_of 16 k) Hs (bytes_of_state k)) as Hs'.
  unfold rounds. cbn. rewrite Hop, handler_of_0; rewrite bytes_of_state_value by exact Hs; [|exact Hs'].
  exact (IH _ Hs').
Qed.

(** The state inside a round, which the inverse round recovers. *)
Definition inner (s : list Z) : list Z := fips_ShiftRows (fips_SubBytes s).

Lemma is_state_inner s : is_state s -> is_state (inner s).
Proof. intros. unfold inner. auto with aes. Qed.
#[export] Hint Resolve is_state_inner : aes.

Lemma inv_round_inner s k : is_state s -> is_state k ->
  fips_inv_round (inner (fips_round s k)) (fips_InvMixColumns k) = inner s.
Proof.
  intros Hs Hk. unfold fips_inv_round, inner at 1.
  rewrite <- InvSubBytes_InvShiftRows, InvShiftRows_ShiftRows, InvSubBytes_SubBytes by auto with aes.
  unfold fips_round. fold (inner s).
  rewrite InvMixColumns_AddRoundKey, InvMixColumns_MixColumns by (unfold inner, fips_MixColumns; auto with aes).
  apply AddRoundKey_twice; unfold inner; auto with aes.
Qed.

Lemma inv_rounds s ks : is_state s -> Forall is_state ks ->
  fold_left fips_inv_round (reverse (fips_InvMixColumns <$> ks)) (inner (fold_left fips_round ks s)) = inner s.
Proof.
  intros Hs Hks. revert s Hs. induction Hks as [|k ks Hk Hks IH]; intros s Hs; [reflexivity|].
  cbn [fmap list_fmap fold_left]. rewrite reverse_cons, fold_left_app.
  rewrite (IH (fips_round s k) (is_state_round s k Hs Hk)).
  exact (inv_round_inner s k Hs Hk).
Qed.

Lemma Op_AESImc_0 k : Op_AESImc 0 k = Ok (from_bytes (fips_InvMixColumns (bytes_of 16 k))).
Proof.
  rewrite Op_AESImc_columns. f_equal. apply put_state. auto with aes.
Qed.

Lemma mapM_Ok {A B} (f : A -> outcome B) (g : A -> B) l : (forall a, f a = Ok (g a)) -> mapM f l = Ok (g <$> l).
Proof. intros H. induction l as [|a l IH]; [reflexivity|]. cbn. rewrite H. cbn. now rewrite IH. Qed.

Lemma AESImc_all ks :
  mapM (Op_AESImc 0) ks = Ok ((fun k => from_bytes (fips_InvMixColumns (bytes_of 16 k))) <$> ks).
Proof. exact (mapM_Ok _ _ ks Op_AESImc_0). Qed.

Lemma bytes_of_inverse_keys ks :
  bytes_of 16 <$> reverse ((fun k => from_bytes (fips_InvMixColumns (bytes_of 16 k))) <$> ks) =
  reverse (fips_InvMixColumns <$> (bytes_of 16 <$> ks)).
Proof.
  rewrite fmap_reverse, <- !list_fmap_compose. f_equal. apply list_fmap_ext. intros i k _. unfold compose.
  apply bytes_of_state_value. auto with aes.
Qed.

(** The last round of decryption, after the inner ones. *)
Lemma inv_last_round_inner s k : is_state s -> is_state k ->
  fips_inv_last_round (inner (AddRoundKey s k)) k = s.
Proof.
  intros Hs Hk. unfold fips_inv_last_round, inner.
  rewrite <- InvSubBytes_InvShiftRows, InvShiftRows_ShiftRows, InvSubBytes_SubBytes by auto with aes.
  apply AddRoundKey_twice; assumption.
Qed.

(** ** Theorems *)

(** C18: each AES handler stores in the low 128 bits of its destination, byte for byte, what FIPS-197
    prescribes for the bytes of its sources: [AESEnc] and [AESEncLast] a round and the last round of the
    cipher, [AESDec] and [AESDecLast] those of the equivalent inverse cipher, [AESImc] the inverse
    [MixColumns] of a round key. The field, the S-box (inverse in GF(2^8), then the affine map) and the
    products of columns are the standard's; the handlers use tables. *)
Theorem Op_AES_rounds_refine_fips (D s k : Z) :
  (exists d, Op_AESEnc D s k = Ok d /\ bytes_of 16 d = fips_round (bytes_of 16 s) (bytes_of 16 k)) /\
  (exists d, Op_AESEncLast D s k = Ok d /\ bytes_of 16 d = fips_last_round (bytes_of 16 s) (bytes_of 16 k)) /\
  (exists d, Op_AESDec D s k = Ok d /\ bytes_of 16 d = fips_inv_round (bytes_of 16 s) (bytes_of 16 k)) /\
  (exists d, Op_AESDecLast D s k = Ok d /\ bytes_of 16 d = fips_inv_last_round (bytes_of 16 s) (bytes_of 16 k)) /\
  (exists d, Op_AESImc D k = Ok d /\ bytes_of 16 d = fips_InvMixColumns (bytes_of 16 k)).
Proof.
  rewrite Op_AESEnc_round, Op_AESEncLast_round, Op_AESDec_round, Op_AESDecLast_round, Op_AESImc_columns.
  split; [|split; [|split; [|split]]]; [apply handler_of_bytes; auto with aes..|].
  eexists. split; [reflexivity|]. rewrite bytes_of_put. apply bytes_of_state_value.
  auto with aes.
Qed.

(** C19: decryption undoes encryption, for any number of rounds and any round keys: a block encrypted by the
    handlers as guest code does (exclusive or with the first key, [AESENC] for each inner key, [AESENCLAST])
    is recovered by [AESDEC] with the inner keys passed through [AESIMC] and taken in reverse, then
    [AESDECLAST]. No handler fails. *)
Theorem AES_decrypt_encrypt (k0 kn p : Z) (ks : list Z) :
  0 <= p < 2 ^ 128 -> 0 <= k0 < 2 ^ 128 -> 0 <= kn < 2 ^ 128 ->
  exists c, AES_encrypt k0 ks kn p = Ok c /\ AES_decrypt k0 ks kn c = Ok p.
Proof.
  intros Hp Hk0 Hkn.
  assert (forall x, 0 <= x < 2 ^ 128 -> from_bytes (bytes_of 16 x) = x) as Hval.
  { intros x Hx. rewrite from_bytes_bytes_of. now apply uint_small. }
  assert (forall x y, 0 <= x < 2 ^ 128 -> 0 <= y < 2 ^ 128 ->
    Z.lxor x y = from_bytes (AddRoundKey (bytes_of 16 x) (bytes_of 16 y))) as Hxor.
  { intros x y Hx Hy. rewrite <- from_bytes_AddRoundKey, Hval by auto with aes. f_equal. symmetry. now apply uint_small. }
  set (s0 := AddRoundKey (bytes_of 16 p) (bytes_of 16 k0)).
  assert (is_state s0) as Hs0 by (unfold s0; auto with aes).
  destruct (rounds_fips Op_AESEnc fips_round ks s0 Op_AESEnc_round) as [Hs1 E1];
    [auto with aes|exact Hs0|].
  set (s1 := fold_left fips_round (bytes_of 16 <$> ks) s0) in *.
  exists (from_bytes (fips_last_round s1 (bytes_of 16 kn))). split.
  - unfold AES_encrypt. rewrite Hxor by assumption. fold s0. rewrite E1. cbn [mbind outcome_bind].
    rewrite Op_AESEncLast_round, handler_of_0; rewrite bytes_of_state_value by exact Hs1; [reflexivity|].
    auto with aes.
  - unfold AES_decrypt. rewrite AESImc_all. cbn [mbind outcome_bind].
    assert (Z.lxor (from_bytes (fips_last_round s1 (bytes_of 16 kn))) kn = from_bytes (inner s1)) as ->.
    { rewrite <- (uint_small 128 kn) at 2 by exact Hkn. fold (get 128 kn).
      rewrite from_bytes_AddRoundKey by (auto with aes).
      f_equal. apply AddRoundKey_twice; auto with aes. }
    destruct (rounds_fips Op_AESDec fips_inv_round (reverse
      ((fun k => from_bytes (fips_InvMixColumns (bytes_of 16 k))) <$> ks)) (inner s1) Op_AESDec_round) as [Hs2 E2];
      [auto with aes..|].
    rewrite E2. cbn [mbind outcome_bind].
    rewrite Op_AESDecLast_round, handler_of_0; rewrite bytes_of_state_value by exact Hs2; [|auto with aes].
    rewrite bytes_of_inverse_keys. unfold s1.
    rewrite inv_rounds by (rewrite ?Forall_fmap; try apply Forall_true; unfold compose; auto with aes).
    unfold s0. rewrite inv_last_round_inner by auto with aes. f_equal. apply Hval, Hp.
Qed.
