(* ===== verification/ChecksumTheorems.v ===== *)
(** * The checksum and the carry-less product

    The table-driven CRC-32C against the register fed one bit at a time; the two
    loops of [PCLMUL] against the product of polynomials over GF(2). *)
From Stdlib Require Import ZArith Lia Bool Btauto.
From stdpp Require Import base list numbers option.
From S2P Require Import Prelude Encryption EncryptionLogic EncryptionTheorems.
#[local] Open Scope Z_scope.

(** ** CRC-32C *)

Lemma crc_step_xor c : crc_step c = Z.lxor (Z.shiftr c 1) (if Z.testbit c 0 then PolynomialRev else 0).
Proof.
  unfold crc_step. change 1 with (Z.ones 1) at 1. rewrite Z.land_ones by lia. change (2 ^ 1) with 2.
  rewrite <- Z.bit0_mod. destruct (Z.testbit c 0); cbn [Z.b2z Z.eqb]; [reflexivity|now rewrite Z.lxor_0_r].
Qed.

Lemma crc_step_lxor a b : crc_step (Z.lxor a b) = Z.lxor (crc_step a) (crc_step b).
Proof.
  rewrite !crc_step_xor, Z.lxor_spec. apply Z.bits_inj'. intros i Hi. autorewrite with zbits.
  destruct (Z.testbit a 0), (Z.testbit b 0); cbn [xorb]; rewrite ?Z.bits_0; btauto.
Qed.

Lemma crc_steps_lxor n a b : crc_steps n (Z.lxor a b) = Z.lxor (crc_steps n a) (crc_steps n b).
Proof. revert a b. induction n as [|n IH]; intros a b; cbn [crc_steps]; [reflexivity|]. now rewrite crc_step_lxor, IH. Qed.

Lemma crc_steps_shiftl n a : crc_steps n (Z.shiftl a (Z.of_nat n)) = a.
Proof.
  revert a. induction n as [|n IH]; intros a; cbn [crc_steps]; [apply Z.shiftl_0_r|].
  rewrite crc_step_xor, Z.shiftl_spec_low, Z.lxor_0_r, Z.shiftr_shiftl_l by lia.
  replace (Z.of_nat (S n) - 1) with (Z.of_nat n) by lia. apply IH.
Qed.

Lemma crc_bit_step c b : crc_bit c b = crc_step (Z.lxor c (Z.b2z b)).
Proof.
  rewrite crc_step_xor. unfold crc_bit. rewrite Z.lxor_spec, testbit_b2z. cbn [Z.eqb andb].
  rewrite Z.shiftr_lxor. replace (Z.shiftr (Z.b2z b) 1) with 0 by (now destruct b). rewrite Z.lxor_0_r.
  change PolynomialRev with 0x82F63B78. destruct (xorb _ _); [reflexivity|now rewrite Z.lxor_0_r].
Qed.

Lemma message_bits_S n d : message_bits (S n) d = Z.testbit d 0 :: message_bits n (Z.shiftr d 1).
Proof.
  unfold message_bits. cbn [seq fmap list_fmap]. f_equal. rewrite <- seq_shift, <- list_fmap_compose.
  apply list_fmap_ext. intros i j _. unfold compose. rewrite Z.shiftr_spec by lia. f_equal. lia.
Qed.

Lemma message_bits_app n m d : message_bits (n + m) d = message_bits n d ++ message_bits m (Z.shiftr d (Z.of_nat n)).
Proof.
  revert d. induction n as [|n IH]; intros d; [now rewrite Z.shiftr_0_r|].
  cbn [Nat.add]. rewrite !message_bits_S, IH, Z.shiftr_shiftr by lia. cbn [app].
  do 3 f_equal. f_equal. lia.
Qed.

Lemma message_bits_uint n w d : (Z.of_nat n <= w) -> message_bits n (uint w d) = message_bits n d.
Proof.
  intros Hw. unfold message_bits. apply list_fmap_ext. intros j i Hi. apply lookup_seq in Hi as [-> Hi].
  rewrite testbit_uint by lia. destruct (Z.ltb_spec (Z.of_nat (0 + j)) w); [reflexivity|lia].
Qed.

Lemma crc32c_serial_app n m c d :
  crc32c_serial (n + m) c d = crc32c_serial m (crc32c_serial n c d) (Z.shiftr d (Z.of_nat n)).
Proof. unfold crc32c_serial. now rewrite message_bits_app, fold_left_app. Qed.

Lemma crc32c_serial_uint n w c d : Z.of_nat n <= w -> crc32c_serial n c (uint w d) = crc32c_serial n c d.
Proof. intros Hw. unfold crc32c_serial. now rewrite message_bits_uint. Qed.

Lemma uint_low_bit n d :
  uint (Z.of_nat (S n)) d = Z.lxor (Z.b2z (Z.testbit d 0)) (Z.shiftl (uint (Z.of_nat n) (Z.shiftr d 1)) (Z.of_nat 1)).
Proof.
  apply Z.bits_inj'. intros i Hi. rewrite Z.lxor_spec, testbit_b2z, Z.shiftl_spec, !testbit_uint by lia.
  destruct (Z.eqb_spec i 0) as [->|].
  - rewrite (Z.testbit_neg_r _ (0 - _)) by lia. destruct (Z.ltb_spec 0 (Z.of_nat (S n))); [|lia].
    rewrite andb_false_r. now destruct (Z.testbit d 0).
  - rewrite Z.shiftr_spec by lia. replace (i - Z.of_nat 1 + 1) with i by lia. cbn [andb xorb].
    destruct (Z.ltb_spec i (Z.of_nat (S n))), (Z.ltb_spec (i - Z.of_nat 1) (Z.of_nat n)); try lia; now destruct (Z.testbit d i).
Qed.

(** Feeding bits is running the table's loop on the register and the data. *)
Lemma crc32c_serial_steps n c d : crc32c_serial n c d = crc_steps n (Z.lxor c (uint (Z.of_nat n) d)).
Proof.
  revert c d. induction n as [|n IH]; intros c d.
  - unfold crc32c_serial, uint. cbn. rewrite Z.mod_1_r. now rewrite Z.lxor_0_r.
  - unfold crc32c_serial. rewrite message_bits_S. cbn [fold_left]. fold (crc32c_serial n (crc_bit c (Z.testbit d 0)) (Z.shiftr d 1)).
    rewrite IH, crc_bit_step. cbn [crc_steps]. f_equal.
    rewrite uint_low_bit.
    rewrite <- Z.lxor_assoc, (crc_step_lxor (Z.lxor c _)). f_equal. symmetry. exact (crc_steps_shiftl 1 _).
Qed.

Lemma CRC32CTable_steps i : byte i -> table_at CRC32CTable i = crc_steps 8 i.
Proof.
  unfold byte. intros Hi. unfold table_at, CRC32CTable.
  rewrite (nth_indep _ 0 (crc_steps 8 (Z.of_nat 0))) by (rewrite length_fmap, length_seq; lia).
  rewrite (map_nth (fun i => crc_steps 8 (Z.of_nat i))), seq_nth by lia. f_equal. lia.
Qed.

Lemma crc_byte_serial c d : byte d -> crc_byte c d = crc32c_serial 8 c d.
Proof.
  intros Hd. rewrite crc32c_serial_steps, uint_small by exact Hd. unfold crc_byte.
  rewrite CRC32CTable_steps by (apply byte_lxor; [apply (uint_range 8); lia|exact Hd]).
  assert (Z.lxor c d = Z.lxor (Z.lxor (uint 8 c) d) (Z.shiftl (Z.shiftr c 8) (Z.of_nat 8))) as E.
  { unfold byte in Hd. rewrite <- (uint_small 8 d) by exact Hd. change (Z.of_nat 8) with 8. zbits. }
  rewrite E, (crc_steps_lxor 8 (Z.lxor (uint 8 c) d)), crc_steps_shiftl. reflexivity.
Qed.

Lemma crc_data_byte c d k : 0 <= k -> crc_byte c (data_byte d k) = crc32c_serial 8 c (Z.shiftr d k).
Proof.
  intros Hk. unfold data_byte. change 0xFF with (Z.ones 8). rewrite land_ones_uint by lia.
  rewrite crc_byte_serial by (apply (uint_range 8); lia). now rewrite crc32c_serial_uint by lia.
Qed.

(** A register that has taken [n] bits takes the byte at [n]. *)
Lemma crc_next_byte n k c d : k = Z.of_nat n -> crc_byte (crc32c_serial n c d) (data_byte d k) = crc32c_serial (n + 8) c d.
Proof. intros ->. rewrite crc_data_byte by lia. symmetry. apply crc32c_serial_app. Qed.
Lemma crc_first_byte c d : crc_byte c (data_byte d 0) = crc32c_serial 8 c d.
Proof. exact (crc_next_byte 0 0 c d eq_refl). Qed.

Lemma crc32ch_serial c d : crc32ch c d = crc32c_serial 16 c d.
Proof. unfold crc32ch. now rewrite crc_first_byte, (crc_next_byte 8 8). Qed.
Lemma crc32cw_serial c d : crc32cw c d = crc32c_serial 32 c d.
Proof. unfold crc32cw. now rewrite crc_first_byte, (crc_next_byte 8 8), (crc_next_byte 16 16), (crc_next_byte 24 24). Qed.
Lemma crc32cx_serial c d : crc32cx c d = crc32c_serial 64 c d.
Proof.
  unfold crc32cx. now rewrite crc_first_byte, (crc_next_byte 8 8), (crc_next_byte 16 16), (crc_next_byte 24 24),
    (crc_next_byte 32 32), (crc_next_byte 40 40), (crc_next_byte 48 48), (crc_next_byte 56 56).
Qed.

(** ** The carry-less product *)

Lemma clmul_S n a b : clmul (S n) a b = Z.lxor (if Z.odd a then b else 0) (Z.shiftl (clmul n (Z.shiftr a 1) b) 1).
Proof. cbn [clmul]. now rewrite Z.div2_spec, Z.shiftl_mul_pow2, Z.mul_comm by lia. Qed.

Lemma clmul_0_r n a : clmul n a 0 = 0.
Proof. revert a. induction n as [|n IH]; intros a; [reflexivity|]. rewrite clmul_S, IH. now destruct (Z.odd a). Qed.

Lemma land_bit lhs i : 0 <= i -> (Z.land lhs (Z.shiftl 1 i) =? 0) = negb (Z.odd (Z.shiftr lhs i)).
Proof.
  intros Hi. rewrite <- Z.bit0_odd, Z.shiftr_spec, Z.add_0_l by lia.
  assert (Z.land lhs (Z.shiftl 1 i) = if Z.testbit lhs i then 2 ^ i else 0) as ->.
  { rewrite Z.shiftl_1_l. apply Z.bits_inj'. intros j Hj. rewrite Z.land_spec, Z.pow2_bits_eqb by lia.
    destruct (Z.eqb_spec i j) as [->|].
    - rewrite andb_true_r. destruct (Z.testbit lhs j); [rewrite Z.pow2_bits_true by lia; reflexivity|now rewrite Z.bits_0].
    - rewrite andb_false_r. destruct (Z.testbit lhs i); [rewrite Z.pow2_bits_false by lia; reflexivity|now rewrite Z.bits_0]. }
  pose proof (pow2_pos i Hi). destruct (Z.testbit lhs i); cbn [negb]; lia.
Qed.

Lemma uint_lxor x y : uint 64 (Z.lxor x y) = Z.lxor (uint 64 x) (uint 64 y).
Proof. zbits. Qed.

Lemma make_lo_spec n lhs rhs r i : 0 <= i ->
  make_lo lhs rhs r i n = Z.lxor r (uint 64 (Z.shiftl (clmul n (Z.shiftr lhs i) rhs) i)).
Proof.
  revert r i. induction n as [|n IH]; intros r i Hi.
  - cbn [make_lo clmul]. rewrite Z.shiftl_0_l. now rewrite Z.lxor_0_r.
  - cbn [make_lo]. rewrite IH, clmul_S, land_bit, Z.shiftr_shiftr, Z.shiftl_lxor, Z.shiftl_shiftl, (Z.add_comm 1 i), uint_lxor by lia.
    destruct (Z.odd (Z.shiftr lhs i)); cbn [negb]; rewrite ?Z.shiftl_0_l; lxor_solve.
Qed.

Lemma make_hi_spec n lhs rhs r i : 0 <= i -> i + Z.of_nat n <= 64 ->
  make_hi lhs rhs r i n = Z.lxor r (Z.shiftr (Z.shiftl (clmul n (Z.shiftr lhs i) rhs) i) 64).
Proof.
  revert r i. induction n as [|n IH]; intros r i Hi Hn.
  - cbn [make_hi clmul]. rewrite Z.shiftl_0_l, Z.shiftr_0_l. now rewrite Z.lxor_0_r.
  - cbn [make_hi].
    rewrite IH, clmul_S, land_bit, Z.shiftr_shiftr, Z.shiftl_lxor, Z.shiftl_shiftl, (Z.add_comm 1 i), Z.shiftr_lxor by lia.
    destruct (Z.odd (Z.shiftr lhs i)); cbn [negb]; rewrite ?Z.shiftl_0_l, ?Z.shiftr_0_l; [|lxor_solve].
    rewrite (Z.shiftr_shiftl_r rhs) by lia. lxor_solve.
Qed.

Lemma clmul_range n a b : 0 <= b < 2 ^ 64 -> 0 <= clmul n a b < 2 ^ (64 + Z.of_nat n).
Proof.
  intros Hb. revert a. induction n as [|n IH]; intros a; [cbn; lia|]. rewrite clmul_S.
  specialize (IH (Z.shiftr a 1)). rewrite Z.shiftl_mul_pow2 by lia.
  replace (64 + Z.of_nat (S n)) with (64 + Z.of_nat n + 1) by lia. rewrite Z.pow_add_r by lia.
  assert (2 ^ 64 <= 2 ^ (64 + Z.of_nat n)) by (apply Z.pow_le_mono_r; lia).
  pose proof (pow2_pos (64 + Z.of_nat n + 1) ltac:(lia)) as Hp. rewrite Z.pow_add_r in Hp by lia.
  rewrite <- Z.pow_add_r in * by lia. apply lxor_range; [lia| |].
  - rewrite Z.pow_add_r by lia. destruct (Z.odd a); lia.
  - rewrite Z.pow_add_r by lia. lia.
Qed.

(** The two words the loops write, as one product. *)
Lemma product_words a b : 0 <= a < 2 ^ 64 -> 0 <= b < 2 ^ 64 ->
  make_lo a b 0 0 64 + 2 ^ 64 * make_hi a b 0 1 63 = clmul 64 a b.
Proof.
  intros Ha Hb. rewrite make_lo_spec, make_hi_spec, Z.shiftr_0_r, Z.shiftl_0_r, !Z.lxor_0_l by lia.
  assert (Z.shiftr (Z.shiftl (clmul 63 (Z.shiftr a 1) b) 1) 64 = Z.shiftr (clmul 64 a b) 64) as ->.
  { change 64%nat with (S 63). rewrite (clmul_S 63), Z.shiftr_lxor. destruct (Z.odd a); [|rewrite Z.shiftr_0_l; now rewrite Z.lxor_0_l].
    rewrite (Z.shiftr_div_pow2 b), Z.div_small, Z.lxor_0_l by lia. reflexivity. }
  rewrite Z.shiftr_div_pow2 by lia. unfold uint. pose proof (Z.div_mod (clmul 64 a b) (2 ^ 64)). lia.
Qed.

(** The order of the operands. *)
Lemma clmul_lxor_r n a b c : clmul n a (Z.lxor b c) = Z.lxor (clmul n a b) (clmul n a c).
Proof.
  revert a. induction n as [|n IH]; intros a; [reflexivity|]. rewrite !clmul_S, IH, Z.shiftl_lxor.
  destruct (Z.odd a); lxor_solve.
Qed.
Lemma clmul_shiftl_r n a b : clmul n a (Z.shiftl b 1) = Z.shiftl (clmul n a b) 1.
Proof.
  revert a. induction n as [|n IH]; intros a; [reflexivity|]. rewrite !clmul_S, IH, Z.shiftl_lxor.
  destruct (Z.odd a); reflexivity.
Qed.
Lemma low_bit_split a : Z.lxor (if Z.odd a then 1 else 0) (Z.shiftl (Z.shiftr a 1) 1) = a.
Proof.
  apply Z.bits_inj'. intros i Hi. rewrite Z.lxor_spec, Z.shiftl_spec by lia. rewrite <- Z.bit0_odd.
  destruct (Z.eqb_spec i 0) as [->|].
  - rewrite (Z.testbit_neg_r _ (0 - 1)) by lia. now destruct (Z.testbit a 0).
  - rewrite Z.shiftr_spec by lia. replace (i - 1 + 1) with i by lia.
    replace (Z.testbit (if Z.testbit a 0 then 1 else 0) i) with false; [now destruct (Z.testbit a i)|].
    destruct (Z.testbit a 0); [|now rewrite Z.bits_0]. change 1 with (Z.b2z true). rewrite testbit_b2z.
    destruct (Z.eqb_spec i 0); [lia|reflexivity].
Qed.
Lemma shiftr_1_range n b : 0 <= b < 2 ^ Z.of_nat (S n) -> 0 <= Z.shiftr b 1 < 2 ^ Z.of_nat n.
Proof.
  intros Hb. rewrite Z.shiftr_div_pow2 by lia. replace (Z.of_nat n) with (Z.of_nat (S n) - 1) by lia.
  apply div_pow2_range_sub; [lia|exact Hb].
Qed.
Lemma clmul_1_r n b : 0 <= b < 2 ^ Z.of_nat n -> clmul n b 1 = b.
Proof.
  revert b. induction n as [|n IH]; intros b Hb; [cbn in *; lia|]. rewrite clmul_S, IH; [apply low_bit_split|].
  now apply shiftr_1_range.
Qed.
Lemma clmul_comm n m a b : 0 <= a < 2 ^ Z.of_nat n -> 0 <= b < 2 ^ Z.of_nat m -> clmul n a b = clmul m b a.
Proof.
  revert a. induction n as [|n IH]; intros a Ha Hb.
  - replace a with 0 by (cbn in *; lia). now rewrite clmul_0_r.
  - rewrite clmul_S, IH, <- clmul_shiftl_r; [|now apply shiftr_1_range|exact Hb].
    rewrite <- (low_bit_split a) at 3. rewrite clmul_lxor_r. f_equal.
    destruct (Z.odd a); [now rewrite clmul_1_r|now rewrite clmul_0_r].
Qed.

Lemma put_put_wide v w x y c : 0 <= v <= w -> put w x (put v y c) = put w x c.
Proof.
  intros Hv. unfold put. do 2 f_equal. pose proof (pow2_pos v ltac:(lia)). pose proof (pow2_pos (w - v) ltac:(lia)).
  replace (2 ^ w) with (2 ^ v * 2 ^ (w - v)) by (rewrite <- Z.pow_add_r by lia; f_equal; lia).
  rewrite <- !Z.div_div by lia. rewrite (Z.mul_comm (2 ^ v)), Z.div_add by lia.
  pose proof (uint_range v y ltac:(lia)). rewrite (Z.div_small (uint v y)) by lia. reflexivity.
Qed.

(** ** Theorems *)

(** C20: [CRC32] of 1, 2, 4 or 8 bytes leaves in the low 32 bits of the destination the register of the
    bit-serial CRC-32C (polynomial 0x1EDC6F41) after it has taken the bits of the data from the lowest on, and
    the eight bytes at once give what two operations on the halves give in sequence; any other size is
    rejected. *)
Theorem Op_CRC32_serial (SrcSize D c d : Z) :
  Op_CRC32 SrcSize D c d =
    (if bool_decide (SrcSize ∈ [1; 2; 4; 8])
     then Ok (put 32 (crc32c_serial (Z.to_nat (8 * SrcSize)) (get 32 c) d) D) else Assert) /\
  crc32cx (get 32 c) (get 64 d) = crc32cw (crc32cw (get 32 c) (get 32 d)) (get 32 (Z.shiftr d 32)).
Proof.
  split.
  - unfold Op_CRC32. case_bool_decide as H.
    + rewrite !elem_of_cons, elem_of_nil in H. destruct H as [->|[->|[->|[->|[]]]]]; cbn [Z.eqb Pos.eqb];
        rewrite ?crc32ch_serial, ?crc32cw_serial, ?crc32cx_serial; unfold crc32cb;
        rewrite ?crc_byte_serial by (apply (uint_range 8); lia);
        unfold get at 2; rewrite crc32c_serial_uint by lia; reflexivity.
    + rewrite !elem_of_cons, elem_of_nil in H.
      destruct (Z.eqb_spec SrcSize 1), (Z.eqb_spec SrcSize 2), (Z.eqb_spec SrcSize 4), (Z.eqb_spec SrcSize 8); tauto.
  - rewrite crc32cx_serial, !crc32cw_serial. unfold get at 2 4 5. rewrite !crc32c_serial_uint by lia.
    exact (crc32c_serial_app 32 32 _ _).
Qed.

(** [PCLMUL] stores in the low 128 bits of the destination the whole product, as polynomials over GF(2), of
    the halves of the sources that bits 0 and 4 of the selector name: the loops that compute its two words drop
    no coefficient. The order of the operands does not matter. *)
Theorem Op_PCLMUL_product (Selector D s1 s2 : Z) :
  let half (bit x : Z) := get 64 (if Z.testbit Selector bit then Z.shiftr x 64 else x) in
  Op_PCLMUL Selector D s1 s2 = Ok (put 128 (clmul 64 (half 0 s1) (half 4 s2)) D) /\
  0 <= clmul 64 (half 0 s1) (half 4 s2) < 2 ^ 128 /\
  clmul 64 (half 0 s1) (half 4 s2) = clmul 64 (half 4 s2) (half 0 s1).
Proof.
  cbv zeta. set (a := get 64 (if Z.testbit Selector 0 then Z.shiftr s1 64 else s1)).
  set (b := get 64 (if Z.testbit Selector 4 then Z.shiftr s2 64 else s2)).
  assert (0 <= a < 2 ^ 64) as Ha by (apply (uint_range 64); lia).
  assert (0 <= b < 2 ^ 64) as Hb by (apply (uint_range 64); lia).
  split; [|split; [exact (clmul_range 64 a b Hb)|now apply (clmul_comm 64 64)]].
  unfold Op_PCLMUL.
  assert ((if Z.land Selector 0x01 =? 0 then get 64 s1 else get 64 (Z.shiftr s1 64)) = a) as ->.
  { change 0x01 with (Z.shiftl 1 0). rewrite land_bit, <- Z.bit0_odd, Z.shiftr_spec by lia. change (0 + 0) with 0.
    unfold a. now destruct (Z.testbit Selector 0). }
  assert ((if Z.land Selector 0x10 =? 0 then get 64 s2 else get 64 (Z.shiftr s2 64)) = b) as ->.
  { change 0x10 with (Z.shiftl 1 4). rewrite land_bit, <- Z.bit0_odd, Z.shiftr_spec by lia. change (0 + 4) with 4.
    unfold b. now destruct (Z.testbit Selector 4). }
  cbv zeta. rewrite get_put_same, put_put_wide, <- product_words by lia.
  rewrite make_lo_spec, Z.lxor_0_l, uint_idemp by lia. reflexivity.
Qed.

(** * Known answers

    The vectors of FIPS-197 (appendices B and C.1), with the round keys that guest
    code derives through [AESKEYGENASSIST], and the check value of CRC-32C. *)
(** A round key from the previous one, as compilers and libraries emit it: the highest word of
    [AESKEYGENASSIST] is broadcast ([PSHUFD]) and combined with the prefix sums of the words. *)
Definition next_key (rcon k : Z) : outcome Z :=
  t ← Op_AESKeyGenAssist rcon 0 k;
  let w := Z.shiftr t 96 in
  let sums := fold_left Z.lxor [uint 128 (Z.shiftl k 32); uint 128 (Z.shiftl k 64); uint 128 (Z.shiftl k 96)] k in
  Ok (Z.lxor sums (w * (1 + 2 ^ 32 + 2 ^ 64 + 2 ^ 96))).
Fixpoint round_keys (rcons : list Z) (k : Z) : outcome (list Z) :=
  match rcons with
  | [] => Ok []
  | r :: rcons => k' ← next_key r k; ks ← round_keys rcons k'; Ok (k' :: ks)
  end.
Definition rcons : list Z := [1; 2; 4; 8; 0x10; 0x20; 0x40; 0x80; 0x1b; 0x36].
Definition schedule (k : Z) : list Z := match round_keys rcons k with Ok ks => ks | _ => [] end.

Definition c1_key : Z := from_bytes [0; 1; 2; 3; 4; 5; 6; 7; 8; 9; 10; 11; 12; 13; 14; 15].
Definition c1_plain : Z :=
  from_bytes [0; 0x11; 0x22; 0x33; 0x44; 0x55; 0x66; 0x77; 0x88; 0x99; 0xaa; 0xbb; 0xcc; 0xdd; 0xee; 0xff].
Definition c1_cipher : Z :=
  from_bytes [0x69; 0xc4; 0xe0; 0xd8; 0x6a; 0x7b; 0x04; 0x30; 0xd8; 0xcd; 0xb7; 0x80; 0x70; 0xb4; 0xc5; 0x5a].
Definition inner_keys (k : Z) : list Z := take 9 (schedule k).
Definition last_key (k : Z) : Z := List.last (schedule k) 0.

(** Appendix A.1: the last round key of the example key. *)
Example schedule_fips : last_key (from_bytes
  [0x2b; 0x7e; 0x15; 0x16; 0x28; 0xae; 0xd2; 0xa6; 0xab; 0xf7; 0x15; 0x88; 0x09; 0xcf; 0x4f; 0x3c]) =
  from_bytes [0xd0; 0x14; 0xf9; 0xa8; 0xc9; 0xee; 0x25; 0x89; 0xe1; 0x3f; 0x0c; 0xc8; 0xb6; 0x63; 0x0c; 0xa6].
Proof. vm_compute. reflexivity. Qed.

(** Appendix C.1. *)
Example encrypt_fips : AES_encrypt c1_key (inner_keys c1_key) (last_key c1_key) c1_plain = Ok c1_cipher.
Proof. vm_compute. reflexivity. Qed.

Lemma AES_decrypt_encrypt_witness :
  (0 <= c1_plain < 2 ^ 128 /\ 0 <= c1_key < 2 ^ 128 /\ 0 <= last_key c1_key < 2 ^ 128) /\
  exists c, AES_encrypt c1_key (inner_keys c1_key) (last_key c1_key) c1_plain = Ok c /\
            AES_decrypt c1_key (inner_keys c1_key) (last_key c1_key) c = Ok c1_plain.
Proof.
  assert (0 <= c1_plain < 2 ^ 128 /\ 0 <= c1_key < 2 ^ 128 /\ 0 <= last_key c1_key < 2 ^ 128) as H
    by (vm_compute; repeat split; congruence).
  split; [exact H|]. destruct H as (H1 & H2 & H3).
  exact (AES_decrypt_encrypt c1_key (last_key c1_key) c1_plain (inner_keys c1_key) H1 H2 H3).
Defined.

(** CRC-32C of the ASCII digits 1 to 9 is 0xE3069283: eight bytes and one, from the inverted register. *)
Example crc32c_check :
  Z.lxor (crc32cb (crc32cx 0xFFFFFFFF 0x3837363534333231) 0x39) 0xFFFFFFFF = 0xE3069283.
Proof. vm_compute. reflexivity. Qed.

(** The carry-less square of [x + 1] at the top bit. *)
Example pclmul_top : Op_PCLMUL 0 0 (2 ^ 63 + 1) (2 ^ 63 + 1) = Ok (2 ^ 126 + 1).
Proof. vm_compute. reflexivity. Qed.
